(* ===== verification/_CoqProject ===== *)
-Q . S2P
Prelude.v
RingBuffer.v
CStdlib.v
Gpio.v
Inet.v
Termios.v
Board.v
Serial.v
SerialTx.v
SerialRx.v
SerialSpec.v
EnvCrc.v
FlashChip.v
Env.v
EnvRefine.v
EnvFlash.v
EnvFlashSpec.v
FlashDev.v
FlashSpec.v
FlashImage.v
Heap.v
HeapRefine.v
Malloc.v
MallocClient.v
Kernel.v
SimKernel.v
LibcTty.v
SercdState.v
UnixPort.v
UnixLock.v
Telnet.v
TelnetSafe.v
TelnetSpec.v
TelnetCommands.v
PortControl.v
SercdMain.v
MainInv.v
MainSafe.v
MainLimits.v
Mii.v
MiiSpec.v
Eth.v
EthDev.v
EthChip.v
EthRing.v
EthOps.v
EthRun.v
EthFilter.v
EthOpen.v
EthSpec.v
EthLife.v
EthMain.v
CfiChip.v
Mtd.v
Cfi.v
CfiSpec.v
CfiErase.v
ResetButton.v
ButtonSpec.v
MtdSpec.v
CfiMtd.v
CfiSetup.v
Sc2510.v
ConfigReset.v
ResetMain.v
MtdBlock.v
MtdBlockSpec.v
BlockMain.v
MtdChar.v
CharMain.v
