(* ===== verification/Prelude.v ===== *)
(** * Verification of the CNU-680pro firmware

    The CNU-680pro is a board with a Samsung S3C2510 (32-bit ARM, no MMU) that
    runs uClinux.  Its own programs are under src/apps: [sercd], a serial port
    redirector that speaks Telnet with the COM port control option of RFC 2217,
    and [gpio], a tool for the pins of the chip.  They run on uClibc
    (src/uClibc) and on the uClinux kernel with the drivers of the board
    (src/linux2510).  This library models the two programs completely, the parts
    of uClibc they rely on, its malloc, and the drivers of the board: the pins,
    the serial ports, the Ethernet controller with the library for its
    transceiver, the environment in the flash, the installation of an image, the
    partitions of the flash (MTD) with the driver of its chip and the devices for
    file systems and programs, the timer interrupt with the button that resets the
    settings, and the set-up of clock and addresses; the rest of the kernel is a
    parameter.

    ** How the code is modelled

    Integers of the machine are [Z] with every wrap-around written out ([u8],
    [u16], [u32], [s32]); bytes and C strings are lists of [Z].  A C function
    with effects is a computation [M S A] on an explicit state [S]: it returns,
    or it stops the program ([stop]: a failed assertion, an access outside an
    array, through a null pointer or to freed memory, a division by zero, [exit],
    or the end of the fuel of a loop).
    Undefined behaviour is never given a value.  [wp m Q E s] says that [m] run
    in [s] returns with [Q] or stops in a way [E] allows; a theorem that does not
    mention a stop proves that there is none.

    Prelude.v: integers, strings, the monad, its lemmas, tactics and hints.

    ** sercd

    Network bytes go through the Telnet parser into the queue [ToDevBuf] of the
    device; device bytes are escaped into the queue [ToNetBuf] of the client;
    commands found by the parser change the port and queue answers.

    RingBuffer.v: the circular queues (sercd.c, InitBuffer to BufferPopBytes);
    the class [ByteFifo] is what a queue promises.  Theorems: the buffer is a FIFO
    queue over any history of additions and partial writes, two full flushes
    drain it, and the effect of popping the result of a failed write.

    SercdState.v: the variables of the program as the record [St] (options,
    Telnet variables, connections, platform variables, the buffers of main, the
    process with its kernel), access to them and LogMsg.

    Telnet.v: the Telnet engine (sercd.c: EscWriteChar, EscRedirectChar, the Send
    functions, HandleIACCommand, HandleCPCCommand); each case of the long
    switches is a definition.  TelnetSafe.v: what each message may queue
    ([Bounded]) and that one received byte is safe with the room the main loop
    reserves.  TelnetSpec.v: the exact bytes of the messages, and that the parser
    inverts the escaping.  TelnetCommands.v: whole commands byte by byte, and
    option negotiation as a refinement of an abstract machine.  PortControl.v:
    port requests end to end, from the bytes of the client to the settings of the
    terminal and the bytes of the answer.

    UnixPort.v: the port functions of unix.c; setters and getters refine an
    abstract serial port with its settings and modem lines ([port], [apply_port],
    [answer]).  UnixLock.v: HDB lock files, opening and closing the port, exit;
    locking refines its contract ([lock_spec]), excludes other processes that
    exist, also those of other users, and is undone by unlocking.

    SercdMain.v: waiting for events, the main loop, the command line and main.
    MainInv.v: the three states of the connections are an invariant of each turn
    of the loop for every behaviour of the kernel, and no run follows a null
    pointer.  MainSafe.v: one pass over the events in which the modem state comes
    alone fails no assertion and leaves no array.  MainLimits.v: that the assumptions of that theorem are needed, the
    clock of the modem state poll, and what a new session inherits.

    ** The kernel

    Kernel.v: the class [Kernel] has one operation per system call of sercd;
    [TtyKernel], [FileKernel] and [IoKernel] state the documented behaviour of
    terminals, of files and processes, and of transfers.  Theorems name the
    classes they need.  SimKernel.v: a concrete machine that satisfies all of
    them, on which the witnesses run.

    ** uClibc

    Termios.v and LibcTty.v: the terminal functions (libc/termios); speeds and
    raw mode, and the translation between the structures of the library and of
    the kernel.  CStdlib.v: strtol, strtoul and atoi with their overflow
    behaviour.  Inet.v: IPv4 addresses as text and by class.

    Heap.v and HeapRefine.v: the heap of malloc (libc/stdlib/malloc: heap.h,
    heap_alloc.c, heap_alloc_at.c, heap_free.c).  The free list lives in a memory
    of words as in the code ([dseg]); allocation and freeing refine operations on
    a sorted list of intervals, keep it coalesced, and touch no other memory.
    Malloc.v: malloc, free, realloc and memalign over it (malloc.c, free.c,
    realloc.c, memalign.c, malloc.h), as configured for the board: memory comes
    from mmap, and a list records the mapped blocks.  What mmap returns is an
    input of the state [MState].  MallocClient.v: a client as a step relation
    ([mstep]: malloc, free, realloc and writes to its blocks); from a heap below
    the threshold for unmapping that the system does not extend, its blocks stay
    disjoint, no byte is lost, every call returns, and realloc keeps the
    contents; and how the list of mapped blocks loses a record.

    ** The pins

    Gpio.v: the tool src/apps/gpio/gpio.c and the driver
    drivers/char/gigabyte_gpio.c on the registers they share: the tool changes
    the pin asked for and no other; the driver refines a machine of two lamps and
    a watchdog countdown, which says of every pin what it is.

    ** The serial driver

    Serial.v: drivers/char/serial_s3c2510.c, one port with its terminal structure: the
    state [Ser] has the structure of the port, the registers, the transmit
    buffer, the terminal with its flip buffer, and what went over the wire.  The
    status and data registers are the hardware's (class [Uart], without laws: the
    theorems hold for every UART).  Interrupts come in where the driver has them
    enabled, in any order ([sched]); sleeps bring further ones ([naps]).
    SerialTx.v: the transmit buffer as a queue, the transmitter interrupt, writing.
    SerialRx.v: the receiver: what has arrived in front of the first character
    that is not valid reaches the line discipline in order, as long as the buffer
    has room; what happens to errors and without room.  SerialSpec.v: no history of
    operations, with rates that can be set and without receiver interrupts, leaves
    output waiting with the transmitter off; writing
    refines a FIFO queue under interrupts; what is written is sent; opening sets
    the format; the divisor is the nearest; and the limits of the driver:
    closing discards output, the format cannot be taken back, software flow
    control comes from the wrong flags, rates that stop the kernel.

    ** The environment

    EnvCrc.v, Env.v, EnvFlash.v: drivers/char/envm-s3c2510_4M.c for the board
    CONFIG_BOARD_2510REF (the file for 2 MB has another address of the block, the
    parameter [CFG_ENV_ADDR]): the checksum; the block of variables with getenv
    and setenv; programming and erasing of the flash, the device and the
    functions for the kernel.  The driver belongs to the sources of the board;
    the configuration in src/linux2510/.config does not select it.
    FlashChip.v: the flash chip as the class [NorFlash], with the command
    sequences of the data sheet as laws ([ChipLaws]), and a simulated chip that
    satisfies them.  EnvCrc.v shows that the unrolled table-driven checksum is the
    CRC-32 and that it detects every wrong byte.  EnvRefine.v: a block represents a list of
    variables ([env_repr]); setenv refines the update of the list, getenv the
    look-up; where the driver overruns the block, loses variables or hangs.
    EnvFlashSpec.v: what was set (a value without an equals sign, with room in the
    block) and saved is there after a restart, on every chip with the laws; what loading does to the checksum, and odd lengths.

    ** Images in the flash

    FlashDev.v: drivers/char/flash_s3c2510.c, the device that installs a new
    image: identification of the chip and its sectors, erasing, programming,
    open and release with the shared buffer page ([FlashSt]), and the request
    that copies a file into the flash.  The chip is again the class [NorFlash];
    opening and reading files is the class [FileSys].  FlashSpec.v: the laws of
    files ([FileLaws]), the chips on which the image has its place ([Supported]),
    and what each function does on a chip with the laws.  FlashImage.v: an image
    is installed byte for byte and nothing outside its sectors changes; files of
    whole kilobytes are refused half written, the largest files erase the boot
    loader and report success, a second opener misleads the first one's writes,
    and the other ways in which it fails.

    ** The Ethernet driver

    Mii.v: drivers/net/mii.c, the library for transceivers, on the callbacks of a
    driver (class [MiiDev]).  MiiSpec.v: a forced mode is read back and told to
    the driver, on every transceiver that keeps its registers ([MiiLaws]); with
    negotiation all modes are advertised, whatever was asked for.

    Eth.v and EthDev.v: drivers/net/s3c2510.c with polling
    (CONFIG_S3C2510_NAPI).  The state [Eth] has the two rings of 64 descriptors
    with the array of buffers behind each, the interface as the network layer
    sees it, the statistics, the interrupt masks, the live buffers and what was
    accepted, delivered and freed.  Eth.v: sending, the interrupts and polling;
    EthDev.v: transceiver, address filter, start of the hardware, building of
    the rings, open, close, time-out, requests and probe.

    The controller moves by itself: before each access of the driver to a
    register or a descriptor it may take any number of steps ([point]).
    EthChip.v states what it may do: the relation [move] (send the next
    descriptor it owns, fill the next one, raise status bits, stop itself) and
    the laws [EthLaws] of its registers; [Sim] is a controller with a schedule
    that keeps them.  That the functions of the driver are atomic among each
    other is an assumption of the model: most of their bodies hold the lock with
    interrupts off, but s3c2510_send_packet updates its ring without it (the lock
    is commented out there, and only the start of the controller is locked) and
    s3c2510_poll reads the receive status before it takes it; an interrupt of the
    driver itself at these places is not modelled.  EthRing.v: the invariant
    of the rings under the moves of the controller ([TxI], [RxI]) with the rules
    for each access; EthOps.v: ownership of the buffers ([Owns]); EthRun.v,
    EthFilter.v, EthOpen.v: rules for sending, interrupts and polling, for the
    address filter, for open and close; EthSpec.v: histories of calls
    ([history]) keep the invariant ([Live]); EthLife.v: open establishes it and
    close ends it.  EthMain.v: frames leave and arrive in order, each buffer
    has one owner and the controller only ever sees live ones, each call
    returns, reception does not stall, a poll delivers all, and which addresses the
    filter accepts after each call (of a list the first 14; the own address only
    once it was loaded by an empty list), opening and closing.  All this is for an
    interface that was opened with memory at hand, and for the calls of [call]:
    sending, the two interrupts, polling, the address settings and the link timer.
    Transmission can stall for good, memory that runs out, and what a time-out
    loses.

    ** Partitions of the flash

    A request to a partition (drivers/mtd/mtdpart.c) is moved to its place and
    handed to the device of the chip, whose driver
    (drivers/mtd/chips/cfi_cmdset_0002.c) sends the command sequences over the
    accesses of the board (drivers/mtd/maps/integrator-flash_sc2510.c).

    Mtd.v: mtd.h, partitions.h, mtdcore.c and mtdpart.c.  The state [MtdSt] has
    the objects of devices and partitions by address, the list of partitions, the
    table of ten devices, the users to be notified, the addresses kmalloc will
    return, and the driver below (class [MtdDriver], one operation per pointer of
    struct mtd_info).  MtdSpec.v: what such a driver promises ([MtdLaws]: read,
    write and erase on bytes) and what follows for the operations of a partition,
    for every driver with the laws.

    Cfi.v: the chip driver, the whole of cfi_cmdset_0002.c with the helpers of
    cfi.h, on the state [CfiSt].  The chip is the class [NorFlash] with the wider
    accesses of CfiChip.v; what other threads do while the driver sleeps
    ([others]) and the clock ([later]) are parameters.  CfiSpec.v: one word, reads
    and writes of any place and length, with and without the unlock bypass.
    CfiErase.v: the blocks of a table of regions, one block, and requests.
    CfiSetup.v: the device made from what the chip reports, and the reversal of
    its table.  CfiMtd.v discharges [MtdLaws] for the driver.

    Sc2510.v: the partition table of the board and the functions that register it
    at start-up.

    MtdBlock.v: drivers/mtd/mtdblock.c, the block device with its cache of one
    erase block, on the state [BlkSt].  MtdBlockSpec.v: what a device shows
    ([seen]) under reading, writing and writing back, against [MtdLaws].
    BlockMain.v: from open to release it is an array of bytes ([spec_run]), when its
    erase blocks are larger than a page; and how a write of a whole block is lost.  MtdChar.v and CharMain.v:
    drivers/mtd/mtdchar.c, the device for programs: what is written is read back,
    a file that is open for reading can erase, and a read behind the end does not
    return.

    ** The reset button

    ResetButton.v: arch/armnommu/mach-2510REF/time.c: the timer interrupt that
    looks at the button, and the task that erases the settings and restarts
    ([ClockSt], with the pins of Gpio.v and the partitions of Mtd.v).
    ButtonSpec.v: the counters are the definition [ten_in_a_row], and the
    interleavings of button, interrupt and task ([step]).  ConfigReset.v: what the
    task does to a partition, against [MtdLaws].  ResetMain.v: all of it together,
    with two chips to try it on: the partitions are registered where they belong,
    with the largest erase size of the regions they overlap, and cover the chip; a
    write of bytes that set no cleared bit stays in its partition, ten looks erase
    exactly the settings of a writeable partition, nothing is touched without a
    request; a partition inside a block
    is read-only and its settings survive, a length that wraps erases all that
    follows, and the task without memory or device.

    ** The set-up of the board

    Board.v: arch/armnommu/mach-2510REF/config.c: the clock from the digits of the
    status register, and Ethernet addresses from text.

    ** Fuel

    HDBLockFile examines an existing lock file and tries again: with the laws of
    [FileKernel] two turns are enough, which its theorem shows; against any
    kernel it may run out ([OutOfFuel]), which stands for endless contention.
    The loops over the free list need one turn more than there are areas, so a
    sixteenth of the size of the heap is enough ([pool_ok]); the recursion of
    malloc and free for a record of a mapped block is bounded by [depth].  The
    loops over the environment need more turns than the block has bytes (8188);
    the wait for an erasure ends by a law of the chip, so some fuel is enough and
    every larger one too.  Writing to the serial port needs more turns than
    characters, waiting for it to be sent more than there are sleeps.  The
    loops over a ring of the Ethernet controller end within 65 turns, since each
    turn frees, takes or posts one of 64 places, which [eth_calls_return] shows;
    the wait for a transceiver has at most 201 turns in the code itself.
    Installing an image needs one turn more than the file has kilobytes, and
    enough for the erasures.  Reading and writing through the chip driver need a
    turn for each chip and each word, erasing one for each block and each poll,
    which the laws of the chip bound ([max_polls]); waiting for a busy chip ends
    only if the others let it ([OutOfFuel] otherwise), the theorems are about a
    chip that is ready.  The loops of the block device are bounded by the bytes of
    the request; those of the character device need a turn for each 128 KB inside
    the device ([pieces]), and behind its end no number is enough.  The task of the
    button needs a turn for each block of the partition.  The main loop does not
    end; its theorems hold for every number of turns.  All other recursion is
    structural.

    ** Not modelled

    getopt (its results are arguments of the two main functions), the text that
    perror adds, the delivery of signals (the handlers are modelled), the other
    parts of uClibc and of the kernel, the locks of malloc (the programs have one
    thread), the registration of drivers, delays, messages and /proc entries,
    the line disciplines, and the toolchain.  The time-out of the Ethernet
    driver is a definition, but not a call of the histories: what a reset does
    to the position of the controller in its rings is not in the sources.
    The probes for flash chips (their result is an argument), the block layer
    above the requests, and the reference counts of modules.  The paths of malloc
    and free that map and unmap memory are definitions of Malloc.v; the theorems
    about clients are about a heap that does not take them. *)

From stdpp Require Export base numbers list gmap strings.
From Stdlib Require Export ZArith Lia.

#[global] Open Scope Z_scope.

(** ** Machine integers

    The target is a 32-bit ARM: [unsigned char] is 8 bits, [int],
    [unsigned int], [long] and [size_t] are 32 bits.  A value of such a type is
    a [Z]; every arithmetic operation that can leave the range is written with
    its wrap-around. *)

Definition u8 (z : Z) : Z := z mod 2 ^ 8.
Definition u16 (z : Z) : Z := z mod 2 ^ 16.
Definition u32 (z : Z) : Z := z mod 2 ^ 32.
Definition s32 (z : Z) : Z := (z + 2 ^ 31) mod 2 ^ 32 - 2 ^ 31.

Definition is_byte (z : Z) : Prop := 0 <= z < 256.
Definition is_u32 (z : Z) : Prop := 0 <= z < 2 ^ 32.
Abbreviation bytes := (list Z).

#[global] Instance is_byte_dec z : Decision (is_byte z).
Proof. unfold is_byte. apply _. Defined.
#[global] Instance is_u32_dec z : Decision (is_u32 z).
Proof. unfold is_u32. apply _. Defined.

Lemma div_bounds a b : 0 <= a -> 0 < b -> 0 <= a / b /\ b * (a / b) <= a.
Proof. intros. split; [by apply Z.div_pos|by apply Z.mul_div_le]. Qed.

Lemma u8_byte z : is_byte (u8 z).
Proof. unfold is_byte, u8. apply (Z.mod_pos_bound z 256). lia. Qed.

Lemma u8_small z : is_byte z -> u8 z = z.
Proof. unfold is_byte, u8. intros H. apply Z.mod_small. lia. Qed.

Lemma u32_range z : is_u32 (u32 z).
Proof. unfold is_u32, u32. apply Z.mod_pos_bound. lia. Qed.

Lemma u32_small z : is_u32 z -> u32 z = z.
Proof. unfold is_u32, u32. intros H. apply Z.mod_small. lia. Qed.

Lemma s32_small z : - 2 ^ 31 <= z < 2 ^ 31 -> s32 z = z.
Proof. unfold s32. intros H. rewrite Z.mod_small; lia. Qed.

(** ** Flag words

    [x & ~m | v] replaces the field [m] of [x] by [v]. *)

Definition set_field (x m v : Z) : Z := Z.lor (Z.land x (Z.lnot m)) v.

Lemma testbit_land_eq a m i :
  Z.land a m = a -> Z.testbit a i = true -> Z.testbit m i = true.
Proof. intros <-. rewrite Z.land_spec. by intros [_ ?]%andb_prop. Qed.

Lemma testbit_land_0 a m i :
  Z.land a m = 0 -> Z.testbit a i = true -> Z.testbit m i = false.
Proof.
  intros H Ha. assert (Z.testbit (Z.land a m) i = false) as Hi by by rewrite H, Z.bits_0.
  rewrite Z.land_spec, Ha in Hi. done.
Qed.

(** Solves equations between flag words bit by bit, given facts
    [Z.land a m = a] and [Z.land a m = 0] about the masks. *)
Ltac flag_bits :=
  apply Z.bits_inj'; let i := fresh "i" in intros i ?;
  repeat first [rewrite Z.land_spec | rewrite Z.lor_spec
               | rewrite Z.lnot_spec by done | rewrite Z.bits_0];
  repeat match goal with
  | H : Z.land ?a ?m = ?a |- _ => generalize (testbit_land_eq a m i H); clear H
  | H : Z.land ?a ?m = 0 |- _ => generalize (testbit_land_0 a m i H); clear H
  end;
  repeat match goal with
  | |- context [Z.testbit ?a i] => generalize (Z.testbit a i); intros []
  end; simpl; intuition congruence.

Lemma land_set_field x m v : Z.land v m = v -> Z.land (set_field x m v) m = v.
Proof. unfold set_field. intros H. flag_bits. Qed.

Lemma land_set_other x m v n :
  Z.land m n = 0 -> Z.land v n = 0 -> Z.land (set_field x m v) n = Z.land x n.
Proof. unfold set_field. intros Hm Hv. flag_bits. Qed.

(** A field inside the replaced one. *)
Lemma land_set_sub x m v n :
  Z.land n m = n -> Z.land (set_field x m v) n = Z.land v n.
Proof. unfold set_field. intros Hn. flag_bits. Qed.

Lemma land_clear_other x m n : Z.land m n = 0 -> Z.land (Z.land x (Z.lnot m)) n = Z.land x n.
Proof. intros Hm. flag_bits. Qed.

Lemma land_clear_sub x m n : Z.land n m = n -> Z.land (Z.land x (Z.lnot m)) n = 0.
Proof. intros Hm. flag_bits. Qed.

Lemma land_or_other x v n : Z.land v n = 0 -> Z.land (Z.lor x v) n = Z.land x n.
Proof. intros Hv. flag_bits. Qed.

Lemma land_or_same x v : Z.land (Z.lor x v) v = v.
Proof. flag_bits. Qed.

(** [flags] computes a field of an updated flag word whose masks are
    constants. *)
Lemma land_or_clear x m v n :
  Z.land n m = n -> Z.land (Z.lor (Z.land x (Z.lnot m)) v) n = Z.land v n.
Proof. apply land_set_sub. Qed.

Create Rewrite HintDb flags.
#[global] Hint Rewrite land_or_clear land_clear_other land_clear_sub land_or_other
  land_or_same using reflexivity : flags.

(** ** Network byte order *)

(** The bytes of a 32-bit number in network order: [htonl] and a [char *]. *)
Definition be32 (n : Z) : bytes :=
  [u8 (Z.shiftr n 24); u8 (Z.shiftr n 16); u8 (Z.shiftr n 8); u8 n].

(** [ntohl] of the four bytes at a pointer. *)
Definition from_be32 (b0 b1 b2 b3 : Z) : Z :=
  Z.lor (Z.shiftl b0 24) (Z.lor (Z.shiftl b1 16) (Z.lor (Z.shiftl b2 8) b3)).

Lemma testbit_u8 n i : 0 <= i -> Z.testbit (u8 n) i = (i <? 8) && Z.testbit n i.
Proof.
  intros Hi. unfold u8. destruct (Z.ltb_spec i 8).
  - by rewrite Z.mod_pow2_bits_low.
  - by rewrite Z.mod_pow2_bits_high by lia.
Qed.

Lemma from_be32_be32 n : is_u32 n ->
  from_be32 (u8 (Z.shiftr n 24)) (u8 (Z.shiftr n 16)) (u8 (Z.shiftr n 8)) (u8 n) = n.
Proof.
  intros [Hn0 Hn]. unfold from_be32. apply Z.bits_inj'. intros i Hi.
  rewrite !Z.lor_spec, !Z.shiftl_spec by done.
  assert (forall k, 0 <= k -> Z.testbit (u8 (Z.shiftr n k)) (i - k) =
            ((k <=? i) && (i <? k + 8) && Z.testbit n i)%bool) as Hbyte.
  { intros k Hk. destruct (Z.leb_spec k i); simpl.
    - rewrite testbit_u8, Z.shiftr_spec by lia. replace (i - k + k) with i by lia.
      f_equal. destruct (Z.ltb_spec (i - k) 8), (Z.ltb_spec i (k + 8)); lia || done.
    - apply Z.testbit_neg_r. lia. }
  pose proof (Hbyte 24) as H24. pose proof (Hbyte 16) as H16. pose proof (Hbyte 8) as H8.
  rewrite H24, H16, H8, testbit_u8 by lia.
  destruct (decide (i < 32)).
  - destruct (Z.ltb_spec i 8), (Z.leb_spec 8 i), (Z.leb_spec 16 i), (Z.leb_spec 24 i),
      (Z.ltb_spec i (24 + 8)), (Z.ltb_spec i (16 + 8)), (Z.ltb_spec i (8 + 8)); try lia;
      simpl; by destruct (Z.testbit n i).
  - assert (Z.log2 n < i) as Hlog.
    { destruct (decide (n = 0)) as [->|]; [simpl; lia|]. apply Z.log2_lt_pow2; [lia|].
      apply (Z.lt_le_trans _ (2 ^ 32)); [done|]. apply Z.pow_le_mono_r; lia. }
    rewrite (Z.bits_above_log2 n i) by done.
    by rewrite !andb_false_r.
Qed.

(** ** C strings

    A C string is the list of its bytes without the terminating NUL; [lit]
    turns a literal of the source into one. *)

Abbreviation cstr := (list Z).

Fixpoint lit (s : string) : cstr :=
  match s with
  | EmptyString => []
  | String a s' => Z.of_N (Ascii.N_of_ascii a) :: lit s'
  end.

(** The character at offset [i] of a C string, the terminating NUL included. *)
Definition char_at (s : cstr) (i : nat) : Z := default 0 (s !! i).

(** Decimal digits of a non-negative number, most significant first ([%u]). *)
Fixpoint dec_aux (fuel : nat) (n : Z) (acc : cstr) : cstr :=
  match fuel with
  | O => acc
  | S f =>
      let acc' := (48 + n mod 10) :: acc in
      if n <? 10 then acc' else dec_aux f (n / 10) acc'
  end.

Definition dec (n : Z) : cstr := dec_aux (S (Z.to_nat (Z.log2 n))) n [].

(** Signed decimal ([%d], [%i], [%ld]). *)
Definition sdec (n : Z) : cstr :=
  if n <? 0 then 45 :: dec (- n) else dec n.

(** [%<width>d]: right-justified with spaces. *)
Definition pad_left (width : nat) (s : cstr) : cstr :=
  replicate (width - length s) 32 ++ s.

(** [snprintf (buf, size, ...)]: at most [size - 1] characters are kept. *)
Definition snprintf (size : nat) (s : cstr) : cstr := take (size - 1) s.

(** A string in an array; [None]: it is not ended there. *)
Fixpoint string_in (a : bytes) : option cstr :=
  match a with
  | [] => None
  | c :: a' => if c =? 0 then Some [] else cons c <$> string_in a'
  end.

(** ** Computations of the C code

    A computation transforms a state; it can also stop the program: a failed
    [assert], an access outside an array, through a null pointer or to freed
    memory (undefined behaviour), sleeping with nobody to wake it up, [exit].
    [OutOfFuel] is only produced by loops that carry a fuel argument. *)

Inductive stop : Type :=
| AssertionFailed
| OutOfBounds
| NullPointer
| OutOfFuel
| DivisionByZero
| UseAfterFree
| Asleep
| Exited (status : Z).

Inductive outcome (S A : Type) : Type :=
| Ret (a : A) (s : S)
| Stop (e : stop) (s : S).
Arguments Ret {S A} a s.
Arguments Stop {S A} e s.

Definition M (S A : Type) : Type := S -> outcome S A.

#[global] Instance M_ret S : MRet (M S) := fun A a s => Ret a s.
#[global] Instance M_bind S : MBind (M S) := fun A B f m s =>
  match m s with
  | Ret a s' => f a s'
  | Stop e s' => Stop e s'
  end.

Definition gets {S A} (f : S -> A) : M S A := fun s => Ret (f s) s.
Definition modify {S} (f : S -> S) : M S unit := fun s => Ret tt (f s).
Definition stop_with {S A} (e : stop) : M S A := fun s => Stop e s.
Definition when {S} (b : bool) (m : M S unit) : M S unit :=
  if b then m else mret tt.
Definition assert {S} (b : bool) : M S unit :=
  if b then mret tt else stop_with AssertionFailed.

Section MonadLemmas.
Context {S : Type}.

Lemma bind_Ret {A B} (m : M S A) (f : A -> M S B) s a s' :
  m s = Ret a s' -> (m ≫= f) s = f a s'.
Proof. unfold mbind, M_bind. by intros ->. Qed.

Lemma bind_Stop {A B} (m : M S A) (f : A -> M S B) s e s' :
  m s = Stop e s' -> (m ≫= f) s = Stop e s'.
Proof. unfold mbind, M_bind. by intros ->. Qed.

Lemma bind_mret {A B} (a : A) (f : A -> M S B) s : (mret a ≫= f) s = f a s.
Proof. done. Qed.

Lemma bind_gets {A B} (g : S -> A) (f : A -> M S B) s :
  (gets g ≫= f) s = f (g s) s.
Proof. done. Qed.

Lemma bind_modify {B} (g : S -> S) (f : unit -> M S B) s :
  (modify g ≫= f) s = f tt (g s).
Proof. done. Qed.

Lemma bind_bind {A B C} (m : M S A) (f : A -> M S B) (g : B -> M S C) s :
  ((m ≫= f) ≫= g) s = (m ≫= (fun a => f a ≫= g)) s.
Proof. unfold mbind, M_bind. by destruct (m s). Qed.
End MonadLemmas.

(** [m] started in [s] returns, and its result satisfies [Q]; or it stops the
    program in the way [E] allows. *)
Definition wp {S A} (m : M S A) (Q : A -> S -> Prop) (E : stop -> S -> Prop)
    (s : S) : Prop :=
  match m s with
  | Ret a s' => Q a s'
  | Stop e s' => E e s'
  end.

(** No stop is allowed. *)
Definition no_stop {S} : stop -> S -> Prop := fun _ _ => False.

Section WpLemmas.
Context {S : Type}.

Lemma wp_bind {A B} (m : M S A) (f : A -> M S B) Q E s :
  wp m (fun a s' => wp (f a) Q E s') E s -> wp (m ≫= f) Q E s.
Proof. unfold wp, mbind, M_bind. by destruct (m s). Qed.

Lemma wp_bind_inv {A B} (m : M S A) (f : A -> M S B) Q E s :
  wp (m ≫= f) Q E s -> wp m (fun a s' => wp (f a) Q E s') E s.
Proof. unfold wp, mbind, M_bind. by destruct (m s). Qed.

Lemma wp_mono {A} (m : M S A) (Q Q' : A -> S -> Prop) (E E' : stop -> S -> Prop) s :
  wp m Q E s ->
  (forall a s', Q a s' -> Q' a s') -> (forall e s', E e s' -> E' e s') ->
  wp m Q' E' s.
Proof. unfold wp. destruct (m s); naive_solver. Qed.

Lemma wp_Ret {A} (m : M S A) (Q : A -> S -> Prop) E s a s' :
  m s = Ret a s' -> Q a s' -> wp m Q E s.
Proof. unfold wp. by intros ->. Qed.
End WpLemmas.

(** How a run ended: for evaluating concrete runs without their final state. *)
Definition returned {S A} (o : outcome S A) : option A :=
  match o with Ret a _ => Some a | Stop _ _ => None end.
Definition stopped {S A} (o : outcome S A) : option stop :=
  match o with Ret _ _ => None | Stop e _ => Some e end.

Lemma returned_Some {S A} (o : outcome S A) a :
  returned o = Some a -> exists s, o = Ret a s.
Proof. destruct o; simpl; intros [= ->]. by eexists. Qed.

(** ** Tactics and hint databases *)

Create HintDb cfw.
#[export] Hint Resolve u8_byte u32_range : cfw.

(** One step of symbolic execution of a computation applied to a state. *)
Ltac mstep :=
  first
    [ rewrite bind_mret
    | rewrite bind_gets
    | rewrite bind_modify
    | rewrite bind_bind
    | erewrite bind_Ret by eassumption ].
Ltac msteps := repeat mstep.

(** [Forall is_byte] of an explicit list. *)
Ltac all_bytes :=
  repeat first [assumption | apply Forall_nil_2 | apply Forall_cons_2; [done|]].
