(* ===== verification/RingBuffer.v ===== *)
(** * The byte ring buffers of sercd (src/apps/sercd/sercd.c)

    [BufferType] and its operations, the abstract FIFO they implement, and the
    interface [ByteFifo] through which the Telnet engine uses them.  An
    operation takes the buffer its [BufferType *] argument points to as the
    state of the computation. *)

From S2P Require Import Prelude.

(** ** Data and operations *)

Definition BufferSize : Z := 2048.

Record BufferType : Type := mkBuffer {
  Buffer : bytes;
  RdPos : Z;
  WrPos : Z;
}.

Definition InitBuffer : M BufferType unit :=
  modify (fun B => mkBuffer (Buffer B) 0 0).

Definition BufferLength (B : BufferType) : Z :=
  u32 (WrPos B - RdPos B + BufferSize) mod BufferSize.

Definition BufferRoomLeft (B : BufferType) : Z :=
  u32 (BufferSize - 1 - BufferLength B).

Definition BufferHasRoomFor (B : BufferType) (x : Z) : bool :=
  x <=? BufferRoomLeft B.

Definition IsBufferEmpty (B : BufferType) : bool :=
  BufferLength B =? 0.

(** [Buffer[i] = c], undefined outside the array. *)
Definition store_at (l : bytes) (i c : Z) : option bytes :=
  if decide (0 <= i < Z.of_nat (length l))
  then Some (<[Z.to_nat i := c]> l) else None.

Definition AddToBuffer (C : Z) : M BufferType unit := fun B =>
  if BufferHasRoomFor B 1 then
    match store_at (Buffer B) (WrPos B) C with
    | Some l => Ret tt (mkBuffer l (RdPos B) (u32 (WrPos B + 1) mod BufferSize))
    | None => Stop OutOfBounds B
    end
  else Stop AssertionFailed B.

Definition GetFromBuffer : M BufferType Z := fun B =>
  if decide (0 <= RdPos B) then
    match Buffer B !! Z.to_nat (RdPos B) with
    | Some C => Ret C (mkBuffer (Buffer B) (u32 (RdPos B + 1) mod BufferSize) (WrPos B))
    | None => Stop OutOfBounds B
    end
  else Stop OutOfBounds B.

(** The returned pointer [&(B->Buffer[B->RdPos])] is an offset into [Buffer]. *)
Definition GetBufferString (B : BufferType) : Z * Z :=
  (RdPos B,
   if RdPos B <=? WrPos B then u32 (WrPos B - RdPos B)
   else u32 (BufferSize - RdPos B)).

Definition BufferPopBytes (len : Z) : M BufferType unit :=
  modify (fun B =>
    mkBuffer (Buffer B) (u32 (RdPos B + len) mod BufferSize) (WrPos B)).

(** The [len] bytes at offset [start] of the array. *)
Definition buffer_slice (B : BufferType) (start len : Z) : bytes :=
  take (Z.to_nat len) (drop (Z.to_nat start) (Buffer B)).

(** ** The abstract queue *)

Definition wf_buffer (B : BufferType) : Prop :=
  length (Buffer B) = Z.to_nat BufferSize /\
  0 <= RdPos B < BufferSize /\ 0 <= WrPos B < BufferSize.

Definition contents (B : BufferType) : bytes :=
  if RdPos B <=? WrPos B then
    buffer_slice B (RdPos B) (WrPos B - RdPos B)
  else
    buffer_slice B (RdPos B) (BufferSize - RdPos B) ++
    buffer_slice B 0 (WrPos B).

Lemma mod_2048_cases x :
  -2048 < x < 2048 ->
  u32 (x + 2048) mod 2048 = if 0 <=? x then x else x + 2048.
Proof.
  intros Hx. unfold u32. rewrite (Z.mod_small (x + 2048)) by lia.
  destruct (Z.leb_spec 0 x).
  - replace (x + 2048) with (x + 1 * 2048) by lia.
    rewrite Z.mod_add by lia. apply Z.mod_small. lia.
  - apply Z.mod_small. lia.
Qed.

Lemma succ_mod_2048 x :
  0 <= x < 2048 -> u32 (x + 1) mod 2048 = if x =? 2047 then 0 else x + 1.
Proof.
  intros Hx. unfold u32. rewrite (Z.mod_small (x + 1)) by lia.
  destruct (Z.eqb_spec x 2047) as [->|]; [done|]. apply Z.mod_small. lia.
Qed.

Lemma BufferLength_cases B :
  wf_buffer B ->
  BufferLength B =
    if RdPos B <=? WrPos B then WrPos B - RdPos B
    else WrPos B - RdPos B + 2048.
Proof.
  intros (_ & ? & ?). unfold BufferLength, BufferSize in *.
  rewrite mod_2048_cases by lia.
  destruct (Z.leb_spec 0 (WrPos B - RdPos B)), (Z.leb_spec (RdPos B) (WrPos B)); lia.
Qed.

Lemma length_contents B :
  wf_buffer B -> Z.of_nat (length (contents B)) = BufferLength B.
Proof.
  intros Hwf. rewrite BufferLength_cases by done.
  destruct Hwf as (Hlen & Hr & Hw). unfold contents, buffer_slice, BufferSize in *.
  destruct (Z.leb_spec (RdPos B) (WrPos B));
    rewrite ?length_app, ?length_take, ?length_drop, Hlen; lia.
Qed.

Lemma BufferLength_bound B : wf_buffer B -> 0 <= BufferLength B <= 2047.
Proof.
  intros Hwf. rewrite BufferLength_cases by done. destruct Hwf as (_ & ? & ?).
  unfold BufferSize in *. destruct (Z.leb_spec (RdPos B) (WrPos B)); lia.
Qed.

Lemma BufferRoomLeft_eq B :
  wf_buffer B -> BufferRoomLeft B = 2047 - Z.of_nat (length (contents B)).
Proof.
  intros Hwf. pose proof (BufferLength_bound B Hwf).
  rewrite length_contents by done.
  unfold BufferRoomLeft, BufferSize, u32. rewrite Z.mod_small; lia.
Qed.

Lemma BufferHasRoomFor_spec B x :
  wf_buffer B ->
  BufferHasRoomFor B x = true <-> Z.of_nat (length (contents B)) + x <= 2047.
Proof.
  intros Hwf. unfold BufferHasRoomFor. rewrite BufferRoomLeft_eq by done. lia.
Qed.

Lemma take_S_insert {A} (l : list A) k x :
  (k < length l)%nat -> take (S k) (<[k:=x]> l) = take k l ++ [x].
Proof.
  intros Hk. rewrite (take_S_r _ _ x).
  - by rewrite take_insert_ge by lia.
  - by apply list_lookup_insert_eq.
Qed.

(** Appending the written byte to the abstract queue. *)
Lemma contents_store B C :
  wf_buffer B -> Z.of_nat (length (contents B)) + 1 <= 2047 ->
  contents (mkBuffer (<[Z.to_nat (WrPos B):=C]> (Buffer B)) (RdPos B)
              (u32 (WrPos B + 1) mod BufferSize)) = contents B ++ [C].
Proof.
  intros Hwf Hroom. rewrite length_contents, BufferLength_cases in Hroom by done.
  destruct Hwf as (Hlen & Hr & Hw). unfold contents, buffer_slice, BufferSize in *. simpl.
  rewrite succ_mod_2048 by done.
  destruct (Z.leb_spec (RdPos B) (WrPos B)) as [Hle|Hgt].
  - destruct (Z.eqb_spec (WrPos B) 2047) as [Heq|Hne].
    + destruct (Z.leb_spec (RdPos B) 0); [lia|].
      rewrite drop_insert_ge, Heq by lia. simpl. rewrite app_nil_r.
      replace (Z.to_nat (2048 - RdPos B)) with (S (Z.to_nat (2047 - RdPos B))) by lia.
      replace (Z.to_nat 2047 - Z.to_nat (RdPos B))%nat
        with (Z.to_nat (2047 - RdPos B)) by lia.
      apply take_S_insert. rewrite length_drop. lia.
    + destruct (Z.leb_spec (RdPos B) (WrPos B + 1)); [|lia].
      rewrite drop_insert_ge by lia.
      replace (Z.to_nat (WrPos B + 1 - RdPos B)) with (S (Z.to_nat (WrPos B - RdPos B))) by lia.
      replace (Z.to_nat (WrPos B) - Z.to_nat (RdPos B))%nat
        with (Z.to_nat (WrPos B - RdPos B)) by lia.
      apply take_S_insert. rewrite length_drop. lia.
  - destruct (Z.eqb_spec (WrPos B) 2047); [lia|].
    destruct (Z.leb_spec (RdPos B) (WrPos B + 1)); [lia|].
    rewrite drop_insert_lt by lia. rewrite <- app_assoc. f_equal.
    rewrite !drop_0. replace (Z.to_nat (WrPos B + 1)) with (S (Z.to_nat (WrPos B))) by lia.
    apply take_S_insert. lia.
Qed.

Lemma AddToBuffer_ok B C :
  wf_buffer B -> BufferHasRoomFor B 1 = true ->
  exists B', AddToBuffer C B = Ret tt B' /\ wf_buffer B' /\
             contents B' = contents B ++ [C].
Proof.
  intros Hwf Hroom. unfold AddToBuffer. rewrite Hroom.
  apply BufferHasRoomFor_spec in Hroom; [|done].
  pose proof (contents_store B C Hwf Hroom) as Hc.
  destruct Hwf as (Hlen & Hr & Hw). unfold store_at, BufferSize in *.
  rewrite decide_True by lia. eexists; split_and!; [done| |done].
  split; simpl; [by rewrite length_insert|]. split; [done|].
  rewrite succ_mod_2048 by done. unfold BufferSize. destruct (Z.eqb_spec (WrPos B) 2047); lia.
Qed.

Lemma AddToBuffer_full B C :
  BufferHasRoomFor B 1 = false -> AddToBuffer C B = Stop AssertionFailed B.
Proof. unfold AddToBuffer. by intros ->. Qed.

Lemma GetBufferString_bounds B :
  wf_buffer B ->
  0 <= (GetBufferString B).1 /\ 0 <= (GetBufferString B).2 /\
  (GetBufferString B).1 + (GetBufferString B).2 <= BufferSize /\
  (GetBufferString B).2 <= BufferLength B.
Proof.
  intros Hwf. rewrite BufferLength_cases by done. destruct Hwf as (_ & Hr & Hw).
  unfold GetBufferString, BufferSize, u32 in *. simpl.
  destruct (Z.leb_spec (RdPos B) (WrPos B)); rewrite Z.mod_small; lia.
Qed.

Lemma GetBufferString_slice B start len :
  wf_buffer B -> GetBufferString B = (start, len) ->
  buffer_slice B start len = take (Z.to_nat len) (contents B).
Proof.
  intros (Hlen & Hr & Hw) [= <- <-]. unfold contents, buffer_slice, BufferSize, u32 in *.
  destruct (Z.leb_spec (RdPos B) (WrPos B)); rewrite !Z.mod_small by lia.
  - rewrite take_take. f_equal. lia.
  - rewrite take_app_le.
    + rewrite take_take. f_equal. lia.
    + rewrite length_take, length_drop. lia.
Qed.

Lemma GetBufferString_pos B :
  wf_buffer B -> IsBufferEmpty B = false -> 0 < (GetBufferString B).2.
Proof.
  intros Hwf. unfold IsBufferEmpty. rewrite BufferLength_cases by done.
  destruct Hwf as (_ & Hr & Hw). unfold GetBufferString, BufferSize, u32 in *. simpl.
  destruct (Z.leb_spec (RdPos B) (WrPos B)); rewrite Z.mod_small by lia; lia.
Qed.

Lemma pop_mod B len :
  wf_buffer B -> 0 <= len <= 2047 ->
  u32 (RdPos B + len) mod 2048 =
    if RdPos B + len <? 2048 then RdPos B + len else RdPos B + len - 2048.
Proof.
  intros (_ & Hr & Hw) Hlen. unfold BufferSize, u32 in *.
  rewrite (Z.mod_small (_ + _)) by lia.
  destruct (Z.ltb_spec (RdPos B + len) 2048); [by apply Z.mod_small; lia|].
  replace (RdPos B + len) with (RdPos B + len - 2048 + 1 * 2048) at 1 by lia.
  rewrite Z.mod_add by lia. apply Z.mod_small. lia.
Qed.

Lemma BufferPopBytes_ok B len :
  wf_buffer B -> 0 <= len <= BufferLength B ->
  exists B', BufferPopBytes len B = Ret tt B' /\ wf_buffer B' /\
             contents B' = drop (Z.to_nat len) (contents B).
Proof.
  intros Hwf Hlen. pose proof (BufferLength_bound B Hwf).
  pose proof (pop_mod B len Hwf ltac:(lia)) as Hmod.
  rewrite BufferLength_cases in Hlen by done.
  eexists. split; [done|]. unfold contents, buffer_slice, wf_buffer, BufferSize in *. simpl.
  rewrite Hmod. destruct Hwf as (Hl & Hr & Hw).
  destruct (Z.leb_spec (RdPos B) (WrPos B)), (Z.ltb_spec (RdPos B + len) 2048); try lia.
  - split; [lia|]. destruct (Z.leb_spec (RdPos B + len) (WrPos B)); [|lia].
    rewrite skipn_firstn_comm, drop_drop. do 2 f_equal; lia.
  - split; [lia|]. destruct (Z.leb_spec (RdPos B + len) (WrPos B)); [lia|].
    rewrite drop_app_le by (rewrite length_take, length_drop; lia).
    f_equal. rewrite skipn_firstn_comm, drop_drop. do 2 f_equal; lia.
  - split; [lia|]. destruct (Z.leb_spec (RdPos B + len - 2048) (WrPos B)); [|lia].
    rewrite drop_app_ge by (rewrite length_take, length_drop; lia).
    rewrite length_take, length_drop, drop_0, skipn_firstn_comm. do 2 f_equal; lia.
Qed.

Lemma contents_head B c q :
  wf_buffer B -> contents B = c :: q -> Buffer B !! Z.to_nat (RdPos B) = Some c.
Proof.
  intros (Hl & Hr & Hw) Hq.
  assert (contents B !! 0%nat = Some c) as Hhd by by rewrite Hq.
  unfold contents, buffer_slice in Hhd. unfold BufferSize in *.
  destruct (Z.leb_spec (RdPos B) (WrPos B)).
  2: rewrite lookup_app_l in Hhd by (rewrite length_take, length_drop; lia).
  all: apply lookup_take_Some in Hhd as [Hhd _]; rewrite lookup_drop in Hhd.
  all: by rewrite Nat.add_0_r in Hhd.
Qed.

Lemma GetFromBuffer_ok B c q :
  wf_buffer B -> contents B = c :: q ->
  exists B', GetFromBuffer B = Ret c B' /\ wf_buffer B' /\ contents B' = q.
Proof.
  intros Hwf Hq.
  destruct (BufferPopBytes_ok B 1 Hwf) as (B' & HB' & Hwf' & Hq').
  { rewrite <- length_contents by done. rewrite Hq. simpl. lia. }
  exists B'. rewrite Hq in Hq'. split_and!; [|done|done].
  pose proof (contents_head B c q Hwf Hq) as Hc.
  destruct Hwf as (Hl & Hr & Hw). unfold GetFromBuffer. rewrite decide_True by lia.
  rewrite Hc. unfold BufferPopBytes, modify in HB'. by injection HB' as <-.
Qed.

Lemma InitBuffer_ok B :
  length (Buffer B) = Z.to_nat BufferSize ->
  exists B', InitBuffer B = Ret tt B' /\ wf_buffer B' /\ contents B' = [].
Proof.
  intros Hl. eexists. split; [done|]. split; [|done].
  unfold wf_buffer, BufferSize in *. simpl. lia.
Qed.

(** ** Interface to the clients of a buffer

    What the Telnet engine relies on: bytes are queued in order while there is
    room, and queueing into a full buffer fails the assertion. *)

Class ByteFifo (Q : Type) : Type := {
  fifo_cap : Z;
  fifo_ok : Q -> Prop;
  fifo_view : Q -> bytes;
  fifo_put : Z -> M Q unit;
  fifo_put_room q c :
    fifo_ok q -> Z.of_nat (length (fifo_view q)) < fifo_cap ->
    exists q', fifo_put c q = Ret tt q' /\ fifo_ok q' /\
               fifo_view q' = fifo_view q ++ [c];
  fifo_put_full q c :
    fifo_ok q -> fifo_cap <= Z.of_nat (length (fifo_view q)) ->
    fifo_put c q = Stop AssertionFailed q;
}.

#[global] Program Instance ring_fifo : ByteFifo BufferType := {|
  fifo_cap := BufferSize - 1;
  fifo_ok := wf_buffer;
  fifo_view := contents;
  fifo_put := AddToBuffer;
|}.
Next Obligation.
  intros B C Hwf Hroom. apply AddToBuffer_ok; [done|].
  apply BufferHasRoomFor_spec; [done|]. unfold BufferSize in Hroom. lia.
Qed.
Next Obligation.
  intros B C Hwf Hfull. apply AddToBuffer_full.
  destruct (BufferHasRoomFor B 1) eqn:E; [|done].
  apply BufferHasRoomFor_spec in E; [|done]. unfold BufferSize in Hfull. lia.
Qed.

Section FifoPuts.
Context {Q : Type} `{ByteFifo Q}.

(** Queueing a list of bytes, one after the other. *)
Fixpoint fifo_puts (l : bytes) : M Q unit :=
  match l with
  | [] => mret tt
  | c :: l' => fifo_put c ;; fifo_puts l'
  end.

Lemma fifo_puts_room l q :
  fifo_ok q -> Z.of_nat (length (fifo_view q)) + Z.of_nat (length l) <= fifo_cap ->
  exists q', fifo_puts l q = Ret tt q' /\ fifo_ok q' /\
             fifo_view q' = fifo_view q ++ l.
Proof.
  revert q. induction l as [|c l IH]; intros q Hok Hroom; simpl in *.
  { exists q. by rewrite app_nil_r. }
  destruct (fifo_put_room q c Hok) as (q1 & Hput & Hok1 & Hview1); [lia|].
  destruct (IH q1 Hok1) as (q2 & Hputs & Hok2 & Hview2).
  { rewrite Hview1, length_app. simpl. lia. }
  exists q2. rewrite (bind_Ret _ _ _ _ _ Hput). split_and!; [done|done|].
  by rewrite Hview2, Hview1, <- app_assoc.
Qed.

Lemma fifo_puts_app l1 l2 q :
  fifo_puts (l1 ++ l2) q = (fifo_puts l1 ;; fifo_puts l2) q.
Proof.
  revert q. induction l1 as [|c l1 IH]; intros q; simpl; [done|].
  rewrite bind_bind. unfold mbind, M_bind at 1 2.
  destruct (fifo_put c q); [|done]. apply IH.
Qed.
End FifoPuts.

(** ** Histories of a buffer *)

(** What the users of a buffer do to it: queue a byte, and hand a prefix of
    the queued bytes to [write(2)] and remove what was accepted. *)
Inductive buf_op : Type :=
| OpAdd (c : Z)
| OpFlush (accepted : Z).

(** One operation, with the bytes it takes out of the buffer. *)
Definition buf_step (op : buf_op) : M BufferType bytes := fun B =>
  match op with
  | OpAdd c => (AddToBuffer c ;; mret []) B
  | OpFlush n =>
      let '(start, len) := GetBufferString B in
      let out := take (Z.to_nat n) (buffer_slice B start len) in
      (BufferPopBytes n ;; mret out) B
  end.

Fixpoint buf_run (ops : list buf_op) : M BufferType bytes :=
  match ops with
  | [] => mret []
  | op :: ops' => l1 ← buf_step op; l2 ← buf_run ops'; mret (l1 ++ l2)
  end.

(** An operation is admissible: the buffer has room for an added byte, and
    [write] accepts at most the bytes it is given. *)
Definition op_admissible (op : buf_op) (B : BufferType) : Prop :=
  match op with
  | OpAdd c => BufferHasRoomFor B 1 = true
  | OpFlush n => 0 <= n <= (GetBufferString B).2
  end.

Definition added (ops : list buf_op) : bytes :=
  ops ≫= (fun op => match op with OpAdd c => [c] | OpFlush _ => [] end).

Lemma added_cons op ops : added (op :: ops) = added [op] ++ added ops.
Proof. unfold added. simpl. by rewrite app_nil_r. Qed.

Fixpoint run_admissible (ops : list buf_op) (B : BufferType) : Prop :=
  match ops with
  | [] => True
  | op :: ops' =>
      op_admissible op B /\
      match buf_step op B with
      | Ret _ B' => run_admissible ops' B'
      | Stop _ _ => False
      end
  end.

Lemma buf_step_ok op B :
  wf_buffer B -> op_admissible op B ->
  exists out B', buf_step op B = Ret out B' /\ wf_buffer B' /\
    contents B ++ added [op] = out ++ contents B'.
Proof.
  intros Hwf. destruct op as [c|n]; unfold op_admissible, buf_step; intros Hadm.
  - destruct (AddToBuffer_ok B c Hwf Hadm) as (B' & HB & Hwf' & Hc).
    exists [], B'. rewrite (bind_Ret _ _ _ _ _ HB). by rewrite Hc.
  - destruct (GetBufferString B) as [start len] eqn:HG.
    pose proof (GetBufferString_bounds B Hwf) as Hb. rewrite HG in Hb. simpl in Hb, Hadm.
    destruct (BufferPopBytes_ok B n Hwf ltac:(lia)) as (B' & HB & Hwf' & Hc).
    eexists _, B'. rewrite (bind_Ret _ _ _ _ _ HB). split_and!; [done|done|].
    rewrite (GetBufferString_slice B start len), Hc, take_take by done.
    rewrite Nat.min_l by lia. by rewrite app_nil_r, take_drop.
Qed.

(** C21: the ring buffer is a FIFO queue.  Over any history of admissible
    operations the bytes taken out, followed by the bytes still queued, are
    the bytes queued at the start followed by the bytes added: nothing is lost,
    duplicated or reordered, and no operation stops the program. *)
Theorem ring_buffer_fifo ops B :
  wf_buffer B -> run_admissible ops B ->
  exists out B', buf_run ops B = Ret out B' /\ wf_buffer B' /\
    contents B ++ added ops = out ++ contents B'.
Proof.
  revert B. induction ops as [|op ops IH]; intros B Hwf Hadm.
  { exists [], B. by rewrite app_nil_r. }
  destruct Hadm as [Hop Hrest].
  destruct (buf_step_ok op B Hwf Hop) as (out1 & B1 & Hs & Hwf1 & Hc1).
  rewrite Hs in Hrest. destruct (IH B1 Hwf1 Hrest) as (out2 & B2 & Hr & Hwf2 & Hc2).
  exists (out1 ++ out2), B2. cbn [buf_run]. rewrite (bind_Ret _ _ _ _ _ Hs), (bind_Ret _ _ _ _ _ Hr).
  split_and!; [done|done|].
  rewrite added_cons, app_assoc, Hc1, <- !app_assoc, Hc2. done.
Qed.

Definition sample_ops : list buf_op :=
  [OpAdd 65; OpAdd 66; OpFlush 1; OpAdd 67; OpFlush 2].

Definition empty_buffer : BufferType := mkBuffer (replicate 2048 0) 2047 2047.

Lemma empty_buffer_wf : wf_buffer empty_buffer.
Proof. unfold wf_buffer, empty_buffer, BufferSize. simpl RdPos. simpl WrPos.
  split; [by vm_compute|lia]. Qed.

(** The sample history crosses the end of the array. *)
Lemma ring_buffer_fifo_witness :
  run_admissible sample_ops empty_buffer /\
  exists out B', buf_run sample_ops empty_buffer = Ret out B' /\ wf_buffer B' /\
    contents empty_buffer ++ added sample_ops = out ++ contents B'.
Proof.
  assert (run_admissible sample_ops empty_buffer) as Hadm.
  { vm_compute. repeat split; discriminate. }
  split; [exact Hadm|].
  apply (ring_buffer_fifo sample_ops empty_buffer); [|exact Hadm].
  apply empty_buffer_wf.
Defined.

(** A [write] that accepts everything moves the read position to the write
    position, or to the start of the array when the data wraps around. *)
Lemma full_flush_positions B out B' :
  wf_buffer B -> buf_step (OpFlush (GetBufferString B).2) B = Ret out B' ->
  RdPos B' = (if RdPos B <=? WrPos B then WrPos B else 0) /\ WrPos B' = WrPos B.
Proof.
  intros Hwf. pose proof (GetBufferString_bounds B Hwf) as Hb.
  pose proof (BufferLength_bound B Hwf).
  pose proof (pop_mod B (GetBufferString B).2 Hwf ltac:(lia)) as Hmod.
  unfold buf_step. destruct (GetBufferString B) as [start len] eqn:HG.
  intros [= <- <-]. simpl in *. unfold BufferSize in *. rewrite Hmod. split; [|done].
  destruct Hwf as (_ & ? & ?). unfold GetBufferString, BufferSize, u32 in *.
  injection HG as <- <-.
  destruct (Z.leb_spec (RdPos B) (WrPos B)); rewrite Z.mod_small by lia;
    match goal with |- context [?a <? ?b] => destruct (Z.ltb_spec a b) end; lia.
Qed.

(** Two rounds of [GetBufferString], a [write] that accepts everything and
    [BufferPopBytes] drain the buffer: the two pieces written are exactly the
    queued bytes, in order, and the buffer is empty afterwards. *)
Theorem two_flushes_drain B :
  wf_buffer B ->
  exists out B1 out' B2,
    buf_step (OpFlush (GetBufferString B).2) B = Ret out B1 /\
    buf_step (OpFlush (GetBufferString B1).2) B1 = Ret out' B2 /\
    out ++ out' = contents B /\ IsBufferEmpty B2 = true.
Proof.
  intros Hwf.
  destruct (buf_step_ok (OpFlush (GetBufferString B).2) B Hwf) as (out & B1 & Hs & Hwf1 & Hc1).
  { unfold op_admissible. pose proof (GetBufferString_bounds B Hwf). lia. }
  destruct (buf_step_ok (OpFlush (GetBufferString B1).2) B1 Hwf1) as (out' & B2 & Hs' & Hwf2 & Hc2).
  { unfold op_admissible. pose proof (GetBufferString_bounds B1 Hwf1). lia. }
  destruct (full_flush_positions _ _ _ Hwf Hs) as [HR HW].
  destruct (full_flush_positions _ _ _ Hwf1 Hs') as [HR' HW'].
  assert (BufferLength B2 = 0) as Hlen.
  { rewrite BufferLength_cases by done. destruct Hwf as (_ & ? & ?).
    rewrite HR', HW', HR, HW.
    destruct (Z.leb_spec (RdPos B) (WrPos B)); [rewrite !Z.leb_refl; lia|].
    destruct (Z.leb_spec 0 (WrPos B)); [|lia]. rewrite Z.leb_refl. lia. }
  exists out, B1, out', B2. rewrite app_nil_r in Hc1, Hc2. split_and!; [done|done| |].
  - assert (contents B2 = []) as Hnil.
    { apply length_zero_iff_nil. pose proof (length_contents B2 Hwf2). lia. }
    by rewrite Hc1, Hc2, Hnil, app_nil_r.
  - unfold IsBufferEmpty. by rewrite Hlen.
Qed.

Definition wrapped_buffer : BufferType :=
  mkBuffer (<[2047%nat := 7]> (replicate 2048 9)) 2047 1.

Lemma wrapped_buffer_wf : wf_buffer wrapped_buffer.
Proof. unfold wf_buffer, wrapped_buffer, BufferSize. cbn [RdPos WrPos].
  split; [by vm_compute|lia]. Qed.

Lemma two_flushes_drain_witness :
  contents wrapped_buffer = [7; 9] /\
  exists out B1 out' B2,
    buf_step (OpFlush (GetBufferString wrapped_buffer).2) wrapped_buffer = Ret out B1 /\
    buf_step (OpFlush (GetBufferString B1).2) B1 = Ret out' B2 /\
    out ++ out' = contents wrapped_buffer /\ IsBufferEmpty B2 = true.
Proof.
  split; [by vm_compute|]. apply (two_flushes_drain wrapped_buffer). apply wrapped_buffer_wf.
Defined.

Lemma pred_mod_2048 x :
  0 <= x < 2048 ->
  u32 (x + -1) mod 2048 = (x - 1) mod 2048 /\ 0 <= (x - 1) mod 2048 < 2048 /\
  u32 ((x - 1) mod 2048 + 1) mod 2048 = x.
Proof.
  intros Hx. unfold u32.
  assert (x = 0 \/ 0 < x) as [->|Hpos] by lia; [split_and!; done|].
  replace (x + -1) with (x - 1) by lia. rewrite !(Z.mod_small (x - 1)) by lia.
  replace (x - 1 + 1) with x by lia. rewrite !(Z.mod_small x) by lia. lia.
Qed.

(** Popping the result [-1] of a [write] that would block (the main loop
    does so, because [IOResultError] does not report [EWOULDBLOCK]) moves the
    read position back: a byte that was already sent is queued again in front
    of the data. *)
Theorem pop_ewouldblock_requeues B :
  wf_buffer B -> BufferLength B < 2047 ->
  exists c B', BufferPopBytes (-1) B = Ret tt B' /\
    Buffer B !! Z.to_nat ((RdPos B - 1) mod 2048) = Some c /\
    contents B' = c :: contents B.
Proof.
  intros Hwf Hlen. destruct (pred_mod_2048 (RdPos B)) as (Hp & Hrange & Hs).
  { apply Hwf. }
  set (B' := mkBuffer (Buffer B) ((RdPos B - 1) mod 2048) (WrPos B)).
  assert (wf_buffer B') as Hwf'.
  { destruct Hwf as (? & _ & ?). split; [done|]. by split. }
  assert (BufferLength B' = BufferLength B + 1) as HB'.
  { rewrite (BufferLength_cases B) in * by done. rewrite (BufferLength_cases B') by done.
    simpl. destruct Hwf as (_ & Hr & Hw). unfold BufferSize in *.
    assert (RdPos B = 0 \/ 0 < RdPos B) as [Hz|Hpos] by lia.
    - rewrite Hz in *. change ((0 - 1) mod 2048) with 2047.
      destruct (Z.leb_spec 0 (WrPos B)), (Z.leb_spec 2047 (WrPos B)); lia.
    - rewrite Z.mod_small by lia.
      destruct (Z.leb_spec (RdPos B) (WrPos B)), (Z.leb_spec (RdPos B - 1) (WrPos B)); lia. }
  pose proof (BufferLength_bound B Hwf).
  destruct (BufferPopBytes_ok B' 1 Hwf' ltac:(lia)) as (B'' & Heq & _ & Hc).
  unfold BufferPopBytes, modify in Heq. simpl in Heq. unfold BufferSize in Heq.
  rewrite Hs in Heq. injection Heq as <-.
  destruct (contents B') as [|c q] eqn:Hcs.
  { pose proof (length_contents B' Hwf') as Hl. rewrite Hcs in Hl. simpl in Hl. lia. }
  exists c, B'. split_and!.
  - unfold BufferPopBytes, modify, BufferSize. by rewrite Hp.
  - apply (contents_head B' c q Hwf' Hcs).
  - rewrite Hcs. f_equal. simpl in Hc. rewrite drop_0 in Hc. rewrite <- Hc. by destruct B.
Qed.

Definition sent_buffer : BufferType := mkBuffer (65 :: 66 :: replicate 2046 0) 1 2.

Lemma sent_buffer_wf : wf_buffer sent_buffer.
Proof. unfold wf_buffer, sent_buffer, BufferSize. cbn [RdPos WrPos].
  split; [by vm_compute|lia]. Qed.

(** The byte 65 has been sent and only 66 is queued; after the pop of [-1]
    both are. *)
Lemma pop_ewouldblock_requeues_witness :
  contents sent_buffer = [66] /\
  exists c B', BufferPopBytes (-1) sent_buffer = Ret tt B' /\
    Buffer sent_buffer !! Z.to_nat ((RdPos sent_buffer - 1) mod 2048) = Some c /\
    contents B' = c :: contents sent_buffer.
Proof.
  split; [by vm_compute|]. apply (pop_ewouldblock_requeues sent_buffer).
  - apply sent_buffer_wf.
  - by vm_compute.
Defined.
