(* ===== verification/CStdlib.v ===== *)
(** * Number conversion of uClibc (src/uClibc/libc/stdlib/stdlib.c)

    [strtol], [strtoul] and [atoi] on the 32-bit target, with their saturation
    on overflow, the end pointer and [ERANGE]. *)

From S2P Require Import Prelude.

Definition ULONG_MAX : Z := 2 ^ 32 - 1.
Definition LONG_MAX : Z := 2 ^ 31 - 1.
Definition LONG_MIN : Z := - 2 ^ 31.

(** [isspace] in the C locale. *)
Definition isspace (c : Z) : bool := (c =? 32) || ((9 <=? c) && (c <=? 13)).

(** The value of a character as a digit: 40 or more when it is none.  [char]
    is unsigned on the target. *)
Definition strto_digit (c : Z) : Z :=
  if u8 (c - 48) <=? 9 then c - 48
  else if 65 <=? c then u8 (Z.lor 32 c - 97 + 10)
  else 40.

Fixpoint skip_space (str : cstr) : cstr :=
  match str with
  | c :: str' => if isspace c then skip_space str' else str
  | [] => []
  end.

(** The variables of the conversion loop: [str] is the rest of the string and
    [fail_char] the rest of it at the last accepted character. *)
Record strto_state : Type := mkStrto {
  number : Z;
  negative : bool;
  fail_char : cstr;
  erange : bool;
}.

Fixpoint strto_loop (base : Z) (sflag : bool) (str : cstr) (st : strto_state) : strto_state :=
  match str with
  | [] => st     (* the digit of NUL is 40 *)
  | c :: str' =>
      let digit := strto_digit c in
      if base <=? digit then st
      else
        let cutoff := ULONG_MAX / base in
        let cutoff_digit := ULONG_MAX mod base in
        strto_loop base sflag str'
          (if (cutoff <? number st) || ((number st =? cutoff) && (cutoff_digit <? digit))
           then mkStrto ULONG_MAX (negative st && sflag) str' true
           else mkStrto (u32 (number st * base + digit)) (negative st) str' (erange st))
  end.

(** The prefix of a dynamic base (0) or of base 16: the rest of the string, the
    base, and [fail_char]. *)
Definition strto_base (str fail : cstr) (base : Z) : cstr * Z * cstr :=
  if Z.land base (Z.lnot 16) =? 0 then
    let base := base + 10 in
    let '(str, base, fail) :=
      if char_at str 0 =? 48 then
        let str := drop 1 str in
        let base := base - 2 in
        if Z.lor 32 (char_at str 0) =? 120 then (drop 1 str, base + base, str)
        else (str, base, str)
      else (str, base, fail) in
    (str, if 16 <? base then 16 else base, fail)
  else (str, base, fail).

(** The result, as [unsigned long]; the string at [*endptr]; whether [errno] is
    set to [ERANGE]. *)
Definition _stdlib_strto_l (str : cstr) (base : Z) (sflag : bool) : Z * cstr * bool :=
  let fail := str in
  let str := skip_space str in
  let neg := char_at str 0 =? 45 in
  let str := if (char_at str 0 =? 45) || (char_at str 0 =? 43) then drop 1 str else str in
  let '(str, base, fail) := strto_base str fail base in
  let st := mkStrto 0 neg fail false in
  let st := if u32 (base - 2) <? 35 then strto_loop base sflag str st else st in
  let tmp := if negative st then 2 ^ 31 else LONG_MAX in
  let '(number, erange) :=
    if sflag && (tmp <? number st) then (tmp, true) else (number st, erange st) in
  (if negative st then u32 (- s32 number) else number, fail_char st, erange).

Definition strtol (str : cstr) (base : Z) : Z * cstr * bool :=
  let '(n, endp, e) := _stdlib_strto_l str base true in (s32 n, endp, e).

Definition strtoul (str : cstr) (base : Z) : Z * cstr * bool := _stdlib_strto_l str base false.

Definition atoi (nptr : cstr) : Z := (strtol nptr 10).1.1.

(** ** Correctness *)

(** The number with the digits [ds], most significant first, after [n]. *)
Definition digits_value (base : Z) (n : Z) (ds : list Z) : Z :=
  foldl (fun a d => a * base + d) n ds.

(** The characters 0-9 and a-z. *)
Definition digit_char (d : Z) : Z := if d <? 10 then 48 + d else 87 + d.

Lemma strto_digit_char d : 0 <= d < 36 -> strto_digit (digit_char d) = d.
Proof.
  intros Hd. assert (forall k, (k < 36)%nat ->
    (strto_digit (digit_char (Z.of_nat k)) =? Z.of_nat k) = true) as Hall.
  { intros k Hk. assert (forallb (fun k => strto_digit (digit_char (Z.of_nat k)) =? Z.of_nat k)
      (seq 0 36) = true) as Hf by (vm_compute; reflexivity).
    rewrite forallb_forall in Hf. apply Hf. apply in_seq. lia. }
  specialize (Hall (Z.to_nat d)). rewrite Z2Nat.id in Hall by lia.
  apply Z.eqb_eq, Hall. lia.
Qed.

Lemma digits_value_ge base n ds :
  1 <= base -> 0 <= n -> Forall (fun d => 0 <= d) ds -> n <= digits_value base n ds.
Proof.
  intros Hb. revert n. induction ds as [|d ds IH]; intros n Hn Hds; [done|].
  apply Forall_cons in Hds as [Hd Hds]. simpl. etrans; [|apply IH; [nia|done]]. nia.
Qed.

Section Loop.
Context (base : Z) (sflag : bool) (Hbase : 2 <= base <= 36).
Context (rest : cstr) (Hrest : base <= strto_digit (char_at rest 0)).

Lemma strto_loop_end st : strto_loop base sflag rest st = st.
Proof.
  destruct rest as [|c r]; [done|]. simpl in *. unfold char_at in Hrest. simpl in Hrest.
  by rewrite (proj2 (Z.leb_le _ _)).
Qed.

(** Where the loop stops. *)
Definition loop_end (f : cstr) (ds : list Z) : cstr := if ds is [] then f else rest.

Lemma loop_end_cons f d ds : loop_end (map digit_char ds ++ rest) ds = loop_end f (d :: ds).
Proof. by destruct ds. Qed.

(** Once the number is too large it stays so. *)
Lemma strto_loop_saturated ds neg f :
  Forall (fun d => 0 <= d < base) ds ->
  strto_loop base sflag (map digit_char ds ++ rest) (mkStrto ULONG_MAX (neg && sflag) f true) =
    mkStrto ULONG_MAX (neg && sflag) (loop_end f ds) true.
Proof.
  revert f. induction ds as [|d ds IH]; intros f Hds; [apply strto_loop_end|].
  apply Forall_cons in Hds as [Hd Hds]. simpl strto_loop.
  rewrite strto_digit_char by lia. rewrite (proj2 (Z.leb_gt _ _)) by lia.
  assert (ULONG_MAX / base < ULONG_MAX) as Hc by (apply Z.div_lt; unfold ULONG_MAX; lia).
  rewrite (proj2 (Z.ltb_lt _ _) Hc). simpl orb. cbv iota.
  rewrite <- andb_assoc, andb_diag. rewrite IH by done. by rewrite (loop_end_cons f d).
Qed.

(** The overflow test is exact. *)
Lemma cutoff_test n d :
  0 <= n <= ULONG_MAX -> 0 <= d < base ->
  (ULONG_MAX / base <? n) || ((n =? ULONG_MAX / base) && (ULONG_MAX mod base <? d)) =
    (ULONG_MAX <? n * base + d).
Proof.
  intros Hn Hd. pose proof (Z.div_mod ULONG_MAX base) as Hdm.
  pose proof (Z.mod_pos_bound ULONG_MAX base).
  set (q := ULONG_MAX / base) in *. set (r := ULONG_MAX mod base) in *. clearbody q r.
  destruct (Z.ltb_spec q n), (Z.eqb_spec n q), (Z.ltb_spec r d), (Z.ltb_spec ULONG_MAX (n * base + d));
    simpl; try done; nia.
Qed.

Lemma strto_loop_digits ds n neg f :
  0 <= n <= ULONG_MAX -> Forall (fun d => 0 <= d < base) ds ->
  strto_loop base sflag (map digit_char ds ++ rest) (mkStrto n neg f false) =
    let v := digits_value base n ds in
    if v <=? ULONG_MAX then mkStrto v neg (loop_end f ds) false
    else mkStrto ULONG_MAX (neg && sflag) (loop_end f ds) true.
Proof.
  revert n f. induction ds as [|d ds IH]; intros n f Hn Hds.
  - simpl. rewrite strto_loop_end. by rewrite (proj2 (Z.leb_le _ _)) by lia.
  - apply Forall_cons in Hds as [Hd Hds]. simpl strto_loop.
    rewrite strto_digit_char by lia. rewrite (proj2 (Z.leb_gt _ _)) by lia.
    rewrite cutoff_test by done. cbv zeta. simpl digits_value.
    destruct (Z.ltb_spec ULONG_MAX (n * base + d)) as [Hov|Hok].
    + rewrite strto_loop_saturated by done. rewrite (loop_end_cons f d).
      assert (n * base + d <= digits_value base (n * base + d) ds).
      { apply digits_value_ge; [lia|nia|]. eapply Forall_impl; [done|]. simpl. lia. }
      change (foldl _ ?x ds) with (digits_value base x ds).
      by rewrite (proj2 (Z.leb_gt _ _)) by lia.
    + rewrite u32_small by (unfold is_u32, ULONG_MAX in *; nia).
      rewrite IH by (done || nia). by rewrite (loop_end_cons f d).
Qed.
End Loop.

Lemma skip_space_app sp c str :
  Forall (fun x => isspace x = true) sp -> isspace c = false ->
  skip_space (sp ++ c :: str) = c :: str.
Proof.
  intros Hsp Hc. induction Hsp as [|x sp Hx Hsp IH]; simpl; [by rewrite Hc|by rewrite Hx].
Qed.

Inductive sign : Type := NoSign | Plus | Minus.
Definition sign_chars (s : sign) : cstr :=
  match s with NoSign => [] | Plus => [43] | Minus => [45] end.

Definition clamp (x : Z) : Z := Z.max LONG_MIN (Z.min LONG_MAX x).

Lemma digit_char_cases d :
  0 <= d < 36 -> isspace (digit_char d) = false /\ (digit_char d =? 45) = false /\
    (digit_char d =? 43) = false.
Proof.
  intros Hd. unfold digit_char, isspace. destruct (Z.ltb_spec d 10); repeat split;
    repeat match goal with |- context [?a =? ?b] => destruct (Z.eqb_spec a b)
    | |- context [?a <=? ?b] => destruct (Z.leb_spec a b) end; simpl; try done; lia.
Qed.

(** The prologue: spaces, a sign, and no base prefix. *)
Lemma strto_l_prologue sp sg d ds rest base sflag :
  Forall (fun x => isspace x = true) sp -> 2 <= base <= 36 -> base <> 16 -> 0 <= d < base ->
  let neg := if sg is Minus then true else false in
  let str := sp ++ sign_chars sg ++ map digit_char (d :: ds) ++ rest in
  _stdlib_strto_l str base sflag =
    let st := strto_loop base sflag (map digit_char (d :: ds) ++ rest) (mkStrto 0 neg str false) in
    let tmp := if negative st then 2 ^ 31 else LONG_MAX in
    let '(number, erange) :=
      if sflag && (tmp <? number st) then (tmp, true) else (number st, erange st) in
    (if negative st then u32 (- s32 number) else number, fail_char st, erange).
Proof.
  intros Hsp Hb Hb16 Hd neg str. unfold _stdlib_strto_l.
  destruct (digit_char_cases d) as (Hs & H45 & H43); [lia|].
  set (body := map digit_char (d :: ds) ++ rest).
  assert (skip_space str = sign_chars sg ++ body) as ->.
  { unfold str. destruct sg; simpl; by apply skip_space_app. }
  assert ((char_at (sign_chars sg ++ body) 0 =? 45) = neg) as ->.
  { destruct sg; try done. }
  assert ((if neg || (char_at (sign_chars sg ++ body) 0 =? 43)
    then drop 1 (sign_chars sg ++ body) else sign_chars sg ++ body) = body) as ->.
  { destruct sg; try done. unfold body, char_at, sign_chars. simpl. by rewrite H43. }
  unfold strto_base. assert ((Z.land base (Z.lnot 16) =? 0) = false) as ->.
  { apply Z.eqb_neq. intros E. apply Hb16.
    assert (forall k, (k < 37)%nat -> (2 <= k)%nat -> k <> 16%nat ->
      Z.land (Z.of_nat k) (Z.lnot 16) <> 0) as Hall.
    { intros k Hk. do 37 (destruct k as [|k]; [by vm_compute; try lia|]). lia. }
    destruct (decide (base = 16)); [done|]. exfalso. apply (Hall (Z.to_nat base)); try lia.
    rewrite Z2Nat.id by lia. done. }
  rewrite (u32_small (base - 2)) by (unfold is_u32; lia).
  assert ((base - 2 <? 35) = true) as -> by (apply Z.ltb_lt; lia). done.
Qed.

(** The value of a signed numeral. *)
Definition numeral (sg : sign) (base : Z) (ds : list Z) : Z :=
  match sg with Minus => - digits_value base 0 ds | _ => digits_value base 0 ds end.

Lemma strtol_numeral sp sg ds rest base :
  Forall (fun x => isspace x = true) sp -> 2 <= base <= 36 -> base <> 16 ->
  ds <> [] -> Forall (fun d => 0 <= d < base) ds -> base <= strto_digit (char_at rest 0) ->
  let x := numeral sg base ds in
  strtol (sp ++ sign_chars sg ++ map digit_char ds ++ rest) base =
    (clamp x, rest, negb ((LONG_MIN <=? x) && (x <=? LONG_MAX))).
Proof.
  intros Hsp Hb Hb16 Hne Hds Hrest x. destruct ds as [|d ds]; [done|].
  pose proof Hds as Hds'. apply Forall_cons in Hds' as [Hd Hds'].
  unfold strtol. rewrite strto_l_prologue by done. cbv zeta.
  rewrite strto_loop_digits by (done || unfold ULONG_MAX; lia). cbv zeta.
  assert (0 <= digits_value base 0 (d :: ds)) as Hv.
  { apply digits_value_ge; [lia|done|]. eapply Forall_impl; [done|]. simpl. lia. }
  unfold x, numeral. set (v := digits_value base 0 (d :: ds)) in *. clearbody v.
  set (neg := if sg is Minus then true else false).
  unfold loop_end, clamp, ULONG_MAX, LONG_MAX, LONG_MIN, s32, u32.
  destruct (Z.leb_spec v (2 ^ 32 - 1)); simpl; destruct sg; simpl;
    repeat match goal with |- context [if ?a <? ?b then _ else _] => destruct (Z.ltb_spec a b) end;
    simpl; f_equal; try f_equal;
    repeat match goal with |- context [?a <=? ?b] => destruct (Z.leb_spec a b) end;
    simpl; try done; try (Z.to_euclidean_division_equations; lia).
Qed.

(** ** Printed numbers *)

Lemma digits_value_snoc base n ds d :
  digits_value base n (ds ++ [d]) = digits_value base n ds * base + d.
Proof. unfold digits_value. by rewrite foldl_snoc. Qed.

Lemma dec_aux_digits fuel n acc :
  0 <= n < 10 ^ Z.of_nat fuel -> (0 < fuel)%nat ->
  exists ds, dec_aux fuel n acc = map digit_char ds ++ acc /\ ds <> [] /\
    Forall (fun d => 0 <= d < 10) ds /\ digits_value 10 0 ds = n.
Proof.
  revert n acc. induction fuel as [|fuel IH]; intros n acc Hn Hf; [lia|].
  pose proof (Z.mod_pos_bound n 10). pose proof (Z.div_mod n 10).
  assert (48 + n mod 10 = digit_char (n mod 10)) as Hdig.
  { unfold digit_char. by rewrite (proj2 (Z.ltb_lt _ _)) by lia. }
  simpl. destruct (Z.ltb_spec n 10) as [Hlt|Hge].
  - exists [n mod 10]. rewrite Hdig. repeat split; try done.
    + by repeat constructor; lia.
    + unfold digits_value. simpl. rewrite Z.mod_small; lia.
  - destruct (IH (n / 10) ((48 + n mod 10) :: acc)) as (ds & E & Hne & Hds & Hv).
    { rewrite Nat2Z.inj_succ, Z.pow_succ_r in Hn by lia. split; [lia|].
      apply Z.div_lt_upper_bound; lia. }
    { destruct fuel; [simpl in Hn; lia|lia]. }
    exists (ds ++ [n mod 10]). rewrite E, map_app. simpl. rewrite <- app_assoc, Hdig. simpl.
    repeat split; [by destruct ds| |].
    + apply Forall_app. split; [done|]. by repeat constructor; lia.
    + rewrite digits_value_snoc, Hv. lia.
Qed.

Lemma dec_digits n :
  0 <= n -> exists ds, dec n = map digit_char ds /\ ds <> [] /\
    Forall (fun d => 0 <= d < 10) ds /\ digits_value 10 0 ds = n.
Proof.
  intros Hn. unfold dec.
  destruct (dec_aux_digits (S (Z.to_nat (Z.log2 n))) n []) as (ds & E & HE); [|lia|].
  - split; [done|]. rewrite Nat2Z.inj_succ, Z2Nat.id by apply Z.log2_nonneg.
    destruct (decide (n = 0)) as [->|]; [done|].
    apply (Z.lt_le_trans _ (2 ^ Z.succ (Z.log2 n))); [apply Z.log2_spec; lia|].
    apply Z.pow_le_mono_l. lia.
  - exists ds. by rewrite E, app_nil_r.
Qed.

Lemma sdec_numeral z :
  exists sg ds, sdec z = sign_chars sg ++ map digit_char ds /\ ds <> [] /\
    Forall (fun d => 0 <= d < 10) ds /\ numeral sg 10 ds = z.
Proof.
  unfold sdec. destruct (Z.ltb_spec z 0).
  - destruct (dec_digits (- z)) as (ds & -> & Hne & Hds & Hv); [lia|].
    exists Minus, ds. repeat split; try done. unfold numeral. lia.
  - destruct (dec_digits z) as (ds & -> & Hne & Hds & Hv); [lia|].
    by exists NoSign, ds.
Qed.

Lemma atoi_sdec z w rest :
  - 2 ^ 31 <= z < 2 ^ 31 -> 10 <= strto_digit (char_at rest 0) ->
  atoi (pad_left w (sdec z) ++ rest) = z.
Proof.
  intros Hz Hr. destruct (sdec_numeral z) as (sg & ds & E & Hne & Hds & Hv).
  unfold atoi, pad_left. rewrite E, <- !app_assoc.
  rewrite strtol_numeral; try done; try lia.
  - simpl. rewrite Hv. unfold clamp, LONG_MIN, LONG_MAX. lia.
  - by apply Forall_replicate.
Qed.

(** A number below [10 ^ k] has at most [k] digits. *)
Lemma dec_aux_length fuel n acc k :
  0 <= n < 10 ^ Z.of_nat k -> (0 < k)%nat -> (length (dec_aux fuel n acc) <= k + length acc)%nat.
Proof.
  revert n acc k. induction fuel as [|fuel IH]; intros n acc k Hn Hk; simpl; [lia|].
  destruct (Z.ltb_spec n 10); simpl; [lia|].
  destruct k as [|[|k]]; [lia| |].
  - change (10 ^ Z.of_nat 1) with 10 in Hn. lia.
  - rewrite Nat2Z.inj_succ, Z.pow_succ_r in Hn by lia.
    assert (0 <= n / 10 < 10 ^ Z.of_nat (S k)) as Hq.
    { split; [apply Z.div_pos; lia|apply Z.div_lt_upper_bound; lia]. }
    pose proof (IH (n / 10) ((48 + n mod 10) :: acc) (S k) Hq) as Hlen. simpl in Hlen. lia.
Qed.

Lemma dec_length n k : 0 <= n < 10 ^ Z.of_nat k -> (0 < k)%nat -> (length (dec n) <= k)%nat.
Proof. intros Hn Hk. unfold dec. rewrite <- (Nat.add_0_r k). by apply (dec_aux_length _ n []). Qed.

Lemma dec_chars n : 0 <= n -> Forall (fun c => 48 <= c <= 57) (dec n).
Proof.
  intros Hn. destruct (dec_digits n Hn) as (ds & -> & _ & Hds & _).
  apply Forall_map. eapply Forall_impl; [done|]. intros d Hd. unfold digit_char. simpl in *.
  rewrite (proj2 (Z.ltb_lt _ _)) by lia. lia.
Qed.

(** [strtol] computes what it documents.  On blanks, an optional sign and
    digits of the base (every base from 2 to 36 but 16, which has a prefix of
    its own), followed by something that is not a digit, the result is the
    number, clamped to the range of a [long]; [ERANGE] is set exactly when it
    was out of range, and the end pointer is behind the last digit. *)
Theorem strtol_correct sp sg ds rest base :
  Forall (fun x => isspace x = true) sp -> 2 <= base <= 36 -> base <> 16 ->
  ds <> [] -> Forall (fun d => 0 <= d < base) ds -> base <= strto_digit (char_at rest 0) ->
  let x := numeral sg base ds in
  strtol (sp ++ sign_chars sg ++ map digit_char ds ++ rest) base =
    (clamp x, rest, negb ((LONG_MIN <=? x) && (x <=? LONG_MAX))).
Proof. apply strtol_numeral. Qed.

(** " -4294967296," *)
Lemma strtol_correct_witness :
  strtol (lit " -4294967296,") 10 = (- 2 ^ 31, lit ",", true).
Proof.
  apply (strtol_correct [32] Minus [4;2;9;4;9;6;7;2;9;6] (lit ",") 10);
    [by repeat constructor|lia|lia|done|repeat (constructor; [lia|]); constructor|].
  vm_compute. congruence.
Defined.

(** A number printed with [%<w>d] is read back by [atoi], whatever comes
    after it, as long as it is not a digit: the two ends of a lock file agree
    on the process number. *)
Theorem printed_number_read_back z w rest :
  - 2 ^ 31 <= z < 2 ^ 31 -> 10 <= strto_digit (char_at rest 0) ->
  atoi (pad_left w (sdec z) ++ rest) = z.
Proof. apply atoi_sdec. Qed.

Lemma printed_number_read_back_witness : atoi (pad_left 10 (sdec 4711) ++ [10]) = 4711.
Proof. apply (printed_number_read_back 4711 10 [10]); [lia|vm_compute; congruence]. Defined.

(** The digit test is wrong for one character: [strtol] takes a back
    quote for the digit nine. *)
Theorem strtol_backquote_is_nine : strtol [96] 10 = (9, [], false).
Proof. vm_compute. reflexivity. Qed.
