(* ===== verification/Gpio.v ===== *)
(** * The GPIO pins: the tool src/apps/gpio/gpio.c and the driver
    src/linux2510/drivers/char/gigabyte_gpio.c

    Both work on the same registers of the S3C2510.  The registers are a
    function from addresses to 32-bit values. *)

From S2P Require Import Prelude CStdlib.

Abbreviation registers := (Z -> Z).

Definition reg_set (a v : Z) (R : registers) : registers := fun x => if x =? a then v else R x.

Definition IOPMODE1 : Z := 4026728448.   (* 0xF0030000 *)
Definition IOPMODE2 : Z := IOPMODE1 + 4.
Definition IOPCON1 : Z := IOPMODE1 + 8.
Definition IOPCON2 : Z := IOPMODE1 + 12.
Definition IOPDATA1 : Z := IOPMODE1 + 28.
Definition IOPDATA2 : Z := IOPMODE1 + 32.
Definition IOPDRV1 : Z := IOPMODE1 + 36.
Definition IOPDRV2 : Z := IOPMODE1 + 40.

(** ** The tool *)

(** The registers and what was printed, latest last. *)
Record Tool : Type := mkTool { regs : registers; printed : cstr }.

Abbreviation GM A := (M Tool A).

Definition REG (a : Z) : GM Z := gets (fun t => regs t a).
Definition REG_set (a v : Z) : GM unit := modify (fun t => mkTool (reg_set a v (regs t)) (printed t)).
Definition printf (s : cstr) : GM unit := modify (fun t => mkTool (regs t) (printed t ++ s)).

Definition newline : cstr := [10].

Definition usage : GM unit :=
  printf (lit "Usage: gpio [-g GPIO_bit] [-s GPIO_bit] [-c GPIO_bit] [-v] [-h]" ++ newline) ;;
  printf (lit "This is tool for manipulating GPIO pins of S3C2510 SoC" ++ newline) ;;
  printf (lit "  -g GPIO_bit  get selected GPIO bit" ++ newline) ;;
  printf (lit "  -s GPIO_bit  set selected GPIO bit" ++ newline) ;;
  printf (lit "  -c GPIO_bit  clear selected GPIO bit" ++ newline) ;;
  printf (lit "  -d           dump GPIO registers" ++ newline) ;;
  printf (lit "  -v           verbose output, shows bit state" ++ newline) ;;
  printf (lit "  -h           shows this help" ++ newline).

(** [1 << n] as an [unsigned long]; the shift by 32 or more is undefined. *)
Definition one_shifted (n : Z) : GM Z :=
  if n <? 32 then mret (u32 (Z.shiftl 1 n)) else stop_with OutOfBounds.

(** [0x%08lX] *)
Definition hex_digit (d : Z) : Z := if d <? 10 then 48 + d else 55 + d.
Definition hex8 (v : Z) : cstr :=
  map (fun k => hex_digit (Z.land (Z.shiftr v (4 * k)) 15)) [7; 6; 5; 4; 3; 2; 1; 0].

Definition dump_line (name : cstr) (a : Z) : GM unit :=
  v ← REG a;
  printf (name ++ lit "0x" ++ hex8 v ++ newline).

(** One option: [true] when the loop goes on, [false] for [return -1]. *)
Definition gpio_option (ret : Z) (optarg : cstr) : GM bool :=
  if ret =? 103 (* g *) then
    v ← REG IOPDATA1;
    b ← one_shifted (strtoul optarg 10).1.1;
    printf ((if negb (Z.land v b =? 0) then lit "1" else lit "0") ++ newline) ;; mret true
  else if ret =? 115 (* s *) then
    b ← one_shifted (strtoul optarg 10).1.1;
    v ← REG IOPDATA1;
    REG_set IOPDATA1 (Z.lor v b) ;; mret true
  else if ret =? 99 (* c *) then
    b ← one_shifted (strtoul optarg 10).1.1;
    v ← REG IOPDATA1;
    REG_set IOPDATA1 (Z.land v (u32 (Z.lnot b))) ;; mret true
  else if ret =? 100 (* d *) then
    printf (lit "S3C2510 GPIO registers state:" ++ newline) ;;
    dump_line (lit "IOPMODE1: ") IOPMODE1 ;;
    dump_line (lit "IOPMODE2: ") IOPMODE2 ;;
    dump_line (lit "IOPCON1:  ") IOPCON1 ;;
    dump_line (lit "IOPCON2:  ") IOPCON2 ;;
    dump_line (lit "IOPDATA1: ") IOPDATA1 ;;
    dump_line (lit "IOPDATA2: ") IOPDATA2 ;;
    dump_line (lit "IOPDRV1:  ") IOPDRV1 ;;
    dump_line (lit "IOPDRV2:  ") IOPDRV2 ;; mret true
  else if ret =? 118 (* v *) then mret true
  else if ret =? 104 (* h *) then usage ;; mret true
  else usage ;; mret false.

(** The loop over what [getopt] returns; the result is that of [main]. *)
Fixpoint gpio_options (options : list (Z * cstr)) : GM Z :=
  match options with
  | [] => mret 0
  | (ret, optarg) :: options' =>
      go ← gpio_option ret optarg;
      if (go : bool) then gpio_options options' else mret (-1)
  end.

Definition gpio_main (argc : Z) (options : list (Z * cstr)) : GM Z :=
  if argc <? 2 then usage ;; mret (-1) else gpio_options options.

(** ** The driver *)

Definition GPIO_LED_STATUS_OFF : Z := 0.
Definition GPIO_LED_STATUS_ON : Z := 1.
Definition GPIO_LED_STATUS_INIT : Z := 2.
Definition GPIO_BOARD_CMD : Z := 1.
Definition GPIO_LED_CMD : Z := 2.
Definition SWAP_CMD : Z := 4.
Definition GPIO_WRITE_ERROR_LED_ON : Z := 5.
Definition GPIO_WRITE_ERROR_LED_OFF : Z := 6.
Definition GPIO_WRITE_WIRELESS_LED_ON : Z := 7.
Definition GPIO_WRITE_WIRELESS_LED_OFF : Z := 8.
Definition WAKEUP_SWAPD : Z := 1.
Definition DISABLE_SWAPD_IN_GET_PAGE : Z := 2.
Definition GPIO_RETURN_FAIL : Z := 255.
Definition GPIO_RETURN_OK : Z := 1.
Definition BOARD_NUMBER_B41G : Z := 6.
Definition GPIO_LED_TIME_INTERVAL : Z := 4.
Definition WDTREG : Z := 4026793992.     (* 0xF0040008 *)

(** The registers, the static variables, the time the timer is set to and the
    number of wake-ups sent to kswapd. *)
Record Driver : Type := mkDriver {
  dregs : registers;
  nWirelessBlink : Z;
  nWirelessPacket : Z;
  nPostErr : Z;
  delay_WDS_reset_time : Z;
  nDisableSwap : Z;
  stTimer : option Z;
  swapd_wakeups : nat;
}.

Abbreviation DM A := (M Driver A).

Definition set_reg (a v : Z) : DM unit := modify (fun d =>
  mkDriver (reg_set a v (dregs d)) (nWirelessBlink d) (nWirelessPacket d) (nPostErr d)
    (delay_WDS_reset_time d) (nDisableSwap d) (stTimer d) (swapd_wakeups d)).
Definition get_reg (a : Z) : DM Z := gets (fun d => dregs d a).
Definition set_blink (v : Z) : DM unit := modify (fun d =>
  mkDriver (dregs d) v (nWirelessPacket d) (nPostErr d)
    (delay_WDS_reset_time d) (nDisableSwap d) (stTimer d) (swapd_wakeups d)).
Definition set_packet (v : Z) : DM unit := modify (fun d =>
  mkDriver (dregs d) (nWirelessBlink d) v (nPostErr d)
    (delay_WDS_reset_time d) (nDisableSwap d) (stTimer d) (swapd_wakeups d)).
Definition set_posterr (v : Z) : DM unit := modify (fun d =>
  mkDriver (dregs d) (nWirelessBlink d) (nWirelessPacket d) v
    (delay_WDS_reset_time d) (nDisableSwap d) (stTimer d) (swapd_wakeups d)).
Definition set_delay (v : Z) : DM unit := modify (fun d =>
  mkDriver (dregs d) (nWirelessBlink d) (nWirelessPacket d) (nPostErr d)
    v (nDisableSwap d) (stTimer d) (swapd_wakeups d)).
Definition mod_timer (v : Z) : DM unit := modify (fun d =>
  mkDriver (dregs d) (nWirelessBlink d) (nWirelessPacket d) (nPostErr d)
    (delay_WDS_reset_time d) (nDisableSwap d) (Some v) (swapd_wakeups d)).

Definition or_reg (a v : Z) : DM unit := x ← get_reg a; set_reg a (Z.lor x v).
Definition and_reg (a v : Z) : DM unit := x ← get_reg a; set_reg a (Z.land x v).

Definition init_wdt : DM unit := set_reg WDTREG 0.

Definition update_wdt : DM unit :=
  t ← gets delay_WDS_reset_time;
  when (0 <? t) (set_delay (t - 1)) ;;
  t ← gets delay_WDS_reset_time;
  when (t <=? 0) (set_reg WDTREG 4294049792 (* 0xFFF20000 *)).

(** [active]: whether somebody waits on [kswapd_wait]. *)
Definition wakeup_swapd (active : bool) : DM unit := modify (fun d =>
  mkDriver (dregs d) (nWirelessBlink d) (nWirelessPacket d) (nPostErr d)
    (delay_WDS_reset_time d) (nDisableSwap d) (stTimer d)
    (if active then S (swapd_wakeups d) else swapd_wakeups d)).

Definition disable_swapd_in_get_page : DM unit := modify (fun d =>
  mkDriver (dregs d) (nWirelessBlink d) (nWirelessPacket d) (nPostErr d)
    (delay_WDS_reset_time d) 1 (stTimer d) (swapd_wakeups d)).

Definition gpio_kernel_ioctl (active : bool) (ucGPIOType ucRWMode : Z) : DM Z :=
  if ucGPIOType =? GPIO_LED_CMD then
    if ucRWMode =? GPIO_WRITE_ERROR_LED_ON then
      or_reg IOPDATA1 128 ;; set_posterr GPIO_LED_STATUS_ON ;; mret GPIO_RETURN_OK
    else if ucRWMode =? GPIO_WRITE_ERROR_LED_OFF then
      and_reg IOPDATA1 4294967167 (* 0xffffff7f *) ;;
      set_posterr GPIO_LED_STATUS_OFF ;; mret GPIO_RETURN_OK
    else if ucRWMode =? GPIO_WRITE_WIRELESS_LED_ON then
      n ← gets nWirelessPacket;
      set_packet (u32 (n + 1)) ;; mret GPIO_RETURN_OK
    else if ucRWMode =? GPIO_WRITE_WIRELESS_LED_OFF then
      set_packet 0 ;;
      and_reg IOPDATA1 4294967231 (* 0xffffffbf *) ;;
      set_blink GPIO_LED_STATUS_INIT ;; mret GPIO_RETURN_OK
    else mret GPIO_RETURN_FAIL
  else if ucGPIOType =? SWAP_CMD then
    if ucRWMode =? WAKEUP_SWAPD then wakeup_swapd active ;; mret GPIO_RETURN_OK
    else if ucRWMode =? DISABLE_SWAPD_IN_GET_PAGE then
      disable_swapd_in_get_page ;; mret GPIO_RETURN_OK
    else mret GPIO_RETURN_FAIL
  else if ucGPIOType =? GPIO_BOARD_CMD then mret BOARD_NUMBER_B41G
  else mret GPIO_RETURN_FAIL.

Definition gigabyte_gpio_ioctl : bool -> Z -> Z -> DM Z := gpio_kernel_ioctl.

(** The timer function; [jiffies] is the time it runs at. *)
Definition gigabyte_do_led (jiffies : Z) : DM unit :=
  update_wdt ;;
  blink ← gets nWirelessBlink;
  packet ← gets nWirelessPacket;
  (if blink =? GPIO_LED_STATUS_INIT then
     when (negb (packet =? 0))
       (set_packet 0 ;; set_blink GPIO_LED_STATUS_ON ;; or_reg IOPDATA1 64)
   else if blink =? GPIO_LED_STATUS_ON then
     when (negb (packet =? 0))
       (set_packet 0 ;; set_blink GPIO_LED_STATUS_OFF ;; and_reg IOPDATA1 4294967231)
   else
     when (blink =? GPIO_LED_STATUS_OFF)
       (set_packet 0 ;; set_blink GPIO_LED_STATUS_ON ;; or_reg IOPDATA1 64)) ;;
  mod_timer (u32 (jiffies + GPIO_LED_TIME_INTERVAL)).

(** [register_fails]: what [misc_register] returns. *)
Definition gigabyte_gpio_init (register_fails : bool) (jiffies : Z) : DM Z :=
  and_reg IOPMODE1 4294967167 ;;
  and_reg IOPMODE1 4294967231 ;;
  if register_fails then mret (-22)
  else
    init_wdt ;;
    mod_timer (u32 (jiffies + GPIO_LED_TIME_INTERVAL)) ;;
    mret 0.

(** ** The tool sets, clears and reads single pins *)

Lemma strtoul_pin n : 0 <= n < 32 -> (strtoul (dec n) 10).1.1 = n.
Proof.
  intros Hn. assert (forallb (fun k => (strtoul (dec (Z.of_nat k)) 10).1.1 =? Z.of_nat k) (seq 0 32) = true)
    as Hall by by vm_compute.
  rewrite forallb_forall in Hall. specialize (Hall (Z.to_nat n)). rewrite Z2Nat.id in Hall by lia.
  apply Z.eqb_eq, Hall, in_seq. lia.
Qed.

Lemma one_shifted_pin n t : 0 <= n < 32 -> one_shifted n t = Ret (2 ^ n) t.
Proof.
  intros Hn. unfold one_shifted. rewrite (proj2 (Z.ltb_lt _ _)) by lia.
  rewrite Z.shiftl_1_l. unfold u32. rewrite Z.mod_small; [done|].
  split; [lia|]. apply Z.pow_lt_mono_r; lia.
Qed.

Lemma not_pin n : 0 <= n < 32 -> u32 (Z.lnot (2 ^ n)) = Z.ldiff (Z.ones 32) (2 ^ n).
Proof.
  intros Hn. unfold u32. rewrite <- Z.land_ones by lia. by rewrite Z.land_comm, Z.ldiff_land.
Qed.

Lemma pin_test v n : 0 <= n -> negb (Z.land v (2 ^ n) =? 0) = Z.testbit v n.
Proof.
  intros Hn. destruct (Z.testbit v n) eqn:E.
  - apply negb_true_iff, Z.eqb_neq. intros Hz.
    assert (Z.testbit (Z.land v (2 ^ n)) n = false) as Hf by by rewrite Hz, Z.testbit_0_l.
    rewrite Z.land_spec, E, Z.pow2_bits_true in Hf by done. done.
  - apply negb_false_iff, Z.eqb_eq. apply Z.bits_inj'. intros i Hi.
    rewrite Z.land_spec, Z.testbit_0_l, Z.pow2_bits_eqb by done.
    destruct (Z.eqb_spec n i) as [<-|]; [by rewrite E|by rewrite andb_false_r].
Qed.

(** [gpio -s n -g n] and [gpio -c n -g n] *)
Definition pin_options (set : bool) (n : Z) : list (Z * cstr) :=
  [(if set then 115 else 99, dec n); (103, dec n)].

(** Setting or clearing a pin with the tool and reading it back prints the
    new value, changes that pin in IOPDATA1 and no other, and no other
    register. *)
Theorem gpio_pin_readback set n argc t :
  0 <= n < 32 -> 2 <= argc -> 0 <= regs t IOPDATA1 < 2 ^ 32 ->
  exists t', gpio_main argc (pin_options set n) t = Ret 0 t' /\
    printed t' = printed t ++ (if set then lit "1" else lit "0") ++ newline /\
    (forall i, 0 <= i < 32 ->
       Z.testbit (regs t' IOPDATA1) i = if i =? n then set else Z.testbit (regs t IOPDATA1) i) /\
    (forall a, a <> IOPDATA1 -> regs t' a = regs t a).
Proof.
  intros Hn Hargc Hreg. unfold gpio_main, pin_options. rewrite (proj2 (Z.ltb_ge _ _)) by lia.
  cbn [gpio_options]. unfold gpio_option.
  destruct set; cbn [Z.eqb Pos.eqb]; rewrite !strtoul_pin by done.
  all: rewrite !bind_bind; erewrite bind_Ret by by apply one_shifted_pin.
  all: unfold REG, REG_set, printf; rewrite !bind_bind, !bind_gets, !bind_bind, !bind_modify, !bind_mret;
    cbv beta iota; rewrite !bind_bind, !bind_gets, !bind_bind; erewrite bind_Ret by by apply one_shifted_pin.
  all: rewrite !bind_bind, !bind_modify, !bind_mret; cbv beta iota; eexists; split; [reflexivity|]; cbn [regs printed].
  all: unfold reg_set; rewrite Z.eqb_refl, pin_test by lia.
  all: rewrite ?not_pin, ?Z.lor_spec, ?Z.land_spec, ?Z.ldiff_spec, Z.pow2_bits_true, ?orb_true_r, ?andb_false_r by lia.
  all: split_and!; [done| |intros a Ha; by rewrite (proj2 (Z.eqb_neq _ _) Ha)].
  all: intros i Hi; rewrite ?Z.lor_spec, ?Z.land_spec, ?Z.ldiff_spec, Z.pow2_bits_eqb, (Z.eqb_sym n i) by lia.
  - destruct (i =? n); [by rewrite orb_true_r|by rewrite orb_false_r].
  - rewrite Z.ones_spec_low by lia. destruct (i =? n); [by rewrite andb_false_r|by rewrite andb_true_r].
Qed.

Lemma gpio_pin_readback_witness :
  exists t', gpio_main 5 (pin_options true 7) (mkTool (fun _ => 64) []) = Ret 0 t' /\
    printed t' = [] ++ lit "1" ++ newline /\
    (forall i, 0 <= i < 32 -> Z.testbit (regs t' IOPDATA1) i = if i =? 7 then true else Z.testbit 64 i) /\
    (forall a, a <> IOPDATA1 -> regs t' a = 64).
Proof. apply (gpio_pin_readback true 7 5 (mkTool (fun _ => 64) [])); simpl; lia. Defined.

(** ** The driver refines a machine of two lamps and a countdown *)

Inductive event : Type :=
| Tick (jiffies : Z)
| Ioctl (active : bool) (ucGPIOType ucRWMode : Z).

Definition driver_step (e : event) : DM unit :=
  match e with
  | Tick j => gigabyte_do_led j
  | Ioctl a ty mode => gigabyte_gpio_ioctl a ty mode ;; mret tt
  end.

Fixpoint driver_run (es : list event) : DM unit :=
  match es with
  | [] => mret tt
  | e :: es' => driver_step e ;; driver_run es'
  end.

(** The lamps: whether the wireless lamp is lit, whether it is following the
    traffic (it was lit by traffic and not switched off since), the traffic
    since the last tick, whether the error lamp is lit, the ticks so far. *)
Record Lamps : Type := mkLamps {
  wireless_lit : bool;
  following : bool;
  traffic : bool;
  error_lit : bool;
  ticks : nat;
}.

(** A tick of a lamp that follows the traffic darkens it when there was
    traffic and lights it otherwise or when it was dark; the first traffic
    lights it; the off request darkens it, and it stays dark until there is
    traffic again. *)
Definition lamps_step (e : event) (s : Lamps) : Lamps :=
  match e with
  | Tick _ =>
      mkLamps
        (if following s then negb (wireless_lit s && traffic s) else wireless_lit s || traffic s)
        (following s || traffic s) false (error_lit s) (S (ticks s))
  | Ioctl _ ty mode =>
      if ty =? GPIO_LED_CMD then
        if mode =? GPIO_WRITE_ERROR_LED_ON then
          mkLamps (wireless_lit s) (following s) (traffic s) true (ticks s)
        else if mode =? GPIO_WRITE_ERROR_LED_OFF then
          mkLamps (wireless_lit s) (following s) (traffic s) false (ticks s)
        else if mode =? GPIO_WRITE_WIRELESS_LED_ON then
          mkLamps (wireless_lit s) (following s) true (error_lit s) (ticks s)
        else if mode =? GPIO_WRITE_WIRELESS_LED_OFF then
          mkLamps false false false (error_lit s) (ticks s)
        else s
      else s
  end.

Definition lamps_run (es : list event) (s : Lamps) : Lamps := foldl (fun s e => lamps_step e s) s es.

(** The lamps as the pins [v] show them when the module is loaded. *)
Definition lamps_at (v : Z) : Lamps := mkLamps (Z.testbit v 6) false false (Z.testbit v 7) 0.

(** [d] shows the lamps [s], after fewer than [k] events, and has left the
    other pins of [v0] alone. *)
Record shows (v0 : Z) (k : Z) (s : Lamps) (d : Driver) : Prop := mkShows {
  sh_blink : nWirelessBlink d =
    (if following s then if wireless_lit s then GPIO_LED_STATUS_ON else GPIO_LED_STATUS_OFF
     else GPIO_LED_STATUS_INIT);
  sh_wireless : Z.testbit (dregs d IOPDATA1) 6 = wireless_lit s;
  sh_error : Z.testbit (dregs d IOPDATA1) 7 = error_lit s;
  sh_packet : 0 <= nWirelessPacket d <= k;
  sh_traffic : traffic s = negb (nWirelessPacket d =? 0);
  sh_delay : delay_WDS_reset_time d = Z.max 0 (6000 - Z.of_nat (ticks s));
  sh_wdt : dregs d WDTREG = if Z.of_nat (ticks s) <? 6000 then 0 else 4294049792;
  sh_others : forall i, 0 <= i < 32 -> i <> 6 -> i <> 7 ->
    Z.testbit (dregs d IOPDATA1) i = Z.testbit v0 i;
}.

Lemma low_bits (P : Z -> bool) : forallb P (map Z.of_nat (seq 0 32)) = true -> forall i, 0 <= i < 32 -> P i = true.
Proof.
  intros Hall i Hi. rewrite forallb_forall in Hall. apply Hall. apply in_map_iff.
  exists (Z.to_nat i). split; [lia|]. apply in_seq. lia.
Qed.

Lemma mask_bits i : 0 <= i < 32 ->
  Z.testbit 64 i = (i =? 6) /\ Z.testbit 128 i = (i =? 7) /\
  Z.testbit 4294967231 i = negb (i =? 6) /\ Z.testbit 4294967167 i = negb (i =? 7).
Proof.
  intros Hi. split_and!; apply eqb_prop.
  - revert i Hi. apply low_bits. by vm_compute.
  - revert i Hi. apply (low_bits (fun i => eqb (Z.testbit 128 i) (i =? 7))). by vm_compute.
  - revert i Hi. apply (low_bits (fun i => eqb (Z.testbit 4294967231 i) (negb (i =? 6)))). by vm_compute.
  - revert i Hi. apply (low_bits (fun i => eqb (Z.testbit 4294967167 i) (negb (i =? 7)))). by vm_compute.
Qed.

Lemma tick_wdt v0 k s d :
  shows v0 k s d ->
  exists d1, update_wdt d = Ret tt d1 /\
    shows v0 k (mkLamps (wireless_lit s) (following s) (traffic s) (error_lit s) (S (ticks s))) d1.
Proof.
  intros [Hb Hw He Hp Ht Hd Hr Ho]. unfold update_wdt. rewrite bind_gets.
  destruct (Z.ltb_spec 0 (delay_WDS_reset_time d)) as [Hpos|Hz]; cbn [when].
  - unfold set_delay at 1. rewrite bind_modify, bind_gets. cbn [delay_WDS_reset_time].
    destruct (Z.leb_spec (delay_WDS_reset_time d - 1) 0); cbn [when]; eexists; (split; [reflexivity|]);
      split; cbn -[reg_set IOPDATA1 WDTREG Z.of_nat]; try done; try lia.
    + unfold reg_set. rewrite Z.eqb_refl. by rewrite (proj2 (Z.ltb_ge _ _)) by lia.
    + rewrite Hr, !(proj2 (Z.ltb_lt _ _)) by lia. done.
  - rewrite bind_mret, bind_gets. rewrite (proj2 (Z.leb_le _ _) Hz). cbn [when]. eexists. split; [reflexivity|].
    split; cbn -[reg_set IOPDATA1 WDTREG Z.of_nat]; try done; try lia.
    unfold reg_set. rewrite Z.eqb_refl. by rewrite (proj2 (Z.ltb_ge _ _)) by lia.
Qed.

(** The register operations on the pins 6 and 7. *)
Lemma pins_after v i : 0 <= i < 32 ->
  Z.testbit (Z.lor v 64) i = (Z.testbit v i || (i =? 6)) /\
  Z.testbit (Z.lor v 128) i = (Z.testbit v i || (i =? 7)) /\
  Z.testbit (Z.land v 4294967231) i = (Z.testbit v i && negb (i =? 6)) /\
  Z.testbit (Z.land v 4294967167) i = (Z.testbit v i && negb (i =? 7)).
Proof.
  intros Hi. destruct (mask_bits i Hi) as (H1 & H2 & H3 & H4).
  by rewrite !Z.lor_spec, !Z.land_spec, H1, H2, H3, H4.
Qed.

(** What the four operations do to the lamps and to the other pins. *)
Lemma pins_set v :
  (forall i, 0 <= i < 32 -> i <> 6 -> i <> 7 ->
     Z.testbit (Z.lor v 64) i = Z.testbit v i /\ Z.testbit (Z.lor v 128) i = Z.testbit v i /\
     Z.testbit (Z.land v 4294967231) i = Z.testbit v i /\
     Z.testbit (Z.land v 4294967167) i = Z.testbit v i) /\
  Z.testbit (Z.lor v 64) 6 = true /\ Z.testbit (Z.land v 4294967231) 6 = false /\
  Z.testbit (Z.lor v 128) 7 = true /\ Z.testbit (Z.land v 4294967167) 7 = false /\
  Z.testbit (Z.lor v 64) 7 = Z.testbit v 7 /\ Z.testbit (Z.land v 4294967231) 7 = Z.testbit v 7 /\
  Z.testbit (Z.lor v 128) 6 = Z.testbit v 6 /\ Z.testbit (Z.land v 4294967167) 6 = Z.testbit v 6.
Proof.
  destruct (pins_after v 6 ltac:(lia)) as (A1 & A2 & A3 & A4).
  destruct (pins_after v 7 ltac:(lia)) as (B1 & B2 & B3 & B4).
  rewrite A1, A2, A3, A4, B1, B2, B3, B4, !orb_true_r, !andb_false_r, !orb_false_r, !andb_true_r.
  split_and!; try done.
  - intros i Hi H6 H7. destruct (pins_after v i Hi) as (-> & -> & -> & ->).
    by rewrite (proj2 (Z.eqb_neq i 6)), (proj2 (Z.eqb_neq i 7)), orb_false_r, andb_true_r by done.
Qed.

(** Closes the obligations of [shows] after a change of the pins of [d]. *)
Ltac pins_done d :=
  let P := fresh in
  destruct (pins_set (dregs d IOPDATA1)) as (P & ? & ? & ? & ? & ? & ? & ? & ?);
  split; cbn -[reg_set IOPDATA1 WDTREG Z.of_nat Z.lor Z.land Z.testbit Z.eqb] in *;
  unfold reg_set; rewrite ?Z.eqb_refl; change (WDTREG =? IOPDATA1) with false; cbv iota;
  try done; try lia; try (by etransitivity; eassumption);
  try (intros i Hi N6 N7; destruct (P i Hi N6 N7) as (Q1 & Q2 & Q3 & Q4); rewrite ?Q1, ?Q2, ?Q3, ?Q4; by auto).

Lemma driver_step_shows v0 k s d e :
  shows v0 k s d -> 0 <= k -> k + 1 < 2 ^ 32 ->
  exists d', driver_step e d = Ret tt d' /\ shows v0 (k + 1) (lamps_step e s) d'.
Proof.
  intros Hs Hk Hk'. destruct e as [j|active ty mode]; cbn [driver_step].
  - unfold gigabyte_do_led. destruct (tick_wdt _ _ _ _ Hs) as (d1 & E & Hs1).
    rewrite (bind_Ret _ _ _ _ _ E). clear Hs E d. destruct Hs1 as [Hb Hw He Hp Ht Hd Hr Ho].
    rewrite !bind_gets, Hb. cbn [lamps_step]. cbn [wireless_lit following traffic error_lit ticks] in *.
    destruct (following s), (wireless_lit s); cbn [Z.eqb Pos.eqb GPIO_LED_STATUS_INIT GPIO_LED_STATUS_ON GPIO_LED_STATUS_OFF];
      rewrite ?Ht; destruct (negb (nWirelessPacket d1 =? 0)) eqn:Epk; cbn [when negb orb andb];
      eexists; (split; [reflexivity|]); pins_done d1.
  - unfold gigabyte_gpio_ioctl, gpio_kernel_ioctl. cbn [lamps_step].
    destruct Hs as [Hb Hw He Hp Ht Hd Hr Ho].
    assert (shows v0 (k + 1) s d) as Hsame by (split; try done; lia).
    destruct (ty =? GPIO_LED_CMD).
    + destruct (mode =? GPIO_WRITE_ERROR_LED_ON); [eexists; (split; [reflexivity|]); pins_done d|].
      destruct (mode =? GPIO_WRITE_ERROR_LED_OFF); [eexists; (split; [reflexivity|]); pins_done d|].
      destruct (mode =? GPIO_WRITE_WIRELESS_LED_ON).
      { eexists; (split; [reflexivity|]). unfold u32. split; cbn -[Z.modulo Z.of_nat] in *; try done;
          rewrite Z.mod_small by lia; [lia|]. symmetry. apply negb_true_iff, Z.eqb_neq. lia. }
      destruct (mode =? GPIO_WRITE_WIRELESS_LED_OFF); [eexists; (split; [reflexivity|]); pins_done d|].
      eexists. by split; [reflexivity|].
    + destruct (ty =? SWAP_CMD); [|destruct (ty =? GPIO_BOARD_CMD); eexists; by split; [reflexivity|]].
      destruct (mode =? WAKEUP_SWAPD); [eexists; (split; [reflexivity|]); by destruct Hsame|].
      destruct (mode =? DISABLE_SWAPD_IN_GET_PAGE); [eexists; (split; [reflexivity|]); by destruct Hsame|].
      eexists. by split; [reflexivity|].
Qed.

Lemma driver_run_shows es v0 k s d :
  shows v0 k s d -> 0 <= k -> k + Z.of_nat (length es) < 2 ^ 32 ->
  exists d', driver_run es d = Ret tt d' /\ shows v0 (k + Z.of_nat (length es)) (lamps_run es s) d'.
Proof.
  revert k s d. induction es as [|e es IH]; intros k s d Hs Hk Hlen; cbn [driver_run length] in *.
  { exists d. split; [done|]. by rewrite Z.add_0_r. }
  destruct (driver_step_shows v0 k s d e Hs Hk) as (d1 & E & Hs1); [lia|].
  destruct (IH (k + 1) _ _ Hs1) as (d2 & E2 & Hs2); [lia|lia|].
  exists d2. rewrite (bind_Ret _ _ _ _ _ E). split; [done|].
  replace (k + Z.of_nat (S (length es))) with (k + 1 + Z.of_nat (length es)) by lia. done.
Qed.

(** The static variables before the module is loaded. *)
Definition driver_initial (R : registers) : Driver :=
  mkDriver R GPIO_LED_STATUS_INIT 0 0 6000 0 None 0.

Lemma init_shows R j :
  exists d, gigabyte_gpio_init false j (driver_initial R) = Ret 0 d /\
    shows (R IOPDATA1) 0 (lamps_at (R IOPDATA1)) d.
Proof.
  eexists. split; [reflexivity|]. split; try done.
Qed.

(** The driver loaded, and the events that follow. *)
Definition driver_session (R : registers) (j : Z) (es : list event) : outcome Driver unit :=
  (gigabyte_gpio_init false j ;; driver_run es) (driver_initial R).

(** C40: after loading the module, with its registration accepted, and any
    sequence of fewer than 2^32 requests and timer ticks the driver has
    returned and is in the state of the lamp machine started on the pins as
    they were: pin 6 is the wireless lamp, which the first traffic lights,
    which goes dark for one tick with each tick that saw traffic, and which the
    off request darkens and keeps dark until there is traffic again; pin 7 is
    the error lamp as it was last requested; the other pins of IOPDATA1 are as
    they were, and the watchdog is off for 5999 ticks and armed from the 6000th
    on. *)
Theorem driver_refines_lamps R j es :
  Z.of_nat (length es) < 2 ^ 32 ->
  exists d, driver_session R j es = Ret tt d /\
    let s := lamps_run es (lamps_at (R IOPDATA1)) in
    Z.testbit (dregs d IOPDATA1) 6 = wireless_lit s /\ Z.testbit (dregs d IOPDATA1) 7 = error_lit s /\
    (forall i, 0 <= i < 32 -> i <> 6 -> i <> 7 ->
       Z.testbit (dregs d IOPDATA1) i = Z.testbit (R IOPDATA1) i) /\
    dregs d WDTREG = if Z.of_nat (ticks s) <? 6000 then 0 else 4294049792.
Proof.
  intros Hlen. unfold driver_session. destruct (init_shows R j) as (d0 & E & Hs).
  destruct (driver_run_shows es _ 0 _ _ Hs) as (d & E' & []); [lia|done|].
  exists d. rewrite (bind_Ret _ _ _ _ _ E). by split_and!.
Qed.

(** Traffic, two ticks, an error, and the lamp lit again and switched off. *)
Definition sample_events : list event :=
  [Ioctl false 2 7; Tick 4; Ioctl false 2 7; Tick 8; Ioctl false 2 5; Tick 12; Ioctl false 2 8].

Lemma driver_refines_lamps_witness :
  exists d, driver_session (fun _ => 5) 0 sample_events = Ret tt d /\
    let s := lamps_run sample_events (lamps_at 5) in
    Z.testbit (dregs d IOPDATA1) 6 = wireless_lit s /\ Z.testbit (dregs d IOPDATA1) 7 = error_lit s /\
    (forall i, 0 <= i < 32 -> i <> 6 -> i <> 7 ->
       Z.testbit (dregs d IOPDATA1) i = Z.testbit 5 i) /\
    dregs d WDTREG = if Z.of_nat (ticks s) <? 6000 then 0 else 4294049792.
Proof. apply (driver_refines_lamps (fun _ => 5) 0 sample_events). simpl. lia. Defined.

(** On the sample the wireless lamp is lit after the third tick, dark after the
    request, and the error lamp is lit. *)
Example sample_lamps :
  wireless_lit (lamps_run (take 6 sample_events) (lamps_at 5)) = true /\
  lamps_run sample_events (lamps_at 5) = mkLamps false false false true 3.
Proof. split; reflexivity. Qed.
