(* ===== verification/Inet.v ===== *)
(** * Internet addresses of uClibc (src/uClibc/libc/inet/addr.c)

    An address ([struct in_addr]) is the number [ntohl (s_addr)]: every
    function of the file converts on entry and exit, so that the byte order of
    the machine does not show, and [htonl] maps the error value [-1] to
    itself. *)

From S2P Require Import Prelude CStdlib.

Definition isdigit (c : Z) : bool := (48 <=? c) && (c <=? 57).

(** The inner loop over the digits at [cp]: the value and the rest of the string, or
    [None] when it exceeds 255. *)
Fixpoint inet_octet (cp : cstr) (value : Z) : option (Z * cstr) :=
  match cp with
  | c :: cp' =>
      if isdigit c then
        let value := value * 10 + (c - 48) in
        if 255 <? value then None else inet_octet cp' value
      else Some (value, cp)
  | [] => Some (value, [])
  end.

(** The loop over [part]; [more] are the parts after this one. *)
Fixpoint inet_parts (more : nat) (cp : cstr) (addr : Z) : option Z :=
  if negb (isdigit (char_at cp 0)) then None
  else
    match inet_octet cp 0 with
    | None => None
    | Some (value, cp) =>
        let addr' := Z.lor (u32 (Z.shiftl addr 8)) value in
        match more with
        | S more' =>
            if negb (char_at cp 0 =? 46) then None else inet_parts more' (drop 1 cp) addr'
        | O =>
            let c := char_at cp 0 in
            if negb (c =? 0) && negb (isspace c) then None else Some addr'
        end
    end.

(** [Some] is the return value 1 with [*inp] set. *)
Definition inet_aton (cp : cstr) : option Z := inet_parts 3 cp 0.

Definition inet_addr (cp : cstr) : Z := default (2 ^ 32 - 1) (inet_aton cp).

(** The text is built from its end: [p] is what is already there. *)
Fixpoint inet_ntoa_loop (n : nat) (addr : Z) (p : cstr) : cstr :=
  match n with
  | O => p
  | S n' =>
      let p := dec (Z.land addr 255) ++ (if p is [] then [] else 46 :: p) in
      inet_ntoa_loop n' (Z.shiftr addr 8) p
  end.

Definition inet_ntoa_r (addr : Z) : cstr := inet_ntoa_loop 4 addr [].

Definition IN_CLASSA_NET : Z := 4278190080.   (* 0xff000000 *)
Definition IN_CLASSB_NET : Z := 4294901760.   (* 0xffff0000 *)
Definition IN_CLASSC_NET : Z := 4294967040.   (* 0xffffff00 *)
Definition host_mask (net : Z) : Z := Z.land 4294967295 (Z.lnot net).
Definition IN_CLASSA (a : Z) : bool := Z.land a 2147483648 =? 0.
Definition IN_CLASSB (a : Z) : bool := Z.land a 3221225472 =? 2147483648.

Definition inet_makeaddr (net host : Z) : Z :=
  if net <? 128 then Z.lor (u32 (Z.shiftl net 24)) (Z.land host (host_mask IN_CLASSA_NET))
  else if net <? 65536 then Z.lor (u32 (Z.shiftl net 16)) (Z.land host (host_mask IN_CLASSB_NET))
  else if net <? 16777216 then Z.lor (u32 (Z.shiftl net 8)) (Z.land host (host_mask IN_CLASSC_NET))
  else Z.lor net host.

Definition inet_lnaof (i : Z) : Z :=
  if IN_CLASSA i then Z.land i (host_mask IN_CLASSA_NET)
  else if IN_CLASSB i then Z.land i (host_mask IN_CLASSB_NET)
  else Z.land i (host_mask IN_CLASSC_NET).

Definition inet_netof (i : Z) : Z :=
  if IN_CLASSA i then Z.shiftr (Z.land i IN_CLASSA_NET) 24
  else if IN_CLASSB i then Z.shiftr (Z.land i IN_CLASSB_NET) 16
  else Z.shiftr (Z.land i IN_CLASSC_NET) 8.

(** ** Correctness *)

Lemma isdigit_char d : 0 <= d < 10 -> isdigit (digit_char d) = true /\ digit_char d - 48 = d.
Proof.
  intros Hd. unfold isdigit, digit_char. rewrite (proj2 (Z.ltb_lt _ _)) by lia.
  split; [|lia]. apply andb_true_intro. split; apply Z.leb_le; lia.
Qed.

Lemma inet_octet_digits ds v rest :
  0 <= v -> Forall (fun d => 0 <= d < 10) ds -> digits_value 10 v ds <= 255 ->
  isdigit (char_at rest 0) = false ->
  inet_octet (map digit_char ds ++ rest) v = Some (digits_value 10 v ds, rest).
Proof.
  intros Hv Hds. revert v Hv. induction Hds as [|d ds Hd Hds IH]; intros v Hv Hle Hr.
  - destruct rest as [|c r]; [done|]. unfold char_at in Hr. simpl in *. by rewrite Hr.
  - simpl. destruct (isdigit_char d Hd) as [-> ->].
    simpl in Hle. assert (v * 10 + d <= 255) as Hstep.
    { etrans; [|exact Hle]. apply (digits_value_ge 10 _ ds); [lia|lia|].
      eapply Forall_impl; [done|]. simpl. lia. }
    rewrite (proj2 (Z.ltb_ge _ _)) by lia. apply IH; [lia|done|done].
Qed.

(** One part of a dotted quad. *)
Lemma inet_parts_dec more b rest addr :
  0 <= b < 256 -> isdigit (char_at rest 0) = false ->
  inet_parts more (dec b ++ rest) addr =
    let addr' := Z.lor (u32 (Z.shiftl addr 8)) b in
    match more with
    | S more' => if negb (char_at rest 0 =? 46) then None
                 else inet_parts more' (drop 1 rest) addr'
    | O => let c := char_at rest 0 in
           if negb (c =? 0) && negb (isspace c) then None else Some addr'
    end.
Proof.
  intros Hb Hr. destruct (dec_digits b) as (ds & -> & Hne & Hds & Hv); [lia|].
  assert (isdigit (char_at (map digit_char ds ++ rest) 0) = true) as Hd.
  { destruct ds as [|d ds]; [done|]. apply Forall_cons in Hds as [Hd _].
    unfold char_at. simpl. by apply isdigit_char. }
  pose proof (inet_octet_digits ds 0 rest) as Ho. rewrite Hv in Ho.
  destruct more; simpl; rewrite Hd, Ho; try done; lia.
Qed.

Lemma land_255 n : Z.land n 255 = u8 n.
Proof. change 255 with (Z.ones 8). by rewrite Z.land_ones. Qed.

(** Gluing the bytes of a number back together. *)
Lemma lor_shift_byte a b : 0 <= a < 2 ^ 24 -> is_byte b ->
  Z.lor (u32 (Z.shiftl a 8)) b = a * 256 + b.
Proof.
  intros Ha Hb. unfold is_byte in Hb. rewrite Z.shiftl_mul_pow2 by lia. change (2 ^ 8) with 256.
  rewrite u32_small by (unfold is_u32; lia).
  symmetry. rewrite <- Z.add_lor_land. assert (Z.land (a * 256) b = 0) as ->; [|lia].
  change 256 with (2 ^ 8). rewrite <- Z.shiftl_mul_pow2 by lia.
  apply Z.bits_inj'. intros i Hi. rewrite Z.land_spec, Z.bits_0, Z.shiftl_spec by done.
  destruct (Z.ltb_spec i 8).
  - by rewrite (Z.testbit_neg_r a) by lia.
  - replace b with (u8 b) by by apply u8_small. rewrite testbit_u8 by done.
    rewrite (proj2 (Z.ltb_ge _ _)) by lia. by rewrite andb_false_r.
Qed.

(** Printing an address and parsing the text gives the address back. *)
Theorem inet_ntoa_aton addr : is_u32 addr -> inet_aton (inet_ntoa_r addr) = Some addr.
Proof.
  intros [H0 H1]. unfold inet_ntoa_r, inet_ntoa_loop, inet_aton. rewrite !land_255.
  rewrite !Z.shiftr_div_pow2 by lia. change (2 ^ 8) with 256. rewrite !Z.div_div by lia.
  change (256 * (256 * 256)) with (2 ^ 24). change (256 * 256) with (2 ^ 16).
  set (b3 := u8 addr). set (b2 := u8 (addr / 256)). set (b1 := u8 (addr / 2 ^ 16)).
  set (b0 := u8 (addr / 2 ^ 24)).
  assert (is_byte b0 /\ is_byte b1 /\ is_byte b2 /\ is_byte b3) as (B0 & B1 & B2 & B3)
    by (split_and!; apply u8_byte).
  assert (forall b : Z, is_byte b -> forall p, dec b ++ p <> []) as Hne.
  { intros b Hb p E. apply app_eq_nil in E as [E _]. destruct (dec_digits b) as (ds & E' & Hd & _).
    { unfold is_byte in Hb. lia. }
    rewrite E' in E. by destruct ds. }
  assert (forall (p : cstr) c, p <> [] -> match p with [] => [] | _ :: _ => c :: p end = c :: p)
    as Hdot by by intros [] ?.
  rewrite !Hdot by (apply Hne; done). unfold is_byte in *.
  rewrite inet_parts_dec by done. cbv zeta. simpl (char_at _ 0). simpl negb. cbv iota. change (drop 1 (46 :: ?p)) with p.
  rewrite inet_parts_dec by done. cbv zeta. simpl (char_at _ 0). simpl negb. cbv iota. change (drop 1 (46 :: ?p)) with p.
  rewrite inet_parts_dec by done. cbv zeta. simpl (char_at _ 0). simpl negb. cbv iota. change (drop 1 (46 :: ?p)) with p.
  rewrite inet_parts_dec by done. cbv zeta. simpl (char_at _ 0). simpl negb. simpl andb. cbv iota.
  f_equal. rewrite (lor_shift_byte 0 b0) by (unfold is_byte; lia).
  rewrite (lor_shift_byte _ b1) by (unfold is_byte; lia).
  rewrite (lor_shift_byte _ b2) by (unfold is_byte; lia).
  rewrite (lor_shift_byte _ b3) by (unfold is_byte; lia).
  unfold b0, b1, b2, b3, u8. change (2 ^ 8) with 256.
  Z.to_euclidean_division_equations; lia.
Qed.

Lemma inet_ntoa_aton_witness : inet_aton (lit "192.168.0.10") = Some 3232235530.
Proof. apply (inet_ntoa_aton 3232235530). done. Defined.

(** Network and host part of a word, split at bit [k]. *)
Lemma split_join i k net :
  0 <= k <= 32 -> is_u32 i -> net = Z.shiftl (Z.ones (32 - k)) k ->
  Z.lor (u32 (Z.shiftl (Z.shiftr (Z.land i net) k) k)) (Z.land i (host_mask net)) = i.
Proof.
  intros Hk Hi ->. assert (forall n, 32 <= n -> Z.testbit i n = false) as Hhigh.
  { intros n Hn. destruct Hi. destruct (decide (i = 0)) as [->|]; [apply Z.bits_0|].
    apply Z.bits_above_log2; [done|]. apply Z.log2_lt_pow2; [lia|].
    apply (Z.lt_le_trans _ (2 ^ 32)); [done|]. apply Z.pow_le_mono_r; lia. }
  apply Z.bits_inj'. intros n Hn. unfold u32, host_mask.
  rewrite Z.lor_spec, !Z.land_spec, Z.lnot_spec, Z.shiftl_spec by done.
  change 4294967295 with (Z.ones 32). rewrite !Z.testbit_ones by lia.
  rewrite (proj2 (Z.leb_le 0 n)) by done. simpl andb.
  destruct (Z.ltb_spec n 32) as [Hlt|Hge].
  - rewrite Z.mod_pow2_bits_low, Z.shiftl_spec by lia.
    destruct (Z.leb_spec k n).
    + rewrite Z.shiftr_spec, Z.land_spec, Z.shiftl_spec, Z.testbit_ones by lia.
      replace (n - k + k) with n by lia.
      rewrite (proj2 (Z.leb_le 0 (n - k))), (proj2 (Z.ltb_lt (n - k) (32 - k))) by lia.
      simpl. by destruct (Z.testbit i n).
    + rewrite (Z.testbit_neg_r _ (n - k)) by lia.
      rewrite (proj2 (Z.leb_gt 0 (n - k))) by lia. simpl. by rewrite andb_true_r.
  - rewrite Z.mod_pow2_bits_high by lia. by rewrite Hhigh by lia.
Qed.

Lemma land_bit_shiftr i k : is_u32 i -> 0 <= k -> Z.land i (2 ^ 31) = 0 -> i < 2 ^ 31.
Proof.
  intros Hi _ Hb. destruct (decide (i < 2 ^ 31)) as [|Hge]; [done|]. exfalso.
  destruct Hi. assert (Z.testbit (Z.land i (2 ^ 31)) 31 = true) as Ht.
  { rewrite Z.land_spec, Z.pow2_bits_true by lia. rewrite andb_true_r.
    rewrite Z.testbit_true by lia.
    replace (i / 2 ^ 31) with 1; [done|]. apply (Z.div_unique _ _ _ (i - 2 ^ 31)); lia. }
  by rewrite Hb, Z.bits_0 in Ht.
Qed.

(** The network part, shifted down, is the number above bit [k]. *)
Lemma netof_value i k net :
  0 <= k <= 32 -> is_u32 i -> net = Z.shiftl (Z.ones (32 - k)) k ->
  Z.shiftr (Z.land i net) k = i / 2 ^ k.
Proof.
  intros Hk [Hi0 Hi] ->. rewrite Z.shiftr_land, <- (Z.shiftr_div_pow2 i) by lia.
  rewrite Z.shiftr_shiftl_l, Z.sub_diag, Z.shiftl_0_r by lia.
  rewrite Z.land_ones by lia. apply Z.mod_small. rewrite Z.shiftr_div_pow2 by lia.
  split; [apply Z.div_pos; lia|]. apply Z.div_lt_upper_bound; [lia|].
  rewrite <- Z.pow_add_r by lia. replace (k + (32 - k)) with 32 by lia. done.
Qed.

(** An address is put together again from its network and its host part,
    for every class of address. *)
Theorem inet_makeaddr_of_parts i :
  is_u32 i -> inet_makeaddr (inet_netof i) (inet_lnaof i) = i.
Proof.
  intros Hi. pose proof Hi as [Hi0 Hi1]. unfold inet_netof, inet_lnaof.
  assert (forall m, Z.land (Z.land i m) m = Z.land i m) as Hid.
  { intros m. by rewrite <- Z.land_assoc, Z.land_diag. }
  unfold IN_CLASSA, IN_CLASSB. change 2147483648 with (2 ^ 31).
  destruct (Z.eqb_spec (Z.land i (2 ^ 31)) 0) as [HA|HA].
  - pose proof (land_bit_shiftr i 0 Hi ltac:(lia) HA) as Hlt. unfold inet_makeaddr.
    rewrite (proj2 (Z.ltb_lt _ 128))
      by (rewrite (netof_value i 24) by (done || lia); apply Z.div_lt_upper_bound; lia).
    rewrite Hid. by apply split_join.
  - assert (2 ^ 31 <= i) as Hge.
    { destruct (decide (2 ^ 31 <= i)); [done|]. exfalso. apply HA.
      rewrite <- (Z.mod_small i (2 ^ 31)), <- Z.land_ones by lia.
      rewrite <- Z.land_assoc. change (Z.land (Z.ones 31) (2 ^ 31)) with 0. apply Z.land_0_r. }
    destruct (Z.land i 3221225472 =? 2 ^ 31).
    + pose proof (netof_value i 16 IN_CLASSB_NET) as Hx.
      assert (32768 <= i / 2 ^ 16 < 65536) as Hb
        by (split; [apply Z.div_le_lower_bound|apply Z.div_lt_upper_bound]; lia).
      rewrite <- Hx in Hb by (done || lia). clear Hx. unfold inet_makeaddr.
      rewrite (proj2 (Z.ltb_ge _ 128)), (proj2 (Z.ltb_lt _ 65536)) by lia.
      rewrite Hid. by apply split_join.
    + pose proof (netof_value i 8 IN_CLASSC_NET) as Hx.
      assert (8388608 <= i / 2 ^ 8 < 16777216) as Hb
        by (split; [apply Z.div_le_lower_bound|apply Z.div_lt_upper_bound]; lia).
      rewrite <- Hx in Hb by (done || lia). clear Hx. unfold inet_makeaddr.
      rewrite (proj2 (Z.ltb_ge _ 128)), (proj2 (Z.ltb_ge _ 65536)),
        (proj2 (Z.ltb_lt _ 16777216)) by lia.
      rewrite Hid. by apply split_join.
Qed.

Lemma inet_makeaddr_of_parts_witness :
  inet_makeaddr (inet_netof 3232235530) (inet_lnaof 3232235530) = 3232235530.
Proof. apply inet_makeaddr_of_parts. done. Defined.
