(* ===== verification/Termios.v ===== *)
(** * Terminal settings in uClibc (src/uClibc/libc/termios)

    The [struct termios] of the library, the [struct __kernel_termios] it
    exchanges with the kernel, and the pure functions on them: reading and
    writing the speed, raw mode, the two conversions of [tcgetattr] and
    [tcsetattr].  The constants are those of
    src/uClibc/libc/sysdeps/linux/common/bits/termios.h. *)

From S2P Require Import Prelude.

(** ** Constants *)

Definition NCCS : nat := 32.
Definition KERNEL_NCCS : nat := 19.
Definition VTIME : nat := 5.
Definition VMIN : nat := 6.

Definition IGNBRK : Z := 1.      (* 0000001 *)
Definition BRKINT : Z := 2.      (* 0000002 *)
Definition PARMRK : Z := 8.      (* 0000010 *)
Definition ISTRIP : Z := 32.     (* 0000040 *)
Definition INLCR : Z := 64.      (* 0000100 *)
Definition IGNCR : Z := 128.     (* 0000200 *)
Definition ICRNL : Z := 256.     (* 0000400 *)
Definition IXON : Z := 1024.     (* 0002000 *)
Definition IXOFF : Z := 4096.    (* 0010000 *)
Definition OPOST : Z := 1.       (* 0000001 *)
Definition CBAUD : Z := 4111.    (* 0010017 *)
Definition CBAUDEX : Z := 4096.  (* 0010000 *)
Definition CSIZE : Z := 48.      (* 0000060 *)
Definition CS5 : Z := 0.
Definition CS6 : Z := 16.
Definition CS7 : Z := 32.
Definition CS8 : Z := 48.
Definition CSTOPB : Z := 64.     (* 0000100 *)
Definition CREAD : Z := 128.     (* 0000200 *)
Definition PARENB : Z := 256.    (* 0000400 *)
Definition PARODD : Z := 512.    (* 0001000 *)
Definition HUPCL : Z := 1024.    (* 0002000 *)
Definition CLOCAL : Z := 2048.   (* 0004000 *)
Definition CRTSCTS : Z := 2147483648. (* 020000000000 *)
Definition ISIG : Z := 1.
Definition ICANON : Z := 2.
Definition ECHO : Z := 8.
Definition ECHONL : Z := 64.
Definition IEXTEN : Z := 32768.  (* 0100000 *)
Definition IBAUD0 : Z := 2147483648. (* 020000000000 *)

Definition B0 : Z := 0.
Definition B50 : Z := 1.
Definition B75 : Z := 2.
Definition B110 : Z := 3.
Definition B134 : Z := 4.
Definition B150 : Z := 5.
Definition B200 : Z := 6.
Definition B300 : Z := 7.
Definition B600 : Z := 8.
Definition B1200 : Z := 9.
Definition B1800 : Z := 10.
Definition B2400 : Z := 11.
Definition B4800 : Z := 12.
Definition B9600 : Z := 13.
Definition B19200 : Z := 14.
Definition B38400 : Z := 15.
Definition B57600 : Z := 4097.   (* 0010001 *)
Definition B115200 : Z := 4098.
Definition B230400 : Z := 4099.
Definition B460800 : Z := 4100.

Definition TCSANOW : Z := 0.
Definition TCSADRAIN : Z := 1.
Definition TCSAFLUSH : Z := 2.
Definition TCIFLUSH : Z := 0.
Definition TCOFLUSH : Z := 1.
Definition TCIOFLUSH : Z := 2.

Definition EINVAL : Z := 22.

(** ** The two structures *)

Record termios : Type := mkTermios {
  c_iflag : Z;
  c_oflag : Z;
  c_cflag : Z;
  c_lflag : Z;
  c_line : Z;
  c_cc : list Z;
  c_ispeed : Z;
  c_ospeed : Z;
}.

Record kernel_termios : Type := mkKTermios {
  k_iflag : Z;
  k_oflag : Z;
  k_cflag : Z;
  k_lflag : Z;
  k_line : Z;
  k_cc : list Z;
}.

#[global] Instance termios_eq_dec : EqDecision termios.
Proof. solve_decision. Defined.
#[global] Instance kernel_termios_eq_dec : EqDecision kernel_termios.
Proof. solve_decision. Defined.

Definition with_iflag (v : Z) (t : termios) : termios :=
  mkTermios v (c_oflag t) (c_cflag t) (c_lflag t) (c_line t) (c_cc t) (c_ispeed t) (c_ospeed t).
Definition with_oflag (v : Z) (t : termios) : termios :=
  mkTermios (c_iflag t) v (c_cflag t) (c_lflag t) (c_line t) (c_cc t) (c_ispeed t) (c_ospeed t).
Definition with_cflag (v : Z) (t : termios) : termios :=
  mkTermios (c_iflag t) (c_oflag t) v (c_lflag t) (c_line t) (c_cc t) (c_ispeed t) (c_ospeed t).
Definition with_lflag (v : Z) (t : termios) : termios :=
  mkTermios (c_iflag t) (c_oflag t) (c_cflag t) v (c_line t) (c_cc t) (c_ispeed t) (c_ospeed t).
Definition with_cc (v : list Z) (t : termios) : termios :=
  mkTermios (c_iflag t) (c_oflag t) (c_cflag t) (c_lflag t) (c_line t) v (c_ispeed t) (c_ospeed t).

(** ** Functions of termios.c

    A function that takes a [struct termios *] and can fail returns its result
    with the structure and the value it gives to [errno], if any. *)

Definition cfgetospeed (t : termios) : Z := Z.land (c_cflag t) (Z.lor CBAUD CBAUDEX).

Definition cfgetispeed (t : termios) : Z :=
  if negb (Z.land (c_iflag t) IBAUD0 =? 0) then 0
  else Z.land (c_cflag t) (Z.lor CBAUD CBAUDEX).

(** The test both setters start with: [(speed & ~CBAUD) != 0 && (speed <
    B57600 || speed > B460800)]. *)
Definition bad_speed (speed : Z) : bool :=
  negb (Z.land speed (Z.lnot CBAUD) =? 0) &&
  ((speed <? B57600) || (B460800 <? speed)).

Definition cfsetospeed (t : termios) (speed : Z) : Z * option Z * termios :=
  if bad_speed speed then (-1, Some EINVAL, t)
  else (0, None, with_cflag (set_field (c_cflag t) (Z.lor CBAUD CBAUDEX) speed) t).

Definition cfsetispeed (t : termios) (speed : Z) : Z * option Z * termios :=
  if bad_speed speed then (-1, Some EINVAL, t)
  else if speed =? 0 then (0, None, with_iflag (Z.lor (c_iflag t) IBAUD0) t)
  else
    let t1 := with_iflag (Z.land (c_iflag t) (Z.lnot IBAUD0)) t in
    (0, None, with_cflag (set_field (c_cflag t1) (Z.lor CBAUD CBAUDEX) speed) t1).

Definition speeds : list (Z * Z) :=
  [(0, B0); (50, B50); (75, B75); (110, B110); (134, B134); (150, B150);
   (200, B200); (300, B300); (600, B600); (1200, B1200); (1200, B1200);
   (1800, B1800); (2400, B2400); (4800, B4800); (9600, B9600);
   (19200, B19200); (38400, B38400); (57600, B57600); (115200, B115200);
   (230400, B230400); (460800, B460800)].

Fixpoint cfsetspeed_loop (tbl : list (Z * Z)) (t : termios) (speed : Z)
    : Z * option Z * termios :=
  match tbl with
  | [] => (-1, Some EINVAL, t)
  | (value, internal) :: tbl' =>
      if speed =? internal then
        let t1 := (cfsetispeed t speed).2 in
        (0, None, (cfsetospeed t1 speed).2)
      else if speed =? value then
        let t1 := (cfsetispeed t internal).2 in
        (0, None, (cfsetospeed t1 internal).2)
      else cfsetspeed_loop tbl' t speed
  end.

Definition cfsetspeed (t : termios) (speed : Z) : Z * option Z * termios :=
  cfsetspeed_loop speeds t speed.

Definition cfmakeraw (t : termios) : termios :=
  let clr x m := Z.land x (Z.lnot m) in
  let t := with_iflag (clr (c_iflag t)
    (Z.lor IGNBRK (Z.lor BRKINT (Z.lor PARMRK (Z.lor ISTRIP
      (Z.lor INLCR (Z.lor IGNCR (Z.lor ICRNL IXON)))))))) t in
  let t := with_oflag (clr (c_oflag t) OPOST) t in
  let t := with_lflag (clr (c_lflag t)
    (Z.lor ECHO (Z.lor ECHONL (Z.lor ICANON (Z.lor ISIG IEXTEN))))) t in
  let t := with_cflag (clr (c_cflag t) (Z.lor CSIZE PARENB)) t in
  let t := with_cflag (Z.lor (c_cflag t) CS8) t in
  let t := with_cc (<[VMIN := 1]> (c_cc t)) t in
  with_cc (<[VTIME := 0]> (c_cc t)) t.

(** The copies of [tcgetattr] (the remaining control characters are set to
    [_POSIX_VDISABLE], which is 0) and of [tcsetattr].  On this architecture
    the kernel structure has no speed fields, so those of [old] stay. *)
Definition termios_of_kernel (k : kernel_termios) (old : termios) : termios :=
  mkTermios (k_iflag k) (k_oflag k) (k_cflag k) (k_lflag k) (k_line k)
    (take KERNEL_NCCS (k_cc k) ++ replicate (NCCS - KERNEL_NCCS) 0)
    (c_ispeed old) (c_ospeed old).

Definition kernel_of_termios (t : termios) : kernel_termios :=
  mkKTermios (Z.land (c_iflag t) (Z.lnot IBAUD0)) (c_oflag t) (c_cflag t)
    (c_lflag t) (c_line t) (take KERNEL_NCCS (c_cc t)).

(** ** Properties *)

Definition speed_mask : Z := Z.lor CBAUD CBAUDEX.

Lemma cfsetospeed_ok t speed :
  bad_speed speed = false ->
  cfsetospeed t speed = (0, None, with_cflag (set_field (c_cflag t) speed_mask speed) t).
Proof. unfold cfsetospeed. by intros ->. Qed.

(** A speed the setters accept fits in the speed field: [CBAUD] includes the
    bit [CBAUDEX]. *)
Lemma bad_speed_mask speed :
  0 <= speed -> bad_speed speed = false -> Z.land speed speed_mask = speed.
Proof.
  unfold bad_speed. intros Hpos H.
  assert (Z.land speed (Z.lnot CBAUD) = 0 \/ B57600 <= speed <= B460800) as [Hz|Hr].
  { destruct (Z.eqb_spec (Z.land speed (Z.lnot CBAUD)) 0); [by left|]. right.
    destruct (Z.ltb_spec speed B57600), (Z.ltb_spec B460800 speed); simpl in H; done || lia. }
  - change speed_mask with CBAUD. rewrite <- Z.ldiff_land in Hz.
    apply Z.bits_inj'. intros i Hi. rewrite Z.land_spec.
    assert (Z.testbit (Z.ldiff speed CBAUD) i = false) as Hb by by rewrite Hz, Z.bits_0.
    rewrite Z.ldiff_spec in Hb.
    destruct (Z.testbit speed i), (Z.testbit CBAUD i); done.
  - unfold B57600, B460800 in Hr.
    assert (speed = 4097 \/ speed = 4098 \/ speed = 4099 \/ speed = 4100)
      as [->|[->|[->| ->]]] by lia; done.
Qed.

(** [cfsetospeed] then [cfsetispeed] with an accepted non-zero speed make
    both getters return that speed, and leave every bit of [c_cflag] outside
    the speed field and every other field as it was. *)
Theorem cfsetspeed_get t speed :
  0 < speed -> bad_speed speed = false ->
  let t1 := (cfsetospeed t speed).2 in
  let t2 := (cfsetispeed t1 speed).2 in
  cfgetospeed t2 = speed /\ cfgetispeed t2 = speed /\
  (forall n, Z.land speed_mask n = 0 -> Z.land (c_cflag t2) n = Z.land (c_cflag t) n) /\
  c_iflag t2 = Z.land (c_iflag t) (Z.lnot IBAUD0) /\
  c_oflag t2 = c_oflag t /\ c_lflag t2 = c_lflag t /\ c_line t2 = c_line t /\
  c_cc t2 = c_cc t.
Proof.
  intros Hpos Hok. pose proof (bad_speed_mask speed ltac:(lia) Hok) as Hm.
  unfold cfsetospeed, cfsetispeed. rewrite Hok.
  rewrite (proj2 (Z.eqb_neq speed 0)) by lia. simpl.
  unfold cfgetospeed, cfgetispeed. simpl. rewrite land_set_field by done.
  rewrite land_clear_sub by done. simpl. split_and!; try done.
  intros n Hn.
  assert (Z.land speed n = 0) by (rewrite <- Hm; flag_bits).
  by rewrite !land_set_other.
Qed.

Lemma cfsetspeed_get_witness :
  let t := mkTermios 0 0 (Z.lor B9600 CREAD) 0 0 [] 0 0 in
  let t1 := (cfsetospeed t B115200).2 in
  let t2 := (cfsetispeed t1 B115200).2 in
  cfgetospeed t2 = B115200 /\ cfgetispeed t2 = B115200 /\
  (forall n, Z.land speed_mask n = 0 -> Z.land (c_cflag t2) n = Z.land (c_cflag t) n) /\
  c_iflag t2 = Z.land (c_iflag t) (Z.lnot IBAUD0) /\
  c_oflag t2 = c_oflag t /\ c_lflag t2 = c_lflag t /\ c_line t2 = c_line t /\
  c_cc t2 = c_cc t.
Proof. intros t. apply (cfsetspeed_get t B115200); [unfold B115200; lia | reflexivity]. Defined.

(** For every entry of the speed table, [cfsetspeed] succeeds on the
    numeric speed and on its internal code, with the same structure as the
    result, and [cfgetospeed] then returns the internal code; a speed that is
    neither fails with [EINVAL] and changes nothing. *)
Theorem cfsetspeed_table t speed :
  (forall v i, In (v, i) speeds ->
     cfsetspeed t v = cfsetspeed t i /\
     (cfsetspeed t v).1 = (0, None) /\ cfgetospeed (cfsetspeed t v).2 = i) /\
  (~ In speed (speeds.*1) -> ~ In speed (speeds.*2) ->
     cfsetspeed t speed = (-1, Some EINVAL, t)).
Proof.
  split.
  - intros v i Hin. unfold speeds in Hin. simpl in Hin.
    repeat destruct Hin as [[= <- <-]|Hin]; try done.
    all: split; [reflexivity|]; split; [reflexivity|].
    all: apply land_set_field; reflexivity.
  - unfold cfsetspeed. induction speeds as [|[v i] tbl IH]; [done|]. simpl.
    intros Hv Hi. rewrite (proj2 (Z.eqb_neq speed i)) by naive_solver.
    rewrite (proj2 (Z.eqb_neq speed v)) by naive_solver. naive_solver.
Qed.

(** [cfmakeraw] selects eight data bits without parity, turns off output
    post-processing, canonical input, echo, signals, XON/XOFF output control
    and every input translation, asks for reads of at least one byte, and
    keeps the speed, the stop bits, the parity sense and hardware flow
    control. *)
Theorem cfmakeraw_raw t :
  let r := cfmakeraw t in
  Z.land (c_cflag r) CSIZE = CS8 /\ Z.land (c_cflag r) PARENB = 0 /\
  Z.land (c_oflag r) OPOST = 0 /\
  (forall m, In m [ICANON; ECHO; ECHONL; ISIG; IEXTEN] -> Z.land (c_lflag r) m = 0) /\
  (forall m, In m [IGNBRK; BRKINT; PARMRK; ISTRIP; INLCR; IGNCR; ICRNL; IXON] ->
     Z.land (c_iflag r) m = 0) /\
  (forall m, In m [CSTOPB; PARODD; CRTSCTS; CREAD; HUPCL; CLOCAL] ->
     Z.land (c_cflag r) m = Z.land (c_cflag t) m) /\
  cfgetospeed r = cfgetospeed t /\ cfgetispeed r = cfgetispeed t /\
  (length (c_cc t) = NCCS -> c_cc r !! VMIN = Some 1 /\ c_cc r !! VTIME = Some 0).
Proof.
  cbv zeta. unfold cfgetospeed, cfgetispeed, cfmakeraw.
  cbn [with_iflag with_oflag with_cflag with_lflag with_cc
       c_iflag c_oflag c_cflag c_lflag c_cc].
  assert (forall x, Z.lor (Z.land x (Z.lnot (Z.lor CSIZE PARENB))) CS8
                  = set_field x (Z.lor CSIZE PARENB) CS8) as Hset by done.
  rewrite !Hset. split_and!.
  - by rewrite land_set_sub.
  - by rewrite land_set_sub.
  - by rewrite land_clear_sub.
  - intros m Hm. apply land_clear_sub. simpl in Hm.
    repeat destruct Hm as [<-|Hm]; done.
  - intros m Hm. apply land_clear_sub. simpl in Hm.
    repeat destruct Hm as [<-|Hm]; done.
  - intros m Hm. apply land_set_other; simpl in Hm; repeat destruct Hm as [<-|Hm]; done.
  - by rewrite land_set_other.
  - by rewrite land_set_other, land_clear_other.
  - intros Hlen. split.
    + rewrite list_lookup_insert_ne by done. apply list_lookup_insert_eq.
      rewrite Hlen. unfold VMIN, NCCS. lia.
    + apply list_lookup_insert_eq. rewrite length_insert, Hlen. unfold VTIME, NCCS. lia.
Qed.

(** What [tcgetattr] reads back after [tcsetattr] handed a structure to a
    kernel that stores it is that structure, except for the private flag
    [IBAUD0], the control characters the kernel has no room for and the speed
    fields the kernel structure lacks. *)
Theorem termios_kernel_roundtrip t old :
  length (c_cc t) = NCCS ->
  let t' := termios_of_kernel (kernel_of_termios t) old in
  c_iflag t' = Z.land (c_iflag t) (Z.lnot IBAUD0) /\ c_oflag t' = c_oflag t /\
  c_cflag t' = c_cflag t /\ c_lflag t' = c_lflag t /\ c_line t' = c_line t /\
  take KERNEL_NCCS (c_cc t') = take KERNEL_NCCS (c_cc t) /\
  length (c_cc t') = NCCS /\ cfgetospeed t' = cfgetospeed t.
Proof.
  intros Hlen t'. unfold t', termios_of_kernel, kernel_of_termios, NCCS, KERNEL_NCCS in *.
  simpl. split_and!; try done.
  - rewrite take_take, take_app_le by (rewrite length_take, Hlen; done).
    by rewrite take_take.
  - rewrite take_take, length_app, length_take, Hlen. done.
Qed.

Lemma termios_kernel_roundtrip_witness :
  let t := mkTermios IBAUD0 1 (Z.lor B9600 CS8) 3 0 (replicate 32 5) 0 0 in
  let t' := termios_of_kernel (kernel_of_termios t) t in
  c_iflag t' = Z.land (c_iflag t) (Z.lnot IBAUD0) /\ c_oflag t' = c_oflag t /\
  c_cflag t' = c_cflag t /\ c_lflag t' = c_lflag t /\ c_line t' = c_line t /\
  take KERNEL_NCCS (c_cc t') = take KERNEL_NCCS (c_cc t) /\
  length (c_cc t') = NCCS /\ cfgetospeed t' = cfgetospeed t.
Proof. intros t. apply (termios_kernel_roundtrip t t). reflexivity. Defined.
