(* ===== verification/Board.v ===== *)
(** * The set-up of the board
    (src/linux2510/arch/armnommu/mach-2510REF/config.c)

    The clock of the system, from the registers the boot loader left, and the
    addresses of the two Ethernet ports. *)

From S2P Require Import Prelude.

(** ** The clock *)

(** Three decimal digits in twelve bits. *)
Definition bcd3 (v : Z) : Z :=
  Z.shiftr (Z.land v 0xF00) 8 * 100 + Z.shiftr (Z.land v 0x0F0) 4 * 10 + Z.land v 0x00F.

(** [status], [pll], [cpll], [spll]: the registers CLKST, SYSCFG, CPLL, SPLL; the
    result: CPU_CLOCK, SYS_CLOCK and CONFIG_ARM_CLK, the first two being 0 before. *)
Definition get_system_clock (status pll cpll spll : Z) : Z * Z * Z :=
  let mode := Z.shiftr status 30 in
  let '(cpu, sys) :=
    if negb (Z.land pll 0x80000000 =? 0) then
      let cpu := Z.land cpll 0xff + 8 in
      (cpu, if mode =? 0 then cpu else if (mode =? 1) || (mode =? 2) then Z.shiftr cpu 1 else Z.land spll 0xff + 8)
    else
      let cpu := bcd3 (Z.land status 0xfff) in
      (cpu, if mode =? 0 then cpu else if (mode =? 1) || (mode =? 2) then Z.shiftr cpu 1
            else bcd3 (Z.shiftr (Z.land status 0xfff000) 12)) in
  (cpu, sys, u32 (sys * 1000000)).

(** ** Ethernet addresses *)

Definition str2hexnum (c : Z) : Z :=
  if (48 <=? c) && (c <=? 57) then c - 48
  else if (97 <=? c) && (c <=? 102) then c - 97 + 10
  else if (65 <=? c) && (c <=? 70) then c - 65 + 10
  else 0.

(** The loop of [str2eaddr]; [None]: it reads past the end of the memory at
    [str]. *)
Fixpoint str2eaddr_loop (n : nat) (str : bytes) : option bytes :=
  match n with
  | O => Some []
  | S n' =>
      let str := match str with c :: str' => if c =? 58 then str' else str | [] => str end in
      match str with
      | h :: l :: str' => cons (Z.lor (u8 (Z.shiftl (str2hexnum h) 4)) (str2hexnum l)) <$> str2eaddr_loop n' str'
      | _ => None
      end
  end.
Definition str2eaddr (str : bytes) : option bytes :=
  match str with
  | _ :: str' => str2eaddr_loop 6 str'
  | [] => None
  end.

Definition ethaddr0 : bytes := lit "00:09:30:28:12:22" ++ [0].
Definition ethaddr1 : bytes := lit "00:09:30:28:12:24" ++ [0].
(** [envm_read] is not called, so the default is always used; [None] is a null
    pointer. *)
Definition get_MAC_address (eth_name : cstr) : option bytes :=
  if bool_decide (eth_name = lit "eth0") then str2eaddr ethaddr0
  else if bool_decide (eth_name = lit "eth1") then str2eaddr ethaddr1
  else None.

(** ** Theorems *)

(** The digits of a byte, and an address as it is written. *)
Definition hexdigit (d : Z) : Z := if d <? 10 then 48 + d else 87 + d.
Definition hex2 (b : Z) : bytes := [hexdigit (b / 16); hexdigit (b mod 16)].
Fixpoint hexaddr (l : bytes) : bytes :=
  match l with
  | [] => []
  | [b] => hex2 b
  | b :: l' => hex2 b ++ 58 :: hexaddr l'
  end.

Lemma str2hexnum_digit d : 0 <= d < 16 -> str2hexnum (hexdigit d) = d.
Proof.
  intros Hd. unfold str2hexnum, hexdigit. destruct (Z.ltb_spec d 10).
  - rewrite (proj2 (Z.leb_le _ _)), (proj2 (Z.leb_le _ _)) by lia. simpl. lia.
  - rewrite (proj2 (Z.leb_gt (87 + d) 57)) by lia. rewrite andb_false_r.
    rewrite (proj2 (Z.leb_le 97 _)), (proj2 (Z.leb_le _ 102)) by lia. simpl. lia.
Qed.
Lemma hexdigit_not_colon d : 0 <= d < 16 -> (hexdigit d =? 58) = false.
Proof. intros Hd. unfold hexdigit. destruct (Z.ltb_spec d 10); apply Z.eqb_neq; lia. Qed.
Lemma byte_digits b : is_byte b -> 0 <= b / 16 < 16 /\ 0 <= b mod 16 < 16 /\ Z.lor (u8 (Z.shiftl (b / 16) 4)) (b mod 16) = b.
Proof.
  unfold is_byte. intros Hb. split_and!; [apply Z.div_pos; lia|apply Z.div_lt_upper_bound; lia|apply Z.mod_pos_bound; lia|apply Z.mod_pos_bound; lia|].
  assert (Forall (fun b => Z.lor (u8 (Z.shiftl (b / 16) 4)) (b mod 16) = b) (seqZ 0 256)) as Hall
    by (apply (bool_decide_unpack _); by vm_compute).
  rewrite Forall_forall in Hall. apply Hall, elem_of_seqZ. lia.
Qed.

Lemma str2eaddr_step n b str : is_byte b -> str2eaddr_loop (S n) (hex2 b ++ str) = cons b <$> str2eaddr_loop n str.
Proof.
  intros Hb. destruct (byte_digits b Hb) as (H1 & H2 & H3). cbn [str2eaddr_loop hex2 app].
  rewrite hexdigit_not_colon by done. rewrite !str2hexnum_digit by done. by rewrite H3.
Qed.
Lemma str2eaddr_colon n b str : is_byte b -> str2eaddr_loop (S n) (58 :: hex2 b ++ str) = cons b <$> str2eaddr_loop n str.
Proof.
  intros Hb. destruct (byte_digits b Hb) as (H1 & H2 & H3). cbn [str2eaddr_loop hex2 app Z.eqb Pos.eqb].
  rewrite !str2hexnum_digit by done. by rewrite H3.
Qed.

(** [str2eaddr] inverts the printing of an Ethernet address that follows one
    character to be skipped, as in the value that [getenv] finds (it starts at the
    '='). *)
Theorem str2eaddr_roundtrip c b0 b1 b2 b3 b4 b5 rest :
  Forall is_byte [b0; b1; b2; b3; b4; b5] ->
  str2eaddr (c :: hexaddr [b0; b1; b2; b3; b4; b5] ++ rest) = Some [b0; b1; b2; b3; b4; b5].
Proof.
  rewrite !Forall_cons. intros (H0 & H1 & H2 & H3 & H4 & H5 & _). cbn [str2eaddr hexaddr].
  rewrite <- !app_assoc, str2eaddr_step by done. do 4 (rewrite <- app_comm_cons, <- app_assoc, str2eaddr_colon by done).
  rewrite <- app_comm_cons, str2eaddr_colon by done. done.
Qed.

Lemma str2eaddr_roundtrip_witness :
  str2eaddr (61 :: lit "00:11:22:33:44:5f" ++ [0]) = Some [0; 0x11; 0x22; 0x33; 0x44; 0x5f].
Proof.
  apply (str2eaddr_roundtrip 61 0 0x11 0x22 0x33 0x44 0x5f [0]). by repeat constructor.
Defined.

(** A digit that is followed by the colon. *)
Lemma str2eaddr_half n d str : 0 <= d < 16 -> str2eaddr_loop (S n) (hexdigit d :: 58 :: str) = cons (16 * d) <$> str2eaddr_loop n str.
Proof.
  intros Hd. cbn [str2eaddr_loop]. rewrite hexdigit_not_colon by done. rewrite str2hexnum_digit by done. change (str2hexnum 58) with 0.
  rewrite Z.lor_0_r, Z.shiftl_mul_pow2 by lia. unfold u8. change (2 ^ 4) with 16. change (2 ^ 8) with 256.
  rewrite (Z.mod_small (d * 16)) by lia. by rewrite Z.mul_comm.
Qed.

(** An address without such a character in front, as the default ones are,
    loses the first digit: the first byte becomes the second digit times 16, and
    only an address that starts with 00 comes out right. *)
Theorem str2eaddr_drops_digit b0 b1 b2 b3 b4 b5 rest :
  Forall is_byte [b0; b1; b2; b3; b4; b5] ->
  str2eaddr (hexaddr [b0; b1; b2; b3; b4; b5] ++ rest) = Some [16 * (b0 mod 16); b1; b2; b3; b4; b5].
Proof.
  rewrite !Forall_cons. intros (H0 & H1 & H2 & H3 & H4 & H5 & _). destruct (byte_digits b0 H0) as (Hd1 & Hd2 & _).
  change (hexaddr [b0; b1; b2; b3; b4; b5] ++ rest) with (hexdigit (b0 / 16) :: hexdigit (b0 mod 16) :: 58 :: hexaddr [b1; b2; b3; b4; b5] ++ rest).
  unfold str2eaddr. rewrite str2eaddr_half by done. cbn [hexaddr].
  rewrite <- !app_assoc, str2eaddr_step by done. do 3 (rewrite <- app_comm_cons, <- app_assoc, str2eaddr_colon by done).
  rewrite <- app_comm_cons, str2eaddr_colon by done. done.
Qed.

Lemma str2eaddr_drops_digit_witness :
  str2eaddr (lit "ab:11:22:33:44:5f" ++ [0]) = Some [0xb0; 0x11; 0x22; 0x33; 0x44; 0x5f].
Proof. apply (str2eaddr_drops_digit 0xab 0x11 0x22 0x33 0x44 0x5f [0]). by repeat constructor. Defined.

Lemma default_addresses :
  get_MAC_address (lit "eth0") = Some [0; 9; 0x30; 0x28; 0x12; 0x22] /\ get_MAC_address (lit "eth1") = Some [0; 9; 0x30; 0x28; 0x12; 0x24].
Proof. done. Qed.

(** With the clock configured by the strapping pins the driver finds the
    frequency that the register holds in decimal digits, for every frequency below
    1 GHz and in every clock mode, and the product in Hz does not overflow. *)
Theorem clock_decodes_digits cpu sys mode pll cpll spll :
  0 <= cpu < 1000 -> 0 <= sys < 1000 -> 0 <= mode < 4 -> Z.land pll 0x80000000 = 0 ->
  let digits n := (n / 100) * 256 + (n / 10 mod 10) * 16 + n mod 10 in
  get_system_clock (mode * 2 ^ 30 + digits sys * 4096 + digits cpu) pll cpll spll =
  let s := if mode =? 0 then cpu else if mode =? 3 then sys else cpu / 2 in (cpu, s, s * 1000000).
Proof.
  intros Hcpu Hsys Hmode Hpll digits. assert (forall n, 0 <= n < 1000 -> 0 <= digits n < 4096 /\ bcd3 (digits n) = n) as Hd.
  { assert (Forall (fun n => 0 <= digits n < 4096 /\ bcd3 (digits n) = n) (seqZ 0 1000)) as Hall
      by (apply (bool_decide_unpack _); by vm_compute).
    intros n Hn. rewrite Forall_forall in Hall. apply Hall, elem_of_seqZ. lia. }
  destruct (Hd cpu Hcpu) as [Hrc Hc]. destruct (Hd sys Hsys) as [Hrs Hs]. clearbody digits. set (status := mode * 2 ^ 30 + digits sys * 4096 + digits cpu).
  assert (Z.shiftr status 30 = mode) as Hm.
  { rewrite Z.shiftr_div_pow2 by lia. unfold status. rewrite <- Z.add_assoc, Z.div_add_l, Z.div_small by lia. lia. }
  assert (Z.land status 0xfff = digits cpu) as Hl.
  { change 0xfff with (Z.ones 12). rewrite Z.land_ones by lia. unfold status. change (2 ^ 12) with 4096.
    replace (mode * 2 ^ 30 + digits sys * 4096 + digits cpu) with (digits cpu + (mode * 2 ^ 18 + digits sys) * 4096) by lia.
    by rewrite Z.mod_add, Z.mod_small by lia. }
  assert (Z.shiftr (Z.land status 0xfff000) 12 = digits sys) as Hh.
  { rewrite Z.shiftr_land. change (Z.shiftr 0xfff000 12) with (Z.ones 12). rewrite Z.land_ones, Z.shiftr_div_pow2 by lia. unfold status.
    change (2 ^ 12) with 4096.
    replace (mode * 2 ^ 30 + digits sys * 4096 + digits cpu) with ((digits sys + mode * 2 ^ 6 * 4096) * 4096 + digits cpu) by lia.
    rewrite Z.div_add_l, (Z.div_small (digits cpu)), Z.add_0_r by lia. by rewrite Z.mod_add, Z.mod_small by lia. }
  unfold get_system_clock. cbv zeta. rewrite Hpll, Hm, Hl, Hh, Hc, Hs. cbn [Z.eqb negb].
  rewrite Z.shiftr_div_pow2 by lia. change (2 ^ 1) with 2.
  assert (0 <= cpu / 2 < 1000) by (split; [apply Z.div_pos|apply Z.div_lt_upper_bound]; lia).
  assert (mode = 0 \/ mode = 1 \/ mode = 2 \/ mode = 3) as [->|[->|[->| ->]]] by lia; simpl; by rewrite u32_small by (unfold is_u32; lia).
Qed.

Lemma clock_decodes_digits_witness :
  get_system_clock (1 * 2 ^ 30 + 0x133 * 4096 + 0x166) 0 0 0 = (166, 83, 83000000).
Proof. exact (clock_decodes_digits 166 133 1 0 0 0 ltac:(lia) ltac:(lia) ltac:(lia) eq_refl). Defined.
