(* ===== verification/Serial.v ===== *)
(** * The serial driver of the S3C2510
    (src/linux2510/drivers/char/serial_s3c2510.c)

    One port of the driver: the console UART or one of the two high-speed UARTs
    (CONFIG_SERIAL_CUART and CONFIG_SERIAL_HUART are both set).  The status and data registers
    of the UART belong to the hardware, a parameter ([Uart]); the other registers read back what was written. *)

From S2P Require Import Prelude Termios.

(** ** Registers (src/linux2510/include/asm-armnommu/arch-samsung/2510REF/uart.h) *)

Definition CUART_BASE : Z := 0xF0060000.
Definition HUART0_BASE : Z := 0xF0070000.
Definition HUART1_BASE : Z := 0xF0080000.

Definition U_IRQ_TMODE : Z := 0x1.
Definition U_IRQ_RMODE : Z := 0x4.
Definition U_SBR : Z := 0x10.
Definition U_ODD_PMD : Z := 0x400.
Definition U_EVEN_PMD : Z := 0x500.
Definition U_PMD : Z := 0x700.
Definition U_STB : Z := 0x800.
Definition U_WL5 : Z := 0xFFFFCFFF.
Definition U_WL6 : Z := 0x1000.
Definition U_WL7 : Z := 0x2000.
Definition U_WL8 : Z := 0x3000.
Definition U_WL : Z := 0x3000.
Definition U_TFEN : Z := 0x10000.
Definition U_RFEN : Z := 0x20000.
Definition U_TFTL16 : Z := 0x200000.
Definition U_RFTL18 : Z := 0x800000.
Definition U_DTR : Z := 0x1000000.
Definition U_RTS : Z := 0x2000000.
Definition U_HFEN : Z := 0x10000000.
Definition U_SFEN : Z := 0x20000000.

Definition U_TFFUL : Z := Z.shiftl 1 20.
Definition U_TI : Z := Z.shiftl 1 17.
Definition U_CTS : Z := Z.shiftl 1 15.
Definition U_E_RxTO : Z := Z.shiftl 1 12.
Definition U_RFOV : Z := Z.shiftl 1 10.
Definition U_RFFUL : Z := Z.shiftl 1 9.
Definition U_RFEMT : Z := Z.shiftl 1 8.
Definition U_RFREA : Z := Z.shiftl 1 7.
Definition U_CCD : Z := Z.shiftl 1 5.
Definition U_OER : Z := Z.shiftl 1 4.
Definition U_PER : Z := Z.shiftl 1 3.
Definition U_FER : Z := Z.shiftl 1 2.
Definition U_BSD : Z := Z.shiftl 1 1.
Definition U_RDV : Z := 1.

Definition U_THEIE : Z := Z.shiftl 1 18.
Definition U_E_RxTOIE : Z := Z.shiftl 1 12.
Definition U_OERIE : Z := Z.shiftl 1 4.
Definition U_PERIE : Z := Z.shiftl 1 3.
Definition U_FERIE : Z := Z.shiftl 1 2.
Definition U_BSDIE : Z := Z.shiftl 1 1.
Definition U_RDVIE : Z := 1.

(** [r & mask] as a condition, [r |= m] and [r &= ~m]. *)
Definition bits (r mask : Z) : bool := negb (Z.land r mask =? 0).
Definition clear (r mask : Z) : Z := Z.land r (Z.lxor mask 0xFFFFFFFF).

Definition SERIAL_XMIT_SIZE : Z := 4096.
Definition RX_FIFO_SIZE : Z := 32.
Definition TX_FIFO_SIZE : Z := 32.
Definition WAKEUP_CHARS : Z := 256.
Definition TTY_FLIPBUF_SIZE : Z := 512.
Definition TTY_NORMAL : Z := 0.
Definition TTY_BREAK : Z := 1.
Definition TTY_FRAME : Z := 2.
Definition TTY_PARITY : Z := 3.
Definition TTY_OVERRUN : Z := 4.
Definition TTY_IO_ERROR : Z := 1.
Definition N_TTY : Z := 0.

Definition S_SPLIT_TERMIOS : Z := 0x8.
Definition S_SESSION_LOCKOUT : Z := 0x100.
Definition S_PGRP_LOCKOUT : Z := 0x200.
Definition S_FLAGS : Z := 0xFFF.
Definition S_USR_MASK : Z := 0x430.
Definition S_INITIALIZED : Z := 0x80000000.
Definition S_CALLOUT_ACTIVE : Z := 0x40000000.
Definition S_NORMAL_ACTIVE : Z := 0x20000000.
Definition S_CLOSING : Z := 0x08000000.
Definition S_CLOSING_WAIT_NONE : Z := 65535.

Definition EIO : Z := 5.
Definition EAGAIN : Z := 11.
Definition ENOMEM : Z := 12.
Definition EFAULT : Z := 14.
Definition EBUSY_ : Z := 16.
Definition ENODEV : Z := 19.
Definition EPERM : Z := 1.
Definition ERESTARTSYS : Z := 512.
Definition ENOIOCTLCMD : Z := 515.

(** ** State *)

(** What the hardware does when the status is read or written, a character is
    taken from the receiver, or given to the transmitter. *)
Class Uart (U : Type) : Type := {
  csr_read : U -> Z * U;
  csr_write : Z -> U -> U;
  rhr_read : U -> Z * U;
  thr_write : Z -> U -> U;
}.

Record Regs : Type := mkRegs {
  cr : Z;
  ier : Z;
  brgr : Z;
  ucc1 : Z;
  ucc2 : Z;
  io_ftn1 : Z;
  io_ftn2 : Z;
  intmask : Z;
  extmask : Z;
}.

(** The transmit buffer; [xmit_buf] is a page. *)
Record Ring : Type := mkRing {
  xmit_buf : option bytes;
  xmit_head : Z;
  xmit_tail : Z;
  xmit_cnt : Z;
}.

(** [tty->flip]; [flip_ptr] is the index of [char_buf_ptr] and [flag_buf_ptr]. *)
Record Flip : Type := mkFlip {
  buf_num : Z;
  flip_ptr : Z;
  flip_count : Z;
  char_buf : bytes;
  flag_buf : bytes;
  flip_queued : bool;
}.

Record ktermios : Type := mkKtermios {
  k_iflag : Z;
  k_cflag : Z;
  k_line : Z;
  k_start : Z;
  k_stop : Z;
}.

Record Tty : Type := mkTty {
  stopped_ : bool;
  hw_stopped : bool;
  termios_ : ktermios;
  tty_flags : Z;
  tty_closing : bool;
  flip : Flip;
}.

Record Info : Type := mkInfo {
  usart : Z;
  is_cons : bool;
  baud : Z;
  irq : Z;
  sflags : Z;
  use_ints : bool;
  has_tty : bool;
  xmit_fifo_size : Z;
  rx_fifo_size : Z;
  x_char : Z;
  event : Z;
  count : Z;
  blocked_open : Z;
  session : Z;
  pgrp : Z;
  baud_base : Z;
  type_ : Z;
  close_delay : Z;
  closing_wait : Z;
  custom_divisor : Z;
  normal_termios : ktermios;
  callout_termios : ktermios;
}.

(** A character given to the transmitter: data, or one of flow control. *)
Inductive tx_item : Type :=
| Data (c : Z)
| Flow (c : Z).

(** What can happen while interrupts are enabled. *)
Inductive happening : Type :=
| TxIrq
| RxIrq
| FlipTimer.

(** A sleep: a signal is pending before it, this happens in it, this time is
    left after it. *)
Record nap : Type := mkNap {
  nap_signal : bool;
  nap_events : list happening;
  nap_left : Z;
}.

(** [irqs]: the interrupts are enabled; [sched]: what happens at the next points
    where they are; [naps]: the next sleeps; [wire]: what was given to the transmitter;
    [received]: what the line discipline got; [wakeups]: calls of wake_up on [write_wait]. *)
Record Ser (U : Type) : Type := mkSer {
  info : Info;
  regs : Regs;
  ring : Ring;
  tty : Tty;
  uart : U;
  irqs : bool;
  sched : list (list happening);
  naps : list nap;
  wire : list tx_item;
  received : list (Z * Z);
  wakeups : nat;
}.
Arguments mkSer {U}. Arguments info {U}. Arguments regs {U}. Arguments ring {U}. Arguments tty {U}.
Arguments uart {U}. Arguments irqs {U}. Arguments sched {U}. Arguments naps {U}. Arguments wire {U}.
Arguments received {U}. Arguments wakeups {U}.

Definition set_cr x r := mkRegs x (ier r) (brgr r) (ucc1 r) (ucc2 r) (io_ftn1 r) (io_ftn2 r) (intmask r) (extmask r).
Definition set_ier x r := mkRegs (cr r) x (brgr r) (ucc1 r) (ucc2 r) (io_ftn1 r) (io_ftn2 r) (intmask r) (extmask r).
Definition set_brgr x r := mkRegs (cr r) (ier r) x (ucc1 r) (ucc2 r) (io_ftn1 r) (io_ftn2 r) (intmask r) (extmask r).
Definition set_ucc1 x r := mkRegs (cr r) (ier r) (brgr r) x (ucc2 r) (io_ftn1 r) (io_ftn2 r) (intmask r) (extmask r).
Definition set_ucc2 x r := mkRegs (cr r) (ier r) (brgr r) (ucc1 r) x (io_ftn1 r) (io_ftn2 r) (intmask r) (extmask r).
Definition set_io_ftn1 x r := mkRegs (cr r) (ier r) (brgr r) (ucc1 r) (ucc2 r) x (io_ftn2 r) (intmask r) (extmask r).
Definition set_io_ftn2 x r := mkRegs (cr r) (ier r) (brgr r) (ucc1 r) (ucc2 r) (io_ftn1 r) x (intmask r) (extmask r).
Definition set_intmask x r := mkRegs (cr r) (ier r) (brgr r) (ucc1 r) (ucc2 r) (io_ftn1 r) (io_ftn2 r) x (extmask r).
Definition set_extmask x r := mkRegs (cr r) (ier r) (brgr r) (ucc1 r) (ucc2 r) (io_ftn1 r) (io_ftn2 r) (intmask r) x.
Definition set_stopped x r := mkTty x (hw_stopped r) (termios_ r) (tty_flags r) (tty_closing r) (flip r).
Definition set_hw_stopped x r := mkTty (stopped_ r) x (termios_ r) (tty_flags r) (tty_closing r) (flip r).
Definition set_termios x r := mkTty (stopped_ r) (hw_stopped r) x (tty_flags r) (tty_closing r) (flip r).
Definition set_tty_flags x r := mkTty (stopped_ r) (hw_stopped r) (termios_ r) x (tty_closing r) (flip r).
Definition set_tty_closing x r := mkTty (stopped_ r) (hw_stopped r) (termios_ r) (tty_flags r) x (flip r).
Definition set_flip x r := mkTty (stopped_ r) (hw_stopped r) (termios_ r) (tty_flags r) (tty_closing r) x.
Definition set_usart x r := mkInfo x (is_cons r) (baud r) (irq r) (sflags r) (use_ints r) (has_tty r) (xmit_fifo_size r) (rx_fifo_size r) (x_char r) (event r) (count r) (blocked_open r) (session r) (pgrp r) (baud_base r) (type_ r) (close_delay r) (closing_wait r) (custom_divisor r) (normal_termios r) (callout_termios r).
Definition set_is_cons x r := mkInfo (usart r) x (baud r) (irq r) (sflags r) (use_ints r) (has_tty r) (xmit_fifo_size r) (rx_fifo_size r) (x_char r) (event r) (count r) (blocked_open r) (session r) (pgrp r) (baud_base r) (type_ r) (close_delay r) (closing_wait r) (custom_divisor r) (normal_termios r) (callout_termios r).
Definition set_baud x r := mkInfo (usart r) (is_cons r) x (irq r) (sflags r) (use_ints r) (has_tty r) (xmit_fifo_size r) (rx_fifo_size r) (x_char r) (event r) (count r) (blocked_open r) (session r) (pgrp r) (baud_base r) (type_ r) (close_delay r) (closing_wait r) (custom_divisor r) (normal_termios r) (callout_termios r).
Definition set_sflags x r := mkInfo (usart r) (is_cons r) (baud r) (irq r) x (use_ints r) (has_tty r) (xmit_fifo_size r) (rx_fifo_size r) (x_char r) (event r) (count r) (blocked_open r) (session r) (pgrp r) (baud_base r) (type_ r) (close_delay r) (closing_wait r) (custom_divisor r) (normal_termios r) (callout_termios r).
Definition set_use_ints x r := mkInfo (usart r) (is_cons r) (baud r) (irq r) (sflags r) x (has_tty r) (xmit_fifo_size r) (rx_fifo_size r) (x_char r) (event r) (count r) (blocked_open r) (session r) (pgrp r) (baud_base r) (type_ r) (close_delay r) (closing_wait r) (custom_divisor r) (normal_termios r) (callout_termios r).
Definition set_has_tty x r := mkInfo (usart r) (is_cons r) (baud r) (irq r) (sflags r) (use_ints r) x (xmit_fifo_size r) (rx_fifo_size r) (x_char r) (event r) (count r) (blocked_open r) (session r) (pgrp r) (baud_base r) (type_ r) (close_delay r) (closing_wait r) (custom_divisor r) (normal_termios r) (callout_termios r).
Definition set_x_char x r := mkInfo (usart r) (is_cons r) (baud r) (irq r) (sflags r) (use_ints r) (has_tty r) (xmit_fifo_size r) (rx_fifo_size r) x (event r) (count r) (blocked_open r) (session r) (pgrp r) (baud_base r) (type_ r) (close_delay r) (closing_wait r) (custom_divisor r) (normal_termios r) (callout_termios r).
Definition set_event x r := mkInfo (usart r) (is_cons r) (baud r) (irq r) (sflags r) (use_ints r) (has_tty r) (xmit_fifo_size r) (rx_fifo_size r) (x_char r) x (count r) (blocked_open r) (session r) (pgrp r) (baud_base r) (type_ r) (close_delay r) (closing_wait r) (custom_divisor r) (normal_termios r) (callout_termios r).
Definition set_count x r := mkInfo (usart r) (is_cons r) (baud r) (irq r) (sflags r) (use_ints r) (has_tty r) (xmit_fifo_size r) (rx_fifo_size r) (x_char r) (event r) x (blocked_open r) (session r) (pgrp r) (baud_base r) (type_ r) (close_delay r) (closing_wait r) (custom_divisor r) (normal_termios r) (callout_termios r).
Definition set_blocked_open x r := mkInfo (usart r) (is_cons r) (baud r) (irq r) (sflags r) (use_ints r) (has_tty r) (xmit_fifo_size r) (rx_fifo_size r) (x_char r) (event r) (count r) x (session r) (pgrp r) (baud_base r) (type_ r) (close_delay r) (closing_wait r) (custom_divisor r) (normal_termios r) (callout_termios r).
Definition set_session x r := mkInfo (usart r) (is_cons r) (baud r) (irq r) (sflags r) (use_ints r) (has_tty r) (xmit_fifo_size r) (rx_fifo_size r) (x_char r) (event r) (count r) (blocked_open r) x (pgrp r) (baud_base r) (type_ r) (close_delay r) (closing_wait r) (custom_divisor r) (normal_termios r) (callout_termios r).
Definition set_pgrp x r := mkInfo (usart r) (is_cons r) (baud r) (irq r) (sflags r) (use_ints r) (has_tty r) (xmit_fifo_size r) (rx_fifo_size r) (x_char r) (event r) (count r) (blocked_open r) (session r) x (baud_base r) (type_ r) (close_delay r) (closing_wait r) (custom_divisor r) (normal_termios r) (callout_termios r).
Definition set_baud_base x r := mkInfo (usart r) (is_cons r) (baud r) (irq r) (sflags r) (use_ints r) (has_tty r) (xmit_fifo_size r) (rx_fifo_size r) (x_char r) (event r) (count r) (blocked_open r) (session r) (pgrp r) x (type_ r) (close_delay r) (closing_wait r) (custom_divisor r) (normal_termios r) (callout_termios r).
Definition set_type x r := mkInfo (usart r) (is_cons r) (baud r) (irq r) (sflags r) (use_ints r) (has_tty r) (xmit_fifo_size r) (rx_fifo_size r) (x_char r) (event r) (count r) (blocked_open r) (session r) (pgrp r) (baud_base r) x (close_delay r) (closing_wait r) (custom_divisor r) (normal_termios r) (callout_termios r).
Definition set_close_delay x r := mkInfo (usart r) (is_cons r) (baud r) (irq r) (sflags r) (use_ints r) (has_tty r) (xmit_fifo_size r) (rx_fifo_size r) (x_char r) (event r) (count r) (blocked_open r) (session r) (pgrp r) (baud_base r) (type_ r) x (closing_wait r) (custom_divisor r) (normal_termios r) (callout_termios r).
Definition set_closing_wait x r := mkInfo (usart r) (is_cons r) (baud r) (irq r) (sflags r) (use_ints r) (has_tty r) (xmit_fifo_size r) (rx_fifo_size r) (x_char r) (event r) (count r) (blocked_open r) (session r) (pgrp r) (baud_base r) (type_ r) (close_delay r) x (custom_divisor r) (normal_termios r) (callout_termios r).
Definition set_custom_divisor x r := mkInfo (usart r) (is_cons r) (baud r) (irq r) (sflags r) (use_ints r) (has_tty r) (xmit_fifo_size r) (rx_fifo_size r) (x_char r) (event r) (count r) (blocked_open r) (session r) (pgrp r) (baud_base r) (type_ r) (close_delay r) (closing_wait r) x (normal_termios r) (callout_termios r).
Definition set_normal_termios x r := mkInfo (usart r) (is_cons r) (baud r) (irq r) (sflags r) (use_ints r) (has_tty r) (xmit_fifo_size r) (rx_fifo_size r) (x_char r) (event r) (count r) (blocked_open r) (session r) (pgrp r) (baud_base r) (type_ r) (close_delay r) (closing_wait r) (custom_divisor r) x (callout_termios r).
Definition set_callout_termios x r := mkInfo (usart r) (is_cons r) (baud r) (irq r) (sflags r) (use_ints r) (has_tty r) (xmit_fifo_size r) (rx_fifo_size r) (x_char r) (event r) (count r) (blocked_open r) (session r) (pgrp r) (baud_base r) (type_ r) (close_delay r) (closing_wait r) (custom_divisor r) (normal_termios r) x.
Definition set_c_cflag x r := mkKtermios (k_iflag r) x (k_line r) (k_start r) (k_stop r).
Definition set_c_line x r := mkKtermios (k_iflag r) (k_cflag r) x (k_start r) (k_stop r).

Section Setters.
Context {U : Type}.
Implicit Types r : Ser U.
Definition upd_info (f : Info -> Info) r := mkSer (f (info r)) (regs r) (ring r) (tty r) (uart r) (irqs r) (sched r) (naps r) (wire r) (received r) (wakeups r).
Definition upd_regs (f : Regs -> Regs) r := mkSer (info r) (f (regs r)) (ring r) (tty r) (uart r) (irqs r) (sched r) (naps r) (wire r) (received r) (wakeups r).
Definition upd_ring (f : Ring -> Ring) r := mkSer (info r) (regs r) (f (ring r)) (tty r) (uart r) (irqs r) (sched r) (naps r) (wire r) (received r) (wakeups r).
Definition upd_tty (f : Tty -> Tty) r := mkSer (info r) (regs r) (ring r) (f (tty r)) (uart r) (irqs r) (sched r) (naps r) (wire r) (received r) (wakeups r).
Definition set_uart (x : U) r := mkSer (info r) (regs r) (ring r) (tty r) x (irqs r) (sched r) (naps r) (wire r) (received r) (wakeups r).
Definition set_irqs (x : bool) r := mkSer (info r) (regs r) (ring r) (tty r) (uart r) x (sched r) (naps r) (wire r) (received r) (wakeups r).
Definition set_sched (x : list (list happening)) r := mkSer (info r) (regs r) (ring r) (tty r) (uart r) (irqs r) x (naps r) (wire r) (received r) (wakeups r).
Definition set_naps (x : list nap) r := mkSer (info r) (regs r) (ring r) (tty r) (uart r) (irqs r) (sched r) x (wire r) (received r) (wakeups r).
Definition set_wire (x : list tx_item) r := mkSer (info r) (regs r) (ring r) (tty r) (uart r) (irqs r) (sched r) (naps r) x (received r) (wakeups r).
Definition set_received (x : list (Z * Z)) r := mkSer (info r) (regs r) (ring r) (tty r) (uart r) (irqs r) (sched r) (naps r) (wire r) x (wakeups r).
Definition set_wakeups (x : nat) r := mkSer (info r) (regs r) (ring r) (tty r) (uart r) (irqs r) (sched r) (naps r) (wire r) (received r) x.
End Setters.

Definition rate_entry : Type := (Z * Z)%type.
Definition baud_table : list rate_entry :=
  [(0, B0); (50, B50); (75, B75); (110, B110); (134, B134); (150, B150); (200, B200); (300, B300); (600, B600);
   (1200, B1200); (1800, B1800); (2400, B2400); (4800, B4800); (9600, B9600); (19200, B19200); (38400, B38400);
   (57600, B57600); (115200, B115200); (230400, B230400); (460800, B460800); (500000, 4101); (576000, 4102);
   (921600, 4103); (1000000, 4104); (-1, -1)].

Section Serial.
(** [ARM_CLK] is the variable CONFIG_ARM_CLK that the board sets up; [fuel]
    bounds the waits. *)
Context {U : Type} `{Uart U} (ARM_CLK : Z) (fuel : nat).
Abbreviation SM A := (M (Ser U) A).
Implicit Types s : Ser U.

Definition gi {A} (f : Info -> A) : SM A := gets (fun s => f (info s)).
Definition gt {A} (f : Tty -> A) : SM A := gets (fun s => f (tty s)).
Definition gr {A} (f : Ring -> A) : SM A := gets (fun s => f (ring s)).
Definition mi (f : Info -> Info) : SM unit := modify (upd_info f).
Definition mt (f : Tty -> Tty) : SM unit := modify (upd_tty f).
Definition mr (f : Ring -> Ring) : SM unit := modify (upd_ring f).
Definition mg (f : Regs -> Regs) : SM unit := modify (upd_regs f).
Definition or_cr (m : Z) : SM unit := mg (fun r => set_cr (Z.lor (cr r) m) r).
Definition clear_cr (m : Z) : SM unit := mg (fun r => set_cr (clear (cr r) m) r).
Definition or_ier (m : Z) : SM unit := mg (fun r => set_ier (Z.lor (ier r) m) r).
Definition clear_ier (m : Z) : SM unit := mg (fun r => set_ier (clear (ier r) m) r).
Definition csr : SM Z := fun s => let '(v, u) := csr_read (uart s) in Ret v (set_uart u s).
Definition rhr : SM Z := fun s => let '(v, u) := rhr_read (uart s) in Ret v (set_uart u s).
Definition or_csr (m : Z) : SM unit := v ← csr; modify (fun s => set_uart (csr_write (Z.lor v m) (uart s)) s).
Definition thr (i : tx_item) (c : Z) : SM unit :=
  modify (fun s => set_wire (wire s ++ [i]) (set_uart (thr_write c (uart s)) s)).
Definition cli : SM unit := modify (set_irqs false).
Definition restore_flags (flags : bool) : SM unit := modify (set_irqs flags).

(** ** Starting and stopping *)

Definition tx_start : SM unit := b ← gi use_ints; when b (or_ier U_THEIE).
Definition tx_stop : SM unit := clear_ier U_THEIE.
Definition rx_start : SM unit :=
  cons ← gi is_cons;
  b ← gi use_ints;
  (if cons : bool then when b (or_ier U_RDVIE) else when b (or_ier (Z.lor U_RFREA U_E_RxTOIE))) ;;
  when b (or_ier (Z.lor (Z.lor (Z.lor U_BSDIE U_FERIE) U_PERIE) U_OERIE)).
Definition rx_stop : SM unit :=
  cons ← gi is_cons;
  if cons : bool then clear_ier U_RDVIE else clear_ier (Z.lor U_RFREA U_E_RxTOIE).

(** arch/armnommu/mach-2510REF/irq.c *)
Definition NR_EXT_IRQS : Z := 6.
Definition s3c2510_mask_irq (n : Z) : SM unit :=
  mg (fun r => if NR_EXT_IRQS <=? n then set_intmask (Z.lor (intmask r) (Z.shiftl 1 (n - NR_EXT_IRQS))) r
               else set_extmask (Z.lor (extmask r) (Z.shiftl 1 n)) r).
Definition s3c2510_unmask_irq (n : Z) : SM unit :=
  mg (fun r => if NR_EXT_IRQS <=? n then set_intmask (clear (intmask r) (Z.shiftl 1 (n - NR_EXT_IRQS))) r
               else set_extmask (clear (extmask r) (Z.shiftl 1 n)) r).

Definition set_ints_mode (yes : bool) : SM unit :=
  mi (set_use_ints yes) ;;
  n ← gi irq;
  if yes then s3c2510_unmask_irq n ;; s3c2510_unmask_irq (n - 1)
  else s3c2510_mask_irq n ;; s3c2510_mask_irq (n - 1).

(** The levels are RX_FIFO_LEVEL 18 and TX_FIFO_LEVEL 16. *)
Definition fifo_init : SM unit := or_cr (Z.lor U_TFEN U_RFEN) ;; or_cr U_RFTL18 ;; or_cr U_TFTL16.

Definition s3c2510_rtsdtr (set : bool) : SM unit :=
  if set then or_cr (Z.lor U_DTR U_RTS) else clear_cr (Z.lor U_DTR U_RTS).

Definition rs_stop : SM unit := flags ← gets irqs; cli ;; tx_stop ;; rx_stop ;; restore_flags flags.
Definition rs_start : SM unit := flags ← gets irqs; cli ;; rx_start ;; tx_start ;; restore_flags flags.

(** [while (!(csr & U_TI))] *)
Fixpoint wait_idle (n : nat) : SM unit :=
  match n with
  | O => stop_with OutOfFuel
  | S n' => v ← csr; if bits v U_TI then mret tt else wait_idle n'
  end.
Definition xmit_char (c : Z) : SM unit := wait_idle fuel ;; thr (Data c) c.
Definition rs_put_char (c : Z) : SM unit := flags ← gets irqs; cli ;; xmit_char c ;; restore_flags flags.

(** ** Interrupts *)

Definition RS_EVENT_WRITE_WAKEUP : Z := 0.
Definition rs_sched_event (e : Z) : SM unit := mi (fun i => set_event (Z.lor (event i) (Z.shiftl 1 e)) i).

Definition handle_status (status : Z) : SM unit :=
  or_csr status ;;
  if bits status U_TFFUL then mret tt
  else if bits status U_RFFUL then or_cr U_SBR
  else mret tt.

(** [xmit_buf[xmit_tail++]], the wrap-around and [--xmit_cnt]. *)
Definition take_char : SM Z :=
  r ← gets ring;
  match xmit_buf r with
  | None => stop_with NullPointer
  | Some b =>
      match b !! Z.to_nat (xmit_tail r) with
      | Some c =>
          mr (fun r => mkRing (xmit_buf r) (xmit_head r) (Z.land (xmit_tail r + 1) (SERIAL_XMIT_SIZE - 1)) (xmit_cnt r - 1)) ;;
          mret c
      | None => stop_with OutOfBounds
      end
  end.

(** The loop of [rs_interrupt_Tx]; [n] is [count]. *)
Fixpoint tx_loop (n : nat) : SM unit :=
  match n with
  | O => mret tt
  | S n' =>
      c ← take_char;
      thr (Data c) c ;;
      cnt ← gr xmit_cnt;
      if cnt <=? 0 then mret tt
      else
        status ← csr;
        if bits status U_TFFUL then handle_status U_TFFUL else tx_loop n'
  end.

Definition rs_interrupt_Tx : SM unit :=
  x ← gi x_char;
  if negb (x =? 0) then thr (Flow x) x ;; mi (set_x_char 0)
  else
    cnt ← gr xmit_cnt;
    tty_ok ← gi has_tty;
    if cnt <=? 0 then tx_stop
    else if negb tty_ok then stop_with NullPointer
    else
      st ← gt stopped_;
      hw ← gt hw_stopped;
      if st || hw then tx_stop
      else
        n ← gi xmit_fifo_size;
        tx_loop (Z.to_nat n) ;;
        cnt ← gr xmit_cnt;
        when (cnt <? WAKEUP_CHARS) (rs_sched_event RS_EVENT_WRITE_WAKEUP) ;;
        cnt ← gr xmit_cnt;
        when (cnt <=? 0) tx_stop.

(** A store through [char_buf_ptr] or [flag_buf_ptr]. *)
Definition put_flip_char (c : Z) : SM unit :=
  f ← gt flip;
  if bool_decide (0 <= flip_ptr f < Z.of_nat (length (char_buf f))) then
    mt (set_flip (mkFlip (buf_num f) (flip_ptr f) (flip_count f) (<[Z.to_nat (flip_ptr f) := c]> (char_buf f)) (flag_buf f) (flip_queued f)))
  else stop_with OutOfBounds.
Definition put_flip_flag (c : Z) : SM unit :=
  f ← gt flip;
  if bool_decide (0 <= flip_ptr f < Z.of_nat (length (flag_buf f))) then
    mt (set_flip (mkFlip (buf_num f) (flip_ptr f) (flip_count f) (char_buf f) (<[Z.to_nat (flip_ptr f) := c]> (flag_buf f)) (flip_queued f)))
  else stop_with OutOfBounds.
Definition next_flip : SM unit :=
  mt (fun t => let f := flip t in
    set_flip (mkFlip (buf_num f) (flip_ptr f + 1) (flip_count f + 1) (char_buf f) (flag_buf f) (flip_queued f)) t).
Definition queue_flip : SM unit :=
  mt (fun t => let f := flip t in
    set_flip (mkFlip (buf_num f) (flip_ptr f) (flip_count f) (char_buf f) (flag_buf f) true) t).

(** The branch for a status without [U_RDV]. *)
Definition rx_error (status bit flag : Z) : SM unit :=
  when (bits status bit) (put_flip_flag flag ;; handle_status bit).
Definition rx_errors (status : Z) : SM unit :=
  rx_error status U_RFFUL TTY_NORMAL ;;
  rx_error status U_OER TTY_OVERRUN ;;
  rx_error status U_BSD TTY_BREAK ;;
  rx_error status U_PER TTY_PARITY ;;
  rx_error status U_FER TTY_FRAME ;;
  rx_error status U_CCD TTY_NORMAL.

(** The loop of [rs_interrupt_Rx]; the result is the last [status]. *)
Fixpoint rx_loop (n : nat) (status : Z) : SM Z :=
  match n with
  | O => mret status
  | S n' =>
      status ← csr;
      if bits status U_RFEMT then mret status
      else
        c ← rhr;
        put_flip_char (Z.land c 0xff) ;;
        if bits status U_RDV then
          put_flip_flag TTY_NORMAL ;; next_flip ;; rx_loop n' status
        else rx_errors status ;; mret status
  end.

Definition rs_interrupt_Rx : SM unit :=
  tty_ok ← gi has_tty;
  fl ← gi sflags;
  if negb tty_ok || negb (bits fl S_INITIALIZED) then mret tt
  else
    n ← gi rx_fifo_size;
    f ← gt flip;
    when (TTY_FLIPBUF_SIZE <=? flip_count f + n) queue_flip ;;
    status ← rx_loop (Z.to_nat n) 0;
    cons ← gi is_cons;
    (if cons : bool then when (bits status U_OER) (or_csr U_OER)
     else when (bits status (Z.lor U_RFOV U_E_RxTO)) (handle_status (Z.lor U_RFOV U_E_RxTO))) ;;
    queue_flip.

(** [flush_to_ldisc] (drivers/char/tty_io.c), when the timer runs the queue. *)
Definition flush_to_ldisc : SM unit :=
  f ← gt flip;
  let first := if buf_num f =? 0 then 0 else TTY_FLIPBUF_SIZE in
  let got := zip (take (Z.to_nat (flip_count f)) (drop (Z.to_nat first) (char_buf f)))
                 (take (Z.to_nat (flip_count f)) (drop (Z.to_nat first) (flag_buf f))) in
  mt (set_flip (mkFlip (if buf_num f =? 0 then 1 else 0) (if buf_num f =? 0 then TTY_FLIPBUF_SIZE else 0) 0
                       (char_buf f) (flag_buf f) false)) ;;
  modify (fun s => set_received (received s ++ got) s).

(** An interrupt arrives only if it is enabled in the UART and not masked. *)
Definition tx_enabled s : bool :=
  bits (ier (regs s)) U_THEIE && negb (bits (intmask (regs s)) (Z.shiftl 1 (irq (info s) - 1 - NR_EXT_IRQS))).
Definition rx_enabled s : bool := negb (bits (intmask (regs s)) (Z.shiftl 1 (irq (info s) - NR_EXT_IRQS))).
Definition happen (h : happening) : SM unit :=
  match h with
  | TxIrq => b ← gets tx_enabled; when b rs_interrupt_Tx
  | RxIrq => b ← gets rx_enabled; when b rs_interrupt_Rx
  | FlipTimer => f ← gt flip; when (flip_queued f) flush_to_ldisc
  end.
Fixpoint happen_all (l : list happening) : SM unit :=
  match l with
  | [] => mret tt
  | h :: l' => happen h ;; happen_all l'
  end.
(** A point where interrupts can come in. *)
Definition irq_point : SM unit :=
  on ← gets irqs;
  when on (q ← gets sched; modify (set_sched (tail q)) ;; happen_all (default [] (head q))).
(** A sleep; the result is the time that is left. *)
Definition schedule_timeout : SM Z :=
  q ← gets naps;
  match q with
  | [] => mret 0
  | p :: q' => modify (set_naps q') ;; happen_all (nap_events p) ;; mret (nap_left p)
  end.
Definition signal_pending : SM bool := gets (fun s => match naps s with p :: _ => nap_signal p | [] => false end).

Definition do_softint : SM unit :=
  tty_ok ← gi has_tty;
  when tty_ok
    (e ← gi event;
     when (Z.testbit e RS_EVENT_WRITE_WAKEUP)
       (mi (set_event (Z.clearbit e RS_EVENT_WRITE_WAKEUP)) ;; modify (fun s => set_wakeups (S (wakeups s)) s))).

(** ** Speed and format *)

Definition calcCD (br : Z) : SM Z :=
  let UART_CLOCK := ARM_CLK / 32 in
  if br =? 0 then stop_with DivisionByZero
  else mret (u32 (Z.shiftl (u32 (u32 (UART_CLOCK + br / 2) / br - 1)) 4)).

Definition uart_speed : SM unit :=
  b ← gi baud;
  v ← calcCD (u32 b);
  mg (set_brgr v).

(** The index in [baud_table] for the bits of [c_cflag]. *)
Definition table_index (cflag : Z) : Z :=
  let i := Z.land cflag CBAUD in
  if bits i CBAUDEX then clear i CBAUDEX + clear CBAUD CBAUDEX else i.

(** Word length, stop bits, parity and flow control. *)
Definition set_word_length (cflag : Z) : SM unit :=
  let size := Z.land cflag CSIZE in
  if size =? CS5 then mg (fun r => set_cr (Z.land (cr r) U_WL5) r)
  else if size =? CS6 then or_cr U_WL6
  else if size =? CS7 then or_cr U_WL7
  else or_cr U_WL8.
Definition set_parity (cflag : Z) : SM unit :=
  when (bits cflag PARENB) (if bits cflag PARODD then or_cr U_ODD_PMD else or_cr U_EVEN_PMD).
Definition set_hard_flow (cflag : Z) : SM unit :=
  when (bits cflag CRTSCTS)
    (or_cr (Z.lor (Z.lor U_HFEN U_DTR) U_RTS) ;;
     u ← gi usart;
     if u =? HUART0_BASE then mg (fun r => set_io_ftn2 0x07 (set_io_ftn1 0xF0000000 r))
     else when (u =? HUART1_BASE) (mg (set_io_ftn2 0x3f8))).
Definition set_soft_flow (cflag : Z) : SM unit :=
  when (bits cflag (Z.lor IXON IXOFF))
    (or_cr U_SFEN ;;
     t ← gt termios_;
     let v := Z.lor (Z.lor (Z.lor (Z.shiftl (k_start t) 24) (Z.shiftl (k_start t) 16)) (Z.shiftl (k_stop t) 8)) (k_stop t) in
     mg (fun r => set_ucc2 v (set_ucc1 v r))).

Definition change_speed : SM unit :=
  tty_ok ← gi has_tty;
  when tty_ok
    (t ← gt termios_;
     let cflag := k_cflag t in
     tx_stop ;; rx_stop ;;
     match baud_table !! Z.to_nat (table_index cflag) with
     | None => stop_with OutOfBounds
     | Some e =>
         mi (set_baud e.1) ;;
         uart_speed ;;
         set_word_length cflag ;;
         when (bits cflag CSTOPB) (or_cr U_STB) ;;
         set_parity cflag ;;
         set_hard_flow cflag ;;
         set_soft_flow cflag ;;
         tx_start ;; rx_start
     end).

(** ** Start up and shut down; [page] says that a page is free. *)

Definition startup (page : bool) : SM Z :=
  fl ← gi sflags;
  if bits fl S_INITIALIZED then mret 0
  else
    buf ← gr xmit_buf;
    got ← match buf with
          | Some _ => mret true
          | None =>
              if page then
                mr (fun r => mkRing (Some (replicate (Z.to_nat SERIAL_XMIT_SIZE) 0)) (xmit_head r) (xmit_tail r) (xmit_cnt r)) ;;
                mret true
              else mret false
          end;
    if negb got then mret (- ENOMEM)
    else
      flags ← gets irqs;
      cli ;;
      mg (set_cr 0) ;;
      tty_ok ← gi has_tty;
      (if negb tty_ok then stop_with NullPointer else mret tt) ;;
      t ← gt termios_;
      tx ← gi xmit_fifo_size;
      rx ← gi rx_fifo_size;
      when (bits (k_cflag t) CBAUD)
        (mg (set_cr (Z.lor (Z.lor (Z.lor U_IRQ_TMODE U_IRQ_RMODE) U_DTR) U_RTS)) ;;
         when ((1 <? tx) && (1 <? rx)) fifo_init) ;;
      mg (set_ier 0) ;;
      mt (fun t => set_tty_flags (Z.clearbit (tty_flags t) TTY_IO_ERROR) t) ;;
      mr (fun r => mkRing (xmit_buf r) 0 0 0) ;;
      change_speed ;;
      mi (fun i => set_sflags (Z.lor (sflags i) S_INITIALIZED) i) ;;
      restore_flags flags ;;
      mret 0.

Definition shutdown : SM unit :=
  tx_stop ;; rx_stop ;;
  fl ← gi sflags;
  when (bits fl S_INITIALIZED)
    (flags ← gets irqs;
     cli ;;
     mr (fun r => mkRing None (xmit_head r) (xmit_tail r) (xmit_cnt r)) ;;
     tty_ok ← gi has_tty;
     when tty_ok (mt (fun t => set_tty_flags (Z.setbit (tty_flags t) TTY_IO_ERROR) t)) ;;
     mi (fun i => set_sflags (clear (sflags i) S_INITIALIZED) i) ;;
     restore_flags flags).

Definition rs_set_ldisc : SM unit :=
  t ← gt termios_;
  mi (set_is_cons (k_line t =? N_TTY)).

(** ** Output *)

(** [xmit_char (info, xmit_buf[xmit_tail++])] and the updates. *)
Definition send_char : SM unit := c ← take_char; xmit_char c.

Definition flush_blocked : SM bool :=
  r ← gets ring;
  st ← gt stopped_;
  hw ← gt hw_stopped;
  mret ((xmit_cnt r <=? 0) || st || hw || negb (bool_decide (is_Some (xmit_buf r)))).

(** [for (;;)]; it is left by the [return] inside. *)
Fixpoint flush_loop (n : nat) : SM unit :=
  match n with
  | O => stop_with OutOfFuel
  | S n' =>
      b ← flush_blocked;
      if b : bool then mret tt else cli ;; tx_start ;; send_char ;; flush_loop n'
  end.

Definition rs_flush_chars : SM unit :=
  ints ← gi use_ints;
  if negb ints then flush_loop fuel
  else
    b ← flush_blocked;
    if b : bool then mret tt
    else flags ← gets irqs; cli ;; tx_start ;; send_char ;; restore_flags flags.

(** MIN (count, MIN (SERIAL_XMIT_SIZE - xmit_cnt - 1, SERIAL_XMIT_SIZE - xmit_head)) *)
Definition chunk (n : Z) : SM Z :=
  r ← gets ring;
  mret (Z.min n (Z.min (SERIAL_XMIT_SIZE - xmit_cnt r - 1) (SERIAL_XMIT_SIZE - xmit_head r))).

(** [memcpy] to [xmit_head] and the update of the ring. *)
Definition put_chunk (l : bytes) : SM unit :=
  r ← gets ring;
  match xmit_buf r with
  | None => stop_with NullPointer
  | Some b =>
      if bool_decide (0 <= xmit_head r /\ xmit_head r + Z.of_nat (length l) <= Z.of_nat (length b)) then
        mr (fun r => mkRing (Some (list_inserts (Z.to_nat (xmit_head r)) l b))
          (Z.land (xmit_head r + Z.of_nat (length l)) (SERIAL_XMIT_SIZE - 1)) (xmit_tail r)
          (xmit_cnt r + Z.of_nat (length l)))
      else stop_with OutOfBounds
  end.

(** The two loops of [rs_write]; the result is [total]. *)
Fixpoint write_user (n : nat) (flags : bool) (buf : bytes) (total : Z) : SM Z :=
  match n with
  | O => stop_with OutOfFuel
  | S n' =>
      c ← chunk (Z.of_nat (length buf));
      if c <=? 0 then mret total
      else
        irq_point ;;
        cli ;;
        c ← chunk c;
        put_chunk (take (Z.to_nat c) buf) ;;
        restore_flags flags ;;
        irq_point ;;
        write_user n' flags (drop (Z.to_nat c) buf) (total + c)
  end.
Fixpoint write_kernel (n : nat) (buf : bytes) (total : Z) : SM Z :=
  match n with
  | O => stop_with OutOfFuel
  | S n' =>
      c ← chunk (Z.of_nat (length buf));
      if c <=? 0 then mret total
      else put_chunk (take (Z.to_nat c) buf) ;; write_kernel n' (drop (Z.to_nat c) buf) (total + c)
  end.

(** [while (xmit_cnt)] *)
Fixpoint send_all (n : nat) : SM unit :=
  match n with
  | O => stop_with OutOfFuel
  | S n' => cnt ← gr xmit_cnt; if cnt =? 0 then mret tt else send_char ;; send_all n'
  end.

Definition rs_write (from_user : bool) (buf : bytes) : SM Z :=
  b ← gr xmit_buf;
  match b with
  | None => mret 0
  | Some _ =>
      flags ← gets irqs;
      total ← (if from_user then write_user fuel flags buf 0
               else cli ;; t ← write_kernel fuel buf 0; restore_flags flags ;; mret t);
      cnt ← gr xmit_cnt;
      st ← gt stopped_;
      hw ← gt hw_stopped;
      (if negb (cnt =? 0) && negb st && negb hw then
         ints ← gi use_ints;
         if negb ints then send_all fuel else tx_start
       else mret tt) ;;
      restore_flags flags ;;
      mret total
  end.

Definition rs_write_room : SM Z :=
  cnt ← gr xmit_cnt;
  let ret := SERIAL_XMIT_SIZE - cnt - 1 in
  mret (if ret <? 0 then 0 else ret).

Definition rs_chars_in_buffer : SM Z := gr xmit_cnt.

Definition rs_flush_buffer : SM unit :=
  flags ← gets irqs;
  cli ;;
  mr (fun r => mkRing (xmit_buf r) 0 0 0) ;;
  restore_flags flags ;;
  modify (fun s => set_wakeups (S (wakeups s)) s).

Definition rs_throttle : SM unit :=
  t ← gt termios_;
  when (bits (k_iflag t) IXOFF) (mi (set_x_char (k_stop t))) ;;
  when (bits (k_cflag t) CRTSCTS) (flags ← gets irqs; cli ;; clear_cr U_RTS ;; restore_flags flags).

Definition rs_unthrottle : SM unit :=
  t ← gt termios_;
  when (bits (k_iflag t) IXOFF)
    (x ← gi x_char;
     if negb (x =? 0) then mi (set_x_char 0) else mi (set_x_char (k_start t))) ;;
  when (bits (k_cflag t) CRTSCTS) (flags ← gets irqs; cli ;; or_cr U_RTS ;; restore_flags flags).

(** [stop_tty] and [start_tty] (drivers/char/tty_io.c), for a terminal without
    a packet mode. *)
Definition stop_tty : SM unit :=
  st ← gt stopped_;
  if st : bool then mret tt else mt (set_stopped true) ;; rs_stop.
Definition start_tty (flow_stopped : bool) : SM unit :=
  st ← gt stopped_;
  if negb st || flow_stopped then mret tt
  else mt (set_stopped false) ;; rs_start ;; modify (fun s => set_wakeups (S (wakeups s)) s).

(** ** Settings *)

(** The fields of [serial_struct] the driver reads and writes. *)
Record serial_struct : Type := mkSerialStruct {
  ss_type : Z;
  ss_line : Z;
  ss_irq : Z;
  ss_port : Z;
  ss_flags : Z;
  ss_baud_base : Z;
  ss_close_delay : Z;
  ss_closing_wait : Z;
  ss_custom_divisor : Z;
}.

(** [line] is the number of the port, [port] that number plus 1. *)
Definition get_serial_info (line : Z) (retinfo : bool) : SM (Z * option serial_struct) :=
  if negb retinfo then mret (- EFAULT, None)
  else
    i ← gets info;
    mret (0, Some (mkSerialStruct (type_ i) line (irq i) (line + 1) (sflags i) (baud_base i)
      (close_delay i) (closing_wait i) (custom_divisor i))).

Definition set_serial_info (page suser : bool) (new : option serial_struct) : SM Z :=
  match new with
  | None => mret (- EFAULT)
  | Some n =>
      i ← gets info;
      if negb suser then
        if negb (ss_baud_base n =? baud_base i) || negb (ss_type n =? type_ i) || negb (ss_close_delay n =? close_delay i) ||
           negb (clear (ss_flags n) S_USR_MASK =? clear (sflags i) S_USR_MASK) then mret (- EPERM)
        else
          mi (fun i => set_custom_divisor (ss_custom_divisor n)
            (set_sflags (Z.lor (clear (sflags i) S_USR_MASK) (Z.land (ss_flags n) S_USR_MASK)) i)) ;;
          startup page
      else if 1 <? count i then mret (- EBUSY_)
      else
        mi (fun i => set_closing_wait (u16 (ss_closing_wait n)) (set_close_delay (ss_close_delay n) (set_type (ss_type n)
          (set_sflags (Z.lor (clear (sflags i) S_FLAGS) (Z.land (ss_flags n) S_FLAGS))
          (set_baud_base (ss_baud_base n) i))))) ;;
        startup page
  end.

Definition get_lsr_info : SM Z :=
  cli ;;
  v ← csr;
  modify (set_irqs true) ;;
  mret (if bits v U_CTS then 1 else 0).

Definition send_break : SM unit :=
  cli ;; or_cr U_SBR ;; schedule_timeout ;; clear_cr U_SBR ;; modify (set_irqs true).

(** drivers/char/tty_ioctl.c: the driver has no [wait_until_sent] of its own. *)
Fixpoint tty_wait_until_sent (n : nat) : SM unit :=
  match n with
  | O => stop_with OutOfFuel
  | S n' =>
      sig ← signal_pending;
      if sig : bool then mret tt
      else
        c ← rs_chars_in_buffer;
        if c =? 0 then mret tt
        else left ← schedule_timeout; if left =? 0 then mret tt else tty_wait_until_sent n'
  end.

(** [cflag] is the one of the structure the caller passes. *)
Definition handle_termios_tcsets (cflag : Z) : SM unit :=
  t ← gt termios_;
  when (negb (k_cflag t =? cflag)) (mt (fun t => set_termios (set_c_cflag cflag (termios_ t)) t)) ;;
  change_speed.

(** The requests, with their arguments; [Other] is any other command. *)
Inductive request : Type :=
| TCSBRK (arg : Z)
| TCSBRKP (arg : Z)
| TIOCGSOFTCAR
| TIOCSSOFTCAR (arg : Z)
| TIOCGSERIAL (line : Z) (arg : bool)
| TIOCSSERIAL (page suser : bool) (arg : option serial_struct)
| TIOCSERGETLSR
| TIOCSERGSTRUCT
| TCSETS (cflag : Z)
| Other.

Inductive answer : Type :=
| NoAnswer
| ANumber (v : Z)
| ASerial (v : serial_struct)
| AInfo (v : Info).

(** [change]: the result of [tty_check_change]; [area]: the one of [verify_area]. *)
Definition rs_ioctl (change area : Z) (cmd : request) : SM (Z * answer) :=
  fl ← gt tty_flags;
  let exempt := match cmd with TIOCGSERIAL _ _ | TIOCSSERIAL _ _ _ | TIOCSERGSTRUCT => true | _ => false end in
  if negb exempt && Z.testbit fl TTY_IO_ERROR then mret (- EIO, NoAnswer)
  else
    match cmd with
    | TCSBRK arg =>
        if negb (change =? 0) then mret (change, NoAnswer)
        else tty_wait_until_sent fuel ;; when (arg =? 0) send_break ;; mret (0, NoAnswer)
    | TCSBRKP _ =>
        if negb (change =? 0) then mret (change, NoAnswer)
        else tty_wait_until_sent fuel ;; send_break ;; mret (0, NoAnswer)
    | TIOCGSOFTCAR =>
        if negb (area =? 0) then mret (area, NoAnswer)
        else t ← gt termios_; mret (0, ANumber (if bits (k_cflag t) CLOCAL then 1 else 0))
    | TIOCSSOFTCAR arg =>
        mt (fun t => set_termios (set_c_cflag (Z.lor (clear (k_cflag (termios_ t)) CLOCAL) (if arg =? 0 then 0 else CLOCAL)) (termios_ t)) t) ;;
        mret (0, NoAnswer)
    | TIOCGSERIAL line arg =>
        if negb (area =? 0) then mret (area, NoAnswer)
        else '(r, v) ← get_serial_info line arg; mret (r, match v with Some v => ASerial v | None => NoAnswer end)
    | TIOCSSERIAL page suser arg => r ← set_serial_info page suser arg; mret (r, NoAnswer)
    | TIOCSERGETLSR =>
        if negb (area =? 0) then mret (area, NoAnswer) else v ← get_lsr_info; mret (0, ANumber v)
    | TIOCSERGSTRUCT =>
        if negb (area =? 0) then mret (area, NoAnswer) else i ← gets info; mret (0, AInfo i)
    | TCSETS cflag => handle_termios_tcsets cflag ;; mret (- ENOIOCTLCMD, NoAnswer)
    | Other => mret (- ENOIOCTLCMD, NoAnswer)
    end.

Definition rs_set_termios (old_cflag : Z) : SM unit :=
  t ← gt termios_;
  if k_cflag t =? old_cflag then mret tt
  else
    change_speed ;;
    when (bits old_cflag CRTSCTS && negb (bits (k_cflag t) CRTSCTS)) (mt (set_hw_stopped false) ;; rs_start).

(** ** Open and close *)

(** [hung_up]: [tty_hung_up_p]; [tty_count]: the opens of the terminal. *)
Definition rs_close (hung_up : bool) (tty_count : Z) : SM unit :=
  flags ← gets irqs;
  cli ;;
  if hung_up then restore_flags flags
  else
    mi (fun i => if (tty_count =? 1) && negb (count i =? 1) then set_count 1 i else i) ;;
    mi (fun i => set_count (count i - 1) i) ;;
    mi (fun i => if count i <? 0 then set_count 0 i else i) ;;
    c ← gi count;
    if negb (c =? 0) then restore_flags flags
    else
      set_ints_mode false ;;
      mi (fun i => set_sflags (Z.lor (sflags i) S_CLOSING) i) ;;
      t ← gt termios_;
      mi (fun i => if bits (sflags i) S_NORMAL_ACTIVE then set_normal_termios t i else i) ;;
      mi (fun i => if bits (sflags i) S_CALLOUT_ACTIVE then set_callout_termios t i else i) ;;
      mt (set_tty_closing true) ;;
      w ← gi closing_wait;
      when (negb (w =? S_CLOSING_WAIT_NONE)) (tty_wait_until_sent fuel) ;;
      shutdown ;;
      rs_flush_buffer ;;
      mt (set_tty_closing false) ;;
      mi (fun i => set_has_tty false (set_event 0 i)) ;;
      mt (fun t => set_termios (set_c_line N_TTY (termios_ t)) t) ;;
      i ← gets info;
      when (negb (blocked_open i =? 0) && negb (close_delay i =? 0)) (schedule_timeout ;; mret tt) ;;
      mi (fun i => set_sflags (clear (sflags i) (Z.lor (Z.lor S_NORMAL_ACTIVE S_CALLOUT_ACTIVE) S_CLOSING)) i) ;;
      restore_flags flags.

Definition rs_hangup : SM unit :=
  rs_flush_buffer ;;
  shutdown ;;
  mi (fun i => set_has_tty false (set_sflags (clear (sflags i) (Z.lor S_NORMAL_ACTIVE S_CALLOUT_ACTIVE)) (set_count 0 (set_event 0 i)))).

(** The process and the file that open the port. *)
Record opener : Type := mkOpener {
  callout : bool;
  nonblock : bool;
  o_hung_up : bool;
  o_session : Z;
  o_pgrp : Z;
}.

(** The wait of [block_til_ready]; the result is [retval]. *)
Fixpoint wait_ready (n : nat) (o : opener) (do_clocal : bool) : SM Z :=
  match n with
  | O => stop_with OutOfFuel
  | S n' =>
      flags ← gets irqs;
      cli ;;
      fl ← gi sflags;
      when (negb (bits fl S_CALLOUT_ACTIVE)) (s3c2510_rtsdtr true) ;;
      restore_flags flags ;;
      if o_hung_up o || negb (bits fl S_INITIALIZED) then mret (- EAGAIN)
      else if negb (bits fl S_CALLOUT_ACTIVE) && negb (bits fl S_CLOSING) && do_clocal then mret 0
      else
        sig ← signal_pending;
        if sig : bool then mret (- ERESTARTSYS) else schedule_timeout ;; wait_ready n' o do_clocal
  end.

Definition block_til_ready (o : opener) : SM Z :=
  i ← gets info;
  let fl := sflags i in
  if bits fl S_CLOSING then schedule_timeout ;; mret (- EAGAIN)
  else if callout o then
    if bits fl S_NORMAL_ACTIVE then mret (- EBUSY_)
    else if bits fl S_CALLOUT_ACTIVE && bits fl S_SESSION_LOCKOUT && negb (session i =? o_session o) then mret (- EBUSY_)
    else if bits fl S_CALLOUT_ACTIVE && bits fl S_PGRP_LOCKOUT && negb (pgrp i =? o_pgrp o) then mret (- EBUSY_)
    else mi (fun i => set_sflags (Z.lor (sflags i) S_CALLOUT_ACTIVE) i) ;; mret 0
  else
    tf ← gt tty_flags;
    if nonblock o || Z.testbit tf TTY_IO_ERROR then
      if bits fl S_CALLOUT_ACTIVE then mret (- EBUSY_)
      else mi (fun i => set_sflags (Z.lor (sflags i) S_NORMAL_ACTIVE) i) ;; mret 0
    else
      t ← gt termios_;
      let do_clocal := if bits fl S_CALLOUT_ACTIVE then bits (k_cflag (normal_termios i)) CLOCAL else bits (k_cflag t) CLOCAL in
      mi (fun i => set_blocked_open (blocked_open i + 1) (set_count (count i - 1) i)) ;;
      retval ← wait_ready fuel o do_clocal;
      mi (fun i => if o_hung_up o then i else set_count (count i + 1) i) ;;
      mi (fun i => set_blocked_open (blocked_open i - 1) i) ;;
      if negb (retval =? 0) then mret retval
      else mi (fun i => set_sflags (Z.lor (sflags i) S_NORMAL_ACTIVE) i) ;; mret 0.

(** [line]: the minor number less the first one of the driver. *)
Definition USART_CNT : Z := 3.
Definition rs_open (line : Z) (page : bool) (o : opener) : SM Z :=
  if (line <? 0) || (USART_CNT <=? line) then mret (- ENODEV)
  else
    mi (fun i => set_has_tty true (set_count (count i + 1) i)) ;;
    set_ints_mode true ;;
    r ← startup page;
    if negb (r =? 0) then mret r
    else
      r ← block_til_ready o;
      if negb (r =? 0) then mret r
      else
        i ← gets info;
        when ((count i =? 1) && bits (sflags i) S_SPLIT_TERMIOS)
          (mt (set_termios (if callout o then callout_termios i else normal_termios i)) ;; change_speed) ;;
        mi (fun i => set_pgrp (o_pgrp o) (set_session (o_session o) i)) ;;
        mret 0.

(** ** The console *)

(** [memset (info, 0, sizeof (struct s3c2510_serial))] *)
Definition zero_termios : ktermios := mkKtermios 0 0 0 0 0.
Definition zero_info : Info :=
  mkInfo 0 false 0 0 0 false false 0 0 0 0 0 0 0 0 0 0 0 0 0 zero_termios zero_termios.

(** CONFIG_INIT_CONSOLE_SPEED is not set: the speed is the one of [default_console_baud]. *)
Definition init_console : SM unit :=
  mr (fun _ => mkRing None 0 0 0) ;;
  mi (fun _ => set_is_cons true (set_usart CUART_BASE zero_info)) ;;
  mg (set_cr 0) ;;
  mg (set_cr (Z.lor (Z.lor U_IRQ_TMODE U_IRQ_RMODE) U_WL8)) ;;
  mi (set_baud 115200) ;;
  v ← calcCD 115200;
  mg (set_brgr v) ;;
  mg (set_ier 0).

Fixpoint console_chars (str : cstr) : SM unit :=
  match str with
  | [] => mret tt
  | c :: str' => when (c =? 10) (rs_put_char 13) ;; rs_put_char c ;; console_chars str'
  end.
Definition s3c2510_console_write (initialized : bool) (str : cstr) : SM unit :=
  when (negb initialized) init_console ;; console_chars str.
End Serial.

(** What [rs_s3c2510_init] makes of the port [i], on [tty_std_termios]. *)
Definition init_termios : ktermios :=
  mkKtermios (Z.lor ICRNL IXON) (Z.lor (Z.lor (Z.lor (Z.lor CS8 CREAD) HUPCL) CLOCAL) B115200) N_TTY 17 19.
Definition rs_init_info (i : Z) : Info :=
  let '(u, n, con) := if i =? 0 then (CUART_BASE, 12, true) else if i =? 1 then (HUART0_BASE, 8, false) else (HUART1_BASE, 10, false) in
  mkInfo u con 0 n 0 false false (if con : bool then 1 else TX_FIFO_SIZE) (if con : bool then 1 else RX_FIFO_SIZE)
    0 0 0 0 0 0 0 0 50 3000 16 init_termios init_termios.
