(* ===== verification/SerialTx.v ===== *)
(** * Output of the serial driver

    The transmit buffer is a queue; what was written leaves in order, whatever
    the interrupts do in between, and it does leave. *)

From S2P Require Import Prelude Termios Serial.

(** ** The buffer as a queue *)

Definition ring_at (b : bytes) (i : Z) : Z := nth (Z.to_nat (i mod SERIAL_XMIT_SIZE)) b 0.
(** The characters in the buffer, the next one first. *)
Definition queue (r : Ring) : bytes :=
  match xmit_buf r with
  | Some b => (fun i => ring_at b (xmit_tail r + Z.of_nat i)) <$> seq 0 (Z.to_nat (xmit_cnt r))
  | None => []
  end.

Record ring_ok (r : Ring) : Prop := mkRingOk {
  ring_page : exists b, xmit_buf r = Some b /\ Z.of_nat (length b) = SERIAL_XMIT_SIZE;
  ring_tail : 0 <= xmit_tail r < SERIAL_XMIT_SIZE;
  ring_cnt : 0 <= xmit_cnt r < SERIAL_XMIT_SIZE;
  ring_head : xmit_head r = (xmit_tail r + xmit_cnt r) mod SERIAL_XMIT_SIZE;
}.

Lemma size_eq : SERIAL_XMIT_SIZE = 4096.
Proof. done. Qed.

Lemma land_size x : Z.land x (SERIAL_XMIT_SIZE - 1) = x mod SERIAL_XMIT_SIZE.
Proof. change (SERIAL_XMIT_SIZE - 1) with (Z.ones 12). by rewrite Z.land_ones. Qed.

Lemma queue_length r : ring_ok r -> Z.of_nat (length (queue r)) = xmit_cnt r.
Proof.
  intros [(b & Hb & _) _ Hc _]. unfold queue. rewrite Hb, length_fmap, length_seq. lia.
Qed.

Lemma head_range r : ring_ok r -> 0 <= xmit_head r < SERIAL_XMIT_SIZE.
Proof. intros [_ _ _ ->]. apply Z.mod_pos_bound. by rewrite size_eq. Qed.

Lemma ring_at_lookup b i : Z.of_nat (length b) = SERIAL_XMIT_SIZE -> 0 <= i < SERIAL_XMIT_SIZE ->
  b !! Z.to_nat i = Some (ring_at b i).
Proof.
  intros Hb Hi. unfold ring_at. rewrite Z.mod_small by done.
  destruct (lookup_lt_is_Some_2 b (Z.to_nat i)) as [c Hc]; [lia|]. rewrite Hc. by rewrite (nth_lookup_Some _ _ _ _ Hc).
Qed.

(** One character out. *)
Definition pop_ring (r : Ring) : Ring :=
  mkRing (xmit_buf r) (xmit_head r) (Z.land (xmit_tail r + 1) (SERIAL_XMIT_SIZE - 1)) (xmit_cnt r - 1).
Lemma pop_ring_ok r : ring_ok r -> 0 < xmit_cnt r ->
  ring_ok (pop_ring r) /\ exists b c, xmit_buf r = Some b /\ b !! Z.to_nat (xmit_tail r) = Some c /\
    queue r = c :: queue (pop_ring r).
Proof.
  intros [(b & Hb & Hlen) Ht Hc Hh] Hpos. split.
  - split; simpl.
    + by exists b.
    + rewrite land_size. apply Z.mod_pos_bound. by rewrite size_eq.
    + lia.
    + rewrite Hh, land_size, Zplus_mod_idemp_l. f_equal. lia.
  - exists b, (ring_at b (xmit_tail r)). split_and!; [done|by apply ring_at_lookup|].
    unfold queue. simpl. rewrite Hb. replace (Z.to_nat (xmit_cnt r)) with (S (Z.to_nat (xmit_cnt r - 1))) by lia.
    cbn [seq fmap list_fmap]. rewrite Z.add_0_r. f_equal. rewrite <- fmap_S_seq, <- list_fmap_compose. apply list_fmap_ext.
    intros i x _. unfold compose, ring_at. rewrite land_size. do 2 f_equal. rewrite Zplus_mod_idemp_l. f_equal. lia.
Qed.

(** Characters in, without a wrap. *)
Definition push_ring (l : bytes) (r : Ring) : Ring :=
  match xmit_buf r with
  | Some b => mkRing (Some (list_inserts (Z.to_nat (xmit_head r)) l b))
      (Z.land (xmit_head r + Z.of_nat (length l)) (SERIAL_XMIT_SIZE - 1)) (xmit_tail r) (xmit_cnt r + Z.of_nat (length l))
  | None => r
  end.
Lemma push_ring_ok r l : ring_ok r -> xmit_cnt r + Z.of_nat (length l) < SERIAL_XMIT_SIZE ->
  xmit_head r + Z.of_nat (length l) <= SERIAL_XMIT_SIZE ->
  ring_ok (push_ring l r) /\ queue (push_ring l r) = queue r ++ l.
Proof.
  intros Hok Hroom Hend. pose proof (head_range r Hok) as Hhr. destruct Hok as [(b & Hb & Hlen) Ht Hc Hh].
  unfold push_ring. rewrite Hb. split.
  - split; simpl.
    + eexists. split; [done|]. by rewrite length_inserts.
    + done.
    + lia.
    + rewrite land_size, Hh, Zplus_mod_idemp_l. f_equal. lia.
  - unfold queue. simpl. rewrite Hb. rewrite size_eq in *.
    replace (Z.to_nat (xmit_cnt r + Z.of_nat (length l))) with (Z.to_nat (xmit_cnt r) + length l)%nat by lia.
    rewrite seq_app, fmap_app. f_equal.
    + apply list_fmap_ext. intros i x Hx. apply lookup_seq in Hx as [-> Hi]. unfold ring_at. rewrite size_eq.
      set (p := (xmit_tail r + Z.of_nat (0 + i)) mod 4096).
      assert (0 <= p < 4096) as Hp by (apply Z.mod_pos_bound; lia).
      assert (p < xmit_head r \/ xmit_head r + Z.of_nat (length l) <= p) as Hout.
      { unfold p in *. rewrite Hh in *. clear Hb Hlen Hhr. Z.div_mod_to_equations. lia. }
      destruct (b !! Z.to_nat p) as [c|] eqn:E; [|apply lookup_ge_None in E; lia].
      rewrite (nth_lookup_Some _ _ _ _ E). apply nth_lookup_Some.
      destruct Hout; [rewrite list_lookup_inserts_lt by lia|rewrite list_lookup_inserts_ge by lia]; done.
    + apply list_eq. intros i. rewrite list_lookup_fmap. destruct (l !! i) as [c|] eqn:E.
      * pose proof (lookup_lt_Some _ _ _ E) as Hi. rewrite lookup_seq_lt by done. simpl. f_equal. unfold ring_at. rewrite size_eq.
        replace ((xmit_tail r + Z.of_nat (Z.to_nat (xmit_cnt r) + i)) mod 4096) with (xmit_head r + Z.of_nat i)
          by (rewrite Hh in *; clear Hb Hlen; Z.div_mod_to_equations; lia).
        apply nth_lookup_Some. rewrite list_lookup_inserts by lia. by replace (Z.to_nat (xmit_head r + Z.of_nat i) - Z.to_nat (xmit_head r))%nat with i by lia.
      * rewrite lookup_seq_ge; [done|]. by apply lookup_ge_None.
Qed.

(** ** The transmitter interrupt *)

Definition data_of (i : tx_item) : option Z := match i with Data c => Some c | Flow _ => None end.

Section Tx.
Context {U : Type} `{Uart U}.
Implicit Types s : Ser U.

(** The data given to the transmitter, and what is to be given in order. *)
Definition sent s : bytes := omap data_of (wire s).
Definition stream s : bytes := sent s ++ queue (ring s).

(** What an interrupt or a timer leaves alone. *)
Definition core (i : Info) : Info := set_event 0 (set_x_char 0 i).
Definition tty_core (t : Tty) : bool * bool * ktermios * Z * bool := (stopped_ t, hw_stopped t, termios_ t, tty_flags t, tty_closing t).

(** No receiver interrupt is to come. *)
Definition no_rx s : Prop := Forall (Forall (fun h => h <> RxIrq)) (sched s).

Record quiet s s' : Prop := mkQuiet {
  q_ring : ring_ok (ring s) -> ring_ok (ring s');
  q_stream : ring_ok (ring s) -> stream s' = stream s;
  q_cnt : ring_ok (ring s) -> xmit_cnt (ring s') <= xmit_cnt (ring s);
  q_head : xmit_head (ring s') = xmit_head (ring s);
  q_info : core (info s') = core (info s);
  q_tty : tty_core (tty s') = tty_core (tty s);
  q_irqs : irqs s' = irqs s;
  q_sched : no_rx s -> no_rx s';
  q_naps : naps s' = naps s;
  q_mask : intmask (regs s') = intmask (regs s);
}.

#[export] Instance quiet_refl : Reflexive quiet.
Proof. intros s. by split. Qed.
#[export] Instance quiet_trans : Transitive quiet.
Proof.
  intros s1 s2 s3 H1 H2. split.
  - intros Hr. by apply H2, H1.
  - intros Hr. rewrite (q_stream _ _ H2) by by apply H1. by apply H1.
  - intros Hr. etransitivity; [apply H2; by apply H1|by apply H1].
  - by rewrite (q_head _ _ H2), (q_head _ _ H1).
  - by rewrite (q_info _ _ H2), (q_info _ _ H1).
  - by rewrite (q_tty _ _ H2), (q_tty _ _ H1).
  - by rewrite (q_irqs _ _ H2), (q_irqs _ _ H1).
  - intros Hn. by apply H2, H1.
  - by rewrite (q_naps _ _ H2), (q_naps _ _ H1).
  - by rewrite (q_mask _ _ H2), (q_mask _ _ H1).
Qed.

(** Steps that touch neither the buffer nor the data on the wire. *)
Lemma quiet_same s s' :
  ring s' = ring s -> sent s' = sent s -> core (info s') = core (info s) -> tty_core (tty s') = tty_core (tty s) ->
  irqs s' = irqs s -> sched s' = sched s -> naps s' = naps s -> intmask (regs s') = intmask (regs s) -> quiet s s'.
Proof.
  intros Hr Hs Hi Ht Hq Hsc. split; rewrite ?Hr; try done; intros ?; [unfold stream; by rewrite Hr, Hs|unfold no_rx; by rewrite Hsc].
Qed.

Lemma csr_quiet s : exists v s', csr s = Ret v s' /\ quiet s s' /\ ring s' = ring s /\ wire s' = wire s /\ info s' = info s /\
  regs s' = regs s /\ tty s' = tty s.
Proof. unfold csr. destruct (csr_read (uart s)) as [v u]. exists v, (set_uart u s). by split_and!. Qed.

Lemma handle_full_quiet s : exists s', handle_status U_TFFUL s = Ret tt s' /\ quiet s s' /\ ring s' = ring s /\ wire s' = wire s /\
  info s' = info s /\ regs s' = regs s /\ tty s' = tty s.
Proof.
  unfold handle_status, or_csr. rewrite bind_bind. destruct (csr_quiet s) as (v & s1 & E & Hq & Hr & Hw & Hi & Hg & Ht).
  rewrite (bind_Ret _ _ _ _ _ E). eexists. split; [done|]. split_and!; try done. etransitivity; [exact Hq|]. by apply quiet_same.
Qed.

(** One turn of the loop: a character goes from the buffer to the wire. *)
Lemma take_send s : ring_ok (ring s) -> 0 < xmit_cnt (ring s) -> exists c s',
  (c ← take_char; thr (Data c) c) s = Ret tt s' /\ quiet s s' /\ ring s' = pop_ring (ring s) /\
  wire s' = wire s ++ [Data c] /\ info s' = info s /\ regs s' = regs s /\ tty s' = tty s.
Proof.
  intros Hok Hpos. destruct (pop_ring_ok _ Hok Hpos) as (Hok' & b & c & Hb & Hc & Hq).
  exists c. eexists. split.
  { unfold take_char. rewrite bind_bind, bind_gets, Hb, Hc. unfold mr. by rewrite bind_bind, bind_modify, bind_mret. }
  split_and!; try done. split; try done; simpl; intros _.
  - unfold stream, sent. simpl. rewrite omap_app, Hq. simpl. by rewrite <- app_assoc.
  - lia.
Qed.

Lemma tx_loop_ok n s : ring_ok (ring s) -> 0 < xmit_cnt (ring s) -> (0 < n)%nat -> exists s',
  tx_loop n s = Ret tt s' /\ quiet s s' /\ xmit_cnt (ring s') < xmit_cnt (ring s) /\
  (exists l, wire s' = wire s ++ (Data <$> l) /\ (length l <= n)%nat) /\ info s' = info s /\ regs s' = regs s /\ tty s' = tty s.
Proof.
  revert s. induction n as [|n IH]; intros s Hok Hpos Hn; [lia|]. cbn [tx_loop].
  destruct (take_send s Hok Hpos) as (c & s1 & E1 & Hq1 & Hr1 & Hw1 & Hi1 & Hg1 & Ht1).
  assert (forall K : M (Ser U) unit, (c ← take_char; thr (Data c) c ;; K) s = K s1) as EK.
  { intros K. unfold mbind, M_bind in *. destruct (take_char s); [|done]. by destruct (thr (Data a) a s0); simplify_eq. }
  rewrite EK. unfold gr. rewrite bind_gets. assert (ring_ok (ring s1)) as Hok1 by by apply Hq1.
  assert (xmit_cnt (ring s1) = xmit_cnt (ring s) - 1) as Hc1 by by rewrite Hr1.
  destruct (Z.leb_spec (xmit_cnt (ring s1)) 0) as [Hz|Hz].
  { exists s1. split_and!; try done; [lia|]. exists [c]. split; [done|simpl; lia]. }
  destruct (csr_quiet s1) as (v & s2 & E2 & Hq2 & Hr2 & Hw2 & Hi2 & Hg2 & Ht2). rewrite (bind_Ret _ _ _ _ _ E2).
  destruct (bits v U_TFFUL).
  { destruct (handle_full_quiet s2) as (s3 & E3 & Hq3 & Hr3 & Hw3 & Hi3 & Hg3 & Ht3). exists s3. rewrite E3.
    split_and!; try congruence; [by etransitivity; [etransitivity|]|rewrite Hr3, Hr2; lia|].
    exists [c]. split; [by rewrite Hw3, Hw2|simpl; lia]. }
  destruct n as [|n].
  { exists s2. split_and!; try congruence; [done|by etransitivity|rewrite Hr2; lia|]. exists [c]. split; [by rewrite Hw2|simpl; lia]. }
  destruct (IH s2) as (s3 & E3 & Hq3 & Hlt & (l & Hw3 & Hl) & Hi3 & Hg3 & Ht3); [by rewrite Hr2|rewrite Hr2; lia|lia|].
  exists s3. rewrite E3. split_and!; try congruence; [by etransitivity; [etransitivity|]|rewrite Hr2 in Hlt; lia|].
  exists (c :: l). split; [|simpl; lia]. rewrite Hw3, Hw2, Hw1. by rewrite <- app_assoc.
Qed.

(** The interrupt of the transmitter is on whenever it has work. *)
Definition can_send s : bool := negb (stopped_ (tty s)) && negb (hw_stopped (tty s)).
Definition progress s : Prop :=
  use_ints (info s) = true -> 0 < xmit_cnt (ring s) -> can_send s = true -> bits (ier (regs s)) U_THEIE = true.

Lemma theie_cleared r : bits (clear r U_THEIE) U_THEIE = false.
Proof. unfold bits, clear. by rewrite <- Z.land_assoc, Z.land_0_r. Qed.
Lemma theie_bit r : bits r U_THEIE = Z.testbit r 18.
Proof.
  unfold bits. destruct (Z.testbit r 18) eqn:E.
  - apply negb_true_iff, Z.eqb_neq. intros Hz. apply (f_equal (fun z => Z.testbit z 18)) in Hz. by rewrite Z.land_spec, E in Hz.
  - apply negb_false_iff, Z.eqb_eq. apply Z.bits_inj'. intros i Hi. rewrite Z.land_spec, Z.bits_0. change U_THEIE with (2 ^ 18).
    destruct (decide (i = 18)) as [->|]; [by rewrite E|]. by rewrite Z.pow2_bits_false, andb_false_r by lia.
Qed.
Lemma theie_lor r m : bits r U_THEIE = true \/ bits m U_THEIE = true -> bits (Z.lor r m) U_THEIE = true.
Proof. rewrite !theie_bit, Z.lor_spec. intros [->| ->]; [done|apply orb_true_r]. Qed.
Lemma theie_set r : bits (Z.lor r U_THEIE) U_THEIE = true.
Proof. apply theie_lor. by right. Qed.

Inductive tx_outcome s s' : Prop :=
| TxFlow : x_char (info s) <> 0 -> x_char (info s') = 0 -> ring s' = ring s -> wire s' = wire s ++ [Flow (x_char (info s))] ->
    regs s' = regs s -> tx_outcome s s'
| TxIdle : x_char (info s) = 0 -> info s' = info s -> xmit_cnt (ring s) <= 0 \/ can_send s = false -> ring s' = ring s ->
    wire s' = wire s -> bits (ier (regs s')) U_THEIE = false -> tx_outcome s s'
| TxSend : x_char (info s) = 0 -> x_char (info s') = 0 -> can_send s = true -> xmit_cnt (ring s') < xmit_cnt (ring s) ->
    (exists l, wire s' = wire s ++ (Data <$> l) /\ Z.of_nat (length l) <= xmit_fifo_size (info s)) ->
    (if xmit_cnt (ring s') <=? 0 then bits (ier (regs s')) U_THEIE = false else regs s' = regs s) -> tx_outcome s s'.

Lemma tx_irq_ok s :
  has_tty (info s) = true -> 0 < xmit_fifo_size (info s) -> ring_ok (ring s) ->
  exists s', rs_interrupt_Tx s = Ret tt s' /\ quiet s s' /\ tx_outcome s s' /\ (progress s -> progress s').
Proof.
  intros Htty Hfifo Hok. unfold rs_interrupt_Tx, gi, gr, gt. rewrite bind_gets.
  destruct (Z.eqb_spec (x_char (info s)) 0) as [Hx|Hx]; cbn [negb].
  2: { eexists. split; [done|]. split; [apply quiet_same; try done; unfold sent; simpl; by rewrite omap_app, app_nil_r|].
       split; [by apply TxFlow|done]. }
  rewrite !bind_gets, Htty. assert (forall P, (if P : bool then tx_stop else tx_stop) s = tx_stop s) as Hif by by intros [].
  destruct (Z.leb_spec (xmit_cnt (ring s)) 0) as [Hz|Hz].
  { eexists. split; [done|]. split; [by apply quiet_same|]. split; [apply TxIdle; try done; [by left|apply theie_cleared]|].
    intros _ _ Hc. simpl in Hc. lia. }
  cbn [negb]. rewrite !bind_gets. destruct (stopped_ (tty s) || hw_stopped (tty s)) eqn:Hst.
  { assert (can_send s = false) as Hcs by (unfold can_send; by rewrite <- negb_orb, Hst).
    eexists. split; [done|]. split; [by apply quiet_same|]. split; [apply TxIdle; try done; [by right|apply theie_cleared]|].
    intros _ _ _ Hc. unfold can_send in *. simpl in Hc. congruence. }
  assert (can_send s = true) as Hcs by (unfold can_send; by rewrite <- negb_orb, Hst).
  rewrite bind_gets. destruct (tx_loop_ok (Z.to_nat (xmit_fifo_size (info s))) s Hok Hz ltac:(lia))
    as (s1 & E1 & Hq1 & Hlt & (l & Hw & Hl) & Hi1 & Hg1 & Ht1).
  rewrite (bind_Ret _ _ _ _ _ E1), bind_gets.
  set (s2 := if xmit_cnt (ring s1) <? WAKEUP_CHARS then
    upd_info (fun i => set_event (Z.lor (event i) (Z.shiftl 1 RS_EVENT_WRITE_WAKEUP)) i) s1 else s1).
  assert (when (xmit_cnt (ring s1) <? WAKEUP_CHARS) (rs_sched_event RS_EVENT_WRITE_WAKEUP) s1 = Ret tt s2) as E2
    by (unfold s2; by destruct (_ <? _)).
  rewrite (bind_Ret _ _ _ _ _ E2), bind_gets.
  assert (quiet s1 s2 /\ ring s2 = ring s1 /\ wire s2 = wire s1 /\ regs s2 = regs s1 /\ tty s2 = tty s1 /\
    x_char (info s2) = x_char (info s1) /\ use_ints (info s2) = use_ints (info s1)) as (Hq2 & Hr2 & Hw2 & Hg2 & Ht2 & Hx2 & Hu2)
    by (unfold s2; destruct (_ <? _); split_and!; try done; by apply quiet_same).
  destruct (Z.leb_spec (xmit_cnt (ring s2)) 0) as [Hz2|Hz2].
  - eexists. split; [done|]. split; [etransitivity; [etransitivity; [exact Hq1|exact Hq2]|by apply quiet_same]|].
    split; [|intros _ _ Hc; simpl in Hc; lia].
    apply TxSend; try done; simpl; [by rewrite Hx2, Hi1|by rewrite Hr2| |].
    + exists l. rewrite Hw2, Hw. split; [done|lia].
    + rewrite (proj2 (Z.leb_le _ _) Hz2). apply theie_cleared.
  - exists s2. split; [done|]. split; [by etransitivity|]. split.
    + apply TxSend; try done; [by rewrite Hx2, Hi1|by rewrite Hr2|exists l; rewrite Hw2, Hw; split; [done|lia]|].
      rewrite (proj2 (Z.leb_gt _ _) Hz2). congruence.
    + intros Hp Hu Hc Hs. rewrite Hg2, Hg1. apply Hp; [congruence|lia|done].
Qed.

(** Anything but a receiver interrupt. *)
Lemma happen_ok s h :
  h <> RxIrq -> has_tty (info s) = true -> 0 < xmit_fifo_size (info s) -> ring_ok (ring s) ->
  exists s', happen h s = Ret tt s' /\ quiet s s' /\ (progress s -> progress s').
Proof.
  intros Hh Htty Hfifo Hok. destruct h; [|done|]; unfold happen.
  - rewrite bind_gets. destruct (tx_enabled s); [|by exists s].
    destruct (tx_irq_ok s Htty Hfifo Hok) as (s' & E & Hq & _ & Hp). by exists s'.
  - unfold gt. rewrite bind_gets. destruct (flip_queued (flip (tty s))); [|by exists s].
    unfold when, flush_to_ldisc, gt, mt. rewrite bind_gets. cbv zeta. rewrite bind_modify. eexists. split; [reflexivity|]. split; [by apply quiet_same|done].
Qed.

Lemma quiet_core s s' : quiet s s' ->
  has_tty (info s') = has_tty (info s) /\ xmit_fifo_size (info s') = xmit_fifo_size (info s) /\ use_ints (info s') = use_ints (info s) /\
  irq (info s') = irq (info s) /\ can_send s' = can_send s.
Proof.
  intros Hq. pose proof (q_info _ _ Hq) as Hi. pose proof (q_tty _ _ Hq) as Ht. split_and!.
  - exact (f_equal has_tty Hi).
  - exact (f_equal xmit_fifo_size Hi).
  - exact (f_equal use_ints Hi).
  - exact (f_equal irq Hi).
  - unfold can_send. unfold tty_core in Ht. by injection Ht as -> -> _ _ _.
Qed.

Lemma happen_all_ok l s :
  Forall (fun h => h <> RxIrq) l -> has_tty (info s) = true -> 0 < xmit_fifo_size (info s) -> ring_ok (ring s) ->
  exists s', happen_all l s = Ret tt s' /\ quiet s s' /\ (progress s -> progress s').
Proof.
  revert s. induction l as [|h l IH]; intros s Hl Htty Hfifo Hok; [by exists s|]. apply Forall_cons in Hl as [Hh Hl].
  cbn [happen_all]. destruct (happen_ok s h Hh Htty Hfifo Hok) as (s1 & E1 & Hq1 & Hp1). rewrite (bind_Ret _ _ _ _ _ E1).
  destruct (quiet_core _ _ Hq1) as (H1 & H2 & _). destruct (IH s1) as (s2 & E2 & Hq2 & Hp2); [done|congruence|congruence|by apply Hq1|].
  exists s2. rewrite E2. split; [done|]. split; [by etransitivity|auto].
Qed.

(** ** Writing *)

Record live s : Prop := mkLive {
  live_tty : has_tty (info s) = true;
  live_fifo : 0 < xmit_fifo_size (info s);
  live_ring : ring_ok (ring s);
  live_no_rx : no_rx s;
}.

(** [l] was put in the buffer while interrupts took some of it out. *)
Record wrote s s' (l : bytes) : Prop := mkWrote {
  w_ring : ring_ok (ring s) -> ring_ok (ring s');
  w_stream : ring_ok (ring s) -> stream s' = stream s ++ l;
  w_cnt : ring_ok (ring s) -> xmit_cnt (ring s') <= xmit_cnt (ring s) + Z.of_nat (length l);
  w_info : core (info s') = core (info s);
  w_tty : tty_core (tty s') = tty_core (tty s);
  w_sched : no_rx s -> no_rx s';
  w_mask : intmask (regs s') = intmask (regs s);
}.

Lemma wrote_quiet s s' : quiet s s' -> wrote s s' [].
Proof.
  intros Hq. split; try apply Hq.
  - intros Hr. rewrite app_nil_r. by apply Hq.
  - intros Hr. rewrite Z.add_0_r. by apply Hq.
Qed.
Lemma wrote_trans s1 s2 s3 l l' : wrote s1 s2 l -> wrote s2 s3 l' -> wrote s1 s3 (l ++ l').
Proof.
  intros H1 H2. split.
  - intros Hr. by apply H2, H1.
  - intros Hr. rewrite (w_stream _ _ _ H2), (w_stream _ _ _ H1) by (done || by apply H1). by rewrite app_assoc.
  - intros Hr. pose proof (w_cnt _ _ _ H1 Hr). pose proof (w_cnt _ _ _ H2 (w_ring _ _ _ H1 Hr)). rewrite length_app. lia.
  - by rewrite (w_info _ _ _ H2), (w_info _ _ _ H1).
  - by rewrite (w_tty _ _ _ H2), (w_tty _ _ _ H1).
  - intros Hn. by apply H2, H1.
  - by rewrite (w_mask _ _ _ H2), (w_mask _ _ _ H1).
Qed.

Lemma wrote_live s s' l : wrote s s' l -> live s -> live s' /\ use_ints (info s') = use_ints (info s) /\ can_send s' = can_send s.
Proof.
  intros Hw [Ht Hf Hr Hn]. pose proof (w_info _ _ _ Hw) as Hi. pose proof (w_tty _ _ _ Hw) as Htt. split_and!.
  - split; [|pose proof (f_equal xmit_fifo_size Hi : xmit_fifo_size (info s') = _) as E; rewrite E; done|by apply Hw|by apply Hw].
    by rewrite (f_equal has_tty Hi : has_tty (info s') = _).
  - exact (f_equal use_ints Hi).
  - unfold can_send. unfold tty_core in Htt. by injection Htt as -> -> _ _ _.
Qed.

(** Turning interrupts off or on. *)
Lemma set_irqs_quiet s b : wrote s (set_irqs b s) [].
Proof. split; try done; intros _; [by rewrite app_nil_r|simpl; lia]. Qed.

Lemma irq_point_ok s : live s -> exists s', irq_point s = Ret tt s' /\ wrote s s' [] /\ irqs s' = irqs s /\ xmit_head (ring s') = xmit_head (ring s).
Proof.
  intros [Ht Hf Hr Hn]. unfold irq_point. rewrite bind_gets. destruct (irqs s) eqn:Hi; [|exists s; split_and!; try done; by apply wrote_quiet].
  cbn [when]. rewrite bind_gets, bind_modify. unfold no_rx in Hn.
  assert (Forall (fun h => h <> RxIrq) (default [] (head (sched s)))) as Hb.
  { destruct (sched s); [constructor|]. by apply Forall_cons in Hn as [? _]. }
  destruct (happen_all_ok _ (set_sched (tail (sched s)) s) Hb Ht Hf Hr) as (s' & E & Hq & _). exists s'. rewrite E.
  split_and!; [done| |by rewrite (q_irqs _ _ Hq)|by rewrite (q_head _ _ Hq)].
  apply (wrote_trans s (set_sched (tail (sched s)) s) s' [] []); [|by apply wrote_quiet].
  split; try done; intros _; [by rewrite app_nil_r|simpl; lia|]. unfold no_rx. simpl. destruct (sched s); [done|].
  by apply Forall_cons in Hn as [_ ?].
Qed.

(** A chunk of [rs_write] fits before the end of the page and leaves a place. *)
Lemma chunk_ok n s : chunk n s = Ret (Z.min n (Z.min (SERIAL_XMIT_SIZE - xmit_cnt (ring s) - 1) (SERIAL_XMIT_SIZE - xmit_head (ring s)))) s.
Proof. done. Qed.

Lemma put_chunk_ok l s :
  ring_ok (ring s) -> Z.of_nat (length l) <= SERIAL_XMIT_SIZE - xmit_cnt (ring s) - 1 ->
  Z.of_nat (length l) <= SERIAL_XMIT_SIZE - xmit_head (ring s) ->
  exists s', put_chunk l s = Ret tt s' /\ wrote s s' l /\ irqs s' = irqs s /\ xmit_cnt (ring s') = xmit_cnt (ring s) + Z.of_nat (length l).
Proof.
  intros Hok Hroom Hend. destruct (push_ring_ok (ring s) l Hok ltac:(lia) ltac:(lia)) as [Hok' Hq].
  pose proof (head_range _ Hok) as Hh. pose proof Hok as [(b & Hb & Hlen) _ _ _]. exists (upd_ring (push_ring l) s). split_and!.
  - unfold put_chunk. rewrite bind_gets, Hb. rewrite bool_decide_true by lia. unfold mr, modify, upd_ring, push_ring. by rewrite Hb.
  - split; try done; simpl; intros _; [by unfold stream; simpl; rewrite Hq, app_assoc|unfold push_ring; rewrite Hb; simpl; lia].
  - done.
  - simpl. unfold push_ring. by rewrite Hb.
Qed.

(** The result of the loops: [k] characters were taken, and fewer than all only
    if the buffer was full. *)
Definition accepted s s' (buf : bytes) (k : Z) : Prop :=
  0 <= k <= Z.of_nat (length buf) /\ wrote s s' (take (Z.to_nat k) buf) /\
  (k < Z.of_nat (length buf) -> xmit_cnt (ring s') = SERIAL_XMIT_SIZE - 1).

Lemma accepted_more s s1 s' buf c k :
  0 <= c <= Z.of_nat (length buf) -> wrote s s1 (take (Z.to_nat c) buf) -> accepted s1 s' (drop (Z.to_nat c) buf) k ->
  accepted s s' buf (c + k).
Proof.
  intros Hc Hw (Hk & Hw' & Hfull). rewrite length_drop in Hk, Hfull. split_and!; [lia|lia| |intros ?; apply Hfull; lia].
  rewrite Z2Nat.inj_add, <- take_take_drop by lia. by eapply wrote_trans.
Qed.

Lemma no_room s buf : ring_ok (ring s) ->
  Z.min (Z.of_nat (length buf)) (Z.min (SERIAL_XMIT_SIZE - xmit_cnt (ring s) - 1) (SERIAL_XMIT_SIZE - xmit_head (ring s))) <= 0 ->
  accepted s s buf 0.
Proof.
  intros Hok Hz. pose proof (head_range _ Hok) as Hh. pose proof (ring_cnt _ Hok). unfold accepted. rewrite size_eq in *.
  split_and!; [lia|lia|by apply wrote_quiet|intros ?; lia].
Qed.

Lemma write_kernel_ok n buf total s :
  live s -> (length buf < n)%nat -> exists k s', write_kernel n buf total s = Ret (total + k) s' /\ accepted s s' buf k /\ irqs s' = irqs s.
Proof.
  revert buf total s. induction n as [|n IH]; intros buf total s Hl Hn; [lia|]. cbn [write_kernel].
  rewrite (bind_Ret _ _ _ _ _ (chunk_ok _ s)). set (c := Z.min (Z.of_nat (length buf)) _). pose proof (live_ring _ Hl) as Hok.
  destruct (Z.leb_spec c 0) as [Hz|Hz].
  { exists 0, s. rewrite Z.add_0_r. split_and!; [done|by apply no_room|done]. }
  assert (Z.of_nat (length (take (Z.to_nat c) buf)) = c) as Hlc by (rewrite length_take; lia).
  destruct (put_chunk_ok (take (Z.to_nat c) buf) s Hok) as (s1 & E1 & Hw1 & Hi1 & _); [lia|lia|].
  rewrite (bind_Ret _ _ _ _ _ E1). destruct (wrote_live _ _ _ Hw1 Hl) as [Hl1 _].
  destruct (IH (drop (Z.to_nat c) buf) (total + c) s1 Hl1) as (k & s2 & E2 & Ha & Hi2); [rewrite length_drop; lia|].
  exists (c + k), s2. rewrite E2. split_and!; [f_equal; lia| |congruence]. eapply accepted_more; [lia|exact Hw1|exact Ha].
Qed.

Lemma write_user_ok n flags buf total s :
  live s -> irqs s = flags -> (length buf < n)%nat ->
  exists k s', write_user n flags buf total s = Ret (total + k) s' /\ accepted s s' buf k /\ irqs s' = flags.
Proof.
  revert buf total s. induction n as [|n IH]; intros buf total s Hl Hf Hn; [lia|]. cbn [write_user].
  rewrite (bind_Ret _ _ _ _ _ (chunk_ok _ s)). set (c := Z.min (Z.of_nat (length buf)) _). pose proof (live_ring _ Hl) as Hok.
  destruct (Z.leb_spec c 0) as [Hz|Hz].
  { exists 0, s. rewrite Z.add_0_r. split_and!; [done|by apply no_room|done]. }
  destruct (irq_point_ok s Hl) as (s1 & E1 & Hw1 & Hi1 & Hh1). rewrite (bind_Ret _ _ _ _ _ E1). destruct (wrote_live _ _ _ Hw1 Hl) as [Hl1 _].
  unfold cli. rewrite bind_modify. set (s2 := set_irqs false s1).
  assert (wrote s s2 []) as Hw2 by (apply (wrote_trans s s1 s2 [] []); [done|apply set_irqs_quiet]).
  pose proof (w_cnt _ _ _ Hw1 Hok) as Hc1. simpl in Hc1.
  rewrite (bind_Ret _ _ _ _ _ (chunk_ok c s2)). replace (Z.min c _) with c by (simpl; rewrite Hh1; lia).
  assert (Z.of_nat (length (take (Z.to_nat c) buf)) = c) as Hlc by (rewrite length_take; lia).
  destruct (put_chunk_ok (take (Z.to_nat c) buf) s2) as (s3 & E3 & Hw3 & Hi3 & _); [apply Hl1|simpl; lia|simpl; rewrite Hh1; lia|].
  rewrite (bind_Ret _ _ _ _ _ E3). unfold restore_flags. rewrite bind_modify. set (s4 := set_irqs flags s3).
  assert (wrote s s4 (take (Z.to_nat c) buf)) as Hw4.
  { rewrite <- (app_nil_r (take _ _)). eapply wrote_trans; [|apply set_irqs_quiet]. by apply (wrote_trans s s2 s3 []). }
  destruct (wrote_live _ _ _ Hw4 Hl) as [Hl4 _]. destruct (irq_point_ok s4 Hl4) as (s5 & E5 & Hw5 & Hi5 & _).
  rewrite (bind_Ret _ _ _ _ _ E5). destruct (wrote_live _ _ _ Hw5 Hl4) as [Hl5 _].
  destruct (IH (drop (Z.to_nat c) buf) (total + c) s5 Hl5) as (k & s6 & E6 & Ha & Hi6); [by rewrite Hi5|rewrite length_drop; lia|].
  exists (c + k), s6. rewrite E6. split_and!; [f_equal; lia| |done]. eapply accepted_more; [lia| |exact Ha].
  rewrite <- (app_nil_r (take _ _)). by eapply wrote_trans.
Qed.

Lemma rs_write_ok fuel from_user buf s :
  live s -> use_ints (info s) = true -> (length buf < fuel)%nat ->
  exists k s', rs_write fuel from_user buf s = Ret k s' /\ 0 <= k <= Z.of_nat (length buf) /\
    wrote s s' (take (Z.to_nat k) buf) /\ Z.min (Z.of_nat (length buf)) (SERIAL_XMIT_SIZE - 1 - xmit_cnt (ring s)) <= k /\
    progress s' /\ irqs s' = irqs s.
Proof.
  intros Hl Hu Hn. pose proof (live_ring _ Hl) as Hok. unfold rs_write, gr. rewrite bind_gets.
  destruct (ring_page _ Hok) as (b & Hb & _). rewrite Hb, bind_gets.
  assert (exists k s1, (if from_user then write_user fuel (irqs s) buf 0
      else cli ;; t ← write_kernel fuel buf 0; restore_flags (irqs s) ;; mret t) s = Ret k s1 /\ accepted s s1 buf k /\ irqs s1 = irqs s)
    as (k & s1 & E & (Hk & Hw & Hfull) & Hi).
  { destruct from_user.
    - destruct (write_user_ok fuel (irqs s) buf 0 s Hl eq_refl Hn) as (k & s1 & E & Ha). by exists k, s1.
    - pose proof (set_irqs_quiet s false) as Hw0. destruct (wrote_live _ _ _ Hw0 Hl) as [Hl0 _].
      destruct (write_kernel_ok fuel buf 0 (set_irqs false s) Hl0 Hn) as (k & s1 & E & Ha & Hi1).
      exists k, (set_irqs (irqs s) s1). unfold cli. rewrite bind_modify, (bind_Ret _ _ _ _ _ E). split_and!; [done| |done].
      destruct Ha as (Hk & Hw & Hfull). split_and!; [lia|lia| |done]. rewrite <- (app_nil_r (take _ _)).
      eapply wrote_trans; [|apply set_irqs_quiet]. by apply (wrote_trans s (set_irqs false s) s1 []). }
  rewrite (bind_Ret _ _ _ _ _ E). unfold gt. rewrite !bind_gets. destruct (wrote_live _ _ _ Hw Hl) as (Hl1 & Hu1 & Hc1).
  assert (Z.min (Z.of_nat (length buf)) (SERIAL_XMIT_SIZE - 1 - xmit_cnt (ring s)) <= k) as Hmin.
  { pose proof (w_cnt _ _ _ Hw Hok) as Hcnt. rewrite length_take in Hcnt. rewrite size_eq in *.
    destruct (decide (k < Z.of_nat (length buf))) as [Hlt|]; [specialize (Hfull Hlt); lia|lia]. }
  set (go := negb (xmit_cnt (ring s1) =? 0) && negb (stopped_ (tty s1)) && negb (hw_stopped (tty s1))).
  set (s2 := if go then upd_regs (fun r => set_ier (Z.lor (ier r) U_THEIE) r) s1 else s1).
  assert ((if go then ints ← gi use_ints; if negb ints then send_all fuel fuel else tx_start else mret tt) s1 = Ret tt s2) as E2.
  { unfold s2. destruct go; [|done]. unfold gi. rewrite bind_gets, Hu1, Hu. cbn [negb]. unfold tx_start, gi. by rewrite bind_gets, Hu1, Hu. }
  rewrite (bind_Ret _ _ _ _ _ E2). unfold restore_flags. rewrite bind_modify. exists k, (set_irqs (irqs s) s2).
  assert (wrote s1 s2 []) as Hw2 by (unfold s2; destruct go; split; try done; intros _; [by rewrite app_nil_r|simpl; lia|by rewrite app_nil_r|simpl; lia]).
  assert (ring s2 = ring s1 /\ tty s2 = tty s1) as [Hr2 Ht2] by (unfold s2; by destruct go).
  split_and!; [done|lia|lia| |done| |done].
  - rewrite <- (app_nil_r (take _ _)). eapply wrote_trans; [|apply set_irqs_quiet]. rewrite <- (app_nil_r (take _ _)). by eapply wrote_trans.
  - intros _ Hpos Hcs. change (regs (set_irqs (irqs s) s2)) with (regs s2).
    assert (go = true) as Hgo; [|unfold s2; rewrite Hgo; apply theie_set].
    change (ring (set_irqs (irqs s) s2)) with (ring s2) in Hpos. unfold can_send in Hcs.
    change (tty (set_irqs (irqs s) s2)) with (tty s2) in Hcs. rewrite Hr2 in Hpos. rewrite Ht2 in Hcs. unfold go.
    rewrite (proj2 (Z.eqb_neq _ _)) by lia. exact Hcs.
Qed.

(** ** The buffer drains *)

Definition unmasked s : Prop := bits (intmask (regs s)) (Z.shiftl 1 (irq (info s) - 1 - NR_EXT_IRQS)) = false.

(** What is left to do: the characters, and one for flow control. *)
Definition work s : Z := xmit_cnt (ring s) + (if x_char (info s) =? 0 then 0 else 1).

Lemma drain_ok n s :
  has_tty (info s) = true -> 0 < xmit_fifo_size (info s) -> ring_ok (ring s) -> use_ints (info s) = true -> unmasked s ->
  can_send s = true -> progress s -> work s <= Z.of_nat n ->
  exists s', happen_all (replicate n TxIrq) s = Ret tt s' /\ quiet s s' /\ xmit_cnt (ring s') = 0.
Proof.
  revert s. induction n as [|n IH]; intros s Ht Hf Hok Hu Hm Hc Hp Hw; pose proof (ring_cnt _ Hok).
  { exists s. split_and!; [done|done|]. unfold work in Hw. destruct (_ =? 0); lia. }
  destruct (decide (xmit_cnt (ring s) = 0)) as [Hz|Hnz].
  { destruct (happen_all_ok (replicate (S n) TxIrq) s) as (s' & E & Hq & _); [by apply Forall_replicate|done|done|done|].
    exists s'. split_and!; [done|done|]. pose proof (q_cnt _ _ Hq Hok). pose proof (ring_cnt _ (q_ring _ _ Hq Hok)). lia. }
  cbn [replicate happen_all]. unfold happen. rewrite bind_bind, bind_gets.
  assert (tx_enabled s = true) as ->.
  { unfold tx_enabled. unfold unmasked in Hm. rewrite Hm. rewrite Hp by (done || lia). done. }
  cbn [when]. destruct (tx_irq_ok s Ht Hf Hok) as (s1 & E & Hq & Ho & Hp1). rewrite (bind_Ret _ _ _ _ _ E).
  destruct (quiet_core _ _ Hq) as (H1 & H2 & H3 & H4 & H5).
  destruct (IH s1) as (s' & E' & Hq' & Hz'); [congruence|congruence|by apply Hq|congruence| |congruence|by apply Hp1| |].
  - unfold unmasked in *. by rewrite H4, (q_mask _ _ Hq).
  - assert (0 <= xmit_cnt (ring s1)) by (apply ring_cnt; by apply Hq). unfold work in *.
    destruct Ho as [Hx Hx1 Hr1 _ _|Hx Hi [Hz|Hz] Hr1 _ _|Hx Hx1 _ Hlt _ _]; [| lia|congruence|].
    + rewrite Hx1, Hr1. rewrite (proj2 (Z.eqb_neq _ _) Hx) in Hw. simpl. lia.
    + rewrite Hx1. rewrite Hx in Hw. simpl in *. lia.
  - exists s'. split_and!; [done|by etransitivity|done].
Qed.
End Tx.
