(* ===== verification/SerialRx.v ===== *)
(** * Input of the serial driver

    Characters go from the UART through the flip buffer of the terminal to the
    line discipline. *)

From S2P Require Import Prelude Termios Serial SerialTx.

(** ** The flip buffer *)

Definition flip_first (f : Flip) : Z := if buf_num f =? 0 then 0 else TTY_FLIPBUF_SIZE.
(** The characters with their flags that the line discipline will get. *)
Definition pending (f : Flip) : list (Z * Z) :=
  zip (take (Z.to_nat (flip_count f)) (drop (Z.to_nat (flip_first f)) (char_buf f)))
      (take (Z.to_nat (flip_count f)) (drop (Z.to_nat (flip_first f)) (flag_buf f))).

Record flip_ok (f : Flip) : Prop := mkFlipOk {
  f_chars : Z.of_nat (length (char_buf f)) = 2 * TTY_FLIPBUF_SIZE;
  f_flags : Z.of_nat (length (flag_buf f)) = 2 * TTY_FLIPBUF_SIZE;
  f_count : 0 <= flip_count f;
  f_ptr : flip_ptr f = flip_first f + flip_count f;
}.

Lemma first_range f : 0 <= flip_first f <= TTY_FLIPBUF_SIZE.
Proof. unfold flip_first, TTY_FLIPBUF_SIZE. destruct (_ =? 0); lia. Qed.
Lemma flip_size_eq : TTY_FLIPBUF_SIZE = 512.
Proof. done. Qed.

(** A store at or behind the end of a range leaves the range as it is. *)
Lemma slice_insert_out (l : bytes) (a n p : nat) c : (a + n <= p)%nat -> take n (drop a (<[p := c]> l)) = take n (drop a l).
Proof.
  intros Hp. apply list_eq. intros i. destruct (decide (i < n)%nat).
  - rewrite !lookup_take_lt, !lookup_drop by done. by rewrite list_lookup_insert_ne by lia.
  - by rewrite !lookup_take_ge by lia.
Qed.
Lemma slice_insert_end (l : bytes) (a n : nat) c : (a + n < length l)%nat ->
  take (S n) (drop a (<[(a + n)%nat := c]> l)) = take n (drop a l) ++ [c].
Proof.
  intros Hl. rewrite (take_S_r _ _ c) by (rewrite lookup_drop; by apply list_lookup_insert_eq). by rewrite slice_insert_out.
Qed.

(** A character and its flag at the pointer, and the pointer moved on. *)
Definition store_char (c : Z) (f : Flip) : Flip :=
  mkFlip (buf_num f) (flip_ptr f) (flip_count f) (<[Z.to_nat (flip_ptr f) := c]> (char_buf f)) (flag_buf f) (flip_queued f).
Definition store_flag (c : Z) (f : Flip) : Flip :=
  mkFlip (buf_num f) (flip_ptr f) (flip_count f) (char_buf f) (<[Z.to_nat (flip_ptr f) := c]> (flag_buf f)) (flip_queued f).
Definition advance (f : Flip) : Flip :=
  mkFlip (buf_num f) (flip_ptr f + 1) (flip_count f + 1) (char_buf f) (flag_buf f) (flip_queued f).

Lemma store_char_ok c f : flip_ok f -> flip_ok (store_char c f) /\ pending (store_char c f) = pending f.
Proof.
  intros [Hc Hf Hn Hp]. pose proof (first_range f). split; [split; simpl; try done; by rewrite length_insert|].
  unfold pending. simpl. change (flip_first (store_char c f)) with (flip_first f). by rewrite slice_insert_out by lia.
Qed.
Lemma store_flag_ok c f : flip_ok f -> flip_ok (store_flag c f) /\ pending (store_flag c f) = pending f.
Proof.
  intros [Hc Hf Hn Hp]. pose proof (first_range f). split; [split; simpl; try done; by rewrite length_insert|].
  unfold pending. simpl. change (flip_first (store_flag c f)) with (flip_first f). by rewrite slice_insert_out by lia.
Qed.
Lemma zip_snoc (l l' : bytes) c c' : length l = length l' -> zip (l ++ [c]) (l' ++ [c']) = zip l l' ++ [(c, c')].
Proof. revert l'. induction l as [|x l IH]; intros [|y l'] Hl; try done. simpl. f_equal. apply IH. by injection Hl. Qed.
Lemma store_advance_ok c g f : flip_ok f -> flip_count f < TTY_FLIPBUF_SIZE ->
  flip_ok (advance (store_flag g (store_char c f))) /\ pending (advance (store_flag g (store_char c f))) = pending f ++ [(c, g)].
Proof.
  intros [Hc Hf Hn Hp] Hlt. pose proof (first_range f). split.
  - split; simpl; [by rewrite length_insert|by rewrite length_insert|lia|]. change (flip_first _) with (flip_first f). lia.
  - unfold pending. simpl. change (flip_first (advance _)) with (flip_first f).
    replace (Z.to_nat (flip_count f + 1)) with (S (Z.to_nat (flip_count f))) by lia.
    replace (Z.to_nat (flip_ptr f)) with (Z.to_nat (flip_first f) + Z.to_nat (flip_count f))%nat by lia.
    rewrite !slice_insert_end by lia. apply zip_snoc. rewrite !length_take, !length_drop. lia.
Qed.

(** ** The receiver interrupt *)

Lemma bind_assoc_unit {S A} (m1 m2 m3 : M S unit) (k : M S A) s s' :
  (m1 ;; m2 ;; m3) s = Ret tt s' -> (m1 ;; m2 ;; m3 ;; k) s = k s'.
Proof.
  unfold mbind, M_bind. destruct (m1 s) as [a s1|]; [|done]. destruct (m2 s1) as [b s2|]; [|done]. by intros ->.
Qed.

Section Rx.
Context {U : Type} `{Uart U}.
Implicit Types s : Ser U.

(** What the receiver leaves alone. *)
Record rx_keep s s' : Prop := mkRxKeep {
  k_info : info s' = info s;
  k_ring : ring s' = ring s;
  k_wire : wire s' = wire s;
  k_ttyc : tty_core (tty s') = tty_core (tty s);
  k_ier : ier (regs s') = ier (regs s);
  k_mask : intmask (regs s') = intmask (regs s);
  k_irqs : irqs s' = irqs s;
  k_sched : sched s' = sched s;
  k_received : received s' = received s;
}.
#[export] Instance rx_keep_refl : Reflexive rx_keep.
Proof. intros s. by split. Qed.
#[export] Instance rx_keep_trans : Transitive rx_keep.
Proof. intros s1 s2 s3 H1 H2. split; (etransitivity; [apply H2|apply H1]). Qed.

(** A step that keeps the flip buffer well formed, its contents and its count. *)
Record rx_same s s' : Prop := mkRxSame {
  rs_keep : rx_keep s s';
  rs_flip : flip_ok (flip (tty s)) -> flip_ok (flip (tty s'));
  rs_pending : flip_ok (flip (tty s)) -> pending (flip (tty s')) = pending (flip (tty s));
  rs_count : flip_count (flip (tty s')) = flip_count (flip (tty s));
}.
#[export] Instance rx_same_refl : Reflexive rx_same.
Proof. intros s. by split. Qed.
#[export] Instance rx_same_trans : Transitive rx_same.
Proof.
  intros s1 s2 s3 H1 H2. split.
  - etransitivity; [apply H1|apply H2].
  - intros Hf. by apply H2, H1.
  - intros Hf. rewrite (rs_pending _ _ H2) by by apply H1. by apply H1.
  - by rewrite (rs_count _ _ H2), (rs_count _ _ H1).
Qed.

Lemma same_uart s u : rx_same s (set_uart u s).
Proof. by split. Qed.
Lemma same_cr s f : rx_same s (upd_regs (fun r => set_cr (f r) r) s).
Proof. by split. Qed.

Lemma csr_eq s : csr s = Ret (csr_read (uart s)).1 (set_uart (csr_read (uart s)).2 s).
Proof. unfold csr. by destruct (csr_read (uart s)). Qed.
Lemma rhr_eq s : rhr s = Ret (rhr_read (uart s)).1 (set_uart (rhr_read (uart s)).2 s).
Proof. unfold rhr. by destruct (rhr_read (uart s)). Qed.
Lemma or_csr_same m s : exists s', or_csr m s = Ret tt s' /\ rx_same s s'.
Proof.
  unfold or_csr. rewrite (bind_Ret _ _ _ _ _ (csr_eq s)). eexists. split; [done|].
  etransitivity; apply same_uart.
Qed.
Lemma handle_status_same m s : exists s', handle_status m s = Ret tt s' /\ rx_same s s'.
Proof.
  unfold handle_status. destruct (or_csr_same m s) as (s1 & E & Hs). rewrite (bind_Ret _ _ _ _ _ E).
  destruct (bits m U_TFFUL); [by exists s1|]. destruct (bits m U_RFFUL); [|by exists s1].
  eexists. split; [done|]. etransitivity; [exact Hs|apply same_cr].
Qed.

(** The pointer is inside the arrays while fewer than 512 characters are there. *)
Lemma put_flip_char_ok c s : flip_ok (flip (tty s)) -> flip_count (flip (tty s)) < TTY_FLIPBUF_SIZE ->
  put_flip_char c s = Ret tt (upd_tty (set_flip (store_char c (flip (tty s)))) s).
Proof.
  intros Hf Hlt. unfold put_flip_char, gt, mt. rewrite bind_gets. destruct Hf as [Hc Hg Hn Hp]. pose proof (first_range (flip (tty s))).
  rewrite bool_decide_true; [done|]. rewrite Hc, Hp. rewrite flip_size_eq in *. lia.
Qed.
Lemma put_flip_flag_ok c s : flip_ok (flip (tty s)) -> flip_count (flip (tty s)) < TTY_FLIPBUF_SIZE ->
  put_flip_flag c s = Ret tt (upd_tty (set_flip (store_flag c (flip (tty s)))) s).
Proof.
  intros Hf Hlt. unfold put_flip_flag, gt, mt. rewrite bind_gets. destruct Hf as [Hc Hg Hn Hp]. pose proof (first_range (flip (tty s))).
  rewrite bool_decide_true; [done|]. rewrite Hg, Hp. rewrite flip_size_eq in *. lia.
Qed.

Lemma store_char_same c s : flip_ok (flip (tty s)) -> rx_same s (upd_tty (set_flip (store_char c (flip (tty s)))) s).
Proof. intros Hf. by split; [|intros _; apply store_char_ok|intros _; apply store_char_ok|]. Qed.
Lemma store_flag_same c s : flip_ok (flip (tty s)) -> rx_same s (upd_tty (set_flip (store_flag c (flip (tty s)))) s).
Proof. intros Hf. by split; [|intros _; apply store_flag_ok|intros _; apply store_flag_ok|]. Qed.

Lemma rx_error_ok status bit flag s :
  flip_ok (flip (tty s)) -> flip_count (flip (tty s)) < TTY_FLIPBUF_SIZE ->
  exists s', rx_error status bit flag s = Ret tt s' /\ rx_same s s'.
Proof.
  intros Hf Hlt. unfold rx_error. destruct (bits status bit); [|by exists s]. cbn [when].
  rewrite (bind_Ret _ _ _ _ _ (put_flip_flag_ok flag s Hf Hlt)). destruct (handle_status_same bit (upd_tty (set_flip (store_flag flag (flip (tty s)))) s)) as (s' & E & Hs).
  exists s'. rewrite E. split; [done|]. etransitivity; [by apply store_flag_same|done].
Qed.

Lemma rx_error_then status bit flag (K : M (Ser U) unit) s :
  flip_ok (flip (tty s)) -> flip_count (flip (tty s)) < TTY_FLIPBUF_SIZE ->
  (forall s1, flip_ok (flip (tty s1)) -> flip_count (flip (tty s1)) < TTY_FLIPBUF_SIZE -> exists s', K s1 = Ret tt s' /\ rx_same s1 s') ->
  exists s', (rx_error status bit flag ;; K) s = Ret tt s' /\ rx_same s s'.
Proof.
  intros Hf Hlt HK. destruct (rx_error_ok status bit flag s Hf Hlt) as (s1 & E & Hs). rewrite (bind_Ret _ _ _ _ _ E).
  destruct (HK s1) as (s2 & E2 & Hs2); [by apply Hs|by rewrite (rs_count _ _ Hs)|]. exists s2. split; [done|by etransitivity].
Qed.

Lemma rx_errors_ok status s :
  flip_ok (flip (tty s)) -> flip_count (flip (tty s)) < TTY_FLIPBUF_SIZE ->
  exists s', rx_errors status s = Ret tt s' /\ rx_same s s'.
Proof.
  intros Hf Hlt. unfold rx_errors. do 5 (apply rx_error_then; [done|done|]; clear s Hf Hlt; intros s Hf Hlt). by apply rx_error_ok.
Qed.

(** The characters the UART has at hand for [n] turns: up to the first status that
    shows an empty FIFO or a character that is not valid. *)
Fixpoint arrivals (n : nat) (u : U) : bytes :=
  match n with
  | O => []
  | S n' =>
      let '(v, u1) := csr_read u in
      if bits v U_RFEMT then []
      else
        let '(c, u2) := rhr_read u1 in
        if bits v U_RDV then Z.land c 0xff :: arrivals n' u2 else []
  end.
Lemma arrivals_length n u : (length (arrivals n u) <= n)%nat.
Proof.
  revert u. induction n as [|n IH]; intros u; simpl; [done|]. destruct (csr_read u) as [v u1], (bits v U_RFEMT); simpl; [lia|].
  destruct (rhr_read u1) as [c u2], (bits v U_RDV); simpl; [|lia]. specialize (IH u2). lia.
Qed.

(** What the UART holds: the statuses and characters that it presents when it is
    read [n] times, up to the status that says that the FIFO is empty. *)
Fixpoint held (n : nat) (u : U) : list (Z * Z) :=
  match n with
  | O => []
  | S n' =>
      let '(v, u1) := csr_read u in
      if bits v U_RFEMT then [] else let '(c, u2) := rhr_read u1 in (v, c) :: held n' u2
  end.
(** A character is valid if its status has [U_RDV]. *)
Definition valid (p : Z * Z) : Prop := bits p.1 U_RDV = true.

(** The driver takes the valid characters in front of the first that is not. *)
Lemma arrivals_held n u :
  exists good rest, held n u = good ++ rest /\ Forall valid good /\ (forall p, head rest = Some p -> ~ valid p) /\
    arrivals n u = (fun p => Z.land p.2 0xff) <$> good /\ (length good <= n)%nat.
Proof.
  revert u. induction n as [|n IH]; intros u; simpl; [by exists [], []|]. destruct (csr_read u) as [v u1].
  destruct (bits v U_RFEMT); [exists [], []; split_and!; try done; simpl; lia|]. destruct (rhr_read u1) as [c u2].
  destruct (bits v U_RDV) eqn:Ev.
  - destruct (IH u2) as (good & rest & E & Fg & Hd & Ea & Hl). exists ((v, c) :: good), rest. rewrite E, Ea.
    split_and!; [done|by constructor|done|done|simpl; lia].
  - exists [], ((v, c) :: held n u2). split_and!; try done; [|simpl; lia]. intros p [= <-]. unfold valid. simpl. by rewrite Ev.
Qed.

(** Characters that arrived, with their flag. *)
Definition normal (l : bytes) : list (Z * Z) := (fun c => (c, TTY_NORMAL)) <$> l.

(** [l] was received. *)
Record rx_got s s' (l : bytes) : Prop := mkRxGot {
  g_keep : rx_keep s s';
  g_flip : flip_ok (flip (tty s'));
  g_pending : pending (flip (tty s')) = pending (flip (tty s)) ++ normal l;
  g_count : flip_count (flip (tty s')) = flip_count (flip (tty s)) + Z.of_nat (length l);
  g_bytes : Forall is_byte l;
}.

Lemma rx_same_got s s' : flip_ok (flip (tty s)) -> rx_same s s' -> rx_got s s' [].
Proof.
  intros Hf Hs. split; [apply Hs|by apply Hs| | |constructor].
  - unfold normal. simpl. rewrite app_nil_r. by apply Hs.
  - rewrite Z.add_0_r. apply Hs.
Qed.
Lemma rx_got_trans s1 s2 s3 l l' : rx_got s1 s2 l -> rx_got s2 s3 l' -> rx_got s1 s3 (l ++ l').
Proof.
  intros H1 H2. split.
  - etransitivity; [apply H1|apply H2].
  - apply H2.
  - rewrite (g_pending _ _ _ H2), (g_pending _ _ _ H1). unfold normal. by rewrite fmap_app, app_assoc.
  - rewrite (g_count _ _ _ H2), (g_count _ _ _ H1), length_app. lia.
  - apply Forall_app. split; [apply H1|apply H2].
Qed.

Lemma land_ff_byte c : is_byte (Z.land c 0xff).
Proof. change 0xff with (Z.ones 8). rewrite Z.land_ones by lia. apply Z.mod_pos_bound. lia. Qed.

(** One good character. *)
Lemma rx_store_ok c s : flip_ok (flip (tty s)) -> flip_count (flip (tty s)) < TTY_FLIPBUF_SIZE -> is_byte c ->
  exists s', (put_flip_char c ;; put_flip_flag TTY_NORMAL ;; next_flip) s = Ret tt s' /\ rx_got s s' [c] /\ uart s' = uart s.
Proof.
  intros Hf Hlt Hb. rewrite (bind_Ret _ _ _ _ _ (put_flip_char_ok c s Hf Hlt)). set (s1 := upd_tty _ s).
  pose proof (store_char_same c s Hf) as Hs1. rewrite (bind_Ret _ _ _ _ _ (put_flip_flag_ok TTY_NORMAL s1 (rs_flip _ _ Hs1 Hf) Hlt)).
  eexists. split; [reflexivity|]. destruct (store_advance_ok c TTY_NORMAL _ Hf Hlt) as [Hok Hp].
  split; [|done]. split; [by split|exact Hok|exact Hp|done|by apply Forall_singleton].
Qed.

Lemma rx_loop_ok n st s :
  flip_ok (flip (tty s)) -> flip_count (flip (tty s)) + Z.of_nat n <= TTY_FLIPBUF_SIZE ->
  exists v s', rx_loop n st s = Ret v s' /\ rx_got s s' (arrivals n (uart s)).
Proof.
  revert st s. induction n as [|n IH]; intros st s Hf Hn; cbn [rx_loop arrivals].
  { exists st, s. split; [done|by apply rx_same_got]. }
  rewrite (bind_Ret _ _ _ _ _ (csr_eq s)). destruct (csr_read (uart s)) as [v u1]. cbn [fst snd]. pose proof (same_uart s u1) as Hs1. set (s1 := set_uart u1 s) in *.
  destruct (bits v U_RFEMT). { exists v, s1. split; [done|by apply rx_same_got]. }
  rewrite (bind_Ret _ _ _ _ _ (rhr_eq s1)). change (uart s1) with u1. destruct (rhr_read u1) as [c u2]. cbn [fst snd]. set (s2 := set_uart u2 s1).
  assert (rx_same s s2) as Hs by (etransitivity; [exact Hs1|apply same_uart]). assert (flip_ok (flip (tty s2))) as Hf2 by by apply Hs.
  assert (flip_count (flip (tty s2)) < TTY_FLIPBUF_SIZE) as Hlt2 by (rewrite (rs_count _ _ Hs); lia).
  destruct (bits v U_RDV).
  - destruct (rx_store_ok (Z.land c 0xff) s2 Hf2 Hlt2 (land_ff_byte c)) as (s3 & E3 & Hg3 & Hu3).
    erewrite (bind_assoc_unit _ _ _ _ _ _ E3).
    destruct (IH v s3) as (v' & s4 & E4 & Hg4); [apply Hg3|rewrite (g_count _ _ _ Hg3), (rs_count _ _ Hs); simpl; lia|].
    exists v', s4. split; [done|]. rewrite Hu3 in Hg4. change (uart s2) with u2 in Hg4.
    apply (rx_got_trans s s2 s4 [] (_ :: _)); [by apply rx_same_got|]. by apply (rx_got_trans s2 s3 s4 [_] _).
  - rewrite (bind_Ret _ _ _ _ _ (put_flip_char_ok (Z.land c 0xff) s2 Hf2 Hlt2)). set (s3 := upd_tty _ s2).
    pose proof (store_char_same (Z.land c 0xff) s2 Hf2) as Hs3. destruct (rx_errors_ok v s3) as (s4 & E4 & Hs4); [by apply Hs3|done|].
    rewrite (bind_Ret _ _ _ _ _ E4). exists v, s4. split; [done|]. apply rx_same_got; [done|].
    etransitivity; [exact Hs|]. by etransitivity.
Qed.

Lemma queue_flip_same s : flip_ok (flip (tty s)) -> rx_same s (upd_tty (fun t => let f := flip t in
    set_flip (mkFlip (buf_num f) (flip_ptr f) (flip_count f) (char_buf f) (flag_buf f) true) t) s).
Proof. intros [? ? ? ?]. by split; [|intros _; split|intros _|]. Qed.

Lemma rx_irq_ok s :
  has_tty (info s) = true -> bits (sflags (info s)) S_INITIALIZED = true ->
  flip_ok (flip (tty s)) -> 0 <= rx_fifo_size (info s) -> flip_count (flip (tty s)) + rx_fifo_size (info s) <= TTY_FLIPBUF_SIZE ->
  exists s', rs_interrupt_Rx s = Ret tt s' /\ rx_got s s' (arrivals (Z.to_nat (rx_fifo_size (info s))) (uart s)).
Proof.
  intros Ht Hi Hf Hz Hn. unfold rs_interrupt_Rx, gi, gt. rewrite !bind_gets, Ht, Hi. cbn [negb orb]. rewrite !bind_gets.
  assert (exists s1, when (TTY_FLIPBUF_SIZE <=? flip_count (flip (tty s)) + rx_fifo_size (info s)) queue_flip s = Ret tt s1 /\ rx_same s s1 /\ uart s1 = uart s)
    as (s1 & E1 & Hs1 & Hu1) by (destruct (_ <=? _); [eexists; split_and!; [done|by apply queue_flip_same|done]|by exists s]).
  rewrite (bind_Ret _ _ _ _ _ E1). rewrite <- Hu1.
  destruct (rx_loop_ok (Z.to_nat (rx_fifo_size (info s))) 0 s1) as (v & s2 & E2 & Hg2);
    [by apply Hs1|rewrite (rs_count _ _ Hs1); lia|]. rewrite (bind_Ret _ _ _ _ _ E2), bind_gets.
  assert (exists s3, (if is_cons (info s2) then when (bits v U_OER) (or_csr U_OER)
     else when (bits v (Z.lor U_RFOV U_E_RxTO)) (handle_status (Z.lor U_RFOV U_E_RxTO))) s2 = Ret tt s3 /\ rx_same s2 s3) as (s3 & E3 & Hs3).
  { destruct (is_cons (info s2)); (destruct (bits v _); [|by exists s2]); [apply or_csr_same|apply handle_status_same]. }
  rewrite (bind_Ret _ _ _ _ _ E3). eexists. split; [done|].
  rewrite <- (app_nil_r (arrivals _ _)). eapply rx_got_trans; [apply (rx_got_trans s s1 s2 []); [by apply rx_same_got|exact Hg2]|].
  apply rx_same_got; [apply Hg2|]. etransitivity; [exact Hs3|]. apply queue_flip_same. apply Hs3, Hg2.
Qed.

(** The timer gives everything to the line discipline and leaves the other half
    of the buffer empty. *)
Lemma flush_ok s : flip_ok (flip (tty s)) -> exists s', flush_to_ldisc s = Ret tt s' /\
  received s' = received s ++ pending (flip (tty s)) /\ flip_ok (flip (tty s')) /\ flip_count (flip (tty s')) = 0 /\
  tty_core (tty s') = tty_core (tty s) /\ info s' = info s /\ ring s' = ring s.
Proof.
  intros [Hc Hf Hn Hp]. unfold flush_to_ldisc, gt, mt. rewrite bind_gets. cbv zeta. rewrite bind_modify. eexists.
  split_and!; try reflexivity. split; simpl; [done|done|done|]. unfold flip_first. simpl. by destruct (buf_num (flip (tty s)) =? 0).
Qed.

(** C22: A receiver interrupt of any UART, on an open port whose flip buffer has
    room for a FIFO, returns and takes, of the characters that the UART holds (at
    most one FIFO of them), exactly those in front of the first that is not valid,
    so all of them when all are valid: they are appended in order to the buffer of
    the terminal with the flag TTY_NORMAL, nothing else of the driver is touched, and
    the timer then hands exactly the buffered characters to the line discipline. *)
Theorem rx_interrupt_delivers s :
  has_tty (info s) = true -> bits (sflags (info s)) S_INITIALIZED = true ->
  flip_ok (flip (tty s)) -> 0 <= rx_fifo_size (info s) -> flip_count (flip (tty s)) + rx_fifo_size (info s) <= TTY_FLIPBUF_SIZE ->
  exists good rest s1 s2,
    held (Z.to_nat (rx_fifo_size (info s))) (uart s) = good ++ rest /\
    Forall valid good /\ (forall p, head rest = Some p -> ~ valid p) /\
    rs_interrupt_Rx s = Ret tt s1 /\ rx_keep s s1 /\ flip_ok (flip (tty s1)) /\ flush_to_ldisc s1 = Ret tt s2 /\
    received s2 = received s ++ pending (flip (tty s)) ++ normal ((fun p => Z.land p.2 0xff) <$> good) /\
    flip_ok (flip (tty s2)) /\ flip_count (flip (tty s2)) = 0.
Proof.
  intros Ht Hi Hf Hz Hn. destruct (arrivals_held (Z.to_nat (rx_fifo_size (info s))) (uart s)) as (good & rest & E & Fg & Hd & Ea & _).
  destruct (rx_irq_ok s Ht Hi Hf Hz Hn) as (s1 & E1 & Hg). destruct (flush_ok s1 (g_flip _ _ _ Hg)) as (s2 & E2 & Hr & Hf2 & Hc2 & _).
  rewrite Ea in Hg. exists good, rest, s1, s2. split_and!; [done|done|done|done|apply Hg|apply Hg|done| |done|done].
  rewrite Hr, (g_pending _ _ _ Hg). by rewrite (k_received _ _ (g_keep _ _ _ Hg)).
Qed.
End Rx.

(** ** A simulated UART: what comes in with its status, and an idle transmitter *)

Record SimUart : Type := mkSimUart {
  su_in : list (Z * Z);
  su_out : bytes;
}.
Definition sim_csr (u : SimUart) : Z := Z.lor U_TI (match su_in u with [] => U_RFEMT | p :: _ => p.1 end).
#[export] Instance sim_uart : Uart SimUart := {
  csr_read u := (sim_csr u, u);
  csr_write v u := u;
  rhr_read u := (match su_in u with [] => 0 | p :: _ => p.2 end, mkSimUart (tail (su_in u)) (su_out u));
  thr_write c u := mkSimUart (su_in u) (su_out u ++ [c]);
}.

(** A high-speed port just before it is opened; [num] is the half of the flip
    buffer in use, [input] what the line will bring. *)
Definition empty_flip (num : Z) : Flip :=
  mkFlip num (if num =? 0 then 0 else TTY_FLIPBUF_SIZE) 0 (replicate 1024 0) (replicate 1024 0) false.
Definition sim_port (num : Z) (input : list (Z * Z)) : Ser SimUart :=
  mkSer (set_has_tty true (set_use_ints true (set_sflags S_INITIALIZED (rs_init_info 1))))
    (mkRegs 0 0 0 0 0 0 0 0 0) (mkRing (Some (replicate (Z.to_nat SERIAL_XMIT_SIZE) 0)) 0 0 0)
    (mkTty false false init_termios 0 false (empty_flip num)) (mkSimUart input []) true [] [] [] [] 0.

Lemma empty_flip_ok num : flip_ok (empty_flip num).
Proof. split; try done. unfold flip_first. simpl. by destruct (num =? 0). Qed.

(** Two valid characters, a break, and one behind it that stays in the UART. *)
Lemma rx_interrupt_delivers_witness : exists s1 s2,
  rs_interrupt_Rx (sim_port 0 [(U_RDV, 104); (U_RDV, 105); (U_BSD, 0); (U_RDV, 65)]) = Ret tt s1 /\
  flush_to_ldisc s1 = Ret tt s2 /\ received s2 = normal [104; 105].
Proof.
  destruct (rx_interrupt_delivers (sim_port 0 [(U_RDV, 104); (U_RDV, 105); (U_BSD, 0); (U_RDV, 65)]))
    as (good & rest & s1 & s2 & Eh & Fg & Hd & E1 & _ & _ & E2 & Hr & _);
    [vm_compute; reflexivity|vm_compute; reflexivity|apply empty_flip_ok|vm_compute; discriminate|vm_compute; discriminate|].
  exists s1, s2. split; [exact E1|]. split; [exact E2|]. rewrite Hr.
  enough (good = [(Z.lor U_TI U_RDV, 104); (Z.lor U_TI U_RDV, 105)]) as -> by (vm_compute; reflexivity).
  assert (Ev : held (Z.to_nat (rx_fifo_size (info (sim_port 0 [(U_RDV, 104); (U_RDV, 105); (U_BSD, 0); (U_RDV, 65)]))))
    (uart (sim_port 0 [(U_RDV, 104); (U_RDV, 105); (U_BSD, 0); (U_RDV, 65)])) =
    [(Z.lor U_TI U_RDV, 104); (Z.lor U_TI U_RDV, 105); (Z.lor U_TI U_BSD, 0); (Z.lor U_TI U_RDV, 65)]) by (vm_compute; reflexivity).
  rewrite Ev in Eh.
  destruct good as [|p1 [|p2 [|p3 good]]].
  - destruct rest as [|q rest]; [discriminate Eh|]. injection Eh as <- _. exfalso. apply (Hd _ eq_refl). vm_compute. reflexivity.
  - destruct rest as [|q rest]; [discriminate Eh|]. injection Eh as _ <- _. exfalso. apply (Hd _ eq_refl). vm_compute. reflexivity.
  - injection Eh as <- <- _. reflexivity.
  - injection Eh as _ _ <- _. exfalso. apply Forall_cons in Fg as [_ Fg]. apply Forall_cons in Fg as [_ Fg].
    apply Forall_cons in Fg as [Fg _]. vm_compute in Fg. discriminate Fg.
Defined.

(** A break, and a character with a wrong parity or frame, never reach the
    line discipline, not even as errors: a character whose status lacks [U_RDV] is
    stored but not counted, and ends the interrupt. *)
Theorem rx_errors_are_lost :
  match happen_all [RxIrq; FlipTimer] (sim_port 0 [(U_BSD, 0); (U_RDV, 65)]) with
  | Ret _ s => received s = [] /\ flip_count (flip (tty s)) = 0 /\ su_in (uart s) = [(U_RDV, 65)]
  | Stop _ _ => False
  end /\
  match happen_all [RxIrq; FlipTimer] (sim_port 0 [(Z.lor U_RDV U_PER, 65)]) with
  | Ret _ s => received s = [(65, TTY_NORMAL)]
  | Stop _ _ => False
  end.
Proof. by vm_compute. Qed.

(** The receiver does not stop at the end of the flip buffer: 17 interrupts
    with a full FIFO between two ticks of the timer write past its arrays. *)
Theorem rx_overruns_flip_buffer :
  stopped (happen_all (replicate 17 RxIrq) (sim_port 1 (replicate 600 (U_RDV, 65)))) = Some OutOfBounds.
Proof. by vm_compute. Qed.

(** A status that says that the receive FIFO is full makes the driver send a
    break, and the break is not ended: the bit stays set in the control register. *)
Theorem full_fifo_sends_break :
  match happen_all [RxIrq; FlipTimer; RxIrq] (sim_port 0 [(U_RFFUL, 65); (U_RDV, 66)]) with
  | Ret _ s => bits (cr (regs s)) U_SBR = true
  | Stop _ _ => False
  end.
Proof. by vm_compute. Qed.
