(* ===== verification/SerialSpec.v ===== *)
(** * What the serial driver guarantees

    Histories of the driver's operations and interrupts, the life of a port from
    open to close, and its settings. *)

From S2P Require Import Prelude Termios Serial SerialTx SerialRx.

(** ** Bits of registers *)

Lemma clear_bits r m : 0 <= m < 2 ^ 32 -> bits (clear r m) m = false.
Proof.
  intros Hm. unfold bits, clear. rewrite <- Z.land_assoc.
  assert (Z.land (Z.lxor m 0xFFFFFFFF) m = 0) as ->; [|by rewrite Z.land_0_r].
  apply Z.bits_inj'. intros i Hi. rewrite Z.land_spec, Z.lxor_spec, Z.bits_0. change 0xFFFFFFFF with (Z.ones 32).
  destruct (Z.testbit m i) eqn:E; [|by rewrite andb_false_r]. destruct (decide (i < 32)).
  - by rewrite Z.ones_spec_low by lia.
  - exfalso. rewrite Z.bits_above_log2 in E; [done|lia|]. destruct (decide (m = 0)) as [->|]; [by rewrite Z.bits_0 in E|].
    assert (Z.log2 m < 32) by (apply Z.log2_lt_pow2; lia). lia.
Qed.

Lemma bits_lor a b m : bits (Z.lor a b) m = bits a m || bits b m.
Proof.
  unfold bits. rewrite Z.land_comm, Z.land_lor_distr_r, (Z.land_comm m a), (Z.land_comm m b).
  destruct (Z.eqb_spec (Z.land a m) 0) as [Ha|Ha], (Z.eqb_spec (Z.land b m) 0) as [Hb|Hb]; simpl; apply negb_true_iff || apply negb_false_iff.
  - by rewrite Ha, Hb.
  - apply Z.eqb_neq. by intros [? ?]%Z.lor_eq_0_iff.
  - apply Z.eqb_neq. by intros [? ?]%Z.lor_eq_0_iff.
  - apply Z.eqb_neq. by intros [? ?]%Z.lor_eq_0_iff.
Qed.

Section Spec.
Context {U : Type} `{Uart U} (ARM_CLK : Z) (fuel : nat).
Implicit Types s : Ser U.

(** ** Settings *)

(** The rate that the bits of [c_cflag] stand for. *)
Definition rate_of (cflag : Z) : option Z := fst <$> baud_table !! Z.to_nat (table_index cflag).
Definition good_rate (cflag : Z) : Prop := exists r, rate_of cflag = Some r /\ u32 r <> 0.

(** A step of [change_speed]: it changes registers and the rate only; [g] is what
    it does to the control register. *)
Record tuned (g : Z -> Z) s s' : Prop := mkTuned {
  tu_cr : cr (regs s') = g (cr (regs s));
  tu_ring : ring s' = ring s;
  tu_wire : wire s' = wire s;
  tu_tty : tty s' = tty s;
  tu_irqs : irqs s' = irqs s;
  tu_sched : sched s' = sched s;
  tu_naps : naps s' = naps s;
  tu_mask : intmask (regs s') = intmask (regs s);
  tu_info : set_baud 0 (info s') = set_baud 0 (info s);
}.
Definition tunes (m : M (Ser U) unit) (g : Z -> Z) : Prop := forall s, exists s', m s = Ret tt s' /\ tuned g s s'.

Lemma tuned_refl s : tuned id s s.
Proof. by split. Qed.
Lemma tuned_trans g h s1 s2 s3 : tuned g s1 s2 -> tuned h s2 s3 -> tuned (fun c => h (g c)) s1 s3.
Proof.
  intros H1 H2. split.
  - by rewrite (tu_cr _ _ _ H2), (tu_cr _ _ _ H1).
  - by rewrite (tu_ring _ _ _ H2), (tu_ring _ _ _ H1).
  - by rewrite (tu_wire _ _ _ H2), (tu_wire _ _ _ H1).
  - by rewrite (tu_tty _ _ _ H2), (tu_tty _ _ _ H1).
  - by rewrite (tu_irqs _ _ _ H2), (tu_irqs _ _ _ H1).
  - by rewrite (tu_sched _ _ _ H2), (tu_sched _ _ _ H1).
  - by rewrite (tu_naps _ _ _ H2), (tu_naps _ _ _ H1).
  - by rewrite (tu_mask _ _ _ H2), (tu_mask _ _ _ H1).
  - by rewrite (tu_info _ _ _ H2), (tu_info _ _ _ H1).
Qed.
Lemma tunes_seq m k g h : tunes m g -> tunes k h -> tunes (m ;; k) (fun c => h (g c)).
Proof.
  intros Hm Hk s. destruct (Hm s) as (s1 & E1 & T1). rewrite (bind_Ret _ _ _ _ _ E1). destruct (Hk s1) as (s2 & E2 & T2).
  exists s2. split; [done|by eapply tuned_trans].
Qed.
Lemma tunes_ret : tunes (mret tt) id.
Proof. intros s. exists s. split; [done|apply tuned_refl]. Qed.
Lemma tunes_when b m g : tunes m g -> tunes (when b m) (if b then g else id).
Proof. intros Hm. destruct b; [done|apply tunes_ret]. Qed.
Lemma tunes_or m : tunes (or_cr m) (fun c => Z.lor c m).
Proof. intros s. by eexists. Qed.
Lemma tunes_or_ier m : tunes (or_ier m) id.
Proof. intros s. by eexists. Qed.
Lemma tunes_clear_ier m : tunes (clear_ier m) id.
Proof. intros s. by eexists. Qed.
Lemma tunes_gi {A} (f : Info -> A) k g : (forall a, tunes (k a) g) -> tunes (a ← gi f; k a) g.
Proof. intros Hk s. unfold gi. rewrite bind_gets. apply Hk. Qed.
Lemma tunes_gt {A} (f : Tty -> A) k g : (forall a, tunes (k a) g) -> tunes (a ← gt f; k a) g.
Proof. intros Hk s. unfold gt. rewrite bind_gets. apply Hk. Qed.

Lemma tunes_ext m g h : tunes m g -> (forall c, g c = h c) -> tunes m h.
Proof. intros Hm Hgh s. destruct (Hm s) as (s' & E & []). exists s'. split; [done|]. split; try done. by rewrite <- Hgh. Qed.

Lemma tx_stop_tunes : tunes tx_stop id.
Proof. apply tunes_clear_ier. Qed.
Lemma rx_stop_tunes : tunes rx_stop id.
Proof. apply tunes_gi. intros []; apply tunes_clear_ier. Qed.
Lemma rx_start_tunes : tunes rx_start id.
Proof.
  apply tunes_gi. intros a. apply tunes_gi. intros b. eapply tunes_ext.
  - apply (tunes_seq _ _ id id); [destruct a, b; apply tunes_or_ier || apply tunes_ret|destruct b; apply tunes_or_ier || apply tunes_ret].
  - done.
Qed.
Lemma tx_start_tunes : tunes tx_start id.
Proof. apply tunes_gi. intros []; [apply tunes_or_ier|apply tunes_ret]. Qed.

Definition wl_after (cflag c : Z) : Z :=
  if Z.land cflag CSIZE =? CS5 then Z.land c U_WL5
  else if Z.land cflag CSIZE =? CS6 then Z.lor c U_WL6
  else if Z.land cflag CSIZE =? CS7 then Z.lor c U_WL7 else Z.lor c U_WL8.
Lemma word_length_tunes cflag : tunes (set_word_length cflag) (wl_after cflag).
Proof.
  unfold set_word_length, wl_after. cbv zeta. destruct (_ =? CS5); [intros s; by eexists|].
  destruct (_ =? CS6); [apply tunes_or|]. destruct (_ =? CS7); apply tunes_or.
Qed.
Definition parity_after (cflag c : Z) : Z :=
  if bits cflag PARENB then (if bits cflag PARODD then Z.lor c U_ODD_PMD else Z.lor c U_EVEN_PMD) else c.
Lemma parity_tunes cflag : tunes (set_parity cflag) (parity_after cflag).
Proof. unfold set_parity, parity_after. destruct (bits cflag PARENB); [destruct (bits cflag PARODD); apply tunes_or|apply tunes_ret]. Qed.
Definition hard_after (cflag c : Z) : Z := if bits cflag CRTSCTS then Z.lor c (Z.lor (Z.lor U_HFEN U_DTR) U_RTS) else c.
Lemma hard_flow_tunes cflag : tunes (set_hard_flow cflag) (hard_after cflag).
Proof.
  unfold set_hard_flow, hard_after. destruct (bits cflag CRTSCTS); [|apply tunes_ret]. cbn [when]. eapply tunes_ext.
  - eapply (tunes_seq _ _ _ id); [apply tunes_or|]. apply tunes_gi. intros u. destruct (u =? HUART0_BASE); [intros s; by eexists|].
    destruct (u =? HUART1_BASE); [intros s; by eexists|apply tunes_ret].
  - done.
Qed.
Definition soft_after (cflag c : Z) : Z := if bits cflag (Z.lor IXON IXOFF) then Z.lor c U_SFEN else c.
Lemma soft_flow_tunes cflag : tunes (set_soft_flow cflag) (soft_after cflag).
Proof.
  unfold set_soft_flow, soft_after. destruct (bits cflag (Z.lor IXON IXOFF)); [|apply tunes_ret]. cbn [when]. eapply tunes_ext.
  - eapply (tunes_seq _ _ _ id); [apply tunes_or|]. apply tunes_gt. intros t. intros s. by eexists.
  - done.
Qed.
Definition stop_after (cflag c : Z) : Z := if bits cflag CSTOPB then Z.lor c U_STB else c.
Lemma stop_bit_tunes cflag : tunes (when (bits cflag CSTOPB) (or_cr U_STB)) (stop_after cflag).
Proof. unfold stop_after. destruct (bits cflag CSTOPB); [apply tunes_or|apply tunes_ret]. Qed.

(** Both directions are started. *)
Lemma start_on s : exists s', (tx_start ;; rx_start) s = Ret tt s' /\ tuned id s s' /\
  (use_ints (info s) = true -> bits (ier (regs s')) U_THEIE = true).
Proof.
  unfold tx_start, rx_start, gi. rewrite bind_bind, bind_gets. destruct (use_ints (info s)) eqn:Hu; cbn [when].
  - unfold or_ier, mg. rewrite bind_modify, !bind_gets. simpl info. rewrite Hu. destruct (is_cons (info s)); cbn [when];
      rewrite bind_modify; (eexists; split; [reflexivity|]; split; [by split|]); intros _; simpl;
      do 2 (apply theie_lor; left); apply theie_set.
  - rewrite bind_mret, !bind_gets, Hu. destruct (is_cons (info s)); exists s; (split; [done|]); split; [apply tuned_refl|done|apply tuned_refl|done].
Qed.

(** The control register after the settings of [cflag]. *)
Definition cr_after (cflag c : Z) : Z := soft_after cflag (hard_after cflag (parity_after cflag (stop_after cflag (wl_after cflag c)))).

(** The divisor for a rate. *)
Definition divisor (br : Z) : Z := u32 (Z.shiftl (u32 (u32 (ARM_CLK / 32 + br / 2) / br - 1)) 4).

Lemma change_speed_ok s :
  has_tty (info s) = true -> good_rate (k_cflag (termios_ (tty s))) ->
  exists s', change_speed ARM_CLK s = Ret tt s' /\ tuned (cr_after (k_cflag (termios_ (tty s)))) s s' /\
    (use_ints (info s) = true -> bits (ier (regs s')) U_THEIE = true).
Proof.
  intros Htty (r & Hr & Hnz). unfold change_speed, gi, gt. rewrite bind_gets, Htty. cbn [when]. rewrite bind_gets. cbv zeta.
  set (cf := k_cflag (termios_ (tty s))) in *. unfold rate_of in Hr.
  destruct (tx_stop_tunes s) as (s1 & E1 & T1). rewrite (bind_Ret _ _ _ _ _ E1).
  destruct (rx_stop_tunes s1) as (s2 & E2 & T2). rewrite (bind_Ret _ _ _ _ _ E2).
  destruct (baud_table !! Z.to_nat (table_index cf)) as [e|]; [|done]. injection Hr as <-. unfold mi. rewrite bind_modify.
  set (s3 := upd_info (set_baud e.1) s2). assert (tuned id s2 s3) as T3 by by split.
  assert (uart_speed ARM_CLK s3 = Ret tt (upd_regs (set_brgr (divisor (u32 e.1))) s3)) as E4.
  { unfold uart_speed, gi, calcCD. rewrite bind_gets. simpl. by rewrite (proj2 (Z.eqb_neq _ _) Hnz). }
  rewrite (bind_Ret _ _ _ _ _ E4). set (s4 := upd_regs _ s3). assert (tuned id s3 s4) as T4 by by split.
  destruct (word_length_tunes cf s4) as (s5 & E5 & T5). rewrite (bind_Ret _ _ _ _ _ E5).
  destruct (stop_bit_tunes cf s5) as (s6 & E6 & T6). rewrite (bind_Ret _ _ _ _ _ E6).
  destruct (parity_tunes cf s6) as (s7 & E7 & T7). rewrite (bind_Ret _ _ _ _ _ E7).
  destruct (hard_flow_tunes cf s7) as (s8 & E8 & T8). rewrite (bind_Ret _ _ _ _ _ E8).
  destruct (soft_flow_tunes cf s8) as (s9 & E9 & T9). rewrite (bind_Ret _ _ _ _ _ E9).
  assert (tuned (cr_after cf) s s9) as T.
  { pose proof (tuned_trans _ _ _ _ _ (tuned_trans _ _ _ _ _ T1 T2) (tuned_trans _ _ _ _ _ T3 T4)) as Ta.
    pose proof (tuned_trans _ _ _ _ _ (tuned_trans _ _ _ _ _ T5 T6) (tuned_trans _ _ _ _ _ T7 T8)) as Tb.
    exact (tuned_trans _ _ _ _ _ (tuned_trans _ _ _ _ _ Ta Tb) T9). }
  destruct (start_on s9) as (s' & E & T' & Hon). exists s'. rewrite E. split_and!; [done|exact (tuned_trans _ _ _ _ _ T T')|].
  intros Hu. apply Hon. rewrite (f_equal use_ints (tu_info _ _ _ T) : use_ints (info s9) = _). exact Hu.
Qed.

(** ** Histories *)

(** An open port that works with interrupts. *)
Record working s : Prop := mkWorking {
  wk_live : live s;
  wk_ints : use_ints (info s) = true;
  wk_progress : progress s;
}.

(** What callers and the hardware can do to an open port.  [OSetTermios]: the
    terminal layer stores new settings and tells the driver. *)
Inductive op : Type :=
| OWrite (from_user : bool) (buf : bytes)
| OHappen (h : happening)
| OStop
| OStart (flow_stopped : bool)
| OThrottle
| OUnthrottle
| OFlushBuffer
| OSoftint
| OSetTermios (t : ktermios)
| OTcsets (cflag : Z).

Definition run_op (o : op) : M (Ser U) unit :=
  match o with
  | OWrite from_user buf => rs_write fuel from_user buf ;; mret tt
  | OHappen h => happen h
  | OStop => stop_tty
  | OStart flow_stopped => start_tty flow_stopped
  | OThrottle => rs_throttle
  | OUnthrottle => rs_unthrottle
  | OFlushBuffer => rs_flush_buffer
  | OSoftint => do_softint
  | OSetTermios t =>
      old ← gt termios_;
      mt (set_termios t) ;;
      rs_set_termios ARM_CLK (k_cflag old)
  | OTcsets cflag => rs_ioctl ARM_CLK fuel 0 0 (TCSETS cflag) ;; mret tt
  end.
Fixpoint run_ops (os : list op) : M (Ser U) unit :=
  match os with
  | [] => mret tt
  | o :: os' => run_op o ;; run_ops os'
  end.

Definition op_ok (o : op) : Prop :=
  match o with
  | OWrite _ buf => (length buf < fuel)%nat
  | OHappen h => h <> RxIrq
  | OSetTermios t => good_rate (k_cflag t)
  | OTcsets cflag => good_rate cflag
  | _ => True
  end.

(** A step that keeps the buffer and the parts that [live] looks at. *)
Lemma working_step s s' :
  working s -> ring s' = ring s -> has_tty (info s') = has_tty (info s) -> xmit_fifo_size (info s') = xmit_fifo_size (info s) ->
  use_ints (info s') = use_ints (info s) -> sched s' = sched s ->
  (can_send s' = true -> bits (ier (regs s)) U_THEIE = true -> bits (ier (regs s')) U_THEIE = true) ->
  (can_send s' = true -> can_send s = true \/ bits (ier (regs s')) U_THEIE = true) -> working s'.
Proof.
  intros [[Ht Hf Hr Hn] Hu Hp] Hring Htty Hfifo Hints Hsched Hier Hsend. split; [split|congruence|].
  - congruence.
  - congruence.
  - by rewrite Hring.
  - unfold no_rx. by rewrite Hsched.
  - intros _ Hpos Hs. rewrite Hring in Hpos. destruct (Hsend Hs) as [Hs'|]; [|done]. apply Hier; [done|]. by apply Hp.
Qed.

Lemma working_quiet s s' : working s -> quiet s s' -> (progress s -> progress s') -> working s'.
Proof.
  intros [[Ht Hf Hr Hn] Hu Hp] Hq Hpp. destruct (quiet_core _ _ Hq) as (H1 & H2 & H3 & _). split; [split|congruence|auto].
  - congruence.
  - congruence.
  - by apply Hq.
  - by apply Hq.
Qed.

Lemma working_tuned s s' g : working s -> tuned g s s' ->
  (use_ints (info s) = true -> bits (ier (regs s')) U_THEIE = true) -> working s'.
Proof.
  intros Hw T Hon. pose proof (Hon (wk_ints _ Hw)) as Hbit. pose proof (tu_info _ _ _ T) as Hi. eapply working_step; [exact Hw|..].
  - apply T.
  - exact (f_equal has_tty Hi).
  - exact (f_equal xmit_fifo_size Hi).
  - exact (f_equal use_ints Hi).
  - apply T.
  - done.
  - by right.
Qed.

(** Interrupts off, [m], interrupts as before. *)
Lemma atomic_tunes m g s s1 : m (set_irqs false s) = Ret tt s1 -> tuned g (set_irqs false s) s1 ->
  (flags ← gets irqs; cli ;; m ;; restore_flags flags) s = Ret tt (set_irqs (irqs s) s1) /\ tuned g s (set_irqs (irqs s) s1).
Proof.
  intros E T. rewrite bind_gets. unfold cli, restore_flags. rewrite bind_modify, (bind_Ret _ _ _ _ _ E). split; [done|].
  destruct T. by split.
Qed.

Lemma rs_start_ok s : exists s', rs_start s = Ret tt s' /\ tuned id s s' /\
  (use_ints (info s) = true -> bits (ier (regs s')) U_THEIE = true).
Proof.
  destruct (rx_start_tunes (set_irqs false s)) as (s1 & E1 & T1). destruct (tx_start_tunes s1) as (s2 & E2 & T2).
  destruct (atomic_tunes (rx_start ;; tx_start) id s s2) as [E T];
    [by rewrite (bind_Ret _ _ _ _ _ E1)|exact (tuned_trans _ _ _ _ _ T1 T2)|].
  eexists. split; [|split; [exact T|]].
  - rewrite <- E. unfold rs_start, cli. rewrite !bind_gets, !bind_modify. by rewrite !bind_bind.
  - intros Hu. simpl. unfold tx_start, gi in E2. rewrite bind_gets in E2.
    assert (use_ints (info s1) = true) as Hu1 by (rewrite (f_equal use_ints (tu_info _ _ _ T1) : use_ints (info s1) = _); exact Hu).
    rewrite Hu1 in E2. injection E2 as <-. apply theie_set.
Qed.

Lemma rs_stop_ok s : exists s', rs_stop s = Ret tt s' /\ tuned id s s'.
Proof.
  destruct (tx_stop_tunes (set_irqs false s)) as (s1 & E1 & T1). destruct (rx_stop_tunes s1) as (s2 & E2 & T2).
  destruct (atomic_tunes (tx_stop ;; rx_stop) id s s2) as [E T];
    [by rewrite (bind_Ret _ _ _ _ _ E1)|exact (tuned_trans _ _ _ _ _ T1 T2)|].
  eexists. split; [|exact T]. rewrite <- E. unfold rs_stop, cli. rewrite !bind_gets, !bind_modify. by rewrite !bind_bind.
Qed.

(** A change of settings on a working port. *)
Lemma set_termios_works s old t :
  working (upd_tty (set_termios t) s) -> good_rate (k_cflag t) ->
  exists s', rs_set_termios ARM_CLK old (upd_tty (set_termios t) s) = Ret tt s' /\ working s'.
Proof.
  intros Hw Hg. set (s0 := upd_tty (set_termios t) s) in *. unfold rs_set_termios, gt. rewrite bind_gets.
  change (termios_ (tty s0)) with t. destruct (k_cflag t =? old); [by exists s0|].
  destruct (change_speed_ok s0 (live_tty _ (wk_live _ Hw)) Hg) as (s1 & E1 & T1 & Hon1). rewrite (bind_Ret _ _ _ _ _ E1).
  assert (working s1) as Hw1 by by eapply working_tuned. destruct (bits old CRTSCTS && negb (bits (k_cflag t) CRTSCTS)); cbn [when].
  2: { by exists s1. }
  unfold mt. rewrite bind_modify. set (s2 := upd_tty (set_hw_stopped false) s1).
  destruct (rs_start_ok s2) as (s3 & E3 & T3 & Hon3). exists s3. split; [done|]. pose proof (tu_info _ _ _ T3) as Hi.
  pose proof (Hon3 (wk_ints _ Hw1)) as Hbit. eapply working_step; [exact Hw1|apply T3| | | |apply T3|done|by right].
  - exact (f_equal has_tty Hi).
  - exact (f_equal xmit_fifo_size Hi).
  - exact (f_equal use_ints Hi).
Qed.

(** New settings alone change nothing [working] looks at. *)
Lemma working_termios s t : working s -> working (upd_tty (set_termios t) s).
Proof. intros Hw. apply (working_step s); try done. by left. Qed.

Lemma run_op_ok o s : working s -> op_ok o -> exists s', run_op o s = Ret tt s' /\ working s'.
Proof.
  intros Hw Ho. destruct o as [from_user buf|h| |flow| | | | |t|cflag]; cbn [run_op op_ok] in *.
  - destruct (rs_write_ok fuel from_user buf s (wk_live _ Hw) (wk_ints _ Hw) Ho) as (k & s' & E & _ & Hwr & _ & Hp & _).
    rewrite (bind_Ret _ _ _ _ _ E). exists s'. split; [done|]. destruct (wrote_live _ _ _ Hwr (wk_live _ Hw)) as (Hl & Hu & _).
    split; [done| |done]. rewrite Hu. apply Hw.
  - destruct Hw as [Hl Hu Hp]. pose proof Hl as [Ht Hf Hr Hn]. destruct (happen_ok s h Ho Ht Hf Hr) as (s' & E & Hq & Hpp).
    exists s'. split; [done|]. by eapply working_quiet.
  - unfold stop_tty, gt, mt. rewrite bind_gets. destruct (stopped_ (tty s)); [by exists s|]. rewrite bind_modify.
    destruct (rs_stop_ok (upd_tty (set_stopped true) s)) as (s' & E & T). exists s'. split; [done|]. pose proof (tu_info _ _ _ T) as Hi.
    assert (can_send s' = false) as Hcs by (unfold can_send; by rewrite (tu_tty _ _ _ T)).
    apply (working_step s); try done; [apply T|exact (f_equal has_tty Hi)|exact (f_equal xmit_fifo_size Hi)|exact (f_equal use_ints Hi)|apply T| |]; by rewrite Hcs.
  - unfold start_tty, gt, mt. rewrite bind_gets. destruct (negb (stopped_ (tty s)) || flow); [by exists s|]. rewrite bind_modify.
    destruct (rs_start_ok (upd_tty (set_stopped false) s)) as (s' & E & T & Hon). rewrite (bind_Ret _ _ _ _ _ E). eexists. split; [done|].
    pose proof (tu_info _ _ _ T) as Hi. pose proof (Hon (wk_ints _ Hw)) as Hbit.
    apply (working_step s); try done; [apply T|exact (f_equal has_tty Hi)|exact (f_equal xmit_fifo_size Hi)|exact (f_equal use_ints Hi)|apply T|by right].
  - unfold rs_throttle, gt. rewrite bind_gets. destruct (bits (k_iflag _) IXOFF), (bits (k_cflag _) CRTSCTS);
      (eexists; split; [reflexivity|]); apply (working_step s); try done; by left.
  - unfold rs_unthrottle, gt, gi. rewrite bind_gets. destruct (bits (k_iflag _) IXOFF), (bits (k_cflag _) CRTSCTS); cbn [when];
      rewrite ?bind_bind, ?bind_gets; try (destruct (negb (x_char (info s) =? 0)));
      (eexists; split; [reflexivity|]); apply (working_step s); try done; by left.
  - eexists. split; [reflexivity|]. destruct Hw as [[Ht Hf Hr Hn] Hu Hp]. split; [split|done|]; [done|done| |done|].
    + destruct Hr as [(b & Hb & Hlen) _ _ _]. by split; [exists b| | |].
    + intros _ Hpos. simpl in Hpos. lia.
  - unfold do_softint, gi. rewrite bind_gets, (live_tty _ (wk_live _ Hw)). cbn [when]. rewrite bind_gets.
    destruct (Z.testbit (event (info s)) RS_EVENT_WRITE_WAKEUP); (eexists; split; [reflexivity|]); apply (working_step s); try done; by left.
  - unfold gt, mt. rewrite bind_gets, bind_modify. apply set_termios_works; [by apply working_termios|done].
  - unfold rs_ioctl, gt. rewrite bind_bind, bind_gets. cbv zeta. cbn [negb andb].
    destruct (Z.testbit (tty_flags (tty s)) TTY_IO_ERROR); [by exists s|]. rewrite bind_bind. unfold handle_termios_tcsets, gt.
    rewrite bind_bind, bind_gets.
    set (s0 := if negb (k_cflag (termios_ (tty s)) =? cflag) then upd_tty (fun t => set_termios (set_c_cflag cflag (termios_ t)) t) s else s).
    assert (when (negb (k_cflag (termios_ (tty s)) =? cflag)) (mt (fun t => set_termios (set_c_cflag cflag (termios_ t)) t)) s = Ret tt s0) as E0
      by (unfold s0; by destruct (negb _)).
    assert (working s0 /\ k_cflag (termios_ (tty s0)) = cflag) as [Hw0 Hcf].
    { unfold s0. destruct (Z.eqb_spec (k_cflag (termios_ (tty s))) cflag) as [Heq|]; simpl; [done|]. split; [|done].
      exact (working_termios s (set_c_cflag cflag (termios_ (tty s))) Hw). }
    rewrite bind_bind, (bind_Ret _ _ _ _ _ E0).
    destruct (change_speed_ok s0 (live_tty _ (wk_live _ Hw0))) as (s1 & E1 & T1 & Hon1); [by rewrite Hcf|].
    rewrite (bind_Ret _ _ _ _ _ E1). exists s1. split; [done|]. by eapply working_tuned.
Qed.

Lemma run_ops_ok os s : working s -> Forall op_ok os -> exists s', run_ops os s = Ret tt s' /\ working s'.
Proof.
  revert s. induction os as [|o os IH]; intros s Hw Hos; [by exists s|]. apply Forall_cons in Hos as [Ho Hos]. cbn [run_ops].
  destruct (run_op_ok o s Hw Ho) as (s1 & E1 & Hw1). rewrite (bind_Ret _ _ _ _ _ E1). by apply IH.
Qed.

(** ** Opening *)

(** A port that was never opened, or closed. *)
Record closed s : Prop := mkClosed {
  cl_flags : bits (sflags (info s)) S_INITIALIZED = false /\ bits (sflags (info s)) S_CLOSING = false /\
    bits (sflags (info s)) S_CALLOUT_ACTIVE = false /\ bits (sflags (info s)) S_SPLIT_TERMIOS = false;
  cl_fifo : 0 < xmit_fifo_size (info s);
  cl_irq : NR_EXT_IRQS < irq (info s) < NR_EXT_IRQS + 32;
  cl_rate : good_rate (k_cflag (termios_ (tty s)));
  cl_no_rx : no_rx s;
  cl_buf : match xmit_buf (ring s) with Some b => Z.of_nat (length b) = SERIAL_XMIT_SIZE | None => True end;
}.

(** The page for the buffer, if there is none. *)
Definition page_ring (r : Ring) : Ring :=
  match xmit_buf r with
  | Some _ => r
  | None => mkRing (Some (replicate (Z.to_nat SERIAL_XMIT_SIZE) 0)) (xmit_head r) (xmit_tail r) (xmit_cnt r)
  end.

(** What [startup] leaves alone. *)
Record started s s' : Prop := mkStarted {
  st_info : set_sflags 0 (set_baud 0 (info s')) = set_sflags 0 (set_baud 0 (info s));
  st_flags : sflags (info s') = Z.lor (sflags (info s)) S_INITIALIZED;
  st_ring : ring_ok (ring s') /\ xmit_cnt (ring s') = 0;
  st_wire : wire s' = wire s;
  st_send : can_send s' = can_send s;
  st_irqs : irqs s' = irqs s;
  st_sched : sched s' = sched s;
  st_mask : intmask (regs s') = intmask (regs s);
  st_ier : use_ints (info s) = true -> bits (ier (regs s')) U_THEIE = true;
  st_tty : termios_ (tty s') = termios_ (tty s);
}.

Lemma startup_ok s :
  has_tty (info s) = true -> bits (sflags (info s)) S_INITIALIZED = false -> good_rate (k_cflag (termios_ (tty s))) ->
  match xmit_buf (ring s) with Some b => Z.of_nat (length b) = SERIAL_XMIT_SIZE | None => True end ->
  exists s', startup ARM_CLK true s = Ret 0 s' /\ started s s' /\
    cr (regs s') = cr_after (k_cflag (termios_ (tty s)))
      (if bits (k_cflag (termios_ (tty s))) CBAUD then
         let c := Z.lor (Z.lor (Z.lor U_IRQ_TMODE U_IRQ_RMODE) U_DTR) U_RTS in
         if (1 <? xmit_fifo_size (info s)) && (1 <? rx_fifo_size (info s)) then
           Z.lor (Z.lor (Z.lor c (Z.lor U_TFEN U_RFEN)) U_RFTL18) U_TFTL16 else c
       else 0).
Proof.
  intros Htty Hni Hg Hbuf. unfold startup, gi, gr. rewrite bind_gets, Hni, bind_gets.
  assert ((match xmit_buf (ring s) with
    | Some _ => mret true
    | None => mr (fun r => mkRing (Some (replicate (Z.to_nat SERIAL_XMIT_SIZE) 0)) (xmit_head r) (xmit_tail r) (xmit_cnt r)) ;; mret true
    end) s = Ret true (upd_ring page_ring s)) as E1.
  { destruct s as [i g [buf hd tl c] t u q sc na w rc wk]. unfold upd_ring, page_ring. simpl. by destruct buf. }
  rewrite (bind_Ret _ _ _ _ _ E1). cbn [negb]. unfold cli. rewrite bind_gets, bind_modify.
  unfold mg. rewrite bind_modify, bind_gets. simpl info. rewrite Htty. cbn [negb]. rewrite bind_mret. unfold gt. rewrite !bind_gets.
  set (s2 := upd_regs (set_cr 0) (set_irqs false (upd_ring page_ring s))).
  change (termios_ (tty s2)) with (termios_ (tty s)). change (xmit_fifo_size (info s2)) with (xmit_fifo_size (info s)).
  change (rx_fifo_size (info s2)) with (rx_fifo_size (info s)). set (cf := k_cflag (termios_ (tty s))) in *.
  set (c0 := if bits cf CBAUD then _ else 0).
  assert (when (bits cf CBAUD)
        (modify (upd_regs (set_cr (Z.lor (Z.lor (Z.lor U_IRQ_TMODE U_IRQ_RMODE) U_DTR) U_RTS))) ;;
         when ((1 <? xmit_fifo_size (info s)) && (1 <? rx_fifo_size (info s))) fifo_init) s2 = Ret tt (upd_regs (set_cr c0) s2)) as E3.
  { unfold c0. destruct (bits cf CBAUD); [|done]. cbn [when]. rewrite bind_modify. by destruct ((1 <? _) && (1 <? _)). }
  rewrite (bind_Ret _ _ _ _ _ E3). rewrite bind_modify. unfold mt, mr. rewrite !bind_modify.
  match goal with |- context [(change_speed ARM_CLK ≫= _) ?x] => set (s4 := x) end.
  destruct (change_speed_ok s4) as (s5 & E5 & T5 & Hon5); [done|done|]. rewrite (bind_Ret _ _ _ _ _ E5). unfold mi, restore_flags.
  rewrite !bind_modify. eexists. split; [reflexivity|]. pose proof (tu_info _ _ _ T5) as Hi. split; [split|]; simpl.
  - exact (f_equal (set_sflags 0) Hi).
  - f_equal. exact (f_equal sflags Hi).
  - rewrite (tu_ring _ _ _ T5). simpl. split; [|done]. unfold page_ring. destruct (xmit_buf (ring s)) as [b|] eqn:Eb; simpl.
    + rewrite Eb. by split; [exists b| | |].
    + split; [|done..]. eexists. split; [reflexivity|]. by vm_compute.
  - apply T5.
  - unfold can_send. simpl. by rewrite (tu_tty _ _ _ T5).
  - done.
  - by rewrite (tu_sched _ _ _ T5).
  - by rewrite (tu_mask _ _ _ T5).
  - exact Hon5.
  - by rewrite (tu_tty _ _ _ T5).
  - rewrite (tu_cr _ _ _ T5). done.
Qed.

Lemma shiftl_range n : 0 <= n < 32 -> 0 <= Z.shiftl 1 n < 2 ^ 32.
Proof. intros Hn. rewrite Z.shiftl_1_l. split; [apply Z.pow_nonneg; lia|apply Z.pow_lt_mono_r; lia]. Qed.

Lemma unmask_chip n : NR_EXT_IRQS <= n ->
  s3c2510_unmask_irq n = mg (fun r => set_intmask (clear (intmask r) (Z.shiftl 1 (n - NR_EXT_IRQS))) r) :> M (Ser U) unit.
Proof. intros Hn. unfold s3c2510_unmask_irq. by rewrite (proj2 (Z.leb_le _ _) Hn). Qed.
Lemma mask_chip n : NR_EXT_IRQS <= n ->
  s3c2510_mask_irq n = mg (fun r => set_intmask (Z.lor (intmask r) (Z.shiftl 1 (n - NR_EXT_IRQS))) r) :> M (Ser U) unit.
Proof. intros Hn. unfold s3c2510_mask_irq. by rewrite (proj2 (Z.leb_le _ _) Hn). Qed.

Lemma rs_open_ok line o s :
  closed s -> 0 <= line < USART_CNT -> callout o = false -> nonblock o = true ->
  exists s', rs_open ARM_CLK fuel line true o s = Ret 0 s' /\ working s' /\ unmasked s' /\
    xmit_cnt (ring s') = 0 /\ wire s' = wire s /\ can_send s' = can_send s /\ x_char (info s') = x_char (info s) /\
    count (info s') = count (info s) + 1 /\ closing_wait (info s') = closing_wait (info s) /\ irq (info s') = irq (info s) /\
    cr (regs s') = cr_after (k_cflag (termios_ (tty s)))
      (if bits (k_cflag (termios_ (tty s))) CBAUD then
         let c := Z.lor (Z.lor (Z.lor U_IRQ_TMODE U_IRQ_RMODE) U_DTR) U_RTS in
         if (1 <? xmit_fifo_size (info s)) && (1 <? rx_fifo_size (info s)) then
           Z.lor (Z.lor (Z.lor c (Z.lor U_TFEN U_RFEN)) U_RFTL18) U_TFTL16 else c
       else 0).
Proof.
  intros [(Hni & Hncl & Hnco & Hnsp) Hfifo Hirq Hrate Hnrx Hbuf] Hline Hco Hnb. unfold USART_CNT in Hline. unfold rs_open.
  rewrite (proj2 (Z.ltb_ge _ _)) by lia. rewrite (proj2 (Z.leb_gt USART_CNT line)) by (unfold USART_CNT; lia). cbn [orb].
  unfold mi. rewrite bind_modify. unfold set_ints_mode, mi, gi. rewrite !bind_bind, bind_modify, bind_bind, bind_gets. cbn iota.
  simpl irq. rewrite !unmask_chip by lia. unfold mg. rewrite bind_bind, !bind_modify.
  match goal with |- context [(startup ARM_CLK true ≫= _) ?x] => set (s1 := x) end.
  destruct (startup_ok s1) as (s2 & E2 & H2 & Hcr); [done|done|done|done|]. rewrite (bind_Ret _ _ _ _ _ E2). cbn [Z.eqb negb].
  unfold block_til_ready. rewrite bind_bind, bind_gets. cbv zeta. rewrite (st_flags _ _ H2). simpl sflags.
  rewrite !bits_lor, Hncl, Hco. cbn [orb]. change (bits S_INITIALIZED S_CLOSING) with false. cbn iota. unfold gt.
  rewrite bind_bind, bind_gets, Hnb. cbn [orb]. rewrite Hnco. change (bits S_INITIALIZED S_CALLOUT_ACTIVE) with false. cbn [orb].
  unfold mi. rewrite bind_bind, bind_modify, bind_mret. cbn [Z.eqb negb]. rewrite bind_gets.
  replace (bits (sflags (info (upd_info _ s2))) S_SPLIT_TERMIOS) with false
    by (simpl; rewrite (st_flags _ _ H2); simpl; by rewrite !bits_lor, Hnsp).
  rewrite andb_false_r. cbn [when]. rewrite bind_mret, bind_modify. eexists. split; [reflexivity|].
  pose proof (st_info _ _ H2) as Hi. destruct (st_ring _ _ H2) as [Hr Hc]. split_and!; simpl.
  - split; [split|simpl|].
    + simpl. exact (f_equal has_tty Hi).
    + simpl. assert (xmit_fifo_size (info s2) = xmit_fifo_size (info s)) as -> by exact (f_equal xmit_fifo_size Hi). done.
    + done.
    + unfold no_rx. simpl. by rewrite (st_sched _ _ H2).
    + exact (f_equal use_ints Hi).
    + intros _ Hpos. simpl in Hpos. lia.
  - unfold unmasked. simpl. rewrite (st_mask _ _ H2). assert (irq (info s2) = irq (info s)) as -> by exact (f_equal irq Hi).
    simpl. apply clear_bits, shiftl_range. unfold NR_EXT_IRQS in *. lia.
  - done.
  - by rewrite (st_wire _ _ H2).
  - change (can_send s2 = can_send s). by rewrite (st_send _ _ H2).
  - exact (f_equal x_char Hi).
  - exact (f_equal count Hi).
  - exact (f_equal closing_wait Hi).
  - exact (f_equal irq Hi).
  - rewrite Hcr. done.
Qed.

(** ** Closing *)

Definition masked s : Prop := tx_enabled s = false /\ rx_enabled s = false.

(** With the interrupts masked nothing happens to the output. *)
Record unchanged s s' : Prop := mkUnchanged {
  un_info : info s' = info s;
  un_regs : regs s' = regs s;
  un_ring : ring s' = ring s;
  un_wire : wire s' = wire s;
  un_irqs : irqs s' = irqs s;
}.
Lemma unchanged_trans s1 s2 s3 : unchanged s1 s2 -> unchanged s2 s3 -> unchanged s1 s3.
Proof. intros [] []. split; congruence. Qed.
Lemma unchanged_masked s s' : unchanged s s' -> masked s -> masked s'.
Proof. intros [] Hm. unfold masked, tx_enabled, rx_enabled in *. congruence. Qed.

Lemma masked_happen h s : masked s -> exists s', happen h s = Ret tt s' /\ unchanged s s' /\ naps s' = naps s.
Proof.
  intros [Ht Hr]. unfold happen. destruct h.
  - rewrite bind_gets, Ht. exists s. by split.
  - rewrite bind_gets, Hr. exists s. by split.
  - unfold gt. rewrite bind_gets. destruct (flip_queued (flip (tty s))); [|exists s; by split].
    unfold when, flush_to_ldisc, gt, mt. rewrite bind_gets. cbv zeta. rewrite bind_modify. eexists. split; [reflexivity|]. by split.
Qed.
Lemma masked_happen_all l s : masked s -> exists s', happen_all l s = Ret tt s' /\ unchanged s s' /\ naps s' = naps s.
Proof.
  revert s. induction l as [|h l IH]; intros s Hm; [exists s; by split|]. cbn [happen_all].
  destruct (masked_happen h s Hm) as (s1 & E1 & U1 & N1). rewrite (bind_Ret _ _ _ _ _ E1).
  destruct (IH s1 (unchanged_masked _ _ U1 Hm)) as (s2 & E2 & U2 & N2). exists s2. split_and!; [done|by eapply unchanged_trans|congruence].
Qed.
Lemma masked_sleep s : masked s -> exists v s', schedule_timeout s = Ret v s' /\ unchanged s s' /\ naps s' = tail (naps s) /\
  (naps s = [] -> v = 0).
Proof.
  intros Hm. unfold schedule_timeout. rewrite bind_gets. destruct (naps s) as [|p q] eqn:Hn; [exists 0, s; rewrite Hn; by split|].
  rewrite bind_modify. destruct (masked_happen_all (nap_events p) (set_naps q s)) as (s1 & E & U1 & N1); [exact Hm|].
  rewrite (bind_Ret _ _ _ _ _ E). eexists _, s1. split_and!; [done|by destruct U1|done|done].
Qed.
Lemma masked_wait n s : masked s -> (length (naps s) < n)%nat -> exists s', tty_wait_until_sent n s = Ret tt s' /\ unchanged s s'.
Proof.
  revert s. induction n as [|n IH]; intros s Hm Hn; [lia|]. cbn [tty_wait_until_sent]. unfold signal_pending. rewrite bind_gets.
  destruct (match naps s with p :: _ => nap_signal p | [] => false end); [exists s; by split|].
  unfold rs_chars_in_buffer, gr. rewrite bind_gets. destruct (xmit_cnt (ring s) =? 0); [exists s; by split|].
  destruct (masked_sleep s Hm) as (v & s1 & E & U1 & N1 & Hz). rewrite (bind_Ret _ _ _ _ _ E). destruct (Z.eqb_spec v 0) as [|Hv]; [by exists s1|].
  destruct (naps s) as [|p q] eqn:Hnaps; [by rewrite Hz in Hv|].
  destruct (IH s1 (unchanged_masked _ _ U1 Hm)) as (s2 & E2 & U2); [rewrite N1; simpl in *; lia|].
  exists s2. split; [done|by eapply unchanged_trans].
Qed.

Lemma mask_set r m : 0 < m -> bits (Z.lor r m) m = true.
Proof.
  intros Hm. rewrite bits_lor. apply orb_true_iff. right. unfold bits. rewrite Z.land_diag.
  apply negb_true_iff, Z.eqb_neq. lia.
Qed.

Lemma shutdown_ok s : exists s', shutdown s = Ret tt s' /\ wire s' = wire s /\ count (info s') = count (info s) /\
  blocked_open (info s') = blocked_open (info s) /\ irqs s' = irqs s.
Proof.
  unfold shutdown. destruct (tx_stop_tunes s) as (a & Ea & Ta). rewrite (bind_Ret _ _ _ _ _ Ea).
  destruct (rx_stop_tunes a) as (b & Eb & Tb). rewrite (bind_Ret _ _ _ _ _ Eb). pose proof (tuned_trans _ _ _ _ _ Ta Tb) as T.
  assert (count (info b) = count (info s)) as Hcb by exact (f_equal count (tu_info _ _ _ T)).
  assert (blocked_open (info b) = blocked_open (info s)) as Hbb by exact (f_equal blocked_open (tu_info _ _ _ T)).
  unfold gi. rewrite bind_gets. destruct (bits (sflags (info b)) S_INITIALIZED); cbn [when].
  - rewrite bind_gets. unfold cli, mr, mi, mt, restore_flags. rewrite bind_modify, bind_modify, bind_gets.
    simpl has_tty. destruct (has_tty (info b)); cbn [when]; rewrite ?bind_modify, ?bind_mret, ?bind_modify; (eexists; split; [reflexivity|]);
      simpl; rewrite (tu_wire _ _ _ T), (tu_irqs _ _ _ T); by rewrite Hcb, Hbb.
  - exists b. rewrite (tu_wire _ _ _ T), (tu_irqs _ _ _ T). by rewrite Hcb, Hbb.
Qed.

Lemma rs_close_ok s :
  count (info s) = 1 -> NR_EXT_IRQS < irq (info s) -> blocked_open (info s) = 0 -> (length (naps s) < fuel)%nat ->
  exists s', rs_close fuel false 1 s = Ret tt s' /\ wire s' = wire s /\ queue (ring s') = [] /\
    count (info s') = 0 /\ has_tty (info s') = false /\ irqs s' = irqs s.
Proof.
  intros Hcount Hirq Hblocked Hnaps. unfold rs_close, cli. rewrite bind_gets, bind_modify. unfold mi, gi. rewrite !bind_modify, bind_gets.
  assert (forall x, count (info (upd_info (fun i => if count i <? 0 then set_count 0 i else i)
    (upd_info (fun i => set_count (count i - 1) i)
      (upd_info (fun i => if (1 =? 1) && negb (count i =? 1) then set_count 1 i else i) (set_irqs x s))))) = 0) as Hz.
  { intros x. simpl. rewrite Hcount. simpl. by rewrite Hcount. }
  match goal with |- context [count (info ?x)] => set (s0 := x) end.
  assert (count (info s0) = 0) as Hz0 by apply Hz. rewrite Hz0. cbn [Z.eqb negb].
  assert (irq (info s0) = irq (info s) /\ blocked_open (info s0) = 0 /\ irqs s0 = false /\ wire s0 = wire s /\ naps s0 = naps s)
    as (Hirq0 & Hb0 & Hq0 & Hw0 & Hn0) by (unfold s0; simpl; rewrite Hcount; simpl; rewrite Hcount; simpl; by rewrite ?Hblocked).
  clearbody s0. unfold set_ints_mode, mi, gi. rewrite bind_bind, bind_modify, bind_bind, bind_gets.
  cbn iota. simpl irq. rewrite Hirq0, !mask_chip by lia. unfold mg. rewrite bind_bind, !bind_modify. unfold gt. rewrite bind_gets, !bind_modify. unfold mt. rewrite bind_modify, bind_gets.
  match goal with |- context [(when _ (tty_wait_until_sent fuel) ≫= _) ?x] => set (s1 := x) end.
  assert (irq (info s1) = irq (info s) /\ blocked_open (info s1) = 0 /\ irqs s1 = false /\ wire s1 = wire s /\ naps s1 = naps s /\
    count (info s1) = 0) as (Hirq1 & Hb1 & Hq1 & Hw1 & Hn1 & Hc1).
  { unfold s1. simpl. rewrite <- Hirq0, <- Hw0, <- Hn0. by repeat case_match; split_and!. }
  assert (masked s1) as Hm1.
  { unfold masked, tx_enabled, rx_enabled. rewrite Hirq1. unfold s1. simpl. rewrite Z.sub_1_r, <- Z.sub_1_r.
    assert (0 < Z.shiftl 1 (irq (info s) - 1 - NR_EXT_IRQS)) by (rewrite Z.shiftl_1_l; unfold NR_EXT_IRQS in *; apply Z.pow_pos_nonneg; lia).
    assert (0 < Z.shiftl 1 (irq (info s) - NR_EXT_IRQS)) by (rewrite Z.shiftl_1_l; unfold NR_EXT_IRQS in *; apply Z.pow_pos_nonneg; lia).
    rewrite mask_set by done. rewrite bits_lor, mask_set by done. simpl. by rewrite andb_false_r. }
  assert (exists s2, when (negb (closing_wait (info s1) =? S_CLOSING_WAIT_NONE)) (tty_wait_until_sent fuel) s1 = Ret tt s2 /\ unchanged s1 s2)
    as (s2 & E2 & [Hi2 Hg2 Hr2 Hw2 Hq2]).
  { destruct (negb _); cbn [when]; [apply masked_wait; [done|by rewrite Hn1]|]. exists s1. by split. }
  rewrite (bind_Ret _ _ _ _ _ E2).
  destruct (shutdown_ok s2) as (s3 & E3 & Hw3 & Hc3 & Hb3 & Hq3).
  rewrite (bind_Ret _ _ _ _ _ E3). unfold rs_flush_buffer, cli, mr, restore_flags. rewrite bind_bind, bind_gets, !bind_bind, bind_modify, bind_bind, bind_modify, bind_bind, !bind_modify.
  rewrite bind_gets. simpl info. simpl blocked_open. rewrite Hb3, Hi2, Hb1. cbn [Z.eqb negb andb when]. rewrite bind_mret, bind_modify.
  eexists. split; [reflexivity|]. simpl. split_and!; try congruence; try done. unfold queue. simpl. by destruct (xmit_buf (ring s3)).
Qed.

Lemma queue_empty r : ring_ok r -> xmit_cnt r = 0 -> queue r = [].
Proof. intros Hr Hz. apply nil_length_inv. pose proof (queue_length r Hr). lia. Qed.

(** ** Theorems *)

(** C17: An open port that works with interrupts stays well formed through every
    history of writes, transmitter interrupts, timers, XON/XOFF, throttling, flushes
    (no receiver interrupts, which can overrun the flip buffer,
    SerialRx.rx_overruns_flip_buffer) and changes of the settings to rates that can be set ([good_rate]: not B0, and below 1500000;
    others stop the driver, [bad_rates_stop]): every operation returns, the ring
    buffer stays consistent, and whenever there is output and the terminal is not
    stopped, the transmitter interrupt is enabled, so that no output is left waiting. *)
Theorem port_never_stalls os s : working s -> Forall op_ok os -> exists s', run_ops os s = Ret tt s' /\ working s'.
Proof. apply run_ops_ok. Qed.

(** C18: [rs_write] refines the enqueuing on a FIFO queue, for data of the user
    and of the kernel, whatever transmitter interrupts come in between: it
    takes a prefix, at least what the free room allows, appends it to what is still to be
    sent and reorders nothing; the interrupt flag is restored. *)
Theorem write_refines_queue from_user buf s :
  live s -> use_ints (info s) = true -> (length buf < fuel)%nat ->
  exists k s', rs_write fuel from_user buf s = Ret k s' /\ 0 <= k <= Z.of_nat (length buf) /\
    Z.min (Z.of_nat (length buf)) (SERIAL_XMIT_SIZE - 1 - xmit_cnt (ring s)) <= k /\
    sent s' ++ queue (ring s') = (sent s ++ queue (ring s)) ++ take (Z.to_nat k) buf /\ ring_ok (ring s') /\ irqs s' = irqs s.
Proof.
  intros Hl Hu Hn. destruct (rs_write_ok fuel from_user buf s Hl Hu Hn) as (k & s' & E & Hk & Hw & Hmin & _ & Hi).
  exists k, s'. split_and!; [done|lia|lia|done| |apply Hw; apply Hl|done]. exact (w_stream _ _ _ Hw (live_ring _ Hl)).
Qed.

(** Output is eventually sent: after a port is opened, data that fits the
    buffer is accepted completely, and as many transmitter interrupts as there are
    characters (and one more for flow control) give exactly these characters to
    the UART, in order, with every UART. *)
Theorem open_write_drains line o from_user buf n s :
  closed s -> 0 <= line < USART_CNT -> callout o = false -> nonblock o = true -> can_send s = true ->
  Z.of_nat (length buf) < SERIAL_XMIT_SIZE -> (length buf < fuel)%nat -> Z.of_nat (length buf) < Z.of_nat n ->
  exists s1 s2 s3, rs_open ARM_CLK fuel line true o s = Ret 0 s1 /\ rs_write fuel from_user buf s1 = Ret (Z.of_nat (length buf)) s2 /\
    happen_all (replicate n TxIrq) s2 = Ret tt s3 /\ sent s3 = sent s ++ buf /\ queue (ring s3) = [].
Proof.
  intros Hcl Hline Hco Hnb Hcs Hlen Hf Hn.
  destruct (rs_open_ok line o s Hcl Hline Hco Hnb) as (s1 & E1 & Hw1 & Hm1 & Hc1 & Hwire1 & Hcs1 & _).
  destruct (rs_write_ok fuel from_user buf s1 (wk_live _ Hw1) (wk_ints _ Hw1) Hf) as (k & s2 & E2 & Hk & Hw & Hmin & Hp2 & _).
  rewrite Hc1 in Hmin. assert (k = Z.of_nat (length buf)) as -> by lia. rewrite Nat2Z.id, firstn_all in Hw.
  destruct (wrote_live _ _ _ Hw (wk_live _ Hw1)) as (Hl2 & Hu2 & Hcs2). pose proof (live_ring _ (wk_live _ Hw1)) as Hok1.
  pose proof (w_cnt _ _ _ Hw Hok1) as Hcnt. pose proof (ring_cnt _ (live_ring _ Hl2)) as Hrange.
  destruct (drain_ok n s2) as (s3 & E3 & Hq3 & Hz3);
    [apply Hl2|apply Hl2|apply Hl2|rewrite Hu2; apply Hw1| |congruence|done|unfold work; destruct (_ =? 0); lia|].
  { unfold unmasked in *. rewrite (w_mask _ _ _ Hw). by rewrite (f_equal irq (w_info _ _ _ Hw) : irq (info s2) = _). }
  exists s1, s2, s3. split_and!; [done|done|done| |apply queue_empty; [by apply Hq3, Hl2|done]].
  assert (sent s3 = stream s3) as -> by (unfold stream; rewrite (queue_empty (ring s3)), app_nil_r; [done|by apply Hq3, Hl2|done]).
  rewrite (q_stream _ _ Hq3) by apply Hl2. rewrite (w_stream _ _ _ Hw) by done. unfold stream.
  rewrite (queue_empty (ring s1)), app_nil_r by done. unfold sent. by rewrite Hwire1.
Qed.

(** Closing a port throws away the output that is still in the buffer: the
    interrupts of the port are masked before the driver waits for it to be sent, so that
    nothing is sent during the wait, however long it is and whatever happens in it. *)
Theorem close_discards_output s :
  count (info s) = 1 -> NR_EXT_IRQS < irq (info s) -> blocked_open (info s) = 0 -> (length (naps s) < fuel)%nat ->
  exists s', rs_close fuel false 1 s = Ret tt s' /\ sent s' = sent s /\ queue (ring s') = [].
Proof.
  intros H1 H2 H3 H4. destruct (rs_close_ok s H1 H2 H3 H4) as (s' & E & Hw & Hq & _). exists s'. split_and!; [done| |done].
  unfold sent. by rewrite Hw.
Qed.

(** The fields of the control register for the word length and the parity. *)
Definition wl_code (cflag : Z) : Z :=
  if Z.land cflag CSIZE =? CS5 then 0 else if Z.land cflag CSIZE =? CS6 then U_WL6
  else if Z.land cflag CSIZE =? CS7 then U_WL7 else U_WL8.
Definition parity_code (cflag : Z) : Z :=
  if bits cflag PARENB then (if bits cflag PARODD then U_ODD_PMD else U_EVEN_PMD) else 0.

(** Opening a port programs the word length, the stop bits and the parity
    that the settings ask for. *)
Theorem open_sets_format line o s :
  closed s -> 0 <= line < USART_CNT -> callout o = false -> nonblock o = true ->
  exists s', rs_open ARM_CLK fuel line true o s = Ret 0 s' /\
    Z.land (cr (regs s')) U_WL = wl_code (k_cflag (termios_ (tty s))) /\
    bits (cr (regs s')) U_STB = bits (k_cflag (termios_ (tty s))) CSTOPB /\
    Z.land (cr (regs s')) U_PMD = parity_code (k_cflag (termios_ (tty s))).
Proof.
  intros Hcl Hline Hco Hnb. destruct (rs_open_ok line o s Hcl Hline Hco Hnb) as (s' & E & _ & _ & _ & _ & _ & _ & _ & _ & _ & Hcr).
  exists s'. split; [done|]. rewrite Hcr. clear. set (cf := k_cflag (termios_ (tty s))).
  unfold cr_after, soft_after, hard_after, parity_after, stop_after, wl_after, wl_code, parity_code.
  destruct (bits cf CBAUD), ((1 <? xmit_fifo_size (info s)) && (1 <? rx_fifo_size (info s))), (bits cf (Z.lor IXON IXOFF)),
    (bits cf CRTSCTS), (bits cf PARENB), (bits cf PARODD), (bits cf CSTOPB), (Z.land cf CSIZE =? CS5), (Z.land cf CSIZE =? CS6),
    (Z.land cf CSIZE =? CS7); done.
Qed.

Lemma lor_keeps a m k : Z.land a k = k -> Z.land (Z.lor a m) k = k.
Proof.
  intros Ha. apply Z.bits_inj'. intros i Hi. apply (f_equal (fun z => Z.testbit z i)) in Ha. rewrite Z.land_spec, Z.lor_spec in *.
  destruct (Z.testbit a i), (Z.testbit k i); simpl in *; try done. by rewrite andb_false_r.
Qed.

(** A port that was set to 8 bits cannot be set to 7 or 6 bits while it is
    open: [change_speed] only adds bits to the control register, so the UART keeps
    8 bits; two stop bits and a parity cannot be turned off either. *)
Theorem format_bits_only_added s :
  has_tty (info s) = true -> good_rate (k_cflag (termios_ (tty s))) -> Z.land (cr (regs s)) U_WL = U_WL8 ->
  Z.land (k_cflag (termios_ (tty s))) CSIZE <> CS5 ->
  exists s', change_speed ARM_CLK s = Ret tt s' /\ Z.land (cr (regs s')) U_WL = U_WL8 /\
    (Z.land (cr (regs s)) U_STB = U_STB -> Z.land (cr (regs s')) U_STB = U_STB) /\
    (Z.land (cr (regs s)) U_PMD = U_EVEN_PMD -> bits (cr (regs s')) U_PMD = true).
Proof.
  intros Htty Hg Hwl Hsize. destruct (change_speed_ok s Htty Hg) as (s' & E & T & _). exists s'. rewrite (tu_cr _ _ _ T). clear T.
  set (cf := k_cflag (termios_ (tty s))) in *. set (c := cr (regs s)) in *.
  assert (exists m, cr_after cf c = Z.lor c m) as [m ->].
  { unfold cr_after, soft_after, hard_after, parity_after, stop_after, wl_after. rewrite (proj2 (Z.eqb_neq _ _) Hsize).
    repeat case_match; rewrite <- ?Z.lor_assoc; eexists; reflexivity. }
  split_and!; [done|by apply lor_keeps|apply lor_keeps|]. intros Hp. rewrite bits_lor. apply orb_true_iff. left. unfold bits. by rewrite Hp.
Qed.

(** Opening a port turns on the XON/XOFF flow control of the UART if the
    settings say to hang up on close (HUPCL, the default), or have a rate above
    38400, whatever they say about flow control: the flags of [c_iflag] are looked
    for in [c_cflag]. *)
Theorem open_enables_soft_flow line o s :
  closed s -> 0 <= line < USART_CNT -> callout o = false -> nonblock o = true ->
  bits (k_cflag (termios_ (tty s))) (Z.lor HUPCL CBAUDEX) = true ->
  exists s', rs_open ARM_CLK fuel line true o s = Ret 0 s' /\ bits (cr (regs s')) U_SFEN = true.
Proof.
  intros Hcl Hline Hco Hnb Hup. destruct (rs_open_ok line o s Hcl Hline Hco Hnb) as (s' & E & _ & _ & _ & _ & _ & _ & _ & _ & _ & Hcr).
  exists s'. split; [done|]. rewrite Hcr. unfold cr_after, soft_after. change (Z.lor IXON IXOFF) with (Z.lor HUPCL CBAUDEX). rewrite Hup.
  by rewrite bits_lor, orb_true_r.
Qed.

(** A change of the settings to the rate B0 divides by zero, and one to a rate
    from 1500000 on reads past the table of rates. *)
Theorem bad_rates_stop s :
  has_tty (info s) = true ->
  (Z.land (k_cflag (termios_ (tty s))) CBAUD = B0 -> stopped (change_speed ARM_CLK s) = Some DivisionByZero) /\
  (4106 <= Z.land (k_cflag (termios_ (tty s))) CBAUD <= 4111 -> stopped (change_speed ARM_CLK s) = Some OutOfBounds).
Proof.
  intros Htty. unfold change_speed, gi, gt. rewrite bind_gets, Htty. cbn [when]. rewrite bind_gets. cbv zeta.
  destruct (tx_stop_tunes s) as (s1 & E1 & _). rewrite (bind_Ret _ _ _ _ _ E1).
  destruct (rx_stop_tunes s1) as (s2 & E2 & _). rewrite (bind_Ret _ _ _ _ _ E2). unfold table_index. split; intros Hr.
  - by rewrite Hr.
  - assert (forall i, 4106 <= i <= 4111 -> i = 4106 \/ i = 4107 \/ i = 4108 \/ i = 4109 \/ i = 4110 \/ i = 4111) as Hcases by lia.
    destruct (Hcases _ Hr) as [->|[->|[->|[->|[->| ->]]]]]; done.
Qed.

(** The divisor for a rate is the nearest one: the clock of the UART divided
    by it is off by less than half a step. *)
Theorem divisor_is_nearest br s :
  0 < br <= ARM_CLK / 32 -> ARM_CLK / 32 < 2 ^ 28 ->
  exists c, calcCD ARM_CLK br s = Ret (16 * (c - 1)) s /\ 0 < c /\ 2 * Z.abs (c * br - ARM_CLK / 32) <= br.
Proof.
  intros Hbr Hclk. set (u := ARM_CLK / 32) in *. exists ((u + br / 2) / br). unfold calcCD. cbv zeta. fold u.
  rewrite (proj2 (Z.eqb_neq br 0)) by lia. assert (0 < (u + br / 2) / br <= u + br / 2) as Hc.
  { split; [apply Z.div_str_pos; split; [lia|]; pose proof (Z.div_pos br 2); lia|]. apply Z.div_le_upper_bound; [lia|].
    pose proof (Z.div_pos br 2). nia. }
  assert (br / 2 <= br) by (apply Z.div_le_upper_bound; lia). assert (0 <= br / 2) by (apply Z.div_pos; lia).
  change (2 ^ 28) with 268435456 in Hclk. split_and!; [|lia|].
  - rewrite (u32_small (u + br / 2)) by (unfold is_u32; lia). rewrite (u32_small ((u + br / 2) / br - 1)) by (unfold is_u32; lia).
    rewrite Z.shiftl_mul_pow2 by lia. change (2 ^ 4) with 16. rewrite u32_small; [unfold mret, M_ret; f_equal; lia|].
    unfold is_u32. assert ((u + br / 2) / br <= u); [|lia]. apply Z.div_le_upper_bound; [lia|].
    destruct (decide (br = 1)) as [->|]; [change (1 / 2) with 0; lia|]. assert (br / 2 <= (br - 1) * u); [|lia].
    assert (br / 2 <= br - 1) by (apply Z.div_le_upper_bound; lia). nia.
  - pose proof (Z.div_mod (u + br / 2) br ltac:(lia)). pose proof (Z.mod_pos_bound (u + br / 2) br ltac:(lia)).
    pose proof (Z.div_mod br 2 ltac:(lia)). pose proof (Z.mod_pos_bound br 2 ltac:(lia)). lia.
Qed.

(** The XOFF of a throttled terminal waits for other output: [rs_throttle]
    does not start the transmitter, so that as long as nothing is written no
    number of interrupts sends it. *)
Theorem throttle_sends_nothing n s :
  bits (k_iflag (termios_ (tty s))) IXOFF = true -> k_stop (termios_ (tty s)) <> 0 -> bits (ier (regs s)) U_THEIE = false ->
  exists s1, rs_throttle s = Ret tt s1 /\ x_char (info s1) = k_stop (termios_ (tty s)) /\
    happen_all (replicate n TxIrq) s1 = Ret tt s1 /\ wire s1 = wire s.
Proof.
  intros Hix Hstop Hier. unfold rs_throttle, gt. rewrite bind_gets, Hix. cbn [when]. unfold mi. rewrite bind_modify.
  assert (forall x : Ser U, bits (ier (regs x)) U_THEIE = false -> happen_all (replicate n TxIrq) x = Ret tt x) as Hn.
  { intros x Hx. induction n as [|m IH]; [done|]. cbn [replicate happen_all]. unfold happen. rewrite bind_bind, bind_gets.
    unfold tx_enabled. by rewrite Hx. }
  destruct (bits (k_cflag (termios_ (tty s))) CRTSCTS); (eexists; split; [reflexivity|]); split_and!; try done; by apply Hn.
Qed.
End Spec.

(** ** On the simulated UART *)

(** A high-speed port before it is opened, with the clock at 133 MHz. *)
Definition new_port (t : ktermios) : Ser SimUart :=
  mkSer (rs_init_info 1) (mkRegs 0 0 0 0 0 0 0 0xFFFFFFFF 0) (mkRing None 0 0 0)
    (mkTty false false t 0 false (empty_flip 0)) (mkSimUart [] []) true [[TxIrq]] [] [] [] 0.
Definition MHZ133 : Z := 133000000.
Definition reader : opener := mkOpener false true false 1 1.

Lemma new_port_closed t : good_rate (k_cflag t) -> closed (new_port t).
Proof. intros Hg. split; [done|done|done|exact Hg|by repeat constructor|done]. Qed.
Lemma init_rate : good_rate (k_cflag init_termios).
Proof. by eexists. Qed.

Lemma sim_port_live : live (sim_port 0 []).
Proof. split; [done|done| |constructor]. split; [|done..]. eexists. split; [reflexivity|]. by rewrite length_replicate. Qed.
Lemma sim_port_working : working (sim_port 0 []).
Proof. split; [apply sim_port_live|done|]. intros _ Hpos. simpl in Hpos. lia. Qed.

Lemma port_never_stalls_witness : exists s',
  run_ops MHZ133 100 [OWrite true (lit "hello"); OHappen TxIrq; OStop; OWrite false (lit "!"); OStart false; OTcsets (k_cflag init_termios)] (sim_port 0 []) = Ret tt s' /\
  working s'.
Proof.
  apply (port_never_stalls MHZ133 100 _ (sim_port 0 []) sim_port_working).
  repeat (constructor; [simpl; first [lia | done | apply init_rate]|]). constructor.
Defined.

Lemma write_refines_queue_witness : exists k s', rs_write 100 true (lit "hello") (sim_port 0 []) = Ret k s' /\ 5 <= k.
Proof.
  destruct (write_refines_queue 100 true (lit "hello") (sim_port 0 []) sim_port_live eq_refl) as (k & s' & E & _ & Hk & _); [simpl; lia|].
  exists k, s'. split; [exact E|exact Hk].
Defined.

Lemma open_write_drains_witness : exists s1 s2 s3,
  rs_open MHZ133 100 1 true reader (new_port init_termios) = Ret 0 s1 /\ rs_write 100 true (lit "hello") s1 = Ret 5 s2 /\
  happen_all (replicate 6 TxIrq) s2 = Ret tt s3 /\ sent s3 = lit "hello".
Proof.
  destruct (open_write_drains MHZ133 100 1 reader true (lit "hello") 6 (new_port init_termios)) as (s1 & s2 & s3 & E1 & E2 & E3 & Hs & _);
    [apply new_port_closed, init_rate|done|done|done|done|done|simpl; lia|done|].
  exists s1, s2, s3. split; [exact E1|]. split; [exact E2|]. split; [exact E3|exact Hs].
Defined.

Lemma open_sets_format_witness : exists s', rs_open MHZ133 100 1 true reader (new_port init_termios) = Ret 0 s' /\
  Z.land (cr (regs s')) U_WL = U_WL8.
Proof.
  destruct (open_sets_format MHZ133 100 1 reader (new_port init_termios)) as (s' & E & Hwl & _); [apply new_port_closed, init_rate|done|done|done|].
  exists s'. split; [exact E|exact Hwl].
Defined.

(** A port with 8 bits whose settings now ask for 7. *)
Definition seven_bits : Ser SimUart :=
  upd_tty (set_termios (set_c_cflag (Z.lor CS7 B9600) init_termios)) (upd_regs (set_cr U_WL8) (sim_port 0 [])).
Lemma format_bits_only_added_witness : exists s', change_speed MHZ133 seven_bits = Ret tt s' /\ Z.land (cr (regs s')) U_WL = U_WL8.
Proof.
  destruct (format_bits_only_added MHZ133 seven_bits) as (s' & E & Hwl & _); [done|by eexists|done|done|].
  exists s'. split; [exact E|exact Hwl].
Defined.

Definition no_flow : ktermios := mkKtermios 0 (k_cflag init_termios) N_TTY 17 19.
Lemma open_enables_soft_flow_witness : k_iflag no_flow = 0 /\ exists s',
  rs_open MHZ133 100 1 true reader (new_port no_flow) = Ret 0 s' /\ bits (cr (regs s')) U_SFEN = true.
Proof.
  split; [done|]. apply (open_enables_soft_flow MHZ133 100 1 reader (new_port no_flow)); [apply new_port_closed, init_rate|done..].
Defined.

Lemma bad_rates_stop_witness :
  stopped (change_speed MHZ133 (upd_tty (set_termios (set_c_cflag CS8 init_termios)) (sim_port 0 []))) = Some DivisionByZero.
Proof. apply (bad_rates_stop MHZ133 (upd_tty (set_termios (set_c_cflag CS8 init_termios)) (sim_port 0 []))); done. Defined.

Lemma divisor_is_nearest_witness : exists c, calcCD MHZ133 115200 (sim_port 0 []) = Ret (16 * (c - 1)) (sim_port 0 []) /\
  2 * Z.abs (c * 115200 - 4156250) <= 115200.
Proof.
  destruct (divisor_is_nearest MHZ133 115200 (sim_port 0 [])) as (c & E & _ & Hc); [done|done|]. exists c. split; [exact E|exact Hc].
Defined.

Definition throttled : Ser SimUart := upd_tty (set_termios (mkKtermios IXOFF (k_cflag init_termios) 0 17 19)) (sim_port 0 []).
Lemma throttle_sends_nothing_witness : exists s1, rs_throttle throttled = Ret tt s1 /\ x_char (info s1) = 19 /\
  happen_all (replicate 5 TxIrq) s1 = Ret tt s1.
Proof.
  destruct (throttle_sends_nothing 5 throttled) as (s1 & E & Hx & Hh & _); [done|done|done|].
  exists s1. split; [exact E|]. split; [exact Hx|exact Hh].
Defined.

(** A port with a character to send, with count 1. *)
Definition busy_port : Ser SimUart :=
  set_naps [mkNap false [TxIrq; FlipTimer; TxIrq] 100; mkNap false [TxIrq] 0]
    (upd_info (set_count 1) (upd_regs (set_ier U_THEIE) (upd_ring (push_ring [65]) (sim_port 0 [])))).
Lemma close_discards_output_witness : queue (ring busy_port) = [65] /\ exists s',
  rs_close 100 false 1 busy_port = Ret tt s' /\ sent s' = [] /\ queue (ring s') = [].
Proof.
  split; [by vm_compute|]. apply (close_discards_output 100 busy_port); [done|done|done|]. simpl. lia.
Defined.

(** In the mode without interrupts [rs_flush_chars] sends the buffer but returns
    with the interrupts of the processor disabled. *)
Theorem polled_flush_disables_interrupts :
  match rs_flush_chars 100 (upd_info (set_use_ints false) busy_port) with
  | Ret _ s => sent s = [65] /\ irqs (upd_info (set_use_ints false) busy_port) = true /\ irqs s = false
  | Stop _ _ => False
  end.
Proof. by vm_compute. Qed.
