(* ===== verification/EnvCrc.v ===== *)
(** * The checksum of the environment
    (src/linux2510/drivers/char/envm-s3c2510_4M.c: crc_table, crc32)

    The driver computes CRC-32 with a table, eight bytes per turn of the loop.
    The reference is the division by the polynomial, bit by bit. *)

From S2P Require Import Prelude.

Definition crc_table : list Z := [
   0x00000000; 0x77073096; 0xee0e612c; 0x990951ba; 0x076dc419; 0x706af48f;
   0xe963a535; 0x9e6495a3; 0x0edb8832; 0x79dcb8a4; 0xe0d5e91e; 0x97d2d988;
   0x09b64c2b; 0x7eb17cbd; 0xe7b82d07; 0x90bf1d91; 0x1db71064; 0x6ab020f2;
   0xf3b97148; 0x84be41de; 0x1adad47d; 0x6ddde4eb; 0xf4d4b551; 0x83d385c7;
   0x136c9856; 0x646ba8c0; 0xfd62f97a; 0x8a65c9ec; 0x14015c4f; 0x63066cd9;
   0xfa0f3d63; 0x8d080df5; 0x3b6e20c8; 0x4c69105e; 0xd56041e4; 0xa2677172;
   0x3c03e4d1; 0x4b04d447; 0xd20d85fd; 0xa50ab56b; 0x35b5a8fa; 0x42b2986c;
   0xdbbbc9d6; 0xacbcf940; 0x32d86ce3; 0x45df5c75; 0xdcd60dcf; 0xabd13d59;
   0x26d930ac; 0x51de003a; 0xc8d75180; 0xbfd06116; 0x21b4f4b5; 0x56b3c423;
   0xcfba9599; 0xb8bda50f; 0x2802b89e; 0x5f058808; 0xc60cd9b2; 0xb10be924;
   0x2f6f7c87; 0x58684c11; 0xc1611dab; 0xb6662d3d; 0x76dc4190; 0x01db7106;
   0x98d220bc; 0xefd5102a; 0x71b18589; 0x06b6b51f; 0x9fbfe4a5; 0xe8b8d433;
   0x7807c9a2; 0x0f00f934; 0x9609a88e; 0xe10e9818; 0x7f6a0dbb; 0x086d3d2d;
   0x91646c97; 0xe6635c01; 0x6b6b51f4; 0x1c6c6162; 0x856530d8; 0xf262004e;
   0x6c0695ed; 0x1b01a57b; 0x8208f4c1; 0xf50fc457; 0x65b0d9c6; 0x12b7e950;
   0x8bbeb8ea; 0xfcb9887c; 0x62dd1ddf; 0x15da2d49; 0x8cd37cf3; 0xfbd44c65;
   0x4db26158; 0x3ab551ce; 0xa3bc0074; 0xd4bb30e2; 0x4adfa541; 0x3dd895d7;
   0xa4d1c46d; 0xd3d6f4fb; 0x4369e96a; 0x346ed9fc; 0xad678846; 0xda60b8d0;
   0x44042d73; 0x33031de5; 0xaa0a4c5f; 0xdd0d7cc9; 0x5005713c; 0x270241aa;
   0xbe0b1010; 0xc90c2086; 0x5768b525; 0x206f85b3; 0xb966d409; 0xce61e49f;
   0x5edef90e; 0x29d9c998; 0xb0d09822; 0xc7d7a8b4; 0x59b33d17; 0x2eb40d81;
   0xb7bd5c3b; 0xc0ba6cad; 0xedb88320; 0x9abfb3b6; 0x03b6e20c; 0x74b1d29a;
   0xead54739; 0x9dd277af; 0x04db2615; 0x73dc1683; 0xe3630b12; 0x94643b84;
   0x0d6d6a3e; 0x7a6a5aa8; 0xe40ecf0b; 0x9309ff9d; 0x0a00ae27; 0x7d079eb1;
   0xf00f9344; 0x8708a3d2; 0x1e01f268; 0x6906c2fe; 0xf762575d; 0x806567cb;
   0x196c3671; 0x6e6b06e7; 0xfed41b76; 0x89d32be0; 0x10da7a5a; 0x67dd4acc;
   0xf9b9df6f; 0x8ebeeff9; 0x17b7be43; 0x60b08ed5; 0xd6d6a3e8; 0xa1d1937e;
   0x38d8c2c4; 0x4fdff252; 0xd1bb67f1; 0xa6bc5767; 0x3fb506dd; 0x48b2364b;
   0xd80d2bda; 0xaf0a1b4c; 0x36034af6; 0x41047a60; 0xdf60efc3; 0xa867df55;
   0x316e8eef; 0x4669be79; 0xcb61b38c; 0xbc66831a; 0x256fd2a0; 0x5268e236;
   0xcc0c7795; 0xbb0b4703; 0x220216b9; 0x5505262f; 0xc5ba3bbe; 0xb2bd0b28;
   0x2bb45a92; 0x5cb36a04; 0xc2d7ffa7; 0xb5d0cf31; 0x2cd99e8b; 0x5bdeae1d;
   0x9b64c2b0; 0xec63f226; 0x756aa39c; 0x026d930a; 0x9c0906a9; 0xeb0e363f;
   0x72076785; 0x05005713; 0x95bf4a82; 0xe2b87a14; 0x7bb12bae; 0x0cb61b38;
   0x92d28e9b; 0xe5d5be0d; 0x7cdcefb7; 0x0bdbdf21; 0x86d3d2d4; 0xf1d4e242;
   0x68ddb3f8; 0x1fda836e; 0x81be16cd; 0xf6b9265b; 0x6fb077e1; 0x18b74777;
   0x88085ae6; 0xff0f6a70; 0x66063bca; 0x11010b5c; 0x8f659eff; 0xf862ae69;
   0x616bffd3; 0x166ccf45; 0xa00ae278; 0xd70dd2ee; 0x4e048354; 0x3903b3c2;
   0xa7672661; 0xd06016f7; 0x4969474d; 0x3e6e77db; 0xaed16a4a; 0xd9d65adc;
   0x40df0b66; 0x37d83bf0; 0xa9bcae53; 0xdebb9ec5; 0x47b2cf7f; 0x30b5ffe9;
   0xbdbdf21c; 0xcabac28a; 0x53b39330; 0x24b4a3a6; 0xbad03605; 0xcdd70693;
   0x54de5729; 0x23d967bf; 0xb3667a2e; 0xc4614ab8; 0x5d681b02; 0x2a6f2b94;
   0xb40bbe37; 0xc30c8ea1; 0x5a05df1b; 0x2d02ef8d].

(** ** The code *)

(** The accumulator and the bytes still to be read; [None] is a read behind the
    end of the buffer.  [DO1(buf)] *)
Definition DO1 (st : Z * bytes) : option (Z * bytes) :=
  match st.2 with
  | b :: buf =>
      Some (Z.lxor (nth (Z.to_nat (Z.land (Z.lxor st.1 b) 0xff)) crc_table 0) (Z.shiftr st.1 8), buf)
  | [] => None
  end.
Definition DO2 (st : Z * bytes) : option (Z * bytes) := DO1 st ≫= DO1.
Definition DO4 (st : Z * bytes) : option (Z * bytes) := DO2 st ≫= DO2.
Definition DO8 (st : Z * bytes) : option (Z * bytes) := DO4 st ≫= DO4.

(** [while (len >= 8)]: a turn for each eight bytes of [len]. *)
Fixpoint crc32_blocks (blocks : nat) (st : Z * bytes) : option (Z * bytes) :=
  match blocks with
  | O => Some st
  | S n => DO8 st ≫= crc32_blocks n
  end.

(** [do ... while (--len)] *)
Fixpoint crc32_rest (len : nat) (st : Z * bytes) : option (Z * bytes) :=
  match len with
  | O => Some st
  | S n => DO1 st ≫= crc32_rest n
  end.

Definition crc32 (crc : Z) (buf : option bytes) (len : nat) : option Z :=
  match buf with
  | None => Some 0
  | Some buf =>
      st ← crc32_blocks (len / 8) (Z.lxor crc 0xffffffff, buf);
      st ← crc32_rest (len mod 8) st;
      Some (Z.lxor st.1 0xffffffff)
  end.

(** ** The reference *)

(** One step of the division, least significant bit first. *)
Definition crc_bit (c : Z) : Z :=
  if Z.testbit c 0 then Z.lxor (Z.shiftr c 1) 0xedb88320 else Z.shiftr c 1.
Definition crc_byte (c b : Z) : Z := Nat.iter 8 crc_bit (Z.lxor c b).
Definition crc_reference (crc : Z) (l : bytes) : Z :=
  Z.lxor (foldl crc_byte (Z.lxor crc 0xffffffff) l) 0xffffffff.

(** ** The division is linear *)

Lemma lxor_range a b n : 0 <= n -> 0 <= a < 2 ^ n -> 0 <= b < 2 ^ n -> 0 <= Z.lxor a b < 2 ^ n.
Proof.
  intros Hn Ha Hb. assert (0 <= Z.lxor a b) as H0 by (apply Z.lxor_nonneg; lia). split; [done|].
  destruct (decide (Z.lxor a b = 0)) as [->|Hne]; [apply Z.pow_pos_nonneg; lia|].
  apply Z.log2_lt_pow2; [lia|]. eapply Z.le_lt_trans; [apply Z.log2_lxor; lia|].
  destruct (decide (n = 0)) as [->|]; [simpl in *; assert (a = 0) as -> by lia; assert (b = 0) as -> by lia; done|].
  apply Z.max_lub_lt.
  - destruct (decide (a = 0)) as [->|]; [simpl; lia|apply Z.log2_lt_pow2; lia].
  - destruct (decide (b = 0)) as [->|]; [simpl; lia|apply Z.log2_lt_pow2; lia].
Qed.

Lemma shiftr_range a k n : 0 <= k -> 0 <= a < 2 ^ n -> 0 <= Z.shiftr a k < 2 ^ n.
Proof.
  intros Hk Ha. rewrite Z.shiftr_div_pow2 by done. pose proof (Z.pow_pos_nonneg 2 k ltac:(lia) Hk).
  destruct (div_bounds a (2 ^ k)); [lia|lia|]. split; [done|]. nia.
Qed.

Lemma crc_bit_range c : is_u32 c -> is_u32 (crc_bit c).
Proof.
  unfold is_u32, crc_bit. intros Hc. pose proof (shiftr_range c 1 32 ltac:(lia) Hc).
  destruct (Z.testbit c 0); [|done]. apply lxor_range; lia.
Qed.

Lemma crc_bit_lxor a b : crc_bit (Z.lxor a b) = Z.lxor (crc_bit a) (crc_bit b).
Proof.
  unfold crc_bit. rewrite Z.lxor_spec, Z.shiftr_lxor.
  destruct (Z.testbit a 0), (Z.testbit b 0); simpl; apply Z.bits_inj'; intros i _;
    rewrite ?Z.lxor_spec; by repeat destruct (Z.testbit _ _).
Qed.

Lemma iter_crc_bit_lxor n a b :
  Nat.iter n crc_bit (Z.lxor a b) = Z.lxor (Nat.iter n crc_bit a) (Nat.iter n crc_bit b).
Proof. induction n as [|n IH]; simpl; [done|]. by rewrite IH, crc_bit_lxor. Qed.

(** Steps on zero bits only shift. *)
Lemma iter_crc_bit_shift n a : Nat.iter n crc_bit (Z.shiftl a (Z.of_nat n)) = a.
Proof.
  revert a. induction n as [|n IH]; intros a; [apply Z.shiftl_0_r|].
  rewrite Nat.iter_succ_r. rewrite Nat2Z.inj_succ. unfold crc_bit at 2.
  rewrite Z.shiftl_spec, Z.testbit_neg_r by lia. rewrite Z.shiftr_shiftl_l by lia.
  by replace (Z.succ (Z.of_nat n) - 1) with (Z.of_nat n) by lia.
Qed.

(** ** The table *)

Lemma crc_table_ok :
  crc_table = (fun i => Nat.iter 8 crc_bit (Z.of_nat i)) <$> seq 0 256.
Proof. by vm_compute. Qed.

Lemma crc_table_lookup i : is_byte i -> nth (Z.to_nat i) crc_table 0 = Nat.iter 8 crc_bit i.
Proof.
  unfold is_byte. intros Hi. apply nth_lookup_Some. rewrite crc_table_ok, list_lookup_fmap, lookup_seq_lt by lia.
  simpl. f_equal. by rewrite Z2Nat.id by lia.
Qed.

Lemma split_low_byte c : c = Z.lxor (Z.land c 0xff) (Z.shiftl (Z.shiftr c 8) 8).
Proof.
  apply Z.bits_inj'. intros i Hi. rewrite Z.lxor_spec, Z.land_spec, Z.shiftl_spec by done.
  change 0xff with (Z.ones 8). rewrite Z.testbit_ones by lia. destruct (Z.ltb_spec i 8).
  - rewrite (Z.testbit_neg_r _ (i - 8)) by lia. rewrite (proj2 (Z.leb_le 0 i)) by done.
    by rewrite andb_true_r, xorb_false_r.
  - rewrite Z.shiftr_spec by lia. replace (i - 8 + 8) with i by lia.
    by rewrite andb_false_r, andb_false_r, xorb_false_l.
Qed.

Lemma byte_shiftr8 b : is_byte b -> Z.shiftr b 8 = 0.
Proof. intros Hb. rewrite Z.shiftr_div_pow2 by lia. by apply Z.div_small. Qed.

Lemma DO1_reference c b l : is_byte b -> DO1 (c, b :: l) = Some (crc_byte c b, l).
Proof.
  intros Hb. unfold DO1. cbn [fst snd]. rewrite crc_table_lookup.
  2: { unfold is_byte. change 0xff with (Z.ones 8). rewrite Z.land_ones by lia. apply Z.mod_pos_bound. lia. }
  enough (Z.lxor (Nat.iter 8 crc_bit (Z.land (Z.lxor c b) 0xff)) (Z.shiftr c 8) = crc_byte c b) as -> by done.
  unfold crc_byte. rewrite (split_low_byte (Z.lxor c b)) at 2.
  rewrite iter_crc_bit_lxor, (iter_crc_bit_shift 8). f_equal.
  rewrite Z.shiftr_lxor, (byte_shiftr8 b) by done.
  by rewrite Z.lxor_0_r.
Qed.

Lemma crc32_rest_reference n c l :
  Forall is_byte l -> (n <= length l)%nat ->
  crc32_rest n (c, l) = Some (foldl crc_byte c (take n l), drop n l).
Proof.
  revert c l. induction n as [|n IH]; intros c l Hl Hn; [by destruct l|].
  destruct l as [|b l]; [simpl in Hn; lia|]. apply Forall_cons in Hl as [Hb Hl]. simpl in Hn.
  cbn [crc32_rest]. rewrite DO1_reference by done. simpl. rewrite IH by (done || lia). done.
Qed.

Lemma crc32_rest_add m n st : crc32_rest m st ≫= crc32_rest n = crc32_rest (m + n) st.
Proof.
  revert st. induction m as [|m IH]; intros st; [done|]. simpl. destruct (DO1 st) as [st'|]; [|done].
  simpl. apply IH.
Qed.

Lemma DO8_rest st : DO8 st = crc32_rest 8 st.
Proof.
  unfold DO8, DO4, DO2. destruct (DO1 st) as [s1|] eqn:E1; cbn [crc32_rest]; rewrite E1; [|done]. simpl.
  destruct (DO1 s1) as [s2|]; [|done]. simpl. destruct (DO1 s2) as [s3|]; [|done]. simpl.
  destruct (DO1 s3) as [s4|]; [|done]. simpl. destruct (DO1 s4) as [s5|]; [|done]. simpl.
  destruct (DO1 s5) as [s6|]; [|done]. simpl. destruct (DO1 s6) as [s7|]; [|done]. simpl.
  by destruct (DO1 s7).
Qed.

Lemma crc32_blocks_rest n st : crc32_blocks n st = crc32_rest (8 * n) st.
Proof.
  revert st. induction n as [|n IH]; intros st; [done|]. cbn [crc32_blocks]. rewrite DO8_rest.
  replace (8 * S n)%nat with (8 + 8 * n)%nat by lia. rewrite <- crc32_rest_add.
  destruct (crc32_rest 8 st) as [st'|]; [|done]. simpl. apply IH.
Qed.

(** The loops read the first [len] bytes. *)
Lemma crc32_reference crc l len :
  Forall is_byte l -> (len <= length l)%nat -> crc32 crc (Some l) len = Some (crc_reference crc (take len l)).
Proof.
  intros Hl Hlen. unfold crc32. rewrite crc32_blocks_rest.
  assert (crc32_rest (8 * (len / 8)) (Z.lxor crc 0xffffffff, l) ≫= crc32_rest (len mod 8) =
    crc32_rest len (Z.lxor crc 0xffffffff, l)) as E.
  { rewrite crc32_rest_add. f_equal. pose proof (Nat.div_mod len 8). lia. }
  rewrite (crc32_rest_reference len) in E by done.
  destruct (crc32_rest (8 * (len / 8)) _) as [st|]; cbn [mbind option_bind] in *; [by rewrite E|done].
Qed.

(** ** What the checksum detects *)

Lemma crc_bit_inj a b : is_u32 a -> is_u32 b -> crc_bit a = crc_bit b -> a = b.
Proof.
  unfold is_u32. intros Ha Hb Heq.
  assert (forall c, 0 <= c < 2 ^ 32 -> Z.testbit (crc_bit c) 31 = Z.testbit c 0) as Htop.
  { intros c Hc. unfold crc_bit. assert (Z.testbit (Z.shiftr c 1) 31 = false) as Hs.
    { rewrite Z.shiftr_spec by lia. apply Z.bits_above_log2; [lia|].
      destruct (decide (c = 0)) as [->|]; [simpl; lia|]. apply Z.log2_lt_pow2; lia. }
    destruct (Z.testbit c 0); [|done]. by rewrite Z.lxor_spec, Hs. }
  pose proof (Htop a Ha) as Ta. pose proof (Htop b Hb) as Tb. rewrite Heq, Tb in Ta.
  assert (Z.shiftr a 1 = Z.shiftr b 1) as Hsh.
  { unfold crc_bit in Heq. rewrite Ta in Heq. destruct (Z.testbit a 0); [|done].
    apply (f_equal (fun x => Z.lxor x 0xedb88320)) in Heq.
    by rewrite !Z.lxor_assoc, Z.lxor_nilpotent, !Z.lxor_0_r in Heq. }
  apply Z.bits_inj'. intros i Hi. destruct (decide (i = 0)) as [->|]; [done|].
  apply (f_equal (fun x => Z.testbit x (i - 1))) in Hsh. rewrite !Z.shiftr_spec in Hsh by lia.
  by replace (i - 1 + 1) with i in Hsh by lia.
Qed.

Lemma iter_crc_bit_range n c : is_u32 c -> is_u32 (Nat.iter n crc_bit c).
Proof. intros Hc. induction n as [|n IH]; [done|]. simpl. by apply crc_bit_range. Qed.

Lemma iter_crc_bit_inj n a b :
  is_u32 a -> is_u32 b -> Nat.iter n crc_bit a = Nat.iter n crc_bit b -> a = b.
Proof.
  intros Ha Hb. induction n as [|n IH]; simpl; [done|]. intros Heq. apply IH.
  apply crc_bit_inj; [by apply iter_crc_bit_range..|done].
Qed.

Lemma byte_u32 b : is_byte b -> is_u32 b.
Proof. unfold is_byte, is_u32. lia. Qed.

Lemma lxor_u32 a b : is_u32 a -> is_u32 b -> is_u32 (Z.lxor a b).
Proof. intros Ha Hb. apply lxor_range; [lia|done|done]. Qed.

Lemma lxor_cancel_r a b c : Z.lxor a c = Z.lxor b c -> a = b.
Proof.
  intros Heq. apply (f_equal (fun x => Z.lxor x c)) in Heq.
  by rewrite !Z.lxor_assoc, Z.lxor_nilpotent, !Z.lxor_0_r in Heq.
Qed.

Lemma crc_byte_range c b : is_u32 c -> is_byte b -> is_u32 (crc_byte c b).
Proof. intros Hc Hb. by apply iter_crc_bit_range, lxor_u32; [|apply byte_u32]. Qed.

Lemma foldl_crc_range l c : is_u32 c -> Forall is_byte l -> is_u32 (foldl crc_byte c l).
Proof.
  revert c. induction l as [|b l IH]; intros c Hc Hl; [done|]. apply Forall_cons in Hl as [Hb Hl].
  simpl. apply IH; [by apply crc_byte_range|done].
Qed.

Lemma foldl_crc_inj l c c' :
  is_u32 c -> is_u32 c' -> Forall is_byte l -> foldl crc_byte c l = foldl crc_byte c' l -> c = c'.
Proof.
  revert c c'. induction l as [|b l IH]; intros c c' Hc Hc' Hl; [done|].
  apply Forall_cons in Hl as [Hb Hl]. simpl. intros Heq.
  apply IH in Heq; [|by apply crc_byte_range..|done].
  apply iter_crc_bit_inj in Heq; [|by apply lxor_u32; [|apply byte_u32]..].
  by apply lxor_cancel_r in Heq.
Qed.

Lemma crc_reference_range crc l : is_u32 crc -> Forall is_byte l -> is_u32 (crc_reference crc l).
Proof.
  intros Hc Hl. apply lxor_u32; [|done]. apply foldl_crc_range; [|done]. by apply lxor_u32.
Qed.

(** C23: The table-driven [crc32] of the driver, unrolled to eight bytes per turn,
    computes the CRC-32 of the first [len] bytes as the division by the
    polynomial does, bit by bit. *)
Theorem crc32_equals_reference crc l len :
  Forall is_byte l -> (len <= length l)%nat -> crc32 crc (Some l) len = Some (crc_reference crc (take len l)).
Proof. apply crc32_reference. Qed.

(** The check value of CRC-32: the checksum of the digits 1 to 9. *)
Lemma crc32_equals_reference_witness :
  crc32 0 (Some (lit "123456789")) 9 = Some (crc_reference 0 (lit "123456789")) /\
  crc_reference 0 (lit "123456789") = 0xcbf43926.
Proof.
  split; [|by vm_compute]. rewrite (crc32_equals_reference 0 (lit "123456789") 9); [done| |done].
  repeat constructor; by vm_compute.
Defined.

(** The checksum changes with any change of a single byte, wherever it
    is and whatever its value becomes. *)
Theorem crc32_detects_byte_error crc l1 b b' l2 :
  is_u32 crc -> Forall is_byte (l1 ++ b :: l2) -> is_byte b' -> b <> b' ->
  crc32 crc (Some (l1 ++ b :: l2)) (length (l1 ++ b :: l2)) <>
  crc32 crc (Some (l1 ++ b' :: l2)) (length (l1 ++ b' :: l2)).
Proof.
  intros Hc Hl Hb' Hne. pose proof Hl as [Hl1 [Hb Hl2]%Forall_cons]%Forall_app.
  assert (Forall is_byte (l1 ++ b' :: l2)) as Hl' by (apply Forall_app; split; [done|by constructor]).
  rewrite !crc32_reference, !firstn_all by done. intros [= Heq]. unfold crc_reference in Heq.
  apply lxor_cancel_r in Heq. rewrite !foldl_app in Heq. simpl in Heq.
  set (c := foldl crc_byte (Z.lxor crc 4294967295) l1) in *.
  assert (is_u32 c) as Hcc by (apply foldl_crc_range; [by apply lxor_u32|done]).
  apply foldl_crc_inj in Heq; [|by apply crc_byte_range..|done].
  apply iter_crc_bit_inj in Heq; [|by apply lxor_u32; [|apply byte_u32]..].
  rewrite (Z.lxor_comm c b), (Z.lxor_comm c b') in Heq. by apply lxor_cancel_r in Heq.
Qed.

Lemma crc32_detects_byte_error_witness :
  crc32 0 (Some (lit "ipaddr=10.0.0.1")) 15 <> crc32 0 (Some (lit "ipaddr=10.0.0.2")) 15.
Proof.
  apply (crc32_detects_byte_error 0 (lit "ipaddr=10.0.0.") 49 50 []); [done| |done|done].
  repeat constructor; by vm_compute.
Defined.
