(* ===== verification/FlashChip.v ===== *)
(** * The NOR flash of the board

    The drivers of the flash and of the environment program a chip with the
    command set of AMD (and Samsung, Fujitsu, Macronix, SST).  The chip is not
    part of the source: [NorFlash] is what the bus can do with it, [ChipLaws]
    what its data sheet promises.  The delays of the drivers are taken to be
    long enough for a word to be programmed; the end of an erasure is polled.
    [SimFlash] is a chip that keeps the laws. *)

From S2P Require Import Prelude.

(** Accesses of 16 and 8 bits, by address. *)
Class NorFlash (F : Type) : Type := {
  rd16 : Z -> F -> Z * F;
  rd8 : Z -> F -> Z * F;
  wr16 : Z -> Z -> F -> F;
}.

(** The byte of a 16-bit cell, in the order of a little-endian processor. *)
Definition cell_byte (c : Z) (odd : bool) : Z := if odd then Z.shiftr c 8 else Z.land c 0xff.

(** The chip at [base] with [size] bytes; its unlock addresses in halfwords,
    and the command that erases the sector at an address. *)
Record ChipKind : Type := mkChipKind {
  base : Z;
  bank_size : Z;
  unlock1 : Z;
  unlock2 : Z;
  erase_cmd : Z -> Z;
  sector_len : Z -> Z;
  manu_id : Z;
  dev_id : Z;
}.

Section Sequences.
Context {F : Type} `{NorFlash F} (k : ChipKind).

(** The two unlock cycles and a command. *)
Definition unlock (cmd : Z) (f : F) : F :=
  wr16 (base k + 2 * unlock1 k) cmd
    (wr16 (base k + 2 * unlock2 k) 0x55 (wr16 (base k + 2 * unlock1 k) 0xaa f)).
Definition program_sequence (a d : Z) (f : F) : F := wr16 a d (unlock 0xa0 f).
Definition erase_sequence (s : Z) (f : F) : F :=
  wr16 s (erase_cmd k s)
    (wr16 (base k + 2 * unlock2 k) 0x55 (wr16 (base k + 2 * unlock1 k) 0xaa (unlock 0x80 f))).

(** The unlock cycles at the addresses that all chips accept. *)
Definition unlock_any (cmd : Z) (f : F) : F :=
  wr16 (base k + 2 * 0x5555) cmd (wr16 (base k + 2 * 0x2aaa) 0x55 (wr16 (base k + 2 * 0x5555) 0xaa f)).

Definition in_bank (a : Z) : Prop := base k <= a < base k + bank_size k.
Definition in_sector (s x : Z) : Prop := s <= x < s + sector_len k s.
End Sequences.

#[export] Instance in_sector_dec k s x : Decision (in_sector k s x).
Proof. unfold in_sector. apply _. Defined.

(** What the data sheet promises.  [cell f a] is the contents at the even
    address [a]; [idle f] says that the array can be read; [busy f s c n] that
    the sector at [s] is being erased, [n] reads of it will still show that, and
    [c] is what the chip will hold then. *)
Class ChipLaws (F : Type) `{NorFlash F} (k : ChipKind) : Type := {
  cell : F -> Z -> Z;
  idle : F -> Prop;
  busy : F -> Z -> (Z -> Z) -> nat -> Prop;
  cell_range f a : 0 <= cell f a < 2 ^ 16;
  read16 f a : idle f -> in_bank k a -> Z.even a = true -> rd16 a f = (cell f a, f);
  read8 f a : idle f -> in_bank k a -> rd8 a f = (cell_byte (cell f (a - a mod 2)) (Z.odd a), f);
  reset_idle f : idle f -> idle (wr16 (base k) 0xf0 f) /\ forall a, cell (wr16 (base k) 0xf0 f) a = cell f a;
  program_law f a d : idle f -> in_bank k a -> Z.even a = true -> 0 <= d < 2 ^ 16 ->
    idle (program_sequence k a d f) /\
    forall x, cell (program_sequence k a d f) x = if decide (x = a) then Z.land (cell f a) d else cell f x;
  erase_law f s : idle f -> in_bank k s -> 0 < sector_len k s -> exists n,
    busy (erase_sequence k s f) s (fun x => if decide (in_sector k s x) then 0xffff else cell f x) n;
  poll_law f s c n : busy f s c (S n) ->
    Z.land (rd16 s f).1 0xff <> 0xff /\ busy (rd16 s f).2 s c n;
  done_law f s c : busy f s c 0 ->
    Z.land (rd16 s f).1 0xff = 0xff /\ idle (rd16 s f).2 /\ forall x, cell (rd16 s f).2 x = c x;
  reset_busy f s c n : busy f s c n -> busy (wr16 (base k) 0xf0 f) s c n;
  autoselect_law f : idle f -> exists g1 g2,
    rd16 (base k) (unlock_any k 0x90 f) = (manu_id k, g1) /\ rd16 (base k + 2) g1 = (dev_id k, g2) /\
    idle (unlock_any k 0xf0 g2) /\ forall a, cell (unlock_any k 0xf0 g2) a = cell f a;
}.

(** The contents byte by byte. *)
Definition flash_byte {F} `{NorFlash F} {k} {L : ChipLaws F k} (f : F) (a : Z) : Z :=
  cell_byte (cell f (a - a mod 2)) (Z.odd a).

Lemma cell_byte_range c odd : 0 <= c < 2 ^ 16 -> is_byte (cell_byte c odd).
Proof.
  unfold is_byte, cell_byte. intros Hc. destruct odd.
  - rewrite Z.shiftr_div_pow2 by lia. split; [apply Z.div_pos; lia|apply Z.div_lt_upper_bound; lia].
  - change 0xff with (Z.ones 8). rewrite Z.land_ones by lia. apply Z.mod_pos_bound. lia.
Qed.

(** A halfword of two bytes in memory, and its bytes. *)
Definition half (b0 b1 : Z) : Z := b0 + 256 * b1.

Lemma cell_byte_half b0 b1 odd : is_byte b0 -> is_byte b1 ->
  cell_byte (half b0 b1) odd = if odd then b1 else b0.
Proof.
  unfold is_byte, cell_byte, half. intros H0 H1. destruct odd.
  - rewrite Z.shiftr_div_pow2 by lia. change (2 ^ 8) with 256.
    rewrite Z.mul_comm, Z.div_add, Z.div_small by lia. lia.
  - change 0xff with (Z.ones 8). rewrite Z.land_ones by lia. change (2 ^ 8) with 256.
    rewrite Z.mul_comm, Z.mod_add, Z.mod_small by lia. done.
Qed.

Lemma half_range b0 b1 : is_byte b0 -> is_byte b1 -> 0 <= half b0 b1 < 2 ^ 16.
Proof. unfold is_byte, half. lia. Qed.

(** ** Contents *)

Section Contents.
Context {F : Type} `{NorFlash F} {k : ChipKind} {L : ChipLaws F k}.
Implicit Types f : F.

(** The flash from [a] on is erased. *)
Definition blank f (a n : Z) : Prop := forall x, a <= x < a + n -> Z.even x = true -> cell f x = 0xffff.
(** The flash from [a] on holds [l]. *)
Definition holds f (a : Z) (l : bytes) : Prop := forall i b, l !! i = Some b -> flash_byte f (a + Z.of_nat i) = b.
(** Outside of [a, a + n) the flash is as before. *)
Definition same_outside f f' (a n : Z) : Prop := forall x, ~ (a <= x < a + n) -> flash_byte f' x = flash_byte f x.

Lemma even_sub_mod x : Z.even (x - x mod 2) = true.
Proof. rewrite (Z.div_mod x 2) at 1 by lia. replace (2 * (x / 2) + x mod 2 - x mod 2) with (2 * (x / 2)) by lia. by rewrite Z.even_mul. Qed.
Lemma even_mod x : Z.even x = true -> x mod 2 = 0.
Proof. intros E. rewrite Zmod_even, E. done. Qed.

Lemma flash_byte_range f a : is_byte (flash_byte f a).
Proof. apply cell_byte_range, cell_range. Qed.
End Contents.

(** ** A chip *)

Inductive flash_mode : Type :=
| ReadArray
| Unlock1
| Unlock2
| Program
| EraseSetup
| EraseUnlock1
| EraseUnlock2
| Erasing (s : Z) (polls : nat)
| AutoSelect
| Bypass
| BypassProgram
| BypassExit.

Record SimFlash : Type := mkSimFlash {
  sim_cells : gmap Z Z;
  sim_mode : flash_mode;
}.

Definition sim_cell (f : SimFlash) (a : Z) : Z := Z.land (default 0xffff (sim_cells f !! a)) 0xffff.

Section Sim.
Context (k : ChipKind).

Definition is_unlock1 (a : Z) : bool := (a =? base k + 2 * unlock1 k) || (a =? base k + 2 * 0x5555).
Definition is_unlock2 (a : Z) : bool := (a =? base k + 2 * unlock2 k) || (a =? base k + 2 * 0x2aaa).

Definition set_mode (m : flash_mode) (f : SimFlash) : SimFlash := mkSimFlash (sim_cells f) m.

Definition sim_wr16 (a d : Z) (f : SimFlash) : SimFlash :=
  match sim_mode f with
  | ReadArray => if is_unlock1 a && (d =? 0xaa) then set_mode Unlock1 f else f
  | Unlock1 => set_mode (if is_unlock2 a && (d =? 0x55) then Unlock2 else ReadArray) f
  | Unlock2 =>
      set_mode (if negb (is_unlock1 a) then ReadArray
                else if d =? 0xa0 then Program
                else if d =? 0x80 then EraseSetup
                else if d =? 0x90 then AutoSelect
                else if d =? 0x20 then Bypass
                else ReadArray) f
  | Program => mkSimFlash (<[a := Z.land (sim_cell f a) d]> (sim_cells f)) ReadArray
  | EraseSetup => set_mode (if is_unlock1 a && (d =? 0xaa) then EraseUnlock1 else ReadArray) f
  | EraseUnlock1 => set_mode (if is_unlock2 a && (d =? 0x55) then EraseUnlock2 else ReadArray) f
  | EraseUnlock2 =>
      set_mode (if (d =? erase_cmd k a) && (0 <? sector_len k a) then Erasing a 2 else ReadArray) f
  | Erasing _ _ => f
  | AutoSelect => if is_unlock1 a && (d =? 0xf0) then set_mode ReadArray f else f
  | Bypass => if d =? 0xa0 then set_mode BypassProgram f else if d =? 0x90 then set_mode BypassExit f else f
  | BypassProgram => mkSimFlash (<[a := Z.land (sim_cell f a) d]> (sim_cells f)) Bypass
  | BypassExit => set_mode (if d =? 0 then ReadArray else Bypass) f
  end.

Definition erased (s : Z) (f : SimFlash) : SimFlash :=
  mkSimFlash (filter (fun p => ~ in_sector k s p.1) (sim_cells f)) ReadArray.

Definition sim_rd16 (a : Z) (f : SimFlash) : Z * SimFlash :=
  match sim_mode f with
  | Erasing s (S n) => (0, set_mode (Erasing s n) f)
  | Erasing s O => (sim_cell (erased s f) a, erased s f)
  | AutoSelect => (if a =? base k then manu_id k else dev_id k, f)
  | _ => (sim_cell f a, f)
  end.

Definition sim_rd8 (a : Z) (f : SimFlash) : Z * SimFlash :=
  let '(c, f') := sim_rd16 (a - a mod 2) f in (cell_byte c (Z.odd a), f').

#[export] Instance sim_flash : NorFlash SimFlash :=
  { rd16 := sim_rd16; rd8 := sim_rd8; wr16 := sim_wr16 }.

Lemma sim_cell_range f a : 0 <= sim_cell f a < 2 ^ 16.
Proof. unfold sim_cell. change 0xffff with (Z.ones 16). rewrite Z.land_ones by lia. apply Z.mod_pos_bound. lia. Qed.

Lemma sim_cell_insert c a v x m :
  0 <= v < 2 ^ 16 ->
  sim_cell (mkSimFlash (<[a := Z.land (sim_cell c a) v]> (sim_cells c)) m) x =
  if decide (x = a) then Z.land (sim_cell c a) v else sim_cell c x.
Proof.
  intros Hv. unfold sim_cell at 1. simpl. destruct (decide (x = a)) as [->|Hne].
  - rewrite lookup_insert_eq. simpl. rewrite <- Z.land_assoc. f_equal. change 0xffff with (Z.ones 16).
    rewrite Z.land_ones by lia. by apply Z.mod_small.
  - by rewrite lookup_insert_ne.
Qed.

Lemma sim_cell_erased s f x : sim_cell (erased s f) x = if decide (in_sector k s x) then 0xffff else sim_cell f x.
Proof.
  unfold sim_cell, erased. simpl. destruct (decide (in_sector k s x)) as [Hin|Hout].
  - rewrite (proj2 (map_lookup_filter_None _ _ _)); [done|]. right. intros v _. intros Hn. by apply Hn.
  - destruct (sim_cells f !! x) as [v|] eqn:E.
    + by rewrite (proj2 (map_lookup_filter_Some _ _ _ _)) by (split; [exact E|done]).
    + by rewrite (proj2 (map_lookup_filter_None _ _ _)) by by left.
Qed.

Lemma unlock1_hit : is_unlock1 (base k + 2 * unlock1 k) = true /\ is_unlock1 (base k + 2 * 0x5555) = true.
Proof. unfold is_unlock1. rewrite !Z.eqb_refl. by rewrite orb_true_r. Qed.
Lemma unlock2_hit : is_unlock2 (base k + 2 * unlock2 k) = true /\ is_unlock2 (base k + 2 * 0x2aaa) = true.
Proof. unfold is_unlock2. rewrite !Z.eqb_refl. by rewrite orb_true_r. Qed.

(** The two unlock cycles, from a mode that expects them. *)
Lemma sim_unlock a1 a2 m :
  is_unlock1 a1 = true -> is_unlock2 a2 = true ->
  sim_wr16 a2 0x55 (sim_wr16 a1 0xaa (mkSimFlash m ReadArray)) = mkSimFlash m Unlock2.
Proof. intros H1 H2. unfold sim_wr16 at 2. cbn [sim_mode]. rewrite H1. unfold sim_wr16. simpl. by rewrite H2. Qed.
Lemma sim_command a m d : is_unlock1 a = true ->
  sim_wr16 a d (mkSimFlash m Unlock2) =
  mkSimFlash m (if d =? 0xa0 then Program else if d =? 0x80 then EraseSetup
                else if d =? 0x90 then AutoSelect else if d =? 0x20 then Bypass else ReadArray).
Proof. intros H1. unfold sim_wr16. simpl. by rewrite H1. Qed.
Lemma sim_erase_unlock a1 a2 m :
  is_unlock1 a1 = true -> is_unlock2 a2 = true ->
  sim_wr16 a2 0x55 (sim_wr16 a1 0xaa (mkSimFlash m EraseSetup)) = mkSimFlash m EraseUnlock2.
Proof. intros H1 H2. unfold sim_wr16 at 2. cbn [sim_mode]. rewrite H1. unfold sim_wr16. simpl. by rewrite H2. Qed.
Lemma sim_leave_autoselect a1 a2 m :
  is_unlock1 a1 = true ->
  sim_wr16 a1 0xf0 (sim_wr16 a2 0x55 (sim_wr16 a1 0xaa (mkSimFlash m AutoSelect))) = mkSimFlash m ReadArray.
Proof.
  intros H1. unfold sim_wr16 at 3. cbn [sim_mode]. rewrite andb_false_r. unfold sim_wr16 at 2. cbn [sim_mode].
  rewrite andb_false_r. unfold sim_wr16. cbn [sim_mode]. by rewrite H1.
Qed.

Lemma sim_erase_started f s : sim_mode f = ReadArray -> 0 < sector_len k s ->
  sim_mode (erase_sequence k s f) = Erasing s 2 /\
  forall x, sim_cell (erased s (erase_sequence k s f)) x = if decide (in_sector k s x) then 0xffff else sim_cell f x.
Proof.
  destruct f as [m mode]. cbn [sim_mode]. intros -> Hs. unfold erase_sequence, unlock, wr16, sim_flash.
  rewrite sim_unlock, sim_command by apply unlock1_hit || apply unlock2_hit. cbn [Z.eqb Pos.eqb].
  rewrite sim_erase_unlock by apply unlock1_hit || apply unlock2_hit. unfold sim_wr16. cbn [sim_mode].
  rewrite Z.eqb_refl, (proj2 (Z.ltb_lt _ _) Hs). cbn [andb]. split; [done|].
  intros x. exact (sim_cell_erased s (mkSimFlash m (Erasing s 2)) x).
Qed.

Program Instance sim_laws : ChipLaws SimFlash k := {
  cell := sim_cell;
  idle f := sim_mode f = ReadArray;
  busy f s c n := sim_mode f = Erasing s n /\ (forall x, sim_cell (erased s f) x = c x) /\ in_sector k s s;
}.
Next Obligation. apply sim_cell_range. Qed.
Next Obligation. intros f a Hi _ _. simpl. unfold sim_rd16. by rewrite Hi. Qed.
Next Obligation. intros f a Hi _. simpl. unfold sim_rd8, sim_rd16. by rewrite Hi. Qed.
Next Obligation.
  intros f Hi. simpl. unfold sim_wr16. rewrite Hi. by rewrite andb_false_r.
Qed.
Next Obligation.
  intros [m mode] a d Hi _ _ Hd. cbn in Hi. subst mode. unfold program_sequence, unlock, wr16, sim_flash.
  rewrite sim_unlock, sim_command by apply unlock1_hit || apply unlock2_hit. cbn [Z.eqb Pos.eqb].
  split; [done|]. intros x. exact (sim_cell_insert (mkSimFlash m Program) a d x _ Hd).
Qed.
Next Obligation.
  intros f s Hi _ Hs. exists 2%nat. destruct (sim_erase_started f s Hi Hs) as [Hm Hc].
  split_and!; [done|done|unfold in_sector; lia].
Qed.
Next Obligation.
  intros [m mode] s c n (Hm & Hc & Hs). cbn in Hm. subst mode. simpl. split; [done|]. by split_and!.
Qed.
Next Obligation.
  intros [m mode] s c (Hm & Hc & Hs). cbn in Hm. subst mode. unfold rd16, sim_flash, sim_rd16. cbn [sim_mode fst snd].
  split_and!; [|done|done]. rewrite sim_cell_erased. by rewrite decide_True.
Qed.
Next Obligation. intros [m mode] s c n (Hm & Hc & Hs). cbn in Hm. by subst mode. Qed.
Next Obligation.
  intros [m mode] Hi. cbn in Hi. subst mode. unfold unlock_any, wr16, rd16, sim_flash.
  rewrite sim_unlock, sim_command by apply unlock1_hit || apply unlock2_hit. cbn [Z.eqb Pos.eqb].
  eexists _, _. unfold sim_rd16. cbn [sim_mode]. rewrite Z.eqb_refl. split; [done|].
  rewrite (proj2 (Z.eqb_neq (base k + 2) (base k))) by lia. split; [done|].
  by rewrite sim_leave_autoselect by apply unlock1_hit.
Qed.
End Sim.
