(* ===== verification/Env.v ===== *)
(** * The environment of the boot loader
    (src/linux2510/drivers/char/envm-s3c2510_4M.c and envm-s3c2510_2M.c)

    The environment is a block of strings [name=value], each ended by a NUL and
    the last one by two, with a checksum; the driver keeps a copy in memory.
    This file has the functions on the copy: getenv, setenv and what they call.
    The two files of the driver differ only in the address of the block. *)

From S2P Require Import Prelude EnvCrc.

Definition CFG_ENV_SIZE : Z := 0x2000.
(** [sizeof (env->data)] *)
Definition ENV_DATA : Z := CFG_ENV_SIZE - 4.

(** The board information ([bd_t]) with the copy of the environment that
    [bi_env] points to once it is loaded, and [load_addr]. *)
Record Bd : Type := mkBd {
  bi_env : bool;
  env_crc : Z;
  env_data : bytes;
  env_crc_valid : Z;
  bi_enetaddr : bytes;
  bi_ip_addr : Z;
  load_addr : Z;
}.

Definition set_data d b := mkBd (bi_env b) (env_crc b) d (env_crc_valid b) (bi_enetaddr b) (bi_ip_addr b) (load_addr b).
Definition set_crc c b := mkBd (bi_env b) c (env_data b) (env_crc_valid b) (bi_enetaddr b) (bi_ip_addr b) (load_addr b).
Definition set_crc_valid v b := mkBd (bi_env b) (env_crc b) (env_data b) v (bi_enetaddr b) (bi_ip_addr b) (load_addr b).
Definition set_enetaddr a b := mkBd (bi_env b) (env_crc b) (env_data b) (env_crc_valid b) a (bi_ip_addr b) (load_addr b).
Definition set_ip_addr a b := mkBd (bi_env b) (env_crc b) (env_data b) (env_crc_valid b) (bi_enetaddr b) a (load_addr b).
Definition set_load_addr a b := mkBd (bi_env b) (env_crc b) (env_data b) (env_crc_valid b) (bi_enetaddr b) (bi_ip_addr b) a.

Abbreviation BM A := (M Bd A).

(** An address in the copy, or in the block in the flash. *)
Inductive env_ptr : Type :=
| InRam (index : Z)
| InFlash (index : Z).

(** [crc32] over a whole block. *)
Definition crc_of (d : bytes) : BM Z :=
  match crc32 0 (Some d) (Z.to_nat ENV_DATA) with
  | Some c => mret c
  | None => stop_with OutOfBounds
  end.

(** The four bytes of a word in memory (little-endian). *)
Definition le32 (b0 b1 b2 b3 : Z) : Z := b0 + 256 * b1 + 65536 * b2 + 16777216 * b3.

Section Env.
(** [rom]: the block in the flash, as the processor reads it; [fuel] bounds the
    loops. *)
Context (rom : bytes) (fuel : nat).

Definition check_crc : BM bool :=
  v ← gets env_crc_valid;
  (if v =? 0 then
     match rom with
     | b0 :: b1 :: b2 :: b3 :: d =>
         c ← crc_of d;
         modify (set_crc_valid (if c =? le32 b0 b1 b2 b3 then 1 else -1))
     | _ => stop_with OutOfBounds
     end
   else mret tt) ;;
  v ← gets env_crc_valid;
  mret (0 <? v).

Definition board_env_getaddr (index : Z) : BM (option env_ptr) :=
  if u32 index <? ENV_DATA then
    ok ← check_crc;
    mret (if ok : bool then Some (InFlash index) else None)
  else mret None.

(** [panic] stops the system. *)
Definition get_env_addr (index : Z) : BM (option env_ptr) :=
  loaded ← gets bi_env;
  if loaded : bool then
    if u32 index <? ENV_DATA then mret (Some (InRam index)) else stop_with AssertionFailed
  else board_env_getaddr index.

Definition get_env_char (index : Z) : BM Z :=
  gets (fun b => if bi_env b && (u32 index <? ENV_DATA) then nth (Z.to_nat (u32 index)) (env_data b) 0 else 0).

(** [while (get_env_char (bd, i2++) != '\0') saved_length++]; the result is
    [i2] and [saved_length]. *)
Fixpoint match_forward (n : nat) (i2 saved_length : Z) : BM (Z * Z) :=
  match n with
  | O => stop_with OutOfFuel
  | S n' =>
      c ← get_env_char i2;
      if c =? 0 then mret (i2 + 1, saved_length) else match_forward n' (i2 + 1) (saved_length + 1)
  end.

(** [while (get_env_char (bd, --i2) != '=') saved_length--] *)
Fixpoint match_backward (n : nat) (i2 saved_length : Z) : BM Z :=
  match n with
  | O => stop_with OutOfFuel
  | S n' =>
      c ← get_env_char (i2 - 1);
      if c =? 61 then mret saved_length else match_backward n' (i2 - 1) (saved_length - 1)
  end.

(** The comparison of the name; -1 is a difference. *)
Fixpoint match_name (s1 : cstr) (i2 : Z) : BM Z :=
  match s1 with
  | [] => mret i2
  | c1 :: s1' =>
      c2 ← get_env_char i2;
      if negb (c1 =? c2) then mret (-1) else match_name s1' (i2 + 1)
  end.

Definition envmatch (s1 : cstr) (i2 : Z) : BM Z :=
  let saving_length := Z.of_nat (length s1) in
  '(i2', saved_length) ← match_forward fuel i2 0;
  saved_length ← match_backward fuel i2' saved_length;
  if negb (u32 saving_length =? u32 saved_length) then mret (-1)
  else match_name s1 i2.

(** [for (nxt=i; ...; ++nxt)]; [None] is the return in the loop. *)
Fixpoint getenv_next (n : nat) (nxt : Z) : BM (option Z) :=
  match n with
  | O => stop_with OutOfFuel
  | S n' =>
      c ← get_env_char nxt;
      if c =? 0 then mret (Some nxt)
      else if ENV_DATA <=? u32 nxt then mret None
      else getenv_next n' (nxt + 1)
  end.

(** The result of [getenv] and [*env_addr]. *)
Fixpoint getenv_loop (n : nat) (name : cstr) (i : Z) : BM (Z * option env_ptr) :=
  match n with
  | O => stop_with OutOfFuel
  | S n' =>
      c ← get_env_char i;
      if c =? 0 then mret (-1, None)
      else
        nxt ← getenv_next fuel i;
        match nxt with
        | None => mret (-1, None)
        | Some nxt =>
            val ← envmatch name i;
            if val <? 0 then getenv_loop n' name (nxt + 1)
            else a ← get_env_addr val; mret (0, a)
        end
  end.

Definition getenv (name : cstr) : BM (Z * option env_ptr) := getenv_loop fuel name 0.

(** Accesses through a pointer into [bi_env_data]. *)
Definition rd (i : Z) : BM Z :=
  loaded ← gets bi_env;
  if negb loaded then stop_with NullPointer
  else
    d ← gets env_data;
    match d !! Z.to_nat i with
    | Some c => if 0 <=? i then mret c else stop_with OutOfBounds
    | None => stop_with OutOfBounds
    end.
Definition wr (i v : Z) : BM unit :=
  rd i ;; modify (fun b => set_data (<[Z.to_nat i := v]> (env_data b)) b).

(** [for (nxt = env; *nxt; ++nxt)] *)
Fixpoint skip_string (n : nat) (nxt : Z) : BM Z :=
  match n with
  | O => stop_with OutOfFuel
  | S n' => c ← rd nxt; if c =? 0 then mret nxt else skip_string n' (nxt + 1)
  end.

(** [env], [nxt] and [oldval] after the search for the variable. *)
Fixpoint setenv_search (n : nat) (name : cstr) (env nxt oldval : Z) : BM (Z * Z * Z) :=
  match n with
  | O => stop_with OutOfFuel
  | S n' =>
      c ← rd env;
      if c =? 0 then mret (env, nxt, oldval)
      else
        nxt ← skip_string fuel env;
        oldval ← envmatch name env;
        if 0 <=? oldval then mret (env, nxt, oldval) else setenv_search n' name (nxt + 1) nxt oldval
  end.

(** The loop that moves the rest of the strings down; the result is [env]. *)
Fixpoint setenv_move (n : nat) (env nxt : Z) : BM Z :=
  match n with
  | O => stop_with OutOfFuel
  | S n' =>
      c ← rd nxt;
      wr env c ;;
      last ← (if c =? 0 then c' ← rd (nxt + 1); mret (c' =? 0) else mret false);
      if last : bool then mret env else setenv_move n' (env + 1) (nxt + 1)
  end.

Definition setenv_delete (env nxt : Z) : BM unit :=
  let nxt := nxt + 1 in
  c ← rd nxt;
  env ← (if c =? 0 then
           if 0 <? env then mret (env - 1) else wr env 0 ;; mret env
         else setenv_move fuel env nxt);
  wr (env + 1) 0.

Definition update_crc : BM unit :=
  d ← gets env_data;
  c ← crc_of d;
  modify (set_crc c).

(** [for (env = bd->bi_env_data; *env || *(env+1); ++env)] *)
Fixpoint setenv_end (n : nat) (env : Z) : BM Z :=
  match n with
  | O => stop_with OutOfFuel
  | S n' =>
      c ← rd env;
      more ← (if c =? 0 then c' ← rd (env + 1); mret (negb (c' =? 0)) else mret true);
      if more : bool then setenv_end n' (env + 1) else mret env
  end.

(** The loop that copies a string with its NUL; the result is the place of the NUL. *)
Fixpoint put_string (s : cstr) (env : Z) : BM Z :=
  match s with
  | [] => wr env 0 ;; mret env
  | c :: s' => wr env c ;; put_string s' (env + 1)
  end.

(** The values, the first one behind '=', the others behind ' '. *)
Fixpoint put_values (sep : Z) (vals : list cstr) (env : Z) : BM Z :=
  match vals with
  | [] => mret env
  | val :: vals' =>
      wr env sep ;;
      env ← put_string val (env + 1);
      put_values 32 vals' env
  end.

(** lib/vsprintf.c, for a base that is given: the value and the rest. *)
Definition isdigit (c : Z) : bool := (48 <=? c) && (c <=? 57).
Definition isxdigit (c : Z) : bool :=
  isdigit c || ((65 <=? c) && (c <=? 70)) || ((97 <=? c) && (c <=? 102)).
Definition xdigit_value (c : Z) : Z :=
  if isdigit c then c - 48 else (if (97 <=? c) && (c <=? 122) then c - 32 else c) - 65 + 10.
Fixpoint strtoul_loop (base result : Z) (cp : cstr) : Z * cstr :=
  match cp with
  | c :: cp' =>
      if isxdigit c && (xdigit_value c <? base) then strtoul_loop base (u32 (result * base + xdigit_value c)) cp'
      else (result, cp)
  | [] => (result, cp)
  end.
Definition simple_strtoul (cp : cstr) (base : Z) : Z * cstr := strtoul_loop base 0 cp.

(** The numbers of an address: [s = ( *e) ? e+1 : e] skips one character. *)
Fixpoint address_numbers (n : nat) (base : Z) (s : cstr) : list Z :=
  match n with
  | O => []
  | S n' =>
      let '(v, e) := simple_strtoul s base in
      v :: address_numbers n' base (match e with [] => [] | _ :: e' => e' end)
  end.

(** What depends on the variable. *)
Definition setenv_effects (name val : cstr) : BM unit :=
  if bool_decide (name = lit "ethaddr") then modify (set_enetaddr (u8 <$> address_numbers 6 16 val))
  else if bool_decide (name = lit "ipaddr") then
    modify (set_ip_addr (foldl (fun a v => Z.lor (u32 (Z.shiftl a 8)) (Z.land v 0xff)) 0 (address_numbers 4 10 val)))
  else if bool_decide (name = lit "loadaddr") then modify (set_load_addr (simple_strtoul val 16).1)
  else mret tt.

(** From the test for a value to the end: the variable is not there. *)
Definition setenv_add (name : cstr) (vals : list cstr) : BM Z :=
  match vals with
  | [] => update_crc ;; mret 0
  | val :: _ =>
      env ← setenv_end fuel 0;
      let env := if 0 <? env then env + 1 else env in
      let len := foldl (fun len v => len + Z.of_nat (length v) + 1) (Z.of_nat (length name) + 2) vals in
      if ENV_DATA <? u32 len then mret (-1)
      else
        env ← put_string name env;
        env ← put_values 61 vals env;
        wr (env + 1) 0 ;;
        update_crc ;;
        setenv_effects name val ;;
        mret 0
  end.

(** [argv]: the name and the values. *)
Definition _do_setenv (name : cstr) (vals : list cstr) : BM Z :=
  '(env, nxt, oldval) ← setenv_search fuel name 0 0 (-1);
  if (0 <=? oldval) && bool_decide (name = lit "serial#" \/ name = lit "ethaddr") then mret (-1)
  else
    (if 0 <=? oldval then setenv_delete env nxt else mret tt) ;;
    setenv_add name vals.

Definition setenv (varname varvalue : cstr) : BM Z :=
  if bool_decide (varvalue = lit "-") then _do_setenv varname [] else _do_setenv varname [varvalue].
End Env.
