(* ===== verification/EnvRefine.v ===== *)
(** * The environment as a list of variables

    The strings of the environment represent a list of names and values;
    getenv and setenv are look-up and update of that list. *)

From S2P Require Import Prelude EnvCrc Env.

(** ** Representation *)

Abbreviation var := (cstr * cstr)%type.

(** The bytes of a string that can be in a variable: no NUL and no '='. *)
Definition text (s : cstr) : Prop := Forall (fun c => is_byte c /\ c <> 0 /\ c <> 61) s.
#[export] Instance text_dec s : Decision (text s).
Proof. unfold text. apply _. Defined.

Definition entry (p : var) : bytes := p.1 ++ 61 :: p.2 ++ [0].
Definition flat (vars : list var) : bytes := concat (entry <$> vars).

Record vars_ok (vars : list var) : Prop := mkVarsOk {
  vars_text : Forall (fun p => text p.1 /\ text p.2) vars;
  vars_nodup : NoDup vars.*1;
}.

(** [d] starts with the variables; the end is marked by a second NUL. *)
Definition data_repr (d : bytes) (vars : list var) : Prop :=
  Z.of_nat (length d) = ENV_DATA /\ Forall is_byte d /\
  exists junk, d = flat vars ++ 0 :: junk /\ (vars = [] -> head junk = Some 0).

Record env_repr (b : Bd) (vars : list var) : Prop := mkEnvRepr {
  repr_loaded : bi_env b = true;
  repr_vars : vars_ok vars;
  repr_data : data_repr (env_data b) vars;
}.

(** ** The abstract environment *)

Fixpoint lookup_var (name : cstr) (vars : list var) : option cstr :=
  match vars with
  | [] => None
  | p :: vars' => if decide (name = p.1) then Some p.2 else lookup_var name vars'
  end.
Definition remove_var (name : cstr) (vars : list var) : list var := filter (fun p => p.1 <> name) vars.
Definition protected (name : cstr) : Prop := name = lit "serial#" \/ name = lit "ethaddr".

(** [setenv]: the result and the new variables. *)
Definition spec_setenv (name val : cstr) (vars : list var) : Z * list var :=
  if decide (name ∈ vars.*1 /\ protected name) then (-1, vars)
  else if decide (val = lit "-") then (0, remove_var name vars)
  else (0, remove_var name vars ++ [(name, val)]).

(** ** Reading *)

Abbreviation pos l := (Z.of_nat (length l)).

Lemma ENV_DATA_eq : ENV_DATA = 8188.
Proof. done. Qed.

Lemma pos_app (l k : bytes) : pos (l ++ k) = pos l + pos k.
Proof. rewrite length_app. lia. Qed.
Lemma pos_cons (c : Z) (l : bytes) : pos (c :: l) = pos l + 1.
Proof. rewrite length_cons. lia. Qed.
Lemma pos_nil : pos (@nil Z) = 0.
Proof. done. Qed.

Create Rewrite HintDb pos.
#[export] Hint Rewrite pos_app pos_cons pos_nil : pos.
Tactic Notation "pos" := autorewrite with pos.
Tactic Notation "pos" "in" hyp(H) := autorewrite with pos in H.

Section Read.
Context (b : Bd) (Hloaded : bi_env b = true) (Hlen : pos (env_data b) = ENV_DATA).

Lemma char_here pre c post : env_data b = pre ++ c :: post -> get_env_char (pos pre) b = Ret c b.
Proof.
  intros Hd. unfold get_env_char, gets. f_equal. rewrite Hloaded, Hd, ENV_DATA_eq.
  pose proof Hlen as Hl. rewrite Hd, ENV_DATA_eq in Hl. pos in Hl.
  rewrite u32_small by (unfold is_u32; lia). rewrite (proj2 (Z.ltb_lt _ _)) by lia. cbn [andb].
  rewrite Nat2Z.id. apply nth_lookup_Some. by apply list_lookup_middle.
Qed.

Lemma rd_here pre c post : env_data b = pre ++ c :: post -> rd (pos pre) b = Ret c b.
Proof.
  intros Hd. unfold rd. rewrite bind_gets, Hloaded. cbn [negb]. rewrite bind_gets, Hd, Nat2Z.id.
  rewrite list_lookup_middle by done. by rewrite (proj2 (Z.leb_le _ _)) by lia.
Qed.

Lemma match_forward_ok s pre post n k :
  env_data b = pre ++ s ++ 0 :: post -> Forall (fun c => c <> 0) s -> (length s < n)%nat ->
  match_forward n (pos pre) k b = Ret (pos pre + pos s + 1, k + pos s) b.
Proof.
  revert pre n k. induction s as [|c s IH]; intros pre n k Hd Hs Hn; (destruct n as [|n]; [simpl in Hn; lia|]);
    cbn [match_forward].
  - rewrite (bind_Ret _ _ _ _ _ (char_here pre 0 post Hd)). simpl. do 2 f_equal; pos; lia.
  - apply Forall_cons in Hs as [Hc Hs]. rewrite (bind_Ret _ _ _ _ _ (char_here pre c _ Hd)).
    rewrite (proj2 (Z.eqb_neq c 0)) by done. simpl in Hn.
    replace (pos pre + 1) with (pos (pre ++ [c])) by (pos; lia).
    rewrite (IH (pre ++ [c])); [|by rewrite <- app_assoc|done|lia]. do 2 f_equal; pos; lia.
Qed.

Lemma match_backward_ok w pre post n k :
  env_data b = pre ++ 61 :: w ++ post -> Forall (fun c => c <> 61) w -> (length w < n)%nat ->
  match_backward n (pos pre + 1 + pos w) k b = Ret (k - pos w) b.
Proof.
  revert post n k. induction w as [|c w IH] using rev_ind; intros post n k Hd Hw Hn;
    (destruct n as [|n]; [rewrite ?length_app in Hn; simpl in Hn; lia|]); cbn [match_backward].
  - pos. replace (pos pre + 1 + 0 - 1) with (pos pre) by lia.
    rewrite (bind_Ret _ _ _ _ _ (char_here pre 61 _ Hd)). simpl. f_equal. lia.
  - apply Forall_app in Hw as [Hw [Hc _]%Forall_cons]. rewrite length_app in Hn. simpl in Hn.
    replace (pos pre + 1 + pos (w ++ [c]) - 1) with (pos (pre ++ 61 :: w)) by (pos; lia).
    rewrite (bind_Ret _ _ _ _ _ (char_here (pre ++ 61 :: w) c post ltac:(rewrite Hd; by rewrite <- !app_assoc))).
    rewrite (proj2 (Z.eqb_neq c 61)) by done.
    replace (pos (pre ++ 61 :: w)) with (pos pre + 1 + pos w) by (pos; lia).
    rewrite (IH (c :: post)); [f_equal; pos; lia|by rewrite Hd, <- app_assoc|done|lia].
Qed.

Lemma match_name_ok s nm pre post :
  env_data b = pre ++ nm ++ post -> length s = length nm ->
  match_name s (pos pre) b = Ret (if decide (s = nm) then pos pre + pos nm else -1) b.
Proof.
  revert nm pre. induction s as [|c s IH]; intros [|c' nm] pre Hd Hl; try done; cbn [match_name].
  - rewrite decide_True by done. pos. f_equal. lia.
  - rewrite (bind_Ret _ _ _ _ _ (char_here pre c' _ Hd)). injection Hl as Hl.
    destruct (Z.eqb_spec c c') as [<-|Hne]; cbn [negb].
    + replace (pos pre + 1) with (pos (pre ++ [c])) by (pos; lia).
      rewrite (IH nm (pre ++ [c])) by (by rewrite Hd, <- app_assoc || done). f_equal.
      destruct (decide (s = nm)) as [->|Hn]; [rewrite decide_True by done; pos; lia|].
      rewrite decide_False by (intros [= ?]; done). done.
    + rewrite decide_False by (intros [= ?]; done). done.
Qed.

Context (rom : bytes) (fuel : nat) (Hfuel : ENV_DATA < Z.of_nat fuel).

Lemma text_nonzero s : text s -> Forall (fun c => c <> 0) s.
Proof. intros Hs. eapply Forall_impl; [exact Hs|]. by intros c (_ & ? & _). Qed.
Lemma text_noeq s : text s -> Forall (fun c => c <> 61) s.
Proof. intros Hs. eapply Forall_impl; [exact Hs|]. by intros c (_ & _ & ?). Qed.
Lemma text_bytes s : text s -> Forall is_byte s.
Proof. intros Hs. eapply Forall_impl; [exact Hs|]. by intros c (? & _ & _). Qed.

(** The string of a variable without the NUL has no NUL. *)
Lemma entry_nonzero nm v : text nm -> text v -> Forall (fun c => c <> 0) (nm ++ 61 :: v).
Proof. intros Hn Hv. apply Forall_app. split; [by apply text_nonzero|]. constructor; [done|by apply text_nonzero]. Qed.

Lemma envmatch_ok s nm v pre post :
  env_data b = pre ++ entry (nm, v) ++ post -> text nm -> text v -> pos s < 2 ^ 32 ->
  envmatch fuel s (pos pre) b = Ret (if decide (s = nm) then pos pre + pos nm else -1) b.
Proof.
  intros Hd Hn Hv Hs. unfold entry in Hd. simpl in Hd.
  assert (pos (pre ++ (nm ++ 61 :: v ++ [0]) ++ post) = ENV_DATA) as Hl by by rewrite <- Hd. pos in Hl.
  rewrite ENV_DATA_eq in Hl. pose proof Hfuel as Hf. rewrite ENV_DATA_eq in Hf. unfold envmatch. cbv zeta.
  erewrite bind_Ret by (apply (match_forward_ok (nm ++ 61 :: v) pre post);
    [rewrite Hd; by rewrite <- !app_assoc; simpl; rewrite <- app_assoc|by apply entry_nonzero|rewrite length_app, length_cons; lia]).
  cbn beta iota.
  replace (pos pre + pos (nm ++ 61 :: v) + 1) with (pos (pre ++ nm) + 1 + pos (v ++ [0])) by (pos; lia).
  erewrite bind_Ret by (apply (match_backward_ok (v ++ [0]) (pre ++ nm) post);
    [rewrite Hd; by rewrite <- !app_assoc; simpl; rewrite <- app_assoc
    |apply Forall_app; split; [by apply text_noeq|by repeat constructor]|rewrite length_app; simpl; lia]).
  replace (0 + pos (nm ++ 61 :: v) - pos (v ++ [0])) with (pos nm) by (pos; lia).
  rewrite !u32_small by (unfold is_u32; lia). destruct (Z.eqb_spec (pos s) (pos nm)) as [Heq|Hne]; cbn [negb].
  - eapply match_name_ok; [by rewrite Hd, <- !app_assoc|lia].
  - rewrite decide_False by (intros ->; done). done.
Qed.

Lemma getenv_next_ok s pre post n :
  env_data b = pre ++ s ++ 0 :: post -> Forall (fun c => c <> 0) s -> (length s < n)%nat ->
  getenv_next n (pos pre) b = Ret (Some (pos pre + pos s)) b.
Proof.
  revert pre n. induction s as [|c s IH]; intros pre n Hd Hs Hn; (destruct n as [|n]; [simpl in Hn; lia|]);
    cbn [getenv_next].
  - rewrite (bind_Ret _ _ _ _ _ (char_here pre 0 post Hd)). simpl. do 2 f_equal; pos; lia.
  - apply Forall_cons in Hs as [Hc Hs]. rewrite (bind_Ret _ _ _ _ _ (char_here pre c _ Hd)).
    rewrite (proj2 (Z.eqb_neq c 0)) by done. simpl in Hn.
    pose proof Hlen as Hl. rewrite Hd, ENV_DATA_eq in Hl. pos in Hl.
    rewrite u32_small by (unfold is_u32; lia). rewrite (proj2 (Z.leb_gt _ _)) by (rewrite ENV_DATA_eq; lia).
    replace (pos pre + 1) with (pos (pre ++ [c])) by (pos; lia).
    rewrite (IH (pre ++ [c])); [|by rewrite Hd, <- app_assoc|done|lia]. do 2 f_equal; pos; lia.
Qed.

(** The place of the '=' of a variable. *)
Fixpoint var_index (name : cstr) (vars : list var) (i : Z) : option Z :=
  match vars with
  | [] => None
  | p :: vars' => if decide (name = p.1) then Some (i + pos p.1) else var_index name vars' (i + pos (entry p))
  end.

(** An entry is a string without NUL and its NUL; it is not empty. *)
Lemma entry_split p : entry p = (p.1 ++ 61 :: p.2) ++ [0].
Proof. unfold entry. by rewrite <- app_assoc. Qed.

Lemma entry_head p : text p.1 -> exists c r, entry p = c :: r /\ c <> 0.
Proof.
  destruct p as [[|c nm] v]; intros Hn; unfold entry; simpl in *; [by eexists _, _|].
  apply Forall_cons in Hn as [(_ & Hc & _) _]. by eexists _, _.
Qed.

Lemma flat_cons p vars : flat (p :: vars) = entry p ++ flat vars.
Proof. done. Qed.
Lemma flat_app vars vars' : flat (vars ++ vars') = flat vars ++ flat vars'.
Proof. unfold flat. by rewrite fmap_app, concat_app. Qed.

(** The steps that the loops of [getenv] and [setenv] share. *)
Lemma getenv_loop_ok name vars pre post n :
  env_data b = pre ++ flat vars ++ 0 :: post -> Forall (fun p => text p.1 /\ text p.2) vars ->
  pos name < 2 ^ 32 -> (length vars < n)%nat ->
  getenv_loop rom fuel n name (pos pre) b =
  Ret (match var_index name vars (pos pre) with Some i => (0, Some (InRam i)) | None => (-1, None) end) b.
Proof.
  revert pre n. induction vars as [|p vars IH]; intros pre n Hd Hv Hname Hn;
    (destruct n as [|n]; [simpl in Hn; lia|]); cbn [getenv_loop var_index].
  { by rewrite (bind_Ret _ _ _ _ _ (char_here pre 0 post Hd)). }
  apply Forall_cons in Hv as [[Hp1 Hp2] Hv]. rewrite flat_cons in Hd. simpl in Hn.
  destruct (entry_head p Hp1) as (c & r & He & Hc).
  assert (env_data b = pre ++ c :: r ++ flat vars ++ 0 :: post) as Hd1 by (rewrite Hd, He; by rewrite <- !app_assoc).
  rewrite (bind_Ret _ _ _ _ _ (char_here pre c _ Hd1)), (proj2 (Z.eqb_neq c 0)) by done.
  pose proof Hlen as Hl. rewrite Hd, ENV_DATA_eq in Hl. pos in Hl.
  pose proof Hfuel as Hf. rewrite ENV_DATA_eq in Hf.
  assert (pos (p.1 ++ 61 :: p.2) + 1 = pos (entry p)) as Hpe by (rewrite entry_split; pos; lia).
  erewrite bind_Ret by (apply (getenv_next_ok (p.1 ++ 61 :: p.2) pre (flat vars ++ 0 :: post));
    [rewrite Hd, entry_split; by rewrite <- !app_assoc|by apply entry_nonzero|lia]).
  cbn beta iota. erewrite bind_Ret by (apply (envmatch_ok name p.1 p.2 pre (flat vars ++ 0 :: post));
    [rewrite Hd; by destruct p; rewrite <- app_assoc|done|done|done]).
  destruct (decide (name = p.1)) as [->|Hne].
  - rewrite (proj2 (Z.ltb_ge _ _)) by lia. unfold get_env_addr. rewrite bind_bind, bind_gets, Hloaded.
    assert (pos p.1 < pos (entry p)) by (unfold entry; pos; lia).
    rewrite u32_small by (unfold is_u32; lia). rewrite (proj2 (Z.ltb_lt _ _)) by (rewrite ENV_DATA_eq; lia). done.
  - cbn [Z.ltb Z.compare]. replace (pos pre + pos (p.1 ++ 61 :: p.2) + 1) with (pos (pre ++ entry p)) by (rewrite (pos_app pre (entry p)); lia).
    replace (pos pre + pos (entry p)) with (pos (pre ++ entry p)) by (rewrite (pos_app pre (entry p)); lia).
    apply IH; [by rewrite Hd, <- !app_assoc|done|done|lia].
Qed.
End Read.

Lemma var_index_spec name vars i :
  match lookup_var name vars with
  | Some v => exists pre post, flat vars = pre ++ 61 :: v ++ 0 :: post /\ var_index name vars i = Some (i + pos pre)
  | None => var_index name vars i = None
  end.
Proof.
  revert i. induction vars as [|p vars IH]; intros i; simpl; [done|].
  destruct (decide (name = p.1)) as [->|Hne].
  - exists p.1, (flat vars). split; [|done]. rewrite flat_cons. unfold entry. rewrite <- app_assoc. simpl. by rewrite <- app_assoc.
  - specialize (IH (i + pos (entry p))). destruct (lookup_var name vars) as [v|]; [|done].
    destruct IH as (pre & post & Hf & ->). exists (entry p ++ pre), post. split; [by rewrite flat_cons, Hf, <- app_assoc|].
    f_equal. pos. lia.
Qed.

(** ** Writing *)

Section Write.
Context (fuel : nat) (Hfuel : ENV_DATA < Z.of_nat fuel).
Implicit Types b : Bd.

Definition ready (b : Bd) (d : bytes) : Prop := bi_env b = true /\ env_data b = d /\ pos d = ENV_DATA.

Lemma ready_set b d d' : ready b d -> length d' = length d -> ready (set_data d' b) d'.
Proof. intros (Hl & _ & Hlen) Hd. split_and!; [done|done|]. by rewrite Hd. Qed.

Lemma rd_ready b pre c post : ready b (pre ++ c :: post) -> rd (pos pre) b = Ret c b.
Proof. intros (Hl & Hd & Hlen). eapply rd_here; [done|exact Hd]. Qed.

Lemma wr_ready b pre c post v : ready b (pre ++ c :: post) ->
  wr (pos pre) v b = Ret tt (set_data (pre ++ v :: post) b) /\ ready (set_data (pre ++ v :: post) b) (pre ++ v :: post).
Proof.
  intros Hr. unfold wr. rewrite (bind_Ret _ _ _ _ _ (rd_ready _ _ _ _ Hr)). pose proof Hr as (Hl & Hd & Hlen).
  unfold modify. rewrite Nat2Z.id, Hd, insert_app_r_alt, Nat.sub_diag by lia. simpl. split; [done|].
  eapply ready_set; [exact Hr|]. by rewrite !length_app.
Qed.

Lemma set_data_twice d d' b : set_data d (set_data d' b) = set_data d b.
Proof. done. Qed.

Lemma skip_string_ok b s pre post n :
  ready b (pre ++ s ++ 0 :: post) -> Forall (fun c => c <> 0) s -> (length s < n)%nat ->
  skip_string n (pos pre) b = Ret (pos pre + pos s) b.
Proof.
  revert pre n. induction s as [|c s IH]; intros pre n Hr Hs Hn; (destruct n as [|n]; [simpl in Hn; lia|]);
    cbn [skip_string].
  - rewrite (bind_Ret _ _ _ _ _ (rd_ready _ _ _ _ Hr)). simpl. f_equal. lia.
  - apply Forall_cons in Hs as [Hc Hs]. rewrite (bind_Ret _ _ _ _ _ (rd_ready _ pre c _ Hr)).
    rewrite (proj2 (Z.eqb_neq c 0)) by done. simpl in Hn.
    replace (pos pre + 1) with (pos (pre ++ [c])) by (pos; lia).
    rewrite (IH (pre ++ [c])); [|by rewrite <- app_assoc|done|lia]. f_equal. pos. lia.
Qed.

(** The search of [setenv] stops at the variable or at the end. *)
Lemma setenv_search_ok b name vars pre post n nxt0 :
  ready b (pre ++ flat vars ++ 0 :: post) -> Forall (fun p => text p.1 /\ text p.2) vars ->
  pos name < 2 ^ 32 -> (length vars < n)%nat ->
  ((name ∉ vars.*1) /\ exists nxt,
     setenv_search fuel n name (pos pre) nxt0 (-1) b = Ret (pos (pre ++ flat vars), nxt, -1) b) \/
  exists vs v vs', vars = vs ++ (name, v) :: vs' /\ (name ∉ vs.*1) /\
    setenv_search fuel n name (pos pre) nxt0 (-1) b =
    Ret (pos (pre ++ flat vs), pos (pre ++ flat vs) + pos (name ++ 61 :: v), pos (pre ++ flat vs) + pos name) b.
Proof.
  revert pre n nxt0. induction vars as [|p vars IH]; intros pre n nxt0 Hr Hv Hname Hn;
    (destruct n as [|n]; [simpl in Hn; lia|]); cbn [setenv_search].
  { left. split; [set_solver|]. exists nxt0. rewrite (bind_Ret _ _ _ _ _ (rd_ready _ pre 0 _ Hr)). simpl. by rewrite app_nil_r. }
  apply Forall_cons in Hv as [[Hp1 Hp2] Hv]. rewrite flat_cons in Hr. simpl in Hn.
  destruct (entry_head p Hp1) as (c & r & He & Hc).
  assert (ready b (pre ++ c :: r ++ flat vars ++ 0 :: post)) as Hr1 by (rewrite He, <- !app_assoc in Hr; exact Hr).
  rewrite (bind_Ret _ _ _ _ _ (rd_ready _ pre c _ Hr1)), (proj2 (Z.eqb_neq c 0)) by done.
  pose proof Hr as (Hl & Hd & Hlen). pose proof Hlen as Hlen'. rewrite ENV_DATA_eq in Hlen'. pos in Hlen'.
  pose proof Hfuel as Hf. rewrite ENV_DATA_eq in Hf.
  assert (pos (p.1 ++ 61 :: p.2) + 1 = pos (entry p)) as Hpe by (rewrite entry_split; pos; lia).
  erewrite bind_Ret by (apply (skip_string_ok b (p.1 ++ 61 :: p.2) pre (flat vars ++ 0 :: post));
    [rewrite entry_split in Hr; by rewrite <- !app_assoc in *|by apply entry_nonzero|lia]).
  erewrite bind_Ret by (eapply (envmatch_ok b Hl ltac:(by rewrite Hd) fuel Hfuel name p.1 p.2 pre (flat vars ++ 0 :: post));
    [rewrite Hd; by destruct p; rewrite <- app_assoc|done|done|done]).
  destruct (decide (name = p.1)) as [->|Hne].
  - right. exists [], p.2, vars. rewrite (proj2 (Z.leb_le _ _)) by lia. simpl. rewrite app_nil_r.
    split_and!; [by destruct p|set_solver|done].
  - cbn [Z.leb Z.compare]. replace (pos pre + pos (p.1 ++ 61 :: p.2) + 1) with (pos (pre ++ entry p)) by (rewrite (pos_app pre (entry p)); lia).
    destruct (IH (pre ++ entry p) n (pos pre + pos (p.1 ++ 61 :: p.2))) as [[Hnot [nxt E]]|(vs & v & vs' & Hvs & Hnot & E)];
      [by rewrite <- !app_assoc in *|done|done|lia|..].
    + left. split; [rewrite fmap_cons, not_elem_of_cons; done|]. exists nxt. rewrite E. by rewrite flat_cons, app_assoc.
    + right. exists (p :: vs), v, vs'. split_and!; [by rewrite Hvs|rewrite fmap_cons, not_elem_of_cons; done|].
      rewrite E. by rewrite flat_cons, app_assoc.
Qed.

Lemma bytes_mid (l : bytes) c post :
  Forall is_byte l -> is_byte c -> Forall is_byte post -> Forall is_byte (l ++ c :: post).
Proof. intros. apply Forall_app. split; [done|]. by constructor. Qed.

(** No two NULs follow each other. *)
Fixpoint no_gap (u : bytes) : Prop :=
  match u with
  | [] => True
  | c :: u' => (c = 0 -> u' = [] \/ exists c' u'', u' = c' :: u'' /\ c' <> 0) /\ no_gap u'
  end.

Lemma no_gap_app w u :
  Forall (fun c => c <> 0) w -> w <> [] -> no_gap u -> (u = [] \/ exists c u', u = c :: u' /\ c <> 0) ->
  no_gap (w ++ 0 :: u).
Proof.
  intros Hw _ Hu Hh. induction w as [|c w IH]; simpl; [by split|].
  apply Forall_cons in Hw as [Hc Hw]. split; [done|by apply IH].
Qed.

Lemma flat_head vars : Forall (fun p => text p.1 /\ text p.2) vars ->
  flat vars = [] \/ exists c u, flat vars = c :: u /\ c <> 0.
Proof.
  intros Hv. destruct vars as [|p vars]; [by left|right]. apply Forall_cons in Hv as [[Hp _] _].
  destruct (entry_head p Hp) as (c & r & He & Hc). exists c, (r ++ flat vars). by rewrite flat_cons, He.
Qed.

Lemma flat_no_gap vars : Forall (fun p => text p.1 /\ text p.2) vars -> no_gap (flat vars).
Proof.
  induction vars as [|p vars IH]; intros Hv; [done|]. pose proof Hv as [[Hp1 Hp2] Hv']%Forall_cons.
  rewrite flat_cons, entry_split, <- app_assoc. apply no_gap_app.
  - by apply entry_nonzero.
  - by destruct p.1.
  - by apply IH.
  - by apply flat_head.
Qed.

Lemma flat_last vars : vars <> [] -> exists u, flat vars = u ++ [0].
Proof.
  destruct vars as [|p vars _] using rev_ind; [done|]. intros _. exists (flat vars ++ p.1 ++ 61 :: p.2).
  rewrite flat_app, flat_cons, entry_split. simpl. rewrite app_nil_r. by rewrite app_assoc.
Qed.

(** The strings move down over a gap. *)
Lemma setenv_move_ok b u pre gap post n :
  ready b (pre ++ gap ++ u ++ 0 :: post) -> gap <> [] -> no_gap u -> (exists u0, u = u0 ++ [0]) -> (length u < n)%nat ->
  exists gap', length gap' = length gap /\ (Forall is_byte gap -> Forall is_byte u -> Forall is_byte gap') /\
    setenv_move n (pos pre) (pos (pre ++ gap)) b =
    Ret (pos (pre ++ u) - 1) (set_data (pre ++ u ++ gap' ++ 0 :: post) b).
Proof.
  revert b pre gap n. induction u as [|c u IH]; intros b pre gap n Hr Hgap Hno [u0 Hu0] Hn.
  { by destruct u0. }
  destruct n as [|n]; [simpl in Hn; lia|]. simpl in Hn. cbn [setenv_move].
  rewrite (bind_Ret _ _ _ _ _ (rd_ready _ (pre ++ gap) c (u ++ 0 :: post) ltac:(by rewrite <- app_assoc))).
  destruct gap as [|g gap]; [done|].
  destruct (wr_ready b pre g (gap ++ (c :: u) ++ 0 :: post) c Hr) as [E Hr']. rewrite (bind_Ret _ _ _ _ _ E). clear E.
  set (b' := set_data _ b) in *.
  assert (ready b' ((pre ++ [c]) ++ (gap ++ [c]) ++ u ++ 0 :: post)) as Hr2 by by rewrite <- !app_assoc in *.
  assert (pos (pre ++ g :: gap) + 1 = pos ((pre ++ [c]) ++ (gap ++ [c]))) as Enx by (pos; lia).
  destruct Hno as [Hc0 Hno]. destruct u as [|c' u].
  - assert (c = 0) as -> by (destruct u0 as [|x [|? ?]]; simpl in Hu0; congruence). cbn [Z.eqb]. rewrite bind_bind, Enx.
    rewrite (bind_Ret _ _ _ _ _ (rd_ready b' ((pre ++ [0]) ++ (gap ++ [0])) 0 post ltac:(by rewrite <- !app_assoc in *))).
    exists (gap ++ [0]). split; [rewrite length_app; simpl; lia|].
    split; [intros [_ Hgb]%Forall_cons ?; by apply bytes_mid|]. rewrite bind_mret. cbn [Z.eqb].
    unfold mret, M_ret. f_equal; [pos; lia|]. unfold b'. by rewrite <- !app_assoc.
  - assert (exists u1, c' :: u = u1 ++ [0]) as Hu1.
    { destruct u0 as [|x u0]; simpl in Hu0; [congruence|]. injection Hu0 as _ Hu0. by exists u0. }
    assert ((last ← (if c =? 0 then c'0 ← rd (pos (pre ++ g :: gap) + 1); mret (c'0 =? 0) else mret false);
      if last : bool then mret (pos pre) else setenv_move n (pos pre + 1) (pos (pre ++ g :: gap) + 1)) b' =
      setenv_move n (pos (pre ++ [c])) (pos ((pre ++ [c]) ++ (gap ++ [c]))) b') as ->.
    { rewrite Enx. replace (pos (pre ++ [c])) with (pos pre + 1) by (pos; lia).
      destruct (Z.eqb_spec c 0) as [->|]; [|done]. rewrite bind_bind.
      rewrite (bind_Ret _ _ _ _ _ (rd_ready b' ((pre ++ [0]) ++ (gap ++ [0])) c' (u ++ 0 :: post) ltac:(by rewrite <- !app_assoc in *))).
      destruct (Hc0 eq_refl) as [|(? & ? & [= <- <-] & Hc')]; [done|]. by rewrite (proj2 (Z.eqb_neq c' 0)). }
    destruct (IH b' (pre ++ [c]) (gap ++ [c]) n Hr2) as (gap' & Hg & Hgb & E); [by destruct gap|done|done|simpl in *; lia|].
    exists gap'. split; [rewrite Hg, length_app; simpl; lia|].
    split. { intros [_ Hb]%Forall_cons [Hc Hu]%Forall_cons. apply Hgb; [|done]. by apply bytes_mid. }
    rewrite E. f_equal; [pos; lia|].
    unfold b'. by rewrite set_data_twice, <- !app_assoc.
Qed.

(** The end of the strings is found. *)
Lemma setenv_end_ok b u pre post n :
  ready b (pre ++ u ++ 0 :: post) -> no_gap u -> (exists u0, u = u0 ++ [0]) -> (length u < n)%nat ->
  setenv_end n (pos pre) b = Ret (pos (pre ++ u) - 1) b.
Proof.
  revert pre n. induction u as [|c u IH]; intros pre n Hr Hno [u0 Hu0] Hn.
  { by destruct u0. }
  destruct n as [|n]; [simpl in Hn; lia|]. simpl in Hn. cbn [setenv_end].
  rewrite (bind_Ret _ _ _ _ _ (rd_ready _ pre c (u ++ 0 :: post) Hr)).
  replace (pos pre + 1) with (pos (pre ++ [c])) by (pos; lia). destruct Hno as [Hc0 Hno]. destruct u as [|c' u].
  - assert (c = 0) as -> by (destruct u0 as [|x [|? ?]]; simpl in Hu0; congruence). cbn [Z.eqb]. rewrite bind_bind.
    rewrite (bind_Ret _ _ _ _ _ (rd_ready b (pre ++ [0]) 0 post ltac:(by rewrite <- !app_assoc in *))).
    rewrite bind_mret. cbn [Z.eqb negb]. unfold mret, M_ret. f_equal. pos. lia.
  - assert (exists u1, c' :: u = u1 ++ [0]) as Hu1.
    { destruct u0 as [|x u0]; simpl in Hu0; [congruence|]. injection Hu0 as _ Hu0. by exists u0. }
    assert (ready b ((pre ++ [c]) ++ (c' :: u) ++ 0 :: post)) as Hr2 by by rewrite <- !app_assoc in *.
    pose proof (IH (pre ++ [c]) n Hr2 Hno Hu1 ltac:(simpl in *; lia)) as E.
    replace (pos (pre ++ c :: c' :: u)) with (pos ((pre ++ [c]) ++ c' :: u)) by (pos; lia).
    destruct (Z.eqb_spec c 0) as [->|]; [|by rewrite bind_mret].
    rewrite bind_bind, (bind_Ret _ _ _ _ _ (rd_ready b (pre ++ [0]) c' (u ++ 0 :: post) Hr2)), bind_mret.
    destruct (Hc0 eq_refl) as [|(? & ? & [= <- <-] & Hc')]; [done|]. by rewrite (proj2 (Z.eqb_neq c' 0)).
Qed.

Lemma put_string_ok b s pre g post :
  ready b (pre ++ g ++ post) -> length g = S (length s) ->
  put_string s (pos pre) b = Ret (pos (pre ++ s)) (set_data (pre ++ s ++ 0 :: post) b) /\
  ready (set_data (pre ++ s ++ 0 :: post) b) (pre ++ s ++ 0 :: post).
Proof.
  revert b pre g. induction s as [|c s IH]; intros b pre [|x g] Hr Hg; try done; cbn [put_string].
  - destruct g; [|done]. destruct (wr_ready b pre x post 0 Hr) as [E Hr']. rewrite (bind_Ret _ _ _ _ _ E).
    rewrite app_nil_r. done.
  - destruct (wr_ready b pre x (g ++ post) c Hr) as [E Hr']. rewrite (bind_Ret _ _ _ _ _ E). injection Hg as Hg.
    destruct (IH (set_data (pre ++ c :: g ++ post) b) (pre ++ [c]) g ltac:(by rewrite <- app_assoc) Hg) as [E2 Hr2].
    replace (pos pre + 1) with (pos (pre ++ [c])) by (pos; lia). rewrite E2, set_data_twice in *.
    rewrite <- !app_assoc in *. done.
Qed.

(** A variable is removed. *)
Lemma setenv_delete_ok b vs name v vs' post :
  ready b (flat vs ++ entry (name, v) ++ flat vs' ++ 0 :: post) ->
  Forall (fun p => text p.1 /\ text p.2) (vs ++ (name, v) :: vs') ->
  Forall is_byte (env_data b) ->
  exists post', setenv_delete fuel (pos (flat vs)) (pos (flat vs) + pos (name ++ 61 :: v)) b =
      Ret tt (set_data (flat (vs ++ vs') ++ 0 :: post') b) /\
    pos (flat (vs ++ vs') ++ 0 :: post') = ENV_DATA /\ Forall is_byte (flat (vs ++ vs') ++ 0 :: post') /\
    (vs ++ vs' = [] -> head post' = Some 0).
Proof.
  intros Hr Ht Hb. pose proof Hr as (Hl & Hd & Hlen). rewrite Hd in Hb. clear Hd.
  apply Forall_app in Ht as [Htvs Ht]. apply Forall_cons in Ht as [[Htn Htv] Htvs'].
  apply Forall_app in Hb as [Hb1 [Hb2 [Hb3 [_ Hb4]%Forall_cons]%Forall_app]%Forall_app].
  assert (pos (flat vs) + pos (name ++ 61 :: v) + 1 = pos (flat vs ++ entry (name, v))) as Enx
    by (rewrite entry_split; pos; simpl; lia).
  destruct (entry_head (name, v) Htn) as (c & r & He & Hc0). rewrite flat_app.
  unfold setenv_delete. cbv zeta. rewrite Enx. destruct vs' as [|q vs'].
  - simpl in *. rewrite (bind_Ret _ _ _ _ _ (rd_ready b (flat vs ++ entry (name, v)) 0 post ltac:(by rewrite <- app_assoc))).
    cbn [Z.eqb]. rewrite He in *. apply Forall_cons in Hb2 as [_ Hb2]. rewrite app_nil_r. destruct vs as [|p vs].
    + simpl. destruct (wr_ready b [] c (r ++ 0 :: post) 0 Hr) as [E Hr1]. rewrite bind_bind. unfold pos at 1. simpl length.
      rewrite (bind_Ret _ _ _ _ _ E), bind_mret. destruct r as [|c1 r].
      { exfalso. unfold entry in He. simpl in He. destruct name; simpl in He; [by destruct v|injection He as _ He; by destruct name]. }
      destruct (wr_ready _ [0] c1 (r ++ 0 :: post) 0 Hr1) as [E2 Hr2]. change (0 + 1) with (pos [0]). rewrite E2.
      apply Forall_cons in Hb2 as [_ Hb2]. exists (0 :: r ++ 0 :: post). split_and!; [done|apply Hr2| |done].
      constructor; [done|]. constructor; [done|]. by apply bytes_mid.
    + assert (0 < pos (flat (p :: vs))) as Hpos by (rewrite flat_cons; unfold entry; pos; lia).
      rewrite (proj2 (Z.ltb_lt _ _) Hpos), bind_mret. replace (pos (flat (p :: vs)) - 1 + 1) with (pos (flat (p :: vs))) by lia.
      destruct (wr_ready b (flat (p :: vs)) c (r ++ 0 :: post) 0 Hr) as [E Hr1]. rewrite E.
      exists (r ++ 0 :: post). split_and!; [done|apply Hr1| |done].
      apply bytes_mid; [done|done|]. by apply bytes_mid.
  - destruct (flat_head (q :: vs') Htvs') as [Hbad|(c' & u & Hu & Hc')].
    { exfalso. rewrite flat_cons in Hbad. by apply app_nil in Hbad as [Hbad _]; destruct q as [[] ?]. }
    assert (ready b ((flat vs ++ entry (name, v)) ++ c' :: u ++ 0 :: post)) as Hr0 by (rewrite Hu in Hr; by rewrite <- !app_assoc in *).
    rewrite (bind_Ret _ _ _ _ _ (rd_ready b _ c' _ Hr0)), (proj2 (Z.eqb_neq c' 0)) by done.
    destruct (setenv_move_ok b (flat (q :: vs')) (flat vs) (entry (name, v)) post fuel Hr) as (gap & Hg & Hgb & E).
    + by rewrite He.
    + by apply flat_no_gap.
    + by apply flat_last.
    + rewrite ENV_DATA_eq in *. pos in Hlen. lia.
    + rewrite (bind_Ret _ _ _ _ _ E). replace (pos (flat vs ++ flat (q :: vs')) - 1 + 1) with (pos (flat vs ++ flat (q :: vs'))) by lia.
      destruct gap as [|g gap]; [by rewrite He in Hg|].
      assert (ready (set_data (flat vs ++ flat (q :: vs') ++ (g :: gap) ++ 0 :: post) b) ((flat vs ++ flat (q :: vs')) ++ g :: gap ++ 0 :: post)) as Hr1.
      { rewrite <- app_assoc. eapply ready_set; [exact Hr|]. rewrite !length_app. simpl in *. rewrite !length_app. simpl. lia. }
      destruct (wr_ready _ _ _ _ 0 Hr1) as [E2 Hr2]. rewrite E2, set_data_twice. apply Forall_cons in Hgb as [_ Hgb]; [|done|done].
      exists (gap ++ 0 :: post). split_and!; [done|apply Hr2| |].
      * apply bytes_mid; [by apply Forall_app|done|]. by apply bytes_mid.
      * intros Hnil. by apply app_nil in Hnil as [_ ?].
Qed.

(** The place where a variable is added. *)
Lemma setenv_end_flat b vars post :
  ready b (flat vars ++ 0 :: post) -> Forall (fun p => text p.1 /\ text p.2) vars ->
  (vars = [] -> head post = Some 0) ->
  exists e, setenv_end fuel 0 b = Ret e b /\ (if 0 <? e then e + 1 else e) = pos (flat vars).
Proof.
  intros Hr Hv Hnil. pose proof Hr as (_ & _ & Hlen). rewrite ENV_DATA_eq in *. destruct vars as [|p vars].
  - destruct post as [|c post]; [by specialize (Hnil eq_refl)|]. specialize (Hnil eq_refl). injection Hnil as ->.
    exists 0. split; [|done]. destruct fuel as [|n]; [lia|]. cbn [setenv_end].
    rewrite (bind_Ret _ _ _ _ _ (rd_ready b [] 0 (0 :: post) Hr)). cbn [Z.eqb]. rewrite bind_bind.
    by rewrite (bind_Ret _ _ _ _ _ (rd_ready b [0] 0 post Hr)).
  - exists (pos (flat (p :: vars)) - 1). split.
    + apply (setenv_end_ok b (flat (p :: vars)) [] post fuel Hr); [by apply flat_no_gap|by apply flat_last|].
      pos in Hlen. lia.
    + assert (1 < pos (flat (p :: vars))) as Hpos by (rewrite flat_cons, entry_split; pos; lia).
      rewrite (proj2 (Z.ltb_lt _ _)) by lia. lia.
Qed.

(** A list splits at a length it has. *)
Lemma split_at (l : bytes) (n : Z) : 0 <= n <= pos l -> exists l1 l2, l = l1 ++ l2 /\ pos l1 = n.
Proof.
  intros Hn. exists (take (Z.to_nat n) l), (drop (Z.to_nat n) l). split; [by rewrite take_drop|].
  rewrite length_take. lia.
Qed.

(** A variable is written behind the others. *)
Lemma put_variable_ok b vars name val post :
  ready b (flat vars ++ 0 :: post) -> text name -> text val -> Forall is_byte (flat vars) -> Forall is_byte post ->
  pos (flat (vars ++ [(name, val)])) < ENV_DATA ->
  exists post', let d := flat (vars ++ [(name, val)]) ++ 0 :: post' in
    (env ← put_string name (pos (flat vars)); env ← put_values 61 [val] env; wr (env + 1) 0) b = Ret tt (set_data d b) /\
    pos d = ENV_DATA /\ Forall is_byte d.
Proof.
  intros Hr Hn Hv Hb1 Hb2 Hfit. pose proof Hr as (_ & _ & Hlen). rewrite flat_app, flat_cons in *. simpl in *. rewrite app_nil_r in *.
  assert (pos (entry (name, val)) = pos name + 1 + pos val + 1) as He by (unfold entry; simpl; pos; lia).
  rewrite ENV_DATA_eq in *. pos in Hfit. pos in Hlen. pos in He.
  destruct (split_at (0 :: post) (pos name + 1)) as (g1 & r1 & E1 & L1); [pos; lia|].
  assert (Forall is_byte r1) as Hbr.
  { assert (Forall is_byte (g1 ++ r1)) as Hg by (rewrite <- E1; by constructor). by apply Forall_app in Hg as [_ ?]. }
  rewrite E1 in Hr. destruct (put_string_ok b name (flat vars) g1 r1 Hr) as [P1 R1]; [lia|].
  rewrite (bind_Ret _ _ _ _ _ P1). cbn [put_values].
  assert (ready (set_data (flat vars ++ name ++ 0 :: r1) b) ((flat vars ++ name) ++ 0 :: r1)) as R1' by by rewrite <- app_assoc.
  rewrite bind_bind. destruct (wr_ready _ _ _ _ 61 R1') as [P2 R2]. rewrite (bind_Ret _ _ _ _ _ P2), set_data_twice in *.
  assert (pos post + 1 = pos g1 + pos r1) as L0 by (rewrite <- pos_app, <- E1; pos; lia).
  destruct (split_at r1 (pos val + 1)) as (g2 & r2 & -> & L2); [lia|].
  apply Forall_app in Hbr as [_ Hbr].
  assert (ready (set_data ((flat vars ++ name) ++ 61 :: g2 ++ r2) b) ((flat vars ++ name ++ [61]) ++ g2 ++ r2)) as R2'
    by (rewrite <- !app_assoc in *; exact R2).
  destruct (put_string_ok _ val _ g2 r2 R2') as [P3 R3]; [lia|].
  replace (pos (flat vars ++ name) + 1) with (pos (flat vars ++ name ++ [61])) by (pos; lia).
  rewrite bind_bind, (bind_Ret _ _ _ _ _ P3), set_data_twice in *. rewrite bind_mret.
  destruct r2 as [|c r2]; [pos in L0; lia|]. apply Forall_cons in Hbr as [_ Hbr].
  assert (flat vars ++ entry (name, val) = (flat vars ++ name ++ [61]) ++ val ++ [0]) as Ed
    by (unfold entry; simpl; by rewrite <- !app_assoc).
  assert (ready (set_data ((flat vars ++ name ++ [61]) ++ val ++ 0 :: c :: r2) b) ((flat vars ++ entry (name, val)) ++ c :: r2)) as R3'
    by (rewrite Ed; rewrite <- !app_assoc in *; exact R3).
  destruct (wr_ready _ _ _ _ 0 R3') as [P4 R4].
  replace (pos ((flat vars ++ name ++ [61]) ++ val) + 1) with (pos (flat vars ++ entry (name, val))) by (rewrite Ed; pos; lia).
  exists r2. rewrite P4, set_data_twice. split_and!; [done|rewrite <- ENV_DATA_eq; apply R4|].
  apply bytes_mid; [|done|done]. apply Forall_app. split; [done|]. unfold entry. simpl.
  apply bytes_mid; [by apply text_bytes|done|]. apply bytes_mid; [by apply text_bytes|done|done].
Qed.
End Write.

(** ** The refinement *)

Lemma bind_assoc3 {S A B C D} (m1 : M S A) (m2 : A -> M S B) (m3 : B -> M S C) (k : C -> M S D) s c s' :
  (a ← m1; b ← m2 a; m3 b) s = Ret c s' -> (a ← m1; b ← m2 a; c ← m3 b; k c) s = k c s'.
Proof.
  unfold mbind, M_bind. destruct (m1 s) as [a s1|]; [|done]. destruct (m2 a s1) as [b s2|]; [|done]. by intros ->.
Qed.

Lemma update_crc_ok b : pos (env_data b) = ENV_DATA -> Forall is_byte (env_data b) ->
  update_crc b = Ret tt (set_crc (crc_reference 0 (env_data b)) b).
Proof.
  intros Hlen Hb. unfold update_crc. rewrite bind_gets. unfold crc_of. rewrite crc32_reference by (done || lia).
  by rewrite take_ge by lia.
Qed.

(** The effects on the board information leave the environment as it is. *)
Lemma setenv_effects_ok name val b : exists b',
  setenv_effects name val b = Ret tt b' /\ bi_env b' = bi_env b /\ env_data b' = env_data b /\ env_crc b' = env_crc b.
Proof. unfold setenv_effects. repeat case_bool_decide; by eexists. Qed.

Lemma lookup_var_elem name vars : name ∉ vars.*1 -> lookup_var name vars = None.
Proof.
  induction vars as [|p vars IH]; [done|]. rewrite fmap_cons, not_elem_of_cons. intros [Hp Hv]. simpl.
  rewrite decide_False by done. by apply IH.
Qed.
Lemma remove_var_absent name vars : name ∉ vars.*1 -> remove_var name vars = vars.
Proof.
  induction vars as [|p vars IH]; [done|]. rewrite fmap_cons, not_elem_of_cons. intros [Hp Hv]. unfold remove_var in *.
  rewrite filter_cons_True by congruence. by rewrite IH.
Qed.
Lemma remove_var_middle name v vs vs' :
  NoDup (vs ++ (name, v) :: vs').*1 -> remove_var name (vs ++ (name, v) :: vs') = vs ++ vs'.
Proof.
  intros Hnd. rewrite fmap_app, fmap_cons in Hnd. simpl in Hnd. apply NoDup_app in Hnd as (_ & Hd & [Hn' _]%NoDup_cons).
  assert (name ∉ vs.*1) as Hn by (intros Hin; apply (Hd _ Hin); by left).
  assert (remove_var name (vs ++ (name, v) :: vs') = remove_var name vs ++ remove_var name vs') as ->.
  { unfold remove_var. rewrite filter_app, filter_cons_False; [done|]. simpl. tauto. }
  by rewrite !remove_var_absent.
Qed.

Lemma remove_var_ok name vars : vars_ok vars -> vars_ok (remove_var name vars) /\ name ∉ (remove_var name vars).*1.
Proof.
  intros [Ht Hnd]. unfold remove_var. split; [split|].
  - apply Forall_forall. intros p [_ Hp]%list_elem_of_filter. rewrite Forall_forall in Ht. by apply Ht.
  - clear Ht. induction vars as [|p vars IH]; [done|]. rewrite fmap_cons in Hnd. apply NoDup_cons in Hnd as [Hp Hnd].
    destruct (decide (p.1 <> name)).
    + rewrite filter_cons_True by done. rewrite fmap_cons. apply NoDup_cons. split; [|by apply IH].
      intros (q & Hq & Hin)%list_elem_of_fmap. apply list_elem_of_filter in Hin as [_ Hin]. apply Hp.
      rewrite Hq. by apply list_elem_of_fmap_2.
    + rewrite filter_cons_False by done. by apply IH.
  - intros (q & Hq & Hin)%list_elem_of_fmap. apply list_elem_of_filter in Hin as [Hne _]. congruence.
Qed.

Section Refine.
Context (rom : bytes) (fuel : nat) (Hfuel : ENV_DATA < Z.of_nat fuel).
Implicit Types b : Bd.

(** A representation, as the lemmas on the bytes need it. *)
Lemma repr_ready b vars : env_repr b vars -> exists post,
  ready b (flat vars ++ 0 :: post) /\ (vars = [] -> head post = Some 0) /\ Forall is_byte (flat vars) /\ Forall is_byte post /\
  (length vars < fuel)%nat.
Proof.
  intros [Hl _ (Hlen & Hb & post & Hd & Hnil)]. exists post. rewrite Hd in Hb. pose proof Hb as [? [_ ?]%Forall_cons]%Forall_app.
  split_and!; [by split_and!; [|done|rewrite <- Hd]|done|done|done|]. rewrite Hd in Hlen. pos in Hlen.
  assert (Z.of_nat (length vars) <= pos (flat vars)) as Hv; [|lia]. clear. induction vars as [|p vars IH]; [done|].
  rewrite flat_cons. pos. simpl. rewrite entry_split. pos. lia.
Qed.

Lemma ready_repr b vars post d :
  bi_env b = true -> vars_ok vars -> d = flat vars ++ 0 :: post -> pos d = ENV_DATA -> Forall is_byte d ->
  (vars = [] -> head post = Some 0) -> env_repr (set_data d b) vars.
Proof. intros Hl Hv -> Hlen Hb Hnil. split; [done|done|]. split_and!; [done|done|by exists post]. Qed.

(** The variable is looked for and taken out, unless it is protected. *)
Lemma setenv_take_out b vars name vals :
  env_repr b vars -> pos name < 2 ^ 32 ->
  if decide (name ∈ vars.*1 /\ protected name) then _do_setenv fuel name vals b = Ret (-1) b
  else exists b', env_repr b' (remove_var name vars) /\ env_crc b' = env_crc b /\
    _do_setenv fuel name vals b = setenv_add fuel name vals b'.
Proof.
  intros Hr Hname. pose proof Hr as [Hl [Ht Hnd] Hd]. destruct (repr_ready b vars Hr) as (post & Hrd & Hnil & Hb1 & Hb2 & Hn).
  unfold _do_setenv.
  destruct (setenv_search_ok fuel Hfuel b name vars [] post fuel 0 Hrd Ht Hname Hn) as [[Hnot [nxt E]]|(vs & v & vs' & -> & Hnot & E)].
  - rewrite decide_False by tauto. rewrite (bind_Ret _ _ _ _ _ E). cbn [Z.leb Z.compare andb]. exists b.
    by rewrite remove_var_absent.
  - assert (name ∈ (vs ++ (name, v) :: vs').*1) as Hin by (rewrite fmap_app, fmap_cons; set_solver).
    rewrite (bind_Ret _ _ _ _ _ E). cbn beta iota. rewrite (proj2 (Z.leb_le _ _)) by (pos; lia). cbn [andb].
    destruct (decide (protected name)) as [Hp|Hp].
    + rewrite decide_True by done. by rewrite bool_decide_true.
    + rewrite decide_False by tauto. rewrite bool_decide_false by done.
      assert (ready b (flat vs ++ entry (name, v) ++ flat vs' ++ 0 :: post)) as Hrd2 by (rewrite flat_app, flat_cons, <- !app_assoc in Hrd; exact Hrd).
      destruct Hd as (Hlen & Hb & _).
      destruct (setenv_delete_ok fuel Hfuel b vs name v vs' post Hrd2 Ht Hb) as (post' & E2 & Hlen' & Hb' & Hnil').
      simpl. rewrite (bind_Ret _ _ _ _ _ E2). eexists. split; [|split; [|reflexivity]]; [|done].
      rewrite remove_var_middle by done. eapply ready_repr; [done| |done|done|done|done].
      rewrite <- (remove_var_middle name v) by done. by apply remove_var_ok.
Qed.

Lemma setenv_add_none b vars name :
  env_repr b vars -> exists b', setenv_add fuel name [] b = Ret 0 b' /\ env_repr b' vars /\
    env_crc b' = crc_reference 0 (env_data b').
Proof.
  intros Hr. pose proof Hr as [Hl Hv (Hlen & Hb & Hd)]. simpl. rewrite (bind_Ret _ _ _ _ _ (update_crc_ok b Hlen Hb)).
  eexists. split; [done|]. split; [|done]. by split.
Qed.

Lemma setenv_add_fits b vars name val :
  env_repr b vars -> name ∉ vars.*1 -> text name -> text val -> pos (flat (vars ++ [(name, val)])) < ENV_DATA ->
  exists b', setenv_add fuel name [val] b = Ret 0 b' /\ env_repr b' (vars ++ [(name, val)]) /\
    env_crc b' = crc_reference 0 (env_data b').
Proof.
  intros Hr Hnew Hn Hv Hfit. pose proof Hr as [Hl Hok (Hlen & Hb & _)].
  destruct (repr_ready b vars Hr) as (post & Hrd & Hnil & Hb1 & Hb2 & _).
  destruct (setenv_end_flat fuel Hfuel b vars post Hrd (vars_text _ Hok) Hnil) as (e & E & He).
  unfold setenv_add. rewrite (bind_Ret _ _ _ _ _ E). cbv zeta. rewrite He. cbn [foldl].
  assert (pos name + pos val + 2 < ENV_DATA) as Hlt.
  { rewrite flat_app, flat_cons, entry_split in Hfit. pos in Hfit. simpl in Hfit. lia. }
  rewrite ENV_DATA_eq in Hlt. rewrite u32_small by (unfold is_u32; lia).
  rewrite (proj2 (Z.ltb_ge _ _)) by (rewrite ENV_DATA_eq; lia).
  destruct (put_variable_ok fuel Hfuel b vars name val post Hrd Hn Hv Hb1 Hb2 Hfit) as (post' & P & Hlen' & Hb'). cbv zeta in *.
  rewrite (bind_assoc3 _ _ _ _ _ _ _ P). rewrite (bind_Ret _ _ _ _ _ (update_crc_ok (set_data _ b) Hlen' Hb')).
  set (b2 := set_crc _ _). destruct (setenv_effects_ok name val b2) as (b3 & E3 & Hl3 & Hd3 & Hc3).
  rewrite (bind_Ret _ _ _ _ _ E3). exists b3. split; [done|]. split; [|by rewrite Hc3, Hd3].
  split; [by rewrite Hl3| |].
  - destruct Hok as [Ht Hnd]. split; [apply Forall_app; split; [done|by repeat constructor]|].
    rewrite fmap_app. apply NoDup_app. split_and!; [done| |apply NoDup_singleton].
    intros x Hx ->%list_elem_of_singleton. by apply Hnew.
  - rewrite Hd3. split_and!; [done|done|]. exists post'. split; [done|]. intros Hbad. by apply app_nil in Hbad as [_ ?].
Qed.

Lemma setenv_add_too_long b vars name val :
  env_repr b vars -> ENV_DATA < pos name + pos val + 3 < 2 ^ 32 -> setenv_add fuel name [val] b = Ret (-1) b.
Proof.
  intros Hr Hlong. pose proof Hr as [Hl Hok _].
  destruct (repr_ready b vars Hr) as (post & Hrd & Hnil & _).
  destruct (setenv_end_flat fuel Hfuel b vars post Hrd (vars_text _ Hok) Hnil) as (e & E & He).
  unfold setenv_add. rewrite (bind_Ret _ _ _ _ _ E). cbv zeta. cbn [foldl]. rewrite ENV_DATA_eq in *.
  rewrite u32_small by (unfold is_u32; lia). by rewrite (proj2 (Z.ltb_lt _ _)) by lia.
Qed.

Lemma setenv_spec b vars name val :
  env_repr b vars -> text name -> text val -> pos name < 2 ^ 32 ->
  pos (flat (spec_setenv name val vars).2) < ENV_DATA ->
  exists b', setenv fuel name val b = Ret (spec_setenv name val vars).1 b' /\
    env_repr b' (spec_setenv name val vars).2 /\
    if bool_decide ((spec_setenv name val vars).1 = 0) then env_crc b' = crc_reference 0 (env_data b') else b' = b.
Proof.
  intros Hr Hn Hv Hname. unfold setenv, spec_setenv.
  pose proof (setenv_take_out b vars name [] Hr Hname) as T0. pose proof (setenv_take_out b vars name [val] Hr Hname) as T1.
  destruct (decide (name ∈ vars.*1 /\ protected name)) as [Hp|Hp]; simpl.
  { intros _. exists b. case_bool_decide; by rewrite ?T0, ?T1. }
  destruct T0 as (b0 & Hr0 & Hc0 & E0). destruct T1 as (b1 & Hr1 & Hc1 & E1).
  destruct (remove_var_ok name vars (repr_vars _ _ Hr)) as [Hok Hnot].
  case_bool_decide as Hd; [rewrite decide_True by done|rewrite decide_False by done]; simpl; intros Hfit.
  - rewrite E0. by apply setenv_add_none.
  - rewrite E1. by apply setenv_add_fits.
Qed.

Lemma getenv_spec b vars name :
  env_repr b vars -> pos name < 2 ^ 32 ->
  match lookup_var name vars with
  | Some v => exists i pre post, getenv rom fuel name b = Ret (0, Some (InRam i)) b /\
      env_data b = pre ++ 61 :: v ++ 0 :: post /\ i = pos pre
  | None => getenv rom fuel name b = Ret (-1, None) b
  end.
Proof.
  intros Hr Hname. pose proof Hr as [Hl Hok _].
  destruct (repr_ready b vars Hr) as (post & (_ & Hd & Hlen) & _ & _ & _ & Hn).
  assert (pos (env_data b) = ENV_DATA) as Hlen' by by rewrite Hd.
  pose proof (getenv_loop_ok b Hl Hlen' rom fuel Hfuel name vars [] post fuel Hd (vars_text _ Hok) Hname Hn) as E.
  change (pos []) with 0 in E. pose proof (var_index_spec name vars 0) as Hi. unfold getenv. rewrite E.
  destruct (lookup_var name vars) as [v|]; [|by rewrite Hi]. destruct Hi as (pre & rest & Hf & ->).
  exists (pos pre), pre, (rest ++ 0 :: post). split_and!; [done| |done]. rewrite Hd, Hf. rewrite <- app_assoc. simpl.
  by rewrite <- app_assoc.
Qed.
End Refine.

(** What a look-up of [name] finds: the address of the '=' before the value, or
    nothing. *)
Definition finds (rom : bytes) (fuel : nat) (b : Bd) (name : cstr) (r : option cstr) : Prop :=
  match r with
  | Some v => exists i pre post, getenv rom fuel name b = Ret (0, Some (InRam i)) b /\
      env_data b = pre ++ 61 :: v ++ 0 :: post /\ i = pos pre
  | None => getenv rom fuel name b = Ret (-1, None) b
  end.

Lemma lookup_var_add name val vars name' :
  name ∉ vars.*1 -> lookup_var name' (vars ++ [(name, val)]) = if decide (name' = name) then Some val else lookup_var name' vars.
Proof.
  induction vars as [|p vars IH]; [done|]. rewrite fmap_cons, not_elem_of_cons. intros [Hp Hv]. simpl. rewrite IH by done.
  destruct (decide (name' = p.1)) as [->|]; [|done]. by rewrite decide_False.
Qed.
Lemma lookup_var_remove name vars name' : name' <> name -> lookup_var name' (remove_var name vars) = lookup_var name' vars.
Proof.
  intros Hne. unfold remove_var. induction vars as [|p vars IH]; [done|]. simpl. destruct (decide (name' = p.1)) as [->|Hp].
  - rewrite filter_cons_True by done. simpl. by rewrite decide_True.
  - destruct (decide (p.1 <> name)).
    + rewrite filter_cons_True by done. simpl. by rewrite decide_False.
    + by rewrite filter_cons_False.
Qed.

(** A blank page with variables in it, for the examples. *)
Definition page (vars : list var) : bytes :=
  flat vars ++ 0 :: replicate (Z.to_nat (ENV_DATA - pos (flat vars) - 1)) 0.
Definition board (vars : list var) : Bd := mkBd true 0 (page vars) 1 [] 0 0.

Lemma flat_bytes vars : Forall (fun p => text p.1 /\ text p.2) vars -> Forall is_byte (flat vars).
Proof.
  induction 1 as [|p vars [H1 H2] _ IH]; [constructor|]. rewrite flat_cons. apply Forall_app. split; [|done]. unfold entry.
  apply bytes_mid; [by apply text_bytes|done|]. apply bytes_mid; [by apply text_bytes|done|constructor].
Qed.

Lemma board_repr vars : vars_ok vars -> pos (flat vars) + 1 < ENV_DATA -> env_repr (board vars) vars.
Proof.
  intros Hok Hlen. pose proof (vars_text _ Hok) as Ht. split; [done|done|].
  assert (Z.of_nat (length (page vars)) = ENV_DATA) as Hp.
  { unfold page. pos. rewrite length_replicate. lia. }
  split_and!; [exact Hp| |].
  - unfold board, page. simpl. apply bytes_mid; [by apply flat_bytes|done|]. apply Forall_replicate. done.
  - exists (replicate (Z.to_nat (ENV_DATA - pos (flat vars) - 1)) 0). split; [done|]. intros ->. done.
Qed.

Definition some_vars : list var :=
  [(lit "ipaddr", lit "10.0.0.2"); (lit "ethaddr", lit "00:11:22:33:44:55"); (lit "bootdelay", lit "3")].
Lemma some_vars_repr : env_repr (board some_vars) some_vars.
Proof.
  apply board_repr; [split; apply (bool_decide_unpack _)|]; by vm_compute.
Qed.

(** C16: On an environment that holds distinct variables, [setenv] refines
    the update of the list of variables: it refuses a protected variable that
    exists and changes nothing then; the value "-" removes the variable; any other value replaces it
    at the end.  The other variables are untouched, the strings stay well formed and the
    checksum is the CRC-32 of the new contents, whenever the result fits. *)
Theorem setenv_refines fuel b vars name val :
  ENV_DATA < Z.of_nat fuel -> env_repr b vars -> text name -> text val -> pos name < 2 ^ 32 ->
  pos (flat (spec_setenv name val vars).2) < ENV_DATA ->
  exists b', setenv fuel name val b = Ret (spec_setenv name val vars).1 b' /\
    env_repr b' (spec_setenv name val vars).2 /\
    if bool_decide ((spec_setenv name val vars).1 = 0) then env_crc b' = crc_reference 0 (env_data b') else b' = b.
Proof. intros Hf. by apply setenv_spec. Qed.

Lemma setenv_refines_witness : exists b',
  setenv (Z.to_nat 9000) (lit "ipaddr") (lit "10.0.0.7") (board some_vars) = Ret 0 b' /\
  env_repr b' [(lit "ethaddr", lit "00:11:22:33:44:55"); (lit "bootdelay", lit "3"); (lit "ipaddr", lit "10.0.0.7")].
Proof.
  assert (spec_setenv (lit "ipaddr") (lit "10.0.0.7") some_vars =
    (0, [(lit "ethaddr", lit "00:11:22:33:44:55"); (lit "bootdelay", lit "3"); (lit "ipaddr", lit "10.0.0.7")])) as Hs by by vm_compute.
  destruct (setenv_refines (Z.to_nat 9000) (board some_vars) some_vars (lit "ipaddr") (lit "10.0.0.7")) as (b' & E & Hr & _);
    [by vm_compute|apply some_vars_repr|by apply (bool_decide_unpack _); vm_compute|by apply (bool_decide_unpack _); vm_compute
    |by vm_compute|by vm_compute|]. rewrite Hs in E, Hr. exists b'. split; [exact E|exact Hr].
Defined.

(** A variable that is set is found with its value afterwards, and every
    other look-up has the result it had before. *)
Theorem setenv_getenv rom fuel b vars name val :
  ENV_DATA < Z.of_nat fuel -> env_repr b vars -> text name -> text val -> pos name < 2 ^ 32 ->
  val <> lit "-" -> ~ (name ∈ vars.*1 /\ protected name) -> pos (flat (remove_var name vars ++ [(name, val)])) < ENV_DATA ->
  exists b', setenv fuel name val b = Ret 0 b' /\
    forall name', pos name' < 2 ^ 32 ->
      finds rom fuel b' name' (if decide (name' = name) then Some val else lookup_var name' vars) /\
      finds rom fuel b name' (lookup_var name' vars).
Proof.
  intros Hf Hr Hn Hv Hname Hd Hp Hfit.
  assert (spec_setenv name val vars = (0, remove_var name vars ++ [(name, val)])) as Hs
    by (unfold spec_setenv; by rewrite !decide_False).
  destruct (setenv_spec fuel Hf b vars name val Hr Hn Hv Hname ltac:(by rewrite Hs)) as (b' & E & Hr' & _).
  rewrite Hs in *. exists b'. split; [done|]. intros name' Hname'. split; [|by apply (getenv_spec rom fuel Hf)].
  replace (if decide (name' = name) then Some val else lookup_var name' vars)
    with (lookup_var name' (remove_var name vars ++ [(name, val)])); [by apply (getenv_spec rom fuel Hf)|].
  destruct (remove_var_ok name vars (repr_vars _ _ Hr)) as [_ Hnot]. rewrite lookup_var_add by done.
  destruct (decide (name' = name)); [done|]. by apply lookup_var_remove.
Qed.

Lemma setenv_getenv_witness : exists b',
  setenv (Z.to_nat 9000) (lit "ipaddr") (lit "10.0.0.7") (board some_vars) = Ret 0 b' /\
  finds [] (Z.to_nat 9000) b' (lit "ipaddr") (Some (lit "10.0.0.7")).
Proof.
  destruct (setenv_getenv [] (Z.to_nat 9000) (board some_vars) some_vars (lit "ipaddr") (lit "10.0.0.7")) as (b' & E & Hg);
    [by vm_compute|apply some_vars_repr|by apply (bool_decide_unpack _); vm_compute|by apply (bool_decide_unpack _); vm_compute
    |by vm_compute|done|by intros [_ [?|?]]|by vm_compute|].
  exists b'. split; [exact E|]. exact (proj1 (Hg (lit "ipaddr") eq_refl)).
Defined.

(** [setenv] of a value that can never fit answers -1, but the old
    value is gone by then and the checksum is not the one of the new contents. *)
Theorem setenv_too_long fuel b vars name val :
  ENV_DATA < Z.of_nat fuel -> env_repr b vars -> ~ (name ∈ vars.*1 /\ protected name) -> val <> lit "-" ->
  ENV_DATA < pos name + pos val + 3 < 2 ^ 32 ->
  exists b', setenv fuel name val b = Ret (-1) b' /\ env_repr b' (remove_var name vars) /\ env_crc b' = env_crc b.
Proof.
  intros Hf Hr Hp Hd Hlong. unfold setenv. rewrite bool_decide_false by done.
  pose proof (setenv_take_out fuel Hf b vars name [val] Hr ltac:(lia)) as T. rewrite decide_False in T by done.
  destruct T as (b' & Hr' & Hc & E). exists b'. rewrite E. split_and!; [|done|done]. by eapply setenv_add_too_long.
Qed.

Lemma setenv_too_long_witness : exists b',
  setenv (Z.to_nat 9000) (lit "bootdelay") (replicate (Z.to_nat 9000) 48) (board some_vars) = Ret (-1) b' /\
  env_repr b' [(lit "ipaddr", lit "10.0.0.2"); (lit "ethaddr", lit "00:11:22:33:44:55")].
Proof.
  assert (remove_var (lit "bootdelay") some_vars = [(lit "ipaddr", lit "10.0.0.2"); (lit "ethaddr", lit "00:11:22:33:44:55")])
    as Hs by by vm_compute.
  destruct (setenv_too_long (Z.to_nat 9000) (board some_vars) some_vars (lit "bootdelay") (replicate (Z.to_nat 9000) 48))
    as (b' & E & Hr & _); [by vm_compute|apply some_vars_repr|by intros [_ [?|?]]|by vm_compute|by vm_compute|].
  rewrite Hs in Hr. exists b'. split; [exact E|exact Hr].
Defined.

(** The room for a new variable is checked against the whole block and
    not against what the other variables leave: with a variable of 4500 characters
    another one of 3700 characters, which the check lets pass, is written past the end. *)
Theorem setenv_overruns_block :
  let vars := [(lit "bootargs", replicate (Z.to_nat 4500) 97)] in
  env_repr (board vars) vars /\
  stopped (setenv (Z.to_nat 9000) (lit "x") (replicate (Z.to_nat 3700) 98) (board vars)) = Some OutOfBounds.
Proof.
  cbv zeta. split; [|vm_compute; reflexivity]. apply board_repr; [|vm_compute; reflexivity]. split; [|apply NoDup_singleton].
  constructor; [|constructor]. split; [by apply (bool_decide_unpack _); vm_compute|]. by apply Forall_replicate.
Qed.

(** A value with a '=' in it is stored but never found again, since the
    name is taken to reach to the last '='; setting the variable once more adds a
    second copy. *)
Theorem value_with_equals_is_lost :
  let b1 := setenv (Z.to_nat 9000) (lit "bootargs") (lit "root=/dev/rom0") (board some_vars) in
  match b1 with
  | Ret r b1 => r = 0 /\ returned (getenv [] (Z.to_nat 9000) (lit "bootargs") b1) = Some (-1, None) /\
      match setenv (Z.to_nat 9000) (lit "bootargs") (lit "root=/dev/rom1") b1 with
      | Ret r b2 => r = 0 /\
          take 102 (env_data b2) = flat some_vars ++
            lit "bootargs=root=/dev/rom0" ++ 0 :: lit "bootargs=root=/dev/rom1" ++ [0]
      | Stop _ _ => False
      end
  | Stop _ _ => False
  end.
Proof. by vm_compute. Qed.

Lemma char_not_equals b i : Forall (fun c => c <> 61) (env_data b) -> exists c, get_env_char i b = Ret c b /\ c <> 61.
Proof.
  intros Hb. unfold get_env_char, gets. eexists. split; [done|].
  destruct (bi_env b && (u32 i <? ENV_DATA)); [|done]. destruct (env_data b !! Z.to_nat (u32 i)) as [c|] eqn:E.
  - rewrite (nth_lookup_Some _ _ _ _ E). rewrite Forall_lookup in Hb. by eapply Hb.
  - by rewrite nth_overflow by by apply lookup_ge_None.
Qed.

Lemma match_backward_loops b n i k :
  Forall (fun c => c <> 61) (env_data b) -> match_backward n i k b = Stop OutOfFuel b.
Proof.
  intros Hb. revert i k. induction n as [|n IH]; intros i k; [done|]. cbn [match_backward].
  destruct (char_not_equals b (i - 1) Hb) as (c & E & Hc). rewrite (bind_Ret _ _ _ _ _ E).
  by rewrite (proj2 (Z.eqb_neq c 61)).
Qed.

(** The scans that only read end in the state they start in. *)
Lemma match_forward_result b n i k :
  (exists p, match_forward n i k b = Ret p b) \/ match_forward n i k b = Stop OutOfFuel b.
Proof.
  revert i k. induction n as [|n IH]; intros i k; [by right|]. cbn [match_forward]. unfold get_env_char.
  rewrite bind_gets. destruct (_ =? 0); [by left; eexists|]. apply IH.
Qed.

Lemma getenv_next_result b n i : 0 <= i < ENV_DATA ->
  (exists p, getenv_next n i b = Ret (Some p) b) \/ getenv_next n i b = Stop OutOfFuel b.
Proof.
  assert (ENV_DATA = 8188) as He by done.
  cut (forall i, 0 <= i <= ENV_DATA ->
    (exists p, getenv_next n i b = Ret (Some p) b) \/ getenv_next n i b = Stop OutOfFuel b); [intros H ?; apply H; lia|].
  induction n as [|n IH]; intros j Hj; [by right|]. cbn [getenv_next]. unfold get_env_char. rewrite bind_gets.
  rewrite u32_small by (unfold is_u32; lia). destruct (decide (j = ENV_DATA)) as [->|Hne].
  - rewrite Z.ltb_irrefl, andb_false_r. left. by eexists.
  - rewrite (proj2 (Z.leb_gt _ _)) by lia. destruct (_ =? 0); [left; by eexists|]. apply IH. lia.
Qed.

(** On a block that does not start with NUL and has no '=' in it, as the
    one of an erased flash is, no look-up ever returns, whatever the bound on its
    steps: [envmatch] goes back for a '=' without an end. *)
Theorem getenv_hangs_without_equals rom fuel b name c d :
  bi_env b = true -> env_data b = c :: d -> c <> 0 -> Forall (fun c => c <> 61) (c :: d) ->
  getenv rom fuel name b = Stop OutOfFuel b.
Proof.
  intros Hl Hd Hc Hb. unfold getenv. destruct fuel as [|n]; [done|]. set (fuel := S n).
  assert (get_env_char 0 b = Ret c b) as E0 by (unfold get_env_char, gets; by rewrite Hl, Hd).
  change (getenv_loop rom fuel fuel name 0 b) with (getenv_loop rom fuel (S n) name 0 b). cbn [getenv_loop].
  rewrite (bind_Ret _ _ _ _ _ E0), (proj2 (Z.eqb_neq c 0)) by done.
  destruct (getenv_next_result b fuel 0 ltac:(done)) as [[p E]|E]; [|by rewrite (bind_Stop _ _ _ _ _ E)].
  rewrite (bind_Ret _ _ _ _ _ E). apply bind_Stop. unfold envmatch. cbv zeta.
  destruct (match_forward_result b fuel 0 0) as [[[i k] E2]|E2]; [|by apply bind_Stop].
  rewrite (bind_Ret _ _ _ _ _ E2). apply bind_Stop. apply match_backward_loops. by rewrite Hd.
Qed.

Lemma getenv_hangs_without_equals_witness :
  getenv [] (Z.to_nat 20000) (lit "ethaddr") (mkBd true 0 (replicate (Z.to_nat ENV_DATA) 255) 0 [] 0 0) =
  Stop OutOfFuel (mkBd true 0 (replicate (Z.to_nat ENV_DATA) 255) 0 [] 0 0).
Proof.
  apply (getenv_hangs_without_equals [] (Z.to_nat 20000) _ (lit "ethaddr") 255 (replicate (Z.to_nat 8187) 255)); [done|by vm_compute|done|].
  constructor; [done|]. by apply Forall_replicate.
Defined.
