(* ===== verification/EnvFlash.v ===== *)
(** * The environment in the flash
    (src/linux2510/drivers/char/envm-s3c2510_4M.c and envm-s3c2510_2M.c)

    Programming and erasing of the flash by the environment driver, its device
    operations and its functions for the kernel.  There is one bank
    ([CFG_MAX_FLASH_BANKS]), so the loops over the banks have one turn. *)

From S2P Require Import Prelude EnvCrc FlashChip Env.

Definition CFG_MAX_FLASH_SECT : Z := 71.
Definition PHYS_FLASH_1 : Z := 0x80000000.
Definition CFG_FLASH_BASE : Z := PHYS_FLASH_1.
Definition FLASH_BANK_SIZE : Z := 0x400000.
Definition MAIN_SECT_SIZE : Z := 0x10000.
Definition PARAM_SECT_SIZE : Z := 0x2000.
Definition FLASH_UNKNOWN : Z := 0xffff.
Definition FLASH_VENDMASK : Z := 0xffff0000.
Definition FLASH_TYPEMASK : Z := 0xffff.
Definition SAMSUNG_MANUFACT : Z := 0xec00ec.
Definition SAMSUNG_ID_K8B1616UBA : Z := 0x22452245.

Definition ERR_OK : Z := 0.
Definition ERR_PROTECTED : Z := -3.
Definition ERR_INVAL : Z := -4.
Definition ERR_ALIGN : Z := -5.
Definition ERR_UNKNOWN_FLASH_VENDOR : Z := -6.
Definition ERR_UNKNOWN_FLASH_TYPE : Z := -7.
Definition ERR_PROG_ERROR : Z := -8.
Definition ENOTTY : Z := 25.
Definition EBUSY : Z := 16.

(** [flash_info[0]] *)
Record flash_info_t : Type := mkInfo {
  size : Z;
  sector_count : Z;
  flash_id : Z;
  start : list Z;
  protect : list Z;
}.

(** The variables of the driver and the chip; [stray] are the writes through a
    pointer that is not one of the driver's objects. *)
Record EnvSt (F : Type) : Type := mkEnvSt {
  es_bd : Bd;
  es_info : flash_info_t;
  envname : bytes;
  envvalue : bytes;
  envm_count : Z;
  stray : list (Z * bytes);
  chip : F;
}.
Arguments mkEnvSt {F}. Arguments es_bd {F}. Arguments es_info {F}. Arguments envname {F}.
Arguments envvalue {F}. Arguments envm_count {F}. Arguments stray {F}. Arguments chip {F}.

Section Setters.
Context {F : Type}.
Implicit Types s : EnvSt F.
Definition set_bd b s := mkEnvSt b (es_info s) (envname s) (envvalue s) (envm_count s) (stray s) (chip s).
Definition set_info i s := mkEnvSt (es_bd s) i (envname s) (envvalue s) (envm_count s) (stray s) (chip s).
Definition set_envname n s := mkEnvSt (es_bd s) (es_info s) n (envvalue s) (envm_count s) (stray s) (chip s).
Definition set_envvalue v s := mkEnvSt (es_bd s) (es_info s) (envname s) v (envm_count s) (stray s) (chip s).
Definition set_envm_count c s := mkEnvSt (es_bd s) (es_info s) (envname s) (envvalue s) c (stray s) (chip s).
Definition add_stray w s := mkEnvSt (es_bd s) (es_info s) (envname s) (envvalue s) (envm_count s) (stray s ++ [w]) (chip s).
Definition set_chip (f : F) s := mkEnvSt (es_bd s) (es_info s) (envname s) (envvalue s) (envm_count s) (stray s) f.
End Setters.

Definition MAX_ENVNAME_LEN : nat := 256.
Definition MAX_ENVVALUE_LEN : nat := 256.

(** The bytes of [env_t]. *)
Definition bytes_le32 (w : Z) : bytes :=
  [Z.land w 0xff; Z.land (Z.shiftr w 8) 0xff; Z.land (Z.shiftr w 16) 0xff; Z.land (Z.shiftr w 24) 0xff].
Definition env_image (b : Bd) : bytes := bytes_le32 (env_crc b) ++ env_data b.

Section EnvFlash.
(** [CFG_ENV_ADDR] is where the two versions of the driver differ; [fuel]
    bounds the wait for an erasure and the loops over the strings. *)
Context {F : Type} `{NorFlash F} (CFG_ENV_ADDR : Z) (fuel : nat).
Abbreviation FM A := (M (EnvSt F) A).

Definition put16 (a d : Z) : FM unit := modify (fun s => set_chip (wr16 a d (chip s)) s).
Definition get16 (a : Z) : FM Z := fun s => let '(c, f) := rd16 a (chip s) in Ret c (set_chip f s).
Definition get8 (a : Z) : FM Z := fun s => let '(c, f) := rd8 a (chip s) in Ret c (set_chip f s).
(** A function on the board information. *)
Definition on_bd {A} (m : M Bd A) : FM A := fun s =>
  match m (es_bd s) with Ret a b => Ret a (set_bd b s) | Stop e b => Stop e (set_bd b s) end.
(** An element of an array. *)
Definition at_index {A} (l : list A) (i : Z) : FM A :=
  match l !! Z.to_nat i with
  | Some x => if 0 <=? i then mret x else stop_with OutOfBounds
  | None => stop_with OutOfBounds
  end.

Definition addr2info (addr : Z) : FM (option flash_info_t) :=
  info ← gets es_info;
  s0 ← at_index (start info) 0;
  mret (if negb (flash_id info =? FLASH_UNKNOWN) && (s0 <=? addr) && (addr <=? u32 (s0 + size info - 1))
        then Some info else None).

(** The loop of [FlashCompareData]; [src] are the halfwords in memory. *)
Fixpoint compare_loop (n : nat) (tgt : Z) (src : list Z) : FM Z :=
  match n, src with
  | O, _ => mret ERR_OK
  | S _, [] => stop_with OutOfBounds
  | S n', x :: src' =>
      t ← get16 tgt;
      if negb (t =? x) then mret ERR_PROG_ERROR else compare_loop n' (tgt + 2) src'
  end.
Definition FlashCompareData (BaseAddr : Z) (src : list Z) (SrcSize : Z) : FM Z :=
  compare_loop (Z.to_nat (SrcSize / 2)) BaseAddr src.

(** The delays have no effect but time. *)
Definition write_word (dest data : Z) : FM Z :=
  put16 (CFG_FLASH_BASE + 2 * 0x555) 0xaa ;;
  put16 (CFG_FLASH_BASE + 2 * 0x2aa) 0x55 ;;
  put16 (CFG_FLASH_BASE + 2 * 0x555) 0xa0 ;;
  put16 dest data ;;
  put16 CFG_FLASH_BASE 0xf0 ;;
  r ← FlashCompareData dest [data] 1;
  if negb (r =? 0) then get16 dest ;; mret ERR_PROG_ERROR
  else mret ERR_OK.

(** [data = (data >> 8) | (byte << 24)] in a [ushort]. *)
Definition shift_in (data byte : Z) : Z := u16 (Z.lor (Z.shiftr data 8) (u32 (Z.shiftl byte 24))).

(** [n] bytes of the flash, shifted in. *)
Fixpoint shift_flash (n : nat) (cp data : Z) : FM (Z * Z) :=
  match n with
  | O => mret (cp, data)
  | S n' => b ← get8 cp; shift_flash n' (cp + 1) (shift_in data b)
  end.

(** [while (cnt >= 2)]; the result: an error, or [src], [addr] and [cnt]. *)
Fixpoint write_words (src : bytes) (addr : Z) : FM (Z + bytes * Z) :=
  match src with
  | b0 :: b1 :: src' =>
      rc ← write_word addr (half b0 b1);
      if negb (rc =? 0) then mret (inl rc) else write_words src' (u32 (addr + 2))
  | _ => mret (inr (src, addr))
  end.

(** [src]: the [cnt] bytes at the source. *)
Definition write_buff (src : bytes) (addr : Z) : FM Z :=
  let wp := Z.land addr (Z.lnot 3) in
  let l := addr - wp in
  head ← (if l =? 0 then mret (inr (src, wp))
          else
            '(cp, data) ← shift_flash (Z.to_nat l) wp 0;
            let n := Nat.min (4 - Z.to_nat l) (length src) in
            let data := foldl shift_in data (take n src) in
            let src' := drop n src in
            '(cp, data) ← (if decide (src' = []) then shift_flash (4 - Z.to_nat l - n) (cp + Z.of_nat n) data
                           else mret (cp, data));
            rc ← write_word wp data;
            if negb (rc =? 0) then mret (inl rc) else mret (inr (src', u32 (wp + 4))));
  match head with
  | inl rc => mret rc
  | inr (src, wp) =>
      rest ← write_words src addr;
      match rest with
      | inl rc => mret rc
      | inr ([], _) => mret ERR_OK
      | inr (src, _) =>
          let n := Nat.min 4 (length src) in
          let data := foldl shift_in 0 (take n src) in
          '(_, data) ← shift_flash (4 - n) (wp + Z.of_nat n) data;
          write_word wp data
      end
  end.

(** The check of the protection, from the sector [i]. *)
Fixpoint write_protected (n : nat) (i addr last : Z) (info : flash_info_t) : FM bool :=
  match n with
  | O => mret false
  | S n' =>
      si ← at_index (start info) i;
      s0 ← at_index (start info) 0;
      e_addr ← (if i =? sector_count info - 1 then mret (u32 (s0 + size info)) else at_index (start info) (i + 1));
      p ← at_index (protect info) i;
      if (si <=? last) && (addr <? e_addr) && negb (p =? 0) then mret true
      else write_protected n' (i + 1) addr last info
  end.

Definition flash_write (src : bytes) (addr : Z) : FM Z :=
  let cnt := Z.of_nat (length src) in
  let last := u32 (addr + cnt - 1) in
  info_first ← addr2info addr;
  info_last ← addr2info last;
  if cnt =? 0 then mret ERR_OK
  else
    match info_first, info_last with
    | Some info, Some _ =>
        prot ← write_protected (Z.to_nat (sector_count info)) 0 addr last info;
        if prot : bool then mret ERR_PROTECTED
        else
          s0 ← at_index (start info) 0;
          let len := u32 (s0 + size info - addr) in
          let len := if cnt <? len then cnt else len in
          rc ← write_buff (take (Z.to_nat len) src) addr;
          mret (if negb (rc =? 0) then rc else ERR_OK)
    | _, _ => mret ERR_INVAL
    end.

(** The number of protected sectors from [sect] on. *)
Fixpoint count_protected (n : nat) (sect : Z) (info : flash_info_t) : FM Z :=
  match n with
  | O => mret 0
  | S n' =>
      p ← at_index (protect info) sect;
      prot ← count_protected n' (sect + 1) info;
      mret (if p =? 0 then prot else prot + 1)
  end.

(** [while (temp != 0x00FF)] *)
Fixpoint wait_erased (n : nat) (a : Z) : FM unit :=
  match n with
  | O => stop_with OutOfFuel
  | S n' =>
      t ← get16 a;
      if Z.land t 0xff =? 0xff then mret tt else wait_erased n' a
  end.

Definition erase_sector (SectorAddr : Z) : FM unit :=
  put16 (CFG_FLASH_BASE + 2 * 0x555) 0xaa ;;
  put16 (CFG_FLASH_BASE + 2 * 0x2aa) 0x55 ;;
  put16 (CFG_FLASH_BASE + 2 * 0x555) 0x80 ;;
  put16 (CFG_FLASH_BASE + 2 * 0x555) 0xaa ;;
  put16 (CFG_FLASH_BASE + 2 * 0x2aa) 0x55 ;;
  put16 SectorAddr 0x30 ;;
  wait_erased fuel SectorAddr ;;
  put16 CFG_FLASH_BASE 0xf0.

Fixpoint erase_sectors (n : nat) (sect : Z) : FM unit :=
  match n with
  | O => mret tt
  | S n' =>
      info ← gets es_info;
      a ← at_index (start info) sect;
      erase_sector a ;;
      erase_sectors n' (sect + 1)
  end.

Definition flash_erase (info : flash_info_t) (s_first s_last : Z) : FM Z :=
  if flash_id info =? FLASH_UNKNOWN then mret ERR_UNKNOWN_FLASH_TYPE
  else if (s_first <? 0) || (s_last <? s_first) then mret ERR_INVAL
  else if negb (Z.land (flash_id info) FLASH_VENDMASK =? Z.land SAMSUNG_MANUFACT FLASH_VENDMASK) then
    mret ERR_UNKNOWN_FLASH_VENDOR
  else
    let n := Z.to_nat (s_last - s_first + 1) in
    prot ← count_protected n s_first info;
    if negb (prot =? 0) then mret ERR_PROTECTED
    else erase_sectors n s_first ;; mret ERR_OK.

(** The search for the first and the last sector, from [sect]. *)
Fixpoint find_sectors (n : nat) (sect addr_first addr_last s_first s_last : Z) (info : flash_info_t) : FM (Z * Z) :=
  match n with
  | O => mret (s_first, s_last)
  | S n' =>
      s0 ← at_index (start info) 0;
      last ← (if sect =? sector_count info - 1 then mret (u32 (s0 + size info - 1))
              else e ← at_index (start info) (sect + 1); mret (u32 (e - 1)));
      a ← at_index (start info) sect;
      if last <? addr_first then find_sectors n' (sect + 1) addr_first addr_last s_first s_last info
      else if addr_last <? a then find_sectors n' (sect + 1) addr_first addr_last s_first s_last info
      else
        find_sectors n' (sect + 1) addr_first addr_last
          (if addr_first =? a then sect else s_first) (if addr_last =? last then sect else s_last) info
  end.

Definition flash_sect_erase (addr_first addr_last : Z) : FM Z :=
  info ← gets es_info;
  if flash_id info =? FLASH_UNKNOWN then mret ERR_OK
  else
    '(s_first, s_last) ← find_sectors (Z.to_nat (sector_count info)) 0 addr_first addr_last (-1) (-1) info;
    if (0 <=? s_first) && (s_first <=? s_last) then
      rc ← flash_erase info s_first s_last;
      mret (if negb (rc =? 0) then rc
            else let erased := s_last - s_first + 1 in if negb (erased =? 0) then erased else rc)
    else mret ERR_ALIGN.

(** [size] is [sizeof (env_t)]. *)
Definition board_env_save : FM Z :=
  let start_addr := CFG_ENV_ADDR in
  let end_addr := start_addr + CFG_ENV_SIZE - 1 in
  flash_sect_erase start_addr end_addr ;;
  loaded ← gets (fun s => bi_env (es_bd s));
  if negb loaded then stop_with NullPointer
  else
    image ← gets (fun s => env_image (es_bd s));
    flash_write image start_addr ;;
    mret 0.

(** _IO('g', n), _IOC_TYPE and _IOC_NR *)
Definition ENVM_IOC (n : Z) : Z := Z.lor (Z.shiftl 103 8) n.
Definition ENVM_IOCSETNAME : Z := ENVM_IOC 1.
Definition ENVM_IOCSETENV : Z := ENVM_IOC 2.
Definition ENVM_IOCSAVEENV : Z := ENVM_IOC 4.
Definition ENVM_IOCGETBUF : Z := ENVM_IOC 5.

(** [memcpy (array, buf, n)]; [buf] is the memory at the argument. *)
Definition memcpy_from (buf : bytes) (n : nat) (set : bytes -> EnvSt F -> EnvSt F) : FM unit :=
  if (n <=? length buf)%nat then modify (set (take n buf)) else stop_with OutOfBounds.

Definition string_at (a : EnvSt F -> bytes) : FM cstr :=
  v ← gets a;
  match string_in v with Some s => mret s | None => stop_with OutOfBounds end.

(** The result, and what ENVM_IOCGETBUF stores in the buffer. *)
Definition envm_ioctl (cmd : Z) (buf : bytes) : FM (Z * option env_ptr) :=
  if negb (Z.land (Z.shiftr cmd 8) 0xff =? 103) then mret (- ENOTTY, None)
  else if 5 <? Z.land cmd 0xff then mret (- ENOTTY, None)
  else if cmd =? ENVM_IOCSETNAME then
    memcpy_from buf MAX_ENVNAME_LEN set_envname ;; mret (0, None)
  else if cmd =? ENVM_IOCSETENV then
    memcpy_from buf MAX_ENVVALUE_LEN set_envvalue ;;
    n ← string_at envname;
    v ← string_at envvalue;
    r ← on_bd (setenv fuel n v);
    mret (r, None)
  else if cmd =? ENVM_IOCSAVEENV then board_env_save ;; mret (0, None)
  else if cmd =? ENVM_IOCGETBUF then mret (0, Some (InRam 0))
  else mret (- ENOTTY, None).

Definition envm_open : FM Z :=
  c ← gets envm_count;
  if negb (c =? 0) then mret (- EBUSY)
  else modify (set_envm_count (c + 1)) ;; mret 0.

Definition envm_release : FM Z :=
  c ← gets envm_count;
  modify (set_envm_count (c - 1)) ;; mret 0.

(** The geometry of the board CONFIG_BOARD_2510REF. *)
Definition sector_start (j : Z) : Z :=
  if (0 <=? j) && (j <=? 7) then PHYS_FLASH_1 + j * PARAM_SECT_SIZE else PHYS_FLASH_1 + (j - 7) * MAIN_SECT_SIZE.
Definition ref_info : flash_info_t := mkInfo FLASH_BANK_SIZE CFG_MAX_FLASH_SECT
  (Z.lor (Z.land SAMSUNG_MANUFACT FLASH_VENDMASK) (Z.land SAMSUNG_ID_K8B1616UBA FLASH_TYPEMASK))
  (sector_start <$> seqZ 0 CFG_MAX_FLASH_SECT) (replicate (Z.to_nat CFG_MAX_FLASH_SECT) 0).
Definition flash_init : FM Z := modify (set_info ref_info) ;; mret FLASH_BANK_SIZE.

(** [memcpy] from the flash. *)
Fixpoint read_flash (n : nat) (a : Z) : FM bytes :=
  match n with
  | O => mret []
  | S n' => b ← get8 a; l ← read_flash n' (a + 1); mret (b :: l)
  end.

(** [(char* )bd->bi_env_crc] is the checksum itself taken as an address. *)
Definition envm_load : FM Z :=
  flash_init ;;
  modify (fun s => set_bd (mkBd true (env_crc (es_bd s)) (env_data (es_bd s)) (env_crc_valid (es_bd s))
    (bi_enetaddr (es_bd s)) (bi_ip_addr (es_bd s)) (load_addr (es_bd s))) s) ;;
  crc ← gets (fun s => env_crc (es_bd s));
  w ← read_flash 4 CFG_ENV_ADDR;
  modify (add_stray (crc, w)) ;;
  d ← read_flash (Z.to_nat ENV_DATA) (CFG_ENV_ADDR + 4);
  modify (fun s => set_bd (set_data d (es_bd s)) s) ;;
  mret 0.

(** The address, or the negative result of [getenv] as an address. *)
Definition envm_read (rom : bytes) (name : cstr) : FM (Z + option env_ptr) :=
  '(ret, addr) ← on_bd (getenv rom fuel name);
  mret (if ret <? 0 then inl ret else inr addr).

Definition envm_write (name value : cstr) : FM Z := on_bd (setenv fuel name value).
End EnvFlash.
