(* ===== verification/EnvFlashSpec.v ===== *)
(** * The environment survives a restart

    What the environment driver does to a chip that keeps the laws of
    FlashChip.v, up to the whole way of a variable: set, saved, loaded after a
    restart, read. *)

From S2P Require Import Prelude EnvCrc FlashChip Env EnvRefine EnvFlash.

(** The two versions of the driver. *)
Inductive variant : Type := V2M | V4M.
Definition env_addr (v : variant) : Z := PHYS_FLASH_1 + match v with V2M => 0x4000 | V4M => 0x2000 end.

(** The chip the drivers expect on this board: eight sectors of 8 KB, then
    sectors of 64 KB. *)
Definition ref_sector_len (a : Z) : Z :=
  let o := a - PHYS_FLASH_1 in
  if (0 <=? o) && (o <? 0x10000) && (o mod 0x2000 =? 0) then 0x2000
  else if (0x10000 <=? o) && (o <? FLASH_BANK_SIZE) && (o mod 0x10000 =? 0) then 0x10000 else 0.
Definition ref_chip : ChipKind :=
  mkChipKind CFG_FLASH_BASE FLASH_BANK_SIZE 0x555 0x2aa (fun _ => 0x30) ref_sector_len 0xec 0x2245.

(** Whatever the chip does, the comparison after the programming of a word looks
    at no word, so [write_word] never reports an error. *)
Lemma write_word_result {F} `{NorFlash F} dest data (s : EnvSt F) :
  write_word dest data s = Ret ERR_OK (set_chip (wr16 (base ref_chip) 0xf0 (program_sequence ref_chip dest data (chip s))) s).
Proof. done. Qed.

Section Chip.
Context {F : Type} `{NorFlash F} {L : ChipLaws F ref_chip}.
Implicit Types (s : EnvSt F) (f : F).

Lemma write_word_ok dest data s :
  idle (chip s) -> in_bank ref_chip dest -> Z.even dest = true -> 0 <= data < 2 ^ 16 ->
  exists f', write_word dest data s = Ret ERR_OK (set_chip f' s) /\ idle f' /\
    forall x, cell f' x = if decide (x = dest) then Z.land (cell (chip s) dest) data else cell (chip s) x.
Proof.
  intros Hi Hb He Hd. eexists. split; [apply write_word_result|].
  destruct (program_law (chip s) dest data Hi Hb He Hd) as [Hi' Hc].
  destruct (reset_idle _ Hi') as [Hi'' Hc']. split; [done|]. intros x. by rewrite (Hc' x), Hc.
Qed.

Lemma write_words_ok n src addr s :
  length src = (2 * n)%nat -> Forall is_byte src -> Z.even addr = true -> idle (chip s) ->
  base ref_chip <= addr -> addr + pos src <= base ref_chip + bank_size ref_chip -> blank (chip s) addr (pos src) ->
  exists f', write_words src addr s = Ret (inr ([], addr + pos src)) (set_chip f' s) /\ idle f' /\
    holds f' addr src /\ same_outside (chip s) f' addr (pos src).
Proof.
  revert src addr s. induction n as [|n IH]; intros src addr s Hn Hb He Hi Hlo Hhi Hbl.
  { destruct src; [|done]. exists (chip s). split_and!; [|done|done|done]. rewrite Z.add_0_r. by destruct s. }
  destruct src as [|b0 [|b1 src]]; [simpl in Hn; lia..|].
  apply Forall_cons in Hb as [Hb0 Hb]. apply Forall_cons in Hb as [Hb1 Hb]. pos in Hhi. pos in Hbl.
  unfold base, bank_size, ref_chip in Hlo, Hhi. unfold CFG_FLASH_BASE, PHYS_FLASH_1, FLASH_BANK_SIZE in *.
  destruct (write_word_ok addr (half b0 b1) s Hi) as (f1 & E1 & Hi1 & Hc1);
    [unfold in_bank; simpl; unfold CFG_FLASH_BASE, PHYS_FLASH_1, FLASH_BANK_SIZE; lia|done|by apply half_range|].
  assert (Z.even (addr + 2) = true) as He2 by (by rewrite Z.even_add, He).
  destruct (IH src (addr + 2) (set_chip f1 s)) as (f2 & E2 & Hi2 & Hh2 & Ho2);
    [simpl in Hn; lia|done|done|done|simpl; unfold CFG_FLASH_BASE, PHYS_FLASH_1; lia
    |simpl; unfold CFG_FLASH_BASE, PHYS_FLASH_1, FLASH_BANK_SIZE; lia| |].
  { intros x Hx Hxe. simpl. rewrite Hc1, decide_False by lia. apply Hbl; [lia|done]. }
  exists f2. cbn [write_words]. rewrite (bind_Ret _ _ _ _ _ E1). cbn [negb Z.eqb ERR_OK].
  rewrite u32_small by (unfold is_u32; lia). change (negb (ERR_OK =? 0)) with false. cbn iota. rewrite E2. simpl chip in Ho2.
  assert (forall x, flash_byte f1 x = if decide (addr <= x < addr + 2) then (if Z.odd x then b1 else b0) else flash_byte (chip s) x) as Hf1.
  { intros x. unfold flash_byte. rewrite Hc1. pose proof (Z.mod_pos_bound x 2 ltac:(lia)) as Hm.
    pose proof (even_mod _ He) as Hae. pose proof (Z.div_mod x 2 ltac:(lia)). pose proof (Z.div_mod addr 2 ltac:(lia)).
    destruct (decide (x - x mod 2 = addr)) as [Hx|Hx].
    - rewrite decide_True by lia. rewrite (Hbl addr) by (done || lia). rewrite Z.land_comm. change 0xffff with (Z.ones 16).
      rewrite Z.land_ones by lia. rewrite Z.mod_small by by apply half_range. by apply cell_byte_half.
    - rewrite decide_False by lia. done. }
  replace (addr + pos (b0 :: b1 :: src)) with (addr + 2 + pos src) by (pos; lia). split_and!; [done|done| |].
  - intros i b Hib. destruct i as [|[|i]]; simpl in Hib.
    + injection Hib as <-. rewrite Ho2, Hf1 by lia. rewrite decide_True by lia. rewrite Z.add_0_r.
      by rewrite <- Z.negb_even, He.
    + injection Hib as <-. rewrite Ho2, Hf1 by lia. rewrite decide_True by lia. rewrite Z.odd_add.
      by rewrite <- (Z.negb_even addr), He.
    + replace (addr + Z.of_nat (S (S i))) with (addr + 2 + Z.of_nat i) by lia. by apply Hh2.
  - intros x Hx. pos in Hx. rewrite Ho2 by lia. rewrite Hf1, decide_False by lia. done.
Qed.

Lemma wait_erased_ok n f a c :
  busy f a c n -> exists f', idle f' /\ (forall x, cell f' x = c x) /\
    forall s fuel, chip s = f -> (n < fuel)%nat -> wait_erased fuel a s = Ret tt (set_chip f' s).
Proof.
  revert f. induction n as [|n IH]; intros f Hb.
  - destruct (done_law _ _ _ Hb) as (Hr & Hi & Hc). exists (rd16 a f).2. split_and!; [done|done|].
    intros s [|fuel] <- Hf; [lia|]. cbn [wait_erased]. unfold get16, mbind, M_bind. destruct (rd16 a (chip s)) as [t f']. simpl in *.
    by rewrite Hr.
  - destruct (poll_law _ _ _ _ Hb) as [Hr Hb']. destruct (rd16 a f) as [t f1] eqn:E. simpl in Hr, Hb'.
    destruct (IH f1 Hb') as (f' & Hi & Hc & Hw). exists f'. split_and!; [done|done|].
    intros s [|fuel] <- Hf; [lia|]. cbn [wait_erased]. unfold get16 at 1, mbind, M_bind. rewrite E.
    rewrite (proj2 (Z.eqb_neq _ _) Hr). by rewrite (Hw (set_chip f1 s)) by (done || lia).
Qed.

Lemma erase_sector_ok a f :
  idle f -> in_bank ref_chip a -> 0 < sector_len ref_chip a ->
  exists N f', idle f' /\
    (forall x, cell f' x = if decide (in_sector ref_chip a x) then 0xffff else cell f x) /\
    forall s fuel, chip s = f -> (N <= fuel)%nat -> erase_sector fuel a s = Ret tt (set_chip f' s).
Proof.
  intros Hi Hb Hl. destruct (erase_law f a Hi Hb Hl) as [n Hbusy].
  destruct (wait_erased_ok n (erase_sequence ref_chip a f) a _ Hbusy) as (f' & Hi' & Hc & Hw).
  destruct (reset_idle f' Hi') as [Hi2 Hc2].
  exists (S n), (wr16 (base ref_chip) 0xf0 f'). split_and!; [done|intros x; by rewrite Hc2, Hc|].
  intros s fuel <- Hf. unfold erase_sector, put16. rewrite !bind_modify.
  erewrite bind_Ret; [|apply Hw; [done|lia]]. done.
Qed.

(** A range that is one sector, which is not protected. *)
Lemma one_sector fuel i a lo hi s :
  es_info s = ref_info -> 0 <= i ->
  find_sectors 71 0 lo hi (-1) (-1) ref_info s = Ret (i, i) s -> count_protected 1 i ref_info s = Ret 0 s ->
  at_index (start ref_info) i s = Ret a s ->
  flash_sect_erase fuel lo hi s = (erase_sector fuel a ;; mret 1) s.
Proof.
  intros Hinfo Hi E1 E2 E3. unfold flash_sect_erase. rewrite bind_gets, Hinfo.
  change (flash_id ref_info =? FLASH_UNKNOWN) with false. cbn iota. erewrite bind_Ret by exact E1. cbn beta iota.
  rewrite (proj2 (Z.leb_le 0 i) Hi), Z.leb_refl. cbn [andb]. unfold flash_erase.
  change (flash_id ref_info =? FLASH_UNKNOWN) with false. cbn iota. rewrite (proj2 (Z.ltb_ge i 0) Hi), Z.ltb_irrefl. cbn [orb].
  change (negb (Z.land (flash_id ref_info) FLASH_VENDMASK =? Z.land SAMSUNG_MANUFACT FLASH_VENDMASK)) with false. cbn iota zeta.
  replace (i - i + 1) with 1 by lia. change (Z.to_nat 1) with 1%nat. rewrite bind_bind. erewrite bind_Ret by exact E2.
  cbn [Z.eqb negb erase_sectors]. rewrite !bind_bind, bind_gets, Hinfo. rewrite bind_bind. erewrite bind_Ret by exact E3.
  rewrite bind_bind. unfold mbind, M_bind. by destruct (erase_sector fuel a s).
Qed.

Lemma env_sector v fuel s : es_info s = ref_info ->
  flash_sect_erase fuel (env_addr v) (env_addr v + CFG_ENV_SIZE - 1) s = (erase_sector fuel (env_addr v) ;; mret 1) s.
Proof.
  intros Hinfo. destruct v; [apply (one_sector fuel 2)|apply (one_sector fuel 1)]; (done || by vm_compute).
Qed.

Lemma env_sector_len v : in_bank ref_chip (env_addr v) /\ sector_len ref_chip (env_addr v) = CFG_ENV_SIZE /\
  Z.even (env_addr v) = true /\ Z.land (env_addr v) (Z.lnot 3) = env_addr v.
Proof. by destruct v; vm_compute. Qed.

Lemma env_not_protected v s :
  write_protected 71 0 (env_addr v) (u32 (env_addr v + CFG_ENV_SIZE - 1)) ref_info s = Ret false s.
Proof. by destruct v; vm_compute. Qed.

Lemma env_write_ok v src s :
  es_info s = ref_info -> pos src = CFG_ENV_SIZE -> Forall is_byte src -> idle (chip s) ->
  blank (chip s) (env_addr v) CFG_ENV_SIZE ->
  exists f', flash_write src (env_addr v) s = Ret ERR_OK (set_chip f' s) /\ idle f' /\
    holds f' (env_addr v) src /\ same_outside (chip s) f' (env_addr v) CFG_ENV_SIZE.
Proof.
  intros Hinfo Hlen Hb Hi Hbl. destruct (env_sector_len v) as (Hbank & _ & Heven & Hword). rewrite <- Hlen in *.
  assert (env_addr v + pos src <= base ref_chip + bank_size ref_chip) as Hhi by (rewrite Hlen; by destruct v).
  destruct (write_words_ok (Z.to_nat 4096) src (env_addr v) s) as (f' & E & Hi' & Hh & Ho);
    [unfold CFG_ENV_SIZE in Hlen; lia|done|done|done|apply Hbank|done|done|].
  exists f'. split_and!; [|done|done|done]. unfold flash_write. cbv zeta. rewrite Hlen.
  assert (forall a, addr2info a s = Ret (if negb (flash_id ref_info =? FLASH_UNKNOWN) && (CFG_FLASH_BASE <=? a) &&
    (a <=? u32 (CFG_FLASH_BASE + FLASH_BANK_SIZE - 1)) then Some ref_info else None) s) as Ha.
  { intros a. unfold addr2info. by rewrite bind_gets, Hinfo. }
  rewrite (bind_Ret _ _ _ _ _ (Ha _)), (bind_Ret _ _ _ _ _ (Ha _)).
  set (x := env_addr v) in *. replace (CFG_ENV_SIZE =? 0) with false by done. cbn iota.
  replace (negb _ && (CFG_FLASH_BASE <=? x) && (x <=? _)) with true by (unfold x; by destruct v). cbn iota.
  replace (negb _ && (CFG_FLASH_BASE <=? u32 (x + CFG_ENV_SIZE - 1)) && _) with true by (unfold x; by destruct v). cbn iota.
  rewrite (bind_Ret _ _ _ _ _ (env_not_protected v s)).
  assert (at_index (start ref_info) 0 s = Ret CFG_FLASH_BASE s) as E0 by by vm_compute. rewrite (bind_Ret _ _ _ _ _ E0).
  replace (CFG_ENV_SIZE <? u32 (CFG_FLASH_BASE + size ref_info - x)) with true by (unfold x; by destruct v). cbn iota.
  assert (write_buff src x s = Ret ERR_OK (set_chip f' s)) as Ew.
  { unfold write_buff. cbv zeta. rewrite Hword, Z.sub_diag. cbn [Z.eqb]. rewrite bind_mret. cbn beta iota.
    by rewrite (bind_Ret _ _ _ _ _ E). }
  rewrite take_ge by lia. by rewrite (bind_Ret _ _ _ _ _ Ew).
Qed.

Lemma bytes_le32_ok w : Forall is_byte (bytes_le32 w).
Proof.
  unfold bytes_le32. change 0xff with (Z.ones 8).
  assert (forall x, is_byte (Z.land x (Z.ones 8))) by (intros x; rewrite Z.land_ones by lia; apply Z.mod_pos_bound; lia). auto.
Qed.

(** Saving: the sector holds the environment, the rest is as before. *)
Lemma save_ok v f :
  idle f -> exists N, forall s fuel, chip s = f -> (N <= fuel)%nat ->
    es_info s = ref_info -> bi_env (es_bd s) = true -> pos (env_data (es_bd s)) = ENV_DATA ->
    Forall is_byte (env_data (es_bd s)) ->
    exists f', idle f' /\ holds f' (env_addr v) (env_image (es_bd s)) /\ same_outside f f' (env_addr v) CFG_ENV_SIZE /\
      board_env_save (env_addr v) fuel s = Ret 0 (set_chip f' s).
Proof.
  intros Hi. destruct (env_sector_len v) as (Hbank & Hsec & Heven & _).
  destruct (erase_sector_ok (env_addr v) f Hi Hbank ltac:(by rewrite Hsec)) as (N & f1 & Hi1 & Hc1 & E1).
  exists N. intros s fuel Hs Hf Hinfo Hl Hlen Hb.
  destruct (env_write_ok v (env_image (es_bd s)) (set_chip f1 s)) as (f2 & E2 & Hi2 & Hh & Ho);
    [done|unfold env_image; pos; rewrite Hlen; done|apply Forall_app; split; [apply bytes_le32_ok|done]|done| |].
  { intros x Hx _. simpl. rewrite Hc1, decide_True; [done|]. unfold in_sector. by rewrite Hsec. }
  exists f2. split_and!; [done|done| |].
  - intros x Hx. rewrite Ho by done. unfold flash_byte. simpl. rewrite Hc1, decide_False; [done|].
    unfold in_sector. rewrite Hsec. pose proof (Z.mod_pos_bound x 2 ltac:(lia)). pose proof (even_mod _ Heven).
    pose proof (Z.div_mod x 2 ltac:(lia)). pose proof (Z.div_mod (env_addr v) 2 ltac:(lia)). unfold CFG_ENV_SIZE in *. lia.
  - unfold board_env_save. cbv zeta. erewrite bind_Ret.
    2: { rewrite env_sector by done. by erewrite bind_Ret by by apply E1. }
    rewrite bind_gets. simpl. rewrite Hl. cbn [negb]. rewrite bind_gets. simpl. by rewrite (bind_Ret _ _ _ _ _ E2).
Qed.

Lemma read_flash_ok n a s :
  idle (chip s) -> base ref_chip <= a -> a + Z.of_nat n <= base ref_chip + bank_size ref_chip ->
  read_flash n a s = Ret ((fun i => flash_byte (chip s) (a + Z.of_nat i)) <$> seq 0 n) s.
Proof.
  revert a. induction n as [|n IH]; intros a Hi Hlo Hhi; [done|]. cbn [read_flash].
  assert (get8 a s = Ret (flash_byte (chip s) a) s) as E.
  { unfold get8. rewrite read8 by (done || unfold in_bank; lia). by destruct s. }
  rewrite (bind_Ret _ _ _ _ _ E), (bind_Ret _ _ _ _ _ (IH (a + 1) Hi ltac:(lia) ltac:(lia))).
  cbn [seq fmap list_fmap]. rewrite Z.add_0_r. unfold mret, M_ret. do 2 f_equal. rewrite <- fmap_S_seq, <- list_fmap_compose.
  apply list_fmap_ext. intros i x _. simpl. f_equal. lia.
Qed.

(** What is in the flash where it holds [l]. *)
Lemma holds_seq f a l : holds f a l -> (fun i => flash_byte f (a + Z.of_nat i)) <$> seq 0 (length l) = l.
Proof.
  intros Hh. apply list_eq. intros i. rewrite list_lookup_fmap. destruct (l !! i) as [b|] eqn:E.
  - rewrite lookup_seq_lt by by eapply lookup_lt_Some. simpl. f_equal. by apply Hh.
  - rewrite lookup_seq_ge; [done|]. by apply lookup_ge_None.
Qed.
Lemma holds_app f a l l' : holds f a (l ++ l') -> holds f a l /\ holds f (a + pos l) l'.
Proof.
  intros Hh. split; intros i b Hb.
  - apply Hh. by apply lookup_app_l_Some.
  - replace (a + pos l + Z.of_nat i) with (a + Z.of_nat (length l + i)) by lia. apply Hh.
    by rewrite lookup_app_r, Nat.add_sub_swap, Nat.sub_diag by lia.
Qed.

(** Loading, from a flash with an environment. *)
Lemma envm_load_ok v s w d :
  idle (chip s) -> length w = 4%nat -> pos d = ENV_DATA -> holds (chip s) (env_addr v) (w ++ d) ->
  exists s', envm_load (env_addr v) s = Ret 0 s' /\ chip s' = chip s /\ es_info s' = ref_info /\
    bi_env (es_bd s') = true /\ env_data (es_bd s') = d /\ env_crc (es_bd s') = env_crc (es_bd s) /\
    stray s' = stray s ++ [(env_crc (es_bd s), w)].
Proof.
  intros Hi Hw Hd Hh. apply holds_app in Hh as [Hh1 Hh2]. rewrite Hw in Hh2. unfold envm_load, flash_init.
  rewrite !bind_bind, !bind_modify, bind_mret, bind_modify, bind_gets.
  set (s1 := set_bd _ _).
  assert (chip s1 = chip s) as Hc1 by done. rewrite <- Hc1 in Hi, Hh1, Hh2.
  assert (read_flash 4 (env_addr v) s1 = Ret w s1) as E1.
  { rewrite read_flash_ok by (done || by destruct v). rewrite <- Hw. by rewrite holds_seq. }
  rewrite (bind_Ret _ _ _ _ _ E1), bind_modify. set (s2 := add_stray _ s1).
  assert (read_flash (Z.to_nat ENV_DATA) (env_addr v + 4) s2 = Ret d s2) as E2.
  { rewrite read_flash_ok by (done || by destruct v). rewrite <- Hd, Nat2Z.id. by rewrite holds_seq. }
  rewrite (bind_Ret _ _ _ _ _ E2), bind_modify. by eexists.
Qed.

(** A string in a buffer of 256 bytes. *)
Lemma string_in_buffer (str pad : bytes) : text str -> (length str < 256)%nat -> string_in (take 256 (str ++ 0 :: pad)) = Some str.
Proof.
  intros Ht Hlen. rewrite take_app_ge by lia. destruct (256 - length str)%nat as [|n] eqn:E; [lia|]. clear E Hlen. cbn [take].
  induction str as [|c str IH]; [done|]. apply Forall_cons in Ht as [(_ & Hc & _) Ht]. simpl.
  by rewrite (proj2 (Z.eqb_neq c 0) Hc), IH.
Qed.

Lemma ioctl_setname fuel v (name pad : bytes) s :
  256 <= pos (name ++ 0 :: pad) ->
  envm_ioctl (env_addr v) fuel ENVM_IOCSETNAME (name ++ 0 :: pad) s =
  Ret (0, None) (set_envname (take 256 (name ++ 0 :: pad)) s).
Proof.
  intros Hl. change (envm_ioctl (env_addr v) fuel ENVM_IOCSETNAME (name ++ 0 :: pad) s) with
    ((memcpy_from (name ++ 0 :: pad) MAX_ENVNAME_LEN set_envname ;; mret (0, @None env_ptr)) s). unfold memcpy_from. by rewrite (proj2 (Nat.leb_le _ _)) by (unfold MAX_ENVNAME_LEN, MAX_ENVVALUE_LEN; lia).
Qed.

Lemma ioctl_setenv fuel v (name val pad : bytes) s r b' :
  256 <= pos (val ++ 0 :: pad) -> string_in (envname s) = Some name -> text val -> (length val < 256)%nat ->
  setenv fuel name val (es_bd s) = Ret r b' ->
  envm_ioctl (env_addr v) fuel ENVM_IOCSETENV (val ++ 0 :: pad) s =
  Ret (r, None) (set_bd b' (set_envvalue (take 256 (val ++ 0 :: pad)) s)).
Proof.
  intros Hl Hn Ht Hlen E. unfold envm_ioctl, memcpy_from.
  change (negb (Z.land (Z.shiftr ENVM_IOCSETENV 8) 255 =? 103)) with false. cbn iota.
  change (5 <? Z.land ENVM_IOCSETENV 255) with false. cbn iota. change (ENVM_IOCSETENV =? ENVM_IOCSETNAME) with false. cbn iota.
  rewrite Z.eqb_refl. rewrite (proj2 (Nat.leb_le _ _)) by (unfold MAX_ENVNAME_LEN, MAX_ENVVALUE_LEN; lia). rewrite bind_modify. unfold string_at.
  rewrite bind_bind, bind_gets. change (envname (set_envvalue _ s)) with (envname s). rewrite Hn, bind_mret, bind_bind, bind_gets.
  change (envvalue (set_envvalue ?x s)) with x. rewrite string_in_buffer by done. rewrite bind_mret.
  erewrite bind_Ret; [done|]. unfold on_bd. change (es_bd (set_envvalue _ s)) with (es_bd s). by rewrite E.
Qed.
End Chip.

Lemma le32_bytes w : is_u32 w -> match bytes_le32 w with [b0; b1; b2; b3] => le32 b0 b1 b2 b3 = w | _ => False end.
Proof.
  unfold is_u32, bytes_le32, le32. intros Hw. change 0xff with (Z.ones 8). rewrite !Z.land_ones, !Z.shiftr_div_pow2 by lia.
  change (2 ^ 8) with 256. change (2 ^ 16) with 65536. change (2 ^ 24) with 16777216.
  replace (w / 65536) with (w / 256 / 256) by (by rewrite Z.div_div by lia).
  replace (w / 16777216) with (w / 256 / 256 / 256) by (by rewrite !Z.div_div by lia).
  change (2 ^ 32) with 4294967296 in Hw. Z.div_mod_to_equations. lia.
Qed.

Section Theorems.
Context {F : Type} `{NorFlash F} {L : ChipLaws F ref_chip}.
Implicit Types (s : EnvSt F) (f : F).

(** The block in the flash passes [check_crc]. *)
Lemma check_crc_ok c d b :
  c = crc_reference 0 d -> pos d = ENV_DATA -> Forall is_byte d -> env_crc_valid b = 0 ->
  returned (check_crc (bytes_le32 c ++ d) b) = Some true.
Proof.
  intros Hc Hlen Hb Hv. assert (is_u32 c) as Hu by (rewrite Hc; by apply crc_reference_range).
  pose proof (le32_bytes c Hu) as Hle. unfold check_crc. rewrite bind_gets, Hv. cbn [Z.eqb].
  destruct (bytes_le32 c) as [|b0 [|b1 [|b2 [|b3 [|]]]]] eqn:E; try done. simpl app. cbn iota.
  unfold crc_of. rewrite crc32_reference by (done || lia). rewrite take_ge by lia. rewrite bind_bind, bind_mret.
  rewrite bind_modify, bind_gets, Hle, <- Hc, Z.eqb_refl. done.
Qed.

(** The block of the environment, as the processor reads it. *)
Definition block f (a : Z) : bytes := (fun i => flash_byte f (a + Z.of_nat i)) <$> seq 0 (Z.to_nat CFG_ENV_SIZE).

(** The three requests that set a variable and save the environment. *)
Lemma setenv_save_ok v s vars name val pad1 pad2 :
  es_info s = ref_info -> env_repr (es_bd s) vars -> idle (chip s) ->
  text name -> text val -> (length name < 256)%nat -> (length val < 256)%nat ->
  256 <= pos (name ++ 0 :: pad1) -> 256 <= pos (val ++ 0 :: pad2) ->
  val <> lit "-" -> ~ (name ∈ vars.*1 /\ protected name) -> pos (flat (remove_var name vars ++ [(name, val)])) < ENV_DATA ->
  exists N, forall fuel, (N <= fuel)%nat -> exists s1 s2 s3 c d,
    envm_ioctl (env_addr v) fuel ENVM_IOCSETNAME (name ++ 0 :: pad1) s = Ret (0, None) s1 /\
    envm_ioctl (env_addr v) fuel ENVM_IOCSETENV (val ++ 0 :: pad2) s1 = Ret (0, None) s2 /\
    envm_ioctl (env_addr v) fuel ENVM_IOCSAVEENV [] s2 = Ret (0, None) s3 /\
    idle (chip s3) /\ holds (chip s3) (env_addr v) (bytes_le32 c ++ d) /\ c = crc_reference 0 d /\
    data_repr d (remove_var name vars ++ [(name, val)]) /\ vars_ok (remove_var name vars ++ [(name, val)]) /\
    same_outside (chip s) (chip s3) (env_addr v) CFG_ENV_SIZE.
Proof.
  intros Hinfo Hr Hi Hn Hv Hln Hlv Hp1 Hp2 Hd Hp Hfit. destruct (save_ok v (chip s) Hi) as [N Hsave].
  exists (Nat.max N (Z.to_nat (ENV_DATA + 1))). intros fuel Hf.
  assert (ENV_DATA < Z.of_nat fuel) as Hfuel by (rewrite ENV_DATA_eq in *; lia).
  assert (spec_setenv name val vars = (0, remove_var name vars ++ [(name, val)])) as Hs
    by (unfold spec_setenv; by rewrite !decide_False).
  destruct (setenv_spec fuel Hfuel (es_bd s) vars name val Hr Hn Hv ltac:(lia) ltac:(by rewrite Hs)) as (b' & E & Hr' & Hcrc).
  rewrite Hs in *. simpl in Hr', Hcrc. pose proof Hr' as [Hl' Hv' Hd']. pose proof Hd' as (Hlen' & Hb' & _).
  set (s1 := set_envname (take 256 (name ++ 0 :: pad1)) s). set (s2 := set_bd b' (set_envvalue (take 256 (val ++ 0 :: pad2)) s1)).
  destruct (Hsave s2 fuel) as (f' & Hi' & Hh & Ho & Es); [done|lia|done|done|done|done|].
  exists s1, s2, (set_chip f' s2), (env_crc b'), (env_data b'). split; [by apply ioctl_setname|].
  split; [apply (ioctl_setenv fuel v name val pad2 _ 0 b'); [done|by apply string_in_buffer|done|done|exact E]|].
  split; [|by split_and!].
  change (envm_ioctl (env_addr v) fuel ENVM_IOCSAVEENV [] ?x) with ((board_env_save (env_addr v) fuel ;; mret (0, @None env_ptr)) x).
  by rewrite (bind_Ret _ _ _ _ _ Es).
Qed.

(** C9: A variable that is set and saved through the device is there after
    a restart: whatever the memory holds, [envm_load] from the same chip makes
    [getenv] find the new value and the old value of every other variable; the
    checksum in the flash is right, and nothing outside the sector of the
    environment has changed.  The conditions: name and value are texts (no NUL, no
    equals sign, which would lose the value, EnvRefine.value_with_equals_is_lost)
    of fewer than 256 characters; the value is not the single dash, which removes;
    the name is not that of an existing protected variable; the strings fit into
    the block; the block in memory is well formed and the chip, one that keeps the
    laws of the data sheet, is idle on the board's flash; and there are enough
    steps to wait for the end of the erasure. *)
Theorem environment_survives_restart v rom s vars name val pad1 pad2 :
  es_info s = ref_info -> env_repr (es_bd s) vars -> idle (chip s) ->
  text name -> text val -> (length name < 256)%nat -> (length val < 256)%nat ->
  256 <= pos (name ++ 0 :: pad1) -> 256 <= pos (val ++ 0 :: pad2) ->
  val <> lit "-" -> ~ (name ∈ vars.*1 /\ protected name) -> pos (flat (remove_var name vars ++ [(name, val)])) < ENV_DATA ->
  exists N, forall fuel, (N <= fuel)%nat -> exists s1 s2 s3,
    envm_ioctl (env_addr v) fuel ENVM_IOCSETNAME (name ++ 0 :: pad1) s = Ret (0, None) s1 /\
    envm_ioctl (env_addr v) fuel ENVM_IOCSETENV (val ++ 0 :: pad2) s1 = Ret (0, None) s2 /\
    envm_ioctl (env_addr v) fuel ENVM_IOCSAVEENV [] s2 = Ret (0, None) s3 /\
    same_outside (chip s) (chip s3) (env_addr v) CFG_ENV_SIZE /\
    (forall b, env_crc_valid b = 0 -> returned (check_crc (block (chip s3) (env_addr v)) b) = Some true) /\
    forall s', chip s' = chip s3 -> exists s'', envm_load (env_addr v) s' = Ret 0 s'' /\
      forall name', pos name' < 2 ^ 32 ->
        finds rom fuel (es_bd s'') name' (if decide (name' = name) then Some val else lookup_var name' vars).
Proof.
  intros Hinfo Hr Hi Hn Hv Hln Hlv Hp1 Hp2 Hd Hp Hfit.
  destruct (setenv_save_ok v s vars name val pad1 pad2) as [N HN]; [done..|]. exists (Nat.max N (Z.to_nat (ENV_DATA + 1))).
  intros fuel Hf. destruct (HN fuel ltac:(lia)) as (s1 & s2 & s3 & c & d & E1 & E2 & E3 & Hi3 & Hh & Hc & Hd3 & Hv3 & Ho).
  exists s1, s2, s3. split_and!; [done|done|done|done| |].
  { intros b Hb. destruct Hd3 as (Hlen & Hbytes & _). unfold block.
    replace (Z.to_nat CFG_ENV_SIZE) with (length (bytes_le32 c ++ d)) by (rewrite ENV_DATA_eq in Hlen; unfold CFG_ENV_SIZE; rewrite length_app; simpl length; lia).
    rewrite holds_seq by done. by apply check_crc_ok. }
  intros s' Hs'. rewrite <- Hs' in Hi3, Hh.
  destruct (envm_load_ok v s' (bytes_le32 c) d) as (s'' & E & _ & _ & Hl & Hdata & _); [done|done|apply Hd3|done|].
  exists s''. split; [done|]. intros name' Hname'.
  assert (env_repr (es_bd s'') (remove_var name vars ++ [(name, val)])) as Hr'' by (split; [done|done|by rewrite Hdata]).
  replace (if decide (name' = name) then Some val else lookup_var name' vars)
    with (lookup_var name' (remove_var name vars ++ [(name, val)])).
  { apply (getenv_spec rom fuel); [rewrite ENV_DATA_eq in *; lia|done|done]. }
  destruct (remove_var_ok name vars (repr_vars _ _ Hr)) as [_ Hnot]. rewrite lookup_var_add by done.
  destruct (decide (name' = name)); [done|]. by apply lookup_var_remove.
Qed.

(** An environment that is loaded and saved without a change loses its
    checksum: [envm_load] copies the checksum to the address that the old checksum
    (0 after a restart) happens to be instead of into the variable, so that 0 is
    saved. *)
Theorem load_save_loses_checksum v s w d :
  idle (chip s) -> env_crc (es_bd s) = 0 -> length w = 4%nat -> pos d = ENV_DATA -> Forall is_byte d ->
  holds (chip s) (env_addr v) (w ++ d) ->
  exists N, forall fuel, (N <= fuel)%nat -> exists s1 s2,
    envm_load (env_addr v) s = Ret 0 s1 /\ stray s1 = stray s ++ [(0, w)] /\
    envm_ioctl (env_addr v) fuel ENVM_IOCSAVEENV [] s1 = Ret (0, None) s2 /\
    holds (chip s2) (env_addr v) ([0; 0; 0; 0] ++ d).
Proof.
  intros Hi Hcrc Hw Hd Hb Hh. destruct (envm_load_ok v s w d Hi Hw Hd Hh) as (s1 & E & Hchip & Hinfo & Hl & Hdata & Hc1 & Hstray).
  rewrite <- Hchip in Hi. destruct (save_ok v (chip s1) Hi) as [N Hsave]. exists N. intros fuel Hf.
  destruct (Hsave s1 fuel) as (f' & Hi' & Hh' & _ & Es); [done|done|done|done|by rewrite Hdata|by rewrite Hdata|].
  exists s1, (set_chip f' s1). split_and!; [done|by rewrite Hstray, Hcrc| |].
  - change (envm_ioctl (env_addr v) fuel ENVM_IOCSAVEENV [] s1) with ((board_env_save (env_addr v) fuel ;; mret (0, @None env_ptr)) s1).
    by rewrite (bind_Ret _ _ _ _ _ Es).
  - unfold env_image in Hh'. rewrite Hdata, Hc1, Hcrc in Hh'. exact Hh'.
Qed.

Lemma shift_in_zero b : is_byte b -> shift_in 0 b = 0.
Proof.
  unfold is_byte, shift_in. intros Hb. rewrite Z.shiftl_mul_pow2 by lia. change (2 ^ 24) with 16777216.
  change (Z.shiftr 0 8) with 0. rewrite Z.lor_0_l, u32_small by (unfold is_u32; lia). unfold u16.
  replace (b * 16777216) with (b * 256 * 2 ^ 16) by lia. by rewrite Z.mod_mul.
Qed.

Lemma shift_flash_zero n cp s :
  idle (chip s) -> base ref_chip <= cp -> cp + Z.of_nat n <= base ref_chip + bank_size ref_chip ->
  shift_flash n cp 0 s = Ret (cp + Z.of_nat n, 0) s.
Proof.
  revert cp. induction n as [|n IH]; intros cp Hi Hlo Hhi; cbn [shift_flash]; [by rewrite Z.add_0_r|].
  assert (get8 cp s = Ret (flash_byte (chip s) cp) s) as E.
  { unfold get8. rewrite read8 by (done || unfold in_bank; lia). by destruct s. }
  rewrite (bind_Ret _ _ _ _ _ E), shift_in_zero by apply flash_byte_range. rewrite IH by (done || lia). do 2 f_equal. lia.
Qed.

(** A write of an odd number of bytes reports success, but the first two
    bytes of the destination are 0 afterwards: the last byte is shifted out of the
    16-bit [data], which is written to the start of the buffer. *)
Theorem odd_write_clears_start n src addr s :
  length src = (2 * n + 1)%nat -> Forall is_byte src -> Z.land addr (Z.lnot 3) = addr -> Z.even addr = true -> idle (chip s) ->
  base ref_chip <= addr -> addr + pos src + 3 <= base ref_chip + bank_size ref_chip -> blank (chip s) addr (pos src) ->
  exists f', write_buff src addr s = Ret ERR_OK (set_chip f' s) /\ flash_byte f' addr = 0 /\ flash_byte f' (addr + 1) = 0.
Proof.
  intros Hn Hb Hword He Hi Hlo Hhi Hbl. destruct src as [|b src _] using rev_ind; [simpl in Hn; lia|].
  rewrite length_app in Hn. simpl in Hn. pos in Hhi. pos in Hbl. apply Forall_app in Hb as [Hb [Hbb _]%Forall_cons].
  destruct (write_words_ok n src addr s) as (f1 & E1 & Hi1 & _ & _);
    [lia|done|done|done|done|lia|intros x Hx; apply Hbl; lia|].
  assert (forall a s, write_words (src ++ [b]) a s =
    (r ← write_words src a; match r with inr ([], a') => mret (inr ([b], a')) | inr (r, a') => mret (inr (r ++ [b], a')) | inl e => mret (inl e) end) s) as Happ.
  { assert (length src = (2 * n)%nat) as Hl by lia. clear -Hl. revert src Hl.
    induction n as [|n IH]; intros src Hl a s0; [by destruct src|].
    destruct src as [|x [|y src]]; [simpl in Hl; lia..|]. simpl. rewrite bind_bind. unfold mbind, M_bind.
    destruct (write_word a (half x y) s0) as [rc s1|]; [|done]. destruct (negb (rc =? 0)); [done|].
    apply IH. simpl in Hl. lia. }
  unfold write_buff. cbv zeta. rewrite Hword, Z.sub_diag. cbn [Z.eqb]. rewrite bind_mret. cbn beta iota.
  erewrite bind_Ret by (rewrite Happ; by erewrite bind_Ret by exact E1). cbn beta iota.
  change (Nat.min 4 (length [b])) with 1%nat. cbn [take foldl]. rewrite shift_in_zero by done.
  erewrite bind_Ret by (apply shift_flash_zero; [done|lia|lia]). cbn beta iota.
  destruct (write_word_ok addr 0 (set_chip f1 s) Hi1) as (f2 & E2 & _ & Hc2); [unfold in_bank; lia|done|done|].
  exists f2. rewrite E2. split; [done|]. pose proof (even_mod _ He) as Hm. unfold flash_byte.
  replace (addr - addr mod 2) with addr by lia. replace ((addr + 1) mod 2) with 1 by (by rewrite <- Zplus_mod_idemp_l, Hm).
  replace (addr + 1 - 1) with addr by lia. rewrite Hc2, decide_True, Z.land_0_r by done. by rewrite Z.odd_add; destruct (Z.odd addr).
Qed.
End Theorems.

(** ** On the simulated chip *)

#[local] Instance ref_flash : NorFlash SimFlash := sim_flash ref_chip.
#[local] Instance ref_laws : ChipLaws SimFlash ref_chip := sim_laws ref_chip.

Definition erased_chip : SimFlash := mkSimFlash ∅ ReadArray.
Definition booted (vars : list var) : EnvSt SimFlash := mkEnvSt (board vars) ref_info [] [] 0 [] erased_chip.

Lemma environment_survives_restart_witness : exists N, forall fuel, (N <= fuel)%nat -> exists s1 s2 s3,
  envm_ioctl (env_addr V4M) fuel ENVM_IOCSETNAME (lit "ipaddr" ++ 0 :: replicate 256 0) (booted some_vars) = Ret (0, None) s1 /\
  envm_ioctl (env_addr V4M) fuel ENVM_IOCSETENV (lit "10.0.0.7" ++ 0 :: replicate 256 0) s1 = Ret (0, None) s2 /\
  envm_ioctl (env_addr V4M) fuel ENVM_IOCSAVEENV [] s2 = Ret (0, None) s3.
Proof.
  destruct (environment_survives_restart V4M [] (booted some_vars) some_vars (lit "ipaddr") (lit "10.0.0.7")
    (replicate 256 0) (replicate 256 0)) as [N HN];
    [done|apply some_vars_repr|done|by apply (bool_decide_unpack _); vm_compute|by apply (bool_decide_unpack _); vm_compute
    |by apply Nat.ltb_lt|by apply Nat.ltb_lt|by vm_compute|by vm_compute|done|by intros [_ [?|?]]|by vm_compute|].
  exists N. intros fuel Hf. destruct (HN fuel Hf) as (s1 & s2 & s3 & E1 & E2 & E3 & _).
  exists s1, s2, s3. split; [exact E1|]. split; [exact E2|exact E3].
Defined.

Lemma blank_sector f a n : f = erased_chip -> blank f a n.
Proof. intros -> x _ _. done. Qed.

Lemma erased_holds a n : holds erased_chip a (replicate n 255).
Proof.
  intros i b [-> _]%lookup_replicate. change (flash_byte erased_chip (a + Z.of_nat i)) with (cell_byte 0xffff (Z.odd (a + Z.of_nat i))).
  by destruct (Z.odd _).
Qed.

Lemma load_save_loses_checksum_witness : exists N, forall fuel, (N <= fuel)%nat -> exists s1 s2,
  envm_load (env_addr V2M) (booted []) = Ret 0 s1 /\
  envm_ioctl (env_addr V2M) fuel ENVM_IOCSAVEENV [] s1 = Ret (0, None) s2 /\
  holds (chip s2) (env_addr V2M) ([0; 0; 0; 0] ++ replicate (Z.to_nat ENV_DATA) 255).
Proof.
  destruct (load_save_loses_checksum V2M (booted []) (replicate 4 255) (replicate (Z.to_nat ENV_DATA) 255)) as [N HN];
    [done|done|done|by rewrite length_replicate|by apply Forall_replicate|rewrite <- replicate_add; apply erased_holds|].
  exists N. intros fuel Hf. destruct (HN fuel Hf) as (s1 & s2 & E1 & _ & E2 & Hh).
  exists s1, s2. split; [exact E1|]. split; [exact E2|exact Hh].
Defined.

Lemma odd_write_clears_start_witness : exists f',
  write_buff (lit "abc") (env_addr V4M) (booted []) = Ret ERR_OK (set_chip f' (booted [])) /\
  flash_byte f' (env_addr V4M) = 0 /\ flash_byte f' (env_addr V4M + 1) = 0.
Proof.
  apply (odd_write_clears_start 1 (lit "abc") (env_addr V4M) (booted []));
    [done|by apply (bool_decide_unpack _); vm_compute|done|done|done|by vm_compute|by vm_compute|by apply blank_sector].
Defined.
