(* ===== verification/FlashDev.v ===== *)
(** * The flash driver
    (src/linux2510/drivers/char/flash_s3c2510.c, src/linux2510/include/linux/flash_s3c2510.h)

    The device through which a new image is written to the flash: identification
    of the chip and its sectors, erasing, programming, and the request that
    installs an image from a file.  The chip is the class [NorFlash], the files of the
    kernel are the class [FileSys].  The delays have no effect but time. *)

From S2P Require Import Prelude FlashChip.

Definition FLASH_BASE_ADDR : Z := 0x80000000.
Definition FLASH_SIZE : Z := 0x00200000.
Definition PAGE_SIZE : Z := 4096.
Definition ARMBOOT_SIZE : Z := 1024 * 128.
Definition BUFF_SIZE : Z := 1024.
Definition D_30 : Z := 0x30.
Definition D_50 : Z := 0x50.
Definition D_55 : Z := 0x55.
Definition D_80 : Z := 0x80.
Definition D_90 : Z := 0x90.
Definition D_A0 : Z := 0xA0.
Definition D_AA : Z := 0xAA.
Definition D_F0 : Z := 0xF0.

(** _IO ('g', n) *)
Definition FL_IO (n : Z) : Z := Z.lor (Z.shiftl 103 8) n.
Definition FL_MAGIC : Z := 103.
Definition FL_ERASE_SECTOR : Z := FL_IO 0.
Definition FL_INTG_DISABLE : Z := FL_IO 1.
Definition FL_WT_ENABLE : Z := FL_IO 2.
Definition FL_INTG_ENABLE : Z := FL_IO 3.
Definition FL_INT_ONLYETH : Z := FL_IO 4.
Definition FL_FUZE_IMAGE : Z := FL_IO 5.
Definition FL_MAXNR : Z := 5.

Definition ENOMEM : Z := 12.
Definition EFAULT : Z := 14.
Definition EBUSY : Z := 16.
Definition ENOTTY : Z := 25.
Definition ENOMEDIUM : Z := 123.
Definition O_ACCMODE : Z := 3.
Definition O_WRONLY : Z := 1.
Definition O_RDWR : Z := 2.

Record FlashID : Type := mkFID {
  ManuID : Z;
  DeviceID : Z;
  FLASH_MAX_SECTOR_NUM : Z;
  FlashSectorAddr : list Z;
  uiCurSectNum : Z;
  uiWriteAddr : Z;
  Detectfail : Z;
}.
Definition set_ids m d r := mkFID m d (FLASH_MAX_SECTOR_NUM r) (FlashSectorAddr r) (uiCurSectNum r) (uiWriteAddr r) (Detectfail r).
Definition set_max x r := mkFID (ManuID r) (DeviceID r) x (FlashSectorAddr r) (uiCurSectNum r) (uiWriteAddr r) (Detectfail r).
Definition set_sectors x r := mkFID (ManuID r) (DeviceID r) (FLASH_MAX_SECTOR_NUM r) x (uiCurSectNum r) (uiWriteAddr r) (Detectfail r).
Definition set_cur x r := mkFID (ManuID r) (DeviceID r) (FLASH_MAX_SECTOR_NUM r) (FlashSectorAddr r) x (uiWriteAddr r) (Detectfail r).
Definition set_write x r := mkFID (ManuID r) (DeviceID r) (FLASH_MAX_SECTOR_NUM r) (FlashSectorAddr r) (uiCurSectNum r) x (Detectfail r).
Definition set_fail x r := mkFID (ManuID r) (DeviceID r) (FLASH_MAX_SECTOR_NUM r) (FlashSectorAddr r) (uiCurSectNum r) (uiWriteAddr r) x.
(** [memset (gpBuff, 0, PAGE_SIZE)] and [memset (&FID, 0, sizeof (FlashID))] *)
Definition zero_page : bytes := replicate (Z.to_nat PAGE_SIZE) 0.
Definition zero_FID : FlashID := mkFID 0 0 0 (replicate 100 0) 0 0 0.

(** The files: [open] for reading gives a descriptor or an error; the size of
    the file behind a descriptor; moving its position; [read] gives its result and the bytes it
    has stored; [close]; and the inodes of a path read anew from the flash
    ([cramfs_lookup_renew] along the path). *)
Class FileSys (D : Type) : Type := {
  fs_open : cstr -> D -> Z * D;
  fs_size : Z -> D -> Z;
  fs_skip : Z -> Z -> D -> D;
  fs_read : Z -> Z -> D -> Z * bytes * D;
  fs_close : Z -> D -> D;
  fs_renew : cstr -> D -> D;
}.

(** The variables of the driver, the pages it was given ([pages]: those not freed; [next_pages]: the results
    of [__get_free_page] to come), the writes to the interrupt and watchdog registers, the flag for interrupts,
    the chip and the files. *)
Record FlashSt (F D : Type) : Type := mkFl {
  FID : FlashID;
  s_nMajor : Z;
  s_bDeviceReadOpen : Z;
  s_bDeviceWriteOpen : Z;
  gpBuff : Z;
  runflprog_flag : Z;
  use_count : Z;
  pages : gmap Z bytes;
  next_pages : list Z;
  io : list (Z * Z);
  irqs_on : bool;
  nor : F;
  disk : D;
}.
Arguments mkFl {F D}. Arguments FID {F D}. Arguments s_nMajor {F D}. Arguments s_bDeviceReadOpen {F D}.
Arguments s_bDeviceWriteOpen {F D}. Arguments gpBuff {F D}. Arguments runflprog_flag {F D}. Arguments use_count {F D}.
Arguments pages {F D}. Arguments next_pages {F D}. Arguments io {F D}. Arguments irqs_on {F D}. Arguments nor {F D}. Arguments disk {F D}.

Section Setters.
Context {F D : Type}.
Implicit Types s : FlashSt F D.
Definition set_FID x s := mkFl x (s_nMajor s) (s_bDeviceReadOpen s) (s_bDeviceWriteOpen s) (gpBuff s) (runflprog_flag s) (use_count s) (pages s) (next_pages s) (io s) (irqs_on s) (nor s) (disk s).
Definition set_nMajor x s := mkFl (FID s) x (s_bDeviceReadOpen s) (s_bDeviceWriteOpen s) (gpBuff s) (runflprog_flag s) (use_count s) (pages s) (next_pages s) (io s) (irqs_on s) (nor s) (disk s).
Definition set_read_open x s := mkFl (FID s) (s_nMajor s) x (s_bDeviceWriteOpen s) (gpBuff s) (runflprog_flag s) (use_count s) (pages s) (next_pages s) (io s) (irqs_on s) (nor s) (disk s).
Definition set_write_open x s := mkFl (FID s) (s_nMajor s) (s_bDeviceReadOpen s) x (gpBuff s) (runflprog_flag s) (use_count s) (pages s) (next_pages s) (io s) (irqs_on s) (nor s) (disk s).
Definition set_gpBuff x s := mkFl (FID s) (s_nMajor s) (s_bDeviceReadOpen s) (s_bDeviceWriteOpen s) x (runflprog_flag s) (use_count s) (pages s) (next_pages s) (io s) (irqs_on s) (nor s) (disk s).
Definition set_runflprog x s := mkFl (FID s) (s_nMajor s) (s_bDeviceReadOpen s) (s_bDeviceWriteOpen s) (gpBuff s) x (use_count s) (pages s) (next_pages s) (io s) (irqs_on s) (nor s) (disk s).
Definition set_use_count x s := mkFl (FID s) (s_nMajor s) (s_bDeviceReadOpen s) (s_bDeviceWriteOpen s) (gpBuff s) (runflprog_flag s) x (pages s) (next_pages s) (io s) (irqs_on s) (nor s) (disk s).
Definition set_pages x s := mkFl (FID s) (s_nMajor s) (s_bDeviceReadOpen s) (s_bDeviceWriteOpen s) (gpBuff s) (runflprog_flag s) (use_count s) x (next_pages s) (io s) (irqs_on s) (nor s) (disk s).
Definition set_next_pages x s := mkFl (FID s) (s_nMajor s) (s_bDeviceReadOpen s) (s_bDeviceWriteOpen s) (gpBuff s) (runflprog_flag s) (use_count s) (pages s) x (io s) (irqs_on s) (nor s) (disk s).
Definition set_io x s := mkFl (FID s) (s_nMajor s) (s_bDeviceReadOpen s) (s_bDeviceWriteOpen s) (gpBuff s) (runflprog_flag s) (use_count s) (pages s) (next_pages s) x (irqs_on s) (nor s) (disk s).
Definition set_irqs x s := mkFl (FID s) (s_nMajor s) (s_bDeviceReadOpen s) (s_bDeviceWriteOpen s) (gpBuff s) (runflprog_flag s) (use_count s) (pages s) (next_pages s) (io s) x (nor s) (disk s).
Definition set_nor (x : F) s := mkFl (FID s) (s_nMajor s) (s_bDeviceReadOpen s) (s_bDeviceWriteOpen s) (gpBuff s) (runflprog_flag s) (use_count s) (pages s) (next_pages s) (io s) (irqs_on s) x (disk s).
Definition set_disk (x : D) s := mkFl (FID s) (s_nMajor s) (s_bDeviceReadOpen s) (s_bDeviceWriteOpen s) (gpBuff s) (runflprog_flag s) (use_count s) (pages s) (next_pages s) (io s) (irqs_on s) (nor s) x.
End Setters.

Section FlashDev.
(** [fuel] bounds the wait for an erasure and the number of reads of a file. *)
Context {F D : Type} `{NorFlash F} `{FileSys D} (fuel : nat).
Abbreviation FL A := (M (FlashSt F D) A).

Definition nor_wr (a d : Z) : FL unit := modify (fun s => set_nor (wr16 a d (nor s)) s).
Definition nor_rd (a : Z) : FL Z := fun s => let '(c, f) := rd16 a (nor s) in Ret c (set_nor f s).
Definition mfid (f : FlashID -> FlashID) : FL unit := modify (fun s => set_FID (f (FID s)) s).
(** The halfword [Flash + i]. *)
Definition Flash (i : Z) : Z := FLASH_BASE_ADDR + 2 * i.
Definition poke (a v : Z) : FL unit := modify (fun s => set_io (io s ++ [(a, v)]) s).

(** ** The chip *)

(** The loops over the sectors: [n] sectors from the number [i] and the address [temp]. *)
Fixpoint fill_sectors (n : nat) (i temp step : Z) (r : FlashID) : FlashID :=
  match n with
  | O => r
  | S n' =>
      let r := set_sectors (<[Z.to_nat i := temp]> (FlashSectorAddr r)) r in
      let r := if temp =? 0x20000 then set_cur i (set_write temp r) else r in
      fill_sectors n' (i + 1) (temp + step) step r
  end.

(** The first sectors, one by one. *)
Definition first_sectors (l : list Z) (r : FlashID) : FlashID :=
  set_sectors (l ++ drop (length l) (FlashSectorAddr r)) r.

Definition SetAMDSector : FL Z :=
  r ← gets FID;
  if DeviceID r =? 0x225B then
    mfid (fun r => fill_sectors 15 4 0x10000 0x10000 (first_sectors [0; 0x4000; 0x6000; 0x8000] (set_max 19 r))) ;; mret 1
  else if DeviceID r =? 0x2249 then
    mfid (fun r => fill_sectors 31 4 0x10000 0x10000 (first_sectors [0; 0x4000; 0x6000; 0x8000] (set_max 35 r))) ;; mret 1
  else if DeviceID r =? 0x22F9 then
    mfid (fun r => fill_sectors 63 8 0x10000 0x10000
      (first_sectors [0; 0x2000; 0x4000; 0x6000; 0x8000; 0xa000; 0xc000; 0xe000] (set_max 71 r))) ;; mret 1
  else mret (-1).

(** The first loop of the other chips has no test for the image, which is not below [0x10000]. *)
Definition SetSamsungSector : FL Z :=
  r ← gets FID;
  if negb (DeviceID r =? 0x2245) then mret (-1)
  else mfid (fun r => fill_sectors 31 8 0x10000 0x10000 (fill_sectors 8 0 0 0x2000 (set_max 39 r))) ;; mret 1.

Definition SetSSTSector : FL Z :=
  r ← gets FID;
  if DeviceID r =? 0x2781 then
    mfid (fun r => fill_sectors 16 0 0 0x10000 (set_max 16 r)) ;; mret 1
  else if DeviceID r =? 0x2782 then
    mfid (fun r => fill_sectors 31 32 0x10000 0x10000 (fill_sectors 32 0 0 0x800 (set_max 63 r))) ;; mret 1
  else mret (-1).

Definition SetATMELSector : FL Z :=
  r ← gets FID;
  if negb (DeviceID r =? 0x00C8) then mret (-1)
  else mfid (fun r => fill_sectors 63 8 0x10000 0x10000 (fill_sectors 8 0 0 0x2000 (set_max 71 r))) ;; mret 1.

Definition ReturnNormalOP : FL unit :=
  nor_wr (Flash 0x5555) D_AA ;;
  nor_wr (Flash 0x2AAA) D_55 ;;
  nor_wr (Flash 0x5555) D_F0.

Definition CheckFlashID : FL Z :=
  mfid (set_fail 0) ;;
  nor_wr (Flash 0x5555) D_AA ;;
  nor_wr (Flash 0x2AAA) D_55 ;;
  nor_wr (Flash 0x5555) D_90 ;;
  m ← nor_rd (Flash 0);
  d ← nor_rd (Flash 1);
  mfid (set_ids m d) ;;
  ReturnNormalOP ;;
  if m =? 0xBF then SetSSTSector
  else if m =? 0xEC then SetSamsungSector
  else if m =? 0x1F then SetATMELSector
  else SetAMDSector.

Definition FlashResetReadMode : FL unit := nor_wr FLASH_BASE_ADDR D_F0.

(** The loop of [FlashCompareData]; [src] is the memory at the source. *)
Fixpoint compare_halves (n : nat) (tgt : Z) (src : bytes) : FL Z :=
  match n, src with
  | O, _ => mret 1
  | S n', b0 :: b1 :: src' =>
      t ← nor_rd tgt;
      if negb (t =? half b0 b1) then mret (-1) else compare_halves n' (tgt + 2) src'
  | S _, _ => stop_with OutOfBounds
  end.
Definition FlashCompareData (BaseAddr : Z) (src : bytes) (SrcSize : Z) : FL Z :=
  compare_halves (Z.to_nat (SrcSize / 2)) BaseAddr src.

Fixpoint program_halves (n : nat) (tgt : Z) (src : bytes) : FL unit :=
  match n, src with
  | O, _ => mret tt
  | S n', b0 :: b1 :: src' =>
      r ← gets FID;
      (if ManuID r =? 0xBF then
         nor_wr (Flash 0x5555) D_AA ;; nor_wr (Flash 0x2AAA) D_55 ;; nor_wr (Flash 0x5555) D_A0
       else
         nor_wr (Flash 0x555) D_AA ;; nor_wr (Flash 0x2AA) D_55 ;; nor_wr (Flash 0x555) D_A0) ;;
      nor_wr tgt (half b0 b1) ;;
      program_halves n' (tgt + 2) src'
  | S _, _ => stop_with OutOfBounds
  end.
Definition FlashProgram (BaseAddr : Z) (src : bytes) (SrcSize : Z) : FL Z :=
  let iLoopCount := SrcSize / 2 in
  let iLoopCount := if SrcSize mod 2 =? 0 then iLoopCount else iLoopCount + 1 in
  program_halves (Z.to_nat iLoopCount) BaseAddr src ;;
  FlashResetReadMode ;;
  rc ← FlashCompareData BaseAddr src SrcSize;
  mret (u32 rc).

(** [while (temp != 0x00FF)] *)
Fixpoint wait_blank (n : nat) (a : Z) : FL unit :=
  match n with
  | O => stop_with OutOfFuel
  | S n' =>
      t ← nor_rd a;
      if Z.land t 0xff =? 0xff then mret tt else wait_blank n' a
  end.

Definition FlashEraseSector (SectorNum : Z) : FL Z :=
  r ← gets FID;
  match FlashSectorAddr r !! Z.to_nat SectorNum with
  | None => stop_with OutOfBounds
  | Some SectorAddr =>
      let a := FLASH_BASE_ADDR + SectorAddr in
      (if ManuID r =? 0xBF then
         nor_wr (Flash 0x5555) D_AA ;; nor_wr (Flash 0x2AAA) D_55 ;; nor_wr (Flash 0x5555) D_80 ;;
         nor_wr (Flash 0x5555) D_AA ;; nor_wr (Flash 0x2AAA) D_55 ;;
         nor_wr a (if SectorNum <? 32 then D_30 else D_50)
       else
         nor_wr (Flash 0x555) D_AA ;; nor_wr (Flash 0x2AA) D_55 ;; nor_wr (Flash 0x555) D_80 ;;
         nor_wr (Flash 0x555) D_AA ;; nor_wr (Flash 0x2AA) D_55 ;;
         nor_wr a D_30) ;;
      FlashResetReadMode ;;
      wait_blank fuel a ;;
      mret 1
  end.

(** [for (i=0; i<iSectorNum; i++, FID.uiCurSectNum++)] *)
Fixpoint erase_loop (n : nat) : FL unit :=
  match n with
  | O => mret tt
  | S n' =>
      r ← gets FID;
      FlashEraseSector (uiCurSectNum r) ;;
      mfid (fun r => set_cur (u32 (uiCurSectNum r + 1)) r) ;;
      erase_loop n'
  end.

(** ** The device *)

Definition init_flash_program (registered : Z) : FL Z :=
  modify (set_nMajor registered) ;;
  mret (if registered <? 0 then registered else 0).

Definition __get_free_page : FL Z :=
  l ← gets next_pages;
  match l with
  | [] => mret 0
  | p :: l' => modify (set_next_pages l') ;; mret p
  end.
Definition free_page (p : Z) : FL unit :=
  m ← gets pages;
  if p =? 0 then mret tt
  else match m !! p with
       | Some _ => modify (set_pages (delete p m))
       | None => stop_with UseAfterFree
       end.

Definition for_writing (f_flags : Z) : bool := negb (Z.land (Z.land f_flags O_ACCMODE) (Z.lor O_WRONLY O_RDWR) =? 0).

Definition device_open (f_flags : Z) : FL Z :=
  p ← __get_free_page;
  modify (set_gpBuff p) ;;
  if p =? 0 then mret (- ENOMEM)
  else
    modify (fun s => set_pages (<[p := zero_page]> (pages s)) s) ;;
    mfid (fun _ => zero_FID) ;;
    w ← gets s_bDeviceWriteOpen;
    r ← gets s_bDeviceReadOpen;
    if for_writing f_flags && negb (w =? 0) then mret (- EBUSY)
    else if negb (for_writing f_flags) && negb (r =? 0) then mret (- EBUSY)
    else
      (if for_writing f_flags then modify (set_write_open (w + 1)) else modify (set_read_open (r + 1))) ;;
      rc ← CheckFlashID;
      if rc <? 0 then mret (- ENOMEDIUM)
      else modify (fun s => set_use_count (use_count s + 1) s) ;; mret 0.

Definition device_release (f_flags : Z) : FL Z :=
  p ← gets gpBuff;
  free_page p ;;
  (if for_writing f_flags then modify (fun s => set_write_open (s_bDeviceWriteOpen s - 1) s)
   else modify (fun s => set_read_open (s_bDeviceReadOpen s - 1) s)) ;;
  modify (fun s => set_use_count (use_count s - 1) s) ;;
  mret 0.

(** [copy_from_user (gpBuff, buffer, length)]; without an MMU it does not fail. *)
Definition copy_from_user (buffer : bytes) (len : Z) : FL unit :=
  p ← gets gpBuff;
  m ← gets pages;
  if p =? 0 then stop_with NullPointer
  else match m !! p with
       | None => stop_with UseAfterFree
       | Some page =>
           if (len <=? Z.of_nat (length buffer)) && (len <=? PAGE_SIZE) then
             modify (set_pages (<[p := take (Z.to_nat len) buffer ++ drop (Z.to_nat len) page]> m))
           else stop_with OutOfBounds
       end.

(** [buffer] is the memory at the pointer; [length] a [size_t]. *)
Definition device_write (buffer : bytes) (len : Z) : FL Z :=
  copy_from_user buffer len ;;
  r ← gets FID;
  if FLASH_MAX_SECTOR_NUM r <? uiCurSectNum r then mret (- EFAULT)
  else
    let FlashAddr := u32 (FLASH_BASE_ADDR + uiWriteAddr r) in
    p ← gets gpBuff;
    m ← gets pages;
    flags ← gets irqs_on;
    modify (set_irqs false) ;;
    rc ← FlashProgram FlashAddr (default [] (m !! p)) len;
    if s32 rc <? 0 then mret (- EFAULT)
    else
      mfid (fun r => set_write (u32 (uiWriteAddr r + len)) r) ;;
      modify (set_irqs flags) ;;
      mret len.

(** ** Images *)

Definition sizeof_image_header : Z := 64.
Definition IS_ERR (p : Z) : bool := u32 (-1000) <? u32 p.

Definition open_file (name : cstr) : FL Z := fun s => let '(fd, d) := fs_open name (disk s) in Ret fd (set_disk d s).
Definition read_file (fd n : Z) : FL (Z * bytes) := fun s => let '(r, l, d) := fs_read fd n (disk s) in Ret (r, l) (set_disk d s).
Definition on_disk (f : D -> D) : FL unit := modify (fun s => set_disk (f (disk s)) s).

(** The number of sectors of 64 KB for a file. *)
Definition sectors_of (size : Z) : Z := size / (64 * 1024) + (if size mod (64 * 1024) =? 0 then 0 else 1).

(** [while (1)]; [buf] is [pacBuff], the lengths are unsigned.  The result: the end of
    the file is reached. *)
Fixpoint fuze_loop (n : nat) (fd : Z) (cool_size : bool) (error_flag : Z) (buf : bytes) : FL bool :=
  match n with
  | O => stop_with OutOfFuel
  | S n' =>
      '(r, l) ← read_file fd BUFF_SIZE;
      let iReadLen := u32 r in
      let buf := l ++ drop (length l) buf in
      if iReadLen =? 0 then mret true
      else if negb (iReadLen =? BUFF_SIZE) && cool_size then mret false
      else
        let error_flag := if negb (iReadLen =? BUFF_SIZE) then error_flag + 1 else error_flag in
        if 1 <? error_flag then mret false
        else
          w ← device_write buf iReadLen;
          if u32 w =? 0 then mret false else fuze_loop n' fd cool_size error_flag buf
  end.

(** [arg] is the memory at the argument; [stack] what [pacBuff] holds at first. *)
Definition fuze_image (arg stack : bytes) : FL Z :=
  if (length arg <? 64)%nat then stop_with OutOfBounds
  else
    match string_in (take 64 arg) with
    | None => stop_with OutOfBounds
    | Some filename =>
        iFdFile ← open_file filename;
        if IS_ERR iFdFile then mret (- ENOTTY)
        else
          iFileSize ← gets (fun s => u32 (fs_size iFdFile (disk s)));
          if FLASH_SIZE - ARMBOOT_SIZE <? u32 (iFileSize - sizeof_image_header) then
            on_disk (fs_close iFdFile) ;; mret (- ENOTTY)
          else
            on_disk (fs_skip iFdFile sizeof_image_header) ;;
            poke 0x3FF4008 0x800000 ;;
            erase_loop (Z.to_nat (sectors_of iFileSize)) ;;
            ok ← fuze_loop fuel iFdFile (iFileSize mod BUFF_SIZE =? 0) 0 stack;
            if ok : bool then
              poke 0x3FF4008 0x0 ;;
              on_disk (fs_close iFdFile) ;;
              modify (set_runflprog 1) ;;
              on_disk (fs_renew (lit "/etc/inittab")) ;;
              on_disk (fs_renew (lit "/dev/")) ;;
              on_disk (fs_renew (lit "/lib/lib1.so")) ;;
              mret 1
            else on_disk (fs_close iFdFile) ;; mret (- ENOTTY)
    end.

(** [arg] is the argument and [mem] the memory there; [iFileSize] and [iSectorNum] are signed. *)
Definition device_ioctl (cmd arg : Z) (mem stack : bytes) : FL Z :=
  if negb (Z.land (Z.shiftr cmd 8) 0xff =? FL_MAGIC) then mret (- ENOTTY)
  else if FL_MAXNR <? Z.land cmd 0xff then mret (- ENOTTY)
  else if cmd =? FL_ERASE_SECTOR then
    let iFileSize := s32 arg in
    let iSectorNum := Z.quot iFileSize (64 * 1024) + (if Z.rem iFileSize (64 * 1024) =? 0 then 0 else 1) in
    erase_loop (Z.to_nat iSectorNum) ;; mret 1
  else if cmd =? FL_INTG_DISABLE then poke 0x3FF4008 0x800000 ;; mret 1
  else if cmd =? FL_INTG_ENABLE then poke 0x3FF4008 0x0 ;; mret 1
  else if cmd =? FL_WT_ENABLE then poke 0x3FF601C 0x101 ;; mret 1
  else if cmd =? FL_INT_ONLYETH then poke 0x3FF4008 0xF06E ;; mret 1
  else if cmd =? FL_FUZE_IMAGE then fuze_image mem stack
  else mret (- ENOTTY).
End FlashDev.
