(* ===== verification/FlashSpec.v ===== *)
(** * Installing an image

    What the flash driver does to a chip that keeps the laws of FlashChip.v, up
    to the request that installs an image from a file, and where it fails. *)

From S2P Require Import Prelude FlashChip FlashDev.

(** ** Files *)

(** [has_file d name l]: [name] can be opened and holds [l]; [reading d fd l]: reads of [fd] will give [l]. *)
Class FileLaws (D : Type) `{FileSys D} : Type := {
  has_file : D -> cstr -> bytes -> Prop;
  reading : D -> Z -> bytes -> Prop;
  open_law d name l : has_file d name l -> exists fd d',
    fs_open name d = (fd, d') /\ 0 <= fd < 1024 /\ reading d' fd l /\ fs_size fd d' = Z.of_nat (length l);
  skip_law d fd l n : reading d fd l -> reading (fs_skip fd (Z.of_nat n) d) fd (drop n l);
  read_law d fd l n : reading d fd l -> exists d',
    fs_read fd (Z.of_nat n) d = (Z.of_nat (length (take n l)), take n l, d') /\ reading d' fd (drop n l);
}.

(** ** The chips the image fits on *)

Definition IMAGE : Z := FLASH_BASE_ADDR + 0x20000.

(** The sequences the driver uses for the identified chip are those of [k]. *)
Definition speaks (k : ChipKind) (r : FlashID) : Prop :=
  if ManuID r =? 0xBF then unlock1 k = 0x5555 /\ unlock2 k = 0x2aaa else unlock1 k = 0x555 /\ unlock2 k = 0x2aa.

(** The command for the sectors of 64 KB. *)
Definition block_cmd (k : ChipKind) : Z := if manu_id k =? 0xBF then 0x50 else 0x30.

(** The chips of 2 MB and more that the driver knows. *)
Definition known_chip (m d : Z) : Prop :=
  (m = 0xEC /\ d = 0x2245) \/ (m = 0xBF /\ d = 0x2782) \/ (m = 0x1F /\ d = 0x00C8) \/
  (m <> 0xEC /\ m <> 0xBF /\ m <> 0x1F /\ (d = 0x2249 \/ d = 0x22F9)).

(** Those that end behind the 30 sectors for the image. *)
Definition exactly_2MB (d : Z) : Prop := d <> 0x22F9 /\ d <> 0x00C8.

Record Supported (k : ChipKind) : Prop := mkSupported {
  sup_base : base k = FLASH_BASE_ADDR;
  sup_size : FLASH_SIZE <= bank_size k;
  sup_known : known_chip (manu_id k) (dev_id k);
  sup_speaks : speaks k (set_ids (manu_id k) (dev_id k) zero_FID);
  sup_cmd i : 0 <= i < 30 -> erase_cmd k (IMAGE + i * 0x10000) = block_cmd k;
  sup_len i : 0 <= i < 30 -> sector_len k (IMAGE + i * 0x10000) = 0x10000;
}.

(** What the driver has found out: the number [c] of the first sector of the image, and the 30 sectors from there. *)
Record Identified (k : ChipKind) (c : Z) (r : FlashID) : Prop := mkIdentified {
  id_manu : ManuID r = manu_id k;
  id_cur : uiCurSectNum r = c;
  id_write : uiWriteAddr r = 0x20000;
  id_first : 0 <= c;
  id_max : c + 30 <= FLASH_MAX_SECTOR_NUM r < 100;
  id_sst : manu_id k = 0xBF -> 32 <= c;
  id_sectors i : 0 <= i < 30 -> FlashSectorAddr r !! Z.to_nat (c + i) = Some (0x20000 + i * 0x10000);
  id_next : FlashSectorAddr r !! Z.to_nat (FLASH_MAX_SECTOR_NUM r) = Some 0;
  id_full : exactly_2MB (dev_id k) -> FLASH_MAX_SECTOR_NUM r = c + 30;
}.

(** A check of the layout that computes. *)
Definition layout_ok (c : Z) (r : FlashID) : bool :=
  (uiCurSectNum r =? c) && (uiWriteAddr r =? 0x20000) && (0 <=? c) && (c + 30 <=? FLASH_MAX_SECTOR_NUM r) && (FLASH_MAX_SECTOR_NUM r <? 100) &&
  bool_decide (FlashSectorAddr r !! Z.to_nat (FLASH_MAX_SECTOR_NUM r) = Some 0) &&
  forallb (fun i => bool_decide (FlashSectorAddr r !! Z.to_nat (c + Z.of_nat i) = Some (0x20000 + Z.of_nat i * 0x10000))) (seq 0 30).

Lemma layout_identified k c r :
  ManuID r = manu_id k -> (manu_id k = 0xBF -> 32 <= c) -> (exactly_2MB (dev_id k) -> FLASH_MAX_SECTOR_NUM r = c + 30) ->
  layout_ok c r = true -> Identified k c r.
Proof.
  intros Hm Hs Hx. unfold layout_ok. rewrite !andb_true_iff, !Z.eqb_eq, !Z.leb_le, Z.ltb_lt, bool_decide_eq_true, forallb_forall.
  intros [[[[[[? ?] ?] ?] ?] ?] Hl]. split; try done; try lia. intros i Hi.
  specialize (Hl (Z.to_nat i)). rewrite bool_decide_eq_true, Z2Nat.id in Hl by lia. apply Hl, in_seq. lia.
Qed.

Section Chip.
Context {F D : Type} `{NorFlash F} `{FileSys D} {k : ChipKind} {L : ChipLaws F k}.
Implicit Types (s : FlashSt F D) (f : F).
Abbreviation St := (FlashSt F D).

Lemma set_nor_same s : set_nor (nor s) s = s.
Proof. by destruct s. Qed.

Lemma nor_rd_idle a s : idle (nor s) -> in_bank k a -> Z.even a = true -> nor_rd a s = Ret (cell (nor s) a) s.
Proof. intros Hi Hb He. unfold nor_rd. rewrite read16 by done. by rewrite set_nor_same. Qed.

(** ** Programming *)

(** The [i]-th halfword of a buffer. *)
Definition word (l : bytes) (i : nat) : Z := half (nth (2 * i) l 0) (nth (2 * i + 1) l 0).

Lemma program_cells n : forall src tgt s,
  base k = FLASH_BASE_ADDR -> speaks k (FID s) -> idle (nor s) -> (2 * n <= length src)%nat -> Forall is_byte src -> Z.even tgt = true ->
  base k <= tgt -> tgt + 2 * Z.of_nat n <= base k + bank_size k ->
  exists f', program_halves n tgt src s = Ret tt (set_nor f' s) /\ idle f' /\
    (forall i, (i < n)%nat -> cell f' (tgt + 2 * Z.of_nat i) = Z.land (cell (nor s) (tgt + 2 * Z.of_nat i)) (word src i)) /\
    (forall x, ~ (tgt <= x < tgt + 2 * Z.of_nat n) -> cell f' x = cell (nor s) x).
Proof.
  induction n as [|n IH]; intros src tgt s Hbase Hsp Hi Hn Hb He Hlo Hhi.
  { exists (nor s). split_and!; [by rewrite set_nor_same|done|intros; lia|done]. }
  destruct src as [|b0 [|b1 src]]; [simpl in Hn; lia..|]. cbn [program_halves]. rewrite bind_gets.
  apply Forall_cons in Hb as [Hb0 Hb]. apply Forall_cons in Hb as [Hb1 Hb].
  destruct (program_law (nor s) tgt (half b0 b1)) as [Hi1 Hc1]; [done|unfold in_bank; lia|done|by apply half_range|].
  set (f1 := program_sequence k tgt (half b0 b1) (nor s)) in *.
  destruct (IH src (tgt + 2) (set_nor f1 s)) as (f' & E & Hi' & Hin & Hout);
    [done|done|done|simpl in Hn; lia|done|by rewrite Z.even_add, He|lia|lia|].
  exists f'. split_and!; [|done| |].
  - assert (f1 = wr16 tgt (half b0 b1) (wr16 (Flash (unlock1 k)) D_A0 (wr16 (Flash (unlock2 k)) D_55 (wr16 (Flash (unlock1 k)) D_AA (nor s))))) as E1
      by (unfold f1, program_sequence, unlock; by rewrite Hbase).
    unfold speaks in Hsp. destruct (ManuID (FID s) =? 0xBF); destruct Hsp as [-> ->] in E1;
      rewrite E1 in E; unfold nor_wr; rewrite ?bind_bind, !bind_modify; rewrite ?bind_bind, ?bind_modify; exact E.
  - intros i Hin'. destruct i as [|i].
    + rewrite Z.add_0_r. rewrite Hout by lia. simpl. by rewrite Hc1, decide_True.
    + replace (tgt + 2 * Z.of_nat (S i)) with (tgt + 2 + 2 * Z.of_nat i) by lia. rewrite Hin by lia. simpl nor.
      rewrite Hc1, decide_False by lia. f_equal. unfold word. by replace (2 * S i)%nat with (S (S (2 * i))) by lia.
  - intros x Hx. rewrite Hout by lia. simpl nor. by rewrite Hc1, decide_False by lia.
Qed.

Lemma compare_equal n : forall src tgt s,
  idle (nor s) -> (2 * n <= length src)%nat -> Z.even tgt = true -> base k <= tgt -> tgt + 2 * Z.of_nat n <= base k + bank_size k ->
  (forall i, (i < n)%nat -> cell (nor s) (tgt + 2 * Z.of_nat i) = word src i) ->
  compare_halves n tgt src s = Ret 1 s.
Proof.
  induction n as [|n IH]; intros src tgt s Hi Hn He Hlo Hhi Hc; [done|].
  destruct src as [|b0 [|b1 src]]; [simpl in Hn; lia..|]. cbn [compare_halves].
  rewrite (bind_Ret _ _ _ _ _ (nor_rd_idle tgt s Hi ltac:(unfold in_bank; lia) He)).
  pose proof (Hc 0%nat ltac:(lia)) as Hw0. rewrite Z.add_0_r in Hw0. rewrite Hw0. change (word (b0 :: b1 :: src) 0) with (half b0 b1).
  rewrite Z.eqb_refl. cbn [negb]. apply IH; [done|simpl in Hn; lia|by rewrite Z.even_add, He|lia|lia|].
  intros i Hin. replace (tgt + 2 + 2 * Z.of_nat i) with (tgt + 2 * Z.of_nat (S i)) by lia. rewrite Hc by lia.
  unfold word. by replace (2 * S i)%nat with (S (S (2 * i))) by lia.
Qed.

(** The number of halfwords for [n] bytes, the last one perhaps half used. *)
Definition halves (n : Z) : Z := (n + 1) / 2.

Lemma loop_count n : 0 <= n -> (if n mod 2 =? 0 then n / 2 else n / 2 + 1) = halves n.
Proof. intros Hn. unfold halves. destruct (Z.eqb_spec (n mod 2) 0); Z.div_mod_to_equations; lia. Qed.

Lemma land_blank v : 0 <= v < 2 ^ 16 -> Z.land 0xffff v = v.
Proof. intros Hv. rewrite Z.land_comm. change 0xffff with (Z.ones 16). rewrite Z.land_ones by lia. by apply Z.mod_small. Qed.

Lemma nth_byte l i : Forall is_byte l -> is_byte (nth i l 0).
Proof. intros Hb. destruct (nth_in_or_default i l 0) as [Hin| ->]; [|by unfold is_byte]. by eapply (proj1 (List.Forall_forall _ _) Hb). Qed.

Lemma word_range l i : Forall is_byte l -> 0 <= word l i < 2 ^ 16.
Proof. intros Hb. apply half_range; by apply nth_byte. Qed.

(** Cells that hold the halfwords hold the bytes. *)
Lemma words_hold f tgt src n :
  Z.even tgt = true -> Forall is_byte src -> (n <= length src)%nat ->
  (forall i, (2 * i < n)%nat -> cell f (tgt + 2 * Z.of_nat i) = word src i) -> holds f tgt (take n src).
Proof.
  intros He Hb Hn Hc i b Hib. apply lookup_take_Some in Hib as [Hib Hin]. unfold flash_byte.
  pose proof (even_mod _ He) as Hm. pose proof (Nat.div_mod i 2 ltac:(lia)) as Hdm. pose proof (Nat.mod_upper_bound i 2 ltac:(lia)) as Hub.
  pose proof (Hc (i / 2)%nat ltac:(lia)) as Hcell.
  assert ((tgt + Z.of_nat i) mod 2 = Z.of_nat (i mod 2)) as Hmod by (Z.div_mod_to_equations; lia).
  rewrite Hmod. replace (tgt + Z.of_nat i - Z.of_nat (i mod 2)) with (tgt + 2 * Z.of_nat (i / 2)) by lia. rewrite Hcell. unfold word.
  rewrite cell_byte_half by by apply nth_byte.
  rewrite Z.odd_add, <- (Z.negb_even tgt), He. cbn [negb xorb].
  assert (nth i src 0 = b) as <- by (by apply nth_lookup_Some). rewrite <- Z.negb_even.
  destruct (i mod 2)%nat as [|[|]] eqn:Er; [| |lia].
  - assert (Z.even (Z.of_nat i) = true) as -> by (rewrite Zeven_mod; apply Zeq_bool_true || apply Z.eqb_eq; Z.div_mod_to_equations; lia).
    cbn [negb]. f_equal. lia.
  - assert (Z.even (Z.of_nat i) = false) as -> by (rewrite Zeven_mod; apply Z.eqb_neq; Z.div_mod_to_equations; lia).
    cbn [negb]. f_equal. lia.
Qed.

Lemma cells_same_outside f f' a n :
  Z.even a = true -> Z.even n = true -> (forall x, ~ (a <= x < a + n) -> cell f' x = cell f x) -> same_outside f f' a n.
Proof.
  intros Ha Hn Hc x Hx. unfold flash_byte. rewrite Hc; [done|]. apply even_mod in Ha, Hn. Z.div_mod_to_equations. lia.
Qed.

Lemma program_ok tgt src n s :
  base k = FLASH_BASE_ADDR -> speaks k (FID s) -> idle (nor s) -> 0 <= n -> 2 * halves n <= Z.of_nat (length src) -> Forall is_byte src ->
  Z.even tgt = true -> base k <= tgt -> tgt + 2 * halves n <= base k + bank_size k -> blank (nor s) tgt (2 * halves n) ->
  exists f', FlashProgram tgt src n s = Ret 1 (set_nor f' s) /\ idle f' /\ holds f' tgt (take (Z.to_nat n) src) /\
    (forall x, ~ (tgt <= x < tgt + 2 * halves n) -> cell f' x = cell (nor s) x).
Proof.
  intros Hbase Hsp Hi Hn Hl Hb He Hlo Hhi Hbl. assert (0 <= halves n) as Hh by (unfold halves; apply Z.div_pos; lia).
  destruct (program_cells (Z.to_nat (halves n)) src tgt s) as (f1 & E1 & Hi1 & Hin & Hout); [done|done|done|lia|done|done|lia|lia|].
  assert (forall i, (i < Z.to_nat (halves n))%nat -> cell f1 (tgt + 2 * Z.of_nat i) = word src i) as Hw.
  { intros i Hlt. rewrite Hin by done. rewrite Hbl; [by apply land_blank, word_range|lia|]. by rewrite Z.even_add_mul_2. }
  destruct (reset_idle f1 Hi1) as [Hi2 Hc2]. rewrite Hbase in Hi2, Hc2. exists (wr16 FLASH_BASE_ADDR 0xf0 f1). split_and!; [|done| |].
  - unfold FlashProgram. cbv zeta. rewrite loop_count by done. rewrite (bind_Ret _ _ _ _ _ E1). unfold FlashResetReadMode, nor_wr. rewrite bind_modify.
    unfold FlashCompareData. erewrite bind_Ret; [|apply compare_equal]; simpl nor; [done|done|..].
    + assert (n / 2 <= halves n) by (unfold halves; apply Z.div_le_mono; lia). pose proof (Z.div_pos n 2 Hn ltac:(lia)). lia.
    + done.
    + lia.
    + assert (n / 2 <= halves n) by (unfold halves; apply Z.div_le_mono; lia). pose proof (Z.div_pos n 2 Hn ltac:(lia)). lia.
    + intros i Hlt. rewrite Hc2, Hw; [done|]. assert (n / 2 <= halves n) by (unfold halves; apply Z.div_le_mono; lia). lia.
  - apply words_hold; [done|done|unfold halves in Hl; Z.div_mod_to_equations; lia|]. intros i Hlt. rewrite Hc2. apply Hw. unfold halves. Z.div_mod_to_equations. lia.
  - intros x Hx. rewrite Hc2. apply Hout. lia.
Qed.

(** ** The device *)

(** An open device: the chip can be read, [r] is known of it, and the page [p] is the buffer. *)
Record Ready (p : Z) (r : FlashID) (s : St) : Prop := mkReady {
  rd_fid : FID s = r;
  rd_buff : gpBuff s = p;
  rd_page_nz : p <> 0;
  rd_page : exists page, pages s !! p = Some page /\ length page = Z.to_nat PAGE_SIZE /\ Forall is_byte page;
  rd_idle : idle (nor s);
}.

(** What erasing and writing leave alone. *)
Record unchanged (p : Z) (s s' : St) : Prop := mkUnchanged {
  un_read : s_bDeviceReadOpen s' = s_bDeviceReadOpen s;
  un_write : s_bDeviceWriteOpen s' = s_bDeviceWriteOpen s;
  un_count : use_count s' = use_count s;
  un_irqs : irqs_on s' = irqs_on s;
  un_pages : delete p (pages s') = delete p (pages s);
}.

Lemma un_refl p s : unchanged p s s.
Proof. done. Qed.
Lemma un_trans p s1 s2 s3 : unchanged p s1 s2 -> unchanged p s2 s3 -> unchanged p s1 s3.
Proof. intros [] []. split; congruence. Qed.

Lemma page_bytes n (buf page : bytes) :
  Forall is_byte buf -> Forall is_byte page -> length page = Z.to_nat PAGE_SIZE -> (n <= Z.to_nat PAGE_SIZE)%nat -> (n <= length buf)%nat ->
  Forall is_byte (take n buf ++ drop n page) /\ length (take n buf ++ drop n page) = Z.to_nat PAGE_SIZE /\
  take n (take n buf ++ drop n page) = take n buf.
Proof.
  intros Hb Hp Hl Hn Hnb. split_and!.
  - apply Forall_app. split; [by apply Forall_take|by apply Forall_drop].
  - rewrite length_app, length_take, length_drop. lia.
  - rewrite take_app_le by (rewrite length_take; lia). by rewrite take_take, Nat.min_id.
Qed.

Lemma copy_ok p r n buf s :
  Ready p r s -> Forall is_byte buf -> (n <= length buf)%nat -> Z.of_nat n <= PAGE_SIZE -> exists page s',
    copy_from_user buf (Z.of_nat n) s = Ret tt s' /\ Ready p r s' /\ pages s' !! p = Some page /\ take n page = take n buf /\
    nor s' = nor s /\ disk s' = disk s /\ unchanged p s s'.
Proof.
  intros [Hf Hg Hnz (page & Hp & Hl & Hb) Hi] Hbb Hn Hn'.
  destruct (page_bytes n buf page) as (Hb' & Hl' & Ht); [done|done|done|lia|lia|].
  exists (take n buf ++ drop n page), (set_pages (<[p := take n buf ++ drop n page]> (pages s)) s).
  unfold copy_from_user. rewrite !bind_gets, Hg, (proj2 (Z.eqb_neq p 0)) by done. rewrite Hp.
  rewrite (proj2 (Z.leb_le _ _)), (proj2 (Z.leb_le _ _)) by lia. cbn [andb]. rewrite Nat2Z.id.
  split_and!; [done| |simpl; by rewrite lookup_insert_eq|done|done|done|].
  - split; simpl; try done. eexists. split; [apply lookup_insert_eq|done].
  - split; simpl; try done. by rewrite delete_insert_eq.
Qed.

(** A write behind the last sector is refused. *)
Lemma write_refused p r n buf s :
  Ready p r s -> Forall is_byte buf -> (n <= length buf)%nat -> Z.of_nat n <= PAGE_SIZE -> FLASH_MAX_SECTOR_NUM r < uiCurSectNum r ->
  exists s', device_write buf (Z.of_nat n) s = Ret (- EFAULT) s' /\ Ready p r s' /\ nor s' = nor s /\ disk s' = disk s /\ unchanged p s s'.
Proof.
  intros Hr Hb Hn Hn' Hm. destruct (copy_ok p r n buf s Hr Hb Hn Hn') as (page & s1 & E1 & Hr1 & _ & _ & ? & ? & ?).
  exists s1. unfold device_write. rewrite (bind_Ret _ _ _ _ _ E1), bind_gets, (rd_fid _ _ _ Hr1).
  by rewrite (proj2 (Z.ltb_lt _ _)).
Qed.

Lemma write_ok p r n buf s :
  base k = FLASH_BASE_ADDR -> FLASH_SIZE <= bank_size k -> speaks k r ->
  Ready p r s -> Forall is_byte buf -> (n <= length buf)%nat -> Z.of_nat n <= PAGE_SIZE -> uiCurSectNum r <= FLASH_MAX_SECTOR_NUM r ->
  Z.even (uiWriteAddr r) = true -> 0 <= uiWriteAddr r -> uiWriteAddr r + 2 * halves (Z.of_nat n) <= FLASH_SIZE ->
  blank (nor s) (FLASH_BASE_ADDR + uiWriteAddr r) (2 * halves (Z.of_nat n)) ->
  exists s', device_write buf (Z.of_nat n) s = Ret (Z.of_nat n) s' /\ Ready p (set_write (uiWriteAddr r + Z.of_nat n) r) s' /\
    holds (nor s') (FLASH_BASE_ADDR + uiWriteAddr r) (take n buf) /\
    (forall x, ~ (FLASH_BASE_ADDR + uiWriteAddr r <= x < FLASH_BASE_ADDR + uiWriteAddr r + 2 * halves (Z.of_nat n)) -> cell (nor s') x = cell (nor s) x) /\
    disk s' = disk s /\ unchanged p s s'.
Proof.
  intros Hbase Hsz Hsp Hr Hb Hn Hn' Hm He Hlo Hhi Hbl.
  destruct (copy_ok p r n buf s Hr Hb Hn Hn') as (page & s1 & E1 & [Hf Hg Hnz (page' & Hp' & Hl & Hpb) Hi] & Hp & Ht & En & Ed & Hu).
  assert (page' = page) as -> by congruence. set (w := uiWriteAddr r) in *.
  assert (Z.of_nat n <= 2 * halves (Z.of_nat n) <= Z.of_nat n + 1) as Hh by (unfold halves; Z.div_mod_to_equations; lia).
  assert (2 * halves (Z.of_nat n) <= PAGE_SIZE) as Hh' by (unfold halves, PAGE_SIZE in *; Z.div_mod_to_equations; lia).
  unfold FLASH_BASE_ADDR, FLASH_SIZE in *.
  destruct (program_ok (0x80000000 + w) page (Z.of_nat n) (set_irqs false s1)) as (f' & E & Hi' & Hh1 & Ho1);
    [done|simpl; by rewrite Hf|done|lia|unfold PAGE_SIZE in *; lia|done|by rewrite Z.even_add, He|lia|lia|simpl; by rewrite En|].
  rewrite Nat2Z.id, Ht in Hh1. simpl nor in Ho1. rewrite En in Ho1.
  exists (set_FID (set_write (w + Z.of_nat n) r) (set_nor f' s1)). split_and!; [| |done|done|done|by destruct Hu].
  - unfold device_write. rewrite (bind_Ret _ _ _ _ _ E1), bind_gets, Hf, (proj2 (Z.ltb_ge _ _)) by done. cbv zeta.
    fold w. unfold FLASH_BASE_ADDR. rewrite u32_small by (unfold is_u32; lia).
    rewrite !bind_gets, bind_modify, Hg, Hp. cbn [default]. rewrite (bind_Ret _ _ _ _ _ E). change (s32 1 <? 0) with false. cbn iota.
    unfold mfid. rewrite !bind_modify. simpl FID. rewrite Hf. fold w. rewrite u32_small by (unfold is_u32, PAGE_SIZE in *; lia).
    unfold mret, M_ret. by destruct s1.
  - split; simpl; try done. by exists page.
Qed.

(** ** Erasing *)

Lemma wait_blank_ok n f a c :
  busy f a c n -> exists f', idle f' /\ (forall x, cell f' x = c x) /\
    forall s fuel, nor s = f -> (n < fuel)%nat -> wait_blank fuel a s = Ret tt (set_nor f' s).
Proof.
  revert f. induction n as [|n IH]; intros f Hb.
  - destruct (done_law _ _ _ Hb) as (Hr & Hi & Hc). exists (rd16 a f).2. split_and!; [done|done|].
    intros s [|fuel] <- Hf; [lia|]. cbn [wait_blank]. unfold nor_rd, mbind, M_bind. destruct (rd16 a (nor s)) as [t f']. simpl in *.
    by rewrite Hr.
  - destruct (poll_law _ _ _ _ Hb) as [Hr Hb']. destruct (rd16 a f) as [t f1] eqn:E. simpl in Hr, Hb'.
    destruct (IH f1 Hb') as (f' & Hi & Hc & Hw). exists f'. split_and!; [done|done|].
    intros s [|fuel] <- Hf; [lia|]. cbn [wait_blank]. unfold nor_rd at 1, mbind, M_bind. rewrite E.
    rewrite (proj2 (Z.eqb_neq _ _) Hr). by rewrite (Hw (set_nor f1 s)) by (done || lia).
Qed.

(** The command that ends the sequence for a sector. *)
Definition sector_cmd (r : FlashID) (sect : Z) : Z := if ManuID r =? 0xBF then (if sect <? 32 then D_30 else D_50) else D_30.

Lemma erase_ok r sect a f :
  base k = FLASH_BASE_ADDR -> speaks k r -> idle f -> FlashSectorAddr r !! Z.to_nat sect = Some a ->
  in_bank k (FLASH_BASE_ADDR + a) -> 0 < sector_len k (FLASH_BASE_ADDR + a) -> erase_cmd k (FLASH_BASE_ADDR + a) = sector_cmd r sect ->
  exists N f', idle f' /\
    (forall x, cell f' x = if decide (in_sector k (FLASH_BASE_ADDR + a) x) then 0xffff else cell f x) /\
    forall s fuel, nor s = f -> FID s = r -> (N <= fuel)%nat -> FlashEraseSector fuel sect s = Ret 1 (set_nor f' s).
Proof.
  intros Hbase Hsp Hi Ha Hb Hl Hcmd. set (A := FLASH_BASE_ADDR + a) in *. destruct (erase_law f A Hi Hb Hl) as [n Hbusy].
  apply reset_busy in Hbusy. destruct (wait_blank_ok n _ A _ Hbusy) as (f' & Hi' & Hc & Hw). exists (S n), f'. split_and!; [done|done|].
  intros s fuel <- Hf Hfu. unfold FlashEraseSector. rewrite bind_gets, Hf, Ha. cbv zeta. fold A.
  unfold erase_sequence, unlock in Hw. rewrite Hbase, Hcmd in Hw. unfold sector_cmd in Hw. unfold speaks in Hsp.
  destruct (ManuID r =? 0xBF); destruct Hsp as [-> ->] in Hw; unfold FlashResetReadMode, nor_wr;
    repeat rewrite ?bind_bind, ?bind_modify;
    match goal with |- (wait_blank fuel A ≫= _) ?st = _ => by rewrite (bind_Ret _ _ _ _ _ (Hw st fuel eq_refl ltac:(lia))) end.
Qed.

Lemma erase_loop_add fuel n m s : erase_loop fuel (n + m) s = (erase_loop fuel n ;; erase_loop fuel m) s.
Proof.
  revert s. induction n as [|n IH]; intros s; [done|]. cbn [Nat.add erase_loop]. rewrite !bind_bind. unfold mbind, M_bind.
  unfold gets. destruct (FlashEraseSector fuel (uiCurSectNum (FID s)) s) as [x s1|]; [|done]. unfold mfid, modify. apply IH.
Qed.

(** A turn of the loop. *)
Lemma erase_loop_one fuel s f' :
  FlashEraseSector fuel (uiCurSectNum (FID s)) s = Ret 1 (set_nor f' s) ->
  erase_loop fuel 1 s = Ret tt (set_nor f' (set_FID (set_cur (u32 (uiCurSectNum (FID s) + 1)) (FID s)) s)).
Proof. intros E. cbn [erase_loop]. rewrite bind_gets, (bind_Ret _ _ _ _ _ E). done. Qed.

Lemma erase_image_ok c r n : forall f,
  Supported k -> Identified k c r -> idle f -> (n <= 30)%nat ->
  exists N f', idle f' /\
    (forall x, cell f' x = if decide (IMAGE <= x < IMAGE + Z.of_nat n * 0x10000) then 0xffff else cell f x) /\
    forall s fuel, nor s = f -> FID s = r -> (N <= fuel)%nat ->
      erase_loop fuel n s = Ret tt (set_nor f' (set_FID (set_cur (c + Z.of_nat n) r) s)).
Proof.
  induction n as [|n IH]; intros f Hs Hid Hi Hn.
  { exists 0%nat, f. split_and!; [done|intros x; by rewrite decide_False by lia|]. intros s fuel <- <- _.
    rewrite Z.add_0_r, <- (id_cur _ _ _ Hid). cbn [erase_loop]. unfold mret, M_ret. f_equal. by destruct s as [[] ? ? ? ? ? ? ? ? ? ? ? ?]. }
  destruct (IH f Hs Hid Hi ltac:(lia)) as (N1 & f1 & Hi1 & Hc1 & E1). destruct Hs as [Sb Ss Sk Sp Sc Sl]. destruct Hid as [Im Ic Iw If Ix Is Il _ _].
  assert (FLASH_BASE_ADDR + (0x20000 + Z.of_nat n * 0x10000) = IMAGE + Z.of_nat n * 0x10000) as Ea by (unfold IMAGE; lia).
  destruct (erase_ok (set_cur (c + Z.of_nat n) r) (c + Z.of_nat n) (0x20000 + Z.of_nat n * 0x10000) f1) as (N2 & f2 & Hi2 & Hc2 & E2);
    [done|unfold speaks in *; simpl in *; by rewrite Im|done|simpl; apply Il; lia|..].
  { rewrite Ea. unfold in_bank, IMAGE, FLASH_BASE_ADDR, FLASH_SIZE in *. lia. }
  { rewrite Ea, Sl by lia. done. }
  { rewrite Ea, Sc by lia. unfold block_cmd, sector_cmd. simpl. rewrite Im.
    destruct (Z.eqb_spec (manu_id k) 0xBF) as [Eb|]; [|done]. rewrite (proj2 (Z.ltb_ge _ _)); [done|]. specialize (Is Eb). lia. }
  exists (Nat.max N1 N2), f2. split_and!; [done| |].
  - intros x. rewrite Hc2, Ea, Hc1. pose proof (Sl (Z.of_nat n) ltac:(lia)) as Hl.
    assert (in_sector k (IMAGE + Z.of_nat n * 0x10000) x <-> IMAGE + Z.of_nat n * 0x10000 <= x < IMAGE + Z.of_nat n * 0x10000 + 0x10000) as Hsec
      by (unfold in_sector; by rewrite Hl).
    destruct (decide (in_sector _ _ _)) as [Hin|Hin]; rewrite Hsec in Hin; repeat case_decide; (done || lia).
  - intros s fuel Ef Er Hfu. replace (S n) with (n + 1)%nat by lia. rewrite erase_loop_add.
    rewrite (bind_Ret _ _ _ _ _ (E1 s fuel Ef Er ltac:(lia))). erewrite erase_loop_one; [|simpl; apply E2; (done || lia)].
    simpl. rewrite u32_small by (unfold is_u32; lia). by replace (c + Z.of_nat (n + 1)) with (c + Z.of_nat n + 1) by lia.
Qed.

(** ** The loop over the file *)

Lemma holds_join f a l l' : holds f a l -> holds f (a + Z.of_nat (length l)) l' -> holds f a (l ++ l').
Proof.
  intros H1 H2 i b Hb. apply lookup_app_Some in Hb as [Hb|[Hl Hb]]; [by apply H1|].
  specialize (H2 _ _ Hb). rewrite <- H2. f_equal. lia.
Qed.

Lemma holds_kept f f' a l b n :
  holds f a l -> same_outside f f' b n -> a + Z.of_nat (length l) <= b \/ b + n <= a -> holds f' a l.
Proof. intros Hh Ho Hd i x Hx. rewrite Ho; [by apply Hh|]. apply lookup_lt_Some in Hx. lia. Qed.

Lemma halves_bounds n : n <= 2 * halves n <= n + 1.
Proof. unfold halves. Z.div_mod_to_equations. lia. Qed.

Context {FL : FileLaws D}.

Lemma read_file_ok fd l s : reading (disk s) fd l -> exists d',
  read_file fd BUFF_SIZE s = Ret (Z.of_nat (length (take 1024 l)), take 1024 l) (set_disk d' s) /\ reading d' fd (drop 1024 l).
Proof.
  intros Hr. destruct (read_law _ _ _ 1024 Hr) as (d' & E & Hr'). exists d'. split; [|done]. unfold read_file.
  change BUFF_SIZE with (Z.of_nat 1024). by rewrite E.
Qed.

Lemma Ready_disk p r d s : Ready p r s -> Ready p r (set_disk d s).
Proof. by intros []. Qed.

Lemma fuze_loop_end fuel fd cool err buf s :
  reading (disk s) fd [] -> exists d', fuze_loop (S fuel) fd cool err buf s = Ret true (set_disk d' s).
Proof. intros Hr. destruct (read_file_ok fd [] s Hr) as (d' & E & _). exists d'. cbn [fuze_loop]. by rewrite (bind_Ret _ _ _ _ _ E). Qed.

(** A turn of the loop that writes [l]. *)
Lemma fuze_loop_turn fuel fd cool err buf l rest s s' d' :
  read_file fd BUFF_SIZE s = Ret (Z.of_nat (length l), l) (set_disk d' s) -> (0 < length l <= 1024)%nat ->
  err = 0 -> cool = false \/ length l = 1024%nat ->
  device_write (l ++ drop (length l) buf) (Z.of_nat (length l)) (set_disk d' s) = Ret rest s' -> u32 rest <> 0 ->
  fuze_loop (S fuel) fd cool err buf s = fuze_loop fuel fd cool (if (length l =? 1024)%nat then 0 else 1) (l ++ drop (length l) buf) s'.
Proof.
  intros E Hl -> Hc Ew Hr. cbn [fuze_loop]. rewrite (bind_Ret _ _ _ _ _ E). cbn beta iota zeta.
  rewrite u32_small by (unfold is_u32; lia). rewrite (proj2 (Z.eqb_neq _ 0)) by lia.
  assert ((Z.of_nat (length l) =? BUFF_SIZE) = (length l =? 1024)%nat) as ->.
  { unfold BUFF_SIZE. destruct (Nat.eqb_spec (length l) 1024), (Z.eqb_spec (Z.of_nat (length l)) 1024); (done || lia). }
  assert (negb (length l =? 1024)%nat && cool = false) as -> by (destruct Hc as [->|Hc]; [by rewrite andb_false_r|by rewrite Hc]).
  destruct (Nat.eqb_spec (length l) 1024); cbn [negb]; [change (1 <? 0) with false|change (1 <? 0 + 1) with false]; cbn iota;
    rewrite (bind_Ret _ _ _ _ _ Ew), (proj2 (Z.eqb_neq _ 0)) by done; done.
Qed.

(** What of the file is written. *)
Definition written (cool : bool) (l : bytes) : nat := if cool then length l - length l mod 1024 else length l.

Lemma mod_step (l : bytes) : (1024 <= length l)%nat -> (length (drop 1024 l) mod 1024 = length l mod 1024)%nat.
Proof.
  intros Hl. rewrite length_drop. replace (length l) with (length l - 1024 + 1 * 1024)%nat at 2 by lia. by rewrite Nat.Div0.mod_add.
Qed.

Lemma written_step cool l : (1024 <= length l)%nat -> written cool l = (1024 + written cool (drop 1024 l))%nat.
Proof.
  intros Hl. unfold written. rewrite mod_step by done. rewrite length_drop. destruct cool; [|lia].
  rewrite <- mod_step by done. pose proof (Nat.Div0.mod_le (length (drop 1024 l)) 1024) as Hle. rewrite length_drop in Hle at 2. lia.
Qed.

(** The buffer after a read of the start of [l]. *)
Definition filled (l buf : bytes) : bytes := take 1024 l ++ drop (length (take 1024 l)) buf.

Lemma filled_ok l buf :
  Forall is_byte l -> Forall is_byte buf -> length buf = 1024%nat ->
  Forall is_byte (filled l buf) /\ length (filled l buf) = 1024%nat /\ take (length (take 1024 l)) (filled l buf) = take 1024 l.
Proof.
  intros Hb Hbb Hl. unfold filled. split_and!.
  - apply Forall_app. by split; [apply Forall_take|apply Forall_drop].
  - rewrite length_app, length_drop, length_take. lia.
  - by rewrite take_app_length.
Qed.

(** What a loop over [l] that ends with [x] has done, with the next address [w] before it. *)
Definition fuzed (p w : Z) (cool : bool) (l : bytes) s (x : bool) s' : Prop :=
  x = negb cool || (length l mod 1024 =? 0)%nat /\ (exists r', Ready p r' s') /\
  holds (nor s') (FLASH_BASE_ADDR + w) (take (written cool l) l) /\
  (forall x, ~ (FLASH_BASE_ADDR + w <= x < FLASH_BASE_ADDR + w + 2 * halves (Z.of_nat (written cool l))) -> cell (nor s') x = cell (nor s) x) /\
  unchanged p s s'.

(** What a turn of the loop needs. *)
Record Writable (p : Z) (r : FlashID) (l buf : bytes) s : Prop := mkWritable {
  wr_speaks : speaks k r;
  wr_ready : Ready p r s;
  wr_bytes : Forall is_byte l;
  wr_buf : Forall is_byte buf /\ length buf = 1024%nat;
  wr_cur : uiCurSectNum r <= FLASH_MAX_SECTOR_NUM r;
  wr_even : Z.even (uiWriteAddr r) = true;
  wr_low : 0 <= uiWriteAddr r;
  wr_high : uiWriteAddr r + 2 * halves (Z.of_nat (length l)) <= FLASH_SIZE;
  wr_blank : blank (nor s) (FLASH_BASE_ADDR + uiWriteAddr r) (2 * halves (Z.of_nat (length l)));
}.

(** A turn that writes the start of [l]. *)
Lemma fuze_turn fuel fd p r cool l buf s :
  base k = FLASH_BASE_ADDR -> FLASH_SIZE <= bank_size k -> Writable p r l buf s -> reading (disk s) fd l -> (0 < length l)%nat ->
  cool = false \/ (1024 <= length l)%nat ->
  let n := length (take 1024 l) in let w := uiWriteAddr r in
  exists s1, fuze_loop (S fuel) fd cool 0 buf s = fuze_loop fuel fd cool (if (n =? 1024)%nat then 0 else 1) (filled l buf) s1 /\
    Ready p (set_write (w + Z.of_nat n) r) s1 /\ reading (disk s1) fd (drop 1024 l) /\ holds (nor s1) (FLASH_BASE_ADDR + w) (take 1024 l) /\
    (forall x, ~ (FLASH_BASE_ADDR + w <= x < FLASH_BASE_ADDR + w + 2 * halves (Z.of_nat n)) -> cell (nor s1) x = cell (nor s) x) /\ unchanged p s s1.
Proof.
  intros Hbase Hsz [Hsp Hr Hb [Hbb Hlb] Hcur He Hlo Hhi Hbk] Hre Hpos Hc n w. destruct (read_file_ok fd l s Hre) as (d' & E & Hre').
  destruct (filled_ok l buf Hb Hbb Hlb) as (F1 & F2 & F3). fold n in F3.
  assert (n = Nat.min 1024 (length l)) as Hn by apply length_take.
  assert (2 * halves (Z.of_nat n) <= 2 * halves (Z.of_nat (length l))) as Hh by (unfold halves; Z.div_mod_to_equations; lia).
  destruct (write_ok p r n (filled l buf) (set_disk d' s)) as (s1 & E1 & Hr1 & Hh1 & Ho1 & Ed1 & Hu1).
  { done. } { done. } { done. } { by apply Ready_disk. } { done. } { lia. } { unfold PAGE_SIZE. lia. } { done. } { done. } { done. } { lia. }
  { intros x Hx. apply Hbk. lia. }
  exists s1. split_and!; [|done|by rewrite Ed1|by rewrite F3 in Hh1|done|by destruct Hu1].
  eapply fuze_loop_turn; [exact E|fold n; lia|done| |exact E1|rewrite u32_small by (unfold is_u32; lia); lia].
  destruct Hc as [->|Hc]; [by left|right; fold n; lia].
Qed.

(** The file ends with a short read. *)
Lemma fuze_short fuel fd p r cool l buf s :
  base k = FLASH_BASE_ADDR -> FLASH_SIZE <= bank_size k -> Writable p r l buf s -> reading (disk s) fd l -> (0 < length l < 1024)%nat ->
  exists x s', fuze_loop (S (S fuel)) fd cool 0 buf s = Ret x s' /\ fuzed p (uiWriteAddr r) cool l s x s'.
Proof.
  intros Hbase Hsz Hw Hre Hl. unfold fuzed, written. rewrite (Nat.mod_small (length l) 1024) by lia. rewrite (proj2 (Nat.eqb_neq _ 0)) by lia.
  destruct cool; cbn [negb orb].
  - destruct (read_file_ok fd l s Hre) as (d' & E & _). exists false, (set_disk d' s). rewrite Nat.sub_diag. split.
    + cbn [fuze_loop]. rewrite (bind_Ret _ _ _ _ _ E). cbn beta iota zeta. rewrite length_take, u32_small by (unfold is_u32; lia).
      by rewrite (proj2 (Z.eqb_neq _ 0)), (proj2 (Z.eqb_neq _ BUFF_SIZE)) by (unfold BUFF_SIZE; lia).
    + split_and!; [done|exists r; apply Ready_disk, Hw|done|done|done].
  - destruct (fuze_turn (S fuel) fd p r false l buf s Hbase Hsz Hw Hre ltac:(lia) (or_introl eq_refl)) as (s1 & -> & Hr1 & Hre1 & Hh1 & Ho1 & Hu1).
    rewrite drop_ge in Hre1 by lia. assert (take 1024 l = l) as Et by (apply take_ge; lia). rewrite Et in *. rewrite firstn_all, (proj2 (Nat.eqb_neq _ _)) by lia.
    destruct (fuze_loop_end fuel fd false 1 (filled l buf) s1 Hre1) as (d2 & ->). exists true, (set_disk d2 s1). split; [done|].
    split_and!; [done|eexists; by apply Ready_disk|done|done|by destruct Hu1].
Qed.

(** A full block before the rest. *)
Lemma fuzed_block p w cool l s s1 x s' :
  Z.even w = true -> (1024 <= length l)%nat -> holds (nor s1) (FLASH_BASE_ADDR + w) (take 1024 l) ->
  (forall x, ~ (FLASH_BASE_ADDR + w <= x < FLASH_BASE_ADDR + w + 1024) -> cell (nor s1) x = cell (nor s) x) -> unchanged p s s1 ->
  fuzed p (w + 1024) cool (drop 1024 l) s1 x s' -> fuzed p w cool l s x s'.
Proof.
  intros He Hl Hh1 Ho1 Hu1 (-> & Hr & Hh2 & Ho2 & Hu2). unfold fuzed. rewrite mod_step, written_step by done. set (v := written cool (drop 1024 l)) in *.
  assert (halves (Z.of_nat (1024 + v)) = 512 + halves (Z.of_nat v)) as Hhv by (rewrite Nat2Z.inj_add; unfold halves; Z.div_mod_to_equations; lia).
  split_and!; [done|done| | |by eapply un_trans].
  - assert (take (1024 + v) l = take 1024 l ++ take v (drop 1024 l)) as -> by (by rewrite take_take_drop). apply holds_join.
    + eapply holds_kept; [exact Hh1|apply (cells_same_outside _ _ (FLASH_BASE_ADDR + (w + 1024)) (2 * halves (Z.of_nat v)))|rewrite length_take; lia].
      { by rewrite !Z.even_add, He. } { by rewrite Z.even_mul. } { exact Ho2. }
    + rewrite length_take, Nat.min_l by done. change (Z.of_nat 1024) with 1024. by rewrite <- Z.add_assoc.
  - intros y Hy. pose proof (halves_bounds (Z.of_nat v)). rewrite Ho2 by lia. apply Ho1. lia.
Qed.

Lemma fuze_loop_ok m : forall fuel l buf s fd p r cool,
  base k = FLASH_BASE_ADDR -> FLASH_SIZE <= bank_size k -> Writable p r l buf s -> reading (disk s) fd l ->
  (length l < 1024 * m)%nat -> (m < fuel)%nat ->
  exists x s', fuze_loop fuel fd cool 0 buf s = Ret x s' /\ fuzed p (uiWriteAddr r) cool l s x s'.
Proof.
  induction m as [|m IH]; intros fuel l buf s fd p r cool Hbase Hsz Hw Hre Hm Hfu; [lia|]. destruct fuel as [|fuel]; [lia|].
  destruct (decide (l = [])) as [->|Hne].
  { destruct (fuze_loop_end fuel fd cool 0 buf s Hre) as (d' & E). exists true, (set_disk d' s). split; [done|].
    split_and!; [by rewrite orb_true_r|exists r; apply Ready_disk, Hw|by rewrite take_nil|done|done]. }
  assert (0 < length l)%nat as Hpos by (destruct l; [done|simpl; lia]).
  destruct (decide (length l < 1024)%nat) as [Hlt|Hge]; [destruct fuel as [|fuel]; [lia|]; by apply fuze_short|].
  destruct (fuze_turn fuel fd p r cool l buf s Hbase Hsz Hw Hre Hpos ltac:(right; lia)) as (s1 & -> & Hr1 & Hre1 & Hh1 & Ho1 & Hu1).
  rewrite length_take, Nat.min_l in * by lia. rewrite Nat.eqb_refl. change (Z.of_nat 1024) with 1024 in *. change (2 * halves 1024) with 1024 in Ho1.
  destruct Hw as [Hsp Hr Hb [Hbb Hlb] Hcur He Hlo Hhi Hbk]. destruct (filled_ok l buf Hb Hbb Hlb) as (F1 & F2 & _).
  assert (halves (Z.of_nat (length l)) = 512 + halves (Z.of_nat (length (drop 1024 l)))) as Hhl
    by (rewrite length_drop, Nat2Z.inj_sub by lia; unfold halves; Z.div_mod_to_equations; lia).
  destruct (IH fuel (drop 1024 l) (filled l buf) s1 fd p (set_write (uiWriteAddr r + 1024) r) cool) as (x & s2 & E2 & Hf);
    [done|done| |done|rewrite length_drop; lia|lia|exists x, s2; split; [done|eapply fuzed_block; [exact He|lia|exact Hh1|exact Ho1|exact Hu1|exact Hf]]].
  split; simpl; [done|done|by apply Forall_drop|done|done|by rewrite Z.even_add, He|lia|lia|].
  intros y Hy Hye. rewrite Ho1 by lia. apply Hbk; [lia|done].
Qed.

(** ** Opening *)

(** The sector set-up for the identification [m], [d]. *)
Definition set_up (m : Z) : M St Z :=
  if m =? 0xBF then SetSSTSector else if m =? 0xEC then SetSamsungSector else if m =? 0x1F then SetATMELSector else SetAMDSector.

Lemma nor_rd_gives a s v f : rd16 a (nor s) = (v, f) -> nor_rd a s = Ret v (set_nor f s).
Proof. intros E. unfold nor_rd. by rewrite E. Qed.

Lemma identify_ok s :
  base k = FLASH_BASE_ADDR -> idle (nor s) -> exists f', idle f' /\ (forall x, cell f' x = cell (nor s) x) /\
    CheckFlashID s = set_up (manu_id k) (set_nor f' (set_FID (set_ids (manu_id k) (dev_id k) (set_fail 0 (FID s))) s)).
Proof.
  intros Hbase Hi. destruct (autoselect_law (nor s) Hi) as (g1 & g2 & E1 & E2 & Hi' & Hc). unfold unlock_any in *. rewrite Hbase in *.
  eexists. split; [exact Hi'|]. split; [exact Hc|]. unfold CheckFlashID, mfid, nor_wr. rewrite !bind_modify.
  erewrite bind_Ret; [|eapply nor_rd_gives; exact E1]. erewrite bind_Ret; [|eapply nor_rd_gives; exact E2].
  rewrite bind_modify. unfold ReturnNormalOP, nor_wr. rewrite ?bind_bind, !bind_modify. reflexivity.
Qed.

Lemma set_up_ok s :
  known_chip (manu_id k) (dev_id k) -> FID s = set_ids (manu_id k) (dev_id k) zero_FID ->
  exists c r, set_up (manu_id k) s = Ret 1 (set_FID r s) /\ Identified k c r.
Proof.
  intros Hk Hf.
  assert (Step : forall c g, (forall m d, layout_ok c (g (set_ids m d zero_FID)) = true /\ ManuID (g (set_ids m d zero_FID)) = m) ->
    (manu_id k = 0xBF -> 32 <= c) -> (exactly_2MB (dev_id k) -> forall m d, FLASH_MAX_SECTOR_NUM (g (set_ids m d zero_FID)) = c + 30) ->
    exists c r, (mfid g ;; mret 1) s = Ret 1 (set_FID r s) /\ Identified k c r).
  { intros c g Hg Hs Hx. exists c, (g (FID s)). split; [done|]. rewrite Hf. destruct (Hg (manu_id k) (dev_id k)). apply layout_identified; auto. }
  unfold set_up, SetSSTSector, SetSamsungSector, SetATMELSector, SetAMDSector.
  destruct Hk as [[Em Ed]|[[Em Ed]|[[Em Ed]|(N1 & N2 & N3 & [Ed|Ed])]]]; rewrite ?Em, ?(proj2 (Z.eqb_neq (manu_id k) _)) by done;
    cbn [Z.eqb Pos.eqb]; rewrite bind_gets, Hf; cbn [DeviceID set_ids]; rewrite Ed; cbn [Z.eqb Pos.eqb negb].
  - apply (Step 9); [intros; split; reflexivity|by rewrite Em|reflexivity].
  - apply (Step 33); [intros; split; reflexivity|done|reflexivity].
  - apply (Step 9); [intros; split; reflexivity|by rewrite Em|]. rewrite Ed. by intros [].
  - apply (Step 5); [intros; split; reflexivity|done|reflexivity].
  - apply (Step 9); [intros; split; reflexivity|done|]. rewrite Ed. by intros [].
Qed.

(** The device after a successful open. *)
Lemma open_ok p l s :
  Supported k -> idle (nor s) -> s_bDeviceWriteOpen s = 0 -> next_pages s = p :: l -> p <> 0 -> exists c r s',
    device_open O_RDWR s = Ret 0 s' /\ Identified k c r /\ speaks k r /\ Ready p r s' /\ (forall x, cell (nor s') x = cell (nor s) x) /\
    disk s' = disk s /\ s_bDeviceWriteOpen s' = 1 /\ irqs_on s' = irqs_on s /\ use_count s' = use_count s + 1 /\
    delete p (pages s') = delete p (pages s).
Proof.
  intros Hs Hi Hw Hn Hp. unfold device_open, __get_free_page. rewrite bind_bind, bind_gets, Hn. cbn beta iota.
  rewrite bind_bind, bind_modify, bind_mret, bind_modify, (proj2 (Z.eqb_neq p 0)) by done. unfold mfid. rewrite !bind_modify, !bind_gets.
  cbn [s_bDeviceWriteOpen s_bDeviceReadOpen set_FID set_pages set_gpBuff set_next_pages]. rewrite Hw.
  change (for_writing O_RDWR) with true. cbn [andb negb Z.eqb]. rewrite bind_modify.
  match goal with |- exists _ _ _, (_ ≫= _) ?s1 = _ /\ _ => set (s0 := s1) end.
  destruct (identify_ok s0 (sup_base _ Hs)) as (f' & Hi' & Hc' & E); [done|].
  destruct (set_up_ok (set_nor f' (set_FID (set_ids (manu_id k) (dev_id k) (set_fail 0 (FID s0))) s0)) (sup_known _ Hs)) as (c & r & E2 & Hid); [done|].
  rewrite E2 in E. rewrite (bind_Ret _ _ _ _ _ E). cbn [Z.ltb Z.compare]. rewrite bind_modify.
  eexists c, r, _. split; [reflexivity|]. split_and!; try done.
  - pose proof (sup_speaks _ Hs) as Hsp. unfold speaks in *. by rewrite (id_manu _ _ _ Hid).
  - split; try done. exists zero_page. split; [apply lookup_insert_eq|]. by split; [apply length_replicate|apply Forall_replicate].
  - apply delete_insert_eq.
Qed.
End Chip.
