(* ===== verification/FlashImage.v ===== *)
(** * Installing an image: the theorems

    The request [FL_FUZE_IMAGE] of the flash driver, from the file to the contents of the chip,
    and the ways in which it fails. *)

From S2P Require Import Prelude FlashChip FlashDev FlashSpec.

(** The largest image: 30 sectors of 64 KB. *)
Definition MAX_IMAGE : Z := 30 * 0x10000.

(** The argument of the request: a name in a buffer of 64 bytes. *)
Record names_file (arg : bytes) (name : cstr) : Prop := mkNames {
  na_length : (64 <= length arg)%nat;
  na_string : string_in (take 64 arg) = Some name;
}.

Lemma sectors_bounds n : 0 <= n -> n <= sectors_of n * 0x10000 < n + 0x10000.
Proof.
  intros Hn. unfold sectors_of. change (64 * 1024) with 0x10000.
  destruct (Z.eqb_spec (n mod 0x10000) 0); Z.div_mod_to_equations; lia.
Qed.

Section Image.
Context {F D : Type} `{NorFlash F} `{FileSys D} {k : ChipKind} {L : ChipLaws F k} {FL : FileLaws D}.
Implicit Types (s : FlashSt F D) (f : F).

Lemma Ready_same p r s s' :
  Ready (k := k) p r s -> FID s' = FID s -> gpBuff s' = gpBuff s -> pages s' = pages s -> nor s' = nor s -> Ready (k := k) p r s'.
Proof. intros [] E1 E2 E3 E4. split; rewrite ?E1, ?E2, ?E3, ?E4; done. Qed.

(** The request up to the erasure. *)
Lemma fuze_start fuel arg stack name l s :
  names_file arg name -> has_file (disk s) name l -> 64 <= Z.of_nat (length l) <= MAX_IMAGE + 64 -> exists fd s1,
    reading (disk s1) fd (drop 64 l) /\ FID s1 = FID s /\ gpBuff s1 = gpBuff s /\ pages s1 = pages s /\ nor s1 = nor s /\
    (forall p, unchanged p s s1) /\
    fuze_image fuel arg stack s =
      (erase_loop fuel (Z.to_nat (sectors_of (Z.of_nat (length l)))) ;;
       ok ← fuze_loop fuel fd (Z.of_nat (length l) mod BUFF_SIZE =? 0) 0 stack;
       if ok : bool then
         poke 0x3FF4008 0x0 ;; on_disk (fs_close fd) ;; modify (set_runflprog 1) ;;
         on_disk (fs_renew (lit "/etc/inittab")) ;; on_disk (fs_renew (lit "/dev/")) ;; on_disk (fs_renew (lit "/lib/lib1.so")) ;;
         mret 1
       else on_disk (fs_close fd) ;; mret (- ENOTTY)) s1.
Proof.
  intros [Hl Hs] Hf Hsz. destruct (open_law _ _ _ Hf) as (fd & d & Eo & Hfd & Hr & Es). unfold MAX_IMAGE in Hsz.
  exists fd. eexists. split; [|split; [|split; [|split; [|split; [|split; [|]]]]]].
  7:{ unfold fuze_image. rewrite (proj2 (Nat.ltb_ge _ _)) by done. rewrite Hs.
      erewrite bind_Ret; [|unfold open_file; rewrite Eo; reflexivity].
      assert (IS_ERR fd = false) as -> by (unfold IS_ERR; rewrite (u32_small fd) by (unfold is_u32; lia); apply Z.ltb_ge; change (u32 (-1000)) with 4294966296; lia).
      rewrite bind_gets. cbn [disk set_disk]. rewrite Es, (u32_small (Z.of_nat (length l))) by (unfold is_u32; lia).
      unfold FLASH_SIZE, ARMBOOT_SIZE, sizeof_image_header. rewrite (u32_small (Z.of_nat (length l) - 64)) by (unfold is_u32; lia).
      rewrite (proj2 (Z.ltb_ge _ _)) by lia. cbn iota. do 2 (erewrite bind_Ret; [|reflexivity]). reflexivity. }
  all: try done. cbn [disk set_disk set_io]. exact (skip_law _ _ _ 64 Hr).
Qed.

(** [cool_size], what is written of the file, and the bytes that are erased. *)
Definition whole_kilobytes (l : bytes) : bool := Z.of_nat (length l) mod BUFF_SIZE =? 0.
Definition stored_bytes (l : bytes) : nat := written (whole_kilobytes l) (drop 64 l).
Definition erased_bytes (l : bytes) : Z := sectors_of (Z.of_nat (length l)) * 0x10000.

Lemma stored_bound l : (stored_bytes l <= length l - 64)%nat.
Proof. unfold stored_bytes, written. rewrite length_drop. destruct (whole_kilobytes l); lia. Qed.

(** A file of whole kilobytes ends with a short read behind its header. *)
Lemma whole_kilobytes_end l :
  64 <= Z.of_nat (length l) -> negb (whole_kilobytes l) || (length (drop 64 l) mod 1024 =? 0)%nat = negb (whole_kilobytes l).
Proof.
  intros Hl. unfold whole_kilobytes, BUFF_SIZE. destruct (Z.eqb_spec (Z.of_nat (length l) mod 1024) 0) as [Eq|]; [|done].
  cbn [negb orb]. apply Nat.eqb_neq. rewrite length_drop. intros E%(f_equal Z.of_nat). rewrite Nat2Z.inj_mod, Nat2Z.inj_sub in E by lia.
  change (Z.of_nat 1024) with 1024 in E. Z.div_mod_to_equations. lia.
Qed.

(** Erasing and writing. *)
Lemma erase_and_write p c r l stack s :
  Supported k -> Identified k c r -> speaks k r -> Ready (k := k) p r s -> Forall is_byte l -> length stack = 1024%nat -> Forall is_byte stack ->
  64 <= Z.of_nat (length l) <= MAX_IMAGE ->
  exists N, forall fuel fd s1, (N <= fuel)%nat -> Ready (k := k) p r s1 -> nor s1 = nor s -> reading (disk s1) fd (drop 64 l) -> exists s' r',
    (erase_loop fuel (Z.to_nat (sectors_of (Z.of_nat (length l)))) ;; fuze_loop fuel fd (whole_kilobytes l) 0 stack) s1 =
      Ret (negb (whole_kilobytes l)) s' /\ Ready (k := k) p r' s' /\
    holds (nor s') IMAGE (take (stored_bytes l) (drop 64 l)) /\
    (forall x, IMAGE + 2 * halves (Z.of_nat (stored_bytes l)) <= x < IMAGE + erased_bytes l -> cell (nor s') x = 0xffff) /\
    (forall x, ~ (IMAGE <= x < IMAGE + erased_bytes l) -> cell (nor s') x = cell (nor s) x) /\ unchanged p s1 s'.
Proof.
  intros Hs Hid Hsp Hr Hb Hst Hstb Hsz. pose proof (sectors_bounds (Z.of_nat (length l)) ltac:(lia)) as Hse. fold (erased_bytes l) in Hse.
  unfold erased_bytes in *. set (m := sectors_of (Z.of_nat (length l))) in *. unfold MAX_IMAGE in Hsz.
  destruct (erase_image_ok (D := D) c r (Z.to_nat m) (nor s) Hs Hid (rd_idle _ _ _ Hr) ltac:(lia)) as (N1 & f1 & Hi1 & Hc1 & E1).
  exists (Nat.max N1 (length l / 1024 + 3)). intros fuel fd s1 Hfu Hr1 A4 Hre.
  rewrite (bind_Ret _ _ _ _ _ (E1 s1 fuel A4 (rd_fid _ _ _ Hr1) ltac:(lia))).
  set (s2 := set_nor f1 (set_FID (set_cur (c + Z.of_nat (Z.to_nat m)) r) s1)). rewrite Z2Nat.id in Hc1 by lia.
  pose proof (halves_bounds (Z.of_nat (length (drop 64 l)))) as Hh. rewrite length_drop in Hh.
  pose proof (stored_bound l) as Hwl. pose proof (halves_bounds (Z.of_nat (stored_bytes l))) as Hw.
  destruct (fuze_loop_ok (k := k) (length l / 1024 + 1) fuel (drop 64 l) stack s2 fd p (set_cur (c + Z.of_nat (Z.to_nat m)) r) (whole_kilobytes l))
    as (x & s3 & E3 & Ex & [r3 Hr3] & Hh3 & Ho3 & Hu3).
  { apply Hs. } { apply Hs. }
  { split; cbn [uiWriteAddr uiCurSectNum FLASH_MAX_SECTOR_NUM set_cur]; rewrite ?(id_write _ _ _ Hid), ?length_drop; [exact Hsp|by destruct Hr1; split
      |by apply Forall_drop|done|pose proof (id_max _ _ _ Hid); lia|done|done|unfold FLASH_SIZE; lia|].
    intros x Hx _. simpl. rewrite Hc1, decide_True; [done|unfold IMAGE; lia]. }
  { done. } { rewrite length_drop. pose proof (Nat.div_mod (length l) 1024). pose proof (Nat.mod_upper_bound (length l) 1024). lia. } { lia. }
  cbn [uiWriteAddr set_cur] in Hh3, Ho3. rewrite (id_write _ _ _ Hid) in Hh3, Ho3. fold IMAGE (stored_bytes l) in Hh3, Ho3.
  rewrite whole_kilobytes_end in Ex by lia. subst x. exists s3, r3. split_and!; [done|done|done| | |by destruct Hu3].
  - intros x Hx. rewrite Ho3 by lia. simpl. by rewrite Hc1, decide_True by lia.
  - intros x Hx. rewrite Ho3 by lia. simpl. by rewrite Hc1, decide_False by lia.
Qed.

(** The whole request, on an open device. *)
Lemma fuze_ok p c r name l arg stack s :
  Supported k -> Identified k c r -> speaks k r -> Ready (k := k) p r s ->
  names_file arg name -> has_file (disk s) name l -> Forall is_byte l -> length stack = 1024%nat -> Forall is_byte stack ->
  64 <= Z.of_nat (length l) <= MAX_IMAGE ->
  exists N, forall fuel, (N <= fuel)%nat -> exists s' r',
    device_ioctl fuel FL_FUZE_IMAGE 0 arg stack s = Ret (if whole_kilobytes l then - ENOTTY else 1) s' /\ Ready (k := k) p r' s' /\
    holds (nor s') IMAGE (take (stored_bytes l) (drop 64 l)) /\
    (forall x, IMAGE + 2 * halves (Z.of_nat (stored_bytes l)) <= x < IMAGE + erased_bytes l -> cell (nor s') x = 0xffff) /\
    (forall x, ~ (IMAGE <= x < IMAGE + erased_bytes l) -> cell (nor s') x = cell (nor s) x) /\
    unchanged p s s' /\ (whole_kilobytes l = false -> runflprog_flag s' = 1).
Proof.
  intros Hs Hid Hsp Hr Hn Hf Hb Hst Hstb Hsz.
  destruct (erase_and_write p c r l stack s Hs Hid Hsp Hr Hb Hst Hstb Hsz) as [N HN]. exists N. intros fuel Hfu. unfold MAX_IMAGE in Hsz.
  destruct (fuze_start fuel arg stack name l s Hn Hf ltac:(unfold MAX_IMAGE; lia)) as (fd & s1 & Hre & A1 & A2 & A3 & A4 & Hu & E).
  destruct (HN fuel fd s1 Hfu (Ready_same _ _ _ _ Hr A1 A2 A3 A4) A4 Hre) as (s2 & r2 & E2 & Hr2 & Hh & Hbl & Ho & Hu2).
  change (device_ioctl fuel FL_FUZE_IMAGE 0 arg stack s) with (fuze_image fuel arg stack s). rewrite E.
  rewrite <- (bind_bind (erase_loop fuel _)), (bind_Ret _ _ _ _ _ E2).
  destruct (whole_kilobytes l); cbn [negb]; eexists _, r2; (split; [reflexivity|]);
    (split_and!; [by eapply Ready_same|done|done|done|eapply un_trans; [apply Hu|]; by destruct Hu2|done]).
Qed.

Lemma release_ok p r s :
  Ready (k := k) p r s -> device_release O_RDWR s = Ret 0 (set_use_count (use_count s - 1)
    (set_write_open (s_bDeviceWriteOpen s - 1) (set_pages (delete p (pages s)) s))).
Proof.
  intros [_ Hg Hnz (page & Hp & _) _]. unfold device_release, free_page. rewrite bind_gets, bind_bind, bind_gets, Hg.
  rewrite (proj2 (Z.eqb_neq p 0)) by done. by rewrite Hp.
Qed.

(** C10: The image of a file, its data behind the header, is in the flash after the request, at its place
    behind the boot loader; nothing outside the erased sectors has changed, and after the release the device is
    closed as before.  For a file of at most 30 sectors whose size is not a whole number of kilobytes. *)
Theorem fuze_installs_image p q name l arg stack s :
  Supported k -> idle (nor s) -> s_bDeviceWriteOpen s = 0 -> next_pages s = p :: q -> p <> 0 -> pages s !! p = None ->
  names_file arg name -> has_file (disk s) name l -> Forall is_byte l -> length stack = 1024%nat -> Forall is_byte stack ->
  64 <= Z.of_nat (length l) <= MAX_IMAGE -> whole_kilobytes l = false ->
  exists N, forall fuel, (N <= fuel)%nat -> exists s1 s2 s3,
    device_open O_RDWR s = Ret 0 s1 /\ device_ioctl fuel FL_FUZE_IMAGE 0 arg stack s1 = Ret 1 s2 /\ device_release O_RDWR s2 = Ret 0 s3 /\
    idle (nor s3) /\ holds (nor s3) IMAGE (drop 64 l) /\ same_outside (nor s) (nor s3) IMAGE (erased_bytes l) /\
    s_bDeviceWriteOpen s3 = 0 /\ use_count s3 = use_count s /\ pages s3 = pages s /\ irqs_on s3 = irqs_on s /\ runflprog_flag s3 = 1.
Proof.
  intros Hs Hi Hw Hn Hp Hfr Hna Hf Hb Hst Hstb Hsz Hk.
  destruct (open_ok p q s Hs Hi Hw Hn Hp) as (c & r & s1 & E1 & Hid & Hsp & Hr & Hc & Ed & Hw1 & Hir & Hu & Hpg). rewrite <- Ed in Hf.
  destruct (fuze_ok p c r name l arg stack s1 Hs Hid Hsp Hr Hna Hf Hb Hst Hstb Hsz) as [N HN]. exists N. intros fuel Hfu.
  destruct (HN fuel Hfu) as (s2 & r2 & E2 & Hr2 & Hh & _ & Ho & [U1 U2 U3 U4 U5] & Hfl). rewrite Hk in E2.
  assert (stored_bytes l = length (drop 64 l)) as Hsl by (unfold stored_bytes; by rewrite Hk). rewrite Hsl, take_ge in Hh by done.
  eexists s1, s2, _. split; [done|]. split; [done|]. split; [by eapply release_ok|]. split_and!; simpl; [apply Hr2|done| |lia|lia| |congruence|by apply Hfl].
  - apply cells_same_outside; [done|unfold erased_bytes; by rewrite Z.even_mul, orb_true_r|]. intros x Hx. by rewrite Ho, Hc.
  - rewrite U5, Hpg. by apply delete_id.
Qed.

(** A file of whole kilobytes is refused after its sectors were erased and all but its last 960 bytes written:
    the loop takes the short read at its end, due to the header, for an error. *)
Theorem fuze_whole_kilobytes_fails p q name l arg stack s :
  Supported k -> idle (nor s) -> s_bDeviceWriteOpen s = 0 -> next_pages s = p :: q -> p <> 0 ->
  names_file arg name -> has_file (disk s) name l -> Forall is_byte l -> length stack = 1024%nat -> Forall is_byte stack ->
  1024 <= Z.of_nat (length l) <= MAX_IMAGE -> whole_kilobytes l = true ->
  exists N, forall fuel, (N <= fuel)%nat -> exists s1 s2,
    device_open O_RDWR s = Ret 0 s1 /\ device_ioctl fuel FL_FUZE_IMAGE 0 arg stack s1 = Ret (- ENOTTY) s2 /\
    holds (nor s2) IMAGE (take (length l - 1024) (drop 64 l)) /\
    blank (nor s2) (IMAGE + Z.of_nat (length l) - 1024) 1024.
Proof.
  intros Hs Hi Hw Hn Hp Hna Hf Hb Hst Hstb Hsz Hk.
  destruct (open_ok p q s Hs Hi Hw Hn Hp) as (c & r & s1 & E1 & Hid & Hsp & Hr & Hc & Ed & _). rewrite <- Ed in Hf.
  destruct (fuze_ok p c r name l arg stack s1 Hs Hid Hsp Hr Hna Hf Hb Hst Hstb ltac:(lia)) as [N HN]. exists N. intros fuel Hfu.
  destruct (HN fuel Hfu) as (s2 & r2 & E2 & _ & Hh & Hbl & _). rewrite Hk in E2. exists s1, s2.
  assert (stored_bytes l = length l - 1024)%nat as Hsl.
  { unfold stored_bytes, written. rewrite Hk, length_drop. unfold whole_kilobytes, BUFF_SIZE in Hk. apply Z.eqb_eq in Hk.
    assert ((length l - 64) mod 1024 = 960)%nat as ->; [|lia]. apply Nat2Z.inj. rewrite Nat2Z.inj_mod, Nat2Z.inj_sub by lia.
    change (Z.of_nat 1024) with 1024. change (Z.of_nat 960) with 960. Z.div_mod_to_equations. lia. }
  rewrite Hsl in Hh, Hbl. split_and!; [done|done|done|]. intros x Hx _. apply Hbl.
  pose proof (sectors_bounds (Z.of_nat (length l)) ltac:(lia)). unfold erased_bytes, halves.
  unfold whole_kilobytes, BUFF_SIZE in Hk. apply Z.eqb_eq in Hk. Z.div_mod_to_equations. lia.
Qed.

(** ** An image that is too large *)

Lemma refused_turn p r fuel fd buf l s :
  Ready (k := k) p r s -> FLASH_MAX_SECTOR_NUM r < uiCurSectNum r -> reading (disk s) fd l -> l <> [] -> Forall is_byte l ->
  length buf = 1024%nat -> Forall is_byte buf -> exists buf' s',
    fuze_loop (S fuel) fd false 0 buf s = fuze_loop fuel fd false (if (length (take 1024 l) =? 1024)%nat then 0 else 1) buf' s' /\
    Ready (k := k) p r s' /\ reading (disk s') fd (drop 1024 l) /\ nor s' = nor s /\ unchanged p s s' /\
    length buf' = 1024%nat /\ Forall is_byte buf'.
Proof.
  intros Hr Hm Hre Hne Hb Hlb Hbb. destruct (read_file_ok fd l s Hre) as (d' & E & Hre'). set (c := take 1024 l) in *.
  assert (0 < length l)%nat by (destruct l; [done|simpl; lia]).
  assert (0 < length c <= 1024)%nat as Hc by (unfold c; rewrite length_take; lia).
  assert (Forall is_byte (c ++ drop (length c) buf)) as Hb' by (apply Forall_app; split; [by apply Forall_take|by apply Forall_drop]).
  destruct (write_refused p r (length c) (c ++ drop (length c) buf) (set_disk d' s)) as (s1 & E1 & Hr1 & En & Ed & Hu);
    [by apply Ready_disk|done|rewrite length_app; lia|unfold PAGE_SIZE; lia|done|].
  exists (c ++ drop (length c) buf), s1. split; [eapply fuze_loop_turn; [exact E|lia|done|by left|exact E1|done]|].
  split_and!; [done|by rewrite Ed|done|by destruct Hu|rewrite length_app, length_drop; lia|done].
Qed.

(** The loop ignores that every write is refused. *)
Lemma fuze_loop_refused p r m : forall fuel fd buf l s,
  Ready (k := k) p r s -> FLASH_MAX_SECTOR_NUM r < uiCurSectNum r -> reading (disk s) fd l -> Forall is_byte l ->
  length buf = 1024%nat -> Forall is_byte buf -> (length l < 1024 * m)%nat -> (m < fuel)%nat ->
  exists s', fuze_loop fuel fd false 0 buf s = Ret true s' /\ nor s' = nor s.
Proof.
  induction m as [|m IH]; intros fuel fd buf l s Hr Hm Hre Hb Hlb Hbb Hl Hfu; [lia|]. destruct fuel as [|fuel]; [lia|].
  destruct (decide (l = [])) as [->|Hne].
  { destruct (fuze_loop_end fuel fd false 0 buf s Hre) as (d' & E). by exists (set_disk d' s). }
  destruct (refused_turn p r fuel fd buf l s Hr Hm Hre Hne Hb Hlb Hbb) as (buf' & s1 & -> & Hr1 & Hre1 & En & _ & Hlb' & Hbb').
  rewrite length_take. destruct (decide (1024 <= length l)%nat) as [Hge|Hlt].
  - rewrite Nat.min_l, Nat.eqb_refl by lia.
    destruct (IH fuel fd buf' (drop 1024 l) s1) as (s2 & E2 & En2); [done|done|done|by apply Forall_drop|done|done|rewrite length_drop; lia|lia|].
    exists s2. split; [done|congruence].
  - rewrite (proj2 (Nat.eqb_neq _ _)) by lia. rewrite drop_ge in Hre1 by lia. destruct fuel as [|fuel]; [lia|].
    destruct (fuze_loop_end fuel fd false 1 buf' s1 Hre1) as (d' & ->). by exists (set_disk d' s1).
Qed.

(** The sectors of a file that is larger than 30 sectors only with its header: one more than there are. *)
Lemma erase_too_much c r f :
  Supported k -> Identified k c r -> exactly_2MB (dev_id k) -> manu_id k <> 0xBF -> speaks k r -> idle f ->
  0 < sector_len k FLASH_BASE_ADDR -> erase_cmd k FLASH_BASE_ADDR = 0x30 ->
  exists N f', idle f' /\ (forall x, in_sector k FLASH_BASE_ADDR x -> cell f' x = 0xffff) /\
    (forall x, IMAGE <= x < IMAGE + MAX_IMAGE -> cell f' x = 0xffff) /\
    forall s fuel, nor s = f -> FID s = r -> (N <= fuel)%nat ->
      erase_loop fuel 31 s = Ret tt (set_nor f' (set_FID (set_cur (c + 31) r) s)).
Proof.
  intros Hs Hid Hx Hm Hsp Hi Hl Hcmd.
  destruct (erase_image_ok (D := D) c r 30 f Hs Hid Hi ltac:(lia)) as (N1 & f1 & Hi1 & Hc1 & E1).
  pose proof (id_full _ _ _ Hid Hx) as Hmax. pose proof (id_next _ _ _ Hid) as Hnx. rewrite Hmax in Hnx.
  destruct (erase_ok (D := D) (set_cur (c + 30) r) (c + 30) 0 f1) as (N2 & f2 & Hi2 & Hc2 & E2).
  { apply Hs. } { done. } { done. } { done. }
  { pose proof (sup_base _ Hs). pose proof (sup_size _ Hs). unfold in_bank, FLASH_BASE_ADDR, FLASH_SIZE in *. lia. }
  { by rewrite Z.add_0_r. }
  { rewrite Z.add_0_r, Hcmd. unfold sector_cmd. simpl. by rewrite (id_manu _ _ _ Hid), (proj2 (Z.eqb_neq _ _)). }
  rewrite Z.add_0_r in Hc2. exists (Nat.max N1 N2), f2. split_and!; [done|intros x Hin; by rewrite Hc2, decide_True| |].
  - intros x Hin. rewrite Hc2. destruct (decide _); [done|]. rewrite Hc1. by rewrite decide_True by (unfold MAX_IMAGE in Hin; lia).
  - intros s fuel Ef Er Hfu. change 31%nat with (30 + 1)%nat. rewrite erase_loop_add.
    rewrite (bind_Ret _ _ _ _ _ (E1 s fuel Ef Er ltac:(lia))). erewrite erase_loop_one; [|simpl; apply E2; (done || lia)].
    pose proof (id_max _ _ _ Hid). pose proof (id_first _ _ _ Hid). cbn [uiCurSectNum set_cur FID set_FID set_nor]. change (Z.of_nat 30) with 30.
    rewrite u32_small by (unfold is_u32; lia). by replace (c + 31) with (c + 30 + 1) by lia.
Qed.

(** C28: On a chip of exactly 2 MB that is not of manufacturer 0xBF and whose first
    sector is erased by the command 0x30: an image of the largest sizes that are
    accepted, larger than 30 sectors only with its header, destroys the boot loader:
    one sector more is erased than there are, which is taken to be at address 0.  Then
    every write is refused, which is not noticed: the request reports success with
    nothing written. *)
Theorem fuze_erases_boot_loader p q name l arg stack s :
  Supported k -> exactly_2MB (dev_id k) -> manu_id k <> 0xBF -> 0 < sector_len k FLASH_BASE_ADDR -> erase_cmd k FLASH_BASE_ADDR = 0x30 ->
  idle (nor s) -> s_bDeviceWriteOpen s = 0 -> next_pages s = p :: q -> p <> 0 ->
  names_file arg name -> has_file (disk s) name l -> Forall is_byte l -> length stack = 1024%nat -> Forall is_byte stack ->
  MAX_IMAGE < Z.of_nat (length l) <= MAX_IMAGE + 64 ->
  exists N, forall fuel, (N <= fuel)%nat -> exists s1 s2,
    device_open O_RDWR s = Ret 0 s1 /\ device_ioctl fuel FL_FUZE_IMAGE 0 arg stack s1 = Ret 1 s2 /\
    (forall x, in_sector k FLASH_BASE_ADDR x -> cell (nor s2) x = 0xffff) /\
    (forall x, IMAGE <= x < IMAGE + MAX_IMAGE -> cell (nor s2) x = 0xffff).
Proof.
  intros Hs Hx Hm Hl Hcmd Hi Hw Hn Hp Hna Hf Hb Hst Hstb Hsz.
  destruct (open_ok p q s Hs Hi Hw Hn Hp) as (c & r & s1 & E1 & Hid & Hsp & Hr & Hc & Ed & _). rewrite <- Ed in Hf.
  destruct (erase_too_much c r (nor s1) Hs Hid Hx Hm Hsp (rd_idle _ _ _ Hr) Hl Hcmd) as (N & f' & Hi' & H1 & H2 & E2).
  exists (Nat.max N (length l / 1024 + 3)). intros fuel Hfu. unfold MAX_IMAGE in Hsz.
  destruct (fuze_start fuel arg stack name l s1 Hna Hf ltac:(unfold MAX_IMAGE; lia)) as (fd & s2 & Hre & A1 & A2 & A3 & A4 & _ & E).
  pose proof (Ready_same _ _ _ _ Hr A1 A2 A3 A4) as Hr2.
  assert (Z.to_nat (sectors_of (Z.of_nat (length l))) = 31%nat) as Es.
  { pose proof (sectors_bounds (Z.of_nat (length l)) ltac:(lia)). lia. }
  assert ((Z.of_nat (length l) mod BUFF_SIZE =? 0) = false) as Ek by (apply Z.eqb_neq; unfold BUFF_SIZE; Z.div_mod_to_equations; lia).
  rewrite Es, Ek, (bind_Ret _ _ _ _ _ (E2 s2 fuel A4 (rd_fid _ _ _ Hr2) ltac:(lia))) in E.
  set (s3 := set_nor f' (set_FID (set_cur (c + 31) r) s2)) in *.
  destruct (fuze_loop_refused p (set_cur (c + 31) r) (length l / 1024 + 1) fuel fd stack (drop 64 l) s3) as (s4 & E4 & En).
  { destruct Hr2. by split. } { simpl. rewrite (id_full _ _ _ Hid Hx). lia. } { done. } { by apply Forall_drop. } { done. } { done. }
  { rewrite length_drop. pose proof (Nat.div_mod (length l) 1024). pose proof (Nat.mod_upper_bound (length l) 1024). lia. } { lia. }
  rewrite (bind_Ret _ _ _ _ _ E4) in E. eexists s1, _. split; [done|]. split; [exact E|]. simpl. rewrite En. by split.
Qed.

(** ** A second opener *)

Lemma compare_any n : forall src tgt s,
  idle (nor s) -> (2 * n <= length src)%nat -> Z.even tgt = true -> base k <= tgt -> tgt + 2 * Z.of_nat n <= base k + bank_size k ->
  exists v, compare_halves n tgt src s = Ret v s.
Proof.
  induction n as [|n IH]; intros src tgt s Hi Hn He Hlo Hhi; [by exists 1|].
  destruct src as [|b0 [|b1 src]]; [simpl in Hn; lia..|]. cbn [compare_halves].
  rewrite (bind_Ret _ _ _ _ _ (nor_rd_idle tgt s Hi ltac:(unfold in_bank; lia) He)).
  destruct (negb _); [by exists (-1)|]. apply IH; [done|simpl in Hn; lia|by rewrite Z.even_add, He|lia|lia].
Qed.

(** Programming over what is there. *)
Lemma program_any tgt src n s :
  base k = FLASH_BASE_ADDR -> speaks k (FID s) -> idle (nor s) -> 0 < n -> 2 * halves n <= Z.of_nat (length src) -> Forall is_byte src ->
  Z.even tgt = true -> base k <= tgt -> tgt + 2 * halves n <= base k + bank_size k ->
  exists v f', FlashProgram tgt src n s = Ret v (set_nor f' s) /\ cell f' tgt = Z.land (cell (nor s) tgt) (word src 0).
Proof.
  intros Hbase Hsp Hi Hn Hl Hb He Hlo Hhi. pose proof (halves_bounds n) as Hh.
  destruct (program_cells (Z.to_nat (halves n)) src tgt s) as (f1 & E1 & Hi1 & Hin & _); [done|done|done|lia|done|done|lia|lia|].
  destruct (reset_idle f1 Hi1) as [Hi2 Hc2]. rewrite Hbase in Hi2, Hc2.
  assert (0 <= n / 2 <= halves n) as Hq by (unfold halves; Z.div_mod_to_equations; lia).
  destruct (compare_any (Z.to_nat (n / 2)) src tgt (set_nor (wr16 FLASH_BASE_ADDR 0xf0 f1) s)) as [v E2]; [done|lia|done|lia|lia|].
  exists (u32 v), (wr16 FLASH_BASE_ADDR 0xf0 f1). split.
  - unfold FlashProgram. cbv zeta. rewrite loop_count by lia. rewrite (bind_Ret _ _ _ _ _ E1). unfold FlashResetReadMode, nor_wr. rewrite bind_modify.
    unfold FlashCompareData. by rewrite (bind_Ret _ _ _ _ _ E2).
  - rewrite Hc2. specialize (Hin 0%nat ltac:(lia)). by rewrite Z.add_0_r in Hin.
Qed.

(** While the device is open for writing, a second open for writing is refused, but only after it has cleared what is
    known of the chip and replaced the buffer: the next write of the first opener goes to the start of the flash, over
    the boot loader. *)
Theorem refused_open_misleads_writer p r q rest n buf s :
  base k = FLASH_BASE_ADDR -> FLASH_SIZE <= bank_size k -> unlock1 k = 0x555 -> unlock2 k = 0x2aa ->
  Ready (k := k) p r s -> s_bDeviceWriteOpen s <> 0 -> next_pages s = q :: rest -> q <> 0 ->
  Forall is_byte buf -> (0 < n <= length buf)%nat -> Z.of_nat n <= PAGE_SIZE ->
  exists s1 v s2, device_open O_RDWR s = Ret (- EBUSY) s1 /\ device_write buf (Z.of_nat n) s1 = Ret v s2 /\
    exists w, cell (nor s2) FLASH_BASE_ADDR = Z.land (cell (nor s) FLASH_BASE_ADDR) w /\ Z.land w 0xff = nth 0 buf 0.
Proof.
  intros Hbase Hsz U1 U2 Hr Hw Hn Hq Hb Hl Hp.
  set (s1 := set_FID zero_FID (set_pages (<[q := zero_page]> (pages s)) (set_gpBuff q (set_next_pages rest s)))).
  assert (device_open O_RDWR s = Ret (- EBUSY) s1) as E1.
  { unfold device_open, __get_free_page. rewrite bind_bind, bind_gets, Hn. cbn beta iota. rewrite bind_bind, bind_modify, bind_mret, bind_modify.
    rewrite (proj2 (Z.eqb_neq q 0)) by done. unfold mfid. rewrite !bind_modify, !bind_gets.
    cbn [s_bDeviceWriteOpen s_bDeviceReadOpen set_FID set_pages set_gpBuff set_next_pages]. by rewrite (proj2 (Z.eqb_neq _ 0)). }
  assert (Ready (k := k) q zero_FID s1) as Hr1.
  { split; [done|done|done| |apply Hr]. exists zero_page. split; [apply lookup_insert_eq|]. by split; [apply length_replicate|apply Forall_replicate]. }
  destruct (copy_ok q zero_FID n buf s1 Hr1 Hb ltac:(lia) Hp) as (page & s2 & E2 & [F2 G2 _ (page' & P2' & Lp & Bp) I2] & P2 & T2 & N2 & _).
  assert (page' = page) as -> by congruence. pose proof (halves_bounds (Z.of_nat n)) as Hh.
  assert (2 * halves (Z.of_nat n) <= PAGE_SIZE) as Hh' by (unfold halves, PAGE_SIZE in *; Z.div_mod_to_equations; lia).
  destruct (program_any FLASH_BASE_ADDR page (Z.of_nat n) (set_irqs false s2)) as (v & f' & E3 & C3).
  { done. } { simpl. by rewrite F2. } { done. } { lia. } { unfold PAGE_SIZE in *. lia. } { done. } { done. } { lia. }
  { unfold FLASH_BASE_ADDR, FLASH_SIZE, PAGE_SIZE in *. lia. }
  assert (exists x s3, device_write buf (Z.of_nat n) s1 = Ret x s3 /\ nor s3 = f') as (x & s3 & E4 & N4).
  { unfold device_write. rewrite (bind_Ret _ _ _ _ _ E2), bind_gets, F2. cbn [FLASH_MAX_SECTOR_NUM uiCurSectNum uiWriteAddr zero_FID Z.ltb Z.compare].
    change (u32 (FLASH_BASE_ADDR + 0)) with FLASH_BASE_ADDR. rewrite !bind_gets, bind_modify, G2, P2. cbn [default].
    rewrite (bind_Ret _ _ _ _ _ E3). destruct (s32 v <? 0); [by eexists _, _|]. unfold mfid. rewrite !bind_modify. by eexists _, _. }
  exists s1, x, s3. split; [done|]. split; [done|]. exists (word page 0). rewrite N4, C3. simpl nor. rewrite N2. split; [done|].
  change (Z.land (word page 0) 0xff) with (cell_byte (word page 0) false). unfold word. rewrite cell_byte_half by by apply nth_byte.
  apply (f_equal (fun l => nth 0 l 0)) in T2. destruct n as [|n]; [lia|]. by destruct page, buf.
Qed.

(** A chip that is not known makes the device busy for ever. *)
Theorem unknown_chip_blocks_device p q q' s :
  base k = FLASH_BASE_ADDR -> idle (nor s) -> manu_id k <> 0xBF -> manu_id k <> 0xEC -> manu_id k <> 0x1F ->
  dev_id k <> 0x225B -> dev_id k <> 0x2249 -> dev_id k <> 0x22F9 ->
  s_bDeviceWriteOpen s = 0 -> next_pages s = p :: q :: q' -> p <> 0 -> q <> 0 ->
  exists s1 s2, device_open O_RDWR s = Ret (- ENOMEDIUM) s1 /\ device_open O_RDWR s1 = Ret (- EBUSY) s2.
Proof.
  intros Hbase Hi M1 M2 M3 D1 D2 D3 Hw Hn Hp Hq. unfold device_open at 1, __get_free_page. rewrite bind_bind, bind_gets, Hn. cbn beta iota.
  rewrite bind_bind, bind_modify, bind_mret, bind_modify, (proj2 (Z.eqb_neq p 0)) by done. unfold mfid. rewrite !bind_modify, !bind_gets.
  cbn [s_bDeviceWriteOpen s_bDeviceReadOpen set_FID set_pages set_gpBuff set_next_pages]. rewrite Hw.
  change (for_writing O_RDWR) with true. cbn [andb negb Z.eqb]. rewrite bind_modify.
  match goal with |- exists _ _, (_ ≫= _) ?s1 = _ /\ _ => set (s0 := s1) end.
  destruct (identify_ok s0 Hbase) as (f' & _ & _ & E); [done|].
  unfold set_up, SetAMDSector in E. rewrite !(proj2 (Z.eqb_neq (manu_id k) _)), bind_gets in E by done. cbn [DeviceID FID set_nor set_FID set_ids] in E.
  rewrite !(proj2 (Z.eqb_neq (dev_id k) _)) in E by done. rewrite (bind_Ret _ _ _ _ _ E). cbn [Z.ltb Z.compare].
  eexists _, _. split; [reflexivity|]. unfold device_open, __get_free_page. rewrite bind_bind, bind_gets. cbn [next_pages set_nor set_FID s0 set_write_open set_pages set_gpBuff set_next_pages].
  rewrite bind_bind, bind_modify, bind_mret, bind_modify, (proj2 (Z.eqb_neq q 0)) by done. reflexivity.
Qed.

(** An error of a read is a large length for the loop: the copy overruns the buffer. *)
Theorem read_error_overruns p r fuel fd buf e d' s :
  Ready (k := k) p r s -> fs_read fd BUFF_SIZE (disk s) = (e, [], d') -> -1000 <= e < 0 ->
  stopped (fuze_loop (S fuel) fd false 0 buf s) = Some OutOfBounds.
Proof.
  intros [_ Hg Hnz (page & Hp & _) _] E He. cbn [fuze_loop].
  erewrite bind_Ret; [|unfold read_file; rewrite E; reflexivity]. cbn beta iota zeta.
  assert (u32 e = e + 2 ^ 32) as Hu by (unfold u32; rewrite <- (Z.mod_add e 1) by lia; rewrite Z.mod_small by lia; lia). rewrite Hu.
  rewrite (proj2 (Z.eqb_neq _ 0)), (proj2 (Z.eqb_neq _ BUFF_SIZE)) by (unfold BUFF_SIZE; lia). cbn [negb andb]. change (1 <? 0 + 1) with false. cbn iota.
  unfold device_write, copy_from_user. unfold mbind at 1 2, M_bind at 1 2. rewrite !bind_gets. cbn [gpBuff set_disk pages].
  rewrite Hg, (proj2 (Z.eqb_neq p 0)), Hp by done. rewrite (proj2 (Z.leb_gt _ PAGE_SIZE)) by (unfold PAGE_SIZE; lia). by rewrite andb_false_r.
Qed.
End Image.

(** ** On a simulated chip *)

Module Runs.
Record Disk : Type := mkDisk {
  files : gmap cstr bytes;
  contents : bytes;
  remaining : bytes;
}.

(** One file at a time, with the descriptor 3. *)
#[global] Instance disk_files : FileSys Disk := {
  fs_open name d := match files d !! name with Some l => (3, mkDisk (files d) l l) | None => (-2, d) end;
  fs_size _ d := Z.of_nat (length (contents d));
  fs_skip _ n d := mkDisk (files d) (contents d) (drop (Z.to_nat n) (remaining d));
  fs_read _ n d := (Z.of_nat (length (take (Z.to_nat n) (remaining d))), take (Z.to_nat n) (remaining d),
    mkDisk (files d) (contents d) (drop (Z.to_nat n) (remaining d)));
  fs_close _ d := d;
  fs_renew _ d := d;
}.

#[global] Program Instance disk_laws : FileLaws Disk := {
  has_file d name l := files d !! name = Some l;
  reading d fd l := remaining d = l;
}.
Next Obligation. intros d name l E. simpl. rewrite E. by eexists _, _. Qed.
Next Obligation. intros d fd l n <-. simpl. by rewrite Nat2Z.id. Qed.
Next Obligation. intros d fd l n <-. simpl. rewrite Nat2Z.id. by eexists. Qed.

(** A chip K8B1616UBA: eight sectors of 8 KB and 31 of 64 KB. *)
Definition k8_sector (a : Z) : Z :=
  let o := a - FLASH_BASE_ADDR in
  if (0 <=? o) && (o <? 0x10000) && (o mod 0x2000 =? 0) then 0x2000
  else if (0x10000 <=? o) && (o <? FLASH_SIZE) && (o mod 0x10000 =? 0) then 0x10000 else 0.
Definition k8 : ChipKind := mkChipKind FLASH_BASE_ADDR FLASH_SIZE 0x555 0x2aa (fun _ => 0x30) k8_sector 0xEC 0x2245.

#[global] Instance k8_flash : NorFlash SimFlash := sim_flash k8.
#[global] Instance k8_laws : ChipLaws SimFlash k8 := sim_laws k8.

Lemma k8_supported : Supported k8.
Proof.
  split; try done; [by left|]. intros i Hi. unfold sector_len, k8, k8_sector, IMAGE.
  replace (FLASH_BASE_ADDR + 0x20000 + i * 0x10000 - FLASH_BASE_ADDR) with ((2 + i) * 0x10000) by lia.
  rewrite (proj2 (Z.ltb_ge _ 0x10000)), andb_false_r by lia. cbn [andb].
  by rewrite (proj2 (Z.leb_le _ _)), (proj2 (Z.ltb_lt _ _)), Z.mod_mul by (unfold FLASH_SIZE; lia).
Qed.

(** A closed device with a file. *)
Definition image_name : cstr := lit "/tmp/image".
Definition image_arg : bytes := image_name ++ replicate 64 0.
Definition closed (l : bytes) : FlashSt SimFlash Disk :=
  mkFl zero_FID 254 0 0 0 0 0 ∅ [0x10000; 0x20000; 0x30000] [] true (mkSimFlash ∅ ReadArray) (mkDisk {[ image_name := l ]} [] []).

Lemma arg_names : names_file image_arg image_name.
Proof. by split; vm_compute; [repeat constructor|]. Qed.
Lemma closed_has_file l : has_file (disk (closed l)) image_name l.
Proof. apply lookup_singleton_eq. Qed.

Definition stack0 : bytes := replicate 1024 0.
(** A file with a header and the payload 1, ..., 35. *)
Definition small_file : bytes := replicate 64 0 ++ seqZ 1 35.
End Runs.

Import Runs.

Lemma closed_idle l : idle (nor (closed l)).
Proof. done. Qed.
Lemma stack_bytes : Forall is_byte stack0.
Proof. apply Forall_replicate. by unfold is_byte. Qed.
Lemma small_file_bytes : Forall is_byte small_file.
Proof. by apply (bool_decide_unpack _); vm_compute. Qed.

Lemma fuze_installs_image_witness : exists N, forall fuel, (N <= fuel)%nat -> exists s1 s2 s3,
  device_open O_RDWR (closed small_file) = Ret 0 s1 /\ device_ioctl fuel FL_FUZE_IMAGE 0 image_arg stack0 s1 = Ret 1 s2 /\
  device_release O_RDWR s2 = Ret 0 s3 /\ holds (nor s3) IMAGE (seqZ 1 35).
Proof.
  destruct (fuze_installs_image (k := k8) 0x10000 [0x20000; 0x30000] image_name small_file image_arg stack0 (closed small_file)) as [N HN];
    [exact k8_supported|apply closed_idle|reflexivity|reflexivity|done|reflexivity|exact arg_names|apply closed_has_file|exact small_file_bytes
    |reflexivity|exact stack_bytes|by vm_compute|reflexivity|].
  exists N. intros fuel Hf. destruct (HN fuel Hf) as (s1 & s2 & s3 & E1 & E2 & E3 & _ & Hh & _). exists s1, s2, s3.
  exact (conj E1 (conj E2 (conj E3 Hh))).
Defined.

Lemma fuze_whole_kilobytes_fails_witness : exists N, forall fuel, (N <= fuel)%nat -> exists s1 s2,
  device_open O_RDWR (closed (replicate 2048 7)) = Ret 0 s1 /\
  device_ioctl fuel FL_FUZE_IMAGE 0 image_arg stack0 s1 = Ret (- ENOTTY) s2 /\ blank (nor s2) (IMAGE + 1024) 1024.
Proof.
  assert (B : Forall is_byte (replicate 2048 7)) by (apply Forall_replicate; by unfold is_byte).
  destruct (fuze_whole_kilobytes_fails (k := k8) 0x10000 [0x20000; 0x30000] image_name (replicate 2048 7) image_arg stack0 (closed (replicate 2048 7))) as [N HN];
    [exact k8_supported|apply closed_idle|reflexivity|reflexivity|done|exact arg_names|apply closed_has_file|exact B
    |reflexivity|exact stack_bytes|by vm_compute|by vm_compute|].
  exists N. intros fuel Hf. destruct (HN fuel Hf) as (s1 & s2 & E1 & E2 & _ & Hb). exists s1, s2. exact (conj E1 (conj E2 Hb)).
Defined.

(** One byte more than 30 sectors. *)
Definition large_file : bytes := replicate (Z.to_nat (MAX_IMAGE + 1)) 7.

Lemma fuze_erases_boot_loader_witness : exists N, forall fuel, (N <= fuel)%nat -> exists s1 s2,
  device_open O_RDWR (closed large_file) = Ret 0 s1 /\ device_ioctl fuel FL_FUZE_IMAGE 0 image_arg stack0 s1 = Ret 1 s2 /\
  forall x, in_sector k8 FLASH_BASE_ADDR x -> cell (nor s2) x = 0xffff.
Proof.
  assert (B : Forall is_byte large_file) by (apply Forall_replicate; by unfold is_byte).
  assert (S : MAX_IMAGE < Z.of_nat (length large_file) <= MAX_IMAGE + 64)
    by (unfold large_file; rewrite length_replicate, Z2Nat.id by (by unfold MAX_IMAGE); lia).
  destruct (fuze_erases_boot_loader (k := k8) 0x10000 [0x20000; 0x30000] image_name large_file image_arg stack0 (closed large_file)) as [N HN];
    [exact k8_supported|done|done|reflexivity|reflexivity|apply closed_idle|reflexivity|reflexivity|done|exact arg_names|apply closed_has_file|exact B
    |reflexivity|exact stack_bytes|exact S|].
  exists N. intros fuel Hf. destruct (HN fuel Hf) as (s1 & s2 & E1 & E2 & Hb & _). exists s1, s2. exact (conj E1 (conj E2 Hb)).
Defined.

(** The device after an open, and a message for the flash. *)
Lemma refused_open_misleads_writer_witness : exists s s1 v s2,
  device_open O_RDWR (closed []) = Ret 0 s /\ device_open O_RDWR s = Ret (- EBUSY) s1 /\ device_write (lit "data") 4 s1 = Ret v s2 /\
  exists w, cell (nor s2) FLASH_BASE_ADDR = Z.land (cell (nor s) FLASH_BASE_ADDR) w /\ Z.land w 0xff = 100.
Proof.
  destruct (open_ok (k := k8) 0x10000 [0x20000; 0x30000] (closed []) k8_supported (closed_idle []) eq_refl eq_refl ltac:(done))
    as (c & r & s & E & _ & _ & Hr & _).
  assert (X : s_bDeviceWriteOpen s <> 0 /\ next_pages s = [0x20000; 0x30000]).
  { assert (T : match device_open O_RDWR (closed []) with Ret _ s => negb (s_bDeviceWriteOpen s =? 0) && bool_decide (next_pages s = [0x20000; 0x30000]) | _ => false end = true)
      by (vm_compute; reflexivity).
    rewrite E in T. apply andb_true_iff in T as [T1%negb_true_iff%Z.eqb_neq T2%bool_decide_eq_true_1]. by split. }
  destruct X as [X1 X2].
  destruct (refused_open_misleads_writer (k := k8) 0x10000 r 0x20000 [0x30000] 4 (lit "data") s) as (s1 & v & s2 & E1 & E2 & Hw);
    [reflexivity|done|reflexivity|reflexivity|exact Hr|exact X1|exact X2|done|by apply (bool_decide_unpack _); vm_compute|simpl; lia|done|].
  exists s, s1, v, s2. exact (conj E (conj E1 (conj E2 Hw))).
Defined.

(** A reader and a writer share the buffer: the second release frees it again. *)
Lemma two_openers_free_twice : exists s1 s2 s3,
  device_open O_RDWR (closed []) = Ret 0 s1 /\ device_open 0 s1 = Ret 0 s2 /\ device_release 0 s2 = Ret 0 s3 /\
  stopped (device_release O_RDWR s3) = Some UseAfterFree.
Proof.
  assert (T : match device_open O_RDWR (closed []) with Ret r1 s1 => match device_open 0 s1 with Ret r2 s2 => match device_release 0 s2 with Ret r3 s3 =>
      (r1 =? 0) && (r2 =? 0) && (r3 =? 0) && match device_release O_RDWR s3 with Stop UseAfterFree _ => true | _ => false end
    | _ => false end | _ => false end | _ => false end = true) by (vm_compute; reflexivity).
  destruct (device_open O_RDWR (closed [])) as [r1 s1|]; [|discriminate T]. exists s1.
  destruct (device_open 0 s1) as [r2 s2|]; [|discriminate T]. exists s2.
  destruct (device_release 0 s2) as [r3 s3|]; [|discriminate T]. exists s3.
  apply andb_true_iff in T as [[[->%Z.eqb_eq ->%Z.eqb_eq]%andb_true_iff ->%Z.eqb_eq]%andb_true_iff T].
  split_and!; [reflexivity..|]. destruct (device_release O_RDWR s3) as [|[]]; first [reflexivity|discriminate T].
Qed.

Lemma unknown_chip_blocks_device_witness : exists s1 s2,
  device_open (H := sim_flash (mkChipKind FLASH_BASE_ADDR FLASH_SIZE 0x555 0x2aa (fun _ => 0x30) k8_sector 0x01 0x1234)) O_RDWR (closed []) = Ret (- ENOMEDIUM) s1 /\
  device_open (H := sim_flash (mkChipKind FLASH_BASE_ADDR FLASH_SIZE 0x555 0x2aa (fun _ => 0x30) k8_sector 0x01 0x1234)) O_RDWR s1 = Ret (- EBUSY) s2.
Proof.
  set (kx := mkChipKind FLASH_BASE_ADDR FLASH_SIZE 0x555 0x2aa (fun _ => 0x30) k8_sector 0x01 0x1234).
  apply (unknown_chip_blocks_device (k := kx) (L := sim_laws kx) 0x10000 0x20000 [0x30000] (closed [])); done.
Defined.
