(* ===== verification/Heap.v ===== *)
(** * The heap of uClibc's malloc (src/uClibc/libc/stdlib/malloc: heap.h,
    heap_alloc.c, heap_alloc_at.c, heap_free.c)

    A heap is a doubly linked list of free areas, sorted by address, whose
    nodes are stored in the last bytes of the areas themselves.  The model
    keeps the list in memory as the code does; the specification is a list of
    intervals. *)

From Stdlib Require Import Sorted.
From S2P Require Import Prelude.

(** ** Memory

    The words of the memory by address; a load outside the memory that was
    ever written is undefined. *)

Abbreviation memory := (gmap Z Z).
Abbreviation HM A := (M memory A).

Definition load (a : Z) : HM Z := fun m =>
  match m !! a with Some v => Ret v m | None => Stop OutOfBounds m end.
Definition store (a v : Z) : HM unit := modify (<[a := v]>).

(** ** heap.h *)

(** [sizeof (double)], [sizeof (struct heap_free_area)] *)
Definition HEAP_GRANULARITY : Z := 8.
Definition sizeof_heap_free_area : Z := 12.

Definition HEAP_ADJUST_SIZE (sz : Z) : Z :=
  Z.land (u32 (sz + HEAP_GRANULARITY - 1)) (u32 (Z.lnot (HEAP_GRANULARITY - 1))).
Definition HEAP_MIN_SIZE : Z := HEAP_ADJUST_SIZE sizeof_heap_free_area.
Definition HEAP_MIN_FREE_AREA_SIZE : Z := HEAP_ADJUST_SIZE (sizeof_heap_free_area + 32).

(** The fields of [struct heap_free_area], and [heap->free_areas]. *)
Definition fa_size (fa : Z) : Z := fa.
Definition fa_next (fa : Z) : Z := fa + 4.
Definition fa_prev (fa : Z) : Z := fa + 8.
Definition free_areas (heap : Z) : Z := heap.

Definition HEAP_FREE_AREA_END (fa : Z) : Z := u32 (fa + sizeof_heap_free_area).
Definition HEAP_FREE_AREA_START (fa : Z) : HM Z :=
  size ← load (fa_size fa);
  mret (u32 (fa + sizeof_heap_free_area - size)).

Definition __heap_delete (heap fa : Z) : HM unit :=
  next ← load (fa_next fa);
  prev ← load (fa_prev fa);
  when (negb (next =? 0)) (store (fa_prev next) prev) ;;
  if negb (prev =? 0) then store (fa_next prev) next
  else store (free_areas heap) next.

Definition __heap_link_free_area (heap fa prev next : Z) : HM unit :=
  store (fa_next fa) next ;;
  store (fa_prev fa) prev ;;
  (if negb (prev =? 0) then store (fa_next prev) fa else store (free_areas heap) fa) ;;
  when (negb (next =? 0)) (store (fa_prev next) fa).

Definition __heap_link_free_area_after (heap fa prev : Z) : HM unit :=
  (if negb (prev =? 0) then store (fa_next prev) fa else store (free_areas heap) fa) ;;
  store (fa_prev fa) prev.

Definition __heap_add_free_area (heap mem size prev next : Z) : HM Z :=
  let fa := u32 (mem + size - sizeof_heap_free_area) in
  store (fa_size fa) size ;;
  __heap_link_free_area heap fa prev next ;;
  mret fa.

Definition __heap_free_area_alloc (heap fa size : Z) : HM Z :=
  sz ← load (fa_size fa);
  if sz <? u32 (size + HEAP_MIN_FREE_AREA_SIZE) then
    __heap_delete heap fa ;; mret sz
  else
    store (fa_size fa) (sz - size) ;; mret size.

(** ** heap_alloc.c: the block and [*size] *)

Fixpoint heap_alloc_loop (fuel : nat) (heap fa _size size : Z) : HM (Z * Z) :=
  match fuel with
  | O => stop_with OutOfFuel
  | S fuel' =>
      if fa =? 0 then mret (0, size)
      else
        sz ← load (fa_size fa);
        if _size <=? sz then
          mem ← HEAP_FREE_AREA_START fa;
          size' ← __heap_free_area_alloc heap fa _size;
          mret (mem, size')
        else
          next ← load (fa_next fa);
          heap_alloc_loop fuel' heap next _size size
  end.

Definition __heap_alloc (fuel : nat) (heap size : Z) : HM (Z * Z) :=
  let _size := HEAP_ADJUST_SIZE size in
  let _size := if _size <? sizeof_heap_free_area then HEAP_ADJUST_SIZE sizeof_heap_free_area
               else _size in
  fa ← load (free_areas heap);
  heap_alloc_loop fuel heap fa _size size.

(** ** heap_alloc_at.c *)

Fixpoint heap_alloc_at_loop (fuel : nat) (heap fa mem size : Z) : HM Z :=
  match fuel with
  | O => stop_with OutOfFuel
  | S fuel' =>
      if fa =? 0 then mret 0
      else
        fa_mem ← HEAP_FREE_AREA_START fa;
        if fa_mem <=? mem then
          sz ← load (fa_size fa);
          if (fa_mem =? mem) && (size <=? sz) then __heap_free_area_alloc heap fa size
          else mret 0
        else
          next ← load (fa_next fa);
          heap_alloc_at_loop fuel' heap next mem size
  end.

Definition __heap_alloc_at (fuel : nat) (heap mem size : Z) : HM Z :=
  let size := HEAP_ADJUST_SIZE size in
  fa ← load (free_areas heap);
  heap_alloc_at_loop fuel heap fa mem size.

(** ** heap_free.c *)

(** The loop: [prev_fa] and [fa]. *)
Fixpoint heap_free_loop (fuel : nat) (prev_fa fa mem : Z) : HM (Z * Z) :=
  match fuel with
  | O => stop_with OutOfFuel
  | S fuel' =>
      if fa =? 0 then mret (prev_fa, fa)
      else if mem <=? HEAP_FREE_AREA_END fa then mret (prev_fa, fa)
      else
        next ← load (fa_next fa);
        heap_free_loop fuel' fa next mem
  end.

(** The free area [fa] is adjacent to the new block. *)
Definition heap_free_merge (heap prev_fa fa mem size : Z) : HM Z :=
  let end_ := u32 (mem + size) in
  sz ← load (fa_size fa);
  start ← HEAP_FREE_AREA_START fa;
  let size' := u32 (sz + size) in
  '(fa, size') ←
    (if start =? end_ then
       if negb (prev_fa =? 0) && (mem =? HEAP_FREE_AREA_END prev_fa) then
         prev_size ← load (fa_size prev_fa);
         prev_prev ← load (fa_prev prev_fa);
         __heap_link_free_area_after heap fa prev_prev ;;
         mret (fa, u32 (size' + prev_size))
       else mret (fa, size')
     else
       next_fa ← load (fa_next fa);
       next_start ← (if negb (next_fa =? 0) then HEAP_FREE_AREA_START next_fa else mret 0);
       if negb (next_fa =? 0) && (end_ =? next_start) then
         next_size ← load (fa_size next_fa);
         __heap_link_free_area_after heap next_fa prev_fa ;;
         mret (next_fa, u32 (size' + next_size))
       else
         let fa := u32 (fa + size) in
         __heap_link_free_area heap fa prev_fa next_fa ;;
         mret (fa, size'));
  store (fa_size fa) size' ;;
  mret fa.

Definition __heap_free (fuel : nat) (heap mem size : Z) : HM Z :=
  fa ← load (free_areas heap);
  '(prev_fa, fa) ← heap_free_loop fuel 0 fa mem;
  start ← (if negb (fa =? 0) then HEAP_FREE_AREA_START fa else mret 0);
  if negb (fa =? 0) && (start <=? u32 (mem + size)) then
    heap_free_merge heap prev_fa fa mem size
  else __heap_add_free_area heap mem size prev_fa fa.

(** ** The abstract heap

    The free memory is a list of intervals [(start, size)] in the order of
    their addresses, no two of them adjacent. *)

Abbreviation area := (Z * Z)%type.

Definition node (a : area) : Z := a.1 + a.2 - sizeof_heap_free_area.

Record area_ok (a : area) : Prop := mkAreaOk {
  area_pos : 0 < a.1;
  area_align : (8 | a.1);
  area_size_align : (8 | a.2);
  area_min : HEAP_MIN_SIZE <= a.2;
  area_end : a.1 + a.2 < 2 ^ 32;
}.

Definition before (a b : area) : Prop := a.1 + a.2 < b.1.
Record areas_ok (l : list area) : Prop := mkAreasOk {
  areas_all : Forall area_ok l;
  areas_sorted : StronglySorted before l;
}.

Definition inside (x : Z) (a : area) : Prop := a.1 <= x < a.1 + a.2.
(** The free bytes. *)
Definition covers (l : list area) (x : Z) : Prop := Exists (inside x) l.
Definition out (x : Z) (l : list area) : Prop := Forall (fun a => ~ inside x a) l.

(** First fit: the block, its size and the remaining areas. *)
Fixpoint spec_alloc (n : Z) (l : list area) : option (area * list area) :=
  match l with
  | [] => None
  | a :: l' =>
      if n <=? a.2 then
        if a.2 <? n + HEAP_MIN_FREE_AREA_SIZE then Some (a, l')
        else Some ((a.1, n), (a.1 + n, a.2 - n) :: l')
      else
        match spec_alloc n l' with
        | Some (b, l'') => Some (b, a :: l'')
        | None => None
        end
  end.

(** The areas with a block added. *)
Fixpoint spec_free (b : area) (l : list area) : list area :=
  match l with
  | [] => [b]
  | a :: l' =>
      if a.1 + a.2 <? b.1 then a :: spec_free b l'
      else if a.1 + a.2 =? b.1 then
        match l' with
        | c :: l'' => if b.1 + b.2 =? c.1 then (a.1, a.2 + b.2 + c.2) :: l'' else (a.1, a.2 + b.2) :: l'
        | [] => [(a.1, a.2 + b.2)]
        end
      else if b.1 + b.2 =? a.1 then (b.1, b.2 + a.2) :: l'
      else b :: l
  end.

(** [b] has no byte in common with the areas. *)
Definition apart (b : area) (l : list area) : Prop :=
  Forall (fun a => a.1 + a.2 <= b.1 \/ b.1 + b.2 <= a.1) l.

(** ** Facts about the abstract heap *)

Lemma HEAP_MIN_SIZE_eq : HEAP_MIN_SIZE = 16.
Proof. done. Qed.
Lemma HEAP_MIN_FREE_AREA_SIZE_eq : HEAP_MIN_FREE_AREA_SIZE = 48.
Proof. done. Qed.

Ltac area_facts :=
  repeat match goal with
  | H : area_ok ?a |- _ =>
      let P := fresh in pose proof H as P; destruct P as [? ? ? ? ?]; revert H
  end; intros; rewrite ?HEAP_MIN_SIZE_eq, ?HEAP_MIN_FREE_AREA_SIZE_eq in *; simpl in *.

Ltac new_area := split; simpl; rewrite ?HEAP_MIN_SIZE_eq; try done; try lia.

Lemma areas_ok_cons a l :
  areas_ok (a :: l) <-> area_ok a /\ Forall (before a) l /\ areas_ok l.
Proof.
  split.
  - intros [Hok Hs]. inversion Hok. inversion Hs. done.
  - intros (? & ? & []). split; by constructor.
Qed.

Lemma before_weaken a a' l : a'.1 + a'.2 <= a.1 + a.2 -> Forall (before a) l -> Forall (before a') l.
Proof. intros Hle Hl. eapply Forall_impl; [exact Hl|]. intros c. unfold before. lia. Qed.

Lemma spec_alloc_before n l b l' a :
  spec_alloc n l = Some (b, l') -> areas_ok l -> 0 < n -> Forall (before a) l -> Forall (before a) l'.
Proof.
  revert b l'. induction l as [|c l IH]; intros b l'; simpl; [done|].
  intros Hs (Hc & Hcl & Hl)%areas_ok_cons Hn [Ha Hal]%Forall_cons. destruct (Z.leb_spec n c.2).
  - destruct (Z.ltb_spec c.2 (n + HEAP_MIN_FREE_AREA_SIZE)); injection Hs as <- <-; [done|].
    constructor; [|done]. unfold before in *. simpl. lia.
  - destruct (spec_alloc n l) as [[b' l'']|] eqn:E; [|done]. injection Hs as <- <-.
    constructor; [done|]. by eapply IH.
Qed.

(** What an allocation promises. *)
Lemma spec_alloc_ok n l b l' :
  spec_alloc n l = Some (b, l') -> areas_ok l -> 0 < n -> (8 | n) -> HEAP_MIN_SIZE <= n ->
  areas_ok l' /\ area_ok b /\ n <= b.2 /\ apart b l' /\ (forall x, covers l x <-> inside x b \/ covers l' x).
Proof.
  revert b l'. induction l as [|a l IH]; intros b l'; simpl; [done|].
  intros Hs (Ha & Hal & Hl)%areas_ok_cons Hn Hn8 Hmin. destruct (Z.leb_spec n a.2) as [Hle|Hgt].
  - assert (apart a l) as Hap.
    { eapply Forall_impl; [exact Hal|]. unfold before. intros c ?. right. lia. }
    destruct (Z.ltb_spec a.2 (n + HEAP_MIN_FREE_AREA_SIZE)); injection Hs as <- <-.
    + split_and!; try done. intros x. unfold covers. by rewrite Exists_cons.
    + area_facts. split_and!.
      * apply areas_ok_cons. split_and!; [|by eapply before_weaken; [|done]; simpl; lia|done].
        new_area; [by apply Z.divide_add_r|by apply Z.divide_sub_r].
      * by new_area.
      * simpl. lia.
      * constructor; [simpl; lia|]. eapply Forall_impl; [exact Hal|]. unfold before. simpl. lia.
      * intros x. unfold covers. rewrite !Exists_cons. unfold inside. simpl.
        assert (a.1 <= x < a.1 + a.2 <-> a.1 <= x < a.1 + n \/ a.1 + n <= x < a.1 + n + (a.2 - n)) by lia.
        tauto.
  - destruct (spec_alloc n l) as [[b' l'']|] eqn:E; [|done]. injection Hs as -> <-.
    destruct (IH _ _ eq_refl) as (Hl' & Hb & Hn' & Hap & Hc); [done..|].
    split_and!; try done.
    + apply areas_ok_cons. split_and!; [done| |done]. by eapply spec_alloc_before.
    + constructor; [|done]. left.
      assert (covers l b.1) as (c & Hc1 & Hc2)%Exists_exists.
      { apply Hc. left. area_facts. unfold inside. lia. }
      rewrite Forall_forall in Hal. apply Hal in Hc1. unfold before, inside in *. lia.
    + intros x. specialize (Hc x). unfold covers in *. rewrite !Exists_cons. tauto.
Qed.

Lemma spec_free_before b l a :
  Forall (before a) l -> before a b -> areas_ok l -> area_ok b -> Forall (before a) (spec_free b l).
Proof.
  induction l as [|c l IH]; simpl; intros Hal Hab Hok Hb; [by constructor|].
  apply Forall_cons in Hal as [Hac Hal]. apply areas_ok_cons in Hok as (Hc & Hcl & Hok).
  destruct (c.1 + c.2 <? b.1); [constructor; auto|].
  destruct (c.1 + c.2 =? b.1).
  - destruct l as [|d l]; [by repeat constructor|]. apply Forall_cons in Hal as [? Hal].
    destruct (_ =? _); repeat constructor; done.
  - destruct (_ =? _); by repeat constructor.
Qed.

Lemma spec_free_ok b l :
  areas_ok l -> area_ok b -> apart b l ->
  areas_ok (spec_free b l) /\ (forall x, covers (spec_free b l) x <-> inside x b \/ covers l x).
Proof.
  induction l as [|a l IH]; intros Hok Hb Hap; simpl.
  { split; [by apply areas_ok_cons|]. intros x. unfold covers. by rewrite Exists_cons. }
  pose proof Hok as (Ha & Hal & Hl)%areas_ok_cons. apply Forall_cons in Hap as [Hd Hap].
  area_facts. destruct (Z.ltb_spec (a.1 + a.2) b.1).
  { destruct (IH Hl Hb Hap) as [Hok' Hc]. split.
    - apply areas_ok_cons. split_and!; [done| |done]. by apply spec_free_before.
    - intros x. specialize (Hc x). unfold covers in *. rewrite !Exists_cons. tauto. }
  destruct (Z.eqb_spec (a.1 + a.2) b.1) as [Heq|].
  - assert (area_ok (a.1, a.2 + b.2)) as Hab.
    { new_area. by apply Z.divide_add_r. }
    assert (forall x, inside x (a.1, a.2 + b.2) <-> inside x b \/ inside x a) as Hin
      by (intros x; unfold inside; simpl; lia).
    destruct l as [|c l].
    + split; [by apply areas_ok_cons|]. intros x. specialize (Hin x). unfold covers.
      rewrite !Exists_cons, Hin. rewrite Exists_nil. tauto.
    + apply areas_ok_cons in Hl as (Hc & Hcl & Hl). apply Forall_cons in Hal as [Hac Hal].
      apply Forall_cons in Hap as [Hd' Hap]. unfold before in Hac. area_facts.
      destruct (Z.eqb_spec (b.1 + b.2) c.1) as [Heq'|].
      * split.
        { apply areas_ok_cons. split_and!; [|by eapply before_weaken; [|done]; simpl; lia|done].
          new_area. repeat apply Z.divide_add_r; done. }
        intros x. unfold covers. rewrite !Exists_cons. unfold inside. simpl.
        assert (a.1 <= x < a.1 + (a.2 + b.2 + c.2) <-> b.1 <= x < b.1 + b.2 \/
          a.1 <= x < a.1 + a.2 \/ c.1 <= x < c.1 + c.2) by lia. tauto.
      * assert (before (a.1, a.2 + b.2) c) as Hbc by (unfold before; simpl; lia). split.
        { apply areas_ok_cons. split_and!; [done| |by apply areas_ok_cons].
          constructor; [done|]. eapply before_weaken; [|exact Hcl]. unfold before in Hbc. simpl in *. lia. }
        intros x. specialize (Hin x). unfold covers. rewrite !Exists_cons, Hin. tauto.
  - destruct (Z.eqb_spec (b.1 + b.2) a.1) as [Heq|].
    + split.
      { apply areas_ok_cons. split_and!; [|by eapply before_weaken; [|done]; simpl; lia|done].
        new_area. by apply Z.divide_add_r. }
      intros x. unfold covers. rewrite !Exists_cons. unfold inside. simpl.
      assert (b.1 <= x < b.1 + (b.2 + a.2) <-> b.1 <= x < b.1 + b.2 \/ a.1 <= x < a.1 + a.2) by lia.
      tauto.
    + assert (before b a) as Hba by (unfold before; lia). split.
      { apply areas_ok_cons. split_and!; [done| |done]. constructor; [done|].
        eapply before_weaken; [|exact Hal]. unfold before in Hba. lia. }
      intros x. unfold covers. by rewrite !Exists_cons.
Qed.
