(* ===== verification/HeapRefine.v ===== *)
(** * The heap of malloc refines the abstract heap

    The linked list in memory represents the list of intervals, and every
    operation of heap.h, heap_alloc.c, heap_alloc_at.c and heap_free.c keeps the
    representation. *)

From Stdlib Require Import Sorted.
From S2P Require Import Prelude Heap.

(** ** The representation *)

Implicit Types (m : memory) (l : list area).

(** The nodes of [l], linked from [h] with predecessor [p]; the last node is
    [q], and its successor [n]. *)
Fixpoint dseg m (p h : Z) l (q n : Z) : Prop :=
  match l with
  | [] => h = n /\ p = q
  | a :: l' =>
      h = node a /\ m !! fa_size (node a) = Some a.2 /\ m !! fa_prev (node a) = Some p /\
      exists h', m !! fa_next (node a) = Some h' /\ dseg m (node a) h' l' q n
  end.

(** The list up to a place, with the heap variable, and from a place on. *)
Definition front m (heap : Z) l (q n : Z) : Prop :=
  exists h, m !! free_areas heap = Some h /\ dseg m 0 h l q n.
Definition back m (p h : Z) l : Prop := exists q, dseg m p h l q 0.

Definition heap_repr (heap : Z) m l : Prop :=
  areas_ok l /\ out heap l /\ exists q h, front m heap l q h /\ h = 0.

(** [m'] is [m] outside the areas [l] and the heap variable. *)
Definition agrees (heap : Z) l m m' : Prop :=
  forall x, x <> heap -> out x l -> m' !! x = m !! x.

Lemma node_inside a k : area_ok a -> 0 <= k < 12 -> inside (node a + k) a.
Proof. intros []. unfold inside, node, sizeof_heap_free_area. rewrite HEAP_MIN_SIZE_eq in *. lia. Qed.

Lemma node_pos a : area_ok a -> 0 < node a.
Proof. intros []. unfold node, sizeof_heap_free_area. rewrite HEAP_MIN_SIZE_eq in *. lia. Qed.

Lemma fields_inside a : area_ok a ->
  inside (fa_size (node a)) a /\ inside (fa_next (node a)) a /\ inside (fa_prev (node a)) a.
Proof.
  intros Ha. unfold fa_size, fa_next, fa_prev. split_and!; try (apply node_inside; [done|lia]).
  rewrite <- (Z.add_0_r (node a)). apply node_inside; [done|lia].
Qed.

Lemma out_ne x l a y : out x l -> a ∈ l -> inside y a -> x <> y.
Proof. intros Ho Ha Hy ->. unfold out in Ho. rewrite Forall_forall in Ho. by apply (Ho a). Qed.

Lemma dseg_frame m p h l q n x v :
  Forall area_ok l -> out x l -> dseg m p h l q n -> dseg (<[x := v]> m) p h l q n.
Proof.
  revert p h. induction l as [|a l IH]; intros p h Hok Ho; simpl; [done|].
  apply Forall_cons in Hok as [Ha Hok]. apply Forall_cons in Ho as [Hx Ho].
  destruct (fields_inside a Ha) as (H1 & H2 & H3).
  intros (-> & Hs & Hp & h' & Hn & Hd). split; [done|].
  rewrite !lookup_insert_ne by (intros ->; done). split_and!; [done..|]. eexists. by split; [|apply IH].
Qed.

Lemma dseg_app m p h l1 l2 q n :
  dseg m p h (l1 ++ l2) q n <-> exists q1 h2, dseg m p h l1 q1 h2 /\ dseg m q1 h2 l2 q n.
Proof.
  revert p h. induction l1 as [|a l1 IH]; intros p h; simpl.
  - split; [by exists p, h|]. by intros (q1 & h2 & [-> ->] & ?).
  - split.
    + intros (-> & Hs & Hp & h' & Hn & Hd). apply IH in Hd as (q1 & h2 & H1 & H2).
      exists q1, h2. split; [|done]. split_and!; try done. by exists h'.
    + intros (q1 & h2 & (-> & Hs & Hp & h' & Hn & H1) & H2). split_and!; try done.
      exists h'. split; [done|]. apply IH. by exists q1, h2.
Qed.

Lemma front_back m heap l1 l2 :
  (exists q, front m heap (l1 ++ l2) q 0) <->
  exists q1 h2, front m heap l1 q1 h2 /\ back m q1 h2 l2.
Proof.
  unfold front, back. split.
  - intros (q & h & Hh & (q1 & h2 & H1 & H2)%dseg_app). naive_solver.
  - intros (q1 & h2 & (h & Hh & H1) & q & H2). exists q, h. split; [done|]. apply dseg_app. eauto.
Qed.

(** Sorted areas do not overlap. *)
Lemma areas_ok_app l1 a l2 :
  areas_ok (l1 ++ a :: l2) ->
  areas_ok l1 /\ area_ok a /\ areas_ok l2 /\ Forall (fun c => before c a) l1 /\ Forall (before a) l2 /\
  Forall (fun c => Forall (before c) l2) l1.
Proof.
  induction l1 as [|c l1 IH]; simpl.
  - intros (Ha & Hal & Hl)%areas_ok_cons. split_and!; try done. by repeat constructor.
  - intros (Hc & Hcl & (Hl1 & Ha & Hl2 & H1 & H2 & H3)%IH)%areas_ok_cons.
    rewrite Forall_app, Forall_cons in Hcl. destruct Hcl as (Hcl1 & Hca & Hcl2).
    split_and!; try done; [by apply areas_ok_cons|by constructor..].
Qed.

Lemma inside_out l1 a l2 x :
  areas_ok (l1 ++ a :: l2) -> inside x a -> out x l1 /\ out x l2.
Proof.
  intros (Hl1 & Ha & Hl2 & H1 & H2 & _)%areas_ok_app Hx. unfold inside, before in *. split.
  - eapply Forall_impl; [exact H1|]. simpl. intros c ?. unfold inside. lia.
  - eapply Forall_impl; [exact H2|]. simpl. intros c ?. unfold inside. lia.
Qed.

Lemma front_frame m heap l q n x v :
  Forall area_ok l -> out x l -> x <> heap -> front m heap l q n -> front (<[x := v]> m) heap l q n.
Proof.
  intros Hok Ho Hx (h & Hh & Hd). exists h. unfold free_areas in *. rewrite lookup_insert_ne by done.
  split; [done|by apply dseg_frame].
Qed.

Lemma back_frame m p h l x v :
  Forall area_ok l -> out x l -> back m p h l -> back (<[x := v]> m) p h l.
Proof. intros Hok Ho [q Hd]. exists q. by apply dseg_frame. Qed.

(** The place that holds the link from [q]: its [next] or the heap variable. *)
Definition link_place (heap q : Z) : Z := if q =? 0 then free_areas heap else fa_next q.

Lemma front_last m heap l q n :
  front m heap l q n -> Forall area_ok l ->
  (l = [] /\ q = 0) \/ exists l' a, l = l' ++ [a] /\ q = node a /\ q <> 0.
Proof.
  intros (h & _ & Hd) Hok. induction l as [|a l' _] using rev_ind.
  - left. by destruct Hd.
  - right. exists l', a. split; [done|]. apply dseg_app in Hd as (q1 & h2 & _ & (-> & _ & _ & h' & _ & _ & <-)).
    apply Forall_app in Hok as [_ [Ha _]%Forall_cons]. split; [done|]. pose proof (node_pos a Ha). lia.
Qed.

Lemma front_link m heap l q n y :
  areas_ok l -> out heap l -> front m heap l q n ->
  front (<[link_place heap q := y]> m) heap l q y.
Proof.
  intros Hok Hh Hf. pose proof Hok as [Hall Hsort]. destruct (front_last _ _ _ _ _ Hf Hall) as [[-> ->]|(l' & a & -> & -> & Hq)].
  - unfold link_place. simpl. destruct Hf as (h & Hl & -> & _). exists y. by rewrite lookup_insert_eq.
  - unfold link_place. rewrite (proj2 (Z.eqb_neq _ _) Hq). destruct Hf as (h & Hl & Hd).
    apply dseg_app in Hd as (q1 & h2 & Hd1 & (-> & Hs & Hp & h' & Hn & _ & _)).
    pose proof (areas_ok_app l' a [] Hok) as (Hl' & Ha & _). destruct (fields_inside a Ha) as (I1 & I2 & I3).
    destruct (inside_out l' a [] _ Hok I2) as [Ho _].
    exists h. assert (fa_next (node a) <> heap) as Hne.
    { intros <-. unfold out in Hh. rewrite Forall_app, Forall_cons in Hh. by destruct Hh as (_ & ? & _). }
    unfold free_areas in *. rewrite lookup_insert_ne by done. split; [done|].
    apply dseg_app. exists q1, (node a). split; [apply dseg_frame; [by destruct Hl'|done|done]|].
    simpl. rewrite !lookup_insert_ne by (unfold fa_next, fa_prev, fa_size; lia).
    rewrite lookup_insert_eq. naive_solver.
Qed.

Lemma back_null m p h l : back m p h l -> Forall area_ok l -> (h =? 0) = match l with [] => true | _ => false end.
Proof.
  intros [q Hd] Hok. destruct l as [|a l]; [by destruct Hd as [-> _]|].
  destruct Hd as (-> & _). apply Forall_cons in Hok as [Ha _]. pose proof (node_pos a Ha). lia.
Qed.

Lemma back_link m p h l y :
  areas_ok l -> back m p h l ->
  back (if h =? 0 then m else <[fa_prev h := y]> m) y h l.
Proof.
  intros Hok Hb. rewrite (back_null _ _ _ _ Hb) by by destruct Hok.
  destruct Hb as [q Hd]. destruct l as [|a l].
  - destruct Hd as [-> _]. by exists y.
  - destruct Hd as (-> & Hs & Hp & h' & Hn & Hd). exists q. simpl.
    apply areas_ok_cons in Hok as Hc. destruct Hc as (Ha & Hal & Hl).
    destruct (fields_inside a Ha) as (I1 & I2 & I3). destruct (inside_out [] a l _ Hok I3) as [_ Ho].
    rewrite lookup_insert_eq, !lookup_insert_ne by (unfold fa_next, fa_prev, fa_size; lia).
    split_and!; try done. exists h'. split; [done|]. apply dseg_frame; [by destruct Hl|done|done].
Qed.

Lemma agrees_refl heap l m : agrees heap l m m.
Proof. by intros x. Qed.
Lemma agrees_trans heap l m1 m2 m3 :
  agrees heap l m1 m2 -> agrees heap l m2 m3 -> agrees heap l m1 m3.
Proof. intros H1 H2 x Hx Ho. by rewrite H2, H1. Qed.
Lemma agrees_insert heap l m x v :
  x = heap \/ ~ out x l -> agrees heap l m (<[x := v]> m).
Proof. intros Hx y Hy Ho. rewrite lookup_insert_ne; [done|]. intros ->. by destruct Hx. Qed.

(** ** Two parts of a list *)

Lemma areas_ok_split l1 l2 :
  areas_ok (l1 ++ l2) -> areas_ok l1 /\ areas_ok l2 /\
  forall a b, a ∈ l1 -> b ∈ l2 -> before a b.
Proof.
  induction l1 as [|c l1 IH]; simpl.
  - intros Hok. split_and!; [by repeat constructor|done|]. intros a b Ha. by apply elem_of_nil in Ha.
  - intros (Hc & Hcl & (Hl1 & Hl2 & Hb)%IH)%areas_ok_cons. apply Forall_app in Hcl as [Hcl1 Hcl2].
    split_and!; [by apply areas_ok_cons|done|]. intros a b [->|Ha]%elem_of_cons Hb'; [|by apply Hb].
    rewrite Forall_forall in Hcl2. by apply Hcl2.
Qed.

Lemma areas_ok_join l1 l2 :
  areas_ok l1 -> areas_ok l2 -> (forall a b, a ∈ l1 -> b ∈ l2 -> before a b) -> areas_ok (l1 ++ l2).
Proof.
  induction l1 as [|c l1 IH]; simpl; [done|].
  intros (Hc & Hcl & Hl1)%areas_ok_cons Hl2 Hb. apply areas_ok_cons. split_and!; [done| |].
  - apply Forall_app. split; [done|]. apply Forall_forall. intros b. apply Hb. set_solver.
  - apply IH; [done|done|]. intros a b ? ?. apply Hb; set_solver.
Qed.

Lemma areas_ok_remove l1 a l2 : areas_ok (l1 ++ a :: l2) -> areas_ok (l1 ++ l2).
Proof.
  intros (Hl1 & Hl2 & Hb)%areas_ok_split. apply areas_ok_join; [done| |].
  - by apply areas_ok_cons in Hl2 as (_ & _ & ?).
  - intros c d ? ?. apply Hb; set_solver.
Qed.

Lemma out_remove x l1 a l2 : out x (l1 ++ a :: l2) -> out x (l1 ++ l2).
Proof. unfold out. rewrite !Forall_app, Forall_cons. tauto. Qed.

Lemma out_other l1 l2 a x :
  areas_ok (l1 ++ l2) -> inside x a -> (a ∈ l1 -> out x l2) /\ (a ∈ l2 -> out x l1).
Proof.
  intros (Hl1 & Hl2 & Hb)%areas_ok_split Hx. unfold inside, before in *.
  split; intros Ha; apply Forall_forall; intros c Hc Hi.
  - specialize (Hb _ _ Ha Hc). unfold inside in Hi. lia.
  - specialize (Hb _ _ Hc Ha). unfold inside in Hi. lia.
Qed.

Lemma link_place_cases m heap l q n :
  areas_ok l -> front m heap l q n ->
  link_place heap q = heap \/ exists a, a ∈ l /\ inside (link_place heap q) a.
Proof.
  intros [Hall _] Hf. unfold link_place. destruct (front_last _ _ _ _ _ Hf Hall) as [[-> ->]|(l' & a & -> & -> & Hq)].
  - by left.
  - right. exists a. rewrite (proj2 (Z.eqb_neq _ _) Hq). split; [set_solver|].
    apply Forall_app in Hall as [_ [Ha _]%Forall_cons]. by destruct (fields_inside a Ha) as (_ & ? & _).
Qed.

Lemma back_place m p h l :
  areas_ok l -> back m p h l -> h <> 0 -> exists a, a ∈ l /\ h = node a /\ inside (fa_prev h) a.
Proof.
  intros [Hall _] [q Hd] Hh. destruct l as [|a l]; [by destruct Hd|]. destruct Hd as (-> & _).
  apply Forall_cons in Hall as [Ha _]. exists a. split_and!; [set_solver|done|].
  by destruct (fields_inside a Ha) as (_ & _ & ?).
Qed.

Definition set_prev (h y : Z) m : memory := if h =? 0 then m else <[fa_prev h := y]> m.

(** Linking [x] after the first part, and making [y] the predecessor of the
    second. *)
Lemma set_prev_ok m heap l1 l2 q1 n p h y :
  areas_ok (l1 ++ l2) -> out heap (l1 ++ l2) -> front m heap l1 q1 n -> back m p h l2 ->
  front (set_prev h y m) heap l1 q1 n /\ back (set_prev h y m) y h l2 /\
  forall l, (forall a, a ∈ l2 -> a ∈ l) -> agrees heap l m (set_prev h y m).
Proof.
  intros Hok Ho Hf Hb. pose proof (areas_ok_split _ _ Hok) as (Hl1 & Hl2 & _). unfold set_prev.
  split_and!; [|by eapply back_link|]; destruct (Z.eqb_spec h 0) as [|Hh]; try done.
  - destruct (back_place _ _ _ _ Hl2 Hb Hh) as (a & Ha & _ & Hi).
    apply front_frame; [by destruct Hl1|by eapply (out_other l1 l2 a)| |done].
    intros Heq. apply Forall_app in Ho as [_ Ho]. by eapply (out_ne heap l2 a).
  - destruct (back_place _ _ _ _ Hl2 Hb Hh) as (a & Ha & _ & Hi). intros l Hl. apply agrees_insert. right.
    intros Hout. unfold out in Hout. rewrite Forall_forall in Hout. by apply (Hout a); [apply Hl|].
Qed.

Lemma set_link_ok m heap l1 l2 q1 n p h x :
  areas_ok (l1 ++ l2) -> out heap (l1 ++ l2) -> front m heap l1 q1 n -> back m p h l2 ->
  front (<[link_place heap q1 := x]> m) heap l1 q1 x /\ back (<[link_place heap q1 := x]> m) p h l2 /\
  forall l, (forall a, a ∈ l1 -> a ∈ l) -> agrees heap l m (<[link_place heap q1 := x]> m).
Proof.
  intros Hok Ho Hf Hb. pose proof (areas_ok_split _ _ Hok) as (Hl1 & Hl2 & _).
  apply Forall_app in Ho as [Ho1 Ho2].
  pose proof (link_place_cases _ _ _ _ _ Hl1 Hf) as Hp. split_and!; [by eapply front_link| |].
  - apply back_frame; [by destruct Hl2| |done]. destruct Hp as [->|(a & Ha & Hi)]; [done|by eapply (out_other l1 l2 a)].
  - intros l Hl. apply agrees_insert. destruct Hp as [|(a & Ha & Hi)]; [by left|right].
    intros Hout. unfold out in Hout. rewrite Forall_forall in Hout. by apply (Hout a); [apply Hl|].
Qed.

(** The node of an area in the middle of the list. *)
Definition has_node m (a : area) (p h : Z) : Prop :=
  m !! fa_size (node a) = Some a.2 /\ m !! fa_prev (node a) = Some p /\ m !! fa_next (node a) = Some h.

Lemma back_cons m p h a l : back m p h (a :: l) <->
  h = node a /\ exists h', has_node m a p h' /\ back m (node a) h' l.
Proof.
  unfold back, has_node. simpl. split.
  - intros (q & -> & Hs & Hp & h' & Hn & Hd). split; [done|]. exists h'. split; [done|by exists q].
  - intros (-> & h' & (Hs & Hp & Hn) & q & Hd). exists q. split_and!; try done. by exists h'.
Qed.

Lemma load_ok x v m : m !! x = Some v -> load x m = Ret v m.
Proof. unfold load. by intros ->. Qed.

Lemma run_store x v m : store x v m = Ret tt (<[x := v]> m).
Proof. done. Qed.

Lemma u32_area x : 0 <= x < 2 ^ 32 -> u32 x = x.
Proof. intros. unfold u32. by apply Z.mod_small. Qed.

Lemma area_start_ok m a p h :
  area_ok a -> has_node m a p h -> HEAP_FREE_AREA_START (node a) m = Ret a.1 m.
Proof.
  intros [] (Hs & _). unfold HEAP_FREE_AREA_START. erewrite bind_Ret by by apply load_ok.
  unfold node. rewrite u32_area; [|rewrite HEAP_MIN_SIZE_eq in *; lia].
  unfold mret, M_ret. do 2 f_equal. lia.
Qed.

Lemma area_end_ok a : area_ok a -> HEAP_FREE_AREA_END (node a) = a.1 + a.2.
Proof.
  intros []. unfold HEAP_FREE_AREA_END, node. rewrite u32_area; [lia|].
  rewrite HEAP_MIN_SIZE_eq in *. lia.
Qed.

(** The two ways the code writes the links. *)
Lemma run_set_prev h y m : when (negb (h =? 0)) (store (fa_prev h) y) m = Ret tt (set_prev h y m).
Proof. unfold when, set_prev. by destruct (h =? 0). Qed.

Lemma run_set_link heap q x m :
  (if negb (q =? 0) then store (fa_next q) x else store (free_areas heap) x) m =
  Ret tt (<[link_place heap q := x]> m).
Proof. unfold link_place. by destruct (q =? 0). Qed.

Lemma heap_delete_ok m heap l1 a l2 q1 h2 :
  areas_ok (l1 ++ a :: l2) -> out heap (l1 ++ a :: l2) ->
  front m heap l1 q1 (node a) -> has_node m a q1 h2 -> back m (node a) h2 l2 ->
  exists m', __heap_delete heap (node a) m = Ret tt m' /\
    front m' heap l1 q1 h2 /\ back m' q1 h2 l2 /\ agrees heap (l1 ++ a :: l2) m m'.
Proof.
  intros Hok Ho Hf (Hs & Hp & Hn) Hb.
  pose proof (areas_ok_remove _ _ _ Hok) as Hok'. pose proof (out_remove _ _ _ _ Ho) as Ho'.
  destruct (set_prev_ok m heap l1 l2 q1 (node a) (node a) h2 q1 Hok' Ho' Hf Hb) as (Hf1 & Hb1 & Ha1).
  destruct (set_link_ok _ heap l1 l2 q1 _ _ h2 h2 Hok' Ho' Hf1 Hb1) as (Hf2 & Hb2 & Ha2).
  eexists. split.
  { unfold __heap_delete. erewrite bind_Ret by by apply load_ok. erewrite bind_Ret by by apply load_ok.
    rewrite (bind_Ret _ _ _ _ _ (run_set_prev _ _ _)). apply run_set_link. }
  split_and!; [done|done|]. eapply agrees_trans; [apply Ha1|apply Ha2]; set_solver.
Qed.

(** Reducing an area from its front. *)
Lemma shrink_ok m heap l1 a l2 q1 h2 n :
  areas_ok (l1 ++ a :: l2) -> out heap (l1 ++ a :: l2) ->
  front m heap l1 q1 (node a) -> has_node m a q1 h2 -> back m (node a) h2 l2 ->
  let m' := <[fa_size (node a) := a.2 - n]> m in
  (exists q, front m' heap (l1 ++ (a.1 + n, a.2 - n) :: l2) q 0) /\ agrees heap (l1 ++ a :: l2) m m'.
Proof.
  intros Hok Ho Hf (Hs & Hp & Hn) Hb m'.
  pose proof (areas_ok_app _ _ _ Hok) as (Hl1 & Ha & Hl2 & _).
  destruct (fields_inside a Ha) as (I1 & I2 & I3). destruct (inside_out _ _ _ _ Hok I1) as [O1 O2].
  split.
  - apply front_back. exists q1, (node a). split.
    + apply front_frame; [by destruct Hl1|done| |done]. intros Heq.
      eapply (out_ne heap (l1 ++ a :: l2) a); [done|set_solver|exact I1|done].
    + apply back_cons. split; [unfold node; simpl; lia|]. exists h2.
      replace (node (a.1 + n, a.2 - n)) with (node a) by (unfold node; simpl; lia).
      split; [|apply back_frame; [by destruct Hl2|done|done]].
      unfold has_node, m'. replace (node (a.1 + n, a.2 - n)) with (node a) by (unfold node; simpl; lia).
      rewrite lookup_insert_eq, !lookup_insert_ne by (unfold fa_next, fa_prev, fa_size; lia). done.
  - apply agrees_insert. right. intros Hout. eapply out_ne; [exact Hout| |exact I1|done]. set_solver.
Qed.

Lemma free_area_alloc_ok m heap l1 a l2 q1 h2 n :
  areas_ok (l1 ++ a :: l2) -> out heap (l1 ++ a :: l2) ->
  front m heap l1 q1 (node a) -> has_node m a q1 h2 -> back m (node a) h2 l2 ->
  0 < n < 2 ^ 31 ->
  exists m', __heap_free_area_alloc heap (node a) n m =
      Ret (if a.2 <? n + HEAP_MIN_FREE_AREA_SIZE then a.2 else n) m' /\
    (exists q, front m' heap (l1 ++ if a.2 <? n + HEAP_MIN_FREE_AREA_SIZE then l2
                                    else (a.1 + n, a.2 - n) :: l2) q 0) /\
    agrees heap (l1 ++ a :: l2) m m'.
Proof.
  intros Hok Ho Hf Hnode Hb Hn. unfold __heap_free_area_alloc.
  rewrite (bind_Ret _ _ _ _ _ (load_ok _ _ _ (proj1 Hnode))).
  rewrite u32_area by (rewrite HEAP_MIN_FREE_AREA_SIZE_eq; lia).
  destruct (a.2 <? n + HEAP_MIN_FREE_AREA_SIZE).
  - destruct (heap_delete_ok m heap l1 a l2 q1 h2 Hok Ho Hf Hnode Hb) as (m' & E & Hf' & Hb' & Ha).
    exists m'. rewrite (bind_Ret _ _ _ _ _ E). split_and!; [done| |done]. apply front_back. by exists q1, h2.
  - destruct (shrink_ok m heap l1 a l2 q1 h2 n Hok Ho Hf Hnode Hb) as [Hf' Ha].
    eexists. split; [done|]. by split.
Qed.

(** ** Allocation *)

Lemma app_snoc l1 a l2 : l1 ++ a :: l2 = (l1 ++ [a]) ++ l2.
Proof. by rewrite <- app_assoc. Qed.

(** One step along the list. *)
Lemma front_step m heap l1 q1 a h2 :
  front m heap l1 q1 (node a) -> has_node m a q1 h2 -> front m heap (l1 ++ [a]) (node a) h2.
Proof.
  intros (h & Hh & Hd) (Hs & Hp & Hn). exists h. split; [done|]. apply dseg_app.
  exists q1, (node a). split; [done|]. simpl. split_and!; try done. by exists h2.
Qed.

Lemma alloc_loop_ok heap m n size l2 l1 q1 h fuel :
  areas_ok (l1 ++ l2) -> out heap (l1 ++ l2) -> front m heap l1 q1 h -> back m q1 h l2 ->
  0 < n < 2 ^ 31 -> (length l2 < fuel)%nat ->
  match spec_alloc n l2 with
  | Some (b, l2') =>
      exists m', heap_alloc_loop fuel heap h n size m = Ret b m' /\
        (exists q, front m' heap (l1 ++ l2') q 0) /\ agrees heap (l1 ++ l2) m m'
  | None => heap_alloc_loop fuel heap h n size m = Ret (0, size) m
  end.
Proof.
  intros Hok Ho Hf Hb Hn. revert l1 q1 h fuel Hok Ho Hf Hb.
  induction l2 as [|a l2 IH]; intros l1 q1 h fuel Hok Ho Hf Hb Hfuel;
    (destruct fuel as [|fuel]; [simpl in Hfuel; lia|]); cbn [heap_alloc_loop spec_alloc].
  { by destruct Hb as (q & -> & _). }
  apply back_cons in Hb as (-> & h2 & Hnode & Hb).
  pose proof (areas_ok_app _ _ _ Hok) as (_ & Ha & _). pose proof (node_pos a Ha) as Hpos.
  rewrite (proj2 (Z.eqb_neq (node a) 0)) by lia.
  destruct (Z.leb_spec n a.2) as [Hle|Hgt].
  - rewrite (bind_Ret _ _ _ _ _ (load_ok _ _ _ (proj1 Hnode))), (proj2 (Z.leb_le _ _) Hle).
    rewrite (bind_Ret _ _ _ _ _ (area_start_ok _ _ _ _ Ha Hnode)).
    destruct (free_area_alloc_ok m heap l1 a l2 q1 h2 n Hok Ho Hf Hnode Hb Hn) as (m' & E & Hf' & Hag).
    rewrite (bind_Ret _ _ _ _ _ E). destruct (a.2 <? _); exists m'; by destruct a.
  - rewrite (bind_Ret _ _ _ _ _ (load_ok _ _ _ (proj1 Hnode))), (proj2 (Z.leb_gt _ _) Hgt).
    rewrite (bind_Ret _ _ _ _ _ (load_ok _ _ _ (proj2 (proj2 Hnode)))).
    assert (front m heap (l1 ++ [a]) (node a) h2) as Hf1 by by eapply front_step.
    rewrite (app_snoc l1 a l2) in *. simpl in Hfuel.
    specialize (IH (l1 ++ [a]) (node a) h2 fuel Hok Ho Hf1 Hb ltac:(lia)).
    destruct (spec_alloc n l2) as [[b l2']|]; [|done].
    destruct IH as (m' & E & Hf' & Hag). exists m'. rewrite app_snoc. done.
Qed.

(** The size [__heap_alloc] looks for. *)
Definition block_size (size : Z) : Z := Z.max HEAP_MIN_SIZE ((size + 7) / 8 * 8).

Lemma HEAP_ADJUST_SIZE_eq size : 0 <= size <= 2 ^ 32 - 8 -> HEAP_ADJUST_SIZE size = (size + 7) / 8 * 8.
Proof.
  intros Hs. unfold HEAP_ADJUST_SIZE, HEAP_GRANULARITY. rewrite u32_area by lia.
  replace (size + 8 - 1) with (size + 7) by lia. change (u32 (Z.lnot (8 - 1))) with (Z.ldiff (Z.ones 32) (Z.ones 3)).
  rewrite <- Z.shiftr_div_pow2 with (n := 3), <- Z.shiftl_mul_pow2 with (n := 3) by lia.
  rewrite <- Z.ldiff_ones_r by lia. apply Z.bits_inj'. intros i Hi.
  rewrite Z.land_spec, !Z.ldiff_spec. rewrite (Z.testbit_ones 32) by lia.
  destruct (Z.ltb_spec i 32); [by rewrite (proj2 (Z.leb_le 0 i)) by lia|].
  assert (Z.testbit (size + 7) i = false) as ->; [|done].
  apply Z.bits_above_log2; [lia|]. apply Z.log2_lt_pow2; [lia|].
  apply (Z.lt_le_trans _ (2 ^ 32)); [lia|]. apply Z.pow_le_mono_r; lia.
Qed.

Lemma heap_alloc_size size :
  0 <= size <= 2 ^ 32 - 8 ->
  (if HEAP_ADJUST_SIZE size <? sizeof_heap_free_area then HEAP_ADJUST_SIZE sizeof_heap_free_area
   else HEAP_ADJUST_SIZE size) = block_size size.
Proof.
  intros Hs. rewrite HEAP_ADJUST_SIZE_eq by done. unfold block_size, HEAP_MIN_SIZE.
  change (HEAP_ADJUST_SIZE sizeof_heap_free_area) with 16. unfold sizeof_heap_free_area.
  destruct (Z.ltb_spec ((size + 7) / 8 * 8) 12); [lia|].
  assert ((size + 7) / 8 <> 1) by lia. lia.
Qed.

Lemma block_size_ok size : 0 <= size ->
  (8 | block_size size) /\ HEAP_MIN_SIZE <= block_size size /\ size <= block_size size < size + 17.
Proof.
  intros Hs. unfold block_size. rewrite HEAP_MIN_SIZE_eq.
  pose proof (Z.div_mod (size + 7) 8). pose proof (Z.mod_pos_bound (size + 7) 8).
  split; [|lia]. destruct (Z.max_spec 16 ((size + 7) / 8 * 8)) as [[_ ->]|[_ ->]].
  - apply Z.divide_factor_r.
  - by exists 2.
Qed.

(** The search for [n] bytes, whatever size was asked for. *)
Lemma heap_alloc_run fuel heap size n m l :
  heap_repr heap m l ->
  (if HEAP_ADJUST_SIZE size <? sizeof_heap_free_area then HEAP_ADJUST_SIZE sizeof_heap_free_area
   else HEAP_ADJUST_SIZE size) = n ->
  0 < n < 2 ^ 31 -> (8 | n) -> HEAP_MIN_SIZE <= n -> (length l < fuel)%nat ->
  match spec_alloc n l with
  | Some (b, l') =>
      exists m', __heap_alloc fuel heap size m = Ret b m' /\ heap_repr heap m' l' /\ agrees heap l m m'
  | None => __heap_alloc fuel heap size m = Ret (0, size) m
  end.
Proof.
  intros (Hok & Ho & q & h0 & Hf & ->) En Hn Hn8 Hmin Hfuel.
  destruct (proj1 (front_back m heap [] l)) as (q1 & h & (h' & Hh & Hd) & Hb); [by exists q|].
  destruct Hd as [-> <-].
  unfold __heap_alloc. cbv zeta. rewrite En, (bind_Ret _ _ _ _ _ (load_ok _ _ _ Hh)).
  assert (front m heap [] 0 h) as Hf0 by by exists h.
  pose proof (alloc_loop_ok heap m n size l [] 0 h fuel Hok Ho Hf0 Hb Hn Hfuel) as Hl.
  destruct (spec_alloc n l) as [[b l']|] eqn:E; [|done].
  destruct Hl as (m' & E' & [q' Hf'] & Hag). exists m'. split_and!; [done| |done].
  destruct (spec_alloc_ok _ _ _ _ E) as (Hok' & _ & _ & _ & Hc); try done; [lia|].
  split_and!; [done| |by exists q', 0]. apply Forall_forall. intros a Ha Hi.
  assert (covers l heap) as Hcov by (apply Hc; right; apply Exists_exists; by exists a).
  apply Exists_exists in Hcov as (c & Hc1 & Hc2). unfold out in Ho. rewrite Forall_forall in Ho. by apply (Ho c).
Qed.

Lemma heap_alloc_spec fuel heap size m l :
  heap_repr heap m l -> 0 <= size < 2 ^ 31 - 17 -> (length l < fuel)%nat ->
  match spec_alloc (block_size size) l with
  | Some (b, l') =>
      exists m', __heap_alloc fuel heap size m = Ret b m' /\ heap_repr heap m' l' /\ agrees heap l m m'
  | None => __heap_alloc fuel heap size m = Ret (0, size) m
  end.
Proof.
  intros Hr Hs Hfuel. destruct (block_size_ok size) as (B1 & B2 & B3); [lia|].
  apply heap_alloc_run; try done; [apply heap_alloc_size; lia|rewrite HEAP_MIN_SIZE_eq in *; lia].
Qed.

(** ** Linking a new node *)

Lemma inside_ne x y a : inside x a -> ~ inside y a -> x <> y.
Proof. by intros ? ? ->. Qed.

Lemma elem_mid (b : area) l1 l2 : b ∈ l1 ++ b :: l2.
Proof. apply elem_of_app. right. apply elem_of_cons. by left. Qed.

Lemma link_free_area_ok m heap l1 b l2 q1 n p h :
  areas_ok (l1 ++ b :: l2) -> out heap (l1 ++ b :: l2) ->
  front m heap l1 q1 n -> back m p h l2 ->
  exists m', __heap_link_free_area heap (node b) q1 h m = Ret tt m' /\
    front m' heap l1 q1 (node b) /\ back m' (node b) h l2 /\
    m' !! fa_prev (node b) = Some q1 /\ m' !! fa_next (node b) = Some h /\
    m' !! fa_size (node b) = m !! fa_size (node b) /\ agrees heap (l1 ++ b :: l2) m m'.
Proof.
  intros Hok Ho Hf Hb. pose proof (areas_ok_remove _ _ _ Hok) as Hok'.
  pose proof (out_remove _ _ _ _ Ho) as Ho'.
  pose proof (areas_ok_app _ _ _ Hok) as (Hl1 & Hb0 & Hl2 & _).
  destruct (fields_inside b Hb0) as (I1 & I2 & I3).
  assert (forall x, inside x b -> out x l1 /\ out x l2 /\ x <> heap) as Hin.
  { intros x Hx. destruct (inside_out _ _ _ _ Hok Hx). split_and!; try done. intros ->.
    by eapply (out_ne heap (l1 ++ b :: l2) b); [done|apply elem_mid|exact Hx|]. }
  destruct (Hin _ I2) as (A1 & A2 & A3). destruct (Hin _ I3) as (B1 & B2 & B3).
  set (m1 := <[fa_prev (node b) := q1]> (<[fa_next (node b) := h]> m)).
  assert (front m1 heap l1 q1 n) as Hf1.
  { unfold m1. apply front_frame; [by destruct Hl1|done|done|]. apply front_frame; [by destruct Hl1|done..]. }
  assert (back m1 p h l2) as Hb1.
  { unfold m1. apply back_frame; [by destruct Hl2|done|]. apply back_frame; [by destruct Hl2|done..]. }
  destruct (set_link_ok m1 heap l1 l2 q1 n p h (node b) Hok' Ho' Hf1 Hb1) as (Hf2 & Hb2 & Ha2).
  destruct (set_prev_ok _ heap l1 l2 q1 _ p h (node b) Hok' Ho' Hf2 Hb2) as (Hf3 & Hb3 & Ha3).
  exists (set_prev h (node b) (<[link_place heap q1 := node b]> m1)). split.
  { unfold __heap_link_free_area. do 2 rewrite (bind_Ret _ _ _ _ _ (run_store _ _ _)).
    rewrite (bind_Ret _ _ _ _ _ (run_set_link _ _ _ _)). apply run_set_prev. }
  assert (agrees heap (l1 ++ l2) m1 (set_prev h (node b) (<[link_place heap q1 := node b]> m1))) as Hag.
  { eapply agrees_trans; [apply Ha2|apply Ha3]; intros a; rewrite elem_of_app; auto. }
  assert (forall x, inside x b -> out x (l1 ++ l2)) as Hout.
  { intros x Hx. apply Forall_app. by destruct (Hin x Hx) as (? & ? & ?). }
  rewrite (Hag _ A3 (Hout _ I2)), (Hag _ B3 (Hout _ I3)).
  rewrite (Hag _ (proj2 (proj2 (Hin _ I1))) (Hout _ I1)). unfold m1.
  rewrite lookup_insert_eq, !(lookup_insert_ne _ (fa_prev (node b))), lookup_insert_eq,
    lookup_insert_ne by (unfold fa_next, fa_prev, fa_size; lia).
  split_and!; try done. eapply agrees_trans; [|intros x Hx Hxo; apply Hag; [done|by eapply out_remove]].
  unfold m1. eapply agrees_trans; apply agrees_insert; right; intros Hx;
    (eapply (out_ne _ _ b); [exact Hx|apply elem_mid| |reflexivity]); done.
Qed.

(** The same with the size written before or after the links. *)
Lemma node_linked m heap l1 b l2 q1 h :
  front m heap l1 q1 (node b) -> back m (node b) h l2 ->
  m !! fa_prev (node b) = Some q1 -> m !! fa_next (node b) = Some h ->
  m !! fa_size (node b) = Some b.2 -> exists q, front m heap (l1 ++ b :: l2) q 0.
Proof.
  intros Hf Hb Hp Hn Hs. apply front_back. exists q1, (node b). split; [done|].
  apply back_cons. split; [done|]. by exists h.
Qed.

Lemma set_size_frame m heap l1 b l2 q n p h v :
  areas_ok (l1 ++ b :: l2) -> out heap (l1 ++ b :: l2) ->
  front m heap l1 q n -> back m p h l2 ->
  front (<[fa_size (node b) := v]> m) heap l1 q n /\ back (<[fa_size (node b) := v]> m) p h l2 /\
  agrees heap (l1 ++ b :: l2) m (<[fa_size (node b) := v]> m).
Proof.
  intros Hok Ho Hf Hb. pose proof (areas_ok_app _ _ _ Hok) as (Hl1 & Hb0 & Hl2 & _).
  destruct (fields_inside b Hb0) as (I1 & _). destruct (inside_out _ _ _ _ Hok I1) as [O1 O2].
  split_and!.
  - apply front_frame; [by destruct Hl1|done| |done]. intros Heq.
    by eapply (out_ne heap (l1 ++ b :: l2) b); [done|apply elem_mid|exact I1|].
  - apply back_frame; [by destruct Hl2|done..].
  - apply agrees_insert. right. intros Hx. by eapply (out_ne _ _ b); [exact Hx|apply elem_mid|exact I1|].
Qed.

Lemma add_free_area_ok m heap l1 b l2 q1 n p h :
  areas_ok (l1 ++ b :: l2) -> out heap (l1 ++ b :: l2) ->
  front m heap l1 q1 n -> back m p h l2 ->
  exists m', __heap_add_free_area heap b.1 b.2 q1 h m = Ret (node b) m' /\
    (exists q, front m' heap (l1 ++ b :: l2) q 0) /\ agrees heap (l1 ++ b :: l2) m m'.
Proof.
  intros Hok Ho Hf Hb. pose proof (areas_ok_app _ _ _ Hok) as (_ & Hb0 & _).
  destruct (set_size_frame m heap l1 b l2 q1 n p h b.2 Hok Ho Hf Hb) as (Hf1 & Hb1 & Ha1).
  destruct (link_free_area_ok _ heap l1 b l2 q1 n p h Hok Ho Hf1 Hb1)
    as (m' & E & Hf2 & Hb2 & Hp & Hn & Hs & Ha2).
  rewrite lookup_insert_eq in Hs.
  exists m'. split_and!; [|by eapply node_linked|by eapply agrees_trans].
  unfold __heap_add_free_area. cbv zeta. fold (node b). rewrite u32_area.
  - by rewrite (bind_Ret _ _ _ _ _ (run_store _ _ _)), (bind_Ret _ _ _ _ _ E).
  - pose proof (node_pos b Hb0). destruct Hb0. unfold node in *. unfold sizeof_heap_free_area in *. lia.
Qed.

(** ** Freeing *)

(** The search stops at the first area that ends at or after the block. *)
Lemma free_loop_ok heap m mem l2 l1 q1 h fuel :
  areas_ok (l1 ++ l2) -> Forall (fun a => a.1 + a.2 < mem) l1 ->
  front m heap l1 q1 h -> back m q1 h l2 -> (length l2 < fuel)%nat ->
  exists l3 l4 q3 h3, l1 ++ l2 = l3 ++ l4 /\ heap_free_loop fuel q1 h mem m = Ret (q3, h3) m /\
    front m heap l3 q3 h3 /\ back m q3 h3 l4 /\ Forall (fun a => a.1 + a.2 < mem) l3 /\
    match l4 with [] => True | a :: _ => mem <= a.1 + a.2 end.
Proof.
  revert l1 q1 h fuel. induction l2 as [|a l2 IH]; intros l1 q1 h fuel Hok Hl1 Hf Hb Hfuel;
    (destruct fuel as [|fuel]; [simpl in Hfuel; lia|]); cbn [heap_free_loop].
  { exists l1, [], q1, h. split_and!; try done. by destruct Hb as (q & -> & _). }
  pose proof Hb as (-> & h2 & Hnode & Hb2)%back_cons.
  pose proof (areas_ok_app _ _ _ Hok) as (_ & Ha & _). pose proof (node_pos a Ha) as Hpos.
  rewrite (proj2 (Z.eqb_neq (node a) 0)), area_end_ok by (done || lia).
  destruct (Z.leb_spec mem (a.1 + a.2)) as [Hle|Hgt].
  { exists l1, (a :: l2), q1, (node a). by split_and!. }
  rewrite (bind_Ret _ _ _ _ _ (load_ok _ _ _ (proj2 (proj2 Hnode)))).
  rewrite (app_snoc l1 a l2) in *. apply IH; try done.
  - apply Forall_app. split; [done|by repeat constructor].
  - by eapply front_step.
  - simpl in Hfuel. lia.
Qed.

Lemma spec_free_app b l1 l2 :
  Forall (fun a => a.1 + a.2 < b.1) l1 -> spec_free b (l1 ++ l2) = l1 ++ spec_free b l2.
Proof.
  induction 1 as [|a l1 Ha Hl1 IH]; simpl; [done|]. by rewrite (proj2 (Z.ltb_lt _ _) Ha), IH.
Qed.

Section Merge.
Context (m : memory) (heap : Z) (l1 : list area) (a b : area) (l2 : list area) (q1 h2 : Z).
Hypothesis Hok : areas_ok (l1 ++ a :: l2).
Hypothesis Ho : out heap (l1 ++ a :: l2).
Hypothesis Hf : front m heap l1 q1 (node a).
Hypothesis Hnode : has_node m a q1 h2.
Hypothesis Hb2 : back m (node a) h2 l2.
Hypothesis Hb : area_ok b.
Hypothesis Hbefore : Forall (fun c => c.1 + c.2 < b.1) l1.
Hypothesis Hout : ~ inside heap b.

Let Ha : area_ok a.
Proof. by destruct (areas_ok_app _ _ _ Hok) as (_ & ? & _). Qed.

(** The area follows the block. *)
Lemma merge_after :
  b.1 + b.2 = a.1 ->
  exists m', heap_free_merge heap q1 (node a) b.1 b.2 m = Ret (node (b.1, b.2 + a.2)) m' /\
    (exists q, front m' heap (l1 ++ (b.1, b.2 + a.2) :: l2) q 0) /\ agrees heap (l1 ++ a :: l2) m m'.
Proof.
  intros Heq. unfold heap_free_merge. cbv zeta.
  pose proof Hb as [P1 P2 P3 P4 P5]. pose proof Ha as [R1 R2 R3 R4 R5].
  rewrite HEAP_MIN_SIZE_eq in *.
  rewrite (bind_Ret _ _ _ _ _ (load_ok _ _ _ (proj1 Hnode))).
  rewrite (bind_Ret _ _ _ _ _ (area_start_ok _ _ _ _ Ha Hnode)), !u32_area by lia.
  rewrite (proj2 (Z.eqb_eq a.1 (b.1 + b.2))) by done.
  assert (negb (q1 =? 0) && (b.1 =? HEAP_FREE_AREA_END q1) = false) as ->.
  { destruct (areas_ok_app _ _ _ Hok) as (Hl1 & _).
    destruct (front_last _ _ _ _ _ Hf (areas_all _ Hl1)) as [[_ ->]|(l' & c & El & -> & _)]; [done|].
    rewrite El in *. apply Forall_app in Hbefore as [_ [Hc _]%Forall_cons].
    rewrite area_end_ok; [lia|]. destruct Hl1 as [Hall _]. by apply Forall_app in Hall as [_ [? _]%Forall_cons]. }
  rewrite bind_mret, (bind_Ret _ _ _ _ _ (run_store _ _ _)).
  destruct (shrink_ok m heap l1 a l2 q1 h2 (- b.2) Hok Ho Hf Hnode Hb2) as [Hf' Hag].
  replace (a.1 + - b.2, a.2 - - b.2) with (b.1, b.2 + a.2) in Hf' by (f_equal; lia).
  replace (a.2 - - b.2) with (a.2 + b.2) in * by lia.
  replace (node (b.1, b.2 + a.2)) with (node a) by (unfold node; simpl; lia). eexists. by split_and!.
Qed.

(** The area precedes the block, and another one follows it. *)
Lemma merge_between c l3 :
  l2 = c :: l3 -> a.1 + a.2 = b.1 -> b.1 + b.2 = c.1 ->
  exists m', heap_free_merge heap q1 (node a) b.1 b.2 m = Ret (node (a.1, a.2 + b.2 + c.2)) m' /\
    (exists q, front m' heap (l1 ++ (a.1, a.2 + b.2 + c.2) :: l3) q 0) /\ agrees heap (l1 ++ a :: l2) m m'.
Proof.
  intros El Heq Heq'. unfold heap_free_merge. cbv zeta.
  pose proof Hb as [P1 P2 P3 P4 P5]. pose proof Ha as [R1 R2 R3 R4 R5].
  rewrite HEAP_MIN_SIZE_eq in *. rewrite El in *.
  pose proof Hb2 as (-> & h3 & Hnode3 & Hb3)%back_cons.
  pose proof (areas_ok_remove _ _ _ Hok) as Hok'. pose proof (out_remove _ _ _ _ Ho) as Ho'.
  assert (area_ok c) as Hc by by destruct (areas_ok_app _ _ _ Hok') as (_ & ? & _).
  pose proof Hc as [C1 C2 C3 C4 C5]. rewrite HEAP_MIN_SIZE_eq in *.
  rewrite (bind_Ret _ _ _ _ _ (load_ok _ _ _ (proj1 Hnode))).
  rewrite (bind_Ret _ _ _ _ _ (area_start_ok _ _ _ _ Ha Hnode)), !u32_area by lia.
  rewrite (proj2 (Z.eqb_neq a.1 (b.1 + b.2))) by lia. rewrite bind_bind.
  rewrite (bind_Ret _ _ _ _ _ (load_ok _ _ _ (proj2 (proj2 Hnode)))), bind_bind.
  pose proof (node_pos c Hc). rewrite (proj2 (Z.eqb_neq (node c) 0)) by lia. simpl negb. cbv iota.
  rewrite (bind_Ret _ _ _ _ _ (area_start_ok _ _ _ _ Hc Hnode3)), (proj2 (Z.eqb_eq _ _) Heq').
  simpl andb. cbv iota. rewrite bind_bind, (bind_Ret _ _ _ _ _ (load_ok _ _ _ (proj1 Hnode3))).
  destruct (set_link_ok m heap l1 (c :: l3) q1 (node a) (node a) (node c) (node c) Hok' Ho' Hf Hb2)
    as (Hf1 & Hb1 & Ha1).
  destruct (set_prev_ok _ heap l1 (c :: l3) q1 _ _ (node c) q1 Hok' Ho' Hf1 Hb1) as (Hf4 & Hb4 & Ha4).
  assert (__heap_link_free_area_after heap (node c) q1 m =
    Ret tt (set_prev (node c) q1 (<[link_place heap q1 := node c]> m))) as E.
  { unfold __heap_link_free_area_after. rewrite (bind_Ret _ _ _ _ _ (run_set_link _ _ _ _)), run_store.
    unfold set_prev. by rewrite (proj2 (Z.eqb_neq (node c) 0)) by lia. }
  rewrite bind_bind, (bind_Ret _ _ _ _ _ E), bind_mret, (bind_Ret _ _ _ _ _ (run_store _ _ _)).
  apply back_cons in Hb4 as (_ & h4 & Hnode4 & Hb4).
  destruct (shrink_ok _ heap l1 c l3 q1 h4 (- (a.2 + b.2)) Hok' Ho' Hf4 Hnode4 Hb4) as [Hf' Hag].
  replace (c.1 + - (a.2 + b.2), c.2 - - (a.2 + b.2)) with (a.1, a.2 + b.2 + c.2) in Hf' by (f_equal; lia).
  replace (c.2 - - (a.2 + b.2)) with (a.2 + b.2 + c.2) in * by lia.
  replace (node (a.1, a.2 + b.2 + c.2)) with (node c) by (unfold node; simpl; lia).
  rewrite u32_area by lia. eexists. split_and!; [done|done|].
  assert (forall y, out y (l1 ++ a :: c :: l3) -> out y (l1 ++ c :: l3)) as Hsub by (intros y; apply out_remove).
  eapply agrees_trans; [apply Ha1|eapply agrees_trans; [apply Ha4|]]; try (intros d; rewrite !elem_of_app, ?elem_of_cons; tauto).
  intros y Hy Hyo. apply Hag; auto.
Qed.

(** The area precedes the block, which has free space on no other side. *)
Lemma merge_before :
  areas_ok (l1 ++ (a.1, a.2 + b.2) :: l2) -> a.1 + a.2 = b.1 ->
  match l2 with [] => True | c :: _ => b.1 + b.2 <> c.1 end ->
  exists m', heap_free_merge heap q1 (node a) b.1 b.2 m = Ret (node (a.1, a.2 + b.2)) m' /\
    (exists q, front m' heap (l1 ++ (a.1, a.2 + b.2) :: l2) q 0) /\
    agrees heap (l1 ++ (a.1, a.2 + b.2) :: l2) m m'.
Proof.
  intros Hok' Heq Hl2. unfold heap_free_merge. cbv zeta.
  pose proof Hb as [P1 P2 P3 P4 P5]. pose proof Ha as [R1 R2 R3 R4 R5].
  rewrite HEAP_MIN_SIZE_eq in *. set (ab := (a.1, a.2 + b.2)) in *.
  assert (node ab = node a + b.2) as Eab by (unfold node; simpl; lia).
  assert (out heap (l1 ++ ab :: l2)) as Ho'.
  { unfold out in *. rewrite Forall_app, Forall_cons in *. destruct Ho as (? & Hia & ?).
    split_and!; try done. unfold inside in *. simpl. lia. }
  rewrite (bind_Ret _ _ _ _ _ (load_ok _ _ _ (proj1 Hnode))).
  rewrite (bind_Ret _ _ _ _ _ (area_start_ok _ _ _ _ Ha Hnode)).
  pose proof (node_pos a Ha). assert (node a + b.2 < 2 ^ 32) by (rewrite <- Eab; unfold node, ab; simpl; unfold sizeof_heap_free_area; lia).
  rewrite !u32_area by lia.
  rewrite (proj2 (Z.eqb_neq a.1 (b.1 + b.2))) by lia. rewrite bind_bind.
  rewrite (bind_Ret _ _ _ _ _ (load_ok _ _ _ (proj2 (proj2 Hnode)))), bind_bind.
  destruct (link_free_area_ok m heap l1 ab l2 q1 _ _ h2 Hok' Ho' Hf Hb2)
    as (m' & E & Hf2 & Hb3 & Hp & Hn & _ & Ha2).
  destruct (set_size_frame m' heap l1 ab l2 _ _ _ _ (a.2 + b.2) Hok' Ho' Hf2 Hb3) as (Hf4 & Hb4 & Ha4).
  rewrite Eab in *.
  assert (exists st, (if negb (h2 =? 0) then HEAP_FREE_AREA_START h2 else mret 0) m = Ret st m /\
    negb (h2 =? 0) && (b.1 + b.2 =? st) = false) as (st & Est & Hst).
  { pose proof (areas_ok_app _ _ _ Hok) as (_ & _ & Hl2ok & _).
    rewrite (back_null _ _ _ _ Hb2 (areas_all _ Hl2ok)). destruct l2 as [|c l3]; [by exists 0|].
    apply back_cons in Hb2 as (-> & h3 & Hnode3 & _). exists c.1. apply areas_ok_cons in Hl2ok as (Hc & _).
    split; [by eapply area_start_ok|]. simpl. by apply Z.eqb_neq. }
  rewrite (bind_Ret _ _ _ _ _ Est), Hst. rewrite bind_bind, (bind_Ret _ _ _ _ _ E), bind_mret.
  rewrite (bind_Ret _ _ _ _ _ (run_store _ _ _)). eexists. split_and!; [done| |by eapply agrees_trans].
  eapply (node_linked _ heap l1 ab l2 q1 h2); rewrite ?Eab; try done.
  - by rewrite lookup_insert_ne by (unfold fa_next, fa_prev, fa_size; lia).
  - by rewrite lookup_insert_ne by (unfold fa_next, fa_prev, fa_size; lia).
  - by rewrite lookup_insert_eq.
Qed.
End Merge.

Lemma agrees_weaken heap l l' m m' :
  (forall x, out x l' -> out x l) -> agrees heap l m m' -> agrees heap l' m m'.
Proof. intros Hl Ha x Hx Ho. apply Ha; auto. Qed.

Lemma out_covers x l : out x l <-> ~ covers l x.
Proof.
  unfold out, covers. rewrite Forall_forall, Exists_exists. split.
  - intros Hf (a & Ha & Hx). by apply (Hf a).
  - intros Hn a Ha Hx. apply Hn. by exists a.
Qed.

Lemma heap_free_spec fuel heap m l b :
  heap_repr heap m l -> area_ok b -> apart b l -> ~ inside heap b -> (length l < fuel)%nat ->
  exists m' c, __heap_free fuel heap b.1 b.2 m = Ret (node c) m' /\ c ∈ spec_free b l /\
    heap_repr heap m' (spec_free b l) /\ agrees heap (b :: l) m m'.
Proof.
  intros (Hok & Ho & q & h0 & Hf & ->) Hb Hap Hout Hfuel.
  destruct (proj1 (front_back m heap [] l)) as (q0 & h & (h' & Hh & Hd) & Hbk); [by exists q|].
  destruct Hd as [-> <-]. assert (front m heap [] 0 h) as Hf0 by by exists h.
  destruct (free_loop_ok heap m b.1 l [] 0 h fuel Hok (Forall_nil_2 _) Hf0 Hbk Hfuel)
    as (l1 & l2 & q1 & h1 & El & E & Hf1 & Hb1 & Hbefore & Hhead). simpl in El. subst l.
  pose proof (spec_free_ok b _ Hok Hb Hap) as [Hok' Hc].
  assert (out heap (spec_free b (l1 ++ l2))) as Ho'.
  { apply out_covers. rewrite Hc. apply out_covers in Ho. tauto. }
  rewrite spec_free_app in * by done.
  assert (forall x, out x (b :: l1 ++ l2) -> out x (l1 ++ spec_free b l2)) as Hsub.
  { intros x. rewrite !out_covers, Hc. unfold covers. rewrite Exists_cons. tauto. }
  unfold __heap_free. rewrite (bind_Ret _ _ _ _ _ (load_ok _ _ _ Hh)), (bind_Ret _ _ _ _ _ E).
  enough (exists m' c, (start ← (if negb (h1 =? 0) then HEAP_FREE_AREA_START h1 else mret 0);
      if negb (h1 =? 0) && (start <=? u32 (b.1 + b.2)) then heap_free_merge heap q1 h1 b.1 b.2
      else __heap_add_free_area heap b.1 b.2 q1 h1) m = Ret (node c) m' /\
    c ∈ spec_free b l2 /\ (exists q, front m' heap (l1 ++ spec_free b l2) q 0) /\ agrees heap (b :: l1 ++ l2) m m')
    as (m' & c & E' & Hin & [q' Hf'] & Ha).
  { exists m', c. split_and!; [done|apply elem_of_app; by right| |done]. split_and!; [done|done|by exists q', 0]. }
  pose proof Hb as [P1 P2 P3 P4 P5]. rewrite HEAP_MIN_SIZE_eq in *. rewrite u32_area by lia.
  pose proof (areas_ok_split _ _ Hok) as (_ & Hl2 & _).
  rewrite (back_null _ _ _ _ Hb1 (areas_all _ Hl2)). destruct l2 as [|a l2].
  { cbn [negb andb]. rewrite bind_mret.
    destruct (add_free_area_ok m heap l1 b [] q1 h1 q1 h1 Hok' Ho' Hf1 Hb1) as (m' & E' & Hf' & Ha).
    exists m', b. split_and!; [done|by apply list_elem_of_singleton|done|]. by eapply agrees_weaken. }
  pose proof Hb1 as (-> & h2 & Hnode & Hb2)%back_cons. cbn [negb andb].
  apply areas_ok_cons in Hl2 as (Ha & _ & Hl2).
  rewrite (bind_Ret _ _ _ _ _ (area_start_ok _ _ _ _ Ha Hnode)).
  apply Forall_app in Hap as [_ [Hd _]%Forall_cons]. simpl in Hd.
  assert (forall x, out x (b :: l1 ++ a :: l2) -> out x (l1 ++ a :: l2)) as Hsub'.
  { intros x. unfold out. rewrite Forall_cons. tauto. }
  cbn [spec_free] in *. rewrite (proj2 (Z.ltb_ge _ _) Hhead) in *.
  pose proof Ha as [A1 A2 A3 A4 A5]. rewrite HEAP_MIN_SIZE_eq in *.
  destruct (Z.leb_spec a.1 (b.1 + b.2)) as [Hle|Hgt].
  - destruct (Z.eqb_spec (a.1 + a.2) b.1) as [Heq|Hne].
    + destruct l2 as [|c l3].
      * destruct (merge_before m heap l1 a b [] q1 h2 Hok Ho Hf1 Hnode Hb2 Hb Hout Hok' Heq I)
          as (m' & E' & Hf' & Hag). eexists m', _. split_and!; [exact E'|apply list_elem_of_here|done|by eapply agrees_weaken; [|exact Hag]].
      * destruct (Z.eqb_spec (b.1 + b.2) c.1) as [Heq'|Hne'].
        -- destruct (merge_between m heap l1 a b (c :: l3) q1 h2 Hok Ho Hf1 Hnode Hb2 Hb c l3 eq_refl Heq Heq')
             as (m' & E' & Hf' & Hag). eexists m', _. split_and!; [exact E'|apply list_elem_of_here|done|by eapply agrees_weaken; [|exact Hag]].
        -- destruct (merge_before m heap l1 a b (c :: l3) q1 h2 Hok Ho Hf1 Hnode Hb2 Hb Hout Hok' Heq Hne')
             as (m' & E' & Hf' & Hag). eexists m', _. split_and!; [exact E'|apply list_elem_of_here|done|by eapply agrees_weaken; [|exact Hag]].
    + assert (b.1 + b.2 = a.1) as Heq by lia. rewrite (proj2 (Z.eqb_eq _ _) Heq) in *.
      destruct (merge_after m heap l1 a b l2 q1 h2 Hok Ho Hf1 Hnode Hb2 Hb Hbefore Heq)
        as (m' & E' & Hf' & Hag). eexists m', _. split_and!; [exact E'|apply list_elem_of_here|done|by eapply agrees_weaken; [|exact Hag]].
  - rewrite (proj2 (Z.eqb_neq (a.1 + a.2) b.1)), (proj2 (Z.eqb_neq (b.1 + b.2) a.1)) in * by lia.
    destruct (add_free_area_ok m heap l1 b (a :: l2) q1 _ _ _ Hok' Ho' Hf1 Hb1) as (m' & E' & Hf' & Hag).
    exists m', b. split_and!; [done|apply list_elem_of_here|done|by eapply agrees_weaken; [|exact Hag]].
Qed.

(** ** Allocation at an address *)

(** Only the first area is looked at: every area is at or below an address of
    one that follows it. *)
Definition spec_alloc_at (mem n : Z) (l : list area) : option (Z * list area) :=
  match l with
  | a :: l' =>
      if (a.1 =? mem) && (n <=? a.2) then
        if a.2 <? n + HEAP_MIN_FREE_AREA_SIZE then Some (a.2, l')
        else Some (n, (a.1 + n, a.2 - n) :: l')
      else None
  | [] => None
  end.

Lemma heap_alloc_at_spec fuel heap mem size m l :
  heap_repr heap m l -> 0 < size < 2 ^ 31 - 17 -> (length l < fuel)%nat ->
  Forall (fun a => a.1 <= mem) (take 1 l) ->
  match spec_alloc_at mem ((size + 7) / 8 * 8) l with
  | Some (got, l') =>
      exists m', __heap_alloc_at fuel heap mem size m = Ret got m' /\
        (exists q, front m' heap l' q 0) /\ agrees heap l m m'
  | None => __heap_alloc_at fuel heap mem size m = Ret 0 m
  end.
Proof.
  intros (Hok & Ho & q & h0 & Hf & ->) Hs Hfuel Hmem.
  destruct (proj1 (front_back m heap [] l)) as (q0 & h & (h' & Hh & Hd) & Hbk); [by exists q|].
  destruct Hd as [-> <-]. assert (front m heap [] 0 h) as Hf0 by by exists h.
  unfold __heap_alloc_at. cbv zeta. rewrite HEAP_ADJUST_SIZE_eq by lia.
  pose proof (Z.div_mod (size + 7) 8 ltac:(lia)). pose proof (Z.mod_pos_bound (size + 7) 8 ltac:(lia)).
  set (n := (size + 7) / 8 * 8) in *. assert (0 < n < 2 ^ 31) as Hn by (unfold n; lia).
  rewrite (bind_Ret _ _ _ _ _ (load_ok _ _ _ Hh)). destruct fuel as [|fuel]; [lia|]. cbn [heap_alloc_at_loop].
  rewrite (back_null _ _ _ _ Hbk (areas_all _ Hok)). destruct l as [|a l]; [done|].
  apply back_cons in Hbk as (-> & h2 & Hnode & Hb).
  apply areas_ok_cons in Hok as Hc. destruct Hc as (Ha & _). apply Forall_cons in Hmem as [Hmem _].
  rewrite (bind_Ret _ _ _ _ _ (area_start_ok _ _ _ _ Ha Hnode)), (proj2 (Z.leb_le _ _) Hmem).
  rewrite (bind_Ret _ _ _ _ _ (load_ok _ _ _ (proj1 Hnode))). cbn [spec_alloc_at].
  destruct (_ && _); [|done].
  destruct (free_area_alloc_ok m heap [] a l 0 h2 n Hok Ho Hf0 Hnode Hb Hn) as (m' & E & Hf' & Hag).
  destruct (a.2 <? _); by exists m'.
Qed.

Lemma spec_alloc_free n l b l' :
  areas_ok l -> 0 < n -> spec_alloc n l = Some (b, l') -> spec_free b l' = l.
Proof.
  revert b l'. induction l as [|a l IH]; intros b l' Hok Hn; simpl; [done|].
  apply areas_ok_cons in Hok as (Ha & Hal & Hok). destruct (Z.leb_spec n a.2) as [Hle|Hgt].
  - destruct (Z.ltb_spec a.2 (n + HEAP_MIN_FREE_AREA_SIZE)); intros [= <- <-]; simpl.
    + destruct l as [|c l]; [done|]. apply Forall_cons in Hal as [Hac _]. unfold before in Hac.
      apply areas_ok_cons in Hok as (Hc & _). area_facts.
      rewrite (proj2 (Z.ltb_ge (c.1 + c.2) a.1)), (proj2 (Z.eqb_neq (c.1 + c.2) a.1)),
        (proj2 (Z.eqb_neq (a.1 + a.2) c.1)) by lia. done.
    + rewrite (proj2 (Z.ltb_ge (a.1 + n + (a.2 - n)) a.1)), (proj2 (Z.eqb_neq (a.1 + n + (a.2 - n)) a.1)),
        Z.eqb_refl by (area_facts; lia).
      f_equal. destruct a; simpl. f_equal. lia.
  - destruct (spec_alloc n l) as [[b' l'']|] eqn:E; [|done]. intros [= <- <-]. simpl.
    assert (before a b') as Hab.
    { clear IH Hgt. revert b' l'' E. induction l as [|c l IHl]; intros b' l''; simpl; [done|].
      apply Forall_cons in Hal as [Hac Hal]. apply areas_ok_cons in Hok as (_ & _ & Hok).
      destruct (n <=? c.2); [destruct (c.2 <? _); by intros [= <- <-]|].
      destruct (spec_alloc n l) as [[b1 l1]|] eqn:E1; [|done]. intros [= <- <-]. by eapply IHl. }
    unfold before in Hab. rewrite (proj2 (Z.ltb_lt _ _) Hab). f_equal. by apply IH.
Qed.

Lemma spec_alloc_None n l : spec_alloc n l = None -> Forall (fun a => a.2 < n) l.
Proof.
  induction l as [|a l IH]; simpl; [constructor|]. destruct (Z.leb_spec n a.2).
  - by destruct (a.2 <? _).
  - destruct (spec_alloc n l) as [[]|]; [done|]. constructor; auto.
Qed.

(** ** The claims *)

(** C35: [__heap_alloc] of a size below 2^31 - 17 (larger ones wrap,
    [heap_alloc_huge_request_wraps]) on a heap whose list represents the free
    areas [l]: when some area is large enough the block it returns has at least
    the size asked for, is aligned and was free; exactly its bytes leave the free
    memory, the list is well-formed again, and no word outside the free areas is
    written.  Otherwise it returns 0, every area is too small, and nothing is
    written.  One more turn of fuel than there are areas is enough. *)
Theorem heap_alloc_refines fuel heap size m l :
  heap_repr heap m l -> 0 <= size < 2 ^ 31 - 17 -> (length l < fuel)%nat ->
  (exists b l' m', __heap_alloc fuel heap size m = Ret b m' /\ heap_repr heap m' l' /\
     size <= b.2 /\ (8 | b.1) /\ apart b l' /\
     (forall x, covers l x <-> inside x b \/ covers l' x) /\ agrees heap l m m') \/
  (__heap_alloc fuel heap size m = Ret (0, size) m /\ Forall (fun a => a.2 < block_size size) l).
Proof.
  intros Hr Hs Hfuel. pose proof (heap_alloc_spec fuel heap size m l Hr Hs Hfuel) as Ha.
  destruct (block_size_ok size) as (B1 & B2 & B3); [lia|].
  destruct (spec_alloc (block_size size) l) as [[b l']|] eqn:E.
  - left. destruct Ha as (m' & E' & Hr' & Hag).
    destruct (spec_alloc_ok _ _ _ _ E) as (_ & Hb & Hn & Hap & Hc); try done.
    { by destruct Hr. }
    { rewrite HEAP_MIN_SIZE_eq in *. lia. }
    exists b, l', m'. split_and!; try done; [lia|by destruct Hb].
  - right. split; [done|by apply spec_alloc_None].
Qed.

(** C36: [__heap_free] of a block that shares no byte with the free areas adds
    exactly its bytes to the free memory, keeps the list sorted and without
    adjacent areas, and writes no word outside the free areas and the block. *)
Theorem heap_free_refines fuel heap m l b :
  heap_repr heap m l -> area_ok b -> apart b l -> ~ inside heap b -> (length l < fuel)%nat ->
  exists m' fa l', __heap_free fuel heap b.1 b.2 m = Ret fa m' /\ heap_repr heap m' l' /\
    (forall x, covers l' x <-> inside x b \/ covers l x) /\ agrees heap (b :: l) m m'.
Proof.
  intros Hr Hb Hap Hout Hfuel. destruct (heap_free_spec fuel heap m l b Hr Hb Hap Hout Hfuel) as (m' & c & E & _ & Hr' & Ha).
  exists m', (node c), (spec_free b l). split_and!; try done. apply spec_free_ok; try done. by destruct Hr.
Qed.

(** Freeing what was just allocated gives the heap back as it was, area by
    area: nothing is lost to fragmentation. *)
Theorem heap_free_undoes_alloc fuel heap size m l b m1 :
  heap_repr heap m l -> 0 <= size < 2 ^ 31 - 17 -> (length l < fuel)%nat ->
  __heap_alloc fuel heap size m = Ret b m1 -> b.1 <> 0 ->
  exists fa m2, __heap_free fuel heap b.1 b.2 m1 = Ret fa m2 /\ heap_repr heap m2 l.
Proof.
  intros Hr Hs Hfuel E Hb0. pose proof (heap_alloc_spec fuel heap size m l Hr Hs Hfuel) as Ha.
  destruct (block_size_ok size) as (B1 & B2 & B3); [lia|]. rewrite HEAP_MIN_SIZE_eq in *.
  destruct (spec_alloc (block_size size) l) as [[b' l']|] eqn:Ea; [|by rewrite E in Ha; simplify_eq].
  destruct Ha as (m' & E' & Hr' & _). rewrite E in E'. simplify_eq.
  assert (areas_ok l) as Hok by by destruct Hr.
  destruct (spec_alloc_ok _ _ _ _ Ea) as (_ & Hb & Hn & Hap & Hc); try done; try lia.
  assert (length l' <= length l)%nat as Hlen.
  { clear - Ea. revert b' l' Ea. induction l as [|a l IH]; intros b' l'; simpl; [done|].
    repeat case_match; try done; intros [= <- <-]; simpl; try lia. specialize (IH _ _ eq_refl). lia. }
  destruct (heap_free_spec fuel heap m' l' b' Hr' Hb Hap) as (m2 & c & E2 & _ & Hr2 & _).
  - intros Hin. destruct Hr as (_ & Ho & _). apply out_covers in Ho. apply Ho, Hc. by left.
  - lia.
  - exists (node c), m2. split; [done|]. rewrite (spec_alloc_free (block_size size) l b' l') in Hr2; [done|done|lia|done].
Qed.

(** A heap at address 64 with two areas. *)
Definition sample_areas : list area := [(128, 256); (512, 96)].
Definition sample_memory : memory :=
  <[64 := 372]> (<[372 := 256]> (<[376 := 596]> (<[380 := 0]>
  (<[596 := 96]> (<[600 := 0]> (<[604 := 372]> ∅)))))).

Lemma sample_areas_ok : areas_ok sample_areas.
Proof.
  unfold sample_areas. repeat (apply areas_ok_cons; split_and!).
  all: try (split; simpl; rewrite ?HEAP_MIN_SIZE_eq; try lia; by apply Z.mod_divide).
  all: repeat constructor; unfold before; simpl; lia.
Qed.

Lemma sample_repr : heap_repr 64 sample_memory sample_areas.
Proof.
  split; [apply sample_areas_ok|]. split; [by repeat constructor; unfold inside; simpl; lia|].
  exists 596, 0. split; [|done]. exists 372. split; [by vm_compute|].
  simpl. split_and!; try by vm_compute. exists 596. split; [by vm_compute|].
  split_and!; try by vm_compute. exists 0. by split; [vm_compute|].
Qed.

Lemma heap_alloc_refines_witness :
  (exists b l' m', __heap_alloc 3 64 100 sample_memory = Ret b m' /\ heap_repr 64 m' l' /\
     100 <= b.2 /\ (8 | b.1) /\ apart b l' /\
     (forall x, covers sample_areas x <-> inside x b \/ covers l' x) /\
     agrees 64 sample_areas sample_memory m') \/
  (__heap_alloc 3 64 100 sample_memory = Ret (0, 100) sample_memory /\
   Forall (fun a => a.2 < block_size 100) sample_areas).
Proof. apply heap_alloc_refines; [apply sample_repr|lia|simpl; lia]. Defined.

(** A block between the areas that joins the second one. *)
Lemma heap_free_refines_witness :
  exists m' fa l', __heap_free 3 64 448 64 sample_memory = Ret fa m' /\ heap_repr 64 m' l' /\
    (forall x, covers l' x <-> inside x (448, 64) \/ covers sample_areas x) /\
    agrees 64 ((448, 64) :: sample_areas) sample_memory m'.
Proof.
  apply (heap_free_refines 3 64 sample_memory sample_areas (448, 64)); [apply sample_repr| | | |simpl; lia].
  - split; simpl; rewrite ?HEAP_MIN_SIZE_eq; try lia; by apply Z.mod_divide.
  - repeat constructor; simpl; lia.
  - unfold inside. simpl. lia.
Defined.

Lemma heap_free_undoes_alloc_witness :
  exists b m1, __heap_alloc 3 64 100 sample_memory = Ret b m1 /\
  exists fa m2, __heap_free 3 64 b.1 b.2 m1 = Ret fa m2 /\ heap_repr 64 m2 sample_areas.
Proof.
  destruct (returned_Some (__heap_alloc 3 64 100 sample_memory) (128, 104)) as [m1 E]; [by vm_compute|].
  exists (128, 104), m1. split; [exact E|].
  apply (heap_free_undoes_alloc 3 64 100 sample_memory sample_areas (128, 104) m1);
    [apply sample_repr|lia|simpl; lia|exact E|done].
Defined.

(** [__heap_alloc_at] only ever looks at the lowest free area: when that
    area lies below the address asked for, the call fails, also when a free area
    of sufficient size starts exactly there. *)
Theorem heap_alloc_at_only_first fuel heap a l mem size m :
  heap_repr heap m (a :: l) -> 0 < size < 2 ^ 31 - 17 -> (length (a :: l) < fuel)%nat -> a.1 < mem ->
  __heap_alloc_at fuel heap mem size m = Ret 0 m.
Proof.
  intros Hr Hs Hfuel Hlt.
  pose proof (heap_alloc_at_spec fuel heap mem size m (a :: l) Hr Hs Hfuel) as Ha.
  cbn [spec_alloc_at] in Ha. rewrite (proj2 (Z.eqb_neq a.1 mem)) in Ha by lia. apply Ha.
  repeat constructor. lia.
Qed.

(** The second area of the sample starts at 512 and has 96 bytes. *)
Lemma heap_alloc_at_only_first_witness :
  __heap_alloc_at 3 64 512 32 sample_memory = Ret 0 sample_memory.
Proof.
  apply (heap_alloc_at_only_first 3 64 (128, 256) [(512, 96)]); [apply sample_repr|lia|simpl; lia|simpl; lia].
Defined.

(** A request of the last seven sizes of the type wraps around to 0 when
    it is rounded up: [__heap_alloc] hands out a block of fewer than 64 bytes for
    it, as if a block had been found. *)
Theorem heap_alloc_huge_request_wraps fuel heap size m a l :
  heap_repr heap m (a :: l) -> 2 ^ 32 - 7 <= size < 2 ^ 32 -> (length (a :: l) < fuel)%nat ->
  exists b m', __heap_alloc fuel heap size m = Ret b m' /\ b.1 <> 0 /\ b.2 < 64.
Proof.
  intros Hr Hs Hfuel.
  assert (HEAP_ADJUST_SIZE size = 0) as Ez.
  { assert (In size [4294967289; 4294967290; 4294967291; 4294967292; 4294967293; 4294967294; 4294967295])
      as Hin by (simpl; lia).
    simpl in Hin. destruct Hin as [<-|[<-|[<-|[<-|[<-|[<-|[<-|[]]]]]]]]; by vm_compute. }
  assert (areas_ok (a :: l)) as (Ha & _)%areas_ok_cons by by destruct Hr.
  pose proof (heap_alloc_run fuel heap size 16 m (a :: l) Hr) as Hrun. rewrite Ez in Hrun.
  specialize (Hrun eq_refl ltac:(lia) ltac:(by exists 2) ltac:(by rewrite HEAP_MIN_SIZE_eq) Hfuel).
  cbn [spec_alloc] in Hrun. destruct Ha. rewrite HEAP_MIN_SIZE_eq, HEAP_MIN_FREE_AREA_SIZE_eq in *.
  rewrite (proj2 (Z.leb_le _ _)) in Hrun by done.
  destruct (Z.ltb_spec a.2 (16 + 48)); destruct Hrun as (m' & E & _); eexists _, _; split; try exact E; simpl; lia.
Qed.

Lemma heap_alloc_huge_request_wraps_witness :
  exists b m', __heap_alloc 3 64 (2 ^ 32 - 1) sample_memory = Ret b m' /\ b.1 <> 0 /\ b.2 < 64.
Proof.
  apply (heap_alloc_huge_request_wraps 3 64 (2 ^ 32 - 1) sample_memory (128, 256) [(512, 96)]);
    [apply sample_repr|lia|simpl; lia].
Defined.
