(* ===== verification/Malloc.v ===== *)
(** * malloc, free, realloc and memalign of uClibc
    (src/uClibc/libc/stdlib/malloc: malloc.c, free.c, realloc.c, memalign.c,
    malloc.h)

    The layer over the heap, as it is configured for the board: without an MMU,
    so that memory comes from [mmap], and with the list of mapped blocks that
    works around the munmap of uClinux.  The locks have no effect in a program
    of one thread. *)

From Stdlib Require Import Sorted.
From S2P Require Import Prelude Heap HeapRefine.

Definition MALLOC_ALIGNMENT : Z := 8.
Definition MALLOC_PAGE_SIZE : Z := 4096.
Definition MALLOC_HEAP_EXTEND_SIZE : Z := MALLOC_PAGE_SIZE.
Definition MALLOC_UNMAP_THRESHOLD : Z := 8 * MALLOC_PAGE_SIZE.
Definition MALLOC_MIN_SIZE : Z := 2 * MALLOC_PAGE_SIZE.
Definition MALLOC_REALLOC_MIN_FREE_SIZE : Z := HEAP_MIN_SIZE + 16.
Definition MALLOC_HEADER_SIZE : Z := MALLOC_ALIGNMENT.

Definition MALLOC_ROUND_DOWN (sz power_of_2_size : Z) : Z :=
  Z.land sz (u32 (Z.lnot (power_of_2_size - 1))).
Definition MALLOC_ROUND_UP (sz power_of_2_size : Z) : Z :=
  MALLOC_ROUND_DOWN (u32 (sz + (power_of_2_size - 1))) power_of_2_size.
Definition MALLOC_ROUND_UP_TO_PAGE_SIZE (sz : Z) : Z := MALLOC_ROUND_UP sz MALLOC_PAGE_SIZE.

(** The memory, what the next calls of [mmap] return ([MAP_FAILED] when the
    list has ended), and the blocks given to [munmap]. *)
Record MState : Type := mkMState {
  words : memory;
  mmap_results : list Z;
  unmapped : list (Z * Z);
}.

Abbreviation MM A := (M MState A).

Definition lift {A} (m : HM A) : MM A := fun s =>
  match m (words s) with
  | Ret a w => Ret a (mkMState w (mmap_results s) (unmapped s))
  | Stop e w => Stop e (mkMState w (mmap_results s) (unmapped s))
  end.

Definition MAP_FAILED : Z := 2 ^ 32 - 1.

Definition mmap (size : Z) : MM Z := fun s =>
  match mmap_results s with
  | [] => Ret MAP_FAILED s
  | a :: l => Ret a (mkMState (words s) l (unmapped s))
  end.

Definition munmap (a size : Z) : MM unit :=
  modify (fun s => mkMState (words s) (mmap_results s) ((a, size) :: unmapped s)).

Definition MALLOC_SETUP (base size : Z) : MM Z :=
  lift (store base size) ;; mret (u32 (base + MALLOC_HEADER_SIZE)).
Definition MALLOC_SET_SIZE (base size : Z) : MM unit := lift (store base size).
Definition MALLOC_BASE (addr : Z) : Z := u32 (addr - MALLOC_HEADER_SIZE).
Definition MALLOC_SIZE (addr : Z) : MM Z := lift (load (MALLOC_BASE addr)).

(** The fields of [struct malloc_mmb]. *)
Definition mmb_mem (mmb : Z) : Z := mmb.
Definition mmb_size (mmb : Z) : Z := mmb + 4.
Definition mmb_next (mmb : Z) : Z := mmb + 8.
Definition sizeof_malloc_mmb : Z := 12.

Section Malloc.
(** The addresses of the static variables, and the fuel of the loops. *)
Context (__malloc_heap __malloc_mmb_heap __malloc_mmapped_blocks : Z) (fuel : nat).

(** The place of a block in the list of mapped blocks. *)
Fixpoint mmb_search (n : nat) (prev_mmb mmb block : Z) : HM (Z * Z) :=
  match n with
  | O => stop_with OutOfFuel
  | S n' =>
      if mmb =? 0 then mret (prev_mmb, mmb)
      else
        mem ← load (mmb_mem mmb);
        if block <? mem then mret (prev_mmb, mmb)
        else
          next ← load (mmb_next mmb);
          mmb_search n' mmb next block
  end.

(** [new_mmb->next = mmb; ...]; a null [new_mmb] is not tested for. *)
Definition mmb_insert (new_mmb prev_mmb mmb block block_size : Z) : MM unit :=
  if new_mmb =? 0 then stop_with NullPointer
  else
    lift (store (mmb_next new_mmb) mmb) ;;
    lift (store (mmb_mem new_mmb) block) ;;
    lift (store (mmb_size new_mmb) block_size) ;;
    if negb (prev_mmb =? 0) then lift (store (mmb_next prev_mmb) new_mmb)
    else lift (store __malloc_mmapped_blocks new_mmb).

(** [depth] bounds the recursion for the record of a mapped block. *)
Fixpoint malloc_from_heap (depth : nat) (size heap : Z) : MM Z :=
  match depth with
  | O => stop_with OutOfFuel
  | S depth' =>
      let size := u32 (size + MALLOC_HEADER_SIZE) in
      '(mem, size) ← lift (__heap_alloc fuel heap size);
      '(mem, size) ←
        (if mem =? 0 then
           let block_size := if size <? MALLOC_HEAP_EXTEND_SIZE then MALLOC_HEAP_EXTEND_SIZE
                             else MALLOC_ROUND_UP_TO_PAGE_SIZE size in
           block ← mmap block_size;
           if block =? MAP_FAILED then mret (mem, size)
           else
             lift (__heap_free fuel heap block block_size) ;;
             '(mem, size) ← lift (__heap_alloc fuel heap size);
             first ← lift (load __malloc_mmapped_blocks);
             '(prev_mmb, mmb) ← lift (mmb_search fuel 0 first block);
             new_mmb ← malloc_from_heap depth' sizeof_malloc_mmb __malloc_mmb_heap;
             mmb_insert new_mmb prev_mmb mmb block block_size ;;
             mret (mem, size)
         else mret (mem, size));
      if negb (mem =? 0) then MALLOC_SETUP mem size else mret mem
  end.

Definition malloc (depth : nat) (size : Z) : MM Z :=
  if size =? 0 then mret 0 else malloc_from_heap depth size __malloc_heap.

(** The walk over the mapped blocks that gives the region from [start] to
    [end_] back to the system; the result is the new [start].
    [release] frees a record. *)
Fixpoint unmap_loop (n : nat) (release : Z -> MM unit) (heap prev_mmb mmb start end_ : Z) : MM Z :=
  match n with
  | O => stop_with OutOfFuel
  | S n' =>
      if mmb =? 0 then mret start
      else
        mmb_start ← lift (load (mmb_mem mmb));
        size ← lift (load (mmb_size mmb));
        let mmb_end := u32 (mmb_start + size) in
        if end_ <? mmb_end then mret start
        else if (start <=? mmb_start)
                && ((start =? mmb_start) || (HEAP_MIN_FREE_AREA_SIZE <? mmb_start - start)) then
          next_mmb ← lift (load (mmb_next mmb));
          if negb (mmb_end =? end_) && (end_ <? u32 (mmb_end + HEAP_MIN_FREE_AREA_SIZE)) then mret start
          else
            (if negb (mmb_start =? start) then
               lift (__heap_free fuel heap start (mmb_start - start)) ;; mret tt
             else mret tt) ;;
            (if negb (prev_mmb =? 0) then lift (store (mmb_next prev_mmb) next_mmb)
             else lift (store __malloc_mmapped_blocks next_mmb)) ;;
            release mmb ;;
            munmap mmb_start size ;;
            first ← lift (load __malloc_mmapped_blocks);
            unmap_loop n' release heap 0 first mmb_end end_
        else
          next_mmb ← lift (load (mmb_next mmb));
          unmap_loop n' release heap mmb next_mmb start end_
  end.

Fixpoint free_to_heap (depth : nat) (mem heap : Z) : MM unit :=
  match depth with
  | O => stop_with OutOfFuel
  | S depth' =>
      if mem =? 0 then mret tt
      else
        size ← MALLOC_SIZE mem;
        let mem := MALLOC_BASE mem in
        fa ← lift (__heap_free fuel heap mem size);
        fa_sz ← lift (load (fa_size fa));
        if fa_sz <? MALLOC_UNMAP_THRESHOLD then mret tt
        else
          start ← lift (HEAP_FREE_AREA_START fa);
          let end_ := HEAP_FREE_AREA_END fa in
          lift (__heap_delete heap fa) ;;
          first ← lift (load (free_areas heap));
          start ← (if first =? 0 then
                     lift (__heap_free fuel heap start MALLOC_MIN_SIZE) ;;
                     mret (u32 (start + MALLOC_MIN_SIZE))
                   else mret start);
          mmb ← lift (load __malloc_mmapped_blocks);
          start ← unmap_loop fuel (fun mmb => free_to_heap depth' mmb __malloc_mmb_heap)
                    heap 0 mmb start end_;
          if negb (start =? end_) then lift (__heap_free fuel heap start (u32 (end_ - start))) ;; mret tt
          else mret tt
  end.

Definition free (depth : nat) (mem : Z) : MM unit := free_to_heap depth mem __malloc_heap.

(** [memcpy] of whole words (the sizes are multiples of the granularity); a
    word that was never written stays so. *)
Fixpoint copy_words (n : nat) (dst src : Z) : HM unit :=
  match n with
  | O => mret tt
  | S n' =>
      modify (fun m : memory => partial_alter (fun _ => m !! src) dst m) ;;
      copy_words n' (dst + 4) (src + 4)
  end.

Definition realloc (depth : nat) (mem new_size : Z) : MM Z :=
  if new_size =? 0 then free depth mem ;; mret 0
  else if mem =? 0 then malloc depth new_size
  else
    let base_mem := MALLOC_BASE mem in
    size ← MALLOC_SIZE mem;
    let new_size := HEAP_ADJUST_SIZE (u32 (new_size + MALLOC_HEADER_SIZE)) in
    if size <? new_size then
      extra ← lift (__heap_alloc_at fuel __malloc_heap (u32 (base_mem + size)) (new_size - size));
      if negb (extra =? 0) then MALLOC_SET_SIZE base_mem (u32 (size + extra)) ;; mret mem
      else
        new_mem ← malloc depth (new_size - MALLOC_HEADER_SIZE);
        (if negb (new_mem =? 0) then
           lift (copy_words (Z.to_nat ((size - MALLOC_HEADER_SIZE) / 4)) new_mem mem) ;;
           free depth mem
         else mret tt) ;;
        mret new_mem
    else if u32 (new_size + MALLOC_REALLOC_MIN_FREE_SIZE) <=? size then
      lift (__heap_free fuel __malloc_heap (u32 (base_mem + new_size)) (size - new_size)) ;;
      MALLOC_SET_SIZE base_mem new_size ;;
      mret mem
    else mret mem.

Definition memalign (depth : nat) (alignment size : Z) : MM Z :=
  let size := HEAP_ADJUST_SIZE size in
  mem ← malloc depth (u32 (size + 2 * alignment));
  if mem =? 0 then mret 0
  else if alignment <? MALLOC_ALIGNMENT then mret mem
  else
    let base := MALLOC_BASE mem in
    total ← MALLOC_SIZE mem;
    let tot_addr := mem in
    let tot_end_addr := u32 (base + total) in
    let addr := MALLOC_ROUND_UP tot_addr alignment in
    '(addr, base) ←
      (if negb (addr =? tot_addr) then
         let init_size := u32 (addr - tot_addr) in
         let '(addr, init_size) :=
           if init_size <? HEAP_MIN_SIZE then
             let addr := MALLOC_ROUND_UP (u32 (tot_addr + HEAP_MIN_SIZE)) alignment in
             (addr, u32 (addr - tot_addr))
           else (addr, init_size) in
         lift (__heap_free fuel __malloc_heap base init_size) ;;
         mret (addr, u32 (base + init_size))
       else mret (addr, base));
    let end_addr := u32 (addr + size) in
    end_addr ←
      (if u32 (end_addr + MALLOC_REALLOC_MIN_FREE_SIZE) <? tot_end_addr then
         lift (__heap_free fuel __malloc_heap end_addr (u32 (tot_end_addr - end_addr))) ;; mret end_addr
       else mret tot_end_addr);
    MALLOC_SETUP base (u32 (end_addr - base)).
End Malloc.

(** The static variables when the program starts: a heap with one area of
    [size] bytes at [fa], [HEAP_INIT_WITH_FA]. *)
Definition HEAP_DECLARE_STATIC_FREE_AREA (heap fa size : Z) (m : memory) : memory :=
  let _fa := fa + size - sizeof_heap_free_area in
  <[free_areas heap := _fa]> (<[fa_size _fa := size]> (<[fa_next _fa := 0]> (<[fa_prev _fa := 0]> m))).

Definition malloc_initial (__malloc_heap __malloc_mmb_heap __malloc_mmapped_blocks initial_fa initial_mmb_fa : Z)
    (results : list Z) : MState :=
  mkMState (<[__malloc_mmapped_blocks := 0]>
      (HEAP_DECLARE_STATIC_FREE_AREA __malloc_mmb_heap initial_mmb_fa 48
        (HEAP_DECLARE_STATIC_FREE_AREA __malloc_heap initial_fa 256 ∅)))
    results [].

(** The blocks that the list at [mmb] records. *)
Fixpoint mmb_records (n : nat) (mmb : Z) : HM (list (Z * Z)) :=
  match n with
  | O => stop_with OutOfFuel
  | S n' =>
      if mmb =? 0 then mret []
      else
        mem ← load (mmb_mem mmb);
        size ← load (mmb_size mmb);
        next ← load (mmb_next mmb);
        l ← mmb_records n' next;
        mret ((mem, size) :: l)
  end.

(** ** The heap of a program that uses its blocks *)

Lemma dseg_agree m m' p h l q n :
  Forall area_ok l -> (forall x, covers l x -> m' !! x = m !! x) ->
  dseg m p h l q n -> dseg m' p h l q n.
Proof.
  revert p h. induction l as [|a l IH]; intros p h Hok Hm; simpl; [done|].
  apply Forall_cons in Hok as [Ha Hok]. destruct (fields_inside a Ha) as (I1 & I2 & I3).
  assert (forall x, inside x a -> m' !! x = m !! x) as Hin by (intros x Hx; apply Hm; by left).
  rewrite !Hin by done. intros (-> & Hs & Hp & h' & Hn & Hd). split_and!; try done. exists h'.
  split; [done|]. apply IH; [done| |done]. intros x Hx. apply Hm. by right.
Qed.

(** The free list does not depend on the rest of the memory. *)
Lemma heap_repr_agree heap m m' l :
  heap_repr heap m l -> (forall x, x = heap \/ covers l x -> m' !! x = m !! x) -> heap_repr heap m' l.
Proof.
  intros (Hok & Ho & q & h & (h0 & Hh & Hd) & ->) Hm. split_and!; [done|done|].
  exists q, 0. split; [|done]. exists h0. unfold free_areas in *. split; [by rewrite Hm by by left|].
  eapply dseg_agree; [by destruct Hok| |done]. intros x Hx. apply Hm. by right.
Qed.

Lemma repr_size heap m l a : heap_repr heap m l -> a ∈ l -> m !! fa_size (node a) = Some a.2.
Proof.
  intros (_ & _ & q & h & (h0 & _ & Hd) & _). revert Hd. generalize 0 at 1. revert h0.
  induction l as [|c l IH]; intros h0 p Hd Ha; [by apply elem_of_nil in Ha|].
  destruct Hd as (_ & Hs & _ & h' & _ & Hd). apply elem_of_cons in Ha as [->|Ha]; [done|]. by eapply IH.
Qed.

Section Use.
Context (H B K : Z) (fuel : nat).
Implicit Types s : MState.

Lemma lift_Ret {A} (f : HM A) (a : A) s w :
  f (words s) = Ret a w -> lift f s = Ret a (mkMState w (mmap_results s) (unmapped s)).
Proof. unfold lift. by intros ->. Qed.

(** [malloc] from the memory the heap has. *)
Lemma malloc_in_heap depth size s l b l' :
  heap_repr H (words s) l -> 0 < size < 2 ^ 31 - 32 -> (length l < fuel)%nat ->
  spec_alloc (block_size (size + 8)) l = Some (b, l') ->
  exists m', malloc H B K fuel (S depth) size s =
      Ret (b.1 + 8) (mkMState m' (mmap_results s) (unmapped s)) /\
    heap_repr H m' l' /\ m' !! b.1 = Some b.2 /\ agrees H l (words s) m'.
Proof.
  intros Hr Hs Hfuel Ea.
  pose proof (heap_alloc_spec fuel H (size + 8) (words s) l Hr ltac:(lia) Hfuel) as Ha. rewrite Ea in Ha.
  destruct Ha as (m1 & E1 & Hr1 & Hag1).
  destruct (block_size_ok (size + 8)) as (B1 & B2 & B3); [lia|]. rewrite HEAP_MIN_SIZE_eq in *.
  destruct (spec_alloc_ok _ _ _ _ Ea) as (_ & Hb & Hn & Hap & Hc); try done; [by destruct Hr|lia|].
  pose proof Hb as [P1 P2 P3 P4 P5]. rewrite HEAP_MIN_SIZE_eq in *.
  assert (inside b.1 b) as Hin by (unfold inside; lia).
  assert (out b.1 l') as Hout.
  { eapply Forall_impl; [exact Hap|]. intros a Hd Hi. unfold inside in *. simpl in Hd. lia. }
  assert (covers l b.1) as Hcov by (apply Hc; by left).
  assert (b.1 <> H) as Hne.
  { intros Heq. destruct Hr as (_ & Ho & _). rewrite Heq in Hcov. by apply out_covers in Ho. }
  exists (<[b.1 := b.2]> m1). split_and!.
  - unfold malloc. rewrite (proj2 (Z.eqb_neq size 0)) by lia. cbn [malloc_from_heap].
    unfold MALLOC_HEADER_SIZE, MALLOC_ALIGNMENT. rewrite u32_area by lia.
    rewrite (bind_Ret _ _ _ _ _ (lift_Ret _ _ _ _ E1)). destruct b as [b1 b2]. simpl in *.
    rewrite (proj2 (Z.eqb_neq b1 0)) by lia. cbn [negb]. rewrite bind_mret.
    rewrite (proj2 (Z.eqb_neq b1 0)) by lia. cbn [negb]. unfold MALLOC_SETUP.
    erewrite bind_Ret by by apply lift_Ret. unfold MALLOC_HEADER_SIZE, MALLOC_ALIGNMENT. by rewrite u32_area by lia.
  - eapply heap_repr_agree; [exact Hr1|]. intros x Hx. rewrite lookup_insert_ne; [done|].
    intros Heq. rewrite <- Heq in Hx. destruct Hx as [|Hx]; [done|]. by apply out_covers in Hout.
  - by rewrite lookup_insert_eq.
  - eapply agrees_trans; [exact Hag1|]. apply agrees_insert. right. intros Ho. by apply out_covers in Ho.
Qed.
End Use.
