(* ===== verification/MallocClient.v ===== *)
(** * A program that uses malloc, free and realloc

    The guarantee of the allocator to its client: while the client keeps to
    its blocks, the blocks it holds and the free areas divide the memory of
    the heap among them without overlap and without loss, and every call
    returns.  The heap here is one whose memory stays below the threshold for
    giving memory back, and which the system does not extend. *)

From Stdlib Require Import Sorted.
From S2P Require Import Prelude Heap HeapRefine Malloc.

(** ** Areas as sets of bytes *)

Lemma covers_cons x a l : covers (a :: l) x <-> inside x a \/ covers l x.
Proof. apply Exists_cons. Qed.

Lemma covers_elem x a l : a ∈ l -> inside x a -> covers l x.
Proof. intros Ha Hx. apply Exists_exists. by exists a. Qed.

Lemma apart_bytes b l : area_ok b -> Forall area_ok l ->
  apart b l <-> forall x, inside x b -> ~ covers l x.
Proof.
  intros Hb Hl. unfold apart, covers. rewrite Forall_forall in Hl |- *. split.
  - intros Hap x Hx (a & Ha & Hi)%Exists_exists. specialize (Hap a Ha). unfold inside in *. lia.
  - intros Hno a Ha. pose proof (Hl a Ha) as Hoa. area_facts.
    destruct (decide (a.1 + a.2 <= b.1 \/ b.1 + b.2 <= a.1)) as [|Hn]; [done|exfalso].
    apply (Hno (Z.max a.1 b.1)); [unfold inside; lia|]. apply Exists_exists. exists a.
    split; [done|]. unfold inside. lia.
Qed.

(** No two areas have a byte in common. *)
Fixpoint separate (l : list area) : Prop :=
  match l with [] => True | b :: l' => apart b l' /\ separate l' end.

#[export] Instance apart_proper b : Proper ((≡ₚ) ==> iff) (apart b).
Proof. intros l l' Hl. unfold apart. by rewrite Hl. Qed.
#[export] Instance covers_proper : Proper ((≡ₚ) ==> eq ==> iff) covers.
Proof.
  intros l l' Hl x ? <-. unfold covers. rewrite !Exists_exists.
  by split; intros (a & Ha & Hx); exists a; (split; [|done]); [rewrite <- Hl|rewrite Hl].
Qed.
#[export] Instance separate_proper : Proper ((≡ₚ) ==> iff) separate.
Proof.
  intros l l' Hl. induction Hl as [|a l l' Hl IH|a b l|l1 l2 l3 _ IH1 _ IH2]; simpl; [done| | |by rewrite IH1].
  - by rewrite IH, (apart_proper a _ _ Hl).
  - unfold apart. rewrite !Forall_cons. tauto.
Qed.

Section Pool.
Context (lo hi : Z) (l : list area).
Hypothesis Hok : areas_ok l.
Hypothesis Hpool : forall x, covers l x -> lo <= x < hi.

Lemma pool_area : Forall (fun a => a.2 <= hi - lo) l.
Proof.
  apply Forall_forall. intros a Ha. destruct Hok as [Hall _]. rewrite Forall_forall in Hall.
  pose proof (Hall a Ha) as Hoa. area_facts.
  assert (lo <= a.1 < hi) by (apply Hpool, (covers_elem _ a); [done|unfold inside; lia]).
  assert (lo <= a.1 + a.2 - 1 < hi) by (apply Hpool, (covers_elem _ a); [done|unfold inside; lia]). lia.
Qed.
End Pool.

(** Every area has at least sixteen bytes of its own. *)
Lemma pool_length lo hi l : areas_ok l -> (forall x, covers l x -> lo <= x < hi) ->
  16 * Z.of_nat (length l) <= Z.max 0 (hi - lo).
Proof.
  revert lo. induction l as [|a l IH]; intros lo Hok Hpool; [simpl; lia|].
  pose proof (pool_area lo hi (a :: l) Hok Hpool) as [Hsz _]%Forall_cons.
  apply areas_ok_cons in Hok as (Ha & Hal & Hok). rewrite length_cons, Nat2Z.inj_succ.
  specialize (IH (a.1 + a.2) Hok). area_facts.
  assert (lo <= a.1 < hi) by (apply Hpool, covers_cons; left; unfold inside; lia).
  assert (lo <= a.1 + a.2 - 1 < hi) by (apply Hpool, covers_cons; left; unfold inside; lia).
  enough (16 * Z.of_nat (length l) <= Z.max 0 (hi - (a.1 + a.2))) by lia. apply IH. intros x Hx.
  assert (lo <= x < hi) by (apply Hpool, covers_cons; by right).
  apply Exists_exists in Hx as (c & Hc & Hi). rewrite Forall_forall in Hal.
  specialize (Hal c Hc). unfold before, inside in *. lia.
Qed.

(** ** Allocation at an address, complete *)

Lemma alloc_at_loop_above heap m mem size l p h fuel :
  Forall area_ok l -> back m p h l -> Forall (fun a => mem < a.1) l -> (length l < fuel)%nat ->
  heap_alloc_at_loop fuel heap h mem size m = Ret 0 m.
Proof.
  revert p h fuel. induction l as [|a l IH]; intros p h fuel Hok Hb Hab Hfuel;
    (destruct fuel as [|fuel]; [simpl in Hfuel; lia|]); cbn [heap_alloc_at_loop].
  { by destruct Hb as (q & -> & _). }
  rewrite (back_null _ _ _ _ Hb Hok). apply back_cons in Hb as (-> & h2 & Hnode & Hb).
  apply Forall_cons in Hok as [Ha Hok]. apply Forall_cons in Hab as [Hm Hab].
  rewrite (bind_Ret _ _ _ _ _ (area_start_ok _ _ _ _ Ha Hnode)), (proj2 (Z.leb_gt _ _) Hm).
  rewrite (bind_Ret _ _ _ _ _ (load_ok _ _ _ (proj2 (proj2 Hnode)))). simpl in Hfuel.
  apply (IH (node a)); try done. lia.
Qed.

Lemma heap_alloc_at_full fuel heap mem size m l :
  heap_repr heap m l -> 0 < size < 2 ^ 31 - 17 -> (8 | size) -> (length l < fuel)%nat ->
  match spec_alloc_at mem size l with
  | Some (got, l') =>
      exists m', __heap_alloc_at fuel heap mem size m = Ret got m' /\
        (exists q, front m' heap l' q 0) /\ agrees heap l m m'
  | None => __heap_alloc_at fuel heap mem size m = Ret 0 m
  end.
Proof.
  intros Hr Hs H8 Hfuel. assert ((size + 7) / 8 * 8 = size) as Esz.
  { destruct H8 as [k ->]. rewrite Z.div_add_l by lia. change (7 / 8) with 0. lia. }
  destruct (decide (Forall (fun a => a.1 <= mem) (take 1 l))) as [Hf|Hf].
  { pose proof (heap_alloc_at_spec fuel heap mem size m l Hr Hs Hfuel Hf) as Ha. by rewrite Esz in Ha. }
  destruct l as [|a l]; [by destruct Hf; constructor|].
  assert (mem < a.1) as Hlt by (apply Znot_ge_lt; intros ?; apply Hf; repeat constructor; lia).
  simpl. rewrite (proj2 (Z.eqb_neq a.1 mem)) by lia. cbn [andb].
  destruct Hr as (Hok & Ho & q & h0 & Hfr & ->).
  destruct (proj1 (front_back m heap [] (a :: l))) as (q0 & h & (h' & Hh & Hd) & Hbk); [by exists q|].
  destruct Hd as [-> <-]. unfold __heap_alloc_at. rewrite (bind_Ret _ _ _ _ _ (load_ok _ _ _ Hh)).
  eapply alloc_at_loop_above; [by destruct Hok|exact Hbk| |done].
  apply areas_ok_cons in Hok as (Ha & Hal & _). constructor; [done|].
  eapply Forall_impl; [exact Hal|]. intros c. unfold before. area_facts. lia.
Qed.

Lemma spec_alloc_at_ok mem n l got l' :
  spec_alloc_at mem n l = Some (got, l') -> areas_ok l -> 0 < n -> (8 | n) ->
  areas_ok l' /\ n <= got /\ (8 | got) /\ mem + got < 2 ^ 32 /\
  (forall x, covers l x <-> inside x (mem, got) \/ covers l' x) /\
  (forall x, inside x (mem, got) -> ~ covers l' x).
Proof.
  destruct l as [|a l]; [done|]. simpl. destruct (Z.eqb_spec a.1 mem) as [<-|]; [|done].
  destruct (Z.leb_spec n a.2); [|done]. intros Hs (Ha & Hal & Hok)%areas_ok_cons Hn H8. simpl in Hs. area_facts.
  assert (forall x, covers l x -> a.1 + a.2 < x) as Habove.
  { intros x (c & Hc & Hx)%Exists_exists. rewrite Forall_forall in Hal. specialize (Hal c Hc).
    unfold before, inside in *. lia. }
  destruct (Z.ltb_spec a.2 (n + 48)); injection Hs as <- <-.
  - split_and!; try done; intros x; [by rewrite covers_cons|].
    intros Hx Hx'%Habove. unfold inside in Hx. simpl in Hx. lia.
  - split_and!; try done; try lia.
    + apply areas_ok_cons. split_and!; [|by eapply before_weaken; [|done]; simpl; lia|done].
      new_area; [by apply Z.divide_add_r|by apply Z.divide_sub_r].
    + intros x. rewrite !covers_cons. unfold inside. simpl.
      assert (a.1 <= x < a.1 + a.2 <-> a.1 <= x < a.1 + n \/ a.1 + n <= x < a.1 + n + (a.2 - n)) by lia. tauto.
    + intros x Hx [Hx'|Hx'%Habove]%covers_cons; unfold inside in *; simpl in *; lia.
Qed.

(** ** What the allocator keeps *)

(** The memory the heap starts with: it lies between [lo] and [hi], is smaller
    than the threshold, and does not hold the variable of the heap. *)
Record pool_ok (H : Z) (fuel : nat) (l0 : list area) (lo hi : Z) : Prop := mkPoolOk {
  pool_bounds : forall x, covers l0 x -> lo <= x < hi;
  pool_small : hi - lo < MALLOC_UNMAP_THRESHOLD;
  pool_fuel : Z.max 0 (hi - lo) < 16 * Z.of_nat fuel;
  pool_heap : ~ covers l0 H;
}.

(** The free areas [l] and the blocks [live] of the client: the headers are
    intact, no byte is in two of them, and together they are the memory [l0]. *)
Record alloc_inv (H : Z) (l0 : list area) (s : MState) (l live : list area) : Prop := mkAllocInv {
  inv_repr : heap_repr H (words s) l;
  inv_blocks : Forall area_ok live;
  inv_headers : Forall (fun b => words s !! b.1 = Some b.2) live;
  inv_free : forall x, covers live x -> ~ covers l x;
  inv_separate : separate live;
  inv_all : forall x, covers l0 x <-> covers live x \/ covers l x;
  inv_mmap : mmap_results s = [];
}.

(** The bytes of a block that the client may write. *)
Definition user_bytes (b : area) (x : Z) : Prop := b.1 + MALLOC_HEADER_SIZE <= x < b.1 + b.2.

Section Keep.
Context (H B K : Z) (fuel : nat) (l0 : list area) (lo hi : Z).
Hypothesis Hpool : pool_ok H fuel l0 lo hi.
Implicit Types s : MState.

Lemma inv_areas s l live : alloc_inv H l0 s l live -> areas_ok l.
Proof. by intros [[]]. Qed.

Lemma inv_length s l live : alloc_inv H l0 s l live -> (length l < fuel)%nat.
Proof.
  intros Hi. pose proof (inv_areas _ _ _ Hi) as Hok. destruct Hpool as [Hb _ Hf _].
  pose proof (pool_length lo hi l Hok). enough (16 * Z.of_nat (length l) <= Z.max 0 (hi - lo)) by lia.
  apply H0. intros x Hx. apply Hb, (inv_all _ _ _ _ _ Hi). by right.
Qed.

Lemma inv_below l : areas_ok l -> (forall x, covers l x -> covers l0 x) ->
  Forall (fun a => a.2 < MALLOC_UNMAP_THRESHOLD) l.
Proof.
  intros Hok Hsub. destruct Hpool as [Hb Hs _ _].
  eapply Forall_impl; [apply (pool_area lo hi l Hok); auto|]. simpl. lia.
Qed.

Lemma inv_no_heap s l live : alloc_inv H l0 s l live -> ~ covers live H.
Proof. intros Hi Hc. apply (pool_heap _ _ _ _ _ Hpool), (inv_all _ _ _ _ _ Hi). by left. Qed.

(** The order of the blocks does not matter. *)
Lemma inv_perm s l live live' : live ≡ₚ live' -> alloc_inv H l0 s l live -> alloc_inv H l0 s l live'.
Proof.
  intros Hp []. split; try done; try (by rewrite <- Hp); intros x; rewrite <- (covers_proper _ _ Hp x x eq_refl); auto.
Qed.

Lemma inv_header_out s l live b : alloc_inv H l0 s l live -> b ∈ live -> b.1 <> H /\ ~ covers l b.1.
Proof.
  intros Hi Hb. pose proof (inv_no_heap _ _ _ Hi) as Hn. destruct Hi as [? Hok ? Hd].
  rewrite Forall_forall in Hok. pose proof (Hok b Hb) as Hob. area_facts.
  assert (covers live b.1) as Hc by (apply (covers_elem _ b); [done|unfold inside; lia]).
  split; [|by apply Hd]. intros Heq. by rewrite Heq in Hc.
Qed.

(** What [free] and the heap do outside the blocks leaves the headers alone. *)
Lemma headers_agree live (m m' : memory) :
  Forall area_ok live -> (forall x, covers live x -> m' !! x = m !! x) ->
  Forall (fun b => m !! b.1 = Some b.2) live -> Forall (fun b => m' !! b.1 = Some b.2) live.
Proof.
  intros Hok Hm Hh. rewrite Forall_forall in *. intros b Hb. pose proof (Hok b Hb) as Hob. area_facts.
  rewrite Hm; [by apply Hh|]. apply (covers_elem _ b); [done|unfold inside; lia].
Qed.

(** The client writes to its blocks. *)
Lemma inv_write s l live b m :
  alloc_inv H l0 s l live -> b ∈ live -> (forall x, ~ user_bytes b x -> m !! x = words s !! x) ->
  alloc_inv H l0 (mkMState m (mmap_results s) (unmapped s)) l live.
Proof.
  intros Hi Hb Hm. pose proof Hi as [Hr Hok Hh Hd Hs Ha Hmm]. unfold user_bytes, MALLOC_HEADER_SIZE, MALLOC_ALIGNMENT in Hm.
  pose proof (inv_no_heap _ _ _ Hi) as HH. split; try done; simpl.
  - eapply heap_repr_agree; [exact Hr|]. intros x Hx. apply Hm. intros Hu.
    assert (covers live x) as Hc by (apply (covers_elem _ b); [done|unfold inside; lia]).
    destruct Hx as [->|Hx]; [done|]. by apply (Hd x).
  - rewrite Forall_forall in *. intros c Hc. rewrite Hm; [by apply Hh|]. intros Hu.
    pose proof (Hok b Hb) as Hob. pose proof (Hok c Hc) as Hoc. area_facts.
    destruct (decide (b = c)) as [->|Hne]; [lia|].
    apply list_elem_of_split in Hb as (r1 & r2 & ->). rewrite <- Permutation_middle in Hs.
    destruct Hs as [Hap _]. unfold apart in Hap. rewrite Forall_forall in Hap.
    specialize (Hap c). rewrite elem_of_app in Hap, Hc. rewrite elem_of_cons in Hc.
    destruct Hap; [destruct Hc as [|[|]]; auto; congruence|lia|lia].
Qed.

(** [malloc]: a new block from the free memory, or null. *)
Lemma malloc_inv depth n s l live :
  alloc_inv H l0 s l live -> 0 < n < 2 ^ 31 - 32 ->
  exists p s', malloc H B K fuel (S depth) n s = Ret p s' /\
    ((p = 0 /\ s' = s) \/
     exists b l', p = b.1 + 8 /\ n + 8 <= b.2 /\ alloc_inv H l0 s' l' (b :: live) /\
       forall x, covers live x -> words s' !! x = words s !! x).
Proof.
  intros Hi Hn. pose proof Hi as [Hr Hok Hh Hd Hs Ha Hmm]. pose proof (inv_length _ _ _ Hi) as Hfuel.
  pose proof (inv_areas _ _ _ Hi) as Hoka. pose proof (inv_no_heap _ _ _ Hi) as HH.
  destruct (block_size_ok (n + 8)) as (B1 & B2 & B3); [lia|].
  destruct (spec_alloc (block_size (n + 8)) l) as [[b l']|] eqn:Ea.
  - destruct (malloc_in_heap H B K fuel depth n s l b l' Hr Hn Hfuel Ea) as (m' & E & Hr' & Hhd & Hag).
    destruct (spec_alloc_ok _ _ _ _ Ea) as (Hok' & Hb & Hnb & Hap & Hc); try done; [lia|].
    assert (forall x, covers live x -> m' !! x = words s !! x) as Hsame.
    { intros x Hx. apply Hag; [by intros ->|]. by apply out_covers, Hd. }
    eexists _, _. split; [exact E|]. right. exists b, l'. split_and!; [done|lia| |done].
    assert (forall x, inside x b -> ~ covers l' x) as Hbl by (by apply apart_bytes; [|destruct Hok'|]).
    split; simpl; try done.
    + by constructor.
    + constructor; [done|]. by eapply headers_agree.
    + intros x [Hx|Hx]%covers_cons; [by apply Hbl|]. intros Hx'. apply (Hd x Hx), Hc. by right.
    + split; [|done]. apply apart_bytes; try done. intros x Hx Hx'. apply (Hd x Hx'), Hc. by left.
    + intros x. rewrite covers_cons, Ha, Hc. tauto.
  - exists 0, s. split; [|by left].
    pose proof (heap_alloc_spec fuel H (n + 8) (words s) l Hr ltac:(lia) Hfuel) as E. rewrite Ea in E.
    unfold malloc. rewrite (proj2 (Z.eqb_neq n 0)) by lia. cbn [malloc_from_heap].
    unfold MALLOC_HEADER_SIZE, MALLOC_ALIGNMENT. rewrite u32_area by lia.
    rewrite (bind_Ret _ _ _ _ _ (lift_Ret _ _ _ _ E)). destruct s as [m mm um]. simpl in *. by subst mm.
Qed.

(** Part of the live memory goes back to the heap: [b] is a piece of it. *)
Lemma heap_free_inv s l live b live' :
  alloc_inv H l0 s l live -> area_ok b ->
  (forall x, covers live x <-> inside x b \/ covers live' x) ->
  (forall x, inside x b -> ~ covers live' x) ->
  exists m' c, __heap_free fuel H b.1 b.2 (words s) = Ret (node c) m' /\ c ∈ spec_free b l /\
    heap_repr H m' (spec_free b l) /\ c.2 < MALLOC_UNMAP_THRESHOLD /\
    (forall x, covers (spec_free b l) x <-> inside x b \/ covers l x) /\
    (forall x, covers live' x -> m' !! x = words s !! x).
Proof.
  intros Hi Hb Hc Hd'. pose proof Hi as [Hr Hok Hh Hd Hs Ha Hmm]. pose proof (inv_length _ _ _ Hi) as Hfuel.
  pose proof (inv_areas _ _ _ Hi) as Hoka. pose proof (inv_no_heap _ _ _ Hi) as HH.
  assert (apart b l) as Hap.
  { apply apart_bytes; [done|by destruct Hoka|]. intros x Hx. apply Hd, Hc. by left. }
  destruct (heap_free_spec fuel H (words s) l b Hr Hb Hap) as (m' & c & E & Hin & Hr' & Hag); [|done|].
  { intros Hx. apply HH, Hc. by left. }
  destruct (spec_free_ok b l Hoka Hb Hap) as [Hok' Hc'].
  exists m', c. split_and!; try done.
  - assert (forall x, covers (spec_free b l) x -> covers l0 x) as Hsub; [intros x Hx|].
    2: { pose proof (inv_below _ Hok' Hsub) as Hall. rewrite Forall_forall in Hall. by apply Hall. }
    apply Ha. apply Hc' in Hx as [Hx|Hx]; [left; apply Hc; by left|by right].
  - intros x Hx. apply Hag; [intros ->; apply HH, Hc; by right|]. apply out_covers. rewrite covers_cons.
    intros [Hx'|Hx']; [by eapply Hd'|]. apply (Hd x); [apply Hc; by right|done].
Qed.

(** [free] of a block. *)
Lemma free_inv depth s l live b :
  alloc_inv H l0 s l (b :: live) ->
  exists s', free H B K fuel (S depth) (b.1 + 8) s = Ret tt s' /\ alloc_inv H l0 s' (spec_free b l) live /\
    forall x, covers live x -> words s' !! x = words s !! x.
Proof.
  intros Hi. pose proof Hi as [Hr Hok Hh Hd [Hsb Hs] Ha Hmm].
  apply Forall_cons in Hok as [Hb Hok]. apply Forall_cons in Hh as [Hhb Hh].
  assert (forall x, inside x b -> ~ covers live x) as Hbl by by apply apart_bytes.
  destruct (heap_free_inv s l (b :: live) b live Hi Hb) as (m' & c & E & Hin & Hr' & Hlt & Hc & Hsame);
    [intros x; apply covers_cons|done|].
  exists (mkMState m' (mmap_results s) (unmapped s)). split_and!; [|split; simpl; try done|done].
  - pose proof Hb as [P1 P2 P3 P4 P5]. rewrite HEAP_MIN_SIZE_eq in *. unfold free. cbn [free_to_heap].
    rewrite (proj2 (Z.eqb_neq (b.1 + 8) 0)) by lia.
    unfold MALLOC_SIZE, MALLOC_BASE, MALLOC_HEADER_SIZE, MALLOC_ALIGNMENT.
    replace (b.1 + 8 - 8) with b.1 by lia. rewrite u32_area by lia.
    erewrite bind_Ret by by apply lift_Ret, load_ok. cbn [words].
    erewrite bind_Ret by by apply lift_Ret.
    erewrite bind_Ret by by apply lift_Ret, load_ok, (repr_size H m' _ c Hr').
    by rewrite (proj2 (Z.ltb_lt _ _) Hlt).
  - by eapply headers_agree.
  - intros x Hx [Hx'|Hx']%Hc; [by eapply Hbl|]. apply (Hd x); [|done]. apply covers_cons. by right.
  - intros x. rewrite Ha, covers_cons, Hc. tauto.
Qed.

(** ** realloc *)

Lemma copy_words_ok n dst src (m : memory) :
  dst + 4 * Z.of_nat n <= src \/ src + 4 * Z.of_nat n <= dst ->
  exists m', copy_words n dst src m = Ret tt m' /\
    (forall j, 0 <= j < Z.of_nat n -> m' !! (dst + 4 * j) = m !! (src + 4 * j)) /\
    (forall x, ~ (dst <= x < dst + 4 * Z.of_nat n) -> m' !! x = m !! x).
Proof.
  revert dst src m. induction n as [|n IH]; intros dst src m Hd.
  { exists m. split_and!; [done|lia|done]. }
  rewrite Nat2Z.inj_succ in *. cbn [copy_words]. set (m1 := partial_alter (fun _ => m !! src) dst m).
  destruct (IH (dst + 4) (src + 4) m1) as (m' & E & Hc & Ho); [lia|].
  exists m'. split_and!; [by erewrite bind_Ret| |].
  - intros j Hj. destruct (decide (j = 0)) as [->|].
    + rewrite Ho by lia. unfold m1. replace (dst + 4 * 0) with dst by lia.
      rewrite lookup_partial_alter_eq. f_equal. lia.
    + specialize (Hc (j - 1) ltac:(lia)). replace (dst + 4 + 4 * (j - 1)) with (dst + 4 * j) in Hc by lia.
      replace (src + 4 + 4 * (j - 1)) with (src + 4 * j) in Hc by lia. rewrite Hc.
      unfold m1. rewrite lookup_partial_alter_ne by lia. done.
  - intros x Hx. rewrite Ho by lia. unfold m1. by rewrite lookup_partial_alter_ne by lia.
Qed.

(** What [realloc] promises when it does not fail: a block for [n] bytes in
    place of [b], with the contents as far as both reach, and the other blocks
    as they were. *)
Definition resized (n : Z) (b : area) (live : list area) s p s' : Prop :=
  exists b' l', p = b'.1 + 8 /\ n + 8 <= b'.2 /\ alloc_inv H l0 s' l' (b' :: live) /\
    (forall x, covers live x -> words s' !! x = words s !! x) /\
    (forall j, 0 <= j -> 4 * j < Z.min n (b.2 - 8) -> words s' !! (p + 4 * j) = words s !! (b.1 + 8 + 4 * j)).

(** The block at [b.1] gets a new end: its header is written. *)
Lemma inv_resize s l live b m l' size' :
  alloc_inv H l0 s l (b :: live) -> heap_repr H m l' ->
  area_ok (b.1, size') ->
  (forall x, inside x (b.1, size') -> ~ covers live x /\ ~ covers l' x) ->
  (forall x, covers live x -> m !! x = words s !! x /\ ~ covers l' x) ->
  (forall x, inside x b \/ covers l x <-> inside x (b.1, size') \/ covers l' x) ->
  alloc_inv H l0 (mkMState (<[b.1 := size']> m) (mmap_results s) (unmapped s)) l' ((b.1, size') :: live).
Proof.
  intros Hi Hr Hb' Hd' Hsame Hall. pose proof Hi as [_ Hok Hh Hd [Hsb Hs] Ha Hmm].
  destruct (inv_header_out _ _ _ b Hi) as [HbH _]; [apply list_elem_of_here|].
  apply Forall_cons in Hok as [Hb Hok]. apply Forall_cons in Hh as [_ Hh].
  assert (inside b.1 (b.1, size')) as Hin by (area_facts; unfold inside; simpl; lia).
  split; simpl; try done.
  - eapply heap_repr_agree; [exact Hr|]. intros x Hx. rewrite lookup_insert_ne; [done|]. intros Heq.
    rewrite <- Heq in Hx. destruct Hx as [|Hx]; [done|]. by destruct (Hd' b.1 Hin).
  - by constructor.
  - constructor; [by rewrite lookup_insert_eq|]. eapply headers_agree; [done| |exact Hh]. intros x Hx.
    rewrite lookup_insert_ne; [by apply Hsame|]. intros Heq. rewrite <- Heq in Hx. by destruct (Hd' b.1 Hin).
  - intros x [Hx|Hx]%covers_cons; [by apply Hd'|by apply Hsame].
  - split; [|done]. apply apart_bytes; try done. intros x Hx. by apply Hd'.
  - intros x. specialize (Hall x). rewrite Ha, !covers_cons. tauto.
Qed.

Section Realloc.
Context (s : MState) (l live : list area) (b : area) (n new_size : Z).
Hypothesis Hi : alloc_inv H l0 s l (b :: live).
Hypothesis Hn : 0 < n < 2 ^ 31 - 64.
Hypothesis Hnew : new_size = (n + 8 + 7) / 8 * 8.

Lemma new_size_ok : (8 | new_size) /\ n + 8 <= new_size < n + 16 /\ 16 <= new_size.
Proof.
  split; [rewrite Hnew; apply Z.divide_factor_r|].
  pose proof (Z.div_mod (n + 8 + 7) 8). pose proof (Z.mod_pos_bound (n + 8 + 7) 8). lia.
Qed.

Lemma block_ok : area_ok b /\ words s !! b.1 = Some b.2 /\ b.2 < MALLOC_UNMAP_THRESHOLD /\
  (forall x, inside x b -> ~ covers live x /\ ~ covers l x /\ x <> H).
Proof.
  pose proof Hi as [_ Hok Hh Hd [Hsb _] Hall _]. apply Forall_cons in Hok as [Hb Hok]. apply Forall_cons in Hh as [Hhb _].
  split_and!; [done|done| |].
  - assert (areas_ok [b]) as Hok1 by (split; [by apply Forall_singleton|by repeat constructor]).
    assert (forall x, covers [b] x -> covers l0 x) as Hsub.
    { intros x [Hx|Hx%Exists_nil]%covers_cons; [|done]. apply Hall. left. apply covers_cons. by left. }
    by apply (inv_below _ Hok1), Forall_cons in Hsub as [Hlt _].
  - intros x Hx. split_and!; [by apply (proj1 (apart_bytes b live Hb Hok) Hsb)|apply Hd, covers_cons; by left|].
    intros ->. apply (inv_no_heap _ _ _ Hi), covers_cons. by left.
Qed.

(** The tail goes back to the heap. *)
Lemma realloc_shrinks : new_size + 32 <= b.2 ->
  exists fa m', __heap_free fuel H (b.1 + new_size) (b.2 - new_size) (words s) = Ret fa m' /\
    resized n b live s (b.1 + 8) (mkMState (<[b.1 := new_size]> m') (mmap_results s) (unmapped s)).
Proof.
  intros Hle. destruct new_size_ok as (N1 & N2 & N3). destruct block_ok as (Hb & Hhb & Hlt & Hbl).
  set (t := (b.1 + new_size, b.2 - new_size)).
  assert (area_ok t) as Ht by (pose proof Hb as []; rewrite HEAP_MIN_SIZE_eq in *; new_area;
    [by apply Z.divide_add_r|by apply Z.divide_sub_r]).
  assert (area_ok (b.1, new_size)) as Hb' by (pose proof Hb as []; rewrite HEAP_MIN_SIZE_eq in *; new_area).
  assert (forall x, inside x b <-> inside x t \/ inside x (b.1, new_size)) as Hin
    by (intros x; unfold inside, t; simpl; lia).
  destruct (heap_free_inv s l (b :: live) t ((b.1, new_size) :: live) Hi Ht) as (m' & c & E & _ & Hr' & _ & Hc & Hsame).
  { intros x. rewrite !covers_cons, Hin. tauto. }
  { intros x Hx [Hx'|Hx']%covers_cons; [unfold inside, t in *; simpl in *; lia|].
    destruct (Hbl x) as [? _]; [apply Hin; by left|done]. }
  exists (node c), m'. split; [exact E|]. exists (b.1, new_size), (spec_free t l). simpl.
  split_and!; [done|lia| | |].
  - eapply inv_resize; try done.
    + intros x Hx. destruct (Hbl x) as (? & ? & ?); [apply Hin; by right|]. split; [done|].
      rewrite Hc. intros [Hx'|]; [unfold inside, t in *; simpl in *; lia|done].
    + intros x Hx. split; [apply Hsame, covers_cons; by right|]. rewrite Hc. intros [Hx'|Hx'].
      * destruct (Hbl x) as [? _]; [apply Hin; by left|done].
      * apply (inv_free _ _ _ _ _ Hi x); [apply covers_cons; by right|done].
    + intros x. rewrite Hc, Hin. tauto.
  - intros x Hx. rewrite lookup_insert_ne; [apply Hsame, covers_cons; by right|]. intros Heq.
    destruct (Hbl x) as [? _]; [|done]. rewrite <- Heq. pose proof Hb as []. unfold inside. rewrite HEAP_MIN_SIZE_eq in *. lia.
  - intros j Hj Hlj. rewrite lookup_insert_ne by lia. apply Hsame, covers_cons. left. unfold inside. simpl. lia.
Qed.

(** The block takes the free area behind it. *)
Lemma realloc_extends got l' : b.2 < new_size -> spec_alloc_at (b.1 + b.2) (new_size - b.2) l = Some (got, l') ->
  exists m', __heap_alloc_at fuel H (b.1 + b.2) (new_size - b.2) (words s) = Ret got m' /\ 0 < got < 2 ^ 32 - b.2 /\
    resized n b live s (b.1 + 8) (mkMState (<[b.1 := b.2 + got]> m') (mmap_results s) (unmapped s)).
Proof.
  intros Hlt' Es. destruct new_size_ok as (N1 & N2 & N3). destruct block_ok as (Hb & Hhb & Hlt & Hbl).
  pose proof Hb as [P1 P2 P3 P4 P5]. rewrite HEAP_MIN_SIZE_eq in *.
  assert (8 | new_size - b.2) as H8 by by apply Z.divide_sub_r.
  pose proof (heap_alloc_at_full fuel H (b.1 + b.2) (new_size - b.2) (words s) l (inv_repr _ _ _ _ _ Hi)
    ltac:(lia) H8 (inv_length _ _ _ Hi)) as Hal. rewrite Es in Hal. destruct Hal as (m' & E & [q Hf] & Hag).
  destruct (spec_alloc_at_ok _ _ _ _ _ Es (inv_areas _ _ _ Hi) ltac:(lia) H8) as (Hok' & G1 & G2 & G3 & Hc & Hgl).
  assert (heap_repr H m' l') as Hr'.
  { split_and!; [done| |by exists q, 0]. apply out_covers. intros Hx.
    destruct (inv_repr _ _ _ _ _ Hi) as (_ & Ho & _). apply out_covers in Ho. apply Ho, Hc. by right. }
  assert (area_ok (b.1, b.2 + got)) as Hb' by (new_area; by apply Z.divide_add_r).
  assert (forall x, inside x (b.1, b.2 + got) <-> inside x b \/ inside x (b.1 + b.2, got)) as Hin
    by (intros x; unfold inside; simpl; lia).
  assert (forall x, covers (b :: live) x -> m' !! x = words s !! x) as Hsame.
  { intros x Hx. apply Hag; [intros ->; by apply (inv_no_heap _ _ _ Hi)|]. by apply out_covers, (inv_free _ _ _ _ _ Hi). }
  exists m'. split_and!; [done|lia|lia|]. exists (b.1, b.2 + got), l'. simpl. split_and!; [done|lia| | |].
  - eapply inv_resize; try done.
    + intros x [Hx|Hx]%Hin.
      * destruct (Hbl x Hx) as (? & Hnl & ?). split; [done|]. intros Hx'. apply Hnl, Hc. by right.
      * split; intros Hx'; [apply (inv_free _ _ _ _ _ Hi x); [apply covers_cons; by right|apply Hc; by left]|by apply (Hgl x)].
    + intros x Hx. split; [apply Hsame, covers_cons; by right|]. intros Hx'.
      apply (inv_free _ _ _ _ _ Hi x); [apply covers_cons; by right|apply Hc; by right].
    + intros x. rewrite Hc, Hin. tauto.
  - intros x Hx. rewrite lookup_insert_ne; [apply Hsame, covers_cons; by right|]. intros Heq.
    destruct (Hbl x) as [? _]; [|done]. rewrite <- Heq. unfold inside. lia.
  - intros j Hj Hlj. rewrite lookup_insert_ne by lia. apply Hsame, covers_cons. left. unfold inside. lia.
Qed.

(** A new block, the contents copied and the old block freed. *)
Lemma realloc_moves depth : b.2 < new_size ->
  exists p s1, malloc H B K fuel (S depth) (new_size - 8) s = Ret p s1 /\
    ((p = 0 /\ s1 = s) \/
     p <> 0 /\ exists m2 s3, copy_words (Z.to_nat ((b.2 - 8) / 4)) p (b.1 + 8) (words s1) = Ret tt m2 /\
       free H B K fuel (S depth) (b.1 + 8) (mkMState m2 (mmap_results s1) (unmapped s1)) = Ret tt s3 /\
       resized n b live s p s3).
Proof.
  intros Hlt'. destruct new_size_ok as (N1 & N2 & N3). destruct block_ok as (Hb & Hhb & Hlt & Hbl).
  pose proof Hb as [P1 P2 [k P3] P4 P5]. rewrite HEAP_MIN_SIZE_eq in *.
  assert (Z.of_nat (Z.to_nat ((b.2 - 8) / 4)) = 2 * (k - 1)) as Ek.
  { replace (b.2 - 8) with (2 * (k - 1) * 4) by lia. rewrite Z.div_mul by lia. lia. }
  destruct (malloc_inv depth (new_size - 8) s l (b :: live) Hi ltac:(lia)) as (p & s1 & E & Hm).
  exists p, s1. split; [exact E|]. destruct Hm as [?|(b' & l' & -> & Hsz & Hi1 & Hsame1)]; [by left|right].
  pose proof Hi1 as [_ Hok1 _ _ [Hsep _] _ _]. apply Forall_cons in Hok1 as [[Q1 Q2 Q3 Q4 Q5] _].
  rewrite HEAP_MIN_SIZE_eq in *. apply Forall_cons in Hsep as [Hsep _]. split; [lia|].
  destruct (copy_words_ok (Z.to_nat ((b.2 - 8) / 4)) (b'.1 + 8) (b.1 + 8) (words s1)) as (m2 & Ec & Hc & Ho); [lia|].
  assert (alloc_inv H l0 (mkMState m2 (mmap_results s1) (unmapped s1)) l' (b :: b' :: live)) as Hi2.
  { eapply inv_perm; [apply perm_swap|]. eapply inv_write; [exact Hi1|apply list_elem_of_here|].
    intros x Hx. apply Ho. unfold user_bytes, MALLOC_HEADER_SIZE, MALLOC_ALIGNMENT in Hx. lia. }
  destruct (free_inv depth _ _ _ _ Hi2) as (s3 & E3 & Hi3 & Hsame3). simpl in Hsame3.
  exists m2, s3. split_and!; [done|done|]. exists b', (spec_free b l'). split_and!; [done|lia|done| |].
  - intros x Hx. rewrite Hsame3 by (apply covers_cons; by right).
    rewrite Ho; [apply Hsame1, covers_cons; by right|]. intros Hx'.
    pose proof (inv_separate _ _ _ _ _ Hi1) as [Hap _]. pose proof (inv_blocks _ _ _ _ _ Hi1) as [Hob Hoks]%Forall_cons.
    apply (proj1 (apart_bytes b' (b :: live) Hob Hoks) Hap x); [unfold inside; lia|apply covers_cons; by right].
  - intros j Hj Hlj. rewrite Hsame3 by (apply covers_cons; left; unfold inside; lia).
    rewrite Hc by lia. apply Hsame1, covers_cons. left. unfold inside. lia.
Qed.
End Realloc.

(** [realloc] of a block. *)
Lemma realloc_inv depth n s l live b :
  alloc_inv H l0 s l (b :: live) -> 0 < n < 2 ^ 31 - 64 ->
  exists p s', realloc H B K fuel (S depth) (b.1 + 8) n s = Ret p s' /\
    ((p = 0 /\ s' = s) \/ p <> 0 /\ resized n b live s p s').
Proof.
  intros Hi Hn. set (new_size := (n + 8 + 7) / 8 * 8).
  destruct (new_size_ok n new_size Hn eq_refl) as (N1 & N2 & N3).
  destruct (block_ok s l live b Hi) as (Hb & Hhb & Hlt & Hbl).
  pose proof Hb as [P1 P2 P3 P4 P5]. rewrite HEAP_MIN_SIZE_eq in *.
  unfold realloc. rewrite (proj2 (Z.eqb_neq n 0)), (proj2 (Z.eqb_neq (b.1 + 8) 0)) by lia. cbv zeta.
  unfold MALLOC_SIZE, MALLOC_BASE, MALLOC_HEADER_SIZE, MALLOC_ALIGNMENT, MALLOC_REALLOC_MIN_FREE_SIZE, MALLOC_SET_SIZE.
  replace (b.1 + 8 - 8) with b.1 by lia. rewrite (u32_area (n + 8)), HEAP_ADJUST_SIZE_eq by lia.
  rewrite HEAP_MIN_SIZE_eq. fold new_size. rewrite !u32_area by lia.
  erewrite bind_Ret by by apply lift_Ret, load_ok. replace (mkMState _ _ _) with s by by destruct s.
  rewrite (u32_area (b.1 + b.2)) by lia. destruct (Z.ltb_spec b.2 new_size) as [Hgrow|Hge].
  - pose proof (heap_alloc_at_full fuel H (b.1 + b.2) (new_size - b.2) (words s) l (inv_repr _ _ _ _ _ Hi)
      ltac:(unfold MALLOC_UNMAP_THRESHOLD, MALLOC_PAGE_SIZE in Hlt; lia) ltac:(by apply Z.divide_sub_r) (inv_length _ _ _ Hi)) as Hal.
    destruct (spec_alloc_at (b.1 + b.2) (new_size - b.2) l) as [[got l']|] eqn:Es.
    + destruct (realloc_extends s l live b n new_size Hi Hn eq_refl got l' Hgrow Es) as (m' & E & Hgot & Hres).
      erewrite bind_Ret by by apply lift_Ret. rewrite (proj2 (Z.eqb_neq got 0)) by lia. cbn [negb].
      erewrite bind_Ret by by apply lift_Ret. cbn [words mmap_results unmapped].
      eexists _, _. split; [done|]. right. rewrite u32_area by lia. split; [lia|exact Hres].
    + erewrite bind_Ret by by apply lift_Ret. replace (mkMState _ _ _) with s by by destruct s. cbn [Z.eqb negb].
      destruct (realloc_moves s l live b n new_size Hi Hn eq_refl depth Hgrow) as (p & s1 & E & Hm).
      rewrite (bind_Ret _ _ _ _ _ E). destruct Hm as [[-> ->]|(Hp & m2 & s3 & Ec & Ef & Hres)].
      * exists 0, s. split; [done|by left].
      * rewrite (proj2 (Z.eqb_neq p 0)) by lia. cbn [negb]. exists p, s3. split; [|by right].
        erewrite bind_Ret; [done|]. erewrite bind_Ret by by apply lift_Ret. exact Ef.
  - destruct (Z.leb_spec (new_size + (16 + 16)) b.2) as [Hsh|Hk].
    + destruct (realloc_shrinks s l live b n new_size Hi Hn eq_refl) as (fa & m' & E & Hres); [lia|].
      rewrite u32_area by lia.
      erewrite bind_Ret by by apply lift_Ret. erewrite bind_Ret by by apply lift_Ret.
      eexists _, _. split; [done|]. right. split; [lia|exact Hres].
    + eexists _, s. split; [done|]. right. split; [lia|]. exists b, l. split_and!; [done|lia|done|done|done].
Qed.
End Keep.

(** ** The steps of a client *)

Section Client.
Context (H B K : Z) (fuel depth : nat).
Implicit Types (s : MState) (live : list area).

(** The state and the blocks the client holds, by their start and the size in
    their header. *)
Inductive mstep : MState * list area -> MState * list area -> Prop :=
  | step_malloc n s live p s' got :
      0 < n < 2 ^ 31 - 32 -> malloc H B K fuel (S depth) n s = Ret p s' -> p <> 0 ->
      words s' !! (p - 8) = Some got ->
      mstep (s, live) (s', (p - 8, got) :: live)
  | step_malloc_null n s live s' :
      0 < n < 2 ^ 31 - 32 -> malloc H B K fuel (S depth) n s = Ret 0 s' -> mstep (s, live) (s', live)
  | step_free s live b live' s' :
      live ≡ₚ b :: live' -> free H B K fuel (S depth) (b.1 + 8) s = Ret tt s' -> mstep (s, live) (s', live')
  | step_realloc n s live b live' p s' got :
      live ≡ₚ b :: live' -> 0 < n < 2 ^ 31 - 64 ->
      realloc H B K fuel (S depth) (b.1 + 8) n s = Ret p s' -> p <> 0 -> words s' !! (p - 8) = Some got ->
      mstep (s, live) (s', (p - 8, got) :: live')
  | step_realloc_null n s live b s' :
      b ∈ live -> 0 < n < 2 ^ 31 - 64 ->
      realloc H B K fuel (S depth) (b.1 + 8) n s = Ret 0 s' -> mstep (s, live) (s', live)
  | step_write s live b x v :
      b ∈ live -> user_bytes b x ->
      mstep (s, live) (mkMState (<[x := v]> (words s)) (mmap_results s) (unmapped s), live).

Context (l0 : list area) (lo hi : Z).
Hypothesis Hpool : pool_ok H fuel l0 lo hi.

Lemma inv_head s l live b : alloc_inv H l0 s l (b :: live) -> words s !! b.1 = Some b.2 /\ 16 <= b.2 /\ 0 < b.1.
Proof.
  intros [_ [[? ? ? Hmin ?] _]%Forall_cons [Hh _]%Forall_cons _ _ _ _]. rewrite HEAP_MIN_SIZE_eq in Hmin. auto.
Qed.

Lemma inv_new_head s l live b p got :
  alloc_inv H l0 s l (b :: live) -> p = b.1 + 8 -> words s !! (p - 8) = Some got ->
  alloc_inv H l0 s l ((p - 8, got) :: live).
Proof.
  intros Hi -> Hg. destruct (inv_head _ _ _ _ Hi) as [Hb _]. replace (b.1 + 8 - 8) with b.1 in * by lia.
  rewrite Hb in Hg. injection Hg as <-. by destruct b.
Qed.

(** Two equations for one run agree. *)
Ltac same_run E :=
  match type of E with
  | ?r = _ => match goal with E' : r = _ |- _ => lazymatch E' with E => fail | _ => rewrite E in E'; simplify_eq end end
  end.

Lemma mstep_inv s live s' live' :
  mstep (s, live) (s', live') -> (exists l, alloc_inv H l0 s l live) -> exists l', alloc_inv H l0 s' l' live'.
Proof.
  intros Hst [l Hi]. inversion Hst; subst; clear Hst.
  - destruct (malloc_inv H B K fuel l0 lo hi Hpool depth n s l live Hi) as (p' & s1 & E & Hm); [done|]. same_run E. destruct Hm as [[]|(b & l' & Ep & _ & Hi' & _)]; [done|]. exists l'. by eapply inv_new_head.
  - destruct (malloc_inv H B K fuel l0 lo hi Hpool depth n s l live' Hi) as (p' & s1 & E & Hm); [done|]. same_run E. destruct Hm as [[_ ->]|(b & l' & Ep & _ & Hi' & _)]; [by exists l|].
    destruct (inv_head _ _ _ _ Hi'). lia.
  - destruct (free_inv H B K fuel l0 lo hi Hpool depth s l live' b) as (s1 & E & Hi' & _); [by eapply inv_perm|]. same_run E. eauto.
  - destruct (realloc_inv H B K fuel l0 lo hi Hpool depth n s l live'0 b) as (p' & s1 & E & Hm); [by eapply inv_perm|done|]. same_run E. destruct Hm as [[]|(_ & b' & l' & Ep & _ & Hi' & _)]; [done|]. exists l'. by eapply inv_new_head.
  - destruct (list_elem_of_split _ _ ltac:(eassumption)) as (r1 & r2 & ->).
    destruct (realloc_inv H B K fuel l0 lo hi Hpool depth n s l (r1 ++ r2) b) as (p' & s1 & E & Hm);
      [eapply inv_perm; [symmetry; apply Permutation_middle|done]|done|]. same_run E. destruct Hm as [[_ ->]|[]]; [by exists l|done].
  - exists l. eapply inv_write; [done|done|done|]. intros y Hy. rewrite lookup_insert_ne; [done|]. by intros ->.
Qed.

Lemma msteps_inv c c' :
  rtc mstep c c' -> (exists l, alloc_inv H l0 c.1 l c.2) -> exists l, alloc_inv H l0 c'.1 l c'.2.
Proof. induction 1 as [|[s1 l1] [s2 l2] c' Hs _ IH]; [done|]. intros Hi. apply IH. by eapply mstep_inv. Qed.

Lemma mstep_reach s0 s live :
  heap_repr H (words s0) l0 -> mmap_results s0 = [] -> rtc mstep (s0, []) (s, live) ->
  exists l, alloc_inv H l0 s l live.
Proof.
  intros Hr Hm Hst. apply (msteps_inv _ _ Hst). exists l0. split; try done; try by apply Forall_nil.
  - by intros x Hx%Exists_nil.
  - intros x. split; [by right|]. by intros [Hx%Exists_nil|].
Qed.
End Client.

(** ** The claims *)

(** C37: for a heap of fixed memory, of less than 32 KB (the threshold from
    which memory would be unmapped) and that cannot grow ([mmap] fails): whatever a
    client does with [malloc], [free] and [realloc] of sizes below 2 GB (less 32,
    for [realloc] 64 bytes) and writes to the bytes it was given, its blocks stay
    aligned, disjoint and inside the memory of the heap with their headers intact;
    the free list stays well-formed; and every byte of the heap is in a block or in
    a free area, never in both: no memory is handed out twice and none is lost. *)
Theorem client_blocks_disjoint H B K fuel depth l0 lo hi s0 s live :
  pool_ok H fuel l0 lo hi -> heap_repr H (words s0) l0 -> mmap_results s0 = [] ->
  rtc (mstep H B K fuel depth) (s0, []) (s, live) ->
  separate live /\
  Forall (fun b => (8 | b.1 + MALLOC_HEADER_SIZE) /\ words s !! b.1 = Some b.2) live /\
  exists l, heap_repr H (words s) l /\
    (forall x, covers l0 x <-> covers live x \/ covers l x) /\ (forall x, covers live x -> ~ covers l x).
Proof.
  intros Hp Hr Hm Hst. destruct (mstep_reach H B K fuel depth l0 lo hi Hp s0 s live Hr Hm Hst) as [l Hi].
  pose proof Hi as [Hr' Hok Hh Hd Hs Ha _]. split_and!; [done| |by exists l].
  rewrite Forall_forall in *. intros b Hb. split; [|by apply Hh]. destruct (Hok b Hb).
  by apply Z.divide_add_r.
Qed.

(** C38: in every state a client can reach on a heap of fixed memory (less
    than 32 KB, [mmap] fails, sizes below 2 GB as above), every call returns:
    [malloc] returns a block or null (then nothing has changed), [free] of any
    block the client holds returns, and so does [realloc].  The fuel is the
    sixteenth part of the size of the heap, as each area has sixteen bytes. *)
Theorem client_calls_return H B K fuel depth l0 lo hi s0 s live :
  pool_ok H fuel l0 lo hi -> heap_repr H (words s0) l0 -> mmap_results s0 = [] ->
  rtc (mstep H B K fuel depth) (s0, []) (s, live) ->
  (forall n, 0 < n < 2 ^ 31 - 32 ->
     exists p s', malloc H B K fuel (S depth) n s = Ret p s' /\ (p = 0 -> s' = s)) /\
  (forall b, b ∈ live -> exists s', free H B K fuel (S depth) (b.1 + MALLOC_HEADER_SIZE) s = Ret tt s') /\
  (forall b n, b ∈ live -> 0 < n < 2 ^ 31 - 64 ->
     exists p s', realloc H B K fuel (S depth) (b.1 + MALLOC_HEADER_SIZE) n s = Ret p s' /\ (p = 0 -> s' = s)).
Proof.
  intros Hp Hr Hm Hst. destruct (mstep_reach H B K fuel depth l0 lo hi Hp s0 s live Hr Hm Hst) as [l Hi].
  split_and!.
  - intros n Hn. destruct (malloc_inv H B K fuel l0 lo hi Hp depth n s l live Hi Hn) as (p & s' & E & Hc).
    exists p, s'. split; [done|]. destruct Hc as [[]|(b & l' & -> & _ & Hi' & _)]; [done|].
    destruct (inv_head _ _ _ _ _ _ Hi'). lia.
  - intros b (r1 & r2 & ->)%list_elem_of_split.
    destruct (free_inv H B K fuel l0 lo hi Hp depth s l (r1 ++ r2) b) as (s' & E & _); [|by exists s'].
    eapply inv_perm; [symmetry; apply Permutation_middle|done].
  - intros b n (r1 & r2 & ->)%list_elem_of_split Hn.
    destruct (realloc_inv H B K fuel l0 lo hi Hp depth n s l (r1 ++ r2) b) as (p & s' & E & Hc);
      [eapply inv_perm; [symmetry; apply Permutation_middle|done]|done|].
    exists p, s'. split; [done|]. by destruct Hc as [[]|[]].
Qed.


(** The heap as it is linked, and the state after [malloc (40)]. *)
Definition start_state : MState := malloc_initial 64 72 80 128 384 [].
Definition state_of {A} (o : outcome MState A) : MState := match o with Ret _ s => s | Stop _ s => s end.
Definition used_state : MState := state_of (malloc 64 72 80 17 1 40 start_state).

Lemma start_pool : pool_ok 64 17 [(128, 256)] 128 384.
Proof.
  split; [|by vm_compute|lia|].
  - intros x [Hx|Hx%Exists_nil]%covers_cons; [|done]. unfold inside in Hx. simpl in Hx. lia.
  - intros [Hx|Hx%Exists_nil]%covers_cons; [|done]. unfold inside in Hx. simpl in Hx. lia.
Qed.

Lemma start_repr : heap_repr 64 (words start_state) [(128, 256)].
Proof.
  split_and!.
  - apply areas_ok_cons. split_and!; [new_area; by apply Z.mod_divide|by apply Forall_nil|by split; constructor].
  - apply Forall_singleton. unfold inside. simpl. lia.
  - exists 372, 0. split; [|done]. exists 372. split; [by vm_compute|]. simpl.
    split_and!; try by vm_compute. exists 0. by split; [vm_compute|].
Qed.

Lemma used_reach : rtc (mstep 64 72 80 17 0) (start_state, []) (used_state, [(136 - 8, 48)]).
Proof.
  apply rtc_once. apply (step_malloc 64 72 80 17 0 40); [lia|by vm_compute|lia|by vm_compute].
Qed.

Lemma client_blocks_disjoint_witness :
  separate [(128, 48)] /\
  Forall (fun b => (8 | b.1 + MALLOC_HEADER_SIZE) /\ words used_state !! b.1 = Some b.2) [(128, 48)] /\
  exists l, heap_repr 64 (words used_state) l /\
    (forall x, covers [(128, 256)] x <-> covers [(128, 48)] x \/ covers l x) /\
    (forall x, covers [(128, 48)] x -> ~ covers l x).
Proof.
  exact (client_blocks_disjoint 64 72 80 17 0 [(128, 256)] 128 384 start_state used_state [(128, 48)]
    start_pool start_repr eq_refl used_reach).
Defined.

Lemma client_calls_return_witness :
  exists p s', malloc 64 72 80 17 1 100 used_state = Ret p s' /\ (p = 0 -> s' = used_state).
Proof.
  apply (client_calls_return 64 72 80 17 0 [(128, 256)] 128 384 start_state used_state [(128, 48)]
    start_pool start_repr eq_refl used_reach). lia.
Defined.


(** ** The list of mapped blocks *)

(** Three pages that [mmap] gives out. *)
Definition pages : list Z := [65536; 131072; 196608].

Definition two_large_blocks : MM (list (Z * Z)) :=
  malloc 64 72 80 20 4 4000 ;;
  malloc 64 72 80 20 4 4000 ;;
  first ← lift (load 80);
  lift (mmb_records 20 first).

(** The list of mapped blocks does not have all of them.  The place of a new
    record is looked up before the record is allocated; when the heap of the
    records is empty, that allocation maps a page and inserts a record of it at
    the same place, which the outer call then overwrites.  Two calls of [malloc]
    of 4000 bytes at the start of a program are enough, because the first
    record takes all 48 bytes of the initial heap of records: [mmap] has given
    three pages, the list has two. *)
Theorem mmb_record_lost :
  exists s', two_large_blocks (malloc_initial 64 72 80 128 384 pages) =
    Ret [(65536, 4096); (131072, 4096)] s' /\ mmap_results s' = [].
Proof. by eexists; split; vm_compute. Qed.
