(* ===== verification/Kernel.v ===== *)
(** * The system-call interface the applications use

    The kernel is a parameter of the model of the applications: the class
    [Kernel] has one operation per system call that sercd makes, on a state
    [W] of the machine.  An operation returns its result, the value [errno]
    gets when the result is negative, and the new state; what a call writes
    through a pointer is part of the result.  [TtyKernel], [FileKernel] and
    [IoKernel] state the documented behaviour that theorems rely on. *)

From S2P Require Import Prelude Termios.

(** ** Constants of the interface *)

Definition O_RDONLY : Z := 0.
Definition O_WRONLY : Z := 1.
Definition O_RDWR : Z := 2.
Definition O_CREAT : Z := 64.
Definition O_EXCL : Z := 128.
Definition O_NOCTTY : Z := 256.
Definition O_NONBLOCK : Z := 2048.

Definition EPERM : Z := 1.
Definition ESRCH : Z := 3.
Definition EINTR : Z := 4.
Definition EWOULDBLOCK : Z := 11.
Definition EEXIST : Z := 17.

Definition TCGETS : Z := 21505.   (* 0x5401 *)
Definition TCSETS : Z := 21506.
Definition TCSETSW : Z := 21507.
Definition TCSETSF : Z := 21508.
Definition TCSBRK : Z := 21513.   (* 0x5409 *)
Definition TCXONC : Z := 21514.
Definition TCFLSH : Z := 21515.

Definition TIOCM_DTR : Z := 2.
Definition TIOCM_RTS : Z := 4.
Definition TIOCM_CTS : Z := 32.
Definition TIOCM_CAR : Z := 64.
Definition TIOCM_RNG : Z := 128.
Definition TIOCM_DSR : Z := 256.

(** ** The operations *)

Class Kernel (W : Type) : Type := {
  (* files and descriptors *)
  k_open : cstr -> Z -> Z -> W -> Z * Z * W;
  k_close : Z -> W -> Z * Z * W;
  k_read : Z -> Z -> W -> Z * Z * bytes * W;
  k_write : Z -> bytes -> W -> Z * Z * W;
  k_unlink : cstr -> W -> Z * Z * W;
  (* processes *)
  k_getpid : W -> Z;
  k_kill : Z -> Z -> W -> Z * Z * W;
  (* terminals: what [TCGETS] and [TIOCMGET] leave in the caller's variable,
     also when they fail *)
  k_tcgets : Z -> W -> Z * Z * kernel_termios * W;
  k_tcsets : Z -> Z -> kernel_termios -> W -> Z * Z * W;
  k_ioctl : Z -> Z -> Z -> W -> Z * Z * W;
  k_tiocmget : Z -> W -> Z * Z * Z * W;
  k_tiocmset : Z -> Z -> W -> Z * Z * W;
  (* sockets *)
  k_socket : W -> Z * Z * W;
  k_bind : Z -> Z -> Z -> W -> Z * Z * W;
  k_listen : Z -> Z -> W -> Z * Z * W;
  k_accept : Z -> W -> Z * Z * W;
  k_setsockopt : Z -> Z -> Z -> Z -> W -> Z * Z * W;
  (* waiting and time *)
  k_select : list Z -> list Z -> Z * Z -> W -> Z * Z * list Z * list Z * W;
  k_gettimeofday : W -> (Z * Z) * W;
  (* logging *)
  k_syslog : Z -> cstr -> W -> W;
  k_stderr : cstr -> W -> W;
  k_openlog : W -> W;
  k_closelog : W -> W;
}.

(** ** A process: [errno] and the kernel *)

Record Proc (W : Type) : Type := mkProc { errno : Z; kern : W }.
Arguments mkProc {W} errno kern.
Arguments errno {W} p.
Arguments kern {W} p.

Section Syscalls.
Context {W : Type}.

Definition set_errno (e : Z) : M (Proc W) unit :=
  modify (fun p => mkProc e (kern p)).

(** [errno] is written when the call fails. *)
Definition syscall (f : W -> Z * Z * W) : M (Proc W) Z := fun p =>
  let '(r, e, w) := f (kern p) in
  Ret r (mkProc (if r <? 0 then e else errno p) w).

(** A call that also leaves a value in the caller's memory. *)
Definition syscall_out {A} (f : W -> Z * Z * A * W) : M (Proc W) (Z * A) := fun p =>
  let '(r, e, a, w) := f (kern p) in
  Ret (r, a) (mkProc (if r <? 0 then e else errno p) w).

Definition on_kern (f : W -> W) : M (Proc W) unit :=
  modify (fun p => mkProc (errno p) (f (kern p))).
End Syscalls.

(** ** Terminals

    [tty_get w fd] are the settings of the terminal open as [fd], and
    [tty_lines w fd] its modem control lines.  The terminal accepts the
    settings it is given and changes no other terminal setting with the modem
    lines; of the lines only DTR and RTS are outputs. *)

Class TtyKernel (W : Type) `{Kernel W} : Type := {
  tty_get : W -> Z -> option kernel_termios;
  tty_lines : W -> Z -> Z;
  tty_tcgets w fd k :
    tty_get w fd = Some k ->
    exists e, k_tcgets fd w = (0, e, k, w);
  tty_tcsets w fd k cmd k' :
    tty_get w fd = Some k -> In cmd [TCSETS; TCSETSW; TCSETSF] ->
    exists e w', k_tcsets cmd fd k' w = (0, e, w') /\
      tty_get w' fd = Some k' /\ tty_lines w' fd = tty_lines w fd;
  tty_tiocmget w fd k :
    tty_get w fd = Some k ->
    exists e, k_tiocmget fd w = (0, e, tty_lines w fd, w);
  tty_tiocmset w fd k v :
    tty_get w fd = Some k ->
    exists e w', k_tiocmset fd v w = (0, e, w') /\ tty_get w' fd = Some k /\
      tty_lines w' fd =
        set_field (tty_lines w fd) (Z.lor TIOCM_DTR TIOCM_RTS)
                  (Z.land v (Z.lor TIOCM_DTR TIOCM_RTS));
  (* writing a log message does not touch a terminal *)
  tty_syslog w fd l m :
    tty_get (k_syslog l m w) fd = tty_get w fd /\
    tty_lines (k_syslog l m w) fd = tty_lines w fd;
  tty_stderr w fd m :
    tty_get (k_stderr m w) fd = tty_get w fd /\
    tty_lines (k_stderr m w) fd = tty_lines w fd;
}.

(** ** Files and processes

    [files w] are the files by name, [fd_file w fd] the name and the offset of
    an open file, [alive w] the processes that exist, [may_write w p] whether
    the name [p] can be created and removed, [may_read w p] whether a file of
    that name can be opened for reading, [has_room w] whether the disk takes
    what is written to a file.  No other process changes them during a call.  A
    process that exists can be signalled or, when it belongs to somebody else,
    the kernel refuses with EPERM. *)

Definition O_LOCK : Z := Z.lor O_CREAT (Z.lor O_WRONLY O_EXCL).

Class FileKernel (W : Type) `{Kernel W} : Type := {
  files : W -> gmap cstr bytes;
  fd_file : W -> Z -> option (cstr * Z);
  alive : W -> Z -> bool;
  may_write : W -> cstr -> bool;
  may_read : W -> cstr -> bool;
  has_room : W -> bool;
  (* the part of the state that no file operation changes *)
  file_frame (w w' : W) : Prop :=
    alive w' = alive w /\ may_write w' = may_write w /\ k_getpid w' = k_getpid w /\
    may_read w' = may_read w /\ has_room w' = has_room w;
  file_open_excl_exists w p m c :
    files w !! p = Some c -> k_open p O_LOCK m w = (-1, EEXIST, w);
  file_open_excl_new w p m :
    files w !! p = None -> may_write w p = true ->
    exists fd e w', k_open p O_LOCK m w = (fd, e, w') /\ 0 <= fd /\
      files w' = <[p := []]> (files w) /\ fd_file w' fd = Some (p, 0) /\ file_frame w w';
  file_open_excl_denied w p m :
    files w !! p = None -> may_write w p = false ->
    exists e, k_open p O_LOCK m w = (-1, e, w) /\ e <> EEXIST;
  file_open_read w p m c :
    files w !! p = Some c -> may_read w p = true ->
    exists fd e w', k_open p O_RDONLY m w = (fd, e, w') /\ 0 <= fd /\
      files w' = files w /\ fd_file w' fd = Some (p, 0) /\ file_frame w w';
  file_open_read_denied w p m c :
    files w !! p = Some c -> may_read w p = false ->
    exists e, k_open p O_RDONLY m w = (-1, e, w);
  file_read w fd p n c :
    fd_file w fd = Some (p, 0) -> files w !! p = Some c -> 0 <= n ->
    exists e w', k_read fd n w =
        (Z.of_nat (length (take (Z.to_nat n) c)), e, take (Z.to_nat n) c, w') /\
      files w' = files w /\ file_frame w w';
  file_write w fd p bs :
    fd_file w fd = Some (p, 0) -> files w !! p = Some [] -> has_room w = true ->
    exists e w', k_write fd bs w = (Z.of_nat (length bs), e, w') /\
      files w' = <[p := bs]> (files w) /\ file_frame w w';
  file_write_short w fd p bs :
    fd_file w fd = Some (p, 0) -> files w !! p = Some [] -> has_room w = false -> bs <> [] ->
    exists n e w', k_write fd bs w = (n, e, w') /\ -1 <= n < Z.of_nat (length bs) /\
      files w' = <[p := take (Z.to_nat n) bs]> (files w) /\ file_frame w w';
  file_close w fd :
    exists r e w', k_close fd w = (r, e, w') /\ files w' = files w /\ file_frame w w';
  file_unlink w p c :
    files w !! p = Some c -> may_write w p = true ->
    exists e w', k_unlink p w = (0, e, w') /\ files w' = delete p (files w) /\
      file_frame w w';
  file_unlink_denied w p c :
    files w !! p = Some c -> may_write w p = false ->
    exists e, k_unlink p w = (-1, e, w);
  file_kill w pid :
    0 < pid ->
    exists r e w', k_kill pid 0 w = (r, e, w') /\
      (if alive w pid then r = 0 \/ r = -1 /\ e = EPERM else r = -1 /\ e = ESRCH) /\
      files w' = files w /\ file_frame w w';
  file_syslog w l m :
    files (k_syslog l m w) = files w /\ file_frame w (k_syslog l m w);
  file_stderr w m :
    files (k_stderr m w) = files w /\ file_frame w (k_stderr m w);
}.

(** ** Input and output

    A [read] stores at most the bytes asked for, a [write] accepts at most the
    bytes it is given; [select] only reports descriptors it was asked about. *)

Class IoKernel (W : Type) `{Kernel W} : Prop := {
  io_read w fd n r e bs w' :
    0 <= n -> k_read fd n w = (r, e, bs, w') ->
    -1 <= r <= n /\ (0 <= r -> Z.of_nat (length bs) = r) /\ (r < 0 -> bs = []);
  io_write w fd bs r e w' :
    k_write fd bs w = (r, e, w') -> -1 <= r <= Z.of_nat (length bs);
  io_select w rd wr t r e rd' wr' w' :
    k_select rd wr t w = (r, e, rd', wr', w') ->
    (forall fd, In fd rd' -> In fd rd) /\ (forall fd, In fd wr' -> In fd wr);
}.
