(* ===== verification/SimKernel.v ===== *)
(** * A concrete machine

    A deterministic kernel that implements [Kernel] and satisfies the three
    classes of laws: regular files, character devices that are terminals,
    processes, and descriptors whose input and output follow a script.  It
    shows that the laws are consistent and lets theorems about an arbitrary
    kernel be evaluated on concrete runs. *)

From S2P Require Import Prelude Termios Kernel.

Definition ENOENT : Z := 2.
Definition EBADF : Z := 9.
Definition EACCES : Z := 13.
Definition ENOTTY : Z := 25.
Definition ENOSPC : Z := 28.

(** What the machine refuses: names that cannot be created or removed, names
    that cannot be read, whether the disk is full, and the processes that belong
    to somebody else. *)
Record Limits : Type := mkLimits {
  lim_ro : list cstr;
  lim_hidden : list cstr;
  lim_full : bool;
  lim_foreign : list Z;
}.

Definition no_limits : Limits := mkLimits [] [] false [].

Record Sim : Type := mkSim {
  sim_files : gmap cstr bytes;             (* regular files *)
  sim_fds : gmap Z (cstr * Z);             (* open regular files *)
  sim_devs : gmap cstr kernel_termios;     (* terminals by name *)
  sim_ttys : gmap Z kernel_termios;        (* open terminals *)
  sim_lines : gmap Z Z;                    (* modem lines *)
  sim_pid : Z;
  sim_alive : list Z;
  sim_limits : Limits;
  sim_next : Z;                            (* next descriptor, minus 3 *)
  sim_in : list (Z + bytes);               (* results of [read]: errno or data *)
  sim_wr : list (Z + Z);                   (* results of [write]: errno or count *)
  sim_out : list (Z * bytes);              (* what was written, latest first *)
  sim_sel : list (list Z * list Z);        (* results of [select] *)
  sim_acc : list Z;                        (* results of [accept] *)
  sim_time : list (Z * Z);                 (* results of [gettimeofday] *)
  sim_log : list cstr;                     (* log messages, latest first *)
}.

Definition sim_set_files f w := mkSim f (sim_fds w) (sim_devs w) (sim_ttys w) (sim_lines w)
  (sim_pid w) (sim_alive w) (sim_limits w) (sim_next w) (sim_in w) (sim_wr w) (sim_out w)
  (sim_sel w) (sim_acc w) (sim_time w) (sim_log w).
Definition sim_set_fds f n w := mkSim (sim_files w) f (sim_devs w) (sim_ttys w) (sim_lines w)
  (sim_pid w) (sim_alive w) (sim_limits w) n (sim_in w) (sim_wr w) (sim_out w)
  (sim_sel w) (sim_acc w) (sim_time w) (sim_log w).
Definition sim_set_ttys t n w := mkSim (sim_files w) (sim_fds w) (sim_devs w) t (sim_lines w)
  (sim_pid w) (sim_alive w) (sim_limits w) n (sim_in w) (sim_wr w) (sim_out w)
  (sim_sel w) (sim_acc w) (sim_time w) (sim_log w).
Definition sim_set_lines l w := mkSim (sim_files w) (sim_fds w) (sim_devs w) (sim_ttys w) l
  (sim_pid w) (sim_alive w) (sim_limits w) (sim_next w) (sim_in w) (sim_wr w) (sim_out w)
  (sim_sel w) (sim_acc w) (sim_time w) (sim_log w).
Definition sim_set_io i wr o w := mkSim (sim_files w) (sim_fds w) (sim_devs w) (sim_ttys w)
  (sim_lines w) (sim_pid w) (sim_alive w) (sim_limits w) (sim_next w) i wr o
  (sim_sel w) (sim_acc w) (sim_time w) (sim_log w).
Definition sim_set_events se ac ti lg w := mkSim (sim_files w) (sim_fds w) (sim_devs w)
  (sim_ttys w) (sim_lines w) (sim_pid w) (sim_alive w) (sim_limits w) (sim_next w) (sim_in w)
  (sim_wr w) (sim_out w) se ac ti lg.

Definition sim_fd (w : Sim) : Z := Z.abs (sim_next w) + 3.

Definition sim_open (p : cstr) (flags mode : Z) (w : Sim) : Z * Z * Sim :=
  let fd := sim_fd w in
  let with_fd w' := sim_set_fds (<[fd := (p, 0)]> (sim_fds w')) (Z.abs (sim_next w) + 1) w' in
  if flags =? O_LOCK then
    match sim_files w !! p with
    | Some _ => (-1, EEXIST, w)
    | None =>
        if decide (p ∈ lim_ro (sim_limits w)) then (-1, EACCES, w)
        else (fd, 0, with_fd (sim_set_files (<[p := []]> (sim_files w)) w))
    end
  else if flags =? O_RDONLY then
    match sim_files w !! p with
    | Some _ =>
        if decide (p ∈ lim_hidden (sim_limits w)) then (-1, EACCES, w) else (fd, 0, with_fd w)
    | None => (-1, ENOENT, w)
    end
  else
    match sim_devs w !! p with
    | Some k => (fd, 0, sim_set_ttys (<[fd := k]> (sim_ttys w)) (Z.abs (sim_next w) + 1) w)
    | None => (-1, ENOENT, w)
    end.

Definition sim_close (fd : Z) (w : Sim) : Z * Z * Sim :=
  (0, 0, sim_set_ttys (delete fd (sim_ttys w)) (sim_next w)
           (sim_set_fds (delete fd (sim_fds w)) (sim_next w) w)).

Definition sim_read (fd n : Z) (w : Sim) : Z * Z * bytes * Sim :=
  match sim_fds w !! fd with
  | Some (p, o) =>
      match sim_files w !! p with
      | Some c =>
          let bs := take (Z.to_nat n) (drop (Z.to_nat o) c) in
          (Z.of_nat (length bs), 0, bs,
           sim_set_fds (<[fd := (p, o + Z.of_nat (length bs))]> (sim_fds w)) (sim_next w) w)
      | None => (-1, EBADF, [], w)
      end
  | None =>
      match sim_in w with
      | [] => (0, 0, [], w)
      | inl e :: i => (-1, e, [], sim_set_io i (sim_wr w) (sim_out w) w)
      | inr d :: i =>
          let bs := take (Z.to_nat n) d in
          (Z.of_nat (length bs), 0, bs, sim_set_io i (sim_wr w) (sim_out w) w)
      end
  end.

Definition sim_write (fd : Z) (bs : bytes) (w : Sim) : Z * Z * Sim :=
  match sim_fds w !! fd with
  | Some (p, o) =>
      if lim_full (sim_limits w) then (-1, ENOSPC, w)
      else
        (Z.of_nat (length bs), 0,
         sim_set_files (<[p := take (Z.to_nat o) (default [] (sim_files w !! p)) ++ bs]> (sim_files w))
           (sim_set_fds (<[fd := (p, o + Z.of_nat (length bs))]> (sim_fds w)) (sim_next w) w))
  | None =>
      match sim_wr w with
      | inl e :: l => (-1, e, sim_set_io (sim_in w) l (sim_out w) w)
      | inr c :: l =>
          let bs' := take (Z.to_nat c) bs in
          (Z.of_nat (length bs'), 0, sim_set_io (sim_in w) l ((fd, bs') :: sim_out w) w)
      | [] => (Z.of_nat (length bs), 0, sim_set_io (sim_in w) [] ((fd, bs) :: sim_out w) w)
      end
  end.

Definition sim_unlink (p : cstr) (w : Sim) : Z * Z * Sim :=
  match sim_files w !! p with
  | Some _ =>
      if decide (p ∈ lim_ro (sim_limits w)) then (-1, EACCES, w)
      else (0, 0, sim_set_files (delete p (sim_files w)) w)
  | None => (-1, ENOENT, w)
  end.

Definition sim_kill (pid sig : Z) (w : Sim) : Z * Z * Sim :=
  if bool_decide (pid ∈ sim_alive w) then
    if bool_decide (pid ∈ lim_foreign (sim_limits w)) then (-1, EPERM, w) else (0, 0, w)
  else (-1, ESRCH, w).

Definition sim_blank : kernel_termios := kernel_of_termios (mkTermios 0 0 0 0 0 [] 0 0).

Definition sim_tcgets (fd : Z) (w : Sim) : Z * Z * kernel_termios * Sim :=
  match sim_ttys w !! fd with
  | Some k => (0, 0, k, w)
  | None => (-1, ENOTTY, sim_blank, w)
  end.

Definition sim_tcsets (cmd fd : Z) (k : kernel_termios) (w : Sim) : Z * Z * Sim :=
  match sim_ttys w !! fd with
  | Some _ => (0, 0, sim_set_ttys (<[fd := k]> (sim_ttys w)) (sim_next w) w)
  | None => (-1, ENOTTY, w)
  end.

Definition sim_line (w : Sim) (fd : Z) : Z := default 0 (sim_lines w !! fd).

Definition sim_tiocmget (fd : Z) (w : Sim) : Z * Z * Z * Sim := (0, 0, sim_line w fd, w).

Definition sim_tiocmset (fd v : Z) (w : Sim) : Z * Z * Sim :=
  let m := Z.lor TIOCM_DTR TIOCM_RTS in
  (0, 0, sim_set_lines (<[fd := set_field (sim_line w fd) m (Z.land v m)]> (sim_lines w)) w).

Definition sim_select (rd wr : list Z) (t : Z * Z) (w : Sim) : Z * Z * list Z * list Z * Sim :=
  match sim_sel w with
  | [] => (0, 0, [], [], w)
  | (r, o) :: l =>
      let r' := filter (fun fd => fd ∈ rd) r in
      let o' := filter (fun fd => fd ∈ wr) o in
      (Z.of_nat (length r' + length o'), 0, r', o',
       sim_set_events l (sim_acc w) (sim_time w) (sim_log w) w)
  end.

Definition sim_note (m : cstr) (w : Sim) : Sim :=
  sim_set_events (sim_sel w) (sim_acc w) (sim_time w) (m :: sim_log w) w.

Definition sim_accept (fd : Z) (w : Sim) : Z * Z * Sim :=
  match sim_acc w with
  | [] => (-1, EWOULDBLOCK, w)
  | c :: l => (c, 0, sim_set_events (sim_sel w) l (sim_time w) (sim_log w) w)
  end.

Definition sim_gettimeofday (w : Sim) : (Z * Z) * Sim :=
  match sim_time w with
  | [] => ((0, 0), w)
  | t :: l => (t, sim_set_events (sim_sel w) (sim_acc w) l (sim_log w) w)
  end.

#[global] Instance sim_kernel : Kernel Sim := {
  k_open := sim_open;
  k_close := sim_close;
  k_read := sim_read;
  k_write := sim_write;
  k_unlink := sim_unlink;
  k_getpid := sim_pid;
  k_kill := sim_kill;
  k_tcgets := sim_tcgets;
  k_tcsets := sim_tcsets;
  k_ioctl := fun _ _ _ w => (0, 0, w);
  k_tiocmget := sim_tiocmget;
  k_tiocmset := sim_tiocmset;
  k_socket := fun w => (sim_fd w, 0, sim_set_fds (sim_fds w) (Z.abs (sim_next w) + 1) w);
  k_bind := fun _ _ _ w => (0, 0, w);
  k_listen := fun _ _ w => (0, 0, w);
  k_accept := sim_accept;
  k_setsockopt := fun _ _ _ _ w => (0, 0, w);
  k_select := sim_select;
  k_gettimeofday := sim_gettimeofday;
  k_syslog := fun _ m w => sim_note m w;
  k_stderr := sim_note;
  k_openlog := fun w => w;
  k_closelog := fun w => w;
}.

#[global] Program Instance sim_tty : TtyKernel Sim := {
  tty_get := fun w fd => sim_ttys w !! fd;
  tty_lines := sim_line;
}.
Next Obligation. intros w fd k Hk. simpl. unfold sim_tcgets. rewrite Hk. eauto. Qed.
Next Obligation.
  intros w fd k cmd k' Hk _. simpl. unfold sim_tcsets. rewrite Hk.
  do 2 eexists. split_and!; [done| |done]. simpl. by rewrite lookup_insert_eq.
Qed.
Next Obligation. intros w fd k Hk. simpl. unfold sim_tiocmget. eauto. Qed.
Next Obligation.
  intros w fd k v Hk. simpl. unfold sim_tiocmset. do 2 eexists. split_and!; [done|done|].
  unfold sim_line at 1. simpl. by rewrite lookup_insert_eq.
Qed.
Next Obligation. done. Qed.
Next Obligation. done. Qed.

#[global] Program Instance sim_file : FileKernel Sim := {
  files := sim_files;
  fd_file := fun w fd => sim_fds w !! fd;
  alive := fun w pid => bool_decide (pid ∈ sim_alive w);
  may_write := fun w p => bool_decide (p ∉ lim_ro (sim_limits w));
  may_read := fun w p => bool_decide (p ∉ lim_hidden (sim_limits w));
  has_room := fun w => negb (lim_full (sim_limits w));
}.
Next Obligation. intros w p m c Hc. simpl. unfold sim_open. simpl. by rewrite Hc. Qed.
Next Obligation.
  intros w p m Hc Hw%bool_decide_eq_true. simpl. unfold sim_open. simpl. rewrite Hc.
  rewrite decide_False by done. do 3 eexists. split_and!; [done|unfold sim_fd; lia|done| |done..].
  simpl. by rewrite lookup_insert_eq.
Qed.
Next Obligation.
  intros w p m Hc Hw%bool_decide_eq_false. simpl. unfold sim_open. simpl. rewrite Hc.
  rewrite decide_True by by apply dec_stable. by eexists.
Qed.
Next Obligation.
  intros w p m c Hc Hr%bool_decide_eq_true. simpl. unfold sim_open. simpl. rewrite Hc.
  rewrite decide_False by done. do 3 eexists. split_and!; [done|unfold sim_fd; lia|done| |done..].
  simpl. by rewrite lookup_insert_eq.
Qed.
Next Obligation.
  intros w p m c Hc Hr%bool_decide_eq_false. simpl. unfold sim_open. simpl. rewrite Hc.
  rewrite decide_True by by apply dec_stable. by eexists.
Qed.
Next Obligation.
  intros w fd p n c Hfd Hc Hn. simpl. unfold sim_read. rewrite Hfd, Hc. simpl. rewrite drop_0.
  do 2 eexists. by split_and!.
Qed.
Next Obligation.
  intros w fd p bs Hfd Hc Hr%negb_true_iff. simpl. unfold sim_write. rewrite Hfd, Hr, Hc. simpl.
  do 2 eexists. split_and!; try done. simpl. by rewrite Hr.
Qed.
Next Obligation.
  intros w fd p bs Hfd Hc Hr%negb_false_iff Hb. simpl. unfold sim_write. rewrite Hfd, Hr.
  do 3 eexists. split_and!; try done; [destruct bs; simpl; [done|lia]|by rewrite insert_id|by rewrite Hr].
Qed.
Next Obligation. intros w fd. simpl. unfold sim_close. do 3 eexists. by split_and!. Qed.
Next Obligation.
  intros w p c Hc Hw%bool_decide_eq_true. simpl. unfold sim_unlink. rewrite Hc.
  rewrite decide_False by done. do 2 eexists. by split_and!.
Qed.
Next Obligation.
  intros w p c Hc Hw%bool_decide_eq_false. simpl. unfold sim_unlink. rewrite Hc.
  rewrite decide_True by by apply dec_stable. by eexists.
Qed.
Next Obligation.
  intros w pid Hp. simpl. unfold sim_kill.
  repeat case_bool_decide; do 3 eexists; split_and!; try done; auto.
Qed.
Next Obligation. intros w l m. by split_and!. Qed.
Next Obligation. intros w m. by split_and!. Qed.

#[global] Instance sim_io : IoKernel Sim.
Proof.
  split.
  - intros w fd n r e bs w' Hn. simpl. unfold sim_read.
    repeat case_match; intros [= <- <- <- <-]; rewrite ?length_take; simpl; split_and!; try done; lia.
  - intros w fd bs r e w'. simpl. unfold sim_write.
    repeat case_match; intros [= <- <- <-]; rewrite ?length_take; lia.
  - intros w rd wr t r e rd' wr' w'. simpl. unfold sim_select.
    repeat case_match; intros [= <- <- <- <- <-]; split; intros fd; simpl; try done;
      rewrite <- !list_elem_of_In, list_elem_of_filter; by intros [].
Qed.

(** A machine with one terminal open as descriptor 3 and nothing else. *)
Definition sim_idle (k : kernel_termios) : Sim :=
  mkSim ∅ ∅ ∅ {[3 := k]} {[3 := 0]} 100 [100] no_limits 1 [] [] [] [] [] [] [].
