(* ===== verification/LibcTty.v ===== *)
(** * Terminal calls of uClibc (src/uClibc/libc/termios)

    [tcgetattr], [tcsetattr] and the functions of termios.c that are one
    [ioctl] each, on a process state of [Kernel]. *)

From S2P Require Import Prelude Termios Kernel.

Section LibcTty.
Context {W : Type} `{Kernel W}.

(** The structure [*termios_p] points to is the argument and part of the
    result. *)
Definition tcgetattr (fd : Z) (termios_p : termios) : M (Proc W) (Z * termios) :=
  '(retval, k_termios) ← syscall_out (k_tcgets fd);
  mret (retval, termios_of_kernel k_termios termios_p).

(** The kernel silently ignored some of the requested flags. *)
Definition cflag_ignored (t : termios) (k : kernel_termios) : bool :=
  negb (Z.land (c_cflag t) (Z.lor PARENB CREAD) =? Z.land (k_cflag k) (Z.lor PARENB CREAD))
  || (negb (Z.land (c_cflag t) CSIZE =? 0) &&
      negb (Z.land (c_cflag t) CSIZE =? Z.land (k_cflag k) CSIZE)).

Definition tcsetattr (fd optional_actions : Z) (t : termios) : M (Proc W) Z :=
  match
    (if optional_actions =? TCSANOW then Some TCSETS
     else if optional_actions =? TCSADRAIN then Some TCSETSW
     else if optional_actions =? TCSAFLUSH then Some TCSETSF
     else None)
  with
  | None => set_errno EINVAL ;; mret (-1)
  | Some cmd =>
      retval ← syscall (k_tcsets cmd fd (kernel_of_termios t));
      if (retval =? 0) && (cmd =? TCSETS) then
        save ← gets errno;
        '(retval, k_termios) ← syscall_out (k_tcgets fd);
        if negb (retval =? 0) then set_errno save ;; mret 0
        else if cflag_ignored t k_termios then set_errno EINVAL ;; mret (-1)
        else mret retval
      else mret retval
  end.

Definition isatty (fd : Z) : M (Proc W) bool :=
  '(r, _) ← tcgetattr fd (mkTermios 0 0 0 0 0 [] 0 0);
  mret (r =? 0).

Definition tcdrain (fd : Z) : M (Proc W) Z := syscall (k_ioctl fd TCSBRK 1).

Definition tcflow (fd action : Z) : M (Proc W) Z := syscall (k_ioctl fd TCXONC action).

Definition tcflush (fd queue_selector : Z) : M (Proc W) Z :=
  syscall (k_ioctl fd TCFLSH queue_selector).

Definition tcsendbreak (fd duration : Z) : M (Proc W) Z :=
  if duration <=? 0 then syscall (k_ioctl fd TCSBRK 0)
  else set_errno EINVAL ;; mret (-1).

(** On a terminal that obeys [TtyKernel]. *)
Section Laws.
Context `{!TtyKernel W}.

Lemma tcgetattr_tty p fd k old :
  tty_get (kern p) fd = Some k ->
  tcgetattr fd old p = Ret (0, termios_of_kernel k old) p.
Proof.
  intros Hk. destruct (tty_tcgets _ _ _ Hk) as [e He].
  unfold tcgetattr, syscall_out, mbind, M_bind. rewrite He. by destruct p.
Qed.

Lemma tcsetattr_drain_tty p fd k t :
  tty_get (kern p) fd = Some k ->
  exists p', tcsetattr fd TCSADRAIN t p = Ret 0 p' /\
    tty_get (kern p') fd = Some (kernel_of_termios t) /\
    tty_lines (kern p') fd = tty_lines (kern p) fd.
Proof.
  intros Hk. destruct (tty_tcsets _ _ _ TCSETSW (kernel_of_termios t) Hk)
    as (e & w' & He & Hg & Hl); [simpl; auto|].
  unfold tcsetattr. simpl. unfold syscall, mbind, M_bind. rewrite He. simpl. eauto.
Qed.

Lemma cflag_ignored_same t : cflag_ignored t (kernel_of_termios t) = false.
Proof. unfold cflag_ignored, kernel_of_termios. simpl. by rewrite !Z.eqb_refl, andb_false_r. Qed.

Lemma tcsetattr_now_tty p fd k t :
  tty_get (kern p) fd = Some k ->
  exists p', tcsetattr fd TCSANOW t p = Ret 0 p' /\
    tty_get (kern p') fd = Some (kernel_of_termios t) /\
    tty_lines (kern p') fd = tty_lines (kern p) fd.
Proof.
  intros Hk. destruct (tty_tcsets _ _ _ TCSETS (kernel_of_termios t) Hk)
    as (e & w' & He & Hg & Hl); [simpl; auto|].
  destruct (tty_tcgets _ _ _ Hg) as [e' He'].
  unfold tcsetattr. simpl. unfold syscall, syscall_out, gets, mbind, M_bind.
  rewrite He. simpl. rewrite He'. simpl. rewrite cflag_ignored_same. eauto.
Qed.
End Laws.
End LibcTty.
