(* ===== verification/SercdState.v ===== *)
(** * State of sercd (src/apps/sercd/sercd.h, sercd.c, unix.c)

    The protocol constants, the global and static variables of the program as
    records, and the elementary accesses to them. *)

From S2P Require Import Prelude RingBuffer Termios Kernel SimKernel.

(** ** Constants *)

Definition TNSE : Z := 240.
Definition TNNOP : Z := 241.
Definition TNSB : Z := 250.
Definition TNWILL : Z := 251.
Definition TNWONT : Z := 252.
Definition TNDO : Z := 253.
Definition TNDONT : Z := 254.
Definition TNIAC : Z := 255.
Definition TN_TRANSMIT_BINARY : Z := 0.
Definition TN_ECHO : Z := 1.
Definition TN_SUPPRESS_GO_AHEAD : Z := 3.
Definition TNCOM_PORT_OPTION : Z := 44.
Definition TNCAS_SIGNATURE : Z := 0.
Definition TNCAS_SET_BAUDRATE : Z := 1.
Definition TNCAS_SET_DATASIZE : Z := 2.
Definition TNCAS_SET_PARITY : Z := 3.
Definition TNCAS_SET_STOPSIZE : Z := 4.
Definition TNCAS_SET_CONTROL : Z := 5.
Definition TNCAS_NOTIFY_LINESTATE : Z := 6.
Definition TNCAS_NOTIFY_MODEMSTATE : Z := 7.
Definition TNCAS_FLOWCONTROL_SUSPEND : Z := 8.
Definition TNCAS_FLOWCONTROL_RESUME : Z := 9.
Definition TNCAS_SET_LINESTATE_MASK : Z := 10.
Definition TNCAS_SET_MODEMSTATE_MASK : Z := 11.
Definition TNCAS_PURGE_DATA : Z := 12.
Definition TNASC_SIGNATURE : Z := 100.
Definition TNASC_SET_BAUDRATE : Z := 101.
Definition TNASC_SET_DATASIZE : Z := 102.
Definition TNASC_SET_PARITY : Z := 103.
Definition TNASC_SET_STOPSIZE : Z := 104.
Definition TNASC_SET_CONTROL : Z := 105.
Definition TNASC_NOTIFY_LINESTATE : Z := 106.
Definition TNASC_NOTIFY_MODEMSTATE : Z := 107.
Definition TNASC_SET_LINESTATE_MASK : Z := 110.
Definition TNASC_SET_MODEMSTATE_MASK : Z := 111.
Definition TNASC_PURGE_DATA : Z := 112.
Definition TNCOM_NOPARITY : Z := 1.
Definition TNCOM_ODDPARITY : Z := 2.
Definition TNCOM_EVENPARITY : Z := 3.
Definition TNCOM_MARKPARITY : Z := 4.
Definition TNCOM_SPACEPARITY : Z := 5.
Definition TNCOM_ONESTOPBIT : Z := 1.
Definition TNCOM_TWOSTOPBITS : Z := 2.
Definition TNCOM_ONE5STOPBITS : Z := 3.
Definition TNCOM_CMD_FLOW_REQ : Z := 0.
Definition TNCOM_CMD_FLOW_NONE : Z := 1.
Definition TNCOM_CMD_FLOW_XONXOFF : Z := 2.
Definition TNCOM_CMD_FLOW_HARDWARE : Z := 3.
Definition TNCOM_CMD_BREAK_REQ : Z := 4.
Definition TNCOM_CMD_BREAK_ON : Z := 5.
Definition TNCOM_CMD_BREAK_OFF : Z := 6.
Definition TNCOM_CMD_DTR_REQ : Z := 7.
Definition TNCOM_CMD_DTR_ON : Z := 8.
Definition TNCOM_CMD_DTR_OFF : Z := 9.
Definition TNCOM_CMD_RTS_REQ : Z := 10.
Definition TNCOM_CMD_RTS_ON : Z := 11.
Definition TNCOM_CMD_RTS_OFF : Z := 12.
Definition TNCOM_CMD_INFLOW_REQ : Z := 13.
Definition TNCOM_CMD_INFLOW_NONE : Z := 14.
Definition TNCOM_CMD_INFLOW_XONXOFF : Z := 15.
Definition TNCOM_CMD_INFLOW_HARDWARE : Z := 16.
Definition TNCOM_CMD_FLOW_DCD : Z := 17.
Definition TNCOM_CMD_INFLOW_DTR : Z := 18.
Definition TNCOM_CMD_FLOW_DSR : Z := 19.
Definition TNCOM_MODMASK_RLSD : Z := 128.
Definition TNCOM_MODMASK_RING : Z := 64.
Definition TNCOM_MODMASK_DSR : Z := 32.
Definition TNCOM_MODMASK_CTS : Z := 16.
Definition TNCOM_MODMASK_NODELTA : Z := 240.
Definition TNCOM_MODMASK_RLSD_DELTA : Z := 8.
Definition TNCOM_MODMASK_RING_TRAIL : Z := 4.
Definition TNCOM_MODMASK_DSR_DELTA : Z := 2.
Definition TNCOM_MODMASK_CTS_DELTA : Z := 1.
Definition TNCOM_PURGE_RX : Z := 1.
Definition TNCOM_PURGE_TX : Z := 2.
Definition TNCOM_PURGE_BOTH : Z := 3.
Definition SERCD_EV_DEVICEIN : Z := 1.
Definition SERCD_EV_DEVICEOUT : Z := 2.
Definition SERCD_EV_SOCKETOUT : Z := 4.
Definition SERCD_EV_SOCKETIN : Z := 8.
Definition SERCD_EV_SOCKETCONNECT : Z := 16.
Definition SERCD_EV_MODEMSTATE : Z := 32.
Definition LOG_ERR : Z := 3.
Definition LOG_WARNING : Z := 4.
Definition LOG_NOTICE : Z := 5.
Definition LOG_INFO : Z := 6.
Definition LOG_DEBUG : Z := 7.
Definition NoError : Z := 0.
Definition Error : Z := 1.
Definition OpenError : Z := -1.

Definition TmpStrLen : nat := 255.

(** ** Variables *)

(** One entry of [tnstate]: what was offered and what is agreed for a Telnet
    option.  The members are one-bit fields, zero or not. *)
Record tnstate_t : Type := mkTn {
  sent_will : bool;
  sent_do : bool;
  sent_wont : bool;
  sent_dont : bool;
  is_will : bool;
  is_do : bool;
}.

#[global] Instance tnstate_t_eq_dec : EqDecision tnstate_t.
Proof. solve_decision. Defined.

Inductive IACState : Type := IACNormal | IACReceived | IACComReceiving.

#[global] Instance IACState_eq_dec : EqDecision IACState.
Proof. solve_decision. Defined.

Definition set_sent_will (v : bool) (t : tnstate_t) : tnstate_t :=
  mkTn v (sent_do t) (sent_wont t) (sent_dont t) (is_will t) (is_do t).
Definition set_sent_do (v : bool) (t : tnstate_t) : tnstate_t :=
  mkTn (sent_will t) v (sent_wont t) (sent_dont t) (is_will t) (is_do t).
Definition set_sent_wont (v : bool) (t : tnstate_t) : tnstate_t :=
  mkTn (sent_will t) (sent_do t) v (sent_dont t) (is_will t) (is_do t).
Definition set_sent_dont (v : bool) (t : tnstate_t) : tnstate_t :=
  mkTn (sent_will t) (sent_do t) (sent_wont t) v (is_will t) (is_do t).
Definition set_is_will (v : bool) (t : tnstate_t) : tnstate_t :=
  mkTn (sent_will t) (sent_do t) (sent_wont t) (sent_dont t) v (is_do t).
Definition set_is_do (v : bool) (t : tnstate_t) : tnstate_t :=
  mkTn (sent_will t) (sent_do t) (sent_wont t) (sent_dont t) (is_will t) v.

(** Set by the command line, constant afterwards. *)
Record Options : Type := mkOptions {
  CiscoIOSCompatible : bool;
  StdErrLogging : bool;
  MaxLogLevel : Z;
  DeviceName : cstr;
  LockFileName : cstr;
}.

Definition set_CiscoIOSCompatible (v : bool) (o : Options) : Options :=
  mkOptions v (StdErrLogging o) (MaxLogLevel o) (DeviceName o) (LockFileName o).
Definition set_StdErrLogging (v : bool) (o : Options) : Options :=
  mkOptions (CiscoIOSCompatible o) v (MaxLogLevel o) (DeviceName o) (LockFileName o).
Definition set_MaxLogLevel (v : Z) (o : Options) : Options :=
  mkOptions (CiscoIOSCompatible o) (StdErrLogging o) v (DeviceName o) (LockFileName o).
Definition set_DeviceName (v : cstr) (o : Options) : Options :=
  mkOptions (CiscoIOSCompatible o) (StdErrLogging o) (MaxLogLevel o) v (LockFileName o).
Definition set_LockFileName (v : cstr) (o : Options) : Options :=
  mkOptions (CiscoIOSCompatible o) (StdErrLogging o) (MaxLogLevel o) (DeviceName o) v.

(** The Telnet engine of sercd.c, with the static [Last] of the two escaping
    functions. *)
Record Telnet : Type := mkTelnet {
  PortControlEnable : bool;
  IACEscape : IACState;
  IACSigEscape : IACState;
  IACCommand : bytes;
  IACPos : Z;
  ModemStateMask : Z;
  LineStateMask : Z;
  ModemState : Z;
  BreakSignaled : bool;
  InputFlow : bool;
  tnstate : list tnstate_t;
  EscWriteChar_Last : Z;
  EscRedirectChar_Last : Z;
}.

Definition set_PortControlEnable (v : bool) (t : Telnet) : Telnet :=
  mkTelnet v (IACEscape t) (IACSigEscape t) (IACCommand t) (IACPos t) (ModemStateMask t) (LineStateMask t) (ModemState t) (BreakSignaled t) (InputFlow t) (tnstate t) (EscWriteChar_Last t) (EscRedirectChar_Last t).
Definition set_IACEscape (v : IACState) (t : Telnet) : Telnet :=
  mkTelnet (PortControlEnable t) v (IACSigEscape t) (IACCommand t) (IACPos t) (ModemStateMask t) (LineStateMask t) (ModemState t) (BreakSignaled t) (InputFlow t) (tnstate t) (EscWriteChar_Last t) (EscRedirectChar_Last t).
Definition set_IACSigEscape (v : IACState) (t : Telnet) : Telnet :=
  mkTelnet (PortControlEnable t) (IACEscape t) v (IACCommand t) (IACPos t) (ModemStateMask t) (LineStateMask t) (ModemState t) (BreakSignaled t) (InputFlow t) (tnstate t) (EscWriteChar_Last t) (EscRedirectChar_Last t).
Definition set_IACCommand (v : bytes) (t : Telnet) : Telnet :=
  mkTelnet (PortControlEnable t) (IACEscape t) (IACSigEscape t) v (IACPos t) (ModemStateMask t) (LineStateMask t) (ModemState t) (BreakSignaled t) (InputFlow t) (tnstate t) (EscWriteChar_Last t) (EscRedirectChar_Last t).
Definition set_IACPos (v : Z) (t : Telnet) : Telnet :=
  mkTelnet (PortControlEnable t) (IACEscape t) (IACSigEscape t) (IACCommand t) v (ModemStateMask t) (LineStateMask t) (ModemState t) (BreakSignaled t) (InputFlow t) (tnstate t) (EscWriteChar_Last t) (EscRedirectChar_Last t).
Definition set_ModemStateMask (v : Z) (t : Telnet) : Telnet :=
  mkTelnet (PortControlEnable t) (IACEscape t) (IACSigEscape t) (IACCommand t) (IACPos t) v (LineStateMask t) (ModemState t) (BreakSignaled t) (InputFlow t) (tnstate t) (EscWriteChar_Last t) (EscRedirectChar_Last t).
Definition set_LineStateMask (v : Z) (t : Telnet) : Telnet :=
  mkTelnet (PortControlEnable t) (IACEscape t) (IACSigEscape t) (IACCommand t) (IACPos t) (ModemStateMask t) v (ModemState t) (BreakSignaled t) (InputFlow t) (tnstate t) (EscWriteChar_Last t) (EscRedirectChar_Last t).
Definition set_ModemState (v : Z) (t : Telnet) : Telnet :=
  mkTelnet (PortControlEnable t) (IACEscape t) (IACSigEscape t) (IACCommand t) (IACPos t) (ModemStateMask t) (LineStateMask t) v (BreakSignaled t) (InputFlow t) (tnstate t) (EscWriteChar_Last t) (EscRedirectChar_Last t).
Definition set_BreakSignaled (v : bool) (t : Telnet) : Telnet :=
  mkTelnet (PortControlEnable t) (IACEscape t) (IACSigEscape t) (IACCommand t) (IACPos t) (ModemStateMask t) (LineStateMask t) (ModemState t) v (InputFlow t) (tnstate t) (EscWriteChar_Last t) (EscRedirectChar_Last t).
Definition set_InputFlow (v : bool) (t : Telnet) : Telnet :=
  mkTelnet (PortControlEnable t) (IACEscape t) (IACSigEscape t) (IACCommand t) (IACPos t) (ModemStateMask t) (LineStateMask t) (ModemState t) (BreakSignaled t) v (tnstate t) (EscWriteChar_Last t) (EscRedirectChar_Last t).
Definition set_tnstate (v : list tnstate_t) (t : Telnet) : Telnet :=
  mkTelnet (PortControlEnable t) (IACEscape t) (IACSigEscape t) (IACCommand t) (IACPos t) (ModemStateMask t) (LineStateMask t) (ModemState t) (BreakSignaled t) (InputFlow t) v (EscWriteChar_Last t) (EscRedirectChar_Last t).
Definition set_EscWriteChar_Last (v : Z) (t : Telnet) : Telnet :=
  mkTelnet (PortControlEnable t) (IACEscape t) (IACSigEscape t) (IACCommand t) (IACPos t) (ModemStateMask t) (LineStateMask t) (ModemState t) (BreakSignaled t) (InputFlow t) (tnstate t) v (EscRedirectChar_Last t).
Definition set_EscRedirectChar_Last (v : Z) (t : Telnet) : Telnet :=
  mkTelnet (PortControlEnable t) (IACEscape t) (IACSigEscape t) (IACCommand t) (IACPos t) (ModemStateMask t) (LineStateMask t) (ModemState t) (BreakSignaled t) (InputFlow t) (tnstate t) (EscWriteChar_Last t) v.

Definition tn_zero : tnstate_t := mkTn false false false false false false.

(** The initial values of the variables; a static variable without
    initialiser is zero. *)
Definition initial_telnet : Telnet :=
  mkTelnet true IACNormal IACNormal (replicate TmpStrLen 0) 0 255 0 0 false true
    (replicate 256 tn_zero) 0 0.

(** The descriptors in use: a null pointer is [None]. *)
Record Conn : Type := mkConn {
  DeviceFd : option Z;
  InSocketFd : option Z;
  OutSocketFd : option Z;
}.

Definition set_DeviceFd (v : option Z) (c : Conn) : Conn :=
  mkConn v (InSocketFd c) (OutSocketFd c).
Definition set_InSocketFd (v : option Z) (c : Conn) : Conn :=
  mkConn (DeviceFd c) v (OutSocketFd c).
Definition set_OutSocketFd (v : option Z) (c : Conn) : Conn :=
  mkConn (DeviceFd c) (InSocketFd c) v.

(** The static variables of unix.c, and whether [atexit] was called. *)
Record Platform : Type := mkPlatform {
  LastPoll : Z * Z;
  InitialPortSettings : option termios;
  exit_registered : bool;
}.

Definition set_LastPoll (v : Z * Z) (p : Platform) : Platform :=
  mkPlatform v (InitialPortSettings p) (exit_registered p).
Definition set_InitialPortSettings (v : option termios) (p : Platform) : Platform :=
  mkPlatform (LastPoll p) v (exit_registered p).
Definition set_exit_registered (v : bool) (p : Platform) : Platform :=
  mkPlatform (LastPoll p) (InitialPortSettings p) v.

(** The buffers of [main]. *)
Record Buffers : Type := mkBuffers {
  ToNetBuf : BufferType;
  ToDevBuf : BufferType;
  readbuf : bytes;
}.

Definition set_ToNetBuf (v : BufferType) (b : Buffers) : Buffers :=
  mkBuffers v (ToDevBuf b) (readbuf b).
Definition set_ToDevBuf (v : BufferType) (b : Buffers) : Buffers :=
  mkBuffers (ToNetBuf b) v (readbuf b).
Definition set_readbuf (v : bytes) (b : Buffers) : Buffers :=
  mkBuffers (ToNetBuf b) (ToDevBuf b) v.

Record St (W : Type) : Type := mkSt {
  opts : Options;
  tel : Telnet;
  con : Conn;
  plat : Platform;
  bufs : Buffers;
  proc : Proc W;
}.
Arguments mkSt {W} opts tel con plat bufs proc.
Arguments opts {W} s.
Arguments tel {W} s.
Arguments con {W} s.
Arguments plat {W} s.
Arguments bufs {W} s.
Arguments proc {W} s.

(** The state [main] starts in: its buffers and [readbuf] are automatic
    variables, whose first contents are not specified. *)
Definition initial_state {W} (ToNet0 ToDev0 : BufferType) (readbuf0 : bytes) (w : W) : St W :=
  mkSt (mkOptions false false (LOG_DEBUG + 1) [] []) initial_telnet (mkConn None None None)
    (mkPlatform (0, 0) None false) (mkBuffers ToNet0 ToDev0 readbuf0) (mkProc 0 w).

(** A concrete machine after the initialisation of [main], with a client and
    the terminal of [sim_idle] connected. *)
Definition sim_session (w : Sim) : St Sim :=
  let B := mkBuffer (replicate 2048 0) 0 0 in
  let s := initial_state B B (replicate 512 0) w in
  mkSt (mkOptions false true LOG_ERR (lit "/dev/ttyS0") (lit "LCK..ttyS0")) (tel s)
    (mkConn (Some 3) (Some 4) (Some 4)) (plat s) (bufs s) (proc s).

Section Access.
Context {W : Type}.

Definition upd_opts (f : Options -> Options) (s : St W) : St W :=
  mkSt (f (opts s)) (tel s) (con s) (plat s) (bufs s) (proc s).
Definition upd_tel (f : Telnet -> Telnet) (s : St W) : St W :=
  mkSt (opts s) (f (tel s)) (con s) (plat s) (bufs s) (proc s).
Definition upd_con (f : Conn -> Conn) (s : St W) : St W :=
  mkSt (opts s) (tel s) (f (con s)) (plat s) (bufs s) (proc s).
Definition upd_plat (f : Platform -> Platform) (s : St W) : St W :=
  mkSt (opts s) (tel s) (con s) (f (plat s)) (bufs s) (proc s).
Definition upd_bufs (f : Buffers -> Buffers) (s : St W) : St W :=
  mkSt (opts s) (tel s) (con s) (plat s) (f (bufs s)) (proc s).
Definition upd_proc (f : Proc W -> Proc W) (s : St W) : St W :=
  mkSt (opts s) (tel s) (con s) (plat s) (bufs s) (f (proc s)).

Definition put_tel (f : Telnet -> Telnet) : M (St W) unit := modify (upd_tel f).
Definition put_con (f : Conn -> Conn) : M (St W) unit := modify (upd_con f).
Definition put_plat (f : Platform -> Platform) : M (St W) unit := modify (upd_plat f).
Definition get_tel {A} (f : Telnet -> A) : M (St W) A := gets (fun s => f (tel s)).
Definition get_opt {A} (f : Options -> A) : M (St W) A := gets (fun s => f (opts s)).
Definition get_con {A} (f : Conn -> A) : M (St W) A := gets (fun s => f (con s)).
Definition get_plat {A} (f : Platform -> A) : M (St W) A := gets (fun s => f (plat s)).

(** A call of the C library or the kernel. *)
Definition sys {A} (m : M (Proc W) A) : M (St W) A := fun s =>
  match m (proc s) with
  | Ret a p => Ret a (upd_proc (fun _ => p) s)
  | Stop e p => Stop e (upd_proc (fun _ => p) s)
  end.

Lemma upd_proc_proc p q (s : St W) :
  upd_proc (fun _ => q) (upd_proc (fun _ => p) s) = upd_proc (fun _ => q) s.
Proof. done. Qed.

(** A [BufferType *] points to one of the two buffers of [main]. *)
Inductive bufptr : Type := ToNet | ToDev.

Definition get_buf (B : bufptr) (s : St W) : BufferType :=
  match B with ToNet => ToNetBuf (bufs s) | ToDev => ToDevBuf (bufs s) end.

Definition set_buf (B : bufptr) (b : BufferType) (s : St W) : St W :=
  upd_bufs (match B with ToNet => set_ToNetBuf b | ToDev => set_ToDevBuf b end) s.

Definition on_buf {A} (B : bufptr) (m : M BufferType A) : M (St W) A := fun s =>
  match m (get_buf B s) with
  | Ret a b => Ret a (set_buf B b s)
  | Stop e b => Stop e (set_buf B b s)
  end.

(** [tnstate[i]]. *)
Definition tn_get (i : Z) : M (St W) tnstate_t := fun s =>
  if decide (0 <= i) then
    match tnstate (tel s) !! Z.to_nat i with
    | Some t => Ret t s
    | None => Stop OutOfBounds s
    end
  else Stop OutOfBounds s.

Definition tn_upd (i : Z) (f : tnstate_t -> tnstate_t) : M (St W) unit :=
  t ← tn_get i;
  put_tel (fun T => set_tnstate (<[Z.to_nat i := f t]> (tnstate T)) T).

(** [Command[i]] for a pointer to the array [Command]. *)
Definition at_ (Command : bytes) (i : Z) : M (St W) Z := fun s =>
  if decide (0 <= i) then
    match Command !! Z.to_nat i with
    | Some c => Ret c s
    | None => Stop OutOfBounds s
    end
  else Stop OutOfBounds s.

Lemma at_Some Command i c s :
  0 <= i -> Command !! Z.to_nat i = Some c -> at_ Command i s = Ret c s.
Proof. intros Hi Hc. unfold at_. by rewrite decide_True, Hc. Qed.

Lemma tn_get_Some i t s :
  0 <= i -> tnstate (tel s) !! Z.to_nat i = Some t -> tn_get i s = Ret t s.
Proof. intros Hi Ht. unfold tn_get. by rewrite decide_True, Ht. Qed.

(** [IACCommand[i] = c]. *)
Definition IACCommand_store (i c : Z) : M (St W) unit := fun s =>
  match store_at (IACCommand (tel s)) i c with
  | Some l => Ret tt (upd_tel (set_IACCommand l) s)
  | None => Stop OutOfBounds s
  end.

Context `{Kernel W}.

(** ** Logging: [LogMsg] of unix.c *)
Definition LogMsg (LogLevel : Z) (Msg : cstr) : M (St W) unit :=
  max ← get_opt MaxLogLevel;
  when (LogLevel <=? max)
    (err ← get_opt StdErrLogging;
     if (err : bool) then sys (on_kern (k_stderr (Msg ++ [10])))
     else sys (on_kern (k_syslog LogLevel Msg))).

(** ** Computations that only act on the process state

    Logging and the port functions always return and change nothing but
    [errno] and the kernel. *)

Class ProcTotal {A} (m : M (Proc W) A) : Prop :=
  proc_total p : exists a p', m p = Ret a p'.

Class SysOnly {A} (m : M (St W) A) : Prop :=
  sys_only s : exists a p, m s = Ret a (upd_proc (fun _ => p) s).

#[global] Instance ProcTotal_mret {A} (a : A) : ProcTotal (mret a).
Proof. intros p. by eexists _, _. Qed.
#[global] Instance ProcTotal_gets {A} (f : Proc W -> A) : ProcTotal (gets f).
Proof. intros p. by eexists _, _. Qed.
#[global] Instance ProcTotal_set_errno e : ProcTotal (set_errno e).
Proof. intros p. by eexists _, _. Qed.
#[global] Instance ProcTotal_on_kern f : ProcTotal (on_kern f).
Proof. intros p. by eexists _, _. Qed.
#[global] Instance ProcTotal_syscall f : ProcTotal (syscall f).
Proof. intros p. unfold syscall. destruct (f (kern p)) as [[r e] w]. by eexists _, _. Qed.
#[global] Instance ProcTotal_syscall_out {A} (f : W -> Z * Z * A * W) :
  ProcTotal (syscall_out f).
Proof. intros p. unfold syscall_out. destruct (f (kern p)) as [[[r e] a] w]. by eexists _, _. Qed.
#[global] Instance ProcTotal_bind {A B} (m : M (Proc W) A) (f : A -> M (Proc W) B) :
  ProcTotal m -> (forall a, ProcTotal (f a)) -> ProcTotal (m ≫= f).
Proof.
  intros Hm Hf p. destruct (Hm p) as (a & p1 & E). destruct (Hf a p1) as (b & p2 & E').
  exists b, p2. by rewrite (bind_Ret _ _ _ _ _ E).
Qed.

#[global] Instance ProcTotal_if {A} (b : bool) (m1 m2 : M (Proc W) A) :
  ProcTotal m1 -> ProcTotal m2 -> ProcTotal (if b then m1 else m2).
Proof. by destruct b. Qed.

#[global] Instance SysOnly_mret {A} (a : A) : SysOnly (mret a).
Proof. intros s. exists a, (proc s). by destruct s. Qed.
#[global] Instance SysOnly_gets {A} (f : St W -> A) : SysOnly (gets f).
Proof. intros s. exists (f s), (proc s). by destruct s. Qed.
#[global] Instance SysOnly_get_tel {A} (f : Telnet -> A) : SysOnly (get_tel f).
Proof. apply _. Qed.
#[global] Instance SysOnly_get_opt {A} (f : Options -> A) : SysOnly (get_opt f).
Proof. apply _. Qed.
#[global] Instance SysOnly_get_plat {A} (f : Platform -> A) : SysOnly (get_plat f).
Proof. apply _. Qed.
#[global] Instance SysOnly_sys {A} (m : M (Proc W) A) : ProcTotal m -> SysOnly (sys m).
Proof.
  intros Hm s. destruct (Hm (proc s)) as (a & p & E). exists a, p. unfold sys. by rewrite E.
Qed.
#[global] Instance SysOnly_bind {A B} (m : M (St W) A) (f : A -> M (St W) B) :
  SysOnly m -> (forall a, SysOnly (f a)) -> SysOnly (m ≫= f).
Proof.
  intros Hm Hf s. destruct (Hm s) as (a & p & E).
  destruct (Hf a (upd_proc (fun _ => p) s)) as (b & p' & E').
  exists b, p'. by rewrite (bind_Ret _ _ _ _ _ E), E'.
Qed.
#[global] Instance SysOnly_when b m : SysOnly m -> SysOnly (when b m).
Proof. intros Hm. unfold when. destruct b; apply _. Qed.
#[global] Instance SysOnly_if {A} (b : bool) (m1 m2 : M (St W) A) :
  SysOnly m1 -> SysOnly m2 -> SysOnly (if b then m1 else m2).
Proof. by destruct b. Qed.
#[global] Instance SysOnly_LogMsg l m : SysOnly (LogMsg l m).
Proof. apply _. Qed.
End Access.
