(* ===== verification/UnixPort.v ===== *)
(** * Serial port settings (src/apps/sercd/unix.c, lines 61-632)

    The conversions between [struct termios] and the RFC 2217 codes, the
    getters and setters of the port, [LogPortSettings] of sercd.c, and their
    properties on a terminal that obeys [TtyKernel]. *)

From S2P Require Import Prelude RingBuffer Termios Kernel SimKernel LibcTty SercdState.

(** ** Conversions *)

(** [{ case k1: return v1; ... default: return d }]. *)
Fixpoint switch {A} (x : Z) (cases : list (Z * A)) (d : A) : A :=
  match cases with
  | [] => d
  | (k, v) :: cases' => if x =? k then v else switch x cases' d
  end.

Definition speed_codes : list (Z * Z) :=
  [(B50, 50); (B75, 75); (B110, 110); (B134, 134); (B150, 150); (B200, 200);
   (B300, 300); (B600, 600); (B1200, 1200); (B1800, 1800); (B2400, 2400);
   (B4800, 4800); (B9600, 9600); (B19200, 19200); (B38400, 38400);
   (B57600, 57600); (B115200, 115200); (B230400, 230400); (B460800, 460800)].

(** The value of [Termios2TncomSpeed], without its warning. *)
Definition tncom_speed (ti : termios) : Z := switch (cfgetospeed ti) speed_codes 0.

Definition Termios2TncomDataSize (ti : termios) : Z :=
  switch (Z.land (c_cflag ti) CSIZE) [(CS5, 5); (CS6, 6); (CS7, 7); (CS8, 8)] 0.

Definition Termios2TncomParity (ti : termios) : Z :=
  if Z.land (c_cflag ti) PARENB =? 0 then TNCOM_NOPARITY
  else if negb (Z.land (c_cflag ti) PARENB =? 0) && negb (Z.land (c_cflag ti) PARODD =? 0)
  then TNCOM_ODDPARITY
  else TNCOM_EVENPARITY.

Definition Termios2TncomStopSize (ti : termios) : Z :=
  if Z.land (c_cflag ti) CSTOPB =? 0 then TNCOM_ONESTOPBIT else TNCOM_TWOSTOPBITS.

Definition Termios2TncomOutFlow (ti : termios) : Z :=
  if negb (Z.land (c_iflag ti) IXON =? 0) then TNCOM_CMD_FLOW_XONXOFF
  else if negb (Z.land (c_cflag ti) CRTSCTS =? 0) then TNCOM_CMD_FLOW_HARDWARE
  else TNCOM_CMD_FLOW_NONE.

Definition Termios2TncomInFlow (ti : termios) : Z :=
  if negb (Z.land (c_iflag ti) IXOFF =? 0) then TNCOM_CMD_INFLOW_XONXOFF
  else if negb (Z.land (c_cflag ti) CRTSCTS =? 0) then TNCOM_CMD_INFLOW_HARDWARE
  else TNCOM_CMD_INFLOW_NONE.

(** A [struct termios] on the stack before [tcgetattr] fills it.  Only the two
    speed members keep their value, and nothing reads them. *)
Definition uninit_termios : termios := mkTermios 0 0 0 0 0 [] 0 0.

Section Port.
Context {W : Type} `{Kernel W}.

Definition Termios2TncomSpeed (ti : termios) : M (St W) Z :=
  when (negb (cfgetispeed ti =? cfgetospeed ti))
    (LogMsg LOG_WARNING
      (lit "warning: different input and output speed, using output speed")) ;;
  mret (tncom_speed ti).

(** [LogPortSettings] of sercd.c.  The text of the outbound flow control is
    stored in [inflowtype] and the other way round, and printed swapped. *)
Definition LogPortSettings (speed datasize parity stopsize outflow inflow : Z)
    : M (St W) unit :=
  let parchar := switch parity
    [(TNCOM_ODDPARITY, lit "O"); (TNCOM_EVENPARITY, lit "E"); (TNCOM_MARKPARITY, lit "M");
     (TNCOM_SPACEPARITY, lit "S"); (TNCOM_NOPARITY, lit "N")] (lit "I") in
  let stopbits := switch stopsize
    [(TNCOM_ONESTOPBIT, lit "1"); (TNCOM_ONE5STOPBITS, lit "1.5");
     (TNCOM_TWOSTOPBITS, lit "2")] [] in
  let inflowtype := switch outflow
    [(TNCOM_CMD_FLOW_NONE, lit "none"); (TNCOM_CMD_FLOW_XONXOFF, lit "XON/XOFF");
     (TNCOM_CMD_FLOW_HARDWARE, lit "RTS/CTS"); (TNCOM_CMD_FLOW_DCD, lit "DCD flow control");
     (TNCOM_CMD_FLOW_DSR, lit "DSR")] (lit "unknown") in
  let outflowtype := switch inflow
    [(TNCOM_CMD_INFLOW_NONE, lit "none"); (TNCOM_CMD_INFLOW_XONXOFF, lit "XON/XOFF");
     (TNCOM_CMD_INFLOW_HARDWARE, lit "RTS/CTS"); (TNCOM_CMD_INFLOW_DTR, lit "DTR")]
    (lit "unknown") in
  LogMsg LOG_NOTICE
    (snprintf TmpStrLen
      (lit "Port settings:" ++ dec speed ++ lit "-" ++ dec datasize ++ lit "-" ++ parchar ++
       lit "-" ++ stopbits ++ lit " outflow:" ++ outflowtype ++ lit " inflow:" ++ inflowtype)).

Definition UnixLogPortSettings (ti : termios) : M (St W) unit :=
  speed ← Termios2TncomSpeed ti;
  LogPortSettings speed (Termios2TncomDataSize ti) (Termios2TncomParity ti)
    (Termios2TncomStopSize ti) (Termios2TncomOutFlow ti) (Termios2TncomInFlow ti).

(** ** Getters *)

Definition port_tcgetattr (PortFd : Z) : M (St W) termios :=
  '(_, t) ← sys (tcgetattr PortFd uninit_termios); mret t.

Definition GetPortSpeed (PortFd : Z) : M (St W) Z :=
  t ← port_tcgetattr PortFd; Termios2TncomSpeed t.

Definition GetPortDataSize (PortFd : Z) : M (St W) Z :=
  t ← port_tcgetattr PortFd; mret (Termios2TncomDataSize t).

Definition GetPortParity (PortFd : Z) : M (St W) Z :=
  t ← port_tcgetattr PortFd; mret (Termios2TncomParity t).

Definition GetPortStopSize (PortFd : Z) : M (St W) Z :=
  t ← port_tcgetattr PortFd; mret (Termios2TncomStopSize t).

Definition port_mlines (PortFd : Z) : M (St W) Z :=
  '(_, MLines) ← sys (syscall_out (k_tiocmget PortFd)); mret MLines.

Definition GetPortFlowControl (PortFd Which : Z) : M (St W) Z :=
  t ← port_tcgetattr PortFd;
  MLines ← port_mlines PortFd;
  mret
    (if Which =? TNCOM_CMD_DTR_REQ then
       if negb (Z.land MLines TIOCM_DSR =? 0) then TNCOM_CMD_DTR_ON else TNCOM_CMD_DTR_OFF
     else if Which =? TNCOM_CMD_RTS_REQ then
       if negb (Z.land MLines TIOCM_CTS =? 0) then TNCOM_CMD_RTS_ON else TNCOM_CMD_RTS_OFF
     else if Which =? TNCOM_CMD_INFLOW_REQ then Termios2TncomInFlow t
     else Termios2TncomOutFlow t).

(** The state of the modem lines [MLines] as reported to the client, with
    the changes since [PMState].  [MState] is an [unsigned char]. *)
Definition modem_state (MLines PMState : Z) : Z :=
  let add (c : bool) x v := if c then u8 (x + v) else x in
  let m := add (negb (Z.land MLines TIOCM_CAR =? 0)) 0 TNCOM_MODMASK_RLSD in
  let m := add (negb (Z.land MLines TIOCM_RNG =? 0)) m TNCOM_MODMASK_RING in
  let m := add (negb (Z.land MLines TIOCM_DSR =? 0)) m TNCOM_MODMASK_DSR in
  let m := add (negb (Z.land MLines TIOCM_CTS =? 0)) m TNCOM_MODMASK_CTS in
  let differs x mask := negb (Z.land x mask =? Z.land PMState mask) in
  let m := add (differs m TNCOM_MODMASK_RLSD) m TNCOM_MODMASK_RLSD_DELTA in
  let m := add (differs m TNCOM_MODMASK_RING) m TNCOM_MODMASK_RING_TRAIL in
  let m := add (differs m TNCOM_MODMASK_DSR) m TNCOM_MODMASK_DSR_DELTA in
  add (differs m TNCOM_MODMASK_CTS) m TNCOM_MODMASK_CTS_DELTA.

Definition GetModemState (PortFd PMState : Z) : M (St W) Z :=
  MLines ← port_mlines PortFd; mret (modem_state MLines PMState).

(** ** Setters *)

Definition port_tcsetattr (PortFd : Z) (t : termios) : M (St W) unit :=
  sys (tcsetattr PortFd TCSADRAIN t) ;; mret tt.

Definition SetPortDataSize (PortFd DataSize : Z) : M (St W) unit :=
  let PDataSize := switch DataSize [(5, CS5); (6, CS6); (7, CS7); (8, CS8)] CS8 in
  t ← port_tcgetattr PortFd;
  let t := with_cflag (Z.land (c_cflag t) (Z.lnot CSIZE)) t in
  let t := with_cflag (Z.lor (c_cflag t) (Z.land PDataSize CSIZE)) t in
  port_tcsetattr PortFd t ;; UnixLogPortSettings t.

Definition SetPortParity (PortFd Parity : Z) : M (St W) unit :=
  t ← port_tcgetattr PortFd;
  t ← (if Parity =? TNCOM_NOPARITY then
         mret (with_cflag (Z.land (c_cflag t) (Z.lnot PARENB)) t)
       else if Parity =? TNCOM_ODDPARITY then
         mret (with_cflag (Z.lor (Z.lor (c_cflag t) PARENB) PARODD) t)
       else if Parity =? TNCOM_EVENPARITY then
         mret (with_cflag (Z.land (Z.lor (c_cflag t) PARENB) (Z.lnot PARODD)) t)
       else
         LogMsg LOG_WARNING (lit "Requested unsupported parity, set to no parity.") ;;
         mret (with_cflag (Z.land (c_cflag t) (Z.lnot PARENB)) t));
  port_tcsetattr PortFd t ;; UnixLogPortSettings t.

Definition SetPortStopSize (PortFd StopSize : Z) : M (St W) unit :=
  t ← port_tcgetattr PortFd;
  t ← (if StopSize =? TNCOM_ONESTOPBIT then
         mret (with_cflag (Z.land (c_cflag t) (Z.lnot CSTOPB)) t)
       else if StopSize =? TNCOM_TWOSTOPBITS then
         mret (with_cflag (Z.lor (c_cflag t) CSTOPB) t)
       else if StopSize =? TNCOM_ONE5STOPBITS then
         let t := with_cflag (Z.land (c_cflag t) (Z.lnot CSTOPB)) t in
         LogMsg LOG_WARNING
           (lit "Requested unsupported 1.5 bits stop size, set to 1 bit stop size.") ;;
         mret t
       else mret (with_cflag (Z.land (c_cflag t) (Z.lnot CSTOPB)) t));
  port_tcsetattr PortFd t ;; UnixLogPortSettings t.

(** The settings, the modem lines and the warning for a flow control
    command. *)
Definition flow_settings (How : Z) (t : termios) (MLines : Z)
    : termios * Z * option cstr :=
  let clr x m := Z.land x (Z.lnot m) in
  if How =? TNCOM_CMD_FLOW_NONE then
    let t := with_iflag (clr (c_iflag t) IXON) t in
    let t := with_iflag (clr (c_iflag t) IXOFF) t in
    (with_cflag (clr (c_cflag t) CRTSCTS) t, MLines, None)
  else if How =? TNCOM_CMD_FLOW_XONXOFF then
    let t := with_iflag (Z.lor (c_iflag t) IXON) t in
    let t := with_iflag (Z.lor (c_iflag t) IXOFF) t in
    (with_cflag (clr (c_cflag t) CRTSCTS) t, MLines, None)
  else if How =? TNCOM_CMD_FLOW_HARDWARE then
    let t := with_iflag (clr (c_iflag t) IXON) t in
    let t := with_iflag (clr (c_iflag t) IXOFF) t in
    (with_cflag (Z.lor (c_cflag t) CRTSCTS) t, MLines, None)
  else if How =? TNCOM_CMD_DTR_ON then (t, Z.lor MLines TIOCM_DTR, None)
  else if How =? TNCOM_CMD_DTR_OFF then (t, clr MLines TIOCM_DTR, None)
  else if How =? TNCOM_CMD_RTS_ON then (t, Z.lor MLines TIOCM_RTS, None)
  else if How =? TNCOM_CMD_RTS_OFF then (t, clr MLines TIOCM_RTS, None)
  else if (How =? TNCOM_CMD_INFLOW_NONE) || (How =? TNCOM_CMD_INFLOW_XONXOFF)
          || (How =? TNCOM_CMD_INFLOW_HARDWARE)
  then (t, MLines, Some (lit "Inbound flow control ignored."))
  else if How =? TNCOM_CMD_FLOW_DCD then (t, MLines, Some (lit "DCD Flow Control ignored."))
  else if How =? TNCOM_CMD_INFLOW_DTR then (t, MLines, Some (lit "DTR Flow Control ignored."))
  else if How =? TNCOM_CMD_FLOW_DSR then (t, MLines, Some (lit "DSR Flow Control ignored."))
  else (t, MLines, Some (lit "Requested invalid flow control.")).

Definition SetPortFlowControl (PortFd How : Z) : M (St W) unit :=
  t ← port_tcgetattr PortFd;
  MLines ← port_mlines PortFd;
  let '(t', MLines', warning) := flow_settings How t MLines in
  match warning with
  | Some msg => LogMsg LOG_WARNING msg
  | None => mret tt
  end ;;
  port_tcsetattr PortFd t' ;;
  sys (syscall (k_tiocmset PortFd MLines')) ;;
  UnixLogPortSettings t'.

Definition baud_codes : list (Z * Z) :=
  [(50, B50); (75, B75); (110, B110); (134, B134); (150, B150); (200, B200);
   (300, B300); (600, B600); (1200, B1200); (1800, B1800); (2400, B2400);
   (4800, B4800); (9600, B9600); (19200, B19200); (38400, B38400);
   (57600, B57600); (115200, B115200); (230400, B230400); (460800, B460800)].

Definition SetPortSpeed (PortFd BaudRate : Z) : M (St W) unit :=
  Speed ← match switch BaudRate (map (fun '(k, v) => (k, Some v)) baud_codes) None with
          | Some sp => mret sp
          | None =>
              LogMsg LOG_WARNING (lit "Unknwon baud rate requested, setting to 9600.") ;;
              mret B9600
          end;
  t ← port_tcgetattr PortFd;
  let t := (cfsetospeed t Speed).2 in
  let t := (cfsetispeed t Speed).2 in
  port_tcsetattr PortFd t ;; UnixLogPortSettings t.

Definition SetBreak (PortFd : Z) (on : bool) : M (St W) unit :=
  when on (sys (tcsendbreak PortFd 0) ;; mret tt).

Definition SetFlush (PortFd selector : Z) : M (St W) unit :=
  if selector =? TNCOM_PURGE_RX then sys (tcflush PortFd TCIFLUSH) ;; mret tt
  else if selector =? TNCOM_PURGE_TX then sys (tcflush PortFd TCOFLUSH) ;; mret tt
  else if selector =? TNCOM_PURGE_BOTH then sys (tcflush PortFd TCIOFLUSH) ;; mret tt
  else mret tt.
End Port.

(** ** Every port function only acts on the process state *)

Section PortSysOnly.
Context {W : Type} `{Kernel W}.

#[global] Instance ProcTotal_tcgetattr fd t : ProcTotal (tcgetattr (W:=W) fd t).
Proof.
  intros p. unfold tcgetattr, syscall_out, mbind, M_bind.
  destruct (k_tcgets fd (kern p)) as [[[r e] k] w]. by eexists _, _.
Qed.

#[global] Instance ProcTotal_tcsetattr fd act t : ProcTotal (tcsetattr (W:=W) fd act t).
Proof.
  unfold tcsetattr.
  match goal with |- context [match ?x with Some _ => _ | None => _ end] => destruct x end;
    [|apply _].
  apply ProcTotal_bind; [apply _|]. intros r. apply ProcTotal_if; [|apply _].
  apply ProcTotal_bind; [apply _|]. intros save.
  apply ProcTotal_bind; [apply _|]. intros [r' k]. apply _.
Qed.

#[global] Instance ProcTotal_tcflush fd sel : ProcTotal (tcflush (W:=W) fd sel).
Proof. apply _. Qed.

#[global] Instance ProcTotal_tcsendbreak fd d : ProcTotal (tcsendbreak (W:=W) fd d).
Proof. unfold tcsendbreak. apply _. Qed.

#[global] Instance SysOnly_port_tcgetattr fd : SysOnly (port_tcgetattr (W:=W) fd).
Proof. unfold port_tcgetattr. apply SysOnly_bind; [apply _|]. intros [? ?]. apply _. Qed.
#[global] Instance SysOnly_port_mlines fd : SysOnly (port_mlines (W:=W) fd).
Proof. unfold port_mlines. apply SysOnly_bind; [apply _|]. intros [? ?]. apply _. Qed.
#[global] Instance SysOnly_port_tcsetattr fd t : SysOnly (port_tcsetattr (W:=W) fd t).
Proof. apply _. Qed.
#[global] Instance SysOnly_Termios2TncomSpeed t : SysOnly (Termios2TncomSpeed (W:=W) t).
Proof. apply _. Qed.
#[global] Instance SysOnly_UnixLogPortSettings t : SysOnly (UnixLogPortSettings (W:=W) t).
Proof. unfold UnixLogPortSettings, LogPortSettings. apply _. Qed.
#[global] Instance SysOnly_GetPortSpeed fd : SysOnly (GetPortSpeed (W:=W) fd).
Proof. apply _. Qed.
#[global] Instance SysOnly_GetPortDataSize fd : SysOnly (GetPortDataSize (W:=W) fd).
Proof. apply _. Qed.
#[global] Instance SysOnly_GetPortParity fd : SysOnly (GetPortParity (W:=W) fd).
Proof. apply _. Qed.
#[global] Instance SysOnly_GetPortStopSize fd : SysOnly (GetPortStopSize (W:=W) fd).
Proof. apply _. Qed.
#[global] Instance SysOnly_GetPortFlowControl fd w : SysOnly (GetPortFlowControl (W:=W) fd w).
Proof. apply _. Qed.
#[global] Instance SysOnly_GetModemState fd st : SysOnly (GetModemState (W:=W) fd st).
Proof. apply _. Qed.
#[global] Instance SysOnly_SetPortDataSize fd v : SysOnly (SetPortDataSize (W:=W) fd v).
Proof. apply _. Qed.
#[global] Instance SysOnly_SetPortParity fd v : SysOnly (SetPortParity (W:=W) fd v).
Proof. apply _. Qed.
#[global] Instance SysOnly_SetPortStopSize fd v : SysOnly (SetPortStopSize (W:=W) fd v).
Proof. apply _. Qed.
#[global] Instance SysOnly_SetPortFlowControl fd v : SysOnly (SetPortFlowControl (W:=W) fd v).
Proof.
  unfold SetPortFlowControl. apply SysOnly_bind; [apply _|]. intros t.
  apply SysOnly_bind; [apply _|]. intros ml.
  destruct (flow_settings v t ml) as [[t' ml'] [msg|]]; apply _.
Qed.
#[global] Instance SysOnly_SetPortSpeed fd v : SysOnly (SetPortSpeed (W:=W) fd v).
Proof. unfold SetPortSpeed. case_match; apply _. Qed.
#[global] Instance SysOnly_SetBreak fd b : SysOnly (SetBreak (W:=W) fd b).
Proof. apply _. Qed.
#[global] Instance SysOnly_SetFlush fd v : SysOnly (SetFlush (W:=W) fd v).
Proof. unfold SetFlush. apply _. Qed.
End PortSysOnly.

(** ** The settings as the client sees them *)

Record port_view : Type := mkView {
  v_speed : Z;
  v_datasize : Z;
  v_parity : Z;
  v_stopsize : Z;
  v_outflow : Z;
  v_inflow : Z;
}.

Definition view_of (t : termios) : port_view :=
  mkView (tncom_speed t) (Termios2TncomDataSize t) (Termios2TncomParity t)
    (Termios2TncomStopSize t) (Termios2TncomOutFlow t) (Termios2TncomInFlow t).

Definition view_of_kernel (k : kernel_termios) : port_view :=
  view_of (termios_of_kernel k uninit_termios).

(** The requests of a client that change a setting. *)
Inductive port_cmd : Type :=
| CmdSpeed (BaudRate : Z)
| CmdDataSize (DataSize : Z)
| CmdParity (Parity : Z)
| CmdStopSize (StopSize : Z)
| CmdFlow (How : Z).

Definition run_cmd {W} `{Kernel W} (fd : Z) (c : port_cmd) : M (St W) unit :=
  match c with
  | CmdSpeed b => SetPortSpeed fd b
  | CmdDataSize d => SetPortDataSize fd d
  | CmdParity p => SetPortParity fd p
  | CmdStopSize st => SetPortStopSize fd st
  | CmdFlow h => SetPortFlowControl fd h
  end.

(** What a request promises: a supported value is set, an unsupported one is
    replaced by the default, and no other setting changes. *)
Definition apply_cmd (c : port_cmd) (v : port_view) : port_view :=
  match c with
  | CmdSpeed b =>
      mkView (if decide (b ∈ baud_codes.*1) then b else 9600)
        (v_datasize v) (v_parity v) (v_stopsize v) (v_outflow v) (v_inflow v)
  | CmdDataSize d =>
      mkView (v_speed v) (if decide (d ∈ [5; 6; 7; 8]) then d else 8)
        (v_parity v) (v_stopsize v) (v_outflow v) (v_inflow v)
  | CmdParity p =>
      mkView (v_speed v) (v_datasize v)
        (if decide (p ∈ [TNCOM_NOPARITY; TNCOM_ODDPARITY; TNCOM_EVENPARITY]) then p
         else TNCOM_NOPARITY)
        (v_stopsize v) (v_outflow v) (v_inflow v)
  | CmdStopSize st =>
      mkView (v_speed v) (v_datasize v) (v_parity v)
        (if decide (st = TNCOM_TWOSTOPBITS) then st else TNCOM_ONESTOPBIT)
        (v_outflow v) (v_inflow v)
  | CmdFlow h =>
      if decide (h ∈ [TNCOM_CMD_FLOW_NONE; TNCOM_CMD_FLOW_XONXOFF; TNCOM_CMD_FLOW_HARDWARE])
      then mkView (v_speed v) (v_datasize v) (v_parity v) (v_stopsize v) h
             (h - TNCOM_CMD_FLOW_NONE + TNCOM_CMD_INFLOW_NONE)
      else v
  end.

(** The new settings, as a function of the old ones. *)
Definition cmd_settings (c : port_cmd) (t : termios) : termios :=
  match c with
  | CmdSpeed b =>
      let sp := switch b baud_codes B9600 in
      (cfsetispeed (cfsetospeed t sp).2 sp).2
  | CmdDataSize d =>
      let sz := switch d [(5, CS5); (6, CS6); (7, CS7); (8, CS8)] CS8 in
      with_cflag (Z.lor (Z.land (c_cflag t) (Z.lnot CSIZE)) (Z.land sz CSIZE)) t
  | CmdParity p =>
      with_cflag
        (if p =? TNCOM_ODDPARITY then Z.lor (Z.lor (c_cflag t) PARENB) PARODD
         else if p =? TNCOM_EVENPARITY then Z.land (Z.lor (c_cflag t) PARENB) (Z.lnot PARODD)
         else Z.land (c_cflag t) (Z.lnot PARENB)) t
  | CmdStopSize st =>
      with_cflag (if st =? TNCOM_TWOSTOPBITS then Z.lor (c_cflag t) CSTOPB
                  else Z.land (c_cflag t) (Z.lnot CSTOPB)) t
  | CmdFlow h => (flow_settings h t 0).1.1
  end.

Definition cmd_lines (c : port_cmd) (t : termios) (ml : Z) : Z :=
  match c with CmdFlow h => (flow_settings h t ml).1.2 | _ => ml end.

(** ** Refinement: the setters implement [apply_cmd] on a terminal *)

Section PortTty.
Context {W : Type} `{TtyKernel W}.

(** [m] returns [a] and leaves every terminal as it is. *)
Definition quiet {A} (m : M (St W) A) (a : A) : Prop :=
  forall s, exists p, m s = Ret a (upd_proc (fun _ => p) s) /\
    forall fd, tty_get (kern p) fd = tty_get (kern (proc s)) fd /\
               tty_lines (kern p) fd = tty_lines (kern (proc s)) fd.

Lemma quiet_mret {A} (a : A) : quiet (mret a) a.
Proof. intros s. exists (proc s). by destruct s. Qed.

Lemma quiet_bind {A B} (m : M (St W) A) (f : A -> M (St W) B) a b :
  quiet m a -> quiet (f a) b -> quiet (m ≫= f) b.
Proof.
  intros Hm Hf s. destruct (Hm s) as (p & E & Hp).
  destruct (Hf (upd_proc (fun _ => p) s)) as (p' & E' & Hp').
  exists p'. rewrite (bind_Ret _ _ _ _ _ E), E'. split; [done|].
  intros fd. destruct (Hp fd) as [<- <-]. apply (Hp' fd).
Qed.

Lemma quiet_LogMsg l m : quiet (LogMsg l m) tt.
Proof.
  intros s. unfold LogMsg, get_opt. rewrite bind_gets. unfold when.
  case_match; [|apply quiet_mret]. rewrite bind_gets. unfold sys, on_kern, modify.
  case_match; (eexists; split; [done|]); intros fd; [apply tty_stderr|apply tty_syslog].
Qed.

Lemma quiet_when b m : quiet m tt -> quiet (when b m) tt.
Proof. destruct b; [done|]. intros _. apply quiet_mret. Qed.

Lemma quiet_Termios2TncomSpeed t : quiet (Termios2TncomSpeed t) (tncom_speed t).
Proof.
  eapply quiet_bind; [apply quiet_when, quiet_LogMsg|apply quiet_mret].
Qed.

Lemma quiet_UnixLogPortSettings t : quiet (UnixLogPortSettings t) tt.
Proof.
  eapply quiet_bind; [apply quiet_Termios2TncomSpeed|apply quiet_LogMsg].
Qed.

Lemma port_tcgetattr_tty s fd k :
  tty_get (kern (proc s)) fd = Some k ->
  port_tcgetattr fd s = Ret (termios_of_kernel k uninit_termios) s.
Proof.
  intros Hk. unfold port_tcgetattr, sys, mbind, M_bind.
  rewrite (tcgetattr_tty _ _ _ _ Hk). by destruct s.
Qed.

Lemma port_mlines_tty s fd k :
  tty_get (kern (proc s)) fd = Some k ->
  port_mlines fd s = Ret (tty_lines (kern (proc s)) fd) s.
Proof.
  intros Hk. destruct (tty_tiocmget _ _ _ Hk) as [e He].
  unfold port_mlines, sys, syscall_out, mbind, M_bind. rewrite He. simpl.
  destruct s as [? ? ? ? ? []]. done.
Qed.

Lemma port_tcsetattr_tty s fd k t :
  tty_get (kern (proc s)) fd = Some k ->
  exists p, port_tcsetattr fd t s = Ret tt (upd_proc (fun _ => p) s) /\
    tty_get (kern p) fd = Some (kernel_of_termios t) /\
    tty_lines (kern p) fd = tty_lines (kern (proc s)) fd.
Proof.
  intros Hk. destruct (tcsetattr_drain_tty _ _ _ t Hk) as (p & E & Hg & Hl).
  exists p. unfold port_tcsetattr, sys, mbind, M_bind. by rewrite E.
Qed.

(** The common shape of the setters: read the settings, compute new ones,
    write them and log them. *)
Lemma port_update_tty s fd k (calc : termios -> M (St W) termios) (g : termios -> termios) :
  (forall t, quiet (calc t) (g t)) ->
  tty_get (kern (proc s)) fd = Some k ->
  exists p,
    (t ← port_tcgetattr fd; t ← calc t; port_tcsetattr fd t ;; UnixLogPortSettings t) s =
      Ret tt (upd_proc (fun _ => p) s) /\
    tty_get (kern p) fd = Some (kernel_of_termios (g (termios_of_kernel k uninit_termios))) /\
    tty_lines (kern p) fd = tty_lines (kern (proc s)) fd.
Proof.
  intros Hcalc Hk. rewrite (bind_Ret _ _ _ _ _ (port_tcgetattr_tty s fd k Hk)).
  destruct (Hcalc (termios_of_kernel k uninit_termios) s) as (p1 & E1 & Hp1).
  rewrite (bind_Ret _ _ _ _ _ E1). destruct (Hp1 fd) as [Hg1 Hl1].
  destruct (port_tcsetattr_tty (upd_proc (fun _ => p1) s) fd k
    (g (termios_of_kernel k uninit_termios))) as (p2 & E2 & Hg2 & Hl2).
  { simpl. by rewrite Hg1. }
  rewrite (bind_Ret _ _ _ _ _ E2), upd_proc_proc.
  destruct (quiet_UnixLogPortSettings (g (termios_of_kernel k uninit_termios))
    (upd_proc (fun _ => p2) s)) as (p3 & E3 & Hp3).
  exists p3. rewrite E3, upd_proc_proc. destruct (Hp3 fd) as [-> ->]. simpl in *.
  by rewrite Hg2, Hl2, Hl1.
Qed.

Lemma port_update_pure_tty s fd k (g : termios -> termios) :
  tty_get (kern (proc s)) fd = Some k ->
  exists p,
    (t ← port_tcgetattr fd; port_tcsetattr fd (g t) ;; UnixLogPortSettings (g t)) s =
      Ret tt (upd_proc (fun _ => p) s) /\
    tty_get (kern p) fd = Some (kernel_of_termios (g (termios_of_kernel k uninit_termios))) /\
    tty_lines (kern p) fd = tty_lines (kern (proc s)) fd.
Proof.
  intros Hk. destruct (port_update_tty s fd k (fun t => mret (g t)) g) as (p & E & HE); [|done|].
  { intros t. apply quiet_mret. }
  exists p. split; [exact E|exact HE].
Qed.

Lemma switch_map {A} x (cases : list (Z * A)) d :
  switch x cases d = default d (switch x (map (fun '(k, v) => (k, Some v)) cases) None).
Proof.
  induction cases as [|[k v] cases IH]; [done|]. simpl. by destruct (x =? k).
Qed.

Lemma SetPortSpeed_tty s fd k b :
  tty_get (kern (proc s)) fd = Some k ->
  exists p, SetPortSpeed fd b s = Ret tt (upd_proc (fun _ => p) s) /\
    tty_get (kern p) fd =
      Some (kernel_of_termios (cmd_settings (CmdSpeed b) (termios_of_kernel k uninit_termios))) /\
    tty_lines (kern p) fd = tty_lines (kern (proc s)) fd.
Proof.
  intros Hk. unfold SetPortSpeed. cbn [cmd_settings]. rewrite (switch_map b baud_codes B9600).
  set (o := switch b _ None).
  assert (quiet (match o with
                 | Some sp => mret sp
                 | None => LogMsg LOG_WARNING
                    (lit "Unknwon baud rate requested, setting to 9600.") ;; mret B9600
                 end) (default B9600 o)) as Hq.
  { destruct o; [apply quiet_mret|].
    eapply quiet_bind; [apply quiet_LogMsg|apply quiet_mret]. }
  destruct (Hq s) as (p1 & E1 & Hp1). rewrite (bind_Ret _ _ _ _ _ E1).
  destruct (Hp1 fd) as [Hg1 Hl1]. rewrite <- Hl1.
  set (g t := (cfsetispeed (cfsetospeed t (default B9600 o)).2 (default B9600 o)).2).
  destruct (port_update_pure_tty (upd_proc (fun _ => p1) s) fd k g) as (p & E & HE).
  { simpl. by rewrite Hg1. }
  exists p. split; [exact E|exact HE].
Qed.

Lemma flow_settings_fst h t ml ml' :
  (flow_settings h t ml).1.1 = (flow_settings h t ml').1.1.
Proof. unfold flow_settings. repeat case_match; done. Qed.

Definition out_lines : Z := Z.lor TIOCM_DTR TIOCM_RTS.

Lemma SetPortFlowControl_tty s fd k h :
  tty_get (kern (proc s)) fd = Some k ->
  exists p, SetPortFlowControl fd h s = Ret tt (upd_proc (fun _ => p) s) /\
    tty_get (kern p) fd =
      Some (kernel_of_termios (cmd_settings (CmdFlow h) (termios_of_kernel k uninit_termios))) /\
    tty_lines (kern p) fd =
      set_field (tty_lines (kern (proc s)) fd) out_lines
        (Z.land (cmd_lines (CmdFlow h) (termios_of_kernel k uninit_termios)
                   (tty_lines (kern (proc s)) fd)) out_lines).
Proof.
  intros Hk. unfold SetPortFlowControl.
  rewrite (bind_Ret _ _ _ _ _ (port_tcgetattr_tty s fd k Hk)).
  rewrite (bind_Ret _ _ _ _ _ (port_mlines_tty s fd k Hk)). cbn [cmd_settings cmd_lines].
  set (t0 := termios_of_kernel k uninit_termios). set (ml := tty_lines (kern (proc s)) fd).
  rewrite (flow_settings_fst h t0 0 ml).
  destruct (flow_settings h t0 ml) as [[t' ml'] o]. simpl.
  assert (quiet (match o with Some msg => LogMsg LOG_WARNING msg | None => mret tt end) tt) as Hq.
  { destruct o; [apply quiet_LogMsg|apply quiet_mret]. }
  destruct (Hq s) as (p1 & E1 & Hp1). rewrite (bind_Ret _ _ _ _ _ E1).
  destruct (Hp1 fd) as [Hg1 Hl1].
  destruct (port_tcsetattr_tty (upd_proc (fun _ => p1) s) fd k t') as (p2 & E2 & Hg2 & Hl2).
  { simpl. by rewrite Hg1. }
  rewrite (bind_Ret _ _ _ _ _ E2), upd_proc_proc. simpl in Hg2, Hl2.
  destruct (tty_tiocmset _ _ _ ml' Hg2) as (e & w' & E3 & Hg3 & Hl3).
  assert (sys (syscall (k_tiocmset fd ml')) (upd_proc (fun _ => p2) s) =
    Ret 0 (upd_proc (fun _ => mkProc (errno p2) w') s)) as E5.
  { unfold sys, syscall. simpl. by rewrite E3. }
  rewrite (bind_Ret _ _ _ _ _ E5).
  destruct (quiet_UnixLogPortSettings t'
    (upd_proc (fun _ => mkProc (errno p2) w') s)) as (p4 & E4 & Hp4).
  destruct (Hp4 fd) as [Hg4 Hl4]. simpl in Hg4, Hl4.
  exists p4. rewrite E4, upd_proc_proc, Hg4, Hg3, Hl4, Hl3, Hl2, Hl1. done.
Qed.

Lemma SetPort_tty s fd k c :
  tty_get (kern (proc s)) fd = Some k ->
  match c with CmdDataSize _ | CmdParity _ | CmdStopSize _ => True | _ => False end ->
  exists p, run_cmd fd c s = Ret tt (upd_proc (fun _ => p) s) /\
    tty_get (kern p) fd =
      Some (kernel_of_termios (cmd_settings c (termios_of_kernel k uninit_termios))) /\
    tty_lines (kern p) fd = tty_lines (kern (proc s)) fd.
Proof.
  intros Hk Hc. destruct c as [b|d|pa|st|h]; try done; simpl run_cmd.
  - destruct (port_update_pure_tty s fd k (cmd_settings (CmdDataSize d)) Hk) as (p & E & HE).
    exists p. split; [exact E|exact HE].
  - eapply (port_update_tty s fd k _ (cmd_settings (CmdParity pa))); [|done].
    intros t. simpl. destruct (Z.eqb_spec pa TNCOM_NOPARITY) as [->|]; [apply quiet_mret|].
    destruct (pa =? TNCOM_ODDPARITY); [apply quiet_mret|].
    destruct (pa =? TNCOM_EVENPARITY); [apply quiet_mret|].
    eapply quiet_bind; [apply quiet_LogMsg|apply quiet_mret].
  - eapply (port_update_tty s fd k _ (cmd_settings (CmdStopSize st))); [|done].
    intros t. simpl. destruct (Z.eqb_spec st TNCOM_ONESTOPBIT) as [->|]; [apply quiet_mret|].
    destruct (st =? TNCOM_TWOSTOPBITS); [apply quiet_mret|].
    destruct (st =? TNCOM_ONE5STOPBITS); [|apply quiet_mret].
    eapply quiet_bind; [apply quiet_LogMsg|apply quiet_mret].
Qed.

Lemma out_lines_field ml ml' m :
  Z.land m out_lines = m \/ Z.land m out_lines = 0 /\ Z.land ml' m = Z.land ml m ->
  Z.land (set_field ml out_lines (Z.land ml' out_lines)) m = Z.land ml' m.
Proof.
  intros [Hm|[Hm E]].
  - rewrite land_set_sub by done. by rewrite <- Z.land_assoc, (Z.land_comm out_lines), Hm.
  - rewrite land_set_other, E; [done|by rewrite Z.land_comm|].
    by rewrite <- Z.land_assoc, (Z.land_comm out_lines), Hm, Z.land_0_r.
Qed.

(** The lines a client knows of. *)
Definition port_lines : list Z := [TIOCM_DTR; TIOCM_RTS; TIOCM_DSR; TIOCM_CTS; TIOCM_CAR; TIOCM_RNG].

Lemma cmd_lines_inputs c t ml m : In m [TIOCM_DSR; TIOCM_CTS; TIOCM_CAR; TIOCM_RNG] ->
  Z.land (cmd_lines c t ml) m = Z.land ml m.
Proof.
  intros Hm. destruct c; try done. cbn [cmd_lines]. unfold flow_settings.
  repeat match goal with |- context [if ?b then _ else _] => destruct b end; try done; cbn [fst snd].
  all: simpl in Hm; repeat destruct Hm as [<-|Hm]; try done;
    rewrite ?land_clear_other, ?land_or_other by done; done.
Qed.

Lemma run_cmd_tty s fd k c :
  tty_get (kern (proc s)) fd = Some k ->
  exists p, run_cmd fd c s = Ret tt (upd_proc (fun _ => p) s) /\
    tty_get (kern p) fd =
      Some (kernel_of_termios (cmd_settings c (termios_of_kernel k uninit_termios))) /\
    (forall m, In m port_lines ->
       Z.land (tty_lines (kern p) fd) m =
       Z.land (cmd_lines c (termios_of_kernel k uninit_termios) (tty_lines (kern (proc s)) fd)) m).
Proof.
  intros Hk. destruct c.
  - destruct (SetPortSpeed_tty s fd k BaudRate Hk) as (p & ? & ? & Hl). exists p. by rewrite Hl.
  - destruct (SetPort_tty s fd k (CmdDataSize DataSize) Hk I) as (p & ? & ? & Hl). exists p. by rewrite Hl.
  - destruct (SetPort_tty s fd k (CmdParity Parity) Hk I) as (p & ? & ? & Hl). exists p. by rewrite Hl.
  - destruct (SetPort_tty s fd k (CmdStopSize StopSize) Hk I) as (p & ? & ? & Hl). exists p. by rewrite Hl.
  - destruct (SetPortFlowControl_tty s fd k How Hk) as (p & ? & ? & Hl). exists p.
    split_and!; [done|done|]. intros m Hm. rewrite Hl. apply out_lines_field.
    simpl in Hm. destruct Hm as [<-|[<-|Hm]]; [by left|by left|]. right. split.
    + by repeat destruct Hm as [<-|Hm].
    + apply cmd_lines_inputs. exact Hm.
Qed.
End PortTty.

(** The view only depends on these fields of the flag words. *)
Lemma view_of_ext t t' :
  Z.land (c_cflag t) speed_mask = Z.land (c_cflag t') speed_mask ->
  (forall m, In m [CSIZE; PARENB; PARODD; CSTOPB; CRTSCTS] ->
     Z.land (c_cflag t) m = Z.land (c_cflag t') m) ->
  (forall m, In m [IXON; IXOFF] -> Z.land (c_iflag t) m = Z.land (c_iflag t') m) ->
  view_of t = view_of t'.
Proof.
  intros Hs Hc Hi. unfold view_of, tncom_speed, cfgetospeed, Termios2TncomDataSize,
    Termios2TncomParity, Termios2TncomStopSize, Termios2TncomOutFlow, Termios2TncomInFlow.
  fold speed_mask. rewrite Hs, !(Hc CSIZE), !(Hc PARENB), !(Hc PARODD), !(Hc CSTOPB),
    !(Hc CRTSCTS), !(Hi IXON), !(Hi IXOFF) by (simpl; tauto). done.
Qed.

(** Handing settings to the kernel and reading them back keeps the view. *)
Lemma view_of_kernel_roundtrip t : view_of_kernel (kernel_of_termios t) = view_of t.
Proof.
  apply view_of_ext; [done|done|]. intros m Hm. apply land_clear_other.
  simpl in Hm. repeat destruct Hm as [<-|Hm]; done.
Qed.

(** Computes the fields of a view of updated settings. *)
Ltac view_fields :=
  unfold view_of, tncom_speed, cfgetospeed, Termios2TncomDataSize, Termios2TncomParity,
    Termios2TncomStopSize, Termios2TncomOutFlow, Termios2TncomInFlow;
  cbn [fst snd with_cflag with_iflag c_cflag c_iflag v_speed v_datasize v_parity v_stopsize
       v_outflow v_inflow];
  autorewrite with flags.

Lemma cmd_speed_view t b :
  view_of (cmd_settings (CmdSpeed b) t) = apply_cmd (CmdSpeed b) (view_of t).
Proof.
  unfold apply_cmd, cmd_settings.
  assert (exists v, switch b baud_codes B9600 = v /\ 0 < v /\ bad_speed v = false /\
    switch v speed_codes 0 = if decide (b ∈ baud_codes.*1) then b else 9600) as (v & -> & Hv & Hb & Hs).
  { eexists; split; [reflexivity|]. unfold baud_codes. simpl.
    repeat match goal with
    | |- context [b =? ?k] => destruct (Z.eqb_spec b k) as [->|]; [by vm_compute|]
    end.
    rewrite decide_False; [by vm_compute|]. rewrite list_elem_of_In. simpl. intuition congruence. }
  destruct (cfsetspeed_get t v Hv Hb) as (Hget & _ & Hc & Hi & _).
  set (t2 := (cfsetispeed _ _).2) in *.
  unfold view_of, tncom_speed. rewrite Hget, Hs.
  assert (forall m, In m [CSIZE; PARENB; PARODD; CSTOPB; CRTSCTS] ->
    Z.land (c_cflag t2) m = Z.land (c_cflag t) m) as Hc'.
  { intros m Hm. apply Hc. simpl in Hm. repeat destruct Hm as [<-|Hm]; done. }
  unfold Termios2TncomDataSize, Termios2TncomParity, Termios2TncomStopSize,
    Termios2TncomOutFlow, Termios2TncomInFlow.
  rewrite Hi, !(Hc' CSIZE), !(Hc' PARENB), !(Hc' PARODD), !(Hc' CSTOPB), !(Hc' CRTSCTS)
    by (simpl; tauto).
  autorewrite with flags. done.
Qed.

Lemma cmd_datasize_view t d :
  view_of (cmd_settings (CmdDataSize d) t) = apply_cmd (CmdDataSize d) (view_of t).
Proof.
  unfold apply_cmd, cmd_settings.
  assert (exists v, switch d [(5, CS5); (6, CS6); (7, CS7); (8, CS8)] CS8 = v /\
    In (v, if decide (d ∈ [5; 6; 7; 8]) then d else 8) [(CS5, 5); (CS6, 6); (CS7, 7); (CS8, 8)])
    as (v & -> & Hin).
  { eexists; split; [reflexivity|]. simpl.
    repeat match goal with
    | |- context [d =? ?k] => destruct (Z.eqb_spec d k) as [->|]; [by vm_compute; tauto|]
    end.
    rewrite decide_False; [by vm_compute; tauto|]. rewrite list_elem_of_In. simpl. intuition congruence. }
  simpl in Hin. repeat destruct Hin as [[= <- <-]|Hin]; try done.
  all: view_fields; reflexivity.
Qed.

Lemma cmd_parity_view t p :
  view_of (cmd_settings (CmdParity p) t) = apply_cmd (CmdParity p) (view_of t).
Proof.
  unfold apply_cmd, cmd_settings.
  destruct (Z.eqb_spec p TNCOM_ODDPARITY) as [->|]; [view_fields; reflexivity|].
  destruct (Z.eqb_spec p TNCOM_EVENPARITY) as [->|]; [view_fields; reflexivity|].
  assert ((if decide (p ∈ [TNCOM_NOPARITY; TNCOM_ODDPARITY; TNCOM_EVENPARITY]) then p
         else TNCOM_NOPARITY) = TNCOM_NOPARITY) as ->.
  { case_decide as Hp; [|done]. rewrite list_elem_of_In in Hp. simpl in Hp. intuition congruence. }
  view_fields. reflexivity.
Qed.

Lemma cmd_stopsize_view t st :
  view_of (cmd_settings (CmdStopSize st) t) = apply_cmd (CmdStopSize st) (view_of t).
Proof.
  unfold apply_cmd, cmd_settings.
  destruct (Z.eqb_spec st TNCOM_TWOSTOPBITS) as [->|].
  - rewrite decide_True by done. view_fields. reflexivity.
  - rewrite decide_False by done. view_fields. reflexivity.
Qed.

Lemma cmd_flow_view t h :
  view_of (cmd_settings (CmdFlow h) t) = apply_cmd (CmdFlow h) (view_of t).
Proof.
  unfold apply_cmd, cmd_settings, flow_settings.
  destruct (Z.eqb_spec h TNCOM_CMD_FLOW_NONE) as [->|]; [view_fields; reflexivity|].
  destruct (Z.eqb_spec h TNCOM_CMD_FLOW_XONXOFF) as [->|]; [view_fields; reflexivity|].
  destruct (Z.eqb_spec h TNCOM_CMD_FLOW_HARDWARE) as [->|]; [view_fields; reflexivity|].
  rewrite decide_False by (rewrite list_elem_of_In; simpl; intuition congruence).
  by repeat match goal with |- context [if ?b then _ else _] => destruct b end.
Qed.

Lemma cmd_view t c : view_of (cmd_settings c t) = apply_cmd c (view_of t).
Proof.
  destruct c; [apply cmd_speed_view|apply cmd_datasize_view|apply cmd_parity_view
              |apply cmd_stopsize_view|apply cmd_flow_view].
Qed.

(** ** The port: its settings and its modem lines *)

Record port : Type := mkPort {
  p_settings : port_view;
  p_dtr : bool;
  p_rts : bool;
  p_dsr : bool;
  p_cts : bool;
  p_carrier : bool;
  p_ring : bool;
}.

(** The port behind the descriptor [fd], when that is a terminal. *)
Definition tty_port {W} `{TtyKernel W} (w : W) (fd : Z) : option port :=
  k ← tty_get w fd;
  let line m := negb (Z.land (tty_lines w fd) m =? 0) in
  Some (mkPort (view_of_kernel k) (line TIOCM_DTR) (line TIOCM_RTS) (line TIOCM_DSR) (line TIOCM_CTS)
          (line TIOCM_CAR) (line TIOCM_RNG)).

(** What a request does to the port: the settings change as [apply_cmd] says,
    the four requests for DTR and RTS switch that line, and nothing else
    changes. *)
Definition apply_port (c : port_cmd) (o : port) : port :=
  let switched on off b :=
    match c with
    | CmdFlow h => if decide (h = on) then true else if decide (h = off) then false else b
    | _ => b
    end in
  mkPort (apply_cmd c (p_settings o))
    (switched TNCOM_CMD_DTR_ON TNCOM_CMD_DTR_OFF (p_dtr o))
    (switched TNCOM_CMD_RTS_ON TNCOM_CMD_RTS_OFF (p_rts o))
    (p_dsr o) (p_cts o) (p_carrier o) (p_ring o).

(** The questions of a client. *)
Inductive port_query : Type :=
| AskSpeed
| AskDataSize
| AskParity
| AskStopSize
| AskFlow (Which : Z)
| AskModem (PMState : Z).

Definition run_query {W} `{Kernel W} (fd : Z) (q : port_query) : M (St W) Z :=
  match q with
  | AskSpeed => GetPortSpeed fd
  | AskDataSize => GetPortDataSize fd
  | AskParity => GetPortParity fd
  | AskStopSize => GetPortStopSize fd
  | AskFlow w => GetPortFlowControl fd w
  | AskModem pm => GetModemState fd pm
  end.

(** What is answered: the setting; for DTR and RTS the lines of the other side
    that go with them, DSR and CTS; for the modem state a bit for each of the
    four input lines, and a bit for each that is not as [pm] has it. *)
Definition answer (q : port_query) (o : port) : Z :=
  let v := p_settings o in
  match q with
  | AskSpeed => v_speed v
  | AskDataSize => v_datasize v
  | AskParity => v_parity v
  | AskStopSize => v_stopsize v
  | AskFlow w =>
      if decide (w = TNCOM_CMD_DTR_REQ) then if p_dsr o then TNCOM_CMD_DTR_ON else TNCOM_CMD_DTR_OFF
      else if decide (w = TNCOM_CMD_RTS_REQ) then if p_cts o then TNCOM_CMD_RTS_ON else TNCOM_CMD_RTS_OFF
      else if decide (w = TNCOM_CMD_INFLOW_REQ) then v_inflow v
      else v_outflow v
  | AskModem pm =>
      let bit (b : bool) k := if b then 2 ^ k else 0 in
      let line b k := bit b k + bit (xorb b (Z.testbit pm k)) (k - 4) in
      line (p_carrier o) 7 + line (p_ring o) 6 + line (p_dsr o) 5 + line (p_cts o) 4
  end.

Lemma cmd_lines_switched c t ml m on off :
  (m = TIOCM_DTR /\ on = TNCOM_CMD_DTR_ON /\ off = TNCOM_CMD_DTR_OFF) \/
  (m = TIOCM_RTS /\ on = TNCOM_CMD_RTS_ON /\ off = TNCOM_CMD_RTS_OFF) ->
  negb (Z.land (cmd_lines c t ml) m =? 0) =
    match c with
    | CmdFlow h => if decide (h = on) then true else if decide (h = off) then false
                   else negb (Z.land ml m =? 0)
    | _ => negb (Z.land ml m =? 0)
    end.
Proof.
  intros Hm. destruct c as [b|d|p|st|h]; try done. cbn [cmd_lines]. unfold flow_settings.
  destruct Hm as [(-> & -> & ->)|(-> & -> & ->)];
  repeat match goal with |- context [h =? ?k] => destruct (Z.eqb_spec h k) as [->|] end; cbn [fst snd orb].
  all: rewrite ?decide_True, ?decide_False by done; try done.
  all: autorewrite with flags; try done.
Qed.

Lemma modem_state_answer o ml pm :
  p_carrier o = negb (Z.land ml TIOCM_CAR =? 0) -> p_ring o = negb (Z.land ml TIOCM_RNG =? 0) ->
  p_dsr o = negb (Z.land ml TIOCM_DSR =? 0) -> p_cts o = negb (Z.land ml TIOCM_CTS =? 0) ->
  modem_state ml pm = answer (AskModem pm) o.
Proof.
  intros Hc Hr Hd Ht. unfold modem_state, answer. rewrite Hc, Hr, Hd, Ht.
  assert (forall k, 0 <= k -> Z.land pm (2 ^ k) = if Z.testbit pm k then 2 ^ k else 0) as Hpm.
  { intros k Hk. apply Z.bits_inj'. intros i Hi. rewrite Z.land_spec, Z.pow2_bits_eqb by done.
    destruct (Z.eqb_spec k i) as [->|Hn]; [|rewrite andb_false_r];
      destruct (Z.testbit pm _) eqn:E; rewrite ?Z.testbit_0_l, ?E, ?Z.pow2_bits_true, ?Z.pow2_bits_false by done;
      try done. }
  change TNCOM_MODMASK_RLSD with (2 ^ 7). change TNCOM_MODMASK_RING with (2 ^ 6).
  change TNCOM_MODMASK_DSR with (2 ^ 5). change TNCOM_MODMASK_CTS with (2 ^ 4).
  rewrite !Hpm by lia. cbv zeta.
  destruct (negb (Z.land ml TIOCM_CAR =? 0)), (negb (Z.land ml TIOCM_RNG =? 0)),
    (negb (Z.land ml TIOCM_DSR =? 0)), (negb (Z.land ml TIOCM_CTS =? 0)),
    (Z.testbit pm 7), (Z.testbit pm 6), (Z.testbit pm 5), (Z.testbit pm 4); reflexivity.
Qed.

Section PortRefines.
Context {W : Type} `{TtyKernel W}.
Implicit Types s : St W.

Lemma run_cmd_port s fd o c :
  tty_port (kern (proc s)) fd = Some o ->
  exists p, run_cmd fd c s = Ret tt (upd_proc (fun _ => p) s) /\
    tty_port (kern p) fd = Some (apply_port c o).
Proof.
  unfold tty_port. destruct (tty_get (kern (proc s)) fd) as [k|] eqn:Hk; [|done].
  intros [= <-]. destruct (run_cmd_tty s fd k c Hk) as (p & E & Hg & Hl).
  exists p. split; [done|]. rewrite Hg. cbn. unfold apply_port. cbn [p_settings p_dtr p_rts p_dsr p_cts p_carrier p_ring].
  rewrite !Hl by (simpl; tauto). f_equal. rewrite view_of_kernel_roundtrip, cmd_view.
  rewrite (cmd_lines_switched c _ _ TIOCM_DTR TNCOM_CMD_DTR_ON TNCOM_CMD_DTR_OFF) by auto.
  rewrite (cmd_lines_switched c _ _ TIOCM_RTS TNCOM_CMD_RTS_ON TNCOM_CMD_RTS_OFF) by auto.
  by rewrite !cmd_lines_inputs by (simpl; tauto).
Qed.

Lemma run_query_port s fd o q :
  tty_port (kern (proc s)) fd = Some o ->
  exists p, run_query fd q s = Ret (answer q o) (upd_proc (fun _ => p) s) /\
    tty_port (kern p) fd = Some o.
Proof.
  unfold tty_port. destruct (tty_get (kern (proc s)) fd) as [k|] eqn:Hk; [|done]. intros [= <-].
  assert (forall (f : termios -> M (St W) Z) a, quiet (f (termios_of_kernel k uninit_termios)) a ->
    exists p, (t ← port_tcgetattr fd; f t) s = Ret a (upd_proc (fun _ => p) s) /\
      tty_get (kern p) fd = Some k /\ tty_lines (kern p) fd = tty_lines (kern (proc s)) fd) as Hget.
  { intros f a Hf. rewrite (bind_Ret _ _ _ _ _ (port_tcgetattr_tty s fd k Hk)).
    destruct (Hf s) as (p & E & Hp). destruct (Hp fd) as [Hg Hl]. exists p. by rewrite Hg, Hl. }
  assert (forall a, (exists p, run_query fd q s = Ret a (upd_proc (fun _ => p) s) /\
      tty_get (kern p) fd = Some k /\ tty_lines (kern p) fd = tty_lines (kern (proc s)) fd) ->
    exists p, run_query fd q s = Ret a (upd_proc (fun _ => p) s) /\ tty_port (kern p) fd = tty_port (kern (proc s)) fd) as Hport.
  { intros a (p & E & Hg & Hl). exists p. split; [done|]. unfold tty_port. by rewrite Hg, Hk, Hl. }
  unfold tty_port in Hport. rewrite Hk in Hport. apply Hport. destruct q; cbn [run_query].
  - apply (Hget Termios2TncomSpeed). apply quiet_Termios2TncomSpeed.
  - apply (Hget (fun t => mret (Termios2TncomDataSize t))). apply quiet_mret.
  - apply (Hget (fun t => mret (Termios2TncomParity t))). apply quiet_mret.
  - apply (Hget (fun t => mret (Termios2TncomStopSize t))). apply quiet_mret.
  - exists (proc s). unfold GetPortFlowControl.
    rewrite (bind_Ret _ _ _ _ _ (port_tcgetattr_tty s fd k Hk)), (bind_Ret _ _ _ _ _ (port_mlines_tty s fd k Hk)).
    split; [|by rewrite Hk]. destruct s. cbn [answer p_settings p_dsr p_cts].
    repeat case_decide; subst; rewrite ?Z.eqb_refl, ?(proj2 (Z.eqb_neq _ _)) by done; done.
  - exists (proc s). unfold GetModemState. rewrite (bind_Ret _ _ _ _ _ (port_mlines_tty s fd k Hk)).
    split; [|by rewrite Hk]. unfold mret, M_ret. f_equal; [by apply modem_state_answer|by destruct s].
Qed.
End PortRefines.

(** C33: on a terminal that stores the settings and the lines it is given,
    every setter returns and does to the port what the abstract request says: a
    supported value is set exactly, an unsupported one becomes the default
    (9600 baud, 8 data bits, no parity, one stop bit), the requests for DTR and
    RTS switch exactly that line, and every other setting and line stays as it
    was; and every getter returns, answers from the same abstract port (the
    requests for DTR and RTS with the lines DSR and CTS, as the code does), and
    leaves it as it was. *)
Theorem port_cmd_refines {W} `{TtyKernel W} (s : St W) fd o c q :
  tty_port (kern (proc s)) fd = Some o ->
  (exists p, run_cmd fd c s = Ret tt (upd_proc (fun _ => p) s) /\
     tty_port (kern p) fd = Some (apply_port c o)) /\
  (exists p, run_query fd q s = Ret (answer q o) (upd_proc (fun _ => p) s) /\
     tty_port (kern p) fd = Some o).
Proof. intros Ho. split; [by apply run_cmd_port|by apply run_query_port]. Qed.

(** A request to raise DTR, and the question for the parity, on a terminal whose
    settings are all zero. *)
Lemma port_cmd_refines_witness :
  let s := sim_session (sim_idle sim_blank) in
  exists o, tty_port (kern (proc s)) 3 = Some o /\ p_dtr o = false /\
  p_dtr (apply_port (CmdFlow TNCOM_CMD_DTR_ON) o) = true /\
  (exists p, run_cmd 3 (CmdFlow TNCOM_CMD_DTR_ON) s = Ret tt (upd_proc (fun _ => p) s) /\
     tty_port (kern p) 3 = Some (apply_port (CmdFlow TNCOM_CMD_DTR_ON) o)) /\
  (exists p, run_query 3 AskParity s = Ret (answer AskParity o) (upd_proc (fun _ => p) s) /\
     tty_port (kern p) 3 = Some o).
Proof.
  eexists. split; [vm_compute; reflexivity|]. split; [reflexivity|]. split; [reflexivity|].
  apply (port_cmd_refines (sim_session (sim_idle sim_blank)) 3). vm_compute. reflexivity.
Defined.
