(* ===== verification/UnixLock.v ===== *)
(** * Lock file and port life cycle (src/apps/sercd/unix.c, lines 593-814 and 910-960)

    The HDB lock file, opening and closing the port, dropping a connection and
    the exit handlers. *)

From S2P Require Import Prelude RingBuffer CStdlib Termios Kernel SimKernel LibcTty SercdState.
From S2P Require Import UnixPort.

Definition LockOk : Z := 0.
Definition Locked : Z := 1.
Definition LockKo : Z := 2.
Definition LockFileMode : Z := 420.   (* 0644 *)
Definition HDBHeaderLen : Z := 11.

(** The string in a buffer: up to the first NUL. *)
Fixpoint c_string (bs : bytes) : cstr :=
  match bs with
  | c :: bs' => if c =? 0 then [] else c :: c_string bs'
  | [] => []
  end.

(** [snprintf (HDBBuffer, sizeof (HDBBuffer), "%10d\n", LockPid)], and the
    bytes of it that are written. *)
Definition HDBText (LockPid : Z) : bytes :=
  take (Z.to_nat HDBHeaderLen) (snprintf 12 (pad_left 10 (sdec LockPid) ++ [10])).

Section UnixLock.
Context {W : Type} `{Kernel W}.
Abbreviation SM A := (M (St W) A) (only parsing).

Definition LogLine (level : Z) (s : cstr) : SM unit := LogMsg level (snprintf TmpStrLen s).

(** The part of the loop after the header of an existing lock file was read;
    [retry] is the next turn of the loop. *)
Definition HDBLockFile_examine (retry : SM (Z + Z)) (LockFile : cstr) (LockPid N : Z)
    (bs : bytes) : SM (Z + Z) :=
  if N <=? 0 then
    LogLine LOG_NOTICE (lit "Can't read pid from lock file " ++ LockFile ++ lit ".") ;;
    mret (inr LockKo)
  else
    let Pid := atoi (c_string (map u8 bs)) in
    if Pid =? LockPid then
      LogLine LOG_DEBUG (lit "Read our pid from lock " ++ LockFile ++ lit ".") ;;
      mret (inr LockOk)
    else
      stale ← (if Pid =? 0 then mret true
               else
                 r ← sys (syscall (k_kill Pid 0));
                 err ← gets (fun s => errno (proc s));
                 mret (negb (r =? 0) && (err =? ESRCH)));
      if (stale : bool) then
        r ← sys (syscall (k_unlink LockFile));
        if r =? NoError then
          LogLine LOG_NOTICE (lit "Removed stale lock " ++ LockFile ++ lit " (pid "
            ++ sdec Pid ++ lit ").") ;;
          retry
        else
          LogLine LOG_ERR (lit "Couldn't remove stale lock " ++ LockFile ++ lit " (pid "
            ++ sdec Pid ++ lit ").") ;;
          mret (inr LockKo)
      else
        LogLine LOG_INFO (lit "Lock " ++ LockFile ++ lit " is owned by pid " ++ sdec Pid
          ++ lit ".") ;;
        mret (inr Locked).

(** The loop that creates the lock file: the descriptor, or the value to
    return.  Every turn but the last removes a stale lock file. *)
Fixpoint HDBLockFile_loop (fuel : nat) (LockFile : cstr) (LockPid : Z) : SM (Z + Z) :=
  match fuel with
  | O => stop_with OutOfFuel
  | S fuel' =>
      FileDes ← sys (syscall (k_open LockFile O_LOCK LockFileMode));
      if negb (FileDes =? OpenError) then mret (inl FileDes)
      else
        err ← gets (fun s => errno (proc s));
        FileDes ← (if err =? EEXIST then sys (syscall (k_open LockFile O_RDONLY 0))
                   else mret OpenError);
        if negb (FileDes =? OpenError) then
          '(N, bs) ← sys (syscall_out (k_read FileDes HDBHeaderLen));
          sys (syscall (k_close FileDes)) ;;
          HDBLockFile_examine (HDBLockFile_loop fuel' LockFile LockPid) LockFile LockPid N bs
        else
          LogLine LOG_ERR (lit "Can't create lock file " ++ LockFile ++ lit ".") ;;
          mret (inr LockKo)
  end.

Definition HDBLockFile (fuel : nat) (LockFile : cstr) (LockPid : Z) : SM Z :=
  r ← HDBLockFile_loop fuel LockFile LockPid;
  match r with
  | inr code => mret code
  | inl FileDes =>
      n ← sys (syscall (k_write FileDes (HDBText LockPid)));
      if negb (n =? HDBHeaderLen) then
        sys (syscall (k_close FileDes)) ;;
        LogLine LOG_ERR (lit "Can't write HDB header to lock file " ++ LockFile ++ lit ".") ;;
        sys (syscall (k_unlink LockFile)) ;;
        mret LockKo
      else
        sys (syscall (k_close FileDes)) ;;
        mret LockOk
  end.

Definition HDBUnlockFile (fuel : nat) (LockFile : cstr) (LockPid : Z) : SM unit :=
  r ← HDBLockFile fuel LockFile LockPid;
  when (r =? LockOk)
    (sys (syscall (k_unlink LockFile)) ;;
     LogLine LOG_NOTICE (lit "Unlocked lock file " ++ LockFile ++ lit ".")).

Definition getpid : SM Z := gets (fun s => k_getpid (kern (proc s))).

(** [*PortFd] is the second component of the result. *)
Definition OpenPort (fuel : nat) (DeviceName LockFileName : cstr) : SM (Z * Z) :=
  pid ← getpid;
  r ← HDBLockFile fuel LockFileName pid;
  if negb (r =? LockOk) then
    LogLine LOG_NOTICE (lit "Unable to lock " ++ LockFileName ++ lit ". Exiting.") ;;
    mret (Error, OpenError)
  else
    LogLine LOG_INFO (lit "Device " ++ DeviceName ++ lit " locked.") ;;
    PortFd ← sys (syscall (k_open DeviceName (Z.lor O_RDWR (Z.lor O_NOCTTY O_NONBLOCK)) 0));
    if PortFd =? OpenError then mret (Error, PortFd)
    else
      old ← get_plat InitialPortSettings;
      '(_, initial) ← sys (tcgetattr PortFd (default uninit_termios old));
      put_plat (set_InitialPortSettings (Some initial)) ;;
      '(_, PortSettings) ← sys (tcgetattr PortFd uninit_termios);
      UnixLogPortSettings PortSettings ;;
      let PortSettings := cfmakeraw PortSettings in
      let PortSettings :=
        with_cflag (Z.lor (Z.lor (c_cflag PortSettings) HUPCL) CLOCAL) PortSettings in
      let PortSettings :=
        with_iflag (Z.lor (Z.land (c_iflag PortSettings) (Z.lnot IGNBRK)) BRKINT) PortSettings in
      sys (tcsetattr PortFd TCSANOW PortSettings) ;;
      mret (NoError, PortFd).

Definition ClosePort (fuel : nat) (PortFd : Z) (LockFileName : cstr) : SM unit :=
  initial ← get_plat InitialPortSettings;
  (match initial with
   | Some t => sys (tcsetattr PortFd TCSANOW t) ;; mret tt
   | None => mret tt
   end) ;;
  sys (syscall (k_close PortFd)) ;;
  pid ← getpid;
  HDBUnlockFile fuel LockFileName pid ;;
  err ← get_opt StdErrLogging;
  when (negb err) (sys (on_kern k_closelog)).

Definition DropConnection (fuel : nat) (DeviceFd InSocketFd OutSocketFd : option Z)
    (LockFileName : cstr) : SM unit :=
  (match DeviceFd with Some fd => ClosePort fuel fd LockFileName | None => mret tt end) ;;
  (match InSocketFd with
   | Some fd => sys (syscall (k_close fd)) ;; mret tt | None => mret tt end) ;;
  (match OutSocketFd with
   | Some fd => sys (syscall (k_close fd)) ;; mret tt | None => mret tt end).

(** [ExitFunction] of sercd.c. *)
Definition ExitFunction (fuel : nat) : SM unit :=
  c ← gets con;
  lock ← get_opt LockFileName;
  DropConnection fuel (DeviceFd c) (InSocketFd c) (OutSocketFd c) lock ;;
  LogMsg LOG_NOTICE (lit "sercd stopped.").

(** [exit]: the handler registered with [atexit] runs first. *)
Definition exit_ {A} (fuel : nat) (status : Z) : SM A :=
  reg ← get_plat exit_registered;
  when reg (ExitFunction fuel) ;;
  stop_with (Exited status).

Definition SignalFunction (fuel : nat) : SM unit := ExitFunction fuel.

Definition BreakFunction (fuel : nat) : SM unit := exit_ fuel NoError.

(** The signal handlers are [SignalFunction] (HUP, QUIT, ABRT, TERM) and
    [BreakFunction] (INT); their registration is not part of the state. *)
Definition PlatformInit : SM unit :=
  err ← get_opt StdErrLogging;
  when (negb err) (sys (on_kern k_openlog)) ;;
  put_plat (set_exit_registered true).
End UnixLock.

(** ** The lock as a contract *)

(** What an attempt of process [me] to lock does, given the contents of the
    lock file: the result and the new contents.  [readable] and [writable] are
    our rights to the file, [room] whether the disk takes the header. *)
Definition lock_spec (me : Z) (alive : Z -> bool) (readable writable room : bool) (c : option bytes)
    : Z * option bytes :=
  let create :=
    if writable then if room then (LockOk, Some (HDBText me)) else (LockKo, None)
    else (LockKo, c) in
  match c with
  | None => create
  | Some t =>
      let holder := atoi (c_string (map u8 (take 11 t))) in
      if negb readable || bool_decide (t = []) then (LockKo, c)
      else if holder =? me then (LockOk, c)
      else if (holder =? 0) || negb (alive holder) then create
      else (Locked, c)
  end.

Definition set_file (p : cstr) (c : option bytes) (m : gmap cstr bytes) : gmap cstr bytes :=
  match c with Some t => <[p := t]> m | None => delete p m end.

Lemma set_file_same (p : cstr) (m : gmap cstr bytes) : set_file p (m !! p) m = m.
Proof. unfold set_file. destruct (m !! p) eqn:E; [by apply insert_id|by apply delete_id]. Qed.

Lemma set_file_delete (p : cstr) (c : option bytes) (m : gmap cstr bytes) : set_file p c (delete p m) = set_file p c m.
Proof. destruct c; [apply insert_delete_eq|apply delete_delete_eq]. Qed.

Section LockProofs.
Context {W : Type} `{FileKernel W}.
Implicit Types s : St W.

Definition with_kern (e : Z) (w : W) (s : St W) : St W := upd_proc (fun _ => mkProc e w) s.

Definition same_fs (w w' : W) : Prop := files w' = files w /\ file_frame w w'.

Lemma file_frame_trans w1 w2 w3 : file_frame w1 w2 -> file_frame w2 w3 -> file_frame w1 w3.
Proof. unfold file_frame. intuition congruence. Qed.

Lemma same_fs_trans w1 w2 w3 : same_fs w1 w2 -> same_fs w2 w3 -> same_fs w1 w3.
Proof. intros [? ?] [? ?]. split; [congruence|by eapply file_frame_trans]. Qed.

Lemma same_fs_refl w : same_fs w w.
Proof. by split_and!. Qed.

Lemma sys_syscall s (f : W -> Z * Z * W) r e w :
  f (kern (proc s)) = (r, e, w) ->
  sys (syscall f) s = Ret r (with_kern (if r <? 0 then e else errno (proc s)) w s).
Proof. intros E. unfold sys, syscall. by rewrite E. Qed.

Lemma sys_syscall_out {A} s (f : W -> Z * Z * A * W) r e a w :
  f (kern (proc s)) = (r, e, a, w) ->
  sys (syscall_out f) s = Ret (r, a) (with_kern (if r <? 0 then e else errno (proc s)) w s).
Proof. intros E. unfold sys, syscall_out. by rewrite E. Qed.

(** A computation that only acts on the process state and keeps the files. *)
Definition KeepsFiles {A} (m : M (St W) A) (a : A) : Prop :=
  forall s, exists e w, m s = Ret a (with_kern e w s) /\ same_fs (kern (proc s)) w.

Lemma keeps_mret {A} (a : A) : KeepsFiles (mret a) a.
Proof.
  intros s. exists (errno (proc s)), (kern (proc s)). split; [by destruct s as [? ? ? ? ? []]|].
  apply same_fs_refl.
Qed.

Lemma keeps_LogLine l m : KeepsFiles (LogLine l m) tt.
Proof.
  intros s. unfold LogLine, LogMsg, get_opt. rewrite bind_gets. unfold when.
  case_match; [|apply keeps_mret]. rewrite bind_gets. unfold sys, on_kern, modify.
  case_match; (do 2 eexists; split; [done|]); [apply file_stderr|apply file_syslog].
Qed.

Lemma keeps_log_return {A} l m (a : A) : KeepsFiles (LogLine l m ;; mret a) a.
Proof.
  intros s. destruct (keeps_LogLine l m s) as (e & w & E & Hfs).
  exists e, w. by rewrite (bind_Ret _ _ _ _ _ E).
Qed.

Lemma keeps_close fd s :
  exists r e w, sys (syscall (k_close fd)) s = Ret r (with_kern e w s) /\
    same_fs (kern (proc s)) w.
Proof.
  destruct (file_close (kern (proc s)) fd) as (r & e & w & E & Hf & Hfr).
  do 3 eexists. split; [by apply sys_syscall|done].
Qed.

(** *** One turn of the loop *)

Lemma lock_turn_new fuel p me s :
  files (kern (proc s)) !! p = None -> may_write (kern (proc s)) p = true ->
  exists fd e w, HDBLockFile_loop (S fuel) p me s = Ret (inl fd) (with_kern e w s) /\
    files w = <[p := []]> (files (kern (proc s))) /\ fd_file w fd = Some (p, 0) /\
    file_frame (kern (proc s)) w.
Proof.
  intros Hp Hw. destruct (file_open_excl_new _ p LockFileMode Hp Hw)
    as (fd & e & w & E & Hfd & Hf & Hff & Hfr).
  do 3 eexists. split; [|done]. cbn [HDBLockFile_loop].
  rewrite (bind_Ret _ _ _ _ _ (sys_syscall _ _ _ _ _ E)).
  assert ((fd =? OpenError) = false) as -> by (apply Z.eqb_neq; unfold OpenError; lia). done.
Qed.

Lemma lock_turn_denied fuel p me s :
  files (kern (proc s)) !! p = None -> may_write (kern (proc s)) p = false ->
  exists e w, HDBLockFile_loop (S fuel) p me s = Ret (inr LockKo) (with_kern e w s) /\
    same_fs (kern (proc s)) w.
Proof.
  intros Hp Hw. destruct (file_open_excl_denied _ p LockFileMode Hp Hw) as (e & E & He).
  destruct (keeps_log_return LOG_ERR (lit "Can't create lock file " ++ p ++ lit ".")
    (inr LockKo : Z + Z) (with_kern e (kern (proc s)) s)) as (e1 & w1 & E1 & Hfs).
  exists e1, w1. split; [|done]. cbn [HDBLockFile_loop].
  rewrite (bind_Ret _ _ _ _ _ (sys_syscall _ _ _ _ _ E)).
  change (negb (-1 =? OpenError)) with false. cbv iota.
  rewrite bind_gets. simpl errno. apply Z.eqb_neq in He. rewrite He. exact E1.
Qed.

(** A file that exists but cannot be read is reported as one that cannot be
    created. *)
Lemma lock_turn_hidden fuel p me s t :
  files (kern (proc s)) !! p = Some t -> may_read (kern (proc s)) p = false ->
  exists e w, HDBLockFile_loop (S fuel) p me s = Ret (inr LockKo) (with_kern e w s) /\
    same_fs (kern (proc s)) w.
Proof.
  intros Hp Hr. pose proof (file_open_excl_exists _ p LockFileMode _ Hp) as E.
  destruct (file_open_read_denied _ p 0 _ Hp Hr) as (e1 & E1).
  set (s1 := with_kern EEXIST (kern (proc s)) s).
  destruct (keeps_log_return LOG_ERR (lit "Can't create lock file " ++ p ++ lit ".")
    (inr LockKo : Z + Z) (with_kern e1 (kern (proc s)) s1)) as (e2 & w2 & E2 & Hfs).
  exists e2, w2. split; [|done]. cbn [HDBLockFile_loop].
  rewrite (bind_Ret _ _ _ _ _ (sys_syscall _ _ _ _ _ E)).
  change (negb (-1 =? OpenError)) with false. cbv iota.
  change (with_kern (if -1 <? 0 then EEXIST else errno (proc s)) (kern (proc s)) s) with s1.
  rewrite bind_gets. change (errno (proc s1) =? EEXIST) with true. cbv iota.
  rewrite (bind_Ret _ _ _ _ _ (sys_syscall s1 _ _ _ _ E1)). exact E2.
Qed.

Lemma lock_turn_exists fuel p me s t :
  files (kern (proc s)) !! p = Some t -> may_read (kern (proc s)) p = true ->
  exists e w, same_fs (kern (proc s)) w /\
    HDBLockFile_loop (S fuel) p me s =
      HDBLockFile_examine (HDBLockFile_loop fuel p me) p me
        (Z.of_nat (length (take 11 t))) (take 11 t) (with_kern e w s).
Proof.
  intros Hp Hr. pose proof (file_open_excl_exists _ p LockFileMode _ Hp) as E.
  destruct (file_open_read _ p 0 _ Hp Hr) as (fd & e1 & w1 & E1 & Hfd & Hf1 & Hff & Hfr1).
  destruct (file_read w1 fd p HDBHeaderLen t) as (e2 & w2 & E2 & Hf2 & Hfr2);
    [done|by rewrite Hf1|done|].
  set (s1 := with_kern EEXIST (kern (proc s)) s).
  set (s2 := with_kern (if fd <? 0 then e1 else errno (proc s1)) w1 s1).
  set (s3 := with_kern (if Z.of_nat (length (take (Z.to_nat HDBHeaderLen) t)) <? 0 then e2
                        else errno (proc s2)) w2 s2).
  destruct (keeps_close fd s3) as (r4 & e4 & w4 & E4 & Hfs4).
  exists e4, w4. split.
  { eapply same_fs_trans; [split; [exact Hf1|exact Hfr1]|].
    eapply same_fs_trans; [split; [exact Hf2|exact Hfr2]|exact Hfs4]. }
  cbn [HDBLockFile_loop].
  rewrite (bind_Ret _ _ _ _ _ (sys_syscall _ _ _ _ _ E)).
  change (negb (-1 =? OpenError)) with false. cbv iota.
  change (with_kern (if -1 <? 0 then EEXIST else errno (proc s)) (kern (proc s)) s) with s1.
  rewrite bind_gets. change (errno (proc s1) =? EEXIST) with true. cbv iota.
  rewrite (bind_Ret _ _ _ _ _ (sys_syscall s1 _ _ _ _ E1)).
  assert ((fd =? OpenError) = false) as -> by (apply Z.eqb_neq; unfold OpenError; lia).
  change (negb false) with true. cbv iota. fold s2.
  rewrite (bind_Ret _ _ _ _ _ (sys_syscall_out s2 _ _ _ _ _ E2)). fold s3.
  rewrite (bind_Ret _ _ _ _ _ E4). done.
Qed.

(** *** Examining the holder *)

Definition holder_of (t : bytes) : Z := atoi (c_string (map u8 (take 11 t))).

Lemma stale_test s pid :
  0 <= pid ->
  exists e w,
    (if pid =? 0 then mret true
     else r ← sys (syscall (k_kill pid 0));
          err ← gets (fun s => errno (proc s));
          mret (negb (r =? 0) && (err =? ESRCH))) s =
      Ret ((pid =? 0) || negb (alive (kern (proc s)) pid)) (with_kern e w s) /\
    same_fs (kern (proc s)) w.
Proof.
  intros Hp. destruct (Z.eqb_spec pid 0) as [->|].
  { destruct (keeps_mret true s) as (e & w & E & Hfs). by exists e, w. }
  destruct (file_kill (kern (proc s)) pid) as (r & err & w & E & Hr & Hf & Hfr); [lia|].
  do 2 eexists. rewrite (bind_Ret _ _ _ _ _ (sys_syscall _ _ _ _ _ E)), bind_gets.
  split; [|by split]. by destruct (alive (kern (proc s)) pid); [destruct Hr as [->|[-> ->]]|destruct Hr as [-> ->]].
Qed.

Section Examine.
Context (retry : M (St W) (Z + Z)) (p : cstr) (me : Z) (t : bytes).

Let examine : M (St W) (Z + Z) :=
  HDBLockFile_examine retry p me (Z.of_nat (length (take 11 t))) (take 11 t).

Lemma examine_empty : t = [] -> KeepsFiles examine (inr LockKo).
Proof. intros ->. apply keeps_log_return. Qed.

Lemma examine_nonempty : t <> [] -> (Z.of_nat (length (take 11 t)) <=? 0) = false.
Proof. destruct t; [done|]. intros _. apply Z.leb_gt. simpl. lia. Qed.

Lemma examine_own : t <> [] -> holder_of t = me -> KeepsFiles examine (inr LockOk).
Proof.
  intros Ht Hh s. unfold examine, HDBLockFile_examine. rewrite examine_nonempty by done.
  fold (holder_of t). rewrite Hh, Z.eqb_refl. apply keeps_log_return.
Qed.

Context (Ht : t <> []) (Hme : holder_of t <> me) (Hpos : 0 <= holder_of t).

Lemma examine_held s :
  ((holder_of t =? 0) || negb (alive (kern (proc s)) (holder_of t))) = false ->
  exists e w, examine s = Ret (inr Locked) (with_kern e w s) /\ same_fs (kern (proc s)) w.
Proof.
  intros Hst. unfold examine, HDBLockFile_examine. rewrite examine_nonempty by done.
  fold (holder_of t). rewrite (proj2 (Z.eqb_neq _ _) Hme).
  destruct (stale_test s (holder_of t) Hpos) as (e & w & E & Hfs). rewrite Hst in E.
  rewrite (bind_Ret _ _ _ _ _ E). cbv iota.
  destruct (keeps_log_return LOG_INFO (lit "Lock " ++ p ++ lit " is owned by pid "
    ++ sdec (holder_of t) ++ lit ".") (inr Locked : Z + Z) (with_kern e w s)) as (e1 & w1 & E1 & Hfs1).
  exists e1, w1. split; [exact E1|by eapply same_fs_trans].
Qed.

Context (s : St W) (Hf : files (kern (proc s)) !! p = Some t)
  (Hst : ((holder_of t =? 0) || negb (alive (kern (proc s)) (holder_of t))) = true).

(** Runs the examination of a stale lock up to [unlink]. *)
Lemma examine_stale :
  exists e w, same_fs (kern (proc s)) w /\
    examine s =
      (r ← sys (syscall (k_unlink p));
       if r =? NoError then
         LogLine LOG_NOTICE (lit "Removed stale lock " ++ p ++ lit " (pid "
           ++ sdec (holder_of t) ++ lit ").") ;;
         retry
       else
         LogLine LOG_ERR (lit "Couldn't remove stale lock " ++ p ++ lit " (pid "
           ++ sdec (holder_of t) ++ lit ").") ;;
         mret (inr LockKo)) (with_kern e w s).
Proof.
  destruct (stale_test s (holder_of t) Hpos) as (e & w & E & Hfs). rewrite Hst in E.
  exists e, w. split; [done|]. unfold examine, HDBLockFile_examine. rewrite examine_nonempty by done.
  fold (holder_of t). rewrite (proj2 (Z.eqb_neq _ _) Hme). by rewrite (bind_Ret _ _ _ _ _ E).
Qed.

Lemma examine_stale_removed :
  may_write (kern (proc s)) p = true ->
  exists e w, examine s = retry (with_kern e w s) /\
    files w = delete p (files (kern (proc s))) /\ file_frame (kern (proc s)) w.
Proof.
  intros Hw. destruct examine_stale as (e & w & (Hf1 & Hfr1) & ->).
  destruct (file_unlink w p t) as (e2 & w2 & E2 & Hf2 & Hfr2).
  { by rewrite Hf1. } { destruct Hfr1 as (_ & -> & _). done. }
  set (s1 := with_kern e w s). rewrite (bind_Ret _ _ _ _ _ (sys_syscall s1 _ _ _ _ E2)).
  change (0 =? NoError) with true. cbv iota.
  destruct (keeps_LogLine LOG_NOTICE (lit "Removed stale lock " ++ p ++ lit " (pid "
    ++ sdec (holder_of t) ++ lit ").") (with_kern (if 0 <? 0 then e2 else errno (proc s1)) w2 s1))
    as (e3 & w3 & E3 & (Hf3 & Hfr3)).
  exists e3, w3. rewrite (bind_Ret _ _ _ _ _ E3). split; [done|]. simpl in *. split.
  - by rewrite Hf3, Hf2, Hf1.
  - eapply file_frame_trans; [done|]. by eapply file_frame_trans.
Qed.

Lemma examine_stale_denied :
  may_write (kern (proc s)) p = false ->
  exists e w, examine s = Ret (inr LockKo) (with_kern e w s) /\ same_fs (kern (proc s)) w.
Proof.
  intros Hw. destruct examine_stale as (e & w & (Hf1 & Hfr1) & ->).
  destruct (file_unlink_denied w p t) as (e2 & E2).
  { by rewrite Hf1. } { destruct Hfr1 as (_ & -> & _). done. }
  set (s1 := with_kern e w s). rewrite (bind_Ret _ _ _ _ _ (sys_syscall s1 _ _ _ _ E2)).
  change (-1 =? NoError) with false. cbv iota.
  destruct (keeps_log_return LOG_ERR (lit "Couldn't remove stale lock " ++ p ++ lit " (pid "
    ++ sdec (holder_of t) ++ lit ").") (inr LockKo : Z + Z)
    (with_kern (if -1 <? 0 then e2 else errno (proc s1)) w s1)) as (e3 & w3 & E3 & Hfs3).
  exists e3, w3. split; [exact E3|]. eapply same_fs_trans; [|exact Hfs3]. by split.
Qed.
End Examine.

(** *** Writing the header *)

Lemma HDBText_length me : length (HDBText me) = 11%nat.
Proof.
  unfold HDBText, snprintf, pad_left. change (Z.to_nat HDBHeaderLen) with 11%nat.
  rewrite !length_take, !length_app, length_replicate. cbn [length]. lia.
Qed.

(** The lock file was just created, empty, as descriptor [fd]: it is filled, or
    removed again when the disk is full. *)
Lemma lock_fill fuel p me s fd e w m :
  HDBLockFile_loop fuel p me s = Ret (inl fd) (with_kern e w s) ->
  files w = <[p := []]> m -> fd_file w fd = Some (p, 0) -> may_write w p = true ->
  exists e' w', HDBLockFile fuel p me s = Ret (if has_room w then LockOk else LockKo) (with_kern e' w' s) /\
    files w' = set_file p (if has_room w then Some (HDBText me) else None) m /\ file_frame w w'.
Proof.
  intros E Hf Hfd Hmw.
  assert (files w !! p = Some []) as Hp by (rewrite Hf; apply lookup_insert_eq).
  unfold HDBLockFile. rewrite (bind_Ret _ _ _ _ _ E). cbv beta iota. set (s1 := with_kern e w s).
  destruct (has_room w) eqn:Hroom.
  - destruct (file_write w fd p (HDBText me) Hfd Hp Hroom) as (e1 & w1 & E1 & Hf1 & Hfr1).
    rewrite HDBText_length in E1.
    destruct (keeps_close fd (with_kern (if Z.of_nat 11 <? 0 then e1 else errno (proc s1)) w1 s1))
      as (r2 & e2 & w2 & E2 & (Hf2 & Hfr2)).
    exists e2, w2. rewrite (bind_Ret _ _ _ _ _ (sys_syscall s1 _ _ _ _ E1)).
    change (negb (Z.of_nat 11 =? HDBHeaderLen)) with false. cbv iota.
    rewrite (bind_Ret _ _ _ _ _ E2). simpl in *. split_and!; [done| |by eapply file_frame_trans].
    by rewrite Hf2, Hf1, Hf, insert_insert_eq.
  - destruct (file_write_short w fd p (HDBText me) Hfd Hp Hroom) as (n & e1 & w1 & E1 & Hn & Hf1 & Hfr1).
    { intros E0. pose proof (HDBText_length me) as Hl. by rewrite E0 in Hl. }
    rewrite HDBText_length in Hn.
    destruct (keeps_close fd (with_kern (if n <? 0 then e1 else errno (proc s1)) w1 s1))
      as (r2 & e2 & w2 & E2 & (Hf2 & Hfr2)).
    destruct (keeps_LogLine LOG_ERR (lit "Can't write HDB header to lock file " ++ p ++ lit ".")
      (with_kern e2 w2 (with_kern (if n <? 0 then e1 else errno (proc s1)) w1 s1)))
      as (e3 & w3 & E3 & (Hf3 & Hfr3)). simpl in Hf2, Hfr2, Hf3, Hfr3.
    destruct (file_unlink w3 p (take (Z.to_nat n) (HDBText me))) as (e4 & w4 & E4 & Hf4 & Hfr4).
    { by rewrite Hf3, Hf2, Hf1, lookup_insert_eq. }
    { destruct Hfr1 as (_ & R1 & _), Hfr2 as (_ & R2 & _), Hfr3 as (_ & R3 & _). by rewrite R3, R2, R1. }
    do 2 eexists. rewrite (bind_Ret _ _ _ _ _ (sys_syscall s1 _ _ _ _ E1)).
    rewrite (proj2 (Z.eqb_neq n HDBHeaderLen)) by (unfold HDBHeaderLen; lia).
    change (negb false) with true. cbv iota. rewrite (bind_Ret _ _ _ _ _ E2), (bind_Ret _ _ _ _ _ E3).
    rewrite (bind_Ret _ _ _ _ _ (sys_syscall
      (with_kern e3 w3 (with_kern e2 w2 (with_kern (if n <? 0 then e1 else errno (proc s1)) w1 s1)))
      _ _ _ _ E4)).
    split; [reflexivity|]. split.
    + rewrite Hf4, Hf3, Hf2, Hf1, Hf. by rewrite insert_insert_eq, delete_insert_eq.
    + do 3 (eapply file_frame_trans; [done|]). done.
Qed.

(** The loop gave up or found our own lock: [HDBLockFile] returns its code. *)
Lemma lock_code fuel p me s code e w :
  HDBLockFile_loop fuel p me s = Ret (inr code) (with_kern e w s) ->
  same_fs (kern (proc s)) w ->
  exists e' w', HDBLockFile fuel p me s = Ret code (with_kern e' w' s) /\
    files w' = set_file p (files (kern (proc s)) !! p) (files (kern (proc s))) /\
    file_frame (kern (proc s)) w'.
Proof.
  intros E [Hf Hfr]. exists e, w. unfold HDBLockFile. rewrite (bind_Ret _ _ _ _ _ E).
  split; [done|]. by rewrite set_file_same.
Qed.

Lemma lock_create fuel p me s :
  let w := kern (proc s) in
  files w !! p = None -> may_write w p = true ->
  exists e' w', HDBLockFile (S fuel) p me s = Ret (if has_room w then LockOk else LockKo) (with_kern e' w' s) /\
    files w' = set_file p (if has_room w then Some (HDBText me) else None) (files w) /\ file_frame w w'.
Proof.
  intros w Hp Hw. destruct (lock_turn_new fuel p me s Hp Hw) as (fd & e & w1 & E & Hf & Hfd & Hfr).
  pose proof Hfr as (_ & Hmw & _ & _ & Hroom).
  destruct (lock_fill _ _ _ _ _ _ _ _ E Hf Hfd) as (e' & w' & E' & Hf' & Hfr'); [by rewrite Hmw|].
  rewrite Hroom in E', Hf'. exists e', w'. split_and!; [done|done|by eapply file_frame_trans].
Qed.

(** A stale lock is replaced by ours in the second turn. *)
Lemma lock_replace fuel p me s t :
  let w := kern (proc s) in
  files w !! p = Some t -> may_read w p = true -> may_write w p = true -> t <> [] -> holder_of t <> me ->
  0 <= holder_of t -> ((holder_of t =? 0) || negb (alive w (holder_of t))) = true ->
  exists e' w', HDBLockFile (S (S fuel)) p me s = Ret (if has_room w then LockOk else LockKo) (with_kern e' w' s) /\
    files w' = set_file p (if has_room w then Some (HDBText me) else None) (files w) /\ file_frame w w'.
Proof.
  intros w Hp Hr Hw Ht Hme Hpos Hst.
  destruct (lock_turn_exists (S fuel) p me s t Hp Hr) as (e & v & (Hfv & Hfrv) & E).
  pose proof Hfrv as (Hal & Hmw & _).
  destruct (examine_stale_removed (HDBLockFile_loop (S fuel) p me) p me t Ht Hme Hpos
    (with_kern e v s)) as (e1 & w1 & E1 & Hf1 & Hfr1);
    [simpl; by rewrite Hfv|simpl; by rewrite Hal|simpl; by rewrite Hmw|].
  simpl in Hf1, Hfr1. rewrite Hfv in Hf1.
  assert (file_frame w w1) as Hfrw1 by by eapply file_frame_trans.
  destruct (lock_turn_new fuel p me (with_kern e1 w1 s)) as (fd & e2 & w2 & E2 & Hf2 & Hfd2 & Hfr2).
  { simpl. rewrite Hf1. by rewrite lookup_delete_eq. }
  { simpl. destruct Hfrw1 as (_ & -> & _). done. }
  simpl in Hf2, Hfr2. rewrite Hf1 in Hf2.
  assert (file_frame w w2) as Hfrw2 by by eapply file_frame_trans.
  assert (HDBLockFile_loop (S (S fuel)) p me s = Ret (inl fd) (with_kern e2 w2 s)) as E'.
  { rewrite E, E1. exact E2. }
  pose proof Hfrw2 as (_ & Hmw2 & _ & _ & Hroom2).
  destruct (lock_fill _ _ _ _ _ _ _ _ E' Hf2 Hfd2) as (e3 & w3 & E3 & Hf3 & Hfr3); [by rewrite Hmw2|].
  rewrite Hroom2 in E3, Hf3. rewrite set_file_delete in Hf3.
  exists e3, w3. split_and!; [done|done|by eapply file_frame_trans].
Qed.

(** The other outcomes for an existing file leave it as it is. *)
Lemma lock_refused fuel p me s t code :
  let w := kern (proc s) in
  files w !! p = Some t -> may_read w p = true ->
  (forall e v, same_fs w v -> exists e' w',
     HDBLockFile_examine (HDBLockFile_loop (S fuel) p me) p me (Z.of_nat (length (take 11 t)))
       (take 11 t) (with_kern e v s) = Ret (inr code) (with_kern e' w' (with_kern e v s)) /\
     same_fs v w') ->
  exists e' w', HDBLockFile (S (S fuel)) p me s = Ret code (with_kern e' w' s) /\
    files w' = set_file p (Some t) (files w) /\ file_frame w w'.
Proof.
  intros w Hp Hr Hex. destruct (lock_turn_exists (S fuel) p me s t Hp Hr) as (e & v & Hfs & E).
  destruct (Hex e v Hfs) as (e' & w' & Ee & Hfs'). rewrite Ee in E.
  pose proof (lock_code _ _ _ _ _ _ _ E (same_fs_trans w v w' Hfs Hfs')) as HE.
  fold w in HE. by rewrite Hp in HE.
Qed.

Lemma HDBLockFile_spec fuel p me s :
  (forall t, files (kern (proc s)) !! p = Some t -> 0 <= holder_of t) ->
  let w := kern (proc s) in
  let spec := lock_spec me (alive w) (may_read w p) (may_write w p) (has_room w) (files w !! p) in
  exists e' w', HDBLockFile (S (S fuel)) p me s = Ret spec.1 (with_kern e' w' s) /\
    files w' = set_file p spec.2 (files w) /\ file_frame w w'.
Proof.
  intros Hpos w spec. unfold spec, lock_spec. destruct (files w !! p) as [t|] eqn:Hp.
  2: { destruct (may_write w p) eqn:Hw.
       - pose proof (lock_create (S fuel) p me s Hp Hw) as Hc. fold w in Hc. by destruct (has_room w).
       - destruct (lock_turn_denied (S fuel) p me s Hp Hw) as (e & v & E & Hfs).
         destruct (lock_code _ _ _ _ _ _ _ E Hfs) as (e' & w' & HE). fold w in HE. rewrite Hp in HE.
         by exists e', w'. }
  destruct (may_read w p) eqn:Hr; simpl negb; simpl orb.
  2: { destruct (lock_turn_hidden (S fuel) p me s t Hp Hr) as (e & v & E & Hfs).
       destruct (lock_code _ _ _ _ _ _ _ E Hfs) as (e' & w' & HE). fold w in HE. rewrite Hp in HE.
       by exists e', w'. }
  case_bool_decide as Ht.
  { apply lock_refused; [done|done|]. intros e v _. by apply examine_empty. }
  fold (holder_of t). destruct (Z.eqb_spec (holder_of t) me) as [Hme|Hme].
  { apply lock_refused; [done|done|]. intros e v _. by apply examine_own. }
  destruct ((holder_of t =? 0) || negb (alive w (holder_of t))) eqn:Hst.
  2: { apply lock_refused; [done|done|]. intros e v (_ & (Hal & _)).
       apply examine_held; [done|done|by apply Hpos|]. simpl. by rewrite Hal. }
  destruct (may_write w p) eqn:Hw.
  - pose proof (lock_replace fuel p me s t Hp Hr Hw Ht Hme (Hpos t Hp) Hst) as Hc. fold w in Hc.
    by destruct (has_room w).
  - apply lock_refused; [done|done|]. intros e v (Hfv & (Hal & Hmw & _)).
    apply examine_stale_denied; [done|done|by apply Hpos| | |]; simpl;
      [by rewrite Hfv|by rewrite Hal|by rewrite Hmw].
Qed.
End LockProofs.

(** *** The text of a lock file names its holder *)

Lemma c_string_id l : Forall (fun c => 0 < c < 256) l -> c_string (map u8 l) = l.
Proof.
  induction 1 as [|c l Hc Hl IH]; [done|]. simpl. rewrite u8_small by (unfold is_byte; lia).
  rewrite (proj2 (Z.eqb_neq _ _)) by lia. by rewrite IH.
Qed.

Lemma holder_of_HDBText pid : 0 <= pid < 2 ^ 31 -> holder_of (HDBText pid) = pid.
Proof.
  intros Hp. unfold holder_of.
  assert (HDBText pid = pad_left 10 (sdec pid) ++ [10]) as ->.
  { assert (length (sdec pid) <= 10)%nat.
    { unfold sdec. rewrite (proj2 (Z.ltb_ge _ _)) by lia. apply dec_length; [|lia]. lia. }
    unfold HDBText, snprintf. rewrite !take_ge; [done|..];
      rewrite ?length_take, length_app; unfold pad_left; rewrite length_app, length_replicate;
      cbn [length]; change (Z.to_nat HDBHeaderLen) with 11%nat; lia. }
  rewrite take_ge.
  2: { unfold pad_left. rewrite !length_app, length_replicate.
       assert (length (sdec pid) <= 10)%nat.
       { unfold sdec. rewrite (proj2 (Z.ltb_ge _ _)) by lia. apply dec_length; [|lia]. lia. }
       cbn [length]. lia. }
  rewrite c_string_id.
  - apply atoi_sdec; [lia|]. vm_compute. congruence.
  - apply Forall_app. split; [|by repeat constructor; lia]. unfold pad_left. apply Forall_app.
    split; [apply Forall_replicate; lia|]. unfold sdec. rewrite (proj2 (Z.ltb_ge _ _)) by lia.
    eapply Forall_impl; [apply dec_chars; lia|]. simpl. lia.
Qed.

Lemma HDBText_nonempty pid : HDBText pid <> [].
Proof. intros E. pose proof (HDBText_length pid). by rewrite E in *. Qed.

Lemma lock_spec_text me alive wr room pid :
  0 < pid < 2 ^ 31 ->
  lock_spec me alive true wr room (Some (HDBText pid)) =
    if pid =? me then (LockOk, Some (HDBText pid))
    else if alive pid then (Locked, Some (HDBText pid))
    else if wr then if room then (LockOk, Some (HDBText me)) else (LockKo, None)
    else (LockKo, Some (HDBText pid)).
Proof.
  intros Hp. unfold lock_spec. rewrite bool_decide_false by apply HDBText_nonempty. simpl.
  fold (holder_of (HDBText pid)). rewrite holder_of_HDBText by lia.
  rewrite (proj2 (Z.eqb_neq pid 0)) by lia. simpl orb. by destruct (pid =? me), (alive pid).
Qed.

(** C34: locking refines its contract.  Whatever the lock file holds, provided
    the process number in it is not negative ([kill] would address a group),
    one call of [HDBLockFile] returns within two turns of its loop, with the
    result and the contents of [lock_spec]: a free lock, or one whose holder
    does not exist or that names none (number 0), is taken when we may write it (and removed again when the
    disk is full); our own is confirmed; one whose holder exists is respected,
    also when the holder belongs to somebody else and cannot be signalled; one
    that is still empty or that we cannot read is respected; and no other file
    changes.  The files, the processes and our rights are assumed not to be
    changed by others during the call. *)
Theorem HDBLockFile_refines {W} `{FileKernel W} fuel p me (s : St W) :
  (forall t, files (kern (proc s)) !! p = Some t -> 0 <= holder_of t) ->
  let w := kern (proc s) in
  let spec := lock_spec me (alive w) (may_read w p) (may_write w p) (has_room w) (files w !! p) in
  exists e' w', HDBLockFile (S (S fuel)) p me s = Ret spec.1 (with_kern e' w' s) /\
    files w' = set_file p spec.2 (files w) /\ file_frame w w'.
Proof. apply HDBLockFile_spec. Qed.

(** A machine whose lock file names the dead process 4711. *)
Definition sim_stale : St Sim :=
  sim_session (mkSim {[lit "LCK" := HDBText 4711]} ∅ ∅ ∅ ∅ 100 [100] no_limits 0 [] [] [] [] [] [] []).

Lemma sim_stale_file t : files (kern (proc sim_stale)) !! lit "LCK" = Some t -> t = HDBText 4711.
Proof.
  intros Ht. change (({[lit "LCK" := HDBText 4711]} : gmap cstr bytes) !! lit "LCK" = Some t) in Ht.
  by apply lookup_singleton_Some in Ht as [_ <-].
Qed.

(** The stale lock is taken over by process 100. *)
Lemma HDBLockFile_refines_witness :
  exists e' w', HDBLockFile 2 (lit "LCK") 100 sim_stale = Ret LockOk (with_kern e' w' sim_stale) /\
    files w' = set_file (lit "LCK") (Some (HDBText 100)) (files (kern (proc sim_stale))) /\
    file_frame (kern (proc sim_stale)) w'.
Proof.
  assert (lock_spec 100 (alive (kern (proc sim_stale))) (may_read (kern (proc sim_stale)) (lit "LCK"))
    (may_write (kern (proc sim_stale)) (lit "LCK")) (has_room (kern (proc sim_stale)))
    (files (kern (proc sim_stale)) !! lit "LCK") = (LockOk, Some (HDBText 100))) as Hspec
    by (vm_compute; reflexivity).
  pose proof (HDBLockFile_refines 0 (lit "LCK") 100 sim_stale) as Hr. cbv zeta in Hr.
  rewrite Hspec in Hr. apply Hr. intros t ->%sim_stale_file. vm_compute. congruence.
Defined.

(** The lock of a process that exists and belongs to somebody else. *)
Definition sim_foreign : St Sim :=
  sim_session (mkSim {[lit "LCK" := HDBText 4711]} ∅ ∅ ∅ ∅ 100 [100; 4711] (mkLimits [] [] false [4711]) 0
                 [] [] [] [] [] [] []).

Example foreign_lock_respected :
  k_kill 4711 0 (kern (proc sim_foreign)) = (-1, EPERM, kern (proc sim_foreign)) /\
  match HDBLockFile 2 (lit "LCK") 100 sim_foreign with
  | Ret r s => r = Locked /\ files (kern (proc s)) !! lit "LCK" = Some (HDBText 4711)
  | Stop _ _ => False
  end.
Proof. vm_compute. by split_and!. Qed.

(** Two processes never hold the lock at once.  While the process that
    took the lock is alive, every attempt of another one returns [Locked] and
    changes no file. *)
Theorem lock_excludes {W} `{FileKernel W} fuel p me other (s1 s2 : St W) :
  0 < other < 2 ^ 31 -> other <> me ->
  (forall t, files (kern (proc s1)) !! p = Some t -> 0 <= holder_of t) ->
  (exists s1', HDBLockFile (S (S fuel)) p other s1 = Ret LockOk s1' /\
     kern (proc s2) = kern (proc s1')) ->
  alive (kern (proc s2)) other = true -> may_read (kern (proc s2)) p = true ->
  exists s2', HDBLockFile (S (S fuel)) p me s2 = Ret Locked s2' /\
    files (kern (proc s2')) = files (kern (proc s2)).
Proof.
  intros Ho Hne Hpos (s1' & E1 & Ek) Hal Hrd.
  destruct (HDBLockFile_spec fuel p other s1 Hpos) as (e & w & E & Hf & Hfr).
  rewrite E1 in E. injection E as Ecode Es. subst s1'. simpl in Ek.
  assert (exists t, files (kern (proc s2)) !! p = Some t /\ t <> [] /\ holder_of t = other)
    as (t & Ht & Htne & Hh).
  { rewrite Ek, Hf. revert Ecode. unfold lock_spec.
    assert (exists t, <[p:=HDBText other]> (files (kern (proc s1))) !! p = Some t /\ t <> [] /\
      holder_of t = other) as Hnew.
    { exists (HDBText other). rewrite lookup_insert_eq.
      split_and!; [done|apply HDBText_nonempty|apply holder_of_HDBText; lia]. }
    destruct (files (kern (proc s1)) !! p) as [t|]; [|by destruct (may_write (kern (proc s1)) p), (has_room (kern (proc s1)))].
    destruct (may_read (kern (proc s1)) p); [|done]. simpl orb. case_bool_decide as Ht; [done|].
    fold (holder_of t). destruct (Z.eqb_spec (holder_of t) other) as [<-|].
    - intros _. exists t. simpl set_file. by rewrite lookup_insert_eq.
    - destruct (_ || _); [by destruct (may_write (kern (proc s1)) p), (has_room (kern (proc s1)))|done]. }
  destruct (HDBLockFile_spec fuel p me s2) as (e' & w' & E' & Hf' & _).
  { intros t' Ht'. rewrite Ht in Ht'. injection Ht' as <-. lia. }
  assert (lock_spec me (alive (kern (proc s2))) (may_read (kern (proc s2)) p) (may_write (kern (proc s2)) p)
    (has_room (kern (proc s2))) (files (kern (proc s2)) !! p) = (Locked, files (kern (proc s2)) !! p)) as Hspec.
  { rewrite Ht, Hrd. unfold lock_spec. rewrite bool_decide_false by done. simpl. fold (holder_of t).
    rewrite Hh, (proj2 (Z.eqb_neq other me)), (proj2 (Z.eqb_neq other 0)), Hal by lia. done. }
  rewrite Hspec in E', Hf'. exists (with_kern e' w' s2). split; [done|].
  simpl. rewrite Hf'. apply set_file_same.
Qed.

(** Process 100 holds the lock, process 200 is refused. *)
Lemma lock_excludes_witness :
  exists s2', HDBLockFile 2 (lit "LCK") 200
      (match HDBLockFile 2 (lit "LCK") 100 sim_stale with Ret _ s => s | Stop _ s => s end)
      = Ret Locked s2' /\
    files (kern (proc s2')) = files (kern (proc
      (match HDBLockFile 2 (lit "LCK") 100 sim_stale with Ret _ s => s | Stop _ s => s end))).
Proof.
  apply (lock_excludes 0 (lit "LCK") 200 100 sim_stale); [lia|lia| | |vm_compute; reflexivity|vm_compute; reflexivity].
  - intros t ->%sim_stale_file. vm_compute. congruence.
  - destruct (HDBLockFile_spec 0 (lit "LCK") 100 sim_stale) as (e & w & E & _).
    { intros t ->%sim_stale_file. vm_compute. congruence. }
    eexists. rewrite E. split; [|reflexivity]. vm_compute. reflexivity.
Defined.

Section LockCycle.
Context {W : Type} `{FileKernel W}.
Implicit Types s : St W.

(** Taking a free lock, with the resulting state. *)
Lemma lock_free fuel p me s :
  files (kern (proc s)) !! p = None -> may_write (kern (proc s)) p = true -> has_room (kern (proc s)) = true ->
  exists e w, HDBLockFile (S (S fuel)) p me s = Ret LockOk (with_kern e w s) /\
    files w = <[p := HDBText me]> (files (kern (proc s))) /\ file_frame (kern (proc s)) w.
Proof. intros Hp Hw Hr. pose proof (lock_create (S fuel) p me s Hp Hw) as Hc. by rewrite Hr in Hc. Qed.

Lemma unlock_own fuel p me s m :
  0 < me < 2 ^ 31 -> files (kern (proc s)) = <[p := HDBText me]> m -> m !! p = None ->
  may_read (kern (proc s)) p = true -> may_write (kern (proc s)) p = true ->
  exists e w, HDBUnlockFile (S (S fuel)) p me s = Ret tt (with_kern e w s) /\
    files w = m /\ file_frame (kern (proc s)) w.
Proof.
  intros Hme Hf Hm Hr Hw.
  assert (files (kern (proc s)) !! p = Some (HDBText me)) as Hp by (rewrite Hf; apply lookup_insert_eq).
  destruct (HDBLockFile_spec fuel p me s) as (e & w & E & Hfw & Hfr).
  { intros t Ht. rewrite Hp in Ht. injection Ht as <-. rewrite holder_of_HDBText; lia. }
  rewrite Hp, Hr, lock_spec_text, Z.eqb_refl in E, Hfw by done. simpl in E, Hfw.
  destruct (file_unlink w p (HDBText me)) as (e1 & w1 & E1 & Hf1 & Hfr1).
  { rewrite Hfw. apply lookup_insert_eq. } { destruct Hfr as (_ & -> & _). done. }
  set (s1 := with_kern e w s).
  destruct (keeps_LogLine LOG_NOTICE (lit "Unlocked lock file " ++ p ++ lit ".")
    (with_kern (if 0 <? 0 then e1 else errno (proc s1)) w1 s1)) as (e2 & w2 & E2 & (Hf2 & Hfr2)).
  exists e2, w2. unfold HDBUnlockFile. rewrite (bind_Ret _ _ _ _ _ E).
  change (LockOk =? LockOk) with true. unfold when. fold s1.
  rewrite (bind_Ret _ _ _ _ _ (sys_syscall s1 _ _ _ _ E1)), E2. simpl in *.
  split_and!; [done| |].
  - rewrite Hf2, Hf1, Hfw, Hf, insert_insert_eq, delete_insert_id by done. done.
  - eapply file_frame_trans; [done|]. by eapply file_frame_trans.
Qed.
End LockCycle.

(** Unlocking undoes locking: a process that takes a free lock and gives
    it back leaves every file as it found it. *)
Theorem unlock_undoes_lock {W} `{FileKernel W} fuel p me (s : St W) :
  0 < me < 2 ^ 31 -> files (kern (proc s)) !! p = None -> may_write (kern (proc s)) p = true ->
  may_read (kern (proc s)) p = true -> has_room (kern (proc s)) = true ->
  exists s', (HDBLockFile (S (S fuel)) p me ≫= fun _ => HDBUnlockFile (S (S fuel)) p me) s
      = Ret tt s' /\ files (kern (proc s')) = files (kern (proc s)).
Proof.
  intros Hme Hp Hw Hr Hroom. destruct (lock_free fuel p me s Hp Hw Hroom) as (e & w & E & Hf & Hfr).
  destruct (unlock_own fuel p me (with_kern e w s) (files (kern (proc s)))) as (e1 & w1 & E1 & Hf1 & _);
    [done|done|done|destruct Hfr as (_ & _ & _ & Hmr & _); simpl; by rewrite Hmr
    |destruct Hfr as (_ & Hmw & _); simpl; by rewrite Hmw|].
  exists (with_kern e1 w1 (with_kern e w s)). by rewrite (bind_Ret _ _ _ _ _ E).
Qed.

Lemma unlock_undoes_lock_witness :
  exists s', (HDBLockFile 2 (lit "LCK") 100 ≫= fun _ => HDBUnlockFile 2 (lit "LCK") 100)
      (sim_session (sim_idle sim_blank)) = Ret tt s' /\
    files (kern (proc s')) = files (kern (proc (sim_session (sim_idle sim_blank)))).
Proof.
  apply (unlock_undoes_lock 0 (lit "LCK") 100 (sim_session (sim_idle sim_blank)));
    [lia|reflexivity..].
Defined.

(** Every value [m] returns satisfies [P]. *)
Definition returns {S A} (m : M S A) (P : A -> Prop) : Prop :=
  forall s a s', m s = Ret a s' -> P a.

Lemma returns_bind {S A B} (m : M S A) (f : A -> M S B) P :
  (forall a, returns (f a) P) -> returns (m ≫= f) P.
Proof.
  intros Hf s b s'. unfold mbind, M_bind. destruct (m s) as [a s1|]; [apply Hf|done].
Qed.

(** When the device cannot be opened, [OpenPort] fails but keeps the lock
    it has just taken: the lock file stays behind with our number in it.  (Of
    the kernel it is assumed that opening a device changes no file.) *)
Theorem open_failure_keeps_lock {W} `{FileKernel W} fuel dev p (s s' : St W) fd :
  files (kern (proc s)) !! p = None -> may_write (kern (proc s)) p = true -> has_room (kern (proc s)) = true ->
  (forall w r e w', k_open dev (Z.lor O_RDWR (Z.lor O_NOCTTY O_NONBLOCK)) 0 w = (r, e, w') ->
     files w' = files w) ->
  OpenPort (S (S fuel)) dev p s = Ret (Error, fd) s' ->
  files (kern (proc s')) = <[p := HDBText (k_getpid (kern (proc s)))]> (files (kern (proc s))).
Proof.
  intros Hp Hw Hroom Hdev. unfold OpenPort, getpid. rewrite bind_gets.
  destruct (lock_free fuel p (k_getpid (kern (proc s))) s Hp Hw Hroom) as (e & w & E & Hf & _).
  rewrite (bind_Ret _ _ _ _ _ E). change (negb (LockOk =? LockOk)) with false. cbv iota.
  destruct (keeps_LogLine LOG_INFO (lit "Device " ++ dev ++ lit " locked.") (with_kern e w s))
    as (e1 & w1 & E1 & (Hf1 & _)). rewrite (bind_Ret _ _ _ _ _ E1).
  destruct (k_open dev (Z.lor O_RDWR (Z.lor O_NOCTTY O_NONBLOCK)) 0 w1) as [[r e2] w2] eqn:E2.
  set (s1 := with_kern e1 w1 (with_kern e w s)).
  rewrite (bind_Ret _ _ _ _ _ (sys_syscall s1 _ _ _ _ E2)).
  destruct (r =? OpenError).
  - intros [= _ <-]. simpl in *. by rewrite (Hdev _ _ _ _ E2), Hf1.
  - match goal with |- ?m ?st = _ -> _ => assert (returns m (fun x => x.1 = NoError)) as Hret end.
    { repeat (apply returns_bind; intros; repeat case_match). by intros ? ? ? [= <- _]. }
    intros Hm. by apply Hret in Hm.
Qed.

(** A machine without the device. *)
Lemma open_failure_keeps_lock_witness :
  exists s', OpenPort 2 (lit "nodev") (lit "LCK") (sim_session (sim_idle sim_blank))
      = Ret (Error, OpenError) s' /\
    files (kern (proc s')) =
      <[lit "LCK" := HDBText (k_getpid (kern (proc (sim_session (sim_idle sim_blank)))))]>
        (files (kern (proc (sim_session (sim_idle sim_blank))))).
Proof.
  destruct (returned_Some (OpenPort 2 (lit "nodev") (lit "LCK") (sim_session (sim_idle sim_blank)))
    (Error, OpenError)) as [s' E]; [vm_compute; reflexivity|].
  exists s'. split; [done|].
  apply (open_failure_keeps_lock 0 (lit "nodev") (lit "LCK")
    (sim_session (sim_idle sim_blank)) s' OpenError); [reflexivity|reflexivity|reflexivity| |exact E].
  intros w r e w'. simpl. unfold sim_open. change (_ =? O_LOCK) with false.
  change (_ =? O_RDONLY) with false. cbv iota. case_match; by intros [= <- <- <-].
Defined.
