(* ===== verification/Telnet.v ===== *)
(** * The Telnet engine of sercd (src/apps/sercd/sercd.c, lines 222-1072)

    Escaping of the data sent to the client, interpretation of the data
    received from it, Telnet option negotiation and the RFC 2217 COM port
    control commands. *)

From S2P Require Import Prelude RingBuffer Termios Kernel SimKernel LibcTty SercdState.
From S2P Require Import UnixPort.

Definition VERSION : cstr := lit "3.0.0".

(** ** Room each operation may need in the buffer *)

Definition SendSignature_bytes : Z := 6 + 2 * 255.
Definition EscWriteChar_bytes : Z := 2.
Definition SendTelnetOption_bytes : Z := 3.
Definition SendTelnetInitialOptions_bytes : Z := SendTelnetOption_bytes * 3.
Definition SendBaudRate_bytes : Z := 6 + 2 * 4.
Definition SendCPCByteCommand_bytes : Z := 8.
Definition HandleCPCCommand_bytes : Z :=
  Z.max SendSignature_bytes (Z.max SendBaudRate_bytes SendCPCByteCommand_bytes).
Definition HandleIACCommand_bytes : Z := Z.max HandleCPCCommand_bytes SendTelnetOption_bytes.
Definition EscRedirectChar_bytes_SockB : Z := HandleIACCommand_bytes.
Definition EscRedirectChar_bytes_DevB : Z := 1.

(** [strncpy] of at most [n] characters out of the array [src]: the copied
    string, or [None] when the copy leaves the array. *)
Fixpoint strncpy (src : bytes) (n : nat) : option cstr :=
  match n, src with
  | O, _ => Some []
  | S _, [] => None
  | S n', c :: src' => if c =? 0 then Some [] else cons c <$> strncpy src' n'
  end.

Section Telnet.
Context {W : Type} `{Kernel W}.
Abbreviation SM A := (M (St W) A) (only parsing).

Definition Add (B : bufptr) (C : Z) : SM unit := on_buf B (AddToBuffer C).

(** The assignments of the loop are those of [tn_zero], for all 256 options. *)
Definition InitTelnetStateMachine : SM unit :=
  put_tel (set_tnstate (replicate 256 tn_zero)).

(** ** Sending *)

Definition EscWriteChar (B : bufptr) (C : Z) : SM unit :=
  Last ← get_tel EscWriteChar_Last;
  bin ← tn_get TN_TRANSMIT_BINARY;
  (if C =? TNIAC then Add B C
   else if negb (C =? 10) && negb (is_will bin) && (Last =? 13) then Add B 0
   else mret tt) ;;
  Add B C ;;
  put_tel (set_EscWriteChar_Last C).

Fixpoint SendStr (B : bufptr) (Str : cstr) : SM unit :=
  match Str with
  | [] => mret tt
  | c :: Str' => EscWriteChar B (u8 c) ;; SendStr B Str'
  end.

Definition SendSignature (B : bufptr) (Sig : cstr) : SM unit :=
  assert (Z.of_nat (length Sig) <=? 255) ;;
  Add B TNIAC ;;
  Add B TNSB ;;
  Add B TNCOM_PORT_OPTION ;;
  Add B TNASC_SIGNATURE ;;
  SendStr B Sig ;;
  Add B TNIAC ;;
  Add B TNSE.

Definition SendTelnetOption (B : bufptr) (Command Option : Z) : SM unit :=
  Add B TNIAC ;; Add B Command ;; Add B (u8 Option).

Definition SendTelnetInitialOptions (B : bufptr) : SM unit :=
  SendTelnetOption B TNWILL TN_TRANSMIT_BINARY ;;
  tn_upd TN_TRANSMIT_BINARY (set_sent_will true) ;;
  SendTelnetOption B TNDO TN_TRANSMIT_BINARY ;;
  tn_upd TN_TRANSMIT_BINARY (set_sent_do true) ;;
  SendTelnetOption B TNWILL TN_ECHO ;;
  tn_upd TN_ECHO (set_sent_will true) ;;
  SendTelnetOption B TNWILL TN_SUPPRESS_GO_AHEAD ;;
  tn_upd TN_SUPPRESS_GO_AHEAD (set_sent_will true) ;;
  SendTelnetOption B TNDO TN_SUPPRESS_GO_AHEAD ;;
  tn_upd TN_SUPPRESS_GO_AHEAD (set_sent_do true) ;;
  SendTelnetOption B TNDO TNCOM_PORT_OPTION ;;
  tn_upd TNCOM_PORT_OPTION (set_sent_do true).

Fixpoint EscWriteBytes (B : bufptr) (l : bytes) : SM unit :=
  match l with
  | [] => mret tt
  | c :: l' => EscWriteChar B c ;; EscWriteBytes B l'
  end.

Definition SendBaudRate (B : bufptr) (BR : Z) : SM unit :=
  Add B TNIAC ;;
  Add B TNSB ;;
  Add B TNCOM_PORT_OPTION ;;
  Add B TNASC_SET_BAUDRATE ;;
  EscWriteBytes B (be32 BR) ;;
  Add B TNIAC ;;
  Add B TNSE.

Definition SendCPCByteCommand (B : bufptr) (Command Parm : Z) : SM unit :=
  Add B TNIAC ;;
  Add B TNSB ;;
  Add B TNCOM_PORT_OPTION ;;
  Add B Command ;;
  EscWriteChar B Parm ;;
  Add B TNIAC ;;
  Add B TNSE.

(** ** COM port control commands: the cases of [HandleCPCCommand] *)

Definition LogStr (s : cstr) : cstr := snprintf TmpStrLen s.

Definition cpc_signature (SockB : bufptr) (Command : bytes) (CSize : Z) : SM unit :=
  if CSize =? 6 then
    dev ← get_opt DeviceName;
    let SigStr := snprintf 255 (lit "sercd " ++ VERSION ++ lit " " ++ dev) in
    SendSignature SockB SigStr ;;
    LogMsg LOG_INFO (LogStr (lit "Sent signature: " ++ SigStr))
  else
    (* strncpy (SigStr, &Command[4], MAX (CSize - 6, sizeof (SigStr) - 1)) *)
    let n := Z.max (u32 (CSize - 6)) 254 in
    if 255 <? n then stop_with OutOfBounds
    else
      match strncpy (drop 4 Command) (Z.to_nat n) with
      | Some SigStr =>
          LogMsg LOG_INFO
            (snprintf (TmpStrLen - 1) (lit "Received client signature: " ++ SigStr))
      | None => stop_with OutOfBounds
      end.

Definition cpc_baudrate (SockB : bufptr) (PortFd : Z) (Command : bytes) : SM unit :=
  b0 ← at_ Command 4; b1 ← at_ Command 5; b2 ← at_ Command 6; b3 ← at_ Command 7;
  let BaudRate := from_be32 b0 b1 b2 b3 in
  (if BaudRate =? 0 then LogMsg LOG_DEBUG (lit "Baud rate notification received.")
   else
     LogMsg LOG_DEBUG
       (LogStr (lit "Port baud rate change to " ++ dec BaudRate ++ lit " requested.")) ;;
     SetPortSpeed PortFd BaudRate) ;;
  BaudRate ← GetPortSpeed PortFd;
  SendBaudRate SockB BaudRate ;;
  LogMsg LOG_DEBUG (LogStr (lit "Port baud rate: " ++ dec BaudRate)).

(** The three settings with a one-byte parameter have the same shape. *)
Definition cpc_setting (SockB : bufptr) (PortFd : Z) (Command : bytes)
    (asked : cstr) (change suffix shown : cstr) (reply : Z)
    (setter : Z -> Z -> SM unit) (getter : Z -> SM Z) : SM unit :=
  c ← at_ Command 4;
  (if c =? 0 then LogMsg LOG_DEBUG asked
   else
     LogMsg LOG_DEBUG (LogStr (change ++ dec c ++ suffix)) ;;
     setter PortFd c) ;;
  v ← getter PortFd;
  SendCPCByteCommand SockB reply v ;;
  LogMsg LOG_DEBUG (LogStr (shown ++ dec v)).

Definition cpc_datasize (SockB : bufptr) (PortFd : Z) (Command : bytes) : SM unit :=
  cpc_setting SockB PortFd Command (lit "Data size notification requested.")
    (lit "Port data size change to ") (lit " requested.") (lit "Port data size: ")
    TNASC_SET_DATASIZE SetPortDataSize GetPortDataSize.

Definition cpc_parity (SockB : bufptr) (PortFd : Z) (Command : bytes) : SM unit :=
  cpc_setting SockB PortFd Command (lit "Parity notification requested.")
    (lit "Port parity change to ") (lit " requested") (lit "Port parity: ")
    TNASC_SET_PARITY SetPortParity GetPortParity.

Definition cpc_stopsize (SockB : bufptr) (PortFd : Z) (Command : bytes) : SM unit :=
  cpc_setting SockB PortFd Command (lit "Stop size notification requested.")
    (lit "Port stop size change to ") (lit " requested.") (lit "Port stop size: ")
    TNASC_SET_STOPSIZE SetPortStopSize GetPortStopSize.

Definition cpc_control (SockB : bufptr) (PortFd : Z) (Command : bytes) : SM unit :=
  c ← at_ Command 4;
  if (c =? TNCOM_CMD_FLOW_REQ) || (c =? TNCOM_CMD_DTR_REQ) || (c =? TNCOM_CMD_RTS_REQ)
     || (c =? TNCOM_CMD_INFLOW_REQ) then
    LogMsg LOG_DEBUG (lit "Flow control notification requested.") ;;
    FlowControl ← GetPortFlowControl PortFd c;
    SendCPCByteCommand SockB TNASC_SET_CONTROL FlowControl ;;
    LogMsg LOG_DEBUG (LogStr (lit "Port flow control: " ++ dec FlowControl))
  else if c =? TNCOM_CMD_BREAK_REQ then
    brk ← get_tel BreakSignaled;
    SendCPCByteCommand SockB TNASC_SET_CONTROL
      (if (brk : bool) then TNCOM_CMD_BREAK_ON else TNCOM_CMD_BREAK_OFF)
  else if c =? TNCOM_CMD_BREAK_ON then
    SetBreak PortFd true ;;
    put_tel (set_BreakSignaled true) ;;
    LogMsg LOG_DEBUG (lit "Break Signal ON.") ;;
    SendCPCByteCommand SockB TNASC_SET_CONTROL TNCOM_CMD_BREAK_ON
  else if c =? TNCOM_CMD_BREAK_OFF then
    SetBreak PortFd false ;;
    put_tel (set_BreakSignaled false) ;;
    LogMsg LOG_DEBUG (lit "Break Signal OFF.") ;;
    SendCPCByteCommand SockB TNASC_SET_CONTROL TNCOM_CMD_BREAK_OFF
  else
    LogMsg LOG_DEBUG
      (LogStr (lit "Port flow control change to " ++ dec c ++ lit " requested.")) ;;
    SetPortFlowControl PortFd c ;;
    cisco ← get_opt CiscoIOSCompatible;
    FlowControl ←
      (if cisco && (TNCOM_CMD_INFLOW_REQ <=? c) && (c <=? TNCOM_CMD_INFLOW_HARDWARE)
       then mret 0 else GetPortFlowControl PortFd TNCOM_CMD_FLOW_REQ);
    SendCPCByteCommand SockB TNASC_SET_CONTROL FlowControl ;;
    LogMsg LOG_DEBUG (LogStr (lit "Port flow control: " ++ dec FlowControl)).

Definition cpc_linestate_mask (SockB : bufptr) (Command : bytes) : SM unit :=
  c ← at_ Command 4;
  LogMsg LOG_DEBUG (LogStr (lit "Line state set to " ++ dec c)) ;;
  put_tel (set_LineStateMask (Z.land c 16)) ;;
  m ← get_tel LineStateMask;
  SendCPCByteCommand SockB TNASC_SET_LINESTATE_MASK m.

Definition cpc_modemstate_mask (SockB : bufptr) (Command : bytes) : SM unit :=
  c ← at_ Command 4;
  LogMsg LOG_DEBUG (LogStr (lit "Modem state mask set to " ++ dec c)) ;;
  put_tel (set_ModemStateMask c) ;;
  m ← get_tel ModemStateMask;
  SendCPCByteCommand SockB TNASC_SET_MODEMSTATE_MASK m.

Definition cpc_purge (SockB : bufptr) (PortFd : Z) (Command : bytes) : SM unit :=
  c ← at_ Command 4;
  LogMsg LOG_DEBUG (LogStr (lit "Port flush " ++ dec c ++ lit " requested.")) ;;
  SetFlush PortFd c ;;
  SendCPCByteCommand SockB TNASC_PURGE_DATA c.

Definition HandleCPCCommand (SockB : bufptr) (PortFd : Z) (Command : bytes) (CSize : Z)
    : SM unit :=
  cmd ← at_ Command 3;
  if cmd =? TNCAS_SIGNATURE then cpc_signature SockB Command CSize
  else if cmd =? TNCAS_SET_BAUDRATE then cpc_baudrate SockB PortFd Command
  else if cmd =? TNCAS_SET_DATASIZE then cpc_datasize SockB PortFd Command
  else if cmd =? TNCAS_SET_PARITY then cpc_parity SockB PortFd Command
  else if cmd =? TNCAS_SET_STOPSIZE then cpc_stopsize SockB PortFd Command
  else if cmd =? TNCAS_SET_CONTROL then cpc_control SockB PortFd Command
  else if cmd =? TNCAS_SET_LINESTATE_MASK then cpc_linestate_mask SockB Command
  else if cmd =? TNCAS_SET_MODEMSTATE_MASK then cpc_modemstate_mask SockB Command
  else if cmd =? TNCAS_PURGE_DATA then cpc_purge SockB PortFd Command
  else if cmd =? TNCAS_FLOWCONTROL_SUSPEND then
    LogMsg LOG_DEBUG (lit "Flow control suspend requested.") ;;
    put_tel (set_InputFlow false)
  else if cmd =? TNCAS_FLOWCONTROL_RESUME then
    LogMsg LOG_DEBUG (lit "Flow control resume requested.") ;;
    put_tel (set_InputFlow true)
  else
    LogMsg LOG_DEBUG (LogStr (lit "Unhandled request " ++ dec cmd)).

(** ** Telnet commands: the cases of [HandleIACCommand] *)

(** The options that are accepted share their handling. *)
Definition iac_will (SockB : bufptr) (o : Z) : SM unit :=
  (if (o =? TNCOM_PORT_OPTION) || (o =? TN_TRANSMIT_BINARY) || (o =? TN_ECHO)
      || (o =? TN_SUPPRESS_GO_AHEAD) then
     LogMsg LOG_INFO
       (if o =? TNCOM_PORT_OPTION then lit "Telnet COM Port Control Enabled (WILL)."
        else if o =? TN_TRANSMIT_BINARY then lit "Telnet Binary Transfer Enabled (WILL)."
        else if o =? TN_ECHO then lit "Rejecting Telnet Echo Option (WILL)."
        else lit "Suppressing Go Ahead characters (WILL).") ;;
     when (o =? TNCOM_PORT_OPTION) (put_tel (set_PortControlEnable true)) ;;
     t ← tn_get o;
     when (negb (sent_do t)) (SendTelnetOption SockB TNDO o) ;;
     tn_upd o (set_is_do true)
   else
     LogMsg LOG_DEBUG (LogStr (lit "Rejecting option WILL: " ++ dec o)) ;;
     SendTelnetOption SockB TNDONT o ;;
     tn_upd o (set_is_do false)) ;;
  tn_upd o (set_sent_do false) ;;
  tn_upd o (set_sent_dont false).

Definition iac_do (SockB : bufptr) (o : Z) : SM unit :=
  (if (o =? TNCOM_PORT_OPTION) || (o =? TN_TRANSMIT_BINARY) || (o =? TN_ECHO)
      || (o =? TN_SUPPRESS_GO_AHEAD) then
     LogMsg LOG_INFO
       (if o =? TNCOM_PORT_OPTION then lit "Telnet COM Port Control Enabled (DO)."
        else if o =? TN_TRANSMIT_BINARY then lit "Telnet Binary Transfer Enabled (DO)."
        else if o =? TN_ECHO then lit "Rejecting Telnet Echo Option (DO)."
        else lit "Suppressing Go Ahead characters (DO).") ;;
     when (o =? TNCOM_PORT_OPTION) (put_tel (set_PortControlEnable true)) ;;
     t ← tn_get o;
     when (negb (sent_will t)) (SendTelnetOption SockB TNWILL o) ;;
     tn_upd o (set_is_will true)
   else
     LogMsg LOG_DEBUG (LogStr (lit "Rejecting option DO: " ++ dec o)) ;;
     SendTelnetOption SockB TNWONT o ;;
     tn_upd o (set_is_will false)) ;;
  tn_upd o (set_sent_will false) ;;
  tn_upd o (set_sent_wont false).

Definition iac_dont (SockB : bufptr) (o : Z) : SM unit :=
  LogMsg LOG_DEBUG (LogStr (lit "Received rejection for option: " ++ dec o)) ;;
  t ← tn_get o;
  when (is_will t)
    (SendTelnetOption SockB TNWONT o ;; tn_upd o (set_is_will false)) ;;
  tn_upd o (set_sent_will false) ;;
  tn_upd o (set_sent_wont false).

Definition iac_wont (SockB : bufptr) (o : Z) : SM unit :=
  (if o =? TNCOM_PORT_OPTION then
     LogMsg LOG_ERR (lit "Client doesn't support Telnet COM Port "
       ++ lit "Protocol Option (RFC 2217), trying to serve anyway.")
   else LogMsg LOG_DEBUG (LogStr (lit "Received rejection for option: " ++ dec o))) ;;
  t ← tn_get o;
  when (is_do t)
    (SendTelnetOption SockB TNDONT o ;; tn_upd o (set_is_do false)) ;;
  tn_upd o (set_sent_do false) ;;
  tn_upd o (set_sent_dont false).

Definition HandleIACCommand (SockB : bufptr) (PortFd : Z) (Command : bytes) (CSize : Z)
    : SM unit :=
  c ← at_ Command 1;
  if c =? TNSB then
    o ← at_ Command 2;
    t ← tn_get o;
    if negb (is_will t || is_do t) then mret tt
    else if o =? TNCOM_PORT_OPTION then HandleCPCCommand SockB PortFd Command CSize
    else LogMsg LOG_DEBUG (LogStr (lit "Unknown suboption received: " ++ dec o))
  else if c =? TNWILL then o ← at_ Command 2; iac_will SockB o
  else if c =? TNDO then o ← at_ Command 2; iac_do SockB o
  else if c =? TNDONT then o ← at_ Command 2; iac_dont SockB o
  else if c =? TNWONT then o ← at_ Command 2; iac_wont SockB o
  else mret tt.

(** ** Receiving: the cases of [EscRedirectChar] *)

(** [IACCommand[IACPos] = C; IACPos++;] *)
Definition iac_push (C : Z) : SM unit :=
  pos ← get_tel IACPos;
  IACCommand_store pos C ;;
  put_tel (set_IACPos (u32 (pos + 1))).

(** The same guarded by [IACPos < sizeof (IACCommand)]. *)
Definition iac_push_guarded (C : Z) : SM unit :=
  pos ← get_tel IACPos;
  when (pos <? Z.of_nat TmpStrLen) (iac_push C).

(** [HandleIACCommand (SockB, PortFd, IACCommand, IACPos); IACEscape = IACNormal;] *)
Definition iac_finish (SockB : bufptr) (PortFd : Z) : SM unit :=
  cmd ← get_tel IACCommand;
  pos ← get_tel IACPos;
  HandleIACCommand SockB PortFd cmd pos ;;
  put_tel (set_IACEscape IACNormal).

Definition redirect_normal (DevB : bufptr) (C : Z) : SM unit :=
  Last ← get_tel EscRedirectChar_Last;
  bin ← tn_get TN_TRANSMIT_BINARY;
  if C =? TNIAC then put_tel (set_IACEscape IACReceived)
  else if negb (is_do bin) && (C =? 0) && (Last =? 13) then mret tt
  else Add DevB C.

Definition redirect_received (DevB : bufptr) (C : Z) : SM unit :=
  if C =? TNIAC then
    Add DevB C ;; put_tel (set_IACEscape IACNormal)
  else
    IACCommand_store 0 TNIAC ;;
    IACCommand_store 1 C ;;
    put_tel (set_IACPos 2) ;;
    put_tel (set_IACEscape IACComReceiving) ;;
    put_tel (set_IACSigEscape IACNormal).

(** A byte of a signature, which needs further unescaping. *)
Definition redirect_signature (SockB : bufptr) (PortFd C : Z) : SM unit :=
  sig ← get_tel IACSigEscape;
  match sig with
  | IACNormal =>
      if C =? TNIAC then put_tel (set_IACSigEscape IACReceived)
      else iac_push_guarded C
  | IACComReceiving => put_tel (set_IACSigEscape IACNormal)
  | IACReceived =>
      if C =? TNIAC then
        iac_push_guarded C ;; put_tel (set_IACSigEscape IACNormal)
      else
        iac_push_guarded TNIAC ;;
        iac_push_guarded C ;;
        iac_finish SockB PortFd
  end.

(** A byte of a command of fixed length. *)
Definition redirect_fixed (SockB : bufptr) (PortFd C len : Z) : SM unit :=
  iac_push C ;;
  pos ← get_tel IACPos;
  when (pos =? len) (iac_finish SockB PortFd).

Definition redirect_command (SockB : bufptr) (PortFd C : Z) : SM unit :=
  cmd ← get_tel IACCommand;
  pos ← get_tel IACPos;
  c1 ← at_ cmd 1;
  if c1 =? TNSB then
    if pos <? 4 then iac_push C
    else
      c3 ← at_ cmd 3;
      if c3 =? TNCAS_SIGNATURE then redirect_signature SockB PortFd C
      else if c3 =? TNCAS_SET_BAUDRATE then redirect_fixed SockB PortFd C 10
      else if (c3 =? TNCAS_FLOWCONTROL_SUSPEND) || (c3 =? TNCAS_FLOWCONTROL_RESUME)
      then redirect_fixed SockB PortFd C 6
      else redirect_fixed SockB PortFd C 7
  else redirect_fixed SockB PortFd C 3.

Definition EscRedirectChar (SockB DevB : bufptr) (PortFd C : Z) : SM unit :=
  st ← get_tel IACEscape;
  match st with
  | IACNormal => redirect_normal DevB C
  | IACReceived => redirect_received DevB C
  | IACComReceiving => redirect_command SockB PortFd C
  end ;;
  put_tel (set_EscRedirectChar_Last C).

(** [for (i = 0; i < iobytes; i++) EscRedirectChar (..., readbuf[i]);] of
    [main], over the bytes that were read. *)
Fixpoint EscRedirectBytes (SockB DevB : bufptr) (PortFd : Z) (l : bytes) : SM unit :=
  match l with
  | [] => mret tt
  | c :: l' => EscRedirectChar SockB DevB PortFd c ;; EscRedirectBytes SockB DevB PortFd l'
  end.
End Telnet.
