(* ===== verification/TelnetSafe.v ===== *)
(** * Buffer room of the Telnet engine

    Every operation of the engine, started in a consistent state with the room
    its [_bytes] macro announces, returns, queues at most that many bytes and
    keeps the state consistent: no assertion of the ring buffer fails and no
    array is accessed outside its bounds. *)

From S2P Require Import Prelude RingBuffer Termios Kernel SimKernel LibcTty SercdState.
From S2P Require Import UnixPort Telnet.

(** Closes a goal about the part of the state an operation leaves alone. *)
Ltac unchanged :=
  first [by split_and! | exists []; split; [by rewrite app_nil_r|by (simpl; lia) || by vm_compute]].

Section Safe.
Context {W : Type} `{Kernel W}.
Abbreviation SM A := (M (St W) A) (only parsing).

Definition net (s : St W) : bytes := contents (ToNetBuf (bufs s)).
Definition dev (s : St W) : bytes := contents (ToDevBuf (bufs s)).

(** Consistent states. *)
Record st_ok (s : St W) : Prop := mkOk {
  ok_net : wf_buffer (ToNetBuf (bufs s));
  ok_dev : wf_buffer (ToDevBuf (bufs s));
  ok_tn : length (tnstate (tel s)) = 256%nat;
  ok_cmd : length (IACCommand (tel s)) = 255%nat;
  ok_bytes : Forall is_byte (IACCommand (tel s));
}.

(** What the Telnet engine never touches. *)
Definition framed (s s' : St W) : Prop :=
  opts s' = opts s /\ con s' = con s /\ plat s' = plat s /\
  readbuf (bufs s') = readbuf (bufs s).

Definition grows (n : Z) (l l' : bytes) : Prop :=
  exists x, l' = l ++ x /\ Z.of_nat (length x) <= n.

(** [m] queues at most [n] bytes for the network and [d] for the device. *)
Class Bounded (n d : Z) {A} (m : SM A) : Prop :=
  bounded s :
    st_ok s -> Z.of_nat (length (net s)) + n <= 2047 ->
    Z.of_nat (length (dev s)) + d <= 2047 ->
    wp m (fun _ s' => st_ok s' /\ framed s s' /\ grows n (net s) (net s') /\
                      grows d (dev s) (dev s')) no_stop s.

Lemma framed_refl s : framed s s.
Proof. by split_and!. Qed.
Lemma framed_trans s1 s2 s3 : framed s1 s2 -> framed s2 s3 -> framed s1 s3.
Proof. unfold framed. intuition congruence. Qed.

Lemma grows_refl n l : 0 <= n -> grows n l l.
Proof. exists []. by rewrite app_nil_r. Qed.
Lemma grows_trans n1 n2 l1 l2 l3 : grows n1 l1 l2 -> grows n2 l2 l3 -> grows (n1 + n2) l1 l3.
Proof.
  intros (x & -> & ?) (y & -> & ?). exists (x ++ y).
  rewrite app_assoc, length_app. split; [done|lia].
Qed.
Lemma grows_mono n n' l l' : n <= n' -> grows n l l' -> grows n' l l'.
Proof. intros ? (x & -> & ?). exists x. split; [done|lia]. Qed.
Lemma grows_length n l l' :
  grows n l l' -> Z.of_nat (length l') <= Z.of_nat (length l) + n.
Proof. intros (x & -> & ?). rewrite length_app. lia. Qed.

Lemma bounded_weaken n d n' d' {A} (m : SM A) :
  Bounded n d m -> n <= n' -> d <= d' -> Bounded n' d' m.
Proof.
  intros Hm Hn Hd s Hok Hnet Hdev.
  eapply wp_mono; [apply Hm; [done|lia|lia]| |done].
  intros _ s' (? & ? & ? & ?). split_and!; eauto using grows_mono.
Qed.

Lemma bounded_bind n1 d1 n2 d2 {A B} (m : SM A) (f : A -> SM B) :
  Bounded n1 d1 m -> (forall a, Bounded n2 d2 (f a)) -> 0 <= n2 -> 0 <= d2 ->
  Bounded (n1 + n2) (d1 + d2) (m ≫= f).
Proof.
  intros Hm Hf Hn2 Hd2 s Hok Hnet Hdev. apply wp_bind.
  eapply wp_mono; [apply Hm; [done|lia|lia]| |done].
  intros a s1 (Hok1 & Hfr1 & Hn & Hd).
  pose proof (grows_length _ _ _ Hn). pose proof (grows_length _ _ _ Hd).
  eapply wp_mono; [apply (Hf a s1); [done|lia|lia]| |done].
  intros b s2 (? & ? & ? & ?). split_and!; eauto using framed_trans, grows_trans.
Qed.

Lemma bounded_if n1 d1 n2 d2 {A} (b : bool) (m1 m2 : SM A) :
  Bounded n1 d1 m1 -> Bounded n2 d2 m2 ->
  Bounded (Z.max n1 n2) (Z.max d1 d2) (if b then m1 else m2).
Proof. destruct b; intros; eapply bounded_weaken; eauto; lia. Qed.

Lemma bounded_sys {A} (m : SM A) : SysOnly m -> Bounded 0 0 m.
Proof.
  intros Hm s Hok _ _. destruct (Hm s) as (a & p & E). eapply wp_Ret; [done|].
  split_and!; [by destruct Hok|unchanged..].
Qed.

Lemma bounded_when n d b (m : SM unit) :
  Bounded n d m -> 0 <= n -> 0 <= d -> Bounded n d (when b m).
Proof.
  intros Hm Hn Hd. unfold when. destruct b; [done|].
  eapply bounded_weaken; [apply bounded_sys, _|done|done].
Qed.

(** A change of the Telnet variables that keeps the arrays. *)
Lemma bounded_put_tel (f : Telnet -> Telnet) :
  (forall T, tnstate (f T) = tnstate T) -> (forall T, IACCommand (f T) = IACCommand T) ->
  Bounded 0 0 (put_tel f).
Proof.
  intros Htn Hcmd s [] _ _. eapply wp_Ret; [done|].
  split_and!; [|unchanged..].
  constructor; simpl; rewrite ?Htn, ?Hcmd; done.
Qed.

Lemma bounded_tn_upd o f : is_byte o -> Bounded 0 0 (tn_upd o f).
Proof.
  intros [Ho Ho'] s [] _ _. unfold tn_upd.
  destruct (lookup_lt_is_Some_2 (tnstate (tel s)) (Z.to_nat o)) as [t Ht]; [lia|].
  eapply wp_bind, wp_Ret; [by apply tn_get_Some|]. eapply wp_Ret; [done|].
  split_and!; [|unchanged..].
  constructor; simpl; rewrite ?length_insert; done.
Qed.

Lemma bounded_tn_get n d {A} o (f : tnstate_t -> SM A) :
  is_byte o -> (forall t, Bounded n d (f t)) -> Bounded n d (t ← tn_get o; f t).
Proof.
  intros [Ho Ho'] Hf s Hok Hn Hd.
  destruct (lookup_lt_is_Some_2 (tnstate (tel s)) (Z.to_nat o)) as [t Ht].
  { destruct Hok. lia. }
  eapply wp_bind, wp_Ret; [by apply tn_get_Some|]. by apply Hf.
Qed.

Lemma bounded_at n d {A} Command i (f : Z -> SM A) :
  Forall is_byte Command -> 0 <= i < Z.of_nat (length Command) ->
  (forall c, Command !! Z.to_nat i = Some c -> is_byte c -> Bounded n d (f c)) -> Bounded n d (c ← at_ Command i; f c).
Proof.
  intros Hb Hi Hf s Hok Hn Hd.
  destruct (lookup_lt_is_Some_2 Command (Z.to_nat i)) as [c Hc]; [lia|].
  eapply wp_bind, wp_Ret; [apply at_Some; [lia|done]|]. apply Hf; try done.
  by eapply Forall_lookup_1.
Qed.

(** Queueing one byte, exactly. *)
Lemma Add_net C s :
  st_ok s -> Z.of_nat (length (net s)) < 2047 ->
  exists s', Add ToNet C s = Ret tt s' /\ st_ok s' /\ framed s s' /\ tel s' = tel s /\
    proc s' = proc s /\ net s' = net s ++ [C] /\ dev s' = dev s.
Proof.
  intros Hok Hn. destruct (fifo_put_room (ToNetBuf (bufs s)) C) as (B & E & Hwf & Hc).
  { apply Hok. } { simpl. unfold BufferSize, net in *. lia. }
  exists (set_buf ToNet B s). destruct Hok.
  split_and!; try done. unfold Add, on_buf. simpl in *. by rewrite E.
Qed.

Lemma Add_dev C s :
  st_ok s -> Z.of_nat (length (dev s)) < 2047 ->
  exists s', Add ToDev C s = Ret tt s' /\ st_ok s' /\ framed s s' /\ tel s' = tel s /\
    proc s' = proc s /\ net s' = net s /\ dev s' = dev s ++ [C].
Proof.
  intros Hok Hn. destruct (fifo_put_room (ToDevBuf (bufs s)) C) as (B & E & Hwf & Hc).
  { apply Hok. } { simpl. unfold BufferSize, dev in *. lia. }
  exists (set_buf ToDev B s). destruct Hok.
  split_and!; try done. unfold Add, on_buf. simpl in *. by rewrite E.
Qed.

Lemma bounded_Add_net C : Bounded 1 0 (Add ToNet C).
Proof.
  intros s Hok Hn Hd. destruct (Add_net C s) as (s' & E & ? & ? & _ & _ & En & Ed); [done|lia|].
  eapply wp_Ret; [done|]. rewrite En, Ed. split_and!; [done..|by exists [C]|unchanged].
Qed.

Lemma bounded_Add_dev C : Bounded 0 1 (Add ToDev C).
Proof.
  intros s Hok Hn Hd. destruct (Add_dev C s) as (s' & E & ? & ? & _ & _ & En & Ed); [done|lia|].
  eapply wp_Ret; [done|]. rewrite En, Ed. split_and!; [done..|unchanged|by exists [C]].
Qed.
End Safe.

(** Derives [Bounded ?n ?d m] by following the structure of [m]. *)
Ltac bounded :=
  lazymatch goal with
  | |- Bounded _ _ (Add ToNet _) => apply bounded_Add_net
  | |- Bounded _ _ (Add ToDev _) => apply bounded_Add_dev
  | |- Bounded _ _ (put_tel _) => apply bounded_put_tel; done
  | |- Bounded _ _ (tn_upd _ _) => apply bounded_tn_upd; done
  | |- Bounded _ _ (tn_get _ ≫= _) => eapply bounded_tn_get; [done|intros ?; bounded]
  | |- Bounded _ _ (at_ _ _ ≫= _) => eapply bounded_at; [done|lia|intros ? _ ?; bounded]
  | |- Bounded _ _ (when _ _) => eapply bounded_when; [bounded| |]
  | |- Bounded _ _ (if _ then _ else _) => eapply bounded_if; bounded
  | |- Bounded _ _ (_ ≫= _) => eapply bounded_bind; [bounded|intros ?; bounded| |]
  | |- Bounded _ _ _ => first [apply bounded_sys; apply _ | apply _ | eauto]
  end.
Ltac bounded_by :=
  eapply bounded_weaken; [bounded|..]; try lia; try done.

Section Senders.
Context {W : Type} `{Kernel W}.

#[global] Instance bounded_EscWriteChar C : Bounded (W:=W) 2 0 (EscWriteChar ToNet C).
Proof. unfold EscWriteChar. bounded_by. Qed.

#[global] Instance bounded_SendStr Str :
  Bounded (W:=W) (2 * Z.of_nat (length Str)) 0 (SendStr ToNet Str).
Proof.
  induction Str as [|c Str IH]; [apply bounded_sys, _|].
  simpl SendStr. eapply bounded_weaken; [eapply bounded_bind; [apply _|done|..]|..]; simpl; lia.
Qed.

#[global] Instance bounded_EscWriteBytes l :
  Bounded (W:=W) (2 * Z.of_nat (length l)) 0 (EscWriteBytes ToNet l).
Proof.
  induction l as [|c l IH]; [apply bounded_sys, _|].
  simpl EscWriteBytes. eapply bounded_weaken; [eapply bounded_bind; [apply _|done|..]|..]; simpl; lia.
Qed.

Lemma bounded_SendSignature Sig :
  (length Sig <= 255)%nat -> Bounded (W:=W) SendSignature_bytes 0 (SendSignature ToNet Sig).
Proof.
  intros Hl. unfold SendSignature, assert. rewrite (proj2 (Z.leb_le _ _)) by lia.
  unfold SendSignature_bytes. bounded_by.
Qed.

#[global] Instance bounded_SendTelnetOption C o :
  Bounded (W:=W) SendTelnetOption_bytes 0 (SendTelnetOption ToNet C o).
Proof. unfold SendTelnetOption, SendTelnetOption_bytes. bounded_by. Qed.

#[global] Instance bounded_SendBaudRate BR :
  Bounded (W:=W) SendBaudRate_bytes 0 (SendBaudRate ToNet BR).
Proof. unfold SendBaudRate, SendBaudRate_bytes. bounded_by. Qed.

#[global] Instance bounded_SendCPCByteCommand C p :
  Bounded (W:=W) SendCPCByteCommand_bytes 0 (SendCPCByteCommand ToNet C p).
Proof. unfold SendCPCByteCommand, SendCPCByteCommand_bytes. bounded_by. Qed.

(** Six options of three bytes are sent, twice what the macro
    [SendTelnetInitialOptions_bytes] announces. *)
Lemma bounded_SendTelnetInitialOptions :
  Bounded (W:=W) (2 * SendTelnetInitialOptions_bytes) 0 (SendTelnetInitialOptions ToNet).
Proof. unfold SendTelnetInitialOptions, SendTelnetInitialOptions_bytes, SendTelnetOption_bytes. bounded_by. Qed.
End Senders.

Section Handlers.
Context {W : Type} `{Kernel W}.

(** The copy of a client signature stays inside [IACCommand]. *)
Definition sig_terminated (Command : bytes) : Prop := is_Some (strncpy (drop 4 Command) 254).

(** A request for our signature has no text; a client's own has to end inside
    the array. *)
Definition sig_safe (Command : bytes) (CSize : Z) : Prop :=
  6 <= CSize <= 255 /\ (CSize = 6 \/ sig_terminated Command).

Lemma bounded_cpc_signature Command CSize :
  sig_safe Command CSize -> Bounded (W:=W) SendSignature_bytes 0 (cpc_signature ToNet Command CSize).
Proof.
  intros [Hs Ht]. unfold cpc_signature. destruct (Z.eqb_spec CSize 6).
  - assert (forall dv, Bounded (W:=W) SendSignature_bytes 0
      (SendSignature ToNet (snprintf 255 (lit "sercd " ++ VERSION ++ lit " " ++ dv)))) as Hs'.
    { intros dv. apply bounded_SendSignature. unfold snprintf. rewrite length_take. lia. }
    bounded_by.
  - rewrite (u32_small (CSize - 6)) by (unfold is_u32; lia).
    replace (Z.max (CSize - 6) 254) with 254 by lia. cbv zeta.
    rewrite (proj2 (Z.ltb_ge _ _)) by lia.
    destruct Ht as [->|[t Ht]]; [done|]. change (Z.to_nat 254) with 254%nat. rewrite Ht.
    eapply bounded_weaken; [apply bounded_sys, _|done|done].
Qed.

Lemma bounded_HandleCPCCommand fd Command CSize :
  Forall is_byte Command -> length Command = 255%nat ->
  (Command !! 3%nat = Some TNCAS_SIGNATURE -> sig_safe Command CSize) ->
  Bounded (W:=W) HandleCPCCommand_bytes 0 (HandleCPCCommand ToNet fd Command CSize).
Proof.
  intros Hb Hl Hsig. unfold HandleCPCCommand.
  eapply bounded_at; [done|lia|]. intros c Hc _.
  destruct (Z.eqb_spec c TNCAS_SIGNATURE) as [->|_].
  { eapply bounded_weaken; [by apply bounded_cpc_signature, Hsig|done|done]. }
  unfold cpc_baudrate, cpc_datasize, cpc_parity, cpc_stopsize, cpc_control, cpc_linestate_mask,
    cpc_modemstate_mask, cpc_purge.
  unfold cpc_setting. bounded_by.
Qed.

Lemma bounded_HandleIACCommand fd Command CSize :
  Forall is_byte Command -> length Command = 255%nat ->
  (Command !! 1%nat = Some TNSB -> Command !! 3%nat = Some TNCAS_SIGNATURE ->
   sig_safe Command CSize) ->
  Bounded (W:=W) HandleIACCommand_bytes 0 (HandleIACCommand ToNet fd Command CSize).
Proof.
  intros Hb Hl Hsig. unfold HandleIACCommand.
  eapply bounded_at; [done|lia|]. intros c Hc _.
  destruct (Z.eqb_spec c TNSB) as [->|_].
  - assert (Bounded (W:=W) HandleCPCCommand_bytes 0 (HandleCPCCommand ToNet fd Command CSize)).
    { by apply bounded_HandleCPCCommand; auto. }
    bounded_by.
  - unfold iac_will, iac_do, iac_dont, iac_wont. bounded_by.
Qed.
End Handlers.

(** ** The parser of received data *)

Section Parser.
Context {W : Type} `{Kernel W}.

(** While a command is collected, [IACPos] is below the length at which it is
    complete; a signature, which has no fixed length, stays inside the array. *)
Definition collecting (Command : bytes) (pos : Z) : Prop :=
  exists c1 c3, Command !! 1%nat = Some c1 /\ Command !! 3%nat = Some c3 /\
    if c1 =? TNSB then
      2 <= pos < 4 \/
      4 <= pos <
        (if c3 =? TNCAS_SIGNATURE then 256 else if c3 =? TNCAS_SET_BAUDRATE then 10
         else if (c3 =? TNCAS_FLOWCONTROL_SUSPEND) || (c3 =? TNCAS_FLOWCONTROL_RESUME)
         then 6 else 7)
    else pos = 2.

Definition parser_ok (s : St W) : Prop :=
  IACEscape (tel s) = IACComReceiving -> collecting (IACCommand (tel s)) (IACPos (tel s)).

(** What one received byte guarantees, and the one way it can stop. *)
Definition redirected (s : St W) (s' : St W) : Prop :=
  st_ok s' /\ parser_ok s' /\ framed s s' /\
  grows EscRedirectChar_bytes_SockB (net s) (net s') /\
  grows EscRedirectChar_bytes_DevB (dev s) (dev s').

Definition overread (e : stop) (s' : St W) : Prop :=
  e = OutOfBounds /\ ~ sig_terminated (IACCommand (tel s')).

(** The state after [iac_push C]. *)
Definition pushed (C : Z) (s : St W) : St W :=
  upd_tel (set_IACPos (IACPos (tel s) + 1))
    (upd_tel (set_IACCommand (<[Z.to_nat (IACPos (tel s)) := C]> (IACCommand (tel s)))) s).

Lemma iac_push_eq C s :
  st_ok s -> 0 <= IACPos (tel s) < 255 -> iac_push C s = Ret tt (pushed C s).
Proof.
  intros [] Hp. unfold iac_push, get_tel. rewrite bind_gets. unfold IACCommand_store, store_at.
  unfold mbind, M_bind. rewrite decide_True by lia. simpl.
  unfold put_tel, modify, pushed. rewrite u32_small by (unfold is_u32; lia). done.
Qed.

Lemma pushed_ok C s : is_byte C -> st_ok s -> st_ok (pushed C s).
Proof.
  intros HC []. constructor; simpl; rewrite ?length_insert; try done.
  by apply Forall_insert.
Qed.

#[local] Instance sig_terminated_dec Command : Decision (sig_terminated Command).
Proof. unfold sig_terminated. apply _. Defined.
#[local] Instance sig_safe_dec Command CSize : Decision (sig_safe Command CSize).
Proof. unfold sig_safe. apply _. Defined.

(** A command with any signature: the over-read is the only stop. *)
Lemma wp_HandleIACCommand fd Command CSize s :
  Forall is_byte Command -> length Command = 255%nat ->
  (Command !! 1%nat = Some TNSB -> Command !! 3%nat = Some TNCAS_SIGNATURE -> 6 <= CSize <= 255) ->
  st_ok s -> Z.of_nat (length (net s)) + HandleIACCommand_bytes <= 2047 ->
  Z.of_nat (length (dev s)) <= 2047 ->
  wp (HandleIACCommand ToNet fd Command CSize)
    (fun _ s' => st_ok s' /\ framed s s' /\ grows HandleIACCommand_bytes (net s) (net s') /\
                 grows 0 (dev s) (dev s'))
    (fun e s' => e = OutOfBounds /\ s' = s /\ ~ sig_terminated Command) s.
Proof.
  intros Hb Hl Hsz Hok Hn Hd. change HandleIACCommand_bytes with 516 in *.
  destruct (decide (Command !! 1%nat = Some TNSB /\ Command !! 3%nat = Some TNCAS_SIGNATURE
                    /\ ~ sig_safe Command CSize)) as [(H1 & H3 & Hns)|Hsafe].
  - unfold HandleIACCommand. eapply wp_bind, wp_Ret; [by apply at_Some|].
    rewrite Z.eqb_refl. destruct (lookup_lt_is_Some_2 Command 2) as [o Ho]; [lia|].
    eapply wp_bind, wp_Ret; [by apply at_Some|].
    pose proof (Forall_lookup_1 _ _ _ _ Hb Ho) as [? ?].
    destruct (lookup_lt_is_Some_2 (tnstate (tel s)) (Z.to_nat o)) as [t Ht].
    { destruct Hok. lia. }
    eapply wp_bind, wp_Ret; [by apply tn_get_Some|].
    destruct (is_will t || is_do t); simpl negb; cbv iota.
    2: { eapply wp_Ret; [done|]. split_and!; [done|unchanged|unchanged..]. }
    destruct (o =? TNCOM_PORT_OPTION).
    2: { eapply wp_mono; [apply bounded_sys; [apply _|done|lia|lia]| |done].
         intros _ s' (? & ? & ? & ?). split_and!; try done. by eapply (grows_mono 0). }
    unfold HandleCPCCommand. eapply wp_bind, wp_Ret; [by apply at_Some|].
    rewrite Z.eqb_refl. unfold cpc_signature.
    destruct (Hsz H1 H3) as [??].
    destruct (Z.eqb_spec CSize 6) as [->|]; [exfalso; apply Hns; split; [lia|by left]|].
    rewrite u32_small by (unfold is_u32; lia).
    replace (Z.max (CSize - 6) 254) with 254 by lia. cbv zeta. simpl (255 <? 254). cbv iota.
    assert (~ sig_terminated Command) as Hnt.
    { intros ?. apply Hns. split; [lia|by right]. }
    change (Z.to_nat 254) with 254%nat.
    destruct (strncpy (drop 4 Command) 254) as [x|] eqn:E; [destruct Hnt; by exists x|done].
  - eapply wp_mono; [apply bounded_HandleIACCommand; [done|done| |done|done|lia]|done|done].
    intros H1 H3. destruct (decide (sig_safe Command CSize)); [done|]. destruct Hsafe; eauto.
Qed.

(** [redirected] for the operations that finish the handling of a byte. *)
Lemma redirected_Last C s s' : redirected s s' -> redirected s (upd_tel (set_EscRedirectChar_Last C) s').
Proof.
  intros ([] & Hp & Hf & Hn & Hd). unfold redirected. split_and!; try done.
Qed.

Lemma wp_iac_finish fd s0 s :
  st_ok s -> framed s0 s -> net s = net s0 -> dev s = dev s0 ->
  Z.of_nat (length (net s)) + HandleIACCommand_bytes <= 2047 ->
  Z.of_nat (length (dev s)) <= 2047 ->
  (IACCommand (tel s) !! 1%nat = Some TNSB ->
   IACCommand (tel s) !! 3%nat = Some TNCAS_SIGNATURE -> 6 <= IACPos (tel s) <= 255) ->
  wp (iac_finish ToNet fd) (fun _ s' => redirected s0 s') overread s.
Proof.
  intros Hok Hfr Hn0 Hd0 Hn Hd Hsz. unfold iac_finish.
  apply wp_bind. eapply wp_Ret; [done|]. apply wp_bind. eapply wp_Ret; [done|].
  apply wp_bind. eapply wp_mono; [by apply wp_HandleIACCommand; try apply Hok| |].
  - intros _ s1 (Hok1 & Hf & Hgn & Hgd). eapply wp_Ret; [done|].
    unfold redirected. split_and!; [by destruct Hok1|done|by eapply framed_trans| |].
    + by rewrite <- Hn0.
    + rewrite <- Hd0. by eapply (grows_mono 0).
  - intros e s1 (-> & -> & ?). done.
Qed.

Lemma wp_redirect_normal C s :
  st_ok s -> IACEscape (tel s) = IACNormal -> Z.of_nat (length (dev s)) < 2047 ->
  wp (redirect_normal ToDev C) (fun _ s' => redirected s s') overread s.
Proof.
  intros Hok He Hd. unfold redirect_normal.
  destruct (lookup_lt_is_Some_2 (tnstate (tel s)) 0) as [t Ht]; [destruct Hok; lia|].
  apply wp_bind. eapply wp_Ret; [done|].
  eapply wp_bind, wp_Ret; [by apply tn_get_Some|].
  destruct (C =? TNIAC); [|destruct (_ && _ && _)].
  - eapply wp_Ret; [done|]. destruct Hok. unfold redirected; split_and!; [done|done|unchanged..].
  - eapply wp_Ret; [done|]. unfold redirected; split_and!; [done| |unchanged..].
    intros E. congruence.
  - destruct (Add_dev C s) as (s' & E & ? & ? & Et & _ & En & Ed); [done|lia|].
    eapply wp_Ret; [done|]. unfold redirected, parser_ok. rewrite En, Ed, Et.
    split_and!; [done|congruence|done|unchanged|by exists [C]].
Qed.

Lemma wp_redirect_received C s :
  st_ok s -> is_byte C -> Z.of_nat (length (dev s)) < 2047 ->
  wp (redirect_received ToDev C) (fun _ s' => redirected s s') overread s.
Proof.
  intros Hok HC Hd. unfold redirect_received. destruct (C =? TNIAC).
  - destruct (Add_dev C s) as (s' & E & [] & ? & Et & _ & En & Ed); [done|lia|].
    eapply wp_bind, wp_Ret; [done|]. eapply wp_Ret; [done|].
    unfold redirected, parser_ok. unfold net, dev in *. simpl. rewrite En, Ed.
    split_and!; [done|congruence|done|unchanged|by exists [C]].
  - destruct Hok as [? ? ? Hl Hb]. unfold IACCommand_store, store_at.
    eapply wp_bind, wp_Ret; [rewrite decide_True by lia; done|].
    eapply wp_bind, wp_Ret; [simpl; rewrite length_insert, decide_True by lia; done|].
    do 2 (eapply wp_bind, wp_Ret; [done|]). eapply wp_Ret; [done|].
    unfold redirected. split_and!; [|intros _|unchanged..].
    + constructor; simpl; rewrite ?length_insert; try done.
      by repeat apply Forall_insert.
    + destruct (lookup_lt_is_Some_2 (IACCommand (tel s)) 3) as [c3 H3]; [lia|].
      exists C, c3. simpl. rewrite list_lookup_insert_eq by (rewrite length_insert; lia).
      rewrite !list_lookup_insert_ne by lia. split_and!; [done..|].
      destruct (C =? TNSB); [left|]; lia.
Qed.

Lemma pushed_lookup_ne C s i :
  Z.of_nat i < IACPos (tel s) -> IACCommand (tel (pushed C s)) !! i = IACCommand (tel s) !! i.
Proof. intros Hi. simpl. apply list_lookup_insert_ne. lia. Qed.

(** A byte that is collected without completing the command. *)
Lemma redirected_pushed C s :
  st_ok s -> is_byte C -> collecting (IACCommand (tel (pushed C s))) (IACPos (tel s) + 1) ->
  redirected s (pushed C s).
Proof.
  intros Hok HC Hcol. unfold redirected.
  split_and!; [by apply pushed_ok|by intros _|unchanged..].
Qed.

Section Room.
Context (s : St W) (fd C : Z).
Context (Hok : st_ok s) (HC : is_byte C) (Hcom : IACEscape (tel s) = IACComReceiving)
  (Hn : Z.of_nat (length (net s)) + EscRedirectChar_bytes_SockB <= 2047)
  (Hd : Z.of_nat (length (dev s)) + EscRedirectChar_bytes_DevB <= 2047).

Lemma wp_redirect_fixed len :
  2 <= IACPos (tel s) < len -> len <= 10 ->
  (IACPos (tel s) + 1 < len -> collecting (IACCommand (tel (pushed C s))) (IACPos (tel s) + 1)) ->
  (IACCommand (tel (pushed C s)) !! 1%nat = Some TNSB ->
   IACCommand (tel (pushed C s)) !! 3%nat <> Some TNCAS_SIGNATURE) ->
  wp (redirect_fixed ToNet fd C len) (fun _ s' => redirected s s') overread s.
Proof.
  intros Hp Hlen Hcol Hsig. unfold redirect_fixed.
  eapply wp_bind, wp_Ret; [apply iac_push_eq; [done|lia]|]. apply wp_bind. eapply wp_Ret; [done|].
  simpl IACPos. unfold when. destruct (Z.eqb_spec (IACPos (tel s) + 1) len) as [Hl|Hl].
  - apply wp_iac_finish; [by apply pushed_ok|by split_and!|done..| |]; [unfold dev, EscRedirectChar_bytes_DevB in *; simpl; lia|].
    intros H1 H3. by destruct (Hsig H1).
  - eapply wp_Ret; [done|]. apply redirected_pushed; [done..|]. apply Hcol. lia.
Qed.

(** The state after [iac_push_guarded C]. *)
Definition pushed_guarded (C : Z) (s : St W) : St W :=
  if IACPos (tel s) <? 255 then pushed C s else s.

Lemma iac_push_guarded_eq c s1 :
  st_ok s1 -> 0 <= IACPos (tel s1) -> iac_push_guarded c s1 = Ret tt (pushed_guarded c s1).
Proof.
  intros Hok1 Hp. unfold iac_push_guarded, get_tel. rewrite bind_gets. unfold when, pushed_guarded.
  change (Z.of_nat TmpStrLen) with 255. destruct (Z.ltb_spec (IACPos (tel s1)) 255); [|done].
  apply iac_push_eq; [done|lia].
Qed.

(** What collecting a byte of a signature keeps. *)
Lemma pushed_guarded_sig c s1 :
  st_ok s1 -> is_byte c -> 4 <= IACPos (tel s1) <= 255 ->
  let s2 := pushed_guarded c s1 in
  st_ok s2 /\ framed s1 s2 /\ net s2 = net s1 /\ dev s2 = dev s1 /\
  IACPos (tel s2) = Z.min 255 (IACPos (tel s1) + 1) /\ IACEscape (tel s2) = IACEscape (tel s1) /\
  IACCommand (tel s2) !! 1%nat = IACCommand (tel s1) !! 1%nat /\
  IACCommand (tel s2) !! 3%nat = IACCommand (tel s1) !! 3%nat.
Proof.
  intros Hok1 Hc Hp. unfold pushed_guarded. cbv zeta.
  destruct (Z.ltb_spec (IACPos (tel s1)) 255).
  - rewrite !pushed_lookup_ne by lia. split_and!; [by apply pushed_ok|by split_and!|done..| |done|done|done].
    simpl. lia.
  - split_and!; [done|by split_and!|done..|lia|done|done|done].
Qed.

Lemma wp_redirect_signature :
  IACCommand (tel s) !! 1%nat = Some TNSB ->
  IACCommand (tel s) !! 3%nat = Some TNCAS_SIGNATURE -> 4 <= IACPos (tel s) <= 255 ->
  wp (redirect_signature ToNet fd C) (fun _ s' => redirected s s') overread s.
Proof.
  intros H1 H3 Hp. unfold redirect_signature. apply wp_bind. eapply wp_Ret; [done|].
  assert (forall s', IACCommand (tel s') !! 1%nat = Some TNSB ->
    IACCommand (tel s') !! 3%nat = Some TNCAS_SIGNATURE ->
    4 <= IACPos (tel s') <= 255 -> parser_ok s') as Hpar.
  { intros s' ? ? ? _. exists TNSB, TNCAS_SIGNATURE. simpl. split_and!; [done..|]. right; lia. }
  assert (forall v s', parser_ok s' -> st_ok s' -> framed s s' -> net s' = net s -> dev s' = dev s ->
    redirected s (upd_tel (set_IACSigEscape v) s')) as Hred.
  { intros v s' ? [] ? En Ed. unfold redirected, net, dev in *. simpl. rewrite En, Ed.
    split_and!; [done..|unchanged|unchanged]. }
  destruct (pushed_guarded_sig C s Hok HC Hp) as (Ok1 & F1 & N1 & D1 & P1 & E1 & L1 & L3).
  destruct (IACSigEscape (tel s)), (C =? TNIAC).
  - eapply wp_Ret; [done|]. apply Hred; try done. by apply Hpar.
  - eapply wp_Ret; [apply iac_push_guarded_eq; [done|lia]|].
    unfold redirected. rewrite N1, D1. split_and!; [done| |done|unchanged|unchanged].
    apply Hpar; rewrite ?L1, ?L3; [done..|lia].
  - eapply wp_bind, wp_Ret; [apply iac_push_guarded_eq; [done|lia]|]. eapply wp_Ret; [done|].
    apply Hred; try done. apply Hpar; rewrite ?L1, ?L3; [done..|lia].
  - destruct (pushed_guarded_sig TNIAC s Hok) as (Ok2 & F2 & N2 & D2 & P2 & E2 & M1 & M3); [done..|].
    eapply wp_bind, wp_Ret; [apply iac_push_guarded_eq; [done|lia]|].
    destruct (pushed_guarded_sig C _ Ok2 HC) as (Ok3 & F3 & N3 & D3 & P3 & E3 & O1 & O3); [lia|].
    eapply wp_bind, wp_Ret; [apply iac_push_guarded_eq; [done|lia]|].
    apply wp_iac_finish; [done|by eapply framed_trans|congruence..| | |].
    + rewrite N3, N2. done.
    + rewrite D3, D2. unfold EscRedirectChar_bytes_DevB in *. lia.
    + intros _ _. rewrite P3, P2. lia.
  - eapply wp_Ret; [done|]. apply Hred; try done. by apply Hpar.
  - eapply wp_Ret; [done|]. apply Hred; try done. by apply Hpar.
Qed.

(** A byte of a subnegotiation below its fifth: the length limit is not yet
    known, but it is at least six. *)
Lemma collecting_header :
  IACCommand (tel s) !! 1%nat = Some TNSB -> 2 <= IACPos (tel s) < 4 ->
  collecting (IACCommand (tel (pushed C s))) (IACPos (tel s) + 1).
Proof.
  intros H1 Hp.
  destruct (lookup_lt_is_Some_2 (IACCommand (tel (pushed C s))) 3) as [c3 H3].
  { simpl. rewrite length_insert. destruct Hok. lia. }
  exists TNSB, c3. rewrite pushed_lookup_ne by lia. split_and!; [done..|]. simpl.
  destruct (decide (IACPos (tel s) + 1 < 4)); [left; lia|right].
  repeat case_match; lia.
Qed.

Lemma wp_redirect_command :
  collecting (IACCommand (tel s)) (IACPos (tel s)) ->
  wp (redirect_command ToNet fd C) (fun _ s' => redirected s s') overread s.
Proof.
  intros (c1 & c3 & H1 & H3 & Hcol). unfold redirect_command.
  do 2 (apply wp_bind; eapply wp_Ret; [done|]). eapply wp_bind, wp_Ret; [by apply at_Some|].
  destruct (Z.eqb_spec c1 TNSB) as [->|Hsb].
  - destruct (Z.ltb_spec (IACPos (tel s)) 4) as [Hp|Hp].
    { eapply wp_Ret; [apply iac_push_eq; [done|lia]|]. apply redirected_pushed; [done..|].
      apply collecting_header; [done|]. destruct Hcol as [?|[? _]]; lia. }
    destruct Hcol as [?|Hcol]; [lia|]. eapply wp_bind, wp_Ret; [by apply at_Some|].
    assert (forall len, (c3 =? TNCAS_SIGNATURE) = false -> 4 <= IACPos (tel s) < len -> len <= 10 ->
      (if c3 =? TNCAS_SET_BAUDRATE then 10
       else if (c3 =? TNCAS_FLOWCONTROL_SUSPEND) || (c3 =? TNCAS_FLOWCONTROL_RESUME)
       then 6 else 7) = len ->
      wp (redirect_fixed ToNet fd C len) (fun _ s' => redirected s s') overread s) as Hfix.
    { intros len E3 ? ? E. apply wp_redirect_fixed; [lia|done| |].
      - intros ?. exists TNSB, c3. rewrite !pushed_lookup_ne by lia. split_and!; [done..|].
        simpl. rewrite E3, E. right; lia.
      - rewrite !pushed_lookup_ne by lia. intros _. rewrite H3. intros [= ->]. done. }
    destruct (c3 =? TNCAS_SIGNATURE) eqn:E3.
    { apply Z.eqb_eq in E3 as ->. apply wp_redirect_signature; [done..|lia]. }
    destruct (c3 =? TNCAS_SET_BAUDRATE); [by apply Hfix|].
    destruct (_ || _); by apply Hfix.
  - apply wp_redirect_fixed; [lia|done|lia|].
    rewrite pushed_lookup_ne by lia. rewrite H1. congruence.
Qed.
End Room.

Lemma wp_EscRedirectChar s fd C :
  st_ok s -> parser_ok s -> is_byte C ->
  Z.of_nat (length (net s)) + EscRedirectChar_bytes_SockB <= 2047 ->
  Z.of_nat (length (dev s)) + EscRedirectChar_bytes_DevB <= 2047 ->
  wp (EscRedirectChar ToNet ToDev fd C) (fun _ s' => redirected s s') overread s.
Proof.
  intros Hok Hpar HC Hn Hd. unfold EscRedirectChar.
  apply wp_bind. eapply wp_Ret; [done|]. apply wp_bind.
  eapply (wp_mono _ (fun _ s' => redirected s s') _ overread); [|
    intros _ s' ?; eapply wp_Ret; [done|]; by apply redirected_Last|done].
  unfold EscRedirectChar_bytes_DevB in *. destruct (IACEscape (tel s)) eqn:He.
  - apply wp_redirect_normal; [done..|lia].
  - apply wp_redirect_received; [done..|lia].
  - apply wp_redirect_command; auto.
Qed.

(** C19: in a consistent state with the room the main loop reserves (516 bytes
    towards the client, one towards the device), handling one received byte
    returns; it fails no assertion and leaves no array except in one case, the
    copy of a client signature that fills [IACCommand] without a NUL.  It
    queues at most the announced number of bytes behind those already queued
    and keeps the state consistent. *)
Theorem EscRedirectChar_safe s fd C :
  st_ok s -> parser_ok s -> is_byte C ->
  Z.of_nat (length (net s)) + EscRedirectChar_bytes_SockB <= 2047 ->
  Z.of_nat (length (dev s)) + EscRedirectChar_bytes_DevB <= 2047 ->
  wp (EscRedirectChar ToNet ToDev fd C) (fun _ s' => redirected s s') overread s.
Proof. apply wp_EscRedirectChar. Qed.
End Parser.

Lemma sim_session_ok w : st_ok (sim_session w).
Proof.
  constructor; [by vm_compute..|]. by apply (bool_decide_unpack _); vm_compute.
Qed.

(** The first byte of a session. *)
Lemma EscRedirectChar_safe_witness :
  wp (EscRedirectChar ToNet ToDev 3 65)
    (fun _ s' => redirected (sim_session (sim_idle sim_blank)) s') overread
    (sim_session (sim_idle sim_blank)).
Proof.
  apply EscRedirectChar_safe; [apply sim_session_ok|discriminate|by vm_compute..].
Defined.
