(* ===== verification/TelnetSpec.v ===== *)
(** * What the Telnet engine sends and how it reads what it receives

    The exact bytes of every message of the engine, and the parser as the
    inverse of the escaping. *)

From S2P Require Import Prelude RingBuffer Termios Kernel SimKernel LibcTty SercdState.
From S2P Require Import UnixPort Telnet TelnetSafe.

Section Exact.
Context {W : Type} `{Kernel W}.
Abbreviation SM A := (M (St W) A) (only parsing).
Implicit Types s : St W.

(** [s'] is [s] with Telnet variables [T], process state [p], [n] queued for
    the client and [d] for the device. *)
Definition after (s : St W) (T : Telnet) (p : Proc W) (n d : bytes) (s' : St W) : Prop :=
  st_ok s' /\ framed s s' /\ tel s' = T /\ proc s' = p /\
  net s' = net s ++ n /\ dev s' = dev s ++ d.

Definition Does (s : St W) {A} (m : SM A) (a : A) (T : Telnet) (p : Proc W) (n d : bytes) : Prop :=
  exists s', m s = Ret a s' /\ after s T p n d s'.

Definition room (s : St W) (n d : nat) : Prop :=
  (length (net s) + n <= 2047)%nat /\ (length (dev s) + d <= 2047)%nat.

Lemma room_after s T p n d s' k j :
  after s T p n d s' -> room s (length n + k) (length d + j) -> room s' k j.
Proof.
  intros (_ & _ & _ & _ & En & Ed) [? ?]. unfold room. rewrite En, Ed, !length_app. lia.
Qed.

Lemma after_refl s : st_ok s -> after s (tel s) (proc s) [] [] s.
Proof. intros. unfold after. rewrite !app_nil_r. by split_and!. Qed.

Lemma after_trans s1 s2 s3 T1 T2 p1 p2 n1 n2 d1 d2 :
  after s1 T1 p1 n1 d1 s2 -> after s2 T2 p2 n2 d2 s3 ->
  after s1 T2 p2 (n1 ++ n2) (d1 ++ d2) s3.
Proof.
  intros (_ & ? & _ & _ & En & Ed) (? & ? & ? & ? & En' & Ed').
  split_and!; [done|by eapply framed_trans|done|done|..].
  - by rewrite En', En, app_assoc.
  - by rewrite Ed', Ed, app_assoc.
Qed.

Lemma does_bind {A B} s (m : SM A) (f : A -> SM B) a b T1 T2 p1 p2 n1 n2 d1 d2 :
  Does s m a T1 p1 n1 d1 ->
  (forall s1, after s T1 p1 n1 d1 s1 -> Does s1 (f a) b T2 p2 n2 d2) ->
  Does s (m ≫= f) b T2 p2 (n1 ++ n2) (d1 ++ d2).
Proof.
  intros (s1 & E & Ha) Hf. destruct (Hf s1 Ha) as (s2 & E2 & Ha2).
  exists s2. split; [by rewrite (bind_Ret _ _ _ _ _ E)|by eapply after_trans].
Qed.

(** A step that only reads. *)
Lemma does_read {A B} s (m : SM A) (f : A -> SM B) a b T p n d :
  m s = Ret a s -> Does s (f a) b T p n d -> Does s (m ≫= f) b T p n d.
Proof. intros E (s' & E' & Ha). exists s'. split; [by rewrite (bind_Ret _ _ _ _ _ E)|done]. Qed.

Lemma does_Add_net s C :
  st_ok s -> room s 1 0 -> Does s (Add ToNet C) tt (tel s) (proc s) [C] [].
Proof.
  intros Hok [Hn _]. destruct (Add_net C s) as (s' & E & ? & ? & ? & ? & En & Ed); [done|lia|].
  exists s'. unfold after. rewrite app_nil_r. by split_and!.
Qed.

Lemma does_Add_dev s C :
  st_ok s -> room s 0 1 -> Does s (Add ToDev C) tt (tel s) (proc s) [] [C].
Proof.
  intros Hok [_ Hd]. destruct (Add_dev C s) as (s' & E & ? & ? & ? & ? & En & Ed); [done|lia|].
  exists s'. unfold after. rewrite app_nil_r. by split_and!.
Qed.

Lemma does_put_tel s f :
  st_ok s -> length (tnstate (f (tel s))) = 256%nat -> length (IACCommand (f (tel s))) = 255%nat ->
  Forall is_byte (IACCommand (f (tel s))) ->
  Does s (put_tel f) tt (f (tel s)) (proc s) [] [].
Proof.
  intros [] ? ? ?. eexists. split; [done|]. unfold after. rewrite !app_nil_r.
  split_and!; try done.
Qed.

(** ** Sending *)

(** What [EscWriteChar] sends for the byte [C] after [Last], in binary mode or
    not. *)
Definition esc_byte (binary : bool) (Last C : Z) : bytes :=
  if C =? TNIAC then [TNIAC; TNIAC]
  else if negb (C =? 10) && negb binary && (Last =? 13) then [0; C] else [C].

Fixpoint esc_bytes (binary : bool) (Last : Z) (l : bytes) : bytes :=
  match l with
  | [] => []
  | c :: l' => esc_byte binary Last c ++ esc_bytes binary c l'
  end.

Definition transmits_binary (T : Telnet) : bool :=
  default false (is_will <$> tnstate T !! 0%nat).

Lemma esc_byte_length b l c : (length (esc_byte b l c) <= 2)%nat.
Proof. unfold esc_byte. repeat case_match; simpl; lia. Qed.

Lemma tn_get_ok s o :
  st_ok s -> is_byte o -> exists t, tn_get o s = Ret t s /\ tnstate (tel s) !! Z.to_nat o = Some t.
Proof.
  intros Hok [? ?]. destruct (lookup_lt_is_Some_2 (tnstate (tel s)) (Z.to_nat o)) as [t Ht].
  { destruct Hok. lia. }
  exists t. split; [by apply tn_get_Some|done].
Qed.

Lemma does_EscWriteChar s C :
  st_ok s -> room s (length (esc_byte (transmits_binary (tel s)) (EscWriteChar_Last (tel s)) C)) 0 ->
  Does s (EscWriteChar ToNet C) tt (set_EscWriteChar_Last C (tel s)) (proc s)
    (esc_byte (transmits_binary (tel s)) (EscWriteChar_Last (tel s)) C) [].
Proof.
  intros Hok. destruct (tn_get_ok s 0 Hok) as (t & Et & Ht); [done|].
  unfold transmits_binary. change 0%nat with (Z.to_nat 0). rewrite Ht. simpl default.
  unfold esc_byte, EscWriteChar. intros Hr.
  eapply does_read; [done|]. eapply does_read; [exact Et|].
  assert (forall (m : SM unit) n, Does s m tt (tel s) (proc s) n [] -> room s (length n + 1) 0 ->
    Does s (m ;; (Add ToNet C ;; put_tel (set_EscWriteChar_Last C))) tt
      (set_EscWriteChar_Last C (tel s)) (proc s) (n ++ [C]) []) as Hlast.
  { intros m n Hm Hrm. eapply (does_bind _ _ _ _ _ _ _ _ _ n [C] [] []); [done|].
    intros s1 Ha. pose proof (room_after _ _ _ _ _ _ 1 0 Ha Hrm) as Hr1.
    destruct Ha as (Hok1 & _ & Et1 & Ep1 & _ & _).
    eapply (does_bind _ _ _ _ _ _ _ _ _ [C] [] [] []); [by apply does_Add_net|].
    intros s2 ([] & _ & Et2 & Ep2 & _ & _). rewrite <- Et1, <- Et2, <- Ep1, <- Ep2.
    by apply does_put_tel. }
  destruct (C =? TNIAC) eqn:EC.
  - apply Z.eqb_eq in EC as ->.
    apply (Hlast _ [TNIAC]); [apply does_Add_net; [done|]|done].
    destruct Hr; split; simpl in *; lia.
  - destruct (_ && _ && _).
    + apply (Hlast _ [0]); [apply does_Add_net; [done|]|done].
      destruct Hr; split; simpl in *; lia.
    + apply (Hlast _ []); [|done]. eexists. split; [done|by apply after_refl].
Qed.

Definition last_byte (Last : Z) (l : bytes) : Z := default Last (last l).

Lemma last_byte_cons L c l : last_byte L (c :: l) = last_byte c l.
Proof.
  unfold last_byte. destruct l as [|x l]; [done|]. rewrite last_cons_cons.
  destruct (last (x :: l)) eqn:E; [done|]. by apply last_None in E.
Qed.

Lemma esc_bytes_length b L l : (length (esc_bytes b L l) <= 2 * length l)%nat.
Proof.
  revert L. induction l as [|c l IH]; intros L; [done|]. simpl. rewrite length_app.
  pose proof (esc_byte_length b L c). pose proof (IH c). lia.
Qed.

Lemma does_EscWriteBytes s l :
  st_ok s -> room s (2 * length l) 0 ->
  Does s (EscWriteBytes ToNet l) tt
    (set_EscWriteChar_Last (last_byte (EscWriteChar_Last (tel s)) l) (tel s)) (proc s)
    (esc_bytes (transmits_binary (tel s)) (EscWriteChar_Last (tel s)) l) [].
Proof.
  revert s. induction l as [|c l IH]; intros s Hok Hr.
  - eexists. split; [done|]. unfold last_byte. simpl.
    replace (set_EscWriteChar_Last _ _) with (tel s) by by destruct (tel s). by apply after_refl.
  - simpl EscWriteBytes. simpl esc_bytes. rewrite last_byte_cons.
    pose proof (esc_byte_length (transmits_binary (tel s)) (EscWriteChar_Last (tel s)) c).
    eapply (does_bind _ _ _ _ _ _ _ _ _ _ _ [] []).
    + apply does_EscWriteChar; [done|]. destruct Hr; split; simpl in *; lia.
    + intros s1 Ha. assert (room s1 (2 * length l) 0) as Hr1.
      { eapply room_after; [done|]. destruct Hr; split; simpl in *; lia. }
      destruct Ha as (Hok1 & _ & Et1 & <- & _ & _).
      pose proof (IH s1 Hok1 Hr1) as HD. rewrite Et1 in HD. done.
Qed.

(** ** Receiving data *)

Definition receives_binary (T : Telnet) : bool :=
  default false (is_do <$> tnstate T !! 0%nat).

(** One byte in the normal state. *)
Lemma does_redirect_normal s fd C :
  st_ok s -> room s 0 1 -> IACEscape (tel s) = IACNormal -> C <> TNIAC ->
  Does s (EscRedirectChar ToNet ToDev fd C) tt (set_EscRedirectChar_Last C (tel s)) (proc s) []
    (if negb (receives_binary (tel s)) && (C =? 0) && (EscRedirectChar_Last (tel s) =? 13)
     then [] else [C]).
Proof.
  intros Hok Hr He HC. destruct (tn_get_ok s 0 Hok) as (t & Et & Ht); [done|].
  unfold receives_binary. change 0%nat with (Z.to_nat 0). rewrite Ht. simpl default.
  unfold EscRedirectChar. eapply does_read; [done|]. rewrite He.
  match goal with |- Does _ _ _ _ _ _ ?d => rewrite <- (app_nil_r d) end.
  eapply (does_bind _ _ _ _ _ (tel s) _ (proc s) _ [] []).
  - unfold redirect_normal. eapply does_read; [done|]. eapply does_read; [exact Et|].
    rewrite (proj2 (Z.eqb_neq _ _) HC). destruct (_ && _ && _).
    + eexists. split; [done|by apply after_refl].
    + by apply does_Add_dev.
  - intros s1 ([] & _ & <- & <- & _ & _). by apply does_put_tel.
Qed.

(** An escaped 255. *)
Lemma does_redirect_iac s fd :
  st_ok s -> room s 0 1 -> IACEscape (tel s) = IACNormal ->
  Does s (EscRedirectBytes ToNet ToDev fd [TNIAC; TNIAC]) tt
    (set_EscRedirectChar_Last TNIAC (tel s)) (proc s) [] [TNIAC].
Proof.
  intros Hok Hr He. destruct (tn_get_ok s 0 Hok) as (t & Et & Ht); [done|].
  set (T1 := set_EscRedirectChar_Last TNIAC (set_IACEscape IACReceived (tel s))).
  cbn [EscRedirectBytes].
  eapply (does_bind _ _ _ _ _ T1 _ (proc s) _ [] [] [] [TNIAC]).
  - unfold EscRedirectChar. eapply does_read; [done|]. rewrite He.
    eapply (does_bind _ _ _ _ _ (set_IACEscape IACReceived (tel s)) _ (proc s) _ [] [] [] []).
    + unfold redirect_normal. eapply does_read; [done|]. eapply does_read; [exact Et|].
      destruct Hok. by apply does_put_tel.
    + intros s1 ([] & _ & Et1 & <- & _ & _). unfold T1. rewrite <- Et1. by apply does_put_tel.
  - intros s1 Ha. pose proof (room_after _ _ _ _ _ _ 0 1 Ha Hr) as Hr1.
    destruct Ha as (Hok1 & _ & Et1 & <- & _ & _).
    eapply (does_bind _ _ _ _ _ (set_EscRedirectChar_Last TNIAC (tel s)) _ (proc s1) _ [] [] [TNIAC] []).
    + unfold EscRedirectChar. eapply does_read; [done|]. rewrite Et1. simpl IACEscape. cbv iota.
      eapply (does_bind _ _ _ _ _ (set_IACEscape IACNormal T1) _ (proc s1) _ [] [] [TNIAC] []).
      * unfold redirect_received. rewrite Z.eqb_refl.
        eapply (does_bind _ _ _ _ _ T1 _ (proc s1) _ [] [] [TNIAC] []).
        { rewrite <- Et1. by apply does_Add_dev. }
        intros s2 ([] & _ & <- & <- & _ & _). by apply does_put_tel.
      * intros s2 ([] & _ & Et2 & <- & _ & _).
        replace (set_EscRedirectChar_Last TNIAC (tel s)) with (set_EscRedirectChar_Last TNIAC (tel s2)).
        { by apply does_put_tel. }
        rewrite Et2. unfold T1. destruct (tel s). simpl in He. by subst.
    + intros s2 (Hok2 & _ & <- & <- & _ & _). eexists. split; [done|by apply after_refl].
Qed.

Lemma EscRedirectBytes_app fd l1 l2 s s1 :
  EscRedirectBytes ToNet ToDev fd l1 s = Ret tt s1 ->
  EscRedirectBytes ToNet ToDev fd (l1 ++ l2) s = EscRedirectBytes ToNet ToDev fd l2 s1.
Proof.
  revert s. induction l1 as [|c l1 IH]; intros s; simpl; [by intros [= ->]|].
  unfold mbind, M_bind. destruct (EscRedirectChar _ _ _ _ s); [apply IH|done].
Qed.

Lemma does_redirect_app s fd l1 l2 T1 T2 p1 p2 n1 n2 d1 d2 :
  Does s (EscRedirectBytes ToNet ToDev fd l1) tt T1 p1 n1 d1 ->
  (forall s1, after s T1 p1 n1 d1 s1 ->
     Does s1 (EscRedirectBytes ToNet ToDev fd l2) tt T2 p2 n2 d2) ->
  Does s (EscRedirectBytes ToNet ToDev fd (l1 ++ l2)) tt T2 p2 (n1 ++ n2) (d1 ++ d2).
Proof.
  intros (s1 & E & Ha) Hf. destruct (Hf s1 Ha) as (s2 & E2 & Ha2).
  exists s2. split; [by rewrite (EscRedirectBytes_app _ _ _ _ _ E)|by eapply after_trans].
Qed.

Lemma does_redirect_one s fd C T p n d :
  Does s (EscRedirectChar ToNet ToDev fd C) tt T p n d ->
  Does s (EscRedirectBytes ToNet ToDev fd [C]) tt T p n d.
Proof.
  intros (s1 & E & Ha). exists s1. split; [|done]. simpl. by rewrite (bind_Ret _ _ _ _ _ E).
Qed.

(** Reading back one escaped byte. *)
Lemma does_redirect_esc s fd C :
  st_ok s -> room s 0 1 -> IACEscape (tel s) = IACNormal ->
  Does s (EscRedirectBytes ToNet ToDev fd
            (esc_byte (receives_binary (tel s)) (EscRedirectChar_Last (tel s)) C)) tt
    (set_EscRedirectChar_Last C (tel s)) (proc s) [] [C].
Proof.
  intros Hok Hr He. unfold esc_byte. destruct (Z.eqb_spec C TNIAC) as [->|HC].
  { by apply does_redirect_iac. }
  destruct (negb (C =? 10) && negb (receives_binary (tel s)) && (EscRedirectChar_Last (tel s) =? 13)) eqn:E.
  - apply andb_prop in E as [[_ Hb]%andb_prop HL].
    eapply (does_redirect_app _ _ [0] [C] _ _ _ _ [] [] [] [C]).
    + apply does_redirect_one. pose proof (does_redirect_normal s fd 0 Hok Hr He) as HD.
      rewrite Hb, HL in HD. by apply HD.
    + intros s1 Ha. pose proof (room_after _ _ _ _ _ _ 0 1 Ha Hr) as Hr1.
      destruct Ha as (Hok1 & _ & Et1 & <- & _ & _). apply does_redirect_one.
      pose proof (does_redirect_normal s1 fd C Hok1 Hr1) as HD. rewrite Et1 in HD.
      rewrite andb_false_r in HD. by apply HD.
  - apply does_redirect_one. pose proof (does_redirect_normal s fd C Hok Hr He HC) as HD.
    destruct (Z.eqb_spec C 0) as [->|]; [|by rewrite andb_false_r in HD].
    rewrite andb_true_r in HD. simpl in E. by rewrite E in HD.
Qed.

Lemma does_redirect_esc_bytes s fd l :
  st_ok s -> room s 0 (length l) -> IACEscape (tel s) = IACNormal ->
  Does s (EscRedirectBytes ToNet ToDev fd
            (esc_bytes (receives_binary (tel s)) (EscRedirectChar_Last (tel s)) l)) tt
    (set_EscRedirectChar_Last (last_byte (EscRedirectChar_Last (tel s)) l) (tel s)) (proc s) [] l.
Proof.
  revert s. induction l as [|c l IH]; intros s Hok Hr He.
  - eexists. split; [done|]. unfold last_byte. simpl.
    replace (set_EscRedirectChar_Last _ _) with (tel s) by by destruct (tel s). by apply after_refl.
  - simpl esc_bytes. rewrite last_byte_cons.
    eapply (does_redirect_app _ _ _ _ _ _ _ _ [] [] [c] l).
    + apply does_redirect_esc; [done| |done]. destruct Hr; split; simpl in *; lia.
    + intros s1 Ha. assert (room s1 0 (length l)) as Hr1.
      { eapply room_after; [done|]. destruct Hr; split; simpl in *; lia. }
      destruct Ha as (Hok1 & _ & Et1 & <- & _ & _).
      pose proof (IH s1 Hok1 Hr1) as HD. rewrite Et1 in HD. by apply HD.
Qed.
End Exact.

(** C20: the parser inverts the escaping.  Whatever bytes [EscWriteChar] sends
    for the data [l], in binary mode or not, [EscRedirectChar] on a receiver
    in the same mode hands exactly [l] to its device and nothing else: 255 is
    doubled and halved, a NUL is stuffed after a bare CR and removed. *)
Theorem telnet_data_roundtrip {W} `{Kernel W} (s r : St W) fd l :
  st_ok s -> st_ok r ->
  Z.of_nat (length (net s)) + EscWriteChar_bytes * Z.of_nat (length l) <= 2047 ->
  Z.of_nat (length (dev r)) + Z.of_nat (length l) <= 2047 -> (length (net r) <= 2047)%nat ->
  (length (dev s) <= 2047)%nat ->
  IACEscape (tel r) = IACNormal ->
  receives_binary (tel r) = transmits_binary (tel s) ->
  EscRedirectChar_Last (tel r) = EscWriteChar_Last (tel s) ->
  exists s' wire r',
    EscWriteBytes ToNet l s = Ret tt s' /\ net s' = net s ++ wire /\
    EscRedirectBytes ToNet ToDev fd wire r = Ret tt r' /\
    dev r' = dev r ++ l /\ net r' = net r /\ IACEscape (tel r') = IACNormal /\
    EscRedirectChar_Last (tel r') = EscWriteChar_Last (tel s').
Proof.
  unfold EscWriteChar_bytes. intros Hs Hr Hn Hd Hnr Hds He Hb HL.
  destruct (does_EscWriteBytes s l Hs) as (s' & Es & (_ & _ & Ts & _ & Ns & _)); [split; lia|].
  destruct (does_redirect_esc_bytes r fd l Hr) as (r' & Er & (_ & _ & Tr & _ & Nr & Dr));
    [split; lia|done|].
  eexists s', _, r'. rewrite Hb, HL in *.
  split_and!; [done|done|done|done|by rewrite Nr, app_nil_r|by rewrite Tr|by rewrite Tr, Ts].
Qed.

(** A line with a bare CR and a 255, outside binary mode. *)
Lemma telnet_data_roundtrip_witness :
  let s := sim_session (sim_idle sim_blank) in
  exists s' wire r',
    EscWriteBytes ToNet [65; 13; 66; 255; 13; 10; 0] s = Ret tt s' /\ net s' = net s ++ wire /\
    EscRedirectBytes ToNet ToDev 3 wire s = Ret tt r' /\
    dev r' = dev s ++ [65; 13; 66; 255; 13; 10; 0] /\ net r' = net s /\
    IACEscape (tel r') = IACNormal /\
    EscRedirectChar_Last (tel r') = EscWriteChar_Last (tel s').
Proof.
  apply (telnet_data_roundtrip (sim_session (sim_idle sim_blank)));
    [apply sim_session_ok|apply sim_session_ok|vm_compute; congruence|vm_compute; congruence
    |vm_compute; lia|vm_compute; lia|reflexivity..].
Defined.
