(* ===== verification/TelnetCommands.v ===== *)
(** * Telnet commands: parsing, negotiation and COM port control

    A command of fixed length is collected byte by byte and handled when its
    last byte arrives.  On top of that: option negotiation refines a small
    abstract machine, and a COM port control request changes the port and is
    answered with the value now in force. *)

From S2P Require Import Prelude RingBuffer Termios Kernel SimKernel LibcTty SercdState.
From S2P Require Import UnixPort Telnet TelnetSafe TelnetSpec.

(** ** Collecting a command *)

(** The Telnet variables other than those of the parser. *)
Definition same_but_parser (T T' : Telnet) : Prop :=
  PortControlEnable T' = PortControlEnable T /\ ModemStateMask T' = ModemStateMask T /\
  LineStateMask T' = LineStateMask T /\ ModemState T' = ModemState T /\
  BreakSignaled T' = BreakSignaled T /\ InputFlow T' = InputFlow T /\
  tnstate T' = tnstate T /\ EscWriteChar_Last T' = EscWriteChar_Last T.

(** The bytes [got] of a command have arrived. *)
Definition collected (T : Telnet) (got : bytes) : Prop :=
  IACEscape T = IACComReceiving /\ IACPos T = Z.of_nat (length got) /\
  take (length got) (IACCommand T) = got /\ length (IACCommand T) = 255%nat /\
  Forall is_byte (IACCommand T).

(** The length at which a command is complete, as far as [got] tells. *)
Definition command_length (got : bytes) : option nat :=
  match got with
  | _ :: c1 :: rest =>
      if c1 =? TNSB then
        match rest with
        | _ :: c3 :: _ =>
            if c3 =? TNCAS_SIGNATURE then None
            else if c3 =? TNCAS_SET_BAUDRATE then Some 10%nat
            else if (c3 =? TNCAS_FLOWCONTROL_SUSPEND) || (c3 =? TNCAS_FLOWCONTROL_RESUME)
            then Some 6%nat else Some 7%nat
        | _ => Some 11%nat
        end
      else Some 3%nat
  | _ => None
  end.

Section Collect.
Context {W : Type} `{Kernel W}.
Implicit Types s : St W.

Definition with_tel (T : Telnet) (s : St W) : St W := upd_tel (fun _ => T) s.

Lemma same_but_parser_trans T1 T2 T3 :
  same_but_parser T1 T2 -> same_but_parser T2 T3 -> same_but_parser T1 T3.
Proof. unfold same_but_parser. intuition congruence. Qed.

Lemma EscRedirectChar_eq s fd C s' :
  match IACEscape (tel s) with
  | IACNormal => redirect_normal ToDev C
  | IACReceived => redirect_received ToDev C
  | IACComReceiving => redirect_command ToNet fd C
  end s = Ret tt s' ->
  EscRedirectChar ToNet ToDev fd C s = Ret tt (upd_tel (set_EscRedirectChar_Last C) s').
Proof.
  intros E. unfold EscRedirectChar, get_tel. rewrite bind_gets.
  destruct (IACEscape (tel s)); by rewrite (bind_Ret _ _ _ _ _ E).
Qed.

Lemma redirect_iac_eq s fd :
  st_ok s -> IACEscape (tel s) = IACNormal ->
  EscRedirectChar ToNet ToDev fd TNIAC s =
    Ret tt (with_tel (set_EscRedirectChar_Last TNIAC (set_IACEscape IACReceived (tel s))) s).
Proof.
  intros Hok He. destruct (tn_get_ok s 0 Hok) as (t & Et & _); [done|].
  eapply (EscRedirectChar_eq _ _ _ (upd_tel (set_IACEscape IACReceived) s)). rewrite He.
  unfold redirect_normal, get_tel. by rewrite bind_gets, (bind_Ret _ _ _ _ _ Et).
Qed.

(** The first two bytes. *)
Lemma collect_start s fd c1 :
  st_ok s -> IACEscape (tel s) = IACNormal -> is_byte c1 -> c1 <> TNIAC ->
  exists T, EscRedirectBytes ToNet ToDev fd [TNIAC; c1] s = Ret tt (with_tel T s) /\
    same_but_parser (tel s) T /\ collected T [TNIAC; c1].
Proof.
  intros Hok He Hb Hc. simpl. rewrite (bind_Ret _ _ _ _ _ (redirect_iac_eq s fd Hok He)).
  destruct Hok as [_ _ _ Hl Hby].
  set (s1 := with_tel _ s).
  set (cmd := <[1%nat := c1]> (<[0%nat := TNIAC]> (IACCommand (tel s)))).
  set (T := set_IACSigEscape IACNormal (set_IACEscape IACComReceiving (set_IACPos 2
      (set_IACCommand cmd (tel s1))))).
  assert (redirect_received ToDev c1 s1 = Ret tt (with_tel T s)) as E.
  { unfold redirect_received. rewrite (proj2 (Z.eqb_neq _ _) Hc).
    unfold IACCommand_store, store_at, mbind, M_bind. simpl.
    rewrite decide_True by lia. simpl. rewrite decide_True by (rewrite length_insert; lia). done. }
  rewrite (bind_Ret _ _ _ _ _ (EscRedirectChar_eq s1 fd c1 _ E)).
  eexists. split; [done|]. split; [by split_and!|]. split_and!; try done.
  - simpl. unfold cmd. by destruct (IACCommand (tel s)) as [|? [|??]].
  - simpl. unfold cmd. by rewrite !length_insert.
  - simpl. by repeat apply Forall_insert.
Qed.

Lemma collected_lookup T got i c :
  collected T got -> got !! i = Some c -> IACCommand T !! i = Some c.
Proof.
  intros (_ & _ & Ht & _ & _) Hi. rewrite <- Ht in Hi. apply lookup_take_Some in Hi. tauto.
Qed.

Lemma collected_pushed s got C :
  collected (tel s) got -> (length got < 255)%nat -> is_byte C ->
  collected (tel (pushed C s)) (got ++ [C]).
Proof.
  intros (He & Hp & Ht & Hl & Hb) Hlt HC. unfold collected. rewrite length_app. simpl.
  rewrite Hp, Nat2Z.id, length_insert. split_and!; [done|lia| |done|by apply Forall_insert].
  rewrite Nat.add_1_r, (take_S_r _ _ C).
  - rewrite take_insert_ge by lia. by rewrite Ht.
  - apply list_lookup_insert_eq. lia.
Qed.

(** How a byte of a command is dispatched. *)
Lemma redirect_command_eq s fd got n C :
  collected (tel s) got -> command_length got = Some n ->
  (length got < n)%nat ->
  redirect_command ToNet fd C s =
    (if decide (n = 11%nat) then iac_push C else redirect_fixed ToNet fd C (Z.of_nat n)) s.
Proof.
  intros Hcol Hn Hlt. unfold redirect_command, get_tel. rewrite !bind_gets.
  destruct got as [|g0 [|c1 rest]]; [done..|]. simpl in Hn.
  rewrite (bind_Ret _ _ _ c1 s).
  2: { apply at_Some; [done|]. by eapply (collected_lookup _ _ 1). }
  pose proof (proj1 (proj2 Hcol)) as Hp. simpl in Hp. rewrite Hp.
  destruct (c1 =? TNSB).
  - destruct rest as [|g2 [|c3 rest]].
    + injection Hn as <-. by rewrite (proj2 (Z.ltb_lt _ _)).
    + injection Hn as <-. by rewrite (proj2 (Z.ltb_lt _ _)).
    + rewrite (proj2 (Z.ltb_ge _ _)) by (simpl; lia).
      rewrite (bind_Ret _ _ _ c3 s).
      2: { apply at_Some; [done|]. by eapply (collected_lookup _ _ 3). }
      destruct (c3 =? TNCAS_SIGNATURE); [done|].
      destruct (c3 =? TNCAS_SET_BAUDRATE); [by injection Hn as <-|].
      destruct (_ || _); by injection Hn as <-.
  - by injection Hn as <-.
Qed.

Lemma command_length_bound got n : command_length got = Some n -> (n <= 11)%nat.
Proof.
  destruct got as [|? [|? ?]]; [done..|]. simpl. repeat case_match; intros; simplify_eq; lia.
Qed.

Lemma collect_more s fd got n C :
  st_ok s -> collected (tel s) got -> command_length got = Some n ->
  (length got + 1 < n)%nat -> is_byte C ->
  exists T, EscRedirectChar ToNet ToDev fd C s = Ret tt (with_tel T s) /\
    same_but_parser (tel s) T /\ collected T (got ++ [C]).
Proof.
  intros Hok Hcol Hn Hlt HC. pose proof (command_length_bound _ _ Hn).
  destruct (Hcol) as (He & Hp & _).
  assert (iac_push C s = Ret tt (pushed C s)) as Epush by (apply iac_push_eq; [done|lia]).
  assert (redirect_command ToNet fd C s = Ret tt (pushed C s)) as E.
  { rewrite (redirect_command_eq s fd got n) by (done || lia). case_decide; [done|].
    unfold redirect_fixed. rewrite (bind_Ret _ _ _ _ _ Epush). unfold get_tel. rewrite bind_gets.
    change (IACPos (tel (pushed C s))) with (IACPos (tel s) + 1).
    unfold when. destruct (Z.eqb_spec (IACPos (tel s) + 1) (Z.of_nat n)); [lia|done]. }
  eexists. split; [|split].
  - assert (match IACEscape (tel s) with
      | IACNormal => redirect_normal ToDev C
      | IACReceived => redirect_received ToDev C
      | IACComReceiving => redirect_command ToNet fd C
      end s = Ret tt (pushed C s)) as E' by by rewrite He.
    rewrite (EscRedirectChar_eq _ _ _ _ E'). done.
  - by split_and!.
  - apply (collected_pushed s got C Hcol); [lia|done].
Qed.

(** The last byte: the command is handled and the parser is idle again. *)
Lemma collect_last s fd got n C :
  st_ok s -> collected (tel s) got -> command_length got = Some n ->
  (length got + 1 = n)%nat -> is_byte C ->
  exists T, same_but_parser (tel s) T /\ collected T (got ++ [C]) /\
    EscRedirectChar ToNet ToDev fd C s =
      (HandleIACCommand ToNet fd (IACCommand T) (Z.of_nat n) ;;
       put_tel (set_IACEscape IACNormal) ;;
       put_tel (set_EscRedirectChar_Last C)) (with_tel T s).
Proof.
  intros Hok Hcol Hn Hlt HC. pose proof (command_length_bound _ _ Hn).
  destruct (Hcol) as (He & Hp & _).
  assert (iac_push C s = Ret tt (pushed C s)) as Epush by (apply iac_push_eq; [done|lia]).
  assert (n <> 11%nat) as Hn11.
  { intros ->. destruct got as [|? [|? [|? [|? ?]]]]; try done. simpl in Hn.
    repeat case_match; simplify_eq. }
  exists (tel (pushed C s)). split; [by split_and!|].
  split; [apply collected_pushed; [done|lia|done]|].
  unfold EscRedirectChar, get_tel. rewrite bind_gets, He. unfold mbind at 1, M_bind at 1.
  rewrite (redirect_command_eq s fd got n) by (done || lia). rewrite decide_False by done.
  unfold redirect_fixed. rewrite (bind_Ret _ _ _ _ _ Epush). unfold get_tel. rewrite bind_gets.
  change (IACPos (tel (pushed C s))) with (IACPos (tel s) + 1).
  replace (IACPos (tel s) + 1) with (Z.of_nat n) by lia. rewrite Z.eqb_refl. simpl when.
  unfold iac_finish, get_tel. rewrite !bind_gets.
  change (IACPos (tel (pushed C s))) with (IACPos (tel s) + 1).
  replace (IACPos (tel s) + 1) with (Z.of_nat n) by lia.
  change (with_tel (tel (pushed C s)) s) with (pushed C s).
  unfold mbind, M_bind. by destruct (HandleIACCommand _ _ _ _ _).
Qed.

Lemma command_length_prefix got C l n :
  (2 <= length got)%nat -> command_length (got ++ C :: l) = Some n ->
  (length (got ++ C :: l) < n)%nat ->
  exists n', command_length got = Some n' /\ (length got + 1 < n')%nat.
Proof.
  destruct got as [|g0 [|c1 rest]]; simpl; [lia..|]. intros _.
  rewrite length_app. simpl. destruct (c1 =? TNSB).
  - destruct rest as [|g2 [|c3 rest]]; simpl; intros Hn Hlt; eexists; split; try done; lia.
  - intros [= <-]. lia.
Qed.

Lemma with_tel_ok s T got :
  st_ok s -> same_but_parser (tel s) T -> collected T got -> st_ok (with_tel T s).
Proof.
  intros [] (_ & _ & _ & _ & _ & _ & Htn & _) (_ & _ & _ & Hl & Hb).
  constructor; simpl; congruence.
Qed.

Lemma collect_all s fd got l n :
  st_ok s -> collected (tel s) got -> (2 <= length got)%nat ->
  command_length (got ++ l) = Some n -> (length (got ++ l) < n)%nat -> Forall is_byte l ->
  exists T, EscRedirectBytes ToNet ToDev fd l s = Ret tt (with_tel T s) /\
    same_but_parser (tel s) T /\ collected T (got ++ l).
Proof.
  revert s got. induction l as [|C l IH]; intros s got Hok Hcol H2 Hn Hlt Hb.
  - exists (tel s). rewrite app_nil_r. split; [by destruct s|]. by split; [split_and!|].
  - apply Forall_cons in Hb as [HC Hb].
    destruct (command_length_prefix _ _ _ _ H2 Hn Hlt) as (n' & Hn' & Hlt').
    destruct (collect_more s fd got n' C) as (T1 & E1 & S1 & C1); [done..|].
    destruct (IH (with_tel T1 s) (got ++ [C])) as (T2 & E2 & S2 & C2); try done.
    + by eapply with_tel_ok.
    + rewrite length_app. lia.
    + by rewrite <- app_assoc.
    + by rewrite <- app_assoc.
    + exists T2. rewrite <- app_assoc in C2. simpl.
      rewrite (bind_Ret _ _ _ _ _ E1). split_and!; [done|by eapply same_but_parser_trans|done].
Qed.

(** A whole command of fixed length, received in the idle state, is handled
    exactly once, with exactly its bytes. *)
Lemma command_parsed s fd c1 l C n :
  st_ok s -> IACEscape (tel s) = IACNormal -> is_byte c1 -> c1 <> TNIAC ->
  Forall is_byte l -> is_byte C ->
  command_length (TNIAC :: c1 :: l) = Some n -> (length l + 3 = n)%nat ->
  exists T, same_but_parser (tel s) T /\ collected T (TNIAC :: c1 :: l ++ [C]) /\
    EscRedirectBytes ToNet ToDev fd (TNIAC :: c1 :: l ++ [C]) s =
      (HandleIACCommand ToNet fd (IACCommand T) (Z.of_nat n) ;;
       put_tel (set_IACEscape IACNormal) ;;
       put_tel (set_EscRedirectChar_Last C)) (with_tel T s).
Proof.
  intros Hok He Hb1 Hc1 Hb HC Hn Hlen.
  destruct (collect_start s fd c1) as (T1 & E1 & S1 & C1); [done..|].
  assert (st_ok (with_tel T1 s)) as Hok1 by by eapply with_tel_ok.
  destruct (collect_all (with_tel T1 s) fd [TNIAC; c1] l n) as (T2 & E2 & S2 & C2);
    [done|done|simpl; lia|done|simpl; lia|done|].
  assert (st_ok (with_tel T2 (with_tel T1 s))) as Hok2 by by eapply with_tel_ok.
  destruct (collect_last (with_tel T2 (with_tel T1 s)) fd ([TNIAC; c1] ++ l) n C)
    as (T3 & S3 & C3 & E3); [done|done|done|simpl; lia|done|].
  exists T3. split_and!.
  - eapply same_but_parser_trans; [exact S1|]. eapply same_but_parser_trans; [exact S2|exact S3].
  - done.
  - change (TNIAC :: c1 :: l ++ [C]) with ([TNIAC; c1] ++ l ++ [C]).
    rewrite (EscRedirectBytes_app _ _ _ _ _ E1), (EscRedirectBytes_app _ _ _ _ _ E2).
    simpl. unfold mbind, M_bind in *. rewrite E3.
    change (with_tel T3 (with_tel T2 (with_tel T1 s))) with (with_tel T3 s).
    by destruct (HandleIACCommand _ _ _ _ _).
Qed.
End Collect.

(** ** Option negotiation *)

Definition tn_set (o : Z) (x : tnstate_t) (T : Telnet) : Telnet :=
  set_tnstate (<[Z.to_nat o := x]> (tnstate T)) T.

Section Steps.
Context {W : Type} `{Kernel W}.
Implicit Types s : St W.

Lemma does_sys {A} s (m : M (St W) A) :
  st_ok s -> SysOnly m -> exists a p, Does s m a (tel s) p [] [].
Proof.
  intros Hok Hm. destruct (Hm s) as (a & p & E). exists a, p, (upd_proc (fun _ => p) s).
  split; [done|]. unfold after. rewrite !app_nil_r. destruct Hok. by split_and!.
Qed.

Lemma does_log s l m : st_ok s -> exists p, Does s (LogMsg l m) tt (tel s) p [] [].
Proof. intros Hok. destruct (does_sys s (LogMsg l m) Hok _) as ([] & p & HD). by exists p. Qed.

Lemma does_mret {A} s (a : A) : st_ok s -> Does s (mret a) a (tel s) (proc s) [] [].
Proof. intros. exists s. split; [done|by apply after_refl]. Qed.

Lemma does_tn_upd s o t f :
  st_ok s -> 0 <= o -> tnstate (tel s) !! Z.to_nat o = Some t ->
  Does s (tn_upd o f) tt (tn_set o (f t) (tel s)) (proc s) [] [].
Proof.
  intros Hok Ho Ht. unfold tn_upd. eapply does_read; [by apply tn_get_Some|].
  destruct Hok. apply does_put_tel; [done| |done|done]. simpl. by rewrite length_insert.
Qed.

(** Two updates of the same entry. *)
Lemma does_tn_upd2 s o t f g :
  st_ok s -> is_byte o -> tnstate (tel s) !! Z.to_nat o = Some t ->
  Does s (tn_upd o f ;; tn_upd o g) tt (tn_set o (g (f t)) (tel s)) (proc s) [] [].
Proof.
  intros Hok [Ho _] Ht. pose proof (lookup_lt_Some _ _ _ Ht).
  eapply (does_bind _ _ _ _ _ _ _ _ _ [] [] [] []); [by apply does_tn_upd|].
  intros s1 (Hok1 & _ & Et & <- & _ & _).
  replace (tn_set o (g (f t)) (tel s)) with (tn_set o (g (f t)) (tel s1)).
  - apply does_tn_upd; [done..|]. rewrite Et. simpl. by apply list_lookup_insert_eq.
  - rewrite Et. unfold tn_set. simpl. by rewrite list_insert_insert_eq.
Qed.

(** A sequence that starts by queueing a byte for the client. *)
Lemma does_Add_then {A} s C (m : M (St W) A) a k j T p n d :
  st_ok s -> room s (S k) j ->
  (forall s1, after s (tel s) (proc s) [C] [] s1 -> st_ok s1 -> room s1 k j ->
     Does s1 m a T p n d) ->
  Does s (Add ToNet C ;; m) a T p (C :: n) d.
Proof.
  intros Hok Hr Hm. eapply (does_bind _ _ _ _ _ (tel s) _ (proc s) _ [C] n [] d).
  - apply does_Add_net; [done|]. destruct Hr; split; lia.
  - intros s1 Ha. pose proof (room_after _ _ _ _ _ _ k j Ha Hr). by apply Hm; [|apply Ha|].
Qed.

Lemma does_SendTelnetOption s c o :
  st_ok s -> room s 3 0 -> is_byte o ->
  Does s (SendTelnetOption ToNet c o) tt (tel s) (proc s) [TNIAC; c; o] [].
Proof.
  intros Hok Hr Ho. unfold SendTelnetOption. rewrite u8_small by done.
  eapply does_Add_then; [done..|]. intros s1 (_ & _ & <- & <- & _) Hok1 Hr1.
  eapply does_Add_then; [done..|]. intros s2 (_ & _ & <- & <- & _) Hok2 Hr2.
  by apply does_Add_net.
Qed.

(** [m] returns with Telnet variables [T], having queued [n] and [d], and the
    process state satisfies [P]. *)
Definition Sends (s : St W) (m : M (St W) unit) (T : Telnet) (n d : bytes)
    (P : Proc W -> Prop) : Prop :=
  exists p, P p /\ Does s m tt T p n d.

Lemma sends_bind s m k T1 T2 n1 n2 d1 d2 P1 P2 :
  Sends s m T1 n1 d1 P1 ->
  (forall s1, after s T1 (proc s1) n1 d1 s1 -> P1 (proc s1) -> Sends s1 k T2 n2 d2 P2) ->
  Sends s (m ;; k) T2 (n1 ++ n2) (d1 ++ d2) P2.
Proof.
  intros (p & HP & s1 & E & Ha) Hk. pose proof Ha as (_ & _ & _ & Hp & _). subst p.
  destruct (Hk s1 Ha HP) as (p2 & HP2 & s2 & E2 & Ha2).
  exists p2. split; [done|]. exists s2. split; [by rewrite (bind_Ret _ _ _ _ _ E)|].
  by eapply after_trans.
Qed.

(** Logging first: any property of the process state that logging keeps. *)
Lemma sends_log s l msg (P : Proc W -> Prop) :
  st_ok s -> (forall p, LogMsg l msg s = Ret tt (upd_proc (fun _ => p) s) -> P p) ->
  Sends s (LogMsg l msg) (tel s) [] [] P.
Proof.
  intros Hok HP. destruct (SysOnly_LogMsg l msg s) as ([] & p & E). exists p. split; [by apply HP|].
  exists (upd_proc (fun _ => p) s). split; [done|]. unfold after. rewrite !app_nil_r.
  destruct Hok. by split_and!.
Qed.

Lemma sends_does s m T p n d P : Does s m tt T p n d -> P p -> Sends s m T n d P.
Proof. intros. by exists p. Qed.

Lemma sends_when s b m T n d P :
  Sends s m T n d P -> T = tel s \/ b = true -> st_ok s -> P (proc s) ->
  Sends s (when b m) T (if b then n else []) (if b then d else []) P.
Proof.
  intros Hm HT Hok HP. destruct b; [done|]. destruct HT as [->|]; [|done].
  exists (proc s). split; [done|by apply does_mret].
Qed.

End Steps.

(** *** The abstract machine

    For each direction of an option: whether our own request for it is still
    unanswered, and whether it is enabled. *)
Record half : Type := mkHalf { pending : bool; enabled : bool }.

(** The peer asks to enable the option: the answer is positive, negative, or
    none because the peer answers our request. *)
Definition on_request (accept : bool) (h : half) : half * option bool :=
  (mkHalf false accept,
   if accept then (if pending h then None else Some true) else Some false).

(** The peer disables or refuses the option. *)
Definition on_refusal (h : half) : half * option bool :=
  (mkHalf false false, if enabled h then Some false else None).

Inductive verb : Type := WILL | WONT | DO | DONT.

Definition verb_code (v : verb) : Z :=
  match v with WILL => TNWILL | WONT => TNWONT | DO => TNDO | DONT => TNDONT end.

(** The options sercd agrees to. *)
Definition supported (o : Z) : bool :=
  (o =? TNCOM_PORT_OPTION) || (o =? TN_TRANSMIT_BINARY) || (o =? TN_ECHO)
  || (o =? TN_SUPPRESS_GO_AHEAD).

Definition them (t : tnstate_t) : half := mkHalf (sent_do t) (is_do t).
Definition us (t : tnstate_t) : half := mkHalf (sent_will t) (is_will t).

(** A verb of the peer acts on one of the halves. *)
Definition negotiate (v : verb) (o : Z) (t : tnstate_t) : half * half * bytes :=
  let answer yes no (r : option bool) :=
    match r with None => [] | Some true => [TNIAC; yes; o] | Some false => [TNIAC; no; o] end in
  match v with
  | WILL => let '(h, r) := on_request (supported o) (them t) in (h, us t, answer TNDO TNDONT r)
  | WONT => let '(h, r) := on_refusal (them t) in (h, us t, answer TNDO TNDONT r)
  | DO => let '(h, r) := on_request (supported o) (us t) in (them t, h, answer TNWILL TNWONT r)
  | DONT => let '(h, r) := on_refusal (us t) in (them t, h, answer TNWILL TNWONT r)
  end.

Section Negotiation.
Context {W : Type} `{Kernel W}.
Implicit Types s : St W.

Abbreviation anyp := (fun _ : Proc W => True).

Lemma sends_sys s (m : M (St W) unit) : st_ok s -> SysOnly m -> Sends s m (tel s) [] [] anyp.
Proof. intros Hok Hm. destruct (does_sys s m Hok Hm) as ([] & p & HD). by exists p. Qed.

Lemma tn_set_set o x y T : tn_set o y (tn_set o x T) = tn_set o y T.
Proof. unfold tn_set. simpl. by rewrite list_insert_insert_eq. Qed.

Lemma tn_set_lookup o x y T :
  tnstate T !! Z.to_nat o = Some y -> tnstate (tn_set o x T) !! Z.to_nat o = Some x.
Proof. intros Hy%lookup_lt_Some. simpl. by apply list_lookup_insert_eq. Qed.

(** The last assignments of the four handlers. *)
Lemma sends_tn_upd2 s o t f g T x :
  st_ok s -> is_byte o -> tel s = tn_set o x T -> tnstate T !! Z.to_nat o = Some t ->
  Sends s (tn_upd o f ;; tn_upd o g) (tn_set o (g (f x)) T) [] [] anyp.
Proof.
  intros Hok Ho Et Ht. eapply sends_does; [|done].
  rewrite <- (tn_set_set o x (g (f x)) T), <- Et.
  apply does_tn_upd2; [done..|]. rewrite Et. by eapply tn_set_lookup.
Qed.

(** Sending an answer and recording it. *)
Lemma sends_answer s o t c f :
  st_ok s -> is_byte o -> room s 3 0 -> tnstate (tel s) !! Z.to_nat o = Some t ->
  Sends s (SendTelnetOption ToNet c o ;; tn_upd o f) (tn_set o (f t) (tel s)) [TNIAC; c; o] [] anyp.
Proof.
  intros Hok Ho Hr Ht. apply (sends_does _ _ _ (proc s)); [|done].
  eapply (does_bind _ _ _ _ _ (tel s) _ (proc s) _ [TNIAC; c; o] [] [] []).
  - by apply does_SendTelnetOption.
  - intros s1 (Hok1 & _ & Et & Ep & _). rewrite <- Et, <- Ep in *. destruct Ho. by apply does_tn_upd.
Qed.

Lemma sends_request s o t msg dbg pend yes no setv f g :
  st_ok s -> is_byte o -> room s 3 0 -> tnstate (tel s) !! Z.to_nat o = Some t ->
  Sends s
    ((if supported o then
        LogMsg LOG_INFO msg ;;
        when (o =? TNCOM_PORT_OPTION) (put_tel (set_PortControlEnable true)) ;;
        t ← tn_get o;
        when (negb (pend t)) (SendTelnetOption ToNet yes o) ;;
        tn_upd o (setv true)
      else
        LogMsg LOG_DEBUG dbg ;; SendTelnetOption ToNet no o ;; tn_upd o (setv false)) ;;
     tn_upd o f ;; tn_upd o g)
    (tn_set o (g (f (setv (supported o) t)))
       (set_PortControlEnable ((o =? TNCOM_PORT_OPTION) || PortControlEnable (tel s)) (tel s)))
    (if supported o then (if (pend t : bool) then [] else [TNIAC; yes; o]) else [TNIAC; no; o])
    [] anyp.
Proof.
  intros Hok Ho Hr Ht. set (T := set_PortControlEnable _ (tel s)).
  match goal with |- Sends _ _ _ ?n _ _ => rewrite <- (app_nil_r n) end.
  eapply (sends_bind _ _ _ (tn_set o (setv (supported o) t) T) _ _ _ [] [] anyp);
    [|intros s1 (Hok1 & _ & Et & _) _; by eapply sends_tn_upd2].
  destruct (supported o) eqn:Hsup.
  - eapply (sends_bind _ _ _ _ _ [] _ [] []); [by apply sends_sys, _|].
    intros s1 Ha1 _. pose proof (room_after _ _ _ _ _ _ 3 0 Ha1 Hr) as Hr1.
    destruct Ha1 as (Hok1 & _ & Et1 & _).
    eapply (sends_bind _ _ _ T _ [] _ [] [] anyp).
    { exists (proc s1). split; [done|]. unfold T. rewrite <- Et1. unfold when. destruct (o =? TNCOM_PORT_OPTION).
      - destruct Hok1. by apply does_put_tel.
      - exists s1. split; [done|]. simpl orb.
        replace (set_PortControlEnable _ _) with (tel s1) by by destruct (tel s1).
        by apply after_refl. }
    intros s2 Ha2 _. pose proof (room_after _ _ _ _ _ _ 3 0 Ha2 Hr1) as Hr2.
    destruct Ha2 as (Hok2 & _ & Et2 & _).
    assert (tnstate (tel s2) !! Z.to_nat o = Some t) as Ht2 by by rewrite Et2.
    assert (tn_get o s2 = Ret t s2) as Eg by (destruct Ho; by apply tn_get_Some).
    rewrite <- Et2. destruct (pend t) eqn:Hp.
    + exists (proc s2). split; [done|]. eapply does_read; [exact Eg|]. rewrite Hp.
      destruct Ho. by apply does_tn_upd.
    + destruct (sends_answer s2 o t yes (setv true)) as (p & _ & HD); [done..|].
      exists p. split; [done|]. eapply does_read; [exact Eg|]. by rewrite Hp.
  - assert (T = tel s) as ->.
    { unfold T. assert ((o =? TNCOM_PORT_OPTION) = false) as ->; [|by destruct (tel s)].
      unfold supported in Hsup. by destruct (o =? TNCOM_PORT_OPTION). }
    eapply (sends_bind _ _ _ _ _ [] _ [] []); [by apply sends_sys, _|].
    intros s1 Ha1 _. pose proof (room_after _ _ _ _ _ _ 3 0 Ha1 Hr) as Hr1.
    destruct Ha1 as (Hok1 & _ & Et1 & _). rewrite <- Et1 in *. by apply sends_answer.
Qed.

Lemma sends_refusal s o t (logs : M (St W) unit) on no setv f g :
  st_ok s -> is_byte o -> room s 3 0 -> tnstate (tel s) !! Z.to_nat o = Some t -> SysOnly logs ->
  Sends s
    (logs ;;
     t ← tn_get o;
     when (on t) (SendTelnetOption ToNet no o ;; tn_upd o setv) ;;
     tn_upd o f ;; tn_upd o g)
    (tn_set o (g (f (if on t then setv t else t))) (tel s))
    (if on t then [TNIAC; no; o] else []) [] anyp.
Proof.
  intros Hok Ho Hr Ht Hl.
  eapply (sends_bind _ _ _ _ _ [] _ [] []); [by apply sends_sys|].
  intros s1 Ha1 _. pose proof (room_after _ _ _ _ _ _ 3 0 Ha1 Hr) as Hr1.
  destruct Ha1 as (Hok1 & _ & Et1 & _). rewrite <- Et1 in *.
  assert (tn_get o s1 = Ret t s1) as Eg by (destruct Ho; by apply tn_get_Some).
  match goal with |- Sends _ _ _ ?n _ _ => rewrite <- (app_nil_r n) end.
  assert (Sends s1 (when (on t) (SendTelnetOption ToNet no o ;; tn_upd o setv) ;;
     tn_upd o f ;; tn_upd o g) (tn_set o (g (f (if on t then setv t else t))) (tel s1))
    ((if on t then [TNIAC; no; o] else []) ++ []) [] anyp) as (p & _ & HD).
  { eapply (sends_bind _ _ _ (tn_set o (if on t then setv t else t) (tel s1)) _ _ _ [] [] anyp);
      [|intros s2 (Hok2 & _ & Et & _) _; by eapply sends_tn_upd2].
    unfold when. destruct (on t); [by apply sends_answer|].
    exists (proc s1). split; [done|]. exists s1. split; [done|]. unfold tn_set.
    rewrite list_insert_id by done.
    replace (set_tnstate _ _) with (tel s1) by by destruct (tel s1). by apply after_refl. }
  exists p. split; [done|]. eapply does_read; [exact Eg|exact HD].
Qed.

Definition iac_verb (v : verb) (o : Z) : M (St W) unit :=
  match v with
  | WILL => iac_will ToNet o | WONT => iac_wont ToNet o
  | DO => iac_do ToNet o | DONT => iac_dont ToNet o
  end.

Lemma sends_verb s v o t :
  st_ok s -> is_byte o -> room s 3 0 -> tnstate (tel s) !! Z.to_nat o = Some t ->
  exists t' pc, Sends s (iac_verb v o)
    (tn_set o t' (set_PortControlEnable pc (tel s))) (negotiate v o t).2 [] anyp /\
    (negotiate v o t).1 = (them t', us t').
Proof.
  intros Hok Ho Hr Ht.
  assert (forall T, set_PortControlEnable (PortControlEnable T) T = T) as HT by by intros [].
  destruct v; cbn [iac_verb].
  - exists (set_sent_dont false (set_sent_do false (set_is_do (supported o) t))). eexists.
    split; [|done]. replace (negotiate WILL o t).2 with
      (if supported o then (if sent_do t then [] else [TNIAC; TNDO; o]) else [TNIAC; TNDONT; o])
      by (simpl; by destruct (supported o), (sent_do t)).
    by apply (sends_request s o t _ _ sent_do TNDO TNDONT set_is_do).
  - exists (set_sent_dont false (set_sent_do false (if is_do t then set_is_do false t else t))).
    exists (PortControlEnable (tel s)). rewrite HT. split.
    + replace (negotiate WONT o t).2 with (if is_do t then [TNIAC; TNDONT; o] else [])
        by (simpl; by destruct (is_do t)).
      apply (sends_refusal s o t _ is_do TNDONT (set_is_do false)); [done..|apply _].
    + unfold negotiate, them, us. simpl. by destruct t as [? ? ? ? ? []].
  - exists (set_sent_wont false (set_sent_will false (set_is_will (supported o) t))). eexists.
    split; [|done]. replace (negotiate DO o t).2 with
      (if supported o then (if sent_will t then [] else [TNIAC; TNWILL; o]) else [TNIAC; TNWONT; o])
      by (simpl; by destruct (supported o), (sent_will t)).
    by apply (sends_request s o t _ _ sent_will TNWILL TNWONT set_is_will).
  - exists (set_sent_wont false (set_sent_will false (if is_will t then set_is_will false t else t))).
    exists (PortControlEnable (tel s)). rewrite HT. split.
    + replace (negotiate DONT o t).2 with (if is_will t then [TNIAC; TNWONT; o] else [])
        by (simpl; by destruct (is_will t)).
      apply (sends_refusal s o t _ is_will TNWONT (set_is_will false)); [done..|apply _].
    + unfold negotiate, them, us. simpl. by destruct t as [? ? ? ? []].
Qed.

Lemma HandleIACCommand_verb s fd v o T n :
  collected T [TNIAC; verb_code v; o] ->
  HandleIACCommand ToNet fd (IACCommand T) n s = iac_verb v o s.
Proof.
  intros Hcol. unfold HandleIACCommand.
  rewrite (bind_Ret _ _ _ (verb_code v) s).
  2: { apply at_Some; [done|]. by eapply (collected_lookup _ _ 1). }
  destruct v; simpl; rewrite (bind_Ret _ _ _ o s); try done;
    (apply at_Some; [done|]; by eapply (collected_lookup _ _ 2)).
Qed.
End Negotiation.

Lemma negotiation_step {W} `{Kernel W} (s : St W) fd v o t :
  st_ok s -> IACEscape (tel s) = IACNormal -> is_byte o -> room s 3 0 ->
  tnstate (tel s) !! Z.to_nat o = Some t ->
  exists s' t', EscRedirectBytes ToNet ToDev fd [TNIAC; verb_code v; o] s = Ret tt s' /\
    st_ok s' /\ tnstate (tel s') = <[Z.to_nat o := t']> (tnstate (tel s)) /\
    net s' = net s ++ (negotiate v o t).2 /\ dev s' = dev s /\
    (negotiate v o t).1 = (them t', us t') /\ IACEscape (tel s') = IACNormal.
Proof.
  intros Hok He Ho Hr Ht.
  destruct (command_parsed s fd (verb_code v) [] o 3) as (T & HS & HC & E);
    [done|done|by destruct v|by destruct v|done|done|by destruct v|done|].
  assert (st_ok (with_tel T s)) as Hok1 by by eapply with_tel_ok.
  pose proof HS as (_ & _ & _ & _ & _ & _ & Htn & _).
  destruct (sends_verb (with_tel T s) v o t) as (t' & pc & (p & _ & s1 & E1 & Ha) & Hneg);
    [done|done|done|by simpl; rewrite Htn|].
  rewrite <- (HandleIACCommand_verb _ fd v o T 3 HC) in E1.
  simpl app in E. rewrite (bind_Ret _ _ _ _ _ E1) in E.
  destruct Ha as ([] & _ & Et & _ & En & Ed).
  eexists _, t'. split; [exact E|]. simpl in *.
  split_and!; [done|by rewrite Et; simpl; rewrite Htn|exact En|by rewrite app_nil_r in Ed|done|done].
Qed.

(** C24: option negotiation refines the abstract machine.  A three-byte
    command WILL, WONT, DO or DONT for any option, received in the idle state,
    changes exactly the half of the option the verb talks about, as the
    machine says, and the client is sent exactly the machine's answer; no
    other option changes, nothing reaches the device, and the parser is idle
    again. *)
Theorem negotiation_refines {W} `{Kernel W} (s : St W) fd v o t :
  st_ok s -> IACEscape (tel s) = IACNormal -> is_byte o -> room s 3 0 ->
  tnstate (tel s) !! Z.to_nat o = Some t ->
  exists s' t', EscRedirectBytes ToNet ToDev fd [TNIAC; verb_code v; o] s = Ret tt s' /\
    st_ok s' /\ tnstate (tel s') = <[Z.to_nat o := t']> (tnstate (tel s)) /\
    net s' = net s ++ (negotiate v o t).2 /\ dev s' = dev s /\
    (negotiate v o t).1 = (them t', us t') /\ IACEscape (tel s') = IACNormal.
Proof. apply negotiation_step. Qed.

(** The client offers an option nobody asked for. *)
Lemma negotiation_refines_witness :
  let s := sim_session (sim_idle sim_blank) in
  exists s' t', EscRedirectBytes ToNet ToDev 3 [TNIAC; verb_code WILL; 44] s = Ret tt s' /\
    st_ok s' /\ tnstate (tel s') = <[Z.to_nat 44 := t']> (tnstate (tel s)) /\
    net s' = net s ++ [TNIAC; TNDO; 44] /\ dev s' = dev s /\
    (mkHalf false true, mkHalf false false) = (them t', us t') /\ IACEscape (tel s') = IACNormal.
Proof.
  apply (negotiation_refines (sim_session (sim_idle sim_blank)) 3 WILL 44 tn_zero);
    [apply sim_session_ok|reflexivity|done|split; vm_compute; lia|reflexivity].
Defined.

(** An option that is already enabled is acknowledged again each time:
    [n] further offers of a supported option, with none of our own requests
    outstanding, are answered by [n] acknowledgements.  RFC 854 asks for none,
    so that two peers that behave like this never stop. *)
Theorem repeated_offers_are_acknowledged {W} `{Kernel W} (s : St W) fd o n :
  st_ok s -> IACEscape (tel s) = IACNormal -> is_byte o -> supported o = true ->
  room s (3 * n) 0 ->
  (exists t, tnstate (tel s) !! Z.to_nat o = Some t /\ them t = mkHalf false true) ->
  exists s', EscRedirectBytes ToNet ToDev fd (concat (replicate n [TNIAC; TNWILL; o])) s = Ret tt s' /\
    net s' = net s ++ concat (replicate n [TNIAC; TNDO; o]).
Proof.
  revert s. induction n as [|n IH]; intros s Hok He Ho Hsup Hr (t & Ht & Hth).
  { exists s. split; [done|]. by rewrite app_nil_r. }
  destruct (negotiation_step s fd WILL o t) as (s1 & t1 & E & Hok1 & Htn & En & Ed & Hneg & He1);
    [done..|destruct Hr; split; lia|done|].
  unfold negotiate in En, Hneg. rewrite Hth, Hsup in En, Hneg. simpl in En, Hneg.
  destruct (IH s1) as (s2 & E2 & En2); try done.
  - destruct Hr; split; rewrite ?En, ?Ed, ?length_app; simpl; lia.
  - exists t1. split; [|congruence]. rewrite Htn. apply list_lookup_insert_eq.
    by apply lookup_lt_Some in Ht.
  - exists s2. split.
    + simpl concat. change (TNIAC :: TNWILL :: o :: concat (replicate n [TNIAC; TNWILL; o]))
        with ([TNIAC; TNWILL; o] ++ concat (replicate n [TNIAC; TNWILL; o])).
      by rewrite (EscRedirectBytes_app _ _ _ _ _ E).
    + rewrite En2, En. simpl concat. by rewrite <- app_assoc.
Qed.

(** A session in which binary transmission and COM port control are enabled in
    both directions. *)
Definition sim_negotiated : St Sim :=
  let on := mkTn false false false false true true in
  upd_tel (set_tnstate (<[0%nat := on]> (<[44%nat := on]> (replicate 256 tn_zero))))
    (sim_session (sim_idle sim_blank)).

Lemma sim_negotiated_ok : st_ok sim_negotiated.
Proof. destruct (sim_session_ok (sim_idle sim_blank)). by constructor. Qed.

(** A hundred offers, a hundred acknowledgements. *)
Lemma repeated_offers_are_acknowledged_witness :
  exists s', EscRedirectBytes ToNet ToDev 3 (concat (replicate 100 [TNIAC; TNWILL; 44]))
      sim_negotiated = Ret tt s' /\
    net s' = net sim_negotiated ++ concat (replicate 100 [TNIAC; TNDO; 44]).
Proof.
  apply (repeated_offers_are_acknowledged sim_negotiated 3 44 100);
    [apply sim_negotiated_ok|reflexivity|done|reflexivity|split; vm_compute; lia|].
  eexists. split; reflexivity.
Defined.

(** A two-byte Telnet command such as NOP or a BREAK takes the byte that
    follows it with it: that byte of data reaches neither side. *)
Theorem two_byte_commands_swallow {W} `{Kernel W} (s : St W) fd c x :
  st_ok s -> IACEscape (tel s) = IACNormal -> is_byte c -> is_byte x ->
  c ∉ [TNSB; TNWILL; TNWONT; TNDO; TNDONT; TNIAC] ->
  exists s', EscRedirectBytes ToNet ToDev fd [TNIAC; c; x] s = Ret tt s' /\
    net s' = net s /\ dev s' = dev s /\ IACEscape (tel s') = IACNormal.
Proof.
  intros Hok He Hc Hx Hnot. rewrite list_elem_of_In in Hnot. simpl in Hnot.
  assert (c <> TNSB /\ c <> TNWILL /\ c <> TNWONT /\ c <> TNDO /\ c <> TNDONT /\ c <> TNIAC)
    as (H1 & H2 & H3 & H4 & H5 & H6) by intuition congruence.
  apply Z.eqb_neq in H1, H2, H3, H4, H5.
  destruct (command_parsed s fd c [] x 3) as (T & HS & HC & E); try done.
  { simpl. by rewrite H1. }
  simpl app in E. rewrite (bind_Ret _ _ _ tt (with_tel T s)) in E.
  - eexists. split; [exact E|]. done.
  - unfold HandleIACCommand. rewrite (bind_Ret _ _ _ c (with_tel T s)).
    + by rewrite H1, H2, H3, H4, H5.
    + apply at_Some; [done|]. by eapply (collected_lookup _ _ 1).
Qed.

(** The byte after a NOP is lost. *)
Lemma two_byte_commands_swallow_witness :
  exists s', EscRedirectBytes ToNet ToDev 3 [TNIAC; TNNOP; 65] sim_negotiated = Ret tt s' /\
    net s' = net sim_negotiated /\ dev s' = dev sim_negotiated /\ IACEscape (tel s') = IACNormal.
Proof.
  apply two_byte_commands_swallow; [apply sim_negotiated_ok|reflexivity|done|done|].
  by apply (bool_decide_unpack _); vm_compute.
Defined.

(** A client signature of 249 characters makes [strncpy] read past the
    end of [IACCommand]: the length argument takes the larger of the two
    bounds, where the smaller one is meant.  One character less is fine. *)
Theorem long_signature_overreads :
  let request n := [TNIAC; TNSB; TNCOM_PORT_OPTION; TNCAS_SIGNATURE]
                     ++ replicate n 65 ++ [TNIAC; TNSE] in
  stopped (EscRedirectBytes ToNet ToDev 3 (request 249%nat) sim_negotiated) = Some OutOfBounds /\
  stopped (EscRedirectBytes ToNet ToDev 3 (request 248%nat) sim_negotiated) = None.
Proof. split; vm_compute; reflexivity. Qed.
