(* ===== verification/PortControl.v ===== *)
(** * COM port control, end to end

    A request of the client for a port setting is parsed, applied to the
    terminal and answered with the value that is in force afterwards. *)

From S2P Require Import Prelude RingBuffer Termios Kernel SimKernel LibcTty SercdState.
From S2P Require Import UnixPort Telnet TelnetSafe TelnetSpec TelnetCommands.

(** The messages of sercd. *)
Definition cpc_frame (reply : Z) (payload : bytes) : bytes :=
  [TNIAC; TNSB; TNCOM_PORT_OPTION; reply] ++ payload ++ [TNIAC; TNSE].

Section Messages.
Context {W : Type} `{Kernel W}.
Implicit Types s : St W.

(** Queueing bytes before and after an escaped payload. *)
Lemma does_frame s reply m k T payload :
  st_ok s -> room s (6 + k) 0 -> (length payload <= k)%nat ->
  (forall s1, st_ok s1 -> tel s1 = tel s -> proc s1 = proc s -> room s1 (k + 2) 0 ->
     Does s1 m tt T (proc s) payload []) ->
  Does s (Add ToNet TNIAC ;; Add ToNet TNSB ;; Add ToNet TNCOM_PORT_OPTION ;;
          Add ToNet reply ;; m ;; Add ToNet TNIAC ;; Add ToNet TNSE) tt T (proc s)
    (cpc_frame reply payload) [].
Proof.
  intros Hok Hr Hp Hm. unfold cpc_frame.
  eapply (does_Add_then _ _ _ _ (5 + k) 0); [done|done|]. intros s1 (_ & _ & Et1 & Ep1 & _) Hok1 Hr1.
  eapply (does_Add_then _ _ _ _ (4 + k) 0); [done|done|]. intros s2 (_ & _ & Et2 & Ep2 & _) Hok2 Hr2.
  eapply (does_Add_then _ _ _ _ (3 + k) 0); [done|done|]. intros s3 (_ & _ & Et3 & Ep3 & _) Hok3 Hr3.
  eapply (does_Add_then _ _ _ _ (2 + k) 0); [done|done|]. intros s4 (_ & _ & Et4 & Ep4 & _) Hok4 Hr4.
  eapply (does_bind _ _ _ _ _ T _ (proc s) _ payload [TNIAC; TNSE] [] []).
  { apply Hm; [done|congruence|congruence|]. by rewrite Nat.add_comm. }
  intros s5 Ha. assert (room s5 2 0) as Hr5.
  { eapply room_after; [done|]. destruct Hr4; split; simpl; lia. }
  destruct Ha as (Hok5 & _ & Et5 & Ep5 & _).
  eapply (does_Add_then _ _ _ _ 1 0); [done|done|]. intros s6 (_ & _ & Et6 & Ep6 & _) Hok6 Hr6.
  rewrite <- Et5, <- Et6, <- Ep5, <- Ep6. by apply does_Add_net.
Qed.

Lemma does_SendCPCByteCommand s c v :
  st_ok s -> room s 8 0 ->
  Does s (SendCPCByteCommand ToNet c v) tt (set_EscWriteChar_Last v (tel s)) (proc s)
    (cpc_frame c (esc_byte (transmits_binary (tel s)) (EscWriteChar_Last (tel s)) v)) [].
Proof.
  intros Hok Hr. unfold SendCPCByteCommand. apply (does_frame _ _ _ 2); [done|done| |].
  - apply esc_byte_length.
  - intros s1 Hok1 Et Ep Hr1. rewrite <- Et, <- Ep. apply does_EscWriteChar; [done|].
    pose proof (esc_byte_length (transmits_binary (tel s1)) (EscWriteChar_Last (tel s1)) v).
    destruct Hr1; split; simpl in *; lia.
Qed.

Lemma does_SendBaudRate s BR :
  st_ok s -> room s 14 0 ->
  Does s (SendBaudRate ToNet BR) tt (set_EscWriteChar_Last (u8 BR) (tel s)) (proc s)
    (cpc_frame TNASC_SET_BAUDRATE
       (esc_bytes (transmits_binary (tel s)) (EscWriteChar_Last (tel s)) (be32 BR))) [].
Proof.
  intros Hok Hr. unfold SendBaudRate. apply (does_frame _ _ _ 8); [done|done| |].
  - eapply Nat.le_trans; [apply esc_bytes_length|]. simpl. lia.
  - intros s1 Hok1 Et Ep Hr1. rewrite <- Et, <- Ep.
    apply (does_EscWriteBytes s1 (be32 BR)); [done|]. destruct Hr1; split; simpl in *; lia.
Qed.
End Messages.

(** ** Acting on the port *)

Section Ports.
Context {W : Type} `{TtyKernel W} (fd : Z).
Implicit Types s : St W.

(** The port shows the settings [v]. *)
Definition port_at (v : port_view) (p : Proc W) : Prop :=
  exists k, tty_get (kern p) fd = Some k /\ view_of_kernel k = v.

(** [m] returns [a], changes only the process state, and takes the port from
    [v] to [v']. *)
Definition Ports {A} (m : M (St W) A) (a : A) (v v' : port_view) : Prop :=
  forall s, port_at v (proc s) ->
    exists p, m s = Ret a (upd_proc (fun _ => p) s) /\ port_at v' p.

Lemma ports_quiet {A} (m : M (St W) A) a v : quiet m a -> Ports m a v v.
Proof.
  intros Hm s (k & Hk & Hv). destruct (Hm s) as (p & E & Hp). exists p. split; [done|].
  exists k. destruct (Hp fd) as [-> _]. done.
Qed.

Lemma ports_bind {A B} (m : M (St W) A) (f : A -> M (St W) B) a b v1 v2 v3 :
  Ports m a v1 v2 -> Ports (f a) b v2 v3 -> Ports (m ≫= f) b v1 v3.
Proof.
  intros Hm Hf s Hv. destruct (Hm s Hv) as (p & E & Hp).
  destruct (Hf (upd_proc (fun _ => p) s) Hp) as (p' & E' & Hp').
  exists p'. by rewrite (bind_Ret _ _ _ _ _ E), E'.
Qed.

Lemma ports_run_cmd c v : Ports (run_cmd fd c) tt v (apply_cmd c v).
Proof.
  intros s (k & Hk & <-). destruct (run_cmd_tty s fd k c Hk) as (p & E & Hg & _).
  exists p. split; [done|]. eexists. split; [done|].
  rewrite view_of_kernel_roundtrip. apply cmd_view.
Qed.

Lemma ports_get {A} (f : termios -> M (St W) A) (g : port_view -> A) v :
  (forall t, quiet (f t) (g (view_of t))) -> Ports (t ← port_tcgetattr fd; f t) (g v) v v.
Proof.
  intros Hq s (k & Hk & <-). pose proof (port_tcgetattr_tty s fd k Hk) as E.
  destruct (ports_quiet _ _ (view_of_kernel k) (Hq (termios_of_kernel k uninit_termios)) s)
    as (p & E' & Hp); [by exists k|].
  exists p. by rewrite (bind_Ret _ _ _ _ _ E).
Qed.

Lemma sends_ports {A} s (m : M (St W) A) (f : A -> M (St W) unit) a v v' T n d P :
  st_ok s -> port_at v (proc s) -> Ports m a v v' ->
  (forall s1, after s (tel s) (proc s1) [] [] s1 -> port_at v' (proc s1) ->
     Sends s1 (f a) T n d P) ->
  Sends s (m ≫= f) T n d P.
Proof.
  intros Hok Hv Hm Hf. destruct (Hm s Hv) as (p & E & Hp).
  assert (after s (tel s) p [] [] (upd_proc (fun _ => p) s)) as Ha.
  { unfold after. rewrite !app_nil_r. destruct Hok. by split_and!. }
  destruct (Hf _ Ha Hp) as (p' & HP & s' & E' & Ha').
  exists p'. split; [done|]. exists s'. split; [by rewrite (bind_Ret _ _ _ _ _ E)|].
  by apply (after_trans _ _ _ _ _ _ _ [] n [] d Ha Ha').
Qed.

Lemma sends_log_port s l msg v :
  st_ok s -> port_at v (proc s) -> Sends s (LogMsg l msg) (tel s) [] [] (port_at v).
Proof.
  intros Hok Hv. destruct (ports_quiet _ _ v (quiet_LogMsg l msg) s Hv) as (p & E & Hp).
  apply sends_log; [done|]. intros p' E'. rewrite E in E'. injection E' as E'. by subst.
Qed.

(** ** Settings with a one-byte parameter *)

Lemma sends_cpc_setting s cmd c asked change suffix shown reply setter getter v v' x :
  st_ok s -> room s 8 0 -> port_at v (proc s) -> cmd !! 4%nat = Some c ->
  (c <> 0 -> Ports (setter fd c) tt v v') -> (c = 0 -> v' = v) ->
  Ports (getter fd) x v' v' ->
  Sends s (cpc_setting ToNet fd cmd asked change suffix shown reply setter getter)
    (set_EscWriteChar_Last x (tel s))
    (cpc_frame reply (esc_byte (transmits_binary (tel s)) (EscWriteChar_Last (tel s)) x)) []
    (port_at v').
Proof.
  intros Hok Hr Hv Hc Hset Hask Hget. unfold cpc_setting.
  assert (Ports (if c =? 0 then LogMsg LOG_DEBUG asked
                 else LogMsg LOG_DEBUG (LogStr (change ++ dec c ++ suffix)) ;; setter fd c) tt v v')
    as Hact.
  { destruct (Z.eqb_spec c 0) as [E|E].
    - rewrite Hask by done. apply ports_quiet, quiet_LogMsg.
    - eapply ports_bind; [apply ports_quiet, quiet_LogMsg|by apply Hset]. }
  assert (at_ cmd 4 s = Ret c s) as Eat by by apply at_Some.
  set (k := fun c : Z => _ : M (St W) unit).
  assert (Sends s (k c) (set_EscWriteChar_Last x (tel s))
    (cpc_frame reply (esc_byte (transmits_binary (tel s)) (EscWriteChar_Last (tel s)) x)) []
    (port_at v')) as (p & HP & HD); [|exists p; split; [done|by eapply does_read]].
  unfold k. eapply sends_ports; [done..|]. intros s1 Ha1 Hv1.
  pose proof (room_after _ _ _ _ _ _ 8 0 Ha1 Hr) as Hr1.
  destruct Ha1 as (Hok1 & _ & <- & _).
  eapply sends_ports; [done..|]. intros s2 Ha2 Hv2.
  pose proof (room_after _ _ _ _ _ _ 8 0 Ha2 Hr1) as Hr2.
  destruct Ha2 as (Hok2 & _ & <- & _).
  rewrite <- (app_nil_r (cpc_frame _ _)).
  eapply (sends_bind _ _ _ _ _ _ _ [] [] (port_at v')).
  { eapply sends_does; [by apply does_SendCPCByteCommand|done]. }
  intros s3 (Hok3 & _ & <- & _) Hv3. by apply sends_log_port.
Qed.
End Ports.

(** ** Requests *)

Section Requests.
Context {W : Type} `{Kernel W}.
Implicit Types s : St W.

(** COM port control is in use in one direction or the other. *)
Definition cpc_agreed (T : Telnet) : Prop :=
  exists t, tnstate T !! Z.to_nat TNCOM_PORT_OPTION = Some t /\ is_will t || is_do t = true.

Lemma HandleIACCommand_cpc s fd T got n :
  collected T got -> got !! 1%nat = Some TNSB -> got !! 2%nat = Some TNCOM_PORT_OPTION ->
  cpc_agreed (tel s) ->
  HandleIACCommand ToNet fd (IACCommand T) n s = HandleCPCCommand ToNet fd (IACCommand T) n s.
Proof.
  intros Hcol H1 H2 (t & Ht & Hon). unfold HandleIACCommand.
  rewrite (bind_Ret _ _ _ TNSB s) by (apply at_Some; [done|by eapply (collected_lookup _ _ 1)]).
  rewrite Z.eqb_refl.
  rewrite (bind_Ret _ _ _ TNCOM_PORT_OPTION s)
    by (apply at_Some; [done|by eapply (collected_lookup _ _ 2)]).
  rewrite (bind_Ret _ _ _ t s) by by apply tn_get_Some. by rewrite Hon.
Qed.

(** A COM port control command of fixed length with its parameters [l]: the
    outcome is the one of [HandleCPCCommand], and the parser is idle again. *)
Lemma cpc_request s fd c l C n T1 out P :
  st_ok s -> IACEscape (tel s) = IACNormal -> cpc_agreed (tel s) ->
  is_byte c -> Forall is_byte l -> is_byte C ->
  command_length (TNIAC :: TNSB :: TNCOM_PORT_OPTION :: c :: l) = Some n ->
  (length l + 5 = n)%nat ->
  (forall T, same_but_parser (tel s) T ->
     collected T (TNIAC :: TNSB :: TNCOM_PORT_OPTION :: c :: l ++ [C]) ->
     Sends (with_tel T s) (HandleCPCCommand ToNet fd (IACCommand T) (Z.of_nat n)) (T1 T) out [] P) ->
  exists s' T,
    EscRedirectBytes ToNet ToDev fd (TNIAC :: TNSB :: TNCOM_PORT_OPTION :: c :: l ++ [C]) s
      = Ret tt s' /\ same_but_parser (tel s) T /\
    tel s' = set_EscRedirectChar_Last C (set_IACEscape IACNormal (T1 T)) /\
    st_ok s' /\ net s' = net s ++ out /\ dev s' = dev s /\ P (proc s').
Proof.
  intros Hok He Hag Hc Hl HC Hn Hlen Hh.
  destruct (command_parsed s fd TNSB (TNCOM_PORT_OPTION :: c :: l) C n) as (T & HS & HT & E);
    [done|done|done|done|all_bytes|done|done|simpl; lia|].
  destruct (Hh T HS HT) as (p & HP & s1 & E1 & ([] & _ & Et & Ep & En & Ed)).
  pose proof HS as (_ & _ & _ & _ & _ & _ & Htn & _).
  rewrite <- (HandleIACCommand_cpc _ _ _ _ _ HT) in E1; [|done|done|].
  2: { unfold cpc_agreed. simpl. by rewrite Htn. }
  simpl app in E. rewrite (bind_Ret _ _ _ _ _ E1) in E.
  eexists _, T. split; [exact E|]. simpl in *. rewrite app_nil_r in Ed.
  split_and!; [done|by rewrite Et|done|done|done|by rewrite Ep].
Qed.
End Requests.

(** The settings with a one-byte parameter. *)
Inductive setting : Type := DataSize | Parity | StopSize.

Definition setting_code (st : setting) : Z :=
  match st with
  | DataSize => TNCAS_SET_DATASIZE | Parity => TNCAS_SET_PARITY | StopSize => TNCAS_SET_STOPSIZE
  end.
Definition setting_cmd (st : setting) : Z -> port_cmd :=
  match st with DataSize => CmdDataSize | Parity => CmdParity | StopSize => CmdStopSize end.
Definition setting_value (st : setting) (v : port_view) : Z :=
  match st with DataSize => v_datasize v | Parity => v_parity v | StopSize => v_stopsize v end.

Section Settings.
Context {W : Type} `{TtyKernel W} (fd : Z).
Implicit Types s : St W.

Definition setting_handler (st : setting) (cmd : bytes) : M (St W) unit :=
  match st with
  | DataSize => cpc_datasize ToNet fd cmd
  | Parity => cpc_parity ToNet fd cmd
  | StopSize => cpc_stopsize ToNet fd cmd
  end.

Lemma HandleCPCCommand_setting s st cmd n :
  cmd !! 3%nat = Some (setting_code st) ->
  HandleCPCCommand ToNet fd cmd n s = setting_handler st cmd s.
Proof.
  intros H3. unfold HandleCPCCommand.
  rewrite (bind_Ret _ _ _ (setting_code st) s) by by apply at_Some. by destruct st.
Qed.

Lemma sends_ext s m m' T n d P :
  m' s = m s -> Sends s m T n d P -> Sends s m' T n d P.
Proof. intros Em (p & HP & s1 & E & Ha). exists p. split; [done|]. exists s1. by rewrite Em. Qed.

(** What a parameter [c] makes of the port. *)
Definition setting_after (st : setting) (c : Z) (v : port_view) : port_view :=
  if c =? 0 then v else apply_cmd (setting_cmd st c) v.

Lemma sends_setting s st cmd c v :
  st_ok s -> room s 8 0 -> port_at fd v (proc s) -> cmd !! 4%nat = Some c ->
  let x := setting_value st (setting_after st c v) in
  Sends s (setting_handler st cmd) (set_EscWriteChar_Last x (tel s))
    (cpc_frame (setting_code st + 100)
       (esc_byte (transmits_binary (tel s)) (EscWriteChar_Last (tel s)) x)) []
    (port_at fd (setting_after st c v)).
Proof.
  intros Hok Hr Hv H4 x. set (v' := setting_after st c v) in *.
  assert (forall (f : termios -> Z) (g : port_view -> Z), (forall t, f t = g (view_of t)) ->
    Ports fd (t ← port_tcgetattr fd; mret (f t)) (g v') v' v') as Hget.
  { intros f g Hfg. apply ports_get. intros t. rewrite <- Hfg. apply quiet_mret. }
  assert (c <> 0 -> Ports fd (run_cmd fd (setting_cmd st c)) tt v v') as Hset.
  { intros Hnz. unfold v', setting_after. rewrite (proj2 (Z.eqb_neq _ _) Hnz).
    apply ports_run_cmd. }
  assert (c = 0 -> v' = v) as Hask by by (unfold v', setting_after; intros ->).
  destruct st; (eapply (sends_cpc_setting fd); [done..|exact Hset|done|]).
  - by apply (Hget _ v_datasize).
  - by apply (Hget _ v_parity).
  - by apply (Hget _ v_stopsize).
Qed.
End Settings.

(** ** Baud rate *)

Section Baud.
Context {W : Type} `{TtyKernel W} (fd : Z).
Implicit Types s : St W.

Definition speed_after (n : Z) (v : port_view) : port_view :=
  if n =? 0 then v else apply_cmd (CmdSpeed n) v.

Lemma ports_GetPortSpeed v : Ports fd (GetPortSpeed fd) (v_speed v) v v.
Proof. apply (ports_get fd Termios2TncomSpeed v_speed). intros t. apply quiet_Termios2TncomSpeed. Qed.

Lemma sends_cpc_baudrate s cmd n v :
  st_ok s -> room s 14 0 -> port_at fd v (proc s) -> is_u32 n -> take 4 (drop 4 cmd) = be32 n ->
  let x := v_speed (speed_after n v) in
  Sends s (cpc_baudrate ToNet fd cmd) (set_EscWriteChar_Last (u8 x) (tel s))
    (cpc_frame TNASC_SET_BAUDRATE
       (esc_bytes (transmits_binary (tel s)) (EscWriteChar_Last (tel s)) (be32 x))) []
    (port_at fd (speed_after n v)).
Proof.
  intros Hok Hr Hv Hn Hb x. unfold cpc_baudrate.
  assert (forall i c, be32 n !! i = Some c -> (i < 4)%nat -> cmd !! (4 + i)%nat = Some c) as Hat.
  { intros i c Hc Hi. rewrite <- Hb in Hc. apply lookup_take_Some in Hc as [Hc _].
    by rewrite lookup_drop in Hc. }
  pose proof (Hat 0%nat _ eq_refl) as H4. pose proof (Hat 1%nat _ eq_refl) as H5.
  pose proof (Hat 2%nat _ eq_refl) as H6. pose proof (Hat 3%nat _ eq_refl) as H7.
  set (k := fun BaudRate : Z =>
    (if BaudRate =? 0 then LogMsg LOG_DEBUG (lit "Baud rate notification received.")
     else LogMsg LOG_DEBUG
         (LogStr (lit "Port baud rate change to " ++ dec BaudRate ++ lit " requested.")) ;;
       SetPortSpeed fd BaudRate) ;;
    BaudRate ← GetPortSpeed fd;
    SendBaudRate ToNet BaudRate ;;
    LogMsg LOG_DEBUG (LogStr (lit "Port baud rate: " ++ dec BaudRate)) : M (St W) unit).
  apply (sends_ext s (k n)).
  { unfold cpc_baudrate. rewrite (bind_Ret _ _ s _ s) by (apply at_Some; [done|apply H4; lia]).
    rewrite (bind_Ret _ _ s _ s) by (apply at_Some; [done|apply H5; lia]).
    rewrite (bind_Ret _ _ s _ s) by (apply at_Some; [done|apply H6; lia]).
    rewrite (bind_Ret _ _ s _ s) by (apply at_Some; [done|apply H7; lia]).
    cbv zeta. rewrite from_be32_be32 by done. done. }
  assert (Ports fd (if n =? 0 then LogMsg LOG_DEBUG (lit "Baud rate notification received.")
     else LogMsg LOG_DEBUG
         (LogStr (lit "Port baud rate change to " ++ dec n ++ lit " requested.")) ;;
       SetPortSpeed fd n) tt v (speed_after n v)) as Hact.
  { unfold speed_after. destruct (n =? 0).
    - apply ports_quiet, quiet_LogMsg.
    - eapply ports_bind; [apply ports_quiet, quiet_LogMsg|apply (ports_run_cmd fd (CmdSpeed n))]. }
  unfold k. eapply sends_ports; [done|done|exact Hact|]. intros s1 Ha1 Hv1.
  pose proof (room_after _ _ _ _ _ _ 14 0 Ha1 Hr) as Hr1. destruct Ha1 as (Hok1 & _ & <- & _).
  eapply sends_ports; [done|done|apply ports_GetPortSpeed|]. intros s2 Ha2 Hv2.
  pose proof (room_after _ _ _ _ _ _ 14 0 Ha2 Hr1) as Hr2. destruct Ha2 as (Hok2 & _ & <- & _).
  rewrite <- (app_nil_r (cpc_frame _ _)).
  eapply (sends_bind _ _ _ _ _ _ _ [] [] (port_at fd (speed_after n v))).
  { eapply sends_does; [by apply does_SendBaudRate|done]. }
  intros s3 (Hok3 & _ & <- & _) Hv3. by apply sends_log_port.
Qed.
End Baud.

(** C25: a request for the data size, the parity or the stop size is served
    end to end.  The seven bytes of the request are consumed, none reaches the
    device; a parameter of zero leaves the port alone, any other is applied as
    [apply_cmd] says; the answer, code plus 100, carries the value that is in
    force afterwards, escaped like data. *)
Theorem port_setting_request {W} `{TtyKernel W} (s : St W) fd st c v :
  st_ok s -> IACEscape (tel s) = IACNormal -> cpc_agreed (tel s) -> is_byte c ->
  room s 8 0 -> port_at fd v (proc s) ->
  let v' := if c =? 0 then v else apply_cmd (setting_cmd st c) v in
  exists s',
    EscRedirectBytes ToNet ToDev fd
      [TNIAC; TNSB; TNCOM_PORT_OPTION; setting_code st; c; TNIAC; TNSE] s = Ret tt s' /\
    port_at fd v' (proc s') /\
    net s' = net s ++ cpc_frame (setting_code st + 100)
      (esc_byte (transmits_binary (tel s)) (EscWriteChar_Last (tel s)) (setting_value st v')) /\
    dev s' = dev s /\ IACEscape (tel s') = IACNormal /\ st_ok s'.
Proof.
  intros Hok He Hag Hc Hr Hv v'.
  destruct (cpc_request s fd (setting_code st) [c; TNIAC] TNSE 7
    (fun T => set_EscWriteChar_Last (setting_value st v') T)
    (cpc_frame (setting_code st + 100)
      (esc_byte (transmits_binary (tel s)) (EscWriteChar_Last (tel s)) (setting_value st v')))
    (port_at fd v')) as (s' & T & E & _ & Et & Hok' & En & Ed & HP);
    [done|done|done|by destruct st|all_bytes|done|by destruct st|done| |].
  - intros T HS HT.
    eapply sends_ext; [apply (HandleCPCCommand_setting fd _ st); by eapply collected_lookup|].
    unfold transmits_binary. pose proof HS as (_ & _ & _ & _ & _ & _ & <- & <-).
    apply (sends_setting fd (with_tel T s)); [by eapply with_tel_ok|done|done|].
    by eapply collected_lookup.
  - exists s'. split_and!; [done..|by rewrite Et|done].
Qed.

(** A baud rate request is served end to end.  Its ten bytes carry the
    rate [n] in network order; zero only asks, a supported rate is set, any
    other becomes 9600 baud; the answer carries the rate that is in force
    afterwards, in network order and escaped, and nothing reaches the device. *)
Theorem baud_rate_request {W} `{TtyKernel W} (s : St W) fd n v :
  st_ok s -> IACEscape (tel s) = IACNormal -> cpc_agreed (tel s) -> is_u32 n ->
  room s 14 0 -> port_at fd v (proc s) ->
  let v' := if n =? 0 then v else apply_cmd (CmdSpeed n) v in
  exists s',
    EscRedirectBytes ToNet ToDev fd
      ([TNIAC; TNSB; TNCOM_PORT_OPTION; TNCAS_SET_BAUDRATE] ++ be32 n ++ [TNIAC; TNSE]) s
      = Ret tt s' /\
    port_at fd v' (proc s') /\
    net s' = net s ++ cpc_frame TNASC_SET_BAUDRATE
      (esc_bytes (transmits_binary (tel s)) (EscWriteChar_Last (tel s)) (be32 (v_speed v'))) /\
    dev s' = dev s /\ IACEscape (tel s') = IACNormal /\ st_ok s'.
Proof.
  intros Hok He Hag Hn Hr Hv v'.
  destruct (cpc_request s fd TNCAS_SET_BAUDRATE (be32 n ++ [TNIAC]) TNSE 10
    (fun T => set_EscWriteChar_Last (u8 (v_speed v')) T)
    (cpc_frame TNASC_SET_BAUDRATE
      (esc_bytes (transmits_binary (tel s)) (EscWriteChar_Last (tel s)) (be32 (v_speed v'))))
    (port_at fd v')) as (s' & T & E & _ & Et & Hok' & En & Ed & HP);
    [done|done|done|done|repeat (constructor; [apply u8_byte|]); all_bytes|done|done|done| |].
  - intros T HS HT.
    apply (sends_ext _ (cpc_baudrate ToNet fd (IACCommand T))).
    { unfold HandleCPCCommand. rewrite (bind_Ret _ _ _ TNCAS_SET_BAUDRATE (with_tel T s)); [done|].
      apply at_Some; [done|]. by eapply collected_lookup. }
    unfold transmits_binary. pose proof HS as (_ & _ & _ & _ & _ & _ & <- & <-).
    apply (sends_cpc_baudrate fd (with_tel T s)); [by eapply with_tel_ok|done|done|done|].
    destruct HT as (_ & _ & HT & _ & _). simpl in HT.
    rewrite <- (firstn_skipn 10 (IACCommand T)), HT. done.
  - exists s'. split_and!; [done..|by rewrite Et|done].
Qed.

(** Seven data bits are asked for on a terminal whose settings are all zero. *)
Lemma port_setting_request_witness :
  let v := view_of_kernel sim_blank in
  exists s',
    EscRedirectBytes ToNet ToDev 3
      [TNIAC; TNSB; TNCOM_PORT_OPTION; setting_code DataSize; 7; TNIAC; TNSE] sim_negotiated
      = Ret tt s' /\
    port_at 3 (mkView (v_speed v) 7 (v_parity v) (v_stopsize v) (v_outflow v) (v_inflow v))
      (proc s') /\
    net s' = net sim_negotiated ++ [255; 250; 44; 102; 7; 255; 240] /\
    dev s' = dev sim_negotiated /\ IACEscape (tel s') = IACNormal /\ st_ok s'.
Proof.
  apply (port_setting_request sim_negotiated 3 DataSize 7 (view_of_kernel sim_blank));
    [apply sim_negotiated_ok|reflexivity|by eexists|done|split; vm_compute; lia|].
  exists sim_blank. split; reflexivity.
Defined.

(** 115200 baud on the same terminal. *)
Lemma baud_rate_request_witness :
  let v := view_of_kernel sim_blank in
  exists s',
    EscRedirectBytes ToNet ToDev 3
      ([TNIAC; TNSB; TNCOM_PORT_OPTION; TNCAS_SET_BAUDRATE] ++ be32 115200 ++ [TNIAC; TNSE])
      sim_negotiated = Ret tt s' /\
    port_at 3 (apply_cmd (CmdSpeed 115200) v) (proc s') /\
    net s' = net sim_negotiated ++ [255; 250; 44; 101; 0; 1; 194; 0; 255; 240] /\
    dev s' = dev sim_negotiated /\ IACEscape (tel s') = IACNormal /\ st_ok s'.
Proof.
  apply (baud_rate_request sim_negotiated 3 115200 (view_of_kernel sim_blank));
    [apply sim_negotiated_ok|reflexivity|by eexists|done|split; vm_compute; lia|].
  exists sim_blank. split; reflexivity.
Defined.

(** ** A parameter of 255 *)

Section ModemMask.
Context {W : Type} `{Kernel W}.
Implicit Types s : St W.

Lemma sends_cpc_modemstate_mask s cmd c :
  st_ok s -> room s 8 0 -> cmd !! 4%nat = Some c ->
  Sends s (cpc_modemstate_mask ToNet cmd)
    (set_EscWriteChar_Last c (set_ModemStateMask c (tel s)))
    (cpc_frame TNASC_SET_MODEMSTATE_MASK
       (esc_byte (transmits_binary (tel s)) (EscWriteChar_Last (tel s)) c)) [] (fun _ => True).
Proof.
  intros Hok Hr H4. unfold cpc_modemstate_mask.
  apply (sends_ext s (LogMsg LOG_DEBUG (LogStr (lit "Modem state mask set to " ++ dec c)) ;;
    put_tel (set_ModemStateMask c) ;;
    m ← get_tel ModemStateMask;
    SendCPCByteCommand ToNet TNASC_SET_MODEMSTATE_MASK m)).
  { by rewrite (bind_Ret _ _ _ c s) by by apply at_Some. }
  eapply (sends_bind _ _ _ _ _ [] _ [] [] (fun _ => True)); [by apply sends_log|].
  intros s1 Ha1 _. pose proof (room_after _ _ _ _ _ _ 8 0 Ha1 Hr) as Hr1.
  destruct Ha1 as (Hok1 & _ & <- & _).
  eapply (sends_bind _ _ _ (set_ModemStateMask c (tel s1)) _ [] _ [] [] (fun _ => True)).
  { eapply sends_does; [|done]. destruct Hok1. by apply does_put_tel. }
  intros s2 Ha2 _. pose proof (room_after _ _ _ _ _ _ 8 0 Ha2 Hr1) as Hr2.
  destruct Ha2 as (Hok2 & _ & Et2 & _).
  apply (sends_ext s2 (SendCPCByteCommand ToNet TNASC_SET_MODEMSTATE_MASK c)).
  { unfold get_tel. rewrite bind_gets. by rewrite Et2. }
  pose proof (does_SendCPCByteCommand s2 TNASC_SET_MODEMSTATE_MASK c Hok2 Hr2) as HD.
  rewrite Et2 in HD. by eapply sends_does.
Qed.
End ModemMask.

(** A modem state mask of 255 cannot be set as RFC 2217 prescribes.  The
    client doubles the parameter, [IAC SB 44 11 255 255 IAC SE]; commands of
    fixed length are not unescaped, so the request is taken as complete one
    byte early, and its last byte, 240, is sent to the serial device. *)
Theorem escaped_parameter_leaks {W} `{Kernel W} (s : St W) fd :
  st_ok s -> IACEscape (tel s) = IACNormal -> cpc_agreed (tel s) -> room s 8 1 ->
  exists s',
    EscRedirectBytes ToNet ToDev fd
      [TNIAC; TNSB; TNCOM_PORT_OPTION; TNCAS_SET_MODEMSTATE_MASK; 255; 255; TNIAC; TNSE] s
      = Ret tt s' /\
    dev s' = dev s ++ [TNSE] /\ ModemStateMask (tel s') = 255.
Proof.
  intros Hok He Hag Hr.
  destruct (cpc_request s fd TNCAS_SET_MODEMSTATE_MASK [255; 255] TNIAC 7
    (fun T => set_EscWriteChar_Last 255 (set_ModemStateMask 255 T))
    (cpc_frame TNASC_SET_MODEMSTATE_MASK [255; 255]) (fun _ => True))
    as (s1 & T & E & HS & Et & Hok1 & En & Ed & _);
    [done|done|done|done|all_bytes|done|done|done| |].
  - intros T HS HT.
    apply (sends_ext _ (cpc_modemstate_mask ToNet (IACCommand T))).
    { unfold HandleCPCCommand.
      rewrite (bind_Ret _ _ _ TNCAS_SET_MODEMSTATE_MASK (with_tel T s)); [done|].
      apply at_Some; [done|]. by eapply collected_lookup. }
    apply (sends_cpc_modemstate_mask (with_tel T s)); [by eapply with_tel_ok| |by eapply collected_lookup].
    destruct Hr; split; simpl; unfold net, dev in *; simpl; lia.
  - destruct (does_redirect_normal s1 fd TNSE) as (s2 & E2 & _ & _ & Et2 & _ & _ & Ed2);
      [done| |by rewrite Et|done|].
    { destruct Hr; split; rewrite ?En, ?Ed, ?length_app; simpl; lia. }
    exists s2. split; [|split].
    + change ([TNIAC; TNSB; TNCOM_PORT_OPTION; TNCAS_SET_MODEMSTATE_MASK; 255; 255; TNIAC; TNSE])
        with ([TNIAC; TNSB; TNCOM_PORT_OPTION; TNCAS_SET_MODEMSTATE_MASK; 255; 255; TNIAC] ++ [TNSE]).
      rewrite (EscRedirectBytes_app _ _ _ _ _ E). simpl. by rewrite (bind_Ret _ _ _ _ _ E2).
    + rewrite Ed2, Ed. by rewrite andb_false_r.
    + by rewrite Et2, Et.
Qed.

(** The same on a negotiated session. *)
Lemma escaped_parameter_leaks_witness :
  exists s',
    EscRedirectBytes ToNet ToDev 3
      [TNIAC; TNSB; TNCOM_PORT_OPTION; TNCAS_SET_MODEMSTATE_MASK; 255; 255; TNIAC; TNSE]
      sim_negotiated = Ret tt s' /\
    dev s' = dev sim_negotiated ++ [TNSE] /\ ModemStateMask (tel s') = 255.
Proof.
  apply escaped_parameter_leaks;
    [apply sim_negotiated_ok|reflexivity|by eexists|split; vm_compute; lia].
Defined.
