(* ===== verification/SercdMain.v ===== *)
(** * The main program of sercd (src/apps/sercd/sercd.c, lines 252-285 and
    1077-1558; SercdSelect and the transfer functions of unix.c)

    Waiting for events, the handling of each of them in the order of the main
    loop, the command line and the start-up. *)

From S2P Require Import Prelude RingBuffer CStdlib Inet Termios Kernel SimKernel LibcTty.
From S2P Require Import SercdState UnixPort UnixLock Telnet TelnetSafe.

Definition SOL_IP : Z := 0.
Definition SOL_SOCKET : Z := 1.
Definition IP_TOS : Z := 1.
Definition SO_REUSEADDR : Z := 2.
Definition SO_KEEPALIVE : Z := 9.
Definition SO_OOBINLINE : Z := 10.
Definition IPTOS_LOWDELAY : Z := 16.
Definition FIONBIO : Z := 21537.   (* 0x5421 *)
Definition DEFAULT_POLL_INTERVAL : Z := 100.

Section Main.
Context {W : Type} `{Kernel W}.
Abbreviation SM A := (M (St W) A) (only parsing).

Definition SetSocketOptions (insocket outsocket : Z) : SM unit :=
  sys (syscall (k_setsockopt insocket SOL_SOCKET SO_KEEPALIVE 1)) ;;
  sys (syscall (k_setsockopt insocket SOL_SOCKET SO_OOBINLINE 1)) ;;
  sys (syscall (k_setsockopt outsocket SOL_SOCKET SO_KEEPALIVE 1)) ;;
  sys (syscall (k_setsockopt insocket SOL_IP IP_TOS IPTOS_LOWDELAY)) ;;
  sys (syscall (k_setsockopt outsocket SOL_IP IP_TOS IPTOS_LOWDELAY)) ;;
  sys (syscall (k_ioctl outsocket FIONBIO 1)) ;;
  sys (syscall (k_ioctl insocket FIONBIO 1)) ;;
  mret tt.

(** ** Waiting *)

(** [timercmp (a, b, <)] *)
Definition timer_lt (a b : Z * Z) : bool :=
  (a.1 <? b.1) || ((a.1 =? b.1) && (a.2 <? b.2)).

Definition gettimeofday : SM (Z * Z) := fun s =>
  let '(t, w) := k_gettimeofday (kern (proc s)) in
  Ret t (upd_proc (fun p => mkProc (errno p) w) s).

(** The descriptors of the pointers that are not null. *)
Definition fd_list (l : list (option Z)) : list Z := omap id l.

Definition fd_isset (fd : option Z) (set : list Z) : bool :=
  match fd with Some n => bool_decide (n ∈ set) | None => false end.

(** The check of the modem state poll: whether it is due. *)
Definition modem_poll (PollInterval : Z) : SM bool :=
  newpoll ← gettimeofday;
  last ← get_plat LastPoll;
  when (timer_lt newpoll last) (put_plat (set_LastPoll (0, 0))) ;;
  let newpoll := (newpoll.1 - Z.quot PollInterval 1000, newpoll.2 - Z.rem PollInterval 1000) in
  last ← get_plat LastPoll;
  if timer_lt last newpoll then
    now ← gettimeofday;
    put_plat (set_LastPoll now) ;;
    mret true
  else mret false.

Definition SercdSelect (DeviceIn DeviceOut Modemstate SocketOut SocketIn SocketConnect : option Z)
    (PollInterval : Z) : SM Z :=
  let BTimeout := (Z.quot PollInterval 1000, Z.rem PollInterval 1000 * 1000) in
  '(selret, (InFdSet, OutFdSet)) ←
    sys (syscall_out (fun w =>
      let '(r, e, i, o, w') := k_select (fd_list [DeviceIn; SocketIn; SocketConnect])
                                 (fd_list [DeviceOut; SocketOut]) BTimeout w in
      (r, e, (i, o), w')));
  if selret <? 0 then mret selret
  else
    let ret := 0 in
    let ret := if fd_isset DeviceIn InFdSet then Z.lor ret SERCD_EV_DEVICEIN else ret in
    let ret := if fd_isset DeviceOut OutFdSet then Z.lor ret SERCD_EV_DEVICEOUT else ret in
    let ret := if fd_isset SocketOut OutFdSet then Z.lor ret SERCD_EV_SOCKETOUT else ret in
    let ret := if fd_isset SocketIn InFdSet then Z.lor ret SERCD_EV_SOCKETIN else ret in
    let ret := if fd_isset SocketConnect InFdSet then Z.lor ret SERCD_EV_SOCKETCONNECT else ret in
    match Modemstate with
    | Some _ =>
        due ← modem_poll PollInterval;
        mret (if (due : bool) then Z.lor ret SERCD_EV_MODEMSTATE else ret)
    | None => mret ret
    end.

(** ** Transfers *)

(** [*p] for a pointer to a descriptor. *)
Definition deref (p : option Z) : SM Z :=
  match p with Some fd => mret fd | None => stop_with NullPointer end.

(** [read (fd, readbuf, count)] *)
Definition read_readbuf (fd count : Z) : SM Z :=
  '(r, bs) ← sys (syscall_out (k_read fd count));
  modify (upd_bufs (fun b => set_readbuf (map u8 bs ++ drop (length bs) (readbuf b)) b)) ;;
  mret r.

Definition ReadFromDev : Z -> Z -> SM Z := read_readbuf.
Definition ReadFromNet : Z -> Z -> SM Z := read_readbuf.
Definition WriteToDev (port : Z) (buf : bytes) : SM Z := sys (syscall (k_write port buf)).
Definition WriteToNet (sock : Z) (buf : bytes) : SM Z := sys (syscall (k_write sock buf)).

Definition IOResultError (iobytes : Z) (err eof_err : cstr) : SM bool :=
  if iobytes =? -1 then
    e ← gets (fun s => errno (proc s));
    if negb (e =? EWOULDBLOCK) then LogMsg LOG_NOTICE err ;; mret true
    else mret false
  else if iobytes =? 0 then LogMsg LOG_NOTICE eof_err ;; mret true
  else mret false.

(** [for (i = 0; i < iobytes; i++) ... readbuf[i] ...]: [i] is unsigned, so the
    comparison converts [iobytes]; beyond the array the behaviour is
    undefined. *)
Definition readbuf_loop (iobytes : Z) (body : bytes -> SM unit) : SM unit :=
  rb ← gets (fun s => readbuf (bufs s));
  let n := u32 iobytes in
  if n <=? Z.of_nat (length rb) then body (take (Z.to_nat n) rb)
  else body rb ;; stop_with OutOfBounds.

(** [DropConnection (...); InSocketFd = OutSocketFd = NULL; DeviceFd = NULL;] *)
Definition drop_client (fuel : nat) (DeviceFd : option Z) : SM unit :=
  c ← gets con;
  lock ← get_opt LockFileName;
  DropConnection fuel DeviceFd (InSocketFd c) (OutSocketFd c) lock ;;
  put_con (fun _ => mkConn None None None).

(** Each part of the loop body tells whether the body goes on ([true]) or the
    loop [continue]s. *)

Definition ev_devicein (fuel : nat) : SM bool :=
  c ← gets con;
  room ← gets (fun s => BufferRoomLeft (ToNetBuf (bufs s)));
  let trybytes := Z.min 512 (room / EscWriteChar_bytes) in
  fd ← deref (DeviceFd c);
  iobytes ← ReadFromDev fd trybytes;
  bad ← IOResultError iobytes (lit "Error reading from device") (lit "EOF from device");
  if (bad : bool) then drop_client fuel (DeviceFd c) ;; mret false
  else readbuf_loop iobytes (EscWriteBytes ToNet) ;; mret true.

(** Writing out of a buffer, to the device or to the network. *)
Definition ev_output (fuel : nat) (B : bufptr) (fd : option Z) (err eof_err : cstr) : SM bool :=
  c ← gets con;
  buf ← gets (get_buf B);
  let '(p, trybytes) := GetBufferString buf in
  fd ← deref fd;
  iobytes ← (if B is ToDev then WriteToDev fd (buffer_slice buf p trybytes)
             else WriteToNet fd (buffer_slice buf p trybytes));
  bad ← IOResultError iobytes err eof_err;
  if (bad : bool) then drop_client fuel (DeviceFd c) ;; mret false
  else on_buf B (BufferPopBytes (u32 iobytes)) ;; mret true.

Definition ev_deviceout (fuel : nat) : SM bool :=
  c ← gets con;
  ev_output fuel ToDev (DeviceFd c) (lit "Error writing to device.") (lit "EOF to device").

Definition ev_socketout (fuel : nat) : SM bool :=
  c ← gets con;
  ev_output fuel ToNet (OutSocketFd c) (lit "Error writing to network") (lit "EOF to network").

Definition ev_socketin (fuel : nat) : SM bool :=
  c ← gets con;
  netroom ← gets (fun s => BufferRoomLeft (ToNetBuf (bufs s)));
  devroom ← gets (fun s => BufferRoomLeft (ToDevBuf (bufs s)));
  let trybytes := Z.min 512 (netroom / EscRedirectChar_bytes_SockB) in
  let trybytes := Z.min trybytes (devroom / EscRedirectChar_bytes_DevB) in
  fd ← deref (InSocketFd c);
  iobytes ← ReadFromNet fd trybytes;
  bad ← IOResultError iobytes (lit "Error readbuf from network.") (lit "EOF from network");
  if (bad : bool) then drop_client fuel (DeviceFd c) ;; mret false
  else
    readbuf_loop iobytes (fun l =>
      dfd ← deref (DeviceFd c); EscRedirectBytes ToNet ToDev dfd l) ;;
    mret true.

(** [SetSocketOptions (...); InitBuffer (&ToNetBuf); InitTelnetStateMachine ();
    SendTelnetInitialOptions (&ToNetBuf);] *)
Definition start_session (insocket outsocket : Z) : SM unit :=
  SetSocketOptions insocket outsocket ;;
  on_buf ToNet InitBuffer ;;
  InitTelnetStateMachine ;;
  SendTelnetInitialOptions ToNet.

Definition ev_connect (LSocketFd : option Z) : SM unit :=
  LogMsg LOG_NOTICE (lit "New connection") ;;
  lfd ← deref LSocketFd;
  csock ← sys (syscall (k_accept lfd));
  c ← gets con;
  if csock <? 0 then LogMsg LOG_ERR (lit "Error accepting socket")
  else
    match InSocketFd c, OutSocketFd c with
    | Some _, Some _ =>
        LogMsg LOG_ERR (lit "Another client connected, dropping new connection") ;;
        sys (syscall (k_close csock)) ;; mret tt
    | _, _ =>
        put_con (fun c => mkConn (DeviceFd c) (Some csock) (Some csock)) ;;
        start_session csock csock
    end.

Definition open_device (fuel : nat) : SM bool :=
  c ← gets con;
  match InSocketFd c, OutSocketFd c, DeviceFd c with
  | Some _, Some _, None =>
      dev ← get_opt DeviceName;
      lock ← get_opt LockFileName;
      '(r, devicefd) ← OpenPort fuel dev lock;
      if r =? Error then
        LogLine LOG_ERR (lit "Unable to open device " ++ dev ++ lit ". Exiting.") ;;
        drop_client fuel None ;;
        mret false
      else
        put_con (set_DeviceFd (Some devicefd)) ;;
        on_buf ToDev InitBuffer ;;
        mret true
  | _, _, _ => mret true
  end.

Definition ev_modemstate : SM unit :=
  c ← gets con;
  old ← get_tel ModemState;
  mask ← get_tel ModemStateMask;
  fd ← deref (DeviceFd c);
  newstate ← GetModemState fd old;
  when (negb (Z.land (Z.land newstate mask) TNCOM_MODMASK_NODELTA =?
              Z.land (Z.land old mask) TNCOM_MODMASK_NODELTA))
    (put_tel (set_ModemState newstate) ;;
     SendCPCByteCommand ToNet TNASC_NOTIFY_MODEMSTATE (Z.land newstate mask) ;;
     LogLine LOG_DEBUG (lit "Sent modem state: " ++ dec (Z.land newstate mask))).

(** ** The main loop *)

(** [if (selret & ev) part], where a [continue] in [part] ends the body. *)
Definition on_event (selret ev : Z) (part : SM bool) (rest : SM unit) : SM unit :=
  if negb (Z.land selret ev =? 0) then
    go ← part;
    if (go : bool) then rest else mret tt
  else rest.

Definition handle_events (fuel : nat) (LSocketFd : option Z) (selret : Z) : SM unit :=
  on_event selret SERCD_EV_DEVICEIN (ev_devicein fuel) (
  on_event selret SERCD_EV_DEVICEOUT (ev_deviceout fuel) (
  on_event selret SERCD_EV_SOCKETOUT (ev_socketout fuel) (
  on_event selret SERCD_EV_SOCKETIN (ev_socketin fuel) (
  when (negb (Z.land selret SERCD_EV_SOCKETCONNECT =? 0)) (ev_connect LSocketFd) ;;
  go ← open_device fuel;
  if (go : bool) then when (negb (Z.land selret SERCD_EV_MODEMSTATE =? 0)) ev_modemstate
  else mret tt)))).

(** The pointers passed to [SercdSelect]: [DeviceIn], [DeviceOut],
    [Modemstate], [SocketOut], [SocketIn]. *)
Definition wanted (s : St W) : option Z * option Z * option Z * option Z * option Z :=
  let c := con s in
  let net := ToNetBuf (bufs s) in
  let dev := ToDevBuf (bufs s) in
  let has {A} (o : option A) := match o with Some _ => true | None => false end in
  let pick (b : bool) (p : option Z) := if b then p else None in
  (pick (BufferHasRoomFor net EscWriteChar_bytes && InputFlow (tel s)) (DeviceFd c),
   pick (negb (IsBufferEmpty dev)) (DeviceFd c),
   pick (PortControlEnable (tel s) && InputFlow (tel s)
         && BufferHasRoomFor net SendCPCByteCommand_bytes) (DeviceFd c),
   pick (negb (IsBufferEmpty net)) (OutSocketFd c),
   pick (has (DeviceFd c) && BufferHasRoomFor dev EscRedirectChar_bytes_DevB
         && BufferHasRoomFor net EscRedirectChar_bytes_SockB) (InSocketFd c)).

Definition loop_body (fuel : nat) (LSocketFd : option Z) (PollInterval : Z) : SM unit :=
  '(DeviceIn, DeviceOut, Modemstate, SocketOut, SocketIn) ← gets wanted;
  match DeviceIn, DeviceOut, SocketOut, SocketIn, LSocketFd with
  | None, None, None, None, None => exit_ fuel NoError
  | _, _, _, _, _ =>
      selret ← SercdSelect DeviceIn DeviceOut Modemstate SocketOut SocketIn LSocketFd PollInterval;
      if selret <? 0 then
        e ← gets (fun s => errno (proc s));
        LogLine LOG_ERR (lit "select error: " ++ sdec e) ;;
        exit_ fuel Error
      else when (0 <? selret) (handle_events fuel LSocketFd selret)
  end.

(** [n] turns of [while (True)]. *)
Fixpoint main_loop (n fuel : nat) (LSocketFd : option Z) (PollInterval : Z) : SM unit :=
  match n with
  | O => stop_with OutOfFuel
  | S n' => loop_body fuel LSocketFd PollInterval ;; main_loop n' fuel LSocketFd PollInterval
  end.

(** ** Start-up *)

(** [fprintf (stderr, ...)]; also [perror], of which only the prefix is kept. *)
Definition stderr_ (msg : cstr) : SM unit := sys (on_kern (k_stderr msg)).

Definition Usage : SM unit :=
  stderr_ (lit "sercd " ++ VERSION ++ lit ": RFC 2217 compliant serial port redirector" ++ [10] ++
    lit "This program can be run by the inetd superserver or standalone" ++ [10; 10] ++
    lit "Usage:" ++ [10] ++
    lit "sercd [-ie] [-p port] [-l addr] <loglevel> <device> <lockfile> [pollingterval]" ++ [10] ++
    lit "-i       indicates Cisco IOS Bug compatibility" ++ [10] ++
    lit "-e       send output to standard error instead of syslog" ++ [10] ++
    lit "-p port  listen on specified port, instead of port 7000" ++ [10] ++
    lit "-l addr  standalone mode, bind to specified adress, empty string for all" ++ [10] ++
    lit "Poll interval is in milliseconds, default is " ++ sdec DEFAULT_POLL_INTERVAL ++ lit "," ++
    [10] ++ lit "0 means no polling" ++ [10]).

(** The variables of [main] that the options set. *)
Record MainArgs : Type := mkArgs {
  opt_port : Z;
  opt_bind_addr : Z;
  inetd_mode : bool;
}.

Definition fail_start {A} (fuel : nat) (msg : cstr) : SM A :=
  stderr_ msg ;; exit_ fuel Error.

(** One turn of the option loop: [opt] and [optarg] are what [getopt] left. *)
Definition main_option (fuel : nat) (opt : Z) (optarg : cstr) (m : MainArgs) : SM MainArgs :=
  if opt =? 105 (* i *) then modify (upd_opts (set_CiscoIOSCompatible true)) ;; mret m
  else if opt =? 101 (* e *) then modify (upd_opts (set_StdErrLogging true)) ;; mret m
  else if opt =? 112 (* p *) then
    let port := u32 (strtol optarg 10).1.1 in
    if port =? 0 then fail_start fuel (lit "Invalid port" ++ [10])
    else mret (mkArgs port (opt_bind_addr m) (inetd_mode m))
  else if opt =? 108 (* l *) then
    if negb (char_at optarg 0 =? 0) then
      let a := inet_addr optarg in
      if a =? 2 ^ 32 - 1 then fail_start fuel (lit "Invalid bind address" ++ [10])
      else mret (mkArgs (opt_port m) a false)
    else mret (mkArgs (opt_port m) (opt_bind_addr m) false)
  else mret m.

Fixpoint main_options (fuel : nat) (options : list (Z * cstr)) (m : MainArgs) : SM MainArgs :=
  match options with
  | [] => mret m
  | (opt, optarg) :: options' => m ← main_option fuel opt optarg m; main_options fuel options' m
  end.

(** The positional arguments; the result is [PollInterval]. *)
Definition main_arguments (fuel : nat) (args : list cstr) : SM Z :=
  match args with
  | level :: device :: lock :: more =>
      match more with
      | _ :: _ :: _ => Usage ;; exit_ fuel Error
      | _ =>
          modify (upd_opts (fun o =>
            set_LockFileName lock (set_DeviceName device (set_MaxLogLevel (atoi level) o)))) ;;
          match more with
          | interval :: _ =>
              let '(PollInterval, endptr, _) := strtol interval 0 in
              if negb (char_at endptr 0 =? 0) || (PollInterval <? 0)
              then fail_start fuel (lit "Invalid polling interval" ++ [10])
              else mret PollInterval
          | [] => mret DEFAULT_POLL_INTERVAL
          end
      end
  | _ => Usage ;; exit_ fuel Error
  end.

(** The listening socket of the standalone mode. *)
Definition main_listen (fuel : nat) (m : MainArgs) : SM Z :=
  lsocket ← sys (syscall k_socket);
  if lsocket <? 0 then fail_start fuel (lit "socket")
  else
    sys (syscall (k_setsockopt lsocket SOL_SOCKET SO_REUSEADDR 1)) ;;
    r ← sys (syscall (k_bind lsocket (u16 (opt_port m)) (opt_bind_addr m)));
    if negb (r =? 0) then
      stderr_ (lit "bind") ;;
      fail_start fuel (lit "Couldn't bind to tcp port " ++ sdec (s32 (opt_port m)) ++ [10])
    else
      r ← sys (syscall (k_listen lsocket 1));
      if r <? 0 then fail_start fuel (lit "listen") else mret lsocket.

(** [main], with the results of [getopt] and [n] turns of the loop. *)
Definition main (n fuel : nat) (options : list (Z * cstr)) (args : list cstr) : SM unit :=
  m ← main_options fuel options (mkArgs 7000 0 true);
  PollInterval ← main_arguments fuel args;
  PlatformInit ;;
  LogMsg LOG_NOTICE (lit "sercd started.") ;;
  level ← get_opt MaxLogLevel;
  LogLine LOG_INFO (lit "Log level: " ++ sdec level) ;;
  LogLine LOG_INFO (lit "Polling interval (ms): " ++ sdec PollInterval) ;;
  LSocketFd ←
    (if inetd_mode m then
       put_con (fun c => mkConn (DeviceFd c) (Some 0) (Some 1)) ;;
       start_session 0 1 ;;
       mret None
     else lsocket ← main_listen fuel m; mret (Some lsocket));
  main_loop n fuel LSocketFd PollInterval.
End Main.
