(* ===== verification/MainInv.v ===== *)
(** * The connections of the main loop

    The comment above the main loop names three states and says that "if
    DeviceFd is set, InSocketFd and OutSocketFd should be set as well".  This
    is an invariant of every turn of the loop, for every behaviour of the
    kernel, and it is what keeps the loop from following a null pointer. *)

From S2P Require Import Prelude RingBuffer CStdlib Inet Termios Kernel SimKernel LibcTty.
From S2P Require Import SercdState UnixPort UnixLock Telnet TelnetSafe SercdMain.

(** The three states of the comment. *)
Inductive conn_ok : Conn -> Prop :=
| NoClient : conn_ok (mkConn None None None)
| ClientOnly i o : conn_ok (mkConn None (Some i) (Some o))
| PortOpen d i o : conn_ok (mkConn (Some d) (Some i) (Some o)).

Section KeepsCon.
Context {W : Type} `{Kernel W}.
Abbreviation SM A := (M (St W) A) (only parsing).

(** [m] leaves the connections alone and follows no null pointer. *)
Class KeepsCon {A} (m : SM A) : Prop :=
  keeps_con s : match m s with Ret _ s' => con s' = con s | Stop e _ => e <> NullPointer end.

#[global] Instance keeps_con_sysonly {A} (m : SM A) : SysOnly m -> KeepsCon m | 10.
Proof. intros Hm s. destruct (Hm s) as (a & p & ->). done. Qed.
#[global] Instance keeps_con_assertion {A} : KeepsCon (stop_with AssertionFailed : SM A).
Proof. done. Qed.
#[global] Instance keeps_con_bounds {A} : KeepsCon (stop_with OutOfBounds : SM A).
Proof. done. Qed.
#[global] Instance keeps_con_fuel {A} : KeepsCon (stop_with OutOfFuel : SM A).
Proof. done. Qed.
#[global] Instance keeps_con_exit {A} st : KeepsCon (stop_with (Exited st) : SM A).
Proof. done. Qed.
#[global] Instance keeps_con_mret {A} (a : A) : KeepsCon (mret a).
Proof. done. Qed.
#[global] Instance keeps_con_gets {A} (f : St W -> A) : KeepsCon (gets f).
Proof. done. Qed.
#[global] Instance keeps_con_put_tel f : KeepsCon (put_tel f).
Proof. done. Qed.
#[global] Instance keeps_con_put_plat f : KeepsCon (put_plat f).
Proof. done. Qed.
#[global] Instance keeps_con_upd_bufs f : KeepsCon (modify (upd_bufs f)) | 9.
Proof. done. Qed.
#[global] Instance keeps_con_upd_opts f : KeepsCon (modify (upd_opts f)) | 9.
Proof. done. Qed.
#[global] Instance keeps_con_gettimeofday : KeepsCon gettimeofday.
Proof. intros s. unfold gettimeofday. by destruct (k_gettimeofday _). Qed.
#[global] Instance keeps_con_bind {A B} (m : SM A) (f : A -> SM B) :
  KeepsCon m -> (forall a, KeepsCon (f a)) -> KeepsCon (m ≫= f).
Proof.
  intros Hm Hf s. unfold mbind, M_bind. pose proof (Hm s) as Hs.
  destruct (m s) as [a s1|]; [|done]. pose proof (Hf a s1) as Hs1.
  destruct (f a s1); [congruence|done].
Qed.
#[global] Instance keeps_con_when b m : KeepsCon m -> KeepsCon (when b m).
Proof. by destruct b. Qed.
End KeepsCon.

(** A conditional or a pattern matching keeps the connections when its branches do. *)
#[global] Hint Extern 1 (KeepsCon _) =>
  lazymatch goal with
  | |- KeepsCon (match ?x with _ => _ end) => destruct x
  end : typeclass_instances.

(** Instances are found by name, not by unfolding. *)
#[local] Typeclasses Opaque tn_upd tn_get at_ IACCommand_store Add EscWriteChar SendStr
  EscWriteBytes SendSignature SendTelnetOption SendTelnetInitialOptions SendBaudRate
  SendCPCByteCommand cpc_signature cpc_baudrate cpc_setting cpc_control cpc_linestate_mask
  cpc_modemstate_mask cpc_purge HandleCPCCommand HandleIACCommand EscRedirectChar
  EscRedirectBytes LogMsg LogLine HDBLockFile_loop HDBLockFile HDBUnlockFile OpenPort ClosePort
  DropConnection exit_ start_session IOResultError read_readbuf SercdSelect put_tel put_plat
  gettimeofday stop_with modify gets when assert on_buf sys.

Section KeepsConOps.
Context {W : Type} `{Kernel W}.
Abbreviation SM A := (M (St W) A) (only parsing).

#[global] Instance keeps_con_LogMsg l m : KeepsCon (W:=W) (LogMsg l m) | 0.
Proof. apply keeps_con_sysonly, _. Qed.
#[global] Instance keeps_con_assert b : KeepsCon (W:=W) (assert b).
Proof. by destruct b. Qed.
#[global] Instance keeps_con_Add B C : KeepsCon (W:=W) (Add B C).
Proof.
  intros s. unfold Add, on_buf, AddToBuffer. destruct (BufferHasRoomFor _ _); [|done].
  by destruct (store_at _ _ _), B.
Qed.
#[global] Instance keeps_con_InitBuffer B : KeepsCon (W:=W) (on_buf B InitBuffer).
Proof. by destruct B. Qed.
#[global] Instance keeps_con_BufferPopBytes B n : KeepsCon (W:=W) (on_buf B (BufferPopBytes n)).
Proof. by destruct B. Qed.
#[global] Instance keeps_con_tn_get o : KeepsCon (W:=W) (tn_get o).
Proof. intros s. unfold tn_get. by destruct (decide _); [destruct (_ !! _)|]. Qed.
#[global] Instance keeps_con_at Command i : KeepsCon (W:=W) (at_ Command i).
Proof. intros s. unfold at_. by destruct (decide _); [destruct (_ !! _)|]. Qed.
#[global] Instance keeps_con_store i c : KeepsCon (W:=W) (IACCommand_store i c).
Proof. intros s. unfold IACCommand_store. by destruct (store_at _ _ _). Qed.
#[global] Instance keeps_con_tn_upd o f : KeepsCon (W:=W) (tn_upd o f).
Proof. unfold tn_upd. apply _. Qed.

(** The Telnet engine. *)
#[global] Instance keeps_con_EscWriteChar B C : KeepsCon (W:=W) (EscWriteChar B C).
Proof. unfold EscWriteChar. apply _. Qed.
#[global] Instance keeps_con_SendStr B l : KeepsCon (W:=W) (SendStr B l).
Proof. induction l; simpl; apply _. Qed.
#[global] Instance keeps_con_EscWriteBytes B l : KeepsCon (W:=W) (EscWriteBytes B l).
Proof. induction l; simpl; apply _. Qed.
#[global] Instance keeps_con_SendSignature B l : KeepsCon (W:=W) (SendSignature B l).
Proof. unfold SendSignature. apply _. Qed.
#[global] Instance keeps_con_SendTelnetOption B c o : KeepsCon (W:=W) (SendTelnetOption B c o).
Proof. unfold SendTelnetOption. apply _. Qed.
#[global] Instance keeps_con_initial B : KeepsCon (W:=W) (SendTelnetInitialOptions B).
Proof. unfold SendTelnetInitialOptions. apply _. Qed.
#[global] Instance keeps_con_SendBaudRate B n : KeepsCon (W:=W) (SendBaudRate B n).
Proof. unfold SendBaudRate. apply _. Qed.
#[global] Instance keeps_con_SendCPC B c p : KeepsCon (W:=W) (SendCPCByteCommand B c p).
Proof. unfold SendCPCByteCommand. apply _. Qed.
#[global] Instance keeps_con_cpc_signature B cmd n : KeepsCon (W:=W) (cpc_signature B cmd n).
Proof. unfold cpc_signature. apply _. Qed.
#[global] Instance keeps_con_cpc_baudrate B fd cmd : KeepsCon (W:=W) (cpc_baudrate B fd cmd).
Proof. unfold cpc_baudrate. apply _. Qed.
#[global] Instance keeps_con_cpc_setting B fd cmd a b c d r setter getter :
  (forall x y, SysOnly (setter x y)) -> (forall x, SysOnly (getter x)) ->
  KeepsCon (W:=W) (cpc_setting B fd cmd a b c d r setter getter).
Proof. intros. unfold cpc_setting. apply _. Qed.
#[global] Instance keeps_con_cpc_control B fd cmd : KeepsCon (W:=W) (cpc_control B fd cmd).
Proof. unfold cpc_control. apply _. Qed.
#[global] Instance keeps_con_cpc_linestate B cmd : KeepsCon (W:=W) (cpc_linestate_mask B cmd).
Proof. unfold cpc_linestate_mask. apply _. Qed.
#[global] Instance keeps_con_cpc_modemstate B cmd : KeepsCon (W:=W) (cpc_modemstate_mask B cmd).
Proof. unfold cpc_modemstate_mask. apply _. Qed.
#[global] Instance keeps_con_cpc_purge B fd cmd : KeepsCon (W:=W) (cpc_purge B fd cmd).
Proof. unfold cpc_purge. apply _. Qed.
#[global] Instance keeps_con_HandleCPCCommand B fd cmd n : KeepsCon (W:=W) (HandleCPCCommand B fd cmd n).
Proof. unfold HandleCPCCommand, cpc_datasize, cpc_parity, cpc_stopsize. apply _. Qed.
#[global] Instance keeps_con_HandleIACCommand B fd cmd n : KeepsCon (W:=W) (HandleIACCommand B fd cmd n).
Proof. unfold HandleIACCommand, iac_will, iac_do, iac_dont, iac_wont. apply _. Qed.
#[global] Instance keeps_con_EscRedirectChar B D fd C : KeepsCon (W:=W) (EscRedirectChar B D fd C).
Proof.
  unfold EscRedirectChar, redirect_normal, redirect_received, redirect_command,
    redirect_signature, redirect_fixed, iac_finish, iac_push_guarded, iac_push.
  apply _.
Qed.
#[global] Instance keeps_con_EscRedirectBytes B D fd l : KeepsCon (W:=W) (EscRedirectBytes B D fd l).
Proof. induction l; simpl; apply _. Qed.

(** The lock and the port. *)
#[global] Instance keeps_con_LogLine l m : KeepsCon (W:=W) (LogLine l m).
Proof. unfold LogLine. apply _. Qed.
#[global] Instance keeps_con_lock_loop fuel p me : KeepsCon (W:=W) (HDBLockFile_loop fuel p me).
Proof.
  induction fuel; cbn [HDBLockFile_loop]; [apply _|]. unfold HDBLockFile_examine. apply _.
Qed.
#[global] Instance keeps_con_lock fuel p me : KeepsCon (W:=W) (HDBLockFile fuel p me).
Proof. unfold HDBLockFile. apply _. Qed.
#[global] Instance keeps_con_unlock fuel p me : KeepsCon (W:=W) (HDBUnlockFile fuel p me).
Proof. unfold HDBUnlockFile. apply _. Qed.
#[global] Instance keeps_con_OpenPort fuel dev p : KeepsCon (W:=W) (OpenPort fuel dev p).
Proof. unfold OpenPort, getpid. apply _. Qed.
#[global] Instance keeps_con_ClosePort fuel fd p : KeepsCon (W:=W) (ClosePort fuel fd p).
Proof. unfold ClosePort, getpid. apply _. Qed.
#[global] Instance keeps_con_DropConnection fuel d i o p : KeepsCon (W:=W) (DropConnection fuel d i o p).
Proof. unfold DropConnection. apply _. Qed.
#[global] Instance keeps_con_exit_ {A} fuel st : KeepsCon (W:=W) (exit_ fuel st : SM A).
Proof. unfold exit_, ExitFunction. apply _. Qed.

(** The events. *)
#[global] Instance keeps_con_start_session i o : KeepsCon (W:=W) (start_session i o).
Proof. unfold start_session, SetSocketOptions, InitTelnetStateMachine. apply _. Qed.
#[global] Instance keeps_con_IOResultError n e f : KeepsCon (W:=W) (IOResultError n e f).
Proof. unfold IOResultError. apply _. Qed.
#[global] Instance keeps_con_read fd n : KeepsCon (W:=W) (read_readbuf fd n).
Proof. unfold read_readbuf. apply _. Qed.
Lemma keeps_con_readbuf_loop n body :
  (forall l, KeepsCon (body l)) -> KeepsCon (W:=W) (readbuf_loop n body).
Proof. intros Hb. unfold readbuf_loop. apply _. Qed.
#[global] Instance keeps_con_select d1 d2 m o i c p : KeepsCon (W:=W) (SercdSelect d1 d2 m o i c p).
Proof. unfold SercdSelect, modem_poll. apply _. Qed.
End KeepsConOps.

Section Turn.
Context {W : Type} `{Kernel W}.
Abbreviation SM A := (M (St W) A) (only parsing).
Implicit Types s : St W.

(** [m] follows no null pointer, and its result satisfies [Q]. *)
Definition safe {A} (m : SM A) (Q : A -> St W -> Prop) (s : St W) : Prop :=
  wp m Q (fun e _ => e <> NullPointer) s.

Lemma safe_bind {A B} (m : SM A) (f : A -> SM B) Q s :
  safe m (fun a s' => safe (f a) Q s') s -> safe (m ≫= f) Q s.
Proof. apply wp_bind. Qed.

Lemma safe_keeps {A} (m : SM A) s : KeepsCon m -> safe m (fun _ s' => con s' = con s) s.
Proof. intros Hm. pose proof (Hm s). unfold safe, wp. by destruct (m s). Qed.

Lemma safe_mono {A} (m : SM A) Q Q' s :
  safe m Q s -> (forall a s', Q a s' -> Q' a s') -> safe m Q' s.
Proof. intros Hm HQ. by eapply wp_mono. Qed.

(** The first part keeps the connections. *)
Lemma safe_then {A B} (m : SM A) (f : A -> SM B) Q s :
  KeepsCon m -> (forall a s', con s' = con s -> safe (f a) Q s') -> safe (m ≫= f) Q s.
Proof. intros Hm Hf. apply safe_bind. eapply safe_mono; [by apply safe_keeps|eauto]. Qed.

Lemma safe_ret {A} (a : A) (Q : A -> St W -> Prop) s : Q a s -> safe (mret a) Q s.
Proof. done. Qed.

Lemma safe_gets {A B} (g : St W -> A) (f : A -> SM B) Q s :
  safe (f (g s)) Q s -> safe (gets g ≫= f) Q s.
Proof. done. Qed.

Lemma safe_put_con {B} g (f : unit -> SM B) Q s :
  safe (f tt) Q (upd_con g s) -> safe (put_con g ≫= f) Q s.
Proof. done. Qed.

Lemma safe_deref {B} fd (f : Z -> SM B) Q s : safe (f fd) Q s -> safe (deref (Some fd) ≫= f) Q s.
Proof. done. Qed.

(** The end of a part of the loop body: the connections as they were, or none. *)
Definition part_post (s : St W) (go : bool) (s' : St W) : Prop :=
  con s' = if go then con s else mkConn None None None.

Lemma safe_drop fuel d s : safe (drop_client fuel d ;; mret false) (part_post s) s.
Proof.
  unfold drop_client. apply safe_bind. do 2 (apply safe_then; [apply _|]; intros ? ? ?).
  apply safe_then; [apply _|]. intros _ s3 _. done.
Qed.

(** What every transfer ends with. *)
Lemma safe_transfer_end fuel d n err eof (m : SM unit) s0 s :
  KeepsCon m -> con s = con s0 ->
  safe (bad ← IOResultError n err eof;
        if (bad : bool) then drop_client fuel d ;; mret false else m ;; mret true)
    (part_post s0) s.
Proof.
  intros Hm Hc. apply safe_then; [apply _|]. intros [] s1 Hc1.
  - eapply safe_mono; [apply safe_drop|]. intros [] s2; unfold part_post; congruence.
  - apply safe_then; [done|]. intros [] s2 Hc2. apply safe_ret. unfold part_post. congruence.
Qed.

Lemma safe_devicein fuel s :
  is_Some (DeviceFd (con s)) -> safe (ev_devicein fuel) (part_post s) s.
Proof.
  intros [fd Hfd]. unfold ev_devicein. apply safe_gets. rewrite Hfd.
  apply safe_then; [apply _|]. intros room s1 Hc1. cbv zeta. rewrite ?Hfd. apply safe_deref.
  apply safe_then; [unfold ReadFromDev; apply _|]. intros n s2 Hc2.
  apply safe_transfer_end; [|congruence]. apply keeps_con_readbuf_loop. apply _.
Qed.

Lemma safe_output fuel B fd err eof s :
  is_Some fd -> safe (ev_output fuel B fd err eof) (part_post s) s.
Proof.
  intros [n ->]. unfold ev_output. do 2 (apply safe_then; [apply _|]; intros ? ? ?).
  destruct (GetBufferString _) as [p k]. apply safe_deref.
  apply safe_then; [unfold WriteToDev, WriteToNet; destruct B; apply _|]. intros r s3 Hc3.
  apply safe_transfer_end; [apply _|congruence].
Qed.

Lemma safe_deviceout fuel s :
  is_Some (DeviceFd (con s)) -> safe (ev_deviceout fuel) (part_post s) s.
Proof. intros Hfd. unfold ev_deviceout. apply safe_gets. by apply safe_output. Qed.

Lemma safe_socketout fuel s :
  is_Some (OutSocketFd (con s)) -> safe (ev_socketout fuel) (part_post s) s.
Proof. intros Hfd. unfold ev_socketout. apply safe_gets. by apply safe_output. Qed.

Lemma safe_socketin fuel s :
  is_Some (InSocketFd (con s)) -> is_Some (DeviceFd (con s)) ->
  safe (ev_socketin fuel) (part_post s) s.
Proof.
  intros [fd Hfd] [dfd Hdfd]. unfold ev_socketin. apply safe_gets. rewrite Hfd, Hdfd.
  do 2 (apply safe_then; [apply _|]; intros ? ? ?). cbv zeta. apply safe_deref.
  apply safe_then; [unfold ReadFromNet; apply _|]. intros n s3 Hc3.
  apply safe_transfer_end; [|congruence]. apply keeps_con_readbuf_loop. intros l. simpl deref.
  apply _.
Qed.

Lemma safe_connect LSocketFd s :
  is_Some LSocketFd -> conn_ok (con s) ->
  safe (ev_connect LSocketFd)
    (fun _ s' => conn_ok (con s') /\ (is_Some (DeviceFd (con s)) -> con s' = con s)) s.
Proof.
  intros [l ->] Hok. unfold ev_connect. apply safe_then; [apply _|]. intros _ s1 Hc1.
  apply safe_deref. apply safe_then; [apply _|]. intros csock s2 Hc2.
  apply safe_gets. rewrite Hc2, Hc1.
  assert (forall m : SM unit, KeepsCon m -> safe m (fun _ s' => conn_ok (con s') /\
    (is_Some (DeviceFd (con s)) -> con s' = con s)) s2) as Hkeep.
  { intros m Hm. eapply safe_mono; [by apply safe_keeps|]. intros ? s' Hc. simpl in Hc.
    rewrite Hc, Hc2, Hc1. done. }
  destruct (csock <? 0); [apply Hkeep, _|].
  assert (DeviceFd (con s) = None -> safe (put_con (fun c =>
      mkConn (DeviceFd c) (Some csock) (Some csock)) ;; start_session csock csock)
    (fun _ s' => conn_ok (con s') /\ (is_Some (DeviceFd (con s)) -> con s' = con s)) s2) as Hnew.
  { intros Hd. apply safe_put_con. eapply safe_mono; [apply safe_keeps, _|].
    intros ? s' Hc. simpl in Hc. rewrite Hc2, Hc1, Hd in Hc. rewrite Hc, Hd.
    split; [constructor|by intros []]. }
  inversion Hok as [E|i o E|d i o E]; rewrite <- E in *; try by apply Hnew.
  - apply Hkeep. apply _.
  - apply Hkeep. apply _.
Qed.

Lemma safe_open fuel s :
  conn_ok (con s) ->
  safe (open_device fuel) (fun go s' => conn_ok (con s') /\
    (go = true -> is_Some (DeviceFd (con s)) -> con s' = con s)) s.
Proof.
  intros Hok. unfold open_device. apply safe_gets.
  inversion Hok as [E|i o E|d i o E]; try (apply safe_ret; split; [done|by intros _ []]).
  do 2 (apply safe_then; [apply _|]; intros ? ? ?).
  apply safe_then; [apply _|]. intros [r devicefd] s3 Hc3. destruct (r =? Error).
  - apply safe_then; [apply _|]. intros _ s4 Hc4. eapply safe_mono; [apply safe_drop|].
    intros [] s5 Hp; unfold part_post in Hp; rewrite Hp; simpl; split; try by intros _ [].
    + rewrite Hc4, Hc3. rewrite <- E in *. congruence.
    + constructor.
  - apply safe_put_con. apply safe_then; [apply _|]. intros _ s5 Hc5. apply safe_ret. simpl in Hc5.
    assert (con s3 = mkConn None (Some i) (Some o)) as E3 by congruence.
    rewrite Hc5, E3. simpl. split; [constructor|by intros _ []].
Qed.

(** The bit [ev] of [r] is only set when [P] holds. *)
Definition bit_implies (r ev : Z) (P : Prop) : Prop := Z.land r ev <> 0 -> P.

(** What the result of [SercdSelect] says about its arguments. *)
Definition events_ok (r : Z) (DeviceIn DeviceOut Modemstate SocketOut SocketIn SocketConnect
    : option Z) : Prop :=
  bit_implies r SERCD_EV_DEVICEIN (is_Some DeviceIn) /\
  bit_implies r SERCD_EV_DEVICEOUT (is_Some DeviceOut) /\
  bit_implies r SERCD_EV_SOCKETOUT (is_Some SocketOut) /\
  bit_implies r SERCD_EV_SOCKETIN (is_Some SocketIn) /\
  bit_implies r SERCD_EV_SOCKETCONNECT (is_Some SocketConnect) /\
  bit_implies r SERCD_EV_MODEMSTATE (is_Some Modemstate).

Lemma safe_select d1 d2 m o i c p s :
  safe (SercdSelect d1 d2 m o i c p)
    (fun r s' => con s' = con s /\ (r < 0 \/ events_ok r d1 d2 m o i c)) s.
Proof.
  unfold SercdSelect. cbv zeta. apply safe_then; [apply _|].
  intros [selret [rd wr]] s1 Hc1. destruct (Z.ltb_spec selret 0) as [Hneg|_].
  { apply safe_ret. split; [done|by left]. }
  assert (forall (b1 b2 b3 b4 b5 b6 : bool),
    (b1 = true -> is_Some d1) -> (b2 = true -> is_Some d2) -> (b3 = true -> is_Some o) ->
    (b4 = true -> is_Some i) -> (b5 = true -> is_Some c) -> (b6 = true -> is_Some m) ->
    let r := if b1 then Z.lor 0 SERCD_EV_DEVICEIN else 0 in
    let r := if b2 then Z.lor r SERCD_EV_DEVICEOUT else r in
    let r := if b3 then Z.lor r SERCD_EV_SOCKETOUT else r in
    let r := if b4 then Z.lor r SERCD_EV_SOCKETIN else r in
    let r := if b5 then Z.lor r SERCD_EV_SOCKETCONNECT else r in
    events_ok (if b6 then Z.lor r SERCD_EV_MODEMSTATE else r) d1 d2 m o i c) as Hbits.
  { intros [] [] [] [] [] [] ? ? ? ? ? ?; unfold events_ok, bit_implies; cbn;
      split_and!; intros ?; auto; congruence. }
  assert (forall (f : option Z) (l : list Z), fd_isset f l = true -> is_Some f) as Hset
    by by intros [].
  destruct m as [m|].
  - apply safe_then; [unfold modem_poll; apply _|]. intros due s2 Hc2. apply safe_ret.
    split; [congruence|right]. apply Hbits; try apply Hset. by eexists.
  - apply safe_ret. split; [done|right]. apply (Hbits _ _ _ _ _ false); try apply Hset. done.
Qed.

Lemma safe_on_event selret ev (part : SM bool) rest (P : Prop) s :
  bit_implies selret ev P -> conn_ok (con s) ->
  (P -> safe part (part_post s) s) ->
  (forall s', con s' = con s -> safe rest (fun _ s'' => conn_ok (con s'')) s') ->
  safe (on_event selret ev part rest) (fun _ s' => conn_ok (con s')) s.
Proof.
  intros Hbit Hok Hpart Hrest. unfold on_event. destruct (Z.eqb_spec (Z.land selret ev) 0) as [|Hne].
  { by apply Hrest. }
  apply safe_bind. eapply safe_mono; [by apply Hpart, Hbit|]. intros [] s' Hp.
  - by apply Hrest.
  - apply safe_ret. unfold part_post in Hp. rewrite Hp. constructor.
Qed.

Lemma safe_handle_events fuel L r s :
  conn_ok (con s) ->
  events_ok r (DeviceFd (con s)) (DeviceFd (con s)) (DeviceFd (con s)) (OutSocketFd (con s))
    (match DeviceFd (con s) with Some _ => InSocketFd (con s) | None => None end) L ->
  safe (handle_events fuel L r) (fun _ s' => conn_ok (con s')) s.
Proof.
  intros Hok (H1 & H2 & H3 & H4 & H5 & H6). unfold handle_events.
  eapply safe_on_event; [done|done|by apply safe_devicein|]. intros s1 Hc1. rewrite <- Hc1 in *.
  eapply safe_on_event; [done|done|by apply safe_deviceout|]. intros s2 Hc2. rewrite <- Hc2 in *.
  eapply safe_on_event; [done|done|by apply safe_socketout|]. intros s3 Hc3. rewrite <- Hc3 in *.
  eapply safe_on_event; [exact H4|done| |].
  { intros Hin. destruct (DeviceFd (con s3)) eqn:Hd; [|by destruct Hin].
    apply safe_socketin; [done|by rewrite Hd]. }
  intros s4 Hc4. rewrite <- Hc4 in *.
  apply safe_bind. eapply (safe_mono _ (fun _ s' => conn_ok (con s') /\
    (is_Some (DeviceFd (con s4)) -> con s' = con s4))).
  { unfold when. destruct (Z.eqb_spec (Z.land r SERCD_EV_SOCKETCONNECT) 0); [by apply safe_ret|].
    by apply safe_connect; [apply H5|]. }
  intros _ s5 [Hok5 Hd5]. apply safe_bind. eapply safe_mono; [by apply safe_open|].
  intros [] s6 [Hok6 Hd6]; [|by apply safe_ret].
  unfold when. destruct (Z.eqb_spec (Z.land r SERCD_EV_MODEMSTATE) 0) as [|Hne]; [by apply safe_ret|].
  apply H6 in Hne. assert (con s6 = con s4) as Hc6.
  { rewrite Hd6; [by apply Hd5|done|]. by rewrite Hd5. }
  destruct Hne as [d Hd]. unfold ev_modemstate. simpl negb. cbv iota.
  apply safe_gets. do 2 (apply safe_then; [apply _|]; intros ? ? ?).
  rewrite Hc6, Hd. apply safe_deref. eapply safe_mono; [apply safe_keeps, _|].
  intros ? s7 ->. congruence.
Qed.

(** One turn. *)
Lemma safe_loop_body fuel L p s :
  conn_ok (con s) -> safe (loop_body fuel L p) (fun _ s' => conn_ok (con s')) s.
Proof.
  intros Hok. unfold loop_body. apply safe_gets.
  destruct (wanted s) as [[[[d1 d2] m] o] i] eqn:Ew.
  assert (forall (A : Type) (f : SM A), KeepsCon f -> safe f (fun _ s' => conn_ok (con s')) s) as Hk.
  { intros A f Hf. eapply safe_mono; [by apply safe_keeps|]. by intros ? ? ->. }
  assert ((is_Some d1 -> is_Some (DeviceFd (con s))) /\ (is_Some d2 -> is_Some (DeviceFd (con s))) /\
    (is_Some m -> is_Some (DeviceFd (con s))) /\ (is_Some o -> is_Some (OutSocketFd (con s))) /\
    (is_Some i -> is_Some (match DeviceFd (con s) with Some _ => InSocketFd (con s) | None => None end)))
    as (W1 & W2 & W3 & W4 & W5).
  { unfold wanted in Ew. injection Ew as <- <- <- <- <-.
    split_and!; try (case_match; [done|by intros []]).
    destruct (DeviceFd (con s)); simpl; [|by intros []].
    destruct (_ && _); [done|by intros []]. }
  assert (safe (selret ← SercdSelect d1 d2 m o i L p;
      if selret <? 0 then
        e ← gets (fun s => errno (proc s));
        LogLine LOG_ERR (lit "select error: " ++ sdec e) ;;
        exit_ fuel Error
      else when (0 <? selret) (handle_events fuel L selret))
    (fun _ s' => conn_ok (con s')) s) as Hmain.
  { apply safe_bind. eapply safe_mono; [apply safe_select|]. intros r s1 [Hc1 Hr]. cbv beta.
    destruct (Z.ltb_spec r 0) as [|Hr0].
    { eapply safe_mono; [apply safe_keeps, _|]. intros ? ? ->. congruence. }
    destruct Hr as [|(E1 & E2 & E3 & E4 & E5 & E6)]; [lia|].
    unfold when. destruct (0 <? r); [|apply safe_ret; congruence].
    apply safe_handle_events; [congruence|]. rewrite Hc1. unfold events_ok, bit_implies in *.
    split_and!; auto. }
  destruct d1, d2, o, i, L; try exact Hmain. apply Hk. apply _.
Qed.

Lemma safe_main_loop n fuel L p s :
  conn_ok (con s) -> safe (main_loop n fuel L p) (fun _ _ => True) s.
Proof.
  revert s. induction n as [|n IH]; intros s Hok; [done|]. simpl. apply safe_bind.
  eapply safe_mono; [by apply safe_loop_body|]. auto.
Qed.

#[global] Instance keeps_con_fail_start {A} fuel m : KeepsCon (fail_start fuel m : SM A).
Proof. unfold fail_start, stderr_. apply _. Qed.
#[global] Instance keeps_con_main_options fuel o m : KeepsCon (main_options fuel o m).
Proof.
  revert m. induction o as [|[opt arg] o IH]; intros m; simpl; [apply _|].
  unfold main_option. apply _.
Qed.
#[global] Instance keeps_con_main_arguments fuel args : KeepsCon (main_arguments fuel args).
Proof. unfold main_arguments, Usage, stderr_. apply _. Qed.
#[global] Instance keeps_con_main_listen fuel m : KeepsCon (main_listen fuel m).
Proof. unfold main_listen, stderr_. apply _. Qed.

Lemma safe_main n fuel options args s :
  con s = mkConn None None None -> safe (main n fuel options args) (fun _ _ => True) s.
Proof.
  intros Hc. unfold main. apply safe_then; [apply _|]. intros m s1 Hc1.
  apply safe_then; [apply _|]. intros p s2 Hc2.
  apply safe_then; [unfold PlatformInit; apply _|]. intros _ s3 Hc3.
  apply safe_then; [apply _|]. intros _ s4 Hc4. apply safe_then; [apply _|]. intros lvl s5 Hc5.
  apply safe_then; [apply _|]. intros _ s6 Hc6. apply safe_then; [apply _|]. intros _ s7 Hc7.
  assert (con s7 = mkConn None None None) as Hc7' by congruence. clear - Hc7'.
  apply safe_bind. destruct (inetd_mode m).
  - apply safe_put_con. apply safe_then; [apply _|]. intros _ s8 Hc8. apply safe_ret.
    apply safe_main_loop. rewrite Hc8. simpl. rewrite Hc7'. constructor.
  - apply safe_then; [apply _|]. intros l s8 Hc8. apply safe_ret.
    apply safe_main_loop. rewrite Hc8, Hc7'. constructor.
Qed.
End Turn.

(** C3: the invariant of the main loop.  Whatever the kernel answers, one turn
    of the loop that starts in one of the three states of the comment (no
    client; a client and no port; a client and the port) ends in one of them,
    and follows no null pointer on the way. *)
Theorem loop_body_connections {W} `{Kernel W} fuel L p (s : St W) :
  conn_ok (con s) ->
  wp (loop_body fuel L p) (fun _ s' => conn_ok (con s')) (fun e _ => e <> NullPointer) s.
Proof. apply safe_loop_body. Qed.

(** A turn with client and port connected. *)
Lemma loop_body_connections_witness :
  wp (loop_body 2 None 100) (fun _ s' => conn_ok (con s')) (fun e _ => e <> NullPointer)
    (sim_session (sim_idle sim_blank)).
Proof. apply loop_body_connections. constructor. Defined.

(** C2: no run of sercd follows a null pointer, for any command line, any
    kernel and any number of turns of its loop. *)
Theorem main_follows_no_null_pointer {W} `{Kernel W} n fuel options args ToNet0 ToDev0 rb (w : W) :
  stopped (main n fuel options args (initial_state ToNet0 ToDev0 rb w)) <> Some NullPointer.
Proof.
  pose proof (safe_main n fuel options args (initial_state ToNet0 ToDev0 rb w) eq_refl) as Hs.
  unfold safe, wp in Hs. destruct (main _ _ _ _ _); simpl; congruence.
Qed.
