(* ===== verification/MainSafe.v ===== *)
(** * Safety of the main loop

    With a kernel whose ready descriptors are ready, one pass over the events
    fails no assertion and leaves no array: the bounds the loop puts on what it
    reads are the room the Telnet engine needs.  The last section shows what
    happens without each of the assumptions. *)

From S2P Require Import Prelude RingBuffer CStdlib Inet Termios Kernel SimKernel LibcTty.
From S2P Require Import SercdState UnixPort UnixLock Telnet TelnetSafe TelnetSpec SercdMain.
From S2P Require Import MainInv.

(** A descriptor that was reported ready does not answer [EWOULDBLOCK]. *)
Class ReadyKernel (W : Type) `{Kernel W} : Prop := {
  ready_read w fd n r e bs w' : k_read fd n w = (r, e, bs, w') -> r < 0 -> e <> EWOULDBLOCK;
  ready_write w fd bs r e w' : k_write fd bs w = (r, e, w') -> r < 0 -> e <> EWOULDBLOCK;
}.

Section Outside.
Context {W : Type} `{Kernel W}.
Abbreviation SM A := (M (St W) A) (only parsing).

(** [m] works on the process and the platform variables only, and stops only
    when the lock file is removed and created again too often. *)
Class Outside {A} (m : SM A) : Prop :=
  outside s : match m s with
              | Ret _ s' => tel s' = tel s /\ con s' = con s /\ bufs s' = bufs s /\ opts s' = opts s
              | Stop e s' => e = OutOfFuel
              end.

#[global] Instance outside_sysonly {A} (m : SM A) : SysOnly m -> Outside m | 10.
Proof. intros Hm s. destruct (Hm s) as (a & p & ->). done. Qed.
#[global] Instance outside_mret {A} (a : A) : Outside (mret a).
Proof. done. Qed.
#[global] Instance outside_gets {A} (f : St W -> A) : Outside (gets f).
Proof. done. Qed.
#[global] Instance outside_fuel {A} : Outside (stop_with OutOfFuel : SM A).
Proof. done. Qed.
#[global] Instance outside_put_plat f : Outside (put_plat f).
Proof. done. Qed.
#[global] Instance outside_bind {A B} (m : SM A) (f : A -> SM B) :
  Outside m -> (forall a, Outside (f a)) -> Outside (m ≫= f).
Proof.
  intros Hm Hf s. unfold mbind, M_bind. pose proof (Hm s) as Hs.
  destruct (m s) as [a s1|]; [|done]. pose proof (Hf a s1) as Hs1.
  destruct (f a s1); [intuition congruence|done].
Qed.
#[global] Instance outside_when b m : Outside m -> Outside (when b m).
Proof. by destruct b. Qed.
End Outside.

#[global] Hint Extern 1 (Outside _) =>
  lazymatch goal with
  | |- Outside (match ?x with _ => _ end) => destruct x
  end : typeclass_instances.

#[local] Typeclasses Opaque LogMsg LogLine HDBLockFile_loop HDBLockFile HDBUnlockFile OpenPort
  ClosePort DropConnection stop_with gets when sys put_plat UnixLogPortSettings.

Section OutsideOps.
Context {W : Type} `{Kernel W}.

#[global] Instance outside_LogLine l m : Outside (W:=W) (LogLine l m).
Proof. unfold LogLine. apply _. Qed.
#[global] Instance outside_lock_loop fuel p me : Outside (W:=W) (HDBLockFile_loop fuel p me).
Proof. induction fuel; cbn [HDBLockFile_loop]; [apply _|]. unfold HDBLockFile_examine. apply _. Qed.
#[global] Instance outside_lock fuel p me : Outside (W:=W) (HDBLockFile fuel p me).
Proof. unfold HDBLockFile. apply _. Qed.
#[global] Instance outside_unlock fuel p me : Outside (W:=W) (HDBUnlockFile fuel p me).
Proof. unfold HDBUnlockFile. apply _. Qed.
#[global] Instance outside_OpenPort fuel dev p : Outside (W:=W) (OpenPort fuel dev p).
Proof. unfold OpenPort, getpid. apply _. Qed.
#[global] Instance outside_ClosePort fuel fd p : Outside (W:=W) (ClosePort fuel fd p).
Proof. unfold ClosePort, getpid. apply _. Qed.
#[global] Instance outside_DropConnection fuel d i o p : Outside (W:=W) (DropConnection fuel d i o p).
Proof. unfold DropConnection. apply _. Qed.
End OutsideOps.

(** ** Sending leaves the parser alone *)

Section KeepsParser.
Context {W : Type} `{Kernel W}.
Abbreviation SM A := (M (St W) A) (only parsing).

(** The parser, the flow of the input and the masks: the Telnet variables that
    no function that sends writes. *)
Definition parser_of (T : Telnet) : IACState * Z * bytes * (bool * Z * Z) :=
  (IACEscape T, IACPos T, IACCommand T, (InputFlow T, LineStateMask T, ModemStateMask T)).

Class KeepsParser {A} (m : SM A) : Prop :=
  keeps_parser s : match m s with
                   | Ret _ s' => parser_of (tel s') = parser_of (tel s)
                   | Stop _ _ => True
                   end.

#[global] Instance keeps_parser_sysonly {A} (m : SM A) : SysOnly m -> KeepsParser m | 10.
Proof. intros Hm s. destruct (Hm s) as (a & p & ->). done. Qed.
#[global] Instance keeps_parser_mret {A} (a : A) : KeepsParser (mret a).
Proof. done. Qed.
#[global] Instance keeps_parser_bind {A B} (m : SM A) (f : A -> SM B) :
  KeepsParser m -> (forall a, KeepsParser (f a)) -> KeepsParser (m ≫= f).
Proof.
  intros Hm Hf s. unfold mbind, M_bind. pose proof (Hm s) as Hs.
  destruct (m s) as [a s1|]; [|done]. pose proof (Hf a s1) as Hs1.
  destruct (f a s1); [congruence|done].
Qed.
#[global] Instance keeps_parser_Add B C : KeepsParser (Add B C).
Proof.
  intros s. unfold Add, on_buf. destruct (AddToBuffer _ _); [|done]. by destruct B.
Qed.
#[global] Instance keeps_parser_tn_upd o f : KeepsParser (tn_upd o f).
Proof.
  intros s. unfold tn_upd, tn_get, mbind, M_bind.
  destruct (decide _); [destruct (_ !! _)|]; done.
Qed.
#[global] Instance keeps_parser_initial B : KeepsParser (SendTelnetInitialOptions B).
Proof. unfold SendTelnetInitialOptions, SendTelnetOption. apply _. Qed.
#[global] Instance keeps_parser_tn_get o : KeepsParser (tn_get o).
Proof. intros s. unfold tn_get. destruct (decide _); [destruct (_ !! _)|]; done. Qed.
#[global] Instance keeps_parser_EscWriteChar B C : KeepsParser (EscWriteChar B C).
Proof.
  unfold EscWriteChar. apply keeps_parser_bind; [done|intros Last].
  apply keeps_parser_bind; [apply _|intros t]. apply keeps_parser_bind.
  - repeat case_match; apply _.
  - intros []. apply keeps_parser_bind; [apply _|done].
Qed.
#[global] Instance keeps_parser_SendCPC B c p : KeepsParser (SendCPCByteCommand B c p).
Proof. unfold SendCPCByteCommand. apply _. Qed.

Lemma parser_ok_same (s s' : St W) :
  parser_of (tel s') = parser_of (tel s) -> parser_ok s -> parser_ok s'.
Proof. unfold parser_ok, parser_of. by intros [= -> -> -> _ _ _]. Qed.
End KeepsParser.

Section Pass.
Context {W : Type} `{HK : Kernel W} `{!IoKernel W} `{!ReadyKernel W}.
Abbreviation SM A := (M (St W) A) (only parsing).
Implicit Types s : St W.

(** What every part of the loop body needs and re-establishes. *)
Record sound (s : St W) : Prop := mkSound {
  sound_ok : st_ok s;
  sound_parser : parser_ok s;
  sound_readbuf : length (readbuf (bufs s)) = 512%nat;
}.

(** [m] fails no assertion, and leaves no array except as [overread] says. *)
Definition fine {A} (m : SM A) (Q : A -> St W -> Prop) (s : St W) : Prop :=
  wp m Q (fun e s' => e = OutOfFuel \/ overread e s') s.

Lemma fine_bind {A B} (m : SM A) (f : A -> SM B) Q s :
  fine m (fun a s' => fine (f a) Q s') s -> fine (m ≫= f) Q s.
Proof. apply wp_bind. Qed.
Lemma fine_mono {A} (m : SM A) Q Q' s :
  fine m Q s -> (forall a s', Q a s' -> Q' a s') -> fine m Q' s.
Proof. intros Hm HQ. by eapply wp_mono. Qed.
Lemma fine_ret {A} (a : A) (Q : A -> St W -> Prop) s : Q a s -> fine (mret a) Q s.
Proof. done. Qed.
Lemma fine_gets {A B} (g : St W -> A) (f : A -> SM B) Q s :
  fine (f (g s)) Q s -> fine (gets g ≫= f) Q s.
Proof. done. Qed.
Lemma fine_deref {B} fd (f : Z -> SM B) Q s : fine (f fd) Q s -> fine (deref (Some fd) ≫= f) Q s.
Proof. done. Qed.

(** [s'] differs from [s] in the connections and the process only. *)
Definition same_session (s s' : St W) : Prop := tel s' = tel s /\ bufs s' = bufs s.

Lemma sound_same s s' : same_session s s' -> sound s -> sound s'.
Proof.
  intros [Et Eb] [[] Hp Hr]. split; [split|..]; unfold parser_ok; rewrite ?Et, ?Eb; done.
Qed.

Lemma fine_outside {A} (m : SM A) s : Outside m -> fine m (fun _ s' => same_session s s' /\ con s' = con s) s.
Proof.
  intros Hm. pose proof (Hm s) as Hs. unfold fine, wp. destruct (m s); [|by left].
  by destruct Hs as (? & ? & ? & ?).
Qed.

Lemma fine_drop fuel d s : fine (drop_client fuel d) (fun _ s' => same_session s s') s.
Proof.
  unfold drop_client. apply fine_gets. apply fine_gets. apply fine_bind.
  eapply fine_mono; [apply fine_outside, _|]. by intros _ s1 [[? ?] _].
Qed.

(** The result of a transfer. *)
Lemma fine_transfer_end fuel d n err eof (m : SM unit) (Q : bool -> St W -> Prop) s :
  -1 <= n -> (n < 0 -> errno (proc s) <> EWOULDBLOCK) ->
  (forall s', same_session s s' -> Q false s') -> (0 < n -> fine m (fun _ => Q true) s) ->
  fine (bad ← IOResultError n err eof;
        if (bad : bool) then drop_client fuel d ;; mret false else m ;; mret true) Q s.
Proof.
  intros Hn He Hdrop Hm. unfold IOResultError.
  assert (forall msg, fine (bad ← (LogMsg LOG_NOTICE msg ;; mret true);
     if (bad : bool) then drop_client fuel d ;; mret false else m ;; mret true) Q s) as Hbad.
  { intros msg. apply fine_bind, fine_bind. eapply fine_mono; [apply fine_outside, _|].
    intros _ s1 [[Et Eb] _]. apply fine_ret. apply fine_bind. eapply fine_mono; [apply fine_drop|].
    intros _ s2 [Et' Eb']. apply fine_ret, Hdrop. unfold same_session. split; congruence. }
  destruct (Z.eqb_spec n (-1)) as [->|].
  { unfold fine, wp. rewrite bind_bind, bind_gets. rewrite (proj2 (Z.eqb_neq _ _)) by (apply He; lia). apply Hbad. }
  destruct (Z.eqb_spec n 0) as [->|]; [apply Hbad|].
  apply fine_bind, fine_ret, fine_bind. eapply fine_mono; [apply Hm; lia|]. auto.
Qed.

(** The state after a read differs in [readbuf] and the process only. *)
Definition same_queues (s s' : St W) : Prop :=
  tel s' = tel s /\ con s' = con s /\ ToNetBuf (bufs s') = ToNetBuf (bufs s) /\
  ToDevBuf (bufs s') = ToDevBuf (bufs s).

Lemma fine_read fd n s :
  0 <= n <= 512 -> length (readbuf (bufs s)) = 512%nat ->
  fine (read_readbuf fd n)
    (fun r s' => same_queues s s' /\ length (readbuf (bufs s')) = 512%nat /\ -1 <= r <= n /\
       (r < 0 -> errno (proc s') <> EWOULDBLOCK) /\
       Forall is_byte (take (Z.to_nat r) (readbuf (bufs s')))) s.
Proof.
  intros Hn Hlen. unfold read_readbuf, fine, wp, sys, syscall_out, mbind, M_bind.
  destruct (k_read fd n (kern (proc s))) as [[[r e] bs] w'] eqn:E.
  destruct (io_read _ _ _ _ _ _ _ (proj1 Hn) E) as (Hr & Hlb & Hneg). simpl.
  split_and!; try done; try lia; simpl.
  - rewrite length_app, length_map, length_drop, Hlen.
    destruct (Z.ltb_spec r 0); [by rewrite (Hneg H)|]. specialize (Hlb H). lia.
  - intros Hr0. apply Z.ltb_lt in Hr0 as Hb. rewrite Hb. by eapply ready_read.
  - destruct (Z.ltb_spec r 0) as [Hr0|Hr0]; [by destruct r|].
    specialize (Hlb Hr0). subst r.
    rewrite Nat2Z.id, <- (length_map u8 bs), take_app_length.
    apply Forall_map, Forall_true. apply u8_byte.
Qed.

Lemma fine_readbuf_loop n body (Q : St W -> Prop) s :
  length (readbuf (bufs s)) = 512%nat -> 0 < n <= 512 ->
  fine (body (take (Z.to_nat n) (readbuf (bufs s)))) (fun _ => Q) s ->
  fine (readbuf_loop n body) (fun _ => Q) s.
Proof.
  intros Hlen Hn Hb. unfold readbuf_loop. apply fine_gets. cbv zeta.
  unfold u32. rewrite Z.mod_small by lia. by rewrite (proj2 (Z.leb_le _ _)) by lia.
Qed.

Lemma sound_queues s s' :
  same_queues s s' -> length (readbuf (bufs s')) = 512%nat -> sound s -> sound s'.
Proof.
  intros (Et & _ & En & Ed) Hl [[] Hp _]. split; [split|..]; unfold parser_ok;
    rewrite ?Et, ?En, ?Ed; done.
Qed.

Lemma net_room s : st_ok s ->
  BufferRoomLeft (ToNetBuf (bufs s)) = 2047 - Z.of_nat (length (net s)) /\
  0 <= 2047 - Z.of_nat (length (net s)).
Proof.
  intros Hok. pose proof (BufferLength_bound _ (ok_net s Hok)). destruct Hok.
  rewrite BufferRoomLeft_eq by done. split; [done|]. unfold net. rewrite length_contents by done. lia.
Qed.
Lemma dev_room s : st_ok s ->
  BufferRoomLeft (ToDevBuf (bufs s)) = 2047 - Z.of_nat (length (dev s)) /\
  0 <= 2047 - Z.of_nat (length (dev s)).
Proof.
  intros Hok. pose proof (BufferLength_bound _ (ok_dev s Hok)). destruct Hok.
  rewrite BufferRoomLeft_eq by done. split; [done|]. unfold dev. rewrite length_contents by done. lia.
Qed.

Lemma fine_devicein fuel s :
  sound s -> is_Some (DeviceFd (con s)) -> fine (ev_devicein fuel) (fun _ => sound) s.
Proof.
  intros Hs [fd Hfd]. unfold ev_devicein. do 2 apply fine_gets. cbv beta zeta. rewrite Hfd. apply fine_deref.
  destruct (net_room s) as [-> Hroom]; [by destruct Hs|]. unfold EscWriteChar_bytes.
  destruct (div_bounds (2047 - Z.of_nat (length (net s))) 2) as [? ?]; [done|done|].
  apply fine_bind. eapply fine_mono; [apply fine_read; [lia|by destruct Hs]|].
  intros r s1 (Hq & Hl & Hr & He & Hb). pose proof (sound_queues _ _ Hq Hl Hs) as Hs1.
  apply fine_transfer_end; [lia|done|by intros s2 Hs2; eapply sound_same|].
  intros Hr0. apply fine_readbuf_loop; [done|lia|].
  destruct Hq as (_ & _ & En & Ed). destruct (dev_room s1) as [_ ?]; [by destruct Hs1|].
  assert (net s1 = net s) as En1 by (unfold net; by rewrite En).
  destruct (does_EscWriteBytes s1 (take (Z.to_nat r) (readbuf (bufs s1)))) as (s2 & E & Ha).
  - by destruct Hs1.
  - rewrite length_take. split; [rewrite En1|]; lia.
  - eapply wp_Ret; [exact E|]. destruct Ha as (Hok & (_ & _ & _ & Hrb) & Et & _).
    split; [done| |congruence]. eapply parser_ok_same; [|apply (sound_parser s1); done].
    by rewrite Et.
Qed.

Lemma fine_EscRedirectBytes fd l s :
  sound s -> Forall is_byte l ->
  Z.of_nat (length (net s)) + EscRedirectChar_bytes_SockB * Z.of_nat (length l) <= 2047 ->
  Z.of_nat (length (dev s)) + EscRedirectChar_bytes_DevB * Z.of_nat (length l) <= 2047 ->
  fine (EscRedirectBytes ToNet ToDev fd l) (fun _ => sound) s.
Proof.
  intros Hs Hl. revert s Hs. induction Hl as [|c l Hc Hl IH]; intros s Hs Hn Hd; [done|].
  cbn [EscRedirectBytes length] in *. change EscRedirectChar_bytes_SockB with 516 in *.
  change EscRedirectChar_bytes_DevB with 1 in *.
  apply fine_bind. eapply wp_mono; [apply wp_EscRedirectChar|..].
  - by destruct Hs.
  - by destruct Hs.
  - done.
  - change EscRedirectChar_bytes_SockB with 516. lia.
  - change EscRedirectChar_bytes_DevB with 1. lia.
  - intros _ s1 (Hok1 & Hp1 & (_ & _ & _ & Hrb) & Hgn%grows_length & Hgd%grows_length).
    change EscRedirectChar_bytes_SockB with 516 in *. change EscRedirectChar_bytes_DevB with 1 in *.
    apply IH; [|lia..]. split; [done|done|]. destruct Hs. congruence.
  - by right.
Qed.

Lemma fine_socketin fuel s :
  sound s -> is_Some (DeviceFd (con s)) -> is_Some (InSocketFd (con s)) ->
  fine (ev_socketin fuel) (fun _ => sound) s.
Proof.
  intros Hs [dfd Hdfd] [fd Hfd]. unfold ev_socketin. do 3 apply fine_gets. rewrite Hdfd, Hfd.
  cbv zeta. apply fine_deref.
  destruct (net_room s) as [-> Hn]; [by destruct Hs|].
  destruct (dev_room s) as [-> Hd]; [by destruct Hs|].
  change EscRedirectChar_bytes_SockB with 516. change EscRedirectChar_bytes_DevB with 1.
  destruct (div_bounds (2047 - Z.of_nat (length (net s))) 516) as [? ?]; [done|done|].
  destruct (div_bounds (2047 - Z.of_nat (length (dev s))) 1) as [? ?]; [done|done|].
  apply fine_bind. eapply fine_mono; [apply fine_read; [lia|by destruct Hs]|].
  intros r s1 (Hq & Hl & Hr & He & Hb). pose proof (sound_queues _ _ Hq Hl Hs) as Hs1.
  apply fine_transfer_end; [lia|done|by intros s2 Hs2; eapply sound_same|].
  intros Hr0. apply (fine_readbuf_loop _ (fun l => dfd ← deref (Some dfd); EscRedirectBytes ToNet ToDev dfd l));
    [done|lia|].
  apply fine_deref. destruct Hq as (_ & _ & En & Ed).
  apply fine_EscRedirectBytes; [done|done|..]; rewrite length_take;
    unfold net, dev in *; rewrite ?En, ?Ed; change EscRedirectChar_bytes_SockB with 516;
    change EscRedirectChar_bytes_DevB with 1; lia.
Qed.

(** Writing out of a queue removes what was written. *)
Lemma fine_pop B n s :
  sound s -> 0 <= n <= BufferLength (get_buf B s) ->
  fine (on_buf B (BufferPopBytes n))
    (fun _ s' => sound s' /\ (length (net s') <= length (net s))%nat) s.
Proof.
  intros Hs Hn. assert (wf_buffer (get_buf B s)) as Hwf by by destruct Hs as [[] _ _], B.
  destruct (BufferPopBytes_ok _ n Hwf Hn) as (B' & E & Hwf' & Hc).
  unfold fine, wp, on_buf. rewrite E. destruct Hs as [[] Hp Hr].
  destruct B; (split; [split; [by split|done|done]|]); unfold net; simpl in *; [|done].
  rewrite Hc, length_drop. lia.
Qed.

Lemma fine_write B fd bs s :
  fine (if B is ToDev then WriteToDev fd bs else WriteToNet fd bs)
    (fun r s' => same_session s s' /\ con s' = con s /\ -1 <= r <= Z.of_nat (length bs) /\
       (r < 0 -> errno (proc s') <> EWOULDBLOCK)) s.
Proof.
  assert (fine (sys (syscall (k_write fd bs)))
    (fun r s' => same_session s s' /\ con s' = con s /\ -1 <= r <= Z.of_nat (length bs) /\
       (r < 0 -> errno (proc s') <> EWOULDBLOCK)) s); [|by destruct B].
  unfold fine, wp, sys, syscall. destruct (k_write fd bs (kern (proc s))) as [[r e] w'] eqn:E.
  pose proof (io_write _ _ _ _ _ _ E) as Hr. split_and!; try done; try lia. simpl.
  intros Hr0. rewrite (proj2 (Z.ltb_lt r 0) Hr0). by eapply ready_write.
Qed.

Lemma fine_output fuel B fd err eof s :
  sound s -> is_Some fd ->
  fine (ev_output fuel B fd err eof)
    (fun go s' => sound s' /\ (length (net s') <= length (net s))%nat) s.
Proof.
  intros Hs [n ->]. unfold ev_output. do 2 apply fine_gets. cbv beta.
  assert (wf_buffer (get_buf B s)) as Hwf by by destruct Hs as [[] _ _], B.
  destruct (GetBufferString_bounds _ Hwf) as (H1 & H2 & H3 & H4).
  destruct (GetBufferString (get_buf B s)) as [p k] eqn:Ek. apply fine_deref. apply fine_bind.
  eapply fine_mono; [apply fine_write|]. intros r s1 ([Et Eb] & _ & Hr & He).
  pose proof (sound_same s s1 (conj Et Eb) Hs) as Hs1. cbn [fst snd] in *.
  assert (net s1 = net s) as En by (unfold net; by rewrite Eb).
  apply fine_transfer_end; [lia|done|..].
  - intros s2 Hs2. split; [by eapply sound_same|]. destruct Hs2 as [_ Eb2].
    unfold net in *. by rewrite Eb2, En.
  - intros Hr0. assert (r <= k).
    { unfold buffer_slice in Hr. rewrite length_take in Hr. lia. }
    assert (get_buf B s1 = get_buf B s) as EB by (destruct B; simpl; by rewrite Eb).
    unfold u32. rewrite Z.mod_small.
    + rewrite <- En. apply fine_pop; [done|]. rewrite EB. lia.
    + unfold BufferSize in *. lia.
Qed.

(** A new session. *)
Lemma wp_bounded {A} n (m : SM A) s :
  Bounded n 0 m -> KeepsParser m -> sound s -> Z.of_nat (length (net s)) + n <= 2047 ->
  wp m (fun _ => sound) (fun _ _ => False) s.
Proof.
  intros Hm Hp [Hok Hpar Hr] Hn. pose proof (dev_room s Hok) as [_ ?].
  pose proof (Hm s Hok Hn ltac:(lia)) as Hwp. specialize (Hp s). unfold wp in *.
  destruct (m s) as [a s'|]; [|done]. destruct Hwp as (Hok' & (_ & _ & _ & Erb) & _ & _).
  split; [done|by eapply parser_ok_same|congruence].
Qed.

Lemma fine_total {A} (m : SM A) Q s : wp m Q (fun _ _ => False) s -> fine m Q s.
Proof. intros Hm. by eapply wp_mono. Qed.

Lemma fine_outside_sound {A} (m : SM A) s : Outside m -> sound s -> fine m (fun _ => sound) s.
Proof.
  intros Hm Hs. eapply fine_mono; [by apply fine_outside|]. intros _ s' [? _]. by eapply sound_same.
Qed.

Lemma wp_start_session i o s :
  sound s -> wp (start_session i o) (fun _ => sound) (fun _ _ => False) s.
Proof.
  intros Hs. unfold start_session. apply wp_bind.
  assert (SysOnly (W:=W) (SetSocketOptions i o)) as Hsys by (unfold SetSocketOptions; apply _).
  destruct (Hsys s) as ([] & p & E1). eapply wp_Ret; [exact E1|].
  destruct Hs as [[Hwf] Hp1 Hr1]. destruct (InitBuffer_ok (ToNetBuf (bufs s))) as (B' & E & Hwf' & Hc).
  { by destruct Hwf. }
  apply wp_bind. unfold wp at 1, on_buf. simpl get_buf. rewrite E.
  apply wp_bind. unfold wp at 1, InitTelnetStateMachine, put_tel, modify.
  eapply wp_bounded; [apply bounded_SendTelnetInitialOptions|apply _|by split; [split|..]|].
  unfold net. simpl. rewrite Hc. by vm_compute.
Qed.

Lemma fine_connect L s :
  sound s -> is_Some L -> conn_ok (con s) -> fine (ev_connect L)
    (fun _ s' => sound s' /\ (is_Some (DeviceFd (con s)) -> net s' = net s)) s.
Proof.
  intros Hs [l ->] Hok. unfold ev_connect. apply fine_bind.
  eapply fine_mono; [apply fine_outside, _|]. intros ? s1 [[Et1 Eb1] Hc1].
  apply fine_deref, fine_bind. eapply fine_mono; [apply fine_outside, _|].
  intros csock s2 [[Et2 Eb2] Hc2]. apply fine_gets. rewrite Hc2, Hc1.
  assert (same_session s s2) as Hss by (split; congruence).
  assert (forall m : SM unit, Outside m -> fine m
    (fun _ s' => sound s' /\ (is_Some (DeviceFd (con s)) -> net s' = net s)) s2) as Hkeep.
  { intros m Hm. eapply fine_mono; [by apply fine_outside|]. intros ? s3 [[Et3 Eb3] _].
    split; [eapply sound_same; [|done]; split; congruence|].
    intros _. unfold net. congruence. }
  destruct (csock <? 0); [apply Hkeep, _|].
  assert (DeviceFd (con s) = None -> fine (put_con (fun c =>
      mkConn (DeviceFd c) (Some csock) (Some csock)) ;; start_session csock csock)
    (fun _ s' => sound s' /\ (is_Some (DeviceFd (con s)) -> net s' = net s)) s2) as Hnew.
  { intros Hd. apply fine_bind. unfold fine at 1, wp, put_con, modify.
    eapply fine_mono; [apply fine_total, wp_start_session|].
    - eapply sound_same; [|done]. split; simpl; congruence.
    - intros ? s3 Hs3. split; [done|]. rewrite Hd. by intros []. }
  inversion Hok as [E|i o E|d i o E]; rewrite <- E in *; try by apply Hnew.
  - apply Hkeep. apply _.
  - apply Hkeep. apply _.
Qed.

Lemma fine_open fuel s :
  sound s -> fine (open_device fuel)
    (fun go s' => sound s' /\ (is_Some (DeviceFd (con s)) -> net s' = net s)) s.
Proof.
  intros Hs. unfold open_device. apply fine_gets.
  destruct (InSocketFd (con s)), (OutSocketFd (con s)), (DeviceFd (con s)); try by apply fine_ret.
  do 2 apply fine_gets. apply fine_bind. eapply fine_mono; [by apply fine_outside_sound; [apply _|]|].
  intros [r devicefd] s1 Hs1. destruct (r =? Error).
  - apply fine_bind. eapply fine_mono; [by apply fine_outside_sound; [apply _|]|].
    intros ? s2 Hs2. apply fine_bind. eapply fine_mono; [apply fine_drop|].
    intros ? s3 Hs3. apply fine_ret. cbv beta in *. split; [by eapply sound_same|by intros []].
  - apply fine_bind. unfold fine at 1, wp, put_con, modify.
    destruct Hs1 as [[] Hp1 Hr1].
    destruct (InitBuffer_ok (ToDevBuf (bufs s1))) as (B' & E & Hwf' & Hc); [by destruct ok_dev|].
    apply fine_bind. unfold fine at 1, wp, on_buf. simpl get_buf. rewrite E. apply fine_ret.
    split; [|by intros []]. by split; [split|..].
Qed.

Lemma fine_modemstate s :
  sound s -> is_Some (DeviceFd (con s)) ->
  Z.of_nat (length (net s)) + SendCPCByteCommand_bytes <= 2047 ->
  fine ev_modemstate (fun _ => sound) s.
Proof.
  intros Hs [fd Hfd] Hroom. unfold ev_modemstate. do 3 apply fine_gets. rewrite Hfd.
  apply fine_deref, fine_bind. eapply fine_mono; [apply fine_outside, _|].
  intros st s1 [[Et Eb] _]. assert (sound s1) as Hs1 by by eapply sound_same.
  unfold when. destruct (negb _); [|by apply fine_ret].
  apply fine_bind. unfold fine at 1, wp, put_tel, modify. apply fine_bind.
  eapply fine_mono; [eapply fine_total, wp_bounded; [apply _|apply _| |]|].
  - destruct Hs1 as [[] ? ?]. by split; [split|..].
  - unfold net in *. simpl. by rewrite Eb.
  - intros ? s2 Hs2. apply fine_outside_sound; [apply _|done].
Qed.

(** ** One pass over the events *)

(** The modem state is only sent when nothing else was queued for the client
    since the room for it was checked. *)
Definition modem_alone (r : Z) (s : St W) : Prop :=
  Z.land r SERCD_EV_MODEMSTATE <> 0 ->
  Z.land r SERCD_EV_DEVICEIN = 0 /\ Z.land r SERCD_EV_SOCKETIN = 0 /\
  Z.of_nat (length (net s)) + SendCPCByteCommand_bytes <= 2047.

Lemma fine_safe {A} (m : SM A) Q Q' s :
  fine m Q s -> safe m Q' s -> fine m (fun a s' => Q a s' /\ Q' a s') s.
Proof. unfold fine, safe, wp. by destruct (m s). Qed.

Lemma fine_on_event r ev (part : SM bool) rest (P : Prop) (s0 s : St W) :
  bit_implies r ev P -> sound s -> con s = con s0 -> modem_alone r s ->
  (P -> safe part (part_post s) s) ->
  (P -> Z.land r ev <> 0 -> fine part (fun _ s' => sound s' /\ modem_alone r s') s) ->
  (forall s', sound s' -> con s' = con s0 -> modem_alone r s' -> fine rest (fun _ => sound) s') ->
  fine (on_event r ev part rest) (fun _ => sound) s.
Proof.
  intros Hbit Hs Hc Hm Hsafe Hpart Hrest. unfold on_event.
  destruct (Z.eqb_spec (Z.land r ev) 0) as [|Hne]; [by apply Hrest|]. simpl negb. cbv iota.
  apply fine_bind. eapply fine_mono; [apply fine_safe; [apply Hpart|apply Hsafe]; auto|].
  intros [] s' [[Hs' Hm'] Hc']; [|by apply fine_ret]. apply Hrest; [done| |done].
  unfold part_post in Hc'. congruence.
Qed.

Lemma modem_alone_le r s s' :
  (length (net s') <= length (net s))%nat -> modem_alone r s -> modem_alone r s'.
Proof. unfold modem_alone. intros Hle Hm Hr. destruct (Hm Hr) as (? & ? & ?). split_and!; [done..|lia]. Qed.

(** The connection, the device and the modem state. *)
Lemma fine_tail fuel L r s :
  sound s -> conn_ok (con s) -> modem_alone r s ->
  bit_implies r SERCD_EV_SOCKETCONNECT (is_Some L) ->
  bit_implies r SERCD_EV_MODEMSTATE (is_Some (DeviceFd (con s))) ->
  fine (when (negb (Z.land r SERCD_EV_SOCKETCONNECT =? 0)) (ev_connect L) ;;
        go ← open_device fuel;
        if (go : bool) then when (negb (Z.land r SERCD_EV_MODEMSTATE =? 0)) ev_modemstate
        else mret tt) (fun _ => sound) s.
Proof.
  intros Hs Hok Hm H5 H6. apply fine_bind.
  eapply (fine_mono _ (fun _ s' => (sound s' /\ (is_Some (DeviceFd (con s)) -> net s' = net s)) /\
    (conn_ok (con s') /\ (is_Some (DeviceFd (con s)) -> con s' = con s)))).
  { unfold when. destruct (Z.eqb_spec (Z.land r SERCD_EV_SOCKETCONNECT) 0); [by apply fine_ret|].
    apply fine_safe; [apply fine_connect; auto|apply safe_connect; auto]. }
  intros ? s1 [[Hs1 Hn1] [Hok1 Hc1]]. apply fine_bind.
  eapply fine_mono; [apply fine_safe; [by apply fine_open|by apply safe_open]|].
  intros [] s2 [[Hs2 Hn2] [Hok2 Hc2]]; [|by apply fine_ret].
  unfold when. destruct (Z.eqb_spec (Z.land r SERCD_EV_MODEMSTATE) 0) as [|Hne]; [by apply fine_ret|].
  pose proof (H6 Hne) as Hd. pose proof (Hc1 Hd) as Hc1'. rewrite Hc1' in *.
  apply fine_modemstate; [done|by rewrite Hc2|]. rewrite Hn2, Hn1 by done. by apply Hm.
Qed.

Lemma fine_handle_events fuel L r s :
  sound s -> conn_ok (con s) -> modem_alone r s ->
  events_ok r (DeviceFd (con s)) (DeviceFd (con s)) (DeviceFd (con s)) (OutSocketFd (con s))
    (match DeviceFd (con s) with Some _ => InSocketFd (con s) | None => None end) L ->
  fine (handle_events fuel L r) (fun _ => sound) s.
Proof.
  intros Hs Hok Hm (H1 & H2 & H3 & H4 & H5 & H6). unfold handle_events.
  eapply (fine_on_event _ _ _ _ _ s s); [exact H1|done|done|done|by apply safe_devicein| |].
  { intros Hd Hb. eapply fine_mono; [by apply fine_devicein|]. intros ? s' Hs'. split; [done|].
    intros Hr. by destruct (Hm Hr). }
  intros s1 Hs1 Hc1 Hm1.
  eapply (fine_on_event _ _ _ _ _ s); [exact H2|done|done|done| | |].
  { intros Hd. apply safe_deviceout. by rewrite Hc1. }
  { intros Hd _. unfold ev_deviceout. apply fine_gets. rewrite Hc1.
    eapply fine_mono; [by apply fine_output|]. intros ? s' [? ?]. split; [done|by eapply modem_alone_le]. }
  intros s2 Hs2 Hc2 Hm2.
  eapply (fine_on_event _ _ _ _ _ s); [exact H3|done|done|done| | |].
  { intros Hd. apply safe_socketout. by rewrite Hc2. }
  { intros Hd _. unfold ev_socketout. apply fine_gets. rewrite Hc2.
    eapply fine_mono; [by apply fine_output|]. intros ? s' [? ?]. split; [done|by eapply modem_alone_le]. }
  intros s3 Hs3 Hc3 Hm3.
  eapply (fine_on_event _ _ _ _ _ s); [exact H4|done|done|done| | |].
  { intros Hd. destruct (DeviceFd (con s)) eqn:E; [|by destruct Hd].
    apply safe_socketin; rewrite Hc3; [done|by rewrite E]. }
  { intros Hd Hb. destruct (DeviceFd (con s)) eqn:E; [|by destruct Hd].
    eapply fine_mono; [apply fine_socketin; rewrite ?Hc3; [done|by rewrite E|done]|].
    intros ? s' Hs'. split; [done|]. intros Hr. by destruct (Hm Hr) as (_ & ? & _). }
  intros s4 Hs4 Hc4 Hm4. rewrite <- Hc4 in *. by apply fine_tail.
Qed.
End Pass.

(** C1: one pass over the events is safe, as long as the report of the
    modem state comes alone.  With a kernel that keeps the bounds of its
    transfers and answers [EWOULDBLOCK] on no descriptor it reported as ready,
    in a state whose buffers, tables and parser are consistent, with a set of
    events that only concern open descriptors, and in which a modem state event
    comes neither with input from the device nor from the client and finds room
    for its message in the queue of the client ([modem_alone]; without it the
    queue overflows, MainLimits.modem_state_overflows_queue), the pass fails no
    assertion and ends in such a state again, with the connections in one of
    their three states.  It can stop only because the lock file is removed and
    created again without end, or because of an unterminated client signature. *)
Theorem handle_events_safe {W} `{Kernel W} `{!IoKernel W} `{!ReadyKernel W} fuel L r (s : St W) :
  sound s -> conn_ok (con s) -> modem_alone r s ->
  events_ok r (DeviceFd (con s)) (DeviceFd (con s)) (DeviceFd (con s)) (OutSocketFd (con s))
    (match DeviceFd (con s) with Some _ => InSocketFd (con s) | None => None end) L ->
  wp (handle_events fuel L r) (fun _ s' => sound s' /\ conn_ok (con s'))
    (fun e s' => e = OutOfFuel \/ overread e s') s.
Proof.
  intros Hs Hok Hm He. apply fine_safe; [by apply fine_handle_events|by apply safe_handle_events].
Qed.

(** The concrete machine with blocking descriptors. *)
Definition no_block (e : Z) : Z := if e =? EWOULDBLOCK then EINTR else e.

Definition blocking_sim : Kernel Sim := {|
  k_open := sim_open; k_close := sim_close;
  k_read := fun fd n w => let '(r, e, bs, w') := sim_read fd n w in (r, no_block e, bs, w');
  k_write := fun fd bs w => let '(r, e, w') := sim_write fd bs w in (r, no_block e, w');
  k_unlink := sim_unlink; k_getpid := sim_pid; k_kill := sim_kill;
  k_tcgets := sim_tcgets; k_tcsets := sim_tcsets; k_ioctl := k_ioctl;
  k_tiocmget := sim_tiocmget; k_tiocmset := sim_tiocmset;
  k_socket := k_socket; k_bind := k_bind; k_listen := k_listen; k_accept := sim_accept;
  k_setsockopt := k_setsockopt; k_select := sim_select; k_gettimeofday := sim_gettimeofday;
  k_syslog := k_syslog; k_stderr := sim_note; k_openlog := k_openlog; k_closelog := k_closelog;
|}.

Lemma blocking_sim_io : @IoKernel Sim blocking_sim.
Proof.
  split; simpl.
  - intros w fd n r e bs w' Hn. destruct (sim_read fd n w) as [[[? ?] ?] ?] eqn:E.
    intros [= <- <- <- <-]. exact (@io_read Sim sim_kernel sim_io _ _ _ _ _ _ _ Hn E).
  - intros w fd bs r e w'. destruct (sim_write fd bs w) as [[? ?] ?] eqn:E.
    intros [= <- <- <-]. exact (@io_write Sim sim_kernel sim_io _ _ _ _ _ _ E).
  - exact (@io_select Sim sim_kernel sim_io).
Qed.

Lemma blocking_sim_ready : @ReadyKernel Sim blocking_sim.
Proof.
  assert (forall e, no_block e <> EWOULDBLOCK) as Hne.
  { intros e. unfold no_block. by destruct (Z.eqb_spec e EWOULDBLOCK). }
  split; simpl.
  - intros w fd n r e bs w'. destruct (sim_read fd n w) as [[[? ?] ?] ?].
    intros [= <- <- <- <-] _. apply Hne.
  - intros w fd bs r e w'. destruct (sim_write fd bs w) as [[? ?] ?].
    intros [= <- <- <-] _. apply Hne.
Qed.

Lemma sim_session_sound w : sound (sim_session w).
Proof. split; [apply sim_session_ok|done|by vm_compute]. Qed.

(** Input from both sides and room to write, on the machine of [sim_session]. *)
Lemma handle_events_safe_witness :
  let s := sim_session (sim_idle sim_blank) in
  let r := Z.lor SERCD_EV_DEVICEIN (Z.lor SERCD_EV_SOCKETIN SERCD_EV_DEVICEOUT) in
  wp (@handle_events Sim blocking_sim 2 None r) (fun _ s' => sound s' /\ conn_ok (con s'))
    (fun e s' => e = OutOfFuel \/ overread e s') s.
Proof.
  intros s r.
  apply (@handle_events_safe Sim blocking_sim blocking_sim_io blocking_sim_ready 2 None r s).
  - apply sim_session_sound.
  - constructor.
  - by intros Hr.
  - unfold events_ok, bit_implies. split_and!; intros Hr; by try (eexists; reflexivity).
Defined.
