(* ===== verification/MainLimits.v ===== *)
(** * Where the main loop leaves its intended behaviour

    The assumptions of the safety theorem of the main loop are needed: what the
    loop does when a descriptor answers [EWOULDBLOCK], when the device has
    filled the queue of the client before the client is read, and when it has
    filled it before the modem state is sent.  Then the clock of the modem
    state poll, and what a new session inherits from the previous one. *)

From S2P Require Import Prelude RingBuffer CStdlib Inet Termios Kernel SimKernel LibcTty.
From S2P Require Import SercdState UnixPort UnixLock Telnet TelnetSafe TelnetSpec SercdMain.
From S2P Require Import MainInv MainSafe.

(** ** Input without room for the answer *)

Section NoRoom.
Context {W : Type} `{Kernel W} `{!IoKernel W} `{!ReadyKernel W}.
Implicit Types s : St W.

Lemma fine_read_nothing fd s :
  length (readbuf (bufs s)) = 512%nat ->
  fine (read_readbuf fd 0)
    (fun r s' => (r < 0 -> errno (proc s') <> EWOULDBLOCK) /\ -1 <= r <= 0) s.
Proof.
  intros Hl. eapply fine_mono; [by apply fine_read|]. cbv beta.
  by intros r s' (_ & _ & ? & ? & _).
Qed.

Lemma socketin_no_room fuel s :
  sound s -> is_Some (DeviceFd (con s)) -> is_Some (InSocketFd (con s)) ->
  BufferHasRoomFor (ToNetBuf (bufs s)) EscRedirectChar_bytes_SockB = false ->
  fine (ev_socketin fuel) (fun go s' => go = false /\ con s' = mkConn None None None) s.
Proof.
  intros Hs Hd Hi Hroom.
  eapply fine_mono; [eapply (fine_safe _ (fun go _ => go = false)); [|by apply safe_socketin]|].
  2:{ intros go s' [-> Hc]. split; [done|exact Hc]. }
  destruct Hi as [fd Hfd]. unfold ev_socketin. do 3 apply fine_gets. rewrite Hfd. cbv zeta.
  destruct (net_room s) as [Er ?]; [by destruct Hs|].
  destruct (dev_room s) as [Ed ?]; [by destruct Hs|].
  unfold BufferHasRoomFor in Hroom. apply Z.leb_gt in Hroom. rewrite Er, Ed in *.
  change EscRedirectChar_bytes_SockB with 516 in *. change EscRedirectChar_bytes_DevB with 1.
  rewrite (Z.div_small _ 516), Z.div_1_r by lia.
  replace (Z.min (Z.min 512 0) _) with 0 by lia.
  apply fine_deref, fine_bind. eapply fine_mono; [apply fine_read_nothing; by destruct Hs|].
  cbv beta. intros r s1 [He Hr]. apply fine_transfer_end; [lia|done|done|lia].
Qed.
End NoRoom.

(** A client that is ready to be read while the queue towards it has less
    room than the reply to one byte may need is disconnected: the loop reads
    zero bytes, and takes the result for the end of the connection.  The room is
    checked before the device is read, which can use it up. *)
Theorem input_without_room_disconnects {W} `{Kernel W} `{!IoKernel W} `{!ReadyKernel W}
    fuel (s : St W) :
  sound s -> is_Some (DeviceFd (con s)) -> is_Some (InSocketFd (con s)) ->
  BufferHasRoomFor (ToNetBuf (bufs s)) EscRedirectChar_bytes_SockB = false ->
  wp (ev_socketin fuel) (fun go s' => go = false /\ con s' = mkConn None None None)
    (fun e s' => e = OutOfFuel \/ overread e s') s.
Proof. apply socketin_no_room. Qed.

(** A machine with [n] bytes queued for the client, the given input and the
    given results of [select] and of the clock. *)
Definition sim_loaded (n : nat) (input : list (Z + bytes)) (events : list (list Z * list Z))
    (clock : list (Z * Z)) : St Sim :=
  let s := sim_session (mkSim ∅ ∅ ∅ {[3 := sim_blank]} {[3 := 32]} 100 [100] no_limits 1
                              input [] [] events [] clock []) in
  upd_bufs (set_ToNetBuf (mkBuffer (replicate 2048 65) 0 (Z.of_nat n))) s.

Lemma sim_loaded_sound n input events clock :
  (n <= 2047)%nat -> sound (sim_loaded n input events clock).
Proof.
  intros Hn. destruct (sim_session_sound (mkSim ∅ ∅ ∅ {[3 := sim_blank]} {[3 := 32]} 100 [100] no_limits 1
                              input [] [] events [] clock [])) as [[] ? ?].
  split; [split|..]; try done. unfold wf_buffer, BufferSize. simpl. split; [by vm_compute|lia].
Qed.

Lemma input_without_room_disconnects_witness :
  wp (@ev_socketin Sim blocking_sim 2) (fun go s' => go = false /\ con s' = mkConn None None None)
    (fun e s' => e = OutOfFuel \/ overread e s') (sim_loaded 1600 [inr [65]] [] []).
Proof.
  apply (@input_without_room_disconnects Sim blocking_sim blocking_sim_io blocking_sim_ready).
  - apply sim_loaded_sound. lia.
  - by eexists.
  - by eexists.
  - by vm_compute.
Defined.

(** The connections after a run, and what stopped it. *)
Definition run_con {A} (o : outcome (St Sim) A) : option Conn :=
  match o with Ret _ s => Some (con s) | Stop _ _ => None end.

(** A whole turn of the loop.  The room is there when [select] is called
    (1531 bytes are queued, 516 are free), the device delivers 258 bytes of
    value 255, and the client, who has sent one byte, is disconnected. *)
Theorem busy_device_disconnects_client :
  let s := sim_loaded 1531 [inr (replicate 258 255); inr [65]] [([3; 4], [])] [] in
  (wanted s).2 = Some 4 /\
  run_con (loop_body 2 None 100 s) = Some (mkConn None None None).
Proof. split; by vm_compute. Qed.

(** The room for the modem state is checked before the device is read.
    With 8 bytes free, 4 bytes from the device that need escaping make the
    notification of the modem state fail the assertion of [AddToBuffer]. *)
Theorem modem_state_overflows_queue :
  let s := sim_loaded 2039 [inr [255; 255; 255; 255]] [([3], [])] [(5, 0); (5, 0)] in
  let s := upd_tel (set_PortControlEnable true) s in
  BufferHasRoomFor (ToNetBuf (bufs s)) SendCPCByteCommand_bytes = true /\
  stopped (loop_body 2 None 100 s) = Some AssertionFailed.
Proof. split; by vm_compute. Qed.

(** A read that answers [EWOULDBLOCK] is not an error for
    [IOResultError], and its result -1, compared as an unsigned number, makes
    the loop run out of [readbuf], for the device as for the client. *)
Theorem would_block_overruns_readbuf :
  stopped (ev_devicein 2 (sim_loaded 0 [inl EWOULDBLOCK] [] [])) = Some OutOfBounds /\
  stopped (ev_socketin 2 (sim_loaded 0 [inl EWOULDBLOCK] [] [])) = Some OutOfBounds.
Proof. split; by vm_compute. Qed.

(** ** The clock of the modem state poll *)

(** The poll interval is documented in milliseconds, but the part of it
    below one second is subtracted from the microseconds of the clock: within a
    second, the poll is due after that number of microseconds.  In particular
    an interval of 0, documented as "no polling", is due at every call that
    sees the clock advance. *)
Theorem modem_poll_microseconds {W} `{Kernel W} PollInterval sec u u0 w' (s : St W) :
  0 <= PollInterval < 1000 -> u0 <= u ->
  k_gettimeofday (kern (proc s)) = ((sec, u), w') -> LastPoll (plat s) = (sec, u0) ->
  returned (modem_poll PollInterval s) = Some (PollInterval <? u - u0).
Proof.
  intros HP Hu Hnow Hlast. unfold modem_poll, mbind, M_bind, gettimeofday at 1. rewrite Hnow.
  unfold get_plat, gets. simpl plat. rewrite Hlast.
  rewrite Z.quot_small, Z.rem_small by lia. unfold timer_lt at 1. simpl.
  rewrite Z.ltb_irrefl, Z.eqb_refl, (proj2 (Z.ltb_ge u u0)) by lia. simpl. rewrite Hlast.
  unfold timer_lt. simpl. rewrite Z.sub_0_r, Z.ltb_irrefl, Z.eqb_refl. simpl.
  destruct (Z.ltb_spec u0 (u - PollInterval)), (Z.ltb_spec PollInterval (u - u0)); try lia; [|done].
  unfold gettimeofday. simpl. by destruct (k_gettimeofday w').
Qed.

(** With the default interval of 100 the poll is due 101 microseconds later. *)
Lemma modem_poll_microseconds_witness :
  returned (modem_poll 100 (upd_plat (set_LastPoll (5, 200)) (sim_loaded 0 [] [] [(5, 301)]))) =
  Some (100 <? 301 - 200).
Proof. apply (modem_poll_microseconds 100 5 301 200 (kern (proc (sim_loaded 0 [] [] [])))); done. Defined.

(** ** What a new session inherits *)

(** The variables that the parser, the flow control and the masks of the
    client live in are static and no session resets them: a new session starts
    with those of the previous client.  In particular, after a client that
    suspended the flow ([InputFlow] false) has left, the device is not read for
    the next one. *)
Theorem new_session_inherits {W} `{Kernel W} i o (s : St W) :
  sound s -> exists s', start_session i o s = Ret tt s' /\
    parser_of (tel s') = parser_of (tel s) /\
    (InputFlow (tel s) = false -> (wanted s').1.1.1.1 = None).
Proof.
  intros Hs. pose proof (wp_start_session i o s Hs) as Hf.
  assert (KeepsParser (start_session (W:=W) i o)) as Hk.
  { unfold start_session, SetSocketOptions, InitTelnetStateMachine.
    apply keeps_parser_bind; [apply _|]. intros []. apply keeps_parser_bind; [done|]. intros [].
    apply keeps_parser_bind; [done|apply _]. }
  specialize (Hk s). unfold wp in Hf. destruct (start_session i o s) as [[] s'|e s'] eqn:E; [|done].
  exists s'. split_and!; [done|done|]. intros Hfl. unfold parser_of in Hk. injection Hk as _ _ _ Hfl' _ _.
    unfold wanted. simpl. by rewrite Hfl', Hfl, andb_false_r.
Qed.

(** A session that starts after a client who suspended the flow. *)
Lemma new_session_inherits_witness :
  exists s', start_session 4 4 (upd_tel (set_InputFlow false) (sim_loaded 0 [] [] [])) = Ret tt s' /\
    parser_of (tel s') = parser_of (tel (upd_tel (set_InputFlow false) (sim_loaded 0 [] [] []))) /\
    (InputFlow (tel (upd_tel (set_InputFlow false) (sim_loaded 0 [] [] []))) = false ->
     (wanted s').1.1.1.1 = None).
Proof.
  apply (new_session_inherits 4 4 (upd_tel (set_InputFlow false) (sim_loaded 0 [] [] []))).
  destruct (sim_loaded_sound 0 [] [] []) as [[] ? ?]; [lia|]. by split; [split|..].
Defined.
