(* ===== verification/Mii.v ===== *)
(** * The transceiver library
    (src/linux2510/drivers/net/mii.c, src/linux2510/include/linux/mii.h)

    The functions on [struct mii_if_info] that an Ethernet driver shares: link
    and negotiation through the registers of the transceiver (PHY).  The driver
    behind them is the class [MiiDev]: the structure, the carrier flag of the
    interface and the two callbacks. *)

From S2P Require Import Prelude.

(** ** Registers *)

Definition MII_BMCR : Z := 0.
Definition MII_BMSR : Z := 1.
Definition MII_ADVERTISE : Z := 4.
Definition MII_LPA : Z := 5.

Definition BMCR_FULLDPLX : Z := 0x0100.
Definition BMCR_ANRESTART : Z := 0x0200.
Definition BMCR_ANENABLE : Z := 0x1000.
Definition BMCR_SPEED100 : Z := 0x2000.
Definition BMCR_RESET : Z := 0x8000.
Definition BMSR_LSTATUS : Z := 0x0004.
Definition BMSR_10FULL : Z := 0x1000.
Definition BMSR_100FULL : Z := 0x4000.

Definition ADVERTISE_CSMA : Z := 0x0001.
Definition ADVERTISE_10HALF : Z := 0x0020.
Definition ADVERTISE_10FULL : Z := 0x0040.
Definition ADVERTISE_100HALF : Z := 0x0080.
Definition ADVERTISE_100FULL : Z := 0x0100.
Definition ADVERTISE_100BASE4 : Z := 0x0200.
Definition ADVERTISE_FULL : Z := Z.lor (Z.lor ADVERTISE_100FULL ADVERTISE_10FULL) ADVERTISE_CSMA.
Definition ADVERTISE_ALL : Z :=
  Z.lor (Z.lor (Z.lor ADVERTISE_10HALF ADVERTISE_10FULL) ADVERTISE_100HALF) ADVERTISE_100FULL.

Definition LPA_10HALF : Z := 0x0020.
Definition LPA_10FULL : Z := 0x0040.
Definition LPA_100HALF : Z := 0x0080.
Definition LPA_100FULL : Z := 0x0100.
Definition LPA_100BASE4 : Z := 0x0200.

(** src/linux2510/include/linux/ethtool.h *)
Definition ADVERTISED_10baseT_Half : Z := Z.shiftl 1 0.
Definition ADVERTISED_10baseT_Full : Z := Z.shiftl 1 1.
Definition ADVERTISED_100baseT_Half : Z := Z.shiftl 1 2.
Definition ADVERTISED_100baseT_Full : Z := Z.shiftl 1 3.
Definition ADVERTISED_Autoneg : Z := Z.shiftl 1 6.
Definition ADVERTISED_TP : Z := Z.shiftl 1 7.
Definition ADVERTISED_MII : Z := Z.shiftl 1 9.
Definition SUPPORTED_10baseT_Half : Z := Z.shiftl 1 0.
Definition SUPPORTED_10baseT_Full : Z := Z.shiftl 1 1.
Definition SUPPORTED_100baseT_Half : Z := Z.shiftl 1 2.
Definition SUPPORTED_100baseT_Full : Z := Z.shiftl 1 3.
Definition SUPPORTED_Autoneg : Z := Z.shiftl 1 6.
Definition SUPPORTED_TP : Z := Z.shiftl 1 7.
Definition SUPPORTED_MII : Z := Z.shiftl 1 9.
Definition SPEED_10 : Z := 10.
Definition SPEED_100 : Z := 100.
Definition DUPLEX_HALF : Z := 0.
Definition DUPLEX_FULL : Z := 1.
Definition PORT_MII : Z := 2.
Definition XCVR_INTERNAL : Z := 0.
Definition AUTONEG_DISABLE : Z := 0.
Definition AUTONEG_ENABLE : Z := 1.

(** src/linux2510/include/linux/sockios.h *)
Definition SIOCGMIIPHY : Z := 0x8947.
Definition SIOCGMIIREG : Z := 0x8948.
Definition SIOCSMIIREG : Z := 0x8949.
Definition SIOCDEVPRIVATE : Z := 0x89F0.

Definition EPERM : Z := 1.
Definition EINVAL : Z := 22.
Definition EOPNOTSUPP : Z := 95.

(** A test [word & mask]. *)
Definition has (word mask : Z) : bool := negb (Z.land word mask =? 0).

(** ** Data *)

Record mii_if_info : Type := mkMii {
  phy_id : Z;
  advertising : Z;
  phy_id_mask : Z;
  reg_num_mask : Z;
  full_duplex : bool;
  force_media : bool;
}.
Definition set_advertising x r := mkMii (phy_id r) x (phy_id_mask r) (reg_num_mask r) (full_duplex r) (force_media r).
Definition set_full_duplex x r := mkMii (phy_id r) (advertising r) (phy_id_mask r) (reg_num_mask r) x (force_media r).
Definition set_force_media x r := mkMii (phy_id r) (advertising r) (phy_id_mask r) (reg_num_mask r) (full_duplex r) x.

(** The fields the library reads and writes. *)
Record ethtool_cmd : Type := mkEcmd {
  e_supported : Z;
  e_advertising : Z;
  e_speed : Z;
  e_duplex : Z;
  e_port : Z;
  e_phy_address : Z;
  e_transceiver : Z;
  e_autoneg : Z;
}.

Record mii_ioctl_data : Type := mkMiiData {
  d_phy_id : Z;
  d_reg_num : Z;
  d_val_in : Z;
  d_val_out : Z;
}.

(** What a driver gives to the library. *)
Class MiiDev (S : Type) : Type := {
  get_mii : S -> mii_if_info;
  put_mii : mii_if_info -> S -> S;
  carrier : S -> bool;
  put_carrier : bool -> S -> S;
  mdio_read : Z -> Z -> M S Z;
  mdio_write : Z -> Z -> Z -> M S unit;
}.

Definition mii_nway_result (negotiated : Z) : Z :=
  if has negotiated LPA_100FULL then LPA_100FULL
  else if has negotiated LPA_100BASE4 then LPA_100BASE4
  else if has negotiated LPA_100HALF then LPA_100HALF
  else if has negotiated LPA_10FULL then LPA_10FULL
  else LPA_10HALF.

(** [if (cond) word |= mask] *)
Definition or_if (b : bool) (mask word : Z) : Z := if b then Z.lor word mask else word.

Section Mii.
Context {S : Type} `{MiiDev S}.

Definition mii : M S mii_if_info := gets get_mii.
Definition upd_mii (f : mii_if_info -> mii_if_info) : M S unit := modify (fun s => put_mii (f (get_mii s)) s).
Definition phy_read (reg : Z) : M S Z := m ← mii; mdio_read (phy_id m) reg.
Definition phy_write (reg v : Z) : M S unit := m ← mii; mdio_write (phy_id m) reg v.

Definition mii_ethtool_gset : M S (Z * ethtool_cmd) :=
  let supported := Z.lor (Z.lor (Z.lor (Z.lor (Z.lor (Z.lor SUPPORTED_10baseT_Half SUPPORTED_10baseT_Full)
    SUPPORTED_100baseT_Half) SUPPORTED_100baseT_Full) SUPPORTED_Autoneg) SUPPORTED_TP) SUPPORTED_MII in
  m ← mii;
  v ← phy_read MII_ADVERTISE;
  let advert := u32 v in
  let adv := or_if (has advert ADVERTISE_100FULL) ADVERTISED_100baseT_Full
    (or_if (has advert ADVERTISE_100HALF) ADVERTISED_100baseT_Half
    (or_if (has advert ADVERTISE_10FULL) ADVERTISED_10baseT_Full
    (or_if (has advert ADVERTISE_10HALF) ADVERTISED_10baseT_Half (Z.lor ADVERTISED_TP ADVERTISED_MII)))) in
  v ← phy_read MII_BMCR;
  let bmcr := u32 v in
  v ← phy_read MII_LPA;
  let lpa := u32 v in
  if has bmcr BMCR_ANENABLE then
    let nego := mii_nway_result (Z.land advert lpa) in
    let full := (nego =? LPA_100FULL) || (nego =? LPA_10FULL) in
    upd_mii (set_full_duplex full) ;;
    mret (0, mkEcmd supported (Z.lor adv ADVERTISED_Autoneg)
      (if (nego =? LPA_100FULL) || (nego =? LPA_100HALF) then SPEED_100 else SPEED_10)
      (if full then DUPLEX_FULL else DUPLEX_HALF) PORT_MII (u8 (phy_id m)) XCVR_INTERNAL AUTONEG_ENABLE)
  else
    mret (0, mkEcmd supported adv (if has bmcr BMCR_SPEED100 then SPEED_100 else SPEED_10)
      (if has bmcr BMCR_FULLDPLX then DUPLEX_FULL else DUPLEX_HALF) PORT_MII (u8 (phy_id m)) XCVR_INTERNAL AUTONEG_DISABLE).

Definition ADVERTISED_modes : Z :=
  Z.lor (Z.lor (Z.lor ADVERTISED_10baseT_Half ADVERTISED_10baseT_Full) ADVERTISED_100baseT_Half) ADVERTISED_100baseT_Full.

(** The branch for [AUTONEG_ENABLE]; the conditions [if (ADVERTISED_10baseT_Half)]
    test constants. *)
Definition sset_autoneg (ecmd : ethtool_cmd) : M S Z :=
  if negb (has (e_advertising ecmd) ADVERTISED_modes) then mret (- EINVAL)
  else
    v ← phy_read MII_ADVERTISE;
    let advert := u32 v in
    let tmp := Z.land advert (Z.lnot (Z.lor ADVERTISE_ALL ADVERTISE_100BASE4)) in
    let tmp := or_if (negb (ADVERTISED_10baseT_Half =? 0)) ADVERTISE_10HALF tmp in
    let tmp := or_if (negb (ADVERTISED_10baseT_Full =? 0)) ADVERTISE_10FULL tmp in
    let tmp := or_if (negb (ADVERTISED_100baseT_Half =? 0)) ADVERTISE_100HALF tmp in
    let tmp := or_if (negb (ADVERTISED_100baseT_Full =? 0)) ADVERTISE_100FULL tmp in
    when (negb (advert =? tmp)) (phy_write MII_ADVERTISE tmp ;; upd_mii (set_advertising tmp)) ;;
    v ← phy_read MII_BMCR;
    phy_write MII_BMCR (Z.lor (u32 v) (Z.lor BMCR_ANENABLE BMCR_ANRESTART)) ;;
    upd_mii (set_force_media false) ;;
    mret 0.

(** The branch for [AUTONEG_DISABLE]. *)
Definition sset_forced (ecmd : ethtool_cmd) : M S Z :=
  v ← phy_read MII_BMCR;
  let bmcr := u32 v in
  let tmp := Z.land bmcr (Z.lnot (Z.lor (Z.lor BMCR_ANENABLE BMCR_SPEED100) BMCR_FULLDPLX)) in
  let tmp := or_if (e_speed ecmd =? SPEED_100) BMCR_SPEED100 tmp in
  let full := e_duplex ecmd =? DUPLEX_FULL in
  let tmp := or_if full BMCR_FULLDPLX tmp in
  upd_mii (set_full_duplex full) ;;
  when (negb (bmcr =? tmp)) (phy_write MII_BMCR tmp) ;;
  upd_mii (set_force_media true) ;;
  mret 0.

Definition mii_ethtool_sset (ecmd : ethtool_cmd) : M S Z :=
  m ← mii;
  if negb (e_speed ecmd =? SPEED_10) && negb (e_speed ecmd =? SPEED_100) then mret (- EINVAL)
  else if negb (e_duplex ecmd =? DUPLEX_HALF) && negb (e_duplex ecmd =? DUPLEX_FULL) then mret (- EINVAL)
  else if negb (e_port ecmd =? PORT_MII) then mret (- EINVAL)
  else if negb (e_transceiver ecmd =? XCVR_INTERNAL) then mret (- EINVAL)
  else if negb (e_phy_address ecmd =? phy_id m) then mret (- EINVAL)
  else if negb (e_autoneg ecmd =? AUTONEG_DISABLE) && negb (e_autoneg ecmd =? AUTONEG_ENABLE) then mret (- EINVAL)
  else if e_autoneg ecmd =? AUTONEG_ENABLE then sset_autoneg ecmd
  else sset_forced ecmd.

Definition mii_link_ok : M S Z :=
  phy_read MII_BMSR ;;
  v ← phy_read MII_BMSR;
  mret (if has v BMSR_LSTATUS then 1 else 0).

Definition mii_nway_restart : M S Z :=
  bmcr ← phy_read MII_BMCR;
  if has bmcr BMCR_ANENABLE then phy_write MII_BMCR (Z.lor bmcr BMCR_ANRESTART) ;; mret 0
  else mret (- EINVAL).

Definition netif_carrier_ok : M S bool := gets carrier.
Definition netif_carrier_on : M S unit := modify (put_carrier true).
Definition netif_carrier_off : M S unit := modify (put_carrier false).

Definition mii_check_link : M S unit :=
  cur_link ← mii_link_ok;
  prev_link ← netif_carrier_ok;
  if negb (cur_link =? 0) && negb prev_link then netif_carrier_on
  else if prev_link && (cur_link =? 0) then netif_carrier_off
  else mret tt.

(** [ok_to_print] is left out; the result says that the duplex changed. *)
Definition mii_check_media (init_media : bool) : M S Z :=
  m ← mii;
  if force_media m then mret 0
  else
    old_carrier ← netif_carrier_ok;
    new_carrier ← mii_link_ok;
    if negb init_media && ((if old_carrier : bool then 1 else 0) =? new_carrier) then mret 0
    else if new_carrier =? 0 then netif_carrier_off ;; mret 0
    else
      netif_carrier_on ;;
      m ← mii;
      advertise ← (if negb init_media && negb (advertising m =? 0) then mret (advertising m)
                   else v ← phy_read MII_ADVERTISE; upd_mii (set_advertising v) ;; mret v);
      lpa ← phy_read MII_LPA;
      let media := mii_nway_result (u32 (Z.land lpa advertise)) in
      let duplex := has media ADVERTISE_FULL in
      m ← mii;
      if init_media || negb (Bool.eqb (full_duplex m) duplex) then upd_mii (set_full_duplex duplex) ;; mret 1
      else mret 0.

(** [duplex_chg_out] is NULL in the driver; [capable]: [CAP_NET_ADMIN]. *)
Definition generic_mii_ioctl (capable : bool) (cmd : Z) (data : mii_ioctl_data) : M S (Z * mii_ioctl_data) :=
  m ← mii;
  let p := Z.land (d_phy_id data) (phy_id_mask m) in
  let r := Z.land (d_reg_num data) (reg_num_mask m) in
  let read p := v ← mdio_read p r; mret (0, mkMiiData p r (d_val_in data) (Z.land v 0xffff)) in
  if (cmd =? SIOCDEVPRIVATE) || (cmd =? SIOCGMIIPHY) then read (Z.land (phy_id m) 0xffff)
  else if (cmd =? SIOCDEVPRIVATE + 1) || (cmd =? SIOCGMIIREG) then read p
  else if (cmd =? SIOCDEVPRIVATE + 2) || (cmd =? SIOCSMIIREG) then
    let data := mkMiiData p r (d_val_in data) (d_val_out data) in
    let val := Z.land (d_val_in data) 0xffff in
    if negb capable then mret (- EPERM, data)
    else
      when (p =? phy_id m)
        (if r =? MII_BMCR then
           let force := negb (has val (Z.lor BMCR_RESET BMCR_ANENABLE)) in
           upd_mii (set_force_media force) ;; upd_mii (set_full_duplex (force && has val BMCR_FULLDPLX))
         else if r =? MII_ADVERTISE then upd_mii (set_advertising val)
         else mret tt) ;;
      mdio_write p r val ;;
      mret (0, data)
  else mret (- EOPNOTSUPP, mkMiiData p r (d_val_in data) (d_val_out data)).
End Mii.
