(* ===== verification/MiiSpec.v ===== *)
(** * The transceiver library: settings

    What [mii_ethtool_sset] does to a transceiver and what [mii_ethtool_gset] reads back, for every
    driver whose callbacks reach a transceiver that keeps its registers. *)

From S2P Require Import Prelude Mii.

(** What a 16-bit register of a transceiver keeps of a value: reset and restart clear themselves. *)
Definition stored (r v : Z) : Z := Z.land v (if r =? MII_BMCR then 0xffff - BMCR_RESET - BMCR_ANRESTART else 0xffff).

Definition same_phy {S} (phy : S -> Z -> Z -> Z) (s s' : S) : Prop := forall p r, phy s' p r = phy s p r.

(** The callbacks reach the registers [phy], by transceiver and number.  The registers of
    the link partner and of the status can change by themselves. *)
Class MiiLaws (S : Type) `{MiiDev S} : Type := {
  phy : S -> Z -> Z -> Z;
  phy_u16 s p r : 0 <= phy s p r < 65536;
  read_phy p r s : exists s', mdio_read p r s = Ret (phy s p r) s' /\ get_mii s' = get_mii s /\ same_phy phy s s';
  write_phy p r v s : exists s', mdio_write p r v s = Ret tt s' /\ get_mii s' = get_mii s /\ phy s' p r = stored r v /\
    forall p' r', (p', r') <> (p, r) -> r' <> MII_BMSR -> r' <> MII_LPA -> phy s' p' r' = phy s p' r';
  get_put_mii m s : get_mii (put_mii m s) = m;
  phy_put_mii m s : same_phy phy s (put_mii m s);
}.

Section MiiSpec.
Context {S : Type} `{L : MiiLaws S}.
Implicit Types (s : S) (e : ethtool_cmd).

Lemma wp_phy_read_s r s (Q : Z -> S -> Prop) :
  (forall s', get_mii s' = get_mii s -> same_phy phy s s' -> Q (phy s (phy_id (get_mii s)) r) s') -> wp (phy_read r) Q no_stop s.
Proof.
  intros C. unfold phy_read, mii. apply wp_bind. unfold gets, wp at 1.
  destruct (read_phy (phy_id (get_mii s)) r s) as (s' & E & G & P). unfold wp. rewrite E. by apply C.
Qed.

Lemma wp_phy_write_s r v s (Q : unit -> S -> Prop) :
  (forall s', get_mii s' = get_mii s -> phy s' (phy_id (get_mii s)) r = stored r v ->
     (forall r', r' <> r -> r' <> MII_BMSR -> r' <> MII_LPA -> phy s' (phy_id (get_mii s)) r' = phy s (phy_id (get_mii s)) r') -> Q tt s') ->
  wp (phy_write r v) Q no_stop s.
Proof.
  intros C. unfold phy_write, mii. apply wp_bind. unfold gets, wp at 1.
  destruct (write_phy (phy_id (get_mii s)) r v s) as (s' & E & G & W & O). unfold wp. rewrite E. apply C; [done|done|].
  intros r' N1 N2 N3. apply O; [|done|done]. congruence.
Qed.

Lemma wp_upd_mii_s f s (Q : unit -> S -> Prop) :
  (forall s', get_mii s' = f (get_mii s) -> same_phy phy s s' -> Q tt s') -> wp (upd_mii f) Q no_stop s.
Proof. intros C. unfold upd_mii, modify, wp. apply C; [apply get_put_mii|apply phy_put_mii]. Qed.

(** A request for this transceiver. *)
Definition fits (m : mii_if_info) e : Prop :=
  (e_speed e = SPEED_10 \/ e_speed e = SPEED_100) /\ (e_duplex e = DUPLEX_HALF \/ e_duplex e = DUPLEX_FULL) /\
  e_port e = PORT_MII /\ e_transceiver e = XCVR_INTERNAL /\ e_phy_address e = phy_id m.

Lemma sset_fits e s : fits (get_mii s) e -> e_autoneg e = AUTONEG_ENABLE \/ e_autoneg e = AUTONEG_DISABLE ->
  mii_ethtool_sset e s = (if e_autoneg e =? AUTONEG_ENABLE then sset_autoneg e else sset_forced e) s.
Proof.
  intros (Sp & Du & Po & Xc & Ph) Au. unfold mii_ethtool_sset, mii. rewrite bind_gets, Po, Xc, Ph, !Z.eqb_refl.
  destruct Sp as [->| ->], Du as [->| ->], Au as [->| ->]; reflexivity.
Qed.

(** ** Forced settings *)

Lemma has_or_other b m w k : Z.land m k = 0 -> has (or_if b m w) k = has w k.
Proof. intros E. destruct b; [|done]. unfold has. simpl. by rewrite land_or_other. Qed.

Lemma has_or_same b w k : k <> 0 -> has w k = false -> has (or_if b k w) k = b.
Proof.
  intros N E. destruct b; [|done]. unfold has. simpl. rewrite land_or_same. by apply negb_true_iff, Z.eqb_neq.
Qed.

Lemma has_cleared w m k : Z.land k m = k -> has (Z.land w (Z.lnot m)) k = false.
Proof. intros E. unfold has. rewrite land_clear_sub by done. done. Qed.

Lemma has_stored v k : Z.land (0xffff - BMCR_RESET - BMCR_ANRESTART) k = k -> has (stored MII_BMCR v) k = has v k.
Proof. intros E. unfold has, stored. cbn [Z.eqb MII_BMCR]. by rewrite <- Z.land_assoc, E. Qed.

(** The control register of a forced mode. *)
Definition forced_bmcr (bmcr : Z) e : Z :=
  or_if (e_duplex e =? DUPLEX_FULL) BMCR_FULLDPLX (or_if (e_speed e =? SPEED_100) BMCR_SPEED100
    (Z.land bmcr (Z.lnot (Z.lor (Z.lor BMCR_ANENABLE BMCR_SPEED100) BMCR_FULLDPLX)))).

Lemma forced_bits bmcr e :
  has (forced_bmcr bmcr e) BMCR_ANENABLE = false /\ has (forced_bmcr bmcr e) BMCR_SPEED100 = (e_speed e =? SPEED_100) /\
  has (forced_bmcr bmcr e) BMCR_FULLDPLX = (e_duplex e =? DUPLEX_FULL).
Proof.
  unfold forced_bmcr. split_and!.
  - rewrite !has_or_other by done. by apply has_cleared.
  - rewrite has_or_other by done. apply has_or_same; [done|]. by apply has_cleared.
  - apply has_or_same; [done|]. rewrite has_or_other by done. by apply has_cleared.
Qed.

Lemma u32_phy s p r : u32 (phy s p r) = phy s p r.
Proof. apply u32_small. pose proof (phy_u16 s p r). unfold is_u32. lia. Qed.

Lemma wp_forced e s :
  wp (sset_forced e) (fun r s' => r = 0 /\ phy_id (get_mii s') = phy_id (get_mii s) /\
    full_duplex (get_mii s') = (e_duplex e =? DUPLEX_FULL) /\ force_media (get_mii s') = true /\
    let bmcr := phy s' (phy_id (get_mii s)) MII_BMCR in
    has bmcr BMCR_ANENABLE = false /\ has bmcr BMCR_SPEED100 = (e_speed e =? SPEED_100) /\ has bmcr BMCR_FULLDPLX = (e_duplex e =? DUPLEX_FULL))
    no_stop s.
Proof.
  unfold sset_forced. apply wp_bind, wp_phy_read_s. intros s1 G1 P1. rewrite u32_phy. set (id := phy_id (get_mii s)).
  fold (forced_bmcr (phy s id MII_BMCR) e). set (tmp := forced_bmcr (phy s id MII_BMCR) e).
  destruct (forced_bits (phy s id MII_BMCR) e) as (F1 & F2 & F3). fold tmp in F1, F2, F3.
  apply wp_bind, wp_upd_mii_s. intros s2 G2 P2. apply wp_bind.
  assert (End : forall s3, get_mii s3 = get_mii s2 ->
    (let bmcr := phy s3 id MII_BMCR in has bmcr BMCR_ANENABLE = false /\ has bmcr BMCR_SPEED100 = (e_speed e =? SPEED_100) /\
      has bmcr BMCR_FULLDPLX = (e_duplex e =? DUPLEX_FULL)) ->
    wp (upd_mii (set_force_media true) ;; mret 0) (fun r s' => r = 0 /\ phy_id (get_mii s') = id /\
      full_duplex (get_mii s') = (e_duplex e =? DUPLEX_FULL) /\ force_media (get_mii s') = true /\
      let bmcr := phy s' id MII_BMCR in
      has bmcr BMCR_ANENABLE = false /\ has bmcr BMCR_SPEED100 = (e_speed e =? SPEED_100) /\ has bmcr BMCR_FULLDPLX = (e_duplex e =? DUPLEX_FULL))
      no_stop s3).
  { intros s3 G3 B. apply wp_bind, wp_upd_mii_s. intros s4 G4 P4. unfold wp, mret, M_ret. cbv zeta. rewrite (P4 id MII_BMCR).
    rewrite G4, G3, G2, G1. destruct B as (B1 & B2 & B3). by split_and!. }
  destruct (Z.eqb_spec (phy s id MII_BMCR) tmp) as [E|N]; cbn [negb when].
  - apply End; [done|]. cbv zeta. by rewrite (P2 id MII_BMCR), (P1 id MII_BMCR), E.
  - apply wp_phy_write_s. rewrite G2, G1. cbn [phy_id set_full_duplex]. fold id. intros s3 G3 W _. apply End; [by rewrite G3, G2, G1|].
    cbv zeta. rewrite W, !has_stored by done. done.
Qed.

Lemma wp_gset_manual s :
  has (phy s (phy_id (get_mii s)) MII_BMCR) BMCR_ANENABLE = false ->
  let bmcr := phy s (phy_id (get_mii s)) MII_BMCR in
  wp mii_ethtool_gset (fun x _ => fst x = 0 /\ e_autoneg (snd x) = AUTONEG_DISABLE /\
    e_speed (snd x) = (if has bmcr BMCR_SPEED100 then SPEED_100 else SPEED_10) /\
    e_duplex (snd x) = (if has bmcr BMCR_FULLDPLX then DUPLEX_FULL else DUPLEX_HALF)) no_stop s.
Proof.
  intros An bmcr. unfold mii_ethtool_gset. apply wp_bind. unfold mii, gets, wp at 1.
  apply wp_bind, wp_phy_read_s. intros s1 G1 P1. apply wp_bind, wp_phy_read_s. intros s2 G2 P2. rewrite G1 in *.
  apply wp_bind, wp_phy_read_s. intros s3 G3 P3. rewrite u32_phy, (P1 _ MII_BMCR), An. done.
Qed.

(** C30: A forced mode that is set is the one that is read back, and the driver is told the duplex. *)
Theorem mii_forced_mode_roundtrip e s :
  fits (get_mii s) e -> e_autoneg e = AUTONEG_DISABLE ->
  exists s' c s'', mii_ethtool_sset e s = Ret 0 s' /\ mii_ethtool_gset s' = Ret (0, c) s'' /\
    e_autoneg c = AUTONEG_DISABLE /\ e_speed c = e_speed e /\ e_duplex c = e_duplex e /\
    full_duplex (get_mii s') = (e_duplex e =? DUPLEX_FULL) /\ force_media (get_mii s') = true.
Proof.
  intros F A. pose proof (wp_forced e s) as W. pose proof (sset_fits e s F (or_intror A)) as Es. rewrite A in Es. cbn [Z.eqb AUTONEG_DISABLE AUTONEG_ENABLE] in Es.
  unfold wp in W. rewrite <- Es in W. destruct (mii_ethtool_sset e s) as [r s'|] eqn:E; [|done].
  destruct W as (-> & Ph & Fd & Fm & B1 & B2 & B3). rewrite <- Ph in B1, B2, B3.
  pose proof (wp_gset_manual s' B1) as G. unfold wp in G. destruct (mii_ethtool_gset s') as [[r c] s''|] eqn:E2; [|done].
  simpl in G. destruct G as (-> & G1 & G2 & G3). exists s', c, s''. split_and!; try done.
  - rewrite G2, B2. by destruct F as ([->| ->] & _).
  - rewrite G3, B3. by destruct F as (_ & [->| ->] & _).
Qed.

(** ** Negotiation *)

(** Whatever modes a request with negotiation names, all four of them are advertised. *)
Theorem mii_autoneg_advertises_all e s :
  fits (get_mii s) e -> e_autoneg e = AUTONEG_ENABLE -> has (e_advertising e) ADVERTISED_modes ->
  exists s', mii_ethtool_sset e s = Ret 0 s' /\ force_media (get_mii s') = false /\
    Z.land (phy s' (phy_id (get_mii s)) MII_ADVERTISE) (Z.lor ADVERTISE_ALL ADVERTISE_100BASE4) = ADVERTISE_ALL /\
    has (phy s' (phy_id (get_mii s)) MII_BMCR) BMCR_ANENABLE.
Proof.
  intros F A M. pose proof (sset_fits e s F (or_introl A)) as Es. rewrite A in Es. cbn [Z.eqb AUTONEG_ENABLE Pos.eqb] in Es. rewrite Es. clear Es.
  set (id := phy_id (get_mii s)).
  assert (W : wp (sset_autoneg e) (fun r s' => r = 0 /\ force_media (get_mii s') = false /\
    Z.land (phy s' id MII_ADVERTISE) (Z.lor ADVERTISE_ALL ADVERTISE_100BASE4) = ADVERTISE_ALL /\ has (phy s' id MII_BMCR) BMCR_ANENABLE) no_stop s).
  { unfold sset_autoneg. rewrite (Is_true_eq_true _ M). cbn [negb].
    apply wp_bind, wp_phy_read_s. fold id. intros s1 G1 P1. rewrite u32_phy. cbv zeta.
    set (tmp := or_if _ ADVERTISE_100FULL _).
    assert (T : Z.land tmp (Z.lor ADVERTISE_ALL ADVERTISE_100BASE4) = ADVERTISE_ALL).
    { unfold tmp. change (or_if _ _ (or_if _ _ (or_if _ _ (or_if _ _ ?x)))) with (Z.lor (Z.lor (Z.lor (Z.lor x ADVERTISE_10HALF) ADVERTISE_10FULL) ADVERTISE_100HALF) ADVERTISE_100FULL).
      rewrite !Z.land_lor_distr_l, land_clear_sub by done. done. }
    assert (End : forall s2, phy_id (get_mii s2) = id -> Z.land (phy s2 id MII_ADVERTISE) (Z.lor ADVERTISE_ALL ADVERTISE_100BASE4) = ADVERTISE_ALL ->
      wp (v ← phy_read MII_BMCR; phy_write MII_BMCR (Z.lor (u32 v) (Z.lor BMCR_ANENABLE BMCR_ANRESTART)) ;; upd_mii (set_force_media false) ;; mret 0)
        (fun r s' => r = 0 /\ force_media (get_mii s') = false /\
    Z.land (phy s' id MII_ADVERTISE) (Z.lor ADVERTISE_ALL ADVERTISE_100BASE4) = ADVERTISE_ALL /\ has (phy s' id MII_BMCR) BMCR_ANENABLE) no_stop s2).
    { intros s2 Id Ad. apply wp_bind, wp_phy_read_s. intros s3 G3 P3. apply wp_bind, wp_phy_write_s. rewrite G3, Id. intros s4 G4 W4 O4.
      apply wp_bind, wp_upd_mii_s. intros s5 G5 P5. unfold wp, mret, M_ret. rewrite G5, (P5 id MII_ADVERTISE), (P5 id MII_BMCR), W4, O4, (P3 id MII_ADVERTISE) by done.
      split_and!; [done|done|done|]. rewrite has_stored by done. unfold has. rewrite Z.land_lor_distr_l.
      apply Is_true_true, negb_true_iff, Z.eqb_neq. intros Q%Z.lor_eq_0_iff. by destruct Q. }
    apply wp_bind. destruct (Z.eqb_spec (phy s id MII_ADVERTISE) tmp) as [E|N]; cbn [negb when].
    - apply End; [by rewrite G1|]. by rewrite (P1 id MII_ADVERTISE), E.
    - apply wp_bind, wp_phy_write_s. rewrite G1. fold id. intros s2 G2 W2 _. apply wp_upd_mii_s. intros s3 G3 P3.
      apply End; [by rewrite G3, G2|]. rewrite (P3 id MII_ADVERTISE), W2. unfold stored. cbn [Z.eqb MII_ADVERTISE MII_BMCR].
      rewrite <- Z.land_assoc. exact T. }
  unfold wp in W. destruct (sset_autoneg e s) as [r s'|]; [|done]. destruct W as (-> & W). by exists s'.
Qed.
End MiiSpec.

(** ** A transceiver that keeps what is written *)

Module Phy.
Record t : Type := mkPhy {
  info : mii_if_info;
  link : bool;
  regs : gmap (Z * Z) Z;
}.

Definition reg (s : t) (p r : Z) : Z := stored MII_ADVERTISE (default 0 (regs s !! (p, r))).

#[global] Instance dev : MiiDev t := {
  get_mii := info;
  put_mii m s := mkPhy m (link s) (regs s);
  carrier := link;
  put_carrier b s := mkPhy (info s) b (regs s);
  mdio_read p r s := Ret (reg s p r) s;
  mdio_write p r v s := Ret tt (mkPhy (info s) (link s) (<[(p, r) := stored r v]> (regs s)));
}.

Lemma stored_u16 r v : 0 <= stored r v < 65536.
Proof.
  unfold stored. split; [apply Z.land_nonneg; right; by destruct (r =? MII_BMCR)|].
  assert (Z.land v (if r =? MII_BMCR then 0xffff - BMCR_RESET - BMCR_ANRESTART else 0xffff) <= 0xffff); [|lia].
  destruct (r =? MII_BMCR).
  - change (0xffff - BMCR_RESET - BMCR_ANRESTART) with (Z.land (0xffff - BMCR_RESET - BMCR_ANRESTART) (Z.ones 16)).
    rewrite Z.land_assoc, Z.land_ones by lia. pose proof (Z.mod_pos_bound (Z.land v (0xffff - BMCR_RESET - BMCR_ANRESTART)) (2 ^ 16)). lia.
  - change 0xffff with (Z.ones 16) at 1. rewrite Z.land_ones by lia. pose proof (Z.mod_pos_bound v (2 ^ 16)). lia.
Qed.

Lemma stored_twice r v : stored MII_ADVERTISE (stored r v) = stored r v.
Proof. unfold stored. change (MII_ADVERTISE =? MII_BMCR) with false; cbv iota. rewrite <- Z.land_assoc. f_equal. by destruct (r =? MII_BMCR). Qed.

#[global] Program Instance laws : MiiLaws t := { phy := reg }.
Next Obligation. intros. apply stored_u16. Qed.
Next Obligation. intros p r s. by exists s. Qed.
Next Obligation.
  intros p r v s. eexists. split; [reflexivity|]. unfold reg. simpl. split_and!; [done|by rewrite lookup_insert_eq; apply stored_twice|].
  intros p' r' N _ _. by rewrite lookup_insert_ne.
Qed.
Next Obligation. done. Qed.
Next Obligation. done. Qed.

(** Transceiver 1 after a negotiation. *)
Definition start : t := mkPhy (mkMii 1 0 0x1f 0x1f false false) true (list_to_map [((1, MII_BMCR), 0x1000); ((1, MII_ADVERTISE), 0x01e1)]).
Definition full100 : ethtool_cmd := mkEcmd 0 0 SPEED_100 DUPLEX_FULL PORT_MII 1 XCVR_INTERNAL AUTONEG_DISABLE.
Definition only10 : ethtool_cmd := mkEcmd 0 ADVERTISED_10baseT_Half SPEED_10 DUPLEX_HALF PORT_MII 1 XCVR_INTERNAL AUTONEG_ENABLE.
End Phy.

(** 100 Mbit/s, full duplex. *)
Lemma mii_forced_mode_roundtrip_witness : exists s' c s'',
  mii_ethtool_sset Phy.full100 Phy.start = Ret 0 s' /\ mii_ethtool_gset s' = Ret (0, c) s'' /\ e_autoneg c = AUTONEG_DISABLE /\
  e_speed c = 100 /\ e_duplex c = DUPLEX_FULL /\ full_duplex (Phy.info s') = true /\ force_media (Phy.info s') = true.
Proof.
  assert (F : fits (get_mii Phy.start) Phy.full100) by (by repeat split; auto).
  exact (mii_forced_mode_roundtrip Phy.full100 Phy.start F eq_refl).
Defined.

(** A request for 10 Mbit/s half duplex only. *)
Lemma mii_autoneg_advertises_all_witness : exists s', mii_ethtool_sset Phy.only10 Phy.start = Ret 0 s' /\
  force_media (Phy.info s') = false /\ Z.land (Phy.reg s' 1 MII_ADVERTISE) 0x3e0 = 0x1e0 /\ has (Phy.reg s' 1 MII_BMCR) BMCR_ANENABLE.
Proof.
  assert (F : fits (get_mii Phy.start) Phy.only10) by (by repeat split; auto).
  exact (mii_autoneg_advertises_all Phy.only10 Phy.start F eq_refl I).
Defined.
