(* ===== verification/Eth.v ===== *)
(** * The Ethernet driver of the S3C2510: state
    (src/linux2510/drivers/net/s3c2510.c, s3c2510.h)

    One interface: the private structure of the driver with its two rings of frame
    descriptors, the parts of the network device the driver uses, and the socket
    buffers it owns.  The descriptors are shared with the DMA engine of the chip, which acts
    between any two accesses of the driver; the chip and the allocation
    of socket buffers are parameters ([EthHw], [SkbAlloc]).  The functions of the
    driver do not interrupt each other in this model, also where the source does
    not hold the lock (the ring update of s3c2510_send_packet, the first read of
    s3c2510_poll). *)

From S2P Require Import Prelude Mii.

(** ** Constants of s3c2510.h *)

Definition TX_NUM_FD : Z := 64.
Definition RX_NUM_FD : Z := 64.
Definition PHY_BUSYLOOP_COUNT : Z := 200.
Definition NUM_HW_ADDR : Z := 6.
Definition HW_MAX_CAM : Z := 32 * 4 / NUM_HW_ADDR.
Definition HW_MAX_ADDRS : Z := HW_MAX_CAM - 5.
Definition S3C2510_SUCCESS : Z := 0.
Definition S3C2510_FAIL : Z := -1.
Definition S3C2510_TIMEOUT : Z := -1000.
Definition MAX_PKT_SIZE : Z := 1536.
Definition PKT_BUF_SZ : Z := MAX_PKT_SIZE - 16.
Definition ETH0OFF : Z := 0xF00A0000.
Definition ETH1OFF : Z := 0xF00C0000.

Definition BDMATXCON : Z := 0x0000.
Definition BDMARXCON : Z := 0x0004.
Definition BDMATXDPTR : Z := 0x0008.
Definition BDMARXDPTR : Z := 0x000C.
Definition BTXBDCNT : Z := 0x0010.
Definition BRXBDCNT : Z := 0x0014.
Definition BMTXINTEN : Z := 0x0018.
Definition BMRXINTEN : Z := 0x001C.
Definition BMTXSTAT : Z := 0x0020.
Definition BMRXSTAT : Z := 0x0024.
Definition BDMARXLEN : Z := 0x0028.
Definition MACCON : Z := 0x10000.
Definition CAMCON : Z := 0x10004.
Definition MACTXCON : Z := 0x10008.
Definition MACTXSTAT : Z := 0x1000C.
Definition MACRXCON : Z := 0x10010.
Definition MACRXSTAT : Z := 0x10014.
Definition STADATA : Z := 0x10018.
Definition STACON : Z := 0x1001C.
Definition CAMEN : Z := 0x10028.
Definition MISSCNT : Z := 0x1003C.
Definition CAM : Z := 0x10080.

Definition BTxEN : Z := 0x0400.
Definition BTxRS : Z := 0x0800.
Definition SET_BTxMSL : Z := 0x0040.
Definition BRxEN : Z := 0x0400.
Definition BRxRS : Z := 0x0800.

Definition TxCompIE : Z := 0x0040.
Definition TxCFcompIE : Z := 0x10000.
Definition BTxEmptyIE : Z := 0x40000.
Definition TxComp : Z := 0x0040.
Definition TxCFcomp : Z := 0x10000.
Definition BTxEmpty : Z := 0x40000.
Definition MissRollIE : Z := 0x0001.
Definition BRxDoneIE : Z := 0x10000.
Definition BRxNOIE : Z := 0x20000.
Definition BRxFullIE : Z := 0x80000.
Definition MissRoll : Z := 0x0001.
Definition BRxDone : Z := 0x10000.
Definition BRxNO : Z := 0x20000.
Definition BRxFull : Z := 0x80000.

Definition MHaltReq : Z := 0x0001.
Definition MHaltImm : Z := 0x0002.
Definition MReset : Z := 0x0004.
Definition MFullDup : Z := 0x0008.
Definition MStation : Z := 0x0001.
Definition MGroup : Z := 0x0002.
Definition MBroad : Z := 0x0004.
Definition MCompEn : Z := 0x0010.
Definition MTxEn : Z := 0x0001.
Definition MTxHalt : Z := 0x0002.
Definition MRxEn : Z := 0x0001.
Definition MRxHalt : Z := 0x0002.
Definition MStripCRC : Z := 0x0010.
Definition MRxShort : Z := 0x0100.
Definition MPHYwrite : Z := 0x0400.
Definition MPHYbusy : Z := 0x0800.

Definition OWNERSHIP16 : Z := 0x8000.
Definition RxS_OvMax : Z := 0x0400.
Definition RxS_Done : Z := 0x0080.
Definition RxS_RxPar : Z := 0x0040.
Definition RxS_MUFS : Z := 0x0020.
Definition RxS_OFlow : Z := 0x0010.
Definition RxS_CrcErr : Z := 0x0008.
Definition RxS_AlignErr : Z := 0x0004.
Definition TxS_Paused : Z := 0x2000.
Definition TxS_Halted : Z := 0x1000.
Definition TxS_SQErr : Z := 0x0800.
Definition TxS_Comp : Z := 0x0100.
Definition TxS_Par : Z := 0x0080.
Definition TxS_LateColl : Z := 0x0040.
Definition TxS_NCarr : Z := 0x0020.
Definition TxS_MaxDefer : Z := 0x0010.
Definition TxS_Under : Z := 0x0008.
Definition TxS_ExColl : Z := 0x0004.
Definition TxWidSet16 : Z := 0x0002.
Definition SET_BTxNBD : Z := 6.
Definition SET_BRxNBD : Z := 6.
Definition BRxAlignSkip2 : Z := Z.shiftl 2 4.
Definition MCtlSETUP : Z := MFullDup.

(** ** Data *)

(** [TxFD] and [RxFD] *)
Record Fd : Type := mkFd {
  FDDataPtr : Z;
  FDStatLen : Z;
}.

(** [struct net_device_stats] and [stats_2510] *)
Inductive counter : Type :=
| rx_packets | tx_packets | rx_bytes | tx_bytes | rx_errors | tx_errors | collisions
| rx_length_errors | rx_over_errors | rx_crc_errors | rx_frame_errors | rx_fifo_errors | rx_missed_errors
| tx_aborted_errors | tx_carrier_errors | tx_fifo_errors | tx_heartbeat_errors | tx_window_errors
| iTxPar | iTxUnderflow | iBTxEmpty | iRxLengthOver | iRxZERO | iMRxShort | iRxOverflow | iRxParErr.
#[export] Instance counter_eq_dec : EqDecision counter.
Proof. solve_decision. Defined.

(** A socket buffer: [skb->data] and [skb->len]. *)
Record SkBuff : Type := mkSkb {
  skb_data : Z;
  skb_len : Z;
}.

(** The transmit ring of [S3C2510_MAC]. *)
Record Tx : Type := mkTx {
  txFd : option (list Fd);
  tx_ready : Z;
  tx_done : Z;
  txFrCtl : list Z;
}.

(** The receive ring of [S3C2510_MAC]. *)
Record Rx : Type := mkRx {
  rxFd : option (list Fd);
  rx_done : Z;
  rx_skb_refill : Z;
  rxFrCtl : list Z;
  curr_work_limit : Z;
}.

(** What the driver uses of [struct net_device]: [xoff], [rx_sched], [started] are
    bits of its state, [link] is the absence of NOCARRIER; [irqs_held], [regions_held]:
    the interrupts and the register areas that are taken. *)
Record NetDev : Type := mkNetDev {
  base_addr : Z;
  irq : Z;
  dev_addr : bytes;
  quota : Z;
  xoff : bool;
  rx_sched : bool;
  started : bool;
  link : bool;
  mii_timer : bool;
  irqs_held : list Z;
  regions_held : list Z;
}.

(** [skbs]: the socket buffers of the driver, by address; [clock] counts the
    allocations of them; [kmallocs]: the next results of kmalloc, NULL or an
    address and what the memory holds there as an array of descriptors; [accepted]: address and length of the frames that were taken for transmission, [delivered]: the
    buffers given to the network with the length received, [freed]: the buffers freed. *)
Record Eth (H : Type) : Type := mkEth {
  tx : Tx;
  rx : Rx;
  net : NetDev;
  stats : counter -> Z;
  mii_on : bool;
  mii_if : mii_if_info;
  intmask : Z;
  extmask : Z;
  skbs : gmap Z SkBuff;
  clock : nat;
  kmallocs : list (option (Z * (nat -> Fd)));
  accepted : list (Z * Z);
  delivered : list (Z * Z);
  freed : list Z;
  hw : H;
}.
Arguments mkEth {H}.
Arguments tx {H}.
Arguments rx {H}.
Arguments net {H}.
Arguments stats {H}.
Arguments mii_on {H}.
Arguments mii_if {H}.
Arguments intmask {H}.
Arguments extmask {H}.
Arguments skbs {H}.
Arguments clock {H}.
Arguments kmallocs {H}.
Arguments accepted {H}.
Arguments delivered {H}.
Arguments freed {H}.
Arguments hw {H}.

Definition set_txFd x r := mkTx x (tx_ready r) (tx_done r) (txFrCtl r).
Definition set_tx_ready x r := mkTx (txFd r) x (tx_done r) (txFrCtl r).
Definition set_tx_done x r := mkTx (txFd r) (tx_ready r) x (txFrCtl r).
Definition set_txFrCtl x r := mkTx (txFd r) (tx_ready r) (tx_done r) x.
Definition set_rxFd x r := mkRx x (rx_done r) (rx_skb_refill r) (rxFrCtl r) (curr_work_limit r).
Definition set_rx_done x r := mkRx (rxFd r) x (rx_skb_refill r) (rxFrCtl r) (curr_work_limit r).
Definition set_rx_skb_refill x r := mkRx (rxFd r) (rx_done r) x (rxFrCtl r) (curr_work_limit r).
Definition set_rxFrCtl x r := mkRx (rxFd r) (rx_done r) (rx_skb_refill r) x (curr_work_limit r).
Definition set_curr_work_limit x r := mkRx (rxFd r) (rx_done r) (rx_skb_refill r) (rxFrCtl r) x.
Definition set_base_addr x r := mkNetDev x (irq r) (dev_addr r) (quota r) (xoff r) (rx_sched r) (started r) (link r) (mii_timer r) (irqs_held r) (regions_held r).
Definition set_irq x r := mkNetDev (base_addr r) x (dev_addr r) (quota r) (xoff r) (rx_sched r) (started r) (link r) (mii_timer r) (irqs_held r) (regions_held r).
Definition set_dev_addr x r := mkNetDev (base_addr r) (irq r) x (quota r) (xoff r) (rx_sched r) (started r) (link r) (mii_timer r) (irqs_held r) (regions_held r).
Definition set_quota x r := mkNetDev (base_addr r) (irq r) (dev_addr r) x (xoff r) (rx_sched r) (started r) (link r) (mii_timer r) (irqs_held r) (regions_held r).
Definition set_xoff x r := mkNetDev (base_addr r) (irq r) (dev_addr r) (quota r) x (rx_sched r) (started r) (link r) (mii_timer r) (irqs_held r) (regions_held r).
Definition set_rx_sched x r := mkNetDev (base_addr r) (irq r) (dev_addr r) (quota r) (xoff r) x (started r) (link r) (mii_timer r) (irqs_held r) (regions_held r).
Definition set_started x r := mkNetDev (base_addr r) (irq r) (dev_addr r) (quota r) (xoff r) (rx_sched r) x (link r) (mii_timer r) (irqs_held r) (regions_held r).
Definition set_link x r := mkNetDev (base_addr r) (irq r) (dev_addr r) (quota r) (xoff r) (rx_sched r) (started r) x (mii_timer r) (irqs_held r) (regions_held r).
Definition set_mii_timer x r := mkNetDev (base_addr r) (irq r) (dev_addr r) (quota r) (xoff r) (rx_sched r) (started r) (link r) x (irqs_held r) (regions_held r).
Definition set_irqs_held x r := mkNetDev (base_addr r) (irq r) (dev_addr r) (quota r) (xoff r) (rx_sched r) (started r) (link r) (mii_timer r) x (regions_held r).
Definition set_regions_held x r := mkNetDev (base_addr r) (irq r) (dev_addr r) (quota r) (xoff r) (rx_sched r) (started r) (link r) (mii_timer r) (irqs_held r) x.
Section Setters.
Context {H : Type}.
Implicit Types r : Eth H.
Definition set_tx x r := mkEth x (rx r) (net r) (stats r) (mii_on r) (mii_if r) (intmask r) (extmask r) (skbs r) (clock r) (kmallocs r) (accepted r) (delivered r) (freed r) (hw r).
Definition set_rx x r := mkEth (tx r) x (net r) (stats r) (mii_on r) (mii_if r) (intmask r) (extmask r) (skbs r) (clock r) (kmallocs r) (accepted r) (delivered r) (freed r) (hw r).
Definition set_net x r := mkEth (tx r) (rx r) x (stats r) (mii_on r) (mii_if r) (intmask r) (extmask r) (skbs r) (clock r) (kmallocs r) (accepted r) (delivered r) (freed r) (hw r).
Definition set_stats x r := mkEth (tx r) (rx r) (net r) x (mii_on r) (mii_if r) (intmask r) (extmask r) (skbs r) (clock r) (kmallocs r) (accepted r) (delivered r) (freed r) (hw r).
Definition set_mii_on x r := mkEth (tx r) (rx r) (net r) (stats r) x (mii_if r) (intmask r) (extmask r) (skbs r) (clock r) (kmallocs r) (accepted r) (delivered r) (freed r) (hw r).
Definition set_mii_if x r := mkEth (tx r) (rx r) (net r) (stats r) (mii_on r) x (intmask r) (extmask r) (skbs r) (clock r) (kmallocs r) (accepted r) (delivered r) (freed r) (hw r).
Definition set_intmask x r := mkEth (tx r) (rx r) (net r) (stats r) (mii_on r) (mii_if r) x (extmask r) (skbs r) (clock r) (kmallocs r) (accepted r) (delivered r) (freed r) (hw r).
Definition set_extmask x r := mkEth (tx r) (rx r) (net r) (stats r) (mii_on r) (mii_if r) (intmask r) x (skbs r) (clock r) (kmallocs r) (accepted r) (delivered r) (freed r) (hw r).
Definition set_skbs x r := mkEth (tx r) (rx r) (net r) (stats r) (mii_on r) (mii_if r) (intmask r) (extmask r) x (clock r) (kmallocs r) (accepted r) (delivered r) (freed r) (hw r).
Definition set_clock x r := mkEth (tx r) (rx r) (net r) (stats r) (mii_on r) (mii_if r) (intmask r) (extmask r) (skbs r) x (kmallocs r) (accepted r) (delivered r) (freed r) (hw r).
Definition set_kmallocs x r := mkEth (tx r) (rx r) (net r) (stats r) (mii_on r) (mii_if r) (intmask r) (extmask r) (skbs r) (clock r) x (accepted r) (delivered r) (freed r) (hw r).
Definition set_accepted x r := mkEth (tx r) (rx r) (net r) (stats r) (mii_on r) (mii_if r) (intmask r) (extmask r) (skbs r) (clock r) (kmallocs r) x (delivered r) (freed r) (hw r).
Definition set_delivered x r := mkEth (tx r) (rx r) (net r) (stats r) (mii_on r) (mii_if r) (intmask r) (extmask r) (skbs r) (clock r) (kmallocs r) (accepted r) x (freed r) (hw r).
Definition set_freed x r := mkEth (tx r) (rx r) (net r) (stats r) (mii_on r) (mii_if r) (intmask r) (extmask r) (skbs r) (clock r) (kmallocs r) (accepted r) (delivered r) x (hw r).
Definition set_hw (x : H) r := mkEth (tx r) (rx r) (net r) (stats r) (mii_on r) (mii_if r) (intmask r) (extmask r) (skbs r) (clock r) (kmallocs r) (accepted r) (delivered r) (freed r) x.
Definition upd_tx (f : Tx -> Tx) r : Eth H := set_tx (f (tx r)) r.
Definition upd_rx (f : Rx -> Rx) r : Eth H := set_rx (f (rx r)) r.
Definition upd_net (f : NetDev -> NetDev) r : Eth H := set_net (f (net r)) r.
End Setters.

(** ** The parameters *)

(** The registers, and the DMA engine on the descriptors of both rings. *)
Class EthHw (H : Type) : Type := {
  hw_read : Z -> H -> Z * H;
  hw_write : Z -> Z -> H -> H;
  hw_dma : list Fd -> list Fd -> H -> list Fd * list Fd * H;
}.

(** [dev_alloc_skb], given its number and the live buffers of the driver: NULL,
    or the address of a new buffer and its [data]. *)
Class SkbAlloc : Type := {
  alloc_skb : nat -> gset Z -> option (Z * Z);
  alloc_fresh : forall t live a d, alloc_skb t live = Some (a, d) -> a <> 0 /\ a ∉ live;
}.

(** An element of an array. *)
Definition slot {S A} (l : list A) (i : Z) : M S A :=
  if (0 <=? i) && (i <? Z.of_nat (length l)) then
    match l !! Z.to_nat i with Some x => mret x | None => stop_with OutOfBounds end
  else stop_with OutOfBounds.

Section Ops.
Context {H : Type} `{EthHw H} `{SkbAlloc}.
Abbreviation EM A := (M (Eth H) A).
Implicit Types s : Eth H.

(** ** Access *)

(** Here the DMA engine can act. *)
Definition point : EM unit := modify (fun s =>
  let '(t, r, h) := hw_dma (default [] (txFd (tx s))) (default [] (rxFd (rx s))) (hw s) in
  set_hw h (upd_tx (fun x => set_txFd ((fun _ => t) <$> txFd x) x) (upd_rx (fun x => set_rxFd ((fun _ => r) <$> rxFd x) x) s))).

Definition bus_read (a : Z) : EM Z := fun s => let '(v, h) := hw_read (u32 a) (hw s) in Ret v (set_hw h s).
Definition readl (a : Z) : EM Z := point ;; bus_read a.
Definition writel (v a : Z) : EM unit := point ;; modify (fun s => set_hw (hw_write (u32 a) (u32 v) (hw s)) s).

Definition gtx {A} (f : Tx -> A) : EM A := gets (fun s => f (tx s)).
Definition grx {A} (f : Rx -> A) : EM A := gets (fun s => f (rx s)).
Definition gnet {A} (f : NetDev -> A) : EM A := gets (fun s => f (net s)).
Definition mtx (f : Tx -> Tx) : EM unit := modify (upd_tx f).
Definition mrx (f : Rx -> Rx) : EM unit := modify (upd_rx f).
Definition mnet (f : NetDev -> NetDev) : EM unit := modify (upd_net f).
(** A register of the interface. *)
Definition reg_read (off : Z) : EM Z := b ← gnet base_addr; readl (b + off).
Definition reg_write (off v : Z) : EM unit := b ← gnet base_addr; writel v (b + off).
(** [temp = readl (r); writel (temp | m, r)] *)
Definition reg_or (off m : Z) : EM unit := temp ← reg_read off; reg_write off (Z.lor temp m).
Definition reg_clear (off m : Z) : EM unit := temp ← reg_read off; reg_write off (Z.land temp (Z.lnot m)).

(** The descriptors; a null pointer has none. *)
Definition array {A} (a : option A) : EM A := match a with Some l => mret l | None => stop_with NullPointer end.
Definition tx_fd (i : Z) : EM Fd := point ;; a ← gtx txFd; l ← array a; slot l i.
Definition rx_fd (i : Z) : EM Fd := point ;; a ← grx rxFd; l ← array a; slot l i.
Definition put_tx_fd (i : Z) (f : Fd -> Fd) : EM unit :=
  d ← tx_fd i; mtx (fun x => set_txFd ((<[Z.to_nat i := f d]>) <$> txFd x) x).
Definition put_rx_fd (i : Z) (f : Fd -> Fd) : EM unit :=
  d ← rx_fd i; mrx (fun x => set_rxFd ((<[Z.to_nat i := f d]>) <$> rxFd x) x).
Definition with_ptr (p : Z) (d : Fd) : Fd := mkFd p (FDStatLen d).
Definition with_stat (w : Z) (d : Fd) : Fd := mkFd (FDDataPtr d) w.
(** The arrays of socket buffers. *)
Definition tx_ctl (i : Z) : EM Z := l ← gtx txFrCtl; slot l i.
Definition rx_ctl (i : Z) : EM Z := l ← grx rxFrCtl; slot l i.
Definition put_tx_ctl (i v : Z) : EM unit := tx_ctl i ;; mtx (fun x => set_txFrCtl (<[Z.to_nat i := v]> (txFrCtl x)) x).
Definition put_rx_ctl (i v : Z) : EM unit := rx_ctl i ;; mrx (fun x => set_rxFrCtl (<[Z.to_nat i := v]> (rxFrCtl x)) x).

Definition add (c : counter) (n : Z) : EM unit :=
  modify (fun s => set_stats (fun d => if decide (d = c) then u32 (stats s d + n) else stats s d) s).
Definition count (b : bool) (c : counter) : EM unit := when b (add c 1).

(** ** Socket buffers *)

(** The buffer at an address. *)
Definition the_skb (a : Z) : EM SkBuff :=
  if a =? 0 then stop_with NullPointer
  else
    m ← gets skbs;
    match m !! a with Some b => mret b | None => stop_with UseAfterFree end.
Definition drop_skb (a : Z) : EM unit := modify (fun s => set_skbs (delete a (skbs s)) s).
Definition dev_kfree_skb (a : Z) : EM unit :=
  the_skb a ;; drop_skb a ;; modify (fun s => set_freed (freed s ++ [a]) s).

(** The new buffer with [skb_reserve (skb, 2)], or 0. *)
Definition dev_alloc_skb : EM Z := fun s =>
  let s' := set_clock (S (clock s)) s in
  match alloc_skb (clock s) (dom (skbs s)) with
  | Some (a, d) => Ret a (set_skbs (<[a := mkSkb (d + 2) 0]> (skbs s)) s')
  | None => Ret 0 s'
  end.

(** [skb->len += len], [eth_type_trans] and [netif_receive_skb]: the network
    owns the buffer from here on. *)
Definition netif_receive_skb (a len : Z) : EM unit :=
  b ← the_skb a;
  drop_skb a ;; modify (fun s => set_delivered (delivered s ++ [(a, skb_len b + len)]) s).

(** ** The queue of the interface (src/linux2510/include/linux/netdevice.h) *)

Definition netif_start_queue : EM unit := mnet (set_xoff false).
Definition netif_stop_queue : EM unit := mnet (set_xoff true).
Definition netif_wake_queue : EM unit := mnet (set_xoff false).
Definition netif_rx_schedule_prep : EM bool :=
  n ← gets net;
  if started n then mnet (set_rx_sched true) ;; mret (negb (rx_sched n)) else mret false.
(** [weight] is RX_NUM_FD. *)
Definition __netif_rx_schedule : EM unit :=
  mnet (fun n => set_quota (if quota n <? 0 then quota n + RX_NUM_FD else RX_NUM_FD) n).
Definition netif_rx_complete : EM unit :=
  b ← gnet rx_sched;
  if b : bool then mnet (set_rx_sched false) else stop_with AssertionFailed.

(** ** Transmission *)

(** The result; [skb] with [data] and [len] is the stack's buffer, the driver's
    if the result is 0. *)
Definition s3c2510_send_packet (skb data len : Z) : EM Z :=
  index ← gtx tx_ready;
  c ← tx_ctl index;
  if c =? 0 then
    put_tx_fd index (with_ptr (u32 (data - 2))) ;;
    modify (fun s => set_skbs (<[skb := mkSkb data len]> (skbs s)) s) ;;
    put_tx_ctl index skb ;;
    put_tx_fd index (with_stat (Z.lor (Z.shiftl (TxWidSet16 + OWNERSHIP16) 16) len)) ;;
    modify (fun s => set_accepted (accepted s ++ [(u32 (data - 2), len)]) s) ;;
    mtx (set_tx_ready ((index + 1) mod TX_NUM_FD)) ;;
    reg_or BDMATXCON BTxEN ;;
    reg_or MACTXCON MTxEn ;;
    mret 0
  else
    netif_stop_queue ;;
    reg_or BMTXINTEN TxCompIE ;;
    mret (-1).

Definition tx_error_check (statusLen : Z) : EM Z :=
  let status := Z.land (Z.shiftr statusLen 16) 0xffff in
  let len := Z.land statusLen 0xffff in
  if negb (has status (TxS_ExColl + TxS_LateColl + TxS_Paused + TxS_MaxDefer + TxS_Halted + TxS_Par + TxS_Under + TxS_SQErr)) then
    add tx_bytes len ;; add tx_packets 1 ;; mret S3C2510_SUCCESS
  else
    add tx_errors 1 ;;
    count (has status TxS_SQErr) tx_heartbeat_errors ;;
    count (has status TxS_LateColl) tx_window_errors ;;
    count (has status TxS_NCarr) tx_carrier_errors ;;
    count (has status TxS_ExColl) collisions ;;
    count (has status TxS_MaxDefer) tx_aborted_errors ;;
    when (has status (TxS_Par + TxS_Under))
      (add tx_fifo_errors 1 ;;
       if has status TxS_Par then add iTxPar 1 else add iTxUnderflow 1) ;;
    mret S3C2510_FAIL.

(** The loop of [tx_done_check]; the result is [index]. *)
Fixpoint tx_done_loop (n : nat) (index : Z) : EM Z :=
  match n with
  | O => stop_with OutOfFuel
  | S n' =>
      d ← tx_fd index;
      if negb (has (FDStatLen d) (Z.shiftl TxS_Comp 16)) then mret index
      else
        skb ← tx_ctl index;
        d ← tx_fd index;
        tx_error_check (FDStatLen d) ;;
        dev_kfree_skb skb ;;
        put_tx_ctl index 0 ;;
        put_tx_fd index (with_ptr 0) ;;
        put_tx_fd index (with_stat (Z.shiftl TxWidSet16 16)) ;;
        tx_done_loop n' ((index + 1) mod TX_NUM_FD)
  end.
(** 65 turns are enough: each one frees a buffer of the ring. *)
Definition tx_done_check : EM unit :=
  index ← gtx tx_done;
  index ← tx_done_loop 65 index;
  mtx (set_tx_done index).

Definition s3c2510_Tx : EM unit :=
  status ← reg_read BMTXSTAT;
  reg_write BMTXSTAT status ;;
  count (has status BTxEmpty) iBTxEmpty ;;
  stopped ← gnet xoff;
  when (has status TxComp && stopped)
    (tx_done_check ;; reg_clear BMTXINTEN TxCompIE ;; netif_wake_queue).

(** ** Reception *)

Definition rx_error_check (status len : Z) : EM Z :=
  add rx_errors 1 ;;
  when (len =? 0) (add rx_length_errors 1 ;; add iRxZERO 1) ;;
  when (has status (RxS_OvMax + RxS_MUFS)) (add rx_length_errors 1 ;; count (has status RxS_OvMax) iRxLengthOver) ;;
  count (has status RxS_CrcErr) rx_crc_errors ;;
  count (has status RxS_AlignErr) rx_frame_errors ;;
  when (has status (RxS_OFlow + RxS_RxPar))
    (add rx_fifo_errors 1 ;; if has status RxS_OFlow then add iRxOverflow 1 else add iRxParErr 1) ;;
  mret S3C2510_FAIL.

(** A descriptor for the DMA engine: [(OWNERSHIP16 << 16) + PKT_BUF_SZ]. *)
Definition posted : Z := Z.shiftl OWNERSHIP16 16 + PKT_BUF_SZ.

Fixpoint rx_refill_loop (n : nat) (index : Z) : EM Z :=
  match n with
  | O => stop_with OutOfFuel
  | S n' =>
      d ← rx_fd index;
      if negb (FDStatLen d =? 0) then mret index
      else
        c ← rx_ctl index;
        ok ← (if c =? 0 then
                skb ← dev_alloc_skb;
                if skb =? 0 then mret false
                else
                  put_rx_ctl index skb ;;
                  b ← the_skb skb;
                  put_rx_fd index (with_ptr (skb_data b)) ;;
                  mret true
              else mret true);
        if ok : bool then
          put_rx_fd index (with_stat posted) ;;
          rx_refill_loop n' ((index + 1) mod RX_NUM_FD)
        else mret index
  end.
Definition rx_refill_skb : EM unit :=
  index ← grx rx_skb_refill;
  index ← rx_refill_loop 65 index;
  mrx (set_rx_skb_refill index).

(** The loop of [rx_done_check]; the result is [index] and [received]. *)
Fixpoint rx_done_loop (n : nat) (index received : Z) : EM (Z * Z) :=
  match n with
  | O => stop_with OutOfFuel
  | S n' =>
      d ← rx_fd index;
      let status := Z.land (Z.shiftr (FDStatLen d) 16) 0x7fff in
      limit ← grx curr_work_limit;
      if (status =? 0) || (limit <=? 0) then mret (index, received)
      else
        d ← rx_fd index;
        let len := Z.land (FDStatLen d) 0xffff in
        got ← (if has status RxS_Done then
                 skb ← rx_ctl index;
                 add rx_bytes len ;; add rx_packets 1 ;;
                 netif_receive_skb skb len ;;
                 mrx (set_curr_work_limit (limit - 1)) ;;
                 put_rx_ctl index 0 ;;
                 mret 1
               else rx_error_check status len ;; mret 0);
        put_rx_fd index (with_stat 0) ;;
        rx_done_loop n' ((index + 1) mod RX_NUM_FD) (received + got)
  end.
Definition rx_done_check : EM Z :=
  index ← grx rx_done;
  '(index, received) ← rx_done_loop 65 index 0;
  mrx (set_rx_done index) ;;
  refill ← grx rx_skb_refill;
  let len := index - refill in
  let len := if len <? 0 then len + RX_NUM_FD else len in
  when ((RX_NUM_FD / 4 <? len) || (len =? 0)) rx_refill_skb ;;
  mret received.

Definition enable_rx_and_rxnobuf_ints : EM unit := reg_or BMRXINTEN (Z.lor BRxDoneIE BRxFullIE).
Definition disable_rx_and_rxnobuf_ints : EM unit := reg_clear BMRXINTEN (Z.lor BRxDoneIE BRxFullIE).

Definition s3c2510_Rx : EM unit :=
  RxStat ← reg_read BMRXSTAT;
  MacRxStat ← reg_read MACRXSTAT;
  reg_write BMRXSTAT (Z.land RxStat (Z.lnot (Z.lor BRxDone BRxFull))) ;;
  count (has RxStat BRxNO) rx_over_errors ;;
  when (has RxStat MissRoll) (v ← reg_read MISSCNT; add rx_missed_errors (Z.land v 0xffff)) ;;
  count (has MacRxStat MRxShort) iMRxShort ;;
  when (has RxStat (Z.lor BRxDone BRxFull))
    (p ← netif_rx_schedule_prep;
     if p : bool then disable_rx_and_rxnobuf_ints ;; __netif_rx_schedule
     else disable_rx_and_rxnobuf_ints).

(** The result, and what is left of [budget]. *)
Definition s3c2510_poll (budget : Z) : EM (Z * Z) :=
  RxStat ← reg_read BMRXSTAT;
  reg_write BMRXSTAT RxStat ;;
  tx_done_check ;;
  q ← gnet quota;
  mrx (set_curr_work_limit (if q <? budget then q else budget)) ;;
  received ← rx_done_check;
  mnet (fun n => set_quota (quota n - received) n) ;;
  limit ← grx curr_work_limit;
  let done := negb (limit <=? received) in
  when done
    (netif_rx_complete ;;
     enable_rx_and_rxnobuf_ints ;;
     reg_or BDMARXCON BRxEN ;;
     reg_or MACRXCON MRxEn) ;;
  mret (if done then 0 else 1, budget - received).
End Ops.
