(* ===== verification/EthDev.v ===== *)
(** * The Ethernet driver of the S3C2510: the device
    (src/linux2510/drivers/net/s3c2510.c)

    Transceiver access, ioctl, the address filter, start and stop of the
    interface, its buffers, and the probe.  The operations on the rings are in [Eth]. *)

From S2P Require Import Prelude Mii Eth.

Definition ENOMEM : Z := 12.
Definition EAGAIN : Z := 11.
Definition EFAULT : Z := 14.
Definition ENODEV : Z := 19.
Definition IFF_PROMISC : Z := 0x100.
Definition IFF_ALLMULTI : Z := 0x200.
Definition SIOCETHTOOL : Z := 0x8946.
Definition ETHTOOL_GSET : Z := 1.
Definition ETHTOOL_SSET : Z := 2.
Definition ETHTOOL_GDRVINFO : Z := 3.
Definition ETHTOOL_NWAY_RST : Z := 9.
Definition ETHTOOL_GLINK : Z := 10.
Definition MPHYHWADDR0 : Z := 1.
Definition MPHYHWADDR1 : Z := 0xff.
Definition ext_irqs : Z := 6.

(** The registers the driver emulates for a switch. *)
Definition switch_phy_emulation : list Z :=
  [BMCR_FULLDPLX + BMCR_SPEED100; BMSR_LSTATUS + BMSR_100FULL + BMSR_10FULL; ADVERTISE_FULL; LPA_100FULL]
  ++ repeat 0 28.

Definition hw_initial_set : list (Z * Z) :=
  [(BMTXINTEN, 0); (BMRXINTEN, 0);
   (MACCON, Z.lor (Z.lor (Z.lor MFullDup MReset) MHaltReq) MHaltImm);
   (BDMATXCON, Z.lor (Z.lor BTxRS SET_BTxNBD) SET_BTxMSL);
   (BDMARXCON, Z.lor (Z.lor BRxRS SET_BRxNBD) BRxAlignSkip2);
   (MACTXCON, MTxHalt);
   (MACRXCON, Z.lor MRxHalt MStripCRC);
   (MACCON, Z.lor (Z.lor MFullDup MHaltReq) MHaltImm);
   (BDMATXCON, Z.lor SET_BTxNBD SET_BTxMSL);
   (BDMARXCON, Z.lor SET_BRxNBD BRxAlignSkip2);
   (CAMEN, 0)].

Definition hw_start_set : list (Z * Z) :=
  [(BDMATXCON, Z.lor (Z.lor BTxEN SET_BTxNBD) SET_BTxMSL);
   (BDMARXCON, Z.lor (Z.lor BRxEN SET_BRxNBD) BRxAlignSkip2);
   (MACTXCON, MTxEn);
   (MACRXCON, Z.lor MRxEn MStripCRC);
   (MACCON, MFullDup);
   (BMTXINTEN, Z.lor TxCFcompIE BTxEmptyIE);
   (BMRXINTEN, Z.lor (Z.lor (Z.lor BRxDoneIE BRxFullIE) BRxNOIE) MissRollIE)].

(** What an ethtool request returns to the user. *)
Inductive ethreply : Type :=
| NoReply
| DrvInfo (addr irq : Z)
| Settings (ecmd : ethtool_cmd)
| Link (v : Z)
| MiiData (d : mii_ioctl_data).

Section Dev.
Context {H : Type} `{EthHw H} `{SkbAlloc}.
Abbreviation EM A := (M (Eth H) A).

(** ** The transceiver *)

(** The loop of [PHYWait] from the [i]-th turn; [n] is [PHY_BUSYLOOP_COUNT - i]. *)
Fixpoint PHYWait_loop (n : nat) : EM Z :=
  v ← readl (ETH0OFF + STACON);
  if has v MPHYbusy then
    match n with O => mret S3C2510_TIMEOUT | S n' => PHYWait_loop n' end
  else mret S3C2510_SUCCESS.
Definition PHYWait : EM Z := PHYWait_loop (Z.to_nat PHY_BUSYLOOP_COUNT).

Definition sta_address (phy reg : Z) : Z := Z.lor (Z.shiftl (Z.land phy 0x1f) 5) (Z.land reg 0x1f).

Definition s3c2510_mdio_read (phy reg : Z) : EM Z :=
  mii ← gets mii_on;
  if mii : bool then
    r ← PHYWait;
    if negb (S3C2510_SUCCESS =? r) then mret S3C2510_TIMEOUT
    else
      writel (Z.lor MPHYbusy (sta_address phy reg)) (ETH0OFF + STACON) ;;
      r ← PHYWait;
      if negb (S3C2510_SUCCESS =? r) then mret S3C2510_TIMEOUT
      else readl (ETH0OFF + STADATA)
  else slot switch_phy_emulation reg.

Definition s3c2510_mdio_write (phy reg val : Z) : EM unit :=
  mii ← gets mii_on;
  if mii : bool then
    r ← PHYWait;
    if negb (S3C2510_SUCCESS =? r) then mret tt
    else
      writel val (ETH0OFF + STADATA) ;;
      writel (Z.lor (Z.lor MPHYwrite MPHYbusy) (sta_address phy reg)) (ETH0OFF + STACON)
  else mret tt.

#[export] Instance eth_mii : MiiDev (Eth H) := {
  get_mii := mii_if;
  put_mii := set_mii_if;
  carrier := fun s => link (net s);
  put_carrier := fun b => upd_net (set_link b);
  mdio_read := s3c2510_mdio_read;
  mdio_write := s3c2510_mdio_write;
}.

(** The control register follows the duplex. *)
Definition set_duplex : EM unit :=
  m ← gets mii_if;
  reg_write MACCON (if full_duplex m then MCtlSETUP else Z.land MCtlSETUP (Z.lnot MFullDup)).
Definition check_duplex (init_media : bool) : EM unit :=
  changed ← mii_check_media init_media;
  when (negb (changed =? 0)) set_duplex ;;
  mnet (set_mii_timer true).

Definition mii_watchdog : EM unit := check_duplex false.
Definition mii_start : EM unit := b ← gets mii_on; when b (check_duplex true).

Definition mii_initial_setup (phy : Z) : EM unit :=
  (if phy <=? 0x1f then modify (set_mii_on true)
   else
     modify (set_mii_on false) ;;
     modify (fun s => set_mii_if (set_advertising ADVERTISE_100FULL (set_force_media true (mii_if s))) s)) ;;
  modify (fun s => set_mii_if (mkMii phy (advertising (mii_if s)) 0x1f 0x1f true (force_media (mii_if s))) s).

Definition ethernetLinkCheck : EM Z :=
  b ← gets mii_on;
  if b : bool then mii_link_ok else mret 1.

(** ** ioctl *)

(** [rd], [wr]: the user's memory can be read and written; [ethcmd] and [ecmd] are what it holds. *)
Definition netdev_ethtool_ioctl (rd wr : bool) (ethcmd : Z) (ecmd : ethtool_cmd) : EM (Z * ethreply) :=
  if negb rd then mret (- EFAULT, NoReply)
  else if ethcmd =? ETHTOOL_GDRVINFO then
    n ← gets net;
    mret (if wr then (0, DrvInfo (base_addr n) (irq n)) else (- EFAULT, NoReply))
  else if ethcmd =? ETHTOOL_GSET then
    '(_, e) ← mii_ethtool_gset;
    mret (if wr then (0, Settings e) else (- EFAULT, NoReply))
  else if ethcmd =? ETHTOOL_SSET then
    r ← mii_ethtool_sset ecmd; mret (r, NoReply)
  else if ethcmd =? ETHTOOL_NWAY_RST then
    r ← mii_nway_restart; mret (r, NoReply)
  else if ethcmd =? ETHTOOL_GLINK then
    l ← mii_link_ok;
    mret (if wr then (0, Link l) else (- EFAULT, NoReply))
  else mret (- EOPNOTSUPP, NoReply).

(** [junk]: what the variable [rc] holds before it is set. *)
Definition netdev_ioctl (junk : Z) (rd wr capable : bool) (cmd ethcmd : Z) (ecmd : ethtool_cmd) (data : mii_ioctl_data) :
    EM (Z * ethreply) :=
  m ← gets mii_if;
  let mii_duplex_prev := full_duplex m in
  '(rc, reply) ←
    (if cmd =? SIOCETHTOOL then netdev_ethtool_ioctl rd wr ethcmd ecmd
     else if cmd =? SIOCDEVPRIVATE + 9 then
       status ← ethernetLinkCheck;
       status ← (if status =? 1 then mret 1 else ethernetLinkCheck);
       mret (junk, if wr then Link (if status =? 1 then 1 else 0) else NoReply)
     else
       '(rc, d) ← generic_mii_ioctl capable cmd data;
       mret (rc, MiiData d));
  m ← gets mii_if;
  when (negb (Bool.eqb mii_duplex_prev (full_duplex m))) set_duplex ;;
  mret (rc, reply).

(** ** The address filter *)

Definition byte_of (a : bytes) (i : nat) : Z := nth i a 0.
Definition word4 (b0 b1 b2 b3 : Z) : Z :=
  Z.lor (Z.lor (Z.lor (Z.shiftl b0 24) (Z.shiftl b1 16)) (Z.shiftl b2 8)) b3.
Definition SetUpARC (addr : bytes) : EM Z :=
  let b := byte_of addr in
  save ← reg_read CAMEN;
  reg_write CAMEN 0 ;;
  temp ← reg_read (CAM + 4 * 4);
  let temp := Z.lor (Z.lor (Z.land temp 0x0000ffff) (Z.shiftl (b 4%nat) 24)) (Z.shiftl (b 5%nat) 16) in
  reg_write (CAM + 3 * 4) (word4 (b 0%nat) (b 1%nat) (b 2%nat) (b 3%nat)) ;;
  reg_write (CAM + 4 * 4) temp ;;
  reg_write CAMEN (Z.lor save (Z.shiftl 1 2)) ;;
  reg_or CAMCON MCompEn ;;
  mnet (set_dev_addr (take (Z.to_nat NUM_HW_ADDR) addr)) ;;
  mret 0.
Definition SetUpMAC (sa_data : bytes) : EM Z := SetUpARC sa_data ;; mret 0.

(** One address at position [i]. *)
Definition filter_entry (a : bytes) (i : Z) : EM unit :=
  let b := byte_of a in
  let offset := CAM + (3 + (i * 3) / 2) * 4 in
  if has i 1 then
    data ← reg_read offset;
    reg_write offset (Z.lor (Z.lor (Z.land 0xffff0000 data) (Z.shiftl (b 0%nat) 8)) (b 1%nat)) ;;
    reg_write (offset + 4) (word4 (b 2%nat) (b 3%nat) (b 4%nat) (b 5%nat))
  else
    data ← reg_read (offset + 4);
    reg_write offset (word4 (b 0%nat) (b 1%nat) (b 2%nat) (b 3%nat)) ;;
    reg_write (offset + 4) (Z.lor (Z.lor (Z.land 0x0000ffff data) (Z.shiftl (b 4%nat) 24)) (Z.shiftl (b 5%nat) 16)).
Fixpoint filter_loop (l : list bytes) (i enableMask : Z) : EM Z :=
  match l with
  | [] => mret enableMask
  | a :: l' =>
      if i <? HW_MAX_ADDRS - 1 then
        filter_entry a i ;; filter_loop l' (i + 1) (Z.lor enableMask (Z.shiftl 1 (i + 2)))
      else mret enableMask
  end.
Definition HardwareSetFilter (mc_list : list bytes) : EM unit :=
  enableMask ← filter_loop mc_list 1 0;
  reg_write CAMEN enableMask.

Definition set_multicast_list (flags : Z) (mc_list : list bytes) (mc_count : Z) : EM unit :=
  reg_write CAMEN 0 ;;
  if has flags IFF_PROMISC then reg_write CAMCON (Z.lor (Z.lor MBroad MGroup) MStation)
  else
    (if has flags IFF_ALLMULTI || (HW_MAX_ADDRS - 1 <? mc_count) then
       reg_write CAMCON (Z.lor (Z.lor MCompEn MBroad) MGroup)
     else if negb (mc_count =? 0) then
       HardwareSetFilter mc_list ;; reg_write CAMCON (Z.lor MCompEn MBroad)
     else
       a ← gnet dev_addr;
       SetUpARC a ;; reg_write CAMCON (Z.lor MCompEn MBroad)) ;;
    reg_or CAMEN (Z.shiftl 1 2).

(** ** Start of the hardware *)

Fixpoint initial_CAM_loop (n : nat) (i : Z) : EM unit :=
  match n with
  | O => mret tt
  | S n' => reg_write (CAM + i * 4) 0xffffffff ;; initial_CAM_loop n' (i + 1)
  end.
Definition initial_CAM_Contents : EM unit := initial_CAM_loop 32 0.

Fixpoint write_set (l : list (Z * Z)) : EM unit :=
  match l with
  | [] => mret tt
  | (off, v) :: l' => reg_write off v ;; write_set l'
  end.

(** arch/armnommu/mach-2510REF/irq.c *)
Definition mask_irq (n : Z) : EM unit := modify (fun s =>
  if ext_irqs <=? n then set_intmask (Z.lor (intmask s) (Z.shiftl 1 (n - ext_irqs))) s
  else set_extmask (Z.lor (extmask s) (Z.shiftl 1 n)) s).
Definition unmask_irq (n : Z) : EM unit := modify (fun s =>
  if ext_irqs <=? n then set_intmask (Z.land (intmask s) (Z.lnot (Z.shiftl 1 (n - ext_irqs)))) s
  else set_extmask (Z.land (extmask s) (Z.lnot (Z.shiftl 1 n))) s).
(** Both interrupts of the interface. *)
Definition both_irqs (f : Z -> EM unit) : EM unit := n ← gnet irq; f n ;; f (n + 1).

Definition hw_init : EM unit := both_irqs mask_irq ;; write_set hw_initial_set ;; initial_CAM_Contents.
Definition hw_start : EM unit := hw_init ;; write_set hw_start_set ;; both_irqs unmask_irq.

(** ** Buffers *)

Fixpoint setup_tx_loop (n : nat) (i : Z) : EM unit :=
  match n with
  | O => mret tt
  | S n' =>
      put_tx_ctl i 0 ;;
      put_tx_fd i (with_ptr 0) ;;
      put_tx_fd i (with_stat (Z.shiftl TxWidSet16 16)) ;;
      setup_tx_loop n' (i + 1)
  end.
Definition SetupTxFDs : EM Z :=
  setup_tx_loop (Z.to_nat TX_NUM_FD) 0 ;;
  mtx (set_tx_done 0) ;; mtx (set_tx_ready 0) ;;
  mret S3C2510_SUCCESS.

(** [for (; --i >= 0;)] of SetupRxFDs, where [i] is unsigned. *)
Fixpoint no_mem_rxFd (n : nat) (i : Z) : EM unit :=
  match n with
  | O => stop_with OutOfFuel
  | S n' =>
      let i := u32 (i - 1) in
      if 0 <=? i then
        c ← rx_ctl i;
        dev_kfree_skb c ;;
        put_rx_ctl i 0 ;;
        no_mem_rxFd n' i
      else mret tt
  end.
(** The result is the position at which there was no memory. *)
Fixpoint setup_rx_loop (n : nat) (i : Z) : EM (option Z) :=
  match n with
  | O => mret None
  | S n' =>
      skb ← dev_alloc_skb;
      if skb =? 0 then mret (Some i)
      else
        put_rx_ctl i skb ;;
        b ← the_skb skb;
        put_rx_fd i (with_ptr (skb_data b)) ;;
        put_rx_fd i (with_stat posted) ;;
        setup_rx_loop n' (i + 1)
  end.
Definition SetupRxFDs : EM Z :=
  r ← setup_rx_loop (Z.to_nat RX_NUM_FD) 0;
  match r with
  | Some i => no_mem_rxFd 65 i ;; mret S3C2510_FAIL
  | None => mrx (set_rx_done 0) ;; mrx (set_rx_skb_refill 0) ;; mret S3C2510_SUCCESS
  end.

Fixpoint remove_loop (get : Z -> EM Z) (put : Z -> Z -> EM unit) (n : nat) (i : Z) : EM unit :=
  match n with
  | O => mret tt
  | S n' =>
      c ← get i;
      when (negb (c =? 0)) (dev_kfree_skb c ;; put i 0) ;;
      remove_loop get put n' (i + 1)
  end.
Definition remove_skb_in_HW : EM unit :=
  remove_loop tx_ctl put_tx_ctl (Z.to_nat TX_NUM_FD) 0 ;;
  remove_loop rx_ctl put_rx_ctl (Z.to_nat RX_NUM_FD) 0.

Definition release_buffers : EM Z :=
  remove_skb_in_HW ;;
  mtx (set_txFd None) ;; mrx (set_rxFd None) ;;
  mret 0.

Definition kmalloc : EM (option (Z * (nat -> Fd))) := fun s =>
  match kmallocs s with
  | [] => Ret None s
  | k :: l => Ret k (set_kmallocs l s)
  end.
Definition fd_array (num : Z) (c : nat -> Fd) : list Fd := c <$> seq 0 (Z.to_nat num).

Definition allocate_buffers : EM Z :=
  let no_mem := release_buffers ;; mret (- ENOMEM) in
  k ← kmalloc;
  match k with
  | None => mrx (set_rxFd None) ;; no_mem
  | Some (rx_addr, c) =>
      mrx (set_rxFd (Some (fd_array RX_NUM_FD c))) ;;
      r ← SetupRxFDs;
      if negb (r =? 0) then no_mem
      else
        k ← kmalloc;
        match k with
        | None => mtx (set_txFd None) ;; no_mem
        | Some (tx_addr, c) =>
            mtx (set_txFd (Some (fd_array TX_NUM_FD c))) ;;
            r ← SetupTxFDs;
            if negb (r =? 0) then no_mem
            else
              reg_write BDMATXDPTR tx_addr ;;
              reg_write BTXBDCNT 0 ;;
              reg_write BDMARXDPTR rx_addr ;;
              reg_write BRXBDCNT 0 ;;
              reg_write BDMARXLEN (Z.lor MAX_PKT_SIZE (Z.shiftl PKT_BUF_SZ 16)) ;;
              mret 0
        end
  end.

(** ** The interface *)

(** arch/armnommu/kernel/irq.c: [enable_irq] and [disable_irq] mask in the
    controller. *)
Definition s3c2510_open : EM Z :=
  allocate_buffers ;;
  hw_start ;;
  both_irqs unmask_irq ;;
  mii_start ;;
  netif_start_queue ;;
  mret S3C2510_SUCCESS.

Definition s3c2510_close : EM Z :=
  netif_stop_queue ;;
  b ← gets mii_on;
  when b (mnet (set_mii_timer false)) ;;
  hw_init ;;
  release_buffers ;;
  mret 0.

Definition s3c2510_tx_timeout : EM unit :=
  reg_read BDMATXCON ;; reg_read MACCON ;; reg_read MACTXCON ;; reg_read BMTXSTAT ;; reg_read MACTXSTAT ;;
  hw_init ;;
  remove_skb_in_HW ;;
  SetupTxFDs ;;
  SetupRxFDs ;;
  hw_start ;;
  netif_wake_queue ;;
  add tx_errors 1.

Definition s3c2510_get_stats : EM (counter -> Z) := gets stats.

(** ** Probe *)

(** [request_irq] without sharing, and [free_irq] of the handler of this device. *)
Definition request_irq (n : Z) : EM bool :=
  l ← gnet irqs_held;
  if decide (n ∈ l) then mret false
  else mnet (set_irqs_held (n :: l)) ;; unmask_irq n ;; mret true.
Definition free_irq (n : Z) : EM unit := mnet (fun d => set_irqs_held (filter (fun m => m <> n) (irqs_held d)) d).
Definition check_mem_region (a : Z) : EM bool := l ← gnet regions_held; mret (bool_decide (a ∈ l)).
Definition request_mem_region (a : Z) : EM bool :=
  busy ← check_mem_region a;
  if busy : bool then mret false
  else mnet (fun d => set_regions_held (a :: regions_held d) d) ;; mret true.
Definition release_mem_region (a : Z) : EM unit :=
  mnet (fun d => set_regions_held (filter (fun m => m <> a) (regions_held d)) d).

(** [ETH0_TX_IRQ] and [ETH1_TX_IRQ] are defined outside the sources; the address of
    the interface is read from the flash memory. *)
Context (tx_irq : Z -> Z) (flash : Z -> bytes).

Record board_entry : Type := mkBoard { ioaddr : Z; board_phy : Z; board_irq : Z }.
Definition board_info : list board_entry :=
  [mkBoard ETH0OFF MPHYHWADDR0 (tx_irq 0); mkBoard ETH1OFF MPHYHWADDR1 (tx_irq 1)].

Definition zero_priv : EM unit :=
  modify (set_tx (mkTx None 0 0 (replicate 64 0))) ;;
  modify (set_rx (mkRx None 0 0 (replicate 64 0) 0)) ;;
  modify (set_stats (fun _ => 0)) ;;
  modify (set_mii_on false) ;;
  modify (set_mii_if (mkMii 0 0 0 0 false false)).

Definition s3c2510_probe1 (chan : Z) : EM Z :=
  e ← slot board_info chan;
  mnet (set_irq (board_irq e)) ;; mnet (set_base_addr (ioaddr e)) ;;
  let n := board_irq e in
  ok ← request_irq n;
  if negb ok then mret (- EAGAIN)
  else
    ok ← request_irq (n + 1);
    if negb ok then free_irq n ;; mret (- EAGAIN)
    else
      ok ← request_mem_region (ioaddr e);
      if negb ok then free_irq n ;; free_irq n ;; mret (- EAGAIN)
      else
        k ← kmalloc;
        match k with
        | None =>
            release_mem_region (ioaddr e) ;; free_irq n ;; free_irq n ;; mret (- ENOMEM)
        | Some _ =>
            both_irqs mask_irq ;;
            hw_init ;;
            zero_priv ;;
            mnet (set_dev_addr (flash (0x80200000 - (if chan =? 0 then 7 else 13)))) ;;
            mii_initial_setup (board_phy e) ;;
            mret S3C2510_SUCCESS
        end.

Fixpoint probe_loop (n : nat) (i : Z) : EM Z :=
  match n with
  | O => mret (- ENODEV)
  | S n' =>
      e ← slot board_info i;
      busy ← check_mem_region (ioaddr e);
      if busy : bool then probe_loop n' (i + 1)
      else
        r ← s3c2510_probe1 i;
        if r =? 0 then mret 0 else probe_loop n' (i + 1)
  end.
Definition s3c2510_probe : EM Z := probe_loop 2 0.

Definition s3c2510_cleanup : EM Z :=
  n ← gets net;
  free_irq (irq n) ;; free_irq (irq n + 1) ;; release_mem_region (base_addr n) ;;
  mret S3C2510_SUCCESS.
End Dev.
