(* ===== verification/EthChip.v ===== *)
(** * The Ethernet controller: what the driver relies on

    The behaviour of the controller that the driver of src/linux2510/drivers/net/s3c2510.c
    uses, as laws of the parameter [EthHw]: the DMA engine takes the descriptors
    of a ring in order, those it owns only, and the registers read back.  [Sim] is a
    controller that obeys them, for concrete runs. *)

From S2P Require Import Prelude Mii Eth.

(** ** The controller *)

(** The frames transmitted and received since the counters of descriptors were
    written, and the registers by offset. *)
Record Chip : Type := mkChip {
  tx_log : list (Z * Z);
  rx_log : list Z;
  regs : Z -> Z;
}.
Definition upd (r : Z -> Z) (off v : Z) : Z -> Z := fun o => if o =? off then v else r o.
Definition with_regs (f : (Z -> Z) -> Z -> Z) (c : Chip) : Chip := mkChip (tx_log c) (rx_log c) (f (regs c)).
Definition set_reg (off v : Z) : Chip -> Chip := with_regs (fun r => upd r off v).
Definition raise (off m : Z) (c : Chip) : Chip := set_reg off (Z.lor (regs c off) m) c.
Definition lower (off m : Z) (c : Chip) : Chip := set_reg off (Z.land (regs c off) (Z.lnot m)) c.

(** Fields of the word [FDStatLen]. *)
Definition fd_owned (w : Z) : bool := has w (Z.shiftl OWNERSHIP16 16).
Definition fd_comp (w : Z) : bool := has w (Z.shiftl TxS_Comp 16).
Definition fd_status (w : Z) : Z := Z.land (Z.shiftr w 16) 0x7fff.
Definition fd_len (w : Z) : Z := Z.land w 0xffff.

(** Position of the [k]-th frame in a ring. *)
Definition at_ring (k : nat) : nat := (k mod 64)%nat.

(** What the controller does by itself to the rings: it ends the transmission of
    the next frame, fills the next receive descriptor, raises events, or stops
    one of its directions. *)
Inductive move : list Fd * list Fd * Chip -> list Fd * list Fd * Chip -> Prop :=
| tx_sends T X c d w :
    has (regs c BDMATXCON) BTxEN ->
    T !! at_ring (length (tx_log c)) = Some d -> fd_owned (FDStatLen d) ->
    fd_comp w -> fd_owned w = false -> fd_len w = fd_len (FDStatLen d) ->
    move (T, X, c)
      (<[at_ring (length (tx_log c)) := with_stat w d]> T, X,
       raise BMTXSTAT TxComp (mkChip (tx_log c ++ [(FDDataPtr d, fd_len w)]) (rx_log c) (regs c)))
| rx_fills T X c d w :
    has (regs c BDMARXCON) BRxEN ->
    X !! at_ring (length (rx_log c)) = Some d -> fd_owned (FDStatLen d) ->
    fd_status w <> 0 -> fd_owned w = false ->
    move (T, X, c)
      (T, <[at_ring (length (rx_log c)) := with_stat w d]> X,
       raise BMRXSTAT BRxDone (mkChip (tx_log c) (rx_log c ++ [w]) (regs c)))
| tx_event T X c m : has m TxComp = false -> move (T, X, c) (T, X, raise BMTXSTAT m c)
| rx_event T X c m : move (T, X, c) (T, X, raise BMRXSTAT m c)
| tx_halts T X c : move (T, X, c) (T, X, lower BDMATXCON BTxEN c)
| rx_halts T X c : move (T, X, c) (T, X, lower BDMARXCON BRxEN c).

(** A write of the driver: status bits are cleared by writing 1, a write of 0
    to a counter restarts its ring, the other registers keep the value. *)
Definition chip_write (off v : Z) (c : Chip) : Chip :=
  if (off =? BMTXSTAT) || (off =? BMRXSTAT) then lower off v c
  else if off =? BTXBDCNT then mkChip [] (rx_log c) (regs c)
  else if off =? BRXBDCNT then mkChip (tx_log c) [] (regs c)
  else set_reg off v c.

(** The registers of an interface that are described here. *)
Definition known_regs : list Z :=
  [BDMATXCON; BDMARXCON; BDMATXDPTR; BDMARXDPTR; BTXBDCNT; BRXBDCNT; BMTXINTEN; BMRXINTEN; BMTXSTAT; BMRXSTAT;
   BDMARXLEN; MACCON; CAMCON; MACTXCON; MACRXCON; CAMEN].
Definition known (off : Z) : bool :=
  bool_decide (off ∈ known_regs) || ((CAM <=? off) && (off <? CAM + 128) && (off mod 4 =? 0)).

(** The controller at [base] obeys the laws; the registers of the transceiver bus are
    not part of an interface. *)
Class EthLaws (H : Type) `{EthHw H} (base : Z) : Type := {
  obs : H -> Chip;
  obs_dma T X h T' X' h' : hw_dma T X h = (T', X', h') -> rtc move (T, X, obs h) (T', X', obs h');
  obs_read a h v h' : hw_read a h = (v, h') -> obs h' = obs h;
  read_known off h v h' : known off -> hw_read (u32 (base + off)) h = (v, h') -> v = regs (obs h) off;
  write_known off v h : known off -> obs (hw_write (u32 (base + off)) v h) = chip_write off v (obs h);
  write_sta off v h :
    off = STACON \/ off = STADATA -> obs (hw_write (u32 (ETH0OFF + off)) v h) = obs h;
}.

(** ** A controller that obeys them *)

Module Sim.

(** At each access the next entry of the schedule happens if it can: the end of the next
    transmission or a reception, with its status word, or an event. *)
Inductive event : Type :=
| Sends (w : Z)
| Fills (w : Z)
| TxEvent (m : Z).
Record sim : Type := mkSim { sim_chip : Chip; schedule : list event }.

Definition base : Z := ETH0OFF.

Definition step (e : event) (T X : list Fd) (c : Chip) : option (list Fd * list Fd * Chip) :=
  match e with
  | Sends w =>
      let i := at_ring (length (tx_log c)) in
      d ← T !! i;
      if has (regs c BDMATXCON) BTxEN && fd_owned (FDStatLen d) && fd_comp w && negb (fd_owned w) && (fd_len w =? fd_len (FDStatLen d))
      then Some (<[i := with_stat w d]> T, X,
             raise BMTXSTAT TxComp (mkChip (tx_log c ++ [(FDDataPtr d, fd_len w)]) (rx_log c) (regs c)))
      else None
  | Fills w =>
      let i := at_ring (length (rx_log c)) in
      d ← X !! i;
      if has (regs c BDMARXCON) BRxEN && fd_owned (FDStatLen d) && negb (fd_status w =? 0) && negb (fd_owned w)
      then Some (T, <[i := with_stat w d]> X,
             raise BMRXSTAT BRxDone (mkChip (tx_log c) (rx_log c ++ [w]) (regs c)))
      else None
  | TxEvent m => if has m TxComp then None else Some (T, X, raise BMTXSTAT m c)
  end.

Definition dma (T X : list Fd) (h : sim) : list Fd * list Fd * sim :=
  match schedule h with
  | [] => (T, X, h)
  | e :: l =>
      match step e T X (sim_chip h) with
      | Some (T', X', c) => (T', X', mkSim c l)
      | None => (T, X, h)
      end
  end.
Definition is_sta (a : Z) : bool := (a =? u32 (ETH0OFF + STACON)) || (a =? u32 (ETH0OFF + STADATA)).
Definition read (a : Z) (h : sim) : Z * sim :=
  (if is_sta a then 0 else regs (sim_chip h) (a - base), h).
Definition write (a v : Z) (h : sim) : sim :=
  if is_sta a then h else mkSim (chip_write (a - base) v (sim_chip h)) (schedule h).

#[export] Instance sim_hw : EthHw sim := {| hw_read := read; hw_write := write; hw_dma := dma |}.

Lemma step_moves e T X c T' X' c' : step e T X c = Some (T', X', c') -> move (T, X, c) (T', X', c').
Proof.
  destruct e as [w|w|m]; simpl; intros E.
  - destruct (T !! _) as [d|] eqn:L; [|done]. simpl in E.
    destruct (_ && _) eqn:B; [|done]. injection E as <- <- <-.
    rewrite !andb_true_iff, negb_true_iff, Z.eqb_eq in B. destruct B as [[[[? ?] ?] ?] ?].
    apply tx_sends; auto using Is_true_eq_left.
  - destruct (X !! _) as [d|] eqn:L; [|done]. simpl in E.
    destruct (_ && _) eqn:B; [|done]. injection E as <- <- <-.
    rewrite !andb_true_iff, !negb_true_iff, Z.eqb_neq in B. destruct B as [[[? ?] ?] ?].
    apply rx_fills; auto using Is_true_eq_left.
  - destruct (has m TxComp) eqn:B; [done|]. injection E as <- <- <-. by apply tx_event.
Qed.

Lemma known_bounds off : known off -> 0 <= off < 0x10100 /\ off <> STACON /\ off <> STADATA.
Proof.
  unfold known. rewrite orb_True, !andb_True, bool_decide_spec. intros [E|E].
  - unfold known_regs in E. rewrite !elem_of_cons, elem_of_nil in E.
    repeat (destruct E as [->|E]; [done|]). done.
  - unfold CAM, STACON, STADATA in *. rewrite !Is_true_true, Z.leb_le, Z.ltb_lt in E. lia.
Qed.

Lemma known_addr off : known off -> u32 (base + off) - base = off /\ is_sta (u32 (base + off)) = false.
Proof.
  intros K%known_bounds.
  assert (E : u32 (base + off) = base + off) by (apply u32_small; unfold base, ETH0OFF, is_u32; lia).
  rewrite E. split; [lia|]. unfold is_sta. rewrite orb_false_iff, !Z.eqb_neq, !u32_small
    by (unfold ETH0OFF, STACON, STADATA, is_u32; lia). unfold base. lia.
Qed.

#[export] Program Instance sim_laws : EthLaws sim base := {| obs := sim_chip |}.
Next Obligation.
  intros T X [c [|e l]] T' X' h'; unfold hw_dma; simpl; unfold dma; simpl.
  - intros [= <- <- <-]. reflexivity.
  - destruct (step e T X c) as [[[? ?] ?]|] eqn:E; intros [= <- <- <-]; [|reflexivity].
    apply rtc_once. by apply step_moves in E.
Qed.
Next Obligation. unfold hw_read; simpl. unfold read. intros a h v h' [= _ <-]. done. Qed.
Next Obligation.
  unfold hw_read; simpl. unfold read. intros off h v h' K [= <- <-].
  destruct (known_addr off K) as [-> ->]. done.
Qed.
Next Obligation.
  unfold hw_write; simpl. unfold write. intros off v h K.
  destruct (known_addr off K) as [-> ->]. done.
Qed.
Next Obligation.
  unfold hw_write; simpl. unfold write, is_sta. intros off v h [->| ->]; by rewrite Z.eqb_refl, ?orb_true_r.
Qed.

(** An allocator with memory: the buffer after the last one. *)
#[export] Program Instance sim_alloc : SkbAlloc :=
  {| alloc_skb := fun _ live => let a := 1 + foldr Z.max 0 (elements live) in Some (a, 2048 * a) |}.
Next Obligation.
  intros t live a d [= <- <-]. set (l := elements live).
  assert (B : 0 <= foldr Z.max 0 l /\ forall x, x ∈ l -> x <= foldr Z.max 0 l).
  { clearbody l. induction l as [|y l [IH1 IH2]]; simpl; [split; [done|by intros x ?%elem_of_nil]|].
    split; [lia|]. intros x [->|I]%elem_of_cons; [lia|]. specialize (IH2 x I). lia. }
  destruct B as [B1 B2]. split; [lia|]. intros I%elem_of_elements. specialize (B2 _ I). fold l in B2. lia.
Qed.
End Sim.
