(* ===== verification/EthRing.v ===== *)
(** * The rings of the Ethernet driver

    The invariant of the two descriptor rings that the driver shares with the controller,
    stable under the moves of the controller, and a rule for each primitive
    operation of [Eth] under it.  Positions are counted from the start of the
    interface, without wrapping. *)

From S2P Require Import Prelude Mii Eth EthChip.

(** ** Positions *)

Lemma at_ring_lt k : (at_ring k < 64)%nat.
Proof. unfold at_ring. apply Nat.mod_upper_bound. lia. Qed.

Lemma at_ring_add k : at_ring (k + 64) = at_ring k.
Proof. unfold at_ring. rewrite <- (Nat.mul_1_l 64) at 1. apply Nat.Div0.mod_add. Qed.

Lemma at_ring_inj j k k' :
  (j <= k < j + 64)%nat -> (j <= k' < j + 64)%nat -> at_ring k = at_ring k' -> k = k'.
Proof.
  unfold at_ring. intros. pose proof (Nat.div_mod k 64). pose proof (Nat.div_mod k' 64). nia.
Qed.

(** Every slot is in every window. *)
Lemma at_ring_onto j i : (i < 64)%nat -> exists k, (j <= k < j + 64)%nat /\ at_ring k = i.
Proof.
  intros B. pose proof (Nat.div_mod j 64 ltac:(lia)) as E. pose proof (at_ring_lt j) as Lt. unfold at_ring in *.
  set (q := (j / 64)%nat) in *. set (m := (j mod 64)%nat) in *.
  exists (if decide (m <= i)%nat then 64 * q + i else 64 * (q + 1) + i)%nat.
  case_decide; (split; [lia|]); rewrite Nat.add_comm, Nat.mul_comm, Nat.Div0.mod_add; by apply Nat.mod_small.
Qed.

Lemma at_ring_next k : (Z.of_nat (at_ring k) + 1) mod 64 = Z.of_nat (at_ring (S k)).
Proof.
  unfold at_ring. rewrite !Nat2Z.inj_mod, Z.add_mod_idemp_l by lia. f_equal. lia.
Qed.

(** ** Windows *)

(** The 64 slots hold what [P] says of the positions [j .. j + 63]. *)
Definition Win {A} (P : nat -> A -> Prop) (j : nat) (l : list A) : Prop :=
  length l = 64%nat /\ forall k, (j <= k < j + 64)%nat -> exists f, l !! at_ring k = Some f /\ P k f.

Section Windows.
Context {A : Type}.
Implicit Types (P Q : nat -> A -> Prop) (l : list A).

Lemma Win_get P j l k : Win P j l -> (j <= k < j + 64)%nat -> exists f, l !! at_ring k = Some f /\ P k f.
Proof. intros [_ W]. apply W. Qed.

Lemma Win_mono P Q j l :
  Win P j l -> (forall k f, (j <= k < j + 64)%nat -> P k f -> Q k f) -> Win Q j l.
Proof. intros [? W] M. split; [done|]. intros k B. destruct (W k B) as (f & ? & ?). eauto. Qed.

Lemma Win_lookup P j l : Win P j l -> Win (fun k f => P k f /\ l !! at_ring k = Some f) j l.
Proof. intros [Len W]. split; [done|]. intros k B. destruct (W k B) as (f & ? & ?). eauto. Qed.

Lemma Win_insert P Q j l k0 f :
  Win P j l -> (j <= k0 < j + 64)%nat -> Q k0 f ->
  (forall k g, (j <= k < j + 64)%nat -> k <> k0 -> P k g -> Q k g) ->
  Win Q j (<[at_ring k0 := f]> l).
Proof.
  intros [Len W] B F M. split; [by rewrite length_insert|]. intros k Bk.
  destruct (decide (k = k0)) as [->|N].
  - exists f. split; [|done]. apply list_lookup_insert_eq. rewrite Len. apply at_ring_lt.
  - destruct (W k Bk) as (g & E & ?). exists g. split; [|auto].
    rewrite list_lookup_insert_ne; [done|]. intros E'. apply N. symmetry. by eapply at_ring_inj.
Qed.

(** The first position is reused for the one after the last. *)
Lemma Win_advance P Q j l f :
  Win P j l -> Q (j + 64)%nat f ->
  (forall k g, (j < k < j + 64)%nat -> P k g -> Q k g) ->
  Win Q (S j) (<[at_ring j := f]> l).
Proof.
  intros W F M.
  destruct (Win_insert P (fun k g => if decide (k = j) then g = f else Q k g) j l j f W) as [Len W'].
  { lia. } { by rewrite decide_True. }
  { intros k g Bk N Pk. rewrite decide_False by done. apply M; [lia|done]. }
  split; [done|]. intros k Bk. destruct (decide (k = j + 64)%nat) as [->|N].
  - exists f. rewrite at_ring_add. split; [|done]. destruct (W' j) as (g & E & G); [lia|].
    rewrite decide_True in G by done. by subst.
  - destruct (W' k) as (g & E & G); [lia|]. rewrite decide_False in G by lia. eauto.
Qed.
End Windows.

(** ** The rings *)

(** Transmission, with [A] the frames accepted and [d] of them sent: position [k]. *)
Definition tx_slot (A : list (Z * Z)) (d k : nat) (f : Fd) : Prop :=
  ((k < d)%nat -> fd_comp (FDStatLen f) /\ fd_owned (FDStatLen f) = false) /\
  ((d <= k < length A)%nat ->
   fd_owned (FDStatLen f) /\ fd_comp (FDStatLen f) = false /\ A !! k = Some (FDDataPtr f, fd_len (FDStatLen f))) /\
  ((length A <= k)%nat -> fd_owned (FDStatLen f) = false /\ fd_comp (FDStatLen f) = false).

(** [j] frames are reaped. *)
Record TxI (j : nat) (A : list (Z * Z)) (T : list Fd) (log : list (Z * Z)) : Prop := {
  tx_prefix : log `prefix_of` A;
  tx_reaped : (j <= length log)%nat;
  tx_room : (length A <= j + 64)%nat;
  tx_win : Win (tx_slot A (length log)) j T;
}.

(** Reception: [p] frames are processed. *)
Definition rx_slot (log : list Z) (p k : nat) (f : Fd) : Prop :=
  ((k < p)%nat -> FDStatLen f = 0) /\
  ((p <= k < length log)%nat ->
   log !! k = Some (FDStatLen f) /\ fd_status (FDStatLen f) <> 0 /\ fd_owned (FDStatLen f) = false) /\
  ((length log <= k)%nat -> FDStatLen f = posted).

(** [r] descriptors are posted again. *)
Record RxI (r p : nat) (X : list Fd) (log : list Z) : Prop := {
  rx_posted : (r <= p)%nat;
  rx_processed : (p <= length log)%nat;
  rx_room : (length log <= r + 64)%nat;
  rx_win : Win (rx_slot log p) r X;
}.

Lemma posted_owned : fd_owned posted.
Proof. done. Qed.

Lemma ptrs_with_stat w (i : nat) d (l : list Fd) : l !! i = Some d -> FDDataPtr <$> <[i := with_stat w d]> l = FDDataPtr <$> l.
Proof.
  intros E. rewrite list_fmap_insert. apply list_insert_id. by rewrite list_lookup_fmap, E.
Qed.

Section Moves.
Context (j : nat) (A : list (Z * Z)) (r p : nat).

Lemma tx_owned_next T log d :
  TxI j A T log -> T !! at_ring (length log) = Some d -> fd_owned (FDStatLen d) ->
  (j <= length log < j + 64)%nat /\ (length log < length A)%nat /\ tx_slot A (length log) (length log) d.
Proof.
  intros [Pr Re Ro W] E O. pose proof (prefix_length _ _ Pr).
  destruct (decide (length log < j + 64)%nat) as [L|L].
  - destruct (Win_get _ _ _ (length log) W ltac:(lia)) as (f & E' & S). simplify_eq.
    split_and!; try lia; [|done]. destruct (decide (length log < length A)%nat); [done|].
    destruct S as (_ & _ & S). destruct S as [S _]; [lia|]. by rewrite S in O.
  - assert (length log = j + 64)%nat as Q by lia.
    destruct (Win_get _ _ _ j W ltac:(lia)) as (f & E' & (S & _)).
    rewrite Q, at_ring_add in E. simplify_eq. destruct S as [_ S]; [lia|]. by rewrite S in O.
Qed.

Lemma rx_owned_next X log d :
  RxI r p X log -> X !! at_ring (length log) = Some d -> fd_owned (FDStatLen d) ->
  (r <= length log < r + 64)%nat.
Proof.
  intros [Po Pr Ro W] E O. destruct (decide (length log < r + 64)%nat) as [L|L]; [lia|].
  assert (length log = r + 64)%nat as Q by lia.
  destruct (Win_get _ _ _ r W ltac:(lia)) as (f & E' & S1 & S2 & _).
  rewrite Q, at_ring_add in E. simplify_eq. destruct (decide (r < p)%nat).
  - rewrite S1 in O by lia. done.
  - destruct S2 as (_ & _ & S2); [lia|]. by rewrite S2 in O.
Qed.

Lemma TxI_sends T log d w :
  TxI j A T log -> T !! at_ring (length log) = Some d -> fd_owned (FDStatLen d) ->
  fd_comp w -> fd_owned w = false -> fd_len w = fd_len (FDStatLen d) ->
  TxI j A (<[at_ring (length log) := with_stat w d]> T) (log ++ [(FDDataPtr d, fd_len w)]).
Proof.
  intros I E O C NO L. destruct (tx_owned_next T log d I E O) as (B & Lt & S).
  destruct S as (_ & S & _). destruct S as (_ & _ & Ak); [lia|]. destruct I as [Pr Re Ro W].
  rewrite <- L in Ak. split.
  - destruct Pr as [A' ->]. rewrite lookup_app_r, Nat.sub_diag in Ak by done.
    destruct A' as [|a A']; [done|]. simpl in Ak. injection Ak as ->. exists A'. by rewrite <- app_assoc.
  - rewrite length_app. simpl. lia.
  - done.
  - rewrite length_app. simpl. eapply Win_insert; [exact W|lia| |].
    + split_and!; intros; [done|lia|lia].
    + intros k g Bk N (S1 & S2 & S3). split_and!; intros; [|apply S2; lia|apply S3; lia].
      apply S1. lia.
Qed.

Lemma RxI_fills X log d w :
  RxI r p X log -> X !! at_ring (length log) = Some d -> fd_owned (FDStatLen d) ->
  fd_status w <> 0 -> fd_owned w = false ->
  RxI r p (<[at_ring (length log) := with_stat w d]> X) (log ++ [w]).
Proof.
  intros I E O S NO. pose proof (rx_owned_next X log d I E O) as B. destruct I as [Po Pr Ro W].
  split; [lia|rewrite length_app; simpl; lia..|].
  eapply Win_insert; [exact W|lia| |].
  - split_and!; rewrite ?length_app; simpl; intros; [lia| |lia]. by rewrite lookup_app_r, Nat.sub_diag.
  - intros k g Bk N (S1 & S2 & S3). split_and!; rewrite ?length_app; simpl; intros; [auto| |apply S3; lia].
    rewrite lookup_app_l by lia. apply S2. lia.
Qed.

(** What a move keeps. *)
Lemma move_keeps T X c T' X' c' :
  TxI j A T (tx_log c) -> RxI r p X (rx_log c) -> move (T, X, c) (T', X', c') ->
  TxI j A T' (tx_log c') /\ RxI r p X' (rx_log c') /\ FDDataPtr <$> T' = FDDataPtr <$> T /\ FDDataPtr <$> X' = FDDataPtr <$> X.
Proof.
  intros IT IX M. inversion M; subst; simpl; split_and!; try done.
  - by apply TxI_sends.
  - by apply ptrs_with_stat.
  - by apply RxI_fills.
  - by apply ptrs_with_stat.
Qed.

(** A property of the controller that its moves keep. *)
Definition Stable (K : Chip -> Prop) : Prop := forall T X c T' X' c',
  TxI j A T (tx_log c) -> RxI r p X (rx_log c) -> K c -> move (T, X, c) (T', X', c') -> K c'.

Lemma moves_keep K T X c T' X' c' :
  Stable K -> TxI j A T (tx_log c) -> RxI r p X (rx_log c) -> K c -> rtc move (T, X, c) (T', X', c') ->
  TxI j A T' (tx_log c') /\ RxI r p X' (rx_log c') /\ FDDataPtr <$> T' = FDDataPtr <$> T /\ FDDataPtr <$> X' = FDDataPtr <$> X /\ K c'.
Proof.
  intros SK IT IX HK M.
  remember (T, X, c) as a eqn:Ea. remember (T', X', c') as b eqn:Eb.
  revert T X c Ea IT IX HK. induction M as [b|a y b M1 M2 IH]; intros T X c -> IT IX HK.
  - simplify_eq. done.
  - destruct y as [[T1 X1] c1]. destruct (move_keeps _ _ _ _ _ _ IT IX M1) as (IT1 & IX1 & <- & <-).
    eapply IH; eauto.
Qed.
End Moves.

Lemma Stable_true j A r p : Stable j A r p (fun _ => True).
Proof. done. Qed.

Lemma Stable_and j A r p K K' : Stable j A r p K -> Stable j A r p K' -> Stable j A r p (fun c => K c /\ K' c).
Proof. intros S1 S2 T X c T' X' c' ? ? [? ?] ?. split; eauto. Qed.

(** ** The state of a running interface *)

(** Ghost state: frames reaped, accepted, posted again, processed; and the data
    pointers of the two rings. *)
Record Ghost : Type := mkGhost {
  g_j : nat;
  g_A : list (Z * Z);
  g_r : nat;
  g_p : nat;
  g_TP : list Z;
  g_XP : list Z;
}.

Definition set_j x g := mkGhost x (g_A g) (g_r g) (g_p g) (g_TP g) (g_XP g).
Definition set_A x g := mkGhost (g_j g) x (g_r g) (g_p g) (g_TP g) (g_XP g).
Definition set_r x g := mkGhost (g_j g) (g_A g) x (g_p g) (g_TP g) (g_XP g).
Definition set_p x g := mkGhost (g_j g) (g_A g) (g_r g) x (g_TP g) (g_XP g).
Definition set_TP x g := mkGhost (g_j g) (g_A g) (g_r g) (g_p g) x (g_XP g).
Definition set_XP x g := mkGhost (g_j g) (g_A g) (g_r g) (g_p g) (g_TP g) x.

Definition stable g (K : Chip -> Prop) : Prop := Stable (g_j g) (g_A g) (g_r g) (g_p g) K.

Section Rules.
Context {H : Type} `{EthHw H} `{SkbAlloc} {base : Z} `{L : !EthLaws H base}.
Implicit Types (s : Eth H) (u : Eth unit) (g : Ghost) (K : Chip -> Prop).

(** The state without the descriptors and the controller. *)
Definition rest s : Eth unit :=
  mkEth (set_txFd None (tx s)) (set_rxFd None (rx s)) (net s) (stats s) (mii_on s) (mii_if s) (intmask s) (extmask s)
    (skbs s) (clock s) (kmallocs s) (accepted s) (delivered s) (freed s) tt.
Definition chip s : Chip := obs (hw s).

(** [F] holds of the descriptors and the controller, and the rest of the state is [u]. *)
Record hold (F : option (list Fd) -> option (list Fd) -> H -> Prop) u s : Prop := mkHold {
  hold_F : F (txFd (tx s)) (rxFd (rx s)) (hw s);
  hold_rest : rest s = u;
  hold_base : base_addr (net u) = base;
}.

(** The descriptors are as [g] says, and [K] holds of the controller. *)
Definition fds g K (oT oX : option (list Fd)) (h : H) : Prop :=
  (exists T X, oT = Some T /\ oX = Some X /\
     TxI (g_j g) (g_A g) T (tx_log (obs h)) /\ RxI (g_r g) (g_p g) X (rx_log (obs h)) /\
     FDDataPtr <$> T = g_TP g /\ FDDataPtr <$> X = g_XP g) /\
  K (obs h).
Definition ring g K u s : Prop := hold (fds g K) u s.

Lemma ring_fds g K u s : ring g K u s -> exists T X,
  txFd (tx s) = Some T /\ rxFd (rx s) = Some X /\
  TxI (g_j g) (g_A g) T (tx_log (chip s)) /\ RxI (g_r g) (g_p g) X (rx_log (chip s)) /\
  FDDataPtr <$> T = g_TP g /\ FDDataPtr <$> X = g_XP g.
Proof. by intros [[? ?] _ _]. Qed.

Lemma ring_chip g K u s : ring g K u s -> K (chip s).
Proof. by intros [[? ?] _ _]. Qed.

Lemma ring_weaken g K K' u s : ring g K u s -> (K (chip s) -> K' (chip s)) -> ring g K' u s.
Proof. intros [[F C] R B] M. split; [split|..]; auto. Qed.

Lemma hold_base_addr F u s : hold F u s -> base_addr (net s) = base.
Proof. intros R. rewrite <- (hold_base _ _ _ R), <- (hold_rest _ _ _ R). done. Qed.

(** The DMA engine acts. *)
Lemma point_ring g K u s : stable g K -> ring g K u s -> exists s', point s = Ret tt s' /\ ring g K u s'.
Proof.
  intros SK [[(T & X & ET & EX & IT & IX & PT & PX) HK] Re Ba].
  unfold point, modify. rewrite ET, EX. simpl.
  destruct (hw_dma T X (hw s)) as [[T' X'] h'] eqn:D. apply obs_dma in D.
  destruct (moves_keep _ _ _ _ K _ _ _ _ _ _ SK IT IX HK D) as (IT' & IX' & PT' & PX' & HK').
  eexists. split; [reflexivity|]. split; simpl; [split; [|done]| |done].
  - exists T', X'. rewrite ET, EX. split_and!; try done; congruence.
  - rewrite <- Re. unfold rest. simpl. done.
Qed.

(** *** Registers *)

Lemma wp_point g K u s Q :
  stable g K -> ring g K u s -> (forall s', ring g K u s' -> Q tt s') -> wp point Q no_stop s.
Proof.
  intros SK R C. destruct (point_ring _ _ _ _ SK R) as (s' & E & R'). apply (wp_Ret _ _ _ _ _ _ E). auto.
Qed.

Lemma wp_readl g K u s a Q :
  stable g K -> ring g K u s ->
  (forall v s', ring g K u s' -> (forall off, known off -> a = base + off -> v = regs (chip s') off) -> Q v s') ->
  wp (readl a) Q no_stop s.
Proof.
  intros SK R C. apply wp_bind. eapply wp_point; [done..|]. intros s1 [[F1 K1] R1 B1].
  unfold wp, bus_read. destruct (hw_read (u32 a) (hw s1)) as [v h'] eqn:E.
  assert (O : obs h' = obs (hw s1)) by by eapply obs_read.
  apply C.
  - split; [split|..]; simpl; rewrite ?O; auto.
  - intros off Kn ->. unfold chip. simpl. rewrite O. by eapply read_known.
Qed.

Lemma wp_reg_read g K u s off Q :
  stable g K -> ring g K u s ->
  (forall v s', ring g K u s' -> (known off -> v = regs (chip s') off) -> Q v s') ->
  wp (reg_read off) Q no_stop s.
Proof.
  intros SK R C. unfold reg_read, gnet. apply wp_bind. unfold gets at 1, wp at 1.
  assert (B : base_addr (net s) = base) by by eapply hold_base_addr. rewrite B.
  eapply wp_readl; [done..|]. intros v s' R' V. apply C; [done|]. intros Kn. by apply V.
Qed.

(** A write keeps the rings unless it restarts them. *)
Definition restarts (off : Z) : bool := (off =? BTXBDCNT) || (off =? BRXBDCNT).

Lemma chip_write_logs off v c :
  restarts off = false -> tx_log (chip_write off v c) = tx_log c /\ rx_log (chip_write off v c) = rx_log c.
Proof.
  unfold restarts, chip_write. intros [-> ->]%orb_false_iff. destruct (_ || _); done.
Qed.

Lemma wp_reg_write g K K' u s off v Q :
  stable g K -> ring g K u s -> known off -> restarts off = false ->
  (forall c, K c -> K' (chip_write off (u32 v) c)) ->
  (forall s', ring g K' u s' -> Q tt s') ->
  wp (reg_write off v) Q no_stop s.
Proof.
  intros SK R Kn NR M C. unfold reg_write, gnet. apply wp_bind. unfold gets at 1, wp at 1.
  assert (B : base_addr (net s) = base) by by eapply hold_base_addr. rewrite B.
  apply wp_bind. eapply wp_point; [done..|]. intros s1 [[F1 K1] R1 B1]. unfold modify, wp.
  apply C. pose proof (write_known off (u32 v) (hw s1) Kn) as W.
  destruct (chip_write_logs off (u32 v) (chip s1) NR) as [L1 L2].
  unfold chip in *. split; [split|..]; simpl; rewrite ?W, ?L1, ?L2; auto.
Qed.

Lemma wp_reg_or g K K' u s off m Q :
  stable g K -> ring g K u s -> known off -> restarts off = false ->
  (forall v c, K c -> K' (chip_write off (u32 (Z.lor v m)) c)) ->
  (forall s', ring g K' u s' -> Q tt s') ->
  wp (reg_or off m) Q no_stop s.
Proof.
  intros SK R Kn NR M C. apply wp_bind. eapply wp_reg_read; [done..|]. intros v s1 R1 _.
  eapply (wp_reg_write g K K'); eauto.
Qed.

Lemma wp_reg_clear g K K' u s off m Q :
  stable g K -> ring g K u s -> known off -> restarts off = false ->
  (forall v c, K c -> K' (chip_write off (u32 (Z.land v (Z.lnot m))) c)) ->
  (forall s', ring g K' u s' -> Q tt s') ->
  wp (reg_clear off m) Q no_stop s.
Proof.
  intros SK R Kn NR M C. apply wp_bind. eapply wp_reg_read; [done..|]. intros v s1 R1 _.
  eapply (wp_reg_write g K K'); eauto.
Qed.
(** *** Descriptors *)

Lemma wp_slot {A} (l : list A) (i : nat) x Q s : l !! i = Some x -> Q x s -> wp (slot l (Z.of_nat i)) Q no_stop s.
Proof.
  intros E C. unfold slot. pose proof (lookup_lt_Some _ _ _ E).
  rewrite (proj2 (Z.leb_le _ _)), (proj2 (Z.ltb_lt _ _)) by lia. simpl. by rewrite Nat2Z.id, E.
Qed.

Lemma wp_tx_slot g K u s k Q :
  stable g K -> ring g K u s -> (g_j g <= k < g_j g + 64)%nat ->
  (forall d s' T, ring g K u s' -> txFd (tx s') = Some T -> T !! at_ring k = Some d ->
     tx_slot (g_A g) (length (tx_log (chip s'))) k d -> Q d s') ->
  wp (tx_fd (Z.of_nat (at_ring k))) Q no_stop s.
Proof.
  intros SK R Bk C. apply wp_bind. eapply wp_point; [done..|]. intros s1 R1.
  destruct (ring_fds _ _ _ _ R1) as (T & X & ET & EX & [? ? ? W] & IX & PT & PX).
  destruct (Win_get _ _ _ k W Bk) as (d & E & S).
  unfold gtx. apply wp_bind. unfold gets at 1, wp at 1. rewrite ET. apply wp_bind. simpl.
  unfold wp at 1, mret, M_ret. eapply wp_slot; eauto.
Qed.

Lemma wp_rx_slot g K u s k Q :
  stable g K -> ring g K u s -> (g_r g <= k < g_r g + 64)%nat ->
  (forall d s' X, ring g K u s' -> rxFd (rx s') = Some X -> X !! at_ring k = Some d ->
     rx_slot (rx_log (chip s')) (g_p g) k d -> Q d s') ->
  wp (rx_fd (Z.of_nat (at_ring k))) Q no_stop s.
Proof.
  intros SK R Bk C. apply wp_bind. eapply wp_point; [done..|]. intros s1 R1.
  destruct (ring_fds _ _ _ _ R1) as (T & X & ET & EX & IT & [? ? ? W] & PT & PX).
  destruct (Win_get _ _ _ k W Bk) as (d & E & S).
  unfold grx. apply wp_bind. unfold gets at 1, wp at 1. rewrite EX. apply wp_bind. simpl.
  unfold wp at 1, mret, M_ret. eapply wp_slot; eauto.
Qed.

(** A change of one descriptor that establishes the ring of [j'], [A'], [TP']. *)
Lemma wp_put_tx g K u s k f j' A' TP' Q :
  stable g K -> ring g K u s -> (g_j g <= k < g_j g + 64)%nat ->
  (forall T d c, K c -> TxI (g_j g) (g_A g) T (tx_log c) -> T !! at_ring k = Some d -> FDDataPtr <$> T = g_TP g ->
     TxI j' A' (<[at_ring k := f d]> T) (tx_log c) /\ FDDataPtr <$> <[at_ring k := f d]> T = TP') ->
  (forall s', ring (mkGhost j' A' (g_r g) (g_p g) TP' (g_XP g)) K u s' -> Q tt s') ->
  wp (put_tx_fd (Z.of_nat (at_ring k)) f) Q no_stop s.
Proof.
  intros SK R Bk M C. apply wp_bind. eapply wp_tx_slot; [done..|]. intros d s1 T R1 ET E _.
  unfold mtx, modify, wp. apply C. destruct R1 as [[(T1 & X & ET1 & EX & IT & IX & PT & PX) HK] Re Ba].
  assert (T1 = T) as -> by congruence.
  destruct (M T d (chip s1) HK IT E PT) as [IT' PT'].
  split; simpl; [split; [|done]| |done].
  - exists (<[at_ring k := f d]> T), X. rewrite ET, Nat2Z.id. done.
  - done.
Qed.

Lemma wp_put_rx g K u s k f r' p' XP' Q :
  stable g K -> ring g K u s -> (g_r g <= k < g_r g + 64)%nat ->
  (forall X d c, K c -> RxI (g_r g) (g_p g) X (rx_log c) -> X !! at_ring k = Some d -> FDDataPtr <$> X = g_XP g ->
     RxI r' p' (<[at_ring k := f d]> X) (rx_log c) /\ FDDataPtr <$> <[at_ring k := f d]> X = XP') ->
  (forall s', ring (mkGhost (g_j g) (g_A g) r' p' (g_TP g) XP') K u s' -> Q tt s') ->
  wp (put_rx_fd (Z.of_nat (at_ring k)) f) Q no_stop s.
Proof.
  intros SK R Bk M C. apply wp_bind. eapply wp_rx_slot; [done..|]. intros d s1 X R1 EX E _.
  unfold mrx, modify, wp. apply C. destruct R1 as [[(T & X1 & ET & EX1 & IT & IX & PT & PX) HK] Re Ba].
  assert (X1 = X) as -> by congruence.
  destruct (M X d (chip s1) HK IX E PX) as [IX' PX'].
  split; simpl; [split; [|done]| |done].
  - exists T, (<[at_ring k := f d]> X). rewrite EX, Nat2Z.id. done.
  - done.
Qed.

(** The driver changes the pointer of a descriptor that is not the controller's. *)
Lemma wp_put_tx_ptr g K u s k v Q :
  stable g K -> ring g K u s -> (g_j g <= k < g_j g + 64)%nat ->
  (forall c, K c -> (k < length (tx_log c))%nat \/ (length (g_A g) <= k)%nat) ->
  (forall s', ring (set_TP (<[at_ring k := v]> (g_TP g)) g) K u s' -> Q tt s') ->
  wp (put_tx_fd (Z.of_nat (at_ring k)) (with_ptr v)) Q no_stop s.
Proof.
  intros SK R Bk F C. eapply wp_put_tx; [done..| |exact C]. intros T d c HK [Pr Re Ro W] E <-.
  split; [|by rewrite list_fmap_insert]. split; try done.
  destruct (Win_get _ _ _ k W Bk) as (d' & E' & S1 & S2 & S3). simplify_eq.
  eapply Win_insert; [exact W|done| |auto]. split_and!; simpl; auto.
  intros. destruct (F c HK); lia.
Qed.

(** A frame is given to the controller. *)
Lemma wp_put_tx_own g K u s w ptr Q :
  stable g K -> ring g K u s -> (length (g_A g) < g_j g + 64)%nat ->
  g_TP g !! at_ring (length (g_A g)) = Some ptr -> fd_owned w -> fd_comp w = false ->
  (forall s', ring (set_A (g_A g ++ [(ptr, fd_len w)]) g) K u s' -> Q tt s') ->
  wp (put_tx_fd (Z.of_nat (at_ring (length (g_A g)))) (with_stat w)) Q no_stop s.
Proof.
  intros SK R Lt Pt O NC C.
  destruct (ring_fds _ _ _ _ R) as (T0 & X0 & _ & _ & [Pr0 Re0 Ro0 _] & _).
  pose proof (prefix_length _ _ Pr0).
  eapply wp_put_tx; [done..|lia| |exact C]. intros T d c HK [Pr Re Ro W] E PT.
  split; [|by rewrite ptrs_with_stat]. pose proof (prefix_length _ _ Pr). split.
  - by apply prefix_app_r.
  - done.
  - rewrite length_app. simpl. lia.
  - assert (FDDataPtr d = ptr) as EP by (rewrite <- PT, list_lookup_fmap, E in Pt; by injection Pt).
    eapply Win_insert; [exact W|lia| |].
    + split_and!; rewrite ?length_app; simpl; intros; [lia| |lia].
      split_and!; [done..|]. by rewrite EP, lookup_app_r, Nat.sub_diag.
    + intros k f Bk N (S1 & S2 & S3). split_and!; rewrite ?length_app; simpl; intros; [auto| |apply S3; lia].
      rewrite lookup_app_l by lia. apply S2. lia.
Qed.

(** A sent frame is reaped. *)
Lemma wp_put_tx_free g K u s w Q :
  stable g K -> ring g K u s -> (forall c, K c -> (g_j g < length (tx_log c))%nat) ->
  fd_owned w = false -> fd_comp w = false ->
  (forall s', ring (set_j (S (g_j g)) g) K u s' -> Q tt s') ->
  wp (put_tx_fd (Z.of_nat (at_ring (g_j g))) (with_stat w)) Q no_stop s.
Proof.
  intros SK R F O NC C. eapply wp_put_tx; [done..|lia| |exact C]. intros T d c HK [Pr Re Ro W] E PT.
  split; [|by rewrite ptrs_with_stat]. pose proof (prefix_length _ _ Pr). specialize (F c HK).
  split; [done|lia|lia|]. eapply Win_advance; [exact W| |].
  - split_and!; simpl; intros; [lia|lia|done].
  - intros k f Bk S. exact S.
Qed.

Lemma wp_put_rx_ptr g K u s k v Q :
  stable g K -> ring g K u s -> (g_r g <= k < g_r g + 64)%nat ->
  (forall s', ring (set_XP (<[at_ring k := v]> (g_XP g)) g) K u s' -> Q tt s') ->
  wp (put_rx_fd (Z.of_nat (at_ring k)) (with_ptr v)) Q no_stop s.
Proof.
  intros SK R Bk C. eapply wp_put_rx; [done..| |exact C]. intros X d c HK [Po Pr Ro W] E <-.
  split; [|by rewrite list_fmap_insert]. split; try done.
  destruct (Win_get _ _ _ k W Bk) as (d' & E' & S). simplify_eq.
  eapply Win_insert; [exact W|done|exact S|auto].
Qed.

(** A received frame is processed. *)
Lemma wp_put_rx_zero g K u s Q :
  stable g K -> ring g K u s -> (forall c, K c -> (g_p g < length (rx_log c))%nat) -> (g_p g < g_r g + 64)%nat ->
  (forall s', ring (set_p (S (g_p g)) g) K u s' -> Q tt s') ->
  wp (put_rx_fd (Z.of_nat (at_ring (g_p g))) (with_stat 0)) Q no_stop s.
Proof.
  intros SK R F Lt C. destruct (ring_fds _ _ _ _ R) as (T0 & X0 & _ & _ & _ & [Po0 _ _ _] & _).
  eapply wp_put_rx; [done..| |exact C]. intros X d c HK [Po Pr Ro W] E PX.
  split; [|by rewrite ptrs_with_stat]. specialize (F c HK).
  split; [lia|lia|done|]. eapply Win_insert; [exact W|lia| |].
  - split_and!; simpl; intros; [done|lia|lia].
  - intros k f Bk N (S1 & S2 & S3). split_and!; intros; [apply S1; lia|apply S2; lia|auto].
Qed.

(** A descriptor is posted again. *)
Lemma wp_put_rx_posted g K u s Q :
  stable g K -> ring g K u s -> (g_r g < g_p g)%nat ->
  (forall s', ring (set_r (S (g_r g)) g) K u s' -> Q tt s') ->
  wp (put_rx_fd (Z.of_nat (at_ring (g_r g))) (with_stat posted)) Q no_stop s.
Proof.
  intros SK R Lt C. eapply wp_put_rx; [done..|lia| |exact C]. intros X d c HK [Po Pr Ro W] E PX.
  split; [|by rewrite ptrs_with_stat].
  split; [lia|lia|lia|]. eapply Win_advance; [exact W| |].
  - split_and!; simpl; intros; [lia|lia|done].
  - intros k f Bk S. exact S.
Qed.
End Rules.
Arguments hold {H} base F u s.
