(* ===== verification/EthOps.v ===== *)
(** * The operations of the Ethernet driver on its rings

    Which socket buffers the driver owns, and a rule for each operation of [Eth] that
    says how it moves the rings and the buffers, whatever the controller does
    meanwhile. *)

From S2P Require Import Prelude Mii Eth EthChip EthRing.

(** ** Ownership of the buffers *)

Abbreviation nonzero := (filter (fun a : Z => a <> 0)).
(** The buffers in the two arrays. *)
Definition places (C R : list Z) : list Z := nonzero (C ++ R).

Lemma insert_perm {A} (l : list A) (i : nat) x y : l !! i = Some x -> x :: <[i := y]> l ≡ₚ y :: l.
Proof.
  intros E. rewrite insert_take_drop by by eapply lookup_lt_Some.
  rewrite <- (take_drop_middle l i x E) at 3. rewrite !Permutation_middle. f_equiv. apply perm_swap.
Qed.

Lemma places_tx_put (C R : list Z) (i : nat) a :
  C !! i = Some 0 -> a <> 0 -> places (<[i := a]> C) R ≡ₚ a :: places C R.
Proof.
  intros E N. unfold places. rewrite !filter_app, app_comm_cons. f_equiv.
  pose proof (insert_perm C i 0 a E) as P. apply (filter_Permutation (fun a => a <> 0)) in P.
  by rewrite filter_cons_False, filter_cons_True in P by lia.
Qed.

Lemma places_tx_take (C R : list Z) (i : nat) a :
  C !! i = Some a -> a <> 0 -> a :: places (<[i := 0]> C) R ≡ₚ places C R.
Proof.
  intros E N. unfold places. rewrite !filter_app, app_comm_cons. f_equiv.
  pose proof (insert_perm C i a 0 E) as P. apply (filter_Permutation (fun a => a <> 0)) in P.
  by rewrite filter_cons_True, filter_cons_False in P by lia.
Qed.

Lemma places_swap (C R : list Z) : places C R ≡ₚ places R C.
Proof. unfold places. by rewrite (Permutation_app_comm C R). Qed.

Lemma places_rx_put (C R : list Z) (i : nat) a :
  R !! i = Some 0 -> a <> 0 -> places C (<[i := a]> R) ≡ₚ a :: places C R.
Proof. rewrite !(places_swap C). apply places_tx_put. Qed.

Lemma places_rx_take (C R : list Z) (i : nat) a :
  R !! i = Some a -> a <> 0 -> a :: places C (<[i := 0]> R) ≡ₚ places C R.
Proof. rewrite !(places_swap C). apply places_tx_take. Qed.

(** Every buffer of the driver is in exactly one place of the arrays. *)
Definition Owns (C R : list Z) (m : gmap Z SkBuff) : Prop := places C R ≡ₚ (map_to_list m).*1.

Lemma Owns_nodup C R m : Owns C R m -> NoDup (places C R).
Proof. intros O. rewrite O. apply NoDup_fst_map_to_list. Qed.

Lemma Owns_elem C R m a : Owns C R m -> a ∈ places C R <-> is_Some (m !! a).
Proof.
  intros O. rewrite O, list_elem_of_fmap. split.
  - intros ([a' b] & -> & E%elem_of_map_to_list). by exists b.
  - intros [b E]. exists (a, b). split; [done|]. by apply elem_of_map_to_list.
Qed.

Lemma Owns_insert C R m C' R' a b :
  Owns C R m -> m !! a = None -> places C' R' ≡ₚ a :: places C R -> Owns C' R' (<[a := b]> m).
Proof. unfold Owns. intros O N ->. by rewrite map_to_list_insert, O. Qed.

Lemma Owns_delete C R m C' R' a :
  Owns C R m -> a :: places C' R' ≡ₚ places C R -> Owns C' R' (delete a m).
Proof.
  unfold Owns. intros O P. assert (is_Some (m !! a)) as [b E].
  { apply (Owns_elem _ _ _ _ O). rewrite <- P. apply list_elem_of_here. }
  apply (Permutation_cons_inv (a := a)). rewrite P, O, <- (insert_delete_id m a b E) at 1.
  by rewrite map_to_list_insert by apply lookup_delete_eq.
Qed.

(** ** The driver's part of the state *)

(** The buffer at position [k] of the transmit ring is the frame of that position. *)
Definition tx_buf (A : list (Z * Z)) (m : gmap Z SkBuff) (k : nat) (a : Z) : Prop :=
  ((k < length A)%nat -> a <> 0 /\ exists b, m !! a = Some b /\ A !! k = Some (u32 (skb_data b - 2), skb_len b)) /\
  ((length A <= k)%nat -> a = 0).

(** The one of the receive ring is empty and the descriptor points to its data; there is
    one unless the position waits for a refill. *)
Definition rx_buf (XP : list Z) (m : gmap Z SkBuff) (p k : nat) (a : Z) : Prop :=
  ((p <= k)%nat -> a <> 0) /\
  (a <> 0 -> exists q, XP !! at_ring k = Some q /\ m !! a = Some (mkSkb q 0)).

Record Soft (g : Ghost) (u : Eth unit) : Prop := mkSoft {
  soft_ready : tx_ready (tx u) = Z.of_nat (at_ring (length (g_A g)));
  soft_tx : Win (tx_buf (g_A g) (skbs u)) (g_j g) (txFrCtl (tx u));
  soft_rx : Win (rx_buf (g_XP g) (skbs u) (g_p g)) (g_r g) (rxFrCtl (rx u));
  soft_own : Owns (txFrCtl (tx u)) (rxFrCtl (rx u)) (skbs u);
}.

(** The positions where the loops of the driver continue. *)
Record Idx (g : Ghost) (u : Eth unit) : Prop := mkIdx {
  idx_done : tx_done (tx u) = Z.of_nat (at_ring (g_j g));
  idx_rx : rx_done (rx u) = Z.of_nat (at_ring (g_p g));
  idx_refill : rx_skb_refill (rx u) = Z.of_nat (at_ring (g_r g));
}.

(** *** How it moves *)

Lemma tx_place C R (i : nat) a : C !! i = Some a -> a <> 0 -> a ∈ places C R.
Proof.
  intros E N. apply list_elem_of_filter. split; [done|]. apply elem_of_app. left. by eapply list_elem_of_lookup_2.
Qed.

Lemma rx_place C R (i : nat) a : R !! i = Some a -> a <> 0 -> a ∈ places C R.
Proof. rewrite places_swap. apply tx_place. Qed.

(** A buffer in another place is another buffer. *)
Lemma other_place C R m C' R' a b :
  Owns C R m -> a :: places C' R' ≡ₚ places C R -> b ∈ places C' R' -> delete a m !! b = m !! b.
Proof.
  intros O P I. apply lookup_delete_ne. intros ->. pose proof (Owns_nodup _ _ _ O) as N.
  rewrite <- P in N. by apply NoDup_cons in N as [? ?].
Qed.

Lemma tx_win_other A m j C (m' : gmap Z SkBuff) :
  Win (tx_buf A m) j C ->
  (forall k a, (j <= k < j + 64)%nat -> C !! at_ring k = Some a -> a <> 0 -> m' !! a = m !! a) ->
  Win (tx_buf A m') j C.
Proof.
  intros W F. eapply Win_mono; [apply Win_lookup, W|]. intros k a Bk [[S1 S2] E]. split; [|done].
  intros Lt. destruct (S1 Lt) as (N & b & Eb & Ak). split; [done|]. exists b. by rewrite (F k a Bk E N).
Qed.

Lemma rx_win_other XP m p r R (m' : gmap Z SkBuff) :
  Win (rx_buf XP m p) r R ->
  (forall k a, (r <= k < r + 64)%nat -> R !! at_ring k = Some a -> a <> 0 -> m' !! a = m !! a) ->
  Win (rx_buf XP m' p) r R.
Proof.
  intros W F. eapply Win_mono; [apply Win_lookup, W|]. intros k a Bk [[S1 S2] E]. split; [done|].
  intros N. rewrite (F k a Bk E N). auto.
Qed.

Lemma Soft_ext g g' u :
  Soft g u -> g_j g' = g_j g -> g_A g' = g_A g -> g_r g' = g_r g -> g_p g' = g_p g -> g_XP g' = g_XP g -> Soft g' u.
Proof. intros [] E1 E2 E3 E4 E5. split; by rewrite ?E1, ?E2, ?E3, ?E4, ?E5. Qed.

Definition put_C (i : nat) (v : Z) : Tx -> Tx := fun x => set_txFrCtl (<[i := v]> (txFrCtl x)) x.
Definition put_R (i : nat) (v : Z) : Rx -> Rx := fun x => set_rxFrCtl (<[i := v]> (rxFrCtl x)) x.

(** A frame is accepted. *)
Lemma Soft_send g u skb data len v :
  Soft g u -> (g_j g <= length (g_A g) < g_j g + 64)%nat -> skbs u !! skb = None -> skb <> 0 ->
  v = Z.of_nat (at_ring (S (length (g_A g)))) ->
  Soft (set_A (g_A g ++ [(u32 (data - 2), len)]) g)
    (upd_tx (fun x => set_tx_ready v (put_C (at_ring (length (g_A g))) skb x)) (set_skbs (<[skb := mkSkb data len]> (skbs u)) u)).
Proof.
  intros [Rd Wt Wr Ow] B Fr N ->. destruct (Win_get _ _ _ _ Wt B) as (a & E & _ & Z).
  rewrite Z in E by lia. clear Z a.
  assert (Old : forall a b, skbs u !! a = Some b -> <[skb := mkSkb data len]> (skbs u) !! a = Some b).
  { intros a b Ea. rewrite lookup_insert_ne; [done|]. by intros ->; simplify_eq. }
  split; simpl.
  - rewrite length_app, Nat.add_1_r. done.
  - eapply Win_insert; [exact Wt|done| |].
    + split; [|rewrite length_app; simpl; lia]. intros _. split; [done|]. exists (mkSkb data len).
      rewrite lookup_insert_eq, lookup_app_r, Nat.sub_diag by done. done.
    + intros k a Bk Nk [S1 S2]. unfold tx_buf. rewrite length_app. simpl. split; [|intros; apply S2; lia].
      intros Lt. destruct S1 as (? & b & Eb & EA); [lia|]. split; [done|]. exists b.
      split; [by apply Old|]. by rewrite lookup_app_l by lia.
  - eapply rx_win_other; [exact Wr|]. intros k a Bk Ea Na. rewrite lookup_insert_ne; [done|].
    intros <-. apply (rx_place (txFrCtl (tx u))) in Ea; [|done]. apply (Owns_elem _ _ _ _ Ow) in Ea. rewrite Fr in Ea. by destruct Ea.
  - eapply Owns_insert; [exact Ow|done|]. by apply places_tx_put.
Qed.

(** The first frame that is not reaped goes. *)
Lemma Soft_reap g u a f :
  Soft g u -> (g_j g < length (g_A g) <= g_j g + 64)%nat -> txFrCtl (tx u) !! at_ring (g_j g) = Some a ->
  Soft (set_j (S (g_j g)) g) (upd_tx (put_C (at_ring (g_j g)) 0) (set_freed f (set_skbs (delete a (skbs u)) u))).
Proof.
  intros [Rd Wt Wr Ow] B E. destruct (Win_get _ _ _ (g_j g) Wt ltac:(lia)) as (a' & E' & S1 & _). simplify_eq.
  destruct (S1 (proj1 B)) as (N & _). pose proof (places_tx_take _ (rxFrCtl (rx u)) _ _ E N) as P.
  split; simpl; [done| | |].
  - eapply Win_advance.
    + apply Win_lookup, Wt.
    + split; [lia|done].
    + intros k c Bk [[T1 T2] Ec]. split; [|done]. intros Lt. destruct (T1 Lt) as (Nc & b & Eb & Ak). split; [done|].
      exists b. split; [|done]. rewrite <- Eb. eapply other_place; [exact Ow|exact P|].
      eapply tx_place; [|exact Nc]. rewrite list_lookup_insert_ne; [exact Ec|].
      intros Q. assert (g_j g = k) by (eapply (at_ring_inj (g_j g)); [lia|lia|done]). lia.
  - eapply rx_win_other; [exact Wr|]. intros k c Bk Ec Nc. eapply other_place; [exact Ow|exact P|]. by eapply rx_place.
  - by eapply Owns_delete.
Qed.

(** The next received frame goes to the network. *)
Lemma Soft_deliver g u a :
  Soft g u -> (g_r g <= g_p g < g_r g + 64)%nat -> rxFrCtl (rx u) !! at_ring (g_p g) = Some a ->
  Soft (set_p (S (g_p g)) g) (upd_rx (put_R (at_ring (g_p g)) 0) (set_skbs (delete a (skbs u)) u)).
Proof.
  intros [Rd Wt Wr Ow] B E. destruct (Win_get _ _ _ _ Wr B) as (a' & E' & S1 & _). simplify_eq.
  specialize (S1 ltac:(lia)). pose proof (places_rx_take (txFrCtl (tx u)) _ _ _ E S1) as P.
  split; simpl; [done| | |].
  - eapply tx_win_other; [exact Wt|]. intros k c Bk Ec Nc. eapply other_place; [exact Ow|exact P|]. by eapply tx_place.
  - eapply Win_insert; [apply Win_lookup, Wr|done|split; [lia|done]|].
    intros k c Bk N [[T1 T2] Ec]. split; [intros; apply T1; lia|]. intros Nc.
    destruct (T2 Nc) as (q & Eq & Em). exists q. split; [done|]. rewrite <- Em.
    eapply other_place; [exact Ow|exact P|]. eapply rx_place; [|exact Nc].
    rewrite list_lookup_insert_ne; [exact Ec|]. intros Q. apply N. symmetry. by eapply at_ring_inj.
  - by eapply Owns_delete.
Qed.

(** A frame with an error keeps its buffer. *)
Lemma Soft_error g u : Soft g u -> Soft (set_p (S (g_p g)) g) u.
Proof.
  intros [Rd Wt Wr Ow]. split; [done..| |done]. eapply Win_mono; [exact Wr|].
  intros k a _ [S1 S2]. split; [|done]. simpl. intros. apply S1. lia.
Qed.

(** A position is refilled, with the buffer it has or with a new one. *)
Lemma Soft_repost g u a :
  Soft g u -> (g_r g < g_p g)%nat -> rxFrCtl (rx u) !! at_ring (g_r g) = Some a -> a <> 0 -> Soft (set_r (S (g_r g)) g) u.
Proof.
  intros [Rd Wt Wr Ow] B E N. split; [done..| |done]. simpl.
  destruct (Win_get _ _ _ (g_r g) Wr ltac:(lia)) as (a' & E' & S). simplify_eq.
  rewrite <- (list_insert_id _ _ _ E). eapply Win_advance; [exact Wr| |by intros].
  destruct S as [_ S]. split; [done|]. by rewrite at_ring_add.
Qed.

Lemma Soft_refill g u a d :
  Soft g u -> (g_r g < g_p g)%nat -> length (g_XP g) = 64%nat -> rxFrCtl (rx u) !! at_ring (g_r g) = Some 0 ->
  skbs u !! a = None -> a <> 0 ->
  Soft (set_r (S (g_r g)) (set_XP (<[at_ring (g_r g) := d]> (g_XP g)) g))
    (upd_rx (put_R (at_ring (g_r g)) a) (set_skbs (<[a := mkSkb d 0]> (skbs u)) u)).
Proof.
  intros [Rd Wt Wr Ow] B Len E Fr N.
  assert (Old : forall b, b ∈ places (txFrCtl (tx u)) (rxFrCtl (rx u)) -> <[a := mkSkb d 0]> (skbs u) !! b = skbs u !! b).
  { intros b Ib%(Owns_elem _ _ _ _ Ow). rewrite lookup_insert_ne; [done|]. intros <-. rewrite Fr in Ib. by destruct Ib. }
  split; simpl; [done| | |].
  - eapply tx_win_other; [exact Wt|]. intros k c Bk Ec Nc. apply Old. by eapply tx_place.
  - eapply Win_advance; [apply Win_lookup, Wr| |].
    + split; [done|]. intros _. exists d. rewrite at_ring_add, list_lookup_insert_eq, lookup_insert_eq; [done|].
      rewrite Len. apply at_ring_lt.
    + intros k c Bk [[T1 T2] Ec]. split; [done|]. intros Nc. destruct (T2 Nc) as (q & Eq & Em). exists q. split.
      * rewrite list_lookup_insert_ne; [done|]. intros Q.
        assert (g_r g = k) by (eapply (at_ring_inj (g_r g)); [lia|lia|done]). lia.
      * rewrite Old; [done|]. by eapply rx_place.
  - eapply Owns_insert; [exact Ow|done|]. by apply places_rx_put.
Qed.

Section Ops.
Context {H : Type} `{EthHw H} `{SkbAlloc} {base : Z} `{L : !EthLaws H base}.
Implicit Types (s : Eth H) (u : Eth unit) (g : Ghost) (K : Chip -> Prop).

(** *** Rules of the state without the rings *)

Lemma wp_gtx {A} F u s (f : Tx -> A) Q :
  (forall x, f (set_txFd None x) = f x) -> hold base F u s -> Q (f (tx u)) s -> wp (gtx f) Q no_stop s.
Proof. intros E R C. unfold gtx, gets, wp. rewrite <- E. by rewrite <- (hold_rest _ _ _ R) in C. Qed.

Lemma wp_grx {A} F u s (f : Rx -> A) Q :
  (forall x, f (set_rxFd None x) = f x) -> hold base F u s -> Q (f (rx u)) s -> wp (grx f) Q no_stop s.
Proof. intros E R C. unfold grx, gets, wp. rewrite <- E. by rewrite <- (hold_rest _ _ _ R) in C. Qed.

Lemma wp_gets {A} F u s (f : Eth H -> A) v Q :
  hold base F u s -> (forall s', rest s' = u -> f s' = v) -> Q v s -> wp (gets f) Q no_stop s.
Proof. intros R E C. unfold gets, wp. by rewrite (E s (hold_rest _ _ _ R)). Qed.

Lemma wp_modify F u s (f : Eth H -> Eth H) (f' : Eth unit -> Eth unit) Q :
  hold base F u s ->
  (forall s, rest (f s) = f' (rest s)) ->
  (forall s, txFd (tx (f s)) = txFd (tx s) /\ rxFd (rx (f s)) = rxFd (rx s) /\ hw (f s) = hw s /\
     base_addr (net (f s)) = base_addr (net s)) ->
  (forall s', hold base F (f' u) s' -> Q tt s') -> wp (modify f) Q no_stop s.
Proof.
  intros [HF Re Ba] E Fr C. unfold modify, wp. apply C. destruct (Fr s) as (E1 & E2 & E3 & E4).
  split; rewrite ?E1, ?E2, ?E3; [done|by rewrite E, Re|].
  rewrite <- Re, <- E. simpl. rewrite E4. by rewrite <- Ba, <- Re.
Qed.

Lemma wp_mtx F u s f Q :
  hold base F u s -> (forall x, txFd (f x) = txFd x) -> (forall x, set_txFd None (f x) = f (set_txFd None x)) ->
  (forall s', hold base F (upd_tx f u) s' -> Q tt s') -> wp (mtx f) Q no_stop s.
Proof.
  intros R F1 F2. apply (wp_modify _ _ _ _ (upd_tx f) _ R).
  - intros s'. unfold rest, upd_tx. simpl. by rewrite F2.
  - intros s'. simpl. by rewrite F1.
Qed.

Lemma wp_mrx F u s f Q :
  hold base F u s -> (forall x, rxFd (f x) = rxFd x) -> (forall x, set_rxFd None (f x) = f (set_rxFd None x)) ->
  (forall s', hold base F (upd_rx f u) s' -> Q tt s') -> wp (mrx f) Q no_stop s.
Proof.
  intros R F1 F2. apply (wp_modify _ _ _ _ (upd_rx f) _ R).
  - intros s'. unfold rest, upd_rx. simpl. by rewrite F2.
  - intros s'. simpl. by rewrite F1.
Qed.

Lemma wp_mnet F u s f Q :
  hold base F u s -> (forall n, base_addr (f n) = base_addr n) ->
  (forall s', hold base F (upd_net f u) s' -> Q tt s') -> wp (mnet f) Q no_stop s.
Proof. intros R E. apply (wp_modify _ _ _ _ (upd_net f) _ R); [done|]. intros s'. simpl. by rewrite E. Qed.

Lemma wp_gnet {A} F u s (f : NetDev -> A) Q : hold base F u s -> Q (f (net u)) s -> wp (gnet f) Q no_stop s.
Proof. intros R C. apply (wp_gets _ _ _ _ (f (net u)) _ R); [|done]. by intros s' <-. Qed.

Lemma wp_ret {A} (a : A) Q s : Q a s -> wp (mret a) Q no_stop s.
Proof. done. Qed.

(** Only counters change. *)
Lemma wp_add F u s c n Q :
  hold base F u s -> (forall st s', hold base F (set_stats st u) s' -> Q tt s') -> wp (add c n) Q no_stop s.
Proof.
  intros R C.
  apply (wp_modify _ _ _ _ (fun u => set_stats (fun d => if decide (d = c) then u32 (stats u d + n) else stats u d) u) _ R);
    [done|done|]. intros s'. apply C.
Qed.

Lemma wp_when_stats F u s b (m : M (Eth H) unit) Q :
  hold base F u s ->
  (forall s, hold base F u s -> wp m (fun _ s' => exists st, hold base F (set_stats st u) s') no_stop s) ->
  (forall st s', hold base F (set_stats st u) s' -> Q tt s') -> wp (when b m) Q no_stop s.
Proof.
  intros R M C. destruct b; simpl.
  - eapply wp_mono; [by apply M| |done]. intros [] s' [st R']. by eapply C.
  - apply wp_ret, (C (stats u)). by destruct u.
Qed.

(** *** Buffers *)

Lemma wp_tx_ctl F u s (i : nat) a Q :
  hold base F u s -> txFrCtl (tx u) !! i = Some a -> Q a s -> wp (tx_ctl (Z.of_nat i)) Q no_stop s.
Proof. intros R E C. apply wp_bind. eapply (wp_gtx _ _ _ txFrCtl); [done|exact R|]. by eapply wp_slot. Qed.

Lemma wp_rx_ctl F u s (i : nat) a Q :
  hold base F u s -> rxFrCtl (rx u) !! i = Some a -> Q a s -> wp (rx_ctl (Z.of_nat i)) Q no_stop s.
Proof. intros R E C. apply wp_bind. eapply (wp_grx _ _ _ rxFrCtl); [done|exact R|]. by eapply wp_slot. Qed.

Lemma wp_put_tx_ctl F u s (i : nat) a v Q :
  hold base F u s -> txFrCtl (tx u) !! i = Some a ->
  (forall s', hold base F (upd_tx (put_C i v) u) s' -> Q tt s') -> wp (put_tx_ctl (Z.of_nat i) v) Q no_stop s.
Proof.
  intros R E C. apply wp_bind. eapply wp_tx_ctl; [exact R|exact E|].
  eapply wp_mtx; [exact R|done|done|]. rewrite Nat2Z.id. exact C.
Qed.

Lemma wp_put_rx_ctl F u s (i : nat) a v Q :
  hold base F u s -> rxFrCtl (rx u) !! i = Some a ->
  (forall s', hold base F (upd_rx (put_R i v) u) s' -> Q tt s') -> wp (put_rx_ctl (Z.of_nat i) v) Q no_stop s.
Proof.
  intros R E C. apply wp_bind. eapply wp_rx_ctl; [exact R|exact E|].
  eapply wp_mrx; [exact R|done|done|]. rewrite Nat2Z.id. exact C.
Qed.

Lemma wp_the_skb F u s a b Q :
  hold base F u s -> a <> 0 -> skbs u !! a = Some b -> Q b s -> wp (the_skb a) Q no_stop s.
Proof.
  intros R N E C. unfold the_skb. rewrite (proj2 (Z.eqb_neq _ _) N). apply wp_bind.
  eapply (wp_gets _ _ _ skbs (skbs u)); [exact R|by intros s' <-|]. by rewrite E.
Qed.

Lemma wp_kfree F u s a b Q :
  hold base F u s -> a <> 0 -> skbs u !! a = Some b ->
  (forall s', hold base F (set_freed (freed u ++ [a]) (set_skbs (delete a (skbs u)) u)) s' -> Q tt s') ->
  wp (dev_kfree_skb a) Q no_stop s.
Proof.
  intros R N E C. apply wp_bind. eapply wp_the_skb; [done..|]. apply wp_bind.
  apply (wp_modify _ _ _ _ (fun u => set_skbs (delete a (skbs u)) u) _ R); [done|done|]. intros s1 R1.
  by apply (wp_modify _ _ _ _ (fun u => set_freed (freed u ++ [a]) u) _ R1).
Qed.

Lemma wp_receive F u s a b len Q :
  hold base F u s -> a <> 0 -> skbs u !! a = Some b ->
  (forall s', hold base F (set_delivered (delivered u ++ [(a, skb_len b + len)]) (set_skbs (delete a (skbs u)) u)) s' -> Q tt s') ->
  wp (netif_receive_skb a len) Q no_stop s.
Proof.
  intros R N E C. apply wp_bind. eapply wp_the_skb; [done..|]. apply wp_bind.
  apply (wp_modify _ _ _ _ (fun u => set_skbs (delete a (skbs u)) u) _ R); [done|done|]. intros s1 R1.
  by apply (wp_modify _ _ _ _ (fun u => set_delivered (delivered u ++ [(a, skb_len b + len)]) u) _ R1).
Qed.

(** A new buffer, or none. *)
Lemma wp_alloc F u s Q :
  hold base F u s ->
  (forall s', alloc_skb (clock u) (dom (skbs u)) = None -> hold base F (set_clock (S (clock u)) u) s' -> Q 0 s') ->
  (forall a d s', alloc_skb (clock u) (dom (skbs u)) = Some (a, d) -> a <> 0 -> skbs u !! a = None ->
     hold base F (set_skbs (<[a := mkSkb (d + 2) 0]> (skbs u)) (set_clock (S (clock u)) u)) s' -> Q a s') ->
  wp dev_alloc_skb Q no_stop s.
Proof.
  intros [HF Re Ba] C0 C1. unfold wp, dev_alloc_skb.
  assert (skbs s = skbs u) as Es by by rewrite <- Re.
  assert (clock s = clock u) as Ec by by rewrite <- Re.
  destruct (alloc_skb (clock s) (dom (skbs s))) as [[a d]|] eqn:E; rewrite Es, Ec in E.
  - destruct (alloc_fresh _ _ _ _ E) as [N Fr]. apply (C1 a d); [done|done|by apply not_elem_of_dom|].
    split; [done| |done]. rewrite <- Es, <- Ec, <- Re. done.
  - apply C0; [done|]. split; [done| |done]. rewrite <- Ec, <- Re. done.
Qed.

(** The state with other counters is the same for [Soft]. *)
Lemma Soft_stats g u st : Soft g u -> Soft g (set_stats st u).
Proof. by intros []. Qed.

(** *** Error counters *)

Ltac count_steps R :=
  repeat match goal with
  | |- wp (_ ≫= _) _ _ _ => apply wp_bind
  | |- wp (add _ _) _ _ _ => eapply wp_add; [exact R|]; clear R; intros ? ? R
  | |- wp (when _ _) _ _ _ => eapply wp_when_stats; [exact R| |]; clear R; [intros ? R|intros ? ? R]
  | |- wp (count _ _) _ _ _ => unfold count
  | |- wp (mret _) _ _ _ => apply wp_ret; eexists; exact R
  | |- wp (if ?b then _ else _) _ _ _ => destruct b
  | |- exists st, hold _ _ (set_stats st _) _ => eexists; exact R
  end.

Lemma wp_tx_error_check F u s w :
  hold base F u s -> wp (tx_error_check w) (fun _ s' => exists st, hold base F (set_stats st u) s') no_stop s.
Proof. intros R. unfold tx_error_check. destruct (negb _); count_steps R. Qed.

Lemma wp_rx_error_check F u s w len :
  hold base F u s -> wp (rx_error_check w len) (fun _ s' => exists st, hold base F (set_stats st u) s') no_stop s.
Proof. intros R. unfold rx_error_check. count_steps R. Qed.
End Ops.
