(* ===== verification/EthRun.v ===== *)
(** * The handlers of the Ethernet driver

    A rule for [s3c2510_send_packet], the two interrupt handlers and [s3c2510_poll]:
    each returns, whatever the controller does during it, and moves the rings
    as the rule says. *)

From S2P Require Import Prelude Mii Eth EthChip EthRing EthOps.

(** ** What the controller has done stays done *)

Definition stableA (A : list (Z * Z)) (K : Chip -> Prop) : Prop := forall j r p, Stable j A r p K.

Lemma stableA_and A K K' : stableA A K -> stableA A K' -> stableA A (fun c => K c /\ K' c).
Proof. intros S1 S2 j r p. by apply Stable_and. Qed.

Lemma stableA_true A : stableA A (fun _ => True).
Proof. done. Qed.

Lemma sent_stable A k : stableA A (fun c => (k < length (tx_log c))%nat).
Proof. intros j r p T X c T' X' c' _ _ B M. inversion M; subst; simpl in *; rewrite ?length_app; lia. Qed.

Lemma received_stable A l : stableA A (fun c => l `prefix_of` rx_log c).
Proof.
  intros j r p T X c T' X' c' _ _ B M. inversion M; subst; simpl in *; try done. by apply prefix_app_r.
Qed.

Lemma prefix_lookup_next (l l' : list Z) w :
  l `prefix_of` l' -> l' !! length l = Some w -> (l ++ [w]) `prefix_of` l'.
Proof.
  intros [k ->]. rewrite lookup_app_r, Nat.sub_diag by done. destruct k as [|x k]; [done|].
  simpl. intros [= ->]. exists k. by rewrite <- app_assoc.
Qed.

(** A frame that waits after [p] processed ones is announced. *)
Definition flagged (p : nat) (c : Chip) : Prop := (p < length (rx_log c))%nat -> has (regs c BMRXSTAT) BRxDone.

Lemma has_lor_r x m : has m m -> has (Z.lor x m) m.
Proof. unfold has. by rewrite land_or_same, Z.land_diag. Qed.

Lemma has_lor_l x y m : has x m -> has (Z.lor x y) m.
Proof.
  unfold has. rewrite !Is_true_true, !negb_true_iff, !Z.eqb_neq, Z.land_lor_distr_l. intros N E.
  by apply Z.lor_eq_0_iff in E as [? ?].
Qed.

Lemma flagged_stable A p : stableA A (flagged p).
Proof.
  intros j r q T X c T' X' c' _ _ F M. unfold flagged in *. inversion M; subst; simpl in *; try done.
  - intros _. by apply has_lor_r.
  - intros Lt. apply has_lor_l. auto.
Qed.

(** Reception interrupts are on. *)
Definition enabled (c : Chip) : Prop := has (regs c BMRXINTEN) BRxDoneIE.

Lemma enabled_stable A : stableA A enabled.
Proof. intros j r q T X c T' X' c' _ _ F M. unfold enabled in *. by inversion M; subst. Qed.

(** A property that writes of some registers keep. *)
Definition keeps (offs : list Z) (K : Chip -> Prop) : Prop := forall off v c, off ∈ offs -> K c -> K (chip_write off v c).

Definition tx_regs : list Z := [BMTXSTAT; BMTXINTEN; BDMATXCON; MACTXCON].
Definition rx_regs : list Z := [BMRXSTAT; BMRXINTEN; BDMARXCON; MACRXCON].

Ltac in_regs := unfold tx_regs, rx_regs; repeat first [apply list_elem_of_here | apply list_elem_of_further].

Ltac sub_regs := intros ?; unfold tx_regs, rx_regs; simpl app; rewrite !elem_of_cons; tauto.

(** A register access by the rule [lem] when [SK] is the stability of the property and [R] the
    state of the rings, which is replaced. *)
Ltac keep_step R SK lem s' :=
  eapply lem; [|exact R|done|in_regs|done|done|]; [exact (SK _ _ _)|]; clear R; intros s' R.

Section Run.
Context {H : Type} `{EthHw H} `{SkbAlloc} {base : Z} `{L : !EthLaws H base}.
Implicit Types (s : Eth H) (u : Eth unit) (g : Ghost) (K : Chip -> Prop).

Lemma ring_tx_bounds g K u s :
  ring g K u s -> (g_j g <= length (tx_log (chip s)) <= length (g_A g))%nat /\ (length (g_A g) <= g_j g + 64)%nat.
Proof.
  intros R. destruct (ring_fds _ _ _ _ R) as (T & X & _ & _ & [Pr Re Ro _] & _).
  apply prefix_length in Pr. lia.
Qed.

Lemma ring_rx_bounds g K u s :
  ring g K u s -> (g_r g <= g_p g <= length (rx_log (chip s)))%nat /\ (length (rx_log (chip s)) <= g_r g + 64)%nat /\
    length (g_XP g) = 64%nat.
Proof.
  intros R. destruct (ring_fds _ _ _ _ R) as (T & X & _ & _ & _ & [Po Pr Ro [Len _]] & _ & PX).
  split_and!; [done..|]. rewrite <- PX, length_fmap. done.
Qed.

(** ** Transmission *)

(** What reaping changes of the rest. *)
Definition reap_upd (C : list Z) (m : gmap Z SkBuff) (st : counter -> Z) (f : list Z) u : Eth unit :=
  upd_tx (set_txFrCtl C) (set_skbs m (set_stats st (set_freed f u))).

Lemma reap_upd_id u : u = reap_upd (txFrCtl (tx u)) (skbs u) (stats u) (freed u) u.
Proof. by destruct u as [[] ? ? ? ? ? ? ? ? ? ? ? ? ? []]. Qed.

(** Everything sent at the end of the loop is reaped. *)
Lemma wp_tx_done_loop n : forall g K u s,
  stableA (g_A g) K -> ring g K u s -> Soft g u -> (length (g_A g) - g_j g < n)%nat ->
  wp (tx_done_loop n (Z.of_nat (at_ring (g_j g))))
    (fun i s' => exists j' TP C m st f, let g' := set_TP TP (set_j j' g) in
       i = Z.of_nat (at_ring j') /\ j' = length (tx_log (chip s')) /\ (g_j g <= j')%nat /\
       ring g' K (reap_upd C m st f u) s' /\ Soft g' (reap_upd C m st f u)) no_stop s.
Proof.
  induction n as [|n IH]; intros g K u s SK R So Fuel; [lia|].
  cbn [tx_done_loop]. apply wp_bind. eapply wp_tx_slot; [apply SK|exact R|lia|].
  clear R. intros d s1 T R _ _ (S1 & S2 & S3). pose proof (ring_tx_bounds _ _ _ _ R) as [B1 B2].
  fold (fd_comp (FDStatLen d)). destruct (fd_comp (FDStatLen d)) eqn:Cp; cbn [negb].
  2:{ apply wp_ret. exists (g_j g), (g_TP g), (txFrCtl (tx u)), (skbs u), (stats u), (freed u).
      rewrite <- reap_upd_id. assert (set_TP (g_TP g) (set_j (g_j g) g) = g) as -> by by destruct g.
      split_and!; try done. destruct (decide (g_j g < length (tx_log (chip s1)))%nat) as [Lt|]; [|lia].
      by destruct (S1 Lt). }
  assert (Sent : (g_j g < length (tx_log (chip s1)))%nat).
  { destruct (decide (g_j g < length (tx_log (chip s1)))%nat); [done|].
    destruct (decide (g_j g < length (g_A g))%nat) as [Lt|Lt].
    - destruct S2 as (_ & E & _); [lia|]. congruence.
    - destruct S3 as (_ & E); [lia|]. congruence. }
  set (K1 := fun c => (g_j g < length (tx_log c))%nat /\ K c).
  assert (SK1 : stableA (g_A g) K1) by (apply stableA_and; [apply sent_stable|done]).
  apply (ring_weaken _ _ K1) in R; [|by split].
  destruct (Win_get _ _ _ (g_j g) (soft_tx _ _ So) ltac:(lia)) as (a & Ea & (Na & b & Eb & _) & _); [lia|].
  apply wp_bind. eapply wp_tx_ctl; [exact R|exact Ea|].
  apply wp_bind. eapply wp_tx_slot; [apply SK1|exact R|lia|]. clear R. intros d' s2 T' R _ _ _.
  apply wp_bind. eapply wp_mono; [by eapply wp_tx_error_check| |done]. clear R. intros _ s3 [st R].
  apply wp_bind. eapply wp_kfree; [exact R|exact Na|exact Eb|]. clear R. intros s4 R.
  apply wp_bind. eapply wp_put_tx_ctl; [exact R|exact Ea|]. clear R. intros s5 R.
  apply wp_bind. eapply wp_put_tx_ptr; [apply SK1|exact R|lia|by intros c [? ?]; left|]. clear R. intros s6 R.
  apply wp_bind. eapply (wp_put_tx_free (set_TP _ g)); [apply SK1|exact R|by intros c [? ?]|done|done|].
  clear R. intros s7 R. apply (ring_weaken _ _ K) in R; [|by intros [_ ?]].
  unfold TX_NUM_FD. rewrite at_ring_next.
  eapply wp_mono; [eapply (IH _ _ _ _ _ R)| |done].
  - eapply Soft_ext; [apply (Soft_reap g (set_stats st u) a); [by apply Soft_stats|lia|done]|done..].
  - simpl. lia.
  - intros i s8 (j' & TP & C & m & st' & f & -> & Ej & Lj & R' & So'). simpl in *.
    exists j', TP, C, m, st', f. split_and!; [done|done|lia|exact R'|exact So'].
  Unshelve. done.
Qed.

Lemma wp_tx_done_check g K u s :
  stableA (g_A g) K -> ring g K u s -> Soft g u -> Idx g u ->
  wp tx_done_check
    (fun _ s' => exists j' TP C m st f, let g' := set_TP TP (set_j j' g) in
       let u' := upd_tx (set_tx_done (Z.of_nat (at_ring j'))) (reap_upd C m st f u) in
       (forall n, (forall c, K c -> (n <= length (tx_log c))%nat) -> (n <= j')%nat) /\ (g_j g <= j')%nat /\
       ring g' K u' s' /\ Soft g' u' /\ Idx g' u') no_stop s.
Proof.
  intros SK R So Ix. pose proof (ring_tx_bounds _ _ _ _ R) as [B1 B2].
  apply wp_bind. eapply (wp_gtx _ _ _ tx_done); [done|exact R|]. rewrite (idx_done _ _ Ix).
  apply wp_bind. eapply wp_mono; [eapply (wp_tx_done_loop 65 _ _ _ _ SK R So); lia| |done].
  clear R. intros i s1 (j' & TP & C & m & st & f & -> & Ej & Lj & R & So').
  pose proof (ring_chip _ _ _ _ R) as HK. eapply wp_mtx; [exact R|done|done|]. clear R. intros s2 R.
  exists j', TP, C, m, st, f. split_and!; [|done|exact R| |].
  - intros n Hn. rewrite Ej. by apply Hn.
  - destruct So'. by split.
  - destruct Ix. by split.
Qed.
(** A write of the driver, when the property survives it. *)
Lemma wp_or_keeps offs g K u s off m Q :
  stable g K -> ring g K u s -> keeps offs K -> off ∈ offs -> known off -> restarts off = false ->
  (forall s', ring g K u s' -> Q tt s') -> wp (reg_or off m) Q no_stop s.
Proof. intros SK R Kp I Kn NR C. eapply (wp_reg_or g K K); [done..| |exact C]. intros v c. by apply Kp. Qed.

Lemma wp_clear_keeps offs g K u s off m Q :
  stable g K -> ring g K u s -> keeps offs K -> off ∈ offs -> known off -> restarts off = false ->
  (forall s', ring g K u s' -> Q tt s') -> wp (reg_clear off m) Q no_stop s.
Proof. intros SK R Kp I Kn NR C. eapply (wp_reg_clear g K K); [done..| |exact C]. intros v c. by apply Kp. Qed.

Lemma wp_write_keeps offs g K u s off v Q :
  stable g K -> ring g K u s -> keeps offs K -> off ∈ offs -> known off -> restarts off = false ->
  (forall s', ring g K u s' -> Q tt s') -> wp (reg_write off v) Q no_stop s.
Proof. intros SK R Kp I Kn NR C. eapply (wp_reg_write g K K); [done..| |exact C]. intros c. by apply Kp. Qed.

Lemma send_word len :
  0 <= len < 65536 -> let w := Z.lor (Z.shiftl (TxWidSet16 + OWNERSHIP16) 16) len in
  fd_owned w /\ fd_comp w = false /\ fd_len w = len.
Proof.
  intros B w. subst w. change (Z.shiftl (TxWidSet16 + OWNERSHIP16) 16) with 0x80020000.
  assert (Hi : forall m, 0 <= m -> Z.land len (Z.shiftl m 16) = 0).
  { intros m Bm. apply Z.bits_inj'. intros i Bi. rewrite Z.land_spec, Z.shiftl_spec, Z.bits_0 by done.
    destruct (Z.ltb_spec i 16).
    - by rewrite (Z.testbit_neg_r m) , andb_false_r by lia.
    - rewrite <- (Z.mod_small len (2 ^ 16)), Z.mod_pow2_bits_high by lia. done. }
  unfold fd_owned, fd_comp, fd_len, has. rewrite !Z.land_lor_distr_l, !Hi by done. split_and!; [done..|].
  change (Z.land 0x80020000 0xffff) with 0. change 0xffff with (Z.ones 16).
  rewrite Z.land_ones, Z.mod_small by lia. done.
Qed.

(** A frame is accepted if the ring has room; if not, the queue is stopped. *)
Lemma wp_send g K u s skb data len :
  stableA (g_A g) K -> stableA (g_A g ++ [(u32 (data - 2), len)]) K -> keeps tx_regs K ->
  ring g K u s -> Soft g u -> Idx g u -> skb <> 0 -> skbs u !! skb = None -> 0 <= len < 65536 ->
  wp (s3c2510_send_packet skb data len)
    (fun r s' =>
       if decide (length (g_A g) < g_j g + 64)%nat then
         exists TP, let g' := set_A (g_A g ++ [(u32 (data - 2), len)]) (set_TP TP g) in
         let u' := upd_tx (fun x => set_tx_ready (Z.of_nat (at_ring (S (length (g_A g))))) (put_C (at_ring (length (g_A g))) skb x))
           (set_accepted (accepted u ++ [(u32 (data - 2), len)]) (set_skbs (<[skb := mkSkb data len]> (skbs u)) u)) in
         r = 0 /\ ring g' K u' s' /\ Soft g' u' /\ Idx g' u'
       else r = -1 /\ ring g K (upd_net (set_xoff true) u) s') no_stop s.
Proof.
  intros SK SK' Kp R So Ix Ns Fr Bl. pose proof (ring_tx_bounds _ _ _ _ R) as [B1 B2].
  pose proof (soft_ready _ _ So) as Rd.
  apply wp_bind. eapply (wp_gtx _ _ _ tx_ready); [done|exact R|]. rewrite Rd.
  destruct (decide (length (g_A g) < g_j g + 64)%nat) as [Lt|Ge].
  - destruct (Win_get _ _ _ (length (g_A g)) (soft_tx _ _ So) ltac:(lia)) as (a & Ea & _ & Z). rewrite Z in Ea by lia.
    apply wp_bind. eapply wp_tx_ctl; [exact R|exact Ea|]. cbn [Z.eqb].
    apply wp_bind. eapply wp_put_tx_ptr; [apply SK|exact R|lia|by right|]. clear R. intros s1 R.
    apply wp_bind. apply (wp_modify _ _ _ _ (fun u => set_skbs (<[skb := mkSkb data len]> (skbs u)) u) _ R); [done|done|].
    clear R. intros s2 R.
    apply wp_bind. eapply wp_put_tx_ctl; [exact R|exact Ea|]. clear R. intros s3 R.
    destruct (send_word len Bl) as (W1 & W2 & W3).
    apply wp_bind. eapply (wp_put_tx_own (set_TP _ g) _ _ _ _ (u32 (data - 2))); [apply SK|exact R|done| |done|done|].
    { destruct (ring_fds _ _ _ _ R) as (T & X & _ & _ & [_ _ _ [Len _]] & _ & PT & _). simpl in *.
      apply list_lookup_insert_eq. apply (f_equal length) in PT. rewrite length_insert, length_fmap, Len in PT.
      rewrite <- PT. apply at_ring_lt. }
    clear R. intros s4 R. simpl in R. rewrite W3 in R.
    apply wp_bind. apply (wp_modify _ _ _ _ (fun u => set_accepted (accepted u ++ [(u32 (data - 2), len)]) u) _ R); [done|done|].
    clear R. intros s5 R. unfold TX_NUM_FD. rewrite at_ring_next.
    apply wp_bind. eapply wp_mtx; [exact R|done|done|]. clear R. intros s6 R.
    apply wp_bind. keep_step R SK' (wp_or_keeps tx_regs) s7.
    apply wp_bind. keep_step R SK' (wp_or_keeps tx_regs) s8.
    apply wp_ret. eexists. split; [done|]. split; [exact R|]. split.
    + eapply Soft_ext; [apply (Soft_send g (set_accepted _ u) skb data len _ ltac:(by destruct So))|..]; try done; lia.
    + destruct Ix. by split.
  - assert (length (g_A g) = g_j g + 64)%nat as Ef by lia.
    destruct (Win_get _ _ _ (g_j g) (soft_tx _ _ So) ltac:(lia)) as (a & Ea & (Na & _) & _); [lia|].
    rewrite Ef, at_ring_add. apply wp_bind. eapply wp_tx_ctl; [exact R|exact Ea|].
    rewrite (proj2 (Z.eqb_neq _ _) Na).
    apply wp_bind. eapply wp_mnet; [exact R|done|]. clear R. intros s1 R.
    apply wp_bind. keep_step R SK (wp_or_keeps tx_regs) s2.
    by apply wp_ret.
Qed.

(** The transmit interrupt: it reaps when the queue is stopped, and starts it. *)
Lemma wp_Tx g K u s :
  stableA (g_A g) K -> keeps tx_regs K -> ring g K u s -> Soft g u -> Idx g u ->
  wp s3c2510_Tx
    (fun _ s' => exists g' u', ring g' K u' s' /\ Soft g' u' /\ Idx g' u' /\
       ((exists st, g' = g /\ u' = set_stats st u) \/
        (exists j' TP C m st f, xoff (net u) /\ (g_j g <= j')%nat /\ g' = set_TP TP (set_j j' g) /\
           (forall n, (forall c, K c -> (n <= length (tx_log c))%nat) -> (n <= j')%nat) /\
           u' = upd_net (set_xoff false) (upd_tx (set_tx_done (Z.of_nat (at_ring j'))) (reap_upd C m st f u))))) no_stop s.
Proof.
  intros SK Kp R So Ix.
  apply wp_bind. eapply wp_reg_read; [apply SK|exact R|]. clear R. intros status s1 R _.
  apply wp_bind. keep_step R SK (wp_write_keeps tx_regs) s2.
  apply wp_bind. unfold count. eapply wp_when_stats; [exact R| |].
  { intros s' R'. eapply wp_add; [exact R'|]. eauto. }
  clear R. intros st s3 R. apply wp_bind. eapply wp_gnet; [exact R|].
  destruct (has status TxComp && xoff (net (set_stats st u))) eqn:B; cbn [when].
  - apply andb_true_iff in B as [_ B].
    apply wp_bind. eapply wp_mono; [eapply wp_tx_done_check; [exact SK|exact R|by destruct So|by destruct Ix]| |done].
    clear R. intros _ s4 (j' & TP & C & m & st' & f & Fn & Lj & R & So' & Ix').
    apply wp_bind. keep_step R SK (wp_clear_keeps tx_regs) s5.
    eapply wp_mnet; [exact R|done|]. clear R. intros s6 R.
    eexists _, _. split; [exact R|]. split; [by destruct So'|]. split; [by destruct Ix'|].
    right. exists j', TP, C, m, st', f. split_and!; try done. apply Is_true_true. exact B.
  - apply wp_ret. exists g, (set_stats st u). split; [done|]. split; [by destruct So|]. split; [by destruct Ix|]. left. by exists st.
Qed.
(** ** Reception *)

(** What the receive path leaves alone. *)
Record rx_frame u u' : Prop := mkRxFrame {
  fr_tx : tx u' = tx u;
  fr_net : net u' = net u;
  fr_accepted : accepted u' = accepted u;
  fr_freed : freed u' = freed u;
}.

#[local] Instance rx_frame_refl : Reflexive rx_frame.
Proof. by split. Qed.
#[local] Instance rx_frame_trans : Transitive rx_frame.
Proof. intros u v w [] []. split; congruence. Qed.

(** The lengths of the good frames among the status words [W]. *)
Definition frames (W : list Z) : list Z := fd_len <$> filter (fun w => has (fd_status w) RxS_Done) W.

Lemma frames_snoc W w : frames (W ++ [w]) = frames W ++ (if has (fd_status w) RxS_Done then [fd_len w] else []).
Proof.
  unfold frames. rewrite filter_app, fmap_app. f_equal. rewrite filter_cons. by destruct (has _ _) eqn:E; case_decide.
Qed.

Lemma slot_zero log p k d : rx_slot log p k d -> FDStatLen d = 0 -> (k < p)%nat.
Proof.
  intros (_ & S2 & S3) E. destruct (decide (k < p)%nat); [done|].
  destruct (decide (k < length log)%nat).
  - destruct S2 as (_ & N & _); [lia|]. by rewrite E in N.
  - rewrite S3 in E by lia. done.
Qed.

Lemma wp_refill_loop n : forall g K u s,
  stableA (g_A g) K -> ring g K u s -> Soft g u -> (g_p g - g_r g < n)%nat ->
  wp (rx_refill_loop n (Z.of_nat (at_ring (g_r g))))
    (fun i s' => exists r' XP u', let g' := set_XP XP (set_r r' g) in
       i = Z.of_nat (at_ring r') /\ ring g' K u' s' /\ Soft g' u' /\ rx_frame u u' /\ delivered u' = delivered u /\
       rx_done (rx u') = rx_done (rx u) /\ curr_work_limit (rx u') = curr_work_limit (rx u)) no_stop s.
Proof.
  induction n as [|n IH]; intros g K u s SK R So Fuel; [lia|].
  cbn [rx_refill_loop]. apply wp_bind. eapply wp_rx_slot; [apply SK|exact R|lia|].
  clear R. intros d s1 X R _ _ Sl. pose proof (ring_rx_bounds _ _ _ _ R) as (B1 & B2 & BX).
  assert (Eg : set_XP (g_XP g) (set_r (g_r g) g) = g) by by destruct g.
  destruct (Z.eqb_spec (FDStatLen d) 0) as [E|E]; cbn [negb].
  2:{ apply wp_ret. exists (g_r g), (g_XP g), u. rewrite Eg. done. }
  pose proof (slot_zero _ _ _ _ Sl E) as Lt.
  destruct (Win_get _ _ _ (g_r g) (soft_rx _ _ So) ltac:(lia)) as (a & Ea & _).
  apply wp_bind. eapply wp_rx_ctl; [exact R|exact Ea|]. apply wp_bind.
  destruct (Z.eqb_spec a 0) as [->|Na].
  - apply wp_bind. eapply wp_alloc; [exact R| |].
    + clear R. intros s2 _ R. cbn [Z.eqb]. apply wp_ret, wp_ret. exists (g_r g), (g_XP g), (set_clock (S (clock u)) u). rewrite Eg.
      split_and!; try done. by destruct So.
    + clear R. intros a dd s2 _ Na Fr R. rewrite (proj2 (Z.eqb_neq _ _) Na).
      apply wp_bind. eapply wp_put_rx_ctl; [exact R|exact Ea|]. clear R. intros s3 R.
      apply wp_bind. eapply wp_the_skb; [exact R|done|by apply lookup_insert_eq|]. cbn [skb_data].
      apply wp_bind. eapply wp_put_rx_ptr; [apply SK|exact R|lia|]. clear R. intros s4 R. apply wp_ret.
      apply wp_bind. eapply (wp_put_rx_posted (set_XP _ g)); [apply SK|exact R|done|]. clear R. intros s5 R.
      unfold RX_NUM_FD. rewrite at_ring_next. eapply wp_mono; [eapply (IH _ _ _ _ _ R)| |done].
      * eapply Soft_ext; [apply (Soft_refill g (set_clock (S (clock u)) u) a (dd + 2)); [by destruct So|done..]|done..].
      * simpl. lia.
      * intros i s6 (r' & XP & u' & -> & R' & So' & F & D & E1 & E2). exists r', XP, u'.
        split_and!; try done. by destruct F.
  - apply wp_ret. apply wp_bind. eapply wp_put_rx_posted; [apply SK|exact R|done|]. clear R. intros s5 R.
    unfold RX_NUM_FD. rewrite at_ring_next. eapply wp_mono; [eapply (IH _ _ _ _ _ R)| |done].
    + by eapply Soft_repost.
    + simpl. lia.
    + intros i s6 (r' & XP & u' & -> & R' & So' & F & D & E1 & E2). by exists r', XP, u'.
  Unshelve. all: done.
Qed.

(** One frame: what the body of the loop does with it. *)
Definition taken (w : Z) (u u' : Eth unit) : Prop :=
  rx_frame u u' /\ rx_done (rx u') = rx_done (rx u) /\ rx_skb_refill (rx u') = rx_skb_refill (rx u) /\
  snd <$> delivered u' = (snd <$> delivered u) ++ frames [w] /\
  curr_work_limit (rx u') = curr_work_limit (rx u) - Z.of_nat (length (frames [w])).

Lemma wp_take_frame g K u s w :
  stableA (g_A g) K -> ring g K u s -> Soft g u -> (g_r g <= g_p g < g_r g + 64)%nat ->
  wp (if has (fd_status w) RxS_Done then
        skb ← rx_ctl (Z.of_nat (at_ring (g_p g)));
        add rx_bytes (fd_len w) ;; add rx_packets 1 ;;
        netif_receive_skb skb (fd_len w) ;;
        mrx (set_curr_work_limit (curr_work_limit (rx u) - 1)) ;;
        put_rx_ctl (Z.of_nat (at_ring (g_p g))) 0 ;;
        mret 1
      else rx_error_check (fd_status w) (fd_len w) ;; mret 0)
    (fun got s' => exists u', ring g K u' s' /\ Soft (set_p (S (g_p g)) g) u' /\ taken w u u' /\
       got = Z.of_nat (length (frames [w]))) no_stop s.
Proof.
  intros SK R So B. assert (Ef : frames [w] = if has (fd_status w) RxS_Done then [fd_len w] else []) by apply (frames_snoc []).
  unfold taken. rewrite Ef. clear Ef.
  destruct (Win_get _ _ _ _ (soft_rx _ _ So) B) as (a & Ea & Na & Sa). specialize (Na ltac:(lia)).
  destruct (Sa Na) as (q & _ & Em).
  destruct (has (fd_status w) RxS_Done).
  - apply wp_bind. eapply wp_rx_ctl; [exact R|exact Ea|].
    apply wp_bind. eapply wp_add; [exact R|]. clear R. intros st1 s1 R.
    apply wp_bind. eapply wp_add; [exact R|]. clear R. intros st s2 R.
    apply wp_bind. eapply wp_receive; [exact R|exact Na|exact Em|]. clear R. intros s3 R.
    apply wp_bind. eapply wp_mrx; [exact R|done|done|]. clear R. intros s4 R.
    apply wp_bind. eapply wp_put_rx_ctl; [exact R|exact Ea|]. clear R. intros s5 R.
    apply wp_ret. eexists. split; [exact R|]. split; [|split_and!; try done].
    + destruct (Soft_deliver g u a So B Ea). by split.
    + simpl. by rewrite fmap_app.
  - apply wp_bind. eapply wp_mono; [by eapply wp_rx_error_check| |done]. intros _ s1 [st R1].
    apply wp_ret. eexists. split; [exact R1|]. split; [|split_and!; try done].
    + by apply Soft_error, Soft_stats.
    + simpl. by rewrite app_nil_r.
    + simpl. lia.
Qed.

(** What the loop has done when it ends with [x]: [W] are the status words it has processed, after those in [l]. *)
Definition rx_taken g K l u (received : Z) (x : Z * Z) s : Prop :=
  exists W u', let l' := l ++ W in let g' := set_p (length l') g in let got := Z.of_nat (length (frames W)) in
    x = (Z.of_nat (at_ring (length l')), received + got) /\
    ring g' (fun c => l' `prefix_of` rx_log c /\ K c) u' s /\ Soft g' u' /\
    (length l' = length (rx_log (chip s)) \/ curr_work_limit (rx u') <= 0) /\
    rx_frame u u' /\ rx_done (rx u') = rx_done (rx u) /\ rx_skb_refill (rx u') = rx_skb_refill (rx u) /\
    snd <$> delivered u' = (snd <$> delivered u) ++ frames W /\
    curr_work_limit (rx u') = curr_work_limit (rx u) - got.

Lemma rx_taken_none g K l u received s :
  ring g (fun c => l `prefix_of` rx_log c /\ K c) u s -> Soft g u -> length l = g_p g ->
  g_p g = length (rx_log (chip s)) \/ curr_work_limit (rx u) <= 0 ->
  rx_taken g K l u received (Z.of_nat (at_ring (g_p g)), received) s.
Proof.
  intros R So Ll E. exists [], u. simpl. rewrite !app_nil_r, Ll, Z.add_0_r, Z.sub_0_r.
  assert (set_p (g_p g) g = g) as -> by by destruct g. done.
Qed.

(** One frame more: [u1] is the state behind it. *)
Lemma rx_taken_cons g K l w u u1 received x s :
  rx_frame u u1 -> rx_done (rx u1) = rx_done (rx u) -> rx_skb_refill (rx u1) = rx_skb_refill (rx u) ->
  snd <$> delivered u1 = (snd <$> delivered u) ++ frames [w] ->
  curr_work_limit (rx u1) = curr_work_limit (rx u) - Z.of_nat (length (frames [w])) ->
  rx_taken (set_p (S (g_p g)) g) K (l ++ [w]) u1 (received + Z.of_nat (length (frames [w]))) x s -> rx_taken g K l u received x s.
Proof.
  intros F1 D1 D2 D3 D4 (W & u' & -> & R' & So' & En & F' & E1 & E2 & E3 & E4). exists (w :: W), u'.
  assert (Ec : l ++ w :: W = (l ++ [w]) ++ W) by by rewrite <- app_assoc.
  assert (Efr : frames (w :: W) = frames [w] ++ frames W) by (unfold frames; by rewrite (filter_app _ [w] W), fmap_app).
  cbv zeta in *. rewrite Ec, Efr, (length_app (frames [w])), E1, E2, D1, D2, E3, D3, <- (app_assoc (snd <$> delivered u)).
  split_and!; [f_equal; lia|exact R'|exact So'|exact En|by etrans|done..|]. rewrite E4, D4. lia.
Qed.

(** The body of the loop on a frame with the status word [w]. *)
Lemma wp_rx_frame g K l w u s received n Q :
  stableA (g_A g) K -> ring g (fun c => (l ++ [w]) `prefix_of` rx_log c /\ K c) u s -> Soft g u -> length l = g_p g ->
  (g_p g < g_r g + 64)%nat ->
  (forall u1 s1, ring (set_p (S (g_p g)) g) (fun c => (l ++ [w]) `prefix_of` rx_log c /\ K c) u1 s1 -> Soft (set_p (S (g_p g)) g) u1 ->
     rx_frame u u1 -> rx_done (rx u1) = rx_done (rx u) -> rx_skb_refill (rx u1) = rx_skb_refill (rx u) ->
     snd <$> delivered u1 = (snd <$> delivered u) ++ frames [w] ->
     curr_work_limit (rx u1) = curr_work_limit (rx u) - Z.of_nat (length (frames [w])) ->
     wp (rx_done_loop n (Z.of_nat (at_ring (S (g_p g)))) (received + Z.of_nat (length (frames [w])))) Q no_stop s1) ->
  let index := Z.of_nat (at_ring (g_p g)) in
  wp (d ← rx_fd index;
      let len := Z.land (FDStatLen d) 0xffff in
      got ← (if has (fd_status w) RxS_Done then
               skb ← rx_ctl index;
               add rx_bytes len ;; add rx_packets 1 ;;
               netif_receive_skb skb len ;;
               mrx (set_curr_work_limit (curr_work_limit (rx u) - 1)) ;;
               put_rx_ctl index 0 ;;
               mret 1
             else rx_error_check (fd_status w) len ;; mret 0);
      put_rx_fd index (with_stat 0) ;;
      rx_done_loop n ((index + 1) mod RX_NUM_FD) (received + got)) Q no_stop s.
Proof.
  intros SK R So Ll Lt C index. pose proof (ring_rx_bounds _ _ _ _ R) as (B1 & B2 & BX).
  set (K1 := fun c => (l ++ [w]) `prefix_of` rx_log c /\ K c) in *.
  assert (SK1 : stableA (g_A g) K1) by (apply stableA_and; [apply received_stable|done]).
  assert (Lw : forall c, K1 c -> rx_log c !! g_p g = Some w).
  { intros c [[k ->] _]. by rewrite <- Ll, <- app_assoc, lookup_app_r, Nat.sub_diag by done. }
  apply wp_bind. eapply wp_rx_slot; [apply SK1|exact R|lia|]. clear R. intros d s2 X' R _ _ (_ & S2 & _).
  assert (FDStatLen d = w) as ->.
  { pose proof (Lw _ (ring_chip _ _ _ _ R)) as E. destruct S2 as (E' & _); [|congruence].
    split; [done|]. by eapply lookup_lt_Some. }
  fold (fd_len w). apply wp_bind. eapply wp_mono; [eapply (wp_take_frame g K1); [done|exact R|done|lia]| |done].
  clear R. intros got s3 (u1 & R & So1 & (F1 & D1 & D2 & D3 & D4) & ->).
  apply wp_bind. eapply wp_put_rx_zero; [apply SK1|exact R| |done|].
  { intros c HK. by eapply lookup_lt_Some, Lw. }
  clear R. intros s4 R. unfold RX_NUM_FD, index. rewrite at_ring_next. by apply C with u1.
Qed.

(** The loop: [l] are the status words processed before. *)
Lemma wp_rx_done_loop n : forall g K l u s received,
  stableA (g_A g) K -> ring g (fun c => l `prefix_of` rx_log c /\ K c) u s -> Soft g u -> length l = g_p g ->
  (g_r g + 64 - g_p g < n)%nat ->
  wp (rx_done_loop n (Z.of_nat (at_ring (g_p g))) received) (rx_taken g K l u received) no_stop s.
Proof.
  induction n as [|n IH]; intros g K l u s received SK R So Ll Fuel; [lia|].
  assert (SKl : stableA (g_A g) (fun c => l `prefix_of` rx_log c /\ K c)) by (apply stableA_and; [apply received_stable|done]).
  cbn [rx_done_loop]. apply wp_bind.
  (* the slot that is read *)
  pose proof (ring_rx_bounds _ _ _ _ R) as (B1 & B2 & BX).
  destruct (decide (g_p g < g_r g + 64)%nat) as [Lt|Ge].
  2:{ assert (g_p g = g_r g + 64)%nat as Ep by lia. rewrite Ep, at_ring_add.
      eapply wp_rx_slot; [apply SKl|exact R|lia|]. clear R. intros d s1 X R _ _ (S1 & _).
      rewrite S1 by lia. apply wp_bind. eapply (wp_grx _ _ _ curr_work_limit); [done|exact R|].
      change (Z.land (Z.shiftr 0 16) 0x7fff =? 0) with true. cbn [orb]. apply wp_ret.
      rewrite <- at_ring_add, <- Ep. apply rx_taken_none; [exact R|done|done|].
      pose proof (ring_rx_bounds _ _ _ _ R). lia. }
  eapply wp_rx_slot; [apply SKl|exact R|lia|]. clear R. intros d s1 X R _ _ (_ & S2 & S3).
  pose proof (ring_rx_bounds _ _ _ _ R) as (B1' & B2' & _).
  apply wp_bind. eapply (wp_grx _ _ _ curr_work_limit); [done|exact R|].
  fold (fd_status (FDStatLen d)).
  destruct ((fd_status (FDStatLen d) =? 0) || (curr_work_limit (rx u) <=? 0)) eqn:Cond.
  { apply wp_ret, rx_taken_none; [exact R|done|done|]. apply orb_true_iff in Cond as [E|E%Z.leb_le]; [left|by right].
    apply Z.eqb_eq in E. destruct (decide (g_p g < length (rx_log (chip s1)))%nat); [|lia].
    by destruct S2 as (_ & N & _); [lia|]. }
  apply orb_false_iff in Cond as [N _]. apply Z.eqb_neq in N.
  assert (Re : (g_p g < length (rx_log (chip s1)))%nat).
  { destruct (decide (g_p g < length (rx_log (chip s1)))%nat); [done|]. rewrite S3 in N by lia. done. }
  destruct S2 as (Ew & _); [lia|].
  eapply (wp_rx_frame g K l (FDStatLen d)); [done| |done|done|lia|].
  { eapply ring_weaken; [exact R|]. intros [? ?]. split; [apply prefix_lookup_next; [done|by rewrite Ll]|done]. }
  intros u1 s2 R2 So2 F1 D1 D2 D3 D4. eapply wp_mono; [eapply (IH (set_p (S (g_p g)) g) K (l ++ [FDStatLen d]) u1); [done|exact R2|done|rewrite length_app; simpl; lia|simpl; lia]| |done].
  intros x s3. by apply rx_taken_cons.
Qed.

(** Frames are taken until none waits or the limit is reached. *)
Lemma wp_rx_done_check g K l u s :
  stableA (g_A g) K -> ring g (fun c => l `prefix_of` rx_log c /\ K c) u s -> Soft g u -> Idx g u -> length l = g_p g ->
  wp rx_done_check
    (fun got s' => exists W u' r' XP, let l' := l ++ W in let g' := set_XP XP (set_r r' (set_p (length l') g)) in
       ring g' (fun c => l' `prefix_of` rx_log c /\ (0 < curr_work_limit (rx u') -> flagged (length l') c) /\ K c) u' s' /\
       Soft g' u' /\ Idx g' u' /\ rx_frame u u' /\
       got = Z.of_nat (length (frames W)) /\ snd <$> delivered u' = (snd <$> delivered u) ++ frames W /\
       curr_work_limit (rx u') = curr_work_limit (rx u) - got /\
       (0 < curr_work_limit (rx u') -> forall n, (forall c, K c -> (n <= length (rx_log c))%nat) -> (n <= length l')%nat)) no_stop s.
Proof.
  intros SK R So Ix Ll. pose proof (ring_rx_bounds _ _ _ _ R) as (B1 & B2 & _).
  apply wp_bind. eapply (wp_grx _ _ _ rx_done); [done|exact R|]. rewrite (idx_rx _ _ Ix).
  apply wp_bind. eapply wp_mono; [eapply (wp_rx_done_loop 65 g K l); [done|exact R|done|done|lia]| |done].
  clear R. intros x s1 (W & u1 & -> & R & So1 & En & F1 & E1 & E2 & E3 & E4). cbv zeta in R.
  set (l' := l ++ W) in *. set (lim := curr_work_limit (rx u1)) in *.
  assert (Fin : 0 < lim -> forall n, (forall c, K c -> (n <= length (rx_log c))%nat) -> (n <= length l')%nat).
  { intros Pos n Hn. destruct En as [->|]; [|lia]. apply Hn, (ring_chip _ _ _ _ R). }
  set (K' := fun c => l' `prefix_of` rx_log c /\ (0 < lim -> flagged (length l') c) /\ K c).
  assert (SK' : stableA (g_A g) K').
  { apply stableA_and; [apply received_stable|]. apply stableA_and; [|done].
    intros j r p T X c T' X' c' IT IX F M Pos. by eapply (flagged_stable (g_A g) (length l') j r p); eauto. }
  apply (ring_weaken _ _ K') in R.
  2:{ intros [? ?]. split_and!; [done| |done]. intros Pos Lt. destruct En; lia. }
  apply wp_bind. eapply wp_mrx; [exact R|done|done|]. clear R. intros s2 R.
  apply wp_bind. eapply (wp_grx _ _ _ rx_skb_refill); [done|exact R|].
  assert (So2 : Soft (set_p (length l') g) (upd_rx (set_rx_done (Z.of_nat (at_ring (length l')))) u1)) by by destruct So1.
  apply wp_bind. destruct (_ || _); cbn [when].
  - apply wp_bind. eapply (wp_grx _ _ _ rx_skb_refill); [done|exact R|]. simpl rx_skb_refill.
    rewrite E2, (idx_refill _ _ Ix). apply wp_bind. pose proof (ring_rx_bounds _ _ _ _ R) as (B3 & B4 & _). simpl in B3, B4.
    eapply wp_mono; [eapply (wp_refill_loop 65 (set_p (length l') g) K'); [done|exact R|done|simpl; lia]| |done].
    clear R. intros i s3 (r' & XP & u2 & -> & R & So3 & F2 & D2 & E5 & E6).
    eapply wp_mrx; [exact R|done|done|]. clear R. intros s4 R. apply wp_ret.
    exists W, (upd_rx (set_rx_skb_refill (Z.of_nat (at_ring r'))) u2), r', XP.
    simpl. rewrite E6, D2. fold lim. simpl. fold l'. split_and!; try done.
    + by destruct So3.
    + destruct F1, F2. destruct Ix. split; simpl in *; congruence.
    + destruct F1, F2. split; simpl in *; congruence.
  - apply wp_ret, wp_ret. exists W, (upd_rx (set_rx_done (Z.of_nat (at_ring (length l')))) u1), (g_r g), (g_XP g).
    split_and!; [exact R|exact So2| | |done..].
    + destruct F1. split; simpl; [by rewrite fr_tx0; destruct Ix|done|by rewrite E2; destruct Ix].
    + by destruct F1.
Qed.
(** ** The receive interrupt *)

(** The state of the interface after it asks to be polled. *)
Definition scheduled (q : Z) (n : NetDev) : NetDev := if started n then set_quota q (set_rx_sched true n) else n.

Lemma has_masked v m k : Z.land k m = k -> has (u32 (Z.land v (Z.lnot m))) k = false.
Proof.
  intros E. unfold has, u32. apply negb_false_iff, Z.eqb_eq. rewrite <- Z.land_ones by done. rewrite <- E at 1.
  apply Z.bits_inj'. intros i Bi. rewrite !Z.land_spec, Z.lnot_spec, Z.bits_0 by done.
  destruct (Z.testbit m i); simpl; by rewrite ?andb_false_r.
Qed.

(** It asks to be polled, and then the interrupts are off, or the announcement stays:
    [Kw] is what is left of [K] in the first case. *)
Lemma wp_Rx g K Kw u s :
  stableA (g_A g) K -> stableA (g_A g) Kw -> (forall c, K c -> Kw c) -> keeps [BMRXINTEN] Kw ->
  (forall v c, has v BRxDone = false -> K c -> K (chip_write BMRXSTAT v c)) ->
  ring g K u s ->
  wp s3c2510_Rx
    (fun _ s' => exists st, ring g K (set_stats st u) s' \/
       exists q, ring g Kw (upd_net (scheduled q) (set_stats st u)) s') no_stop s.
Proof.
  intros SK SKw Wk Kp Ka R. 
  apply wp_bind. eapply wp_reg_read; [apply SK|exact R|]. clear R. intros RxStat s1 R _.
  apply wp_bind. eapply wp_reg_read; [apply SK|exact R|]. clear R. intros MacRxStat s2 R _.
  apply wp_bind. eapply (wp_reg_write g K K); [apply SK|exact R|done|done| |].
  { intros c. apply Ka. by apply has_masked. }
  clear R. intros s3 R. apply wp_bind. unfold count. eapply wp_when_stats; [exact R| |].
  { intros s' R'. eapply wp_add; [exact R'|]. eauto. }
  clear R. intros st1 s4 R. apply wp_bind. eapply wp_when_stats; [exact R| |].
  { intros s' R'. apply wp_bind. eapply wp_reg_read; [apply SK|exact R'|]. clear R'. intros v s'' R' _.
    eapply wp_add; [exact R'|]. eauto. }
  clear R. intros st2 s5 R. apply wp_bind. eapply wp_when_stats; [exact R| |].
  { intros s' R'. eapply wp_add; [exact R'|]. eauto. }
  clear R. intros st s6 R. destruct (has RxStat _); cbn [when].
  2:{ apply wp_ret. exists st. left. exact R. }
  apply (ring_weaken _ _ Kw) in R; [|by apply Wk].
  assert (Off : forall u1 s Q, ring g Kw u1 s -> (forall s', ring g Kw u1 s' -> Q tt s') -> wp disable_rx_and_rxnobuf_ints Q no_stop s).
  { intros u1 s' Q R' C. eapply (wp_clear_keeps [BMRXINTEN]); [apply SKw|exact R'|done|apply list_elem_of_here|done|done|done]. }
  apply wp_bind, wp_bind. eapply (wp_gets _ _ _ net (net u)); [exact R|intros s' E; exact (f_equal net E)|].
  unfold scheduled. destruct (started (net u)) eqn:St.
  - apply wp_bind. eapply wp_mnet; [exact R|done|]. clear R. intros s7 R. apply wp_ret.
    destruct (rx_sched (net u)); cbn [negb].
    + eapply Off; [exact R|]. clear R. intros s8 R. exists st. right. exists (quota (net u)). unfold upd_net. simpl. rewrite St.
      unfold upd_net in R. simpl in R. by destruct (net u).
    + apply wp_bind. eapply Off; [exact R|]. clear R. intros s8 R. eapply wp_mnet; [exact R|done|]. clear R. intros s9 R.
      exists st. right. eexists. unfold upd_net. simpl. rewrite St. exact R.
  - apply wp_ret. cbn. eapply Off; [exact R|]. clear R. intros s7 R. exists st. right. exists 0. unfold upd_net. simpl. rewrite St.
    by destruct u.
Qed.
(** ** Polling *)

Lemma keeps_and offs K K' : keeps offs K -> keeps offs K' -> keeps offs (fun c => K c /\ K' c).
Proof. intros K1 K2 off v c I [? ?]. split; auto. Qed.

Lemma keeps_sub offs offs' K : keeps offs K -> offs' ⊆ offs -> keeps offs' K.
Proof. intros K1 Sub off v c I. apply K1, Sub, I. Qed.

Lemma received_keeps l : keeps (tx_regs ++ rx_regs) (fun c => l `prefix_of` rx_log c).
Proof.
  intros off v c I. destruct (chip_write_logs off v c) as [_ ->]; [|done].
  unfold tx_regs, rx_regs in I. simpl in I. rewrite !elem_of_cons, elem_of_nil in I.
  by repeat (destruct I as [->|I]; [reflexivity|]).
Qed.

(** An announcement is only taken back in the status register. *)
Lemma flagged_keeps p : keeps [BMRXINTEN; BDMARXCON; MACRXCON; BMTXSTAT; BMTXINTEN; BDMATXCON; MACTXCON] (flagged p).
Proof.
  intros off v c I. rewrite !elem_of_cons, elem_of_nil in I.
  by repeat (destruct I as [->|I]; [done|]).
Qed.

Lemma enabled_keeps : keeps [BMRXSTAT; BDMARXCON; MACRXCON; BMTXSTAT; BMTXINTEN; BDMATXCON; MACTXCON] enabled.
Proof.
  intros off v c I. rewrite !elem_of_cons, elem_of_nil in I.
  by repeat (destruct I as [->|I]; [done|]).
Qed.

Lemma has_u32_lor v m k : Z.land k m = k -> Z.land k (2 ^ 32 - 1) = k -> has k k -> has (u32 (Z.lor v m)) k.
Proof.
  intros E1 E2 N. unfold has, u32 in *. rewrite <- Z.land_ones by done.
  assert (Z.land (Z.land (Z.lor v m) (Z.ones 32)) k = k) as ->; [|by rewrite Z.land_diag in N].
  apply Z.bits_inj'. intros i Bi. rewrite !Z.land_spec, Z.lor_spec.
  apply (f_equal (fun x => Z.testbit x i)) in E1, E2. rewrite Z.land_spec in E1, E2.
  change (2 ^ 32 - 1) with (Z.ones 32) in E2.
  destruct (Z.testbit k i), (Z.testbit m i), (Z.testbit (Z.ones 32) i), (Z.testbit v i); done.
Qed.

(** Polling ends, and then interrupts are on. *)
Lemma wp_poll_done g K p u s Q :
  stableA (g_A g) K -> keeps rx_regs K -> ring g (fun c => flagged p c /\ K c) u s -> rx_sched (net u) = true ->
  (forall s', ring g (fun c => flagged p c /\ enabled c /\ K c) (upd_net (set_rx_sched false) u) s' -> Q tt s') ->
  wp (netif_rx_complete ;; enable_rx_and_rxnobuf_ints ;; reg_or BDMARXCON BRxEN ;; reg_or MACRXCON MRxEn) Q no_stop s.
Proof.
  intros SK Kp R Sc C. unfold netif_rx_complete.
  assert (SK1 : stableA (g_A g) (fun c => flagged p c /\ K c)) by (apply stableA_and; [apply flagged_stable|done]).
  assert (SK2 : stableA (g_A g) (fun c => flagged p c /\ enabled c /\ K c))
    by (apply stableA_and; [apply flagged_stable|apply stableA_and; [apply enabled_stable|done]]).
  assert (Kp2 : keeps [BDMARXCON; MACRXCON] (fun c => flagged p c /\ enabled c /\ K c)).
  { apply keeps_and; [eapply keeps_sub; [apply flagged_keeps|]|apply keeps_and; [eapply keeps_sub; [apply enabled_keeps|]|eapply keeps_sub; [exact Kp|]]];
      sub_regs. }
  apply wp_bind, wp_bind. eapply wp_gnet; [exact R|]. rewrite Sc. eapply wp_mnet; [exact R|done|]. clear R. intros s1 R.
  apply wp_bind. eapply (wp_reg_or _ _ (fun c => flagged p c /\ enabled c /\ K c)); [apply SK1|exact R|done|done| |].
  { intros v c [F HK]. split_and!; [by apply flagged_keeps; [apply list_elem_of_here|]| |].
    - unfold enabled. simpl. by apply has_u32_lor.
    - apply Kp; [in_regs|done]. }
  clear R. intros s2 R.
  apply wp_bind. keep_step R SK2 (wp_or_keeps [BDMARXCON; MACRXCON]) s3.
  keep_step R SK2 (wp_or_keeps [BDMARXCON; MACRXCON]) s4. by apply C.
Qed.

(** The limit of frames of a call. *)
Definition poll_limit (budget : Z) u : Z := if quota (net u) <? budget then quota (net u) else budget.

(** The result [x] of a call that started with [u], when the status words [l] were processed. *)
Definition poll_post (budget : Z) g K l u (x : Z * Z) s' : Prop :=
  exists W g' u', let l' := l ++ W in let got := Z.of_nat (length (frames W)) in
    let done := negb (poll_limit budget u - got <=? got) in
    x = (if done then 0 else 1, budget - got) /\
    ring g' (fun c => l' `prefix_of` rx_log c /\ (done -> flagged (length l') c /\ enabled c) /\ K c) u' s' /\
    Soft g' u' /\ Idx g' u' /\ g_A g' = g_A g /\ g_p g' = length l' /\
    net u' = (if done then set_rx_sched false else id) (set_quota (quota (net u) - got) (net u)) /\
    accepted u' = accepted u /\ snd <$> delivered u' = (snd <$> delivered u) ++ frames W /\
    (forall n, (forall c, K c -> (n <= length (tx_log c))%nat) -> (n <= g_j g')%nat) /\
    (got < poll_limit budget u -> forall n, (forall c, K c -> (n <= length (rx_log c))%nat) -> (n <= length l')%nat).

Lemma wp_poll budget g K l u s :
  stableA (g_A g) K -> keeps rx_regs K -> ring g (fun c => l `prefix_of` rx_log c /\ K c) u s ->
  Soft g u -> Idx g u -> length l = g_p g -> rx_sched (net u) = true ->
  wp (s3c2510_poll budget) (poll_post budget g K l u) no_stop s.
Proof.
  intros SK Kp R So Ix Ll Sc.
  set (Kl := fun c => l `prefix_of` rx_log c /\ K c) in *.
  assert (SKl : stableA (g_A g) Kl) by (apply stableA_and; [apply received_stable|done]).
  assert (Kpl : keeps rx_regs Kl) by (apply keeps_and; [eapply keeps_sub; [apply received_keeps|sub_regs]|done]).
  apply wp_bind. eapply wp_reg_read; [apply SKl|exact R|]. clear R. intros RxStat s1 R _.
  apply wp_bind. keep_step R SKl (wp_write_keeps rx_regs) s2.
  apply wp_bind. eapply wp_mono; [eapply wp_tx_done_check; [exact SKl|exact R|done|done]| |done].
  clear R. intros _ s3 (j' & TP & C & m & st & f & Fn & Lj & R & So' & Ix').
  apply wp_bind. eapply wp_gnet; [exact R|].
  apply wp_bind. eapply wp_mrx; [exact R|done|done|]. clear R. intros s4 R.
  change (quota (net (upd_tx _ _))) with (quota (net u)) in R. fold (poll_limit budget u) in R.
  apply wp_bind. eapply wp_mono; [eapply (wp_rx_done_check (set_TP TP (set_j j' g)) K l); [exact SK|exact R| | |exact Ll]| |done].
  { by destruct So'. } { by destruct Ix'. }
  clear R. intros got s5 (W & u2 & r' & XP & R & So2 & Ix2 & F & -> & D & Lim & Fin). cbv zeta in *.
  simpl in Lim. rewrite Lim in Fin. destruct F as [F1 F2 F3 F4]. simpl in F1, F2, F3, F4.
  assert (Sc2 : rx_sched (net u2) = true) by by rewrite F2.
  apply wp_bind. eapply wp_mnet; [exact R|done|]. clear R. intros s6 R.
  apply wp_bind. eapply (wp_grx _ _ _ curr_work_limit); [done|exact R|].
  change (curr_work_limit (rx (upd_net _ u2))) with (curr_work_limit (rx u2)). rewrite Lim.
  set (n := Z.of_nat (length (frames W))) in *. set (b := negb (poll_limit budget u - n <=? n)).
  assert (Out : forall s',
    ring (set_XP XP (set_r r' (set_p (length (l ++ W)) (set_TP TP (set_j j' g)))))
      (fun c => (l ++ W) `prefix_of` rx_log c /\ (b -> flagged (length (l ++ W)) c /\ enabled c) /\ K c)
      (upd_net (fun d => (if b then set_rx_sched false else id) (set_quota (quota d - n) d)) u2) s' ->
    poll_post budget g K l u (if b then 0 else 1, budget - n) s').
  { intros s' R'. exists W. do 2 eexists. cbv zeta. fold n b.
    split; [done|]. split; [exact R'|]. split; [by destruct So2|]. split; [by destruct Ix2|].
    split; [done|]. split; [done|]. split; [simpl; by rewrite F2|]. split; [done|]. split; [done|]. split.
    - intros k Hk. apply Fn. intros c [_ HK]. auto.
    - intros Lt. apply Fin. lia. }
  apply wp_bind. destruct b eqn:Eb; cbn [when].
  - eapply (wp_poll_done (set_XP XP (set_r r' (set_p (length (l ++ W)) (set_TP TP (set_j j' g))))) (fun c => (l ++ W) `prefix_of` rx_log c /\ K c) (length (l ++ W))).
    + apply stableA_and; [apply received_stable|exact SK].
    + apply keeps_and; [eapply keeps_sub; [apply received_keeps|sub_regs]|done].
    + eapply ring_weaken; [exact R|]. intros (? & Fl & ?). split_and!; try done. apply Fl. rewrite Lim.
      unfold b in Eb. apply negb_true_iff, Z.leb_gt in Eb. lia.
    + done.
    + clear R. intros s7 R. apply wp_ret. apply Out.
      eapply ring_weaken; [exact R|]. by intros (? & ? & ? & ?).
  - apply wp_ret, wp_ret. apply Out. eapply ring_weaken; [exact R|]. by intros (? & ? & ?).
Qed.
End Run.
