(* ===== verification/EthFilter.v ===== *)
(** * The address filter of the Ethernet interface

    [set_multicast_list], [HardwareSetFilter] and [SetUpARC] on a running interface: which
    addresses the controller is left to accept. *)

From S2P Require Import Prelude Mii Eth EthDev EthChip EthRing EthOps EthRun.

(** ** The memory of addresses *)

(** The bytes of a word, the most significant first. *)
Definition wbyte (w j : Z) : Z := Z.land (Z.shiftr w (8 * (3 - j))) 0xff.

(** Byte [k] of the address memory, and entry [e] in it; the registers are [f]. *)
Definition cam_byte (f : Z -> Z) (k : Z) : Z := wbyte (f (CAM + 4 * (k / 4))) (k mod 4).
Definition cam_entry (f : Z -> Z) (e : Z) : bytes := (fun i => cam_byte f (6 * e + Z.of_nat i)) <$> seq 0 6.
(** The addresses that are compared with. *)
Definition accepts (f : Z -> Z) (a : bytes) : Prop := exists e, 0 <= e < 21 /\ Z.testbit (f CAMEN) e = true /\ cam_entry f e = a.

Definition filter_reg (o : Z) : bool :=
  (o =? CAMEN) || (o =? CAMCON) || ((CAM <=? o) && (o <? CAM + 128) && (o mod 4 =? 0)).
Definition agrees (f : Z -> Z) (c : Chip) : Prop := forall o, filter_reg o -> regs c o = f o.

(** *** Bytes of words *)

Definition is_addr (a : bytes) : Prop := length a = 6%nat /\ Forall is_byte a.

Lemma byte_high b n : is_byte b -> 8 <= n -> Z.testbit b n = false.
Proof.
  intros B Bn. unfold is_byte in B. rewrite <- (Z.mod_small b (2 ^ 8)) by lia. apply Z.mod_pow2_bits_high. lia.
Qed.

Lemma wbyte_bits w j n : 0 <= n -> Z.testbit (wbyte w j) n = (n <? 8) && Z.testbit (Z.shiftr w (8 * (3 - j))) n.
Proof.
  intros Bn. unfold wbyte. rewrite Z.land_spec, andb_comm. f_equal. change 0xff with (Z.ones 8).
  destruct (Z.ltb_spec n 8); [apply Z.ones_spec_low; lia|apply Z.ones_spec_high; lia].
Qed.

Lemma byte_high_1 n : 1 <= n -> Z.testbit 1 n = false.
Proof. intros. change 1 with (2 ^ 0). apply Z.pow2_bits_false. lia. Qed.

(** Two bytes are equal if their eight bits are. *)
Lemma wbyte_eq w j b :
  0 <= j <= 3 -> is_byte b -> (forall n, 0 <= n < 8 -> Z.testbit w (n + 8 * (3 - j)) = Z.testbit b n) -> wbyte w j = b.
Proof.
  intros Bj B E. apply Z.bits_inj'. intros n Bn. rewrite wbyte_bits by done. destruct (Z.ltb_spec n 8); simpl.
  - rewrite Z.shiftr_spec by done. apply E. lia.
  - symmetry. by apply byte_high.
Qed.

Lemma wbyte_same w w' j :
  0 <= j <= 3 -> (forall n, 0 <= n < 8 -> Z.testbit w (n + 8 * (3 - j)) = Z.testbit w' (n + 8 * (3 - j))) -> wbyte w j = wbyte w' j.
Proof.
  intros Bj E. apply Z.bits_inj'. intros n Bn. rewrite !wbyte_bits by done. destruct (Z.ltb_spec n 8); simpl; [|done].
  rewrite !Z.shiftr_spec by done. apply E. lia.
Qed.

(** Evaluates the bits of a word that is put together from bytes. *)
Ltac word_bits :=
  rewrite ?Z.lor_spec, ?Z.land_spec, ?Z.shiftl_spec by lia;
  repeat match goal with
  | |- context [Z.testbit ?b ?m] =>
      first [ rewrite (Z.testbit_neg_r b m) by lia | rewrite (byte_high b m) by (done || lia) ]
  end;
  rewrite ?orb_false_r, ?orb_false_l, ?andb_false_r, ?andb_false_l; try done; f_equal; lia.

Lemma wbyte_word4 b0 b1 b2 b3 :
  is_byte b0 -> is_byte b1 -> is_byte b2 -> is_byte b3 ->
  wbyte (word4 b0 b1 b2 b3) 0 = b0 /\ wbyte (word4 b0 b1 b2 b3) 1 = b1 /\
  wbyte (word4 b0 b1 b2 b3) 2 = b2 /\ wbyte (word4 b0 b1 b2 b3) 3 = b3.
Proof. intros B0 B1 B2 B3. unfold word4. split_and!; (apply wbyte_eq; [lia|done|]; intros n Bn; word_bits). Qed.

Lemma mask_lo n : 0 <= n -> Z.testbit 0xffff n = (n <? 16).
Proof. intros. change 0xffff with (Z.ones 16). destruct (Z.ltb_spec n 16); [apply Z.ones_spec_low|apply Z.ones_spec_high]; lia. Qed.

Lemma mask_hi n : 0 <= n < 32 -> Z.testbit 0xffff0000 n = (16 <=? n).
Proof.
  intros. change 0xffff0000 with (Z.shiftl (Z.ones 16) 16). rewrite Z.shiftl_spec by lia.
  destruct (Z.leb_spec 16 n); [apply Z.ones_spec_low; lia|by apply Z.testbit_neg_r; lia].
Qed.

(** Two bytes put before what a word has, or after. *)
Definition put_hi (w b0 b1 : Z) : Z := Z.lor (Z.lor (Z.land 0xffff w) (Z.shiftl b0 24)) (Z.shiftl b1 16).
Definition put_lo (w b0 b1 : Z) : Z := Z.lor (Z.lor (Z.land 0xffff0000 w) (Z.shiftl b0 8)) b1.

Lemma wbyte_put_hi w b0 b1 :
  is_byte b0 -> is_byte b1 ->
  wbyte (put_hi w b0 b1) 0 = b0 /\ wbyte (put_hi w b0 b1) 1 = b1 /\
  wbyte (put_hi w b0 b1) 2 = wbyte w 2 /\ wbyte (put_hi w b0 b1) 3 = wbyte w 3.
Proof.
  intros B0 B1. unfold put_hi. split_and!; [apply wbyte_eq; [lia|done|]..|apply wbyte_same; [lia|]|apply wbyte_same; [lia|]];
    intros n Bn; rewrite !Z.lor_spec, Z.land_spec, mask_lo by lia;
    match goal with |- context [?x <? 16] => destruct (Z.ltb_spec x 16); [|] end; try lia; simpl; word_bits.
Qed.

Lemma wbyte_put_lo w b0 b1 :
  is_byte b0 -> is_byte b1 ->
  wbyte (put_lo w b0 b1) 0 = wbyte w 0 /\ wbyte (put_lo w b0 b1) 1 = wbyte w 1 /\
  wbyte (put_lo w b0 b1) 2 = b0 /\ wbyte (put_lo w b0 b1) 3 = b1.
Proof.
  intros B0 B1. unfold put_lo. split_and!; [apply wbyte_same; [lia|]|apply wbyte_same; [lia|]|apply wbyte_eq; [lia|done|]..];
    intros n Bn; rewrite !Z.lor_spec, Z.land_spec, mask_hi by lia;
    match goal with |- context [16 <=? ?x] => destruct (Z.leb_spec 16 x); [|] end; try lia; simpl; word_bits.
Qed.

Lemma wbyte_u32 w j : 0 <= j <= 3 -> wbyte (u32 w) j = wbyte w j.
Proof. intros B. apply wbyte_same; [done|]. intros n Bn. unfold u32. apply Z.mod_pow2_bits_low. lia. Qed.

(** *** One entry *)

Definition entry_regs (a : bytes) (i : Z) (f : Z -> Z) : Z -> Z :=
  let b := byte_of a in
  let o := CAM + (3 + (i * 3) / 2) * 4 in
  if has i 1 then upd (upd f o (u32 (put_lo (f o) (b 0%nat) (b 1%nat)))) (o + 4) (u32 (word4 (b 2%nat) (b 3%nat) (b 4%nat) (b 5%nat)))
  else upd (upd f o (u32 (word4 (b 0%nat) (b 1%nat) (b 2%nat) (b 3%nat)))) (o + 4) (u32 (put_hi (f (o + 4)) (b 4%nat) (b 5%nat))).

Lemma byte_of_addr a k : is_addr a -> is_byte (byte_of a k).
Proof.
  intros [_ F]. unfold byte_of. destruct (decide (k < length a)%nat) as [Lt|].
  - rewrite Forall_forall in F. apply F. by apply list_elem_of_In, nth_In.
  - rewrite nth_overflow by lia. unfold is_byte. lia.
Qed.

Lemma has_parity m : has (2 * m) 1 = false /\ has (2 * m + 1) 1 = true.
Proof.
  assert (E : forall x, Z.land x 1 = x mod 2) by (intros x; apply (Z.land_ones x 1); lia).
  unfold has. rewrite !E. replace ((2 * m) mod 2) with 0 by (rewrite Z.mul_comm, Z.mod_mul; lia).
  replace ((2 * m + 1) mod 2) with 1 by (rewrite Z.add_comm, Z.mul_comm, Z.mod_add; done). done.
Qed.

(** It fills exactly the six bytes of its entry. *)
Lemma entry_byte a i f q r :
  is_addr a -> 1 <= i < 15 -> 0 <= q < 32 -> 0 <= r < 4 -> let k := 4 * q + r - 6 * (i + 2) in
  wbyte (entry_regs a i f (CAM + 4 * q)) r = if (0 <=? k) && (k <? 6) then byte_of a (Z.to_nat k) else wbyte (f (CAM + 4 * q)) r.
Proof.
  intros A Bi Bq Br k. pose proof (byte_of_addr a) as B.
  assert (r = 0 \/ r = 1 \/ r = 2 \/ r = 3) as Cr by lia.
  destruct (Z.Even_or_Odd i) as [[m ->]|[m ->]]; unfold entry_regs; [rewrite (proj1 (has_parity m))|rewrite (proj2 (has_parity m))].
  - replace (2 * m * 3 / 2) with (3 * m) by (rewrite (Z.mul_comm 2), <- Z.mul_assoc, (Z.mul_comm 2), Z.mul_assoc, Z.div_mul; lia).
    destruct (wbyte_word4 _ _ _ _ (B 0%nat A) (B 1%nat A) (B 2%nat A) (B 3%nat A)) as (W0 & W1 & W2 & W3).
    destruct (wbyte_put_hi (f (CAM + (3 + 3 * m) * 4 + 4)) _ _ (B 4%nat A) (B 5%nat A)) as (V0 & V1 & V2 & V3).
    unfold upd. destruct (Z.eqb_spec (CAM + 4 * q) (CAM + (3 + 3 * m) * 4 + 4)) as [E|N1].
    + assert (q = 4 + 3 * m) by lia. subst q. rewrite wbyte_u32 by lia. subst k.
      destruct_or! Cr; subst r; rewrite ?V0, ?V1, ?V2, ?V3.
      all: match goal with |- context [Z.to_nat ?x] => ring_simplify x end.
      all: try done.
      all: replace (CAM + 4 * (4 + 3 * m)) with (CAM + (3 + 3 * m) * 4 + 4) by lia; done.
    + destruct (Z.eqb_spec (CAM + 4 * q) (CAM + (3 + 3 * m) * 4)) as [E|N2].
      * assert (q = 3 + 3 * m) by lia. subst q. rewrite wbyte_u32 by lia. subst k.
        destruct_or! Cr; subst r; rewrite ?W0, ?W1, ?W2, ?W3; match goal with |- context [Z.to_nat ?x] => ring_simplify x end; done.
      * destruct (Z.leb_spec 0 k), (Z.ltb_spec k 6); try done. subst k. lia.
  - replace ((2 * m + 1) * 3 / 2) with (3 * m + 1) by (apply (Z.div_unique _ _ _ 1); lia).
    destruct (wbyte_word4 _ _ _ _ (B 2%nat A) (B 3%nat A) (B 4%nat A) (B 5%nat A)) as (W0 & W1 & W2 & W3).
    destruct (wbyte_put_lo (f (CAM + (3 + (3 * m + 1)) * 4)) _ _ (B 0%nat A) (B 1%nat A)) as (V0 & V1 & V2 & V3).
    unfold upd. destruct (Z.eqb_spec (CAM + 4 * q) (CAM + (3 + (3 * m + 1)) * 4 + 4)) as [E|N1].
    + assert (q = 5 + 3 * m) by lia. subst q. rewrite wbyte_u32 by lia. subst k.
      destruct_or! Cr; subst r; rewrite ?W0, ?W1, ?W2, ?W3; match goal with |- context [Z.to_nat ?x] => ring_simplify x end; done.
    + destruct (Z.eqb_spec (CAM + 4 * q) (CAM + (3 + (3 * m + 1)) * 4)) as [E|N2].
      * assert (q = 4 + 3 * m) by lia. subst q. rewrite wbyte_u32 by lia. subst k.
        destruct_or! Cr; subst r; rewrite ?V0, ?V1, ?V2, ?V3; match goal with |- context [Z.to_nat ?x] => ring_simplify x end;
          try done; replace (CAM + 4 * (4 + 3 * m)) with (CAM + (3 + (3 * m + 1)) * 4) by lia; done.
      * destruct (Z.leb_spec 0 k), (Z.ltb_spec k 6); try done. subst k. lia.
Qed.

(** *** The list *)

Fixpoint entries_regs (l : list bytes) (i : Z) (f : Z -> Z) : Z -> Z :=
  match l with
  | [] => f
  | a :: l' => if i <? HW_MAX_ADDRS - 1 then entries_regs l' (i + 1) (entry_regs a i f) else f
  end.
Fixpoint entries_mask (l : list bytes) (i m : Z) : Z :=
  match l with
  | [] => m
  | _ :: l' => if i <? HW_MAX_ADDRS - 1 then entries_mask l' (i + 1) (Z.lor m (Z.shiftl 1 (i + 2))) else m
  end.

Lemma cam_entry_ext f f' e : (forall k, 6 * e <= k < 6 * e + 6 -> cam_byte f k = cam_byte f' k) -> cam_entry f e = cam_entry f' e.
Proof.
  intros E. unfold cam_entry. apply list_fmap_ext. intros j x (-> & B)%lookup_seq. apply E. lia.
Qed.

Lemma cam_byte_word f k : 0 <= k -> cam_byte f k = wbyte (f (CAM + 4 * (k / 4))) (k mod 4) /\ k = 4 * (k / 4) + k mod 4 /\ 0 <= k mod 4 < 4 /\ 0 <= k / 4.
Proof. intros B. pose proof (Z.div_mod k 4). pose proof (Z.mod_pos_bound k 4). split_and!; try done; lia. Qed.

Lemma entry_this a i f : is_addr a -> 1 <= i < 15 -> cam_entry (entry_regs a i f) (i + 2) = a.
Proof.
  intros A Bi. apply list_eq. intros j. unfold cam_entry. rewrite list_lookup_fmap. pose proof (proj1 A) as Len.
  destruct (decide (j < 6)%nat) as [Lt|Ge].
  - rewrite lookup_seq_lt by done. simpl.
    destruct (cam_byte_word (entry_regs a i f) (6 * (i + 2) + Z.of_nat j)) as (-> & E & Br & Bq); [lia|].
    rewrite entry_byte by (done || lia). rewrite <- E.
    replace (6 * (i + 2) + Z.of_nat j - 6 * (i + 2)) with (Z.of_nat j) by lia.
    rewrite (proj2 (Z.leb_le _ _)), (proj2 (Z.ltb_lt _ _)) by lia. simpl. rewrite Nat2Z.id.
    destruct (lookup_lt_is_Some_2 a j) as [x Ex]; [lia|]. rewrite Ex. unfold byte_of. by rewrite (nth_lookup_Some _ _ _ _ Ex).
  - rewrite lookup_seq_ge by lia. simpl. by rewrite lookup_ge_None_2 by lia.
Qed.

Lemma entry_other a i f e : is_addr a -> 1 <= i < 15 -> 0 <= e < 21 -> e <> i + 2 -> cam_entry (entry_regs a i f) e = cam_entry f e.
Proof.
  intros A Bi Be N. apply cam_entry_ext. intros k Bk.
  destruct (cam_byte_word (entry_regs a i f) k) as (-> & E & Br & Bq); [lia|].
  destruct (cam_byte_word f k) as (-> & _); [lia|]. rewrite entry_byte by (done || lia). rewrite <- E.
  destruct (Z.leb_spec 0 (k - 6 * (i + 2))), (Z.ltb_spec (k - 6 * (i + 2)) 6); try done. lia.
Qed.

Lemma entry_ctl a i f o : 1 <= i < 15 -> o = CAMEN \/ o = CAMCON -> entry_regs a i f o = f o.
Proof.
  intros Bi Ho. pose proof (Z.div_pos (i * 3) 2). unfold entry_regs, upd, CAM.
  assert (o < 0x10080) by (destruct Ho as [->| ->]; done).
  destruct (has i 1); rewrite !(proj2 (Z.eqb_neq o _)) by lia; done.
Qed.

(** The first addresses of the list are in the entries from [i + 2]; the others are as before. *)
Lemma entries_entry l : forall i f e, Forall is_addr l -> 1 <= i <= 15 -> 0 <= e < 21 ->
  cam_entry (entries_regs l i f) e =
    if (i + 2 <=? e) && (e <? 17) then default (cam_entry f e) (l !! Z.to_nat (e - (i + 2))) else cam_entry f e.
Proof.
  induction l as [|a l IH]; intros i f e F Bi Be; simpl.
  - by destruct (_ && _).
  - apply Forall_cons in F as [A F]. change (HW_MAX_ADDRS - 1) with 15. destruct (Z.ltb_spec i 15) as [Lt|Ge].
    + rewrite IH by (done || lia). destruct (Z.eqb_spec e (i + 2)) as [->|N].
      * rewrite (proj2 (Z.leb_gt _ _)), (proj2 (Z.leb_le _ _)), (proj2 (Z.ltb_lt _ 17)) by lia. simpl.
        rewrite Z.sub_diag, entry_this by (done || lia). done.
      * rewrite entry_other by (done || lia).
        destruct (Z.leb_spec (i + 1 + 2) e), (Z.leb_spec (i + 2) e), (Z.ltb_spec e 17); simpl; try done; try lia.
        replace (Z.to_nat (e - (i + 2))) with (S (Z.to_nat (e - (i + 1 + 2)))) by lia. done.
    + destruct (Z.leb_spec (i + 2) e), (Z.ltb_spec e 17); simpl; try done. lia.
Qed.

Lemma entries_ctl l : forall i f o, 1 <= i <= 15 -> o = CAMEN \/ o = CAMCON -> entries_regs l i f o = f o.
Proof.
  induction l as [|a l IH]; intros i f o Bi Ho; simpl; [done|]. change (HW_MAX_ADDRS - 1) with 15.
  destruct (Z.ltb_spec i 15); [|done]. rewrite IH by (done || lia). apply entry_ctl; [lia|done].
Qed.

Lemma entries_mask_bit l : forall i m e, 1 <= i <= 15 -> 0 <= e ->
  Z.testbit (entries_mask l i m) e = Z.testbit m e || ((i + 2 <=? e) && (e <? 17) && (e <? i + 2 + Z.of_nat (length l))).
Proof.
  induction l as [|a l IH]; intros i m e Bi Be; cbn [entries_mask length].
  - rewrite Z.add_0_r. destruct (Z.leb_spec (i + 2) e), (Z.ltb_spec e 17), (Z.ltb_spec e (i + 2)); simpl; rewrite ?orb_false_r; done || lia.
  - change (HW_MAX_ADDRS - 1) with 15. destruct (Z.ltb_spec i 15) as [Lt|Ge].
    + rewrite IH, Z.lor_spec, Z.shiftl_spec by lia. destruct (Z.eqb_spec e (i + 2)) as [->|N].
      * rewrite Z.sub_diag, (proj2 (Z.leb_le (i + 2) _)), (proj2 (Z.ltb_lt _ 17)), (proj2 (Z.ltb_lt _ (i + 2 + Z.of_nat _))) by lia.
        change (Z.testbit 1 0) with true. by rewrite !orb_true_r.
      * replace (Z.testbit 1 (e - (i + 2))) with false.
        2:{ symmetry. destruct (Z.lt_ge_cases (e - (i + 2)) 0); [by apply Z.testbit_neg_r|]. apply (byte_high_1 (e - (i + 2))). lia. }
        rewrite orb_false_r. f_equal.
        destruct (Z.leb_spec (i + 1 + 2) e), (Z.leb_spec (i + 2) e), (Z.ltb_spec e 17), (Z.ltb_spec e (i + 1 + 2 + Z.of_nat (length l))),
          (Z.ltb_spec e (i + 2 + Z.of_nat (S (length l)))); done || lia.
    + destruct (Z.leb_spec (i + 2) e), (Z.ltb_spec e 17); cbn [andb]; rewrite ?orb_false_r; done || lia.
Qed.

(** ** The driver's writes *)

Section Filter.
Context {H : Type} `{EthHw H} `{SkbAlloc} {base : Z} `{L : !EthLaws H base}.
Implicit Types (s : Eth H) (u : Eth unit).

Lemma filter_reg_high o : filter_reg o -> 0x10000 < o.
Proof.
  unfold filter_reg, CAMEN, CAMCON, CAM. rewrite !orb_True, !andb_True, !Is_true_true, !Z.eqb_eq, Z.leb_le. lia.
Qed.

Lemma agrees_stable A f : stableA A (agrees f).
Proof.
  intros j r p T X c T' X' c' _ _ Ag M o Ho. rewrite <- (Ag o Ho). pose proof (filter_reg_high o Ho).
  inversion M; subst; try done; simpl; unfold upd;
    rewrite (proj2 (Z.eqb_neq o _)) by (unfold BMTXSTAT, BMRXSTAT, BDMATXCON, BDMARXCON; lia); done.
Qed.

Lemma filter_known o : filter_reg o -> known o /\ restarts o = false.
Proof.
  intros Ho. pose proof (filter_reg_high o Ho). split.
  - unfold filter_reg in Ho. rewrite !orb_True in Ho. unfold known. rewrite orb_True.
    destruct Ho as [[E|E]|E]; [left|left|by right]; apply bool_decide_spec; apply Is_true_true, Z.eqb_eq in E as ->; unfold known_regs;
      repeat first [apply list_elem_of_here | apply list_elem_of_further].
  - unfold restarts. by rewrite !(proj2 (Z.eqb_neq o _)) by (unfold BTXBDCNT, BRXBDCNT; lia).
Qed.

(** Another property of the controller, that writes to the MAC registers keep. *)
Definition keeps_mac (K : Chip -> Prop) : Prop := forall o v c, 0x10000 <= o -> K c -> K (chip_write o v c).

Context (g : Ghost) (K : Chip -> Prop) (SK : stableA (g_A g) K) (Kp : keeps_mac K).
Definition filt (f : Z -> Z) u s : Prop := ring g (fun c => agrees f c /\ K c) u s.

Lemma filt_stable f : stable g (fun c => agrees f c /\ K c).
Proof using SK. apply (stableA_and (g_A g)); [apply agrees_stable|exact SK]. Qed.

Lemma wp_f_read f u s o Q :
  filt f u s -> filter_reg o -> (forall s', filt f u s' -> Q (f o) s') -> wp (reg_read o) Q no_stop s.
Proof using SK.
  intros R Ho C. destruct (filter_known o Ho) as [Kn _]. eapply wp_reg_read; [apply filt_stable|exact R|].
  clear R. intros v s' R V. rewrite (V Kn), (proj1 (ring_chip _ _ _ _ R) o Ho). by apply C.
Qed.

Lemma wp_f_write f u s o v Q :
  filt f u s -> filter_reg o -> (forall s', filt (upd f o (u32 v)) u s' -> Q tt s') ->
  wp (reg_write o v) Q no_stop s.
Proof using SK Kp.
  intros R Ho C. destruct (filter_known o Ho) as [Kn Nr]. pose proof (filter_reg_high o Ho).
  eapply (wp_reg_write g _ (fun c => agrees (upd f o (u32 v)) c /\ K c)); [apply filt_stable|exact R|done|done| |done].
  intros c [Ag HK]. split; [|apply Kp; [lia|done]]. intros o' Ho'. unfold chip_write.
  rewrite !(proj2 (Z.eqb_neq o _)) by (unfold BMTXSTAT, BMRXSTAT, BTXBDCNT, BRXBDCNT; lia). simpl. unfold upd.
  destruct (o' =? o); [done|]. by apply Ag.
Qed.

Lemma cam_filter_reg q : 0 <= q < 32 -> filter_reg (CAM + 4 * q).
Proof using Type.
  intros B. unfold filter_reg, CAM. rewrite !orb_True, !andb_True, !Is_true_true, Z.leb_le, Z.ltb_lt, (Z.eqb_eq (_ mod _)). right.
  split; [lia|]. replace (0x10080 + 4 * q) with ((0x4020 + q) * 4) by lia. apply Z.mod_mul. lia.
Qed.

Lemma wp_filter_entry f u s a i Q :
  filt f u s -> 1 <= i < 15 -> (forall s', filt (entry_regs a i f) u s' -> Q tt s') ->
  wp (filter_entry a i) Q no_stop s.
Proof using SK Kp.
  intros R B C. unfold filter_entry, entry_regs in *. pose proof (Z.div_mod (i * 3) 2). pose proof (Z.mod_pos_bound (i * 3) 2).
  set (w := 3 + i * 3 / 2) in *. assert (0 <= w < 31) by lia.
  assert (F1 : filter_reg (CAM + w * 4)) by (rewrite (Z.mul_comm w); apply cam_filter_reg; lia).
  assert (F2 : filter_reg (CAM + w * 4 + 4)) by (replace (CAM + w * 4 + 4) with (CAM + 4 * (w + 1)) by lia; apply cam_filter_reg; lia).
  destruct (has i 1).
  - apply wp_bind. eapply wp_f_read; [exact R|done|]. clear R. intros s1 R.
    apply wp_bind. eapply wp_f_write; [exact R|done|]. clear R. intros s2 R.
    eapply wp_f_write; [exact R|done|]. exact C.
  - apply wp_bind. eapply wp_f_read; [exact R|done|]. clear R. intros s1 R.
    apply wp_bind. eapply wp_f_write; [exact R|done|]. clear R. intros s2 R.
    eapply wp_f_write; [exact R|done|]. exact C.
Qed.

Lemma wp_filter_loop u l : forall i m f s Q,
  filt f u s -> 1 <= i <= 15 ->
  (forall s', filt (entries_regs l i f) u s' -> Q (entries_mask l i m) s') ->
  wp (filter_loop l i m) Q no_stop s.
Proof using SK Kp.
  induction l as [|a l IH]; intros i m f s Q R B C; [by apply wp_ret, C|].
  cbn [filter_loop entries_regs entries_mask] in *. change (HW_MAX_ADDRS - 1) with 15 in *.
  destruct (Z.ltb_spec i 15); [|by apply wp_ret, C].
  apply wp_bind. eapply wp_filter_entry; [exact R|lia|]. clear R. intros s1 R. eapply IH; [exact R|lia|exact C].
Qed.

(** The registers after the own address is written. *)
Definition arc_regs (a : bytes) (f : Z -> Z) : Z -> Z :=
  let b := byte_of a in
  upd (upd (upd (upd (upd f CAMEN 0) (CAM + 3 * 4) (u32 (word4 (b 0%nat) (b 1%nat) (b 2%nat) (b 3%nat))))
    (CAM + 4 * 4) (u32 (put_hi (f (CAM + 4 * 4)) (b 4%nat) (b 5%nat))))
    CAMEN (u32 (Z.lor (f CAMEN) (Z.shiftl 1 2)))) CAMCON (u32 (Z.lor (f CAMCON) MCompEn)).

Lemma wp_SetUpARC f u s a Q :
  filt f u s ->
  (forall r s', filt (arc_regs a f) (upd_net (set_dev_addr (take 6 a)) u) s' -> Q r s') ->
  wp (SetUpARC a) Q no_stop s.
Proof using SK Kp.
  intros R C. unfold SetUpARC. cbv zeta.
  apply wp_bind. eapply wp_f_read; [exact R|done|]. clear R. intros s1 R.
  apply wp_bind. eapply wp_f_write; [exact R|done|]. clear R. intros s2 R.
  apply wp_bind. eapply wp_f_read; [exact R|done|]. clear R. intros s3 R.
  apply wp_bind. eapply wp_f_write; [exact R|done|]. clear R. intros s4 R.
  apply wp_bind. eapply wp_f_write; [exact R|done|]. clear R. intros s5 R.
  apply wp_bind. eapply wp_f_write; [exact R|done|]. clear R. intros s6 R.
  apply wp_bind, wp_bind. eapply wp_f_read; [exact R|done|]. clear R. intros s7 R.
  eapply wp_f_write; [exact R|done|]. clear R. intros s8 R.
  apply wp_bind. eapply wp_mnet; [exact R|done|]. clear R. intros s9 R. apply wp_ret, C.
  unfold arc_regs, put_hi. rewrite (Z.land_comm 0xffff). exact R.
Qed.

(** ** What is accepted *)

Lemma arc_entry a f e : is_addr a -> 0 <= e < 21 ->
  cam_entry (arc_regs a f) e = if e =? 2 then a else cam_entry f e.
Proof using Type.
  intros A Be. pose proof (byte_of_addr a) as B.
  assert (W : forall q r, 0 <= q < 32 -> 0 <= r < 4 ->
    wbyte (arc_regs a f (CAM + 4 * q)) r =
      if (12 <=? 4 * q + r) && (4 * q + r <? 18) then byte_of a (Z.to_nat (4 * q + r - 12)) else wbyte (f (CAM + 4 * q)) r).
  { intros q r Bq Br. unfold arc_regs, upd. rewrite !(proj2 (Z.eqb_neq (CAM + 4 * q) _)) by (unfold CAM, CAMCON, CAMEN; lia).
    assert (r = 0 \/ r = 1 \/ r = 2 \/ r = 3) as Cr by lia.
    destruct (Z.eqb_spec (CAM + 4 * q) (CAM + 4 * 4)) as [E|N].
    - assert (q = 4) by lia. subst q. rewrite wbyte_u32 by lia.
      destruct (wbyte_put_hi (f (CAM + 4 * 4)) _ _ (B 4%nat A) (B 5%nat A)) as (V0 & V1 & V2 & V3).
      by destruct_or! Cr; subst r; rewrite ?V0, ?V1, ?V2, ?V3.
    - destruct (Z.eqb_spec (CAM + 4 * q) (CAM + 3 * 4)) as [E|N'].
      + assert (q = 3) by lia. subst q. rewrite wbyte_u32 by lia.
        destruct (wbyte_word4 _ _ _ _ (B 0%nat A) (B 1%nat A) (B 2%nat A) (B 3%nat A)) as (W0 & W1 & W2 & W3).
        by destruct_or! Cr; subst r; rewrite ?W0, ?W1, ?W2, ?W3.
      + destruct (Z.leb_spec 12 (4 * q + r)), (Z.ltb_spec (4 * q + r) 18); simpl; done || lia. }
  assert (Y : forall k, 0 <= k < 128 -> cam_byte (arc_regs a f) k =
    if (12 <=? k) && (k <? 18) then byte_of a (Z.to_nat (k - 12)) else cam_byte f k).
  { intros k Bk. destruct (cam_byte_word (arc_regs a f) k) as (-> & E & Br & Bq); [lia|]. rewrite W, <- E by lia. done. }
  destruct (Z.eqb_spec e 2) as [->|N].
  - destruct A as [Len _]. do 6 (destruct a as [|? a]; [done|]). destruct a; [|done].
    unfold cam_entry. simpl. rewrite !Y by lia. done.
  - apply cam_entry_ext. intros k Bk. rewrite Y by lia.
    destruct (Z.leb_spec 12 k), (Z.ltb_spec k 18); simpl; done || lia.
Qed.

(** The filter is left with the own address and the first 14 of the list. *)
Lemma filter_accepts (f : Z -> Z) (own : bytes) (l : list bytes) mask :
  cam_entry f 2 = own ->
  (forall e, 3 <= e < 17 -> forall a, l !! Z.to_nat (e - 3) = Some a -> cam_entry f e = a) ->
  (forall e, 0 <= e < 21 -> Z.testbit mask e = (e =? 2) || ((3 <=? e) && (e <? 17) && (e <? 3 + Z.of_nat (length l)))) ->
  f CAMEN = mask -> forall a, accepts f a <-> a = own \/ a ∈ take 14 l.
Proof using Type.
  intros E2 El M Em a. unfold accepts. rewrite Em. split.
  - intros (e & Be & Bt & <-). rewrite M in Bt by done. destruct (Z.eqb_spec e 2) as [->|N]; [by left|right]. simpl in Bt.
    rewrite !andb_true_iff, Z.leb_le, !Z.ltb_lt in Bt. destruct (lookup_lt_is_Some_2 l (Z.to_nat (e - 3))) as [b Eb]; [lia|].
    rewrite (El e ltac:(lia) b Eb). apply (list_elem_of_lookup_2 _ (Z.to_nat (e - 3))). rewrite lookup_take_lt by lia. done.
  - intros [->|(k & Ek)%list_elem_of_lookup_1].
    + exists 2. split_and!; [lia..| |done]. by rewrite M.
    + apply lookup_take_Some in Ek as [Ek Lt]. pose proof (lookup_lt_Some _ _ _ Ek). exists (3 + Z.of_nat k). split_and!; [lia..| |].
      * rewrite M by lia. rewrite (proj2 (Z.leb_le _ _)), !(proj2 (Z.ltb_lt _ _)) by lia. by rewrite orb_true_r.
      * apply El; [lia|]. by replace (Z.to_nat (3 + Z.of_nat k - 3)) with k by lia.
Qed.

Lemma four_bit e : 0 <= e -> Z.testbit 4 e = (e =? 2).
Proof using Type.
  intros B. change 4 with (2 ^ 2). destruct (Z.eqb_spec e 2) as [->|N]; [done|]. apply Z.pow2_bits_false. lia.
Qed.

Lemma cam_entry_regs f f' e : (forall o, filter_reg o -> f o = f' o) -> 0 <= e < 21 -> cam_entry f e = cam_entry f' e.
Proof using Type.
  intros E Be. apply cam_entry_ext. intros k Bk. (destruct (cam_byte_word f k) as (-> & Q & ?); [lia|]).
  (destruct (cam_byte_word f' k) as (-> & _); [lia|]). rewrite (E (CAM + 4 * (k / 4))); try done; apply cam_filter_reg; lia.
Qed.

Lemma accepts_ext f f' a : (forall o, filter_reg o -> f o = f' o) -> accepts f a <-> accepts f' a.
Proof using Type.
  intros E. unfold accepts. rewrite (E CAMEN) by done. f_equiv. intros e.
  split; intros (Be & Bt & <-); (split; [exact Be|split; [exact Bt|]]); [symmetry|]; by apply cam_entry_regs.
Qed.

Lemma cam_entry_ctl f o v e : o = CAMEN \/ o = CAMCON -> 0 <= e -> cam_entry (upd f o v) e = cam_entry f e.
Proof using Type.
  intros Ho Be. apply cam_entry_ext. intros k Bk. destruct (cam_byte_word f k) as (-> & Q & ? & ?); [lia|].
  destruct (cam_byte_word (upd f o v) k) as (-> & _); [lia|]. unfold upd.
  rewrite (proj2 (Z.eqb_neq _ o)) by (destruct Ho as [->| ->]; unfold CAM, CAMEN, CAMCON; lia). done.
Qed.

(** Neither promiscuous, nor all multicast addresses, nor a list too long to be loaded. *)
Definition filter_normal (flags : Z) (l : list bytes) : bool :=
  negb (has flags IFF_PROMISC) && negb (has flags IFF_ALLMULTI) && (length l <=? 15)%nat.
(** The address in the entry of the interface after the call, [old] before it: only an empty list in normal mode
    loads the address [own] of the interface. *)
Definition filter_station (flags : Z) (l : list bytes) (own old : bytes) : bytes :=
  if filter_normal flags l && bool_decide (l = []) then own else old.
(** Which frames pass without being compared, or are compared. *)
Definition filter_control (flags : Z) (l : list bytes) : Z :=
  if has flags IFF_PROMISC then Z.lor (Z.lor MBroad MGroup) MStation
  else if filter_normal flags l then Z.lor MCompEn MBroad else Z.lor (Z.lor MCompEn MBroad) MGroup.

(** What a call leaves: the registers [f'] and the driver [u'], from [f] and [u]. *)
Definition filter_left (flags : Z) (l : list bytes) f u f' u' : Prop :=
  let own := filter_station flags l (dev_addr (net u)) (cam_entry f 2) in
  f' CAMCON = filter_control flags l /\ cam_entry f' 2 = own /\ dev_addr (net u') = dev_addr (net u) /\
  forall a, accepts f' a <-> has flags IFF_PROMISC = false /\ (a = own \/ filter_normal flags l = true /\ a ∈ take 14 l).

(** The last step, which enables the entry of the interface; [m] are the entries enabled before it, [l'] their
    addresses. *)
Lemma wp_enable_station f u s (l' : list bytes) (m v : Z) Q :
  filt (upd f CAMCON v) u s -> f CAMEN = m -> 0 <= m < 2 ^ 32 ->
  (forall e, 3 <= e < 17 -> forall a, l' !! Z.to_nat (e - 3) = Some a -> cam_entry f e = a) ->
  (forall e, 0 <= e < 21 -> Z.testbit (Z.lor m 4) e = (e =? 2) || ((3 <=? e) && (e <? 17) && (e <? 3 + Z.of_nat (length l')))) ->
  (forall f' s', filt f' u s' -> f' CAMCON = v -> cam_entry f' 2 = cam_entry f 2 ->
     (forall a, accepts f' a <-> a = cam_entry f 2 \/ a ∈ take 14 l') -> Q tt s') ->
  wp (reg_or CAMEN (Z.shiftl 1 2)) Q no_stop s.
Proof using SK Kp.
  intros R Em Bm El M C. apply wp_bind. eapply wp_f_read; [exact R|done|]. clear R. intros s2 R2.
  eapply wp_f_write; [exact R2|done|]. clear R2. intros s3 R3.
  assert (E2 : forall e, 0 <= e -> cam_entry (upd (upd f CAMCON v) CAMEN
    (u32 (Z.lor (upd f CAMCON v CAMEN) (Z.shiftl 1 2)))) e = cam_entry f e).
  { intros e Be. by rewrite !cam_entry_ctl by auto. }
  eapply C; [exact R3|done|by apply E2|]. apply (filter_accepts _ _ _ (Z.lor m 4)).
  - by apply E2.
  - intros e Be a Ea. rewrite E2 by lia. by apply El.
  - done.
  - unfold upd at 1. change (CAMEN =? CAMEN) with true. cbv iota. change (upd f CAMCON v CAMEN) with (f CAMEN). rewrite Em.
    apply u32_small. change (Z.shiftl 1 2) with 4. unfold is_u32. split; [apply Z.lor_nonneg; lia|].
    destruct (Z.eq_dec m 0) as [->|]; [done|]. apply Z.log2_lt_cancel. rewrite Z.log2_lor by lia.
    apply Z.max_lub_lt; [|done]. change (Z.log2 (2 ^ 32)) with 32. apply Z.log2_lt_pow2; lia.
Qed.

Lemma four_mask e : 0 <= e < 21 ->
  Z.testbit 4 e = (e =? 2) || ((3 <=? e) && (e <? 17) && (e <? 3 + Z.of_nat (length ([] : list bytes)))).
Proof using Type. intros Be. change (3 + Z.of_nat (length [])) with 3. rewrite four_bit by lia. lia. Qed.

(** The filter after the call, in each mode. *)
Lemma wp_multicast f u s flags l :
  filt f u s -> Forall is_addr l -> is_addr (dev_addr (net u)) ->
  wp (set_multicast_list flags l (Z.of_nat (length l)))
    (fun _ s' => exists f' u', filt f' u' s' /\ filter_left flags l f u f' u') no_stop s.
Proof using SK Kp.
  intros R Fl Ad. unfold set_multicast_list, filter_left, filter_control, filter_station, filter_normal.
  change (HW_MAX_ADDRS - 1) with 15.
  assert (E15 : (15 <? Z.of_nat (length l)) = negb (length l <=? 15)%nat)
    by (destruct (Z.ltb_spec 15 (Z.of_nat (length l))), (Nat.leb_spec (length l) 15); simpl; done || lia).
  apply wp_bind. eapply wp_f_write; [exact R|done|]. clear R. intros s1 R.
  destruct (has flags IFF_PROMISC); cbn [negb andb].
  { eapply wp_f_write; [exact R|done|]. clear R. intros s2 R. do 2 eexists. split; [exact R|].
    split_and!; [done|by rewrite !cam_entry_ctl by (auto || lia)|done|]. intros a. split; [|by intros []].
    intros (e & _ & Bt & _). change (Z.testbit 0 e = true) in Bt. by rewrite Z.bits_0 in Bt. }
  rewrite E15. apply wp_bind. destruct (has flags IFF_ALLMULTI), (length l <=? 15)%nat eqn:Ll; cbn [negb andb orb].
  1,2,4: eapply wp_f_write; [exact R|done|]; clear R; intros s2 R;
    eapply (wp_enable_station _ _ _ [] 0); [exact R|done|lia|done|apply four_mask|];
    intros f' s' R' Ec E2 A; do 2 eexists; (split; [exact R'|]); rewrite cam_entry_ctl in E2, A by (auto || lia);
    (split_and!; [done|done|done|]); intros a; rewrite A; simpl; rewrite elem_of_nil; intuition congruence.
  destruct (Z.eqb_spec (Z.of_nat (length l)) 0) as [E0|N0]; cbn [negb].
  - assert (l = []) as -> by (destruct l; [done|simpl in E0; lia]). rewrite bool_decide_true by done.
    apply wp_bind. eapply wp_gnet; [exact R|]. apply wp_bind. eapply wp_SetUpARC; [exact R|]. clear R. intros _ s2 R.
    eapply wp_f_write; [exact R|done|]. clear R. intros s3 R.
    eapply (wp_enable_station _ _ _ [] 4); [exact R|done|lia|done|apply four_mask|].
    intros f' s' R' Ec E2 A. do 2 eexists. split; [exact R'|]. rewrite arc_entry in E2, A by (done || lia).
    split_and!; [done|done|simpl; by rewrite take_ge by (rewrite (proj1 Ad); lia)|].
    intros a. rewrite A. simpl. rewrite elem_of_nil. intuition congruence.
  - rewrite bool_decide_false by (intros ->; done).
    apply wp_bind. unfold HardwareSetFilter. apply wp_bind. eapply wp_filter_loop; [exact R|lia|]. clear R. intros s2 R.
    eapply wp_f_write; [exact R|done|]. clear R. intros s3 R. eapply wp_f_write; [exact R|done|]. clear R. intros s4 R.
    eapply (wp_enable_station _ _ _ l (u32 (entries_mask l 1 0))); [exact R|done|apply u32_range| | |].
    + intros e Be a Ea. rewrite cam_entry_ctl, entries_entry by (done || auto || lia). change (1 + 2) with 3.
      rewrite (proj2 (Z.leb_le _ _)), (proj2 (Z.ltb_lt _ _)) by lia. simpl. by rewrite Ea.
    + intros e Be. rewrite Z.lor_spec, four_bit by lia. unfold u32. rewrite Z.mod_pow2_bits_low, entries_mask_bit, Z.bits_0 by lia. lia.
    + intros f' s' R' Ec E2 A. do 2 eexists. split; [exact R'|].
      rewrite cam_entry_ctl, entries_entry in E2, A by (done || auto || lia). simpl in E2, A. rewrite cam_entry_ctl in E2, A by (auto || lia).
      split_and!; [done|done|done|]. intros a. rewrite A. intuition congruence.
Qed.

(** In every mode, only the filter and the copy of the address change. *)
Lemma wp_any_filter f u s flags l n :
  filt f u s ->
  wp (set_multicast_list flags l n) (fun _ s' => exists f' a, filt f' (upd_net (set_dev_addr a) u) s') no_stop s.
Proof using SK Kp.
  intros R. unfold set_multicast_list.
  assert (Same : forall f' s', filt f' u s' -> exists f'' a, filt f'' (upd_net (set_dev_addr a) u) s').
  { intros f' s' R'. exists f', (dev_addr (net u)). by destruct u as [? ? [] ? ? ? ? ? ? ? ? ? ? ? ?]. }
  apply wp_bind. eapply wp_f_write; [exact R|done|]. clear R. intros s1 R.
  destruct (has flags IFF_PROMISC).
  { eapply wp_f_write; [exact R|done|]. intros s2 R2. by eapply Same. }
  assert (End : forall f' a s, filt f' (upd_net (set_dev_addr a) u) s ->
    wp (reg_or CAMEN (Z.shiftl 1 2)) (fun _ s' => exists f' a, filt f' (upd_net (set_dev_addr a) u) s') no_stop s).
  { intros f' a s' R'. apply wp_bind. eapply wp_f_read; [exact R'|done|]. clear R'. intros s2 R2.
    eapply wp_f_write; [exact R2|done|]. clear R2. intros s3 R3. by exists (upd f' CAMEN (u32 (Z.lor (f' CAMEN) (Z.shiftl 1 2)))), a. }
  assert (End' : forall f' s, filt f' u s ->
    wp (reg_or CAMEN (Z.shiftl 1 2)) (fun _ s' => exists f' a, filt f' (upd_net (set_dev_addr a) u) s') no_stop s).
  { intros f' s' R'. apply (End f' (dev_addr (net u))). by destruct u as [? ? [] ? ? ? ? ? ? ? ? ? ? ? ?]. }
  apply wp_bind. destruct (_ || _); [|destruct (negb _)].
  - eapply wp_f_write; [exact R|done|]. clear R. intros s2 R. by eapply End'.
  - apply wp_bind. unfold HardwareSetFilter. apply wp_bind. eapply wp_filter_loop; [exact R|lia|]. clear R. intros s2 R.
    eapply wp_f_write; [exact R|done|]. clear R. intros s3 R. eapply wp_f_write; [exact R|done|]. clear R. intros s4 R.
    by eapply End'.
  - apply wp_bind. eapply wp_gnet; [exact R|]. apply wp_bind. eapply wp_SetUpARC; [exact R|]. clear R. intros _ s2 R.
    eapply wp_f_write; [exact R|done|]. clear R. intros s3 R. by eapply End.
Qed.
End Filter.
