(* ===== verification/EthOpen.v ===== *)
(** * Starting and stopping the Ethernet interface

    [s3c2510_open], [s3c2510_close] and what they call: while the controller is
    stopped it leaves the descriptors alone; opening builds the rings and
    starts it, closing gives every buffer back. *)

From S2P Require Import Prelude Mii Eth EthDev EthChip EthRing EthOps EthRun.

(** ** A stopped controller *)

Definition off (c : Chip) : Prop := has (regs c BDMATXCON) BTxEN = false /\ has (regs c BDMARXCON) BRxEN = false.

(** Properties that it keeps. *)
Definition quiet (K : Chip -> Prop) : Prop := forall T X c T' X' c', off c -> K c -> move (T, X, c) (T', X', c') -> K c'.

Lemma has_clear x m k : has x k = false -> has (Z.land x (Z.lnot m)) k = false.
Proof.
  unfold has. rewrite !negb_false_iff, !Z.eqb_eq. intros E. rewrite <- Z.land_assoc, (Z.land_comm _ k), Z.land_assoc, E. done.
Qed.

Lemma off_move T X c T' X' c' : off c -> move (T, X, c) (T', X', c') -> T' = T /\ X' = X /\ off c'.
Proof.
  intros [O1 O2] M. inversion M; subst; simpl in *; try (by rewrite ?O1, ?O2 in *); split_and!; try done.
  - split; [|done]. simpl. by apply has_clear.
  - split; [done|]. simpl. by apply has_clear.
Qed.

Lemma off_moves K T X c T' X' c' :
  quiet K -> off c -> K c -> rtc move (T, X, c) (T', X', c') -> T' = T /\ X' = X /\ off c' /\ K c'.
Proof.
  intros QK. remember (T, X, c) as a eqn:Ea. remember (T', X', c') as b eqn:Eb.
  intros O HK M. revert T X c Ea O HK. induction M as [b|a y b M1 M2 IH]; intros T X c -> O HK.
  - by simplify_eq.
  - destruct y as [[T1 X1] c1]. destruct (off_move _ _ _ _ _ _ O M1) as (-> & -> & O1). eapply IH; eauto.
Qed.

Lemma quiet_true : quiet (fun _ => True).
Proof. done. Qed.

Lemma quiet_tx_log l : quiet (fun c => tx_log c = l).
Proof. intros T X c T' X' c' [O1 O2] E M. inversion M; subst; simpl in *; try done. by rewrite O1 in *. Qed.

Lemma quiet_logs l l' : quiet (fun c => tx_log c = l /\ rx_log c = l').
Proof.
  intros T X c T' X' c' [O1 O2] E M. inversion M; subst; simpl in *; try done; by rewrite ?O1, ?O2 in *.
Qed.

(** A write that does not start it. *)
Definition keeps_off (off v : Z) : bool :=
  negb ((off =? BDMATXCON) && has v BTxEN) && negb ((off =? BDMARXCON) && has v BRxEN).

Lemma off_write o v c : keeps_off o v -> off c -> off (chip_write o v c).
Proof.
  unfold keeps_off. rewrite andb_True. intros [E1 E2] [O1 O2]. unfold chip_write.
  destruct ((o =? BMTXSTAT) || (o =? BMRXSTAT)) eqn:S.
  { apply orb_true_iff in S as [->%Z.eqb_eq| ->%Z.eqb_eq]; done. }
  destruct (o =? BTXBDCNT); [done|]. destruct (o =? BRXBDCNT); [done|].
  unfold off, set_reg, with_regs, upd. cbn [regs]. rewrite !(Z.eqb_sym _ o).
  destruct (o =? BDMATXCON) eqn:Q1, (o =? BDMARXCON) eqn:Q2; simpl in E1, E2;
    destruct (has v BTxEN), (has v BRxEN); try done; by split.
Qed.

Section Open.
Context {H : Type} `{EthHw H} `{SkbAlloc} {base : Z} `{L : !EthLaws H base}.
Implicit Types (s : Eth H) (u : Eth unit) (K : Chip -> Prop).

(** The descriptors are [T] and [X] and the controller is stopped. *)
Definition stopF (T X : option (list Fd)) K (oT oX : option (list Fd)) (h : H) : Prop :=
  oT = T /\ oX = X /\ off (obs h) /\ K (obs h).
Definition idle T X K u s : Prop := hold base (stopF T X K) u s.

Lemma wp_i_point T X K u s Q :
  quiet K -> idle T X K u s -> (forall s', idle T X K u s' -> Q tt s') -> wp point Q no_stop s.
Proof.
  intros QK [(ET & EX & O & HK) Re Ba] C. unfold wp, point, modify.
  destruct (hw_dma _ _ (hw s)) as [[T' X'] h'] eqn:D. apply obs_dma in D.
  destruct (off_moves K _ _ _ _ _ _ QK O HK D) as (-> & -> & O' & HK'). apply C.
  split; simpl; [split_and!; try done| |done].
  - rewrite ET. by destruct T.
  - rewrite EX. by destruct X.
  - rewrite <- Re. unfold rest. simpl. done.
Qed.

Lemma wp_i_readl T X K u s a Q :
  quiet K -> idle T X K u s -> (forall v s', idle T X K u s' -> Q v s') -> wp (readl a) Q no_stop s.
Proof.
  intros QK R C. apply wp_bind. eapply wp_i_point; [done..|]. clear R. intros s1 [(ET & EX & O & HK) Re Ba].
  unfold wp, bus_read. destruct (hw_read (u32 a) (hw s1)) as [v h'] eqn:E. apply C.
  apply obs_read in E. split; simpl; [|done..]. split_and!; simpl; rewrite ?E; done.
Qed.

Lemma wp_i_reg_read T X K u s o Q :
  quiet K -> idle T X K u s -> (forall v s', idle T X K u s' -> Q v s') -> wp (reg_read o) Q no_stop s.
Proof. intros QK R C. apply wp_bind. eapply wp_gnet; [exact R|]. by eapply wp_i_readl. Qed.

Lemma wp_i_write T X K K' u s o v Q :
  quiet K -> idle T X K u s -> known o -> keeps_off o (u32 v) -> (forall c, K c -> K' (chip_write o (u32 v) c)) ->
  (forall s', idle T X K' u s' -> Q tt s') -> wp (reg_write o v) Q no_stop s.
Proof.
  intros QK R Kn Ko M C. apply wp_bind. eapply wp_gnet; [exact R|]. rewrite (hold_base _ _ _ R).
  apply wp_bind. eapply wp_i_point; [done..|]. clear R. intros s1 [(ET & EX & O & HK) Re Ba]. unfold modify, wp.
  apply C. split; simpl; [|done..]. unfold stopF. rewrite (write_known o (u32 v) (hw s1) Kn).
  split_and!; [done|done|by apply off_write|auto].
Qed.

Lemma wp_i_put_tx T X K u s (i : nat) d f Q :
  quiet K -> idle (Some T) X K u s -> T !! i = Some d ->
  (forall s', idle (Some (<[i := f d]> T)) X K u s' -> Q tt s') -> wp (put_tx_fd (Z.of_nat i) f) Q no_stop s.
Proof.
  intros QK R E C. apply wp_bind, wp_bind. eapply wp_i_point; [done..|]. clear R. intros s1 R.
  destruct R as [(ET & EX & O & HK) Re Ba]. unfold gtx. apply wp_bind. unfold gets at 1, wp at 1. rewrite ET. apply wp_bind. simpl.
  unfold wp at 1, mret, M_ret. eapply wp_slot; [exact E|]. unfold mtx, modify, wp. apply C.
  split; simpl; [|done..]. unfold stopF. simpl. by rewrite ET, Nat2Z.id.
Qed.

Lemma wp_i_put_rx T X K u s (i : nat) d f Q :
  quiet K -> idle T (Some X) K u s -> X !! i = Some d ->
  (forall s', idle T (Some (<[i := f d]> X)) K u s' -> Q tt s') -> wp (put_rx_fd (Z.of_nat i) f) Q no_stop s.
Proof.
  intros QK R E C. apply wp_bind, wp_bind. eapply wp_i_point; [done..|]. clear R. intros s1 R.
  destruct R as [(ET & EX & O & HK) Re Ba]. unfold grx. apply wp_bind. unfold gets at 1, wp at 1. rewrite EX. apply wp_bind. simpl.
  unfold wp at 1, mret, M_ret. eapply wp_slot; [exact E|]. unfold mrx, modify, wp. apply C.
  split; simpl; [|done..]. unfold stopF. simpl. by rewrite EX, Nat2Z.id.
Qed.

(** Another array of descriptors. *)
Lemma wp_i_set_tx T T' X K u s Q :
  idle T X K u s -> (forall s', idle T' X K u s' -> Q tt s') -> wp (mtx (set_txFd T')) Q no_stop s.
Proof. intros [(ET & EX & O & HK) Re Ba] C. unfold mtx, modify, wp. apply C. by split. Qed.

Lemma wp_i_set_rx T X X' K u s Q :
  idle T X K u s -> (forall s', idle T X' K u s' -> Q tt s') -> wp (mrx (set_rxFd X')) Q no_stop s.
Proof. intros [(ET & EX & O & HK) Re Ba] C. unfold mrx, modify, wp. apply C. by split. Qed.

(** ** Building the rings *)

(** The first [i] receive descriptors are posted, each with an empty buffer. *)
Definition rx_built (i : nat) (X : list Fd) (R : list Z) (m : gmap Z SkBuff) : Prop :=
  length X = 64%nat /\ length R = 64%nat /\
  (forall k, (k < i)%nat -> exists d a, X !! k = Some d /\ FDStatLen d = posted /\
     R !! k = Some a /\ a <> 0 /\ m !! a = Some (mkSkb (FDDataPtr d) 0)) /\
  (forall k, (i <= k < 64)%nat -> R !! k = Some 0).

Lemma rx_built_next i X R m a d0 q :
  rx_built i X R m -> (i < 64)%nat -> X !! i = Some d0 -> m !! a = None -> a <> 0 ->
  rx_built (S i) (<[i := mkFd q posted]> X) (<[i := a]> R) (<[a := mkSkb q 0]> m).
Proof.
  intros (L1 & L2 & P & Z) B E Fr N. split_and!; rewrite ?length_insert; try done.
  - intros k Bk. destruct (decide (k = i)) as [->|Ne].
    + exists (mkFd q posted), a. rewrite !list_lookup_insert_eq by lia. by rewrite lookup_insert_eq.
    + destruct (P k ltac:(lia)) as (d & b & ? & ? & ? & ? & Em). exists d, b.
      rewrite !list_lookup_insert_ne, lookup_insert_ne by (done || (intros <-; by rewrite Em in Fr)). done.
  - intros k Bk. rewrite list_lookup_insert_ne by lia. apply Z. lia.
Qed.

(** What building leaves alone. *)
Record build_frame u u' : Prop := mkBuild {
  bf_tx : tx u' = tx u;
  bf_net : net u' = net u;
  bf_accepted : accepted u' = accepted u;
  bf_delivered : delivered u' = delivered u;
  bf_kmallocs : kmallocs u' = kmallocs u;
  bf_mii : mii_on u' = mii_on u;
}.

Lemma build_frame_trans u v w : build_frame u v -> build_frame v w -> build_frame u w.
Proof. intros [] []. split; congruence. Qed.

Lemma wp_setup_rx_loop T K n : forall i X u s,
  quiet K -> idle T (Some X) K u s -> rx_built i X (rxFrCtl (rx u)) (skbs u) ->
  Owns (txFrCtl (tx u)) (rxFrCtl (rx u)) (skbs u) -> (i + n = 64)%nat ->
  wp (setup_rx_loop n (Z.of_nat i))
    (fun r s' => exists X' u' i', idle T (Some X') K u' s' /\ build_frame u u' /\
       Owns (txFrCtl (tx u')) (rxFrCtl (rx u')) (skbs u') /\ rx_built i' X' (rxFrCtl (rx u')) (skbs u') /\
       (forall k, (k < i' - i)%nat -> exists live, is_Some (alloc_skb (clock u + k) live)) /\ (i <= i' <= 64)%nat /\
       ((r = None /\ i' = 64%nat) \/
        (r = Some (Z.of_nat i') /\ (i' < 64)%nat /\ exists live, alloc_skb (clock u + (i' - i)) live = None))) no_stop s.
Proof.
  induction n as [|n IH]; intros i X u s QK R Bu Ow In.
  - apply wp_ret. exists X, u, i.
    split_and!; [done|by split|done|done|intros; lia|lia|lia|]. left. split; [done|lia].
  - cbn [setup_rx_loop]. apply wp_bind. eapply wp_alloc; [exact R| |].
    + clear R. intros s1 Em R. cbn [Z.eqb]. apply wp_ret. exists X, (set_clock (S (clock u)) u), i.
      split_and!; [done|by split|done|done|intros; lia|lia|lia|]. right. split_and!; [done|lia|].
      rewrite Nat.sub_diag, Nat.add_0_r. eauto.
    + clear R. intros a d s1 Em Na Fr R. rewrite (proj2 (Z.eqb_neq _ _) Na).
      destruct (lookup_lt_is_Some_2 X i) as [d0 Ed]; [destruct Bu as (-> & _); lia|].
      assert (E0 : rxFrCtl (rx u) !! i = Some 0) by (destruct Bu as (_ & _ & _ & Z); apply Z; lia).
      apply wp_bind. eapply wp_put_rx_ctl; [exact R|exact E0|]. clear R. intros s2 R.
      apply wp_bind. eapply wp_the_skb; [exact R|done|by apply lookup_insert_eq|]. cbn [skb_data].
      apply wp_bind. eapply wp_i_put_rx; [done|exact R|exact Ed|]. clear R. intros s3 R.
      assert (Ed1 : <[i := with_ptr (d + 2) d0]> X !! i = Some (with_ptr (d + 2) d0))
        by (apply list_lookup_insert_eq; by eapply lookup_lt_Some).
      apply wp_bind. eapply wp_i_put_rx; [done|exact R|exact Ed1|]. clear R. intros s4 R.
      rewrite list_insert_insert_eq in R. change (with_stat posted (with_ptr (d + 2) d0)) with (mkFd (d + 2) posted) in R.
      replace (Z.of_nat i + 1) with (Z.of_nat (S i)) by lia.
      eapply wp_mono; [eapply (IH _ _ _ _ QK R)| |done].
      * simpl. eapply rx_built_next; [exact Bu|lia|exact Ed|done|done].
      * simpl. eapply Owns_insert; [exact Ow|done|]. by apply places_rx_put.
      * lia.
      * intros r s5 (X' & u' & i' & R' & F & Ow' & Bu' & Al & Bi & Cs). exists X', u', i'.
        split_and!; try done; try lia.
        { by destruct F. }
        { intros k Bk. destruct k as [|k]; [rewrite Nat.add_0_r; eauto|].
          destruct (Al k) as [live ?]; [lia|]. exists live. simpl in *. by rewrite Nat.add_succ_r. }
        { destruct Cs as [[-> ->]|(-> & Lt & live & E)]; [by left|right]. split_and!; [done|done|].
          exists live. simpl in E. rewrite <- E. f_equal. lia. }
Qed.

Definition tx_free : Fd := mkFd 0 (Z.shiftl TxWidSet16 16).
Definition no_bufs : list Z := replicate 64 0.

Lemma no_bufs_lookup k : (k < 64)%nat -> no_bufs !! k = Some 0.
Proof. apply lookup_replicate_2. Qed.

Lemma wp_setup_tx_loop X K n : forall i T u s,
  quiet K -> idle (Some T) X K u s -> length T = 64%nat -> (forall k, (k < i)%nat -> T !! k = Some tx_free) ->
  txFrCtl (tx u) = no_bufs -> (i + n = 64)%nat ->
  wp (setup_tx_loop n (Z.of_nat i)) (fun _ s' => idle (Some (replicate 64 tx_free)) X K u s') no_stop s.
Proof.
  induction n as [|n IH]; intros i T u s QK R Len Bu C In.
  - apply wp_ret. assert (replicate 64 tx_free = T) as ->; [|done]. apply replicate_as_elem_of.
    split; [done|]. intros d (k & Ek)%list_elem_of_lookup_1. rewrite Bu in Ek by (apply lookup_lt_Some in Ek; lia). by simplify_eq.
  - cbn [setup_tx_loop]. destruct (lookup_lt_is_Some_2 T i) as [d0 Ed]; [lia|].
    assert (E0 : txFrCtl (tx u) !! i = Some 0) by (rewrite C; apply no_bufs_lookup; lia).
    apply wp_bind. eapply wp_put_tx_ctl; [exact R|exact E0|]. clear R. intros s1 R.
    assert (upd_tx (put_C i 0) u = u) as Eu.
    { unfold upd_tx, put_C. rewrite list_insert_id by done. by destruct u as [[] ? ? ? ? ? ? ? ? ? ? ? ? ? []]. }
    rewrite Eu in R.
    apply wp_bind. eapply wp_i_put_tx; [done|exact R|exact Ed|]. clear R. intros s2 R.
    assert (Ed1 : <[i := with_ptr 0 d0]> T !! i = Some (with_ptr 0 d0))
      by (apply list_lookup_insert_eq; by eapply lookup_lt_Some).
    apply wp_bind. eapply wp_i_put_tx; [done|exact R|exact Ed1|]. clear R. intros s3 R.
    rewrite list_insert_insert_eq in R. replace (Z.of_nat i + 1) with (Z.of_nat (S i)) by lia.
    eapply (IH _ _ _ _ QK R); [by rewrite length_insert| |done|lia].
    intros k Bk. destruct (decide (k = i)) as [->|Ne]; [by apply list_lookup_insert_eq; lia|].
    rewrite list_lookup_insert_ne by done. apply Bu. lia.
Qed.

(** *** Registers *)

Definition keeps_all K : Prop := forall o v c, restarts o = false -> K c -> K (chip_write o v c).

Lemma keeps_all_logs l l' : keeps_all (fun c => tx_log c = l /\ rx_log c = l').
Proof. intros o v c E. by destruct (chip_write_logs o v c E) as [-> ->]. Qed.

Definition init_ok (p : Z * Z) : bool := known (fst p) && keeps_off (fst p) (u32 (snd p)) && negb (restarts (fst p)).

(** Writes that do not start anything keep [F]. *)
Definition writes_keep (F : option (list Fd) -> option (list Fd) -> H -> Prop) : Prop := forall o v u s Q,
  init_ok (o, v) -> hold base F u s -> (forall s', hold base F u s' -> Q tt s') -> wp (reg_write o v) Q no_stop s.

Lemma wp_write_set F l : forall u s,
  writes_keep F -> forallb init_ok l -> hold base F u s -> wp (write_set l) (fun _ s' => hold base F u s') no_stop s.
Proof.
  induction l as [|[o v] l IH]; intros u s W B R; [by apply wp_ret|].
  simpl in B. rewrite andb_True in B. destruct B as [B1 B2].
  cbn [write_set]. apply wp_bind. eapply W; [exact B1|exact R|]. intros s' R'. by apply IH.
Qed.

Lemma CAM_ok i v : 0 <= i < 32 -> init_ok (CAM + i * 4, v).
Proof.
  intros B. unfold init_ok. cbn [fst snd]. rewrite !andb_True. split_and!.
  - unfold known, CAM. rewrite orb_True, !andb_True, !Is_true_true, Z.leb_le, Z.ltb_lt, Z.eqb_eq. right.
    split; [lia|]. replace (0x10080 + i * 4) with ((0x4020 + i) * 4) by lia. apply Z.mod_mul. lia.
  - unfold keeps_off, CAM, BDMATXCON, BDMARXCON. by rewrite !(proj2 (Z.eqb_neq _ _)) by lia.
  - unfold restarts, CAM, BTXBDCNT, BRXBDCNT. by rewrite !(proj2 (Z.eqb_neq _ _)) by lia.
Qed.

Lemma wp_CAM F n : forall i u s,
  writes_keep F -> (0 <= i /\ i + Z.of_nat n <= 32) -> hold base F u s ->
  wp (initial_CAM_loop n i) (fun _ s' => hold base F u s') no_stop s.
Proof.
  induction n as [|n IH]; intros i u s W B R; [by apply wp_ret|].
  cbn [initial_CAM_loop]. apply wp_bind. eapply W; [apply CAM_ok; lia|exact R|].
  clear R. intros s' R. apply IH; [done|lia|exact R].
Qed.

Lemma stop_writes_keep T X K : quiet K -> keeps_all K -> writes_keep (stopF T X K).
Proof.
  intros QK Kp o v u s Q B R C. unfold init_ok in B. rewrite !andb_True in B. destruct B as [[? ?] NR].
  eapply (wp_i_write _ _ K K); [done|exact R|done|done| |exact C].
  intros c. apply Kp. by apply Is_true_true, negb_true_iff in NR.
Qed.

(** Masks of the interrupt controller. *)
Definition with_masks (im em : Z) u : Eth unit := set_intmask im (set_extmask em u).

Lemma with_masks_id u : u = with_masks (intmask u) (extmask u) u.
Proof. by destruct u as [? ? ? ? ? ? ? ? ? ? ? ? ? ? []]. Qed.

Lemma wp_mask F u s n Q :
  hold base F u s -> (forall im em s', hold base F (with_masks im em u) s' -> Q tt s') -> wp (mask_irq n) Q no_stop s.
Proof.
  intros R C. unfold mask_irq. destruct (ext_irqs <=? n).
  - apply (wp_modify _ _ _ _ (fun u => set_intmask (Z.lor (intmask u) (Z.shiftl 1 (n - ext_irqs))) u) _ R); [done|done|].
    intros s' R'. apply (C (Z.lor (intmask u) (Z.shiftl 1 (n - ext_irqs))) (extmask u)). by destruct u.
  - apply (wp_modify _ _ _ _ (fun u => set_extmask (Z.lor (extmask u) (Z.shiftl 1 n)) u) _ R); [done|done|].
    intros s' R'. apply (C (intmask u) (Z.lor (extmask u) (Z.shiftl 1 n))). by destruct u.
Qed.

Lemma wp_unmask F u s n Q :
  hold base F u s -> (forall im em s', hold base F (with_masks im em u) s' -> Q tt s') -> wp (unmask_irq n) Q no_stop s.
Proof.
  intros R C. unfold unmask_irq. destruct (ext_irqs <=? n).
  - apply (wp_modify _ _ _ _ (fun u => set_intmask (Z.land (intmask u) (Z.lnot (Z.shiftl 1 (n - ext_irqs)))) u) _ R); [done|done|].
    intros s' R'. apply (C (Z.land (intmask u) (Z.lnot (Z.shiftl 1 (n - ext_irqs)))) (extmask u)). by destruct u.
  - apply (wp_modify _ _ _ _ (fun u => set_extmask (Z.land (extmask u) (Z.lnot (Z.shiftl 1 n))) u) _ R); [done|done|].
    intros s' R'. apply (C (intmask u) (Z.land (extmask u) (Z.lnot (Z.shiftl 1 n)))). by destruct u.
Qed.

Lemma wp_both F u s (f : Z -> M (Eth H) unit) Q :
  (forall n u s Q, hold base F u s -> (forall im em s', hold base F (with_masks im em u) s' -> Q tt s') -> wp (f n) Q no_stop s) ->
  hold base F u s -> (forall im em s', hold base F (with_masks im em u) s' -> Q tt s') -> wp (both_irqs f) Q no_stop s.
Proof.
  intros Rule R C. apply wp_bind. eapply wp_gnet; [exact R|]. apply wp_bind. eapply Rule; [exact R|]. clear R. intros im em s1 R.
  eapply Rule; [exact R|]. clear R. intros im' em' s2 R. by eapply (C im' em').
Qed.

Lemma initial_set_ok : forallb init_ok hw_initial_set.
Proof. vm_compute. exact I. Qed.

Lemma wp_hw_init T X K u s Q :
  quiet K -> keeps_all K -> idle T X K u s -> (forall im em s', idle T X K (with_masks im em u) s' -> Q tt s') ->
  wp hw_init Q no_stop s.
Proof.
  intros QK Kp R C. unfold hw_init. apply wp_bind. eapply wp_both; [intros; by eapply wp_mask|exact R|]. clear R. intros im em s1 R.
  pose proof (stop_writes_keep T X K QK Kp) as W.
  apply wp_bind. eapply wp_mono; [eapply wp_write_set; [exact W|exact initial_set_ok|exact R]| |done]. clear R. intros [] s2 R.
  eapply wp_mono; [eapply wp_CAM; [exact W|lia|exact R]| |done]. intros [] s3 R'. by eapply C.
Qed.

(** ** Start *)

Definition no_logs (c : Chip) : Prop := tx_log c = [] /\ rx_log c = [].

(** The rings right after they are built. *)
Definition fresh (X : list Fd) : Ghost := mkGhost 0 [] 0 0 (FDDataPtr <$> replicate 64 tx_free) (FDDataPtr <$> X).

Lemma TxI_fresh : TxI 0 [] (replicate 64 tx_free) [].
Proof.
  split; [done|done|simpl; lia|]. split; [done|]. intros k _. exists tx_free.
  split; [apply lookup_replicate_2, at_ring_lt|]. split_and!; simpl; intros; [lia|lia|done].
Qed.

Lemma RxI_fresh X R m : rx_built 64 X R m -> RxI 0 0 X [].
Proof.
  intros (Len & _ & B & _). split; [done|done|simpl; lia|]. split; [done|]. intros k _.
  destruct (B (at_ring k) (at_ring_lt k)) as (d & a & E & P & _). exists d. split; [done|].
  split_and!; simpl; intros; [lia|lia|done].
Qed.

Lemma Soft_fresh X u :
  rx_built 64 X (rxFrCtl (rx u)) (skbs u) -> txFrCtl (tx u) = no_bufs -> tx_ready (tx u) = 0 ->
  Owns (txFrCtl (tx u)) (rxFrCtl (rx u)) (skbs u) -> Soft (fresh X) u.
Proof.
  intros (L1 & L2 & B & _) C Rd Ow. split; [done| | |done]; simpl.
  - rewrite C. split; [done|]. intros k _. exists 0. split; [apply no_bufs_lookup, at_ring_lt|]. split; [simpl; lia|done].
  - split; [done|]. intros k _. destruct (B (at_ring k) (at_ring_lt k)) as (d & a & E & P & Ea & Na & Em).
    exists a. split; [done|]. split; [done|]. intros _. exists (FDDataPtr d). by rewrite list_lookup_fmap, E.
Qed.

Lemma wp_i_start X u s v Q :
  idle (Some (replicate 64 tx_free)) (Some X) no_logs u s -> RxI 0 0 X [] ->
  (forall s', ring (fresh X) (flagged 0) u s' -> Q tt s') -> wp (reg_write BDMATXCON v) Q no_stop s.
Proof.
  intros R IX C. apply wp_bind. eapply wp_gnet; [exact R|]. rewrite (hold_base _ _ _ R).
  apply wp_bind. eapply wp_i_point; [apply quiet_logs|exact R|]. clear R. intros s1 [(ET & EX & O & (L1 & L2)) Re Ba].
  unfold modify, wp. apply C. split; simpl; [|done..]. unfold fds. rewrite (write_known BDMATXCON (u32 v) (hw s1)) by done.
  assert (E1 : tx_log (chip_write BDMATXCON (u32 v) (obs (hw s1))) = []) by done.
  assert (E2 : rx_log (chip_write BDMATXCON (u32 v) (obs (hw s1))) = []) by done.
  rewrite E1, E2. split; [|unfold flagged; rewrite E2; simpl; lia].
  exists (replicate 64 tx_free), X. split_and!; try done. apply TxI_fresh.
Qed.

Lemma start_keeps : keeps [BDMARXCON; MACTXCON; MACRXCON; MACCON; BMTXINTEN] (flagged 0).
Proof.
  intros o v c I. rewrite !elem_of_cons, elem_of_nil in I. by repeat (destruct I as [->|I]; [done|]).
Qed.

Lemma wp_hw_start X u s Q :
  idle (Some (replicate 64 tx_free)) (Some X) no_logs u s -> RxI 0 0 X [] ->
  (forall im em s', ring (fresh X) (fun c => flagged 0 c /\ enabled c) (with_masks im em u) s' -> Q tt s') ->
  wp hw_start Q no_stop s.
Proof.
  intros R IX C. unfold hw_start, hw_start_set. cbn [write_set].
  apply wp_bind. eapply wp_hw_init; [apply quiet_logs|apply keeps_all_logs|exact R|]. clear R. intros im em s1 R.
  apply wp_bind, wp_bind. eapply wp_i_start; [exact R|exact IX|]. clear R. intros s2 R.
  pose proof (flagged_stable [] 0) as SK.
  assert (Kp := start_keeps).
  apply wp_bind. keep_step R SK (wp_write_keeps [BDMARXCON; MACTXCON; MACRXCON; MACCON; BMTXINTEN]) s3.
  apply wp_bind. keep_step R SK (wp_write_keeps [BDMARXCON; MACTXCON; MACRXCON; MACCON; BMTXINTEN]) s4.
  apply wp_bind. keep_step R SK (wp_write_keeps [BDMARXCON; MACTXCON; MACRXCON; MACCON; BMTXINTEN]) s5.
  apply wp_bind. keep_step R SK (wp_write_keeps [BDMARXCON; MACTXCON; MACRXCON; MACCON; BMTXINTEN]) s6.
  apply wp_bind. keep_step R SK (wp_write_keeps [BDMARXCON; MACTXCON; MACRXCON; MACCON; BMTXINTEN]) s7.
  apply wp_bind. eapply (wp_reg_write _ _ (fun c => flagged 0 c /\ enabled c)); [|exact R|done|done| |].
  { exact (SK _ _ _). }
  { intros c F. split; [|done]. by apply flagged_keeps; [apply list_elem_of_here|]. }
  clear R. intros s8 R. apply wp_ret.
  eapply wp_both; [intros; by eapply wp_unmask|exact R|]. clear R. intros im' em' s9 R. by eapply (C im' em').
Qed.

(** ** The transceiver while the interface runs *)

(** Only the transceiver's part changes. *)
Definition phy_upd (m : mii_if_info) (b t : bool) u : Eth unit :=
  set_mii_if m (upd_net (fun n => set_mii_timer t (set_link b n)) u).

Lemma phy_upd_id u : u = phy_upd (mii_if u) (link (net u)) (mii_timer (net u)) u.
Proof. by destruct u as [? ? [] ? ? ? ? ? ? ? ? ? ? ? []]. Qed.

Section Phy.
Context (g : Ghost) (K : Chip -> Prop) (SK : stable g K) (Kp : keeps [MACCON] K).

Lemma wp_writel_sta u s o v Q :
  o = STACON \/ o = STADATA -> ring g K u s -> (forall s', ring g K u s' -> Q tt s') ->
  wp (writel v (ETH0OFF + o)) Q no_stop s.
Proof using SK.
  intros Ho R C. apply wp_bind. eapply wp_point; [done..|]. clear R. intros s1 [F Re Ba].
  unfold modify, wp. apply C. split; simpl; [|done..]. unfold fds in *. by rewrite (write_sta o (u32 v) (hw s1) Ho).
Qed.

Lemma wp_PHYWait u n : forall s Q,
  ring g K u s -> (forall v s', ring g K u s' -> Q v s') -> wp (PHYWait_loop n) Q no_stop s.
Proof using SK.
  induction n as [|n IH]; intros s Q R C; cbn [PHYWait_loop]; apply wp_bind;
    (eapply wp_readl; [exact SK|exact R|]; clear R; intros v s1 R _; destruct (has v MPHYbusy); [|by apply wp_ret, C]).
  - by apply wp_ret, C.
  - by eapply IH.
Qed.

Lemma wp_mdio_read u s phy reg Q :
  mii_on u = true -> ring g K u s -> (forall v s', ring g K u s' -> Q v s') -> wp (s3c2510_mdio_read phy reg) Q no_stop s.
Proof using SK.
  intros On R C. apply wp_bind. eapply (wp_gets _ _ _ mii_on true); [exact R|intros s' E; rewrite <- On; exact (f_equal mii_on E)|].
  apply wp_bind. eapply wp_PHYWait; [exact R|]. clear R. intros r s1 R. destruct (negb _); [by apply wp_ret, C|].
  apply wp_bind. eapply wp_writel_sta; [by left|exact R|]. clear R. intros s2 R.
  apply wp_bind. eapply wp_PHYWait; [exact R|]. clear R. intros r' s3 R. destruct (negb _); [by apply wp_ret, C|].
  eapply wp_readl; [exact SK|exact R|]. clear R. intros v s4 R _. by apply C.
Qed.

Lemma wp_mii F u s Q : hold base F u s -> Q (mii_if u) s -> wp mii Q no_stop s.
Proof using Type. intros R C. eapply (wp_gets _ _ _ mii_if (mii_if u)); [exact R|intros s' E; exact (f_equal mii_if E)|done]. Qed.

Lemma wp_phy_read u s reg Q :
  mii_on u = true -> ring g K u s -> (forall v s', ring g K u s' -> Q v s') -> wp (phy_read reg) Q no_stop s.
Proof using SK. intros On R C. apply wp_bind. eapply wp_mii; [exact R|]. by eapply wp_mdio_read. Qed.

Lemma wp_upd_mii F u s f Q :
  hold base F u s -> (forall s', hold base F (set_mii_if (f (mii_if u)) u) s' -> Q tt s') -> wp (upd_mii f) Q no_stop s.
Proof using Type. intros R. by apply (wp_modify _ _ _ _ (fun u => set_mii_if (f (mii_if u)) u) _ R). Qed.

Lemma wp_carrier F u s b Q :
  hold base F u s -> (forall s', hold base F (upd_net (set_link b) u) s' -> Q tt s') ->
  wp (modify (put_carrier (MiiDev := eth_mii) b)) Q no_stop s.
Proof using Type. intros R. by apply (wp_modify _ _ _ _ (upd_net (set_link b)) _ R). Qed.

Lemma wp_link_ok u s Q :
  mii_on u = true -> ring g K u s -> (forall v s', ring g K u s' -> Q v s') -> wp mii_link_ok Q no_stop s.
Proof using SK.
  intros On R C. apply wp_bind. eapply wp_phy_read; [done|exact R|]. clear R. intros _ s1 R.
  apply wp_bind. eapply wp_phy_read; [done|exact R|]. clear R. intros v s2 R. by apply wp_ret, C.
Qed.

Lemma wp_check_media u s b0 :
  mii_on u = true -> ring g K u s ->
  wp (mii_check_media b0) (fun _ s' => exists m b, ring g K (phy_upd m b (mii_timer (net u)) u) s') no_stop s.
Proof using SK.
  intros On R.
  assert (Same : forall s', ring g K u s' -> exists m b, ring g K (phy_upd m b (mii_timer (net u)) u) s').
  { intros s' R'. exists (mii_if u), (link (net u)). by rewrite <- phy_upd_id. }
  assert (Link : forall s' b, ring g K (upd_net (set_link b) u) s' -> exists m b, ring g K (phy_upd m b (mii_timer (net u)) u) s').
  { intros s' b R'. exists (mii_if u), b. by destruct u as [? ? [] ? ? ? ? ? ? ? ? ? ? ? []]. }
  assert (Both : forall s' b m, ring g K (set_mii_if m (upd_net (set_link b) u)) s' -> exists m b, ring g K (phy_upd m b (mii_timer (net u)) u) s').
  { intros s' b m R'. exists m, b. by destruct u as [? ? [] ? ? ? ? ? ? ? ? ? ? ? []]. }
  apply wp_bind. eapply wp_mii; [exact R|]. destruct (force_media (mii_if u)); [by apply wp_ret, Same|].
  apply wp_bind. eapply (wp_gets _ _ _ carrier (link (net u))); [exact R|intros s' E; exact (f_equal (fun u => link (net u)) E)|].
  apply wp_bind. eapply wp_link_ok; [done|exact R|]. clear R. intros nc s1 R.
  destruct (_ && _); [by apply wp_ret, Same|]. destruct (nc =? 0).
  { apply wp_bind. eapply wp_carrier; [exact R|]. clear R. intros s2 R. by eapply wp_ret, Link. }
  apply wp_bind. eapply wp_carrier; [exact R|]. clear R. intros s2 R.
  apply wp_bind. eapply wp_mii; [exact R|]. apply wp_bind.
  set (u1 := upd_net (set_link true) u) in *.
  assert (End : forall adv m s, ring g K (set_mii_if m u1) s ->
    wp (lpa ← phy_read MII_LPA;
        let media := mii_nway_result (u32 (Z.land lpa adv)) in
        let duplex := has media ADVERTISE_FULL in
        m ← mii;
        if b0 || negb (Bool.eqb (full_duplex m) duplex) then upd_mii (set_full_duplex duplex) ;; mret 1 else mret 0)
      (fun _ s' => exists m b, ring g K (phy_upd m b (mii_timer (net u)) u) s') no_stop s).
  { intros adv m s' R'. apply wp_bind. eapply (wp_phy_read (set_mii_if m u1)); [done|exact R'|]. clear R'. intros v s3 R3. cbv zeta.
    apply wp_bind. eapply wp_mii; [exact R3|]. destruct (_ || _); [|apply wp_ret; exact (Both _ _ _ R3)].
    apply wp_bind. eapply wp_upd_mii; [exact R3|]. clear R3. intros s4 R4. apply wp_ret. exact (Both _ _ _ R4). }
  destruct (_ && _).
  - apply wp_ret. apply (End _ (mii_if u)). by destruct u.
  - apply wp_bind. eapply (wp_phy_read u1); [done|exact R|]. clear R. intros v s3 R.
    apply wp_bind. eapply wp_upd_mii; [exact R|]. clear R. intros s4 R. apply wp_ret. by eapply End.
Qed.

Lemma wp_check_duplex u s b0 :
  mii_on u = true -> ring g K u s ->
  wp (check_duplex b0) (fun _ s' => exists m b, ring g K (phy_upd m b true u) s') no_stop s.
Proof using SK Kp.
  intros On R. apply wp_bind. eapply wp_mono; [by eapply wp_check_media| |done]. clear R. intros changed s1 (m & b & R).
  assert (End : forall s, ring g K (phy_upd m b (mii_timer (net u)) u) s ->
    wp (mnet (set_mii_timer true)) (fun _ s' => exists m b, ring g K (phy_upd m b true u) s') no_stop s).
  { intros s' R'. eapply wp_mnet; [exact R'|done|]. clear R'. intros s2 R2. by exists m, b. }
  apply wp_bind. destruct (negb _); cbn [when]; [|by apply wp_ret, End].
  apply wp_bind. eapply (wp_gets _ _ _ mii_if m); [exact R|intros s' E; exact (f_equal mii_if E)|].
  eapply (wp_write_keeps [MACCON]); [done|exact R|done|apply list_elem_of_here|done|done|]. intros s2 R2. by apply End.
Qed.
End Phy.

(** ** Open *)

(** The interface is down: the controller is stopped and the driver has no buffer. *)
Record Closed u s : Prop := mkClosed {
  cl_idle : idle None None (fun _ => True) u s;
  cl_tx : txFrCtl (tx u) = no_bufs;
  cl_rx : rxFrCtl (rx u) = no_bufs;
  cl_skbs : skbs u = ∅;
}.

(** There is memory for the rings. *)
Record memory u : Prop := mkMemory {
  mem_fds : exists a f b h l, kmallocs u = Some (a, f) :: Some (b, h) :: l;
  mem_skbs : forall k live, (k < 64)%nat -> is_Some (alloc_skb (clock u + k) live);
}.

Lemma Owns_none : Owns no_bufs no_bufs ∅.
Proof. unfold Owns. by rewrite map_to_list_empty. Qed.

Lemma wp_kmalloc F u s k l Q :
  hold base F u s -> kmallocs u = k :: l -> (forall s', hold base F (set_kmallocs l u) s' -> Q k s') -> wp kmalloc Q no_stop s.
Proof.
  intros [HF Re Ba] E C. unfold wp, kmalloc. assert (kmallocs s = kmallocs u) as -> by by rewrite <- Re.
  rewrite E. apply C. split; simpl; [done|by rewrite <- Re|done].
Qed.

Lemma fd_array_length n f : length (fd_array n f) = Z.to_nat n.
Proof. unfold fd_array. by rewrite length_fmap, length_seq. Qed.

(** What allocating leaves alone. *)
Record alloc_frame u u' : Prop := mkAlloc {
  af_net : net u' = net u;
  af_accepted : accepted u' = accepted u;
  af_delivered : delivered u' = delivered u;
  af_mii : mii_on u' = mii_on u;
}.

Lemma wp_SetupRxFDs T X K u s :
  quiet K -> idle T (Some X) K u s -> length X = 64%nat -> txFrCtl (tx u) = no_bufs -> rxFrCtl (rx u) = no_bufs -> skbs u = ∅ ->
  (forall k live, (k < 64)%nat -> is_Some (alloc_skb (clock u + k) live)) ->
  wp SetupRxFDs (fun r s' => r = S3C2510_SUCCESS /\ exists X' u', idle T (Some X') K u' s' /\ build_frame u u' /\
    Owns (txFrCtl (tx u')) (rxFrCtl (rx u')) (skbs u') /\ rx_built 64 X' (rxFrCtl (rx u')) (skbs u') /\
    rx_done (rx u') = 0 /\ rx_skb_refill (rx u') = 0) no_stop s.
Proof.
  intros QK R Len C Rr Sk Mem. unfold SetupRxFDs. apply wp_bind.
  eapply wp_mono; [eapply (wp_setup_rx_loop T K 64 0 X u); [done|exact R| | |done]| |done].
  - rewrite Rr. split_and!; [done|done|intros; lia|]. intros k Bk. apply no_bufs_lookup; lia.
  - rewrite C, Rr, Sk. apply Owns_none.
  - clear R. intros r s1 (X' & u' & i' & R & F & Ow & Bu & _ & _ & Cs).
    destruct Cs as [[-> ->]|(-> & Lt & live & E)].
    2:{ destruct (Mem i' live Lt) as [x Ex]. rewrite Nat.sub_0_r in E. congruence. }
    apply wp_bind. eapply wp_mrx; [exact R|done|done|]. clear R. intros s2 R.
    apply wp_bind. eapply wp_mrx; [exact R|done|done|]. clear R. intros s3 R.
    apply wp_ret. split; [done|]. exists X'. eexists. split; [exact R|]. by destruct F.
Qed.

Lemma wp_allocate u s :
  Closed u s -> memory u ->
  wp allocate_buffers (fun _ s' => exists X u', idle (Some (replicate 64 tx_free)) (Some X) no_logs u' s' /\
    alloc_frame u u' /\ RxI 0 0 X [] /\ Soft (fresh X) u' /\ Idx (fresh X) u') no_stop s.
Proof.
  intros [R C Rr Sk] [(a & f & b & h & l & Km) Mem]. unfold allocate_buffers. cbv zeta.
  apply wp_bind. eapply wp_kmalloc; [exact R|exact Km|]. clear R. intros s1 R.
  apply wp_bind. eapply wp_i_set_rx; [exact R|]. clear R. intros s2 R.
  apply wp_bind. eapply wp_mono; [eapply wp_SetupRxFDs; [apply quiet_true|exact R|apply fd_array_length|done..]| |done].
  clear R. intros r s3 (-> & X & u1 & R & F & Ow & Bu & D1 & D2). cbn [negb Z.eqb S3C2510_SUCCESS].
  destruct F as [F1 F2 F3 F4 F5 F6]. simpl in F1, F2, F3, F4, F5, F6.
  apply wp_bind. eapply wp_kmalloc; [exact R|exact F5|]. clear R. intros s4 R.
  apply wp_bind. eapply wp_i_set_tx; [exact R|]. clear R. intros s5 R.
  apply wp_bind, wp_bind.
  eapply wp_mono; [eapply (wp_setup_tx_loop _ _ 64 0); [apply quiet_true|exact R|apply fd_array_length|intros; lia| |done]| |done].
  { simpl. rewrite F1. exact C. }
  clear R. intros [] s6 R.
  apply wp_bind. eapply wp_mtx; [exact R|done|done|]. clear R. intros s7 R.
  apply wp_bind. eapply wp_mtx; [exact R|done|done|]. clear R. intros s8 R. apply wp_ret. cbn [negb Z.eqb S3C2510_SUCCESS].
  apply wp_bind. eapply (wp_i_write _ _ _ (fun _ => True)); [apply quiet_true|exact R|done|done|done|]. clear R. intros s9 R.
  apply wp_bind. eapply (wp_i_write _ _ _ (fun c => tx_log c = [])); [apply quiet_true|exact R|done|done|done|]. clear R. intros s10 R.
  apply wp_bind. eapply (wp_i_write _ _ _ (fun c => tx_log c = [])); [apply quiet_tx_log|exact R|done|done|by intros c ?|].
  clear R. intros s11 R.
  apply wp_bind. eapply (wp_i_write _ _ _ no_logs); [apply quiet_tx_log|exact R|done|done|by intros c ?|]. clear R. intros s12 R.
  apply wp_bind. eapply (wp_i_write _ _ _ no_logs); [apply quiet_logs|exact R|done|done|by intros c ?|]. clear R. intros s13 R.
  apply wp_ret. exists X. eexists. split; [exact R|]. split; [by split|]. split; [by eapply RxI_fresh|]. split.
  - apply Soft_fresh; simpl; [done|by rewrite F1|done|done].
  - by split.
Qed.

(** ** Close *)

Lemma off_stable A : stableA A off.
Proof. intros j r p T X c T' X' c' _ _ O M. by apply (off_move _ _ _ _ _ _ O M). Qed.

Definition tx_off (c : Chip) : Prop := has (regs c BDMATXCON) BTxEN = false.

Lemma tx_off_stable A : stableA A tx_off.
Proof.
  intros j r p T X c T' X' c' _ _ O M. unfold tx_off in *. inversion M; subst; simpl in *; try done. by apply has_clear.
Qed.

Lemma ring_writes_keep g : writes_keep (fds g off).
Proof.
  intros o v u s Q B R C. unfold init_ok in B. rewrite !andb_True in B. destruct B as [[? ?] NR].
  eapply (wp_reg_write g off off); [apply off_stable|exact R|done|by apply Is_true_true, negb_true_iff in NR| |exact C].
  intros c. by apply off_write.
Qed.

(** The running controller is stopped. *)
Lemma wp_hw_init_running g K u s Q :
  ring g K u s -> (forall im em s', ring g off (with_masks im em u) s' -> Q tt s') -> wp hw_init Q no_stop s.
Proof.
  intros R C. apply (ring_weaken _ _ (fun _ => True)) in R; [|done].
  unfold hw_init. apply wp_bind. eapply wp_both; [intros; by eapply wp_mask|exact R|]. clear R. intros im em s1 R.
  pose proof (stableA_true (g_A g)) as S0.
  assert (Kp : keeps [BMTXINTEN; BMRXINTEN; MACCON] (fun _ => True)) by done.
  apply wp_bind. unfold hw_initial_set. cbn [write_set].
  apply wp_bind. keep_step R S0 (wp_write_keeps [BMTXINTEN; BMRXINTEN; MACCON]) s2.
  apply wp_bind. keep_step R S0 (wp_write_keeps [BMTXINTEN; BMRXINTEN; MACCON]) s3.
  apply wp_bind. keep_step R S0 (wp_write_keeps [BMTXINTEN; BMRXINTEN; MACCON]) s4.
  apply wp_bind. eapply (wp_reg_write _ _ tx_off); [exact (S0 _ _ _)|exact R|done|done|done|]. clear R. intros s5 R.
  apply wp_bind. eapply (wp_reg_write _ _ off); [exact (tx_off_stable _ _ _ _)|exact R|done|done| |].
  { intros c O. by split. }
  clear R. intros s6 R. pose proof (ring_writes_keep g) as W.
  eapply wp_mono; [eapply (wp_write_set _ (skipn 5 hw_initial_set)); [exact W|vm_compute; exact I|exact R]| |done]. clear R. intros [] s7 R.
  eapply wp_mono; [eapply wp_CAM; [exact W|lia|exact R]| |done]. intros [] s8 R'. by eapply C.
Qed.

(** *** Buffers go *)

(** What removing leaves alone. *)
Record rm_frame u u' : Prop := mkRm {
  rm_net : net u' = net u;
  rm_accepted : accepted u' = accepted u;
  rm_delivered : delivered u' = delivered u;
}.

Lemma all_zero l : length l = 64%nat -> (forall k, (k < 64)%nat -> l !! k = Some 0) -> l = no_bufs.
Proof.
  intros Len Z. symmetry. apply replicate_as_elem_of. split; [done|]. intros x (k & Ek)%list_elem_of_lookup_1.
  rewrite Z in Ek by (apply lookup_lt_Some in Ek; lia). by simplify_eq.
Qed.

(** One of the two arrays is [arr], with its accesses and its view of the ownership. *)
Section Remove.
Context (F : option (list Fd) -> option (list Fd) -> H -> Prop) (get : Z -> M (Eth H) Z) (put : Z -> Z -> M (Eth H) unit)
  (arr : Eth unit -> list Z) (upd_arr : nat -> Z -> Eth unit -> Eth unit) (Inv : Eth unit -> Prop).
Context
  (get_rule : forall u s (i : nat) a Q, hold base F u s -> arr u !! i = Some a -> Q a s -> wp (get (Z.of_nat i)) Q no_stop s)
  (put_rule : forall u s (i : nat) a v Q, hold base F u s -> arr u !! i = Some a ->
     (forall s', hold base F (upd_arr i v u) s' -> Q tt s') -> wp (put (Z.of_nat i) v) Q no_stop s)
  (arr_upd : forall i v u, arr (upd_arr i v u) = <[i := v]> (arr u))
  (arr_soft : forall u m f, arr (set_freed f (set_skbs m u)) = arr u)
  (frame_upd : forall i v u, rm_frame u (upd_arr i v u))
  (live_buf : forall u (i : nat) a, Inv u -> arr u !! i = Some a -> a <> 0 -> exists b, skbs u !! a = Some b)
  (inv_step : forall u (i : nat) a f, Inv u -> arr u !! i = Some a -> a <> 0 ->
     Inv (upd_arr i 0 (set_freed f (set_skbs (delete a (skbs u)) u)))).

Lemma wp_remove_loop n : forall i u s,
  hold base F u s -> Inv u -> length (arr u) = 64%nat -> (forall k, (k < i)%nat -> arr u !! k = Some 0) -> (i + n = 64)%nat ->
  wp (remove_loop get put n (Z.of_nat i))
    (fun _ s' => exists u', hold base F u' s' /\ Inv u' /\ arr u' = no_bufs /\ rm_frame u u') no_stop s.
Proof using All.
  induction n as [|n IH]; intros i u s R Iv Len Z In.
  - apply wp_ret. exists u. split_and!; [done|done| |by split]. apply all_zero; [done|]. intros. apply Z. lia.
  - cbn [remove_loop]. destruct (lookup_lt_is_Some_2 (arr u) i) as [a Ea]; [lia|].
    apply wp_bind. eapply get_rule; [exact R|exact Ea|]. replace (Z.of_nat i + 1) with (Z.of_nat (S i)) by lia.
    apply wp_bind. destruct (Z.eqb_spec a 0) as [->|Na]; cbn [negb when].
    + apply wp_ret. apply IH; [exact R|done|done| |lia].
      intros k Bk. destruct (decide (k = i)) as [->|]; [done|]. apply Z. lia.
    + destruct (live_buf u i a Iv Ea Na) as [b Eb].
      apply wp_bind. eapply wp_kfree; [exact R|exact Na|exact Eb|]. clear R. intros s1 R.
      eapply put_rule; [exact R|rewrite arr_soft; exact Ea|]. clear R. intros s2 R.
      eapply wp_mono; [eapply (IH _ _ _ R)| |done].
      * by apply inv_step.
      * by rewrite arr_upd, arr_soft, length_insert.
      * intros k Bk. rewrite arr_upd, arr_soft. destruct (decide (k = i)) as [->|]; [apply list_lookup_insert_eq; lia|].
        rewrite list_lookup_insert_ne by done. apply Z. lia.
      * lia.
      * intros [] s3 (u' & R' & Iv' & E & [? ? ?]). exists u'. split_and!; try done.
        destruct (frame_upd i 0 (set_freed (freed u ++ [a]) (set_skbs (delete a (skbs u)) u))).
        split; simpl in *; congruence.
Qed.
End Remove.

Definition owned_ok u : Prop :=
  Owns (txFrCtl (tx u)) (rxFrCtl (rx u)) (skbs u) /\ length (txFrCtl (tx u)) = 64%nat /\ length (rxFrCtl (rx u)) = 64%nat.

Lemma wp_remove_skb F u s :
  hold base F u s -> owned_ok u ->
  wp remove_skb_in_HW (fun _ s' => exists u', hold base F u' s' /\ txFrCtl (tx u') = no_bufs /\ rxFrCtl (rx u') = no_bufs /\
    skbs u' = ∅ /\ rm_frame u u') no_stop s.
Proof.
  intros R Ow. unfold remove_skb_in_HW. apply wp_bind.
  eapply wp_mono; [eapply (wp_remove_loop F tx_ctl put_tx_ctl (fun u => txFrCtl (tx u)) (fun i v => upd_tx (put_C i v)) owned_ok) with (i := 0%nat)| |done];
    try done; try (intros; lia).
  - intros. by eapply wp_tx_ctl.
  - intros. by eapply wp_put_tx_ctl.
  - intros u' i a (O & _) E N. apply (Owns_elem _ _ _ _ O). by eapply tx_place.
  - intros u' i a f (O & L1 & L2) E N. split_and!; simpl; [|by rewrite length_insert|done].
    eapply Owns_delete; [exact O|]. by apply places_tx_take.
  - by destruct Ow as (_ & ? & _).
  - clear R. intros [] s1 (u1 & R & Ow1 & E1 & F1).
    set (Iv := fun u => owned_ok u /\ txFrCtl (tx u) = no_bufs).
    eapply wp_mono; [eapply (wp_remove_loop F rx_ctl put_rx_ctl (fun u => rxFrCtl (rx u)) (fun i v => upd_rx (put_R i v)) Iv) with (i := 0%nat)| |done];
      try done; try (intros; lia).
    + intros. by eapply wp_rx_ctl.
    + intros. by eapply wp_put_rx_ctl.
    + intros u' i a ((O & _) & _) E N. apply (Owns_elem _ _ _ _ O). by eapply rx_place.
    + intros u' i a f ((O & L1 & L2) & Ec) E N. split; [|done]. split_and!; simpl; [|done|by rewrite length_insert].
      eapply Owns_delete; [exact O|]. by apply places_rx_take.
    + by destruct Ow1 as (_ & _ & ?).
    + intros [] s2 (u2 & R2 & ((O2 & _) & E2) & E3 & F2). exists u2. split_and!; try done.
      * rewrite E2, E3 in O2. unfold Owns in O2. apply map_to_list_empty_iff, (fmap_nil_inv fst).
        symmetry. apply Permutation_nil_l, O2.
      * destruct F1, F2. split; congruence.
Qed.

(** ** Open without memory *)

Definition out_of_bounds : stop -> Eth H -> Prop := fun e _ => e = OutOfBounds.

(** The loop that frees what was allocated counts an unsigned index below zero. *)
Lemma wp_no_mem T X K n : forall i X0 u s,
  idle T X K u s -> rx_built i X0 (rxFrCtl (rx u)) (skbs u) -> Owns (txFrCtl (tx u)) (rxFrCtl (rx u)) (skbs u) ->
  (i <= 64)%nat -> (i < n)%nat ->
  wp (no_mem_rxFd n (Z.of_nat i)) (fun _ _ => False) out_of_bounds s.
Proof.
  induction n as [|n IH]; intros i X0 u s R Bu Ow Bi Fuel; [lia|]. cbn [no_mem_rxFd].
  rewrite (proj2 (Z.leb_le 0 _)) by apply u32_range. destruct i as [|i].
  - apply wp_bind. unfold rx_ctl. apply wp_bind. unfold grx, gets, wp at 1.
    assert (Lr : length (rxFrCtl (rx s)) = 64%nat) by (rewrite <- (hold_rest _ _ _ R) in Bu; apply Bu).
    unfold slot. rewrite Lr. done.
  - replace (u32 (Z.of_nat (S i) - 1)) with (Z.of_nat i) by (rewrite u32_small; unfold is_u32; lia).
    destruct Bu as (L1 & L2 & P & Zr). destruct (P i ltac:(lia)) as (d & a & Ed & _ & Ea & Na & Em).
    apply wp_bind. eapply wp_mono; [eapply (wp_rx_ctl _ _ _ i a (fun x s' => x = a /\ s' = s)); [exact R|exact Ea|done]| |done].
    intros _ _ [-> ->].
    apply wp_bind. eapply wp_mono; [eapply (wp_kfree _ _ _ a _ (fun _ s' => idle T X K (set_freed (freed u ++ [a]) (set_skbs (delete a (skbs u)) u)) s')); [exact R|exact Na|exact Em|done]| |done].
    clear R. intros [] s1 R.
    apply wp_bind. eapply wp_mono; [eapply (wp_put_rx_ctl _ _ _ i a 0 (fun _ s' => idle T X K (upd_rx (put_R i 0) (set_freed (freed u ++ [a]) (set_skbs (delete a (skbs u)) u))) s')); [exact R|exact Ea|done]| |done].
    clear R. intros [] s2 R.
    pose proof (places_rx_take (txFrCtl (tx u)) _ _ _ Ea Na) as Pm.
    eapply (IH i X0); [exact R| |by eapply Owns_delete|lia|lia].
    split_and!; simpl; [done|by rewrite length_insert| |].
    + intros k Bk. destruct (P k ltac:(lia)) as (d' & a' & Ed' & Ps & Ea' & Na' & Em'). exists d', a'.
      rewrite list_lookup_insert_ne by lia. split_and!; try done. rewrite <- Em'.
      eapply other_place; [exact Ow|exact Pm|].
      apply (rx_place _ _ k); [rewrite list_lookup_insert_ne by lia; done|exact Na'].
    + intros k Bk. destruct (decide (k = i)) as [->|]; [apply list_lookup_insert_eq; lia|].
      rewrite list_lookup_insert_ne by done. apply Zr. lia.
Qed.

Lemma wp_open_no_memory u s a f l k :
  Closed u s -> kmallocs u = Some (a, f) :: l -> (k < 64)%nat -> (forall live, alloc_skb (clock u + k) live = None) ->
  wp s3c2510_open (fun _ _ => False) out_of_bounds s.
Proof.
  intros [R C Rr Sk] Km Bk No. unfold s3c2510_open, allocate_buffers. cbv zeta. apply wp_bind.
  apply wp_bind. eapply wp_mono; [eapply (wp_kmalloc _ _ _ _ _ (fun x s' => x = Some (a, f) /\ idle None None (fun _ => True) (set_kmallocs l u) s')); [exact R|exact Km|done]| |done].
  clear R. intros _ s1 [-> R].
  apply wp_bind. eapply wp_mono; [eapply (wp_i_set_rx None _ (Some (fd_array RX_NUM_FD f)) (fun _ => True) _ _ (fun _ s' => idle None (Some (fd_array RX_NUM_FD f)) (fun _ => True) (set_kmallocs l u) s')); [exact R|done]| |done].
  clear R. intros [] s2 R. apply wp_bind. unfold SetupRxFDs. apply wp_bind.
  eapply wp_mono; [eapply (wp_setup_rx_loop None (fun _ => True) 64 0 _ (set_kmallocs l u)); [apply quiet_true|exact R| | |done]| |done].
  - simpl. rewrite Rr. split_and!; [apply fd_array_length|done|intros; lia|]. intros j Bj. apply no_bufs_lookup; lia.
  - simpl. rewrite C, Rr, Sk. apply Owns_none.
  - clear R. intros r s3 (X' & u' & i' & R & F & Ow & Bu & Al & Bi & Cs). simpl in Al.
    destruct Cs as [[-> ->]|(-> & Lt & _)].
    + destruct (Al k ltac:(lia)) as [live [x Ex]]. by rewrite No in Ex.
    + apply wp_bind. eapply wp_mono; [eapply wp_no_mem; [exact R|exact Bu|exact Ow|lia|lia]| |done]. done.
Qed.
End Open.
