(* ===== verification/EthSpec.v ===== *)
(** * The running Ethernet interface

    Every sequence of calls of the driver's handlers, on every controller that obeys the laws of
    [EthChip]: frames keep their order, buffers have one owner, the calls
    return, reception does not stall, and transmission can. *)

From S2P Require Import Prelude Mii Eth EthDev EthChip EthRing EthOps EthRun EthFilter EthOpen.

Section Spec.
Context {H : Type} `{EthHw H} `{SkbAlloc} {base : Z} `{L : !EthLaws H base}.
Implicit Types (s : Eth H) (u : Eth unit) (g : Ghost).

(** ** Histories *)

(** The calls of the network layer, of the interrupt controller and of the timer. *)
Inductive call : Type :=
| Send (skb data len : Z)
| TxIrq
| RxIrq
| Poll (budget : Z)
| SetFilter (flags : Z) (mc_list : list bytes)
| SetMac (sa_data : bytes)
| MiiTimer.

Definition perform (c : call) : M (Eth H) unit :=
  match c with
  | Send skb data len => s3c2510_send_packet skb data len ;; mret tt
  | TxIrq => s3c2510_Tx
  | RxIrq => s3c2510_Rx
  | Poll budget => s3c2510_poll budget ;; mret tt
  | SetFilter flags l => set_multicast_list flags l (Z.of_nat (length l))
  | SetMac a => SetUpMAC a ;; mret tt
  | MiiTimer => mii_watchdog
  end.

(** A frame comes in a buffer that the driver does not have; only a scheduled
    interface is polled; the timer is for a transceiver. *)
Definition allowed s (c : call) : Prop :=
  match c with
  | Send skb _ len => skb <> 0 /\ skbs s !! skb = None /\ 0 <= len < 65536
  | Poll _ => rx_sched (net s) = true
  | MiiTimer => mii_on s = true
  | _ => True
  end.

(** Calls of the kind [ok]. *)
Inductive history (ok : call -> Prop) : Eth H -> Eth H -> Prop :=
| history_nil s : history ok s s
| history_step s c s1 s2 : ok c -> allowed s c -> perform c s = Ret tt s1 -> history ok s1 s2 -> history ok s s2.
Definition any_call (c : call) : Prop := True.

(** A list of calls run, each after a test that it is allowed. *)
Definition allowedb s (c : call) : bool :=
  match c with
  | Send skb _ len => negb (skb =? 0) && (match skbs s !! skb with None => true | Some _ => false end) && (0 <=? len) && (len <? 65536)
  | Poll _ => rx_sched (net s)
  | MiiTimer => mii_on s
  | _ => true
  end.
Fixpoint run_calls (l : list call) s : option (Eth H) :=
  match l with
  | [] => Some s
  | c :: l' => if allowedb s c then match perform c s with Ret _ s' => run_calls l' s' | Stop _ _ => None end else None
  end.

Lemma run_calls_history ok l : forall s s', Forall ok l -> run_calls l s = Some s' -> history ok s s'.
Proof.
  induction l as [|c l IH]; intros s s' F E; simpl in E; [injection E as ->; constructor|].
  apply Forall_cons in F as [Fc F]. destruct (allowedb s c) eqn:Al; [|done].
  destruct (perform c s) as [[] s1|] eqn:P; [|done]. econstructor; [done| |exact P|by apply IH].
  destruct c; simpl in *; try done. rewrite !andb_true_iff, negb_true_iff, Z.eqb_neq, Z.leb_le, Z.ltb_lt in Al.
  destruct Al as [[[? Al] ?] ?]. split_and!; try done. by destruct (skbs s !! skb).
Qed.

(** ** The invariant *)

(** What the driver relies on between two calls: either it is scheduled, or a waiting frame is
    announced and will interrupt. *)
Definition watched (p : nat) (u : Eth unit) (c : Chip) : Prop := rx_sched (net u) = false -> flagged p c /\ enabled c.

(** [A0] and [D0]: what was accepted and delivered before the interface was started. *)
Record Live (A0 : list (Z * Z)) (D0 : list Z) g (l : list Z) u s : Prop := mkLive {
  live_ring : ring g (fun c => l `prefix_of` rx_log c /\ watched (g_p g) u c) u s;
  live_soft : Soft g u;
  live_idx : Idx g u;
  live_len : length l = g_p g;
  live_accepted : accepted u = A0 ++ g_A g;
  live_delivered : snd <$> delivered u = D0 ++ frames l;
  live_started : started (net u) = true;
}.

Lemma watched_stable A p u : stableA A (watched p u).
Proof.
  intros j r q T X c T' X' c' IT IX W M E. destruct (W E) as [F B].
  split; [by eapply (flagged_stable A p j r q)|by eapply (enabled_stable A j r q)].
Qed.

Lemma flagged_ack p v c : has v BRxDone = false -> flagged p c -> flagged p (chip_write BMRXSTAT v c).
Proof.
  unfold has. intros E%negb_false_iff%Z.eqb_eq F Lt. specialize (F Lt). 
  change (regs (chip_write BMRXSTAT v c) BMRXSTAT) with (Z.land (regs c BMRXSTAT) (Z.lnot v)).
  unfold has in *. by rewrite land_clear_other.
Qed.

Lemma watched_tx p u : keeps tx_regs (watched p u).
Proof.
  intros off v c I W E. destruct (W E). split.
  - eapply flagged_keeps; [|done]. revert I. unfold tx_regs. rewrite !elem_of_cons. tauto.
  - eapply enabled_keeps; [|done]. revert I. unfold tx_regs. rewrite !elem_of_cons. tauto.
Qed.

(** *** Each call keeps it *)

(** Reaping and sending change neither what was received nor the schedule. *)
Lemma Live_tx A0 D0 g l u g' u' s' :
  Soft g' u' -> Idx g' u' -> g_p g' = g_p g -> rx_sched (net u') = rx_sched (net u) -> started (net u') = started (net u) ->
  accepted u' = A0 ++ g_A g' -> delivered u' = delivered u ->
  length l = g_p g -> snd <$> delivered u = D0 ++ frames l -> started (net u) = true ->
  ring g' (fun c => l `prefix_of` rx_log c /\ watched (g_p g) u c) u' s' -> Live A0 D0 g' l u' s'.
Proof.
  intros So Ix Ep Es Et Ea Ed Ll Dl St R. split; try done; try congruence.
  eapply ring_weaken; [exact R|]. unfold watched. by rewrite Ep, Es.
Qed.

Lemma live_stable A l p u : stableA A (fun c => l `prefix_of` rx_log c /\ watched p u c).
Proof. apply stableA_and; [apply received_stable|apply watched_stable]. Qed.

Lemma live_keeps_tx l p u : keeps tx_regs (fun c => l `prefix_of` rx_log c /\ watched p u c).
Proof. apply keeps_and; [eapply keeps_sub; [apply received_keeps|sub_regs]|apply watched_tx]. Qed.

Lemma live_send A0 D0 g l u s skb data len :
  Live A0 D0 g l u s -> allowed s (Send skb data len) ->
  wp (perform (Send skb data len)) (fun _ s' => exists g' u', Live A0 D0 g' l u' s') no_stop s.
Proof.
  intros [R So Ix Ll Ac De St] (N & Fr & B).
  assert (skbs u !! skb = None) as Fr' by by rewrite <- (hold_rest _ _ _ R).
  apply wp_bind. eapply wp_mono; [eapply wp_send; [apply live_stable|apply live_stable|apply live_keeps_tx|exact R|done..]| |done].
  intros r s' P. apply wp_ret. destruct (decide _).
  - destruct P as (TP & _ & R' & So' & Ix'). do 2 eexists.
    eapply Live_tx; [exact So'|exact Ix'|..|exact R']; try done. simpl. by rewrite Ac, <- app_assoc.
  - destruct P as [_ R']. do 2 eexists. eapply Live_tx; [..|exact R']; try done; [by destruct So|by destruct Ix].
Qed.

Lemma live_Tx A0 D0 g l u s :
  Live A0 D0 g l u s -> wp (perform TxIrq) (fun _ s' => exists g' u', Live A0 D0 g' l u' s') no_stop s.
Proof.
  intros [R So Ix Ll Ac De St].
  eapply wp_mono; [eapply wp_Tx; [apply live_stable|apply live_keeps_tx|exact R|done..]| |done].
  intros _ s' (g' & u' & R' & So' & Ix' & P). exists g', u'.
  destruct P as [(st & -> & ->)|(j' & TP & C & m & st & f & _ & _ & -> & _ & ->)];
    (eapply Live_tx; [exact So'|exact Ix'|..|exact R']; done).
Qed.

Lemma live_Rx A0 D0 g l u s :
  Live A0 D0 g l u s -> wp (perform RxIrq) (fun _ s' => exists g' u', Live A0 D0 g' l u' s') no_stop s.
Proof.
  intros [R So Ix Ll Ac De St].
  eapply wp_mono; [eapply (wp_Rx g _ (fun c => l `prefix_of` rx_log c)); [apply live_stable|apply received_stable|by intros c [? ?]| | |exact R]| |done].
  - eapply keeps_sub; [apply received_keeps|sub_regs].
  - intros v c Hv [P W]. split; [apply received_keeps; [in_regs|done]|]. intros E. destruct (W E) as [F B].
    split; [by apply flagged_ack|by apply enabled_keeps; [apply list_elem_of_here|]].
  - intros _ s' (st & [R'|(q & R')]).
    + do 2 eexists. eapply Live_tx; [..|exact R']; try done; [by destruct So|by destruct Ix].
    + unfold scheduled, upd_net in R'. simpl in R'. rewrite St in R'.
      exists g, (set_net (set_quota q (set_rx_sched true (net u))) (set_stats st u)).
      split; [|by destruct So|by destruct Ix|done..].
      eapply ring_weaken; [exact R'|]. intros ?. split; [done|]. by intros E.
Qed.

Lemma live_Poll A0 D0 g l u s budget :
  Live A0 D0 g l u s -> allowed s (Poll budget) ->
  wp (s3c2510_poll budget) (fun x s' => exists W g' u', Live A0 D0 g' (l ++ W) u' s' /\
    x = (if rx_sched (net u') then 1 else 0, budget - Z.of_nat (length (frames W))) /\
    (Z.of_nat (length (frames W)) < poll_limit budget u -> rx_log (chip s) `prefix_of` l ++ W) /\
    (length (tx_log (chip s)) <= g_j g')%nat) no_stop s.
Proof.
  intros [R So Ix Ll Ac De St] Sc. simpl in Sc.
  assert (rx_sched (net u) = true) as Sc' by by rewrite <- (hold_rest _ _ _ R).
  set (K := fun c => rx_log (chip s) `prefix_of` rx_log c /\ (length (tx_log (chip s)) <= length (tx_log c))%nat).
  eapply wp_mono; [eapply (wp_poll budget g K l); [| |eapply ring_weaken; [exact R|by intros [? ?]]|done..]| |done].
  - apply stableA_and; [apply received_stable|].
    intros j r p T X c T' X' c' _ _ B M. inversion M; subst; simpl in *; rewrite ?length_app; lia.
  - intros off v c I [B1 B2]. unfold K. destruct (chip_write_logs off v c) as [-> ->]; [|done].
    revert I. unfold rx_regs. rewrite !elem_of_cons, elem_of_nil. intros I.
    by repeat (destruct I as [->|I]; [reflexivity|]).
  - intros x s' (W & g' & u' & -> & R' & So' & Ix' & EA & Ep & En & Ea & Ed & Fj & Fl). cbv zeta in *.
    set (b := negb _) in *. exists W, g', u'. split; [split|split_and!].
    + eapply ring_weaken; [exact R'|]. intros (? & Fd & _). split; [done|]. unfold watched. rewrite Ep, En.
      intros E. apply Fd. destruct b; [done|]. simpl in E. congruence.
    + done.
    + done.
    + done.
    + by rewrite Ea, Ac, EA.
    + by rewrite Ed, De, <- app_assoc; unfold frames; rewrite filter_app, fmap_app.
    + rewrite En. by destruct b.
    + rewrite En. destruct b; simpl; [done|by rewrite Sc'].
    + intros Lt. destruct (ring_chip _ _ _ _ R') as (P1 & _ & P2 & _).
      destruct (prefix_weak_total _ _ _ P2 P1) as [|P]; [done|]. apply prefix_length_eq in P; [by rewrite P|].
      apply (Fl Lt). intros c [? _]. by apply prefix_length.
    + apply Fj. by intros c [? ?].
Qed.

Lemma live_keeps_mac l p u : keeps_mac (fun c => l `prefix_of` rx_log c /\ watched p u c).
Proof.
  intros o v c B [P W].
  assert (E : rx_log (chip_write o v c) = rx_log c /\ regs (chip_write o v c) BMRXSTAT = regs c BMRXSTAT /\
    regs (chip_write o v c) BMRXINTEN = regs c BMRXINTEN).
  { unfold chip_write, BMTXSTAT, BMRXSTAT, BTXBDCNT, BRXBDCNT, BMRXINTEN. rewrite !(proj2 (Z.eqb_neq o _)) by lia. simpl. unfold upd.
    by rewrite !(proj2 (Z.eqb_neq _ o)) by lia. }
  destruct E as (E1 & E2 & E3). unfold watched, flagged, enabled in *. by rewrite E1, E2, E3.
Qed.

(** The filter and the transceiver do not touch the rings. *)
Lemma live_SetFilter A0 D0 g l u s flags mc :
  Live A0 D0 g l u s -> wp (perform (SetFilter flags mc)) (fun _ s' => exists g' u', Live A0 D0 g' l u' s') no_stop s.
Proof.
  intros [R So Ix Ll Ac De St].
  eapply wp_mono; [eapply (wp_any_filter g _ (live_stable _ _ _ _) (live_keeps_mac l (g_p g) u) (regs (chip s)))| |done].
  - eapply ring_weaken; [exact R|]. intros [? ?]. by split.
  - intros [] s' (f' & a & R'). exists g, (upd_net (set_dev_addr a) u).
    eapply Live_tx; [..|eapply ring_weaken; [exact R'|by intros [_ ?]]]; try done; [by destruct So|by destruct Ix].
Qed.

Lemma live_SetMac A0 D0 g l u s a :
  Live A0 D0 g l u s -> wp (perform (SetMac a)) (fun _ s' => exists g' u', Live A0 D0 g' l u' s') no_stop s.
Proof.
  intros [R So Ix Ll Ac De St]. apply wp_bind, wp_bind.
  eapply (wp_SetUpARC g _ (live_stable _ _ _ _) (live_keeps_mac l (g_p g) u) (regs (chip s))).
  - eapply ring_weaken; [exact R|]. intros [? ?]. by split.
  - intros r s' R'. apply wp_ret, wp_ret. exists g, (upd_net (set_dev_addr (take 6 a)) u).
    eapply Live_tx; [..|eapply ring_weaken; [exact R'|by intros [_ ?]]]; try done; [by destruct So|by destruct Ix].
Qed.

Lemma live_MiiTimer A0 D0 g l u s :
  Live A0 D0 g l u s -> allowed s MiiTimer -> wp (perform MiiTimer) (fun _ s' => exists g' u', Live A0 D0 g' l u' s') no_stop s.
Proof.
  intros [R So Ix Ll Ac De St] Al. assert (mii_on u = true) as On by by rewrite <- (hold_rest _ _ _ R).
  eapply wp_mono; [eapply (wp_check_duplex g _ (live_stable _ _ _ _ _ _ _)); [|exact On|exact R]| |done].
  - intros o v c ->%list_elem_of_singleton. by apply live_keeps_mac.
  - intros [] s' (m & b & R'). exists g, (phy_upd m b true u).
    eapply Live_tx; [..|exact R']; try done; [by destruct So|by destruct Ix].
Qed.

(** Every call that is allowed returns and keeps the invariant. *)
Lemma live_call A0 D0 g l u s c :
  Live A0 D0 g l u s -> allowed s c ->
  exists s' g' W u', perform c s = Ret tt s' /\ Live A0 D0 g' (l ++ W) u' s'.
Proof.
  intros Lv Al.
  assert (P : wp (perform c) (fun _ s' => exists g' W u', Live A0 D0 g' (l ++ W) u' s') no_stop s).
  { destruct c as [skb data len| | |budget|flags mc|a|].
    - eapply wp_mono; [by eapply live_send| |done]. intros _ s' (g' & u' & ?). exists g', [], u'. by rewrite app_nil_r.
    - eapply wp_mono; [by eapply live_Tx| |done]. intros _ s' (g' & u' & ?). exists g', [], u'. by rewrite app_nil_r.
    - eapply wp_mono; [by eapply live_Rx| |done]. intros _ s' (g' & u' & ?). exists g', [], u'. by rewrite app_nil_r.
    - apply wp_bind. eapply wp_mono; [by eapply live_Poll| |done]. intros x s' (W & g' & u' & ? & _). apply wp_ret. eauto.
    - eapply wp_mono; [by eapply live_SetFilter| |done]. intros _ s' (g' & u' & ?). exists g', [], u'. by rewrite app_nil_r.
    - eapply wp_mono; [by eapply live_SetMac| |done]. intros _ s' (g' & u' & ?). exists g', [], u'. by rewrite app_nil_r.
    - eapply wp_mono; [by eapply live_MiiTimer| |done]. intros _ s' (g' & u' & ?). exists g', [], u'. by rewrite app_nil_r. }
  unfold wp in P. destruct (perform c s) as [[] s'|e s']; [|done].
  destruct P as (g' & W & u' & P). by exists s', g', W, u'.
Qed.

Lemma live_history ok A0 D0 g l u s s' :
  Live A0 D0 g l u s -> history ok s s' -> exists g' W u', Live A0 D0 g' (l ++ W) u' s'.
Proof.
  intros Lv Hs. revert g l u Lv. induction Hs as [s|s c s1 s2 _ Al E Hs IH]; intros g l u Lv.
  - exists g, [], u. by rewrite app_nil_r.
  - destruct (live_call _ _ _ _ _ _ _ Lv Al) as (s1' & g1 & W1 & u1 & E1 & Lv1).
    rewrite E in E1. injection E1 as <-.
    destruct (IH _ _ _ Lv1) as (g2 & W2 & u2 & Lv2). rewrite <- app_assoc in Lv2. eauto.
Qed.
End Spec.
