(* ===== verification/EthLife.v ===== *)
(** * Opening and closing a running Ethernet interface

    [s3c2510_open] establishes the invariant of [EthSpec], [s3c2510_close] ends it. *)

From S2P Require Import Prelude Mii Eth EthDev EthChip EthRing EthOps EthRun EthFilter EthOpen EthSpec.

Section Life.
Context {H : Type} `{EthHw H} `{SkbAlloc} {base : Z} `{L : !EthLaws H base}.
Implicit Types (s : Eth H) (u : Eth unit) (K : Chip -> Prop).

(** A start leaves a running interface. *)
Lemma wp_open u s :
  Closed u s -> memory u -> started (net u) = true ->
  wp s3c2510_open (fun r s' => r = S3C2510_SUCCESS /\ exists X u',
    Live (accepted u) (snd <$> delivered u) (fresh X) [] u' s' /\ xoff (net u') = false) no_stop s.
Proof.
  intros Cl Mem St. unfold s3c2510_open.
  apply wp_bind. eapply wp_mono; [by eapply wp_allocate| |done].
  intros _ s1 (X & u1 & R & [F1 F2 F3 F4] & IX & So & Ix).
  apply wp_bind. eapply wp_hw_start; [exact R|exact IX|]. clear R. intros im em s2 R.
  apply wp_bind. eapply wp_both; [intros; by eapply wp_unmask|exact R|]. clear R. intros im' em' s3 R.
  change (with_masks im' em' (with_masks im em u1)) with (with_masks im' em' u1) in R.
  set (K := fun c => flagged 0 c /\ enabled c) in *.
  assert (SK : stableA [] K) by (apply stableA_and; [apply flagged_stable|apply enabled_stable]).
  assert (Kp : keeps [MACCON] K).
  { intros o v c ->%list_elem_of_singleton [? ?]. by split. }
  assert (End : forall m b t s, ring (fresh X) K (phy_upd m b t (with_masks im' em' u1)) s ->
    wp (netif_start_queue ;; mret S3C2510_SUCCESS) (fun r s' => r = S3C2510_SUCCESS /\ exists X u',
    Live (accepted u) (snd <$> delivered u) (fresh X) [] u' s' /\ xoff (net u') = false) no_stop s).
  { intros m b t s' R'. apply wp_bind. eapply wp_mnet; [exact R'|done|]. clear R'. intros s4 R'. apply wp_ret. split; [done|].
    exists X, (upd_net (set_xoff false) (phy_upd m b t (with_masks im' em' u1))).
    split; [split|]; [|by destruct So|by destruct Ix|done|..]; simpl; try done.
    - eapply ring_weaken; [exact R'|]. intros [? ?]. split; [apply prefix_nil|]. by split.
    - by rewrite F2, app_nil_r.
    - by rewrite F3, app_nil_r.
    - by rewrite F1. }
  apply wp_bind, wp_bind.
  eapply (wp_gets _ _ _ mii_on (mii_on u1)); [exact R|intros s' E; exact (f_equal mii_on E)|].
  destruct (mii_on u1) eqn:On; cbn [when].
  - eapply wp_mono; [eapply (wp_check_duplex (fresh X) K (SK _ _ _) Kp (with_masks im' em' u1)); [exact On|exact R]| |done].
    clear R. intros [] s4 (m & b & R). by eapply End.
  - apply wp_ret. eapply End. rewrite (phy_upd_id (with_masks im' em' u1)) in R. exact R.
Qed.

(** After a close the driver has no buffer, and the interface can be opened again. *)
Lemma wp_close A0 D0 g l u s :
  Live A0 D0 g l u s -> wp s3c2510_close (fun r s' => r = 0 /\ exists u', Closed u' s' /\
    accepted u' = accepted u /\ delivered u' = delivered u) no_stop s.
Proof.
  intros Lv. pose proof (live_ring _ _ _ _ _ _ Lv) as R. pose proof (live_soft _ _ _ _ _ _ Lv) as So.
  unfold s3c2510_close.
  apply wp_bind. eapply wp_mnet; [exact R|done|]. clear R. intros s1 R.
  apply wp_bind. eapply (wp_gets _ _ _ mii_on (mii_on u)); [exact R|intros s' E; exact (f_equal mii_on E)|].
  assert (Go : forall u1 s1, ring g off u1 s1 -> Soft g u1 -> accepted u1 = accepted u -> delivered u1 = delivered u ->
    wp (release_buffers ;; mret 0) (fun r s' => r = 0 /\ exists u', Closed u' s' /\
      accepted u' = accepted u /\ delivered u' = delivered u) no_stop s1).
  { intros u1 s2 [[(T & X & ET & EX & _) O] Re Ba] [_ [L1 _] [L2 _] Ow] EA ED.
    assert (R' : idle (Some T) (Some X) (fun _ => True) u1 s2) by (split; [split_and!|..]; done).
    apply wp_bind, wp_bind. eapply wp_mono; [eapply wp_remove_skb; [exact R'|split_and!; done]| |done].
    clear R'. intros [] s3 (u2 & R2 & E1 & E2 & E3 & [? ? ?]).
    apply wp_bind. eapply wp_i_set_tx; [exact R2|]. clear R2. intros s4 R2.
    apply wp_bind. eapply wp_i_set_rx; [exact R2|]. clear R2. intros s5 R2. apply wp_ret, wp_ret.
    split; [done|]. exists u2. split_and!; [by split|congruence|congruence]. }
  apply wp_bind. destruct (mii_on u); cbn [when].
  - eapply wp_mnet; [exact R|done|]. clear R. intros s2 R.
    apply wp_bind. eapply wp_hw_init_running; [exact R|]. clear R. intros im em s3 R.
    eapply Go; [exact R|by destruct So|done|done].
  - apply wp_ret. apply wp_bind. eapply wp_hw_init_running; [exact R|]. clear R. intros im em s3 R.
    eapply Go; [exact R|by destruct So|done|done].
Qed.
End Life.
