(* ===== verification/EthMain.v ===== *)
(** * The Ethernet driver: main theorems

    From an interface that was opened, through any sequence of calls, with any behaviour of the
    controller that the laws of [EthChip] allow. *)

From S2P Require Import Prelude Mii Eth EthDev EthChip EthRing EthOps EthRun EthFilter EthOpen EthSpec EthLife.

Section Main.
Context {H : Type} `{EthHw H} `{SkbAlloc} {base : Z} `{L : !EthLaws H base}.
Implicit Types (s : Eth H).

(** The interface is down, there is memory, and the kernel starts it. *)
Definition can_open s : Prop := Closed (rest s) s /\ memory (rest s) /\ started (net s) = true.

(** [s] is reached by calls from an interface that was opened in [s0]. *)
Definition reached s0 s : Prop := can_open s0 /\ exists s1, s3c2510_open s0 = Ret S3C2510_SUCCESS s1 /\ history any_call s1 s.

Lemma reached_live s0 s :
  reached s0 s -> exists g l, Live (accepted s0) (snd <$> delivered s0) g l (rest s) s.
Proof.
  intros [(Cl & Mem & St) (s1 & E & Hs)]. pose proof (wp_open _ _ Cl Mem St) as W. unfold wp in W. rewrite E in W.
  destruct W as (_ & X & u & Lv & _). destruct (live_history _ _ _ _ _ _ _ _ Lv Hs) as (g & l & u' & Lv').
  exists g, l. by rewrite (hold_rest _ _ _ (live_ring _ _ _ _ _ _ Lv')).
Qed.

(** ** Start and stop *)

(** Opening an interface succeeds, and it accepts frames. *)
Theorem eth_open_succeeds s :
  can_open s -> exists s', s3c2510_open s = Ret S3C2510_SUCCESS s' /\ reached s s' /\ xoff (net s') = false.
Proof.
  intros C. pose proof C as (Cl & Mem & St). pose proof (wp_open _ _ Cl Mem St) as W. unfold wp in W.
  destruct (s3c2510_open s) as [r s'|] eqn:E; [|done]. destruct W as (-> & X & u & Lv & Xo). exists s'.
  split; [done|]. split; [split; [done|]; exists s'; split; [done|constructor]|].
  by rewrite <- (hold_rest _ _ _ (live_ring _ _ _ _ _ _ Lv)) in Xo.
Qed.

(** C26: Closing a running interface returns, the driver has no buffer left, and the interface is down
    as it was before it was opened. *)
Theorem eth_close_frees_all s0 s :
  reached s0 s -> exists s', s3c2510_close s = Ret 0 s' /\ Closed (rest s') s' /\ skbs s' = ∅.
Proof.
  intros (g & l & Lv)%reached_live. pose proof (wp_close _ _ _ _ _ _ Lv) as W. unfold wp in W.
  destruct (s3c2510_close s) as [r s'|]; [|done]. destruct W as (-> & u & Cl & _).
  pose proof (hold_rest _ _ _ (cl_idle _ _ Cl)) as E. exists s'. rewrite E. split_and!; [done|done|].
  rewrite <- (cl_skbs _ _ Cl), <- E. done.
Qed.

(** When memory runs out while the receive ring is built, the loop that frees the buffers again does not
    end at the first one: its index is unsigned and wraps below zero. *)
Theorem eth_open_without_memory s a f l k :
  Closed (rest s) s -> kmallocs s = Some (a, f) :: l -> (k < 64)%nat -> (forall live, alloc_skb (clock s + k) live = None) ->
  stopped (s3c2510_open s) = Some OutOfBounds.
Proof.
  intros Cl Km Bk No. pose proof (wp_open_no_memory _ _ a f l k Cl Km Bk No) as W. unfold wp in W.
  destruct (s3c2510_open s) as [|e s']; [done|]. simpl. by rewrite W.
Qed.

(** ** Frames *)

(** C4: The frames the controller has sent are the first of those that were accepted, in
    order, with address and length; the lengths delivered to the network are those of the
    good frames among the first received, in order. *)
Theorem eth_frames_in_order s0 s :
  reached s0 s -> exists A W,
    accepted s = accepted s0 ++ A /\ tx_log (chip s) `prefix_of` A /\
    snd <$> delivered s = (snd <$> delivered s0) ++ frames W /\ W `prefix_of` rx_log (chip s).
Proof.
  intros (g & l & [R So Ix Ll Ac De St])%reached_live.
  destruct (ring_fds _ _ _ _ R) as (T & X & _ & _ & [Pr _ _ _] & _). destruct (ring_chip _ _ _ _ R) as [Pl _].
  by exists (g_A g), l.
Qed.

(** ** Safety *)

(** C5: Every buffer of the driver is in exactly one place of its arrays; a descriptor that the
    controller owns points to the data of the buffer in its place, with its length when
    it is to be sent. *)
Theorem eth_buffers_safe s0 s :
  reached s0 s ->
  Owns (txFrCtl (tx s)) (rxFrCtl (rx s)) (skbs s) /\
  (forall T i d, txFd (tx s) = Some T -> T !! i = Some d -> fd_owned (FDStatLen d) ->
     exists a b, txFrCtl (tx s) !! i = Some a /\ skbs s !! a = Some b /\
       FDDataPtr d = u32 (skb_data b - 2) /\ fd_len (FDStatLen d) = skb_len b) /\
  (forall X i d, rxFd (rx s) = Some X -> X !! i = Some d -> fd_owned (FDStatLen d) ->
     exists a b, rxFrCtl (rx s) !! i = Some a /\ skbs s !! a = Some b /\ FDDataPtr d = skb_data b).
Proof.
  intros (g & l & [R So Ix Ll Ac De St])%reached_live. split; [apply So|].
  destruct (ring_fds _ _ _ _ R) as (T & X & ET & EX & [Pr Re Ro [LT WT]] & [Po Pp Rr [LX WX]] & PT & PX).
  split; intros F i d EF Ei O; simplify_eq.
  - destruct (at_ring_onto (g_j g) i) as (k & Bk & <-); [rewrite <- LT; by eapply lookup_lt_Some|].
    destruct (WT k Bk) as (d' & Ed & S1 & S2 & S3). assert (d' = d) as -> by congruence.
    destruct (decide (k < length (tx_log (chip s)))%nat); [destruct S1 as [_ S1]; [done|]; by rewrite S1 in O|].
    destruct (decide (k < length (g_A g))%nat); [|destruct S3 as [S3 _]; [lia|]; by rewrite S3 in O].
    destruct S2 as (_ & _ & Ak); [lia|].
    destruct (Win_get _ _ _ k (soft_tx _ _ So) Bk) as (a & Ea & (Na & b & Eb & Ak') & _); [done|].
    exists a, b. split; [exact Ea|]. split; [exact Eb|]. rewrite Ak in Ak'. by injection Ak'.
  - destruct (at_ring_onto (g_r g) i) as (k & Bk & <-); [rewrite <- LX; by eapply lookup_lt_Some|].
    destruct (WX k Bk) as (d' & Ed & S1 & S2 & S3). assert (d' = d) as -> by congruence.
    destruct (decide (k < g_p g)%nat); [rewrite S1 in O by done; done|].
    destruct (Win_get _ _ _ k (soft_rx _ _ So) Bk) as (a & Ea & Na & Sa). destruct (Sa (Na ltac:(lia))) as (q & Eq & Em).
    exists a, (mkSkb q 0). split; [exact Ea|]. split; [exact Em|]. rewrite <- PX, list_lookup_fmap, Ed in Eq. by injection Eq.
Qed.

(** C8: On an interface that was opened while there was memory for its rings and buffers, after any history of the calls
    of [call], the indices are inside the rings, the rings exist and all arrays have their size. *)
Theorem eth_state_well_formed s0 s :
  reached s0 s ->
  0 <= tx_ready (tx s) < TX_NUM_FD /\ 0 <= tx_done (tx s) < TX_NUM_FD /\
  0 <= rx_done (rx s) < RX_NUM_FD /\ 0 <= rx_skb_refill (rx s) < RX_NUM_FD /\
  length (txFrCtl (tx s)) = Z.to_nat TX_NUM_FD /\ length (rxFrCtl (rx s)) = Z.to_nat RX_NUM_FD /\
  exists T X, txFd (tx s) = Some T /\ rxFd (rx s) = Some X /\
    length T = Z.to_nat TX_NUM_FD /\ length X = Z.to_nat RX_NUM_FD.
Proof.
  intros (g & l & [R So Ix Ll Ac De St])%reached_live. destruct So as [E1 [L1 _] [L2 _] _], Ix as [E2 E3 E4].
  destruct (ring_fds _ _ _ _ R) as (T & X & ET & EX & [_ _ _ [LT _]] & [_ _ _ [LX _]] & _).
  simpl in E1, E2, E3, E4, L1, L2. rewrite E1, E2, E3, E4. unfold TX_NUM_FD, RX_NUM_FD.
  pose proof (at_ring_lt (length (g_A g))). pose proof (at_ring_lt (g_j g)). pose proof (at_ring_lt (g_p g)). pose proof (at_ring_lt (g_r g)).
  split_and!; try lia; try done. by exists T, X.
Qed.

Lemma reached_step s0 s c s' : reached s0 s -> allowed s c -> perform c s = Ret tt s' -> reached s0 s'.
Proof.
  intros (C & s1 & E1 & Hs) Al E. split; [done|]. exists s1. split; [done|]. clear E1 C.
  induction Hs as [s|s c1 s1 s2 _ Al1 E1 Hs IH]; [by econstructor; [..|constructor]|]. econstructor; [done..|]. by apply IH.
Qed.

(** C6: On an interface that was opened while there was memory for its rings and buffers, each of the calls [Send],
    [TxIrq], [RxIrq], [Poll], [SetFilter], [SetMac] and [MiiTimer], made as the kernel makes it (a frame in a buffer
    the driver does not have, of less than 64 KB; a poll of a scheduled interface; the timer with a transceiver), after
    any history of such calls, returns: no loop runs out, no access leaves an array or goes through a null pointer, no
    freed buffer is used. *)
Theorem eth_calls_return s0 s c :
  reached s0 s -> allowed s c -> exists s', perform c s = Ret tt s' /\ reached s0 s'.
Proof.
  intros Re Al. pose proof (reached_live _ _ Re) as (g & l & Lv).
  destruct (live_call _ _ _ _ _ _ _ Lv Al) as (s' & _ & _ & _ & E & _). exists s'. split; [done|].
  by eapply reached_step.
Qed.

(** ** Liveness *)

(** C7: Reception does not stall: while the next descriptor holds a received frame, the interface is
    scheduled to be polled, or its interrupt is pending and enabled. *)
Theorem eth_rx_never_stalls s0 s X d :
  reached s0 s -> rxFd (rx s) = Some X -> X !! Z.to_nat (rx_done (rx s)) = Some d -> fd_status (FDStatLen d) <> 0 ->
  rx_sched (net s) = true \/ (has (regs (chip s) BMRXSTAT) BRxDone /\ has (regs (chip s) BMRXINTEN) BRxDoneIE).
Proof.
  intros (g & l & [R So Ix Ll Ac De St])%reached_live EX Ed N.
  destruct (rx_sched (net s)) eqn:E; [by left|right].
  destruct (ring_chip _ _ _ _ R) as [_ W]. destruct (W E) as [F En]. split; [|done]. apply F.
  destruct (ring_fds _ _ _ _ R) as (T & X' & _ & EX' & _ & [Po Pp Rr WX] & _). simplify_eq.
  pose proof (idx_rx _ _ Ix) as Er. simpl in Er. rewrite Er, Nat2Z.id in Ed.
  destruct (decide (g_p g < length (rx_log (chip s)))%nat) as [|Ge]; [done|]. exfalso. apply N.
  destruct (decide (g_p g = g_r g + 64)%nat) as [Eq|Ne].
  - destruct (Win_get _ _ _ (g_r g) WX ltac:(lia)) as (d' & Ed' & S1 & _). rewrite Eq, at_ring_add in Ed. simplify_eq.
    by rewrite S1 by lia.
  - destruct (Win_get _ _ _ (g_p g) WX ltac:(lia)) as (d' & Ed' & _ & _ & S3). simplify_eq. by rewrite S3 by lia.
Qed.

(** A poll whose limit is not used up delivers every good frame that was received before it, and
    reaps every frame that was sent before it. *)
Theorem eth_poll_delivers_all s0 s s' budget x :
  reached s0 s -> rx_sched (net s) = true -> s3c2510_poll budget s = Ret x s' ->
  Z.of_nat (length (delivered s')) - Z.of_nat (length (delivered s)) < Z.min (quota (net s)) budget ->
  exists W, rx_log (chip s) `prefix_of` W /\ snd <$> delivered s' = (snd <$> delivered s0) ++ frames W.
Proof.
  intros (g & l & Lv)%reached_live Sc E Lt.
  pose proof (live_Poll _ _ _ _ _ _ budget Lv Sc) as P. unfold wp in P. rewrite E in P.
  destruct P as (W & g' & u' & Lv' & _ & All & _). exists (l ++ W).
  pose proof (hold_rest _ _ _ (live_ring _ _ _ _ _ _ Lv')) as Eu. destruct Lv as [R _ _ _ _ De _], Lv' as [R' _ _ _ _ De' _].
  rewrite <- Eu in De'. simpl in De, De'. split; [|done]. 
  assert (Eg : Z.of_nat (length (frames W)) < poll_limit budget (rest s)).
  { apply (f_equal length) in De, De'. unfold frames in De'. rewrite filter_app, fmap_app in De'. fold (frames l) (frames W) in De'.
    rewrite !length_app, !length_fmap in *. unfold poll_limit. simpl. rewrite <- Z.min_comm in Lt.
    destruct (Z.ltb_spec (quota (net s)) budget); lia. }
  by apply All.
Qed.

(** ** The address filter *)

(** The filter of [s'] after [set_multicast_list flags l] in [s]. *)
Definition filter_set (flags : Z) (l : list bytes) s s' : Prop :=
  let own := filter_station flags l (dev_addr (net s)) (cam_entry (regs (chip s)) 2) in
  regs (chip s') CAMCON = filter_control flags l /\ cam_entry (regs (chip s')) 2 = own /\
  dev_addr (net s') = dev_addr (net s) /\
  forall a, accepts (regs (chip s')) a <->
    has flags IFF_PROMISC = false /\ (a = own \/ filter_normal flags l = true /\ a ∈ take 14 l).

Lemma filter_call s0 s flags l :
  reached s0 s -> Forall is_addr l -> is_addr (dev_addr (net s)) ->
  exists s', set_multicast_list flags l (Z.of_nat (length l)) s = Ret tt s' /\ filter_set flags l s s'.
Proof.
  intros (g & k & Lv)%reached_live Fl Ad.
  assert (R : filt g (fun _ => True) (regs (chip s)) (rest s) s) by (eapply ring_weaken; [exact (live_ring _ _ _ _ _ _ Lv)|done]).
  pose proof (wp_multicast g (fun _ => True) (stableA_true _) ltac:(done) _ _ s flags l R Fl Ad) as W. unfold wp in W.
  destruct (set_multicast_list flags l (Z.of_nat (length l)) s) as [[] s'|]; [|done].
  destruct W as (f' & u' & R' & Ec & E2 & Ed & Ac). exists s'. destruct (ring_chip _ _ _ _ R') as [Ag _]. split; [done|].
  pose proof (hold_rest _ _ _ R') as Eu. split_and!.
  - by rewrite (Ag CAMCON I).
  - etransitivity; [by apply cam_entry_regs|exact E2].
  - by rewrite <- Eu in Ed.
  - intros a. rewrite (accepts_ext _ f') by done. apply Ac.
Qed.

(** C27: On a running interface [set_multicast_list] returns and leaves exactly this filter.  In promiscuous mode no
    address is compared and all stations, groups and broadcasts pass.  With all multicast addresses, or a list of
    more than 15, the groups and broadcasts pass and the address in the entry of the interface (entry 2) is accepted.
    In normal mode, with a list of at most 15, broadcasts pass, and the accepted addresses are the one in entry 2 and
    the first 14 of the list (the 15th is lost).  Entry 2 is loaded with the own address by an empty list in normal
    mode only; otherwise it keeps what it held.  So after a call with an empty list, a call with any list in normal
    mode leaves the filter with exactly the own address and the first 14 of the list.  The addresses are six bytes
    each. *)
Theorem eth_filter_exact s0 s flags l :
  reached s0 s -> Forall is_addr l -> is_addr (dev_addr (net s)) ->
  (exists s', set_multicast_list flags l (Z.of_nat (length l)) s = Ret tt s' /\ filter_set flags l s s') /\
  (filter_normal flags l = true ->
   exists s1 s2, set_multicast_list flags [] 0 s = Ret tt s1 /\
     set_multicast_list flags l (Z.of_nat (length l)) s1 = Ret tt s2 /\
     forall a, accepts (regs (chip s2)) a <-> a = dev_addr (net s) \/ a ∈ take 14 l).
Proof.
  intros Re Fl Ad. split; [by eapply filter_call|]. intros Nm.
  destruct (filter_call s0 s flags [] Re (Forall_nil_2 _) Ad) as (s1 & E1 & _ & C1 & D1 & _).
  assert (reached s0 s1) as Re1 by (eapply (reached_step _ _ (SetFilter flags [])); [exact Re|exact I|exact E1]).
  destruct (filter_call s0 s1 flags l Re1 Fl) as (s2 & E2 & _ & _ & _ & A2); [by rewrite D1|].
  exists s1, s2. split; [exact E1|]. split; [exact E2|]. intros a. rewrite A2.
  assert (cam_entry (regs (chip s1)) 2 = dev_addr (net s)) as Es.
  { rewrite C1. unfold filter_station. revert Nm. unfold filter_normal.
    by destruct (has flags IFF_PROMISC), (has flags IFF_ALLMULTI). }
  rewrite Es, D1, Nm.
  assert (filter_station flags l (dev_addr (net s)) (dev_addr (net s)) = dev_addr (net s)) as ->
    by (unfold filter_station; by destruct (_ && _)).
  assert (has flags IFF_PROMISC = false) as -> by (revert Nm; unfold filter_normal; by destruct (has flags IFF_PROMISC)).
  intuition.
Qed.

(** ** Transmission can stall *)

(** The queue is stopped, every accepted frame is sent, and no completion is announced. *)
Definition stalled s0 s : Prop :=
  xoff (net s) = true /\ accepted s = accepted s0 ++ tx_log (chip s) /\ has (regs (chip s) BMTXSTAT) TxComp = false.

Definition not_send (c : call) : Prop := match c with Send _ _ _ => False | _ => True end.

Definition all_sent (A : list (Z * Z)) (c : Chip) : Prop := tx_log c = A /\ has (regs c BMTXSTAT) TxComp = false.

Lemma all_sent_stable A : stableA A (all_sent A).
Proof.
  intros j r p T X c T' X' c' IT IX [E N] M. inversion M; subst; simpl in *; try done.
  - destruct (tx_owned_next _ _ _ _ _ IT ltac:(eassumption) ltac:(eassumption)) as (_ & Lt & _). lia.
  - split; [done|]. change (has (Z.lor (regs c BMTXSTAT) m) TxComp = false).
    unfold has in *. rewrite negb_false_iff, Z.eqb_eq in *. rewrite Z.land_lor_distr_l. by apply Z.lor_eq_0_iff.
Qed.

Lemma all_sent_keeps A : keeps (tx_regs ++ rx_regs) (all_sent A).
Proof.
  intros off v c I [E N]. unfold tx_regs, rx_regs in I. simpl in I. rewrite !elem_of_cons, elem_of_nil in I.
  split; [by repeat (destruct I as [->|I]; [done|])|].
  destruct I as [->|I]; [by apply has_clear|]. by repeat (destruct I as [->|I]; [done|]).
Qed.

Lemma all_sent_mac A : keeps_mac (all_sent A).
Proof.
  intros o v c B [E N]. unfold all_sent, chip_write, BMTXSTAT, BMRXSTAT, BTXBDCNT, BRXBDCNT in *.
  rewrite !(proj2 (Z.eqb_neq o _)) by lia. split; [done|]. simpl. unfold upd. by rewrite (proj2 (Z.eqb_neq _ o)) by lia.
Qed.

(** The transmit interrupt does nothing then. *)
Lemma wp_Tx_sent g K u s :
  stableA (g_A g) K -> keeps tx_regs K -> (forall c, K c -> has (regs c BMTXSTAT) TxComp = false) -> ring g K u s ->
  wp s3c2510_Tx (fun _ s' => exists st, ring g K (set_stats st u) s') no_stop s.
Proof.
  intros SK Kp NC R. unfold s3c2510_Tx.
  apply wp_bind. eapply wp_reg_read; [apply SK|exact R|]. clear R. intros status s1 R V.
  rewrite (V I). pose proof (NC _ (ring_chip _ _ _ _ R)) as N. clear V.
  apply wp_bind. keep_step R SK (wp_write_keeps tx_regs) s2.
  apply wp_bind. unfold count. eapply wp_when_stats; [exact R| |].
  { intros s' R'. eapply wp_add; [exact R'|]. eauto. }
  clear R. intros st s3 R. apply wp_bind. eapply wp_gnet; [exact R|]. rewrite N. apply wp_ret. by exists st.
Qed.

Lemma stalled_call A0 D0 c g l u s :
  not_send c -> allowed s c -> Live A0 D0 g l u s -> all_sent (g_A g) (chip s) ->
  wp (perform c) (fun _ s' => all_sent (g_A g) (chip s') /\ accepted s' = accepted s /\ xoff (net s') = xoff (net s)) no_stop s.
Proof.
  intros Ns Al [R So Ix Ll _ _ _] AS.
  assert (RK : ring g (fun c => l `prefix_of` rx_log c /\ all_sent (g_A g) c) u s) by (eapply ring_weaken; [exact R|by intros [? _]]).
  pose proof (all_sent_stable (g_A g)) as SK. pose proof (all_sent_keeps (g_A g)) as Kp.
  assert (Out : forall g' u' K s', ring g' K u' s' -> (K (chip s') -> all_sent (g_A g) (chip s')) -> accepted u' = accepted u ->
    xoff (net u') = xoff (net u) -> all_sent (g_A g) (chip s') /\ accepted s' = accepted s /\ xoff (net s') = xoff (net s)).
  { intros g' u' K s' R' W E1 E2. pose proof (hold_rest _ _ _ R) as Q. pose proof (hold_rest _ _ _ R') as Q'.
    split; [apply W, (ring_chip _ _ _ _ R')|]. rewrite <- Q, <- Q' in E1, E2. done. }
  destruct c as [skb data len| | |budget|flags mc|a|]; [done|..].
  - eapply wp_mono; [eapply (wp_Tx_sent g _ u); [exact SK|eapply keeps_sub; [exact Kp|sub_regs]|by intros c [? ?]|eapply ring_weaken; [exact RK|by intros [_ ?]]]| |done].
    intros _ s' (st & R'). by eapply Out.
  - eapply wp_mono; [eapply (wp_Rx g _ (all_sent (g_A g)) u); [exact SK|exact SK|done|eapply keeps_sub; [exact Kp|sub_regs]| |eapply ring_weaken; [exact RK|by intros [_ ?]]]| |done].
    + intros v c _. apply Kp. unfold tx_regs, rx_regs. simpl. in_regs.
    + intros _ s' (st & [R'|(q & R')]); eapply Out; [exact R'|done|done|done|exact R'|done|done|].
      unfold scheduled. simpl. by destruct (started (net u)).
  - apply wp_bind. simpl in Al. assert (rx_sched (net u) = true) as Sc by by rewrite <- (hold_rest _ _ _ R).
    eapply wp_mono; [eapply (wp_poll budget g (all_sent (g_A g)) l u); [exact SK|eapply keeps_sub; [exact Kp|sub_regs]|exact RK|done..]| |done].
    intros x s' (W & g' & u' & _ & R' & _ & _ & _ & _ & En & Ea & _). apply wp_ret. cbv zeta in *.
    eapply Out; [exact R'|by intros (_ & _ & ?)|done|]. rewrite En. by destruct (negb _).
  - eapply wp_mono; [eapply (wp_any_filter g _ SK (all_sent_mac _) (regs (chip s))); eapply ring_weaken; [exact RK|by intros [_ ?]]| |done].
    intros [] s' (f' & a & R'). eapply Out; [exact R'|by intros [_ ?]|done|done].
  - apply wp_bind, wp_bind. eapply (wp_SetUpARC g _ SK (all_sent_mac _) (regs (chip s))); [eapply ring_weaken; [exact RK|by intros [_ ?]]|].
    intros r s' R'. apply wp_ret, wp_ret. eapply Out; [exact R'|by intros [_ ?]|done|done].
  - assert (mii_on u = true) as On by by rewrite <- (hold_rest _ _ _ R).
    eapply wp_mono; [eapply (wp_check_duplex g _ (SK _ _ _)); [|exact On|eapply ring_weaken; [exact RK|by intros [_ ?]]]| |done].
    + intros o v c ->%list_elem_of_singleton. by apply all_sent_mac.
    + intros [] s' (m & b & R'). by eapply Out.
Qed.

(** C29: Once it has stalled, no interrupt, no poll and no request starts the queue again: only a transmission
    could, and the network does not send on a stopped queue.  What is left is the time-out of the network
    layer, which resets the controller. *)
Theorem eth_tx_stall_is_permanent s0 s s' :
  reached s0 s -> stalled s0 s -> history not_send s s' -> stalled s0 s'.
Proof.
  intros Re St Hs. pose proof (reached_live _ _ Re) as (g & l & Lv). clear Re. remember (rest s) as u eqn:Eu. clear Eu.
  revert g l u Lv St. induction Hs as [s|s c s1 s2 Ns Al E Hs IH]; intros g l u Lv St; [done|].
  destruct (live_call _ _ _ _ _ _ _ Lv Al) as (s1' & g1 & W1 & u1 & E1 & Lv1). rewrite E in E1. injection E1 as <-.
  eapply IH; [exact Lv1|]. destruct St as (Xo & Ac & Nc).
  assert (EA : tx_log (chip s) = g_A g).
  { pose proof (live_accepted _ _ _ _ _ _ Lv) as Q. rewrite <- (hold_rest _ _ _ (live_ring _ _ _ _ _ _ Lv)) in Q. simpl in Q.
    rewrite Q in Ac. by apply app_inv_head in Ac. }
  pose proof (stalled_call _ _ c _ _ _ _ Ns Al Lv (conj EA Nc)) as W. unfold wp in W. rewrite E in W.
  destruct W as ([E2 N2] & A2 & X2). split_and!; [congruence| |done]. by rewrite A2, Ac, E2, EA.
Qed.
End Main.

(** ** Concrete runs *)

Module Runs.
Import Sim.

(** A closed interface on a simulated controller with a schedule. *)
Definition closed (events : list event) : Eth sim :=
  let fds := fun _ => mkFd 0 0 in
  mkEth (mkTx None 0 0 (replicate 64 0)) (mkRx None 0 0 (replicate 64 0) 0)
    (mkNetDev ETH0OFF 10 [0; 0; 0xf0; 1; 2; 3] 64 true false true false false [10; 11] [ETH0OFF])
    (fun _ => 0) false (mkMii MPHYHWADDR1 ADVERTISE_100FULL 0x1f 0x1f true true) 0 0 ∅ 0
    [Some (0x1000, fds); Some (0x2000, fds)] [] [] [] (mkSim (mkChip [] [] (fun _ => 0)) events).

Lemma closed_can_open events : can_open (closed events).
Proof.
  split_and!; [|split|done].
  - split; [|done..]. split; [|done..]. split_and!; done.
  - by eexists _, _, _, _, _.
  - intros k live _. eexists. reflexivity.
Qed.

(** The calls after an open. *)
Definition scenario (events : list event) (calls : list call) : option (Eth sim) :=
  match s3c2510_open (closed events) with
  | Ret r s => if r =? S3C2510_SUCCESS then run_calls calls s else None
  | Stop _ _ => None
  end.

Lemma scenario_reached events calls s : scenario events calls = Some s -> reached (closed events) s.
Proof.
  unfold scenario. intros E. destruct (s3c2510_open (closed events)) as [r s1|] eqn:O; [|done].
  destruct (Z.eqb_spec r S3C2510_SUCCESS) as [->|]; [|done]. split; [apply closed_can_open|].
  exists s1. split; [done|]. eapply run_calls_history; [|exact E]. by apply Forall_true.
Qed.

Lemma scenario_run events calls (test : Eth sim -> bool) :
  match scenario events calls with Some s => test s | None => false end = true ->
  exists s, scenario events calls = Some s /\ reached (closed events) s /\ test s = true.
Proof. intros E. destruct (scenario events calls) as [s|] eqn:Q; [|done]. exists s. split; [done|]. by split; [eapply scenario_reached|]. Qed.

(** Two frames are sent and three received, one of them with an error. *)
Definition traffic : list event :=
  [Sends (Z.shiftl TxS_Comp 16 + 60); Sends (Z.shiftl TxS_Comp 16 + 100);
   Fills (Z.shiftl RxS_Done 16 + 64); Fills (Z.shiftl RxS_CrcErr 16 + 70); Fills (Z.shiftl RxS_Done 16 + 1514)].
Definition traffic_calls : list call := [Send 0x900000 0x500010 60; Send 0x900800 0x500810 100; TxIrq; RxIrq; Poll 64].

Lemma traffic_run : exists s, scenario traffic traffic_calls = Some s /\ reached (closed traffic) s /\
  bool_decide (tx_log (chip s) = [(0x50000e, 60); (0x50080e, 100)] /\ snd <$> delivered s = [64; 1514]) = true.
Proof. apply scenario_run. vm_compute. reflexivity. Qed.

Definition word (n : Z) : Z := Z.shiftl TxS_Comp 16 + n.
(** The ring is filled, every frame is sent, and the interrupt that reports the empty ring acknowledges the
    completions while the queue runs; the next frame stops the queue. *)
Definition stall : list event := replicate 64 (Sends (word 60)) ++ [TxEvent BTxEmpty].
Definition stall_calls : list call :=
  (fun k => Send (0x900000 + Z.of_nat k) (0x500010 + 2048 * Z.of_nat k) 60) <$> seq 0 64.

Lemma stall_run : exists s, scenario stall (stall_calls ++ [TxIrq; Send 0x980000 0x980010 60]) = Some s /\ reached (closed stall) s /\
  (xoff (net s) && bool_decide (accepted s = tx_log (chip s)) && negb (has (regs (chip s) BMTXSTAT) TxComp)) = true.
Proof. apply scenario_run. vm_compute. reflexivity. Qed.
End Runs.

Import Sim Runs.

Lemma eth_open_succeeds_witness : exists s', s3c2510_open (closed traffic) = Ret S3C2510_SUCCESS s' /\ xoff (net s') = false.
Proof.
  destruct (eth_open_succeeds (closed traffic) (closed_can_open traffic)) as (s' & E & _ & X). exists s'. exact (conj E X).
Defined.

(** An allocator without memory. *)
Program Definition no_skb : SkbAlloc := {| alloc_skb := fun _ _ => None |}.
Next Obligation. done. Qed.

Lemma eth_open_without_memory_witness : stopped (s3c2510_open (H1 := no_skb) (closed [])) = Some OutOfBounds.
Proof.
  apply (eth_open_without_memory (H1 := no_skb) (closed []) 0x1000 (fun _ => mkFd 0 0) [Some (0x2000, fun _ => mkFd 0 0)] 63);
    [|reflexivity|lia|intros live; reflexivity].
  split; [|done..]. split; [|done..]. split_and!; done.
Defined.

Lemma eth_close_frees_all_witness : exists s s', reached (closed traffic) s /\ s3c2510_close s = Ret 0 s' /\ skbs s' = ∅.
Proof.
  destruct traffic_run as (s & _ & R & _). destruct (eth_close_frees_all (closed traffic) s R) as (s' & E & _ & Sk). exists s, s'. exact (conj R (conj E Sk)).
Defined.

Lemma eth_frames_in_order_witness : exists s A W, reached (closed traffic) s /\
  tx_log (chip s) = [(0x50000e, 60); (0x50080e, 100)] /\ tx_log (chip s) `prefix_of` A /\ snd <$> delivered s = frames W /\
  snd <$> delivered s = [64; 1514].
Proof.
  destruct traffic_run as (s & _ & R & T). apply bool_decide_eq_true_1 in T as [T1 T2].
  destruct (eth_frames_in_order (closed traffic) s R) as (A & W & E1 & P1 & E2 & P2).
  exists s, A, W. exact (conj R (conj T1 (conj P1 (conj E2 T2)))).
Defined.

Lemma eth_buffers_safe_witness : exists s, reached (closed traffic) s /\ Owns (txFrCtl (tx s)) (rxFrCtl (rx s)) (skbs s).
Proof. destruct traffic_run as (s & _ & R & _). exists s. split; [exact R|]. apply (eth_buffers_safe (closed traffic) s R). Defined.

Lemma eth_state_well_formed_witness : exists s, reached (closed traffic) s /\ 0 <= tx_ready (tx s) < TX_NUM_FD.
Proof. destruct traffic_run as (s & _ & R & _). exists s. split; [exact R|]. apply (eth_state_well_formed (closed traffic) s R). Defined.

Lemma eth_calls_return_witness : exists s s', reached (closed traffic) s /\ perform TxIrq s = Ret tt s'.
Proof.
  destruct traffic_run as (s & _ & R & _). destruct (eth_calls_return (closed traffic) s TxIrq R I) as (s' & E & _). exists s, s'. exact (conj R E).
Defined.

(** After the two sends the three frames are there, before any interrupt. *)
Lemma waiting_run : exists s, scenario traffic (take 2 traffic_calls) = Some s /\ reached (closed traffic) s /\
  match rxFd (rx s) with
  | Some X => match X !! Z.to_nat (rx_done (rx s)) with Some d => negb (fd_status (FDStatLen d) =? 0) | None => false end
  | None => false
  end = true.
Proof. apply scenario_run. vm_compute. reflexivity. Qed.

Lemma eth_rx_never_stalls_witness : exists s, reached (closed traffic) s /\
  (rx_sched (net s) = true \/ (has (regs (chip s) BMRXSTAT) BRxDone /\ has (regs (chip s) BMRXINTEN) BRxDoneIE)).
Proof.
  destruct waiting_run as (s & _ & R & T). exists s. split; [exact R|].
  destruct (rxFd (rx s)) as [X|] eqn:EX; [|done]. destruct (X !! Z.to_nat (rx_done (rx s))) as [d|] eqn:Ed; [|done].
  apply (eth_rx_never_stalls (closed traffic) s X d R EX Ed). by apply negb_true_iff, Z.eqb_neq in T.
Defined.

(** The state before the poll, and what the poll does. *)
Lemma poll_run : exists s, scenario traffic (take 4 traffic_calls) = Some s /\ reached (closed traffic) s /\
  (rx_sched (net s) && (quota (net s) =? 64) && bool_decide (delivered s = []) &&
   match s3c2510_poll 64 s with Ret _ s' => (length (delivered s') =? 2)%nat | Stop _ _ => false end) = true.
Proof. apply scenario_run. vm_compute. reflexivity. Qed.

Lemma eth_poll_delivers_all_witness : exists s s' x W, reached (closed traffic) s /\ s3c2510_poll 64 s = Ret x s' /\
  rx_log (chip s) `prefix_of` W /\ snd <$> delivered s' = frames W.
Proof.
  destruct poll_run as (s & _ & R & T). rewrite !andb_true_iff in T. destruct T as [[[T1 T2%Z.eqb_eq] T3%bool_decide_eq_true_1] T4].
  destruct (s3c2510_poll 64 s) as [x s'|] eqn:E; [|done]. apply Nat.eqb_eq in T4.
  destruct (eth_poll_delivers_all (closed traffic) s s' 64 x R T1 E) as (W & P & D); [rewrite T2, T3, T4; simpl; lia|].
  exists s, s', x, W. exact (conj R (conj E (conj P D))).
Defined.

Lemma eth_tx_stall_is_permanent_witness : exists s, reached (closed stall) s /\ stalled (closed stall) s /\
  forall s', history not_send s s' -> xoff (net s') = true.
Proof.
  destruct stall_run as (s & _ & R & T). rewrite !andb_true_iff, negb_true_iff in T.
  destruct T as [[T1 T2%bool_decide_eq_true_1] T3]. assert (St : stalled (closed stall) s) by exact (conj T1 (conj T2 T3)).
  exists s. split; [exact R|]. split; [exact St|]. intros s' Hs. apply (eth_tx_stall_is_permanent (closed stall) s s' R St Hs).
Defined.

(** Fifteen multicast addresses: the last of them is not accepted. *)
Definition mc15 : list bytes := (fun k => [1; 0; 0x5e; 0; 0; Z.of_nat k]) <$> seq 1 15.

Lemma filter_run : exists s, scenario [] [SetMac [0; 0; 0xf0; 1; 2; 3]] = Some s /\ reached (closed []) s /\
  bool_decide (dev_addr (net s) = [0; 0; 0xf0; 1; 2; 3]) = true.
Proof. apply scenario_run. vm_compute. reflexivity. Qed.

Lemma eth_filter_exact_witness : exists s, reached (closed []) s /\
  (exists s', set_multicast_list 0 mc15 15 s = Ret tt s' /\ filter_set 0 mc15 s s') /\
  (filter_normal 0 mc15 = true ->
   exists s1 s2, set_multicast_list 0 [] 0 s = Ret tt s1 /\ set_multicast_list 0 mc15 15 s1 = Ret tt s2 /\
     forall a, accepts (regs (chip s2)) a <-> a = dev_addr (net s) \/ a ∈ take 14 mc15).
Proof.
  destruct filter_run as (s & _ & R & T). apply bool_decide_eq_true_1 in T. exists s. split; [exact R|].
  apply (eth_filter_exact (closed []) s 0 mc15 R).
  - repeat constructor; unfold is_byte; simpl; lia.
  - rewrite T. split; [reflexivity|]. repeat constructor; unfold is_byte; simpl; lia.
Defined.

(** A list that is set right after the interface was opened, without an empty one before: the entry of the interface
    holds what [initial_CAM_Contents] wrote, and the own address is not accepted. *)
Lemma filter_without_own_address : exists s, scenario [] [SetFilter 0 [[1; 0; 0x5e; 0; 0; 1]]] = Some s /\ reached (closed []) s /\
  (bool_decide (cam_entry (regs (chip s)) 2 = [0xff; 0xff; 0xff; 0xff; 0xff; 0xff]) &&
   bool_decide (cam_entry (regs (chip s)) 3 = [1; 0; 0x5e; 0; 0; 1]) && (regs (chip s) CAMEN =? 12) &&
   (regs (chip s) CAMCON =? Z.lor MCompEn MBroad) &&
   negb (bool_decide (dev_addr (net s) = [0xff; 0xff; 0xff; 0xff; 0xff; 0xff]))) = true.
Proof. apply scenario_run. vm_compute. reflexivity. Qed.

(** ** Limits, on concrete runs *)

(** The time-out clears the enable bits of the address filter and does not set them again: the interface does not
    accept frames to its own address any more.  A controller set to half duplex is set to full duplex. *)
Lemma tx_timeout_loses_settings : exists s, scenario [] [SetMac [0; 0; 0xf0; 1; 2; 3]] = Some s /\ reached (closed []) s /\
  (has (regs (chip s) CAMEN) (Z.shiftl 1 2) && match s3c2510_tx_timeout (put_mii (set_full_duplex false (mii_if s)) s) with
   | Ret _ s' => (regs (chip s') CAMEN =? 0) && has (regs (chip s') MACCON) MFullDup && negb (full_duplex (mii_if s'))
   | Stop _ _ => false
   end) = true.
Proof. apply scenario_run. vm_compute. reflexivity. Qed.

(** Opening reports success also when there is no memory for the rings; the first frame goes through a null pointer. *)
Lemma open_ignores_failure : exists s, s3c2510_open (set_kmallocs [None] (closed [])) = Ret S3C2510_SUCCESS s /\
  stopped (perform (Send 0x900000 0x500010 60) s) = Some NullPointer.
Proof.
  destruct (s3c2510_open (set_kmallocs [None] (closed []))) as [r s|] eqn:E; [|by vm_compute in E].
  assert (T : match s3c2510_open (set_kmallocs [None] (closed [])) with
    | Ret r s => (r =? S3C2510_SUCCESS) && match perform (Send 0x900000 0x500010 60) s with Stop NullPointer _ => true | _ => false end
    | Stop _ _ => false end = true) by (vm_compute; reflexivity).
  rewrite E in T. apply andb_true_iff in T as [->%Z.eqb_eq T]. exists s. split; [done|].
  by destruct (perform (Send 0x900000 0x500010 60) s) as [|[]].
Qed.

(** The emulated registers 4 and 5 of a switch, its abilities and those of its partner, read 0. *)
Lemma switch_has_no_abilities : slot switch_phy_emulation MII_ADVERTISE (closed []) = Ret 0 (closed []) /\
  slot switch_phy_emulation MII_LPA (closed []) = Ret 0 (closed []).
Proof. done. Qed.
