(* ===== verification/CfiChip.v ===== *)
(** * The flash chip behind the MTD driver

    What the driver for the command set of AMD needs of the chip beyond
    FlashChip.v: accesses of the other widths, the bit that shows an erasure in
    progress and how long that lasts, and the mode that programs without the
    unlock cycles. *)

From S2P Require Import Prelude FlashChip.

(** Accesses of 8 and 32 bits. *)
Class NorBus (F : Type) : Type := {
  rd32 : Z -> F -> Z * F;
  wr8 : Z -> Z -> F -> F;
  wr32 : Z -> Z -> F -> F;
}.

(** [max_polls]: how many reads can show an erasure in progress; those reads
    have bit 7 clear.  [bypass f]: programming needs no unlock cycles. *)
Class CfiLaws (F : Type) `{NorFlash F} (k : ChipKind) {L : ChipLaws F k} : Type := {
  max_polls : nat;
  bypass : F -> Prop;
  erase_within f s : idle f -> in_bank k s -> 0 < sector_len k s -> exists n, (n <= max_polls)%nat /\
    busy (erase_sequence k s f) s (fun x => if decide (in_sector k s x) then 0xffff else cell f x) n;
  dq7_law f s c n : busy f s c (S n) -> Z.testbit (rd16 s f).1 7 = false;
  bypass_enter f : idle f -> bypass (unlock k 0x20 f) /\ forall x, cell (unlock k 0x20 f) x = cell f x;
  bypass_read f a : bypass f -> in_bank k a -> Z.even a = true -> rd16 a f = (cell f a, f);
  bypass_program f a d : bypass f -> in_bank k a -> Z.even a = true -> 0 <= d < 2 ^ 16 ->
    bypass (wr16 a d (wr16 (base k) 0xa0 f)) /\
    forall x, cell (wr16 a d (wr16 (base k) 0xa0 f)) x = if decide (x = a) then Z.land (cell f a) d else cell f x;
  bypass_leave f : bypass f -> idle (wr16 (base k) 0 (wr16 (base k) 0x90 f)) /\
    forall x, cell (wr16 (base k) 0 (wr16 (base k) 0x90 f)) x = cell f x;
}.

(** ** The chip of FlashChip.v *)

(** A wide access is two of 16 bits; a narrow write is one of 16 bits. *)
#[export] Instance sim_bus (k : ChipKind) : NorBus SimFlash := {
  rd32 a f := let '(lo, f1) := sim_rd16 k a f in let '(hi, f2) := sim_rd16 k (a + 2) f1 in (lo + 2 ^ 16 * hi, f2);
  wr8 := sim_wr16 k;
  wr32 a d f := sim_wr16 k (a + 2) (Z.shiftr d 16) (sim_wr16 k a (u16 d) f);
}.

#[export] Program Instance sim_cfi (k : ChipKind) : @CfiLaws SimFlash (sim_flash k) k (sim_laws k) := {|
  max_polls := 2;
  bypass f := sim_mode f = Bypass;
|}.
Next Obligation.
  intros k f s Hi _ Hs. exists 2%nat. split; [done|]. destruct (sim_erase_started k f s Hi Hs) as [Hm Hc].
  split_and!; [done|done|unfold in_sector; lia].
Qed.
Next Obligation. intros k [m mode] s c n (Hm & _). cbn in Hm. by subst mode. Qed.
Next Obligation.
  intros k [m mode] Hi. cbn in Hi. subst mode. unfold unlock, wr16, sim_flash.
  by rewrite sim_unlock, sim_command by apply unlock1_hit || apply unlock2_hit.
Qed.
Next Obligation. intros k f a Hb _ _. simpl. unfold sim_rd16. by rewrite Hb. Qed.
Next Obligation.
  intros k [m mode] a d Hb _ _ Hd. cbn in Hb. subst mode. split; [done|]. intros x.
  exact (sim_cell_insert (mkSimFlash m BypassProgram) a d x _ Hd).
Qed.
Next Obligation. intros k [m mode] Hb. cbn in Hb. by subst mode. Qed.
