(* ===== verification/Mtd.v ===== *)
(** * Memory technology devices
    (src/linux2510/drivers/mtd/mtdcore.c, src/linux2510/drivers/mtd/mtdpart.c,
    src/linux2510/include/linux/mtd/mtd.h, src/linux2510/include/linux/mtd/partitions.h)

    The table of devices and the partitions of a flash.  A device is an object
    at an address ([mtds]); a partition has a second part at the same address
    ([parts]).  The driver of the chip is the class [MtdDriver]: it is called
    with the device object of the whole chip.  A pointer to an operation that
    may be missing is a [bool].  [down] and [up] of the table's mutex, and the
    messages, have no effect on the state. *)

From S2P Require Import Prelude.

Definition MAX_MTD_DEVICES : Z := 10.
Definition MTD_NORFLASH : Z := 3.
Definition MTD_CLEAR_BITS : Z := 1.
Definition MTD_SET_BITS : Z := 2.
Definition MTD_ERASEABLE : Z := 4.
Definition MTD_CAP_NORFLASH : Z := Z.lor MTD_CLEAR_BITS MTD_ERASEABLE.
Definition MTD_WRITEABLE : Z := Z.lor MTD_CLEAR_BITS MTD_SET_BITS.
Definition MTD_ERASE_DONE : Z := 0x08.
Definition MTD_ERASE_FAILED : Z := 0x10.
Definition MTDPART_OFS_NXTBLK : Z := u32 (-2).
Definition MTDPART_OFS_APPEND : Z := u32 (-1).
Definition MTDPART_SIZ_FULL : Z := 0.
Definition ENOMEM : Z := 12.
Definition EINVAL : Z := 22.
Definition EROFS : Z := 30.

(** A request to erase; [calls] counts the calls of its callback. *)
Record erase_info : Type := mkErase {
  e_mtd : Z;
  e_addr : Z;
  e_len : Z;
  e_callback : bool;
  e_state : Z;
  calls : nat;
}.
Definition set_e_addr a e := mkErase (e_mtd e) a (e_len e) (e_callback e) (e_state e) (calls e).
(** [instr->state = st; if (instr->callback) instr->callback(instr);] *)
Definition finish_erase st e := mkErase (e_mtd e) (e_addr e) (e_len e) (e_callback e) st (if e_callback e then S (calls e) else calls e).

Record mtd_erase_region_info : Type := mkRegion {
  r_offset : Z;
  r_erasesize : Z;
  r_numblocks : Z;
}.

Inductive erase_fn : Type := cfi_erase_onesize | cfi_erase_varsize | part_erase_fn.

Record mtd_info : Type := mkMtd {
  type : Z;
  flags : Z;
  size : Z;
  erasesize : Z;
  oobblock : Z;
  oobsize : Z;
  ecctype : Z;
  eccsize : Z;
  name : cstr;
  index : Z;
  numeraseregions : Z;
  eraseregions : list mtd_erase_region_info;
  mtd_bank_size : Z;
  module : Z;
  erase : erase_fn;
  has_point : bool;
  has_read_oob : bool;
  has_write_oob : bool;
  has_readv : bool;
  has_writev : bool;
  has_sync : bool;
  has_lock : bool;
  has_unlock : bool;
  has_suspend : bool;
  has_resume : bool;
}.
Definition set_flags x m := mkMtd (type m) x (size m) (erasesize m) (oobblock m) (oobsize m) (ecctype m) (eccsize m) (name m) (index m) (numeraseregions m) (eraseregions m) (mtd_bank_size m) (module m) (erase m) (has_point m) (has_read_oob m) (has_write_oob m) (has_readv m) (has_writev m) (has_sync m) (has_lock m) (has_unlock m) (has_suspend m) (has_resume m).
Definition set_size x m := mkMtd (type m) (flags m) x (erasesize m) (oobblock m) (oobsize m) (ecctype m) (eccsize m) (name m) (index m) (numeraseregions m) (eraseregions m) (mtd_bank_size m) (module m) (erase m) (has_point m) (has_read_oob m) (has_write_oob m) (has_readv m) (has_writev m) (has_sync m) (has_lock m) (has_unlock m) (has_suspend m) (has_resume m).
Definition set_erasesize x m := mkMtd (type m) (flags m) (size m) x (oobblock m) (oobsize m) (ecctype m) (eccsize m) (name m) (index m) (numeraseregions m) (eraseregions m) (mtd_bank_size m) (module m) (erase m) (has_point m) (has_read_oob m) (has_write_oob m) (has_readv m) (has_writev m) (has_sync m) (has_lock m) (has_unlock m) (has_suspend m) (has_resume m).
Definition set_index x m := mkMtd (type m) (flags m) (size m) (erasesize m) (oobblock m) (oobsize m) (ecctype m) (eccsize m) (name m) x (numeraseregions m) (eraseregions m) (mtd_bank_size m) (module m) (erase m) (has_point m) (has_read_oob m) (has_write_oob m) (has_readv m) (has_writev m) (has_sync m) (has_lock m) (has_unlock m) (has_suspend m) (has_resume m).

(** An entry of a table of partitions. *)
Record mtd_partition : Type := mkPartition {
  pt_name : cstr;
  pt_size : Z;
  pt_offset : Z;
  pt_mask_flags : Z;
  pt_mtdp : Z;
}.

(** The part of [struct mtd_part] behind the device object. *)
Record mtd_part : Type := mkPart {
  master : Z;
  offset : Z;
  part_index : Z;
  registered : Z;
}.

(** The operations of a chip's driver.  Reading gives the bytes stored, whose
    number is [*retlen]; writing gives [*retlen].  An [iovec] for reading is the
    list of the lengths, one for writing the list of the data. *)
Class MtdDriver (X : Type) : Type := {
  d_read : mtd_info -> Z -> Z -> M X (Z * bytes);
  d_write : mtd_info -> Z -> Z -> bytes -> M X (Z * Z);
  d_erase : mtd_info -> erase_info -> M X (Z * erase_info);
  d_read_oob : mtd_info -> Z -> Z -> M X (Z * bytes);
  d_write_oob : mtd_info -> Z -> Z -> bytes -> M X (Z * Z);
  d_point : mtd_info -> Z -> Z -> M X (Z * Z * Z);
  d_readv : mtd_info -> list Z -> Z -> M X (Z * bytes);
  d_writev : mtd_info -> list bytes -> Z -> M X (Z * Z);
  d_sync : mtd_info -> M X unit;
  d_lock : mtd_info -> Z -> Z -> M X Z;
  d_unlock : mtd_info -> Z -> Z -> M X Z;
  d_suspend : mtd_info -> M X Z;
  d_resume : mtd_info -> M X unit;
}.

(** [free_mem]: the results of [kmalloc] to come; [stored]: what was stored
    through the pointers [mtdp]; [notified]: the calls of the users' functions,
    [true] for [add]. *)
Record MtdSt (X : Type) : Type := mkMtdSt {
  mtds : gmap Z mtd_info;
  parts : gmap Z mtd_part;
  mtd_partitions : list Z;
  mtd_table : list Z;
  mtd_notifiers : list Z;
  notified : list (Z * bool * Z);
  free_mem : list Z;
  stored : gmap Z Z;
  use_count : Z;
  dev : X;
}.
Arguments mkMtdSt {X}. Arguments mtds {X}. Arguments parts {X}. Arguments mtd_partitions {X}. Arguments mtd_table {X}.
Arguments mtd_notifiers {X}. Arguments notified {X}. Arguments free_mem {X}. Arguments stored {X}. Arguments use_count {X}. Arguments dev {X}.

Section Setters.
Context {X : Type}.
Implicit Types s : MtdSt X.
Definition set_mtds x s := mkMtdSt x (parts s) (mtd_partitions s) (mtd_table s) (mtd_notifiers s) (notified s) (free_mem s) (stored s) (use_count s) (dev s).
Definition set_parts x s := mkMtdSt (mtds s) x (mtd_partitions s) (mtd_table s) (mtd_notifiers s) (notified s) (free_mem s) (stored s) (use_count s) (dev s).
Definition set_partitions x s := mkMtdSt (mtds s) (parts s) x (mtd_table s) (mtd_notifiers s) (notified s) (free_mem s) (stored s) (use_count s) (dev s).
Definition set_table x s := mkMtdSt (mtds s) (parts s) (mtd_partitions s) x (mtd_notifiers s) (notified s) (free_mem s) (stored s) (use_count s) (dev s).
Definition set_notifiers x s := mkMtdSt (mtds s) (parts s) (mtd_partitions s) (mtd_table s) x (notified s) (free_mem s) (stored s) (use_count s) (dev s).
Definition set_notified x s := mkMtdSt (mtds s) (parts s) (mtd_partitions s) (mtd_table s) (mtd_notifiers s) x (free_mem s) (stored s) (use_count s) (dev s).
Definition set_free_mem x s := mkMtdSt (mtds s) (parts s) (mtd_partitions s) (mtd_table s) (mtd_notifiers s) (notified s) x (stored s) (use_count s) (dev s).
Definition set_stored x s := mkMtdSt (mtds s) (parts s) (mtd_partitions s) (mtd_table s) (mtd_notifiers s) (notified s) (free_mem s) x (use_count s) (dev s).
Definition set_use_count x s := mkMtdSt (mtds s) (parts s) (mtd_partitions s) (mtd_table s) (mtd_notifiers s) (notified s) (free_mem s) (stored s) x (dev s).
Definition set_dev (x : X) s := mkMtdSt (mtds s) (parts s) (mtd_partitions s) (mtd_table s) (mtd_notifiers s) (notified s) (free_mem s) (stored s) (use_count s) x.
End Setters.

Section Mtd.
Context {X : Type} `{MtdDriver X}.
Abbreviation MT A := (M (MtdSt X) A).

Definition on_dev {A} (m : M X A) : MT A := fun s =>
  match m (dev s) with
  | Ret a d => Ret a (set_dev d s)
  | Stop e d => Stop e (set_dev d s)
  end.

(** The objects behind pointers. *)
Definition get_mtd (p : Z) : MT mtd_info :=
  m ← gets mtds;
  match m !! p with
  | Some x => mret x
  | None => stop_with (if p =? 0 then NullPointer else UseAfterFree)
  end.
Definition put_mtd (p : Z) (x : mtd_info) : MT unit := modify (fun s => set_mtds (<[p := x]> (mtds s)) s).
Definition PART (p : Z) : MT mtd_part :=
  m ← gets parts;
  match m !! p with
  | Some x => mret x
  | None => stop_with (if p =? 0 then NullPointer else UseAfterFree)
  end.
Definition put_part (p : Z) (x : mtd_part) : MT unit := modify (fun s => set_parts (<[p := x]> (parts s)) s).
Definition kmalloc : MT Z :=
  l ← gets free_mem;
  match l with
  | [] => mret 0
  | p :: l' => modify (set_free_mem l') ;; mret p
  end.
(** [kfree] of a partition. *)
Definition kfree_part (p : Z) : MT unit :=
  PART p ;; modify (fun s => set_parts (delete p (parts s)) (set_mtds (delete p (mtds s)) s)).

(** ** The table of devices *)

Definition call_user (p : Z) (added : bool) (u : Z) : MT unit := modify (fun s => set_notified (notified s ++ [(u, added, p)]) s).
Fixpoint call_users (p : Z) (added : bool) (l : list Z) : MT unit :=
  match l with
  | [] => mret tt
  | u :: l' => call_user p added u ;; call_users p added l'
  end.

(** The first entry of a table, from number [i], that holds [v]. *)
Fixpoint find_entry (v i : Z) (l : list Z) : option Z :=
  match l with
  | [] => None
  | x :: l' => if x =? v then Some i else find_entry v (i + 1) l'
  end.

Definition add_mtd_device (mtd : Z) : MT Z :=
  t ← gets mtd_table;
  match find_entry 0 0 t with
  | None => mret 1
  | Some i =>
      nots ← gets mtd_notifiers;
      modify (set_table (<[Z.to_nat i := mtd]> t)) ;;
      m ← get_mtd mtd;
      put_mtd mtd (set_index i m) ;;
      call_users mtd true nots ;;
      modify (fun s => set_use_count (use_count s + 1) s) ;;
      mret 0
  end.

Definition del_mtd_device (mtd : Z) : MT Z :=
  nots ← gets mtd_notifiers;
  t ← gets mtd_table;
  match find_entry mtd 0 t with
  | None => mret 1
  | Some i =>
      call_users mtd false nots ;;
      modify (fun s => set_table (<[Z.to_nat i := 0]> (mtd_table s)) s) ;;
      modify (fun s => set_use_count (use_count s - 1) s) ;;
      mret 0
  end.

(** [for (i=0; i< MAX_MTD_DEVICES; i++) if (mtd_table[i]) user(mtd_table[i]);] *)
Fixpoint tell_all (u : Z) (added : bool) (t : list Z) : MT unit :=
  match t with
  | [] => mret tt
  | p :: t' => when (negb (p =? 0)) (call_user p added u) ;; tell_all u added t'
  end.

Definition register_mtd_user (new : Z) : MT unit :=
  modify (fun s => set_notifiers (new :: mtd_notifiers s) s) ;;
  modify (fun s => set_use_count (use_count s + 1) s) ;;
  t ← gets mtd_table;
  tell_all new true t.

(** The first occurrence of [old] taken out of a list. *)
Fixpoint unlink (old : Z) (l : list Z) : option (list Z) :=
  match l with
  | [] => None
  | cur :: l' => if cur =? old then Some l' else cons cur <$> unlink old l'
  end.

Definition unregister_mtd_user (old : Z) : MT Z :=
  nots ← gets mtd_notifiers;
  match unlink old nots with
  | None => mret 1
  | Some nots' =>
      modify (set_notifiers nots') ;;
      modify (fun s => set_use_count (use_count s - 1) s) ;;
      t ← gets mtd_table;
      tell_all old false t ;;
      mret 0
  end.

(** The last entry that holds [mtd] is returned: [mtd], or null. *)
Definition __get_mtd_device (mtd num : Z) : MT Z :=
  t ← gets mtd_table;
  if num =? -1 then mret (match find_entry mtd 0 t with Some _ => mtd | None => 0 end)
  else if num <? MAX_MTD_DEVICES then
    match (if num <? 0 then None else t !! Z.to_nat num) with
    | None => stop_with OutOfBounds
    | Some ret => mret (if negb (mtd =? 0) && negb (mtd =? ret) then 0 else ret)
    end
  else mret 0.

(** ** The operations of a partition *)

(** [if (from >= mtd->size) len = 0; else if (from + len > mtd->size) len = mtd->size - from;]
    [from] is a [loff_t], [len] a [size_t]. *)
Definition clip (m : mtd_info) (from len : Z) : Z :=
  if size m <=? from then 0
  else if size m <? from + len then u32 (size m - from)
  else len.

Definition writeable (m : mtd_info) : bool := negb (Z.land (flags m) MTD_WRITEABLE =? 0).

Definition part_read (mtd from len : Z) : MT (Z * bytes) :=
  m ← get_mtd mtd; part ← PART mtd; M ← get_mtd (master part);
  on_dev (d_read M (from + offset part) (clip m from len)).

Definition part_read_oob (mtd from len : Z) : MT (Z * bytes) :=
  m ← get_mtd mtd; part ← PART mtd; M ← get_mtd (master part);
  on_dev (d_read_oob M (from + offset part) (clip m from len)).

(** The first component is the result; [*retlen] is set by the chip's driver only. *)
Definition part_write (mtd to len : Z) (buf : bytes) : MT (Z * option Z) :=
  m ← get_mtd mtd; part ← PART mtd;
  if negb (writeable m) then mret (- EROFS, None)
  else
    M ← get_mtd (master part);
    '(r, n) ← on_dev (d_write M (to + offset part) (clip m to len) buf);
    mret (r, Some n).

Definition part_point (mtd off len : Z) : MT (Z * Z * Z) :=
  m ← get_mtd mtd; part ← PART mtd; M ← get_mtd (master part);
  on_dev (d_point M (off + offset part) (clip m off len)).

Definition part_write_oob (mtd to len : Z) (buf : bytes) : MT (Z * option Z) :=
  m ← get_mtd mtd; part ← PART mtd;
  if negb (writeable m) then mret (- EROFS, None)
  else
    M ← get_mtd (master part);
    '(r, n) ← on_dev (d_write_oob M (to + offset part) (clip m to len) buf);
    mret (r, Some n).

Definition part_writev (mtd : Z) (vecs : list bytes) (to : Z) : MT (Z * option Z) :=
  m ← get_mtd mtd; part ← PART mtd;
  if negb (writeable m) then mret (- EROFS, None)
  else
    M ← get_mtd (master part);
    '(r, n) ← on_dev (d_writev M vecs (to + offset part));
    mret (r, Some n).

Definition part_readv (mtd : Z) (vecs : list Z) (from : Z) : MT (Z * bytes) :=
  part ← PART mtd; M ← get_mtd (master part);
  on_dev (d_readv M vecs (from + offset part)).

Definition part_erase (mtd : Z) (instr : erase_info) : MT (Z * erase_info) :=
  m ← get_mtd mtd; part ← PART mtd;
  if negb (writeable m) then mret (- EROFS, instr)
  else if size m <=? e_addr instr then mret (- EINVAL, instr)
  else
    M ← get_mtd (master part);
    on_dev (d_erase M (set_e_addr (u32 (e_addr instr + offset part)) instr)).

Definition part_lock (mtd ofs len : Z) : MT Z :=
  m ← get_mtd mtd; part ← PART mtd;
  if size m <? len + ofs then mret (- EINVAL)
  else M ← get_mtd (master part); on_dev (d_lock M (ofs + offset part) len).

Definition part_unlock (mtd ofs len : Z) : MT Z :=
  m ← get_mtd mtd; part ← PART mtd;
  if size m <? len + ofs then mret (- EINVAL)
  else M ← get_mtd (master part); on_dev (d_unlock M (ofs + offset part) len).

Definition part_sync (mtd : Z) : MT unit :=
  part ← PART mtd; M ← get_mtd (master part); on_dev (d_sync M).

Definition part_suspend (mtd : Z) : MT Z :=
  part ← PART mtd; M ← get_mtd (master part); on_dev (d_suspend M).

Definition part_resume (mtd : Z) : MT unit :=
  part ← PART mtd; M ← get_mtd (master part); on_dev (d_resume M).

(** [mtd->erase(mtd, instr)] for a partition or a whole chip. *)
Definition mtd_erase (mtd : Z) (instr : erase_info) : MT (Z * erase_info) :=
  m ← get_mtd mtd;
  match erase m with
  | part_erase_fn => part_erase mtd instr
  | _ => on_dev (d_erase m instr)
  end.

(** The other pointers of a device object: those of a partition if [erase] is one, else those of the chip's driver. *)
Definition MTD_READ (mtd from len : Z) : MT (Z * bytes) :=
  m ← get_mtd mtd;
  match erase m with
  | part_erase_fn => part_read mtd from len
  | _ => on_dev (d_read m from len)
  end.
Definition MTD_WRITE (mtd to len : Z) (buf : bytes) : MT (Z * option Z) :=
  m ← get_mtd mtd;
  match erase m with
  | part_erase_fn => part_write mtd to len buf
  | _ => '(r, n) ← on_dev (d_write m to len buf); mret (r, Some n)
  end.
Definition MTD_SYNC (mtd : Z) : MT unit :=
  m ← get_mtd mtd;
  when (has_sync m)
    (match erase m with
     | part_erase_fn => part_sync mtd
     | _ => on_dev (d_sync m)
     end).

(** [try_inc] is [try_inc_mod_count]: whether a module that is not linked in can be
    kept.  The counts themselves are not part of the state. *)
Definition get_mtd_device (try_inc : Z -> bool) (mtd num : Z) : MT Z :=
  ret ← __get_mtd_device mtd num;
  if ret =? 0 then mret 0
  else m ← get_mtd ret; mret (if negb (module m =? 0) && negb (try_inc (module m)) then 0 else ret).
Definition put_mtd_device (mtd : Z) : MT unit := get_mtd mtd ;; mret tt.

(** ** Making and removing partitions *)

(** The nodes behind the list head at the start of the loop, in order. *)
Fixpoint del_loop (mst : Z) (l : list Z) : MT unit :=
  match l with
  | [] => mret tt
  | p :: l' =>
      slave ← PART p;
      when (master slave =? mst)
        (modify (fun s => set_partitions (default (mtd_partitions s) (unlink p (mtd_partitions s))) s) ;;
         when (negb (registered slave =? 0)) (del_mtd_device p ;; mret tt) ;;
         kfree_part p) ;;
      del_loop mst l'
  end.
Definition del_mtd_partitions (mst : Z) : MT Z :=
  l ← gets mtd_partitions;
  del_loop mst l ;;
  mret 0.

(** The slave of partition number [i] before its place is found. *)
Definition new_slave (M : mtd_info) (p : mtd_partition) (i : Z) : mtd_info :=
  let both := (i =? 0) && has_suspend M && has_resume M in
  mkMtd (type M) (Z.land (flags M) (Z.lnot (pt_mask_flags p))) (pt_size p) 0 (oobblock M) (oobsize M) (ecctype M) (eccsize M)
    (pt_name p) 0 0 [] (mtd_bank_size M) (module M) part_erase_fn (has_point M) (has_read_oob M) (has_write_oob M)
    (has_readv M) (has_writev M) (has_sync M) (has_lock M) (has_unlock M) both both.

(** The table of the erase regions. *)
Definition regions (M : mtd_info) : list mtd_erase_region_info := take (Z.to_nat (numeraseregions M)) (eraseregions M).

(** Where the partition begins. *)
Definition place (M : mtd_info) (p : mtd_partition) (cur_offset : Z) : Z :=
  let o := if pt_offset p =? MTDPART_OFS_APPEND then cur_offset else pt_offset p in
  if o =? MTDPART_OFS_NXTBLK then
    let emask := u32 (erasesize M - 1) in Z.land (u32 (cur_offset + emask)) (Z.lnot emask)
  else o.

(** The offset and the size that pass the checks, and the next [cur_offset]. *)
Definition fit (M : mtd_info) (p : mtd_partition) (cur_offset : Z) : Z * Z * Z :=
  let o := place M p cur_offset in
  let sz := if pt_size p =? MTDPART_SIZ_FULL then u32 (size M - o) else pt_size p in
  let next := u32 (o + sz) in
  let '(o, sz) := if size M <=? o then (0, 0) else (o, sz) in
  let sz := if size M <? u32 (o + sz) then u32 (size M - o) else sz in
  (o, sz, next).

(** [for (; i < n && x >= regions[i].offset; i++);], [l] being the regions from [i] on. *)
Fixpoint skip_regions (x i : Z) (l : list mtd_erase_region_info) : Z :=
  match l with
  | [] => i
  | r :: l' => if r_offset r <=? x then skip_regions x (i + 1) l' else i
  end.
(** The largest erase size of the regions from the first of [l] that begin below [stop]. *)
Fixpoint largest_erasesize (e stop : Z) (l : list mtd_erase_region_info) : Z :=
  match l with
  | [] => e
  | r :: l' =>
      if r_offset r <? stop then largest_erasesize (if e <? r_erasesize r then r_erasesize r else e) stop l' else e
  end.
(** The erase size of the slave; [None]: the table is read before its start. *)
Definition part_erasesize (M : mtd_info) (o sz : Z) : option Z :=
  if 1 <? numeraseregions M then
    let i := skip_regions o 0 (regions M) - 1 in
    if i <? 0 then None
    else Some (largest_erasesize 0 (u32 (o + sz)) (drop (Z.to_nat i) (regions M)))
  else Some (erasesize M).

(** [if ((flags & MTD_WRITEABLE) && (x % erasesize)) flags &= ~MTD_WRITEABLE] *)
Definition force_read_only (x : Z) (m : mtd_info) : MT mtd_info :=
  if negb (writeable m) then mret m
  else if erasesize m =? 0 then stop_with DivisionByZero
  else mret (if x mod erasesize m =? 0 then m else set_flags (Z.land (flags m) (Z.lnot MTD_WRITEABLE)) m).

Fixpoint add_loop (mst : Z) (l : list mtd_partition) (i cur_offset : Z) : MT Z :=
  match l with
  | [] => mret 0
  | p :: l' =>
      slave ← kmalloc;
      if slave =? 0 then
        del_mtd_partitions mst ;; mret (- ENOMEM)
      else
        modify (fun s => set_partitions (slave :: mtd_partitions s) s) ;;
        M ← get_mtd mst;
        let '(o, sz, next) := fit M p cur_offset in
        put_mtd slave (set_size sz (new_slave M p i)) ;;
        put_part slave (mkPart mst o i 0) ;;
        match part_erasesize M o sz with
        | None => stop_with OutOfBounds
        | Some e =>
            m ← force_read_only o (set_erasesize e (set_size sz (new_slave M p i)));
            m ← force_read_only sz m;
            put_mtd slave m ;;
            (if negb (pt_mtdp p =? 0) then
               modify (fun s => set_stored (<[pt_mtdp p := slave]> (stored s)) s) ;;
               put_part slave (mkPart mst o i 0)
             else
               add_mtd_device slave ;;
               put_part slave (mkPart mst o i 1)) ;;
            add_loop mst l' (i + 1) next
        end
  end.

(** [l] is the table with its [nbparts] entries. *)
Definition add_mtd_partitions (mst : Z) (l : list mtd_partition) : MT Z := add_loop mst l 0 0.
End Mtd.
