(* ===== verification/Cfi.v ===== *)
(** * The driver for flash chips with the command set of AMD
    (src/linux2510/drivers/mtd/chips/cfi_cmdset_0002.c, src/linux2510/include/linux/mtd/cfi.h,
    src/linux2510/include/linux/mtd/flashchip.h, and the accesses of
    src/linux2510/drivers/mtd/maps/integrator-flash_sc2510.c)

    The chip is [NorFlash] and [NorBus].  The kernel has no other processor, so
    the spin locks have no effect.  Sleeping lets the other tasks run: [others]
    is what they do to the state until this one is woken up.  [later us j] is the
    time, in [jiffies], after waiting [us] microseconds from [j] on.  [wake_up]
    and the empty [armflash_set_vpp] have no effect on the state. *)

From S2P Require Import Prelude FlashChip CfiChip Mtd.

Definition EIO : Z := 5.
Definition EAGAIN : Z := 11.
Definition HZ : Z := 100.
Definition CFI_DEVICETYPE_X8 : Z := 1.
Definition CFI_DEVICETYPE_X16 : Z := 2.
Definition CFI_DEVICETYPE_X32 : Z := 4.

Inductive flstate_t : Type :=
| FL_READY | FL_STATUS | FL_CFI_QUERY | FL_JEDEC_QUERY | FL_ERASING | FL_ERASE_SUSPENDING | FL_ERASE_SUSPENDED
| FL_WRITING | FL_WRITING_TO_BUFFER | FL_WRITE_SUSPENDING | FL_WRITE_SUSPENDED | FL_PM_SUSPENDED | FL_SYNCING
| FL_UNLOADING | FL_LOCKING | FL_UNLOCKING | FL_UNKNOWN.
#[export] Instance flstate_eq_dec : EqDecision flstate_t.
Proof. solve_decision. Defined.

Record flchip : Type := mkFlchip {
  start : Z;
  state : flstate_t;
  oldstate : flstate_t;
  word_write_time : Z;
  buffer_write_time : Z;
  erase_time : Z;
}.
Definition set_state st c := mkFlchip (start c) st (oldstate c) (word_write_time c) (buffer_write_time c) (erase_time c).
Definition set_oldstate st c := mkFlchip (start c) (state c) st (word_write_time c) (buffer_write_time c) (erase_time c).

(** What the driver uses of the table that the chip, or the probe, supplies. *)
Record cfi_ident : Type := mkIdent {
  P_ADR : Z;
  A_ADR : Z;
  WordWriteTimeoutTyp : Z;
  BufWriteTimeoutTyp : Z;
  BlockEraseTimeoutTyp : Z;
  DevSize : Z;
  NumEraseRegions : Z;
  EraseRegionInfo : list Z;
}.
Definition set_region_info x q := mkIdent (P_ADR q) (A_ADR q) (WordWriteTimeoutTyp q) (BufWriteTimeoutTyp q) (BlockEraseTimeoutTyp q) (DevSize q) (NumEraseRegions q) x.

Record cfi_private : Type := mkCfi {
  interleave : Z;
  device_type : Z;
  cfi_mode : Z;
  addr_unlock1 : Z;
  addr_unlock2 : Z;
  fast_prog : Z;
  cfiq : cfi_ident;
  mfr : Z;
  cfi_id : Z;
  numchips : Z;
  chipshift : Z;
  chips : list flchip;
}.
Definition set_unlock x y c := mkCfi (interleave c) (device_type c) (cfi_mode c) x y (fast_prog c) (cfiq c) (mfr c) (cfi_id c) (numchips c) (chipshift c) (chips c).
Definition set_cfiq x c := mkCfi (interleave c) (device_type c) (cfi_mode c) (addr_unlock1 c) (addr_unlock2 c) (fast_prog c) x (mfr c) (cfi_id c) (numchips c) (chipshift c) (chips c).
Definition set_cfi_ids x y c := mkCfi (interleave c) (device_type c) (cfi_mode c) (addr_unlock1 c) (addr_unlock2 c) (fast_prog c) (cfiq c) x y (numchips c) (chipshift c) (chips c).
Definition set_chips x c := mkCfi (interleave c) (device_type c) (cfi_mode c) (addr_unlock1 c) (addr_unlock2 c) (fast_prog c) (cfiq c) (mfr c) (cfi_id c) (numchips c) (chipshift c) x.

Record map_info : Type := mkMap {
  map_name : cstr;
  map_size : Z;
  buswidth : Z;
  map_priv_2 : Z;
}.

Record CfiSt (F : Type) : Type := mkCfiSt {
  cfi : cfi_private;
  map : map_info;
  nor : F;
  jiffies : Z;
}.
Arguments mkCfiSt {F}. Arguments cfi {F}. Arguments map {F}. Arguments nor {F}. Arguments jiffies {F}.
Definition set_cfi {F} x (s : CfiSt F) := mkCfiSt x (map s) (nor s) (jiffies s).
Definition set_nor {F} (x : F) (s : CfiSt F) := mkCfiSt (cfi s) (map s) x (jiffies s).
Definition set_jiffies {F} x (s : CfiSt F) := mkCfiSt (cfi s) (map s) (nor s) x.

(** [time_after (a, b)]: [(long)(b) - (long)(a) < 0] *)
Definition time_after (a b : Z) : bool := s32 (b - a) <? 0.

Section Cfi.
(** [fuel] bounds the retries after sleeping, the polls of an erasure and the blocks of a request. *)
Context {F : Type} `{NorFlash F} `{NorBus F} (fuel : nat) (others : CfiSt F -> CfiSt F) (later : Z -> Z -> Z).
Abbreviation C A := (M (CfiSt F) A).

(** ** The map *)

Definition on_nor {A} (g : F -> A * F) : C A := fun s => let '(a, f) := g (nor s) in Ret a (set_nor f s).
Definition nor_do (g : F -> F) : C unit := modify (fun s => set_nor (g (nor s)) s).
Definition armflash_address (ofs : Z) : C Z := gets (fun s => u32 (ofs + map_priv_2 (map s))).
Definition armflash_read8 (ofs : Z) : C Z := a ← armflash_address ofs; on_nor (rd8 a).
Definition armflash_read16 (ofs : Z) : C Z := a ← armflash_address ofs; on_nor (rd16 a).
Definition armflash_read32 (ofs : Z) : C Z := a ← armflash_address ofs; on_nor (rd32 a).
Definition armflash_write8 (d adr : Z) : C unit := a ← armflash_address adr; nor_do (wr8 a (u8 d)).
Definition armflash_write16 (d adr : Z) : C unit := a ← armflash_address adr; nor_do (wr16 a (u16 d)).
Definition armflash_write32 (d adr : Z) : C unit := a ← armflash_address adr; nor_do (wr32 a (u32 d)).
(** [memcpy] from the flash, byte by byte. *)
Fixpoint copy_bytes (n : nat) (ofs : Z) : C bytes :=
  match n with
  | O => mret []
  | S n' => b ← armflash_read8 ofs; l ← copy_bytes n' (ofs + 1); mret (b :: l)
  end.
Definition armflash_copy_from (from len : Z) : C bytes := copy_bytes (Z.to_nat len) from.
Definition armflash_set_vpp (on : Z) : C unit := mret tt.

Definition the_cfi {A} (g : cfi_private -> A) : C A := gets (fun s => g (cfi s)).
Definition CFIDEV_BUSWIDTH : C Z := gets (fun s => buswidth (map s)).

Definition cfi_build_cmd_addr (cmd_ofs interleave type : Z) : Z := u32 (cmd_ofs * type * interleave).

Definition cfi_build_cmd (cmd bw interleave : Z) : Z :=
  if bw =? 1 then cmd
  else if bw =? 2 then
    if interleave =? 1 then cmd
    else if interleave =? 2 then u16 (Z.lor (Z.shiftl cmd 8) cmd)
    else 0
  else if bw =? 4 then
    if interleave =? 1 then cmd
    else if interleave =? 2 then Z.lor (Z.shiftl cmd 16) cmd
    else if interleave =? 4 then
      let val := Z.lor (Z.shiftl cmd 16) cmd in Z.lor (u32 (Z.shiftl val 8)) val
    else 0
  else 0.
Definition CMD (x : Z) : C Z := gets (fun s => cfi_build_cmd x (buswidth (map s)) (interleave (cfi s))).

Definition cfi_read (addr : Z) : C Z :=
  bw ← CFIDEV_BUSWIDTH;
  if bw =? 1 then armflash_read8 addr
  else if bw =? 2 then armflash_read16 addr
  else if bw =? 4 then armflash_read32 addr
  else mret 0.

Definition cfi_write (val addr : Z) : C unit :=
  bw ← CFIDEV_BUSWIDTH;
  if bw =? 1 then armflash_write8 val addr
  else if bw =? 2 then armflash_write16 val addr
  else if bw =? 4 then armflash_write32 val addr
  else mret tt.

(** [prev_val] is null in all calls; the result is not used. *)
Definition cfi_send_gen_cmd (cmd cmd_addr base type : Z) : C unit :=
  il ← the_cfi interleave;
  val ← CMD cmd;
  cfi_write val (u32 (base + cfi_build_cmd_addr cmd_addr il type)).

Definition cfi_read_query (addr : Z) : C Z :=
  bw ← CFIDEV_BUSWIDTH;
  if bw =? 1 then armflash_read8 addr
  else if bw =? 2 then x ← armflash_read16 addr; mret (u8 x)
  else if bw =? 4 then x ← armflash_read32 addr; mret (u8 x)
  else mret 0.

Definition cfi_udelay (us : Z) : C unit := modify (fun s => set_jiffies (u32 (later us (jiffies s))) s).
(** [schedule_timeout (HZ)]: a second. *)
Definition schedule_timeout_HZ : C unit := cfi_udelay 1000000.
Definition schedule : C unit := modify others.

Definition chip (n : Z) : C flchip :=
  l ← the_cfi chips;
  match (if n <? 0 then None else l !! Z.to_nat n) with
  | Some c => mret c
  | None => stop_with OutOfBounds
  end.
Definition upd_chip (n : Z) (g : flchip -> flchip) : C unit :=
  modify (fun s => set_cfi (set_chips (alter g (Z.to_nat n) (chips (cfi s))) (cfi s)) s).

(** The loop at [retry]: sleep until the chip is ready. *)
Fixpoint wait_ready (k : nat) (n : Z) : C unit :=
  c ← chip n;
  if decide (state c = FL_READY) then mret tt
  else match k with
       | O => stop_with OutOfFuel
       | S k' => schedule ;; wait_ready k' n
       end.

(** ** Reading *)

Definition do_read_onechip (n adr len : Z) : C (Z * bytes) :=
  wait_ready fuel n ;;
  c ← chip n;
  upd_chip n (set_state FL_READY) ;;
  buf ← armflash_copy_from (adr + start c) len;
  mret (0, buf).

Fixpoint read_loop (k : nat) (chipnum ofs len : Z) : C (Z * bytes) :=
  if len =? 0 then mret (0, [])
  else match k with
       | O => stop_with OutOfFuel
       | S k' =>
           num ← the_cfi numchips;
           if num <=? chipnum then mret (0, [])
           else
             sh ← the_cfi chipshift;
             let thislen := if negb (Z.shiftr (u32 (len + ofs - 1)) sh =? 0) then Z.shiftl 1 sh - ofs else len in
             '(ret, b) ← do_read_onechip chipnum ofs thislen;
             if negb (ret =? 0) then mret (ret, [])
             else '(ret, b') ← read_loop k' (chipnum + 1) 0 (len - thislen); mret (ret, b ++ b')
       end.
Definition cfi_amdstd_read (mtd : mtd_info) (from len : Z) : C (Z * bytes) :=
  sh ← the_cfi chipshift;
  let chipnum := s32 (Z.shiftr from sh) in
  read_loop fuel chipnum (u32 (from - Z.shiftl chipnum sh)) len.

(** ** Writing *)

(** [last] is [Last[(Count - 1) % 4]], the last value read; [k] the turns until [Count] is 500000. *)
Fixpoint poll_word (k : nat) (adr datum last : Z) : C Z :=
  match k with
  | O => mret last
  | S k' =>
      if last =? datum then mret last
      else cfi_udelay 10 ;; x ← cfi_read adr; poll_word k' adr datum x
  end.

(** The two unlock cycles and a command. *)
Definition unlock_cmd (cmd st : Z) : C unit :=
  u1 ← the_cfi addr_unlock1; u2 ← the_cfi addr_unlock2;
  cfi_send_gen_cmd 0xAA u1 st CFI_DEVICETYPE_X8 ;;
  cfi_send_gen_cmd 0x55 u2 st CFI_DEVICETYPE_X8 ;;
  cfi_send_gen_cmd cmd u1 st CFI_DEVICETYPE_X8.

Definition do_write_oneword (n adr datum : Z) (fast : bool) : C Z :=
  wait_ready fuel n ;;
  upd_chip n (set_state FL_WRITING) ;;
  c ← chip n;
  ty ← the_cfi device_type;
  let adr := adr + start c in
  armflash_set_vpp 1 ;;
  (if fast then cfi_send_gen_cmd 0xA0 0 (start c) ty else unlock_cmd 0xA0 (start c)) ;;
  cfi_write datum adr ;;
  cfi_udelay (word_write_time c) ;;
  cfi_read adr ;; cfi_read adr ;; last ← cfi_read adr;
  last ← poll_word (Z.to_nat 499997) adr datum last;
  ret ← (if last =? datum then mret 0
         else cfi_send_gen_cmd 0xF0 0 (start c) ty ;; armflash_set_vpp 0 ;; mret (- EIO));
  armflash_set_vpp 0 ;;
  upd_chip n (set_state FL_READY) ;;
  mret ret.

(** The word of [bw] bytes at a pointer; [None]: the bus width is not supported there. *)
Definition datum_at (bw : Z) (l : bytes) : C (option Z) :=
  match l with
  | b0 :: b1 :: l' =>
      if bw =? 2 then mret (Some (half b0 b1))
      else if bw =? 4 then
        match l' with
        | b2 :: b3 :: _ => mret (Some (half b0 b1 + 2 ^ 16 * half b2 b3))
        | _ => stop_with OutOfBounds
        end
      else mret None
  | _ => if (bw =? 2) || (bw =? 4) then stop_with OutOfBounds else mret None
  end.

Definition leave_bypass (chipstart : Z) : C unit :=
  ty ← the_cfi device_type;
  cfi_send_gen_cmd 0x90 0 chipstart ty ;;
  cfi_send_gen_cmd 0x00 0 chipstart ty.
Definition fast_programming : C bool := the_cfi (fun c => negb (fast_prog c =? 0)).

(** Where the writing of a request stands: the chip and its start, the offset in it, what is left of the buffer. *)
Record cursor : Type := mkCursor { c_chip : Z; c_start : Z; c_ofs : Z; c_buf : bytes; c_len : Z; c_retlen : Z }.

(** [tmp_buf] with bytes of the buffer from [i] on, and [do_write_oneword] of it. *)
Definition write_partial (bw chipnum bus_ofs : Z) (i n : nat) (buf : bytes) : C Z :=
  c ← chip chipnum;
  tmp ← armflash_copy_from (bus_ofs + start c) bw;
  if (length buf <? n)%nat then stop_with OutOfBounds
  else
    d ← datum_at bw (take i tmp ++ take n buf ++ drop (i + n) tmp);
    match d with
    | None => mret (- EINVAL)
    | Some datum => do_write_oneword chipnum bus_ofs datum false
    end.

(** The bytes up to the next word; [inl]: the request ends here with a result and [*retlen]. *)
Definition write_first (bw : Z) (k : cursor) : C ((Z * Z) + cursor) :=
  if Z.land (c_ofs k) (bw - 1) =? 0 then mret (inr k)
  else
    sh ← the_cfi chipshift; num ← the_cfi numchips;
    let bus_ofs := Z.land (c_ofs k) (Z.lnot (bw - 1)) in
    let i := c_ofs k - bus_ofs in
    let n := Z.min (c_len k) (bw - i) in
    ret ← write_partial bw (c_chip k) bus_ofs (Z.to_nat i) (Z.to_nat n) (c_buf k);
    if negb (ret =? 0) then mret (inl (ret, c_retlen k))
    else
      let ofs := c_ofs k + n in
      let k' := mkCursor (c_chip k) (c_start k) ofs (drop (Z.to_nat n) (c_buf k)) (c_len k - n) (c_retlen k + n) in
      if Z.shiftr ofs sh =? 0 then mret (inr k')
      else if c_chip k + 1 =? num then mret (inl (0, c_retlen k'))
      else mret (inr (mkCursor (c_chip k + 1) (c_start k) 0 (c_buf k') (c_len k') (c_retlen k'))).

(** [while (len >= CFIDEV_BUSWIDTH)] *)
Fixpoint write_words (j : nat) (bw : Z) (k : cursor) : C ((Z * Z) + cursor) :=
  if c_len k <? bw then mret (inr k)
  else match j with
  | O => stop_with OutOfFuel
  | S j' =>
      fast ← fast_programming; sh ← the_cfi chipshift; num ← the_cfi numchips;
      d ← (if bw =? 1 then match c_buf k with b :: _ => mret (Some b) | [] => stop_with OutOfBounds end
           else datum_at bw (c_buf k));
      match d with
      | None => mret (inl (- EINVAL, c_retlen k))
      | Some datum =>
          ret ← do_write_oneword (c_chip k) (c_ofs k) datum fast;
          if negb (ret =? 0) then
            when fast (leave_bypass (c_start k)) ;; mret (inl (ret, c_retlen k))
          else
            let ofs := c_ofs k + bw in
            let k' := mkCursor (c_chip k) (c_start k) ofs (drop (Z.to_nat bw) (c_buf k)) (c_len k - bw) (c_retlen k + bw) in
            if Z.shiftr ofs sh =? 0 then write_words j' bw k'
            else
              when fast (leave_bypass (c_start k)) ;;
              if c_chip k + 1 =? num then mret (inl (0, c_retlen k'))
              else
                c ← chip (c_chip k + 1);
                when fast (unlock_cmd 0x20 (start c)) ;;
                write_words j' bw (mkCursor (c_chip k + 1) (start c) 0 (c_buf k') (c_len k') (c_retlen k'))
      end
  end.

(** The bytes of the last word. *)
Definition write_last (bw : Z) (k : cursor) : C (Z * Z) :=
  if Z.land (c_len k) (bw - 1) =? 0 then mret (0, c_retlen k)
  else
    ret ← write_partial bw (c_chip k) (c_ofs k) 0 (Z.to_nat (c_len k)) (c_buf k);
    if negb (ret =? 0) then mret (ret, c_retlen k) else mret (0, c_retlen k + c_len k).

Definition cfi_amdstd_write (mtd : mtd_info) (to len : Z) (buf : bytes) : C (Z * Z) :=
  if len =? 0 then mret (0, 0)
  else
    sh ← the_cfi chipshift; bw ← CFIDEV_BUSWIDTH; fast ← fast_programming;
    let chipnum := s32 (Z.shiftr to sh) in
    c ← chip chipnum;
    r ← write_first bw (mkCursor chipnum (start c) (u32 (to - Z.shiftl chipnum sh)) buf len 0);
    match r with
    | inl x => mret x
    | inr k =>
        when fast (unlock_cmd 0x20 (c_start k)) ;;
        r ← write_words (Z.to_nat len) bw k;
        match r with
        | inl x => mret x
        | inr k => when fast (leave_bypass (c_start k)) ;; write_last bw k
        end
    end.

(** ** Erasing *)

(** [while ((cfi_read(map,adr) & rdy_mask) != rdy_mask)] *)
Fixpoint wait_erased (k : nat) (n adr rdy_mask timeo : Z) : C Z :=
  match k with
  | O => stop_with OutOfFuel
  | S k' =>
      status ← cfi_read adr;
      if Z.land status rdy_mask =? rdy_mask then
        armflash_set_vpp 0 ;; upd_chip n (set_state FL_READY) ;; mret 0
      else
        c ← chip n; now ← gets jiffies;
        if decide (state c = FL_ERASING) then
          if time_after now timeo then
            upd_chip n (set_state FL_READY) ;; armflash_set_vpp 0 ;; mret (- EIO)
          else cfi_udelay 1 ;; wait_erased k' n adr rdy_mask timeo
        else
          schedule ;; now ← gets jiffies; wait_erased k' n adr rdy_mask (u32 (now + HZ * 2))
  end.

Definition do_erase_oneblock (n adr : Z) : C Z :=
  wait_ready fuel n ;;
  upd_chip n (set_state FL_ERASING) ;;
  c ← chip n;
  let adr := adr + start c in
  armflash_set_vpp 1 ;;
  u1 ← the_cfi addr_unlock1; u2 ← the_cfi addr_unlock2;
  unlock_cmd 0x80 (start c) ;;
  cfi_send_gen_cmd 0xAA u1 (start c) CFI_DEVICETYPE_X8 ;;
  cfi_send_gen_cmd 0x55 u2 (start c) CFI_DEVICETYPE_X8 ;;
  cmd ← CMD 0x30;
  cfi_write cmd adr ;;
  now ← gets jiffies;
  let timeo := u32 (now + HZ * 20) in
  schedule_timeout_HZ ;;
  rdy_mask ← CMD 0x80;
  wait_erased fuel n adr rdy_mask timeo.

Definition region (l : list mtd_erase_region_info) (i : Z) : C mtd_erase_region_info :=
  match (if i <? 0 then None else l !! Z.to_nat i) with
  | Some r => mret r
  | None => stop_with OutOfBounds
  end.

(** [while (len)]; [None]: all erased. *)
Fixpoint erase_var_loop (k : nat) (l : list mtd_erase_region_info) (chipnum adr len i : Z) : C (option Z) :=
  if len =? 0 then mret None
  else match k with
  | O => stop_with OutOfFuel
  | S k' =>
      ret ← do_erase_oneblock chipnum adr;
      if negb (ret =? 0) then mret (Some ret)
      else
        sh ← the_cfi chipshift; num ← the_cfi numchips;
        r ← region l i;
        let adr := u32 (adr + r_erasesize r) in
        let len := u32 (len - r_erasesize r) in
        let i := if adr mod Z.shiftl 1 sh =? u32 (r_offset r + r_erasesize r * r_numblocks r) mod Z.shiftl 1 sh then i + 1 else i in
        if Z.shiftr adr sh =? 0 then erase_var_loop k' l chipnum adr len i
        else if num <=? chipnum + 1 then mret None
        else erase_var_loop k' l (chipnum + 1) 0 len i
  end.

(** What is done when the blocks are erased, or one could not be. *)
Definition erase_result (instr : erase_info) (r : option Z) : Z * erase_info :=
  match r with
  | Some ret => (ret, instr)
  | None => (0, finish_erase MTD_ERASE_DONE instr)
  end.

Definition cfi_amdstd_erase_varsize (mtd : mtd_info) (instr : erase_info) : C (Z * erase_info) :=
  let l := regions mtd in
  let addr := e_addr instr in
  let stop := u32 (e_len instr + addr) in
  if (size mtd <? addr) || (size mtd <? stop) then mret (- EINVAL, instr)
  else
    let first := skip_regions addr 0 l - 1 in
    r ← region l first;
    if negb (Z.land addr (u32 (r_erasesize r - 1)) =? 0) then mret (- EINVAL, instr)
    else
      let i := skip_regions stop first (drop (Z.to_nat first) l) - 1 in
      r ← region l i;
      if negb (Z.land stop (u32 (r_erasesize r - 1)) =? 0) then mret (- EINVAL, instr)
      else
        sh ← the_cfi chipshift;
        let chipnum := Z.shiftr addr sh in
        o ← erase_var_loop fuel l chipnum (addr - Z.shiftl chipnum sh) (e_len instr) first;
        mret (erase_result instr o).

Fixpoint erase_one_loop (k : nat) (es chipnum adr len : Z) : C (option Z) :=
  if len =? 0 then mret None
  else match k with
  | O => stop_with OutOfFuel
  | S k' =>
      ret ← do_erase_oneblock chipnum adr;
      if negb (ret =? 0) then mret (Some ret)
      else
        sh ← the_cfi chipshift; num ← the_cfi numchips;
        let adr := u32 (adr + es) in
        let len := u32 (len - es) in
        if Z.shiftr adr sh =? 0 then erase_one_loop k' es chipnum adr len
        else if num <=? chipnum + 1 then mret None
        else erase_one_loop k' es (chipnum + 1) 0 len
  end.

Definition cfi_amdstd_erase_onesize (mtd : mtd_info) (instr : erase_info) : C (Z * erase_info) :=
  let mask := u32 (erasesize mtd - 1) in
  if negb (Z.land (e_addr instr) mask =? 0) || negb (Z.land (e_len instr) mask =? 0) ||
     (size mtd <? u32 (e_len instr + e_addr instr)) then mret (- EINVAL, instr)
  else
    sh ← the_cfi chipshift;
    let chipnum := Z.shiftr (e_addr instr) sh in
    o ← erase_one_loop fuel (erasesize mtd) chipnum (e_addr instr - Z.shiftl chipnum sh) (e_len instr);
    mret (erase_result instr o).

(** ** Synchronising, power management *)

(** The states in which nothing goes on. *)
Definition quiet (st : flstate_t) : bool :=
  match st with FL_READY | FL_STATUS | FL_CFI_QUERY | FL_JEDEC_QUERY => true | _ => false end.

(** A chip put into state [st]; [None]: it must be waited for. *)
Definition grab (st : flstate_t) (c : flchip) : option flchip :=
  if quiet (state c) then Some (set_state st (set_oldstate (state c) c))
  else if decide (state c = st) then Some c else None.
(** A chip taken out of state [st] again. *)
Definition release (st : flstate_t) (c : flchip) : flchip := if decide (state c = st) then set_state (oldstate c) c else c.

Fixpoint sync_chip (k : nat) (n : Z) : C unit :=
  c ← chip n;
  match grab FL_SYNCING c with
  | Some c' => upd_chip n (fun _ => c')
  | None => match k with O => stop_with OutOfFuel | S k' => schedule ;; sync_chip k' n end
  end.
(** Chips [n - 1] down to 0. *)
Fixpoint release_chips (st : flstate_t) (n : nat) : C unit :=
  match n with
  | O => mret tt
  | S n' => chip (Z.of_nat n') ;; upd_chip (Z.of_nat n') (release st) ;; release_chips st n'
  end.
Fixpoint sync_chips (todo : nat) (n : Z) : C unit :=
  match todo with
  | O => mret tt
  | S todo' => sync_chip fuel n ;; sync_chips todo' (n + 1)
  end.
Definition cfi_amdstd_sync (mtd : mtd_info) : C unit :=
  num ← the_cfi numchips;
  sync_chips (Z.to_nat num) 0 ;;
  release_chips FL_SYNCING (Z.to_nat num).

(** The result and the number of chips looked at, the busy one included. *)
Fixpoint suspend_chips (todo : nat) (n : Z) : C (Z * Z) :=
  match todo with
  | O => mret (0, n)
  | S todo' =>
      c ← chip n;
      match grab FL_PM_SUSPENDED c with
      | Some c' => upd_chip n (fun _ => c') ;; suspend_chips todo' (n + 1)
      | None => mret (- EAGAIN, n + 1)
      end
  end.
Definition cfi_amdstd_suspend (mtd : mtd_info) : C Z :=
  num ← the_cfi numchips;
  '(ret, n) ← suspend_chips (Z.to_nat num) 0;
  (if ret =? 0 then mret tt else release_chips FL_PM_SUSPENDED (Z.to_nat n)) ;;
  mret ret.

Fixpoint resume_chips (todo : nat) (n : Z) : C unit :=
  match todo with
  | O => mret tt
  | S todo' =>
      c ← chip n;
      (if decide (state c = FL_PM_SUSPENDED) then
         upd_chip n (set_state FL_READY) ;; cmd ← CMD 0xF0; cfi_write cmd (start c)
       else mret tt) ;;
      resume_chips todo' (n + 1)
  end.
Definition cfi_amdstd_resume (mtd : mtd_info) : C unit :=
  num ← the_cfi numchips;
  resume_chips (Z.to_nat num) 0.

(** ** Making the device *)

(** [((info >> 8) & ~0xff) * interleave] and [(info & 0xffff) + 1] *)
Definition region_size (il info : Z) : Z := u32 (Z.land (Z.shiftr info 8) (Z.lnot 0xff) * il).
Definition region_blocks (info : Z) : Z := Z.land info 0xffff + 1.

(** The entries of one region for the [num] chips; [nr] is [NumEraseRegions]. *)
Definition fill_region (nr num : nat) (i : nat) (devsize ofs ersize ernum : Z) (t : list mtd_erase_region_info) : list mtd_erase_region_info :=
  foldl (fun t j => <[(j * nr + i)%nat := mkRegion (u32 (Z.of_nat j * devsize + ofs)) ersize ernum]> t) t (seq 0 num).

(** The loop over the regions: the erase size, the table, the sum of the sizes. *)
Fixpoint setup_regions (il devsize : Z) (nr num : nat) (infos : list Z) (i : nat) (ofs es : Z) (t : list mtd_erase_region_info) :
    Z * list mtd_erase_region_info * Z :=
  match infos with
  | [] => (es, t, ofs)
  | info :: infos' =>
      let ersize := region_size il info in
      let ernum := region_blocks info in
      setup_regions il devsize nr num infos' (S i) (u32 (ofs + ersize * ernum)) (if es <? ersize then ersize else es)
        (fill_region nr num i devsize ofs ersize ernum t)
  end.

(** The device of a chip with the given erase sizes. *)
Definition amdstd_mtd (s : CfiSt F) (sz es nreg : Z) (t : list mtd_erase_region_info) : mtd_info :=
  mkMtd MTD_NORFLASH MTD_CAP_NORFLASH sz es 0 0 0 0 (map_name (map s)) 0 nreg t 0 0
    (if 1 <? nreg then cfi_erase_varsize else cfi_erase_onesize) false false false false false true false false true true.

(** [mem1] and [mem2]: the allocations of the device and of its table succeed; the new table holds [junk]. *)
Definition cfi_amdstd_setup (mem1 mem2 : bool) (junk : mtd_erase_region_info) : C (option mtd_info) := fun s =>
  let c := cfi s in
  let q := cfiq c in
  let devsize := u32 (Z.shiftl 1 (DevSize q) * interleave c) in
  let sz := u32 (devsize * numchips c) in
  let bw := buswidth (map s) in
  let supported := (bw =? 1) || (bw =? 2) || (bw =? 4) in
  if negb mem1 then Ret None s
  else if NumEraseRegions q =? 1 then
    match EraseRegionInfo q with
    | [] => Stop OutOfBounds s
    | info :: _ => Ret (if supported then Some (amdstd_mtd s sz (region_size (interleave c) info) 0 []) else None) s
    end
  else if negb mem2 then Ret None s
  else if (length (EraseRegionInfo q) <? Z.to_nat (NumEraseRegions q))%nat then Stop OutOfBounds s
  else
    let nr := Z.to_nat (NumEraseRegions q) in
    let num := Z.to_nat (numchips c) in
    let '(es, t, ofs) := setup_regions (interleave c) devsize nr num (take nr (EraseRegionInfo q)) 0 0 0 (replicate (nr * num) junk) in
    if negb (ofs =? devsize) then Ret None s
    else Ret (if supported then Some (amdstd_mtd s sz es (NumEraseRegions q * numchips c) t) else None) s.

(** [swap = a[i]; a[i] = a[j]; a[j] = swap] for the pairs from the ends inwards. *)
Fixpoint swap_regions (todo i n : nat) (l : list Z) : list Z :=
  match todo with
  | O => l
  | S todo' =>
      let j := (n - 1 - i)%nat in
      swap_regions todo' (S i) n (<[j := nth i l 0]> (<[i := nth j l 0]> l))
  end.

(** The addresses of the unlock cycles; [None]: the type is not known. *)
Definition unlock_addresses (ty bw il : Z) : option (Z * Z) :=
  if ty =? CFI_DEVICETYPE_X8 then Some (0x555, 0x2aa)
  else if ty =? CFI_DEVICETYPE_X16 then Some (0xaaa, if bw =? il then 0x555 else 0x554)
  else if ty =? CFI_DEVICETYPE_X32 then Some (0x1555, 0xaaa)
  else None.

Definition set_times (q : cfi_ident) (c : flchip) : flchip :=
  mkFlchip (start c) (state c) (oldstate c) (Z.shiftl 1 (WordWriteTimeoutTyp q)) (Z.shiftl 1 (BufWriteTimeoutTyp q)) (Z.shiftl 1 (BlockEraseTimeoutTyp q)).

(** The part for chips found by their query table; [false]: the device type is not known. *)
Definition cmdset_query (primary : bool) (bse : Z) : C bool :=
  il ← the_cfi interleave; ty ← the_cfi device_type; q ← the_cfi cfiq; bw ← CFIDEV_BUSWIDTH;
  let ofs_factor := il * ty in
  let adr := if primary then P_ADR q else A_ADR q in
  cfi_send_gen_cmd 0x98 0x55 bse ty ;;
  major ← cfi_read_query (bse + (adr + 3) * ofs_factor);
  minor ← cfi_read_query (bse + (adr + 4) * ofs_factor);
  cfi_send_gen_cmd 0xf0 0x55 bse ty ;;
  cfi_send_gen_cmd 0xaa 0x555 bse ty ;;
  cfi_send_gen_cmd 0x55 0x2aa bse ty ;;
  cfi_send_gen_cmd 0x90 0x555 bse ty ;;
  m ← cfi_read_query bse;
  d ← cfi_read_query (bse + ofs_factor);
  modify (fun s => set_cfi (set_cfi_ids m d (cfi s)) s) ;;
  bootloc ← (if Z.lor (Z.shiftl major 8) minor <? 0x3131 then mret (if negb (Z.land d 0x80 =? 0) then 3 else 2)
             else cfi_send_gen_cmd 0x98 0x55 bse ty ;; cfi_read_query (bse + (adr + 15) * ofs_factor));
  (if (bootloc =? 3) && (1 <? NumEraseRegions q) then
     let n := Z.to_nat (NumEraseRegions q) in
     modify (fun s => set_cfi (set_cfiq (set_region_info (swap_regions (n / 2) 0 n (EraseRegionInfo q)) q) (cfi s)) s)
   else mret tt) ;;
  match unlock_addresses ty bw il with
  | None => mret false
  | Some (u1, u2) => modify (fun s => set_cfi (set_unlock u1 u2 (cfi s)) s) ;; mret true
  end.

Definition cfi_cmdset_0002 (primary mem1 mem2 : bool) (junk : mtd_erase_region_info) : C (option mtd_info) :=
  c0 ← chip 0;
  mode ← the_cfi cfi_mode;
  ok ← (if mode =? 1 then cmdset_query primary (start c0) else mret true);
  if negb ok then mret None
  else
    ty ← the_cfi device_type;
    modify (fun s => set_cfi (set_chips (set_times (cfiq (cfi s)) <$> chips (cfi s)) (cfi s)) s) ;;
    cfi_send_gen_cmd 0xf0 0x55 (start c0) ty ;;
    cfi_amdstd_setup mem1 mem2 junk.

(** ** The driver of a chip *)

(** Operations whose pointers [cfi_amdstd_setup] leaves null are never called. *)
#[export] Instance cfi_driver : MtdDriver (CfiSt F) := {|
  d_read := cfi_amdstd_read;
  d_write := cfi_amdstd_write;
  d_erase m e := match erase m with
                 | cfi_erase_onesize => cfi_amdstd_erase_onesize m e
                 | cfi_erase_varsize => cfi_amdstd_erase_varsize m e
                 | part_erase_fn => stop_with NullPointer
                 end;
  d_read_oob _ _ _ := stop_with NullPointer;
  d_write_oob _ _ _ _ := stop_with NullPointer;
  d_point _ _ _ := stop_with NullPointer;
  d_readv _ _ _ := stop_with NullPointer;
  d_writev _ _ _ := stop_with NullPointer;
  d_sync := cfi_amdstd_sync;
  d_lock _ _ _ := stop_with NullPointer;
  d_unlock _ _ _ := stop_with NullPointer;
  d_suspend := cfi_amdstd_suspend;
  d_resume := cfi_amdstd_resume;
|}.
End Cfi.
