(* ===== verification/CfiSpec.v ===== *)
(** * The driver for AMD flash chips on a chip that keeps its laws

    Words, bytes and blocks: what [do_write_oneword], [cfi_amdstd_write],
    [cfi_amdstd_read] and [do_erase_oneblock] do to one chip on the 16-bit bus of
    the board. *)

From S2P Require Import Prelude FlashChip CfiChip Mtd Cfi.

(** ** Bytes of the flash *)

Section Bytes.
Context {F : Type} `{NorFlash F} {k : ChipKind} {L : ChipLaws F k}.
Implicit Types f : F.

(** [l] has been written at [a], and nothing else changed. *)
Definition stores f f' (a : Z) (l : bytes) : Prop :=
  holds f' a l /\ same_outside f f' a (Z.of_nat (length l)).
(** [l] needs no bit to be set. *)
Definition fits f (a : Z) (l : bytes) : Prop := forall i b, l !! i = Some b -> Z.land (flash_byte f (a + Z.of_nat i)) b = b.

Lemma stores_nil f a : stores f f a [].
Proof. split; [intros i b Hb; by rewrite lookup_nil in Hb|done]. Qed.

Lemma stores_app f f1 f2 a l1 l2 :
  stores f f1 a l1 -> stores f1 f2 (a + Z.of_nat (length l1)) l2 -> stores f f2 a (l1 ++ l2).
Proof.
  intros [H1 O1] [H2 O2]. split.
  - intros i b Hb. apply lookup_app_Some in Hb as [Hb|[Hl Hb]].
    + rewrite O2; [by apply H1|]. apply lookup_lt_Some in Hb. lia.
    + rewrite <- (H2 _ _ Hb). f_equal. lia.
  - intros x Hx. rewrite length_app, Nat2Z.inj_add in Hx. rewrite O2, O1 by lia. done.
Qed.

Lemma fits_app f a l1 l2 : fits f a (l1 ++ l2) -> fits f a l1 /\ fits f (a + Z.of_nat (length l1)) l2.
Proof.
  intros Hf. split; intros i b Hb.
  - apply Hf. by apply lookup_app_l_Some.
  - rewrite <- Z.add_assoc, <- Nat2Z.inj_add. apply Hf. rewrite lookup_app_r by lia.
    by replace (length l1 + i - length l1)%nat with i by lia.
Qed.

(** What is written elsewhere does not matter. *)
Lemma fits_kept f f' a l b l' :
  stores f f' b l' -> b + Z.of_nat (length l') <= a -> fits f a l -> fits f' a l.
Proof. intros [_ O] Hle Hf i x Hx. rewrite O by lia. by apply Hf. Qed.

(** The bytes of a word. *)
Lemma cell_bytes f a : Z.even a = true -> cell f a = half (flash_byte f a) (flash_byte f (a + 1)).
Proof.
  intros He. pose proof (cell_range f a) as Hr. unfold flash_byte. pose proof (even_mod _ He) as Hm.
  rewrite Hm, Z.sub_0_r. replace (a + 1 - (a + 1) mod 2) with a by (Z.div_mod_to_equations; lia).
  rewrite Z.odd_add, <- (Z.negb_even a), He. unfold cell_byte, half. cbn [negb xorb Z.odd].
  change 0xff with (Z.ones 8). rewrite Z.land_ones, Z.shiftr_div_pow2 by lia. change (2 ^ 8) with 256.
  pose proof (Z.div_mod (cell f a) 256 ltac:(lia)). lia.
Qed.

Lemma half_lor b0 b1 : is_byte b0 -> half b0 b1 = Z.lor b0 (Z.shiftl b1 8).
Proof.
  unfold is_byte, half. intros H0. rewrite Z.shiftl_mul_pow2 by lia. change (2 ^ 8) with 256. rewrite Z.mul_comm.
  rewrite <- Z.add_nocarry_lor; [done|]. apply Z.bits_inj'. intros i Hi. rewrite Z.bits_0, Z.land_spec.
  destruct (decide (i < 8)).
  - change 256 with (2 ^ 8). rewrite Z.mul_pow2_bits_low by done. by rewrite andb_false_r.
  - destruct (decide (b0 = 0)) as [->|]; [by rewrite Z.bits_0|]. rewrite (Z.bits_above_log2 b0 i); [done|lia|].
    apply Z.log2_lt_pow2; [lia|]. apply (Z.lt_le_trans _ (2 ^ 8)); [lia|]. apply Z.pow_le_mono_r; lia.
Qed.

Lemma land_half a0 a1 b0 b1 :
  is_byte a0 -> is_byte a1 -> is_byte b0 -> is_byte b1 -> Z.land (half a0 a1) (half b0 b1) = half (Z.land a0 b0) (Z.land a1 b1).
Proof.
  intros Ha0 Ha1 Hb0 Hb1.
  assert (is_byte (Z.land a0 b0)) as Hl.
  { rewrite <- (u8_small b0 Hb0). unfold u8. rewrite <- Z.land_ones, Z.land_assoc, Z.land_ones by lia. apply u8_byte. }
  rewrite !half_lor by done. apply Z.bits_inj'. intros i Hi. rewrite !Z.lor_spec, !Z.land_spec, !Z.lor_spec, !Z.shiftl_spec, Z.land_spec by done.
  destruct (decide (i < 8)).
  - rewrite !(Z.testbit_neg_r _ (i - 8)) by lia. by rewrite !orb_false_r.
  - assert (forall b, is_byte b -> Z.testbit b i = false) as Hh.
    { intros b Hb. rewrite <- (u8_small b Hb), testbit_u8 by done. destruct (Z.ltb_spec i 8); [lia|done]. }
    by rewrite !Hh by done.
Qed.

Lemma byte_of_half f a b0 b1 : Z.even a = true -> is_byte b0 -> is_byte b1 -> cell f a = half b0 b1 ->
  flash_byte f a = b0 /\ flash_byte f (a + 1) = b1.
Proof.
  intros He H0 H1 Hc. unfold flash_byte. pose proof (even_mod _ He) as Hm.
  rewrite Hm, Z.sub_0_r. replace (a + 1 - (a + 1) mod 2) with a by (Z.div_mod_to_equations; lia).
  rewrite Z.odd_add, <- (Z.negb_even a), He, Hc. cbn [negb xorb Z.odd]. by rewrite !cell_byte_half.
Qed.

(** A programmed word stores its two bytes. *)
Lemma word_stores f f' a b0 b1 :
  Z.even a = true -> is_byte b0 -> is_byte b1 ->
  (forall x, cell f' x = if decide (x = a) then half b0 b1 else cell f x) -> stores f f' a [b0; b1].
Proof.
  intros He H0 H1 Hc. destruct (byte_of_half f' a b0 b1) as [E0 E1]; [done..|by rewrite Hc, decide_True|]. split.
  - intros [|[|i]] b Hb; simpl in Hb; [| |by rewrite lookup_nil in Hb]; simplify_eq; [by rewrite Z.add_0_r|done].
  - intros x Hx. unfold flash_byte. rewrite Hc, decide_False; [done|]. apply even_mod in He. simpl in Hx. Z.div_mod_to_equations. lia.
Qed.

Lemma fits_word f a b0 b1 : Z.even a = true -> is_byte b0 -> is_byte b1 -> fits f a [b0; b1] -> Z.land (cell f a) (half b0 b1) = half b0 b1.
Proof.
  intros He H0 H1 Hf. rewrite cell_bytes by done. rewrite land_half by (done || apply flash_byte_range).
  pose proof (Hf 0%nat b0 eq_refl) as E0. pose proof (Hf 1%nat b1 eq_refl) as E1. rewrite Z.add_0_r in E0. change (Z.of_nat 1) with 1 in E1. by rewrite E0, E1.
Qed.

Lemma fits_self f a : fits f a [flash_byte f a].
Proof. intros [|i] b Hb; simpl in Hb; simplify_eq. by rewrite Z.add_0_r, Z.land_diag. Qed.
Lemma fits_join f a l1 l2 : fits f a l1 -> fits f (a + Z.of_nat (length l1)) l2 -> fits f a (l1 ++ l2).
Proof.
  intros H1 H2 i b Hb. apply lookup_app_Some in Hb as [Hb|[Hl Hb]]; [by apply H1|]. rewrite <- (H2 _ _ Hb) at 2. do 2 f_equal. lia.
Qed.

(** Bytes that were there already. *)
Lemma stores_tail f f' a b l : b = flash_byte f a -> stores f f' a (b :: l) -> stores f f' (a + 1) l.
Proof.
  intros -> [Hh O]. split.
  - intros i b Hb. rewrite <- (Hh (S i) b Hb). f_equal. lia.
  - intros x Hx. destruct (decide (x = a)) as [->|]; [|apply O; simpl; lia]. pose proof (Hh 0%nat _ eq_refl) as E. by rewrite Z.add_0_r in E.
Qed.
Lemma stores_init f f' a b l : b = flash_byte f (a + Z.of_nat (length l)) -> stores f f' a (l ++ [b]) -> stores f f' a l.
Proof.
  intros -> [Hh O]. split.
  - intros i b Hb. apply Hh. by apply lookup_app_l_Some.
  - intros x Hx. destruct (decide (x = a + Z.of_nat (length l))) as [->|]; [|apply O; rewrite length_app; simpl; lia].
    apply Hh. by rewrite lookup_app_r, Nat.sub_diag by lia.
Qed.
Lemma stores_ext f f1 f2 a l : (forall x, cell f2 x = cell f1 x) -> stores f f1 a l -> stores f f2 a l.
Proof.
  intros Hc [Hh O]. assert (forall x, flash_byte f2 x = flash_byte f1 x) as E by (intros x; unfold flash_byte; by rewrite Hc).
  split; [intros i b Hb; rewrite E; by apply Hh|intros x Hx; rewrite E; by apply O].
Qed.
Lemma fits_ext f1 f2 a l : (forall x, cell f2 x = cell f1 x) -> fits f1 a l -> fits f2 a l.
Proof. intros Hc Hf i b Hb. unfold flash_byte. rewrite Hc. by apply Hf. Qed.

(** The bytes from [a] on. *)
Definition bytes_from f (a : Z) (n : nat) : bytes := (fun i => flash_byte f (a + Z.of_nat i)) <$> seq 0 n.
Lemma bytes_from_S f a n : bytes_from f a (S n) = flash_byte f a :: bytes_from f (a + 1) n.
Proof.
  unfold bytes_from. cbn [seq fmap list_fmap]. rewrite Z.add_0_r. f_equal. rewrite <- fmap_S_seq, <- list_fmap_compose.
  apply list_fmap_ext. intros ? i _. simpl. f_equal. lia.
Qed.
End Bytes.

(** A half more of [simpl] for the bus width. *)
Lemma land_1 x : Z.land x (2 - 1) = x mod 2.
Proof. change (2 - 1) with (Z.ones 1). by rewrite Z.land_ones. Qed.
Lemma land_lnot_1 x : Z.land x (Z.lnot (2 - 1)) = x - x mod 2.
Proof.
  rewrite <- land_1. pose proof (Z.add_nocarry_lxor (Z.land x (Z.lnot (2 - 1))) (Z.land x (2 - 1))) as E1.
  assert (Z.land x (Z.lnot (2 - 1)) + Z.land x (2 - 1) = x); [|lia]. rewrite E1.
  - apply Z.bits_inj'. intros i Hi. rewrite Z.lxor_spec, !Z.land_spec, Z.lnot_spec by done. by destruct (Z.testbit x i), (Z.testbit (2 - 1) i).
  - apply Z.bits_inj'. intros i Hi. rewrite !Z.land_spec, Z.lnot_spec, Z.bits_0 by done. by destruct (Z.testbit x i), (Z.testbit (2 - 1) i).
Qed.

(** ** One chip on a bus of 16 bits *)

Record OnBoard (k : ChipKind) (c : cfi_private) (m : map_info) : Prop := mkOnBoard {
  ob_bw : buswidth m = 2;
  ob_il : interleave c = 1;
  ob_num : numchips c = 1;
  ob_shift : 1 <= chipshift c <= 31;
  ob_size : FlashChip.bank_size k = 2 ^ chipshift c;
  ob_base : map_priv_2 m = base k;
  ob_even : Z.even (base k) = true;
  ob_lo : 0 <= base k;
  ob_hi : base k + FlashChip.bank_size k <= 2 ^ 32;
  ob_u1 : addr_unlock1 c = 2 * unlock1 k;
  ob_u2 : addr_unlock2 c = 2 * unlock2 k;
  ob_u1r : 0 <= 2 * unlock1 k < FlashChip.bank_size k;
  ob_u2r : 0 <= 2 * unlock2 k < FlashChip.bank_size k;
}.

Section Board.
Context {F : Type} `{NorFlash F} `{NorBus F} {k : ChipKind} {L : ChipLaws F k} {CL : CfiLaws F k}.
Context (fuel : nat) (others : CfiSt F -> CfiSt F) (later : Z -> Z -> Z).
(** The driver's data, the map, and the chip as the driver knows it. *)
Context (c0 : cfi_private) (m0 : map_info) (ch0 : flchip) (OB : OnBoard k c0 m0) (Hst : start ch0 = 0).
Implicit Types (f : F) (st : flstate_t) (j : Z).

(** The state of the driver with the chip in state [st]. *)
Definition St st f j : CfiSt F := mkCfiSt (set_chips [set_state st ch0] c0) m0 f j.
Abbreviation bank := (FlashChip.bank_size k).

Lemma bank_pos : 0 < bank.
Proof using OB. destruct OB. rewrite ob_size0. apply Z.pow_pos_nonneg; lia. Qed.

Lemma address_ok a st f j : 0 <= a < bank -> armflash_address a (St st f j) = Ret (base k + a) (St st f j).
Proof using OB.
  intros Ha. destruct OB. unfold armflash_address, gets. simpl. rewrite ob_base0, u32_small by (unfold is_u32; lia). by rewrite Z.add_comm.
Qed.

Lemma rd_ok a st f j : 0 <= a < bank -> cfi_read a (St st f j) = Ret (rd16 (base k + a) f).1 (St st (rd16 (base k + a) f).2 j).
Proof using OB.
  intros Ha. unfold cfi_read, CFIDEV_BUSWIDTH. rewrite bind_gets. cbn [map St]. rewrite (ob_bw _ _ _ OB). cbn [Z.eqb Pos.eqb].
  unfold armflash_read16. rewrite (bind_Ret _ _ _ _ _ (address_ok a st f j Ha)). unfold on_nor. cbn [nor St]. by destruct (rd16 _ f).
Qed.

Lemma wr_ok v a st f j : 0 <= a < bank -> 0 <= v < 2 ^ 16 -> cfi_write v a (St st f j) = Ret tt (St st (wr16 (base k + a) v f) j).
Proof using OB.
  intros Ha Hv. unfold cfi_write, CFIDEV_BUSWIDTH. rewrite bind_gets. cbn [map St]. rewrite (ob_bw _ _ _ OB). cbn [Z.eqb Pos.eqb].
  unfold armflash_write16. rewrite (bind_Ret _ _ _ _ _ (address_ok a st f j Ha)). unfold nor_do, modify, u16. by rewrite Z.mod_small.
Qed.

Lemma CMD_ok x st f j : CMD x (St st f j) = Ret x (St st f j).
Proof using OB. unfold CMD, gets, cfi_build_cmd. simpl. by rewrite (ob_bw _ _ _ OB), (ob_il _ _ _ OB). Qed.

Lemma send_ok cmd a ty st f j : 0 <= a * ty < bank -> 0 <= cmd < 256 ->
  cfi_send_gen_cmd cmd a 0 ty (St st f j) = Ret tt (St st (wr16 (base k + a * ty) cmd f) j).
Proof using OB.
  intros Ha Hc. pose proof (ob_hi _ _ _ OB). pose proof (ob_lo _ _ _ OB). unfold cfi_send_gen_cmd, the_cfi. rewrite bind_gets.
  rewrite (bind_Ret _ _ _ _ _ (CMD_ok cmd st f j)). simpl cfi. change (interleave (set_chips _ c0)) with (interleave c0). rewrite (ob_il _ _ _ OB).
  unfold cfi_build_cmd_addr. rewrite Z.mul_1_r, !u32_small by (rewrite ?u32_small; unfold is_u32; lia).
  apply wr_ok; lia.
Qed.

Lemma unlock_ok cmd st f j : 0 <= cmd < 256 -> unlock_cmd cmd 0 (St st f j) = Ret tt (St st (unlock k cmd f) j).
Proof using OB.
  intros Hc. destruct OB. unfold unlock_cmd, the_cfi, CFI_DEVICETYPE_X8. rewrite !bind_gets.
  change (addr_unlock1 (cfi (St st f j))) with (addr_unlock1 c0). change (addr_unlock2 (cfi (St st f j))) with (addr_unlock2 c0). rewrite ob_u3, ob_u4.
  do 2 (erewrite bind_Ret by (apply send_ok; lia)). rewrite send_ok by lia. unfold unlock. by rewrite !Z.mul_1_r.
Qed.

Lemma chip_ok st f j : chip 0 (St st f j) = Ret (set_state st ch0) (St st f j).
Proof. done. Qed.
Lemma upd_ok st st' f j : upd_chip 0 (set_state st') (St st f j) = Ret tt (St st' f j).
Proof. done. Qed.
Lemma wait_ready_ok n f j : wait_ready others n 0 (St FL_READY f j) = Ret tt (St FL_READY f j).
Proof. by destruct n. Qed.
Lemma delay_ok us st f j : cfi_udelay later us (St st f j) = Ret tt (St st f (u32 (later us j))).
Proof. done. Qed.

Lemma vpp_ok v (s : CfiSt F) : armflash_set_vpp v s = Ret tt s.
Proof. done. Qed.

(** ** A word *)

Lemma rd_cell a st f j : (forall x, in_bank k x -> Z.even x = true -> rd16 x f = (cell f x, f)) -> 0 <= a < bank -> Z.even a = true ->
  cfi_read a (St st f j) = Ret (cell f (base k + a)) (St st f j).
Proof using OB.
  intros Hr Ha He. rewrite rd_ok by done. rewrite Hr; [done|unfold in_bank; lia|]. by rewrite Z.even_add, (ob_even _ _ _ OB), He.
Qed.

(** Reading a word until it is [d], while it does not change. *)
Lemma poll_word_ok n a d st f : (forall x, in_bank k x -> Z.even x = true -> rd16 x f = (cell f x, f)) -> 0 <= a < bank -> Z.even a = true ->
  forall j, exists j', poll_word later n a d (cell f (base k + a)) (St st f j) = Ret (cell f (base k + a)) (St st f j').
Proof using OB.
  intros Hr Ha He. induction n as [|n IH]; intros j; [by eexists|]. cbn [poll_word].
  destruct (_ =? d); [by eexists|]. rewrite (bind_Ret _ _ _ _ _ (delay_ok _ _ _ _)).
  rewrite (bind_Ret _ _ _ _ _ (rd_cell a st f _ Hr Ha He)). apply IH.
Qed.

(** The writing of a word, up to the command that ends a failure. *)
Definition written (a d : Z) (fast : bool) f : F := if fast then wr16 (base k + a) d (wr16 (base k) 0xa0 f) else program_sequence k (base k + a) d f.
Definition may_write (fast : bool) f : Prop := if fast then bypass f else idle f.

Lemma written_law a d fast f : 0 <= a < bank -> Z.even a = true -> 0 <= d < 2 ^ 16 -> may_write fast f ->
  may_write fast (written a d fast f) /\
  (forall x, cell (written a d fast f) x = if decide (x = base k + a) then Z.land (cell f (base k + a)) d else cell f x) /\
  (forall x, in_bank k x -> Z.even x = true -> rd16 x (written a d fast f) = (cell (written a d fast f) x, written a d fast f)).
Proof using OB CL.
  intros Ha He Hd Hi. assert (in_bank k (base k + a)) by (unfold in_bank; lia).
  assert (Z.even (base k + a) = true) by (by rewrite Z.even_add, (ob_even _ _ _ OB), He). destruct fast; simpl in *.
  - destruct (bypass_program f (base k + a) d) as [Hb Hc]; [done..|]. split_and!; [done|done|]. intros. by apply bypass_read.
  - destruct (program_law f (base k + a) d) as [Hb Hc]; [done..|]. split_and!; [done|done|]. intros. by apply read16.
Qed.

(** [do_write_oneword] up to the last read: the word is the conjunction of the old one and the datum. *)
Lemma write_word_run a d fast f j : 0 <= a < bank -> Z.even a = true -> 0 <= d < 2 ^ 16 -> may_write fast f -> exists j',
  do_write_oneword fuel others later 0 a d fast (St FL_READY f j) =
  (ret ← (if Z.land (cell f (base k + a)) d =? d then mret 0
          else cfi_send_gen_cmd 0xF0 0 0 (device_type c0) ;; armflash_set_vpp 0 ;; mret (- EIO));
   armflash_set_vpp 0 ;; upd_chip 0 (set_state FL_READY) ;; mret ret) (St FL_WRITING (written a d fast f) j').
Proof using OB CL Hst.
  intros Ha He Hd Hi. destruct (written_law a d fast f) as (Hi' & Hc & Hr); [done..|].
  pose proof bank_pos as Hb. unfold do_write_oneword. rewrite (bind_Ret _ _ _ _ _ (wait_ready_ok _ _ _)).
  rewrite (bind_Ret _ _ _ _ _ (upd_ok _ _ _ _)), (bind_Ret _ _ _ _ _ (chip_ok _ _ _)). unfold the_cfi at 1. rewrite bind_gets.
  cbv zeta. simpl start. rewrite Hst, Z.add_0_r. rewrite (bind_Ret _ _ _ _ _ (vpp_ok _ _)).
  assert ((if fast then cfi_send_gen_cmd 0xA0 0 0 (device_type (cfi (St FL_WRITING f j))) else unlock_cmd 0xA0 0) (St FL_WRITING f j) =
    Ret tt (St FL_WRITING (if fast then wr16 (base k) 0xa0 f else unlock k 0xa0 f) j)) as E1.
  { destruct fast; [|by apply unlock_ok]. rewrite send_ok by lia. by rewrite Z.add_0_r. }
  rewrite (bind_Ret _ _ _ _ _ E1). erewrite bind_Ret by (by apply wr_ok).
  assert (wr16 (base k + a) d (if fast then wr16 (base k) 0xa0 f else unlock k 0xa0 f) = written a d fast f) as -> by by destruct fast.
  rewrite (bind_Ret _ _ _ _ _ (delay_ok _ _ _ _)). do 3 (erewrite bind_Ret by (by apply rd_cell)).
  match goal with |- context [poll_word _ ?n ?a ?d _] => destruct (poll_word_ok n a d FL_WRITING (written a d fast f) Hr Ha He (u32 (later (word_write_time (set_state FL_WRITING ch0)) j))) as [j' E2] end.
  exists j'. rewrite (bind_Ret _ _ _ _ _ E2). by rewrite Hc, decide_True by done.
Qed.

(** A datum that needs no bit to be set is stored. *)
Lemma cfi_write_word_ok a d fast f j : 0 <= a < bank -> Z.even a = true -> 0 <= d < 2 ^ 16 -> may_write fast f ->
  Z.land (cell f (base k + a)) d = d -> exists j',
  do_write_oneword fuel others later 0 a d fast (St FL_READY f j) = Ret 0 (St FL_READY (written a d fast f) j').
Proof using OB CL Hst.
  intros Ha He Hd Hi Hl. destruct (write_word_run a d fast f j) as [j' E]; [done..|]. exists j'. by rewrite E, Hl, Z.eqb_refl.
Qed.

(** One that does is an error, found after the last poll; the chip is made to show its contents again. *)
Lemma write_word_fails a d f j : 0 <= a < bank -> Z.even a = true -> 0 <= d < 2 ^ 16 -> idle f -> Z.land (cell f (base k + a)) d <> d -> exists f' j',
  do_write_oneword fuel others later 0 a d false (St FL_READY f j) = Ret (- EIO) (St FL_READY f' j') /\ idle f' /\
  forall x, cell f' x = if decide (x = base k + a) then Z.land (cell f (base k + a)) d else cell f x.
Proof using OB CL Hst.
  intros Ha He Hd Hi Hl. destruct (write_word_run a d false f j) as [j' E]; [done..|]. destruct (written_law a d false f) as (Hi' & Hc & _); [done..|].
  destruct (reset_idle _ Hi') as [Hi2 Hc2]. eexists _, j'. rewrite E, (proj2 (Z.eqb_neq _ _) Hl). split_and!; [|exact Hi2|intros x; by rewrite Hc2].
  rewrite bind_bind. pose proof bank_pos. erewrite bind_Ret by (apply send_ok; lia). by rewrite Z.mul_0_l, Z.add_0_r.
Qed.

(** ** Bytes *)

Lemma copy_bytes_ok n : forall a st f j, idle f -> 0 <= a -> a + Z.of_nat n <= bank ->
  copy_bytes n a (St st f j) = Ret (bytes_from f (base k + a) n) (St st f j).
Proof using OB.
  induction n as [|n IH]; intros a st f j Hi Ha Hn; [done|]. cbn [copy_bytes]. unfold armflash_read8. rewrite bind_bind.
  erewrite bind_Ret by (apply address_ok; lia).
  assert (on_nor (rd8 (base k + a)) (St st f j) = Ret (flash_byte f (base k + a)) (St st f j)) as E.
  { unfold on_nor. cbn [nor St]. by rewrite read8 by (done || unfold in_bank; lia). }
  rewrite (bind_Ret _ _ _ _ _ E). erewrite bind_Ret by (apply IH; [done|lia|lia]).
  rewrite bytes_from_S. by rewrite Z.add_assoc.
Qed.

Definition left_bypass (fast : bool) f : F := if fast then wr16 (base k) 0 (wr16 (base k) 0x90 f) else f.
Definition entered_bypass (fast : bool) f : F := if fast then unlock k 0x20 f else f.

Lemma leave_ok fast f j : may_write fast f ->
  when fast (leave_bypass 0) (St FL_READY f j) = Ret tt (St FL_READY (left_bypass fast f) j) /\
  idle (left_bypass fast f) /\ forall x, cell (left_bypass fast f) x = cell f x.
Proof using OB CL.
  intros Hm. pose proof bank_pos. destruct fast; [|done]. simpl. destruct (bypass_leave f Hm) as [Hi Hc]. split_and!; [|done|done].
  unfold leave_bypass, the_cfi. rewrite bind_gets. erewrite bind_Ret by (apply send_ok; lia). rewrite send_ok by lia. by rewrite Z.mul_0_l, Z.add_0_r.
Qed.

Lemma enter_ok fast f j : idle f ->
  when fast (unlock_cmd 0x20 0) (St FL_READY f j) = Ret tt (St FL_READY (entered_bypass fast f) j) /\
  may_write fast (entered_bypass fast f) /\ forall x, cell (entered_bypass fast f) x = cell f x.
Proof using OB CL.
  intros Hi. destruct fast; [|done]. simpl. destruct (bypass_enter f Hi) as [Hb Hc]. split_and!; [|done|done]. by apply unlock_ok.
Qed.

(** Two bytes at an even address. *)
Lemma write_two a b0 b1 fast f j :
  0 <= a < bank -> Z.even a = true -> is_byte b0 -> is_byte b1 -> may_write fast f -> fits f (base k + a) [b0; b1] -> exists f' j',
  do_write_oneword fuel others later 0 a (half b0 b1) fast (St FL_READY f j) = Ret 0 (St FL_READY f' j') /\
  may_write fast f' /\ stores f f' (base k + a) [b0; b1].
Proof using OB CL Hst.
  intros Ha He Hb0 Hb1 Hm Hf. pose proof (half_range b0 b1 Hb0 Hb1) as Hh.
  assert (Z.even (base k + a) = true) as He' by (by rewrite Z.even_add, (ob_even _ _ _ OB), He).
  pose proof (fits_word f (base k + a) b0 b1 He' Hb0 Hb1 Hf) as Hl.
  destruct (cfi_write_word_ok a (half b0 b1) fast f j) as [j' E]; [done..|].
  destruct (written_law a (half b0 b1) fast f) as (Hm' & Hc & _); [done..|].
  eexists _, j'. split_and!; [exact E|done|]. apply word_stores; [done..|]. intros x. rewrite Hc, Hl. done.
Qed.

(** One byte at an odd address, and one at an even address: the other byte of the word is kept. *)
Lemma write_partial_ok (i : nat) a b buf f j :
  (i <= 1)%nat -> 0 <= a < bank -> Z.even a = true -> is_byte b -> idle f -> fits f (base k + a + Z.of_nat i) [b] -> exists f' j',
  write_partial fuel others later 2 0 a i 1 (b :: buf) (St FL_READY f j) = Ret 0 (St FL_READY f' j') /\
  idle f' /\ stores f f' (base k + a + Z.of_nat i) [b].
Proof using OB CL Hst.
  intros Hi1 Ha He Hb Hi Hf. unfold write_partial. rewrite (bind_Ret _ _ _ _ _ (chip_ok _ _ _)). cbn [start set_state]. rewrite Hst, Z.add_0_r.
  assert (a + 2 <= bank) as Ha2.
  { destruct OB. assert (Z.even bank = true) as Hbe by (rewrite ob_size0, Z.even_pow; [done|lia]). apply even_mod in Hbe, He. Z.div_mod_to_equations. lia. }
  unfold armflash_copy_from. change (Z.to_nat 2) with 2%nat. erewrite bind_Ret by (apply copy_bytes_ok; (done || lia)).
  rewrite !bytes_from_S. change (bytes_from _ _ 0) with (@nil Z). cbn [length Nat.ltb Nat.leb take].
  pose proof (flash_byte_range f (base k + a)) as R0. pose proof (flash_byte_range f (base k + a + 1)) as R1. destruct i as [|[|]]; [| |lia].
  - rewrite Z.add_0_r in *. rewrite take_0. cbn [app take drop Nat.add datum_at]. rewrite ?take_0. cbn [app]. change (2 =? 2) with true. cbn iota. rewrite bind_mret.
    destruct (write_two a b (flash_byte f (base k + a + 1)) false f j) as (f' & j' & E & Hi' & Hs); [done..| |].
    { apply (fits_join f (base k + a) [b] [_]); [done|]. apply fits_self. }
    exists f', j'. split_and!; [exact E|done|]. by eapply (stores_init f f' _ _ [b]).
  - change (Z.of_nat 1) with 1 in *. rewrite take_0. cbn [app take drop Nat.add datum_at]. rewrite ?take_0. cbn [app]. change (2 =? 2) with true. cbn iota. rewrite bind_mret.
    destruct (write_two a (flash_byte f (base k + a)) b false f j) as (f' & j' & E & Hi' & Hs); [done..| |].
    { apply (fits_join f (base k + a) [_] [b]); [apply fits_self|done]. }
    exists f', j'. split_and!; [exact E|done|]. by eapply stores_tail.
Qed.

Definition is_fast : bool := negb (fast_prog c0 =? 0).

Lemma shiftr_bank x : 0 <= x <= bank -> (Z.shiftr x (chipshift c0) =? 0) = (x <? bank).
Proof using OB.
  destruct OB. intros Hx. rewrite Z.shiftr_div_pow2, <- ob_size0 by lia. destruct (Z.ltb_spec x bank).
  - apply Z.eqb_eq, Z.div_small. lia.
  - replace x with bank by lia. rewrite Z.div_same by lia. done.
Qed.

Lemma bank_even : Z.even bank = true.
Proof using OB. destruct OB. rewrite ob_size0, Z.even_pow; [done|lia]. Qed.

(** The words of a request: all of them are written, and either the cursor is
    behind them, or the end of the chip is reached and the request is finished. *)
Lemma cfi_write_words_ok n : forall ofs buf len r f j,
  0 <= ofs -> Z.even ofs = true -> 0 <= len -> ofs + len <= bank -> len <= Z.of_nat (length buf) -> (Z.to_nat (len / 2) <= n)%nat ->
  Forall is_byte buf -> may_write is_fast f -> fits f (base k + ofs) (take (Z.to_nat len) buf) ->
  let w := 2 * (len / 2) in
  exists f' j', stores f f' (base k + ofs) (take (Z.to_nat w) buf) /\
    ((write_words fuel others later n 2 (mkCursor 0 0 ofs buf len r) (St FL_READY f j) =
        Ret (inr (mkCursor 0 0 (ofs + w) (drop (Z.to_nat w) buf) (len mod 2) (r + w))) (St FL_READY f' j') /\ may_write is_fast f') \/
     (write_words fuel others later n 2 (mkCursor 0 0 ofs buf len r) (St FL_READY f j) = Ret (inl (0, r + len)) (St FL_READY f' j') /\
        idle f' /\ w = len)).
Proof using OB CL Hst.
  induction n as [|n IH]; intros ofs buf len r f j Ho He Hl Hb Hbuf Hn Hby Hm Hf w.
  { assert (len < 2) by (Z.div_mod_to_equations; lia). exists f, j. assert (w = 0) as -> by (unfold w; rewrite Z.div_small by lia; done).
    split; [rewrite take_0; apply stores_nil|]. left. cbn [write_words c_len]. rewrite (proj2 (Z.ltb_lt _ _)) by lia.
    split; [|done]. by rewrite !Z.add_0_r, drop_0, Z.mod_small. }
  cbn [write_words c_len]. destruct (Z.ltb_spec len 2) as [Hlt|Hge].
  { exists f, j. assert (w = 0) as -> by (unfold w; rewrite Z.div_small by lia; done).
    split; [rewrite take_0; apply stores_nil|]. left. split; [|done]. by rewrite !Z.add_0_r, drop_0, Z.mod_small. }
  destruct buf as [|b0 [|b1 buf]]; [simpl in Hbuf; lia..|]. apply Forall_cons in Hby as [Hb0 Hby]. apply Forall_cons in Hby as [Hb1 Hby].
  unfold fast_programming, the_cfi. rewrite !bind_gets. change (fast_prog (cfi _)) with (fast_prog c0). fold is_fast.
  change (chipshift (cfi _)) with (chipshift c0). change (numchips (cfi _)) with (numchips c0). change (2 =? 1) with false. cbn iota.
  cbn [c_buf datum_at]. change (2 =? 2) with true. cbn iota. rewrite bind_mret. cbn [c_chip c_ofs c_start c_retlen].
  assert (take (Z.to_nat len) (b0 :: b1 :: buf) = [b0; b1] ++ take (Z.to_nat (len - 2)) buf) as Et
    by (replace (Z.to_nat len) with (S (S (Z.to_nat (len - 2)))) by lia; done).
  rewrite Et in Hf. apply fits_app in Hf as [Hf0 Hf]. change (Z.of_nat (length [b0; b1])) with 2 in Hf.
  destruct (write_two ofs b0 b1 is_fast f j) as (f1 & j1 & E1 & Hm1 & Hs1); [lia|done..|].
  rewrite (bind_Ret _ _ _ _ _ E1). change (0 =? 0) with true. cbn [negb]. cbn iota.
  assert (w = 2 + 2 * ((len - 2) / 2)) as Ew by (unfold w; Z.div_mod_to_equations; lia).
  assert (take (Z.to_nat w) (b0 :: b1 :: buf) = [b0; b1] ++ take (Z.to_nat (2 * ((len - 2) / 2))) buf) as Ew'.
  { rewrite Ew. rewrite Z2Nat.inj_add by (Z.div_mod_to_equations; lia). done. }
  rewrite shiftr_bank by lia. rewrite Ew'. destruct (Z.ltb_spec (ofs + 2) bank) as [Hin|Hend].
  - change (drop (Z.to_nat 2) (b0 :: b1 :: buf)) with buf.
    destruct (IH (ofs + 2) buf (len - 2) (r + 2) f1 j1) as (f2 & j2 & Hs2 & HE);
      [lia|by rewrite Z.even_add, He|lia|lia|simpl in Hbuf; lia|Z.div_mod_to_equations; lia|done|done| |].
    { rewrite Z.add_assoc. eapply fits_kept; [exact Hs1|simpl; lia|done]. }
    exists f2, j2. split.
    { eapply stores_app; [exact Hs1|]. change (Z.of_nat (length [b0; b1])) with 2. by rewrite <- Z.add_assoc. }
    destruct HE as [[E2 Hm2]|(E2 & Hi2 & Ew2)].
    + left. split; [|done]. rewrite E2. f_equal. f_equal. f_equal; [lia| |Z.div_mod_to_equations; lia|lia].
      rewrite Ew, Z2Nat.inj_add by (Z.div_mod_to_equations; lia). done.
    + right. split_and!; [rewrite E2; f_equal; f_equal; f_equal; lia|done|lia].
  - destruct (leave_ok is_fast f1 j1 Hm1) as (E2 & Hi2 & Hc2). assert (len = 2) as -> by lia. exists (left_bypass is_fast f1), j1.
    change (Z.to_nat (2 * ((2 - 2) / 2))) with 0%nat. rewrite take_0. split; [by eapply stores_ext|]. right.
    rewrite (bind_Ret _ _ _ _ _ E2), (ob_num _ _ _ OB). done.
Qed.

(** The byte before the first word, if there is one. *)
Lemma write_first_ok ofs buf len f j :
  0 <= ofs -> 0 < len -> ofs + len <= bank -> len <= Z.of_nat (length buf) -> Forall is_byte buf -> idle f ->
  fits f (base k + ofs) (take (Z.to_nat len) buf) ->
  let n := ofs mod 2 in
  exists f' j', idle f' /\ stores f f' (base k + ofs) (take (Z.to_nat n) buf) /\
    (write_first fuel others later 2 (mkCursor 0 0 ofs buf len 0) (St FL_READY f j) =
       Ret (inr (mkCursor 0 0 (ofs + n) (drop (Z.to_nat n) buf) (len - n) n)) (St FL_READY f' j') \/
     (write_first fuel others later 2 (mkCursor 0 0 ofs buf len 0) (St FL_READY f j) = Ret (inl (0, len)) (St FL_READY f' j') /\ n = len)).
Proof using OB CL Hst.
  intros Ho Hl Hb Hbuf Hby Hi Hf n. unfold write_first. cbn [c_ofs c_buf c_len c_chip c_start c_retlen]. rewrite land_1, land_lnot_1.
  destruct (Z.eqb_spec (ofs mod 2) 0) as [E0|E0].
  { exists f, j. assert (n = 0) as -> by done. rewrite take_0, drop_0, Z.add_0_r, Z.sub_0_r. split_and!; [done|apply stores_nil|by left]. }
  assert (n = 1) as -> by (unfold n; Z.div_mod_to_equations; lia). destruct buf as [|b buf]; [simpl in Hbuf; lia|].
  apply Forall_cons in Hby as [Hb0 Hby]. assert (ofs mod 2 = 1) as Em by (Z.div_mod_to_equations; lia). assert (1 <= ofs) by (Z.div_mod_to_equations; lia). rewrite Em.
  unfold the_cfi. rewrite !bind_gets. change (chipshift (cfi _)) with (chipshift c0). change (numchips (cfi _)) with (numchips c0).
  replace (ofs - (ofs - 1)) with 1 by lia. replace (Z.min len (2 - 1)) with 1 by lia. change (Z.to_nat 1) with 1%nat.
  assert (Z.even (ofs - 1) = true) as He by (rewrite Zeven_mod; apply Z.eqb_eq; Z.div_mod_to_equations; lia).
  replace (base k + ofs) with (base k + (ofs - 1) + Z.of_nat 1) in * by lia.
  destruct (write_partial_ok 1 (ofs - 1) b buf f j) as (f' & j' & E & Hi' & Hs); [lia|lia|done|done|done| |].
  { replace (Z.to_nat len) with (S (Z.to_nat (len - 1))) in Hf by lia. by apply (fits_app f _ [b]) in Hf as [Hf _]. }
  rewrite (bind_Ret _ _ _ _ _ E). change (0 =? 0) with true. cbn [negb]. cbn iota. exists f', j'. rewrite shiftr_bank by lia.
  split_and!; [done|done|]. destruct (Z.ltb_spec (ofs + 1) bank); [by left|right]. split; [|lia]. rewrite (ob_num _ _ _ OB).
  change (0 + 1 =? 1) with true. by replace len with 1 by lia.
Qed.

(** The byte behind the last word, if there is one. *)
Lemma write_last_ok ofs buf len r f j :
  0 <= ofs -> Z.even ofs = true -> 0 <= len < 2 -> ofs + len <= bank -> len <= Z.of_nat (length buf) -> Forall is_byte buf -> idle f ->
  fits f (base k + ofs) (take (Z.to_nat len) buf) -> exists f' j',
  write_last fuel others later 2 (mkCursor 0 0 ofs buf len r) (St FL_READY f j) = Ret (0, r + len) (St FL_READY f' j') /\
  idle f' /\ stores f f' (base k + ofs) (take (Z.to_nat len) buf).
Proof using OB CL Hst.
  intros Ho He Hl Hb Hbuf Hby Hi Hf. unfold write_last. cbn [c_ofs c_buf c_len c_chip c_start c_retlen]. rewrite land_1, Z.mod_small by lia.
  destruct (Z.eqb_spec len 0) as [->|]; [exists f, j; rewrite take_0, Z.add_0_r; split_and!; [done|done|apply stores_nil]|].
  assert (len = 1) as -> by lia. destruct buf as [|b buf]; [simpl in Hbuf; lia|]. apply Forall_cons in Hby as [Hb0 Hby].
  change (take (Z.to_nat 1) (b :: buf)) with [b] in *. change (Z.to_nat 1) with 1%nat.
  destruct (write_partial_ok 0 ofs b buf f j) as (f' & j' & E & Hi' & Hs); [lia|lia|done|done|done|by rewrite Z.add_0_r|].
  rewrite Z.add_0_r in Hs. rewrite (bind_Ret _ _ _ _ _ E). by exists f', j'.
Qed.

Lemma take_split (n m : nat) (l : bytes) : take (n + m) l = take n l ++ take m (drop n l).
Proof. by rewrite take_take_drop. Qed.
Lemma stores_split f f1 f2 a n m (l : bytes) :
  (n <= length l)%nat -> stores f f1 a (take n l) -> stores f1 f2 (a + Z.of_nat n) (take m (drop n l)) -> stores f f2 a (take (n + m) l).
Proof. intros Hn S1 S2. rewrite take_split. eapply stores_app; [done|]. rewrite length_take. by replace (n `min` length l)%nat with n by lia. Qed.
Lemma fits_split f a n m (l : bytes) : (n <= length l)%nat -> fits f a (take (n + m) l) -> fits f (a + Z.of_nat n) (take m (drop n l)).
Proof. intros Hn Hf. rewrite take_split in Hf. apply fits_app in Hf as [_ Hf]. rewrite length_take in Hf. by replace (n `min` length l)%nat with n in Hf by lia. Qed.
Lemma fits_behind f f1 a n m (l : bytes) : (n <= length l)%nat -> stores f f1 a (take n l) -> fits f a (take (n + m) l) -> fits f1 (a + Z.of_nat n) (take m (drop n l)).
Proof. intros Hn Hs Hf. eapply fits_kept; [exact Hs|rewrite length_take; lia|by apply fits_split]. Qed.

(** [cfi_amdstd_write] *)
Lemma amd_write_ok mtd to len buf f j :
  0 <= to -> 0 < len -> to + len <= bank -> len <= Z.of_nat (length buf) -> Forall is_byte buf -> idle f ->
  fits f (base k + to) (take (Z.to_nat len) buf) -> exists f' j',
  cfi_amdstd_write fuel others later mtd to len buf (St FL_READY f j) = Ret (0, len) (St FL_READY f' j') /\
  idle f' /\ stores f f' (base k + to) (take (Z.to_nat len) buf).
Proof using OB CL Hst.
  intros Ho Hl Hb Hbuf Hby Hi Hf. unfold cfi_amdstd_write. rewrite (proj2 (Z.eqb_neq len 0)) by lia.
  unfold fast_programming, the_cfi, CFIDEV_BUSWIDTH. rewrite !bind_gets. change (chipshift (cfi _)) with (chipshift c0).
  change (buswidth (map _)) with (buswidth m0). change (fast_prog (cfi _)) with (fast_prog c0). fold is_fast. rewrite (ob_bw _ _ _ OB). cbv zeta.
  assert (Z.shiftr to (chipshift c0) = 0) as Esh by (apply Z.eqb_eq; rewrite shiftr_bank by lia; apply Z.ltb_lt; lia).
  rewrite Esh. change (s32 0) with 0. rewrite Z.shiftl_0_l, Z.sub_0_r. pose proof (ob_hi _ _ _ OB). pose proof (ob_lo _ _ _ OB).
  rewrite u32_small by (unfold is_u32; lia). rewrite (bind_Ret _ _ _ _ _ (chip_ok _ _ _)). cbn [start set_state]. rewrite Hst.
  destruct (write_first_ok to buf len f j) as (f1 & j1 & Hi1 & Hs1 & HE); [done..|]. set (n := to mod 2) in *.
  assert (0 <= n < 2) as Hn by (apply Z.mod_pos_bound; lia).
  destruct HE as [E1|[E1 En]]; rewrite (bind_Ret _ _ _ _ _ E1); [|exists f1, j1; split_and!; [done|done|by rewrite <- En]].
  cbn [c_start]. destruct (enter_ok is_fast f1 j1 Hi1) as (E2 & Hm2 & Hc2). rewrite (bind_Ret _ _ _ _ _ E2).
  assert (Z.to_nat len = Z.to_nat n + Z.to_nat (len - n))%nat as El by lia.
  destruct (cfi_write_words_ok (Z.to_nat len) (to + n) (drop (Z.to_nat n) buf) (len - n) n (entered_bypass is_fast f1) j1) as (f3 & j3 & Hs3 & HE3);
    [lia| |lia|lia|rewrite length_drop; lia|Z.div_mod_to_equations; lia|by apply Forall_drop|done| |].
  { rewrite Zeven_mod. apply Z.eqb_eq. unfold n. Z.div_mod_to_equations. lia. }
  { eapply fits_ext; [exact Hc2|]. replace (base k + (to + n)) with (base k + to + Z.of_nat (Z.to_nat n)) by lia.
    eapply fits_behind; [lia|exact Hs1|by rewrite <- El]. }
  set (w := 2 * ((len - n) / 2)) in *. assert (0 <= w <= len - n) as Hw by (unfold w; Z.div_mod_to_equations; lia).
  assert (stores f f3 (base k + to) (take (Z.to_nat n + Z.to_nat w) buf)) as Hs.
  { eapply stores_split; [lia|eapply stores_ext; [exact Hc2|exact Hs1]|].
    by replace (base k + to + Z.of_nat (Z.to_nat n)) with (base k + (to + n)) by lia. }
  destruct HE3 as [[E3 Hm3]|(E3 & Hi3 & Ew)]; rewrite (bind_Ret _ _ _ _ _ E3).
  2: { exists f3, j3. split_and!; [by replace (n + (len - n)) with len by lia|done|]. rewrite El. by rewrite Ew in Hs. }
  cbn [c_start]. destruct (leave_ok is_fast f3 j3 Hm3) as (E4 & Hi4 & Hc4). rewrite (bind_Ret _ _ _ _ _ E4). rewrite drop_drop.
  assert (Z.to_nat len = Z.to_nat n + Z.to_nat w + Z.to_nat ((len - n) mod 2))%nat as El2 by (unfold w; Z.div_mod_to_equations; lia).
  destruct (write_last_ok (to + n + w) (drop (Z.to_nat n + Z.to_nat w) buf) ((len - n) mod 2) (n + w) (left_bypass is_fast f3) j3) as (f5 & j5 & E5 & Hi5 & Hs5);
    [lia| |by apply Z.mod_pos_bound|unfold w; Z.div_mod_to_equations; lia|rewrite length_drop; unfold w; Z.div_mod_to_equations; lia|by apply Forall_drop|done| |].
  { rewrite Zeven_mod. apply Z.eqb_eq. unfold w, n. Z.div_mod_to_equations. lia. }
  { eapply fits_ext; [exact Hc4|]. replace (base k + (to + n + w)) with (base k + to + Z.of_nat (Z.to_nat n + Z.to_nat w)) by lia.
    eapply fits_behind; [lia|exact Hs|by rewrite <- El2]. }
  exists f5, j5. split_and!; [rewrite E5; f_equal; f_equal; unfold w; Z.div_mod_to_equations; lia|done|]. rewrite El2.
  eapply stores_split; [lia|eapply stores_ext; [exact Hc4|exact Hs]|].
  by replace (base k + to + Z.of_nat (Z.to_nat n + Z.to_nat w)) with (base k + (to + n + w)) by lia.
Qed.

(** [cfi_amdstd_read] *)
Lemma amd_read_ok mtd from len f j :
  0 <= from -> 0 <= len -> from + len <= bank -> from < bank -> idle f -> (0 < fuel)%nat ->
  cfi_amdstd_read fuel others mtd from len (St FL_READY f j) = Ret (0, bytes_from f (base k + from) (Z.to_nat len)) (St FL_READY f j).
Proof using OB Hst.
  intros Hf Hl Hb Hb' Hi Hfu. unfold cfi_amdstd_read, the_cfi. rewrite bind_gets. change (chipshift (cfi _)) with (chipshift c0).
  assert (Z.shiftr from (chipshift c0) = 0) as Esh by (apply Z.eqb_eq; rewrite shiftr_bank by lia; apply Z.ltb_lt; lia).
  rewrite Esh. change (s32 0) with 0. rewrite Z.shiftl_0_l, Z.sub_0_r. pose proof (ob_hi _ _ _ OB). pose proof (ob_lo _ _ _ OB).
  rewrite u32_small by (unfold is_u32; lia). destruct fuel as [|fu]; [lia|]. cbn [read_loop].
  destruct (Z.eqb_spec len 0) as [->|Hne]; [done|]. unfold the_cfi. rewrite !bind_gets. change (numchips (cfi _)) with (numchips c0).
  rewrite (ob_num _ _ _ OB). change (1 <=? 0) with false. cbn iota. rewrite bind_gets. change (chipshift (cfi _)) with (chipshift c0).
  rewrite u32_small by (unfold is_u32; lia). rewrite shiftr_bank by lia. rewrite (proj2 (Z.ltb_lt _ _)) by lia. cbn [negb]. cbn iota.
  unfold do_read_onechip. rewrite !bind_bind, (bind_Ret _ _ _ _ _ (wait_ready_ok _ _ _)). rewrite !bind_bind, (bind_Ret _ _ _ _ _ (chip_ok _ _ _)).
  rewrite !bind_bind, (bind_Ret _ _ _ _ _ (upd_ok _ _ _ _)). cbn [start set_state]. rewrite Hst, Z.add_0_r. unfold armflash_copy_from.
  rewrite bind_bind. erewrite bind_Ret by (apply copy_bytes_ok; (done || lia)). rewrite bind_mret. change (0 =? 0) with true. cbn [negb]. cbn iota.
  rewrite Z.sub_diag. erewrite bind_Ret; [|destruct fu; done]. unfold mret, M_ret. by rewrite app_nil_r.
Qed.
End Board.
