(* ===== verification/CfiErase.v ===== *)
(** * Erasing blocks of the flash

    [do_erase_oneblock] waits for the end of an erasure; the requests of
    [cfi_amdstd_erase_varsize] are split into the blocks of the table of erase
    regions.  [tiles] says that the table describes a part of the chip without
    gaps. *)

From S2P Require Import Prelude FlashChip CfiChip Mtd Cfi CfiSpec.

(** ** Tables of erase regions *)

Definition region_end (r : mtd_erase_region_info) : Z := r_offset r + r_erasesize r * r_numblocks r.

(** The regions cover [from, to) in order; the erase sizes are powers of two, and each region begins at a multiple of its own. *)
Fixpoint tiles (l : list mtd_erase_region_info) (from to : Z) : Prop :=
  match l with
  | [] => from = to
  | r :: l' => r_offset r = from /\ (exists e, 1 <= e /\ r_erasesize r = 2 ^ e) /\ 0 < r_numblocks r /\ (r_erasesize r | from) /\
      tiles l' (region_end r) to
  end.

Lemma tiles_le l : forall from to, tiles l from to -> from <= to.
Proof.
  induction l as [|r l IH]; intros from to; simpl; [lia|]. intros (Ho & (e & He & Es) & Hn & _ & Ht). apply IH in Ht.
  unfold region_end in Ht. pose proof (Z.pow_pos_nonneg 2 e ltac:(lia) ltac:(lia)). nia.
Qed.

Lemma tiles_drop l n : forall from to r, tiles l from to -> l !! n = Some r -> tiles (drop n l) (r_offset r) to /\ from <= r_offset r.
Proof.
  revert l. induction n as [|n IH]; intros [|r' l] from to r Ht Hr; simpl in Hr; simplify_eq.
  - destruct Ht as (Ho & ?). simpl. rewrite Ho. split; [|lia]. by split.
  - destruct Ht as (Ho & (e & He & Es) & Hn & _ & Ht). destruct (IH _ _ _ _ Ht Hr) as [? Hle]. split; [done|].
    unfold region_end in Hle. pose proof (Z.pow_pos_nonneg 2 e ltac:(lia) ltac:(lia)). nia.
Qed.

Record region_ok (r : mtd_erase_region_info) (to : Z) : Prop := mkRegionOk {
  ro_pos : 0 < r_erasesize r;
  ro_pow : exists e, 1 <= e /\ r_erasesize r = 2 ^ e;
  ro_end : r_offset r < region_end r <= to;
  ro_ofs : (r_erasesize r | r_offset r);
  ro_end_div : (r_erasesize r | region_end r);
}.

Lemma tiles_region l from to n r : tiles l from to -> l !! n = Some r -> region_ok r to.
Proof.
  intros Ht Hr. destruct (tiles_drop _ _ _ _ _ Ht Hr) as [Hd _]. rewrite (drop_S _ _ _ Hr) in Hd.
  destruct Hd as (_ & (e & He & Es) & Hn & Hdv & Hd). pose proof (tiles_le _ _ _ Hd). pose proof (Z.pow_pos_nonneg 2 e ltac:(lia) ltac:(lia)).
  split; [lia|by exists e|unfold region_end in *; nia|done|]. unfold region_end. apply Z.divide_add_r; [done|]. apply Z.divide_factor_l.
Qed.

Lemma tiles_next l from to n r : tiles l from to -> l !! n = Some r ->
  (exists r', l !! S n = Some r' /\ r_offset r' = region_end r) \/ (length l = S n /\ region_end r = to).
Proof.
  intros Ht Hr. destruct (tiles_drop _ _ _ _ _ Ht Hr) as [Hd _]. rewrite (drop_S _ _ _ Hr) in Hd. destruct Hd as (_ & _ & _ & _ & Hd).
  destruct (l !! S n) as [r'|] eqn:E.
  - rewrite (drop_S _ _ _ E) in Hd. left. exists r'. by destruct Hd as (? & _).
  - right. apply lookup_ge_None in E. apply lookup_lt_Some in Hr. rewrite drop_ge in Hd by lia. simpl in Hd. lia.
Qed.

(** [skip_regions] stops behind the region of an address, or behind the last one. *)
Lemma skip_regions_ok l : forall from to x i, tiles l from to -> from <= x -> l <> [] ->
  exists n r, l !! n = Some r /\ skip_regions x i l = i + Z.of_nat n + 1 /\ r_offset r <= x /\ (x < region_end r \/ (to <= x /\ length l = S n)).
Proof.
  induction l as [|r l IH]; intros from to x i Ht Hx Hne; [done|]. cbn [skip_regions]. destruct Ht as (Ho & He & Hn & Hd & Ht).
  rewrite (proj2 (Z.leb_le _ _)) by lia. destruct (decide (x < region_end r)) as [Hlt|Hge].
  - exists 0%nat, r. split_and!; [done| |lia|by left]. destruct l as [|r' l]; simpl; [lia|]. destruct Ht as (Ho' & _).
    rewrite (proj2 (Z.leb_gt _ _)) by lia. lia.
  - destruct (decide (l = [])) as [->|Hl].
    + exists 0%nat, r. simpl in Ht. split_and!; [done|simpl; lia|lia|]. right. simpl. lia.
    + destruct (IH _ _ x (i + 1) Ht ltac:(lia) Hl) as (n & r' & Hr & E & Hr' & Hc). exists (S n), r'.
      split_and!; [done|rewrite E; lia|done|]. destruct Hc as [?|[? ?]]; [by left|right; simpl; lia].
Qed.

(** [x & (2^e - 1) = 0] *)
Lemma land_aligned x e : 0 <= e <= 32 -> Z.land x (u32 (2 ^ e - 1)) = 0 <-> (2 ^ e | x).
Proof.
  intros He. pose proof (Z.pow_pos_nonneg 2 e ltac:(lia) ltac:(lia)). assert (2 ^ e <= 2 ^ 32) by (apply Z.pow_le_mono_r; lia).
  rewrite u32_small by (unfold is_u32; lia). replace (2 ^ e - 1) with (Z.ones e) by (rewrite Z.ones_equiv; lia). rewrite Z.land_ones by lia.
  apply Z.mod_divide. lia.
Qed.

(** An address at which a block can begin or end. *)
Definition on_boundary (l : list mtd_erase_region_info) (x : Z) : Prop :=
  forall n r, l !! n = Some r -> r_offset r <= x < region_end r -> (r_erasesize r | x).

Lemma tiles_disjoint l from to n n' r r' : tiles l from to -> l !! n = Some r -> l !! n' = Some r' -> (n < n')%nat -> region_end r <= r_offset r'.
Proof.
  intros Ht Hr Hr' Hlt. destruct (tiles_next _ _ _ _ _ Ht Hr) as [(r1 & Hr1 & Eo)|[El _]]; [|apply lookup_lt_Some in Hr'; lia].
  destruct (tiles_drop _ _ _ _ _ Ht Hr1) as [Hd _]. assert (drop (S n) l !! (n' - S n)%nat = Some r') as Hr2
    by (rewrite lookup_drop; by replace (S n + (n' - S n))%nat with n' by lia).
  destruct (tiles_drop _ _ _ _ _ Hd Hr2) as [_ Hle]. lia.
Qed.

(** The region that [skip_regions] finds decides whether an address is a boundary. *)
Lemma boundary_check l from to n r x : tiles l from to -> to <= 2 ^ 31 -> 0 <= from -> l !! n = Some r -> r_offset r <= x ->
  (x < region_end r \/ (to <= x /\ length l = S n)) -> x <= to ->
  Z.land x (u32 (r_erasesize r - 1)) = 0 <-> on_boundary l x.
Proof.
  intros Ht Hto Hfr Hr Hx Hc Hxt. destruct (tiles_region _ _ _ _ _ Ht Hr) as [Hp (e & He & Ee) Hre Ho Hre'].
  destruct (tiles_drop _ _ _ _ _ Ht Hr) as [_ Hfo]. assert (e <= 32) as He32.
  { destruct (decide (e <= 32)); [done|]. pose proof (Z.pow_lt_mono_r 2 32 e ltac:(lia) ltac:(lia) ltac:(lia)).
    unfold region_end in Hre. destruct (decide (r_numblocks r <= 0)); nia. }
  rewrite Ee, land_aligned by lia. rewrite <- Ee. split.
  - intros Hd n' r' Hr' Hx'. destruct (Nat.lt_trichotomy n n') as [Hlt|[->|Hgt]]; [|by simplify_eq|].
    + pose proof (tiles_disjoint _ _ _ _ _ _ _ Ht Hr Hr' Hlt). destruct Hc as [?|[? El]]; [lia|]. apply lookup_lt_Some in Hr'. lia.
    + pose proof (tiles_disjoint _ _ _ _ _ _ _ Ht Hr' Hr Hgt). lia.
  - intros Hb. destruct Hc as [Hlt|[Hge El]]; [by apply (Hb n r)|]. destruct (tiles_next _ _ _ _ _ Ht Hr) as [(r' & Hr' & _)|[_ Et]].
    + apply lookup_lt_Some in Hr'. lia.
    + replace x with (region_end r) by lia. done.
Qed.

(** The number of blocks in a table, and of those from [adr] in the region [r] on. *)
Definition total_blocks (l : list mtd_erase_region_info) : Z := foldr (fun r n => r_numblocks r + n) 0 l.
Definition blocks_left (l : list mtd_erase_region_info) (i : nat) (r : mtd_erase_region_info) (adr : Z) : Z :=
  (region_end r - adr) / r_erasesize r + total_blocks (drop (S i) l).

Lemma total_blocks_nonneg l : forall from to, tiles l from to -> 0 <= total_blocks l.
Proof. induction l as [|r l IH]; intros from to; simpl; [lia|]. intros (_ & _ & Hn & _ & Ht). apply IH in Ht. lia. Qed.

Lemma blocks_left_step l i r from to adr : tiles l from to -> l !! i = Some r -> r_offset r <= adr < region_end r -> (r_erasesize r | adr) ->
  adr + r_erasesize r <= region_end r /\ 1 <= blocks_left l i r adr /\
  (adr + r_erasesize r < region_end r -> blocks_left l i r (adr + r_erasesize r) = blocks_left l i r adr - 1).
Proof.
  intros Ht Hr Ha Hd. destruct (tiles_region _ _ _ _ _ Ht Hr) as [Hp _ _ _ [b Hb]]. destruct Hd as [a ->].
  assert (0 <= total_blocks (drop (S i) l)).
  { destruct (tiles_drop _ _ _ _ _ Ht Hr) as [Hdr _]. rewrite (drop_S _ _ _ Hr) in Hdr. destruct Hdr as (_ & _ & _ & _ & Hdr). by eapply total_blocks_nonneg. }
  unfold blocks_left. set (es := r_erasesize r) in *. rewrite Hb in Ha |- *. replace (a * es + es) with ((a + 1) * es) by lia.
  assert (a < b) by nia. rewrite <- !Z.mul_sub_distr_r, !Z.div_mul by lia. split_and!; [nia|lia|lia].
Qed.

Lemma blocks_left_start l i r from to : tiles l from to -> l !! i = Some r -> blocks_left l i r (r_offset r) = total_blocks (drop i l).
Proof.
  intros Ht Hr. destruct (tiles_region _ _ _ _ _ Ht Hr) as [Hp _ _ _ _]. rewrite (drop_S _ _ _ Hr). unfold blocks_left, region_end. cbn [total_blocks foldr].
  replace (r_offset r + r_erasesize r * r_numblocks r - r_offset r) with (r_numblocks r * r_erasesize r) by lia. by rewrite Z.div_mul by lia.
Qed.

(** ** A block *)

Section Erase.
Context {F : Type} `{NorFlash F} `{NorBus F} {k : ChipKind} {L : ChipLaws F k} {CL : CfiLaws F k}.
Context (fuel : nat) (others : CfiSt F -> CfiSt F) (later : Z -> Z -> Z).
Context (c0 : cfi_private) (m0 : map_info) (ch0 : flchip) (OB : OnBoard k c0 m0) (Hst : start ch0 = 0).
Implicit Types (f : F) (st : flstate_t) (j : Z).
Abbreviation St := (CfiSpec.St c0 m0 ch0).
Abbreviation bank := (FlashChip.bank_size k).

(** The clock after [i] polls. *)
Definition after_polls (i : nat) j : Z := Nat.iter i (fun j => u32 (later 1 j)) j.

(** No chip is so slow, and no poll takes so long, that an erasure is given up. *)
Definition in_time : Prop := forall j i, (i <= max_polls (k := k))%nat ->
  time_after (after_polls i (u32 (later 1000000 j))) (u32 (j + HZ * 20)) = false.

Lemma ready_bit v : (Z.land v 0x80 =? 0x80) = Z.testbit v 7.
Proof.
  change 0x80 with (2 ^ 7). destruct (Z.testbit v 7) eqn:E.
  - apply Z.eqb_eq, Z.bits_inj'. intros i Hi. rewrite Z.land_spec. destruct (decide (i = 7)) as [->|]; [by rewrite E|].
    by rewrite Z.pow2_bits_false, andb_false_r by lia.
  - apply Z.eqb_neq. intros E'. assert (Z.testbit (Z.land v (2 ^ 7)) 7 = true) as Ht by by rewrite E'. by rewrite Z.land_spec, E in Ht.
Qed.

Lemma cfi_wait_erased_ok n : forall f a c j fu timeo, busy f (base k + a) c n -> 0 <= a < bank -> (n < fu)%nat ->
  (forall i, (i < n)%nat -> time_after (after_polls i j) timeo = false) ->
  exists f' j', wait_erased others later fu 0 a 0x80 timeo (St FL_ERASING f j) = Ret 0 (St FL_READY f' j') /\
    idle f' /\ forall x, cell f' x = c x.
Proof using OB CL.
  induction n as [|n IH]; intros f a c j [|fu] timeo Hb Ha Hf Ht; try lia; cbn [wait_erased];
    rewrite (bind_Ret _ _ _ _ _ (rd_ok c0 m0 ch0 OB a _ f j Ha)), ready_bit.
  - destruct (done_law _ _ _ Hb) as (Hr & Hi & Hc).
    assert (Z.testbit (rd16 (base k + a) f).1 7 = true) as ->.
    { assert (Z.testbit (Z.land (rd16 (base k + a) f).1 0xff) 7 = true) as E by by rewrite Hr. rewrite Z.land_spec in E. by apply andb_prop in E as [E _]. }
    by eexists _, j.
  - rewrite (dq7_law _ _ _ _ Hb). destruct (poll_law _ _ _ _ Hb) as [_ Hb']. rewrite (bind_Ret _ _ _ _ _ (chip_ok _ _ _ _ _ _)), bind_gets.
    cbn [state set_state jiffies CfiSpec.St]. rewrite decide_True by done. pose proof (Ht 0%nat ltac:(lia)) as Ht0. simpl in Ht0. rewrite Ht0.
    rewrite (bind_Ret _ _ _ _ _ (delay_ok _ _ _ _ _ _ _ _)). apply IH; [done|done|lia|].
    intros i Hi. specialize (Ht (S i) ltac:(lia)). unfold after_polls in *. by rewrite Nat.iter_succ_r in Ht.
Qed.

(** [do_erase_oneblock]: the sector at [a] is erased, and nothing else. *)
Lemma erase_block_ok a f j : 0 <= a < bank -> idle f -> 0 < sector_len k (base k + a) -> erase_cmd k (base k + a) = 0x30 ->
  (max_polls (k := k) < fuel)%nat -> in_time -> exists f' j',
  do_erase_oneblock fuel others later 0 a (St FL_READY f j) = Ret 0 (St FL_READY f' j') /\ idle f' /\
  forall x, cell f' x = if decide (in_sector k (base k + a) x) then 0xffff else cell f x.
Proof using OB CL Hst.
  intros Ha Hi Hs Hcmd Hfu Ht. destruct (erase_within f (base k + a) Hi ltac:(unfold in_bank; lia) Hs) as (n & Hn & Hb).
  unfold do_erase_oneblock. rewrite (bind_Ret _ _ _ _ _ (wait_ready_ok others _ _ _ _ _ _)).
  rewrite (bind_Ret _ _ _ _ _ (upd_ok _ _ _ _ _ _ _)), (bind_Ret _ _ _ _ _ (chip_ok _ _ _ _ _ _)). cbv zeta.
  cbn [start set_state]. rewrite Hst, Z.add_0_r. rewrite (bind_Ret _ _ _ _ _ (vpp_ok _ _)). unfold the_cfi. rewrite !bind_gets.
  change (addr_unlock1 (cfi _)) with (addr_unlock1 c0). change (addr_unlock2 (cfi _)) with (addr_unlock2 c0).
  erewrite bind_Ret by (apply (unlock_ok _ _ _ OB); lia). rewrite (ob_u1 _ _ _ OB), (ob_u2 _ _ _ OB). unfold CFI_DEVICETYPE_X8.
  pose proof (ob_u1r _ _ _ OB). pose proof (ob_u2r _ _ _ OB).
  do 2 (erewrite bind_Ret by (apply (send_ok _ _ _ OB); lia)). rewrite !Z.mul_1_r. rewrite (bind_Ret _ _ _ _ _ (CMD_ok _ _ _ OB _ _ _ _)).
  erewrite bind_Ret by (apply (wr_ok _ _ _ OB); lia). rewrite bind_gets. cbn [jiffies CfiSpec.St]. unfold schedule_timeout_HZ.
  rewrite (bind_Ret _ _ _ _ _ (delay_ok _ _ _ _ _ _ _ _)), (bind_Ret _ _ _ _ _ (CMD_ok _ _ _ OB _ _ _ _)).
  unfold erase_sequence in Hb. rewrite Hcmd in Hb. eapply cfi_wait_erased_ok; [exact Hb|done|lia|]. intros i Hin. apply Ht. lia.
Qed.

(** ** A request *)

(** The sectors of the chip are the blocks of the table. *)
Definition sectors_match (l : list mtd_erase_region_info) : Prop := forall n r a, l !! n = Some r -> r_offset r <= a < region_end r ->
  (r_erasesize r | a) -> sector_len k (base k + a) = r_erasesize r /\ erase_cmd k (base k + a) = 0x30.

(** What has been erased. *)
Definition erased_range f f' (a e : Z) : Prop := forall x, cell f' x = if decide (base k + a <= x < base k + e) then 0xffff else cell f x.

Lemma erased_range_join f f1 f2 a b e : a <= b <= e -> erased_range f f1 a b -> erased_range f1 f2 b e -> erased_range f f2 a e.
Proof. intros Hb H1 H2 x. rewrite H2, H1. repeat case_decide; (done || lia). Qed.

Lemma region_at l n r (s : CfiSt F) : l !! n = Some r -> region l (Z.of_nat n) s = Ret r s.
Proof. intros Hr. unfold region. rewrite (proj2 (Z.ltb_ge _ _)) by lia. by rewrite Nat2Z.id, Hr. Qed.

Lemma bank_max : bank <= 2 ^ 31.
Proof using OB. rewrite (ob_size _ _ _ OB). pose proof (ob_shift _ _ _ OB). apply Z.pow_le_mono_r; lia. Qed.

Lemma mod_end adr e : 0 < adr <= e -> e <= bank -> (adr mod Z.shiftl 1 (chipshift c0) =? e mod Z.shiftl 1 (chipshift c0)) = (adr =? e).
Proof using OB.
  intros Ha He. pose proof (ob_shift _ _ _ OB). rewrite Z.shiftl_mul_pow2, Z.mul_1_l, <- (ob_size _ _ _ OB) by lia.
  destruct (Z.eqb_spec adr e) as [->|Hne]; [apply Z.eqb_refl|]. apply Z.eqb_neq. rewrite (Z.mod_small adr) by lia.
  destruct (decide (e = bank)) as [->|]; [rewrite Z.mod_same by lia; lia|]. rewrite Z.mod_small by lia. done.
Qed.

Lemma erase_loop_ok l e : tiles l 0 bank -> sectors_match l -> on_boundary l e -> e <= bank ->
  (max_polls (k := k) < fuel)%nat -> in_time -> forall n i r adr len f j,
  l !! i = Some r -> r_offset r <= adr < region_end r -> (r_erasesize r | adr) -> 0 <= adr < e -> idle f ->
  (len = e - adr \/ (e = bank /\ e - adr <= len < 2 ^ 32)) -> blocks_left l i r adr <= Z.of_nat n ->
  exists f' j', erase_var_loop fuel others later n l 0 adr len (Z.of_nat i) (St FL_READY f j) = Ret None (St FL_READY f' j') /\
    idle f' /\ erased_range f f' adr e.
Proof using OB CL Hst.
  intros Ht Hm Hbd Heb Hfu Htm. induction n as [|n IH]; intros i r adr len f j Hr Ha Hd Hae Hi Hlen Hn.
  { destruct (blocks_left_step _ _ _ _ _ _ Ht Hr Ha Hd) as (_ & ? & _). lia. }
  destruct (blocks_left_step _ _ _ _ _ _ Ht Hr Ha Hd) as (Hend & _ & Hleft). destruct (tiles_region _ _ _ _ _ Ht Hr) as [Hp _ Hre _ _].
  pose proof (ob_hi _ _ _ OB) as Hhi. pose proof (ob_lo _ _ _ OB) as Hlo. pose proof bank_max as Hbm. set (es := r_erasesize r) in *.
  assert (adr + es <= e) as Hstep.
  { destruct (decide (region_end r <= e)); [lia|]. destruct (Hbd i r Hr ltac:(lia)) as [q Hq]. destruct Hd as [p Hpd]. fold es in Hq. assert (p < q) by nia. nia. }
  destruct (Hm i r adr Hr Ha Hd) as [Hsl Hcmd]. fold es in Hsl. cbn [erase_var_loop]. rewrite (proj2 (Z.eqb_neq len 0)) by lia.
  destruct (erase_block_ok adr f j) as (f1 & j1 & E1 & Hi1 & Hc1); [lia|done|lia|done..|]. rewrite (bind_Ret _ _ _ _ _ E1).
  assert (erased_range f f1 adr (adr + es)) as Her.
  { intros x. rewrite Hc1. assert (in_sector k (base k + adr) x <-> base k + adr <= x < base k + (adr + es)) as Hx by (unfold in_sector; rewrite Hsl; lia).
    destruct (decide (in_sector _ _ _)) as [Hin|Hin]; rewrite Hx in Hin; case_decide; (done || lia). }
  change (0 =? 0) with true. cbn [negb]. cbn iota. unfold the_cfi. rewrite !bind_gets. change (chipshift (cfi _)) with (chipshift c0).
  change (numchips (cfi _)) with (numchips c0). rewrite (bind_Ret _ _ _ _ _ (region_at _ _ _ _ Hr)). fold es.
  change (r_offset r + es * r_numblocks r) with (region_end r). rewrite !u32_small by (unfold is_u32; lia). rewrite mod_end, (shiftr_bank _ _ OB) by (done || lia). rewrite (ob_num _ _ _ OB).
  destruct (Z.ltb_spec (adr + es) bank) as [Hin|Hout].
  2: { change (1 <=? 0 + 1) with true. exists f1, j1. split_and!; [done|done|]. by replace e with (adr + es) by lia. }
  destruct (decide (adr + es = e)) as [Ee|Hne].
  { exists f1, j1. assert (len - es = 0) as -> by lia. destruct n; simpl; rewrite <- Ee; by split_and!. }
  destruct (Z.eqb_spec (adr + es) (region_end r)) as [Enx|Hsame].
  - destruct (tiles_next _ _ _ _ _ Ht Hr) as [(r' & Hr' & Eo)|[_ ?]]; [|lia]. destruct (tiles_region _ _ _ _ _ Ht Hr') as [Hp' _ Hre' Ho' _].
    replace (Z.of_nat i + 1) with (Z.of_nat (S i)) by lia.
    destruct (IH (S i) r' (adr + es) (len - es) f1 j1) as (f2 & j2 & E2 & Hi2 & Hr2); [done|lia|by rewrite Enx, <- Eo|lia|done|lia| |].
    { rewrite Enx, <- Eo, (blocks_left_start _ _ _ _ _ Ht Hr'). unfold blocks_left in Hn. fold es in Hn. rewrite <- Enx in Hn.
      replace (adr + es - adr) with es in Hn by lia. rewrite Z.div_same in Hn by lia. lia. }
    exists f2, j2. split_and!; [done|done|]. eapply erased_range_join; [|exact Her|exact Hr2]. lia.
  - destruct (IH i r (adr + es) (len - es) f1 j1) as (f2 & j2 & E2 & Hi2 & Hr2); [done|lia|by apply Z.divide_add_r|lia|done|lia|rewrite Hleft by lia; lia|].
    exists f2, j2. split_and!; [done|done|]. eapply erased_range_join; [|exact Her|exact Hr2]. lia.
Qed.

(** The blocks from [addr] to [e] for a request that passes the checks. *)
Lemma erase_request_ok l n r addr e len f j :
  tiles l 0 bank -> sectors_match l -> l !! n = Some r -> r_offset r <= addr -> (addr < region_end r \/ (bank <= addr /\ length l = S n)) ->
  0 <= addr <= e -> e <= bank -> on_boundary l addr -> on_boundary l e -> idle f ->
  (len = e - addr \/ (addr < bank /\ e = bank /\ e - addr <= len < 2 ^ 32)) ->
  (max_polls (k := k) < fuel)%nat -> total_blocks l <= Z.of_nat fuel -> in_time -> exists f' j',
  erase_var_loop fuel others later fuel l 0 addr len (Z.of_nat n) (St FL_READY f j) = Ret None (St FL_READY f' j') /\
  idle f' /\ erased_range f f' addr e.
Proof using OB CL Hst.
  intros Ht Hm Hr Ho Hc Ha He Hb1 Hb2 Hi Hlen Hfu Htb Htm. destruct (decide (addr = e)) as [->|Hne].
  { exists f, j. assert (len = 0) as -> by lia. split_and!; [destruct fuel; done|done|]. intros x. by rewrite decide_False by lia. }
  assert (addr < region_end r) as Hlt by lia. eapply erase_loop_ok; try done; [by eapply Hb1|lia|lia|].
  transitivity (total_blocks (drop n l)).
  - rewrite <- (blocks_left_start _ _ _ _ _ Ht Hr). unfold blocks_left. destruct (tiles_region _ _ _ _ _ Ht Hr) as [Hp _ _ _ _].
    apply Z.add_le_mono_r, Z.div_le_mono; lia.
  - etransitivity; [|exact Htb]. clear -Ht. generalize dependent 0. revert n. induction l as [|r l IH]; intros n from Ht; [by rewrite drop_nil|].
    destruct n as [|n]; [done|]. destruct Ht as (_ & _ & Hn & _ & Ht). specialize (IH n _ Ht). simpl. lia.
Qed.

(** [cfi_amdstd_erase_varsize]: a request from boundary to boundary erases what it says. *)
Lemma varsize_ok mtd instr f j :
  let l := regions mtd in let addr := e_addr instr in let len := e_len instr in
  tiles l 0 bank -> sectors_match l -> size mtd = bank -> 0 <= addr -> 0 <= len -> addr + len <= bank ->
  on_boundary l addr -> on_boundary l (addr + len) -> idle f ->
  (max_polls (k := k) < fuel)%nat -> total_blocks l <= Z.of_nat fuel -> in_time -> exists f' j',
  cfi_amdstd_erase_varsize fuel others later mtd instr (St FL_READY f j) = Ret (0, finish_erase MTD_ERASE_DONE instr) (St FL_READY f' j') /\
  idle f' /\ erased_range f f' addr (addr + len).
Proof using OB CL Hst.
  intros l addr len Ht Hm Hsz Ha Hl Hb Hb1 Hb2 Hi Hfu Htb Htm. pose proof (bank_pos _ _ OB). pose proof bank_max as Hbm.
  assert (l <> []) as Hne by (intros E; rewrite E in Ht; simpl in Ht; lia).
  destruct (skip_regions_ok _ _ _ addr 0 Ht Ha Hne) as (n & r & Hr & E1 & Ho & Hc).
  destruct (tiles_drop _ _ _ _ _ Ht Hr) as [Htd _].
  destruct (skip_regions_ok (drop n l) _ _ (addr + len) (Z.of_nat n) Htd ltac:(lia)) as (n2 & r2 & Hr2 & E2 & Ho2 & Hc2);
    [by rewrite (drop_S _ _ _ Hr)|]. rewrite lookup_drop in Hr2. rewrite length_drop in Hc2.
  assert (exists f' j', erase_var_loop fuel others later fuel l (Z.shiftr addr (chipshift c0)) (addr - Z.shiftl (Z.shiftr addr (chipshift c0)) (chipshift c0)) len
    (Z.of_nat n) (St FL_READY f j) = Ret None (St FL_READY f' j') /\ idle f' /\ erased_range f f' addr (addr + len)) as (f' & j' & E & Hi' & Her).
  { destruct (decide (len = 0)) as [->|Hn0].
    { exists f, j. split_and!; [by destruct fuel|done|]. intros x. by rewrite decide_False by lia. }
    assert (Z.shiftr addr (chipshift c0) = 0) as -> by (apply Z.eqb_eq; rewrite (shiftr_bank _ _ OB) by lia; apply Z.ltb_lt; lia).
    rewrite Z.shiftl_0_l, Z.sub_0_r. eapply erase_request_ok; try done; lia. }
  exists f', j'. split_and!; [|done|done]. unfold cfi_amdstd_erase_varsize. fold l addr len. cbv zeta. rewrite (Z.add_comm len addr), u32_small by (unfold is_u32; lia).
  rewrite Hsz, (proj2 (Z.ltb_ge bank addr)), (proj2 (Z.ltb_ge bank (addr + len))) by lia. cbn [orb]. rewrite E1. replace (0 + Z.of_nat n + 1 - 1) with (Z.of_nat n) by lia.
  rewrite (bind_Ret _ _ _ _ _ (region_at _ _ _ _ Hr)), Nat2Z.id.
  rewrite (proj2 (boundary_check _ _ _ _ _ _ Ht Hbm ltac:(lia) Hr Ho Hc ltac:(lia)) Hb1). change (negb (0 =? 0)) with false. cbn iota.
  rewrite E2. replace (Z.of_nat n + Z.of_nat n2 + 1 - 1) with (Z.of_nat (n + n2)) by lia. rewrite (bind_Ret _ _ _ _ _ (region_at _ _ _ _ Hr2)).
  rewrite (proj2 (boundary_check _ _ _ _ _ _ Ht Hbm ltac:(lia) Hr2 Ho2 ltac:(apply lookup_lt_Some in Hr2; lia) ltac:(lia)) Hb2).
  change (negb (0 =? 0)) with false. cbn iota. unfold the_cfi. rewrite bind_gets. change (chipshift (cfi _)) with (chipshift c0).
  by rewrite (bind_Ret _ _ _ _ _ E).
Qed.

(** A length that takes the end of the request around to zero erases the rest of the chip. *)
Lemma varsize_wraps mtd instr f j :
  let l := regions mtd in let addr := e_addr instr in
  tiles l 0 bank -> sectors_match l -> size mtd = bank -> 0 < addr < bank -> e_len instr = 2 ^ 32 - addr -> on_boundary l addr -> idle f ->
  (max_polls (k := k) < fuel)%nat -> total_blocks l <= Z.of_nat fuel -> in_time -> exists f' j',
  cfi_amdstd_erase_varsize fuel others later mtd instr (St FL_READY f j) = Ret (0, finish_erase MTD_ERASE_DONE instr) (St FL_READY f' j') /\
  idle f' /\ erased_range f f' addr bank.
Proof using OB CL Hst.
  intros l addr Ht Hm Hsz Ha Hlen Hb1 Hi Hfu Htb Htm. pose proof bank_max as Hbm.
  assert (l <> []) as Hne by (intros E; rewrite E in Ht; simpl in Ht; lia).
  destruct (skip_regions_ok _ _ _ addr 0 Ht ltac:(lia) Hne) as (n & r & Hr & E1 & Ho & Hc).
  assert (on_boundary l bank) as Hbb.
  { intros n' r' Hr' Hx. destruct (tiles_region _ _ _ _ _ Ht Hr') as [_ _ Hre _ _]. lia. }
  destruct (erase_request_ok l n r addr bank (2 ^ 32 - addr) f j) as (f' & j' & E & Hi' & Her); try done; try lia.
  exists f', j'. split_and!; [|done|done]. unfold cfi_amdstd_erase_varsize. fold l addr. cbv zeta. rewrite Hlen.
  replace (2 ^ 32 - addr + addr) with (2 ^ 32) by lia. change (u32 (2 ^ 32)) with 0. pose proof (bank_pos _ _ OB).
  rewrite Hsz, (proj2 (Z.ltb_ge bank addr)), (proj2 (Z.ltb_ge bank 0)) by lia. cbn [orb]. rewrite E1. replace (0 + Z.of_nat n + 1 - 1) with (Z.of_nat n) by lia.
  rewrite (bind_Ret _ _ _ _ _ (region_at _ _ _ _ Hr)), Nat2Z.id.
  rewrite (proj2 (boundary_check _ _ _ _ _ _ Ht Hbm ltac:(lia) Hr Ho Hc ltac:(lia)) Hb1). change (negb (0 =? 0)) with false. cbn iota.
  assert (exists n2 r2, l !! n2 = Some r2 /\ skip_regions 0 (Z.of_nat n) (drop n l) - 1 = Z.of_nat n2) as (n2 & r2 & Hr2 & ->).
  { rewrite (drop_S _ _ _ Hr). cbn [skip_regions]. destruct n as [|n].
    - destruct (skip_regions_ok _ _ _ 0 0 Ht ltac:(lia) Hne) as (n2 & r2 & Hr2 & E2 & _). exists n2, r2. split; [done|].
      rewrite <- (drop_0 l) in E2 at 1. rewrite (drop_S _ _ _ Hr) in E2. cbn [skip_regions] in E2. change (Z.of_nat 0) with 0. rewrite E2. lia.
    - destruct (lookup_lt_is_Some_2 l n) as [r2 Hr2]; [apply lookup_lt_Some in Hr; lia|]. exists n, r2. split; [done|].
      pose proof (tiles_disjoint _ _ _ _ _ _ _ Ht Hr2 Hr ltac:(lia)). destruct (tiles_region _ _ _ _ _ Ht Hr2) as [_ _ ? _ _].
      destruct (tiles_drop _ _ _ _ _ Ht Hr2) as [_ ?]. rewrite (proj2 (Z.leb_gt _ _)) by lia. lia. }
  rewrite (bind_Ret _ _ _ _ _ (region_at _ _ _ _ Hr2)). rewrite Z.land_0_l. change (negb (0 =? 0)) with false. cbn iota.
  unfold the_cfi. rewrite bind_gets. change (chipshift (cfi _)) with (chipshift c0).
  assert (Z.shiftr addr (chipshift c0) = 0) as -> by (apply Z.eqb_eq; rewrite (shiftr_bank _ _ OB) by lia; apply Z.ltb_lt; lia).
  rewrite Z.shiftl_0_l, Z.sub_0_r. by rewrite (bind_Ret _ _ _ _ _ E).
Qed.
End Erase.
