(* ===== verification/ResetButton.v ===== *)
(** * The timer interrupt and the button that resets the configuration
    (src/linux2510/arch/armnommu/mach-2510REF/time.c)

    The interrupt looks at the button every 100 ms; when it has been pressed for
    ten looks, the error lamp is lit and the kernel's thread for such work is
    given the task of erasing the partition with the settings and restarting.
    The lamp is the driver of Gpio.v, the partitions are those of Mtd.v.  The
    button is bit 5 of the port; a press pulls it low.  [do_timer] is modelled by
    the number of its calls, [machine_restart] by a mark. *)

From S2P Require Import Prelude Gpio Mtd.

Definition HZMSEC : Z := 10000.
Definition IC : Z := 0xF0040004.
Definition GPIO5 : Z := 0x20.
Definition EIO : Z := 5.

(** [td0] and [td1] are the data and the counter register of the timer. *)
Definition s3c2510_gettimeoffset (td0 td1 : Z) : option Z :=
  if td0 / HZMSEC =? 0 then None else Some (u32 (td0 - td1) / (td0 / HZMSEC)).

(** [queued] is the mark of [ResetConf_task] that it waits to be run ([sync]);
    [ic_writes] what was written to the register [IC]. *)
Record ClockSt (X : Type) : Type := mkClock {
  nCount : Z;
  mS : Z;
  on : Z;
  ResetConf_flag : Z;
  queued : bool;
  ic_writes : list Z;
  do_timer_calls : Z;
  restarted : bool;
  gpio : Driver;
  mtd : MtdSt X;
}.
Arguments mkClock {X}. Arguments nCount {X}. Arguments mS {X}. Arguments on {X}. Arguments ResetConf_flag {X}. Arguments queued {X}.
Arguments ic_writes {X}. Arguments do_timer_calls {X}. Arguments restarted {X}. Arguments gpio {X}. Arguments mtd {X}.

Section Setters.
Context {X : Type}.
Implicit Types s : ClockSt X.
Definition set_nCount x s := mkClock x (mS s) (on s) (ResetConf_flag s) (queued s) (ic_writes s) (do_timer_calls s) (restarted s) (gpio s) (mtd s).
Definition set_mS x s := mkClock (nCount s) x (on s) (ResetConf_flag s) (queued s) (ic_writes s) (do_timer_calls s) (restarted s) (gpio s) (mtd s).
Definition set_on x s := mkClock (nCount s) (mS s) x (ResetConf_flag s) (queued s) (ic_writes s) (do_timer_calls s) (restarted s) (gpio s) (mtd s).
Definition set_ResetConf_flag x s := mkClock (nCount s) (mS s) (on s) x (queued s) (ic_writes s) (do_timer_calls s) (restarted s) (gpio s) (mtd s).
Definition set_queued x s := mkClock (nCount s) (mS s) (on s) (ResetConf_flag s) x (ic_writes s) (do_timer_calls s) (restarted s) (gpio s) (mtd s).
Definition set_ic_writes x s := mkClock (nCount s) (mS s) (on s) (ResetConf_flag s) (queued s) x (do_timer_calls s) (restarted s) (gpio s) (mtd s).
Definition set_do_timer_calls x s := mkClock (nCount s) (mS s) (on s) (ResetConf_flag s) (queued s) (ic_writes s) x (restarted s) (gpio s) (mtd s).
Definition set_restarted x s := mkClock (nCount s) (mS s) (on s) (ResetConf_flag s) (queued s) (ic_writes s) (do_timer_calls s) x (gpio s) (mtd s).
Definition set_gpio x s := mkClock (nCount s) (mS s) (on s) (ResetConf_flag s) (queued s) (ic_writes s) (do_timer_calls s) (restarted s) x (mtd s).
Definition set_mtd (x : MtdSt X) s := mkClock (nCount s) (mS s) (on s) (ResetConf_flag s) (queued s) (ic_writes s) (do_timer_calls s) (restarted s) (gpio s) x.
End Setters.

Section ResetButton.
(** [fuel] bounds the blocks of the partition. *)
Context {X : Type} `{MtdDriver X} (fuel : nat).
Abbreviation R A := (M (ClockSt X) A).

Definition on_mtd {A} (m : M (MtdSt X) A) : R A := fun s =>
  match m (mtd s) with
  | Ret a t => Ret a (set_mtd t s)
  | Stop e t => Stop e (set_mtd t s)
  end.
Definition on_gpio {A} (m : M Driver A) : R A := fun s =>
  match m (gpio s) with
  | Ret a d => Ret a (set_gpio d s)
  | Stop e d => Stop e (set_gpio d s)
  end.

Definition machine_restart : R unit := modify (set_restarted true).

(** ** Erasing the settings *)

(** [mtd_erase_callback] wakes up whoever waits for [instr]: nobody yet, as the
    erasing of a block is finished when [erase] returns.  [e_state] of a request
    that is neither done nor failed makes the thread sleep. *)
Definition erase_request (mtd_if start_addr : Z) : R Z :=
  m ← on_mtd (get_mtd mtd_if);
  '(ret, e) ← on_mtd (mtd_erase mtd_if (mkErase mtd_if start_addr (erasesize m) true 0 0));
  if negb (ret =? 0) then mret ret
  else if negb (e_state e =? MTD_ERASE_DONE) && negb (e_state e =? MTD_ERASE_FAILED) then stop_with Asleep
  else mret (if e_state e =? MTD_ERASE_FAILED then - EIO else 0).

(** [for (start_addr = 0; start_addr < mtd_if->size; start_addr += mtd_if->erasesize)] *)
Fixpoint erase_blocks (n : nat) (mtd_if start_addr : Z) : R unit :=
  m ← on_mtd (get_mtd mtd_if);
  if size m <=? start_addr then mret tt
  else match n with
       | O => stop_with OutOfFuel
       | S n' => erase_request mtd_if start_addr ;; erase_blocks n' mtd_if (u32 (start_addr + erasesize m))
       end.

(** The request is freed just before the restart; nothing depends on it. *)
Definition erase_config : R unit :=
  mtd_if ← on_mtd (__get_mtd_device 0 1);
  erase ← on_mtd kmalloc;
  if erase =? 0 then mret tt
  else erase_blocks fuel mtd_if 0 ;; machine_restart.

(** ** The interrupt *)

(** [schedule_task(&ResetConf_task)]: a task that waits already is not queued again. *)
Definition schedule_task : R unit := modify (set_queued true).

(** [active] as in [gpio_kernel_ioctl]. *)
Definition scan_init_button (active : bool) : R unit :=
  tmp ← on_gpio (get_reg IOPDATA1);
  if Z.land tmp GPIO5 =? 0 then
    modify (fun s => set_nCount (s32 (nCount s + 1)) s) ;;
    n ← gets nCount;
    when (10 <=? n)
      (on_gpio (gpio_kernel_ioctl active GPIO_LED_CMD GPIO_WRITE_ERROR_LED_ON) ;;
       modify (set_ResetConf_flag 1) ;;
       schedule_task ;;
       modify (set_nCount 0))
  else modify (set_nCount 0).

Definition s3c2510_timer_interrupt (active : bool) (irq : Z) : R unit :=
  modify (fun s => set_mS (s32 (mS s + 1)) s) ;;
  n ← gets mS;
  when (Z.rem n 10 =? 0) (scan_init_button active) ;;
  when (49 <? n) (modify (fun s => set_on (if negb (on s =? 0) then 0 else 1) s) ;; modify (set_mS 0)) ;;
  modify (fun s => set_ic_writes (ic_writes s ++ [Z.shiftl 1 (irq - 28)]) s) ;;
  modify (fun s => set_do_timer_calls (do_timer_calls s + 1) s).

(** The kernel's thread takes the task off its queue and runs it. *)
Definition keventd : R unit :=
  modify (set_queued false) ;; erase_config.

(** The button: what it does to the port. *)
Definition press (down : bool) (s : ClockSt X) : ClockSt X :=
  let v := dregs (gpio s) IOPDATA1 in
  let v' := if down then Z.land v (Z.lnot GPIO5) else Z.lor v GPIO5 in
  match set_reg IOPDATA1 v' (gpio s) with
  | Ret _ d => set_gpio d s
  | Stop _ _ => s
  end.

(** Interrupts of the timer; [down]: whether the button is pressed at each. *)
Fixpoint ticks (active : bool) (down : list bool) : R unit :=
  match down with
  | [] => mret tt
  | b :: down' => modify (press b) ;; s3c2510_timer_interrupt active 29 ;; ticks active down'
  end.
End ResetButton.
