(* ===== verification/ButtonSpec.v ===== *)
(** * When the button resets the configuration

    The looks at the button are every tenth interrupt ([samples]); the task is
    queued exactly if ten looks in a row have found it pressed. *)

From S2P Require Import Prelude Gpio Mtd ResetButton.

(** ** The looks *)

(** The looks among the interrupts, [phase] interrupts after the last look. *)
Fixpoint samples (phase : nat) (down : list bool) : list bool :=
  match down with
  | [] => []
  | b :: down' => if (phase =? 9)%nat then b :: samples 0 down' else samples (S phase) down'
  end.

Definition ten_in_a_row (l : list bool) : Prop := exists l1 l2, l = l1 ++ replicate 10 true ++ l2.

(** What a look does to the count, and whether ten have been reached. *)
Definition look (c : nat * bool) (b : bool) : nat * bool :=
  if b then if (c.1 =? 9)%nat then (0%nat, true) else (S c.1, c.2) else (0%nat, c.2).

Lemma looks_fired n l : (foldl look (n, true) l).2 = true.
Proof.
  revert n. induction l as [|[] l IH]; intros n; [done| |]; cbn [foldl].
  - unfold look at 2. simpl. destruct (n =? 9)%nat; apply IH.
  - apply IH.
Qed.

Lemma ten_after_false n l : (n < 10)%nat -> ten_in_a_row (replicate n true ++ false :: l) <-> ten_in_a_row l.
Proof.
  intros Hn. split; intros (l1 & l2 & E).
  - assert ((l1 ++ replicate 10 true ++ l2) !! n = Some false) as Hf.
    { rewrite <- E, lookup_app_r; rewrite length_replicate; [|lia]. by rewrite Nat.sub_diag. }
    destruct (decide (n < length l1)%nat) as [Hlt|Hge].
    + exists (drop (S n) l1), l2. rewrite <- drop_app_le by lia. rewrite <- E.
      rewrite drop_app_ge by (rewrite length_replicate; lia). rewrite length_replicate. by replace (S n - n)%nat with 1%nat by lia.
    + exfalso. assert (l1 = replicate (length l1) true) as El1.
      { assert (take (length l1) (replicate n true ++ false :: l) = l1) as <- by (rewrite E; by rewrite take_app_length).
        rewrite take_app_le by (rewrite length_replicate; lia). rewrite take_replicate. f_equal. rewrite length_replicate. lia. }
      rewrite lookup_app_r in Hf by lia. rewrite lookup_app_l in Hf by (rewrite length_replicate; lia). apply lookup_replicate in Hf as [? _]. done.
  - exists (replicate n true ++ false :: l1), l2. rewrite E. by rewrite <- app_assoc.
Qed.

Lemma looks_spec l : forall n, (n < 10)%nat -> (foldl look (n, false) l).2 = true <-> ten_in_a_row (replicate n true ++ l).
Proof.
  induction l as [|b l IH]; intros n Hn; cbn [foldl].
  - split; [done|]. intros (l1 & l2 & E). apply (f_equal length) in E. rewrite !length_app, !length_replicate in E. simpl in E. lia.
  - destruct b; unfold look at 2; cbn [fst snd].
    + destruct (Nat.eqb_spec n 9) as [->|Hne].
      * rewrite looks_fired. split; [intros _|done]. by exists [], l.
      * rewrite IH by lia. replace (replicate n true ++ true :: l) with (replicate (S n) true ++ l); [done|].
        replace (S n) with (n + 1)%nat by lia. by rewrite replicate_add, <- app_assoc.
    + rewrite ten_after_false by done. rewrite IH by lia. done.
Qed.

(** ** The interrupt *)

Section Button.
Context {X : Type} `{MtdDriver X}.
Implicit Types s : ClockSt X.

Lemma press_bit b s : Z.land (dregs (gpio (press b s)) IOPDATA1) GPIO5 = if b then 0 else GPIO5.
Proof.
  unfold press, set_reg, modify, reg_set. cbn [gpio set_gpio dregs]. rewrite Z.eqb_refl. destruct b; by autorewrite with flags.
Qed.
Lemma press_same b s : nCount (press b s) = nCount s /\ mS (press b s) = mS s /\ ResetConf_flag (press b s) = ResetConf_flag s /\
  queued (press b s) = queued s /\ mtd (press b s) = mtd s /\ restarted (press b s) = restarted s.
Proof. done. Qed.

(** The lamp is lit and remembered to be. *)
Definition error_lamp (d : Driver) : Prop := Z.testbit (dregs d IOPDATA1) 7 = true /\ nPostErr d = GPIO_LED_STATUS_ON.

Lemma lamp_kept b s : error_lamp (gpio s) -> error_lamp (gpio (press b s)).
Proof.
  intros [H7 Hp]. split; [|done]. unfold press, set_reg, modify. cbn [gpio set_gpio dregs]. unfold reg_set. rewrite Z.eqb_refl.
  destruct b; [rewrite Z.land_spec, Z.lnot_spec by lia|rewrite Z.lor_spec]; by rewrite H7.
Qed.

(** The counters of the code are those of [look]; the flag, the task and the lamp follow. *)
Record Counting (phase n : nat) (fired : bool) (s : ClockSt X) : Prop := mkCounting {
  ct_phase : (phase <= 9)%nat;
  ct_mS : 0 <= mS s <= 49;
  ct_mod : mS s mod 10 = Z.of_nat phase;
  ct_n : nCount s = Z.of_nat n;
  ct_n_max : (n <= 9)%nat;
  ct_flag : ResetConf_flag s = if fired then 1 else 0;
  ct_queued : queued s = fired;
  ct_lamp : fired = true -> error_lamp (gpio s);
}.

Lemma scan_ok active (b : bool) n (fired : bool) s :
  Z.land (dregs (gpio s) IOPDATA1) GPIO5 = (if b then 0 else GPIO5) -> nCount s = Z.of_nat n -> (n <= 9)%nat ->
  ResetConf_flag s = (if fired then 1 else 0) -> queued s = fired -> (fired = true -> error_lamp (gpio s)) ->
  exists s', scan_init_button active s = Ret tt s' /\ nCount s' = Z.of_nat (look (n, fired) b).1 /\
    ResetConf_flag s' = (if (look (n, fired) b).2 then 1 else 0) /\ queued s' = (look (n, fired) b).2 /\
    ((look (n, fired) b).2 = true -> error_lamp (gpio s')) /\ mS s' = mS s /\ mtd s' = mtd s /\ restarted s' = restarted s.
Proof.
  intros Hbit Hn Hn9 Hf Hq Hl. unfold scan_init_button. assert (on_gpio (get_reg IOPDATA1) s = Ret (dregs (gpio s) IOPDATA1) s) as E0 by (by destruct s).
  rewrite (bind_Ret _ _ _ _ _ E0), Hbit. destruct b.
  - change (0 =? 0) with true. cbn iota. rewrite bind_modify, bind_gets. cbn [nCount set_nCount]. rewrite s32_small by lia. rewrite Hn.
    unfold look. cbn [fst snd]. destruct (Nat.eqb_spec n 9) as [->|Hne].
    + eexists. split; [reflexivity|]. split_and!; try done. intros _. split; [|done].
      change (Z.testbit (reg_set IOPDATA1 (Z.lor (dregs (gpio s) IOPDATA1) 128) (dregs (gpio s)) IOPDATA1) 7 = true).
      unfold reg_set. rewrite Z.eqb_refl, Z.lor_spec. by rewrite orb_true_r.
    + rewrite (proj2 (Z.leb_gt _ _)) by lia. eexists. split; [reflexivity|]. cbn. split_and!; try done. lia.
  - change (GPIO5 =? 0) with false. eexists. split; [reflexivity|]. cbn. by split_and!.
Qed.

Lemma tick_ok active b phase n fired s : Counting phase n fired s -> exists s',
  (modify (press b) ;; s3c2510_timer_interrupt active 29) s = Ret tt s' /\ mtd s' = mtd s /\ restarted s' = restarted s /\
  Counting (if (phase =? 9)%nat then 0 else S phase)%nat (if (phase =? 9)%nat then look (n, fired) b else (n, fired)).1
    (if (phase =? 9)%nat then look (n, fired) b else (n, fired)).2 s'.
Proof.
  intros [Hp Hm Hmod Hn Hn9 Hf Hq Hl]. rewrite bind_modify. unfold s3c2510_timer_interrupt. rewrite bind_modify, bind_gets.
  cbn [mS set_mS]. rewrite s32_small by (destruct (press_same b s) as (_ & -> & _); lia).
  set (s1 := set_mS (mS (press b s) + 1) (press b s)). change (mS (press b s)) with (mS s). rewrite Z.rem_mod_nonneg by lia.
  assert ((mS s + 1) mod 10 = if (phase =? 9)%nat then 0 else Z.of_nat (S phase)) as Em
    by (destruct (Nat.eqb_spec phase 9); Z.div_mod_to_equations; lia).
  assert (exists s2, when ((mS s + 1) mod 10 =? 0) (scan_init_button active) s1 = Ret tt s2 /\ mS s2 = mS s + 1 /\ mtd s2 = mtd s /\ restarted s2 = restarted s /\
    let c := if (phase =? 9)%nat then look (n, fired) b else (n, fired) in
    nCount s2 = Z.of_nat c.1 /\ ResetConf_flag s2 = (if c.2 then 1 else 0) /\ queued s2 = c.2 /\ (c.2 = true -> error_lamp (gpio s2))) as (s2 & E2 & M2 & T2 & R2 & N2 & F2 & Q2 & L2).
  { rewrite Em. destruct (phase =? 9)%nat.
    - destruct (scan_ok active b n fired s1) as (s2 & E & ? & ? & ? & ? & ? & ? & ?); [apply press_bit|done|done|done|done|intros Hfi; by apply (lamp_kept b), Hl|].
      exists s2. cbv zeta. by split_and!.
    - rewrite (proj2 (Z.eqb_neq _ 0)) by lia. exists s1. cbv zeta. split_and!; try done. intros Hfi. by apply (lamp_kept b), Hl. }
  assert ((if (phase =? 9)%nat then look (n, fired) b else (n, fired)).1 <= 9)%nat as Hc.
  { destruct (phase =? 9)%nat; [|done]. unfold look. destruct b; simpl; [destruct (Nat.eqb_spec n 9); simpl; lia|lia]. }
  rewrite (bind_Ret _ _ _ _ _ E2). destruct (Z.ltb_spec 49 (mS s + 1)); eexists; (split; [reflexivity|]); (split_and!; [done|done|]);
    split; cbn; try done; rewrite ?M2, ?Em; destruct (Nat.eqb_spec phase 9); try lia; (done || (exfalso; Z.div_mod_to_equations; lia)).
Qed.

(** Whatever the button does, the counters follow the looks at it. *)
Lemma ticks_ok active down : forall phase n fired s, Counting phase n fired s -> exists s' phase',
  ticks active down s = Ret tt s' /\ mtd s' = mtd s /\ restarted s' = restarted s /\
  Counting phase' (foldl look (n, fired) (samples phase down)).1 (foldl look (n, fired) (samples phase down)).2 s'.
Proof.
  induction down as [|b down IH]; intros phase n fired s Hc; [by exists s, phase|]. cbn [ticks].
  destruct (tick_ok active b _ _ _ _ Hc) as (s1 & E & T & R & Hc1). cbn [samples]. rewrite bind_modify in E. rewrite bind_modify.
  rewrite (bind_Ret _ _ _ _ _ E). destruct (phase =? 9)%nat.
  - cbn [foldl]. destruct (look (n, fired) b) as [n1 f1]. destruct (IH _ _ _ _ Hc1) as (s2 & ph & ? & ? & ? & ?). exists s2, ph. split_and!; (done || congruence).
  - destruct (IH _ _ _ _ Hc1) as (s2 & ph & ? & ? & ? & ?). exists s2, ph. split_and!; (done || congruence).
Qed.

(** ** Steps in any order *)

(** The button, the timer and the kernel's thread. *)
Inductive step (fuel : nat) : ClockSt X -> ClockSt X -> Prop :=
| step_button b s : step fuel s (press b s)
| step_tick active s s' : s3c2510_timer_interrupt active 29 s = Ret tt s' -> step fuel s s'
| step_keventd s s' : queued s = true -> keventd fuel s = Ret tt s' -> step fuel s s'.

(** The counters are bounded, and the task is only queued on a request. *)
Record Bounded s : Prop := mkBounded {
  bd_n : 0 <= nCount s <= 9;
  bd_mS : 0 <= mS s <= 49;
  bd_queued : queued s = true -> ResetConf_flag s = 1;
}.

Lemma scan_bounded active s : 0 <= nCount s <= 9 -> (queued s = true -> ResetConf_flag s = 1) -> exists s', scan_init_button active s = Ret tt s' /\
  0 <= nCount s' <= 9 /\ mS s' = mS s /\ (queued s' = true -> ResetConf_flag s' = 1) /\ (ResetConf_flag s' = 0 -> ResetConf_flag s = 0) /\
  mtd s' = mtd s /\ restarted s' = restarted s.
Proof.
  intros Hn Hq. unfold scan_init_button. assert (on_gpio (get_reg IOPDATA1) s = Ret (dregs (gpio s) IOPDATA1) s) as E0 by (by destruct s).
  rewrite (bind_Ret _ _ _ _ _ E0). destruct (Z.land _ _ =? 0); [|eexists; split; [reflexivity|]; split_and!; (done || (cbn; lia))].
  rewrite bind_modify, bind_gets. cbn [nCount set_nCount]. rewrite s32_small by lia.
  destruct (Z.leb_spec 10 (nCount s + 1)); (eexists; split; [reflexivity|]; cbn; split_and!; (done || lia)).
Qed.

(** An interrupt returns, and leaves the flash alone. *)
Lemma interrupt_bounded active s : Bounded s -> exists s', s3c2510_timer_interrupt active 29 s = Ret tt s' /\ Bounded s' /\
  (ResetConf_flag s' = 0 -> ResetConf_flag s = 0) /\ mtd s' = mtd s /\ restarted s' = restarted s.
Proof.
  intros [Hn Hm Hq]. unfold s3c2510_timer_interrupt. rewrite bind_modify, bind_gets. cbn [mS set_mS]. rewrite s32_small by lia. set (s1 := set_mS (mS s + 1) s).
  assert (exists s2, when (Z.rem (mS s + 1) 10 =? 0) (scan_init_button active) s1 = Ret tt s2 /\ 0 <= nCount s2 <= 9 /\ mS s2 = mS s + 1 /\
    (queued s2 = true -> ResetConf_flag s2 = 1) /\ (ResetConf_flag s2 = 0 -> ResetConf_flag s = 0) /\ mtd s2 = mtd s /\ restarted s2 = restarted s)
    as (s2 & E2 & ? & ? & ? & ? & ? & ?).
  { destruct (_ =? 0); [by apply (scan_bounded active s1)|]. by exists s1. }
  rewrite (bind_Ret _ _ _ _ _ E2). destruct (Z.ltb_spec 49 (mS s + 1)); eexists; (split; [reflexivity|]); (split_and!; [split|..]); (done || (cbn; lia)).
Qed.

(** A computation that only uses the flash and the restart. *)
Definition only_flash {A} (m : M (ClockSt X) A) : Prop := forall s a s', m s = Ret a s' ->
  nCount s' = nCount s /\ mS s' = mS s /\ ResetConf_flag s' = ResetConf_flag s /\ queued s' = queued s.
Lemma only_flash_ret {A} (a : A) : only_flash (mret a).
Proof. intros s b s' E. by injection E as _ <-. Qed.
Lemma only_flash_stop {A} e : only_flash (A := A) (stop_with e).
Proof. done. Qed.
Lemma only_flash_bind {A B} (m : M (ClockSt X) A) (g : A -> M (ClockSt X) B) : only_flash m -> (forall a, only_flash (g a)) -> only_flash (m ≫= g).
Proof.
  intros Hm Hg s b s' E. unfold mbind, M_bind in E. destruct (m s) as [a s1|] eqn:E1; [|done].
  destruct (Hm _ _ _ E1) as (? & ? & ? & ?). destruct (Hg _ _ _ _ E) as (? & ? & ? & ?). split_and!; congruence.
Qed.
Lemma only_flash_mtd {A} (m : M (MtdSt X) A) : only_flash (on_mtd m).
Proof. intros s a s' E. unfold on_mtd in E. destruct (m (mtd s)); [|done]. by injection E as _ <-. Qed.
Lemma only_flash_restart : only_flash (machine_restart (X := X)).
Proof. intros s a s' E. by injection E as _ <-. Qed.
Local Hint Resolve only_flash_ret only_flash_stop only_flash_bind only_flash_mtd only_flash_restart : core.

Lemma only_flash_blocks n : forall p a, only_flash (erase_blocks n p a).
Proof.
  induction n as [|n IH]; intros p a; cbn [erase_blocks]; apply only_flash_bind; auto; intros m; destruct (_ <=? _); auto.
  apply only_flash_bind; [|auto]. unfold erase_request. apply only_flash_bind; auto. intros m'. apply only_flash_bind; auto. intros [r e].
  destruct (negb _); auto. destruct (_ && _); auto.
Qed.
Lemma only_flash_config fuel : only_flash (erase_config fuel).
Proof. unfold erase_config. apply only_flash_bind; auto. intros p. apply only_flash_bind; auto. intros q. destruct (_ =? 0); auto. apply only_flash_bind; auto using only_flash_blocks. Qed.

(** Through every interleaving the bounds hold, and the flash is touched only on a request. *)
Lemma steps_bounded fuel s s' : rtc (step fuel) s s' -> Bounded s ->
  Bounded s' /\ (ResetConf_flag s' = 0 -> ResetConf_flag s = 0 /\ mtd s' = mtd s /\ restarted s' = restarted s).
Proof.
  induction 1 as [s|s s1 s2 Hs _ IH]; intros Hb; [by split|].
  assert (Bounded s1 /\ (ResetConf_flag s1 = 0 -> ResetConf_flag s = 0 /\ mtd s1 = mtd s /\ restarted s1 = restarted s)) as [Hb1 Hf1].
  { destruct Hs as [b s|active s s1 E|s s1 Hq E].
    - destruct Hb as [Hn Hm Hq]. by split; [split|].
    - destruct (interrupt_bounded active s Hb) as (s3 & E' & Hb3 & Hf & Ht & Hr). assert (s3 = s1) as -> by congruence. split; [done|]. intros H0. by split_and!; [apply Hf|..].
    - unfold keventd in E. rewrite bind_modify in E. destruct (only_flash_config fuel _ _ _ E) as (En & Em & Ef & Eq). cbn in En, Em, Ef, Eq.
      destruct Hb as [Hn Hm Hfl]. specialize (Hfl Hq). split; [split; rewrite ?En, ?Em, ?Ef, ?Eq; done|]. rewrite Ef, Hfl. done. }
  destruct (IH Hb1) as [Hb2 Hf2]. split; [done|]. intros H0. destruct (Hf2 H0) as (H1 & T2 & R2). destruct (Hf1 H1) as (? & T1 & R1). split_and!; congruence.
Qed.

(** Nothing was counted yet. *)
Definition booted s : Prop := nCount s = 0 /\ mS s = 0 /\ ResetConf_flag s = 0 /\ queued s = false /\ restarted s = false.

Lemma booted_counting s : booted s -> Counting 0 0 false s.
Proof. intros (? & Hm & ? & ? & ?). split; try done; rewrite ?Hm; (done || lia). Qed.
End Button.
