(* ===== verification/MtdSpec.v ===== *)
(** * What a flash device promises, and its partitions

    [MtdLaws] is what the driver of a chip promises to the code above it: its
    bytes, and what reading, programming and erasing do to them.  The partitions
    are proved against it. *)

From S2P Require Import Prelude Mtd.

(** The bytes from [a] on. *)
Definition bytes_at (g : Z -> Z) (a : Z) (n : nat) : bytes := (fun i => g (a + Z.of_nat i)) <$> seq 0 n.

(** [boundary]: where a block begins or ends. *)
Class MtdLaws (X : Type) `{MtdDriver X} (M : mtd_info) : Type := {
  usable : X -> Prop;
  byte_at : X -> Z -> Z;
  boundary : Z -> Prop;
  read_law x from len : usable x -> 0 <= from -> 0 <= len -> len = 0 \/ from + len <= size M -> exists x',
    d_read M from len x = Ret (0, bytes_at (byte_at x) from (Z.to_nat len)) x' /\ usable x' /\ forall a, byte_at x' a = byte_at x a;
  write_law x to len buf : usable x -> 0 <= to -> 0 <= len -> len = 0 \/ to + len <= size M -> len <= Z.of_nat (length buf) -> Forall is_byte buf ->
    (forall i b, take (Z.to_nat len) buf !! i = Some b -> Z.land (byte_at x (to + Z.of_nat i)) b = b) -> exists x',
    d_write M to len buf x = Ret (0, len) x' /\ usable x' /\
    (forall i b, take (Z.to_nat len) buf !! i = Some b -> byte_at x' (to + Z.of_nat i) = b) /\
    forall a, ~ (to <= a < to + len) -> byte_at x' a = byte_at x a;
  erase_law x e : usable x -> 0 <= e_addr e -> 0 <= e_len e -> e_addr e + e_len e <= size M -> boundary (e_addr e) -> boundary (e_addr e + e_len e) ->
    exists x', d_erase M e x = Ret (0, finish_erase MTD_ERASE_DONE e) x' /\ usable x' /\
    forall a, byte_at x' a = if decide (e_addr e <= a < e_addr e + e_len e) then 0xff else byte_at x a;
  part_law o sz : 0 <= o -> 0 < sz -> o + sz <= size M -> exists e, part_erasesize M o sz = Some e /\ 0 < e /\
    forall x, o <= x <= o + sz -> (e | x) -> boundary x;
  byte_law x a : is_byte (byte_at x a);
}.
(** What a device that can be synchronised promises in addition. *)
Class MtdSync (X : Type) `{MtdDriver X} (M : mtd_info) {LM : MtdLaws X M} : Type := {
  sync_law x : usable x -> exists x', d_sync M x = Ret tt x' /\ usable x' /\ forall a, byte_at x' a = byte_at x a;
}.

Section Partitions.
Context {X : Type} `{MtdDriver X} (M : mtd_info) {LM : MtdLaws X M}.
Implicit Types s : MtdSt X.

(** The device at [p] is a partition of [M]. *)
Record Partition s (p : Z) (m : mtd_info) (pt : mtd_part) : Prop := mkPartitionOk {
  pn_mtd : mtds s !! p = Some m;
  pn_part : parts s !! p = Some pt;
  pn_master : mtds s !! master pt = Some M;
  pn_lo : 0 <= offset pt;
  pn_size : 0 <= size m;
  pn_in : offset pt + size m <= size M;
  pn_max : size M < 2 ^ 32;
}.

Lemma get_mtd_ok p m s : mtds s !! p = Some m -> get_mtd p s = Ret m s.
Proof. intros E. unfold get_mtd. by rewrite bind_gets, E. Qed.
Lemma PART_ok p pt s : parts s !! p = Some pt -> PART p s = Ret pt s.
Proof. intros E. unfold PART. by rewrite bind_gets, E. Qed.

Lemma clip_ok m from len : 0 <= from -> 0 <= len -> 0 <= size m < 2 ^ 32 ->
  clip m from len = Z.max 0 (Z.min len (size m - from)).
Proof.
  intros Hf Hl Hs. unfold clip. destruct (Z.leb_spec (size m) from); [lia|]. destruct (Z.ltb_spec (size m) (from + len)); [|lia].
  rewrite u32_small by (unfold is_u32; lia). lia.
Qed.

(** Reading through a partition gives bytes of the partition, fewer where it ends. *)
Lemma part_read_ok s p m pt from len : Partition s p m pt -> usable (dev s) -> 0 <= from -> 0 <= len -> exists x',
  part_read p from len s = Ret (0, bytes_at (byte_at (dev s)) (offset pt + from) (Z.to_nat (Z.max 0 (Z.min len (size m - from))))) (set_dev x' s) /\
  usable x' /\ forall a, byte_at x' a = byte_at (dev s) a.
Proof.
  intros [Hm Hp HM Hlo Hsz Hin Hmax] Hu Hf Hl.
  destruct (read_law (dev s) (from + offset pt) (clip m from len)) as (x' & E & Hu' & Hb); [done|lia|rewrite clip_ok; lia|rewrite clip_ok by lia; lia|].
  exists x'. split_and!; [|done|done]. unfold part_read. rewrite (bind_Ret _ _ _ _ _ (get_mtd_ok _ _ _ Hm)), (bind_Ret _ _ _ _ _ (PART_ok _ _ _ Hp)).
  rewrite (bind_Ret _ _ _ _ _ (get_mtd_ok _ _ _ HM)). unfold on_dev. rewrite E. rewrite clip_ok by lia. by rewrite (Z.add_comm from).
Qed.

(** Writing through a partition changes bytes of the partition only. *)
Lemma part_write_ok s p m pt to len buf : Partition s p m pt -> usable (dev s) -> writeable m = true -> 0 <= to -> 0 <= len ->
  let n := Z.max 0 (Z.min len (size m - to)) in
  n <= Z.of_nat (length buf) -> Forall is_byte buf ->
  (forall i b, take (Z.to_nat n) buf !! i = Some b -> Z.land (byte_at (dev s) (offset pt + to + Z.of_nat i)) b = b) -> exists x',
  part_write p to len buf s = Ret (0, Some n) (set_dev x' s) /\ usable x' /\
  (forall i b, take (Z.to_nat n) buf !! i = Some b -> byte_at x' (offset pt + to + Z.of_nat i) = b) /\
  forall a, ~ (offset pt + to <= a < offset pt + to + n) -> byte_at x' a = byte_at (dev s) a.
Proof.
  intros [Hm Hp HM Hlo Hsz Hin Hmax] Hu Hw Ht Hl n Hn Hby Hf. assert (clip m to len = n) as Hc by (apply clip_ok; lia).
  destruct (write_law (dev s) (offset pt + to) n buf) as (x' & E & Hu' & Hb & Ho); [done|lia|lia|lia|done|done|done|].
  exists x'. split_and!; [|done|done|done]. unfold part_write. rewrite (bind_Ret _ _ _ _ _ (get_mtd_ok _ _ _ Hm)), (bind_Ret _ _ _ _ _ (PART_ok _ _ _ Hp)).
  rewrite Hw. cbn [negb]. rewrite (bind_Ret _ _ _ _ _ (get_mtd_ok _ _ _ HM)), Hc, (Z.add_comm to).
  assert (on_dev (d_write M (offset pt + to) n buf) s = Ret (0, n) (set_dev x' s)) as E' by (unfold on_dev; by rewrite E).
  by rewrite (bind_Ret _ _ _ _ _ E').
Qed.

(** A request from boundary to boundary of the chip; it need not end inside the partition. *)
Lemma part_erase_run s p m pt e : Partition s p m pt -> usable (dev s) -> writeable m = true -> 0 <= e_addr e < size m -> 0 <= e_len e ->
  offset pt + e_addr e + e_len e <= size M -> boundary (offset pt + e_addr e) -> boundary (offset pt + e_addr e + e_len e) -> exists x',
  part_erase p e s = Ret (0, finish_erase MTD_ERASE_DONE (set_e_addr (offset pt + e_addr e) e)) (set_dev x' s) /\ usable x' /\
  forall a, byte_at x' a = if decide (offset pt + e_addr e <= a < offset pt + e_addr e + e_len e) then 0xff else byte_at (dev s) a.
Proof.
  intros [Hm Hp HM Hlo Hsz Hin Hmax] Hu Hw Ha Hl Hend Hb1 Hb2. set (e1 := set_e_addr (offset pt + e_addr e) e).
  destruct (erase_law (dev s) e1) as (x' & E & Hu' & Hb); [done|simpl; lia|done|done|done|done|].
  exists x'. split_and!; [|done|done].
  unfold part_erase. rewrite (bind_Ret _ _ _ _ _ (get_mtd_ok _ _ _ Hm)), (bind_Ret _ _ _ _ _ (PART_ok _ _ _ Hp)). rewrite Hw. cbn [negb].
  rewrite (proj2 (Z.leb_gt _ _)) by lia. rewrite (bind_Ret _ _ _ _ _ (get_mtd_ok _ _ _ HM)). rewrite u32_small by (unfold is_u32; lia).
  rewrite (Z.add_comm (e_addr e)). fold e1. unfold on_dev. by rewrite E.
Qed.
Lemma part_erase_ok s p m pt e : Partition s p m pt -> usable (dev s) -> writeable m = true -> 0 <= e_addr e < size m -> 0 <= e_len e ->
  offset pt + e_addr e + e_len e <= size M -> boundary (offset pt + e_addr e) -> boundary (offset pt + e_addr e + e_len e) -> exists x' e',
  part_erase p e s = Ret (0, e') (set_dev x' s) /\ e_state e' = MTD_ERASE_DONE /\ usable x' /\
  forall a, byte_at x' a = if decide (offset pt + e_addr e <= a < offset pt + e_addr e + e_len e) then 0xff else byte_at (dev s) a.
Proof.
  intros Hp Hu Hw Ha Hl Hend Hb1 Hb2. destruct (part_erase_run s p m pt e) as (x' & E & Hu' & Hb); try done.
  exists x'. eexists. split; [exact E|]. by split_and!.
Qed.

(** ** Through the pointers of the device object *)

Lemma MTD_WRITE_part s p m to len buf : mtds s !! p = Some m -> erase m = part_erase_fn -> MTD_WRITE p to len buf s = part_write p to len buf s.
Proof. intros Hm Hf. unfold MTD_WRITE. by rewrite (bind_Ret _ _ _ _ _ (get_mtd_ok _ _ _ Hm)), Hf. Qed.
Lemma mtd_erase_part s p m e : mtds s !! p = Some m -> erase m = part_erase_fn -> mtd_erase p e s = part_erase p e s.
Proof. intros Hm Hf. unfold mtd_erase. by rewrite (bind_Ret _ _ _ _ _ (get_mtd_ok _ _ _ Hm)), Hf. Qed.

Lemma MTD_READ_ok s p m pt from len : Partition s p m pt -> erase m = part_erase_fn -> usable (dev s) -> 0 <= from -> 0 <= len -> from + len <= size m -> exists x',
  MTD_READ p from len s = Ret (0, bytes_at (fun a => byte_at (dev s) (offset pt + a)) from (Z.to_nat len)) (set_dev x' s) /\
  usable x' /\ forall a, byte_at x' a = byte_at (dev s) a.
Proof.
  intros Hp Hfn Hu Hf Hl Hin. destruct (part_read_ok s p m pt from len Hp Hu Hf Hl) as (x' & E & Hu' & Hb).
  exists x'. split_and!; [|done|done]. unfold MTD_READ. rewrite (bind_Ret _ _ _ _ _ (get_mtd_ok _ _ _ (pn_mtd _ _ _ _ Hp))), Hfn, E.
  replace (Z.max 0 (Z.min len (size m - from))) with len by lia. do 2 f_equal. apply list_fmap_ext. intros ? i _. f_equal. lia.
Qed.

(** A device found by its number. *)
Lemma get_mtd_device_found (try_inc : Z -> bool) s num p m : 0 <= num < MAX_MTD_DEVICES -> mtd_table s !! Z.to_nat num = Some p -> p <> 0 -> mtds s !! p = Some m -> module m = 0 ->
  get_mtd_device try_inc 0 num s = Ret p s.
Proof.
  intros Hn Ht Hp Hm Hmo. unfold get_mtd_device. assert (__get_mtd_device 0 num s = Ret p s) as E.
  { unfold __get_mtd_device. rewrite bind_gets, (proj2 (Z.eqb_neq num (-1))), (proj2 (Z.ltb_lt _ _)), (proj2 (Z.ltb_ge num 0)) by lia. by rewrite Ht. }
  rewrite (bind_Ret _ _ _ _ _ E), (proj2 (Z.eqb_neq p 0)) by done. rewrite (bind_Ret _ _ _ _ _ (get_mtd_ok _ _ _ Hm)). by rewrite Hmo.
Qed.

(** ** A partition that can be erased block by block *)

Lemma partition_dev (t : MtdSt X) p m pt x : Partition t p m pt -> Partition (set_dev x t) p m pt.
Proof. by intros []. Qed.

Record Erasable (t : MtdSt X) (p : Z) (m : mtd_info) (pt : mtd_part) : Prop := mkErasable {
  er_part : Partition t p m pt;
  er_fn : erase m = part_erase_fn;
  er_w : writeable m = true;
  er_e : part_erasesize M (offset pt) (size m) = Some (erasesize m);
  er_pos : 0 < erasesize m;
  er_ofs : (erasesize m | offset pt);
  er_size : (erasesize m | size m);
}.

Lemma erasable_boundary t p m pt a : Erasable t p m pt -> 0 <= a <= size m -> 0 < size m -> (erasesize m | a) -> boundary (offset pt + a).
Proof.
  intros [[? ? ? Hlo ? Hin ?] _ _ He Hp Ho Hs] Ha Hz Hd. destruct (part_law (offset pt) (size m)) as (e & He' & _ & Hb); [done|done|done|].
  assert (e = erasesize m) as -> by congruence. apply Hb; [lia|]. by apply Z.divide_add_r.
Qed.

Lemma erase_block_step t p m pt a : Erasable t p m pt -> 0 <= a < size m -> (erasesize m | a) -> a + erasesize m <= size m.
Proof. intros [_ _ _ _ Hp _ [q Hq]] Ha [b Hb]. assert (b < q) by nia. nia. Qed.

End Partitions.
