(* ===== verification/CfiMtd.v ===== *)
(** * The driver for AMD flash chips keeps the promises of a flash device

    [cfi_laws]: for a chip that keeps its laws and a table of erase regions that
    describes it, the operations of Cfi.v are those of [MtdLaws]. *)

From S2P Require Import Prelude FlashChip CfiChip Mtd MtdSpec Cfi CfiSpec CfiErase.

(** ** The erase size of a partition *)

Definition power (e : Z) : Prop := exists n, 1 <= n /\ e = 2 ^ n.

Lemma power_divide a b : power a -> power b -> a <= b -> (a | b).
Proof.
  intros (n & Hn & ->) (m & Hm & ->) Hle. apply Z.pow_le_mono_r_iff in Hle; [|lia|lia].
  exists (2 ^ (m - n)). rewrite <- Z.pow_add_r by lia. f_equal. lia.
Qed.

Lemma largest_spec stop l : forall from to e0, tiles l from to -> e0 = 0 \/ power e0 ->
  let e := largest_erasesize e0 stop l in
  e0 <= e /\ (e = 0 \/ power e) /\ forall n r, l !! n = Some r -> r_offset r < stop -> r_erasesize r <= e.
Proof.
  induction l as [|r l IH]; intros from to e0 Ht He0; cbn [largest_erasesize]; [split_and!; [lia|done|intros n r; by rewrite lookup_nil]|].
  destruct Ht as (Ho & He & Hn & Hd & Ht). destruct (Z.ltb_spec (r_offset r) stop) as [Hlt|Hge].
  - destruct (IH _ _ (if e0 <? r_erasesize r then r_erasesize r else e0) Ht) as (H1 & H2 & H3); [destruct (e0 <? r_erasesize r); [by right|done]|].
    split_and!; [destruct (Z.ltb_spec e0 (r_erasesize r)); lia|done|]. intros [|n] r' Hr' Hs; simpl in Hr'; simplify_eq; [|by eapply H3].
    destruct (Z.ltb_spec e0 (r_erasesize r')); lia.
  - split_and!; [lia|done|]. intros n r' Hr' Hs. exfalso. destruct n as [|n]; simpl in Hr'; simplify_eq; [lia|].
    destruct (tiles_drop _ _ _ _ _ Ht Hr') as [_ Hle]. destruct He as (x & Hx & Ex). unfold region_end in Hle.
    pose proof (Z.pow_pos_nonneg 2 x ltac:(lia) ltac:(lia)). nia.
Qed.

(** Addresses of a partition that its erase size divides are boundaries of the chip. *)
Lemma part_boundary M to o sz : 1 < numeraseregions M -> tiles (regions M) 0 to -> to <= 2 ^ 31 -> 0 <= o -> 0 < sz -> o + sz <= to ->
  exists e, part_erasesize M o sz = Some e /\ 0 < e /\ forall x, o <= x <= o + sz -> (e | x) -> on_boundary (regions M) x.
Proof.
  intros Hn Ht Hto Ho Hs Hin. set (l := regions M) in *. assert (l <> []) as Hne by (intros E; rewrite E in Ht; simpl in Ht; lia).
  destruct (skip_regions_ok _ _ _ o 0 Ht Ho Hne) as (n & r & Hr & E & Hro & Hc). destruct (tiles_drop _ _ _ _ _ Ht Hr) as [Htd _].
  destruct (largest_spec (o + sz) (drop n l) _ _ 0 Htd ltac:(by left)) as (_ & Hpow & Hall).
  exists (largest_erasesize 0 (o + sz) (drop n l)). set (e := largest_erasesize _ _ _) in *.
  assert (r_erasesize r <= e) as Hre by (apply (Hall 0%nat r); [by rewrite lookup_drop, Nat.add_0_r|lia]).
  destruct (tiles_region _ _ _ _ _ Ht Hr) as [Hp _ _ _ _]. destruct Hpow as [?|Hpow]; [lia|]. split_and!; [|lia|].
  - unfold part_erasesize. fold l. rewrite (proj2 (Z.ltb_lt _ _)) by done. rewrite E. rewrite (proj2 (Z.ltb_ge _ _)) by lia.
    rewrite u32_small by (unfold is_u32; lia). by replace (Z.to_nat (0 + Z.of_nat n + 1 - 1)) with n by lia.
  - intros x Hx Hdx n' r' Hr' Hx'. destruct (tiles_region _ _ _ _ _ Ht Hr') as [Hp' Hpow' _ Ho' _].
    destruct (decide (r_offset r' = x)) as [<-|Hox]; [done|]. assert (n <= n')%nat as Hnn.
    { destruct (decide (n <= n')%nat); [done|]. pose proof (tiles_disjoint _ _ _ _ _ _ _ Ht Hr' Hr ltac:(lia)). lia. }
    etransitivity; [|exact Hdx]. apply power_divide; [done|done|]. apply (Hall (n' - n)%nat r'); [|lia].
    rewrite lookup_drop. by replace (n + (n' - n))%nat with n' by lia.
Qed.

(** [e] is the largest erase size of the regions of [l] that overlap the [sz] bytes from [o] on. *)
Definition largest_in (l : list mtd_erase_region_info) (o sz e : Z) : Prop :=
  (exists n r, l !! n = Some r /\ r_offset r < o + sz /\ o < region_end r /\ r_erasesize r = e) /\
  forall n r, l !! n = Some r -> r_offset r < o + sz -> o < region_end r -> r_erasesize r <= e.

Lemma largest_attained stop l : forall e0,
  largest_erasesize e0 stop l = e0 \/ exists n r, l !! n = Some r /\ r_offset r < stop /\ r_erasesize r = largest_erasesize e0 stop l.
Proof.
  induction l as [|r l IH]; intros e0; cbn [largest_erasesize]; [by left|].
  destruct (Z.ltb_spec (r_offset r) stop) as [Hlt|]; [|by left].
  destruct (IH (if e0 <? r_erasesize r then r_erasesize r else e0)) as [E|(n & r' & Hr & Hs & E)].
  - rewrite E. destruct (e0 <? r_erasesize r); [right; by exists 0%nat, r|by left].
  - right. by exists (S n), r'.
Qed.

(** The erase size that is computed for a partition is the largest one in it. *)
Lemma part_largest M to o sz e : 1 < numeraseregions M -> tiles (regions M) 0 to -> to <= 2 ^ 31 -> 0 <= o -> 0 < sz -> o + sz <= to ->
  part_erasesize M o sz = Some e -> largest_in (regions M) o sz e.
Proof.
  intros Hn Ht Hto Ho Hs Hin. unfold part_erasesize. rewrite (proj2 (Z.ltb_lt _ _) Hn). set (l := regions M) in *.
  assert (l <> []) as Hne by (intros E; rewrite E in Ht; simpl in Ht; lia).
  destruct (skip_regions_ok _ _ _ o 0 Ht Ho Hne) as (n & r & Hr & -> & Hro & [Hc|[? _]]); [|lia].
  rewrite (proj2 (Z.ltb_ge _ _)), u32_small by (unfold is_u32; lia). replace (Z.to_nat (0 + Z.of_nat n + 1 - 1)) with n by lia. intros [= <-].
  destruct (tiles_drop _ _ _ _ _ Ht Hr) as [Htd _]. destruct (largest_spec (o + sz) (drop n l) _ _ 0 Htd ltac:(by left)) as (_ & _ & Hall).
  destruct (tiles_region _ _ _ _ _ Ht Hr) as [Hp _ _ _ _]. split.
  - destruct (largest_attained (o + sz) (drop n l) 0) as [E|(n' & r' & Hr' & Hs' & E)].
    { specialize (Hall 0%nat r ltac:(by rewrite lookup_drop, Nat.add_0_r) ltac:(lia)). lia. }
    rewrite lookup_drop in Hr'. exists (n + n')%nat, r'. split_and!; [done|done| |done].
    destruct (decide (n' = 0)%nat) as [->|]; [rewrite Nat.add_0_r in Hr'; by simplify_eq|].
    pose proof (tiles_disjoint _ _ _ _ _ _ _ Ht Hr Hr' ltac:(lia)). destruct (tiles_region _ _ _ _ _ Ht Hr') as [_ _ ? _ _]. lia.
  - intros n' r' Hr' H1 H2. assert (n <= n')%nat as Hnn.
    { destruct (decide (n <= n')%nat); [done|]. pose proof (tiles_disjoint _ _ _ _ _ _ _ Ht Hr' Hr ltac:(lia)). lia. }
    apply (Hall (n' - n)%nat r'); [|lia]. rewrite lookup_drop. by replace (n + (n' - n))%nat with n' by lia.
Qed.

(** ** The device *)

Section Laws.
Context {F : Type} `{NorFlash F} `{NorBus F} {k : ChipKind} {L : ChipLaws F k} {CL : CfiLaws F k}.
Context (fuel : nat) (others : CfiSt F -> CfiSt F) (later : Z -> Z -> Z).
Context (c0 : cfi_private) (m0 : map_info) (ch0 : flchip) (OB : OnBoard k c0 m0) (Hst : start ch0 = 0).
Abbreviation St := (CfiSpec.St c0 m0 ch0).
Abbreviation bank := (FlashChip.bank_size k).

(** A device for the chip with a table of several erase sizes; enough fuel; the clock. *)
Record ChipDevice (M : mtd_info) : Prop := mkChipDevice {
  cd_size : size M = bank;
  cd_num : 1 < numeraseregions M;
  cd_tiles : tiles (regions M) 0 bank;
  cd_sectors : sectors_match (k := k) (regions M);
  cd_erase : erase M = cfi_erase_varsize;
  cd_polls : (max_polls (k := k) < fuel)%nat;
  cd_blocks : total_blocks (regions M) <= Z.of_nat fuel;
  cd_time : in_time (k := k) later;
}.

Lemma boundary_even l x : tiles l 0 bank -> 0 <= x <= bank -> on_boundary l x -> Z.even x = true.
Proof using OB.
  intros Ht Hx Hb. destruct (decide (x = bank)) as [->|Hxb]; [by apply (bank_even _ _ OB)|].
  assert (l <> []) as Hne by (intros E; rewrite E in Ht; simpl in Ht; lia).
  destruct (skip_regions_ok _ _ _ x 0 Ht ltac:(lia) Hne) as (n & r & Hr & _ & Hro & [Hc|[? _]]); [|lia].
  destruct (tiles_region _ _ _ _ _ Ht Hr) as [_ (e & He & Ee) _ _ _]. destruct (Hb n r Hr ltac:(lia)) as [q ->].
  rewrite Ee, Z.even_mul, Z.even_pow by lia. by rewrite orb_true_r.
Qed.

Lemma erased_bytes f f' a e : Z.even a = true -> Z.even e = true -> erased_range (k := k) f f' a e ->
  forall x, flash_byte f' (base k + x) = if decide (a <= x < e) then 0xff else flash_byte f (base k + x).
Proof using OB.
  clear later fuel others. intros Ha He Hr x. unfold flash_byte. rewrite Hr. apply even_mod in Ha, He. pose proof (even_mod _ (ob_even _ _ _ OB)) as Hb.
  destruct (decide (a <= x < e)) as [Hin|Hout].
  - rewrite decide_True by (Z.div_mod_to_equations; lia). by destruct (Z.odd (base k + x)).
  - rewrite decide_False by (Z.div_mod_to_equations; lia). done.
Qed.

#[refine] Instance cfi_laws (M : mtd_info) (CD : ChipDevice M) : @MtdLaws (CfiSt F) (cfi_driver fuel others later) M := {
  usable x := exists f j, x = St FL_READY f j /\ idle f;
  byte_at x a := flash_byte (nor x) (base k + a);
  boundary x := on_boundary (regions M) x;
}.
Proof.
  - intros x from len (f & j & -> & Hi) Hf Hl Hend. exists (St FL_READY f j). split; [|split; [by exists f, j|done]]. rewrite (cd_size _ CD) in Hend.
    destruct (decide (len = 0)) as [->|Hne].
    + cbn [d_read cfi_driver]. unfold cfi_amdstd_read, the_cfi. rewrite bind_gets. by destruct fuel.
    + cbn [d_read cfi_driver]. rewrite (amd_read_ok fuel others c0 m0 ch0 OB Hst) by (done || pose proof (cd_polls _ CD); lia). unfold bytes_from, bytes_at.
      do 2 f_equal. apply list_fmap_ext. intros ? i _. simpl. f_equal. lia.
  - intros x to len buf (f & j & -> & Hi) Ht Hl Hend Hbuf Hby Hfit. cbn [nor CfiSpec.St] in Hfit. rewrite (cd_size _ CD) in Hend.
    destruct (decide (len = 0)) as [->|Hne].
    { exists (St FL_READY f j). split_and!; [done|by exists f, j|intros i b Hib; change (Z.to_nat 0) with 0%nat in Hib; by rewrite take_0, lookup_nil in Hib|done]. }
    destruct (amd_write_ok fuel others later c0 m0 ch0 OB Hst M to len buf f j) as (f' & j' & E & Hi' & Hh & Ho); [done|lia|lia|done|done|done| |].
    { intros i b Hib. rewrite <- Z.add_assoc. by apply Hfit. }
    exists (St FL_READY f' j'). split_and!; [exact E|by exists f', j'| |].
    + intros i b Hib. cbn [nor CfiSpec.St]. rewrite Z.add_assoc. by apply Hh.
    + intros a Ha. cbn [nor CfiSpec.St]. apply Ho. rewrite length_take. lia.
  - intros x e (f & j & -> & Hi) Ha Hl Hend Hb1 Hb2. destruct CD as [Cs Cn Ct Cm Ce Cp Cb Cc]. rewrite Cs in Hend.
    destruct (varsize_ok fuel others later c0 m0 ch0 OB Hst M e f j) as (f' & j' & E & Hi' & Hr); [done..|].
    exists (St FL_READY f' j'). split_and!; [cbn [d_erase cfi_driver]; rewrite Ce; exact E|by exists f', j'|].
    intros a. cbn [nor CfiSpec.St]. apply erased_bytes; [|by eapply boundary_even; [done|lia|done]..|done]. by eapply boundary_even; [done|lia|done].
  - intros o sz Ho Hs Hin. destruct CD as [Cs Cn Ct Cm Ce Cp Cb Cc]. rewrite Cs in Hin. eapply part_boundary; [done|done|by apply (bank_max _ _ OB)|done..].
  - intros x a. apply flash_byte_range.
Defined.

(** A chip that is ready is taken and given back at once. *)
Lemma cfi_sync_ok (M : mtd_info) f j : oldstate ch0 = FL_READY -> cfi_amdstd_sync fuel others M (St FL_READY f j) = Ret tt (St FL_READY f j).
Proof using OB.
  clear Hst. intros Ho. unfold cfi_amdstd_sync, the_cfi. rewrite bind_gets. assert (numchips (cfi (St FL_READY f j)) = 1) as -> by apply (ob_num _ _ _ OB).
  change (Z.to_nat 1) with 1%nat. destruct fuel, ch0; cbn in Ho |- *; by subst.
Qed.
Instance cfi_sync (M : mtd_info) (CD : ChipDevice M) (Ho : oldstate ch0 = FL_READY) : @MtdSync (CfiSt F) (cfi_driver fuel others later) M (cfi_laws M CD).
Proof. split. intros x (f & j & -> & Hi). exists (St FL_READY f j). split; [by apply cfi_sync_ok|]. split; [by exists f, j|done]. Qed.
End Laws.
