(* ===== verification/CfiSetup.v ===== *)
(** * The device of a chip

    [cfi_amdstd_setup] turns the erase regions the chip reports into the table of
    the device, and refuses regions that do not add up to the chip;
    [swap_regions] turns the list around for chips with their small blocks at the
    top. *)

From S2P Require Import Prelude FlashChip CfiChip Mtd Cfi CfiErase.

(** The table for one chip, from [ofs] on. *)
Fixpoint table_of (infos : list Z) (ofs : Z) : list mtd_erase_region_info :=
  match infos with
  | [] => []
  | info :: infos' =>
      let r := mkRegion ofs (region_size 1 info) (region_blocks info) in
      r :: table_of infos' (region_end r)
  end.
(** What the regions add up to. *)
Definition table_size (infos : list Z) : Z := foldr (fun info n => region_size 1 info * region_blocks info + n) 0 infos.

Lemma region_size_range il info : is_u32 (region_size il info).
Proof. apply u32_range. Qed.
Lemma region_blocks_range info : 1 <= region_blocks info <= 2 ^ 16.
Proof. unfold region_blocks. change 0xffff with (Z.ones 16). rewrite Z.land_ones by lia. pose proof (Z.mod_pos_bound info (2 ^ 16) ltac:(lia)). lia. Qed.

Lemma table_size_nonneg infos : 0 <= table_size infos.
Proof. induction infos as [|info l IH]; simpl; [lia|]. pose proof (region_size_range 1 info) as [? _]. pose proof (region_blocks_range info). nia. Qed.

(** Every address lies in one region. *)
Lemma table_starts infos : forall ofs n r, table_of infos ofs !! n = Some r -> ofs <= r_offset r.
Proof.
  induction infos as [|info infos IH]; intros ofs [|n] r Hr; simpl in Hr; simplify_eq; [simpl; lia|]. apply IH in Hr. unfold region_end in Hr. simpl in Hr.
  pose proof (region_size_range 1 info) as [? _]. pose proof (region_blocks_range info). nia.
Qed.
Lemma table_covers infos : forall ofs x, ofs <= x < ofs + table_size infos -> exists n r,
  table_of infos ofs !! n = Some r /\ r_offset r <= x < region_end r /\
  forall n' r', table_of infos ofs !! n' = Some r' -> r_offset r' <= x < region_end r' -> n' = n.
Proof.
  induction infos as [|info infos IH]; intros ofs x Hx; [simpl in Hx; lia|]. simpl table_size in Hx. cbn [table_of].
  set (r := mkRegion ofs (region_size 1 info) (region_blocks info)) in *. assert (region_end r = ofs + region_size 1 info * region_blocks info) as Er by (unfold region_end; simpl; lia).
  destruct (decide (x < region_end r)) as [Hlt|Hge].
  - exists 0%nat, r. split_and!; [done|simpl; lia|done|]. intros [|n'] r' Hr' Hin; [done|]. apply table_starts in Hr'. lia.
  - destruct (IH (region_end r) x) as (n & r1 & Hr1 & Hin1 & Hu); [lia|]. exists (S n), r1. split_and!; [done|lia|lia|].
    intros [|n'] r' Hr' Hin; simpl in Hr'; simplify_eq; [lia|]. f_equal. by apply (Hu n' r').
Qed.

Lemma setup_regions_ok devsize nr infos : forall i ofs es t, length t = (i + length infos)%nat -> 0 <= ofs -> ofs + table_size infos < 2 ^ 32 ->
  setup_regions 1 devsize nr 1 infos i ofs es t = (foldl Z.max es (region_size 1 <$> infos), take i t ++ table_of infos ofs, ofs + table_size infos).
Proof.
  induction infos as [|info infos IH]; intros i ofs es t Hl Ho Hs; cbn [setup_regions table_of].
  { rewrite app_nil_r, take_ge by (simpl in Hl; lia). simpl. by rewrite Z.add_0_r. }
  simpl in Hs. pose proof (region_size_range 1 info) as [Hr0 Hr1]. pose proof (region_blocks_range info) as Hb. pose proof (table_size_nonneg infos).
  rewrite (u32_small (ofs + _)) by (unfold is_u32; nia). unfold fill_region. cbn [seq foldl]. change (0 * nr + i)%nat with i.
  change (Z.of_nat 0 * devsize) with 0. rewrite Z.add_0_l, u32_small by (unfold is_u32; nia).
  match goal with |- context [<[i := ?r]> t] => set (r0 := r) end.
  rewrite IH by (rewrite ?length_insert; simpl in Hl; nia).
  replace (if es <? region_size 1 info then region_size 1 info else es) with (Z.max es (region_size 1 info)) by (destruct (Z.ltb_spec es (region_size 1 info)); lia).
  simpl table_size. f_equal; [f_equal|lia]. erewrite take_S_r by (apply list_lookup_insert_eq; simpl in Hl; lia).
  rewrite take_insert_ge by lia. by rewrite <- app_assoc.
Qed.

Section Setup.
Context {F : Type}.
Implicit Types s : CfiSt F.

(** One chip on the 16-bit bus that reports the regions [infos]. *)
Record OneChip (infos : list Z) s : Prop := mkOneChip {
  oc_bw : buswidth (map s) = 2;
  oc_il : interleave (cfi s) = 1;
  oc_num : numchips (cfi s) = 1;
  oc_size : 0 <= DevSize (cfiq (cfi s)) <= 31;
  oc_regions : EraseRegionInfo (cfiq (cfi s)) = infos;
  oc_count : NumEraseRegions (cfiq (cfi s)) = Z.of_nat (length infos);
  oc_several : (1 < length infos)%nat;
  oc_fits : table_size infos < 2 ^ 32;
}.

(** The erase size of the device: the largest of its regions. *)
Definition largest (infos : list Z) : Z := foldl Z.max 0 (region_size 1 <$> infos).

Lemma foldl_max_ge (l : list Z) : forall a, a <= foldl Z.max a l /\ Forall (fun x => x <= foldl Z.max a l) l.
Proof.
  induction l as [|x l IH]; intros a; cbn [foldl]; [split; [lia|done]|]. destruct (IH (Z.max a x)) as [H1 H2]. split; [lia|]. constructor; [lia|done].
Qed.
Lemma table_below_largest infos : Forall (fun r => r_erasesize r <= largest infos) (table_of infos 0).
Proof.
  pose proof (proj2 (foldl_max_ge (region_size 1 <$> infos) 0)) as Hf. fold (largest infos) in Hf. revert Hf. generalize (largest infos). generalize 0.
  induction infos as [|info l IH]; intros ofs e Hf; [done|]. simpl in Hf. apply Forall_cons in Hf as [H1 H2]. constructor; [done|]. by apply IH.
Qed.

Lemma setup_ok infos junk s : OneChip infos s ->
  cfi_amdstd_setup true true junk s =
  Ret (if table_size infos =? 2 ^ DevSize (cfiq (cfi s)) then
         Some (amdstd_mtd s (2 ^ DevSize (cfiq (cfi s))) (largest infos) (Z.of_nat (length infos)) (table_of infos 0))
       else None) s.
Proof.
  intros [Hbw Hil Hnum Hsz Hreg Hcnt Hsev Hfit]. unfold cfi_amdstd_setup. rewrite Hbw, Hil, Hnum, Hreg, Hcnt. cbn [negb].
  rewrite (proj2 (Z.eqb_neq _ 1)) by lia. rewrite Nat2Z.id, Nat.ltb_irrefl. rewrite !Z.mul_1_r. change (Z.to_nat 1) with 1%nat. rewrite Nat.mul_1_r.
  rewrite Z.shiftl_1_l. assert (2 ^ DevSize (cfiq (cfi s)) < 2 ^ 32) by (apply Z.pow_lt_mono_r; lia).
  rewrite !(u32_small (2 ^ _)) by (unfold is_u32; split; [apply Z.pow_nonneg; lia|lia]). rewrite firstn_all.
  rewrite setup_regions_ok by (rewrite ?length_replicate; lia). rewrite Z.add_0_l. cbn [take app]. rewrite take_0. cbn [app]. by destruct (table_size infos =? _).
Qed.

Lemma regions_table s sz es infos : regions (amdstd_mtd s sz es (Z.of_nat (length infos)) (table_of infos 0)) = table_of infos 0.
Proof.
  unfold regions. simpl. rewrite Nat2Z.id. apply take_ge. generalize 0. induction infos as [|info l IH]; intros ofs; simpl; [lia|]. specialize (IH (region_end (mkRegion ofs (region_size 1 info) (region_blocks info)))). lia.
Qed.
End Setup.

(** ** Chips with their small blocks at the top *)

Lemma swap_lookup todo : forall i n l x, length l = n -> (i + todo <= n / 2)%nat -> (x < n)%nat ->
  swap_regions todo i n l !! x =
  if decide (i <= x < i + todo \/ i <= n - 1 - x < i + todo)%nat then l !! (n - 1 - x)%nat else l !! x.
Proof.
  induction todo as [|todo IH]; intros i n l x Hl Hi Hx; cbn [swap_regions]; [by rewrite decide_False by lia|].
  pose proof (Nat.div_mod n 2 ltac:(lia)) as Hdm. pose proof (Nat.mod_upper_bound n 2 ltac:(lia)).
  rewrite IH by (rewrite ?length_insert; lia). set (j := (n - 1 - i)%nat).
  assert (forall y v, (y < n)%nat -> nth y l 0 = v -> l !! y = Some v) as Hn.
  { intros y v Hy <-. destruct (lookup_lt_is_Some_2 l y) as [w Hw]; [lia|]. rewrite Hw. f_equal. symmetry. by apply nth_lookup_Some. }
  assert (forall y, (y < n)%nat -> <[j := nth i l 0]> (<[i := nth j l 0]> l) !! y = if decide (y = i \/ y = j) then l !! (n - 1 - y)%nat else l !! y) as Hlk.
  { intros y Hy. destruct (decide (y = j)) as [->|Hyj].
    - rewrite list_lookup_insert_eq by (rewrite length_insert; lia). rewrite decide_True by by right.
      replace (n - 1 - j)%nat with i by lia. symmetry. by apply Hn; [lia|].
    - rewrite list_lookup_insert_ne by done. destruct (decide (y = i)) as [->|Hyi].
      + rewrite list_lookup_insert_eq by lia. rewrite decide_True by by left. fold j. symmetry. by apply Hn; [lia|].
      + rewrite list_lookup_insert_ne by done. by rewrite decide_False by tauto. }
  destruct (decide (S i <= x < S i + todo \/ S i <= n - 1 - x < S i + todo)%nat).
  - rewrite Hlk by lia. rewrite decide_False by lia. by rewrite decide_True by lia.
  - rewrite Hlk by lia. repeat case_decide; (done || lia).
Qed.

Lemma swap_length todo : forall i n l, length (swap_regions todo i n l) = length l.
Proof. induction todo as [|todo IH]; intros i n l; [done|]. cbn [swap_regions]. by rewrite IH, !length_insert. Qed.

(** The swaps of [cfi_cmdset_0002] turn the list of regions around. *)
Lemma swap_regions_reverse l : swap_regions (length l / 2) 0 (length l) l = reverse l.
Proof.
  apply list_eq_same_length with (length l).
  - by rewrite length_reverse.
  - apply swap_length.
  - intros x v w Hx H1 H2. rewrite swap_lookup in H1 by (done || lia). rewrite reverse_lookup in H2 by done.
    replace (length l - S x)%nat with (length l - 1 - x)%nat in H2 by lia.
    pose proof (Nat.div_mod (length l) 2 ltac:(lia)). pose proof (Nat.mod_upper_bound (length l) 2 ltac:(lia)). case_decide; [congruence|].
    replace (length l - 1 - x)%nat with x in H2 by lia. congruence.
Qed.
