(* ===== verification/Sc2510.v ===== *)
(** * The partitions of the board's flash
    (src/linux2510/drivers/mtd/maps/integrator-flash_sc2510.c)

    The table of the four partitions, and the functions that register them at
    start-up.  The probes for the chip are arguments: [cfi] and [jedec] are the
    device objects they return, or null. *)

From S2P Require Import Prelude Mtd MtdSpec.

Definition CONFIG_MTD_SC2510_RESERVE : Z := 0x8000.
Definition CONFIG_MTD_SC2510_DATA_SETTING_SIZE : Z := 0x8000.
Definition CONFIG_MTD_SC2510_KERNEL_SIZE : Z := 0x1E0000.
Definition SC2510_FLASH_SIZE : Z := 0x200000.
Definition ENXIO : Z := 6.
Definition EBUSY : Z := 16.

Definition sc2510_partitions : list mtd_partition := [
  mkPartition (lit "flash_boot") CONFIG_MTD_SC2510_RESERVE 0 0 0;
  mkPartition (lit "data_setting") CONFIG_MTD_SC2510_DATA_SETTING_SIZE MTDPART_OFS_APPEND 0 0;
  mkPartition (lit "kernel") CONFIG_MTD_SC2510_KERNEL_SIZE MTDPART_OFS_APPEND 0 0;
  mkPartition (lit "default_mac") MTDPART_SIZ_FULL MTDPART_OFS_APPEND 0 0 ].

Section Sc2510.
Context {X : Type} `{MtdDriver X}.
Abbreviation MT A := (M (MtdSt X) A).

(** [kfree] of the device and of what its driver keeps for it. *)
Definition map_destroy (mtd : Z) : MT unit := get_mtd mtd ;; modify (fun s => set_mtds (delete mtd (mtds s)) s).

(** The result, and the variable [mtd].  [THIS_MODULE], stored in the device, is null in code that is linked into the kernel, as the field is already. *)
Definition armflash_cfi_init (cfi jedec : Z) : MT (Z * Z) :=
  let mtd := if cfi =? 0 then jedec else cfi in
  if mtd =? 0 then mret (- ENXIO, mtd)
  else
    ret ← add_mtd_partitions mtd sc2510_partitions;
    (if ret <? 0 then del_mtd_partitions mtd ;; map_destroy mtd else mret tt) ;;
    mret (ret, mtd).

Definition armflash_cfi_exit (mtd : Z) : MT unit :=
  if mtd =? 0 then mret tt else del_mtd_partitions mtd ;; map_destroy mtd.

(** [region]: the memory region could be requested; [base]: where it is mapped, or null.
    The result, the variable [mtd], and whether region and mapping are kept. *)
Definition armflash_init (region : bool) (base cfi jedec : Z) : MT (Z * Z * bool) :=
  if negb region then mret (- EBUSY, 0, false)
  else if base =? 0 then mret (- ENOMEM, 0, false)
  else
    '(err, mtd) ← armflash_cfi_init cfi jedec;
    mret (err, mtd, err =? 0).

Definition armflash_exit (mtd : Z) : MT unit := armflash_cfi_exit mtd.

(** ** One partition *)

Definition read_only (x : Z) (m : mtd_info) : mtd_info :=
  if writeable m && negb (x mod erasesize m =? 0) then set_flags (Z.land (flags m) (Z.lnot MTD_WRITEABLE)) m else m.
(** The device of a partition at [o] with erase size [e]. *)
Definition slave_of (M : mtd_info) (pt : mtd_partition) (i o sz e : Z) : mtd_info :=
  read_only sz (read_only o (set_erasesize e (set_size sz (new_slave M pt i)))).

Lemma force_read_only_ok x m (s : MtdSt X) : 0 < erasesize m -> force_read_only x m s = Ret (read_only x m) s.
Proof.
  intros He. unfold force_read_only, read_only. destruct (writeable m); cbn [negb andb]; [|done].
  rewrite (proj2 (Z.eqb_neq _ 0)) by lia. by destruct (x mod erasesize m =? 0).
Qed.
Lemma read_only_same x m : erasesize (read_only x m) = erasesize m /\ size (read_only x m) = size m /\ name (read_only x m) = name m /\ erase (read_only x m) = erase m.
Proof. unfold read_only. by destruct (_ && _). Qed.
Lemma read_only_writeable x m : writeable (read_only x m) = true <-> writeable m = true /\ x mod erasesize m = 0.
Proof.
  unfold read_only. destruct (writeable m) eqn:Ew; cbn [andb]; [|rewrite Ew; split; [done|by intros [? _]]].
  destruct (Z.eqb_spec (x mod erasesize m) 0); cbn [negb]; [by rewrite Ew|].
  unfold writeable. cbn [flags set_flags]. rewrite land_clear_sub by apply Z.land_diag. split; [done|by intros [_ ?]].
Qed.

(** The state when the partition is registered as device number [t]. *)
Definition with_slave (mst p : Z) (m : mtd_info) (o i : Z) (t : Z) (s : MtdSt X) : MtdSt X :=
  mkMtdSt (<[p := set_index t m]> (mtds s)) (<[p := mkPart mst o i 1]> (parts s)) (p :: mtd_partitions s) (<[Z.to_nat t := p]> (mtd_table s))
    (mtd_notifiers s) (notified s ++ ((fun u => (u, true, p)) <$> mtd_notifiers s)) (tail (free_mem s)) (stored s) (use_count s + 1) (dev s).

Lemma call_users_ok p b l (s : MtdSt X) : call_users p b l s = Ret tt (set_notified (notified s ++ ((fun u => (u, b, p)) <$> l)) s).
Proof.
  revert s. induction l as [|u l IH]; intros s; [by destruct s; unfold set_notified; simpl; rewrite app_nil_r|].
  cbn [call_users]. unfold call_user at 1. rewrite bind_modify, IH. simpl. by rewrite <- app_assoc.
Qed.

Lemma bind_put_mtd {A} p x (g : unit -> M (MtdSt X) A) s : (put_mtd p x ≫= g) s = g tt (set_mtds (<[p := x]> (mtds s)) s).
Proof. done. Qed.
Lemma bind_put_part {A} p x (g : unit -> M (MtdSt X) A) s : (put_part p x ≫= g) s = g tt (set_parts (<[p := x]> (parts s)) s).
Proof. done. Qed.

Lemma add_loop_step mst M pt l i cur o sz next e t p (s : MtdSt X) :
  free_mem s = p :: tail (free_mem s) -> p <> 0 -> p <> mst -> mtds s !! mst = Some M -> pt_mtdp pt = 0 -> fit M pt cur = (o, sz, next) ->
  part_erasesize M o sz = Some e -> 0 < e -> find_entry 0 0 (mtd_table s) = Some t ->
  add_loop mst (pt :: l) i cur s = add_loop mst l (i + 1) next (with_slave mst p (slave_of M pt i o sz e) o i t s).
Proof.
  intros Hf Hp Hpm HM Hd Hfit He Hpos Ht. cbn [add_loop]. unfold kmalloc. rewrite bind_bind, bind_gets. rewrite Hf. rewrite bind_bind, bind_modify, bind_mret.
  rewrite (proj2 (Z.eqb_neq p 0)) by done. rewrite bind_modify.
  match goal with |- (get_mtd mst ≫= _) ?st = _ => rewrite (bind_Ret _ _ _ _ _ (get_mtd_ok mst M st HM)) end. rewrite Hfit.
  rewrite bind_put_mtd, bind_put_part, He.
  match goal with |- (force_read_only _ ?m ≫= _) ?st = _ => rewrite (bind_Ret _ _ _ _ _ (force_read_only_ok o m st Hpos)) end.
  match goal with |- (force_read_only _ ?m ≫= _) ?st = _ => rewrite (bind_Ret _ _ _ _ _ (force_read_only_ok sz m st ltac:(by rewrite (proj1 (read_only_same _ _))))) end.
  fold (slave_of M pt i o sz e). rewrite bind_put_mtd, Hd. change (0 =? 0) with true. cbn [negb]. cbn iota. rewrite bind_bind.
  unfold add_mtd_device. rewrite bind_bind, bind_gets. cbn [mtd_table set_mtds set_parts set_partitions set_free_mem]. rewrite Ht.
  rewrite !bind_bind, bind_gets, !bind_bind, bind_modify. rewrite bind_bind.
  match goal with |- (get_mtd p ≫= _) ?st = _ => rewrite (bind_Ret _ _ _ _ _ (get_mtd_ok p (slave_of M pt i o sz e) st ltac:(apply lookup_insert_eq))) end.
  rewrite !bind_bind. rewrite bind_put_mtd, !bind_bind, (bind_Ret _ _ _ _ _ (call_users_ok _ _ _ _)), !bind_bind, bind_modify.
  rewrite bind_mret, bind_put_part. f_equal. unfold with_slave. destruct s. simpl. f_equal; by rewrite ?insert_insert_eq.
Qed.

(** ** The four partitions *)

Context (mst : Z) (M : mtd_info) {LM : MtdLaws X M} (HsM : size M = SC2510_FLASH_SIZE).

(** Device number [i] is the partition [nm] of the chip from [o] on, with [sz] bytes. *)
Record Registered (s : MtdSt X) (i : nat) (nm : cstr) (o sz : Z) (p : Z) (m : mtd_info) : Prop := mkRegistered {
  rg_table : mtd_table s !! i = Some p;
  rg_part : Partition M s p m (mkPart mst o (Z.of_nat i) 1);
  rg_name : name m = nm;
  rg_size : size m = sz;
  rg_fn : erase m = part_erase_fn;
  rg_e : part_erasesize M o sz = Some (erasesize m);
  rg_pos : 0 < erasesize m;
  rg_w : writeable m = true <-> writeable M = true /\ (erasesize m | o) /\ (erasesize m | sz);
}.

Lemma registered_new s i pt o sz e p :
  mtds s !! mst = Some M -> p <> mst -> (i < length (mtd_table s))%nat -> pt_mask_flags pt = 0 -> 0 <= o -> 0 <= sz -> o + sz <= size M ->
  part_erasesize M o sz = Some e -> 0 < e ->
  Registered (with_slave mst p (slave_of M pt (Z.of_nat i) o sz e) o (Z.of_nat i) (Z.of_nat i) s) i (pt_name pt) o sz p
    (set_index (Z.of_nat i) (slave_of M pt (Z.of_nat i) o sz e)).
Proof.
  intros HM Hp Hi Hmask Ho Hs Hin He Hpos. set (m := slave_of M pt (Z.of_nat i) o sz e). set (m0 := set_erasesize e (set_size sz (new_slave M pt (Z.of_nat i)))).
  destruct (read_only_same o m0) as (E1 & E2 & E3 & E4). destruct (read_only_same sz (read_only o m0)) as (F1 & F2 & F3 & F4).
  assert (erasesize m = e /\ size m = sz /\ name m = pt_name pt /\ erase m = part_erase_fn) as (Ee & Es & En & Ef)
    by (unfold m, slave_of; fold m0; rewrite F1, F2, F3, F4, E1, E2, E3, E4; done).
  split; try done.
  - simpl. rewrite Nat2Z.id. by rewrite list_lookup_insert_eq.
  - split; simpl; try done; [apply lookup_insert_eq|apply lookup_insert_eq|by rewrite lookup_insert_ne|rewrite Es; lia|rewrite Es; lia|rewrite HsM; done].
  - simpl. by rewrite Ee.
  - simpl. by rewrite Ee.
  - change (writeable (set_index _ m)) with (writeable m). change (erasesize (set_index _ m)) with (erasesize m). rewrite Ee. unfold m, slave_of. fold m0.
    rewrite !read_only_writeable, E1. change (erasesize m0) with e. rewrite !Z.mod_divide by lia.
    assert (writeable m0 = writeable M) as -> by (unfold writeable; simpl; rewrite Hmask; change (Z.lnot 0) with (-1); by rewrite Z.land_m1_r). tauto.
Qed.

Lemma registered_kept s i nm o sz p m p' m' o' i' t :
  Registered s i nm o sz p m -> p' <> p -> p' <> mst -> Z.to_nat t <> i -> Registered (with_slave mst p' m' o' i' t s) i nm o sz p m.
Proof.
  intros [Ht [Hm Hp HM ? ? ? ?] ? ? ? ? ? ?] Hpp Hpm Hti. split; try done; simpl.
  - by rewrite list_lookup_insert_ne.
  - split; simpl; try done; by rewrite lookup_insert_ne.
Qed.

(** The names, places and sizes of the partitions on a chip of 2 MB. *)
Definition board_layout : list (cstr * Z * Z) :=
  [(lit "flash_boot", 0, 0x8000); (lit "data_setting", 0x8000, 0x8000); (lit "kernel", 0x10000, 0x1E0000); (lit "default_mac", 0x1F0000, 0x10000)].

(** No device is registered, and there is memory for four. *)
Record Fresh (ps : list Z) (s : MtdSt X) : Prop := mkFresh {
  fr_mem : free_mem s = ps ++ drop 4 (free_mem s);
  fr_four : length ps = 4%nat;
  fr_nodup : NoDup (mst :: 0 :: ps);
  fr_master : mtds s !! mst = Some M;
  fr_table : mtd_table s = replicate 10 0;
}.

Lemma board_partitions_ok ps s : Fresh ps s -> exists s',
  add_mtd_partitions mst sc2510_partitions s = Ret 0 s' /\ dev s' = dev s /\ mtd_table s' = ps ++ replicate 6 0 /\ free_mem s' = drop 4 (free_mem s) /\
  forall i nm o sz, board_layout !! i = Some (nm, o, sz) -> exists p m, ps !! i = Some p /\ Registered s' i nm o sz p m.
Proof using LM HsM.
  intros [Hmem H4 Hnd HM Htab]. destruct ps as [|p0 [|p1 [|p2 [|p3 [|]]]]]; try done. clear H4.
  rewrite !NoDup_cons, !not_elem_of_cons in Hnd. destruct Hnd as ((? & ? & ? & ? & ? & _) & (? & ? & ? & ? & _) & (? & ? & ? & _) & (? & ? & _) & (? & _) & _).
  destruct (part_law 0 0x8000) as (e0 & He0 & Hp0 & _); [lia|lia|by rewrite HsM|].
  destruct (part_law 0x8000 0x8000) as (e1 & He1 & Hp1 & _); [lia|lia|by rewrite HsM|].
  destruct (part_law 0x10000 0x1E0000) as (e2 & He2 & Hp2 & _); [lia|lia|by rewrite HsM|].
  destruct (part_law 0x1F0000 0x10000) as (e3 & He3 & Hp3 & _); [lia|lia|by rewrite HsM|].
  unfold add_mtd_partitions, sc2510_partitions.
  set (pt0 := mkPartition (lit "flash_boot") CONFIG_MTD_SC2510_RESERVE 0 0 0).
  set (pt1 := mkPartition (lit "data_setting") CONFIG_MTD_SC2510_DATA_SETTING_SIZE MTDPART_OFS_APPEND 0 0).
  set (pt2 := mkPartition (lit "kernel") CONFIG_MTD_SC2510_KERNEL_SIZE MTDPART_OFS_APPEND 0 0).
  set (pt3 := mkPartition (lit "default_mac") MTDPART_SIZ_FULL MTDPART_OFS_APPEND 0 0).
  rewrite (add_loop_step mst M pt0 _ 0 0 0 0x8000 0x8000 e0 0 p0); try done;
    [|by rewrite Hmem|unfold fit, place; rewrite HsM; reflexivity|by rewrite Htab].
  set (s1 := with_slave mst p0 _ _ _ _ s).
  rewrite (add_loop_step mst M pt1 _ _ 0x8000 0x8000 0x8000 0x10000 e1 1 p1); try done;
    [|simpl; by rewrite Hmem|simpl; by rewrite lookup_insert_ne|unfold fit, place; rewrite HsM; reflexivity|simpl; rewrite Htab; simpl; by rewrite (proj2 (Z.eqb_neq p0 0))].
  set (s2 := with_slave mst p1 _ _ _ _ s1).
  rewrite (add_loop_step mst M pt2 _ _ 0x10000 0x10000 0x1E0000 0x1F0000 e2 2 p2); try done;
    [|simpl; by rewrite Hmem|simpl; by rewrite !lookup_insert_ne|unfold fit, place; rewrite HsM; reflexivity|
     simpl; rewrite Htab; simpl; by rewrite (proj2 (Z.eqb_neq p0 0)), (proj2 (Z.eqb_neq p1 0))].
  set (s3 := with_slave mst p2 _ _ _ _ s2).
  rewrite (add_loop_step mst M pt3 _ _ 0x1F0000 0x1F0000 0x10000 0x200000 e3 3 p3); try done;
    [|simpl; by rewrite Hmem|simpl; by rewrite !lookup_insert_ne|unfold fit, place; rewrite HsM; reflexivity|
     simpl; rewrite Htab; simpl; by rewrite (proj2 (Z.eqb_neq p0 0)), (proj2 (Z.eqb_neq p1 0)), (proj2 (Z.eqb_neq p2 0))].
  set (s4 := with_slave mst p3 _ _ _ _ s3). exists s4. split_and!; [done|done|simpl; by rewrite Htab|simpl; by rewrite Hmem|].
  intros [|[|[|[|i]]]] nm o sz Hl; simpl in Hl; simplify_eq; [exists p0|exists p1|exists p2|exists p3]; eexists; (split; [done|]).
  - do 3 (apply registered_kept; [|done..]). apply (registered_new s 0 pt0); try done; rewrite ?HsM, ?Htab; (done || simpl; lia).
  - do 2 (apply registered_kept; [|done..]). apply (registered_new s1 1 pt1); try done; rewrite ?HsM; simpl; rewrite ?lookup_insert_ne, ?Htab by done; (done || simpl; lia).
  - apply registered_kept; [|done..]. apply (registered_new s2 2 pt2); try done; rewrite ?HsM; simpl; rewrite ?lookup_insert_ne, ?Htab by done; (done || simpl; lia).
  - apply (registered_new s3 3 pt3); try done; rewrite ?HsM; simpl; rewrite ?lookup_insert_ne, ?Htab by done; (done || simpl; lia).
Qed.
End Sc2510.
