(* ===== verification/ConfigReset.v ===== *)
(** * Resetting the configuration

    What [erase_config] does to a partition, against the promises of a flash
    device: one that can be erased, one that is read-only, and the cases in
    which the task cannot begin. *)

From S2P Require Import Prelude Gpio Mtd MtdSpec Sc2510 ResetButton ButtonSpec.

Section Reset.
Context {X : Type} `{MtdDriver X} (M : mtd_info) {LM : MtdLaws X M}.
Implicit Types s : ClockSt X.

Lemma on_mtd_ok {A} (m : Prelude.M (MtdSt X) A) a t s : m (mtd s) = Ret a t -> on_mtd m s = Ret a (set_mtd t s).
Proof. intros E. unfold on_mtd. by rewrite E. Qed.
Lemma set_mtd_same s : set_mtd (mtd s) s = s.
Proof. by destruct s. Qed.
Lemma on_get_mtd p m s : mtds (mtd s) !! p = Some m -> on_mtd (get_mtd p) s = Ret m s.
Proof. intros E. rewrite (on_mtd_ok _ _ _ _ (get_mtd_ok _ _ _ E)). by rewrite set_mtd_same. Qed.

(** The flash replaced. *)
Definition with_dev (x : X) s : ClockSt X := set_mtd (set_dev x (mtd s)) s.

Lemma config_request_ok s p m pt a : Erasable M (mtd s) p m pt -> usable (dev (mtd s)) -> 0 <= a < size m -> (erasesize m | a) -> exists x',
  erase_request p a s = Ret 0 (with_dev x' s) /\ usable x' /\
  forall b, byte_at x' b = if decide (offset pt + a <= b < offset pt + a + erasesize m) then 0xff else byte_at (dev (mtd s)) b.
Proof.
  intros He Hu Ha Hd. pose proof (erase_block_step _ _ _ _ _ _ He Ha Hd) as Hstep. pose proof He as [Hp Hf Hw _ Hpos _ _]. pose proof Hp as [Hm _ _ _ _ Hin _].
  destruct (part_erase_ok M (mtd s) p m pt (mkErase p a (erasesize m) true 0 0)) as (x' & e' & E & Hst & Hu' & Hb); try done; simpl; try lia.
  { eapply erasable_boundary; [done|lia|lia|done]. }
  { rewrite <- Z.add_assoc. eapply erasable_boundary; [done|lia|lia|]. by apply Z.divide_add_r. }
  exists x'. split_and!; [|done|done]. unfold erase_request. rewrite (bind_Ret _ _ _ _ _ (on_get_mtd _ _ _ Hm)).
  assert (mtd_erase p (mkErase p a (erasesize m) true 0 0) (mtd s) = Ret (0, e') (set_dev x' (mtd s))) as E'.
  { by rewrite (mtd_erase_part _ _ m). }
  rewrite (bind_Ret _ _ _ _ _ (on_mtd_ok _ _ _ _ E')). by rewrite Hst.
Qed.

Lemma erase_blocks_ok n : forall s p m pt a, Erasable M (mtd s) p m pt -> usable (dev (mtd s)) -> 0 <= a <= size m -> (erasesize m | a) ->
  (size m - a) / erasesize m <= Z.of_nat n -> exists x',
  erase_blocks n p a s = Ret tt (with_dev x' s) /\ usable x' /\
  forall b, byte_at x' b = if decide (offset pt + a <= b < offset pt + size m) then 0xff else byte_at (dev (mtd s)) b.
Proof.
  induction n as [|n IH]; intros s p m pt a He Hu Ha Hd Hn; pose proof He as [[Hm _ _ _ _ Hin Hmx] _ _ _ Hpos _ Hdz];
    cbn [erase_blocks]; rewrite (bind_Ret _ _ _ _ _ (on_get_mtd _ _ _ Hm)); destruct (Z.leb_spec (size m) a) as [Hge|Hlt].
  1, 3: exists (dev (mtd s)); split_and!; [unfold mret, M_ret, with_dev; by destruct s as [? ? ? ? ? ? ? ? ? []]|done|intros b; by rewrite decide_False by lia].
  - pose proof (erase_block_step _ _ _ _ _ a He ltac:(lia) Hd). assert (1 <= (size m - a) / erasesize m) by (apply Z.div_le_lower_bound; lia). lia.
  - destruct (config_request_ok s p m pt a He Hu ltac:(lia) Hd) as (x1 & E1 & Hu1 & Hb1). rewrite (bind_Ret _ _ _ _ _ E1).
    pose proof (erase_block_step _ _ _ _ _ a He ltac:(lia) Hd) as Hstep. pose proof (pn_lo _ _ _ _ _ (er_part _ _ _ _ _ He)).
    rewrite u32_small by (unfold is_u32; lia).
    destruct (IH (with_dev x1 s) p m pt (a + erasesize m)) as (x2 & E2 & Hu2 & Hb2); [|done|lia|by apply Z.divide_add_r| |].
    { destruct He as [Hp ? ? ? ? ? ?]. split; try done. by apply partition_dev. }
    { replace (size m - (a + erasesize m)) with (size m - a + (-1) * erasesize m) by lia. rewrite Z.div_add by lia. lia. }
    exists x2. split_and!; [exact E2|done|]. intros b. rewrite Hb2. simpl dev. rewrite Hb1. repeat case_decide; (done || lia).
Qed.

(** ** The task *)

(** Device number 1, and memory for the request. *)
Record Resettable (t : MtdSt X) (p : Z) (m : mtd_info) (pt : mtd_part) : Prop := mkResettable {
  rs_table : mtd_table t !! 1%nat = Some p;
  rs_erasable : Erasable M t p m pt;
  rs_mem : exists q l, free_mem t = q :: l /\ q <> 0;
}.

Lemma erase_config_start s p : mtd_table (mtd s) !! 1%nat = Some p -> on_mtd (__get_mtd_device 0 1) s = Ret p s.
Proof.
  intros Ht. rewrite (on_mtd_ok (__get_mtd_device 0 1) p (mtd s)); [by rewrite set_mtd_same|].
  unfold __get_mtd_device. rewrite bind_gets. change (1 =? -1) with false. change (1 <? MAX_MTD_DEVICES) with true. change (1 <? 0) with false.
  change (Z.to_nat 1) with 1%nat. cbn iota. by rewrite Ht.
Qed.
Lemma erase_config_alloc s q l : free_mem (mtd s) = q :: l -> on_mtd kmalloc s = Ret q (set_mtd (set_free_mem l (mtd s)) s).
Proof. intros Hf. apply on_mtd_ok. unfold kmalloc. by rewrite bind_gets, Hf. Qed.

Lemma erase_config_ok fuel s p m pt : Resettable (mtd s) p m pt -> usable (dev (mtd s)) -> size m / erasesize m <= Z.of_nat fuel -> exists s' x',
  erase_config fuel s = Ret tt s' /\ restarted s' = true /\ gpio s' = gpio s /\ mtd s' = set_dev x' (set_free_mem (tail (free_mem (mtd s))) (mtd s)) /\ usable x' /\
  forall b, byte_at x' b = if decide (offset pt <= b < offset pt + size m) then 0xff else byte_at (dev (mtd s)) b.
Proof.
  intros [Ht He (q & l & Hf & Hq)] Hu Hn. unfold erase_config. rewrite (bind_Ret _ _ _ _ _ (erase_config_start _ _ Ht)).
  rewrite (bind_Ret _ _ _ _ _ (erase_config_alloc _ _ _ Hf)). rewrite (proj2 (Z.eqb_neq q 0)) by done.
  set (s1 := set_mtd (set_free_mem l (mtd s)) s).
  destruct (erase_blocks_ok fuel s1 p m pt 0) as (x' & E & Hu' & Hb); [|done|pose proof (pn_size _ _ _ _ _ (er_part _ _ _ _ _ He)); lia|apply Z.divide_0_r|by rewrite Z.sub_0_r|].
  { destruct He as [[] ? ? ? ? ? ?]. by split. }
  rewrite (bind_Ret _ _ _ _ _ E). eexists _, x'. split; [reflexivity|]. rewrite Z.add_0_r in Hb. rewrite Hf. by split_and!.
Qed.

(** ** A partition that cannot be erased *)

Lemma erase_request_read_only s p m pt a : Partition M (mtd s) p m pt -> erase m = part_erase_fn -> writeable m = false -> erase_request p a s = Ret (- EROFS) s.
Proof.
  intros [Hm Hp _ _ _ _ _] Hf Hw. unfold erase_request. rewrite (bind_Ret _ _ _ _ _ (on_get_mtd _ _ _ Hm)).
  assert (mtd_erase p (mkErase p a (erasesize m) true 0 0) (mtd s) = Ret (- EROFS, mkErase p a (erasesize m) true 0 0) (mtd s)) as E.
  { rewrite (mtd_erase_part _ _ m) by done. unfold part_erase.
    by rewrite (bind_Ret _ _ _ _ _ (get_mtd_ok _ _ _ Hm)), (bind_Ret _ _ _ _ _ (PART_ok _ _ _ Hp)), Hw. }
  rewrite (bind_Ret _ _ _ _ _ (on_mtd_ok _ _ _ _ E)), set_mtd_same. done.
Qed.

Lemma erase_blocks_read_only n : forall s p m pt a, Partition M (mtd s) p m pt -> erase m = part_erase_fn -> writeable m = false ->
  0 < erasesize m < 2 ^ 31 -> size m < 2 ^ 31 -> 0 <= a -> size m - a <= Z.of_nat n * erasesize m -> erase_blocks n p a s = Ret tt s.
Proof.
  induction n as [|n IH]; intros s p m pt a Hp Hf Hw He Hs Ha Hn; cbn [erase_blocks]; rewrite (bind_Ret _ _ _ _ _ (on_get_mtd _ _ _ (pn_mtd _ _ _ _ _ Hp)));
    destruct (Z.leb_spec (size m) a) as [Hge|Hlt]; try done; [lia|].
  rewrite (bind_Ret _ _ _ _ _ (erase_request_read_only s p m pt a Hp Hf Hw)). rewrite u32_small by (unfold is_u32; lia).
  apply (IH s p m pt); try done; lia.
Qed.

(** Nothing is erased, but the board is restarted. *)
Lemma erase_config_read_only fuel s p m pt : mtd_table (mtd s) !! 1%nat = Some p -> Partition M (mtd s) p m pt -> erase m = part_erase_fn ->
  writeable m = false -> 0 < erasesize m < 2 ^ 31 -> size m < 2 ^ 31 -> size m <= Z.of_nat fuel * erasesize m ->
  (exists q l, free_mem (mtd s) = q :: l /\ q <> 0) -> exists s',
  erase_config fuel s = Ret tt s' /\ restarted s' = true /\ gpio s' = gpio s /\ dev (mtd s') = dev (mtd s).
Proof.
  intros Ht Hp Hf Hw He Hs Hn (q & l & Hfm & Hq). unfold erase_config. rewrite (bind_Ret _ _ _ _ _ (erase_config_start _ _ Ht)).
  rewrite (bind_Ret _ _ _ _ _ (erase_config_alloc _ _ _ Hfm)). rewrite (proj2 (Z.eqb_neq q 0)) by done.
  set (s1 := set_mtd (set_free_mem l (mtd s)) s). assert (Partition M (mtd s1) p m pt) as Hp1 by (by destruct Hp).
  rewrite (bind_Ret _ _ _ _ _ (erase_blocks_read_only fuel s1 p m pt 0 Hp1 Hf Hw He Hs ltac:(lia) ltac:(lia))). by eexists.
Qed.
End Reset.

(** ** A task that cannot begin *)

Section NoReset.
Context {X : Type} `{MtdDriver X}.
Implicit Types s : ClockSt X.

Lemma erase_config_no_memory fuel s p l : mtd_table (mtd s) !! 1%nat = Some p -> free_mem (mtd s) = 0 :: l ->
  erase_config fuel s = Ret tt (set_mtd (set_free_mem l (mtd s)) s).
Proof.
  intros Ht Hf. unfold erase_config. rewrite (bind_Ret _ _ _ _ _ (erase_config_start _ _ Ht)). by rewrite (bind_Ret _ _ _ _ _ (erase_config_alloc _ _ _ Hf)).
Qed.

Lemma erase_config_no_device fuel s q l : mtd_table (mtd s) !! 1%nat = Some 0 -> mtds (mtd s) !! 0 = None -> free_mem (mtd s) = q :: l -> q <> 0 ->
  erase_config fuel s = Stop NullPointer (set_mtd (set_free_mem l (mtd s)) s).
Proof.
  intros Ht Hn Hf Hq. unfold erase_config. rewrite (bind_Ret _ _ _ _ _ (erase_config_start _ _ Ht)).
  rewrite (bind_Ret _ _ _ _ _ (erase_config_alloc _ _ _ Hf)). rewrite (proj2 (Z.eqb_neq q 0)) by done.
  set (s1 := set_mtd (set_free_mem l (mtd s)) s). assert (on_mtd (get_mtd 0) s1 = Stop NullPointer s1) as E.
  { unfold on_mtd, get_mtd. rewrite bind_gets. simpl. by rewrite Hn. }
  apply bind_Stop. destruct fuel; cbn [erase_blocks]; by apply bind_Stop.
Qed.
End NoReset.
