(* ===== verification/ResetMain.v ===== *)
(** * From the button to the flash

    The whole way on the board: the chip driver of Cfi.v below the partitions of
    Sc2510.v below the task of ResetButton.v.  The properties of these components
    are stated here, with a chip of 2 MB to try them on. *)

From S2P Require Import Prelude Gpio FlashChip CfiChip Mtd MtdSpec Cfi CfiSpec CfiErase CfiMtd CfiSetup Sc2510 ResetButton ButtonSpec ConfigReset.

Section Board.
Context {F : Type} `{NorFlash F} `{NorBus F} {k : ChipKind} {L : ChipLaws F k} {CL : CfiLaws F k}.
Context (fuel : nat) (others : CfiSt F -> CfiSt F) (later : Z -> Z -> Z).
Context (c0 : cfi_private) (m0 : map_info) (ch0 : flchip) (M : mtd_info).
Abbreviation St := (CfiSpec.St c0 m0 ch0).
#[local] Instance drv : MtdDriver (CfiSt F) := cfi_driver fuel others later.

(** The driver has found the chip of 2 MB and made the device [M] for it. *)
Record ChipFound : Prop := mkChipFound {
  cf_board : OnBoard k c0 m0;
  cf_start : start ch0 = 0;
  cf_device : ChipDevice (k := k) fuel later M;
  cf_size : size M = SC2510_FLASH_SIZE;
}.

(** The memory of the kernel at start-up: the object of the device is at [mst],
    four partitions and a request can be allocated, and the flash is [f]. *)
Record Boot (mst : Z) (ps : list Z) (f : F) (j : Z) (t : MtdSt (CfiSt F)) : Prop := mkBoot {
  bt_fresh : Fresh mst M ps t;
  bt_dev : dev t = St FL_READY f j;
  bt_idle : idle f;
  bt_mem : exists q l, drop 4 (free_mem t) = q :: l /\ q <> 0;
}.

Lemma armflash_init_ok mst ps (t : MtdSt (CfiSt F)) (OB : OnBoard k c0 m0) (Hst : start ch0 = 0) (CD : ChipDevice (k := k) fuel later M) :
  let LM := cfi_laws fuel others later c0 m0 ch0 OB Hst M CD in
  size M = SC2510_FLASH_SIZE -> 0 < base k -> Fresh mst M ps t -> exists t',
  armflash_init true (base k) mst 0 t = Ret (0, mst, true) t' /\ dev t' = dev t /\ mtd_table t' = ps ++ replicate 6 0 /\ free_mem t' = drop 4 (free_mem t) /\
  forall i nm o sz, board_layout !! i = Some (nm, o, sz) -> exists p m, ps !! i = Some p /\ Registered mst M t' i nm o sz p m.
Proof.
  intros LM Hsz Hb Hf. destruct (board_partitions_ok mst M Hsz ps t Hf) as (t' & E & Hd & Htab & Hm & Hr). exists t'. split_and!; try done.
  assert (mst <> 0) as Hm0. { pose proof (fr_nodup _ _ _ _ Hf) as Hn. rewrite !NoDup_cons, !not_elem_of_cons in Hn. tauto. }
  assert (armflash_cfi_init mst 0 t = Ret (0, mst) t') as Ei.
  { unfold armflash_cfi_init. rewrite !(proj2 (Z.eqb_neq mst 0)) by done. by rewrite (bind_Ret _ _ _ _ _ E). }
  unfold armflash_init. cbn [negb]. rewrite (proj2 (Z.eqb_neq (base k) 0)) by lia. by rewrite (bind_Ret _ _ _ _ _ Ei).
Qed.

(** Start-up and ten looks: the task finds the registered partition of the settings. *)
Lemma pressed_ok mst ps active down (s : ClockSt (CfiSt F)) (OB : OnBoard k c0 m0) (Hst : start ch0 = 0) (CD : ChipDevice (k := k) fuel later M) :
  let LM := cfi_laws fuel others later c0 m0 ch0 OB Hst M CD in
  size M = SC2510_FLASH_SIZE -> 0 < base k -> Fresh mst M ps (mtd s) -> booted s -> ten_in_a_row (samples 0 down) -> exists s2 t p m,
  (forall fuel2, (on_mtd (armflash_init true (base k) mst 0) ;; ticks active down ;; keventd fuel2) s = erase_config fuel2 s2) /\
  mtd s2 = t /\ error_lamp (gpio s2) /\ dev t = dev (mtd s) /\ free_mem t = drop 4 (free_mem (mtd s)) /\
  Registered mst M t 1 (lit "data_setting") 0x8000 0x8000 p m.
Proof.
  intros LM Hsz Hb Hfr Hbo Hten.
  destruct (armflash_init_ok mst ps (mtd s) OB Hst CD Hsz Hb Hfr) as (t & E1 & Hd1 & _ & Hm1 & Hreg). destruct (Hreg 1%nat _ _ _ eq_refl) as (p & m & _ & Hr).
  set (s1 := set_mtd t s). destruct (ticks_ok active down 0 0 false s1 (booted_counting s1 Hbo)) as (s2 & ph & E2 & T2 & _ & C2).
  rewrite (proj2 (looks_spec (samples 0 down) 0 ltac:(lia)) Hten) in C2. exists (set_queued false s2), t, p, m. split_and!; try done.
  - intros fuel2. rewrite (bind_Ret _ _ _ _ _ (on_mtd_ok _ _ _ _ E1)). by rewrite (bind_Ret _ _ _ _ _ E2).
  - by apply (ct_lamp _ _ _ _ C2).
Qed.

(** C11: From start-up on, when the device of the chip of 2 MB is writeable and the
    largest erase size in the settings' 32 KB divides them (otherwise the partition
    is read-only and the settings stay, [read_only_settings_survive]), with memory
    for four partitions and a request: ten looks in a row at the pressed button, in
    whatever way it was pressed before, make the task erase exactly the settings and
    restart: the 32 KB from 0x8000 on are all ones, every other byte of the flash is
    as it was, and the error lamp is lit.  The partitions are those registered at
    start-up. *)
Theorem button_resets_settings mst ps f j e fuel2 active down (s : ClockSt (CfiSt F)) :
  ChipFound -> Boot mst ps f j (mtd s) -> booted s -> 0 < base k ->
  writeable M = true -> part_erasesize M 0x8000 0x8000 = Some e -> (e | 0x8000) -> 0x8000 / e <= Z.of_nat fuel2 ->
  ten_in_a_row (samples 0 down) -> exists s' f' j',
  (on_mtd (armflash_init true (base k) mst 0) ;; ticks active down ;; keventd fuel2) s = Ret tt s' /\
  restarted s' = true /\ error_lamp (gpio s') /\ dev (mtd s') = St FL_READY f' j' /\ idle f' /\
  forall a, flash_byte f' (base k + a) = if decide (0x8000 <= a < 0x10000) then 0xff else flash_byte f (base k + a).
Proof.
  intros [OB Hst CD Hsz] [Hfr Hdev Hi (q & l & Hmem & Hq)] Hbo Hb Hw He Hdiv Hn Hten.
  destruct (pressed_ok mst ps active down s OB Hst CD Hsz Hb Hfr Hbo Hten) as (s2 & t & p & m & E2 & Et & Hl & Hd1 & Hm1 & [Ht Hp _ Hs Hf He' Hpos Hw']).
  rewrite E2. assert (erasesize m = e) as Ee by congruence.
  destruct (erase_config_ok M (LM := cfi_laws fuel others later c0 m0 ch0 OB Hst M CD) fuel2 s2 p m (mkPart mst 0x8000 1 1))
    as (s3 & x' & E3 & R3 & G3 & D3 & (f' & j' & Hx & Hi') & Hby).
  { rewrite Et. split; [done| |by exists q, l; rewrite Hm1]. split; try done; [|by rewrite Hs|by rewrite Ee|by rewrite Ee, Hs]. apply Hw'. by rewrite Ee. }
  { rewrite Et, Hd1, Hdev. by exists f, j. }
  { by rewrite Hs, Ee. }
  exists s3, f', j'. split_and!; try done; [by rewrite G3|by rewrite D3|].
  intros a. specialize (Hby a). rewrite Et, Hd1, Hdev, Hs, Hx in Hby. exact Hby.
Qed.

(** Where the erase size of the chip does not divide the place of the settings,
    the partition is read-only: the button lights the lamp and restarts the board,
    and the settings stay. *)
Theorem read_only_settings_survive mst ps f j e fuel2 active down (s : ClockSt (CfiSt F)) :
  ChipFound -> Boot mst ps f j (mtd s) -> booted s -> 0 < base k ->
  part_erasesize M 0x8000 0x8000 = Some e -> ~ (e | 0x8000) -> e < 2 ^ 31 -> 0x8000 <= Z.of_nat fuel2 * e ->
  ten_in_a_row (samples 0 down) -> exists s',
  (on_mtd (armflash_init true (base k) mst 0) ;; ticks active down ;; keventd fuel2) s = Ret tt s' /\
  restarted s' = true /\ error_lamp (gpio s') /\ dev (mtd s') = St FL_READY f j.
Proof.
  intros [OB Hst CD Hsz] [Hfr Hdev Hi (q & l & Hmem & Hq)] Hbo Hb He Hdiv Hmax Hn Hten.
  destruct (pressed_ok mst ps active down s OB Hst CD Hsz Hb Hfr Hbo Hten) as (s2 & t & p & m & E2 & Et & Hl & Hd1 & Hm1 & [Ht Hp _ Hs Hf He' Hpos Hw']).
  rewrite E2. assert (erasesize m = e) as Ee by congruence. rewrite Ee in *.
  assert (writeable m = false) as Hw. { destruct (writeable m); [|done]. exfalso. destruct (proj1 Hw' eq_refl) as (_ & ? & _). done. }
  destruct (erase_config_read_only M fuel2 s2 p m (mkPart mst 0x8000 1 1)) as (s3 & E3 & R3 & G3 & D3);
    rewrite ?Et, ?Ee, ?Hs, ?Hm1; try done; [by exists q, l|].
  exists s3. split_and!; [done|done|by rewrite G3|]. by rewrite D3, Et, Hd1.
Qed.

(** C14: At start-up, with the chip of 2 MB found and memory for four partitions, the
    four partitions of the board are registered as devices 0 to 3, each at its
    place; together they cover the chip without overlap; the erase size of each is
    the largest of the regions of the chip that overlap it, and it is writeable
    exactly if the chip is and its place and its size are multiples of that erase
    size. *)
Theorem flash_partitions_registered mst ps (t : MtdSt (CfiSt F)) :
  ChipFound -> 0 < base k -> Fresh mst M ps t -> exists t',
  armflash_init true (base k) mst 0 t = Ret (0, mst, true) t' /\ dev t' = dev t /\ mtd_table t' = ps ++ replicate 6 0 /\
  (forall i nm o sz, board_layout !! i = Some (nm, o, sz) -> exists p m, ps !! i = Some p /\ mtds t' !! p = Some m /\
     parts t' !! p = Some (mkPart mst o (Z.of_nat i) 1) /\ name m = nm /\ size m = sz /\
     largest_in (regions M) o sz (erasesize m) /\ 0 < erasesize m /\
     (writeable m = true <-> writeable M = true /\ (erasesize m | o) /\ (erasesize m | sz))) /\
  (forall a, 0 <= a < size M -> exists i, (exists nm o sz, board_layout !! i = Some (nm, o, sz) /\ o <= a < o + sz) /\
     forall i' nm o sz, board_layout !! i' = Some (nm, o, sz) -> o <= a < o + sz -> i' = i).
Proof.
  intros [OB Hst CD Hsz] Hb Hfr. destruct (armflash_init_ok mst ps t OB Hst CD Hsz Hb Hfr) as (t' & E & Hd & Htab & _ & Hreg).
  exists t'. split_and!; try done.
  - intros i nm o sz Hl. destruct (Hreg i nm o sz Hl) as (p & m & Hp & [_ [? ? _ _ _ _ _] ? ? _ He ? ?]). exists p, m.
    split_and!; try done. destruct CD as [Cs Cn Ct _ _ _ _ _]. rewrite <- Cs, Hsz in Ct.
    eapply part_largest; [exact Cn|exact Ct|done|..|exact He];
      destruct i as [|[|[|[|i]]]]; simpl in Hl; simplify_eq; unfold SC2510_FLASH_SIZE; lia.
  - intros a Ha. rewrite Hsz in Ha. unfold SC2510_FLASH_SIZE in Ha.
    exists (if a <? 0x8000 then 0%nat else if a <? 0x10000 then 1%nat else if a <? 0x1F0000 then 2%nat else 3%nat). split.
    + destruct (Z.ltb_spec a 0x8000); [|destruct (Z.ltb_spec a 0x10000); [|destruct (Z.ltb_spec a 0x1F0000)]]; eexists _, _, _; (split; [reflexivity|lia]).
    + intros [|[|[|[|i']]]] nm o sz Hl Hin; simpl in Hl; simplify_eq;
        repeat match goal with |- context [a <? ?c] => destruct (Z.ltb_spec a c) end; (done || lia).
Qed.

(** ** Through a partition to the chip *)

Lemma bytes_stores f f' a l :
  (forall i b, l !! i = Some b -> flash_byte f' (base k + (a + Z.of_nat i)) = b) ->
  (forall x, ~ (a <= x < a + Z.of_nat (length l)) -> flash_byte f' (base k + x) = flash_byte f (base k + x)) -> stores f f' (base k + a) l.
Proof.
  intros Hin Hout. split.
  - intros i b Hb. rewrite <- Z.add_assoc. by apply Hin.
  - intros x Hx. replace x with (base k + (x - base k)) by lia. apply Hout. lia.
Qed.

(** C13: A write through a writeable partition of the chip that was found, while the
    chip is idle, at any place and of any length, in either mode of programming,
    stores the bytes up to the end of the partition, says how many, and changes no
    other byte of the flash, provided no bit that is cleared in the flash is set in
    the bytes ([fits]: programming only clears bits). *)
Theorem partition_write_confined p m pt to len buf f j (t : MtdSt (CfiSt F)) :
  let n := Z.max 0 (Z.min len (size m - to)) in
  ChipFound -> Partition M t p m pt -> writeable m = true -> dev t = St FL_READY f j -> idle f -> 0 <= to -> 0 <= len ->
  n <= Z.of_nat (length buf) -> Forall is_byte buf -> fits f (base k + (offset pt + to)) (take (Z.to_nat n) buf) -> exists f' j',
  part_write p to len buf t = Ret (0, Some n) (set_dev (St FL_READY f' j') t) /\ idle f' /\
  stores f f' (base k + (offset pt + to)) (take (Z.to_nat n) buf).
Proof.
  intros n [OB Hst CD Hsz] Hp Hw Hd Hi Ht Hl Hn Hby Hf.
  destruct (part_write_ok M (LM := cfi_laws fuel others later c0 m0 ch0 OB Hst M CD) t p m pt to len buf Hp) as (x' & E & (f' & j' & -> & Hi') & Hin & Hout);
    [rewrite Hd; by exists f, j|done|done|done|done|done| |].
  { intros i b Hib. rewrite Hd. change (Z.land (flash_byte f (base k + (offset pt + to + Z.of_nat i))) b = b). rewrite Z.add_assoc. by apply Hf. }
  exists f', j'. split_and!; [exact E|done|]. rewrite Hd in Hout. apply bytes_stores; [exact Hin|].
  intros x Hx. apply (Hout x). rewrite length_take in Hx. unfold n in *. lia.
Qed.

(** A request to erase whole blocks inside a writeable partition erases exactly
    those bytes of the flash and reports it. *)
Theorem partition_erase_exact p m pt a len (cb : bool) f j (t : MtdSt (CfiSt F)) :
  ChipFound -> Partition M t p m pt -> writeable m = true -> part_erasesize M (offset pt) (size m) = Some (erasesize m) ->
  (erasesize m | offset pt) -> (erasesize m | a) -> (erasesize m | len) -> 0 <= a < size m -> 0 <= len -> a + len <= size m ->
  dev t = St FL_READY f j -> idle f -> exists f' j' e',
  part_erase p (mkErase p a len cb 0 0) t = Ret (0, e') (set_dev (St FL_READY f' j') t) /\ e_state e' = MTD_ERASE_DONE /\ idle f' /\
  forall x, flash_byte f' (base k + x) = if decide (offset pt + a <= x < offset pt + a + len) then 0xff else flash_byte f (base k + x).
Proof.
  intros [OB Hst CD Hsz] Hp Hw He Ho Ha1 Hl1 Ha Hl Hin Hd Hi. pose proof Hp as [_ _ _ Hlo _ Hend _]. pose (LM := cfi_laws fuel others later c0 m0 ch0 OB Hst M CD).
  destruct (part_law (MtdLaws := LM) (offset pt) (size m)) as (e & He' & _ & Hb); [done|lia|done|]. assert (e = erasesize m) as -> by congruence.
  destruct (part_erase_ok M (LM := LM) t p m pt (mkErase p a len cb 0 0) Hp) as (x' & e' & E & Hst' & (f' & j' & -> & Hi') & Hby);
    try done; simpl; try lia; [rewrite Hd; by exists f, j|apply Hb; [lia|by apply Z.divide_add_r]|apply Hb; [lia|by repeat apply Z.divide_add_r]|].
  exists f', j', e'. split_and!; try done. intros x. specialize (Hby x). by rewrite Hd in Hby.
Qed.

(** C32: The length of a request is not compared with the partition, and its sum with
    the address wraps: a request for the first block of a partition with a length of
    4 GB less its offset passes all checks, erases the flash from there to the end of
    the chip, the following partitions included, and reports success. *)
Theorem erase_length_wraps p m pt (cb : bool) f j (t : MtdSt (CfiSt F)) :
  ChipFound -> Partition M t p m pt -> writeable m = true -> 0 < size m -> 0 < offset pt -> on_boundary (regions M) (offset pt) ->
  dev t = St FL_READY f j -> idle f -> exists f' j' e',
  part_erase p (mkErase p 0 (2 ^ 32 - offset pt) cb 0 0) t = Ret (0, e') (set_dev (St FL_READY f' j') t) /\ e_state e' = MTD_ERASE_DONE /\
  erased_range (k := k) f f' (offset pt) SC2510_FLASH_SIZE.
Proof.
  intros [OB Hst CD Hsz] [Hm Hp HM Hlo _ Hend Hmax] Hw Hs Ho Hb Hd Hi. destruct CD as [Cs Cn Ct Cm Ce Cp Cb Cc].
  set (e1 := mkErase p (offset pt) (2 ^ 32 - offset pt) cb 0 0).
  destruct (varsize_wraps fuel others later c0 m0 ch0 OB Hst M e1 f j) as (f' & j' & E & Hi' & Hr); try done; [simpl; lia|].
  exists f', j', (finish_erase MTD_ERASE_DONE e1). split_and!; [|done|rewrite <- Hsz, Cs; exact Hr].
  unfold part_erase. rewrite (bind_Ret _ _ _ _ _ (get_mtd_ok _ _ _ Hm)), (bind_Ret _ _ _ _ _ (PART_ok _ _ _ Hp)), Hw. cbn [negb e_addr].
  rewrite (proj2 (Z.leb_gt _ _)) by lia. rewrite (bind_Ret _ _ _ _ _ (get_mtd_ok _ _ _ HM)). rewrite Z.add_0_l, u32_small by (unfold is_u32; lia).
  unfold on_dev. rewrite Hd. cbn [d_erase drv cfi_driver]. rewrite Ce. change (set_e_addr (offset pt) _) with e1. by rewrite E.
Qed.
End Board.

(** C15: From start-up on, the task that erases the settings is queued exactly if ten
    successive looks, one every 100 ms, have found the button pressed, and nothing is
    written to the flash before the task runs. *)
Theorem button_press_decides {X} `{MtdDriver X} active down (s : ClockSt X) : booted s -> exists s',
  ticks active down s = Ret tt s' /\ mtd s' = mtd s /\ restarted s' = false /\
  (queued s' = true <-> ten_in_a_row (samples 0 down)) /\ (ResetConf_flag s' = 1 <-> ten_in_a_row (samples 0 down)).
Proof.
  intros Hb. destruct (ticks_ok active down 0 0 false s (booted_counting _ Hb)) as (s' & ph & E & T & R & C). exists s'.
  pose proof (looks_spec (samples 0 down) 0 ltac:(lia)) as Hl. cbn [replicate app] in Hl. destruct C as [_ _ _ _ _ Hf Hq _]. destruct Hb as (_ & _ & _ & _ & Hr).
  split_and!; [done|done|by rewrite R|by rewrite Hq|]. rewrite Hf. rewrite <- Hl. by destruct (foldl _ _ _).2.
Qed.

(** Through every interleaving of the button, the interrupt and the task, the next
    interrupt returns, the counters stay in their bounds, and as long as no reset was
    asked for, flash and partitions are as they were and the board runs. *)
Theorem flash_touched_only_on_request {X} `{MtdDriver X} fuel (s s' : ClockSt X) : booted s -> rtc (step fuel) s s' ->
  (forall active, exists s2, s3c2510_timer_interrupt active 29 s' = Ret tt s2) /\ 0 <= nCount s' <= 9 /\ 0 <= mS s' <= 49 /\
  (ResetConf_flag s' = 0 -> mtd s' = mtd s /\ restarted s' = false).
Proof.
  intros (Hn & Hm & _ & Hq & Hr) Hs. destruct (steps_bounded fuel s s' Hs) as [Hb Hf]; [split; rewrite ?Hn, ?Hm, ?Hq; (done || lia)|].
  split_and!; try apply Hb.
  - intros active. destruct (interrupt_bounded active s' Hb) as (s2 & E & _). by exists s2.
  - intros H0. destruct (Hf H0) as (_ & ? & ?). split; congruence.
Qed.

(** The task needs device number 1 and memory for its request.  Without memory it
    ends at once and the board keeps running, with its error lamp lit; with memory and
    no device it reads through a null pointer.  The flash is not touched. *)
Theorem reset_cannot_begin {X} `{MtdDriver X} fuel p q l (s : ClockSt X) :
  mtd_table (mtd s) !! 1%nat = Some p -> free_mem (mtd s) = q :: l -> p = 0 \/ q = 0 -> mtds (mtd s) !! 0 = None -> exists s',
  keventd fuel s = (if q =? 0 then Ret tt s' else Stop NullPointer s') /\
  restarted s' = restarted s /\ gpio s' = gpio s /\ dev (mtd s') = dev (mtd s).
Proof.
  intros Ht Hf Hpq Hn. exists (set_mtd (set_free_mem l (mtd s)) (set_queued false s)). split_and!; try done. unfold keventd. rewrite bind_modify.
  destruct (Z.eqb_spec q 0) as [->|Hq]; [by apply (erase_config_no_memory fuel (set_queued false s) p)|]. destruct Hpq as [->|]; [|done]. by apply (erase_config_no_device fuel (set_queued false s) q).
Qed.

(** From the erase regions one chip reports, the driver makes a device exactly if
    they add up to the size of the chip: its table has these regions one behind the
    other, so that every address of the chip lies in one of them, and its erase size
    is that of the largest. *)
Theorem amdstd_setup_decides {F : Type} infos junk (s : CfiSt F) : OneChip infos s ->
  let sz := 2 ^ DevSize (cfiq (cfi s)) in
  let M := amdstd_mtd s sz (largest infos) (Z.of_nat (length infos)) (table_of infos 0) in
  cfi_amdstd_setup true true junk s = Ret (if table_size infos =? sz then Some M else None) s /\
  Forall (fun r => r_erasesize r <= erasesize M) (regions M) /\
  (table_size infos = sz -> forall x, 0 <= x < size M -> exists n r, regions M !! n = Some r /\ r_offset r <= x < region_end r /\
     forall n' r', regions M !! n' = Some r' -> r_offset r' <= x < region_end r' -> n' = n).
Proof.
  intros Hc sz M. split; [by apply setup_ok|]. unfold M. rewrite regions_table. split; [apply table_below_largest|].
  intros Hsum x Hx. apply table_covers. simpl in Hx. lia.
Qed.

(** ** A chip to try them on *)

Module Am29.
(** Am29LV160DB: blocks of 16, 8, 8 and 32 KB, then 31 of 64 KB. *)
Definition len (s : Z) : Z :=
  let a := s - 0x80000000 in
  if a <? 0x4000 then 0x4000 else if a <? 0x8000 then 0x2000 else if a <? 0x10000 then 0x8000 else 0x10000.
Definition kind : ChipKind := mkChipKind 0x80000000 0x200000 0x555 0x2aa (fun _ => 0x30) len 0x01 0x2249.
Definition infos : list Z := [0x00400000; 0x00200001; 0x00800000; 0x0100001e].
#[export] Instance bus : NorFlash SimFlash := sim_flash kind.
#[export] Instance laws : ChipLaws SimFlash kind := sim_laws kind.
#[export] Instance wide : NorBus SimFlash := sim_bus kind.
#[export] Instance more_laws : CfiLaws SimFlash kind := sim_cfi kind.

Definition ident : cfi_ident := mkIdent 0 0 4 0 10 21 4 infos.
Definition ch0 : flchip := mkFlchip 0 FL_READY FL_READY 16 1 1024.
Definition c0 : cfi_private := mkCfi 1 2 0 0xaaa 0x554 1 ident 1 0x49 1 21 [ch0].
Definition m0 : map_info := mkMap (lit "AFS") 0x200000 2 0x80000000.
(** The clock stands still; nobody else runs. *)
Definition later (us j : Z) : Z := j.
Definition others (x : CfiSt SimFlash) : CfiSt SimFlash := x.
(** Settings, kernel and address hold something. *)
Definition f0 : SimFlash := mkSimFlash {[0x80008000 := 0x1234; 0x80010000 := 0x5678; 0x801ffffa := 0xabcd]} ReadArray.
Abbreviation St := (CfiSpec.St c0 m0 ch0).
Definition device : mtd_info := amdstd_mtd (St FL_READY f0 0) 0x200000 0x10000 4 (table_of infos 0).

Lemma on_board : OnBoard kind c0 m0.
Proof. split; (done || (cbn; lia)). Qed.

Lemma in_time_ok {F} `{NorFlash F} `{NorBus F} {k : ChipKind} {L : ChipLaws F k} {CL : CfiLaws F k} : in_time (k := k) later.
Proof.
  intros j i _. assert (after_polls later i (u32 (later 1000000 j)) = u32 j) as ->.
  { unfold after_polls, later. induction i as [|i IH]; [done|]. rewrite Nat.iter_succ, IH. apply u32_small, u32_range. }
  unfold time_after. apply Z.ltb_ge. unfold s32, u32, HZ. pose proof (Z.div_mod j (2 ^ 32) ltac:(lia)). Z.div_mod_to_equations. lia.
Qed.

Lemma table : table_of infos 0 = [mkRegion 0 0x4000 1; mkRegion 0x4000 0x2000 2; mkRegion 0x8000 0x8000 1; mkRegion 0x10000 0x10000 31].
Proof. reflexivity. Qed.

Lemma sectors : sectors_match (k := kind) (table_of infos 0).
Proof.
  rewrite table. intros n r a Hr Ha Hd. split; [|done]. unfold kind, len. cbn [sector_len base]. replace (0x80000000 + a - 0x80000000) with a by lia.
  destruct n as [|[|[|[|n]]]]; cbn in Hr; simplify_eq; unfold region_end in Ha; cbn [r_offset r_erasesize r_numblocks] in Ha |- *.
  - by rewrite (proj2 (Z.ltb_lt _ _)) by lia.
  - by rewrite (proj2 (Z.ltb_ge _ _)), (proj2 (Z.ltb_lt _ _)) by lia.
  - by rewrite (proj2 (Z.ltb_ge _ _)), (proj2 (Z.ltb_ge _ _)), (proj2 (Z.ltb_lt _ _)) by lia.
  - by rewrite !(proj2 (Z.ltb_ge _ _)) by lia.
Qed.

Lemma table_tiles : tiles (table_of infos 0) 0 0x200000.
Proof.
  rewrite table. cbn. split_and!; try done.
  - by exists 14. - apply Z.divide_0_r. - by exists 13. - by exists 2. - by exists 15. - by exists 16.
Qed.

Lemma found : ChipFound (k := kind) 40 later c0 m0 ch0 device.
Proof. split; [apply on_board|done| |done]. split; try done; [apply table_tiles|apply sectors|cbn; lia|apply in_time_ok]. Qed.

#[export] Instance driver : MtdDriver (CfiSt SimFlash) := cfi_driver 40 others later.

(** The device at 0x40, and memory for five objects. *)
Definition ps : list Z := [0x100; 0x200; 0x300; 0x400].
Definition t0 : MtdSt (CfiSt SimFlash) := mkMtdSt {[0x40 := device]} ∅ [] (replicate 10 0) [0x77] [] (ps ++ [0x500]) ∅ 0 (St FL_READY f0 0).
Definition s0 : ClockSt (CfiSt SimFlash) := mkClock 0 0 0 0 false [] 0 false (driver_initial (fun _ => 0xffffffff)) t0.

Lemma fresh : Fresh 0x40 device ps t0.
Proof. split; try done. compute_done. Qed.
Lemma boot : Boot c0 m0 ch0 device 0x40 ps f0 0 t0.
Proof. split; [apply fresh|done|done|by exists 0x500, []]. Qed.
Lemma booted_s0 : booted s0.
Proof. done. Qed.
(** The button held for a second. *)
Lemma held : ten_in_a_row (samples 0 (replicate 100 true)).
Proof. by exists [], []. Qed.

(** The partition of the settings as start-up registers it. *)
Definition settings : mtd_info := set_index 1 (slave_of device (mkPartition (lit "data_setting") 0x8000 MTDPART_OFS_APPEND 0 0) 1 0x8000 0x8000 0x8000).
Definition t1 : MtdSt (CfiSt SimFlash) :=
  mkMtdSt {[0x40 := device; 0x200 := settings]} {[0x200 := mkPart 0x40 0x8000 1 1]} [] [] [] [] [] ∅ 0 (St FL_READY f0 0).
Lemma partition : Partition device t1 0x200 settings (mkPart 0x40 0x8000 1 1).
Proof. by split. Qed.
Lemma boundary_8000 : on_boundary (regions device) 0x8000.
Proof.
  change (regions device) with (table_of infos 0). rewrite table. intros [|[|[|[|n]]]] r Hr Hx; simpl in Hr; simplify_eq; unfold region_end in Hx; simpl in Hx |- *; try lia.
  by exists 1.
Qed.
Lemma fits_123 : fits f0 (0x80000000 + (0x8000 + 0x7ffd)) [1; 2; 3].
Proof. intros [|[|[|i]]] b Hb; simpl in Hb; simplify_eq; reflexivity. Qed.
End Am29.

(** The same chip with the small blocks at the other end: the settings are half of
    a block of 64 KB. *)
Module Top.
Definition len (s : Z) : Z :=
  let a := s - 0x80000000 in
  if a <? 0x1F0000 then 0x10000 else if a <? 0x1F8000 then 0x8000 else if a <? 0x1FC000 then 0x2000 else 0x4000.
Definition kind : ChipKind := mkChipKind 0x80000000 0x200000 0x555 0x2aa (fun _ => 0x30) len 0x01 0x22c4.
Definition infos : list Z := [0x0100001e; 0x00800000; 0x00200001; 0x00400000].
#[export] Instance bus : NorFlash SimFlash := sim_flash kind.
#[export] Instance laws : ChipLaws SimFlash kind := sim_laws kind.
#[export] Instance wide : NorBus SimFlash := sim_bus kind.
#[export] Instance more_laws : CfiLaws SimFlash kind := sim_cfi kind.
Definition c0 : cfi_private := mkCfi 1 2 0 0xaaa 0x554 1 (mkIdent 0 0 4 0 10 21 4 infos) 1 0xc4 1 21 [Am29.ch0].
Abbreviation St := (CfiSpec.St c0 Am29.m0 Am29.ch0).
Definition device : mtd_info := amdstd_mtd (St FL_READY Am29.f0 0) 0x200000 0x10000 4 (table_of infos 0).

Lemma top_table : table_of infos 0 = [mkRegion 0 0x10000 31; mkRegion 0x1F0000 0x8000 1; mkRegion 0x1F8000 0x2000 2; mkRegion 0x1FC000 0x4000 1].
Proof. reflexivity. Qed.

Lemma top_sectors : sectors_match (k := kind) (table_of infos 0).
Proof.
  rewrite top_table. intros n r a Hr Ha Hd. split; [|done]. unfold kind, len. cbn [sector_len base]. replace (0x80000000 + a - 0x80000000) with a by lia.
  destruct n as [|[|[|[|n]]]]; cbn in Hr; simplify_eq; unfold region_end in Ha; cbn [r_offset r_erasesize r_numblocks] in Ha |- *.
  - by rewrite (proj2 (Z.ltb_lt _ _)) by lia.
  - by rewrite (proj2 (Z.ltb_ge _ _)), (proj2 (Z.ltb_lt _ _)) by lia.
  - by rewrite (proj2 (Z.ltb_ge _ _)), (proj2 (Z.ltb_ge _ _)), (proj2 (Z.ltb_lt _ _)) by lia.
  - by rewrite !(proj2 (Z.ltb_ge _ _)) by lia.
Qed.

Lemma top_table_tiles : tiles (table_of infos 0) 0 0x200000.
Proof.
  rewrite top_table. cbn. split_and!; try done.
  - by exists 16. - apply Z.divide_0_r. - by exists 15. - by exists 62. - by exists 13. - by exists 252. - by exists 14. - by exists 127.
Qed.

Lemma top_found : ChipFound (k := kind) 40 Am29.later c0 Am29.m0 Am29.ch0 device.
Proof.
  split; [split; (done || (cbn; lia))|done| |done].
  split; try done; [apply top_table_tiles|apply top_sectors|cbn; lia|apply Am29.in_time_ok].
Qed.

#[export] Instance driver : MtdDriver (CfiSt SimFlash) := cfi_driver 40 Am29.others Am29.later.
Definition t0 : MtdSt (CfiSt SimFlash) :=
  mkMtdSt {[0x40 := device]} ∅ [] (replicate 10 0) [0x77] [] (Am29.ps ++ [0x500]) ∅ 0 (St FL_READY Am29.f0 0).
Definition s0 : ClockSt (CfiSt SimFlash) := mkClock 0 0 0 0 false [] 0 false (driver_initial (fun _ => 0xffffffff)) t0.
Lemma top_boot : Boot c0 Am29.m0 Am29.ch0 device 0x40 Am29.ps Am29.f0 0 t0.
Proof. split; [split; try done; compute_done|done|done|by exists 0x500, []]. Qed.
End Top.

Lemma read_only_settings_survive_witness : exists s',
  (on_mtd (armflash_init true 0x80000000 0x40 0) ;; ticks false (replicate 100 true) ;; keventd (H := Top.driver) 1) Top.s0 = Ret tt s' /\
  restarted s' = true /\ error_lamp (gpio s') /\ dev (mtd s') = Top.St FL_READY Am29.f0 0.
Proof.
  apply (read_only_settings_survive (k := Top.kind) 40 Am29.others Am29.later Top.c0 Am29.m0 Am29.ch0 Top.device 0x40 Am29.ps Am29.f0 0 0x10000 1
    false (replicate 100 true) Top.s0 Top.top_found Top.top_boot); [done|done|by vm_compute| |done|done|apply Am29.held].
  intros [x Hx]. lia.
Defined.

Import Am29.

Lemma button_resets_settings_witness : exists s' f' j',
  (on_mtd (armflash_init true 0x80000000 0x40 0) ;; ticks false (replicate 100 true) ;; keventd 1) s0 = Ret tt s' /\
  restarted s' = true /\ error_lamp (gpio s') /\ dev (mtd s') = St FL_READY f' j' /\ idle f' /\
  forall a, flash_byte f' (0x80000000 + a) = if decide (0x8000 <= a < 0x10000) then 0xff else flash_byte f0 (0x80000000 + a).
Proof.
  apply (button_resets_settings 40 others later c0 m0 ch0 device 0x40 ps f0 0 0x8000 1 false (replicate 100 true) s0 found boot booted_s0);
    [done|done|by vm_compute|by exists 1|done|apply held].
Defined.

Lemma partition_write_confined_witness : exists f' j',
  part_write 0x200 0x7ffd 8 [1; 2; 3; 4; 5; 6; 7; 8] t1 = Ret (0, Some 3) (set_dev (St FL_READY f' j') t1) /\ idle f' /\
  stores f0 f' (0x80000000 + (0x8000 + 0x7ffd)) [1; 2; 3].
Proof.
  apply (partition_write_confined 40 others later c0 m0 ch0 device 0x200 settings (mkPart 0x40 0x8000 1 1) 0x7ffd 8 [1; 2; 3; 4; 5; 6; 7; 8] f0 0 t1 found partition);
    [by vm_compute|done|done|done|done|by vm_compute|compute_done|apply fits_123].
Defined.

Lemma partition_erase_exact_witness : exists f' j' e',
  part_erase 0x200 (mkErase 0x200 0 0x8000 true 0 0) t1 = Ret (0, e') (set_dev (St FL_READY f' j') t1) /\ e_state e' = MTD_ERASE_DONE /\ idle f' /\
  forall x, flash_byte f' (0x80000000 + x) = if decide (0x8000 + 0 <= x < 0x8000 + 0 + 0x8000) then 0xff else flash_byte f0 (0x80000000 + x).
Proof.
  apply (partition_erase_exact 40 others later c0 m0 ch0 device 0x200 settings (mkPart 0x40 0x8000 1 1) 0 0x8000 true f0 0 t1 found partition);
    try done; apply Z.divide_0_r.
Defined.

Lemma erase_length_wraps_witness : exists f' j' e',
  part_erase 0x200 (mkErase 0x200 0 (2 ^ 32 - 0x8000) true 0 0) t1 = Ret (0, e') (set_dev (St FL_READY f' j') t1) /\ e_state e' = MTD_ERASE_DONE /\
  erased_range (k := kind) f0 f' 0x8000 SC2510_FLASH_SIZE.
Proof.
  apply (erase_length_wraps 40 others later c0 m0 ch0 device 0x200 settings (mkPart 0x40 0x8000 1 1) true f0 0 t1 found partition); try done.
  apply boundary_8000.
Defined.

Lemma flash_partitions_registered_witness : exists t',
  armflash_init true 0x80000000 0x40 0 t0 = Ret (0, 0x40, true) t' /\ mtd_table t' = ps ++ replicate 6 0.
Proof.
  destruct (flash_partitions_registered 40 others later c0 m0 ch0 device 0x40 ps t0 found ltac:(done) fresh) as (t' & E & _ & Ht & _). exists t'. split; [exact E|exact Ht].
Defined.

Lemma button_press_decides_witness : exists s',
  ticks false (replicate 95 true ++ [false] ++ replicate 50 true) s0 = Ret tt s' /\ queued s' = true.
Proof.
  destruct (button_press_decides false (replicate 95 true ++ [false] ++ replicate 50 true) s0 booted_s0) as (s' & E & _ & _ & [_ Hq] & _).
  exists s'. split; [done|]. apply Hq. by exists [], [true; true; true; true].
Defined.

Lemma reset_cannot_begin_witness : exists s', keventd 1 s0 = Stop NullPointer s' /\ restarted s' = false.
Proof.
  destruct (reset_cannot_begin 1 0 0x100 [0x200; 0x300; 0x400; 0x500] s0) as (s' & E & R & _); [reflexivity|reflexivity|by left|reflexivity|].
  exists s'. split; [exact E|exact R].
Defined.

Lemma amdstd_setup_decides_witness : exists s, s = St FL_READY f0 0 /\ cfi_amdstd_setup true true (mkRegion 0 0 0) s = Ret (Some device) s.
Proof.
  exists (St FL_READY f0 0). split; [reflexivity|]. destruct (amdstd_setup_decides infos (mkRegion 0 0 0) (St FL_READY f0 0)) as [E _].
  { split; (reflexivity || (vm_compute; intuition congruence) || (cbn; lia)). }
  exact E.
Defined.
