(* ===== verification/MtdBlock.v ===== *)
(** * The block device over the flash
    (src/linux2510/drivers/mtd/mtdblock.c)

    A device for file systems over each device of Mtd.v.  Writes of less than an
    erase block go to a copy of the block in memory, which is written back when
    another block is needed, on request, and when the device is closed.

    [BlkSt] has the table of open devices with their caches, the sizes the block
    layer reads, and the devices below.  [fsync_dev] and [invalidate_buffers] of
    the block layer are parameters, as are [vmalloc] with the memory it returns,
    [try_inc_mod_count], and what other threads do while an open sleeps
    ([others]).  The semaphore of a cache makes its operations atomic; the
    thread's loop only calls [handle_mtdblock_request]. *)

From S2P Require Import Prelude Mtd.

Definition MTD_ABSENT : Z := 0.
Definition MTD_WRITEB_WRITEABLE : Z := 8.
Definition MTD_CAP_RAM : Z := Z.lor (Z.lor MTD_CLEAR_BITS MTD_SET_BITS) MTD_WRITEB_WRITEABLE.
Definition BLOCK_SIZE : Z := 1024.
Definition PAGE_SIZE : Z := 4096.
Definition READ : Z := 0.
Definition WRITE : Z := 1.
Definition EIO : Z := 5.
Definition EAGAIN : Z := 11.
Definition EACCES : Z := 13.
Definition ENODEV : Z := 19.

Inductive cache_state_t : Type := STATE_EMPTY | STATE_CLEAN | STATE_DIRTY.
#[export] Instance cache_state_eq_dec : EqDecision cache_state_t.
Proof. solve_decision. Defined.

Record mtdblk_dev : Type := mkBlk {
  b_mtd : Z;
  b_count : Z;
  cache_data : bytes;
  cache_offset : Z;
  cache_size : Z;
  cache_state : cache_state_t;
}.
Definition set_count x b := mkBlk (b_mtd b) x (cache_data b) (cache_offset b) (cache_size b) (cache_state b).
Definition set_data x b := mkBlk (b_mtd b) (b_count b) x (cache_offset b) (cache_size b) (cache_state b).
Definition set_place x y b := mkBlk (b_mtd b) (b_count b) (cache_data b) x y (cache_state b).
Definition set_cache x b := mkBlk (b_mtd b) (b_count b) (cache_data b) (cache_offset b) (cache_size b) x.

(** A device with what is below. *)
Record CacheSt (X : Type) : Type := mkCache { blk : mtdblk_dev; below : MtdSt X }.
Arguments mkCache {X}. Arguments blk {X}. Arguments below {X}.

(** ** The cache of one device *)

Section Cache.
Context {X : Type} `{MtdDriver X}.
Abbreviation CM A := (M (CacheSt X) A).

Definition on_below {A} (m : M (MtdSt X) A) : CM A := fun c =>
  match m (below c) with
  | Ret a t => Ret a (mkCache (blk c) t)
  | Stop e t => Stop e (mkCache (blk c) t)
  end.
Definition upd_blk (g : mtdblk_dev -> mtdblk_dev) : CM unit := modify (fun c => mkCache (g (blk c)) (below c)).

(** [schedule]: whoever is called back before does not sleep.  The state of the
    request is not initialised and not looked at. *)
Definition erase_write (mtd pos len : Z) (buf : bytes) : CM Z :=
  '(ret, e) ← on_below (mtd_erase mtd (mkErase mtd pos len true 0 0));
  if negb (ret =? 0) then mret ret
  else if (calls e =? 0)%nat then stop_with Asleep
  else
    '(ret, retlen) ← on_below (MTD_WRITE mtd pos len buf);
    if negb (ret =? 0) then mret ret
    else mret (if decide (retlen = Some len) then 0 else - EIO).

Definition write_cached_data : CM Z :=
  b ← gets blk;
  if decide (cache_state b = STATE_DIRTY) then
    ret ← erase_write (b_mtd b) (cache_offset b) (cache_size b) (cache_data b);
    if negb (ret =? 0) then mret ret
    else upd_blk (set_cache STATE_EMPTY) ;; mret 0
  else mret 0.

(** [memcpy (mtdblk->cache_data + ofs, l, ...)] *)
Definition store_cache (ofs : Z) (l : bytes) : CM unit :=
  d ← gets (fun c => cache_data (blk c));
  if Z.of_nat (length d) <? ofs + Z.of_nat (length l) then stop_with OutOfBounds
  else upd_blk (set_data (take (Z.to_nat ofs) d ++ l ++ drop (Z.to_nat ofs + length l) d)).

(** The cache filled with a sector. *)
Definition fill_cache (mtd sect_start sect_size : Z) : CM Z :=
  upd_blk (set_cache STATE_EMPTY) ;;
  '(ret, l) ← on_below (MTD_READ mtd sect_start sect_size);
  store_cache 0 l ;;
  if negb (ret =? 0) then mret ret
  else if negb (Z.of_nat (length l) =? sect_size) then mret (- EIO)
  else
    upd_blk (set_place sect_start sect_size) ;;
    upd_blk (set_cache STATE_CLEAN) ;;
    mret 0.

(** Less than a sector, from [ofs] in it. *)
Definition write_to_cache (mtd sect_start sect_size ofs : Z) (l : bytes) : CM Z :=
  b ← gets blk;
  ret ← (if bool_decide (cache_state b = STATE_DIRTY) && negb (cache_offset b =? sect_start) then write_cached_data else mret 0);
  if negb (ret =? 0) then mret ret
  else
    b ← gets blk;
    ret ← (if bool_decide (cache_state b = STATE_EMPTY) || negb (cache_offset b =? sect_start) then fill_cache mtd sect_start sect_size else mret 0);
    if negb (ret =? 0) then mret ret
    else
      store_cache ofs l ;;
      upd_blk (set_cache STATE_DIRTY) ;;
      mret 0.

(** [while (len > 0)]; every turn takes a byte at least. *)
Fixpoint write_sectors (n : nat) (mtd sect_size pos len : Z) (buf : bytes) : CM Z :=
  if len <=? 0 then mret 0
  else match n with
  | O => stop_with OutOfFuel
  | S n' =>
      let sect_start := pos / sect_size * sect_size in
      let ofs := pos - sect_start in
      let size := Z.min (sect_size - ofs) len in
      if Z.of_nat (length buf) <? size then stop_with OutOfBounds
      else
        ret ← (if size =? sect_size then erase_write mtd pos size buf
               else write_to_cache mtd sect_start sect_size ofs (take (Z.to_nat size) buf));
        if negb (ret =? 0) then mret ret
        else write_sectors n' mtd sect_size (u32 (pos + size)) (len - size) (drop (Z.to_nat size) buf)
  end.
Definition do_cached_write (pos len : Z) (buf : bytes) : CM Z :=
  b ← gets blk;
  if cache_size b =? 0 then '(ret, _) ← on_below (MTD_WRITE (b_mtd b) pos len buf); mret ret
  else write_sectors (Z.to_nat len) (b_mtd b) (cache_size b) pos len buf.

(** The result and the bytes read. *)
Fixpoint read_sectors (n : nat) (mtd sect_size pos len : Z) : CM (Z * bytes) :=
  if len <=? 0 then mret (0, [])
  else match n with
  | O => stop_with OutOfFuel
  | S n' =>
      let sect_start := pos / sect_size * sect_size in
      let ofs := pos - sect_start in
      let size := Z.min (sect_size - ofs) len in
      b ← gets blk;
      '(ret, l) ← (if bool_decide (cache_state b <> STATE_EMPTY) && (cache_offset b =? sect_start) then
                     if Z.of_nat (length (cache_data b)) <? ofs + size then stop_with OutOfBounds
                     else mret (0, take (Z.to_nat size) (drop (Z.to_nat ofs) (cache_data b)))
                   else
                     '(ret, l) ← on_below (MTD_READ mtd pos size);
                     mret (if negb (ret =? 0) then ret else if negb (Z.of_nat (length l) =? size) then - EIO else 0, l));
      if negb (ret =? 0) then mret (ret, l)
      else '(ret, l') ← read_sectors n' mtd sect_size (u32 (pos + size)) (len - size); mret (ret, l ++ l')
  end.
Definition do_cached_read (pos len : Z) : CM (Z * bytes) :=
  b ← gets blk;
  if cache_size b =? 0 then on_below (MTD_READ (b_mtd b) pos len)
  else read_sectors (Z.to_nat len) (b_mtd b) (cache_size b) pos len.
End Cache.

(** ** The devices *)

(** [ro]: the marks of [set_device_ro]. *)
Record BlkSt (X : Type) : Type := mkBlkSt {
  mtdblks : list (option mtdblk_dev);
  mtd_sizes : list Z;
  mtd_blksizes : list Z;
  ro : list bool;
  mtdst : MtdSt X;
}.
Arguments mkBlkSt {X}. Arguments mtdblks {X}. Arguments mtd_sizes {X}. Arguments mtd_blksizes {X}. Arguments ro {X}. Arguments mtdst {X}.
Section Setters.
Context {X : Type}.
Implicit Types s : BlkSt X.
Definition set_mtdblks x s := mkBlkSt x (mtd_sizes s) (mtd_blksizes s) (ro s) (mtdst s).
Definition set_mtd_sizes x s := mkBlkSt (mtdblks s) x (mtd_blksizes s) (ro s) (mtdst s).
Definition set_mtd_blksizes x s := mkBlkSt (mtdblks s) (mtd_sizes s) x (ro s) (mtdst s).
Definition set_ro x s := mkBlkSt (mtdblks s) (mtd_sizes s) (mtd_blksizes s) x (mtdst s).
Definition set_mtdst (x : MtdSt X) s := mkBlkSt (mtdblks s) (mtd_sizes s) (mtd_blksizes s) (ro s) x.
End Setters.

(** A request of the block layer: its current part. *)
Record request : Type := mkRequest {
  rq_minor : Z;
  rq_cmd : Z;
  sector : Z;
  current_nr_sectors : Z;
  buffer : bytes;
}.

Section Devices.
Context {X : Type} `{MtdDriver X}.
Context (others : BlkSt X -> BlkSt X) (try_inc : Z -> bool) (vmalloc : Z -> option bytes).
Context (fsync_dev invalidate_buffers : Z -> M (BlkSt X) unit).
Abbreviation B A := (M (BlkSt X) A).

Definition on_mtdst {A} (m : M (MtdSt X) A) : B A := fun s =>
  match m (mtdst s) with
  | Ret a t => Ret a (set_mtdst t s)
  | Stop e t => Stop e (set_mtdst t s)
  end.

(** [mtdblks[dev]]; [None] is a null pointer. *)
Definition entry (dev : Z) : B (option mtdblk_dev) :=
  l ← gets mtdblks;
  match (if dev <? 0 then None else l !! Z.to_nat dev) with
  | Some e => mret e
  | None => stop_with OutOfBounds
  end.
Definition opened (dev : Z) : B mtdblk_dev :=
  e ← entry dev;
  match e with
  | Some b => mret b
  | None => stop_with NullPointer
  end.
Definition put_entry (dev : Z) (e : option mtdblk_dev) : B unit := modify (fun s => set_mtdblks (<[Z.to_nat dev := e]> (mtdblks s)) s).

(** An operation on the cache of an open device. *)
Definition run_cache {A} (dev : Z) (b : mtdblk_dev) (m : M (CacheSt X) A) : B A := fun s =>
  match m (mkCache b (mtdst s)) with
  | Ret a c => Ret a (set_mtdst (below c) (set_mtdblks (<[Z.to_nat dev := Some (blk c)]> (mtdblks s)) s))
  | Stop e c => Stop e (set_mtdst (below c) (set_mtdblks (<[Z.to_nat dev := Some (blk c)]> (mtdblks s)) s))
  end.
Definition on_cache {A} (dev : Z) (m : M (CacheSt X) A) : B A := b ← opened dev; run_cache dev b m.

(** The new device, or [None] when there is no memory for its cache. *)
Definition new_blk (mtd : Z) (m : mtd_info) : option mtdblk_dev :=
  if negb (Z.land (flags m) MTD_CAP_RAM =? MTD_CAP_RAM) && negb (erasesize m =? 0) then
    match vmalloc (erasesize m) with
    | Some d => Some (mkBlk mtd 1 d 0 (erasesize m) STATE_EMPTY)
    | None => None
    end
  else Some (mkBlk mtd 1 [] 0 0 STATE_EMPTY).

(** The device entered, with its sizes. *)
Definition enter (dev : Z) (b : mtdblk_dev) (m : mtd_info) : B unit :=
  put_entry dev (Some b) ;;
  modify (fun s => set_mtd_sizes (<[Z.to_nat dev := size m / 1024]> (mtd_sizes s)) s) ;;
  when (negb (erasesize m =? 0)) (modify (fun s => set_mtd_blksizes (<[Z.to_nat dev := erasesize m]> (mtd_blksizes s)) s)) ;;
  modify (fun s => set_mtd_blksizes (alter (fun x => if PAGE_SIZE <? x then PAGE_SIZE else x) (Z.to_nat dev) (mtd_blksizes s)) s) ;;
  modify (fun s => set_ro (<[Z.to_nat dev := negb (writeable m)]> (ro s)) s).

Definition mtdblock_open (dev : Z) : B Z :=
  if MAX_MTD_DEVICES <=? dev then mret (- EINVAL)
  else
    mtd ← on_mtdst (get_mtd_device try_inc 0 dev);
    if mtd =? 0 then mret (- ENODEV)
    else
      m ← on_mtdst (get_mtd mtd);
      if type m =? MTD_ABSENT then on_mtdst (put_mtd_device mtd) ;; mret (- ENODEV)
      else
        e ← entry dev;
        match e with
        | Some b => put_entry dev (Some (set_count (b_count b + 1) b)) ;; mret 0
        | None =>
            p ← on_mtdst kmalloc;
            if p =? 0 then on_mtdst (put_mtd_device mtd) ;; mret (- ENOMEM)
            else match new_blk mtd m with
            | None => on_mtdst (put_mtd_device mtd) ;; mret (- ENOMEM)
            | Some b =>
                modify others ;;
                e ← entry dev;
                match e with
                | Some b' =>
                    put_entry dev (Some (set_count (b_count b' + 1) b')) ;;
                    on_mtdst (put_mtd_device mtd) ;; mret 0
                | None => enter dev b m ;; mret 0
                end
            end
        end.

Definition mtdblock_release (dev : Z) : B Z :=
  on_cache dev write_cached_data ;;
  b ← opened dev;
  if b_count b - 1 =? 0 then
    put_entry dev None ;;
    on_mtdst (MTD_SYNC (b_mtd b)) ;;
    on_mtdst (put_mtd_device (b_mtd b)) ;;
    mret 0
  else put_entry dev (Some (set_count (b_count b - 1) b)) ;; mret 0.

(** The argument of [end_request], and the buffer. *)
Definition handle_request (r : request) : B (bool * bytes) :=
  b ← opened (rq_minor r);
  m ← on_mtdst (get_mtd (b_mtd b));
  let pos := u32 (Z.shiftl (sector r) 9) in
  let len := s32 (Z.shiftl (current_nr_sectors r) 9) in
  if Z.shiftr (size m) 9 <? u32 (sector r + current_nr_sectors r) then mret (false, buffer r)
  else if rq_cmd r =? READ then
    '(err, l) ← on_cache (rq_minor r) (do_cached_read pos len);
    mret (err =? 0, l ++ drop (length l) (buffer r))
  else if rq_cmd r =? WRITE then
    if negb (writeable m) then mret (false, buffer r)
    else err ← on_cache (rq_minor r) (do_cached_write pos len (buffer r)); mret (err =? 0, buffer r)
  else mret (false, buffer r).

(** Until the queue is empty; the results in order. *)
Fixpoint handle_mtdblock_request (queue : list request) : B (list (bool * bytes)) :=
  match queue with
  | [] => mret []
  | r :: queue' => x ← handle_request r; l ← handle_mtdblock_request queue'; mret (x :: l)
  end.

Inductive blk_cmd : Type := BLKGETSIZE | BLKGETSIZE64 | BLKFLSBUF | BLK_OTHER.
(** The result, and what is stored for the caller; [admin] is [capable (CAP_SYS_ADMIN)]. *)
Definition mtdblock_ioctl (dev : Z) (cmd : blk_cmd) (admin : bool) : B (Z * option Z) :=
  entry dev ;;
  match cmd with
  | BLKGETSIZE => b ← opened dev; m ← on_mtdst (get_mtd (b_mtd b)); mret (0, Some (Z.shiftr (size m) 9))
  | BLKGETSIZE64 => b ← opened dev; m ← on_mtdst (get_mtd (b_mtd b)); mret (0, Some (size m))
  | BLKFLSBUF =>
      if negb admin then mret (- EACCES, None)
      else
        fsync_dev dev ;;
        invalidate_buffers dev ;;
        on_cache dev write_cached_data ;;
        b ← opened dev;
        on_mtdst (MTD_SYNC (b_mtd b)) ;;
        mret (0, None)
  | BLK_OTHER => mret (- EINVAL, None)
  end.

(** [registered]: the major number could be had; [notifier] is the address of the notifier. *)
Definition init_mtdblock (registered : bool) (notifier : Z) : B Z :=
  if negb registered then mret (- EAGAIN)
  else
    on_mtdst (register_mtd_user notifier) ;;
    modify (set_mtd_sizes (replicate (Z.to_nat MAX_MTD_DEVICES) 0)) ;;
    modify (set_mtd_blksizes (replicate (Z.to_nat MAX_MTD_DEVICES) BLOCK_SIZE)) ;;
    mret 0.
Definition cleanup_mtdblock (notifier : Z) : B unit := on_mtdst (unregister_mtd_user notifier) ;; mret tt.
End Devices.
