(* ===== verification/MtdBlockSpec.v ===== *)
(** * The cache of the block device

    What a device shows is the cached block where there is one and the flash
    elsewhere ([seen]).  Against the promises of a flash device ([MtdLaws]):
    reading returns what is seen, writing changes what is seen at its place
    only, and writing back changes nothing that is seen. *)

From S2P Require Import Prelude Mtd MtdSpec MtdBlock.

(** [v] with the bytes [l] from [a] on. *)
Definition overlay (v : Z -> Z) (a : Z) (l : bytes) (x : Z) : Z :=
  if decide (a <= x < a + Z.of_nat (length l)) then nth (Z.to_nat (x - a)) l 0 else v x.

Lemma overlay_in v a l i b : l !! i = Some b -> overlay v a l (a + Z.of_nat i) = b.
Proof.
  intros Hb. pose proof (lookup_lt_Some _ _ _ Hb). unfold overlay. rewrite decide_True by lia.
  replace (Z.to_nat (a + Z.of_nat i - a)) with i by lia. by apply nth_lookup_Some.
Qed.
Lemma overlay_out v a l x : ~ (a <= x < a + Z.of_nat (length l)) -> overlay v a l x = v x.
Proof. intros Hx. unfold overlay. by rewrite decide_False. Qed.
Lemma overlay_ext v w a l x : v x = w x -> overlay v a l x = overlay w a l x.
Proof. intros He. unfold overlay. by case_decide. Qed.
Lemma overlay_nil v a x : overlay v a [] x = v x.
Proof. apply overlay_out. simpl. lia. Qed.
(** Two pieces, one behind the other. *)
Lemma overlay_app v a l1 l2 x : overlay v a (l1 ++ l2) x = overlay (overlay v a l1) (a + Z.of_nat (length l1)) l2 x.
Proof.
  unfold overlay. rewrite length_app. destruct (decide (a + Z.of_nat (length l1) <= x < a + Z.of_nat (length l1) + Z.of_nat (length l2))) as [H2|H2].
  - rewrite decide_True by lia. rewrite app_nth2 by lia. f_equal. lia.
  - destruct (decide (a <= x < a + Z.of_nat (length l1))) as [H1|H1].
    + rewrite decide_True by lia. by rewrite app_nth1 by lia.
    + by rewrite decide_False by lia.
Qed.

Lemma bytes_at_lookup g a n i : (i < n)%nat -> bytes_at g a n !! i = Some (g (a + Z.of_nat i)).
Proof. intros Hi. unfold bytes_at. rewrite list_lookup_fmap, lookup_seq_lt by done. done. Qed.
Lemma length_bytes_at g a n : length (bytes_at g a n) = n.
Proof. unfold bytes_at. by rewrite length_fmap, length_seq. Qed.
Lemma bytes_at_ext g h a n : (forall x, a <= x < a + Z.of_nat n -> g x = h x) -> bytes_at g a n = bytes_at h a n.
Proof. intros He. apply list_fmap_ext. intros i x Hx. apply lookup_seq in Hx as [-> Hi]. apply He. lia. Qed.
Lemma bytes_at_app g a n1 n2 : bytes_at g a (n1 + n2) = bytes_at g a n1 ++ bytes_at g (a + Z.of_nat n1) n2.
Proof.
  unfold bytes_at. rewrite seq_app, fmap_app. f_equal.
  apply list_eq. intros i. rewrite !list_lookup_fmap. destruct (decide (i < n2)%nat) as [Hi|Hi].
  - rewrite !lookup_seq_lt by done. simpl. do 2 f_equal. lia.
  - by rewrite !lookup_seq_ge by lia.
Qed.
Lemma nth_bytes_at g a n x : a <= x < a + Z.of_nat n -> nth (Z.to_nat (x - a)) (bytes_at g a n) 0 = g x.
Proof. intros Hx. apply nth_lookup_Some with (d := 0). rewrite bytes_at_lookup by lia. do 2 f_equal. lia. Qed.

Section CacheSpec.
Context {X : Type} `{MtdDriver X} (M : mtd_info) {LM : MtdLaws X M}.
Implicit Types c : CacheSt X.

Definition seen c (pt : mtd_part) (a : Z) : Z :=
  if decide (cache_state (blk c) <> STATE_EMPTY /\ cache_offset (blk c) <= a < cache_offset (blk c) + cache_size (blk c))
  then nth (Z.to_nat (a - cache_offset (blk c))) (cache_data (blk c)) 0
  else byte_at (dev (below c)) (offset pt + a).

(** Between operations: the cache is empty or holds a changed block. *)
Record Cached c (p : Z) (m : mtd_info) (pt : mtd_part) : Prop := mkCached {
  ch_mtd : b_mtd (blk c) = p;
  ch_er : Erasable M (below c) p m pt;
  ch_us : usable (dev (below c));
  ch_ss : cache_size (blk c) = erasesize m;
  ch_len : Z.of_nat (length (cache_data (blk c))) = erasesize m;
  ch_clean : cache_state (blk c) <> STATE_CLEAN;
  ch_dirty : cache_state (blk c) = STATE_DIRTY ->
    (erasesize m | cache_offset (blk c)) /\ 0 <= cache_offset (blk c) < size m /\ Forall is_byte (cache_data (blk c));
}.

(** What an operation keeps. *)
Record Next (p : Z) (m : mtd_info) (pt : mtd_part) c c' : Prop := mkNext {
  nx_cached : Cached c' p m pt;
  nx_below : exists x', below c' = set_dev x' (below c);
  nx_count : b_count (blk c') = b_count (blk c);
  nx_out : forall b, ~ (offset pt <= b < offset pt + size m) -> byte_at (dev (below c')) b = byte_at (dev (below c)) b;
}.

Lemma next_trans p m pt c1 c2 c3 : Next p m pt c1 c2 -> Next p m pt c2 c3 -> Next p m pt c1 c3.
Proof.
  intros [_ (x2 & E2) Hc2 Ho2] [H3 (x3 & E3) Hc3 Ho3]. split; [done| |congruence|].
  - exists x3. rewrite E3, E2. done.
  - intros b Hb. by rewrite Ho3, Ho2.
Qed.

Lemma erasable_dev (t : MtdSt X) p m pt x : Erasable M t p m pt -> Erasable M (set_dev x t) p m pt.
Proof. intros [? ? ? ? ? ? ?]. split; try done. by apply partition_dev. Qed.

Lemma on_below_ok {A} (g : Prelude.M (MtdSt X) A) a t c : g (below c) = Ret a t -> on_below g c = Ret a (mkCache (blk c) t).
Proof. intros E. unfold on_below. by rewrite E. Qed.

(** A block erased and written. *)
Lemma erase_write_ok c p m pt pos buf : Erasable M (below c) p m pt -> usable (dev (below c)) -> 0 <= pos < size m -> (erasesize m | pos) ->
  erasesize m <= Z.of_nat (length buf) -> Forall is_byte buf -> exists x',
  erase_write p pos (erasesize m) buf c = Ret 0 (mkCache (blk c) (set_dev x' (below c))) /\ usable x' /\
  forall b, byte_at x' b = overlay (byte_at (dev (below c))) (offset pt + pos) (take (Z.to_nat (erasesize m)) buf) b.
Proof.
  intros He Hu Hpos Hd Hlen Hby. pose proof (erase_block_step _ _ _ _ _ _ He Hpos Hd) as Hstep. pose proof He as [Hp Hfn Hw _ Hes _ _]. pose proof Hp as [Hm _ _ Hlo _ Hin _].
  destruct (part_erase_run M (below c) p m pt (mkErase p pos (erasesize m) true 0 0)) as (x1 & E1 & Hu1 & Hb1); try done; simpl; try lia.
  { eapply erasable_boundary; [done|lia|lia|done]. }
  { rewrite <- Z.add_assoc. eapply erasable_boundary; [done|lia|lia|]. by apply Z.divide_add_r. }
  set (t1 := set_dev x1 (below c)). assert (Z.max 0 (Z.min (erasesize m) (size m - pos)) = erasesize m) as En by lia.
  destruct (part_write_ok M t1 p m pt pos (erasesize m) buf) as (x2 & E2 & Hu2 & Hin2 & Ho2);
    [by apply partition_dev|done|done|lia|lia|by rewrite En|done| |].
  { rewrite En. intros i b Hib. cbn [t1 dev set_dev]. pose proof (lookup_lt_Some _ _ _ Hib) as Hi. rewrite length_take in Hi. simpl in Hb1. rewrite Hb1, decide_True by lia.
    apply (Forall_lookup_1 _ _ i b) in Hby; [|by apply lookup_take_Some in Hib as [? _]]. change 0xff with (Z.ones 8). rewrite Z.land_comm, Z.land_ones by lia.
    apply Z.mod_small. exact Hby. }
  rewrite En in *. exists x2. split_and!; [|done|].
  - unfold erase_write. assert (mtd_erase p (mkErase p pos (erasesize m) true 0 0) (below c) = part_erase p (mkErase p pos (erasesize m) true 0 0) (below c)) as E0 by (by apply (mtd_erase_part _ _ m)).
    rewrite E1 in E0. rewrite (bind_Ret _ _ _ _ _ (on_below_ok _ _ _ _ E0)). cbn [Z.eqb negb calls finish_erase set_e_addr e_callback Nat.eqb].
    assert (MTD_WRITE p pos (erasesize m) buf t1 = Ret (0, Some (erasesize m)) (set_dev x2 t1)) as E2' by (by rewrite (MTD_WRITE_part t1 p m)).
    rewrite (bind_Ret _ _ _ _ _ (on_below_ok _ _ _ (mkCache (blk c) t1) E2')). cbn [Z.eqb negb]. by rewrite decide_True.
  - intros b. destruct (decide (offset pt + pos <= b < offset pt + pos + erasesize m)) as [Hb|Hb].
    + destruct (lookup_lt_is_Some_2 (take (Z.to_nat (erasesize m)) buf) (Z.to_nat (b - (offset pt + pos)))) as [y Hy]; [rewrite length_take; lia|].
      replace b with (offset pt + pos + Z.of_nat (Z.to_nat (b - (offset pt + pos)))) by lia. rewrite (overlay_in _ _ _ _ _ Hy). by apply Hin2.
    + rewrite overlay_out by (rewrite length_take; lia). rewrite Ho2 by done. simpl in Hb1. cbn [t1 dev set_dev]. by rewrite Hb1, decide_False.
Qed.

Lemma seen_empty c pt a : cache_state (blk c) = STATE_EMPTY -> seen c pt a = byte_at (dev (below c)) (offset pt + a).
Proof. intros He. unfold seen. rewrite decide_False; [done|]. intros [Hn _]. done. Qed.

(** Writing back empties the cache and changes nothing that is seen. *)
Lemma write_cached_data_ok c p m pt : Cached c p m pt -> exists c',
  write_cached_data c = Ret 0 c' /\ Next p m pt c c' /\ cache_state (blk c') = STATE_EMPTY /\ forall a, 0 <= a < size m -> seen c' pt a = seen c pt a.
Proof.
  intros Hc. pose proof Hc as [Hm He Hu Hss Hlen Hcl Hd]. unfold write_cached_data. rewrite bind_gets. destruct (decide (cache_state (blk c) = STATE_DIRTY)) as [Ed|Ed].
  - destruct (Hd Ed) as (Hdv & Hco & Hby). rewrite Hm, Hss.
    destruct (erase_write_ok c p m pt (cache_offset (blk c)) (cache_data (blk c))) as (x' & E & Hu' & Hb); try done; [lia|].
    rewrite (bind_Ret _ _ _ _ _ E). cbn [Z.eqb negb]. eexists. split; [reflexivity|]. rewrite take_ge in Hb by lia.
    pose proof (erase_block_step _ _ _ _ _ _ He Hco Hdv) as Hstep. split_and!; [|done|].
    + split; [|by exists x'|done|].
      * split; try done. by apply erasable_dev.
      * intros b Hbo. cbn [below dev set_dev]. rewrite Hb. apply overlay_out. lia.
    + intros a Ha. rewrite seen_empty by done. cbn [below dev set_dev]. rewrite Hb. unfold seen, overlay. rewrite Hss.
      destruct (decide (cache_offset (blk c) <= a < cache_offset (blk c) + erasesize m)).
      * rewrite !decide_True by (rewrite ?Ed; (lia || (split; [done|lia]))). f_equal. lia.
      * rewrite !decide_False; [done|intros [_ ?]; lia|lia].
  - exists c. split; [done|]. assert (cache_state (blk c) = STATE_EMPTY) as Ee by (destruct (cache_state (blk c)); done). split_and!; [|done|done].
    split; [done| |done|done]. exists (dev (below c)). by destruct (below c).
Qed.

(** [memcpy] inside the cache. *)
Lemma store_cache_ok ofs l c : 0 <= ofs -> ofs + Z.of_nat (length l) <= Z.of_nat (length (cache_data (blk c))) ->
  store_cache ofs l c = Ret tt (mkCache (set_data (take (Z.to_nat ofs) (cache_data (blk c)) ++ l ++ drop (Z.to_nat ofs + length l) (cache_data (blk c))) (blk c)) (below c)).
Proof. intros Ho Hl. unfold store_cache. rewrite bind_gets, (proj2 (Z.ltb_ge _ _)) by lia. done. Qed.

(** The cache filled. *)
Lemma fill_cache_ok c p m pt ss : Cached c p m pt -> cache_state (blk c) = STATE_EMPTY -> 0 <= ss < size m -> (erasesize m | ss) -> exists x',
  fill_cache p ss (erasesize m) c =
    Ret 0 (mkCache (mkBlk p (b_count (blk c)) (bytes_at (seen c pt) ss (Z.to_nat (erasesize m))) ss (erasesize m) STATE_CLEAN) (set_dev x' (below c))) /\
  usable x' /\ forall a, byte_at x' a = byte_at (dev (below c)) a.
Proof.
  intros Hc Ee Hs Hd. pose proof Hc as [Hm He Hu Hss Hlen Hcl _]. pose proof (erase_block_step _ _ _ _ _ _ He Hs Hd) as Hstep. pose proof (er_pos _ _ _ _ _ He) as Hpos.
  destruct (MTD_READ_ok M (below c) p m pt ss (erasesize m)) as (x' & E & Hu' & Hb); [by apply He|by apply (er_fn _ _ _ _ _ He)|done|lia|lia|lia|]. exists x'. split_and!; [|done|done].
  unfold fill_cache, upd_blk. rewrite bind_modify. set (c1 := mkCache (set_cache STATE_EMPTY (blk c)) (below c)).
  rewrite (bind_Ret _ _ _ _ _ (on_below_ok _ _ _ c1 E)).
  assert (bytes_at (fun a => byte_at (dev (below c)) (offset pt + a)) ss (Z.to_nat (erasesize m)) = bytes_at (seen c pt) ss (Z.to_nat (erasesize m))) as ->
    by (apply bytes_at_ext; intros x _; by rewrite seen_empty).
  set (l := bytes_at (seen c pt) ss (Z.to_nat (erasesize m))). assert (length l = Z.to_nat (erasesize m)) as Hl by apply length_bytes_at.
  rewrite (bind_Ret _ _ _ _ _ (store_cache_ok 0 l (mkCache (blk c1) (set_dev x' (below c))) ltac:(lia) ltac:(simpl; lia))). cbn [Z.eqb negb].
  rewrite Hl, Z2Nat.id, Z.eqb_refl by lia. cbn [negb]. rewrite !bind_modify. cbn [blk below c1 set_data set_cache set_place cache_data b_mtd b_count].
  change (Z.to_nat 0) with 0%nat. rewrite take_0, drop_ge, app_nil_r by lia. by rewrite <- Hm.
Qed.

(** Bytes put into a filled cache. *)
Lemma overlay_middle v b (d1 d2 d3 l : bytes) x : length d2 = length l ->
  overlay v b (d1 ++ l ++ d3) x = overlay (overlay v b (d1 ++ d2 ++ d3)) (b + Z.of_nat (length d1)) l x.
Proof.
  intros Hl. rewrite !overlay_app. set (w := overlay v b d1). destruct (decide (b + Z.of_nat (length d1) <= x < b + Z.of_nat (length d1) + Z.of_nat (length l))) as [Hx|Hx].
  - rewrite overlay_out by lia. unfold overlay. by rewrite !decide_True by lia.
  - rewrite (overlay_out _ _ l x) by done. rewrite !overlay_app, Hl. unfold overlay. rewrite Hl. case_decide; [done|]. by rewrite !decide_False by lia.
Qed.
Lemma overlay_take (d l : bytes) ofs v b x : 0 <= ofs -> ofs + Z.of_nat (length l) <= Z.of_nat (length d) ->
  overlay v b (take (Z.to_nat ofs) d ++ l ++ drop (Z.to_nat ofs + length l) d) x = overlay (overlay v b d) (b + ofs) l x.
Proof.
  intros Ho Hl. rewrite (overlay_middle v b _ (take (length l) (drop (Z.to_nat ofs) d))) by (rewrite length_take, length_drop; lia).
  rewrite <- drop_drop, !take_drop, length_take. f_equal. lia.
Qed.

Lemma next_refl p m pt c : Cached c p m pt -> Next p m pt c c.
Proof. intros Hc. split; try done. exists (dev (below c)). by destruct (below c). Qed.

(** The cache without another block. *)
Lemma flush_other_ok c p m pt ss : Cached c p m pt -> exists c1,
  (if bool_decide (cache_state (blk c) = STATE_DIRTY) && negb (cache_offset (blk c) =? ss) then write_cached_data else mret 0) c = Ret 0 c1 /\
  Next p m pt c c1 /\ (forall a, 0 <= a < size m -> seen c1 pt a = seen c pt a) /\ (cache_state (blk c1) = STATE_DIRTY -> cache_offset (blk c1) = ss).
Proof.
  intros Hc. case_bool_decide as Ed; cbn [andb]; [|exists c; by split_and!; [|apply next_refl| |]].
  destruct (Z.eqb_spec (cache_offset (blk c)) ss) as [Eo|Eo]; cbn [negb]; [exists c; by split_and!; [|apply next_refl| |]|].
  destruct (write_cached_data_ok c p m pt Hc) as (c1 & E & N & Ee & V). exists c1. split_and!; try done. by rewrite Ee.
Qed.

(** The block at [ss] in the cache, and what is seen made of it and the flash. *)
Record Loaded (ss : Z) (m : mtd_info) (pt : mtd_part) c1 c2 : Prop := mkLoaded {
  ld_below : exists x2, below c2 = set_dev x2 (below c1) /\ usable x2 /\ forall a, byte_at x2 a = byte_at (dev (below c1)) a;
  ld_mtd : b_mtd (blk c2) = b_mtd (blk c1);
  ld_count : b_count (blk c2) = b_count (blk c1);
  ld_place : cache_offset (blk c2) = ss /\ cache_size (blk c2) = erasesize m;
  ld_len : Z.of_nat (length (cache_data (blk c2))) = erasesize m;
  ld_bytes : Forall is_byte (cache_data (blk c2));
  ld_seen : forall a, 0 <= a < size m -> seen c1 pt a = overlay (fun a => byte_at (dev (below c1)) (offset pt + a)) ss (cache_data (blk c2)) a;
}.
Lemma load_block_ok c p m pt ss : Cached c p m pt -> (cache_state (blk c) = STATE_DIRTY -> cache_offset (blk c) = ss) -> 0 <= ss < size m -> (erasesize m | ss) -> exists c2,
  (if bool_decide (cache_state (blk c) = STATE_EMPTY) || negb (cache_offset (blk c) =? ss) then fill_cache p ss (erasesize m) else mret 0) c = Ret 0 c2 /\ Loaded ss m pt c c2.
Proof.
  intros Hc Ho Hs Hd. pose proof Hc as [Hm He Hu Hss Hlen Hcl Hdd]. pose proof (er_pos _ _ _ _ _ He) as Hpos. case_bool_decide as Ee; cbn [orb].
  - destruct (fill_cache_ok c p m pt ss Hc Ee Hs Hd) as (x2 & E & U & Y). eexists. split; [exact E|].
    split; cbn [blk below cache_data cache_offset cache_size b_mtd b_count]; rewrite ?length_bytes_at; try done; [by exists x2|lia| |].
    + apply Forall_lookup. intros i b Hi. pose proof (lookup_lt_Some _ _ _ Hi) as Hlt. rewrite length_bytes_at in Hlt. rewrite bytes_at_lookup in Hi by done. simplify_eq.
      rewrite seen_empty by done. apply byte_law.
    + intros a Ha. unfold overlay. rewrite length_bytes_at. case_decide; [by rewrite nth_bytes_at by lia|]. by rewrite seen_empty.
  - assert (cache_state (blk c) = STATE_DIRTY) as Ed by (destruct (cache_state (blk c)); done). specialize (Ho Ed). rewrite Ho, Z.eqb_refl. cbn [negb].
    destruct (Hdd Ed) as (_ & _ & Hb). exists c. split; [done|]. split; try done; [exists (dev (below c)); by destruct (below c)|].
    intros a Ha. unfold seen, overlay. rewrite Hss, Ho, Hlen. destruct (decide (ss <= a < ss + erasesize m)).
    + rewrite decide_True by (rewrite Ed; split; [done|lia]). done.
    + rewrite decide_False; [done|]. intros [_ ?]. lia.
Qed.

Lemma write_to_cache_ok c p m pt ss ofs l : Cached c p m pt -> 0 <= ss < size m -> (erasesize m | ss) -> 0 <= ofs -> ofs + Z.of_nat (length l) <= erasesize m ->
  Forall is_byte l -> exists c',
  write_to_cache p ss (erasesize m) ofs l c = Ret 0 c' /\ Next p m pt c c' /\ cache_state (blk c') = STATE_DIRTY /\ cache_offset (blk c') = ss /\
  forall a, 0 <= a < size m -> seen c' pt a = overlay (seen c pt) (ss + ofs) l a.
Proof.
  intros Hc Hs Hd Ho Hl Hby. destruct (flush_other_ok c p m pt ss Hc) as (c1 & E1 & N1 & V1 & O1). pose proof (nx_cached _ _ _ _ _ N1) as C1.
  destruct (load_block_ok c1 p m pt ss C1 O1 Hs Hd) as (c2 & E2 & [(x2 & B2 & U2 & Y2) M2 K2 [O2 S2] L2 F2 V2]).
  unfold write_to_cache. rewrite bind_gets, (bind_Ret _ _ _ _ _ E1). cbn [Z.eqb negb]. rewrite bind_gets, (bind_Ret _ _ _ _ _ E2). cbn [Z.eqb negb].
  rewrite (bind_Ret _ _ _ _ _ (store_cache_ok ofs l c2 ltac:(lia) ltac:(lia))). unfold upd_blk. rewrite bind_modify. eexists. split; [reflexivity|].
  set (d := take (Z.to_nat ofs) (cache_data (blk c2)) ++ l ++ drop (Z.to_nat ofs + length l) (cache_data (blk c2))).
  assert (length d = length (cache_data (blk c2))) as Ld by (unfold d; rewrite !length_app, length_take, length_drop; lia).
  split_and!; [|done|done|].
  - apply next_trans with c1; [done|]. pose proof C1 as [Hm1 He _ _ _ _ _]. split.
    + split; cbn [blk below set_cache set_data b_mtd cache_size cache_data cache_state cache_offset]; rewrite ?B2, ?O2, ?M2; try done; [by apply erasable_dev|by rewrite Ld|].
      intros _. split_and!; [done|lia|lia|]. unfold d. apply Forall_app; split; [by apply Forall_take|]. apply Forall_app; split; [done|by apply Forall_drop].
    + exists x2. exact B2.
    + done.
    + intros b _. cbn [below]. rewrite B2. apply Y2.
  - intros a Ha. unfold seen at 1. cbn [blk below set_cache set_data cache_size cache_data cache_state cache_offset]. rewrite O2, S2, B2. cbn [dev set_dev]. rewrite Y2.
    transitivity (overlay (fun a => byte_at (dev (below c1)) (offset pt + a)) ss d a).
    { unfold overlay. rewrite Ld, L2. destruct (decide (ss <= a < ss + erasesize m)); [by rewrite decide_True|]. rewrite decide_False; [done|]. intros [_ ?]. lia. }
    unfold d. rewrite overlay_take by lia. apply overlay_ext. rewrite <- V2 by done. by apply V1.
Qed.

(** ** Writing and reading *)

(** A sector: its start and the place in it. *)
Lemma sector_split e pos : 0 < e -> 0 <= pos -> let ss := pos / e * e in (e | ss) /\ 0 <= ss /\ 0 <= pos - ss < e.
Proof. intros He Hp ss. split; [by exists (pos / e)|]. pose proof (Z.div_mod pos e ltac:(lia)). pose proof (Z.mod_pos_bound pos e He). pose proof (Z.div_pos pos e Hp He). unfold ss. split; nia. Qed.

(** A whole sector that is not cached. *)
Lemma write_sector_ok c p m pt pos l : Cached c p m pt -> 0 <= pos < size m -> (erasesize m | pos) -> erasesize m <= Z.of_nat (length l) -> Forall is_byte l ->
  (cache_state (blk c) = STATE_DIRTY -> cache_offset (blk c) <> pos) -> exists c',
  erase_write p pos (erasesize m) l c = Ret 0 c' /\ Next p m pt c c' /\ blk c' = blk c /\
  forall a, 0 <= a < size m -> seen c' pt a = overlay (seen c pt) pos (take (Z.to_nat (erasesize m)) l) a.
Proof.
  intros Hc Hp Hd Hl Hby Hn. pose proof Hc as [Hm He Hu Hss Hlen Hcl Hdd]. pose proof (erase_block_step _ _ _ _ _ _ He Hp Hd) as Hstep. pose proof (er_pos _ _ _ _ _ He) as Hpos.
  destruct (erase_write_ok c p m pt pos l He Hu Hp Hd Hl Hby) as (x' & E & Hu' & Hb). eexists. split; [exact E|]. split_and!; [|done|].
  - split; [|by exists x'|done|].
    + split; try done. by apply erasable_dev.
    + intros b Hbo. cbn [below dev set_dev]. rewrite Hb. apply overlay_out. rewrite length_take. lia.
  - intros a Ha. unfold seen. cbn [blk below dev set_dev]. rewrite Hb, Hss.
    destruct (decide (cache_state (blk c) <> STATE_EMPTY /\ cache_offset (blk c) <= a < cache_offset (blk c) + erasesize m)) as [[Hs Ha']|Hno].
    + rewrite overlay_out; [by rewrite decide_True|]. rewrite length_take. intros Hin. assert (cache_state (blk c) = STATE_DIRTY) as Ed by (destruct (cache_state (blk c)); done).
      destruct (Hdd Ed) as ([q1 Hq1] & _ & _). destruct Hd as [q2 Hq2]. specialize (Hn Ed). assert (q1 <> q2) by congruence. assert (q1 < q2 \/ q2 < q1) as [?|?] by lia; nia.
    + unfold overlay. rewrite length_take. destruct (decide (pos <= a < pos + Z.of_nat (Z.to_nat (erasesize m) `min` length l))).
      * rewrite !decide_True by lia. f_equal. lia.
      * rewrite !decide_False; [done|done|lia].
Qed.

Lemma write_sectors_ok n : forall c p m pt pos len buf, Cached c p m pt -> 0 <= pos -> 0 <= len -> pos + len <= size m -> len <= Z.of_nat n ->
  len <= Z.of_nat (length buf) -> Forall is_byte buf ->
  (cache_state (blk c) = STATE_DIRTY -> ~ (pos <= cache_offset (blk c) /\ cache_offset (blk c) + erasesize m <= pos + len)) -> exists c',
  write_sectors n p (erasesize m) pos len buf c = Ret 0 c' /\ Next p m pt c c' /\
  forall a, 0 <= a < size m -> seen c' pt a = overlay (seen c pt) pos (take (Z.to_nat len) buf) a.
Proof.
  induction n as [|n IH]; intros c p m pt pos len buf Hc Hp Hl Hin Hn Hbuf Hby Hnc; cbn [write_sectors]; destruct (Z.leb_spec len 0) as [Hz|Hz]; [|lia| |].
  1, 2: exists c; split_and!; [done|by apply next_refl|]; intros a _; replace (Z.to_nat len) with 0%nat by lia; by rewrite take_0, overlay_nil.
  pose proof Hc as [_ He _ _ _ _ _]. pose proof (er_pos _ _ _ _ _ He) as Hpos. pose proof (pn_max _ _ _ _ _ (er_part _ _ _ _ _ He)). pose proof (pn_in _ _ _ _ _ (er_part _ _ _ _ _ He)).
  pose proof (pn_lo _ _ _ _ _ (er_part _ _ _ _ _ He)).
  destruct (sector_split (erasesize m) pos Hpos Hp) as (Hd & Hss & Hofs). set (ss := pos / erasesize m * erasesize m) in *. set (sz := Z.min (erasesize m - (pos - ss)) len).
  rewrite (proj2 (Z.ltb_ge _ _)) by lia.
  assert (exists c1, (if sz =? erasesize m then erase_write p pos sz buf else write_to_cache p ss (erasesize m) (pos - ss) (take (Z.to_nat sz) buf)) c = Ret 0 c1 /\
    Next p m pt c c1 /\ (forall a, 0 <= a < size m -> seen c1 pt a = overlay (seen c pt) pos (take (Z.to_nat sz) buf) a) /\
    (cache_state (blk c1) = STATE_DIRTY -> ~ (pos + sz <= cache_offset (blk c1) /\ cache_offset (blk c1) + erasesize m <= pos + len)))
    as (c1 & E1 & N1 & V1 & O1).
  { destruct (Z.eqb_spec sz (erasesize m)) as [Es|Es].
    - assert (pos = ss) as Eps by lia. rewrite Es. destruct (write_sector_ok c p m pt pos buf) as (c1 & E & N & B & V); try done; [lia|by rewrite Eps|lia|intros Ed Eo; apply (Hnc Ed); lia|].
      exists c1. split_and!; try done. rewrite B. intros Ed Hco. apply (Hnc Ed). lia.
    - destruct (write_to_cache_ok c p m pt ss (pos - ss) (take (Z.to_nat sz) buf)) as (c1 & E & N & _ & Eo & V); [done|lia|done|lia|rewrite length_take; lia|by apply Forall_take|].
      exists c1. split_and!; try done; [|rewrite Eo; lia]. intros a Ha. rewrite V by done. do 2 f_equal. lia. }
  rewrite (bind_Ret _ _ _ _ _ E1). cbn [Z.eqb negb]. rewrite u32_small by (unfold is_u32; lia).
  destruct (IH c1 p m pt (pos + sz) (len - sz) (drop (Z.to_nat sz) buf)) as (c2 & E2 & N2 & V2); try lia; [by apply N1|rewrite length_drop; lia|by apply Forall_drop| |].
  { intros Ed Hco. apply (O1 Ed). lia. }
  exists c2. split_and!; [exact E2|by apply next_trans with c1|]. intros a Ha. rewrite V2 by done.
  replace (take (Z.to_nat len) buf) with (take (Z.to_nat sz) buf ++ take (Z.to_nat (len - sz)) (drop (Z.to_nat sz) buf)).
  { rewrite overlay_app, length_take. replace (Z.of_nat (Z.to_nat sz `min` length buf)) with sz by lia. apply overlay_ext. by apply V1. }
  rewrite take_take_drop. f_equal. lia.
Qed.

Lemma read_sectors_ok n : forall c p m pt pos len, Cached c p m pt -> 0 <= pos -> 0 <= len -> pos + len <= size m -> len <= Z.of_nat n -> exists c',
  read_sectors n p (erasesize m) pos len c = Ret (0, bytes_at (seen c pt) pos (Z.to_nat len)) c' /\ Next p m pt c c' /\ blk c' = blk c /\
  forall a, seen c' pt a = seen c pt a.
Proof.
  induction n as [|n IH]; intros c p m pt pos len Hc Hp Hl Hin Hn; cbn [read_sectors]; destruct (Z.leb_spec len 0) as [Hz|Hz]; [|lia| |].
  1, 2: exists c; split_and!; [by replace (Z.to_nat len) with 0%nat by lia|by apply next_refl|done|done].
  pose proof Hc as [Hm He Hu Hcs Hlen Hcl Hdd]. pose proof (er_pos _ _ _ _ _ He) as Hpos. pose proof (er_part _ _ _ _ _ He) as [_ _ _ Hlo _ Hend Hmax].
  destruct (sector_split (erasesize m) pos Hpos Hp) as (Hd & Hss & Hofs). set (ss := pos / erasesize m * erasesize m) in *. set (sz := Z.min (erasesize m - (pos - ss)) len).
  rewrite bind_gets.
  assert (exists c1, (if bool_decide (cache_state (blk c) <> STATE_EMPTY) && (cache_offset (blk c) =? ss) then
                     if Z.of_nat (length (cache_data (blk c))) <? pos - ss + sz then stop_with OutOfBounds
                     else mret (0, take (Z.to_nat sz) (drop (Z.to_nat (pos - ss)) (cache_data (blk c))))
                   else
                     '(ret, l) ← on_below (MTD_READ p pos sz);
                     mret (if negb (ret =? 0) then ret else if negb (Z.of_nat (length l) =? sz) then - EIO else 0, l)) c =
      Ret (0, bytes_at (seen c pt) pos (Z.to_nat sz)) c1 /\ Next p m pt c c1 /\ blk c1 = blk c /\ forall a, seen c1 pt a = seen c pt a) as (c1 & E1 & N1 & B1 & V1).
  { case_bool_decide as Ee; [destruct (Z.eqb_spec (cache_offset (blk c)) ss) as [Eo|Eo]|]; cbn [andb].
    1: { rewrite (proj2 (Z.ltb_ge _ _)) by lia. exists c. split_and!; [|by apply next_refl|done|done]. do 2 f_equal.
         apply list_eq_same_length with (Z.to_nat sz); [by rewrite length_bytes_at|rewrite length_take, length_drop; lia|].
         intros i x y Hi Hx Hy. rewrite bytes_at_lookup in Hy by done. rewrite lookup_take_lt, lookup_drop in Hx by done. injection Hy as <-.
         unfold seen. rewrite Eo, Hcs, decide_True by (split; [done|lia]). symmetry. apply nth_lookup_Some with (d := 0). rewrite <- Hx. f_equal. lia. }
    all: destruct (MTD_READ_ok M (below c) p m pt pos sz) as (x' & E & Hu' & Hb); [by apply He|by apply (er_fn _ _ _ _ _ He)|done|lia|lia|lia|];
      rewrite (bind_Ret _ _ _ _ _ (on_below_ok _ _ _ c E)); cbn [Z.eqb negb]; rewrite length_bytes_at, Z2Nat.id, Z.eqb_refl by lia; cbn [negb];
      exists (mkCache (blk c) (set_dev x' (below c))); (split_and!; [|split; [|by exists x'|done|intros b _; apply Hb]|done|intros a; unfold seen; cbn [blk below dev set_dev]; by rewrite Hb]).
    all: try (split; try done; by apply erasable_dev).
    all: unfold mret, M_ret; do 2 f_equal; apply bytes_at_ext; intros a Ha; unfold seen; rewrite decide_False; [done|].
    - intros [_ Hin']. destruct Hd as [q Hq]. assert (cache_state (blk c) = STATE_DIRTY) as Ed by (destruct (cache_state (blk c)); done).
      destruct (Hdd Ed) as ([q' Hq'] & _ & _). rewrite Hcs in Hin'. assert (q <> q') by congruence. assert (q < q' \/ q' < q) as [?|?] by lia; nia.
    - by intros [Hs _]. }
  rewrite (bind_Ret _ _ _ _ _ E1). cbn [Z.eqb negb]. rewrite u32_small by (unfold is_u32; lia).
  destruct (IH c1 p m pt (pos + sz) (len - sz)) as (c2 & E2 & N2 & B2 & V2); try lia; [by apply N1|].
  rewrite (bind_Ret _ _ _ _ _ E2). exists c2. split_and!; [|by apply next_trans with c1|congruence|intros a; by rewrite V2].
  unfold mret, M_ret. do 2 f_equal. replace (Z.to_nat len) with (Z.to_nat sz + Z.to_nat (len - sz))%nat by lia. rewrite bytes_at_app. f_equal.
  replace (pos + Z.of_nat (Z.to_nat sz)) with (pos + sz) by lia. by apply bytes_at_ext.
Qed.

Lemma do_cached_write_ok c p m pt pos len buf : Cached c p m pt -> 0 <= pos -> 0 <= len -> pos + len <= size m -> len <= Z.of_nat (length buf) -> Forall is_byte buf ->
  (cache_state (blk c) = STATE_DIRTY -> ~ (pos <= cache_offset (blk c) /\ cache_offset (blk c) + erasesize m <= pos + len)) -> exists c',
  do_cached_write pos len buf c = Ret 0 c' /\ Next p m pt c c' /\ forall a, 0 <= a < size m -> seen c' pt a = overlay (seen c pt) pos (take (Z.to_nat len) buf) a.
Proof.
  intros Hc Hp Hl Hin Hbuf Hby Hn. pose proof Hc as [Hm He _ Hcs _ _ _]. pose proof (er_pos _ _ _ _ _ He). unfold do_cached_write. rewrite bind_gets, Hm, Hcs.
  rewrite (proj2 (Z.eqb_neq _ 0)) by lia. apply write_sectors_ok; (done || lia).
Qed.
Lemma do_cached_read_ok c p m pt pos len : Cached c p m pt -> 0 <= pos -> 0 <= len -> pos + len <= size m -> exists c',
  do_cached_read pos len c = Ret (0, bytes_at (seen c pt) pos (Z.to_nat len)) c' /\ Next p m pt c c' /\ blk c' = blk c /\ forall a, seen c' pt a = seen c pt a.
Proof.
  intros Hc Hp Hl Hin. pose proof Hc as [Hm He _ Hcs _ _ _]. pose proof (er_pos _ _ _ _ _ He). unfold do_cached_read. rewrite bind_gets, Hm, Hcs.
  rewrite (proj2 (Z.eqb_neq _ 0)) by lia. apply read_sectors_ok; (done || lia).
Qed.
End CacheSpec.
