(* ===== verification/BlockMain.v ===== *)
(** * The block device as a file system sees it

    Opening, requests of the block layer, closing: the device behaves as an array
    of bytes ([spec_run]), and what was written is in the flash when it is
    closed.  The witnesses use the chip of ResetMain.v. *)

From S2P Require Import Prelude Mtd MtdSpec MtdBlock MtdBlockSpec FlashChip Cfi CfiMtd ResetMain.

(** ** The array of bytes *)

Definition spec_request (sz : Z) (r : request) (v : Z -> Z) : (bool * bytes) * (Z -> Z) :=
  let len := Z.to_nat (512 * current_nr_sectors r) in
  if sz / 512 <? sector r + current_nr_sectors r then ((false, buffer r), v)
  else if rq_cmd r =? READ then ((true, bytes_at v (512 * sector r) len ++ drop len (buffer r)), v)
  else if rq_cmd r =? WRITE then ((true, buffer r), overlay v (512 * sector r) (take len (buffer r)))
  else ((false, buffer r), v).
Fixpoint spec_run (sz : Z) (queue : list request) (v : Z -> Z) : list (bool * bytes) * (Z -> Z) :=
  match queue with
  | [] => ([], v)
  | r :: queue' => let '(x, v1) := spec_request sz r v in let '(l, v2) := spec_run sz queue' v1 in (x :: l, v2)
  end.

(** What the block layer sends to device [dev]: parts of a page at most, as [mtd_blksizes] asks for. *)
Record Sent (dev : Z) (r : request) : Prop := mkSent {
  se_minor : rq_minor r = dev;
  se_sector : 0 <= sector r;
  se_nr : 0 <= current_nr_sectors r /\ 512 * current_nr_sectors r <= PAGE_SIZE;
  se_max : sector r + current_nr_sectors r < 2 ^ 32;
  se_buffer : 512 * current_nr_sectors r <= Z.of_nat (length (buffer r));
  se_bytes : Forall is_byte (buffer r);
}.

Section Device.
Context {X : Type} `{MtdDriver X} (M : mtd_info) {LM : MtdLaws X M}.
Context (dev : Z) (Hdev : 0 <= dev < MAX_MTD_DEVICES) (p : Z) (m : mtd_info) (pt : mtd_part).
Implicit Types s : BlkSt X.
Abbreviation flash := (fun s a => byte_at (Mtd.dev (mtdst s)) a).

Record Open s (b : mtdblk_dev) : Prop := mkOpen {
  op_entry : mtdblks s !! Z.to_nat dev = Some (Some b);
  op_cached : Cached M (mkCache b (mtdst s)) p m pt;
}.
Abbreviation shown := (fun s b a => seen M (mkCache b (mtdst s)) pt a).

(** What an operation on the device leaves alone. *)
Record Stays s s' : Prop := mkStays {
  st_mtd : exists x', mtdst s' = set_dev x' (mtdst s);
  st_out : forall a, ~ (offset pt <= a < offset pt + size m) -> flash s' a = flash s a;
  st_others : forall d, d <> Z.to_nat dev -> mtdblks s' !! d = mtdblks s !! d;
}.
Lemma stays_trans s1 s2 s3 : Stays s1 s2 -> Stays s2 s3 -> Stays s1 s3.
Proof.
  intros [(x2 & E2) O2 D2] [(x3 & E3) O3 D3]. split.
  - exists x3. by rewrite E3, E2.
  - intros a Ha. by rewrite O3, O2.
  - intros d Hd. by rewrite D3, D2.
Qed.

Lemma on_mtdst_ok {A} (g : Prelude.M (MtdSt X) A) a t s : g (mtdst s) = Ret a t -> on_mtdst g s = Ret a (set_mtdst t s).
Proof. intros E. unfold on_mtdst. by rewrite E. Qed.
Lemma set_mtdst_same s : set_mtdst (mtdst s) s = s.
Proof. by destruct s. Qed.
Lemma entry_ok s e : mtdblks s !! Z.to_nat dev = Some e -> entry dev s = Ret e s.
Proof. intros E. unfold entry. rewrite bind_gets, (proj2 (Z.ltb_ge _ _)) by lia. by rewrite E. Qed.
Lemma opened_ok s b : mtdblks s !! Z.to_nat dev = Some (Some b) -> opened dev s = Ret b s.
Proof. intros E. unfold opened. by rewrite (bind_Ret _ _ _ _ _ (entry_ok _ _ E)). Qed.

(** An operation on the cache. *)
Lemma on_cache_ok {A} (g : Prelude.M (CacheSt X) A) a c' s b : Open s b -> g (mkCache b (mtdst s)) = Ret a c' -> Next M p m pt (mkCache b (mtdst s)) c' ->
  let s' := set_mtdst (below c') (set_mtdblks (<[Z.to_nat dev := Some (blk c')]> (mtdblks s)) s) in
  on_cache dev g s = Ret a s' /\ Open s' (blk c') /\ Stays s s'.
Proof.
  intros [He Hc] E [Hc' (x' & Eb) Hk Ho] s'. split_and!.
  - unfold on_cache. rewrite (bind_Ret _ _ _ _ _ (opened_ok _ _ He)). unfold run_cache. by rewrite E.
  - split; [cbn; by rewrite list_lookup_insert_eq by (by eapply lookup_lt_Some)|]. by destruct c'.
  - split; [by exists x'|intros a' Ha; by apply Ho|]. intros d Hd. cbn. by rewrite list_lookup_insert_ne.
Qed.

(** ** Requests *)

Lemma handle_request_ok r s b v : Open s b -> Sent dev r -> PAGE_SIZE < erasesize m -> (forall a, 0 <= a < size m -> v a = shown s b a) -> exists s' b',
  handle_request r s = Ret (spec_request (size m) r v).1 s' /\ Open s' b' /\ Stays s s' /\ b_count b' = b_count b /\
  forall a, 0 <= a < size m -> (spec_request (size m) r v).2 a = shown s' b' a.
Proof.
  intros Ho [Hmi Hse [Hn0 Hn1] Hmx Hbl Hby] Hpg Hv. pose proof Ho as [He Hc]. pose proof Hc as [Hm Her Hu Hcs Hlen Hcl Hdd]. cbn [blk below] in Hm, Her.
  pose proof Her as [[Hgm _ _ Hlo Hsz Hend Hmax] _ Hw _ Hpos _ _]. unfold PAGE_SIZE in *.
  unfold handle_request. rewrite Hmi, (bind_Ret _ _ _ _ _ (opened_ok _ _ He)).
  assert (on_mtdst (get_mtd (b_mtd b)) s = Ret m s) as Em by (rewrite (on_mtdst_ok _ m (mtdst s)); [by rewrite set_mtdst_same|rewrite Hm; by apply get_mtd_ok]).
  rewrite (bind_Ret _ _ _ _ _ Em), Hw. cbn [negb]. rewrite (Z.shiftr_div_pow2 (size m)) by lia. rewrite !Z.shiftl_mul_pow2 by lia. change (2 ^ 9) with 512.
  rewrite (u32_small (sector r + _)) by (unfold is_u32; lia). unfold spec_request.
  destruct (Z.ltb_spec (size m / 512) (sector r + current_nr_sectors r)) as [Hbig|Hfit].
  { exists s, b. split_and!; try done. split; [|done|done]. exists (Mtd.dev (mtdst s)). by destruct (mtdst s). }
  assert (512 * sector r + 512 * current_nr_sectors r <= size m) as Hin by (pose proof (Z.mul_div_le (size m) 512 ltac:(lia)); lia).
  rewrite u32_small, s32_small by (unfold is_u32; lia). rewrite !(Z.mul_comm _ 512).
  destruct (Z.eqb_spec (rq_cmd r) READ) as [Er|Er]; [|destruct (Z.eqb_spec (rq_cmd r) WRITE) as [Ew|Ew]].
  - destruct (do_cached_read_ok M (mkCache b (mtdst s)) p m pt (512 * sector r) (512 * current_nr_sectors r) Hc) as (c' & E & N & B & V); [lia..|].
    destruct (on_cache_ok _ _ _ _ _ Ho E N) as (E' & O' & S'). rewrite (bind_Ret _ _ _ _ _ E'). eexists _, _. split_and!; [|exact O'|exact S'|by rewrite B|].
    + cbn [Z.eqb fst]. rewrite length_bytes_at. rewrite (bytes_at_ext v (seen M (mkCache b (mtdst s)) pt)) by (intros x Hx; apply Hv; lia). done.
    + intros a Ha. cbn [snd]. rewrite Hv by done. cbn [mtdst set_mtdst]. rewrite <- V. by destruct c'.
  - destruct (do_cached_write_ok M (mkCache b (mtdst s)) p m pt (512 * sector r) (512 * current_nr_sectors r) (buffer r) Hc) as (c' & E & N & V); try done; try lia.
    destruct (on_cache_ok _ _ _ _ _ Ho E N) as (E' & O' & S'). rewrite (bind_Ret _ _ _ _ _ E'). eexists _, _. split_and!; [done|exact O'|exact S'|by rewrite (nx_count _ _ _ _ _ _ N)|].
    intros a Ha. cbn [snd]. cbn [mtdst set_mtdst]. replace (mkCache (blk c') (below c')) with c' by (by destruct c'). rewrite V by done. apply overlay_ext. by apply Hv.
  - exists s, b. split_and!; try done. split; [|done|done]. exists (Mtd.dev (mtdst s)). by destruct (mtdst s).
Qed.

Lemma handle_queue_ok queue : forall s b v, Open s b -> Forall (Sent dev) queue -> PAGE_SIZE < erasesize m -> (forall a, 0 <= a < size m -> v a = shown s b a) -> exists s' b',
  handle_mtdblock_request queue s = Ret (spec_run (size m) queue v).1 s' /\ Open s' b' /\ Stays s s' /\ b_count b' = b_count b /\
  forall a, 0 <= a < size m -> (spec_run (size m) queue v).2 a = shown s' b' a.
Proof.
  induction queue as [|r queue IH]; intros s b v Ho Hs Hpg Hv; cbn [handle_mtdblock_request spec_run].
  { exists s, b. split_and!; try done. split; [|done|done]. exists (Mtd.dev (mtdst s)). by destruct (mtdst s). }
  apply Forall_cons in Hs as [Hr Hs]. destruct (handle_request_ok r s b v Ho Hr Hpg Hv) as (s1 & b1 & E1 & O1 & S1 & K1 & V1).
  rewrite (bind_Ret _ _ _ _ _ E1). destruct (spec_request (size m) r v) as [x v1]. cbn [fst snd] in *.
  destruct (IH s1 b1 v1 O1 Hs Hpg V1) as (s2 & b2 & E2 & O2 & S2 & K2 & V2). rewrite (bind_Ret _ _ _ _ _ E2). destruct (spec_run (size m) queue v1) as [l v2].
  exists s2, b2. split_and!; try done; [by apply stays_trans with s1|congruence].
Qed.

(** ** Opening and closing *)

Context (try_inc : Z -> bool) (vmalloc : Z -> option bytes).

(** The device is closed, is number [dev] of the table, and there is memory for it. *)
Record Closed s : Prop := mkClosed {
  cl_entry : mtdblks s !! Z.to_nat dev = Some None;
  cl_table : mtd_table (mtdst s) !! Z.to_nat dev = Some p;
  cl_null : p <> 0;
  cl_part : Erasable M (mtdst s) p m pt;
  cl_usable : usable (Mtd.dev (mtdst s));
  cl_module : module m = 0;
  cl_type : type m <> MTD_ABSENT;
  cl_ram : Z.land (flags m) MTD_CAP_RAM <> MTD_CAP_RAM;
  cl_mem : exists q l, free_mem (mtdst s) = q :: l /\ q <> 0;
  cl_cache : exists d, vmalloc (erasesize m) = Some d /\ Z.of_nat (length d) = erasesize m;
}.

Lemma get_mtd_device_ok s : Closed s -> on_mtdst (get_mtd_device try_inc 0 dev) s = Ret p s.
Proof.
  intros [_ Ht Hp He _ Hmo _ _ _ _]. rewrite (on_mtdst_ok _ p (mtdst s)); [by rewrite set_mtdst_same|].
  by apply (get_mtd_device_found _ _ _ _ m); [| | |apply (pn_mtd _ _ _ _ _ (er_part _ _ _ _ _ He))|].
Qed.

Lemma mtdblock_open_ok s : Closed s -> exists s' b,
  mtdblock_open id try_inc vmalloc dev s = Ret 0 s' /\ Open s' b /\ b_count b = 1 /\ cache_state b = STATE_EMPTY /\ Mtd.dev (mtdst s') = Mtd.dev (mtdst s) /\
  forall d, d <> Z.to_nat dev -> mtdblks s' !! d = mtdblks s !! d.
Proof.
  intros Hcl. pose proof Hcl as [He Ht Hp Her Hu Hmo Hty Hra (q & l & Hfm & Hq) (d & Hd & Hdl)]. pose proof (er_pos _ _ _ _ _ Her) as Hpos.
  unfold mtdblock_open. rewrite (proj2 (Z.leb_gt _ _)) by lia. rewrite (bind_Ret _ _ _ _ _ (get_mtd_device_ok s Hcl)), (proj2 (Z.eqb_neq p 0)) by done.
  assert (on_mtdst (get_mtd p) s = Ret m s) as Em.
  { rewrite (on_mtdst_ok _ m (mtdst s)); [by rewrite set_mtdst_same|]. apply get_mtd_ok, (pn_mtd _ _ _ _ _ (er_part _ _ _ _ _ Her)). }
  rewrite (bind_Ret _ _ _ _ _ Em), (proj2 (Z.eqb_neq _ MTD_ABSENT)) by done. rewrite (bind_Ret _ _ _ _ _ (entry_ok s None He)).
  assert (on_mtdst kmalloc s = Ret q (set_mtdst (set_free_mem l (mtdst s)) s)) as Ek by (apply on_mtdst_ok; unfold kmalloc; by rewrite bind_gets, Hfm).
  rewrite (bind_Ret _ _ _ _ _ Ek), (proj2 (Z.eqb_neq q 0)) by done. set (s1 := set_mtdst (set_free_mem l (mtdst s)) s).
  unfold new_blk. rewrite (proj2 (Z.eqb_neq _ MTD_CAP_RAM)) by done. rewrite (proj2 (Z.eqb_neq (erasesize m) 0)) by lia. cbn [negb andb]. rewrite Hd, bind_modify.
  change (id s1) with s1. rewrite (bind_Ret _ _ _ _ _ (entry_ok s1 None He)). unfold enter, put_entry.
  eexists _, (mkBlk p 1 d 0 (erasesize m) STATE_EMPTY). split; [rewrite (proj2 (Z.eqb_neq (erasesize m) 0)) by lia; reflexivity|]. split_and!; try done.
  - split; [cbn; by rewrite list_lookup_insert_eq by (by eapply lookup_lt_Some)|]. split; try done. cbn. destruct Her as [[] ? ? ? ? ? ?]. by split.
  - intros d' Hd'. cbn. by rewrite list_lookup_insert_ne.
Qed.

Context {SM : MtdSync X M}.

Lemma MTD_SYNC_ok (t : MtdSt X) : Erasable M t p m pt -> usable (Mtd.dev t) -> exists x', MTD_SYNC p t = Ret tt (set_dev x' t) /\ usable x' /\ forall a, byte_at x' a = byte_at (Mtd.dev t) a.
Proof.
  intros [[Hm Hp HM _ _ _ _] Hf _ _ _ _ _] Hu. unfold MTD_SYNC. rewrite (bind_Ret _ _ _ _ _ (get_mtd_ok _ _ _ Hm)), Hf. destruct (has_sync m); cbn [when].
  - destruct (sync_law (Mtd.dev t) Hu) as (x' & E & Hu' & Hb). exists x'. split_and!; try done. unfold part_sync.
    rewrite (bind_Ret _ _ _ _ _ (PART_ok _ _ _ Hp)), (bind_Ret _ _ _ _ _ (get_mtd_ok _ _ _ HM)). unfold on_dev. by rewrite E.
  - exists (Mtd.dev t). split_and!; try done. by destruct t.
Qed.

Lemma mtdblock_release_ok s b : Open s b -> b_count b = 1 -> exists s',
  mtdblock_release dev s = Ret 0 s' /\ mtdblks s' !! Z.to_nat dev = Some None /\ Stays s s' /\
  forall a, 0 <= a < size m -> flash s' (offset pt + a) = shown s b a.
Proof.
  intros Ho Hk. pose proof Ho as [_ Hc]. destruct (write_cached_data_ok M _ p m pt Hc) as (c' & E & N & Ee & V).
  destruct (on_cache_ok _ _ _ _ _ Ho E N) as (E' & O' & S'). set (s1 := set_mtdst _ _) in *. unfold mtdblock_release. rewrite (bind_Ret _ _ _ _ _ E').
  rewrite (bind_Ret _ _ _ _ _ (opened_ok s1 (blk c') (op_entry _ _ O'))), (nx_count _ _ _ _ _ _ N). cbn [blk]. rewrite Hk. cbn [Z.sub Z.eqb]. change (1 - 1 =? 0) with true. cbn iota.
  unfold put_entry. rewrite bind_modify. set (s2 := set_mtdblks _ s1). pose proof (op_cached _ _ O') as [Hm2 He2 Hu2 _ _ _ _]. cbn [blk below] in Hm2, He2, Hu2.
  destruct (MTD_SYNC_ok (mtdst s2) He2 Hu2) as (x' & Es & Hu' & Hb). rewrite Hm2, (bind_Ret _ _ _ _ _ (on_mtdst_ok _ _ _ s2 Es)).
  assert (put_mtd_device p (set_dev x' (mtdst s2)) = Ret tt (set_dev x' (mtdst s2))) as Ep.
  { unfold put_mtd_device. by rewrite (bind_Ret _ _ _ _ _ (get_mtd_ok p m (set_dev x' (mtdst s2)) (pn_mtd _ _ _ _ _ (er_part _ _ _ _ _ He2)))). }
  rewrite (bind_Ret _ _ _ _ _ (on_mtdst_ok _ _ _ (set_mtdst (set_dev x' (mtdst s2)) s2) Ep)). eexists. split; [reflexivity|]. split_and!.
  - cbn. by rewrite list_lookup_insert_eq by (by eapply lookup_lt_Some; apply (op_entry _ _ O')).
  - apply stays_trans with s1; [done|]. split.
    + by exists x'.
    + intros a _. cbn. apply Hb.
    + intros d Hd. cbn. by rewrite list_lookup_insert_ne.
  - intros a Ha. cbn. rewrite Hb, <- V by done. unfold seen. rewrite decide_False; [done|]. rewrite Ee. by intros [? _].
Qed.
End Device.

(** ** The device from opening to closing *)

(** C12: A device for a writeable partition of flash, whose place and size are multiples of
    its erase size and whose erase blocks are larger than a page, that is opened with memory at hand, serves any queue of requests of the block
    layer (whole sectors, each part at most a page) and is closed, behaves as an
    array of bytes: every read returns what the last writes left, a request over
    the end is refused, and after the close the bytes are in the flash, over whatever
    was there.  Nothing outside the partition changes.  (With erase blocks of a page
    or less writes are lost, [whole_sector_write_lost].) *)
Theorem block_device_stores {X} `{MtdDriver X} (M : mtd_info) {LM : MtdLaws X M} {SM : MtdSync X M} dev p m pt try_inc vmalloc queue (s : BlkSt X) :
  let v := fun a => byte_at (Mtd.dev (mtdst s)) (offset pt + a) in
  0 <= dev < MAX_MTD_DEVICES -> Closed M dev p m pt vmalloc s -> PAGE_SIZE < erasesize m -> Forall (Sent dev) queue -> exists s',
  (r ← mtdblock_open id try_inc vmalloc dev; l ← handle_mtdblock_request queue; r' ← mtdblock_release dev; mret (r, l, r')) s =
    Ret (0, (spec_run (size m) queue v).1, 0) s' /\
  mtdblks s' !! Z.to_nat dev = Some None /\
  (forall a, 0 <= a < size m -> byte_at (Mtd.dev (mtdst s')) (offset pt + a) = (spec_run (size m) queue v).2 a) /\
  forall a, ~ (offset pt <= a < offset pt + size m) -> byte_at (Mtd.dev (mtdst s')) a = byte_at (Mtd.dev (mtdst s)) a.
Proof.
  intros v Hdev Hcl Hpg Hq. destruct (mtdblock_open_ok M dev Hdev p m pt try_inc vmalloc s Hcl) as (s1 & b1 & E1 & O1 & K1 & Ee & Ed & _).
  destruct (handle_queue_ok M dev Hdev p m pt queue s1 b1 v O1 Hq Hpg) as (s2 & b2 & E2 & O2 & [_ Ho2 _] & K2 & V2).
  { intros a Ha. rewrite seen_empty by done. cbn [below]. by rewrite Ed. }
  destruct (mtdblock_release_ok M dev Hdev p m pt s2 b2 O2 ltac:(congruence)) as (s3 & E3 & N3 & [_ Ho3 _] & V3).
  rewrite (bind_Ret _ _ _ _ _ E1), (bind_Ret _ _ _ _ _ E2), (bind_Ret _ _ _ _ _ E3). exists s3. split_and!; [done|done| |].
  - intros a Ha. rewrite V3, V2 by done. done.
  - intros a Ha. rewrite Ho3, Ho2 by done. by rewrite Ed.
Qed.

(** A write of a whole block goes past the cache.  When the cache holds a changed copy
    of just that block the write is lost: it is hidden by the copy and overwritten
    with it. *)
Theorem whole_sector_write_lost {X} `{MtdDriver X} (M : mtd_info) {LM : MtdLaws X M} p m pt buf (c : CacheSt X) :
  Cached M c p m pt -> cache_state (blk c) = STATE_DIRTY -> Z.of_nat (length buf) = erasesize m -> erasesize m < 2 ^ 31 -> Forall is_byte buf -> exists c1 c2,
  do_cached_write (cache_offset (blk c)) (erasesize m) buf c = Ret 0 c1 /\ write_cached_data c1 = Ret 0 c2 /\
  forall a, 0 <= a < size m -> byte_at (Mtd.dev (below c2)) (offset pt + a) = seen M c pt a.
Proof.
  intros Hc Ed Hl Hmx Hby. pose proof Hc as [Hm He Hu Hcs Hlen Hcl Hdd]. destruct (Hdd Ed) as (Hd & Hco & Hb). pose proof (er_pos _ _ _ _ _ He) as Hpos.
  destruct (erase_write_ok M c p m pt (cache_offset (blk c)) buf He Hu Hco Hd ltac:(lia) Hby) as (x1 & E1 & Hu1 & Hb1).
  set (c1 := mkCache (blk c) (set_dev x1 (below c))) in *. assert (Cached M c1 p m pt) as C1 by (split; try done; by apply erasable_dev).
  destruct (write_cached_data_ok M c1 p m pt C1) as (c2 & E2 & _ & Ee & V2). exists c1, c2. split_and!; [|done|].
  - unfold do_cached_write. rewrite bind_gets, Hm, Hcs, (proj2 (Z.eqb_neq _ 0)) by lia. destruct Hd as [q Hq].
    assert (cache_offset (blk c) / erasesize m * erasesize m = cache_offset (blk c)) as Eq by (rewrite Hq, Z.div_mul by lia; done).
    destruct (Z.to_nat (erasesize m)) as [|n] eqn:En; [lia|]. cbn [write_sectors]. rewrite (proj2 (Z.leb_gt _ _)) by lia. rewrite Eq, Z.sub_diag, Z.sub_0_r, Z.min_id.
    rewrite (proj2 (Z.ltb_ge _ _)), Z.eqb_refl by lia. rewrite (bind_Ret _ _ _ _ _ E1). cbn [Z.eqb negb]. rewrite Z.sub_diag. by destruct n.
  - intros a Ha. rewrite <- seen_empty, V2 by done. unfold seen. cbn [c1 blk below dev set_dev]. case_decide as Hin; [done|]. rewrite Hb1. apply overlay_out.
    rewrite length_take. intros Hx. apply Hin. rewrite Ed, Hcs. split; [done|lia].
Qed.

(** ** On the chip *)

Module Demo.
Import Am29.
Definition M_laws : MtdLaws (CfiSt SimFlash) device := cfi_laws 40 others later c0 m0 ch0 on_board eq_refl device (cf_device _ _ _ _ _ _ found).
#[export] Existing Instance M_laws.
Definition M_sync : MtdSync (CfiSt SimFlash) device := cfi_sync 40 others later c0 m0 ch0 on_board eq_refl device (cf_device _ _ _ _ _ _ found) eq_refl.
#[export] Existing Instance M_sync.
Definition pt : mtd_part := mkPart 0x40 0x8000 1 1.
Definition t2 : MtdSt (CfiSt SimFlash) :=
  mkMtdSt {[0x40 := device; 0x200 := settings]} {[0x200 := pt]} [] [0x100; 0x200; 0x300; 0x400; 0; 0; 0; 0; 0; 0] [] [] [0x600] ∅ 0 (St FL_READY f0 0).
Definition s2 : BlkSt (CfiSt SimFlash) := mkBlkSt (replicate 10 None) (replicate 10 0) (replicate 10 1024) (replicate 10 false) t2.
Definition vmalloc (n : Z) : option bytes := Some (replicate (Z.to_nat n) 0).
Lemma erasable_settings : Erasable device t2 0x200 settings pt.
Proof. split; [by split|done|by vm_compute|by vm_compute|done|by exists 1|by exists 1]. Qed.
Lemma closed : Closed device 1 0x200 settings pt vmalloc s2.
Proof.
  split; [done|done|done|apply erasable_settings|by exists f0, 0|done|done|done|by exists 0x600, []|].
  exists (replicate (Z.to_nat 0x8000) 0). split; [done|]. rewrite length_replicate. done.
Qed.
(** A sector written twice in parts, and read. *)
Definition queue : list request :=
  [mkRequest 1 WRITE 3 1 (replicate 512 7); mkRequest 1 WRITE 60 8 (replicate 4096 9); mkRequest 1 READ 0 4 (replicate 2048 0); mkRequest 1 WRITE 63 2 (replicate 1024 1)].
Lemma queue_sent : Forall (Sent 1) queue.
Proof. repeat apply Forall_cons_2; [..|apply Forall_nil_2]; (split; [done|cbn; lia|cbn; unfold PAGE_SIZE; lia|cbn; lia|cbn [buffer current_nr_sectors]; rewrite length_replicate; lia|by apply Forall_replicate]). Qed.
End Demo.

Import Am29 Demo.

Lemma block_device_stores_witness : exists s',
  (r ← mtdblock_open id (fun _ => false) vmalloc 1; l ← handle_mtdblock_request queue; r' ← mtdblock_release 1; mret (r, l, r')) s2 =
    Ret (0, (spec_run 0x8000 queue (fun a => byte_at (dev t2) (0x8000 + a))).1, 0) s' /\
  forall a, 0 <= a < 0x8000 -> byte_at (Mtd.dev (mtdst s')) (0x8000 + a) = (spec_run 0x8000 queue (fun a => byte_at (dev t2) (0x8000 + a))).2 a.
Proof.
  destruct (block_device_stores device 1 0x200 settings pt (fun _ => false) vmalloc queue s2 ltac:(done) closed ltac:(done) queue_sent) as (s' & E & _ & V & _).
  exists s'. split; [exact E|exact V].
Defined.
