(* ===== verification/MtdChar.v ===== *)
(** * The character device over the flash
    (src/linux2510/drivers/mtd/mtdchar.c)

    Direct access for programs: reading, writing, and requests such as erasing.
    An open file is the record [file]; the position is passed as the kernel does.
    Without memory protection every check of a user's address succeeds
    (include/asm-armnommu/proc-armv/uaccess.h), so that the branches with EFAULT
    are never taken.  No device of the system has [read_ecc] or [write_ecc]. *)

From S2P Require Import Prelude Mtd.

Definition MAX_KMALLOC_SIZE : Z := 0x20000.
Definition EIO : Z := 5.
Definition EAGAIN : Z := 11.
Definition EACCES : Z := 13.
Definition ENODEV : Z := 19.
Definition ENOTTY : Z := 25.
Definition ENOSPC : Z := 28.
Definition EOPNOTSUPP : Z := 95.
(** [loff_t] *)
Definition s64 (z : Z) : Z := (z + 2 ^ 63) mod 2 ^ 64 - 2 ^ 63.

Record file : Type := mkFile { f_mode : Z; f_pos : Z; private_data : Z }.
Definition set_f_pos x f := mkFile (f_mode f) x (private_data f).

(** The requests with what the caller's structure holds. *)
Inductive mtd_cmd : Type :=
| MEMGETREGIONCOUNT
| MEMGETREGIONINFO (regionindex : Z)
| MEMGETINFO
| MEMERASE (addr len : Z)
| MEMWRITEOOB (start len : Z) (data : bytes)
| MEMREADOOB (start len : Z)
| MEMLOCK (ofs len : Z)
| MEMUNLOCK (ofs len : Z)
| MEMWRITEDATA (start len : Z) (data : bytes)
| MEMREADDATA (start len : Z)
| MEM_OTHER.

(** What is stored for the caller; [None] for [*retlen]: it is not initialised. *)
Inductive mtd_answer : Type :=
| Nothing
| RegionCount (n : Z)
| RegionInfo (r : mtd_erase_region_info)
| Info (type flags size erasesize oobblock oobsize ecctype eccsize : Z)
| Written (retlen : option Z)
| OobData (data : bytes).

Section Char.
Context {X : Type} `{MtdDriver X} (try_inc : Z -> bool).
Abbreviation MT A := (M (MtdSt X) A).

Definition mtd_lseek (f : file) (ofs orig : Z) : MT (Z * file) :=
  m ← get_mtd (private_data f);
  if negb ((orig =? 0) || (orig =? 1) || (orig =? 2)) then mret (- EINVAL, f)
  else
    let pos := if orig =? 0 then ofs else if orig =? 1 then s64 (f_pos f + ofs) else s64 (size m + ofs) in
    let pos := if pos <? 0 then 0 else if size m <=? pos then u32 (size m - 1) else pos in
    mret (pos, set_f_pos pos f).

(** The result, and the file with its device. *)
Definition mtd_open (minor : Z) (f : file) : MT (Z * file) :=
  let devnum := Z.shiftr minor 1 in
  let w := negb (Z.land (f_mode f) 2 =? 0) in
  if MAX_MTD_DEVICES <=? devnum then mret (- ENODEV, f)
  else if w && negb (Z.land minor 1 =? 0) then mret (- EACCES, f)
  else
    mtd ← get_mtd_device try_inc 0 devnum;
    if mtd =? 0 then mret (- ENODEV, f)
    else
      m ← get_mtd mtd;
      if type m =? 0 then put_mtd_device mtd ;; mret (- ENODEV, f)
      else if w && negb (writeable m) then put_mtd_device mtd ;; mret (- EACCES, mkFile (f_mode f) (f_pos f) mtd)
      else mret (0, mkFile (f_mode f) (f_pos f) mtd).

Definition mtd_close (f : file) : MT Z :=
  MTD_SYNC (private_data f) ;;
  put_mtd_device (private_data f) ;;
  mret 0.

(** The result, the bytes stored for the caller, and the new position. *)
Fixpoint read_chunks (n : nat) (mtd count ppos total : Z) : MT (Z * bytes * Z) :=
  if count =? 0 then mret (s32 total, [], ppos)
  else match n with
  | O => stop_with OutOfFuel
  | S n' =>
      kbuf ← kmalloc;
      if kbuf =? 0 then mret (- ENOMEM, [], ppos)
      else
        '(ret, l) ← MTD_READ mtd ppos (if MAX_KMALLOC_SIZE <? count then MAX_KMALLOC_SIZE else count);
        if negb (ret =? 0) then mret (ret, [], ppos)
        else
          let retlen := Z.of_nat (length l) in
          '(r, l', p) ← read_chunks n' mtd (u32 (count - retlen)) (s64 (ppos + retlen)) (u32 (total + retlen));
          mret (r, l ++ l', p)
  end.
Definition mtd_read (n : nat) (f : file) (count ppos : Z) : MT (Z * bytes * Z) :=
  m ← get_mtd (private_data f);
  let count := if size m <? ppos + count then u32 (size m - ppos) else count in
  read_chunks n (private_data f) count ppos 0.

(** [buf] is the caller's memory from the pointer on. *)
Fixpoint write_chunks (n : nat) (mtd count ppos total : Z) (buf : bytes) : MT (Z * Z) :=
  if count =? 0 then mret (s32 total, ppos)
  else match n with
  | O => stop_with OutOfFuel
  | S n' =>
      let len := if MAX_KMALLOC_SIZE <? count then MAX_KMALLOC_SIZE else count in
      kbuf ← kmalloc;
      if kbuf =? 0 then mret (- ENOMEM, ppos)
      else if Z.of_nat (length buf) <? len then stop_with OutOfBounds
      else
        '(ret, retlen) ← MTD_WRITE mtd ppos len (take (Z.to_nat len) buf);
        match retlen with
        | Some retlen =>
            if negb (ret =? 0) then mret (ret, ppos)
            else write_chunks n' mtd (u32 (count - retlen)) (s64 (ppos + retlen)) (u32 (total + retlen)) (drop (Z.to_nat retlen) buf)
        | None => mret (ret, ppos)
        end
  end.
Definition mtd_write (n : nat) (f : file) (buf : bytes) (count ppos : Z) : MT (Z * Z) :=
  m ← get_mtd (private_data f);
  if ppos =? size m then mret (- ENOSPC, ppos)
  else
    let count := if size m <? ppos + count then u32 (size m - ppos) else count in
    write_chunks n (private_data f) count ppos 0 buf.

(** [MEMERASE]; a request that is neither done nor failed makes the caller sleep. *)
Definition ioctl_erase (mtd addr len : Z) : MT Z :=
  erase ← kmalloc;
  if erase =? 0 then mret (- ENOMEM)
  else
    '(ret, e) ← mtd_erase mtd (mkErase mtd addr len true 0 0);
    if negb (ret =? 0) then mret ret
    else if negb (e_state e =? MTD_ERASE_DONE) && negb (e_state e =? MTD_ERASE_FAILED) then stop_with Asleep
    else mret (if e_state e =? MTD_ERASE_FAILED then - EIO else 0).

(** [MEMWRITEOOB] and [MEMREADOOB] *)
Definition ioctl_write_oob (mtd start len : Z) (data : bytes) : MT (Z * mtd_answer) :=
  m ← get_mtd mtd;
  if 0x4096 <? len then mret (- EINVAL, Nothing)
  else if negb (has_write_oob m) then mret (- EOPNOTSUPP, Nothing)
  else
    databuf ← kmalloc;
    if databuf =? 0 then mret (- ENOMEM, Nothing)
    else
      '(ret, n) ← (match erase m with
                   | part_erase_fn => part_write_oob mtd start len data
                   | _ => '(r, n) ← on_dev (d_write_oob m start len data); mret (r, Some n)
                   end);
      mret (ret, Written n).
Definition ioctl_read_oob (mtd start len : Z) : MT (Z * mtd_answer) :=
  m ← get_mtd mtd;
  if 0x4096 <? len then mret (- EINVAL, Nothing)
  else if negb (has_read_oob m) then mret (- EOPNOTSUPP, Nothing)
  else
    databuf ← kmalloc;
    if databuf =? 0 then mret (- ENOMEM, Nothing)
    else
      '(ret, l) ← (match erase m with
                   | part_erase_fn => part_read_oob mtd start len
                   | _ => on_dev (d_read_oob m start len)
                   end);
      mret (ret, OobData l).

Definition mtd_ioctl (f : file) (cmd : mtd_cmd) : MT (Z * mtd_answer) :=
  let mtd := private_data f in
  m ← get_mtd mtd;
  match cmd with
  | MEMGETREGIONCOUNT => mret (0, RegionCount (numeraseregions m))
  | MEMGETREGIONINFO i =>
      if u32 (numeraseregions m) <=? i then mret (- EINVAL, Nothing)
      else match eraseregions m !! Z.to_nat i with
           | Some r => mret (0, RegionInfo r)
           | None => stop_with OutOfBounds
           end
  | MEMGETINFO => mret (0, Info (type m) (flags m) (size m) (erasesize m) (oobblock m) (oobsize m) (ecctype m) (eccsize m))
  | MEMERASE addr len => r ← ioctl_erase mtd addr len; mret (r, Nothing)
  | MEMWRITEOOB start len data => ioctl_write_oob mtd start len data
  | MEMREADOOB start len => ioctl_read_oob mtd start len
  | MEMLOCK ofs len =>
      if negb (has_lock m) then mret (- EOPNOTSUPP, Nothing)
      else r ← (match erase m with part_erase_fn => part_lock mtd ofs len | _ => on_dev (d_lock m ofs len) end); mret (r, Nothing)
  | MEMUNLOCK ofs len =>
      if negb (has_unlock m) then mret (- EOPNOTSUPP, Nothing)
      else r ← (match erase m with part_erase_fn => part_unlock mtd ofs len | _ => on_dev (d_unlock m ofs len) end); mret (r, Nothing)
  | MEMWRITEDATA _ len _ | MEMREADDATA _ len => mret (if 0x4096 <? len then - EINVAL else - EOPNOTSUPP, Nothing)
  | MEM_OTHER => mret (- ENOTTY, Nothing)
  end.

Definition init_mtdchar (registered : bool) (notifier : Z) : MT Z :=
  if negb registered then mret (- EAGAIN) else register_mtd_user notifier ;; mret 0.
Definition cleanup_mtdchar (notifier : Z) : MT unit := unregister_mtd_user notifier ;; mret tt.
End Char.
