(* ===== verification/CharMain.v ===== *)
(** * The character device as a program sees it

    What is written through a file is read back; erasing needs no permission to
    write; a read behind the end does not return.  The witnesses use the chip of
    ResetMain.v. *)

From S2P Require Import Prelude Mtd MtdSpec MtdChar MtdBlockSpec FlashChip Cfi CfiMtd ResetMain BlockMain.

(** The pieces of a transfer. *)
Definition pieces (count : Z) : Z := (count + MAX_KMALLOC_SIZE - 1) / MAX_KMALLOC_SIZE.
(** [kmalloc] succeeds the next [n] times at least. *)
Definition memory {X} (n : Z) (t : MtdSt X) : Prop := n <= Z.of_nat (length (free_mem t)) /\ Forall (fun q => q <> 0) (free_mem t).

Lemma pieces_step count : 0 < count -> pieces count = 1 + pieces (count - Z.min MAX_KMALLOC_SIZE count) /\ 0 <= pieces (count - Z.min MAX_KMALLOC_SIZE count).
Proof.
  intros Hc. unfold pieces, MAX_KMALLOC_SIZE. destruct (decide (count <= 0x20000)).
  - rewrite Z.min_r, Z.sub_diag by lia. split; [|done]. change ((0 + 0x20000 - 1) / 0x20000) with 0.
    symmetry. apply Z.div_unique with (count - 1); lia.
  - rewrite Z.min_l by lia. replace (count + 0x20000 - 1) with (count - 0x20000 + 0x20000 - 1 + 1 * 0x20000) by lia. rewrite Z.div_add by lia.
    split; [lia|apply Z.div_pos; lia].
Qed.

Section Char.
Context {X : Type} `{MtdDriver X} (M : mtd_info) {LM : MtdLaws X M} (p : Z) (m : mtd_info) (pt : mtd_part).
Implicit Types t : MtdSt X.
Abbreviation flash := (fun t a => byte_at (dev t) (offset pt + a)).

Record Device t : Prop := mkDevice {
  dv_part : Partition M t p m pt;
  dv_fn : erase m = part_erase_fn;
  dv_usable : usable (dev t);
}.
Lemma device_mem t l : Device t -> Device (set_free_mem l t).
Proof. intros [[] ? ?]. by split. Qed.
Lemma device_dev t x : Device t -> usable x -> Device (set_dev x t).
Proof. intros [[] ? ?] Hu. by split. Qed.

Lemma kmalloc_ok n t : memory n t -> 0 < n -> exists q l, kmalloc t = Ret q (set_free_mem l t) /\ q <> 0 /\ memory (n - 1) (set_free_mem l t).
Proof.
  intros [Hl Hf] Hn. destruct (free_mem t) as [|q l] eqn:E; [simpl in Hl; lia|]. apply Forall_cons in Hf as [Hq Hf]. exists q, l.
  split_and!; [unfold kmalloc; by rewrite bind_gets, E|done|]. split; [simpl in Hl |- *; lia|done].
Qed.

(** ** Reading *)

Lemma read_chunks_ok n : forall t count ppos total r, Device t -> 0 <= ppos -> 0 <= count -> ppos + count <= size m -> pieces count <= Z.of_nat n -> 0 <= r -> memory (r + pieces count) t ->
  0 <= total -> total + count < 2 ^ 31 -> exists t',
  read_chunks n p count ppos total t = Ret (total + count, bytes_at (flash t) ppos (Z.to_nat count), ppos + count) t' /\ memory r t' /\ Device t' /\
  forall a, byte_at (dev t') a = byte_at (dev t) a.
Proof.
  induction n as [|n IH]; intros t count ppos total r Hd Hp Hc Hin Hn Hr Hmem Ht Hmx; cbn [read_chunks]; destruct (Z.eqb_spec count 0) as [->|Hne].
  1, 3: exists t; split_and!; [rewrite !Z.add_0_r, s32_small by lia; done|by rewrite Z.add_0_r in Hmem|done|done].
  - destruct (pieces_step count ltac:(lia)). lia.
  - destruct (pieces_step count ltac:(lia)) as [Hps Hps0]. destruct (kmalloc_ok _ _ Hmem ltac:(lia)) as (q & l & Ek & Hq & Hmem1).
    rewrite (bind_Ret _ _ _ _ _ Ek), (proj2 (Z.eqb_neq q 0)) by done. set (t1 := set_free_mem l t) in *. pose proof (device_mem _ l Hd) as Hd1. fold t1 in Hd1.
    set (len := Z.min MAX_KMALLOC_SIZE count) in *. replace (if MAX_KMALLOC_SIZE <? count then MAX_KMALLOC_SIZE else count) with len by (unfold len; destruct (Z.ltb_spec MAX_KMALLOC_SIZE count); lia).
    assert (0 < len <= count) as Hlen by (unfold len, MAX_KMALLOC_SIZE; lia). pose proof Hd1 as [Hpart Hfn Hu].
    destruct (MTD_READ_ok M t1 p m pt ppos len Hpart Hfn Hu) as (x' & E & Hu' & Hb); [lia..|]. rewrite (bind_Ret _ _ _ _ _ E). cbn [Z.eqb negb]. rewrite length_bytes_at, Z2Nat.id by lia.
    pose proof Hpart as [_ _ _ Hlo Hsz Hend Hmax]. rewrite !u32_small by (unfold is_u32; lia). assert (s64 (ppos + len) = ppos + len) as -> by (unfold s64; rewrite Z.mod_small; lia).
    destruct (IH (set_dev x' t1) (count - len) (ppos + len) (total + len) r) as (t2 & E2 & M2 & Hd2 & Hb2); try lia; [by apply device_dev| |].
    { by replace (r + pieces (count - len)) with (r + pieces count - 1) by lia. }
    rewrite (bind_Ret _ _ _ _ _ E2). exists t2. split_and!; [|done|done|].
    + unfold mret, M_ret. replace (Z.to_nat count) with (Z.to_nat len + Z.to_nat (count - len))%nat by lia. rewrite bytes_at_app, Z2Nat.id by lia.
      replace (total + len + (count - len)) with (total + count) by lia. replace (ppos + len + (count - len)) with (ppos + count) by lia. do 3 f_equal.
      f_equal. apply bytes_at_ext. intros a _. cbn [dev set_dev]. apply Hb.
    + intros a. rewrite Hb2. apply Hb.
Qed.

(** ** Writing *)

Lemma write_chunks_ok n : forall t count ppos total buf r, Device t -> writeable m = true -> 0 <= ppos -> 0 <= count -> ppos + count <= size m -> pieces count <= Z.of_nat n ->
  0 <= r -> memory (r + pieces count) t -> 0 <= total -> total + count < 2 ^ 31 -> count <= Z.of_nat (length buf) -> Forall is_byte buf ->
  (forall i b, take (Z.to_nat count) buf !! i = Some b -> Z.land (flash t (ppos + Z.of_nat i)) b = b) -> exists t',
  write_chunks n p count ppos total buf t = Ret (total + count, ppos + count) t' /\ memory r t' /\ Device t' /\
  forall a, byte_at (dev t') a = overlay (byte_at (dev t)) (offset pt + ppos) (take (Z.to_nat count) buf) a.
Proof.
  induction n as [|n IH]; intros t count ppos total buf r Hd Hw Hp Hc Hin Hn Hr Hmem Ht Hmx Hbuf Hby Hfit; cbn [write_chunks]; destruct (Z.eqb_spec count 0) as [->|Hne].
  1, 3: exists t; split_and!; [rewrite !Z.add_0_r, s32_small by lia; done|by rewrite Z.add_0_r in Hmem|done|intros a; by rewrite take_0, overlay_nil].
  - destruct (pieces_step count ltac:(lia)). lia.
  - destruct (pieces_step count ltac:(lia)) as [Hps Hps0]. set (len := Z.min MAX_KMALLOC_SIZE count) in *.
    replace (if MAX_KMALLOC_SIZE <? count then MAX_KMALLOC_SIZE else count) with len by (unfold len; destruct (Z.ltb_spec MAX_KMALLOC_SIZE count); lia).
    assert (0 < len <= count) as Hlen by (unfold len, MAX_KMALLOC_SIZE; lia). destruct (kmalloc_ok _ _ Hmem ltac:(lia)) as (q & l & Ek & Hq & Hmem1).
    rewrite (bind_Ret _ _ _ _ _ Ek), (proj2 (Z.eqb_neq q 0)) by done. rewrite (proj2 (Z.ltb_ge _ _)) by lia. set (t1 := set_free_mem l t) in *.
    pose proof (device_mem _ l Hd) as Hd1. fold t1 in Hd1. pose proof Hd1 as [Hpart Hfn Hu]. pose proof Hpart as [Hgm _ _ Hlo Hsz Hend Hmax].
    assert (Z.max 0 (Z.min len (size m - ppos)) = len) as En by lia.
    destruct (part_write_ok M t1 p m pt ppos len (take (Z.to_nat len) buf) Hpart Hu Hw Hp) as (x' & E & Hu' & Hb & Ho);
      [lia|rewrite En, length_take; lia|by apply Forall_take| |].
    { rewrite En, take_take, Nat.min_id. intros i b Hib. rewrite <- Z.add_assoc. apply Hfit. apply lookup_take_Some in Hib as [Hib Hi]. apply lookup_take_Some. split; [done|lia]. }
    rewrite En, take_take, Nat.min_id in *. rewrite <- (MTD_WRITE_part t1 p m) in E by done. rewrite (bind_Ret _ _ _ _ _ E). cbn [Z.eqb negb].
    rewrite !u32_small by (unfold is_u32; lia). assert (s64 (ppos + len) = ppos + len) as -> by (unfold s64; rewrite Z.mod_small; lia).
    assert (forall a, byte_at x' a = overlay (byte_at (dev t)) (offset pt + ppos) (take (Z.to_nat len) buf) a) as Hov.
    { intros a. destruct (decide (offset pt + ppos <= a < offset pt + ppos + len)) as [Ha|Ha].
      - destruct (lookup_lt_is_Some_2 (take (Z.to_nat len) buf) (Z.to_nat (a - (offset pt + ppos)))) as [y Hy]; [rewrite length_take; lia|].
        replace a with (offset pt + ppos + Z.of_nat (Z.to_nat (a - (offset pt + ppos)))) by lia. rewrite (overlay_in _ _ _ _ _ Hy). by apply Hb.
      - rewrite overlay_out by (rewrite length_take; lia). by apply Ho. }
    destruct (IH (set_dev x' t1) (count - len) (ppos + len) (total + len) (drop (Z.to_nat len) buf) r) as (t2 & E2 & M2 & Hd2 & Hb2);
      try lia; [by apply device_dev|done| |rewrite length_drop; lia|by apply Forall_drop| |].
    { by replace (r + pieces (count - len)) with (r + pieces count - 1) by lia. }
    { intros i b Hib. cbn [dev set_dev]. apply lookup_take_Some in Hib as [Hib Hi]. rewrite lookup_drop in Hib. rewrite Hov, overlay_out by (rewrite length_take; lia).
      replace (offset pt + (ppos + len + Z.of_nat i)) with (offset pt + (ppos + Z.of_nat (Z.to_nat len + i)%nat)) by lia. apply Hfit.
      apply lookup_take_Some. split; [done|lia]. }
    exists t2. split_and!; [rewrite E2; do 2 f_equal; lia|done|done|]. intros a. rewrite Hb2. cbn [dev set_dev].
    replace (take (Z.to_nat count) buf) with (take (Z.to_nat len) buf ++ take (Z.to_nat (count - len)) (drop (Z.to_nat len) buf)) by (rewrite take_take_drop; f_equal; lia).
    rewrite overlay_app, length_take. replace (Z.of_nat (Z.to_nat len `min` length buf)) with len by lia. rewrite <- Z.add_assoc. apply overlay_ext. apply Hov.
Qed.

(** ** Behind the end *)

Lemma read_nothing t from len : Device t -> size m <= from -> 0 <= len -> exists x', MTD_READ p from len t = Ret (0, []) (set_dev x' t) /\ usable x'.
Proof.
  intros [Hp Hfn Hu] Hf Hl. pose proof (pn_size _ _ _ _ _ Hp). destruct (part_read_ok M t p m pt from len Hp Hu) as (x' & E & Hu' & _); [lia|lia|]. exists x'. split; [|done].
  unfold MTD_READ. rewrite (bind_Ret _ _ _ _ _ (get_mtd_ok _ _ _ (pn_mtd _ _ _ _ _ Hp))), Hfn, E. by replace (Z.to_nat (Z.max 0 (Z.min len (size m - from)))) with 0%nat by lia.
Qed.
Lemma read_chunks_hang n : forall t count ppos total, Device t -> size m <= ppos -> ppos < 2 ^ 63 -> 0 < count < 2 ^ 32 -> 0 <= total < 2 ^ 32 -> memory (Z.of_nat n) t ->
  exists t', read_chunks n p count ppos total t = Stop OutOfFuel t'.
Proof.
  induction n as [|n IH]; intros t count ppos total Hd Hp Hmx Hc Ht Hmem; cbn [read_chunks]; rewrite (proj2 (Z.eqb_neq count 0)) by lia; [by eexists|].
  destruct (kmalloc_ok _ _ Hmem ltac:(lia)) as (q & l & Ek & Hq & Hmem1). rewrite (bind_Ret _ _ _ _ _ Ek), (proj2 (Z.eqb_neq q 0)) by done. set (t1 := set_free_mem l t) in *.
  destruct (read_nothing t1 ppos (if MAX_KMALLOC_SIZE <? count then MAX_KMALLOC_SIZE else count)) as (x' & E & Hu'); [by apply device_mem|done|unfold MAX_KMALLOC_SIZE; destruct (_ <? _); lia|].
  rewrite (bind_Ret _ _ _ _ _ E). cbn [Z.eqb negb length Z.of_nat]. rewrite Z.sub_0_r, !Z.add_0_r, !u32_small by (unfold is_u32; lia).
  pose proof (pn_size _ _ _ _ _ (dv_part _ Hd)). assert (s64 ppos = ppos) as -> by (unfold s64; rewrite Z.mod_small; lia).
  destruct (IH (set_dev x' t1) count ppos total) as (t2 & E2); try done; [by apply device_dev; [apply device_mem|]|by replace (Z.of_nat n) with (Z.of_nat (S n) - 1) by lia|].
  exists t2. by apply bind_Stop.
Qed.
End Char.

(** What is written through a file at any position inside the partition is read back
    from there: both calls transfer the bytes up to the end of the partition and say
    so, and no other byte of the flash changes, provided no bit has to be set. *)
Theorem file_write_read_back {X} `{MtdDriver X} (M : mtd_info) {LM : MtdLaws X M} p m pt f n buf count pos (t : MtdSt X) :
  let k := Z.min count (size m - pos) in
  private_data f = p -> Device M p m pt t -> writeable m = true -> size m < 2 ^ 31 -> 0 <= pos < size m -> 0 <= count < 2 ^ 32 -> k <= Z.of_nat (length buf) ->
  Forall is_byte buf -> (forall i b, take (Z.to_nat k) buf !! i = Some b -> Z.land (byte_at (dev t) (offset pt + (pos + Z.of_nat i))) b = b) ->
  pieces k <= Z.of_nat n -> memory (2 * pieces k) t -> exists t',
  ('(r, p1) ← mtd_write n f buf count pos; '(r', l, p2) ← mtd_read n f count pos; mret (r, p1, r', l, p2)) t = Ret (k, pos + k, k, take (Z.to_nat k) buf, pos + k) t' /\
  forall a, byte_at (dev t') a = overlay (byte_at (dev t)) (offset pt + pos) (take (Z.to_nat k) buf) a.
Proof.
  intros k Hf Hd Hw Hmx Hpos Hc Hbuf Hby Hfit Hn [Hm1 Hm2]. pose proof (dv_part _ _ _ _ _ Hd) as [Hgm _ _ _ _ _ _].
  assert (forall c, 0 <= c -> (if size m <? pos + c then u32 (size m - pos) else c) = Z.min c (size m - pos)) as Hclip.
  { intros c Hc0. destruct (Z.ltb_spec (size m) (pos + c)); [rewrite u32_small by (unfold is_u32; lia)|]; lia. }
  assert (0 <= pieces k) as Hpk by (unfold pieces, MAX_KMALLOC_SIZE; apply Z.div_pos; lia).
  destruct (write_chunks_ok M p m pt n t k pos 0 buf (pieces k)) as (t1 & E1 & M1 & Hd1 & Hb1); try done; try lia; [by split; [lia|]|].
  assert (mtd_write n f buf count pos t = Ret (k, pos + k) t1) as E1'.
  { unfold mtd_write. rewrite Hf, (bind_Ret _ _ _ _ _ (get_mtd_ok _ _ _ Hgm)), (proj2 (Z.eqb_neq pos (size m))) by lia. rewrite Hclip by lia. exact E1. }
  destruct (read_chunks_ok M p m pt n t1 k pos 0 0) as (t2 & E2 & _ & _ & Hb2); try done; try lia.
  assert (mtd_read n f count pos t1 = Ret (k, bytes_at (fun a => byte_at (dev t1) (offset pt + a)) pos (Z.to_nat k), pos + k) t2) as E2'.
  { unfold mtd_read. rewrite Hf, (bind_Ret _ _ _ _ _ (get_mtd_ok _ _ _ (pn_mtd _ _ _ _ _ (dv_part _ _ _ _ _ Hd1)))). rewrite Hclip by lia. exact E2. }
  rewrite (bind_Ret _ _ _ _ _ E1'), (bind_Ret _ _ _ _ _ E2'). exists t2. split; [|intros a; by rewrite Hb2, Hb1]. unfold mret, M_ret. do 3 f_equal.
  apply list_eq_same_length with (Z.to_nat k); [rewrite length_take; lia|by rewrite length_bytes_at|]. intros i x y Hi Hx Hy. rewrite bytes_at_lookup in Hx by done.
  injection Hx as <-. rewrite Hb1, Z.add_assoc. by apply overlay_in.
Qed.

(** C31: A file opened for reading only, through the read-only device, can erase: the
    request does not look at the mode of the file.  The blocks asked for are all ones
    afterwards and nothing else is changed. *)
Theorem erase_needs_no_permission {X} `{MtdDriver X} (M : mtd_info) {LM : MtdLaws X M} try_inc num p m pt a len (t : MtdSt X) :
  0 <= num < MAX_MTD_DEVICES -> mtd_table t !! Z.to_nat num = Some p -> p <> 0 -> Erasable M t p m pt -> usable (dev t) -> module m = 0 -> type m <> 0 -> memory 1 t ->
  (erasesize m | a) -> (erasesize m | len) -> 0 <= a < size m -> 0 <= len -> a + len <= size m -> exists t',
  ('(r, f) ← mtd_open try_inc (2 * num + 1) (mkFile 1 0 0); '(r', _) ← mtd_ioctl f (MEMERASE a len); mret (r, r')) t = Ret (0, 0) t' /\
  forall x, byte_at (dev t') x = if decide (offset pt + a <= x < offset pt + a + len) then 0xff else byte_at (dev t) x.
Proof.
  intros Hn Ht Hp He Hu Hmo Hty Hmem Ha1 Hl1 Ha Hl Hin. pose proof (er_part _ _ _ _ _ He) as Hpart. pose proof Hpart as [Hgm _ _ _ _ Hend _].
  assert (mtd_open try_inc (2 * num + 1) (mkFile 1 0 0) t = Ret (0, mkFile 1 0 p) t) as E1.
  { unfold mtd_open. rewrite Z.shiftr_div_pow2 by lia. replace ((2 * num + 1) / 2 ^ 1) with num by (apply Z.div_unique with 1; lia).
    rewrite (proj2 (Z.leb_gt _ _)) by lia. cbn [f_mode]. change (Z.land 1 2 =? 0) with true. cbn [negb andb]. rewrite (bind_Ret _ _ _ _ _ (get_mtd_device_found try_inc t num p m Hn Ht Hp Hgm Hmo)).
    rewrite (proj2 (Z.eqb_neq p 0)) by done. rewrite (bind_Ret _ _ _ _ _ (get_mtd_ok _ _ _ Hgm)), (proj2 (Z.eqb_neq _ 0)) by done. done. }
  rewrite (bind_Ret _ _ _ _ _ E1). destruct (kmalloc_ok 1 t Hmem ltac:(lia)) as (q & l & Ek & Hq & _). set (t1 := set_free_mem l t) in *.
  assert (Erasable M t1 p m pt) as He1 by (destruct He as [[] ? ? ? ? ? ?]; by split).
  destruct (part_erase_run M t1 p m pt (mkErase p a len true 0 0)) as (x' & E2 & Hu' & Hb); try done; simpl; try lia.
  { by apply He1. } { by apply He1. }
  { eapply erasable_boundary; [done|lia|lia|done]. }
  { rewrite <- Z.add_assoc. eapply erasable_boundary; [done|lia|lia|]. by apply Z.divide_add_r. }
  assert (ioctl_erase p a len t = Ret 0 (set_dev x' t1)) as E3.
  { unfold ioctl_erase. rewrite (bind_Ret _ _ _ _ _ Ek), (proj2 (Z.eqb_neq q 0)) by done. rewrite <- (mtd_erase_part t1 p m) in E2 by (done || apply He1).
    by rewrite (bind_Ret _ _ _ _ _ E2). }
  assert (mtd_ioctl (mkFile 1 0 p) (MEMERASE a len) t = Ret (0, Nothing) (set_dev x' t1)) as E4.
  { unfold mtd_ioctl. rewrite (bind_Ret _ _ _ _ _ (get_mtd_ok _ _ _ Hgm)). by rewrite (bind_Ret _ _ _ _ _ E3). }
  rewrite (bind_Ret _ _ _ _ _ E4). exists (set_dev x' t1). by split.
Qed.

(** A read that begins behind the end of the device, as [pread] can ask for, does not
    return: whatever number of turns there is memory for, the loop has not ended, as
    the count wraps and every turn reads nothing. *)
Theorem read_past_end_hangs {X} `{MtdDriver X} (M : mtd_info) {LM : MtdLaws X M} p m pt f n count pos (t : MtdSt X) :
  private_data f = p -> Device M p m pt t -> size m < pos < size m + 2 ^ 32 -> 0 <= count < 2 ^ 32 -> memory (Z.of_nat n) t -> exists t',
  mtd_read n f count pos t = Stop OutOfFuel t'.
Proof.
  intros Hf Hd Hpos Hc Hmem. pose proof (dv_part _ _ _ _ _ Hd) as [Hgm _ _ Hlo Hsz Hend Hmax]. unfold mtd_read. rewrite Hf, (bind_Ret _ _ _ _ _ (get_mtd_ok _ _ _ Hgm)).
  rewrite (proj2 (Z.ltb_lt _ _)) by lia. apply (read_chunks_hang M p m pt); try done; try lia.
  unfold u32. pose proof (Z.mod_pos_bound (size m - pos) (2 ^ 32) ltac:(lia)). assert ((size m - pos) mod 2 ^ 32 = size m - pos + 2 ^ 32) as ->; [|lia].
  symmetry. apply Z.mod_unique with (-1); lia.
Qed.

(** ** On the chip *)

Import Am29 Demo.

Definition t3 : MtdSt (CfiSt SimFlash) := set_free_mem [0x600; 0x700] t2.
Lemma device_t3 : Device device 0x200 settings pt t3.
Proof. split; [by split|done|by exists f0, 0]. Qed.
Lemma memory_t3 : memory 2 t3.
Proof. split; [simpl; lia|by repeat constructor]. Qed.
Lemma fits_t3 : forall i b, [1; 2; 3; 4] !! i = Some b -> Z.land (byte_at (dev t3) (0x8000 + (0x101 + Z.of_nat i))) b = b.
Proof. intros [|[|[|[|i]]]] b Hb; simpl in Hb; simplify_eq; reflexivity. Qed.

Lemma file_write_read_back_witness : exists t',
  ('(r, p1) ← mtd_write 1 (mkFile 3 0 0x200) [1; 2; 3; 4] 4 0x101; '(r', l, p2) ← mtd_read 1 (mkFile 3 0 0x200) 4 0x101; mret (r, p1, r', l, p2)) t3 =
    Ret (4, 0x105, 4, [1; 2; 3; 4], 0x105) t'.
Proof.
  destruct (file_write_read_back device 0x200 settings pt (mkFile 3 0 0x200) 1 [1; 2; 3; 4] 4 0x101 t3) as (t' & E & _);
    [reflexivity|apply device_t3|by vm_compute|done|done|done|done|compute_done|apply fits_t3|done|apply memory_t3|].
  exists t'. exact E.
Defined.

Lemma erase_needs_no_permission_witness : exists t',
  ('(r, f) ← mtd_open (fun _ => false) 3 (mkFile 1 0 0); '(r', _) ← mtd_ioctl f (MEMERASE 0 0x8000); mret (r, r')) t2 = Ret (0, 0) t' /\
  byte_at (dev t') 0x8000 = 0xff.
Proof.
  destruct (erase_needs_no_permission device (fun _ => false) 1 0x200 settings pt 0 0x8000 t2) as (t' & E & V);
    [done|done|done|apply erasable_settings|by exists f0, 0|done|done|split; [simpl; lia|by repeat constructor]|apply Z.divide_0_r|by exists 1|done|done|done|].
  exists t'. split; [exact E|]. by rewrite V.
Defined.

Lemma read_past_end_hangs_witness : exists t', mtd_read 2 (mkFile 1 0 0x200) 16 0x8001 t3 = Stop OutOfFuel t'.
Proof. apply (read_past_end_hangs device 0x200 settings pt (mkFile 1 0 0x200) 2 16 0x8001 t3); [reflexivity|apply device_t3|done|done|apply memory_t3]. Defined.
